(* ===== verification/_CoqProject ===== *)
-Q . S2P
Prelude.v
RustStr.v
Utf8.v
Cidr.v
StdNet.v
IpNet.v
Ip6Net.v
Lease.v
WatchLoop.v
Config.v
Anyhow.v
SubnetEnv.v
AtomicFile.v
UdpProxy.v
Vici.v
Flags.v
KubeNode.v
KubeClient.v
EventQueue.v
Informer.v
KubeAcquire.v
EventHub.v
RouteNetwork.v
VxlanConf.v
Vxlan.v
IptRules.v
Iptables.v
IptTools.v
IptSetup.v
Nftables.v
Genl.v
UdpSend.v
WgKernel.v
Iface.v
Wireguard.v
IpMatch.v
Cni.v
Xfrm.v
Backend.v
Ipsec.v
CharonProc.v
Links.v
Ipip.v
VxlanDevice.v
WgDevice.v
RouteRun.v
Cluster.v
WgRun.v
UdpNetwork.v
ShellExpand.v
Extension.v
KubeConf.v
KubeStatus.v
KubeManager.v
Tencent.v
Options.v
Registry.v
Daemon.v
