(* ===== verification/Prelude.v ===== *)
(** * flannel-rust: a verification development

    flannel-rust is a Rust port of flannel, the overlay network of Kubernetes
    clusters.  The daemon (flanneld) obtains a subnet for its node from the
    subnet manager, announces it as annotations of the node, learns the
    subnets of the other nodes as lease events, and a backend turns these
    events into routes, tunnels or forwarding entries; the CNI plugin later
    reads the file in which the daemon leaves its subnet.  This library models
    the program from the command line of the daemon to the requests it makes
    of the kernel and of other programs, and proves that its parts do what they
    are meant to do.  Paths below are relative to crates/flannel-core/src
    unless they start with crates/.

    ** How the parts interact

    Daemon runs the start-up: it reads the options (Flags, Options), makes the
    Kubernetes client and subnet manager (KubeConf, KubeClient, KubeStatus),
    selects the external interface (IpMatch, Iface), creates the backend by
    name (Registry), sets the masquerade and forward rules up (Iptables or
    Nftables), and writes subnet.env (SubnetEnv, AtomicFile).  The Kubernetes
    informer (Informer) turns API server answers into lease events of nodes
    (KubeNode), which pass through a bounded queue with retries (EventQueue)
    and a fan-out (EventHub) to the lease watches.  The watch loop (WatchLoop)
    keeps a LeaseWatcher (Lease), which filters out the own lease and hands
    batches of events to the network of a backend: RouteNetwork for host-gw and
    ipip, Vxlan, Wireguard, Ipsec, UdpNetwork with the proxy of UdpProxy,
    Extension; alloc and Tencent only need the own lease.  The own lease comes
    from KubeAcquire, under the network configuration (Config); KubeManager is
    the manager as the backends call it.  Cluster joins the parts between the
    API server and the kernel of a peer in one execution.  The CNI plugin
    (Cni) reads subnet.env and delegates.  Addresses and networks (IpNet,
    Ip6Net) are used by all of them.

    ** The files

    The language and its libraries:
    - Prelude (this file): results and their bind, fallible code over a state,
      machine integers, byte arrays, searching and slicing lists, tactics and
      hint databases.
    - RustStr, Utf8, StdNet, Anyhow: what the source uses of the Rust standard
      library (text, integer parsing, UTF-8, the textual forms of std::net
      addresses), of anyhow::Error and of serde_json::Map.
    - Cidr: networks as aligned blocks of addresses at any width; the class
      CidrNet is the interface through which IPv4 and IPv6 networks get the
      theorems on inclusion and overlap.

    Data and configuration:
    - IpNet, Ip6Net: ip/ipnet.rs and ip/ip6net.rs, operation by operation; an
      IPv4 address is a 32-bit value, an IPv6 address its 16 bytes.
    - Lease: lease/mod.rs, the LeaseWatcher over its vector of leases, with a
      finite map as specification.
    - WatchLoop: subnet/watch.rs, the long-running watches with their retry
      delay; one branch of the select! is one input of a state machine.
    - Config: subnet/config.rs, decoding net-conf.json (over SerdeJson) and
      check_network_config, which mutates as it checks.
    - SubnetEnv: subnet/writefile.rs, crates/flanneld/src/subnetfile.rs and
      crates/flannel-cni/src/netconf.rs, the writer of subnet.env and both
      readers; AtomicFile: utils.rs, files written and copied through a
      temporary file, over FsOps with FsLaws.
    - Flags, Options: flags.rs with its usage text, and the options of
      crates/flanneld/src/flags_defs.rs and main.rs.

    Kubernetes subnet manager:
    - KubeNode: kube/types.rs, subnet/kube/annotations.rs and the pure part of
      subnet/kube/events.rs.
    - KubeConf, KubeClient: kube/config.rs, kube/client.rs and kube/watch.rs,
      over Host, KubeYaml, UrlParser, HttpLib and ApiServer.
    - EventQueue, Informer, KubeAcquire, EventHub: events.rs, informer.rs,
      acquire.rs, mod.rs and watch_ops.rs of subnet/kube, as state machines.
    - KubeStatus: the start-up of subnet/kube/mod.rs and the node condition of
      status.rs with its time stamp.
    - KubeManager: impl Manager for KubeSubnetManager (subnet/kube/mod.rs), an
      instance of SubnetManager over ApiServer, FsOps and ManagerHost
      (ManagerClock, OwnNode); LeaseAnnouncer is what it promises a backend.

    Kernel access:
    - Iface, IpMatch: ip/iface, ipmatch/mod.rs and crates/flanneld/src/
      iface_select.rs, over NlKernel with NlLaws and RegexEngine.
    - Links: link messages and requests (backend/vxlan/link_info.rs and the
      helpers of ipip.rs), over LinkKernel with LinkLaws.
    - Genl, WgKernel: the generic netlink client of the WireGuard backend and
      its device configuration, over GenlKernel with WgKernelLaws.
    - Xfrm: backend/ipsec/xfrm.rs, policies over netlink, with XfrmLaws.

    Backends:
    - Backend: backend/traits.rs, alloc.rs, hostgw.rs and what the backends
      share; the class SubnetManager is the manager as they see it.
    - RouteNetwork: backend/route_network.rs, over RouteKernel with
      RouteKernelLaws; RouteRun: its two tasks, interleaved; Ipip:
      backend/ipip.rs.
    - Cluster: the composition of Informer, EventQueue, EventHub, WatchLoop,
      Lease and RouteNetwork.
    - VxlanConf, Vxlan, VxlanDevice: backend/vxlan: configuration and
      announcement, lease events (VxlanKernel, VxlanKernelLaws), device,
      registration and the re-creation of a lost device (VxlanSystem).
    - Wireguard, WgDevice, WgRun: backend/wireguard: events and configuration
      (WgSystem, WgCrypto, WgJson with their laws), keys and device (WgFiles),
      the run loop and the removal of the devices.
    - Vici, Ipsec, CharonProc: backend/ipsec: the VICI codec, charon and the
      network (CharonSystem, CharonLaws, IpsecLaws), charon's process
      (ProcessOps, ProcessLaws).
    - UdpProxy, UdpSend, UdpNetwork: backend/udp and ip/tun.rs: the packet
      proxy, the calls that send its packets, and the network that commands it
      (UdpSystem, UdpLaws).
    - ShellExpand, Extension: backend/extension: the expansion of command
      lines, registration and events (ProcSystem, ProcLaws).
    - Tencent: backend/tencentvpc: metadata, signed API client, routes (VpcNet,
      Digests, UrlHost, VpcLaws).
    - Registry: backend/manager.rs and mod.rs, trafficmngr/mod.rs.

    Traffic rules, CNI, daemon:
    - IptRules, Iptables, IptTools, IptSetup: iptables_rules.rs, ip_tables.rs,
      iptables_restore.rs, ipt.rs and iptables.rs of trafficmngr: the rules, the
      wrapper of the iptables programs, their laws (IptSystem, IptLaws) and the
      manager; Nftables: nft.rs, nftables.rs and nftables_masq.rs (NftLaws).
    - Cni: crates/flannel-cni: the delegate configuration, the three commands
      and the masquerade rules of a pod (CniSystem, CniJson, CniLaws).
    - Daemon: crates/flanneld: daemon.rs, subnet_mgr.rs, healthz.rs, systemd.rs
      (DaemonSystem, DaemonLaws), with tasks and their order as a trace.

    ** What the theorems show

    - The whole chain: a node that registers with host-gw is read by its peers
      as a lease whose route leads to it, however stale the versions of the
      node that it saw (KubeManager), and once all events have arrived the
      kernel of a peer has exactly the routes of the nodes in its informer
      store (Cluster: steady sessions, pod CIDRs that belong to one node for
      good, queues that are never full); the task that handles the events and
      the periodic check do not disturb each other, interleaved at every await,
      as long as a subnet keeps its gateway (RouteRun).
    - Networks: parsing gives valid masked networks and is inverted by
      printing; contains, overlaps and contains_cidr decide membership,
      intersection and inclusion of address sets; next is the adjacent network.
    - Leases: the LeaseWatcher implements a map from subnets to leases, a reset
      emits exactly the difference to the snapshot, the watch loop delivers
      what one watcher derives from all results across failed sessions.
    - Configuration and subnet.env: an accepted configuration has usable and
      aligned bounds, checking is idempotent, what the daemon writes both
      readers read back, and a file is written whole or not at all.
    - Kubernetes manager: node_to_lease is characterised exactly; over any
      session of lists, watch frames, failures and relists in which the nodes
      change steadily (Informer states what that means) the emitted events keep
      a consumer at the leases of the stored nodes; the queue and the hub
      neither lose nor duplicate events, and every fair schedule empties the
      queue; the annotations
      that acquiring a lease writes are read back by the other nodes as the
      same lease; the watch decoder does not depend on chunk boundaries; time
      stamps are those of the calendar.
    - Events of the backends: after any events the routes (RouteNetwork), the
      neighbour, forwarding and route entries (Vxlan), the peers (Wireguard),
      the policies (Ipsec; the connections of charon are followed too), the
      table of the proxy and where it sends packets (UdpNetwork), the commands
      that were run (Extension) are those of the leases that are left; what
      fails half way is rolled back where the code does so.
    - Devices: a VXLAN or ipip device is as configured afterwards, whatever
      there was; an address is the only one of its link in its network, when
      the link has primary addresses only; a WireGuard configuration is carried
      out whole when the kernel says so; WireGuard keys survive a restart; a
      VPC keeps the enabled routes of the node, or gets one.
    - Messages: VICI, WireGuard netlink and XFRM messages round trip, decoding
      ends on every input; the expansion loop is a left-to-right replacement.
    - Traffic rules: the rule lists decide every packet, as documented but for
      the exceptions that are theorems too, and a set-up ends with these rules
      in the kernel, behind the rules of others that were there.
    - CNI: the delegate gets the subnet of subnet.env; masquerade rules are
      added once and removed tolerantly.
    - Daemon: no command line panics; it announces that it is ready only after
      everything is in place; however it ends, every task whose handle it has
      was awaited, and the tasks left are those that are spawned without one.
    Theorems named in the findings of the manifest show where the code departs
    from its documentation or from its purpose.

    ** Conventions and bounds

    Fallible code returns result, or option where Rust panics; fallible code
    with effects is io over the state of the system.  Asynchronous loops are
    state machines or functions over the list of what their await points
    yield.  External code is an argument or a class, and what is relied on is
    a class of laws with an instance that a witness runs.  Loops over text and
    bytes recurse on the data; where they do not, the fuel is the length of
    the input (VICI decoding, expansion: length plus one, shown to be enough),
    the number of bits of a number (digits), the number of datagrams of an
    answer (Genl, Xfrm), or the number of rounds that a wait is given (charon's
    start, the re-creation of a device, get_config), with theorems that say
    which number is enough.  Constants of the code are kept: eight rounds of
    checksum folding, 10 attempts of a VXLAN request, 1600 allowed IPs and
    65532 bytes of a netlink attribute, 8 short replies, 600 rounds of the
    first sync, 1000 names of a temporary file.  Text is bytes; whitespace
    and letter case are those of ASCII except in ShellExpand.

    ** Not modelled

    Logging; the transports below the interfaces (netlink sockets, HTTP, TLS,
    processes); the route tests in network namespaces, the mock API server and
    the end-to-end harness, which are test code; the axum server around the two
    health handlers; the display of routes and configurations, which only the
    log uses; endian.rs, which is empty.  The composition of Cluster is for an IPv4 cluster of the
    host-gw backend whose queues are never full: a full queue may change the
    order of events (EventQueue.event_queue_reorders).  In RouteRun a
    dump of the table is one turn.  The trace of Daemon has the tasks of the
    daemon and those that its calls spawn without a handle; the tasks that run
    inside a backend, and the connection tasks of rtnetlink, are not in it. *)

From Stdlib Require Export ZArith Lia Ascii.
From stdpp Require Export base tactics list strings gmap numbers.

#[global] Open Scope Z_scope.

(** ** Fallible code

    Rust's [Result<T, E>]: [Ok] and [Err], with [?] written as a bind. *)

Inductive result (T E : Type) : Type :=
| Ok (v : T)
| Err (e : E).
Arguments Ok {T E} v.
Arguments Err {T E} e.

Definition rbind {T U E} (r : result T E) (k : T -> result U E) : result U E :=
  match r with Ok v => k v | Err e => Err e end.

Definition map_err {T E F} (f : E -> F) (r : result T E) : result T F :=
  match r with Ok v => Ok v | Err e => Err (f e) end.

Definition ok_or {T E} (o : option T) (e : E) : result T E :=
  match o with Some v => Ok v | None => Err e end.

Definition is_ok {T E} (r : result T E) : bool :=
  match r with Ok _ => true | Err _ => false end.

Definition result_ok {T E} (r : result T E) : option T :=
  match r with Ok v => Some v | Err _ => None end.

Definition is_some {A} (o : option A) : bool :=
  match o with Some _ => true | None => false end.

Declare Scope flannel_scope.
Delimit Scope flannel_scope with flannel.
Notation "'let?' x ':=' r 'in' k" := (rbind r (fun x => k))
  (at level 10, x pattern, r at level 100, k at level 200) : flannel_scope.
#[global] Open Scope flannel_scope.

(** Fallible code that also changes a state [K] (the kernel, files, remote
    services): [let! x := m in k] is [let x = m.await?; k], [try m] is
    [match m.await] without the [?]. *)

Definition io (K E A : Type) : Type := K -> K * result A E.

Definition io_ret {K E A} (a : A) : io K E A := fun k => (k, Ok a).
Definition io_err {K E A} (e : E) : io K E A := fun k => (k, Err e).
Definition io_bind {K E A B} (m : io K E A) (f : A -> io K E B) : io K E B :=
  fun k => match m k with (k, Ok a) => f a k | (k, Err e) => (k, Err e) end.
Definition io_map_err {K E F A} (f : E -> F) (m : io K E A) : io K F A :=
  fun k => match m k with (k, r) => (k, map_err f r) end.
Definition io_try {K E F A} (m : io K E A) : io K F (result A E) :=
  fun k => match m k with (k, r) => (k, Ok r) end.
Definition io_lift {K E A} (r : result A E) : io K E A := fun k => (k, r).
Definition io_get {K E} : io K E K := fun k => (k, Ok k).

Notation "'let!' x ':=' m 'in' k" := (io_bind m (fun x => k))
  (at level 10, x pattern, m at level 100, k at level 200) : flannel_scope.

(** A step keeps the value of [f], an observation of the state. *)
Definition keeps {K E A V} (f : K -> V) (m : io K E A) : Prop := forall k, f (m k).1 = f k.

Lemma keeps_ret {K E A V} (f : K -> V) (a : A) : keeps f (io_ret (E := E) a).
Proof. done. Qed.
Lemma keeps_err {K E A V} (f : K -> V) (e : E) : keeps f (io_err (A := A) e).
Proof. done. Qed.
Lemma keeps_lift {K E A V} (f : K -> V) (r : result A E) : keeps f (io_lift r).
Proof. done. Qed.
Lemma keeps_get {K E V} (f : K -> V) : keeps f (io_get (E := E)).
Proof. done. Qed.
Lemma keeps_bind {K E A B V} (f : K -> V) (m : io K E A) (g : A -> io K E B) :
  keeps f m -> (forall a, keeps f (g a)) -> keeps f (io_bind m g).
Proof.
  intros Hm Hg k. unfold io_bind. specialize (Hm k). destruct (m k) as [k1 [a|e]]; cbn in *; [|done].
  by rewrite Hg.
Qed.
Lemma keeps_map_err {K E F A V} (f : K -> V) (g : E -> F) (m : io K E A) : keeps f m -> keeps f (io_map_err g m).
Proof. intros Hm k. unfold io_map_err. specialize (Hm k). by destruct (m k). Qed.
Lemma keeps_try {K E F A V} (f : K -> V) (m : io K E A) : keeps f m -> keeps f (io_try (F := F) m).
Proof. intros Hm k. unfold io_try. specialize (Hm k). by destruct (m k). Qed.

Create HintDb keeps.
#[global] Hint Resolve keeps_ret keeps_err keeps_lift keeps_get keeps_bind keeps_map_err keeps_try : keeps.

#[global] Instance result_eq_dec {T E} `{!EqDecision T, !EqDecision E} :
  EqDecision (result T E).
Proof. solve_decision. Defined.

(** ** Machine integers

    A [w]-bit unsigned integer is a [Z]; [wrap w] is the wrap-around that
    [wrapping_add], [as u32] and the like perform. *)

Definition wrap (w z : Z) : Z := z mod 2 ^ w.
Definition in_width (w z : Z) : Prop := 0 <= z < 2 ^ w.
Abbreviation u8 := (in_width 8).
Abbreviation u16 := (in_width 16).
Abbreviation u32 := (in_width 32).
Abbreviation u64 := (in_width 64).
Abbreviation u128 := (in_width 128).

#[global] Instance in_width_dec w z : Decision (in_width w z).
Proof. unfold in_width. apply _. Defined.

Definition u32_MAX : Z := 2 ^ 32 - 1.
Definition u128_MAX : Z := 2 ^ 128 - 1.

(** ** Byte arrays

    A byte is a [Z] below 256.  [from_le]/[to_le] are Rust's
    [from_le_bytes]/[to_le_bytes] at any width, the [be] variants the
    big-endian ones. *)

Definition is_byte (b : Z) : Prop := 0 <= b < 256.
Abbreviation bytes := (list Z).

#[global] Instance is_byte_dec b : Decision (is_byte b).
Proof. unfold is_byte. apply _. Defined.

Fixpoint from_le (bs : bytes) : Z :=
  match bs with
  | [] => 0
  | b :: bs => b + 256 * from_le bs
  end.

Fixpoint to_le (n : nat) (v : Z) : bytes :=
  match n with
  | O => []
  | S n => v mod 256 :: to_le n (v / 256)
  end.

Definition from_be (bs : bytes) : Z := from_le (rev bs).
Definition to_be (n : nat) (v : Z) : bytes := rev (to_le n v).

(** [bytes[a..b]] where it is known to be in range. *)
Definition slice {A} (a b : nat) (l : list A) : list A := take (b - a) (drop a l).

(** [iter().position(p)] *)
Fixpoint position {A} (p : A -> bool) (l : list A) : option nat :=
  match l with
  | [] => None
  | x :: l => if p x then Some O else option_map S (position p l)
  end.

(** [bytes.get(a..a + n)]. *)
Definition get_range {A} (a n : nat) (l : list A) : option (list A) :=
  if decide (a + n <= length l)%nat then Some (take n (drop a l)) else None.

(** [dst[a..a + src.len()].copy_from_slice(src)]. *)
Definition splice {A} (a : nat) (src dst : list A) : list A :=
  take a dst ++ src ++ drop (a + length src) dst.

(** ** Automation *)

Create HintDb flannel.
Create HintDb width.
Create Rewrite HintDb flannel_rw.

(** Split one [match] or [if] of the goal or of a hypothesis, keeping the
    equation. *)
Ltac split_match :=
  match goal with
  | |- context [match ?x with _ => _ end] => destruct x eqn:?
  | H : context [match ?x with _ => _ end] |- _ => destruct x eqn:?
  end.

(** Case analysis over nested fallible code: every [let?] and every guard. *)
Ltac crush_result :=
  repeat (unfold rbind, map_err, ok_or in *; simplify_eq/=; try split_match);
  simplify_eq/=; try done.

(** Turn boolean tests of the code into propositions. *)
Ltac bool_to_prop :=
  repeat match goal with
  | H : (_ && _)%bool = true |- _ => apply andb_true_iff in H as [? ?]
  | H : (_ && _)%bool = false |- _ => apply andb_false_iff in H
  | H : (_ || _)%bool = false |- _ => apply orb_false_iff in H as [? ?]
  | H : (_ || _)%bool = true |- _ => apply orb_true_iff in H
  | H : negb _ = true |- _ => apply negb_true_iff in H
  | H : negb _ = false |- _ => apply negb_false_iff in H
  | H : (_ =? _)%Z = true |- _ => apply Z.eqb_eq in H
  | H : (_ =? _)%Z = false |- _ => apply Z.eqb_neq in H
  | H : (_ <? _)%Z = true |- _ => apply Z.ltb_lt in H
  | H : (_ <? _)%Z = false |- _ => apply Z.ltb_ge in H
  | H : (_ <=? _)%Z = true |- _ => apply Z.leb_le in H
  | H : (_ <=? _)%Z = false |- _ => apply Z.leb_gt in H
  | H : bool_decide _ = true |- _ => apply bool_decide_eq_true in H
  | H : bool_decide _ = false |- _ => apply bool_decide_eq_false in H
  end.

(** ** Shared lemmas: widths *)

Lemma wrap_in_width w z : 0 <= w -> in_width w (wrap w z).
Proof. intros. unfold in_width, wrap. apply Z.mod_pos_bound. lia. Qed.

Lemma wrap_small w z : in_width w z -> wrap w z = z.
Proof. apply Z.mod_small. Qed.

Lemma wrap_wrap w z : wrap w (wrap w z) = wrap w z.
Proof.
  unfold wrap. destruct (decide (0 <= w)).
  - apply Z.mod_mod. lia.
  - rewrite Z.pow_neg_r by lia. by rewrite !Z.mod_0_r.
Qed.

Lemma in_width_mono w w' z : 0 <= w <= w' -> in_width w z -> in_width w' z.
Proof.
  unfold in_width. intros ? [? ?]. split; [done|].
  pose proof (Z.pow_le_mono_r 2 w w'). lia.
Qed.

#[export] Hint Resolve wrap_in_width : width.

(** ** Shared lemmas: bytes *)

Lemma length_to_le n v : length (to_le n v) = n.
Proof. revert v. induction n; intros; simpl; auto. Qed.

Lemma length_to_be n v : length (to_be n v) = n.
Proof. unfold to_be. by rewrite length_rev, length_to_le. Qed.

Lemma to_le_bytes n v : Forall is_byte (to_le n v).
Proof.
  revert v. induction n; intros; simpl; constructor; auto.
  unfold is_byte. apply Z.mod_pos_bound. lia.
Qed.

Lemma to_be_bytes n v : Forall is_byte (to_be n v).
Proof. unfold to_be. apply Forall_rev, to_le_bytes. Qed.

Lemma pow256_succ (n : nat) : 256 ^ Z.of_nat (S n) = 256 * 256 ^ Z.of_nat n.
Proof. rewrite Nat2Z.inj_succ, Z.pow_succ_r; lia. Qed.

Lemma from_le_bound bs :
  Forall is_byte bs -> 0 <= from_le bs < 256 ^ Z.of_nat (length bs).
Proof.
  induction 1 as [|b bs Hb _ IH]; cbn [from_le length]; [simpl; lia|].
  rewrite pow256_succ. unfold is_byte in Hb. lia.
Qed.

Lemma from_le_to_le n v : from_le (to_le n v) = v mod 256 ^ Z.of_nat n.
Proof.
  revert v. induction n as [|n IH]; intros v; cbn [to_le from_le].
  - by rewrite Z.mod_1_r.
  - rewrite IH, pow256_succ, Z.rem_mul_r by lia. lia.
Qed.

Lemma to_le_from_le bs :
  Forall is_byte bs -> to_le (length bs) (from_le bs) = bs.
Proof.
  induction 1 as [|b bs Hb _ IH]; cbn [from_le length to_le]; [done|].
  unfold is_byte in Hb. f_equal.
  - rewrite Z.mul_comm, Z_mod_plus_full. apply Z.mod_small. lia.
  - rewrite Z.mul_comm, Z.div_add, Z.div_small by lia. exact IH.
Qed.

Lemma from_be_to_be n v : from_be (to_be n v) = v mod 256 ^ Z.of_nat n.
Proof. unfold from_be, to_be. rewrite rev_involutive. apply from_le_to_le. Qed.

Lemma to_be_from_be bs :
  Forall is_byte bs -> to_be (length bs) (from_be bs) = bs.
Proof.
  intros H. unfold from_be, to_be. rewrite <- (length_rev bs), to_le_from_le.
  - apply rev_involutive.
  - by apply Forall_rev.
Qed.

Lemma from_be_bound bs :
  Forall is_byte bs -> 0 <= from_be bs < 256 ^ Z.of_nat (length bs).
Proof.
  intros H. unfold from_be. rewrite <- (length_rev bs).
  apply from_le_bound. by apply Forall_rev.
Qed.

Lemma from_le_app xs ys :
  from_le (xs ++ ys) = from_le xs + 256 ^ Z.of_nat (length xs) * from_le ys.
Proof.
  induction xs as [|x xs IH]; cbn [from_le length app]; [simpl; lia|].
  rewrite pow256_succ, IH. lia.
Qed.

Lemma from_be_inj xs ys :
  Forall is_byte xs -> Forall is_byte ys -> length xs = length ys ->
  from_be xs = from_be ys -> xs = ys.
Proof.
  intros Hx Hy Hl He.
  rewrite <- (to_be_from_be xs), <- (to_be_from_be ys) by done. congruence.
Qed.

#[export] Hint Resolve to_le_bytes to_be_bytes : flannel.
#[export] Hint Rewrite length_to_le length_to_be : flannel_rw.

(** ** Shared lemmas: searching *)

(** A claim about an initial range of integers, by evaluation *)
Lemma range_forall (P : Z -> bool) n :
  forallb P (map Z.of_nat (seq 0 n)) = true -> forall x, 0 <= x < Z.of_nat n -> P x = true.
Proof.
  intros HP x Hx. rewrite forallb_forall in HP. apply HP, in_map_iff. exists (Z.to_nat x).
  split; [lia|]. apply in_seq. lia.
Qed.

Lemma position_Some {A} (p : A -> bool) l i :
  position p l = Some i -> exists x, l !! i = Some x /\ p x = true.
Proof.
  revert i. induction l as [|x l IH]; intros i H; cbn in H; [done|].
  destruct (p x) eqn:E; [simplify_eq; cbn; eauto|].
  destruct (position p l) as [j|]; [|done]. simplify_eq/=. by apply IH.
Qed.

Lemma position_None {A} (p : A -> bool) l :
  position p l = None <-> forall x, x ∈ l -> p x = false.
Proof.
  induction l as [|x l IH]; cbn; [split; [intros _ ? []%elem_of_nil|done]|].
  destruct (p x) eqn:E.
  - split; [done|]. intros H. specialize (H x ltac:(by left)). congruence.
  - destruct (position p l); cbn.
    + split; [done|]. intros H. discriminate (proj2 IH). intros y Hy. apply H. by right.
    + split; [|done]. intros _ y [->|Hy]%elem_of_cons; [done|]. by apply IH.
Qed.
