(* ===== verification/RustStr.v ===== *)
(** * Text: the parts of Rust's [str], [char] and integer formatting the code uses

    A Rust [&str] is its UTF-8 bytes, a [string] here.  Every character the
    code compares against is ASCII, so byte-wise processing agrees with
    Rust's; [trim] removes ASCII white space (the code only trims lines it
    or flanneld wrote).  The integer printers and parsers follow
    [core::num] ([from_str_radix], [Display], [LowerHex]). *)

From S2P Require Import Prelude.
#[local] Open Scope string_scope.
#[local] Open Scope list_scope.
#[local] Open Scope Z_scope.

Definition chr (n : nat) : ascii := ascii_of_nat n.
Definition ord (c : ascii) : Z := Z.of_nat (nat_of_ascii c).

Definition NL : ascii := chr 10.
Definition CR : ascii := chr 13.

(** [s.is_empty()] *)
Definition str_is_empty (s : string) : bool := String.eqb s "".

(** [s.contains(c)] *)
Fixpoint str_contains (c : ascii) (s : string) : bool :=
  match s with
  | "" => false
  | String a s => Ascii.eqb a c || str_contains c s
  end.

(** [s.matches(c).count()] *)
Fixpoint str_count (c : ascii) (s : string) : nat :=
  match s with
  | "" => 0
  | String a s => (if Ascii.eqb a c then 1 else 0) + str_count c s
  end%nat.

(** [s.starts_with(c)], [s.ends_with(c)] *)
Definition str_starts_with (c : ascii) (s : string) : bool :=
  match s with "" => false | String a _ => Ascii.eqb a c end.

Fixpoint str_ends_with (c : ascii) (s : string) : bool :=
  match s with
  | "" => false
  | String a "" => Ascii.eqb a c
  | String _ s => str_ends_with c s
  end.

(** [s.split_once(c)]: around the first [c]. *)
Fixpoint split_once (c : ascii) (s : string) : option (string * string) :=
  match s with
  | "" => None
  | String a s =>
      if Ascii.eqb a c then Some ("", s)
      else match split_once c s with
           | Some (x, y) => Some (String a x, y)
           | None => None
           end
  end.

(** [s.rsplit_once(c)]: around the last [c]. *)
Fixpoint rsplit_once (c : ascii) (s : string) : option (string * string) :=
  match s with
  | "" => None
  | String a s' =>
      match rsplit_once c s' with
      | Some (x, y) => Some (String a x, y)
      | None => if Ascii.eqb a c then Some ("", s') else None
      end
  end.

(** [s.split(c)]: never empty. *)
Fixpoint str_split (c : ascii) (s : string) : list string :=
  match s with
  | "" => [""]
  | String a s =>
      if Ascii.eqb a c then "" :: str_split c s
      else match str_split c s with
           | [] => [String a ""]
           | x :: xs => String a x :: xs
           end
  end.

(** [parts.join(sep)] *)
Fixpoint str_join (sep : string) (parts : list string) : string :=
  match parts with
  | [] => ""
  | [p] => p
  | p :: ps => p +:+ sep +:+ str_join sep ps
  end.

(** [s.lines()]: pieces ended by a line feed, each without its line end
    ([\n] or [\r\n]); an unterminated last piece is kept as it is. *)
Fixpoint strip_cr (s : string) : string :=
  match s with
  | "" => ""
  | String a "" => if Ascii.eqb a CR then "" else s
  | String a s => String a (strip_cr s)
  end.

Fixpoint lines_of (pieces : list string) : list string :=
  match pieces with
  | [] => []
  | [p] => if str_is_empty p then [] else [p]
  | p :: ps => strip_cr p :: lines_of ps
  end.

Definition str_lines (s : string) : list string := lines_of (str_split NL s).

(** [s.trim()] *)
Definition is_space (c : ascii) : bool :=
  let n := nat_of_ascii c in
  ((9 <=? n) && (n <=? 13) || (n =? 32))%nat.

Fixpoint trim_start (s : string) : string :=
  match s with
  | "" => ""
  | String a s' => if is_space a then trim_start s' else s
  end.

Fixpoint trim_end (s : string) : string :=
  match s with
  | "" => ""
  | String a s =>
      match trim_end s with
      | "" => if is_space a then "" else String a ""
      | t => String a t
      end
  end.

Definition str_trim (s : string) : string := trim_end (trim_start s).

(** [trim_end_matches('/')] *)
Fixpoint trim_end_slashes (s : string) : string :=
  match s with
  | EmptyString => EmptyString
  | String c s =>
      match trim_end_slashes s with
      | EmptyString => if Ascii.eqb c "/" then EmptyString else String c EmptyString
      | t => String c t
      end
  end.

(** [c.to_ascii_lowercase()], [a.eq_ignore_ascii_case(b)] *)
Definition ascii_lower (c : ascii) : ascii :=
  let n := nat_of_ascii c in
  if ((65 <=? n) && (n <=? 90))%nat then ascii_of_nat (n + 32) else c.

Definition ascii_upper (c : ascii) : ascii :=
  let n := nat_of_ascii c in
  if ((97 <=? n) && (n <=? 122))%nat then ascii_of_nat (n - 32) else c.

Fixpoint str_map (f : ascii -> ascii) (s : string) : string :=
  match s with
  | "" => ""
  | String a s => String (f a) (str_map f s)
  end.

Definition to_ascii_lowercase : string -> string := str_map ascii_lower.
Definition to_ascii_uppercase : string -> string := str_map ascii_upper.

Definition eq_ignore_ascii_case (a b : string) : bool :=
  String.eqb (to_ascii_lowercase a) (to_ascii_lowercase b).

(** [format!("{c:?}")] of printable text *)
Fixpoint escape_debug (s : string) : string :=
  match s with
  | "" => ""
  | String a s =>
      if Ascii.eqb a (chr 34) || Ascii.eqb a (chr 92) then String (chr 92) (String a (escape_debug s))
      else String a (escape_debug s)
  end.

Definition debug_str (s : string) : string := String (chr 34) "" +:+ escape_debug s +:+ String (chr 34) "".

(** ** Integers as text *)

(** [char::from_digit] (lower case) and [char::to_digit]. *)
Definition from_digit (d : Z) : ascii :=
  ascii_of_nat (Z.to_nat (if d <? 10 then 48 + d else 87 + d)).

Definition to_digit (radix : Z) (c : ascii) : option Z :=
  let n := ord c in
  let d := if (48 <=? n) && (n <=? 57) then n - 48
           else if (97 <=? n) && (n <=? 122) then n - 87
           else if (65 <=? n) && (n <=? 90) then n - 55
           else 1000 in
  if d <? radix then Some d else None.

(** Digits of [n], least significant first; [S (log2 n)] steps are enough
    for every radix of at least 2. *)
Fixpoint digits_le (fuel : nat) (radix n : Z) : list Z :=
  match fuel with
  | O => []
  | S fuel => if n <? radix then [n] else n mod radix :: digits_le fuel radix (n / radix)
  end.

Definition digit_fuel (n : Z) : nat := S (Z.to_nat (Z.log2 n)).

Fixpoint string_of (cs : list ascii) : string :=
  match cs with
  | [] => ""
  | c :: cs => String c (string_of cs)
  end.

Definition fmt_radix (radix n : Z) : string :=
  string_of (map from_digit (rev (digits_le (digit_fuel n) radix n))).

(** [n.to_string()] and [format!("{n:x}")] for an unsigned [n]. *)
Definition fmt_dec (n : Z) : string := fmt_radix 10 n.
Definition fmt_hex (n : Z) : string := fmt_radix 16 n.

(** [{n:0w$}] of a number that is not negative *)
Definition fmt_pad (w : nat) (n : Z) : string :=
  let s := fmt_dec n in string_of (repeat "0"%char (w - String.length s)) +:+ s.

Definition fmt_bool (b : bool) : string := if b then "true" else "false".

(** [core::num::IntErrorKind] *)
Inductive IntErrorKind := Empty | InvalidDigit | PosOverflow | NegOverflow.

#[global] Instance IntErrorKind_eq_dec : EqDecision IntErrorKind.
Proof. solve_decision. Defined.

(** The digit loop of [from_str_radix]: the digit is checked before the
    multiplication's overflow; [step] is [checked_mul] then [checked_add]
    (or [checked_sub]) against the bounds of the type. *)
Fixpoint parse_digits (lo hi radix sign : Z) (over : IntErrorKind) (acc : Z) (s : string)
  : result Z IntErrorKind :=
  match s with
  | "" => Ok acc
  | String c s =>
      match to_digit radix c with
      | None => Err InvalidDigit
      | Some d =>
          let acc' := acc * radix + sign * d in
          if (lo <=? acc * radix) && (acc * radix <=? hi) && (lo <=? acc') && (acc' <=? hi)
          then parse_digits lo hi radix sign over acc' s
          else Err over
      end
  end.

(** [u{w}::from_str_radix]: one leading [+] is accepted. *)
Definition from_str_radix_u (w radix : Z) (s : string) : result Z IntErrorKind :=
  match s with
  | "" => Err Empty
  | String c "" => if Ascii.eqb c "+" || Ascii.eqb c "-" then Err InvalidDigit
                   else parse_digits 0 (2 ^ w - 1) radix 1 PosOverflow 0 s
  | String c s' => parse_digits 0 (2 ^ w - 1) radix 1 PosOverflow 0
                     (if Ascii.eqb c "+" then s' else s)
  end.

(** [i{w}::from_str_radix]: one leading sign is accepted. *)
Definition from_str_radix_i (w radix : Z) (s : string) : result Z IntErrorKind :=
  let lo := - 2 ^ (w - 1) in
  let hi := 2 ^ (w - 1) - 1 in
  match s with
  | "" => Err Empty
  | String c "" => if Ascii.eqb c "+" || Ascii.eqb c "-" then Err InvalidDigit
                   else parse_digits lo hi radix 1 PosOverflow 0 s
  | String c s' =>
      if Ascii.eqb c "-" then parse_digits lo hi radix (-1) NegOverflow 0 s'
      else parse_digits lo hi radix 1 PosOverflow 0 (if Ascii.eqb c "+" then s' else s)
  end.

(** [s.parse::<u32>()] and [s.parse::<u64>()] *)
Definition parse_u32 (s : string) : result Z IntErrorKind := from_str_radix_u 32 10 s.
Definition parse_u64 (s : string) : result Z IntErrorKind := from_str_radix_u 64 10 s.
#[global] Arguments parse_u32 : simpl never.
#[global] Arguments parse_u64 : simpl never.
#[global] Arguments fmt_radix : simpl never.
#[global] Arguments fmt_dec : simpl never.
#[global] Arguments fmt_hex : simpl never.

#[global] Arguments String.append : simpl nomatch.

(** ** Lemmas: character classes *)

Fixpoint str_all (p : ascii -> bool) (s : string) : bool :=
  match s with
  | "" => true
  | String a s => p a && str_all p s
  end.

Lemma string_app_assoc (a b c : string) : (a +:+ b) +:+ c = a +:+ (b +:+ c).
Proof. induction a as [|x a IH]; cbn; [done|]. by rewrite IH. Qed.

Lemma string_app_nil_r (a : string) : a +:+ "" = a.
Proof. induction a as [|x a IH]; cbn; [done|]. by rewrite IH. Qed.

Lemma string_app_inj_l (a b c : string) : a +:+ b = a +:+ c -> b = c.
Proof. induction a as [|x a IH]; cbn; [done|]. intros [= H]. auto. Qed.

Lemma str_all_app p a b : str_all p (a +:+ b) = str_all p a && str_all p b.
Proof. induction a as [|x a IH]; cbn; [done|]. by rewrite IH, andb_assoc. Qed.

Lemma str_all_mono (p q : ascii -> bool) s :
  (forall c, p c = true -> q c = true) -> str_all p s = true -> str_all q s = true.
Proof.
  intros H. induction s as [|x s IH]; cbn; [done|].
  intros [? ?]%andb_true_iff. by rewrite H, IH.
Qed.

Lemma str_all_contains p c s :
  str_all p s = true -> p c = false -> str_contains c s = false.
Proof.
  intros H Hc. induction s as [|x s IH]; cbn in *; [done|].
  apply andb_true_iff in H as [Hx Hs]. rewrite IH by done.
  destruct (Ascii.eqb_spec x c); [by subst; congruence|done].
Qed.

Lemma str_contains_app c a b :
  str_contains c (a +:+ b) = str_contains c a || str_contains c b.
Proof. induction a as [|x a IH]; cbn; [done|]. by rewrite IH, orb_assoc. Qed.

(** ** Lemmas: splitting and joining *)

Lemma trim_end_slashes_end s : str_ends_with "/" (trim_end_slashes s) = false.
Proof.
  induction s as [|c s IH]; [done|]. cbn [trim_end_slashes]. destruct (trim_end_slashes s) as [|d t].
  - destruct (Ascii.eqb c "/") eqn:Hc; [done|]. cbn. exact Hc.
  - exact IH.
Qed.

Lemma trim_end_slashes_id s : str_ends_with "/" s = false -> trim_end_slashes s = s.
Proof.
  induction s as [|c s IH]; [done|]. intros Hs. destruct s as [|d t].
  - cbn in Hs |- *. by rewrite Hs.
  - specialize (IH Hs). cbn [trim_end_slashes] in IH |- *. rewrite IH. done.
Qed.

Lemma split_once_app c a b :
  str_contains c a = false -> split_once c (a +:+ String c b) = Some (a, b).
Proof.
  induction a as [|x a IH]; cbn; intros H.
  - by rewrite Ascii.eqb_refl.
  - apply orb_false_iff in H as [Hx Ha]. by rewrite Hx, IH.
Qed.

Lemma split_once_none c s : str_contains c s = false -> split_once c s = None.
Proof.
  induction s as [|x s IH]; cbn; [done|].
  intros [Hx Hs]%orb_false_iff. by rewrite Hx, IH.
Qed.

Lemma split_once_some c s a b :
  split_once c s = Some (a, b) -> s = a +:+ String c b /\ str_contains c a = false.
Proof.
  revert a b. induction s as [|x s IH]; cbn; intros a b H; [done|].
  destruct (Ascii.eqb_spec x c) as [->|Hx].
  - by simplify_eq.
  - destruct (split_once c s) as [[u v]|]; simplify_eq.
    destruct (IH u b eq_refl) as [-> Hu]. cbn. split; [done|].
    apply orb_false_iff. split; [|done]. by apply Ascii.eqb_neq.
Qed.

Lemma rsplit_once_app c a b :
  str_contains c b = false -> rsplit_once c (a +:+ String c b) = Some (a, b).
Proof.
  intros Hb.
  assert (rsplit_once c b = None) as Hn.
  { clear a. induction b as [|x b IH]; cbn in *; [done|].
    apply orb_false_iff in Hb as [Hx Hb]. by rewrite IH, Hx. }
  induction a as [|x a IH]; cbn.
  - by rewrite Hn, Ascii.eqb_refl.
  - by rewrite IH.
Qed.

Lemma str_split_none c s : str_contains c s = false -> str_split c s = [s].
Proof.
  induction s as [|x s IH]; cbn; [done|].
  intros [Hx Hs]%orb_false_iff. by rewrite Hx, IH.
Qed.

Lemma str_split_app c a b :
  str_contains c a = false -> str_split c (a +:+ String c b) = a :: str_split c b.
Proof.
  induction a as [|x a IH]; cbn; intros H.
  - by rewrite Ascii.eqb_refl.
  - apply orb_false_iff in H as [Hx Ha]. by rewrite Hx, IH.
Qed.

Lemma str_split_join c parts :
  parts <> [] -> Forall (fun p => str_contains c p = false) parts ->
  str_split c (str_join (String c "") parts) = parts.
Proof.
  intros Hne H. induction H as [|p ps Hp H IH]; [done|].
  destruct ps as [|p' ps]; [by apply str_split_none|].
  change (str_join (String c "") (p :: p' :: ps))
    with (p +:+ String c (str_join (String c "") (p' :: ps))).
  rewrite str_split_app by done. by rewrite IH.
Qed.

(** A text of newline-terminated lines splits back into them. *)
Definition unlines (ls : list string) : string :=
  foldr (fun l acc => l +:+ String NL acc) "" ls.

Definition no_eol (s : string) : bool :=
  str_all (fun c => negb (Ascii.eqb c NL) && negb (Ascii.eqb c CR)) s.

Lemma strip_cr_id s : no_eol s = true -> strip_cr s = s.
Proof.
  unfold no_eol. induction s as [|x s IH]; cbn; [done|].
  intros [Hx Hs]%andb_true_iff. apply andb_true_iff in Hx as [_ Hx].
  apply negb_true_iff in Hx. destruct s as [|y s]; [by rewrite Hx|].
  by rewrite IH.
Qed.

Lemma str_lines_unlines ls :
  Forall (fun l => no_eol l = true) ls -> str_lines (unlines ls) = ls.
Proof.
  unfold str_lines. induction 1 as [|l ls Hl H IH]; [done|]. cbn [unlines foldr].
  rewrite str_split_app.
  - fold (unlines ls). destruct (str_split NL (unlines ls)) as [|p ps] eqn:E.
    + destruct (unlines ls) as [|a t]; cbn in E; [done|].
      destruct (Ascii.eqb a NL); [done|]. by destruct (str_split NL t).
    + change (lines_of (l :: p :: ps)) with (strip_cr l :: lines_of (p :: ps)).
      rewrite IH. by rewrite strip_cr_id.
  - by eapply str_all_contains.
Qed.

(** ** Lemmas: trimming *)

Lemma trim_end_id s : str_all (fun c => negb (is_space c)) s = true -> trim_end s = s.
Proof.
  induction s as [|x s IH]; cbn; [done|]. intros [Hx Hs]%andb_true_iff.
  rewrite IH by done. apply negb_true_iff in Hx. destruct s; [by rewrite Hx|done].
Qed.

Lemma str_trim_id s : str_all (fun c => negb (is_space c)) s = true -> str_trim s = s.
Proof.
  intros H. unfold str_trim. replace (trim_start s) with s; [by apply trim_end_id|].
  destruct s as [|x s]; cbn in *; [done|].
  apply andb_true_iff in H as [Hx _]. apply negb_true_iff in Hx. by rewrite Hx.
Qed.

(** ** Lemmas: integers as text *)

Lemma to_digit_from_digit radix d :
  0 <= d < radix -> radix <= 36 -> to_digit radix (from_digit d) = Some d.
Proof.
  intros Hd Hr. unfold to_digit, from_digit, ord.
  rewrite nat_ascii_embedding by (destruct (Z.ltb_spec d 10); lia).
  destruct (Z.ltb_spec d 10).
  - rewrite Z2Nat.id by lia.
    rewrite (proj2 (Z.leb_le 48 _)), (proj2 (Z.leb_le _ 57)) by lia. cbn.
    rewrite (proj2 (Z.ltb_lt _ radix)) by lia. f_equal. lia.
  - rewrite Z2Nat.id by lia.
    rewrite (proj2 (Z.leb_gt _ 57)), andb_false_r by lia.
    rewrite (proj2 (Z.leb_le 97 _)), (proj2 (Z.leb_le _ 122)) by lia. cbn.
    rewrite (proj2 (Z.ltb_lt _ radix)) by lia. f_equal. lia.
Qed.

Fixpoint val_le (radix : Z) (ds : list Z) : Z :=
  match ds with
  | [] => 0
  | d :: ds => d + radix * val_le radix ds
  end.

Definition val_be (radix acc : Z) (ds : list Z) : Z :=
  foldl (fun a d => a * radix + d) acc ds.

Lemma val_be_rev radix ds : val_be radix 0 (rev ds) = val_le radix ds.
Proof.
  unfold val_be. induction ds as [|d ds IH]; cbn; [done|].
  rewrite foldl_app. cbn. rewrite IH. lia.
Qed.

Lemma digits_le_spec fuel radix n :
  2 <= radix -> 0 <= n < radix ^ Z.of_nat fuel ->
  val_le radix (digits_le fuel radix n) = n /\
  Forall (fun d => 0 <= d < radix) (digits_le fuel radix n) /\
  (fuel <> O -> digits_le fuel radix n <> []).
Proof.
  intros Hr. revert n. induction fuel as [|f IH]; intros n Hn; cbn.
  - split; [cbn in Hn; lia|]. split; [constructor|done].
  - rewrite Nat2Z.inj_succ, Z.pow_succ_r in Hn by lia.
    destruct (Z.ltb_spec n radix).
    + split; [cbn; lia|]. split; [repeat constructor; lia|done].
    + assert (0 <= n / radix < radix ^ Z.of_nat f) as Hq.
      { split; [apply Z.div_pos; lia|]. apply Z.div_lt_upper_bound; lia. }
      destruct (IH _ Hq) as (Hv & Hf & _). cbn. rewrite Hv. split.
      * pose proof (Z.div_mod n radix). lia.
      * split; [|done]. constructor; [|done]. apply Z.mod_pos_bound. lia.
Qed.

Lemma digit_fuel_enough radix n :
  2 <= radix -> 0 <= n -> 0 <= n < radix ^ Z.of_nat (digit_fuel n).
Proof.
  intros Hr Hn. split; [done|]. unfold digit_fuel. rewrite Nat2Z.inj_succ.
  assert (n < 2 ^ Z.succ (Z.log2 n)) as H.
  { destruct (decide (n = 0)) as [->|]; [done|]. apply Z.log2_spec. lia. }
  pose proof (Z.log2_nonneg n). rewrite Z2Nat.id by done.
  eapply Z.lt_le_trans; [exact H|]. apply Z.pow_le_mono_l. lia.
Qed.

(** The digit list that [fmt_radix] prints. *)
Lemma fmt_radix_digits radix n :
  2 <= radix -> 0 <= n ->
  exists ds, fmt_radix radix n = string_of (map from_digit ds) /\
             val_be radix 0 ds = n /\ Forall (fun d => 0 <= d < radix) ds /\ ds <> [].
Proof.
  intros Hr Hn. exists (rev (digits_le (digit_fuel n) radix n)). split; [done|].
  destruct (digits_le_spec (digit_fuel n) radix n Hr) as (Hv & Hf & Hne).
  { by apply digit_fuel_enough. }
  rewrite val_be_rev. split; [done|]. split; [by apply Forall_rev|].
  intros E. apply (Hne ltac:(done)). rewrite <- (rev_involutive (digits_le _ _ _)), E. done.
Qed.

Lemma val_be_ge radix acc ds :
  1 <= radix -> 0 <= acc -> Forall (fun d => 0 <= d < radix) ds -> acc <= val_be radix acc ds.
Proof.
  intros Hr. revert acc. unfold val_be.
  induction ds as [|d ds IH]; intros acc Ha Hf; cbn; [lia|].
  inv Hf. transitivity (acc * radix + d); [nia|]. apply IH; [nia|done].
Qed.

Lemma parse_digits_val hi radix over acc ds :
  2 <= radix <= 36 -> 0 <= acc -> Forall (fun d => 0 <= d < radix) ds ->
  val_be radix acc ds <= hi ->
  parse_digits 0 hi radix 1 over acc (string_of (map from_digit ds))
  = Ok (val_be radix acc ds).
Proof.
  intros Hr. revert acc.
  induction ds as [|d ds IH]; intros acc Ha Hf Hb; cbn; [done|]. inv Hf.
  rewrite to_digit_from_digit by lia.
  assert (acc * radix + d <= hi) as Hle.
  { etransitivity; [|exact Hb]. cbn. apply val_be_ge; [lia|nia|done]. }
  rewrite (proj2 (Z.leb_le 0 (acc * radix))), (proj2 (Z.leb_le (acc * radix) hi)) by nia.
  replace (acc * radix + 1 * d) with (acc * radix + d) by lia.
  rewrite (proj2 (Z.leb_le 0 _)), (proj2 (Z.leb_le _ hi)) by nia. cbn [andb].
  apply IH; [nia|done|exact Hb].
Qed.

Definition is_alnum (c : ascii) : bool :=
  match to_digit 36 c with Some _ => true | None => false end.

Lemma from_digit_alnum radix d : 0 <= d < radix -> radix <= 36 -> is_alnum (from_digit d) = true.
Proof. intros. unfold is_alnum. by rewrite to_digit_from_digit by lia. Qed.

Lemma fmt_radix_alnum radix n :
  2 <= radix <= 36 -> 0 <= n -> str_all is_alnum (fmt_radix radix n) = true.
Proof.
  intros Hr Hn. destruct (fmt_radix_digits radix n) as (ds & -> & _ & Hf & _); [lia..|].
  induction Hf as [|d ds Hd _ IH]; cbn; [done|].
  by rewrite (from_digit_alnum radix) by lia.
Qed.

Lemma fmt_radix_nonempty radix n : 2 <= radix -> 0 <= n -> fmt_radix radix n <> "".
Proof.
  intros Hr Hn. destruct (fmt_radix_digits radix n) as (ds & -> & _ & _ & Hne); [lia..|].
  by destruct ds.
Qed.

(** Printing then parsing an unsigned integer gives it back. *)
Lemma from_str_radix_u_fmt w radix n :
  2 <= radix <= 36 -> in_width w n -> from_str_radix_u w radix (fmt_radix radix n) = Ok n.
Proof.
  intros Hr [Hn Hw]. destruct (fmt_radix_digits radix n) as (ds & -> & Hv & Hf & Hne); [lia..|].
  pose proof (parse_digits_val (2 ^ w - 1) radix PosOverflow 0 ds Hr ltac:(lia) Hf) as HP.
  rewrite Hv in HP. specialize (HP ltac:(lia)).
  destruct ds as [|d ds]; [done|]. cbn [map string_of] in *.
  assert (forall c, is_alnum c = false -> Ascii.eqb (from_digit d) c = false) as Hc.
  { intros c Hc. apply Ascii.eqb_neq. intros <-. inv Hf.
    by rewrite (from_digit_alnum radix) in Hc by lia. }
  unfold from_str_radix_u. rewrite !Hc by done.
  destruct (string_of (map from_digit ds)); exact HP.
Qed.

Lemma parse_digits_range lo hi radix sign over acc s v :
  lo <= acc <= hi -> parse_digits lo hi radix sign over acc s = Ok v -> lo <= v <= hi.
Proof.
  revert acc. induction s as [|c s IH]; intros acc Ha H; cbn in H; [by simplify_eq|].
  cbv zeta in H. repeat case_match; simplify_eq; bool_to_prop; eauto with lia.
Qed.

Lemma from_str_radix_u_typed w radix s v :
  0 <= w -> from_str_radix_u w radix s = Ok v -> in_width w v.
Proof.
  intros Hw. unfold from_str_radix_u. intros H. repeat case_match; simplify_eq;
    apply parse_digits_range in H; unfold in_width; pose proof (Z.pow_pos_nonneg 2 w); lia.
Qed.

Lemma from_str_radix_i_range w radix s v :
  0 < w -> from_str_radix_i w radix s = Ok v -> - 2 ^ (w - 1) <= v < 2 ^ (w - 1).
Proof.
  intros Hw. pose proof (Z.pow_pos_nonneg 2 (w - 1) ltac:(lia) ltac:(lia)).
  unfold from_str_radix_i. intros Hp. repeat case_match; simplify_eq;
    apply parse_digits_range in Hp; lia.
Qed.

Lemma parse_u32_typed s v : parse_u32 s = Ok v -> u32 v.
Proof. apply from_str_radix_u_typed. lia. Qed.

Lemma parse_u32_fmt n : u32 n -> parse_u32 (fmt_dec n) = Ok n.
Proof. apply from_str_radix_u_fmt. lia. Qed.

Lemma fmt_dec_no c n : 0 <= n -> is_alnum c = false -> str_contains c (fmt_dec n) = false.
Proof. intros. eapply str_all_contains; [by apply fmt_radix_alnum|done]. Qed.

Lemma fmt_hex_no c n : 0 <= n -> is_alnum c = false -> str_contains c (fmt_hex n) = false.
Proof. intros. eapply str_all_contains; [by apply fmt_radix_alnum|done]. Qed.

#[export] Hint Resolve fmt_dec_no fmt_hex_no : flannel.

Lemma digits_le_length fuel radix n k :
  2 <= radix -> 0 <= n < radix ^ Z.of_nat k -> (1 <= k)%nat ->
  (length (digits_le fuel radix n) <= k)%nat.
Proof.
  intros Hr. revert n k. induction fuel as [|f IH]; intros n k Hn Hk; cbn; [lia|].
  destruct (Z.ltb_spec n radix); cbn; [lia|].
  destruct k as [|[|k]]; [lia|rewrite Z.pow_1_r in Hn; lia|].
  apply le_n_S, IH; [|lia]. rewrite (Nat2Z.inj_succ (S k)), Z.pow_succ_r in Hn by lia.
  split; [apply Z.div_pos; lia|apply Z.div_lt_upper_bound; lia].
Qed.

(** No leading zero, except in ["0"] itself. *)
Lemma digits_le_last fuel radix n :
  2 <= radix -> 0 < n < radix ^ Z.of_nat fuel ->
  exists ds d, digits_le fuel radix n = ds ++ [d] /\ 0 < d < radix.
Proof.
  intros Hr. revert n. induction fuel as [|f IH]; intros n Hn; cbn; [cbn in Hn; lia|].
  rewrite Nat2Z.inj_succ, Z.pow_succ_r in Hn by lia.
  destruct (Z.ltb_spec n radix).
  - exists [], n. split; [done|lia].
  - destruct (IH (n / radix)) as (ds & d & -> & Hd).
    { split; [apply Z.div_str_pos; lia|apply Z.div_lt_upper_bound; lia]. }
    by exists (n mod radix :: ds), d.
Qed.

Lemma length_string_of cs : String.length (string_of cs) = length cs.
Proof. induction cs as [|c cs IH]; cbn; [done|]. by rewrite IH. Qed.

Lemma length_fmt_radix radix n k :
  2 <= radix -> 0 <= n < radix ^ Z.of_nat k -> (1 <= k)%nat ->
  (String.length (fmt_radix radix n) <= k)%nat.
Proof.
  intros. unfold fmt_radix. rewrite length_string_of, length_map, length_rev.
  by apply digits_le_length.
Qed.

Lemma length_string_app a b : String.length (a +:+ b) = (String.length a + String.length b)%nat.
Proof. induction a as [|x a IH]; cbn; [done|]. by rewrite IH. Qed.
