(* ===== verification/Utf8.v ===== *)
(** * UTF-8 ([core::str], [String]): validity and lossy decoding

    Shared by the VICI codec, which works on byte arrays, and the watch
    decoder, which works on texts. *)

From S2P Require Import Prelude RustStr.
#[local] Open Scope list_scope.
#[local] Open Scope Z_scope.

(** [String::from_utf8_lossy]: every maximal prefix of an ill-formed sequence
    becomes U+FFFD.  [lo] and [hi] bound the next continuation byte. *)
Definition REPLACEMENT : bytes := [239; 191; 189].

(** What follows a lead byte: the number of continuation bytes and the range
    of the first. *)
Definition utf8_lead (b : Z) : option (nat * Z * Z) :=
  if (194 <=? b) && (b <=? 223) then Some (1%nat, 128, 191)
  else if b =? 224 then Some (2%nat, 160, 191)
  else if b =? 237 then Some (2%nat, 128, 159)
  else if (225 <=? b) && (b <=? 239) then Some (2%nat, 128, 191)
  else if b =? 240 then Some (3%nat, 144, 191)
  else if (241 <=? b) && (b <=? 243) then Some (3%nat, 128, 191)
  else if b =? 244 then Some (3%nat, 128, 143)
  else None.

(** [pending]: the bytes of the current sequence, the number still missing
    and the range of the next. *)
Fixpoint utf8_lossy (pending : option (bytes * nat * Z * Z)) (bs : bytes) : bytes :=
  match bs with
  | [] => match pending with Some _ => REPLACEMENT | None => [] end
  | b :: bs =>
      let start :=
        if b <? 128 then b :: utf8_lossy None bs
        else match utf8_lead b with
             | Some (n, lo, hi) => utf8_lossy (Some ([b], n, lo, hi)) bs
             | None => REPLACEMENT ++ utf8_lossy None bs
             end in
      match pending with
      | None => start
      | Some (seq, n, lo, hi) =>
          if (lo <=? b) && (b <=? hi) then
            match n with
            | S (S n) => utf8_lossy (Some (seq ++ [b], S n, 128, 191)) bs
            | _ => seq ++ [b] ++ utf8_lossy None bs
            end
          else REPLACEMENT ++ start
      end
  end.

Definition from_utf8_lossy (bs : bytes) : bytes := utf8_lossy None bs.

(** The invariant of a [String]: its bytes are UTF-8. *)
Definition is_utf8 (bs : bytes) : Prop := from_utf8_lossy bs = bs.

#[global] Instance is_utf8_dec bs : Decision (is_utf8 bs).
Proof. unfold is_utf8. apply _. Defined.

(** [str::as_bytes], and back. *)
Fixpoint as_bytes (s : string) : bytes :=
  match s with
  | EmptyString => []
  | String c s => ord c :: as_bytes s
  end.

Definition text_of (bs : bytes) : string := string_of (map (fun b => chr (Z.to_nat b)) bs).
