(* ===== verification/Cidr.v ===== *)
(** * CIDR arithmetic at any address width

    [ip/ipnet.rs] (32 bits) and [ip/ip6net.rs] (128 bits) do the same mask
    arithmetic.  This file holds the arithmetic lemmas at a width [w], and
    [CidrNet], the interface the rest of the program relies on: membership,
    overlap and inclusion of networks are those of the address intervals the
    networks denote.  [IpNet] and [Ip6Net] discharge it. *)

From S2P Require Import Prelude.

(** [MAX << (w - bits)], with the guard of [mask_value] and [mask6]. *)
Definition mask_of (w bits : Z) : Z :=
  if (bits =? 0) || (w <? bits) then 0 else wrap w (Z.shiftl (2 ^ w - 1) (w - bits)).

(** [1 << (w - bits)], with the guard of [subnet_size] and [subnet_size6]. *)
Definition size_of (w bits : Z) : Z :=
  if (bits =? 0) || (w <? bits) then 0 else Z.shiftl 1 (w - bits).

(** First address of the block of length [2^(w-bits)] around [a]. *)
Definition block_base (w bits a : Z) : Z := a / 2 ^ (w - bits) * 2 ^ (w - bits).

(** The addresses of a network, as an interval. *)
Definition in_block (w bits base x : Z) : Prop :=
  block_base w bits base <= x < block_base w bits base + 2 ^ (w - bits).

(** ** The interface *)

(** What a network type promises: its operations compute on the interval
    [in_block] of addresses. *)
Class CidrNet (N A : Type) := {
  cn_width : Z;
  cn_addr : N -> Z;
  cn_plen : N -> Z;
  cn_val : A -> Z;
  cn_wf : N -> Prop;
  cn_addr_wf : A -> Prop;
  cn_contains : N -> A -> bool;
  cn_contains_cidr : N -> N -> bool;
  cn_overlaps : N -> N -> bool;
  cn_network : N -> N;
  cn_addr_of n x : cn_wf n -> in_block cn_width (cn_plen n) (cn_addr n) x ->
    exists a, cn_addr_wf a /\ cn_val a = x;
  cn_contains_spec n a : cn_wf n -> cn_addr_wf a ->
    cn_contains n a = true <-> in_block cn_width (cn_plen n) (cn_addr n) (cn_val a);
  cn_contains_cidr_spec n m : cn_wf n -> cn_wf m ->
    cn_contains_cidr n m = true <->
    (forall x, in_block cn_width (cn_plen m) (cn_addr m) x ->
               in_block cn_width (cn_plen n) (cn_addr n) x);
  cn_overlaps_spec n m : cn_wf n -> cn_wf m ->
    cn_overlaps n m = true <->
    (exists x, in_block cn_width (cn_plen n) (cn_addr n) x /\
               in_block cn_width (cn_plen m) (cn_addr m) x);
}.

(** ** Arithmetic *)

Section Arith.
Context (w : Z) (Hw : 0 < w).

Lemma mask_of_shift bits :
  0 <= bits <= w -> mask_of w bits = Z.shiftl (Z.ones bits) (w - bits).
Proof.
  intros Hb. unfold mask_of, wrap.
  destruct (Z.eqb_spec bits 0) as [->|]; cbn [orb].
  - rewrite Z.ones_equiv. cbn. by rewrite Z.shiftl_0_l.
  - rewrite (proj2 (Z.ltb_ge w bits)) by lia.
    rewrite !Z.shiftl_mul_pow2, Z.ones_equiv by lia.
    pose proof (Z.pow_pos_nonneg 2 (w - bits)). pose proof (Z.pow_pos_nonneg 2 bits).
    assert (2 ^ w = 2 ^ bits * 2 ^ (w - bits)) as E
      by (rewrite <- Z.pow_add_r by lia; f_equal; lia).
    symmetry. apply Z.mod_unique with (q := 2 ^ (w - bits) - 1); [left|]; nia.
Qed.

Lemma mask_of_value bits : 0 <= bits <= w -> mask_of w bits = 2 ^ w - 2 ^ (w - bits).
Proof.
  intros Hb. rewrite mask_of_shift by done.
  rewrite Z.shiftl_mul_pow2, Z.ones_equiv by lia. unfold Z.pred.
  rewrite Z.mul_add_distr_r, <- Z.pow_add_r by lia.
  replace (bits + (w - bits)) with w by lia. lia.
Qed.

Lemma land_shiftl x m k :
  0 <= k -> Z.land x (Z.shiftl m k) = Z.shiftl (Z.land (Z.shiftr x k) m) k.
Proof.
  intros Hk. apply Z.bits_inj'. intros i Hi.
  rewrite Z.land_spec, !Z.shiftl_spec by done. rewrite Z.land_spec.
  destruct (decide (k <= i)).
  - rewrite Z.shiftr_spec by lia. f_equal. f_equal. lia.
  - rewrite !(Z.testbit_neg_r _ (i - k)) by lia. by rewrite andb_false_r.
Qed.

(** Masking an address gives the base of its block. *)
Lemma land_mask_of bits x :
  0 <= bits <= w -> in_width w x -> Z.land x (mask_of w bits) = block_base w bits x.
Proof.
  intros Hb [Hx Hx']. rewrite mask_of_shift by done.
  rewrite land_shiftl, Z.land_ones by lia.
  rewrite Z.shiftr_div_pow2, Z.shiftl_mul_pow2 by lia. unfold block_base. f_equal.
  apply Z.mod_small. pose proof (Z.pow_pos_nonneg 2 (w - bits)). split.
  - apply Z.div_pos; lia.
  - apply Z.div_lt_upper_bound; [lia|]. rewrite <- Z.pow_add_r by lia.
    eapply Z.lt_le_trans; [exact Hx'|]. apply Z.pow_le_mono_r; lia.
Qed.

Lemma block_base_le bits x : bits <= w -> block_base w bits x <= x < block_base w bits x + 2 ^ (w - bits).
Proof.
  intros Hb. unfold block_base. pose proof (Z.pow_pos_nonneg 2 (w - bits)).
  pose proof (Z.mul_div_le x (2 ^ (w - bits))).
  pose proof (Z.mul_succ_div_gt x (2 ^ (w - bits))). nia.
Qed.

Lemma block_base_wf bits x : 0 <= bits <= w -> in_width w x -> in_width w (block_base w bits x).
Proof.
  intros Hb [H0 H1]. pose proof (block_base_le bits x ltac:(lia)). split; [|lia].
  unfold block_base. pose proof (Z.pow_pos_nonneg 2 (w - bits)).
  pose proof (Z.div_pos x (2 ^ (w - bits))). nia.
Qed.

(** Two addresses have the same masked value exactly when the second is in
    the block of the first. *)
Lemma block_base_eq bits a x :
  bits <= w -> block_base w bits a = block_base w bits x <-> in_block w bits a x.
Proof.
  intros Hb. unfold in_block. split.
  - intros ->. by apply block_base_le.
  - unfold block_base. intros H. f_equal.
    pose proof (Z.pow_pos_nonneg 2 (w - bits)).
    eapply Z.div_unique with (r := x - a / 2 ^ (w - bits) * 2 ^ (w - bits)); lia.
Qed.

Lemma in_block_self bits a : bits <= w -> in_block w bits a a.
Proof. intros. by apply block_base_eq. Qed.

Lemma in_block_base bits a x :
  bits <= w -> in_block w bits (block_base w bits a) x <-> in_block w bits a x.
Proof.
  intros Hb. rewrite <- !block_base_eq by done.
  replace (block_base w bits (block_base w bits a)) with (block_base w bits a); [done|].
  apply block_base_eq; [done|]. unfold in_block.
  pose proof (Z.pow_pos_nonneg 2 (w - bits)). lia.
Qed.

(** Coarser blocks are unions of finer ones. *)
Lemma block_base_coarse bits bits' x :
  bits <= bits' <= w ->
  block_base w bits (block_base w bits' x) = block_base w bits x.
Proof.
  intros Hb. unfold block_base. f_equal.
  assert (2 ^ (w - bits) = 2 ^ (w - bits') * 2 ^ (bits' - bits)) as ->
    by (rewrite <- Z.pow_add_r by lia; f_equal; lia).
  pose proof (Z.pow_pos_nonneg 2 (w - bits')). pose proof (Z.pow_pos_nonneg 2 (bits' - bits)).
  rewrite <- !Z.div_div by lia. by rewrite Z.div_mul by lia.
Qed.

Lemma in_block_trans bits bits' a b x :
  bits <= bits' <= w -> in_block w bits a b -> in_block w bits' b x -> in_block w bits a x.
Proof.
  intros Hb Hab Hbx. apply block_base_eq in Hab, Hbx; [|lia..].
  apply block_base_eq; [lia|]. rewrite Hab.
  rewrite <- (block_base_coarse bits bits' b), <- (block_base_coarse bits bits' x) by done.
  by rewrite Hbx.
Qed.

Lemma in_block_subset bits bits' a b :
  0 <= bits -> 0 <= bits' -> bits <= w -> bits' <= w ->
  (forall x, in_block w bits' b x -> in_block w bits a x) <->
  bits <= bits' /\ in_block w bits a b.
Proof.
  intros H0 H0' Hb Hb'. split.
  - intros H. split; [|apply H; by apply in_block_self].
    destruct (decide (bits <= bits')); [done|]. exfalso.
    pose proof (Z.pow_pos_nonneg 2 (w - bits)). pose proof (Z.pow_pos_nonneg 2 (w - bits')).
    assert (2 ^ (w - bits) < 2 ^ (w - bits')) by (apply Z.pow_lt_mono_r; lia).
    pose proof (H (block_base w bits' b)) as Hlo.
    pose proof (H (block_base w bits' b + 2 ^ (w - bits') - 1)) as Hhi.
    unfold in_block in *. lia.
  - intros [Hle Hin] x. by apply in_block_trans.
Qed.

Lemma in_block_meet bits bits' a b :
  bits <= bits' <= w ->
  (exists x, in_block w bits a x /\ in_block w bits' b x) <-> in_block w bits a b.
Proof.
  intros Hb. split.
  - intros (x & Ha & Hx). apply block_base_eq; [lia|]. apply block_base_eq in Ha, Hx; [|lia..].
    rewrite Ha, <- (block_base_coarse bits bits' x), <- Hx by done.
    by rewrite block_base_coarse.
  - intros H. exists b. split; [done|]. apply in_block_self. lia.
Qed.

(** The address after the base of a block of at least two is in the block. *)
Lemma block_base_succ bits a :
  0 <= bits < w -> in_width w a -> block_base w bits a = a ->
  in_width w (a + 1) /\ block_base w bits (a + 1) = a.
Proof.
  intros Hb Ha Hbase.
  assert (H2 : 2 ^ (w - bits) = 2 * 2 ^ (w - bits - 1)).
  { rewrite <- Z.pow_succ_r by lia. f_equal. lia. }
  pose proof (Z.pow_pos_nonneg 2 (w - bits - 1) ltac:(lia) ltac:(lia)).
  assert (Hblk : in_block w bits a (a + 1)) by (unfold in_block; lia).
  split; [|rewrite <- Hbase at 2; symmetry; apply block_base_eq; [lia|done]].
  pose proof (proj2 Ha) as Hlt. destruct Ha as [Ha0 Ha1]. split; [lia|].
  assert (HP : 2 ^ w = 2 ^ (w - bits) * 2 ^ bits) by (rewrite <- Z.pow_add_r; [f_equal; lia|lia..]).
  unfold block_base in Hbase. set (q := a / 2 ^ (w - bits)) in *.
  pose proof (Z.pow_pos_nonneg 2 bits ltac:(lia) ltac:(lia)).
  assert (q < 2 ^ bits) by nia. nia.
Qed.

(** The next block of the same size, modulo the width. *)
Lemma block_base_next bits a :
  1 <= bits <= w -> in_width w a ->
  block_base w bits (wrap w (a + 2 ^ (w - bits))) = wrap w (block_base w bits a + 2 ^ (w - bits)) /\
  block_base w bits (wrap w (a + 2 ^ (w - bits))) <> block_base w bits a.
Proof.
  intros Hb [Ha Ha']. unfold block_base, wrap.
  assert (Hs : 2 ^ w = 2 ^ (w - bits) * 2 ^ bits) by (rewrite <- Z.pow_add_r; [f_equal; lia|lia..]).
  pose proof (Z.pow_pos_nonneg 2 (w - bits) ltac:(lia) ltac:(lia)) as Hk.
  assert (H2 : 2 <= 2 ^ bits) by (change 2 with (2 ^ 1) at 1; apply Z.pow_le_mono_r; lia).
  rewrite Hs in *. set (K := 2 ^ (w - bits)) in *. set (B := 2 ^ bits) in *.
  pose proof (Z.div_mod a K ltac:(lia)) as Hd. pose proof (Z.mod_pos_bound a K ltac:(lia)).
  set (q := a / K) in *. set (r := a mod K) in *.
  assert (Hq : 0 <= q < B) by nia.
  assert (Hq2 : forall z, 0 <= z < K -> forall k, (K * k + z) / K = k).
  { intros z Hz k. rewrite Z.add_comm, Z.mul_comm, Z.div_add, Z.div_small by lia. lia. }
  assert (Hm : (a + K) mod (K * B) = K * ((q + 1) mod B) + r).
  { rewrite Hd. replace (K * q + r + K) with (r + K * (q + 1)) by lia.
    rewrite Z.rem_mul_r by lia. rewrite Z.add_comm, (Z.mul_comm K (q+1)), Z_mod_plus_full, Z.div_add by lia.
    rewrite (Z.mod_small r K), (Z.div_small r K) by lia. f_equal. }
  assert (Hm' : (q * K + K) mod (K * B) = K * ((q + 1) mod B)).
  { replace (q * K + K) with (K * (q + 1)) by lia. by rewrite Z.mul_mod_distr_l by lia. }
  rewrite Hm, Hm', (Hq2 r) by lia. split; [lia|].
  destruct (decide (q + 1 = B)) as [He|].
  - rewrite He, Z.mod_same by lia. nia.
  - rewrite Z.mod_small by lia. nia.
Qed.

(** The first and the last block of length [2^(w-slen)] that a network of
    prefix [p] hands out: the one after its base and the last one. *)
Lemma first_last_subnet p slen base :
  1 <= p -> p + 2 <= slen <= w -> in_width w base -> block_base w p base = base ->
  let size := 2 ^ (w - slen) in
  let lo := wrap w (base + size) in
  let hi := wrap w (wrap w (base + 2 ^ (w - p)) - size) in
  in_width w lo /\ in_width w hi /\ in_block w p base lo /\ in_block w p base hi /\
  lo mod size = 0 /\ hi mod size = 0 /\ base < lo /\ lo < hi.
Proof.
  intros Hp Hs Hb Hbase size lo hi.
  assert (HJ : 2 ^ (w - p) = size * 2 ^ (slen - p)).
  { subst size. rewrite <- Z.pow_add_r; [f_equal; lia|lia..]. }
  assert (HP : 2 ^ w = 2 ^ (w - p) * 2 ^ p) by (rewrite <- Z.pow_add_r; [f_equal; lia|lia..]).
  pose proof (Z.pow_pos_nonneg 2 (w - slen) ltac:(lia) ltac:(lia)) as Hk. fold size in Hk.
  assert (H4 : 4 <= 2 ^ (slen - p)) by (change 4 with (2 ^ 2); apply Z.pow_le_mono_r; lia).
  unfold in_block. rewrite Hbase. unfold block_base in Hbase.
  set (J := 2 ^ (slen - p)) in *. set (B := 2 ^ (w - p)) in *. set (q := base / B) in *.
  destruct Hb as [Hb0 Hb1].
  assert (Hq0 : q < 2 ^ p) by (apply Z.div_lt_upper_bound; nia).
  assert (Hq : base + B <= 2 ^ w) by nia.
  assert (Hlo : lo = base + size) by (apply Z.mod_small; nia).
  assert (Hhi : hi = base + B - size).
  { subst hi. unfold wrap. rewrite Zminus_mod_idemp_l. apply Z.mod_small. nia. }
  rewrite Hlo, Hhi. unfold in_width. split_and!; try nia.
  - replace (base + size) with ((q * J + 1) * size) by nia. apply Z_mod_mult.
  - replace (base + B - size) with ((q * J + J - 1) * size) by nia. apply Z_mod_mult.
Qed.

(** A masked test against itself says the value is a multiple. *)
Lemma land_mask_multiple bits x :
  0 <= bits <= w -> in_width w x ->
  (Z.land x (mask_of w bits) =? x) = true <-> x mod 2 ^ (w - bits) = 0.
Proof.
  intros Hb Hx. rewrite Z.eqb_eq, land_mask_of by done. unfold block_base.
  pose proof (Z.pow_pos_nonneg 2 (w - bits) ltac:(lia) ltac:(lia)).
  pose proof (Z.div_mod x (2 ^ (w - bits)) ltac:(lia)). lia.
Qed.

Lemma mask_of_mono bits bits' :
  0 <= bits <= w -> 0 <= bits' <= w -> mask_of w bits <= mask_of w bits' <-> bits <= bits'.
Proof.
  intros Hb Hb'. rewrite !mask_of_value by done. split; intros H.
  - apply Z.le_ngt. intros Hlt.
    assert (2 ^ (w - bits) < 2 ^ (w - bits')) by (apply Z.pow_lt_mono_r; lia). lia.
  - assert (2 ^ (w - bits') <= 2 ^ (w - bits)) by (apply Z.pow_le_mono_r; lia). lia.
Qed.

Lemma lor_ones_block k x : 0 <= k -> Z.lor x (Z.ones k) = x / 2 ^ k * 2 ^ k + Z.ones k.
Proof.
  intros Hk. rewrite <- Z.shiftr_div_pow2, <- Z.shiftl_mul_pow2 by lia.
  assert (Hl : Z.land (Z.shiftl (Z.shiftr x k) k) (Z.ones k) = 0).
  { rewrite Z.land_ones, Z.shiftl_mul_pow2 by lia. apply Z_mod_mult. }
  rewrite Z.add_nocarry_lxor, Z.lxor_lor by done. apply Z.bits_inj'. intros i Hi.
  rewrite !Z.lor_spec, Z.shiftl_spec by lia. destruct (decide (i < k)).
  - rewrite Z.ones_spec_low by lia. by rewrite !orb_true_r.
  - rewrite Z.ones_spec_high, Z.shiftr_spec by lia. do 2 f_equal. lia.
Qed.

Lemma size_of_value bits : 1 <= bits <= w -> size_of w bits = 2 ^ (w - bits).
Proof.
  intros Hb. unfold size_of. rewrite (proj2 (Z.eqb_neq bits 0)), (proj2 (Z.ltb_ge w bits)) by lia.
  cbn [orb]. by rewrite Z.shiftl_1_l.
Qed.

Lemma mask_of_wf bits : 0 <= bits -> in_width w (mask_of w bits).
Proof.
  intros Hb. destruct (decide (bits <= w)).
  - rewrite mask_of_value by lia. pose proof (Z.pow_pos_nonneg 2 (w - bits)).
    assert (2 ^ (w - bits) <= 2 ^ w) by (apply Z.pow_le_mono_r; lia). split; lia.
  - unfold mask_of. rewrite (proj2 (Z.ltb_lt w bits)), orb_true_r by lia.
    pose proof (Z.pow_pos_nonneg 2 w). split; lia.
Qed.

End Arith.

(** ** Consequences for any network type *)

Section Laws.
Context {N A : Type} `{!CidrNet N A}.

(** [contains_cidr] is transitive: a network inside a pod CIDR is inside
    every network that contains the pod CIDR. *)
Lemma contains_cidr_trans (n m k : N) :
  cn_wf n -> cn_wf m -> cn_wf k ->
  cn_contains_cidr n m = true -> cn_contains_cidr m k = true -> cn_contains_cidr n k = true.
Proof.
  intros Hn Hm Hk Hnm Hmk. apply cn_contains_cidr_spec; [done..|]. intros x Hx.
  apply (proj1 (cn_contains_cidr_spec n m Hn Hm) Hnm).
  by apply (proj1 (cn_contains_cidr_spec m k Hm Hk) Hmk).
Qed.

Lemma overlaps_sym (n m : N) : cn_wf n -> cn_wf m -> cn_overlaps n m = cn_overlaps m n.
Proof.
  intros Hn Hm. apply eq_true_iff_eq. rewrite !cn_overlaps_spec by done.
  split; intros (x & ? & ?); eauto.
Qed.

(** Inclusion and overlap of networks, in terms of the addresses the code's
    own [contains] accepts. *)
Lemma contains_cidr_iff (n m : N) :
  cn_wf n -> cn_wf m ->
  cn_contains_cidr n m = true <->
  (forall a, cn_addr_wf a -> cn_contains m a = true -> cn_contains n a = true).
Proof.
  intros Hn Hm. rewrite cn_contains_cidr_spec by done. split; intros H.
  - intros a Ha. rewrite !cn_contains_spec by done. apply H.
  - intros x Hx. destruct (cn_addr_of m x Hm Hx) as (a & Ha & <-).
    apply cn_contains_spec; [done..|]. apply H; [done|]. by apply cn_contains_spec.
Qed.

Lemma overlaps_iff (n m : N) :
  cn_wf n -> cn_wf m ->
  cn_overlaps n m = true <->
  (exists a, cn_addr_wf a /\ cn_contains n a = true /\ cn_contains m a = true).
Proof.
  intros Hn Hm. rewrite cn_overlaps_spec by done. split.
  - intros (x & Hx & Hx'). destruct (cn_addr_of n x Hn Hx) as (a & Ha & <-).
    exists a. by rewrite !cn_contains_spec.
  - intros (a & Ha & H1 & H2). exists (cn_val a). by rewrite <- !cn_contains_spec.
Qed.

End Laws.

(** ** Checks shared by the two instances *)

Section Tests.
Context (w : Z) (Hw : 0 < w).

Lemma land_mask_eq bits a x :
  0 <= bits <= w -> in_width w a -> in_width w x ->
  (Z.land a (mask_of w bits) =? Z.land x (mask_of w bits)) = true <-> in_block w bits a x.
Proof.
  intros Hb Ha Hx. rewrite !land_mask_of by done. rewrite Z.eqb_eq.
  apply block_base_eq; lia.
Qed.

Lemma in_block_width bits a x :
  0 <= bits <= w -> in_width w a -> in_block w bits a x -> in_width w x.
Proof.
  intros Hb Ha [H1 H2]. pose proof (block_base_wf w Hw bits a Hb Ha) as [H0 H3].
  split; [lia|]. unfold block_base in *.
  set (k := 2 ^ (w - bits)) in *.
  assert (2 ^ w = 2 ^ bits * k) as E by (subst k; rewrite <- Z.pow_add_r by lia; f_equal; lia).
  assert (0 < k) by (subst k; lia). destruct Ha as [? Ha].
  assert (a / k < 2 ^ bits) by (apply Z.div_lt_upper_bound; lia). nia.
Qed.

(** [mask n <= mask m && contains n m.ip] *)
Lemma masked_subset bits bits' a b :
  0 <= bits <= w -> 0 <= bits' <= w -> in_width w a -> in_width w b ->
  (mask_of w bits <=? mask_of w bits') &&
  (Z.land a (mask_of w bits) =? Z.land b (mask_of w bits)) = true <->
  (forall x, in_block w bits' b x -> in_block w bits a x).
Proof.
  intros Hb Hb' Ha Hb2. rewrite in_block_subset, andb_true_iff, land_mask_eq by lia || done.
  by rewrite Z.leb_le, mask_of_mono.
Qed.

(** Compare under the coarser of the two masks. *)
Lemma masked_overlap bits bits' a b :
  0 <= bits <= w -> 0 <= bits' <= w -> in_width w a -> in_width w b ->
  (let m := if bits <? bits' then mask_of w bits else mask_of w bits' in
   Z.land a m =? Z.land b m) = true <->
  (exists x, in_block w bits a x /\ in_block w bits' b x).
Proof.
  intros Hb Hb' Ha Hb2. cbv zeta. destruct (Z.ltb_spec bits bits').
  - rewrite land_mask_eq by done. rewrite in_block_meet by lia. done.
  - rewrite land_mask_eq, <- block_base_eq by (done || lia). split.
    + intros E. exists a. split; [apply in_block_self; lia|]. by apply block_base_eq; [lia|].
    + intros (x & Hx & Hx'). symmetry. apply block_base_eq; [lia|].
      apply (in_block_meet w bits' bits b a); [lia|]. by exists x.
Qed.

End Tests.
