(* ===== verification/StdNet.v ===== *)
(** * Text form of IP addresses: [std::net::Ipv4Addr] and [Ipv6Addr]

    The parser and printer of Rust's [core::net], which [ip/ipnet.rs] and
    [ip/ip6net.rs] call through [str::parse] and [to_std].  A parser takes
    the remaining text and returns a value and the text after it. *)

From S2P Require Import Prelude RustStr.
#[local] Open Scope string_scope.
#[local] Open Scope list_scope.
#[local] Open Scope Z_scope.

(** ** Numbers: [Parser::read_number] *)

Fixpoint read_digits (radix acc : Z) (count : nat) (s : string) : Z * nat * string :=
  match s with
  | "" => (acc, count, "")
  | String c s' =>
      match to_digit radix c with
      | Some d => read_digits radix (acc * radix + d) (S count) s'
      | None => (acc, count, s)
      end
  end.

Definition read_number (radix : Z) (max_digits : nat) (allow_zero_prefix : bool) (hi : Z)
    (s : string) : option (Z * string) :=
  let '(v, n, rest) := read_digits radix 0 0 s in
  if (n =? 0)%nat || (max_digits <? n)%nat then None
  else if negb allow_zero_prefix && str_starts_with "0" s && (1 <? n)%nat then None
  else if v <=? hi then Some (v, rest) else None.

Definition read_given_char (c : ascii) (s : string) : option string :=
  match s with
  | String a s => if Ascii.eqb a c then Some s else None
  | "" => None
  end.

(** [read_separator(sep, index, inner)] *)
Definition read_separator {T} (sep : ascii) (i : nat) (inner : string -> option (T * string))
    (s : string) : option (T * string) :=
  match i with
  | O => inner s
  | S _ => match read_given_char sep s with Some s => inner s | None => None end
  end.

(** ** IPv4 *)

(** [n] octets starting at index [i]. *)
Fixpoint read_octets (i n : nat) (s : string) : option (list Z * string) :=
  match n with
  | O => Some ([], s)
  | S n =>
      match read_separator "." i (read_number 10 3 false 255) s with
      | Some (o, s) =>
          match read_octets (S i) n s with
          | Some (os, s) => Some (o :: os, s)
          | None => None
          end
      | None => None
      end
  end.

Definition read_ipv4_addr (s : string) : option (list Z * string) := read_octets 0 4 s.

(** [s.parse::<Ipv4Addr>()]: the four octets. *)
Definition parse_ipv4 (s : string) : option (list Z) :=
  if (15 <? String.length s)%nat then None
  else match read_ipv4_addr s with
       | Some (os, "") => Some os
       | _ => None
       end.

Definition fmt_ipv4 (os : list Z) : string := str_join "." (map fmt_dec os).

(** ** IPv6 *)

(** [read_groups]: up to [limit - i] groups, with the index [i] of the next
    one; the flag says an embedded IPv4 address ended the list. *)
Fixpoint read_groups (i : nat) (left : nat) (s : string) : list Z * bool * string :=
  match left with
  | O => ([], false, s)
  | S left' =>
      let v4 := match left' with
                | O => None
                | S _ => read_separator ":" i read_ipv4_addr s
                end in
      match v4 with
      | Some ([a; b; c; d], s) => ([a * 256 + b; c * 256 + d], true, s)
      | _ =>
          match read_separator ":" i (read_number 16 4 true 65535) s with
          | Some (g, s) =>
              let '(gs, b, s) := read_groups (S i) left' s in (g :: gs, b, s)
          | None => ([], false, s)
          end
      end
  end.

Definition read_ipv6_addr (s : string) : option (list Z * string) :=
  let '(head, head_ipv4, s) := read_groups 0 8 s in
  if (length head =? 8)%nat then Some (head, s)
  else if head_ipv4 then None
  else match read_given_char ":" s with
       | None => None
       | Some s =>
           match read_given_char ":" s with
           | None => None
           | Some s =>
               let '(tail, _, s) := read_groups 0 (8 - (length head + 1)) s in
               Some (head ++ replicate (8 - length head - length tail) 0 ++ tail, s)
           end
       end.

(** [s.parse::<Ipv6Addr>()]: the eight segments. *)
Definition parse_ipv6 (s : string) : option (list Z) :=
  match read_ipv6_addr s with
  | Some (gs, "") => Some gs
  | _ => None
  end.

(** The [Display] of [Ipv6Addr]: the first longest run of zero segments (of
    at least two) is written [::]; IPv4-mapped addresses end in dotted
    form.  A span is its start and length. *)
Fixpoint longest_zeros (i : nat) (cur best : nat * nat) (gs : list Z) : nat * nat :=
  match gs with
  | [] => best
  | g :: gs =>
      if g =? 0 then
        let cur := if (snd cur =? 0)%nat then (i, 1%nat) else (fst cur, S (snd cur)) in
        longest_zeros (S i) cur (if (snd best <? snd cur)%nat then cur else best) gs
      else longest_zeros (S i) (O, O) best gs
  end.

Definition to_ipv4_mapped (gs : list Z) : option (list Z) :=
  match gs with
  | [0; 0; 0; 0; 0; 65535; a; b] => Some [a / 256; a mod 256; b / 256; b mod 256]
  | _ => None
  end.

Definition fmt_ipv6 (gs : list Z) : string :=
  match to_ipv4_mapped gs with
  | Some os => "::ffff:" +:+ fmt_ipv4 os
  | None =>
      let '(start, len) := longest_zeros 0 (O, O) (O, O) gs in
      if (1 <? len)%nat then
        str_join ":" (map fmt_hex (take start gs)) +:+ "::"
        +:+ str_join ":" (map fmt_hex (drop (start + len) gs))
      else str_join ":" (map fmt_hex gs)
  end.

(** Address bytes and segments. *)
Definition segments_of (bs : bytes) : list Z :=
  match bs with
  | [a0; a1; b0; b1; c0; c1; d0; d1; e0; e1; f0; f1; g0; g1; h0; h1] =>
      [a0 * 256 + a1; b0 * 256 + b1; c0 * 256 + c1; d0 * 256 + d1;
       e0 * 256 + e1; f0 * 256 + f1; g0 * 256 + g1; h0 * 256 + h1]
  | _ => []
  end.

Definition octets_of_segments (gs : list Z) : bytes :=
  flat_map (fun g => [g / 256; g mod 256]) gs.

(** ** Lemmas: numbers *)

(** The text [s] does not continue a number in this radix. *)
Definition stops (radix : Z) (s : string) : bool :=
  match s with
  | "" => true
  | String c _ => match to_digit radix c with Some _ => false | None => true end
  end.

Lemma read_digits_app radix acc cnt ds rest :
  radix <= 36 -> Forall (fun d => 0 <= d < radix) ds -> stops radix rest = true ->
  read_digits radix acc cnt (string_of (map from_digit ds) +:+ rest)
  = (val_be radix acc ds, (cnt + length ds)%nat, rest).
Proof.
  intros Hr H Hs. revert acc cnt. induction H as [|d ds Hd H IH]; intros acc cnt; cbn.
  - rewrite Nat.add_0_r. destruct rest as [|c rest]; [done|]. cbn in *.
    by destruct (to_digit radix c).
  - rewrite to_digit_from_digit by done. rewrite IH. unfold val_be. cbn. f_equal. f_equal. lia.
Qed.

Lemma read_number_fmt radix max allow hi n rest :
  2 <= radix <= 36 -> 0 <= n <= hi -> n < radix ^ Z.of_nat max -> (1 <= max)%nat ->
  stops radix rest = true ->
  read_number radix max allow hi (fmt_radix radix n +:+ rest) = Some (n, rest).
Proof.
  intros Hr Hn Hmax Hm Hs. unfold read_number, fmt_radix.
  set (ds := rev (digits_le (digit_fuel n) radix n)).
  destruct (digits_le_spec (digit_fuel n) radix n ltac:(lia)) as (Hv & Hf & Hne).
  { apply digit_fuel_enough; lia. }
  rewrite read_digits_app; [|lia|by apply Forall_rev|done].
  subst ds. rewrite val_be_rev, Hv, length_rev. cbn [Nat.add].
  pose proof (digits_le_length (digit_fuel n) radix n max ltac:(lia) ltac:(lia) Hm) as Hlen.
  specialize (Hne ltac:(done)).
  destruct (digits_le (digit_fuel n) radix n) as [|d0 ds0] eqn:E; [done|].
  rewrite (proj2 (Nat.eqb_neq _ 0)) by (cbn; lia). cbn [orb].
  rewrite (proj2 (Nat.ltb_ge _ _)) by exact Hlen.
  rewrite (proj2 (Z.leb_le n hi)) by lia.
  destruct (decide (n = 0)) as [->|Hn0].
  - unfold digit_fuel in E. cbn in E. rewrite (proj2 (Z.ltb_lt 0 radix)) in E by lia.
    simplify_eq. cbn. by rewrite andb_false_r.
  - destruct (digits_le_last (digit_fuel n) radix n) as (ds' & d & E' & Hd); [lia| |].
    { split; [lia|]. apply digit_fuel_enough; lia. }
    rewrite E in E'. rewrite E', rev_app_distr. cbn.
    replace (Ascii.eqb (from_digit d) "0") with false; [by rewrite andb_false_r|].
    symmetry. apply Ascii.eqb_neq. intros Hc.
    pose proof (to_digit_from_digit 36 d ltac:(lia) ltac:(lia)) as Ht.
    rewrite Hc in Ht. vm_compute in Ht. injection Ht as <-. lia.
Qed.

(** ** Lemmas: IPv4 text round trip *)

#[local] Arguments read_number : simpl never.
#[local] Arguments fmt_dec : simpl never.
#[local] Arguments fmt_hex : simpl never.

Lemma stops_dot rest : stops 10 (String "." rest) = true.
Proof. done. Qed.

Lemma read_octet o rest :
  is_byte o -> stops 10 rest = true ->
  read_number 10 3 false 255 (fmt_dec o +:+ rest) = Some (o, rest).
Proof. intros [? ?] ?. apply read_number_fmt; try done; [lia..|]. change (10 ^ Z.of_nat 3) with 1000. lia. Qed.

Lemma read_ipv4_fmt os rest :
  length os = 4%nat -> Forall is_byte os -> stops 10 rest = true ->
  read_ipv4_addr (fmt_ipv4 os +:+ rest) = Some (os, rest).
Proof.
  intros Hl Hf Hs. destruct os as [|a [|b [|c [|d [|]]]]]; try done.
  inv Hf. inv H2. inv H4. inv H5.
  unfold read_ipv4_addr, fmt_ipv4. cbn [map str_join].
  rewrite !string_app_assoc. unfold read_octets, read_separator, read_given_char.
  rewrite read_octet by done. cbn. rewrite read_octet by done. cbn.
  rewrite read_octet by done. cbn. by rewrite read_octet.
Qed.

Lemma length_fmt_octet o : is_byte o -> (String.length (fmt_dec o) <= 3)%nat.
Proof.
  intros [? ?]. apply length_fmt_radix; [lia| |lia].
  change (10 ^ Z.of_nat 3) with 1000. lia.
Qed.

Lemma parse_fmt_ipv4 os :
  length os = 4%nat -> Forall is_byte os -> parse_ipv4 (fmt_ipv4 os) = Some os.
Proof.
  intros Hl Hf. unfold parse_ipv4.
  rewrite (proj2 (Nat.ltb_ge 15 _)).
  - rewrite <- (string_app_nil_r (fmt_ipv4 os)), read_ipv4_fmt by done. done.
  - destruct os as [|a [|b [|c [|d [|]]]]]; try done. inv Hf. inv H2. inv H4. inv H5.
    unfold fmt_ipv4. cbn [map str_join]. rewrite !length_string_app.
    repeat match goal with H : is_byte ?o |- _ => apply length_fmt_octet in H end.
    cbn [String.length]. lia.
Qed.

(** ** Lemmas: IPv6 text round trip *)

Definition is_segment (g : Z) : Prop := 0 <= g < 65536.

Lemma read_digits_suffix radix acc cnt s v n rest c :
  read_digits radix acc cnt s = (v, n, rest) ->
  str_contains c s = false -> str_contains c rest = false.
Proof.
  revert acc cnt. induction s as [|x s IH]; cbn; intros acc cnt H Hc; [by simplify_eq|].
  apply orb_false_iff in Hc as [Hx Hs].
  destruct (to_digit radix x); [by eapply IH|]. simplify_eq. cbn. by rewrite Hx, Hs.
Qed.

(** A text without a dot holds no IPv4 address. *)
Lemma read_ipv4_no_dot s : str_contains "." s = false -> read_ipv4_addr s = None.
Proof.
  intros Hs. unfold read_ipv4_addr. cbn [read_octets read_separator].
  destruct (read_number 10 3 false 255 s) as [[o rest]|] eqn:E; [|done].
  unfold read_number in E. destruct (read_digits 10 0 0 s) as [[v n] r] eqn:Ed.
  assert (r = rest) as -> by (repeat case_match; by simplify_eq).
  pose proof (read_digits_suffix _ _ _ _ _ _ _ _ Ed Hs) as Hr.
  destruct rest as [|c rest]; [done|]. cbn in Hr |- *.
  apply orb_false_iff in Hr as [-> _]. done.
Qed.

Lemma read_sep_ipv4_no_dot i s :
  str_contains "." s = false -> read_separator ":" i read_ipv4_addr s = None.
Proof.
  intros Hs. destruct i; cbn; [by apply read_ipv4_no_dot|].
  destruct s as [|c s]; cbn; [done|]. cbn in Hs. apply orb_false_iff in Hs as [_ Hs].
  destruct (Ascii.eqb c ":"); [by apply read_ipv4_no_dot|done].
Qed.

(** The text of groups [gs], the first with index [i]. *)
Fixpoint grp (i : nat) (gs : list Z) : string :=
  match gs with
  | [] => ""
  | g :: gs => (if (i =? 0)%nat then "" else ":") +:+ fmt_hex g +:+ grp (S i) gs
  end.

Lemma grp_join_cons g gs i :
  str_join ":" (fmt_hex g :: map fmt_hex gs) = fmt_hex g +:+ grp (S i) gs.
Proof.
  revert g i. induction gs as [|g' gs IH]; intros g i; [symmetry; apply string_app_nil_r|].
  change (str_join ":" (fmt_hex g :: map fmt_hex (g' :: gs)))
    with (fmt_hex g +:+ ":" +:+ str_join ":" (fmt_hex g' :: map fmt_hex gs)).
  by rewrite (IH g' (S i)).
Qed.

Lemma grp_join gs : str_join ":" (map fmt_hex gs) = grp 0 gs.
Proof. destruct gs as [|g gs]; [done|]. apply (grp_join_cons g gs 0). Qed.

Lemma grp_no_dot i gs : Forall is_segment gs -> str_contains "." (grp i gs) = false.
Proof.
  intros H. revert i. induction H as [|g gs Hg H IH]; intros i; cbn; [done|].
  rewrite !str_contains_app, IH, fmt_hex_no by (try done; unfold is_segment in Hg; lia).
  by destruct i.
Qed.

(** The text after a list of groups: nothing, or the zero run. *)
Definition grp_end (rest : string) : Prop := rest = "" \/ exists t, rest = "::" +:+ t.

Lemma grp_end_stops rest i gs :
  grp_end rest -> stops 16 (grp (S i) gs +:+ rest) = true.
Proof. intros [->|[t ->]]; destruct gs; done. Qed.

Lemma read_segment g rest :
  is_segment g -> stops 16 rest = true ->
  read_number 16 4 true 65535 (fmt_hex g +:+ rest) = Some (g, rest).
Proof.
  intros [? ?] ?. apply read_number_fmt; try done; [lia..|].
  change (16 ^ Z.of_nat 4) with 65536. lia.
Qed.

Lemma read_groups_end i left rest :
  grp_end rest -> str_contains "." rest = false -> read_groups i left rest = ([], false, rest).
Proof.
  intros He Hd. destruct left as [|left]; [done|]. cbn.
  destruct left; [|rewrite read_sep_ipv4_no_dot by done];
    destruct He as [->|[t ->]]; destruct i; done.
Qed.

Lemma read_groups_grp gs i left rest :
  Forall is_segment gs -> grp_end rest -> str_contains "." rest = false ->
  (length gs <= left)%nat -> read_groups i left (grp i gs +:+ rest) = (gs, false, rest).
Proof.
  intros H He Hd. revert i left. induction H as [|g gs Hg H IH]; intros i left Hl.
  { by apply read_groups_end. }
  destruct left as [|left]; cbn in Hl; [lia|].
  assert (read_separator ":" i (read_number 16 4 true 65535) (grp i (g :: gs) +:+ rest)
          = Some (g, grp (S i) gs +:+ rest)) as Hr.
  { cbn [grp]. destruct i; cbn; rewrite !string_app_assoc;
      by rewrite read_segment by (try done; by apply grp_end_stops). }
  assert (str_contains "." (grp i (g :: gs) +:+ rest) = false) as Hnd.
  { rewrite str_contains_app, Hd, grp_no_dot by (by constructor). done. }
  cbn [read_groups]. rewrite read_sep_ipv4_no_dot by done.
  destruct left; rewrite Hr, IH by lia; done.
Qed.

(** [longest_zeros] returns a run of zero segments. *)
Definition zrun (full : list Z) (sp : nat * nat) : Prop :=
  forall k, (fst sp <= k < fst sp + snd sp)%nat -> full !! k = Some 0.

Lemma longest_zeros_run pre gs cur best :
  zrun (pre ++ gs) cur -> (snd cur <> O -> fst cur + snd cur = length pre)%nat ->
  zrun (pre ++ gs) best ->
  zrun (pre ++ gs) (longest_zeros (length pre) cur best gs).
Proof.
  revert pre cur best. induction gs as [|g gs IH]; intros pre cur best Hc He Hb; cbn; [done|].
  replace (pre ++ g :: gs) with ((pre ++ [g]) ++ gs) in * by (by rewrite <- app_assoc).
  replace (S (length pre)) with (length (pre ++ [g])) by (rewrite length_app; cbn; lia).
  destruct (Z.eqb_spec g 0) as [->|].
  - set (cur' := if (snd cur =? 0)%nat then (length pre, 1%nat) else (fst cur, S (snd cur))).
    assert (zrun ((pre ++ [0]) ++ gs) cur' /\ (fst cur' + snd cur' = S (length pre))%nat) as [Hc' He'].
    { assert (((pre ++ [0]) ++ gs) !! length pre = Some 0) as Hg.
      { rewrite lookup_app_l by (rewrite length_app; cbn; lia).
        rewrite lookup_app_r, Nat.sub_diag by lia. done. }
      subst cur'. destruct (Nat.eqb_spec (snd cur) 0) as [E|E]; cbn.
      - split; [|lia]. intros k Hk. cbn in Hk. replace k with (length pre) by lia. done.
      - split; [|pose proof (He E); lia]. intros k Hk. cbn in Hk.
        destruct (decide (k = length pre)) as [->|]; [done|]. apply Hc. pose proof (He E). lia. }
    apply IH; [done| |by case_match].
    intros _. rewrite length_app. cbn. lia.
  - apply IH; [intros k Hk; cbn in Hk; lia|done|done].
Qed.

Lemma zrun_split full st len :
  zrun full (st, len) -> (0 < len)%nat ->
  full = take st full ++ replicate len 0 ++ drop (st + len) full /\
  (st + len <= length full)%nat.
Proof.
  intros H Hlen. pose proof (H (st + len - 1)%nat ltac:(cbn; lia)) as Hlast.
  apply lookup_lt_Some in Hlast. split; [|lia].
  rewrite <- (take_drop st full) at 1. f_equal.
  rewrite <- (take_drop len (drop st full)), drop_drop. f_equal.
  apply list_eq. intros k. destruct (decide (k < len)%nat).
  - rewrite lookup_take_lt, lookup_drop by done. rewrite H by (cbn; lia).
    symmetry. by apply lookup_replicate_2.
  - rewrite lookup_take_ge by lia. symmetry. apply lookup_ge_None_2. rewrite length_replicate. lia.
Qed.

Lemma longest_zeros_split gs :
  let '(st, len) := longest_zeros 0 (O, O) (O, O) gs in
  (1 < len)%nat ->
  gs = take st gs ++ replicate len 0 ++ drop (st + len) gs /\ (st + len <= length gs)%nat.
Proof.
  pose proof (longest_zeros_run [] gs (O, O) (O, O)) as H. cbn in H.
  destruct (longest_zeros 0 (O, O) (O, O) gs) as [st len]. intros Hlen.
  apply zrun_split; [|lia]. apply H; [intros k Hk; cbn in Hk; lia|done|intros k Hk; cbn in Hk; lia].
Qed.

Lemma read_ipv6_hex gs :
  length gs = 8%nat -> Forall is_segment gs ->
  parse_ipv6 (str_join ":" (map fmt_hex gs)) = Some gs.
Proof.
  intros Hl Hf. unfold parse_ipv6, read_ipv6_addr. rewrite grp_join.
  rewrite <- (string_app_nil_r (grp 0 gs)).
  rewrite read_groups_grp; [|done|by left|done|lia]. by rewrite Hl.
Qed.

Lemma read_ipv6_run hd len tl :
  Forall is_segment hd -> Forall is_segment tl -> (1 < len)%nat ->
  (length hd + len + length tl = 8)%nat ->
  parse_ipv6 (str_join ":" (map fmt_hex hd) +:+ "::" +:+ str_join ":" (map fmt_hex tl))
  = Some (hd ++ replicate len 0 ++ tl).
Proof.
  intros Hh Ht Hlen Hl. unfold parse_ipv6, read_ipv6_addr. rewrite !grp_join.
  rewrite read_groups_grp; [|done|by right; eexists| |lia].
  - rewrite (proj2 (Nat.eqb_neq _ 8)) by lia. cbn [read_given_char String.append Ascii.eqb].
    cbn. rewrite <- (string_app_nil_r (grp 0 tl)).
    rewrite read_groups_grp; [|done|by left|done|lia].
    do 4 f_equal. lia.
  - cbn. by apply grp_no_dot.
Qed.

Lemma read_ipv6_mapped a b :
  is_segment a -> is_segment b ->
  parse_ipv6 ("::ffff:" +:+ fmt_ipv4 [a / 256; a mod 256; b / 256; b mod 256])
  = Some [0; 0; 0; 0; 0; 65535; a; b].
Proof.
  intros [Ha Ha'] [Hb Hb'].
  assert (Forall is_byte [a / 256; a mod 256; b / 256; b mod 256]) as Hf.
  { repeat constructor; try apply Z.mod_pos_bound; try apply Z.div_pos;
      try apply Z.div_lt_upper_bound; lia. }
  set (os := [a / 256; a mod 256; b / 256; b mod 256]) in *.
  pose proof (read_ipv4_fmt os "" ltac:(done) Hf ltac:(done)) as H.
  rewrite string_app_nil_r in H. set (t := fmt_ipv4 os) in *. clearbody t.
  unfold parse_ipv6, read_ipv6_addr. cbn -[read_ipv4_addr read_groups].
  change (read_groups 0 8 _) with (@nil Z, false, "::ffff:" +:+ t).
  cbn -[read_ipv4_addr read_groups].
  assert (read_groups 0 7 ("ffff:" +:+ t)
          = ([65535; a / 256 * 256 + a mod 256; b / 256 * 256 + b mod 256], true, "")) as Hg.
  { assert (read_ipv4_addr ("ffff:" +:+ t) = None) as H4 by done.
    assert (read_number 16 4 true 65535 ("ffff:" +:+ t) = Some (65535, ":" +:+ t)) as Hn by done.
    cbn [read_groups read_separator]. rewrite H4, Hn. cbn -[read_ipv4_addr]. by rewrite H. }
  cbn [String.append] in Hg. rewrite Hg. cbn.
  rewrite (Z.mul_comm (a / 256)), (Z.mul_comm (b / 256)).
  by rewrite <- (Z.div_mod a 256), <- (Z.div_mod b 256).
Qed.

(** Every address is read back from its printed form. *)
Lemma parse_fmt_ipv6 gs :
  length gs = 8%nat -> Forall is_segment gs -> parse_ipv6 (fmt_ipv6 gs) = Some gs.
Proof.
  intros Hl Hf. unfold fmt_ipv6. destruct (to_ipv4_mapped gs) as [os|] eqn:E.
  - unfold to_ipv4_mapped in E. repeat case_match; simplify_eq.
    apply Forall_cons_1 in Hf as [_ Hf]. do 5 apply Forall_cons_1 in Hf as [_ Hf].
    inv Hf. inv H2. by apply read_ipv6_mapped.
  - pose proof (longest_zeros_split gs) as Hz.
    destruct (longest_zeros 0 (O, O) (O, O) gs) as [st len].
    destruct (Nat.ltb_spec 1 len) as [Hlen|]; [|by apply read_ipv6_hex].
    destruct (Hz Hlen) as [Heq Hle].
    rewrite read_ipv6_run with (len := len).
    + by rewrite <- Heq.
    + by apply Forall_take.
    + by apply Forall_drop.
    + done.
    + rewrite length_take, length_drop. lia.
Qed.

(** ** Lemmas: what the parsers accept is well-formed *)

Lemma to_digit_bound radix c d : to_digit radix c = Some d -> 0 <= d.
Proof.
  unfold to_digit. cbv zeta. repeat case_match; intros; simplify_eq; bool_to_prop; lia.
Qed.

Lemma read_digits_nonneg radix acc cnt s v n r :
  0 <= radix -> 0 <= acc -> read_digits radix acc cnt s = (v, n, r) -> 0 <= v.
Proof.
  intros Hr. revert acc cnt. induction s as [|c s IH]; intros acc cnt Ha H; cbn in H.
  - by simplify_eq.
  - destruct (to_digit radix c) as [d|] eqn:E; [|by simplify_eq].
    apply to_digit_bound in E. eapply IH; [|exact H]. nia.
Qed.

Lemma read_number_bound radix max allow hi s v r :
  0 <= radix -> read_number radix max allow hi s = Some (v, r) -> 0 <= v <= hi.
Proof.
  intros Hr. unfold read_number. destruct (read_digits radix 0 0 s) as [[v' n] r'] eqn:E.
  apply read_digits_nonneg in E; [|lia..].
  destruct (_ || _); [done|]. destruct (_ && _); [done|].
  destruct (v' <=? hi) eqn:Hh; intros; simplify_eq. bool_to_prop. lia.
Qed.

Lemma read_octets_typed i n s os r :
  read_octets i n s = Some (os, r) -> length os = n /\ Forall is_byte os.
Proof.
  revert i s os r. induction n as [|n IH]; intros i s os r H; cbn in H; [by simplify_eq|].
  destruct (read_separator "." i _ s) as [[o s']|] eqn:E; [|done].
  destruct (read_octets (S i) n s') as [[os' s'']|] eqn:E'; [|done]. simplify_eq.
  apply IH in E' as [<- Hb]. split; [done|]. constructor; [|done].
  unfold read_separator in E. repeat case_match; simplify_eq;
    apply read_number_bound in E; unfold is_byte; lia.
Qed.

Lemma parse_ipv4_typed s os : parse_ipv4 s = Some os -> length os = 4%nat /\ Forall is_byte os.
Proof.
  unfold parse_ipv4. destruct (15 <? _)%nat; [done|].
  destruct (read_ipv4_addr s) as [[os' [|]]|] eqn:E; intros; simplify_eq.
  by apply read_octets_typed in E.
Qed.

Lemma read_groups_typed i left s gs b r :
  read_groups i left s = (gs, b, r) -> (length gs <= left)%nat /\ Forall is_segment gs.
Proof.
  revert i s gs b r. induction left as [|left IH]; intros i s gs b r H; cbn in H.
  { simplify_eq. split; [cbn; lia|done]. }
  destruct left as [|left'].
  - destruct (read_separator ":" i _ s) as [[g s']|] eqn:E.
    + destruct (read_groups (S i) 0 s') as [[gs' b'] s''] eqn:E'.
      simplify_eq. apply IH in E' as [? ?]. split; [cbn; lia|]. constructor; [|done].
      unfold read_separator in E. repeat case_match; simplify_eq;
        apply read_number_bound in E; unfold is_segment; lia.
    + simplify_eq. split; [cbn; lia|done].
  - destruct (read_separator ":" i read_ipv4_addr s) as [[os s4]|] eqn:E4.
    + assert (length os = 4%nat /\ Forall is_byte os) as [Hl Hb].
      { unfold read_separator in E4. repeat case_match; simplify_eq;
          by apply read_octets_typed in E4. }
      destruct os as [|a [|b' [|c [|d [|]]]]]; try done. simplify_eq.
      split; [cbn; lia|]. unfold is_byte, is_segment in *.
      decompose_Forall_hyps. repeat constructor; lia.
    + destruct (read_separator ":" i (read_number 16 4 true 65535) s) as [[g s']|] eqn:E.
      * destruct (read_groups (S i) (S left') s') as [[gs' b'] s''] eqn:E'.
        simplify_eq. apply IH in E' as [? ?]. split; [cbn; lia|]. constructor; [|done].
        unfold read_separator in E. repeat case_match; simplify_eq;
          apply read_number_bound in E; unfold is_segment; lia.
      * simplify_eq. split; [cbn; lia|done].
Qed.

Lemma parse_ipv6_typed s gs : parse_ipv6 s = Some gs -> length gs = 8%nat /\ Forall is_segment gs.
Proof.
  unfold parse_ipv6, read_ipv6_addr.
  destruct (read_groups 0 8 s) as [[hd b] s1] eqn:E1. apply read_groups_typed in E1 as [Hl1 Hf1].
  destruct (length hd =? 8)%nat eqn:E8.
  { apply Nat.eqb_eq in E8. destruct s1; intros; by simplify_eq. }
  apply Nat.eqb_neq in E8. destruct b; [done|].
  destruct (read_given_char ":" s1) as [s2|]; [|done].
  destruct (read_given_char ":" s2) as [s3|]; [|done].
  destruct (read_groups 0 (8 - (length hd + 1)) s3) as [[tl b] s4] eqn:E2.
  apply read_groups_typed in E2 as [Hl2 Hf2].
  destruct s4; intros; simplify_eq. rewrite !length_app, length_replicate. split; [lia|].
  rewrite !Forall_app. split_and!; [done| |done]. apply Forall_replicate. unfold is_segment. lia.
Qed.

Lemma segments_of_typed bs :
  length bs = 16%nat -> Forall is_byte bs ->
  length (segments_of bs) = 8%nat /\ Forall is_segment (segments_of bs) /\
  octets_of_segments (segments_of bs) = bs.
Proof.
  intros Hl Hb. do 17 (destruct bs as [|? bs]; try done).
  decompose_Forall_hyps. unfold is_byte in *. cbn. split_and!; [done| |].
  - unfold is_segment. repeat constructor; lia.
  - repeat f_equal; try (rewrite Z.div_add_l by lia; rewrite Z.div_small; lia);
      rewrite Z.add_comm, Z_mod_plus_full; apply Z.mod_small; lia.
Qed.

Lemma octets_of_segments_typed gs :
  Forall is_segment gs ->
  length (octets_of_segments gs) = (2 * length gs)%nat /\ Forall is_byte (octets_of_segments gs).
Proof.
  unfold octets_of_segments. induction 1 as [|g gs Hg H [IHl IHf]]; [done|].
  cbn [flat_map app]. split; [cbn [length]; lia|]. unfold is_segment in Hg.
  constructor; [|constructor; [|done]]; unfold is_byte.
  - split; [apply Z.div_pos; lia|apply Z.div_lt_upper_bound; lia].
  - apply Z.mod_pos_bound. lia.
Qed.

(** The characters of an address, and of a network. *)
Definition addr_char (c : ascii) : bool := is_alnum c || Ascii.eqb c "." || Ascii.eqb c ":".
Definition net_char (c : ascii) : bool := addr_char c || Ascii.eqb c "/".

Lemma str_all_join p sep parts :
  str_all p sep = true -> Forall (fun s => str_all p s = true) parts ->
  str_all p (str_join sep parts) = true.
Proof.
  intros Hs. induction 1 as [|q parts Hq H IH]; [done|].
  destruct parts as [|r parts]; [done|]. cbn [str_join] in *.
  by rewrite !str_all_app, Hq, Hs, IH.
Qed.

Lemma fmt_radix_addr radix n :
  2 <= radix <= 36 -> 0 <= n -> str_all addr_char (fmt_radix radix n) = true.
Proof.
  intros. apply (str_all_mono is_alnum); [|by apply fmt_radix_alnum].
  intros c Hc. unfold addr_char. by rewrite Hc.
Qed.

Lemma join_hex_chars gs :
  Forall is_segment gs -> str_all addr_char (str_join ":" (map fmt_hex gs)) = true.
Proof.
  intros H. apply str_all_join; [done|]. apply Forall_map. revert H. apply Forall_impl.
  intros g Hg. apply fmt_radix_addr; [lia|unfold is_segment in Hg; lia].
Qed.

Lemma fmt_ipv4_chars os : Forall (fun o => 0 <= o) os -> str_all addr_char (fmt_ipv4 os) = true.
Proof.
  intros H. apply str_all_join; [done|]. apply Forall_map. revert H. apply Forall_impl.
  intros o Ho. apply fmt_radix_addr; lia.
Qed.

Lemma fmt_ipv6_chars gs :
  length gs = 8%nat -> Forall is_segment gs -> str_all addr_char (fmt_ipv6 gs) = true.
Proof.
  intros Hl Hf. unfold fmt_ipv6. destruct (to_ipv4_mapped gs) as [os|] eqn:E.
  - do 9 (destruct gs as [|? gs]; try done). decompose_Forall_hyps.
    unfold to_ipv4_mapped, is_segment in *. repeat case_match; simplify_eq.
    cbn -[fmt_ipv4]. apply fmt_ipv4_chars.
    repeat constructor; try (apply Z.div_pos; lia); apply Z.mod_pos_bound; lia.
  - destruct (longest_zeros _ _ _ gs) as [st ln]. destruct (1 <? ln)%nat.
    + rewrite !str_all_app, !join_hex_chars; [done|by apply Forall_drop|by apply Forall_take].
    + by apply join_hex_chars.
Qed.

Lemma net_text_chars addr plen :
  str_all addr_char addr = true -> 0 <= plen ->
  str_all net_char (addr +:+ "/" +:+ fmt_dec plen) = true.
Proof.
  assert (Hm : forall s, str_all addr_char s = true -> str_all net_char s = true).
  { intros s. apply str_all_mono. intros c Hc. unfold net_char. by rewrite Hc. }
  intros Ha Hp. rewrite !str_all_app, (Hm addr), (Hm (fmt_dec plen)); [done| |done].
  apply fmt_radix_addr; lia.
Qed.
