(* ===== verification/IpNet.v ===== *)
(** * [ip/ipnet.rs]: IPv4 addresses and networks

    An [IP4] is its [u32] value; an [IP4Net] an address and a prefix length.
    Shifts and wrapping operations are written as the code writes them; the
    theorems relate them to the intervals of addresses of [Cidr]. *)

From S2P Require Import Prelude RustStr StdNet Cidr.
#[local] Open Scope string_scope.
#[local] Open Scope list_scope.
#[local] Open Scope Z_scope.

Abbreviation IP4 := Z (only parsing).

Record IP4Net := mkIP4Net { ip4n_ip : IP4; ip4n_plen : Z }.

#[global] Instance IP4Net_eq_dec : EqDecision IP4Net.
Proof. solve_decision. Defined.

Definition IP4Net_default : IP4Net := mkIP4Net 0 0.

Inductive IP4ParseError :=
| IP4InvalidAddr (s : string)
| IP4InvalidNet (s : string).

(** ** [impl IP4] *)

Definition IP4_from_octets (a b c d : Z) : IP4 :=
  Z.lor (Z.lor (Z.lor (Z.shiftl a 24) (Z.shiftl b 16)) (Z.shiftl c 8)) d.

Definition IP4_from_bytes (bs : bytes) : IP4 := from_be bs.

Definition IP4_octets (ip : IP4) : bytes := to_be 4 ip.

Definition IP4_string_sep (sep : string) (ip : IP4) : string :=
  str_join sep (map fmt_dec (IP4_octets ip)).

Definition IP4_is_private (ip : IP4) : bool :=
  match IP4_octets ip with
  | a :: b :: _ =>
      (a =? 10) || ((a =? 172) && (Z.land b 240 =? 16)) || ((a =? 192) && (b =? 168))
  | _ => false
  end.

(** [Display for IP4] *)
Definition IP4_fmt (ip : IP4) : string := fmt_ipv4 (IP4_octets ip).

(** [FromStr for IP4] *)
Definition IP4_from_str (s : string) : result IP4 IP4ParseError :=
  match parse_ipv4 s with
  | None => Err (IP4InvalidAddr s)
  | Some os => Ok (from_be os)
  end.

(** ** [impl IP4Net] *)

Definition subnet_size (prefix_len : Z) : Z :=
  if (prefix_len =? 0) || (32 <? prefix_len) then 0 else Z.shiftl 1 (32 - prefix_len).

Definition mask_value (bits : Z) : Z :=
  if (bits =? 0) || (32 <? bits) then 0 else wrap 32 (Z.shiftl u32_MAX (32 - bits)).

Definition IP4Net_mask (n : IP4Net) : Z := mask_value (ip4n_plen n).

Definition IP4Net_string_sep (octet_sep prefix_sep : string) (n : IP4Net) : string :=
  IP4_string_sep octet_sep (ip4n_ip n) +:+ prefix_sep +:+ fmt_dec (ip4n_plen n).

Definition IP4Net_network (n : IP4Net) : IP4Net :=
  mkIP4Net (Z.land (ip4n_ip n) (IP4Net_mask n)) (ip4n_plen n).

Definition IP4Net_clear_host_bits (n : IP4Net) : IP4Net := IP4Net_network n.

Definition IP4Net_next (n : IP4Net) : IP4Net :=
  mkIP4Net (wrap 32 (ip4n_ip n + subnet_size (ip4n_plen n))) (ip4n_plen n).

(** [self.ip.0 += 1]: with overflow checks (a debug build) an overflow
    panics ([None]); without them (the release profile) it wraps. *)
Definition IP4Net_increment_ip (overflow_checks : bool) (n : IP4Net) : option IP4Net :=
  if overflow_checks && (ip4n_ip n =? u32_MAX) then None
  else Some (mkIP4Net (wrap 32 (ip4n_ip n + 1)) (ip4n_plen n)).

Definition IP4Net_overlaps (n other : IP4Net) : bool :=
  let m := if ip4n_plen n <? ip4n_plen other then IP4Net_mask n else IP4Net_mask other in
  Z.land (ip4n_ip n) m =? Z.land (ip4n_ip other) m.

Definition IP4Net_contains (n : IP4Net) (ip : IP4) : bool :=
  Z.land (ip4n_ip n) (IP4Net_mask n) =? Z.land ip (IP4Net_mask n).

Definition IP4Net_contains_cidr (n other : IP4Net) : bool :=
  (IP4Net_mask n <=? IP4Net_mask other) && IP4Net_contains n (ip4n_ip other).

Definition IP4Net_empty (n : IP4Net) : bool := (ip4n_ip n =? 0) && (ip4n_plen n =? 0).

(** [!mask] complements within 32 bits. *)
Definition IP4Net_broadcast (n : IP4Net) : IP4 :=
  Z.lor (ip4n_ip n) (u32_MAX - IP4Net_mask n).

(** [Display for IP4Net] *)
Definition IP4Net_fmt (n : IP4Net) : string :=
  IP4_fmt (ip4n_ip n) +:+ "/" +:+ fmt_dec (ip4n_plen n).

(** [FromStr for IP4Net] *)
Definition IP4Net_from_str (s : string) : result IP4Net IP4ParseError :=
  let? (addr, prefix) := ok_or (split_once "/" s) (IP4InvalidNet s) in
  let? prefix_len := map_err (fun _ => IP4InvalidNet s) (parse_u32 prefix) in
  if 32 <? prefix_len then Err (IP4InvalidNet s)
  else
    let? ip := IP4_from_str addr in
    Ok (IP4Net_network (mkIP4Net ip prefix_len)).

Definition map_ip4_to_string (nws : list IP4Net) : list string := map IP4Net_fmt nws.

(** ** Free functions *)

Definition get_subnet_min (network : IP4) (subnet_size : Z) : IP4 :=
  wrap 32 (network + subnet_size).

Definition get_subnet_max (network : IP4) (subnet_size : Z) : IP4 :=
  wrap 32 (network - subnet_size).

Definition mask (bits : Z) : IP4 := mask_value bits.

Definition check_subnet (subnet mask : IP4) : bool := Z.land subnet mask =? subnet.

(** ** Well-formedness *)

(** The type's own invariant: both fields are [u32]s. *)
Definition IP4Net_typed (n : IP4Net) : Prop := u32 (ip4n_ip n) /\ u32 (ip4n_plen n).

(** A real prefix length, as [from_str] guarantees. *)
Definition IP4Net_valid (n : IP4Net) : Prop := u32 (ip4n_ip n) /\ 0 <= ip4n_plen n <= 32.

#[global] Instance IP4Net_valid_dec n : Decision (IP4Net_valid n).
Proof. unfold IP4Net_valid. apply _. Defined.

#[global] Arguments IP4_fmt : simpl never.
#[global] Arguments IP4_from_str : simpl never.

(** ** Lemmas *)

Lemma mask_value_of bits : mask_value bits = mask_of 32 bits.
Proof. reflexivity. Qed.

Lemma subnet_size_of bits : subnet_size bits = size_of 32 bits.
Proof. reflexivity. Qed.

Lemma IP4Net_network_base n :
  IP4Net_valid n -> ip4n_ip (IP4Net_network n) = block_base 32 (ip4n_plen n) (ip4n_ip n).
Proof. intros [? ?]. cbn. unfold IP4Net_mask. rewrite mask_value_of. by apply land_mask_of. Qed.

Lemma IP4Net_network_valid n : IP4Net_valid n -> IP4Net_valid (IP4Net_network n).
Proof.
  intros H. split; [|apply H]. rewrite IP4Net_network_base by done.
  destruct H. by apply block_base_wf.
Qed.

Lemma IP4Net_network_idem n : IP4Net_network (IP4Net_network n) = IP4Net_network n.
Proof.
  unfold IP4Net_network, IP4Net_mask. cbn. f_equal.
  by rewrite <- Z.land_assoc, Z.land_diag.
Qed.

Lemma IP4Net_network_plen n : ip4n_plen (IP4Net_network n) = ip4n_plen n.
Proof. done. Qed.

#[global] Program Instance IP4Net_cidr : CidrNet IP4Net Z := {|
  cn_width := 32;
  cn_addr := ip4n_ip;
  cn_plen := ip4n_plen;
  cn_val := id;
  cn_wf := IP4Net_valid;
  cn_addr_wf := in_width 32;
  cn_contains := IP4Net_contains;
  cn_contains_cidr := IP4Net_contains_cidr;
  cn_overlaps := IP4Net_overlaps;
  cn_network := IP4Net_network |}.
Next Obligation.
  intros n x [Hi Hp] Hx. exists x. split; [|done]. by eapply in_block_width.
Qed.
Next Obligation.
  intros n a [Hi Hp] Ha. by apply land_mask_eq.
Qed.
Next Obligation.
  intros n m [Hi Hp] [Hi' Hp']. by apply (masked_subset 32).
Qed.
Next Obligation.
  intros n m [Hi Hp] [Hi' Hp']. by apply (masked_overlap 32).
Qed.

Lemma IP4_octets_length ip : length (IP4_octets ip) = 4%nat.
Proof. apply length_to_be. Qed.

Lemma IP4_octets_value ip : u32 ip -> from_be (IP4_octets ip) = ip.
Proof. intros H. unfold IP4_octets. rewrite from_be_to_be. by apply Z.mod_small. Qed.

Lemma IP4_fmt_chars ip : str_all addr_char (IP4_fmt ip) = true.
Proof.
  apply fmt_ipv4_chars. eapply Forall_impl; [|apply to_be_bytes].
  intros b [? ?]. done.
Qed.

Lemma IP4Net_fmt_chars n : 0 <= ip4n_plen n -> str_all net_char (IP4Net_fmt n) = true.
Proof. intros. apply net_text_chars; [apply IP4_fmt_chars|done]. Qed.

Lemma IP4_from_str_fmt ip : u32 ip -> IP4_from_str (IP4_fmt ip) = Ok ip.
Proof.
  intros H. unfold IP4_from_str, IP4_fmt.
  rewrite parse_fmt_ipv4 by (apply IP4_octets_length || apply to_be_bytes).
  by rewrite IP4_octets_value.
Qed.

Lemma IP4Net_from_str_fmt n :
  IP4Net_valid n -> IP4Net_from_str (IP4Net_fmt n) = Ok (IP4Net_network n).
Proof.
  intros [Hi Hp]. unfold IP4Net_from_str, IP4Net_fmt. cbn [String.append].
  rewrite split_once_app by (by eapply str_all_contains; [apply IP4_fmt_chars|]). cbn.
  rewrite parse_u32_fmt by (split; lia). cbn.
  rewrite (proj2 (Z.ltb_ge 32 _)) by lia. rewrite IP4_from_str_fmt by done.
  by destruct n.
Qed.

Lemma IP4_from_str_typed s ip : IP4_from_str s = Ok ip -> u32 ip.
Proof.
  unfold IP4_from_str. destruct (parse_ipv4 s) as [os|] eqn:E; intros; simplify_eq.
  apply parse_ipv4_typed in E as [Hl Hb]. pose proof (from_be_bound os Hb) as H.
  rewrite Hl in H. exact H.
Qed.

Lemma IP4Net_from_str_inv s n :
  IP4Net_from_str s = Ok n ->
  exists addr prefix ip plen,
    split_once "/" s = Some (addr, prefix) /\ parse_u32 prefix = Ok plen /\
    IP4_from_str addr = Ok ip /\ plen <= 32 /\ n = IP4Net_network (mkIP4Net ip plen).
Proof.
  unfold IP4Net_from_str. destruct (split_once "/" s) as [[addr prefix]|] eqn:E1; [|done]. cbn.
  destruct (parse_u32 prefix) as [plen|] eqn:E2; [|done]. cbn.
  destruct (32 <? plen) eqn:E3; [done|].
  destruct (IP4_from_str addr) as [ip|] eqn:E4; [|done]. cbn.
  intros. simplify_eq. bool_to_prop. naive_solver.
Qed.

Lemma IP4Net_from_str_valid s n :
  IP4Net_from_str s = Ok n -> IP4Net_valid n /\ IP4Net_network n = n.
Proof.
  intros (addr & prefix & ip & plen & _ & Hp & Hi & Hle & ->)%IP4Net_from_str_inv.
  rewrite IP4Net_network_idem. split; [|done]. apply IP4Net_network_valid.
  apply IP4_from_str_typed in Hi. apply parse_u32_typed in Hp. unfold in_width in Hp. split; cbn; [done|lia].
Qed.

Lemma IP4Net_broadcast_value n :
  IP4Net_valid n ->
  IP4Net_broadcast n = ip4n_ip (IP4Net_network n) + 2 ^ (32 - ip4n_plen n) - 1.
Proof.
  intros H. rewrite IP4Net_network_base by done. destruct H as [Hi Hp].
  unfold IP4Net_broadcast, IP4Net_mask. rewrite mask_value_of, mask_of_value by lia.
  replace (u32_MAX - (2 ^ 32 - 2 ^ (32 - ip4n_plen n))) with (Z.ones (32 - ip4n_plen n)).
  - rewrite lor_ones_block by lia. unfold block_base. rewrite Z.ones_equiv. lia.
  - rewrite Z.ones_equiv. unfold u32_MAX. lia.
Qed.

Lemma IP4Net_contains_block n ip :
  IP4Net_valid n -> u32 ip ->
  IP4Net_contains n ip = true <-> in_block 32 (ip4n_plen n) (ip4n_ip n) ip.
Proof. apply (cn_contains_spec (CidrNet := IP4Net_cidr)). Qed.

Lemma IP4Net_overlaps_block n m :
  IP4Net_valid n -> IP4Net_valid m ->
  IP4Net_overlaps n m = true <->
  exists x, in_block 32 (ip4n_plen n) (ip4n_ip n) x /\ in_block 32 (ip4n_plen m) (ip4n_ip m) x.
Proof. apply (cn_overlaps_spec (CidrNet := IP4Net_cidr)). Qed.

(** ** Properties *)

(** Parsing an IPv4 CIDR yields a network with its host bits cleared and
    a prefix of at most 32, in the canonical form that printing and parsing
    again give back; the prefix is the number after the slash and the address
    is the parsed one masked to it. *)
Theorem ip4net_from_str_canonical s n :
  IP4Net_from_str s = Ok n ->
  IP4Net_valid n /\ IP4Net_network n = n /\ IP4Net_from_str (IP4Net_fmt n) = Ok n /\
  exists addr prefix ip,
    split_once "/" s = Some (addr, prefix) /\ parse_u32 prefix = Ok (ip4n_plen n) /\
    IP4_from_str addr = Ok ip /\ IP4Net_contains n ip = true.
Proof.
  intros H. pose proof (IP4Net_from_str_valid s n H) as [Hv Hn]. split_and!; [done..| |].
  - by rewrite IP4Net_from_str_fmt, Hn.
  - apply IP4Net_from_str_inv in H as (addr & prefix & ip & plen & H1 & H2 & H3 & Hle & ->).
    exists addr, prefix, ip. split_and!; [done..|].
    unfold IP4Net_contains. cbn. apply Z.eqb_eq. by rewrite <- Z.land_assoc, Z.land_diag.
Qed.

Lemma ip4net_from_str_canonical_witness :
  IP4Net_from_str "10.5.33.7/16" = Ok (mkIP4Net (IP4_from_octets 10 5 0 0) 16) /\
  IP4Net_valid (mkIP4Net (IP4_from_octets 10 5 0 0) 16).
Proof.
  split; [by vm_compute|].
  apply (ip4net_from_str_canonical "10.5.33.7/16" (mkIP4Net (IP4_from_octets 10 5 0 0) 16)).
  by vm_compute.
Defined.

(** An address belongs to an IPv4 network exactly when it lies between
    the network address and the broadcast address. *)
Theorem ip4net_contains_interval n ip :
  IP4Net_valid n -> u32 ip ->
  IP4Net_contains n ip = true <-> ip4n_ip (IP4Net_network n) <= ip <= IP4Net_broadcast n.
Proof.
  intros Hn Hip. rewrite IP4Net_contains_block by done. unfold in_block.
  rewrite IP4Net_broadcast_value, IP4Net_network_base by done. lia.
Qed.

Lemma ip4net_contains_interval_witness :
  IP4Net_contains (mkIP4Net 167772161 8) 184549375 = true.
Proof.
  apply (ip4net_contains_interval (mkIP4Net 167772161 8) 184549375);
    [split; cbn; [by vm_compute|lia]|by vm_compute|by vm_compute].
Defined.

(** Inclusion and overlap of IPv4 networks, computed on masks, are those
    of their sets of addresses. *)
Theorem ip4net_inclusion_overlap n m :
  IP4Net_valid n -> IP4Net_valid m ->
  (IP4Net_contains_cidr n m = true <->
   forall a, u32 a -> IP4Net_contains m a = true -> IP4Net_contains n a = true) /\
  (IP4Net_overlaps n m = true <->
   exists a, u32 a /\ IP4Net_contains n a = true /\ IP4Net_contains m a = true).
Proof. intros Hn Hm. split.
  - by apply (contains_cidr_iff (CidrNet0 := IP4Net_cidr)).
  - by apply (overlaps_iff (CidrNet0 := IP4Net_cidr)). Qed.

Lemma ip4net_inclusion_overlap_witness :
  IP4Net_contains_cidr (mkIP4Net 167772160 8) (mkIP4Net 168099840 24) = true /\
  IP4Net_contains (mkIP4Net 167772160 8) 168099841 = true.
Proof.
  assert (H : IP4Net_contains_cidr (mkIP4Net 167772160 8) (mkIP4Net 168099840 24) = true) by by vm_compute.
  split; [exact H|].
  refine (proj1 (proj1 (ip4net_inclusion_overlap (mkIP4Net 167772160 8) (mkIP4Net 168099840 24) _ _))
            H 168099841 _ _); [split; cbn; [by vm_compute|lia]..|by vm_compute|by vm_compute].
Defined.

(** C38: [next] is the adjacent sibling network: below the top of the address
    space it starts right after the broadcast address and shares no address
    with its predecessor; at the top it wraps to the start. *)
Theorem ip4net_next_adjacent n :
  IP4Net_valid n -> 1 <= ip4n_plen n ->
  let m := IP4Net_next n in
  IP4Net_valid m /\ ip4n_plen m = ip4n_plen n /\ IP4Net_overlaps n m = false /\
  ip4n_ip (IP4Net_network m) = wrap 32 (IP4Net_broadcast n + 1).
Proof.
  intros Hn Hp m. pose proof Hn as [Hi Hp'].
  assert (Hm : ip4n_ip m = wrap 32 (ip4n_ip n + 2 ^ (32 - ip4n_plen n))).
  { subst m. cbn. by rewrite subnet_size_of, size_of_value by lia. }
  assert (Hpl : ip4n_plen m = ip4n_plen n) by done.
  assert (Hv : IP4Net_valid m).
  { split; [rewrite Hm; by apply wrap_in_width|lia]. }
  pose proof (block_base_next 32 ltac:(lia) (ip4n_plen n) (ip4n_ip n) ltac:(lia) Hi) as [Hb Hne].
  assert (Hbase : ip4n_ip (IP4Net_network m) = wrap 32 (IP4Net_broadcast n + 1)).
  { rewrite IP4Net_network_base, IP4Net_broadcast_value, IP4Net_network_base by done.
    rewrite Hm, Hpl, Hb. f_equal. lia. }
  split_and!; [done..| |done].
  apply not_true_iff_false. rewrite IP4Net_overlaps_block, Hpl, Hm by done.
  intros (x & H1 & H2). apply block_base_eq in H1, H2; [|lia..]. congruence.
Qed.

Lemma ip4net_next_adjacent_witness :
  IP4Net_overlaps (mkIP4Net 4294967040 24) (mkIP4Net 0 24) = false.
Proof.
  refine (proj1 (proj2 (proj2 (ip4net_next_adjacent (mkIP4Net 4294967040 24) _ _))));
    [split; cbn; [by vm_compute|lia]|cbn; lia].
Defined.
