(* ===== verification/Ip6Net.v ===== *)
(** * [ip/ip6net.rs]: IPv6 addresses and networks

    An [IP6] is its array of sixteen big-endian bytes, as in the code; the
    arithmetic goes through the [u128] value of those bytes. *)

From S2P Require Import Prelude RustStr StdNet Cidr.
#[local] Open Scope string_scope.
#[local] Open Scope list_scope.
#[local] Open Scope Z_scope.

Abbreviation IP6 := (list Z) (only parsing).

Record IP6Net := mkIP6Net { ip6n_ip : IP6; ip6n_plen : Z }.

#[global] Instance IP6Net_eq_dec : EqDecision IP6Net.
Proof. solve_decision. Defined.

Definition IP6_zero : IP6 := replicate 16 0.
Definition IP6Net_default : IP6Net := mkIP6Net IP6_zero 0.

Inductive IP6ParseError :=
| IP6InvalidAddr (s : string)
| IP6InvalidNet (s : string).

Definition ip6_value (ip : IP6) : Z := from_be ip.
Definition ip6_from_value (v : Z) : IP6 := to_be 16 v.

(** ** [impl IP6] *)

Definition IP6_is_private (ip : IP6) : bool :=
  match ip with b :: _ => Z.land b 254 =? 252 | [] => false end.

(** [Display for IP6] *)
Definition IP6_fmt (ip : IP6) : string := fmt_ipv6 (segments_of ip).

(** [FromStr for IP6] *)
Definition IP6_from_str (s : string) : result IP6 IP6ParseError :=
  match parse_ipv6 s with
  | None => Err (IP6InvalidAddr s)
  | Some gs => Ok (octets_of_segments gs)
  end.

(** ** Free functions *)

Definition IP6_is_empty (subnet : IP6) : bool := bool_decide (subnet = IP6_zero).

Definition get_ipv6_subnet_min (network_ip : IP6) (subnet_size : Z) : IP6 :=
  ip6_from_value (wrap 128 (ip6_value network_ip + subnet_size)).

Definition get_ipv6_subnet_max (network_ip : IP6) (subnet_size : Z) : IP6 :=
  ip6_from_value (wrap 128 (ip6_value network_ip - subnet_size)).

Definition check_ipv6_subnet (subnet_ip mask : IP6) : bool :=
  let subnet := ip6_value subnet_ip in
  Z.land subnet (ip6_value mask) =? subnet.

Definition mask6 (bits : Z) : IP6 :=
  if (bits =? 0) || (128 <? bits) then IP6_zero
  else to_be 16 (wrap 128 (Z.shiftl u128_MAX (128 - bits))).

Definition subnet_size6 (prefix_len : Z) : Z :=
  if (prefix_len =? 0) || (128 <? prefix_len) then 0 else Z.shiftl 1 (128 - prefix_len).

(** ** [impl IP6Net] *)

Definition IP6Net_mask (n : IP6Net) : IP6 := mask6 (ip6n_plen n).

Definition IP6Net_string_sep (hex_sep prefix_sep : string) (n : IP6Net) : string :=
  IP6_fmt (ip6n_ip n) +:+ prefix_sep +:+ fmt_dec (ip6n_plen n).

Definition IP6Net_network (n : IP6Net) : IP6Net :=
  mkIP6Net
    (ip6_from_value (Z.land (ip6_value (ip6n_ip n)) (ip6_value (IP6Net_mask n))))
    (ip6n_plen n).

Definition IP6Net_clear_host_bits (n : IP6Net) : IP6Net := IP6Net_network n.

Definition IP6Net_next (n : IP6Net) : IP6Net :=
  mkIP6Net
    (ip6_from_value (wrap 128 (ip6_value (ip6n_ip n) + subnet_size6 (ip6n_plen n))))
    (ip6n_plen n).

Definition IP6Net_increment_ip (n : IP6Net) : IP6Net :=
  mkIP6Net (ip6_from_value (wrap 128 (ip6_value (ip6n_ip n) + 1))) (ip6n_plen n).

Definition IP6Net_overlaps (n other : IP6Net) : bool :=
  let m := if ip6n_plen n <? ip6n_plen other
           then ip6_value (IP6Net_mask n) else ip6_value (IP6Net_mask other) in
  Z.land (ip6_value (ip6n_ip n)) m =? Z.land (ip6_value (ip6n_ip other)) m.

Definition IP6Net_contains (n : IP6Net) (ip : IP6) : bool :=
  let m := ip6_value (IP6Net_mask n) in
  Z.land (ip6_value (ip6n_ip n)) m =? Z.land (ip6_value ip) m.

Definition IP6Net_contains_cidr (n other : IP6Net) : bool :=
  (ip6_value (IP6Net_mask n) <=? ip6_value (IP6Net_mask other))
  && IP6Net_contains n (ip6n_ip other).

Definition IP6Net_empty (n : IP6Net) : bool := IP6_is_empty (ip6n_ip n) && (ip6n_plen n =? 0).

(** [Display for IP6Net] *)
Definition IP6Net_fmt (n : IP6Net) : string :=
  IP6_fmt (ip6n_ip n) +:+ "/" +:+ fmt_dec (ip6n_plen n).

(** [FromStr for IP6Net] *)
Definition IP6Net_from_str (s : string) : result IP6Net IP6ParseError :=
  let? (addr, prefix) := ok_or (split_once "/" s) (IP6InvalidNet s) in
  let? prefix_len := map_err (fun _ => IP6InvalidNet s) (parse_u32 prefix) in
  if 128 <? prefix_len then Err (IP6InvalidNet s)
  else
    let? ip := IP6_from_str addr in
    Ok (IP6Net_network (mkIP6Net ip prefix_len)).

Definition map_ip6_to_string (nws : list IP6Net) : list string := map IP6Net_fmt nws.

(** ** Well-formedness *)

(** The array type: sixteen bytes. *)
Definition IP6_typed (ip : IP6) : Prop := length ip = 16%nat /\ Forall is_byte ip.

Definition IP6Net_valid (n : IP6Net) : Prop := IP6_typed (ip6n_ip n) /\ 0 <= ip6n_plen n <= 128.

#[global] Instance IP6Net_valid_dec n : Decision (IP6Net_valid n).
Proof. unfold IP6Net_valid, IP6_typed. apply _. Defined.

#[global] Arguments IP6_fmt : simpl never.
#[global] Arguments IP6_from_str : simpl never.
#[global] Arguments ip6_value : simpl never.
#[global] Arguments ip6_from_value : simpl never.
#[global] Arguments mask6 : simpl never.

(** ** Lemmas *)

Lemma ip6_value_bound ip : IP6_typed ip -> u128 (ip6_value ip).
Proof.
  intros [Hl Hb]. unfold ip6_value. pose proof (from_be_bound ip Hb) as H.
  rewrite Hl in H. exact H.
Qed.

Lemma ip6_from_value_typed v : IP6_typed (ip6_from_value v).
Proof. split; [apply length_to_be|apply to_be_bytes]. Qed.

Lemma ip6_value_from_value v : u128 v -> ip6_value (ip6_from_value v) = v.
Proof.
  intros H. unfold ip6_value, ip6_from_value. rewrite from_be_to_be. by apply Z.mod_small.
Qed.

Lemma ip6_from_value_value ip : IP6_typed ip -> ip6_from_value (ip6_value ip) = ip.
Proof.
  intros [Hl Hb]. unfold ip6_value, ip6_from_value.
  replace 16%nat with (length ip). by apply to_be_from_be.
Qed.

Lemma mask6_of bits : 0 <= bits <= 128 -> ip6_value (mask6 bits) = mask_of 128 bits.
Proof.
  intros H. unfold mask6, mask_of. destruct (_ || _); [done|].
  fold (ip6_from_value (wrap 128 (Z.shiftl u128_MAX (128 - bits)))).
  rewrite ip6_value_from_value; [done|]. by apply wrap_in_width.
Qed.

Lemma IP6Net_network_base n :
  IP6Net_valid n ->
  ip6n_ip (IP6Net_network n) =
  ip6_from_value (block_base 128 (ip6n_plen n) (ip6_value (ip6n_ip n))).
Proof.
  intros [Hi Hp]. cbn. f_equal. unfold IP6Net_mask. rewrite mask6_of by done.
  apply land_mask_of; [lia|done|by apply ip6_value_bound].
Qed.

Lemma IP6Net_network_valid n : IP6Net_valid n -> IP6Net_valid (IP6Net_network n).
Proof. intros [? ?]. split; [apply ip6_from_value_typed|done]. Qed.

Lemma IP6Net_network_idem n :
  IP6Net_valid n -> IP6Net_network (IP6Net_network n) = IP6Net_network n.
Proof.
  intros Hv. unfold IP6Net_network at 1 3. f_equal. f_equal.
  change (IP6Net_mask (IP6Net_network n)) with (IP6Net_mask n). cbn.
  assert (0 <= ip6_value (ip6n_ip n)) by (apply ip6_value_bound, Hv).
  rewrite ip6_value_from_value; [by rewrite <- Z.land_assoc, Z.land_diag|].
  destruct Hv as [Hi Hp]. unfold IP6Net_mask. rewrite mask6_of, land_mask_of by (done || lia || by apply ip6_value_bound).
  apply block_base_wf; [lia..|by apply ip6_value_bound].
Qed.

Lemma ip6_at_bound n : IP6Net_valid n -> in_width 128 (ip6_value (ip6n_ip n)).
Proof. intros [? _]. by apply ip6_value_bound. Qed.

#[global] Program Instance IP6Net_cidr : CidrNet IP6Net (list Z) := {|
  cn_width := 128;
  cn_addr := fun n => ip6_value (ip6n_ip n);
  cn_plen := ip6n_plen;
  cn_val := ip6_value;
  cn_wf := IP6Net_valid;
  cn_addr_wf := IP6_typed;
  cn_contains := IP6Net_contains;
  cn_contains_cidr := IP6Net_contains_cidr;
  cn_overlaps := IP6Net_overlaps;
  cn_network := IP6Net_network |}.
Next Obligation.
  intros n x Hn Hx. exists (ip6_from_value x). split; [apply ip6_from_value_typed|].
  apply ip6_value_from_value. eapply in_block_width; [| |by apply ip6_at_bound|exact Hx]; [lia|apply Hn].
Qed.
Next Obligation.
  intros n a Hn Ha. unfold IP6Net_contains, IP6Net_mask. rewrite mask6_of by apply Hn.
  apply land_mask_eq; [lia|apply Hn|by apply ip6_at_bound|by apply ip6_value_bound].
Qed.
Next Obligation.
  intros n m Hn Hm. unfold IP6Net_contains_cidr, IP6Net_contains, IP6Net_mask.
  rewrite !mask6_of by (apply Hn || apply Hm).
  apply (masked_subset 128); [lia|apply Hn|apply Hm|by apply ip6_at_bound..].
Qed.
Next Obligation.
  intros n m Hn Hm. unfold IP6Net_overlaps, IP6Net_mask.
  rewrite !mask6_of by (apply Hn || apply Hm).
  apply (masked_overlap 128); [lia|apply Hn|apply Hm|by apply ip6_at_bound..].
Qed.

Lemma IP6_from_str_fmt ip : IP6_typed ip -> IP6_from_str (IP6_fmt ip) = Ok ip.
Proof.
  intros [Hl Hb]. unfold IP6_from_str, IP6_fmt.
  destruct (segments_of_typed ip Hl Hb) as (H1 & H2 & H3).
  rewrite parse_fmt_ipv6 by done. by rewrite H3.
Qed.

Lemma IP6_from_str_typed s ip : IP6_from_str s = Ok ip -> IP6_typed ip.
Proof.
  unfold IP6_from_str. destruct (parse_ipv6 s) as [gs|] eqn:E; intros; simplify_eq.
  apply parse_ipv6_typed in E as [Hl Hf].
  destruct (octets_of_segments_typed gs Hf) as [H1 H2]. rewrite Hl in H1. by split.
Qed.

Lemma IP6_fmt_chars ip : IP6_typed ip -> str_all addr_char (IP6_fmt ip) = true.
Proof.
  intros [Hl Hb]. destruct (segments_of_typed ip Hl Hb) as (H1 & H2 & _).
  unfold IP6_fmt. by apply fmt_ipv6_chars.
Qed.

Lemma IP6Net_fmt_chars n : IP6Net_valid n -> str_all net_char (IP6Net_fmt n) = true.
Proof. intros [Hi Hp]. apply net_text_chars; [by apply IP6_fmt_chars|lia]. Qed.

Lemma IP6Net_from_str_fmt n :
  IP6Net_valid n -> IP6Net_from_str (IP6Net_fmt n) = Ok (IP6Net_network n).
Proof.
  intros [Hi Hp]. unfold IP6Net_from_str, IP6Net_fmt. cbn [String.append].
  rewrite split_once_app by (by eapply str_all_contains; [apply IP6_fmt_chars|]). cbn.
  rewrite parse_u32_fmt by (split; lia). cbn.
  rewrite (proj2 (Z.ltb_ge 128 _)) by lia. rewrite IP6_from_str_fmt by done.
  by destruct n.
Qed.

Lemma IP6Net_from_str_inv s n :
  IP6Net_from_str s = Ok n ->
  exists addr prefix ip plen,
    split_once "/" s = Some (addr, prefix) /\ parse_u32 prefix = Ok plen /\
    IP6_from_str addr = Ok ip /\ plen <= 128 /\ n = IP6Net_network (mkIP6Net ip plen).
Proof.
  unfold IP6Net_from_str. destruct (split_once "/" s) as [[addr prefix]|] eqn:E1; [|done]. cbn.
  destruct (parse_u32 prefix) as [plen|] eqn:E2; [|done]. cbn.
  destruct (128 <? plen) eqn:E3; [done|].
  destruct (IP6_from_str addr) as [ip|] eqn:E4; [|done]. cbn.
  intros. simplify_eq. bool_to_prop. naive_solver.
Qed.

Lemma IP6Net_from_str_valid s n :
  IP6Net_from_str s = Ok n -> IP6Net_valid n /\ IP6Net_network n = n.
Proof.
  intros (addr & prefix & ip & plen & _ & Hp & Hi & Hle & ->)%IP6Net_from_str_inv.
  apply IP6_from_str_typed in Hi. apply parse_u32_typed in Hp as [? _].
  assert (Hv : IP6Net_valid (mkIP6Net ip plen)) by (split; cbn; [done|lia]).
  split; [by apply IP6Net_network_valid|by apply IP6Net_network_idem].
Qed.

(** ** Properties *)

(** Parsing an IPv6 CIDR yields a network with its host bits cleared and
    a prefix of at most 128, in the canonical form that printing (RFC 5952
    compression and mapped addresses included) and parsing again give back. *)
Theorem ip6net_from_str_canonical s n :
  IP6Net_from_str s = Ok n ->
  IP6Net_valid n /\ IP6Net_network n = n /\ IP6Net_from_str (IP6Net_fmt n) = Ok n.
Proof.
  intros H. pose proof (IP6Net_from_str_valid s n H) as [Hv Hn]. split_and!; [done..|].
  by rewrite IP6Net_from_str_fmt, Hn.
Qed.

Lemma ip6net_from_str_canonical_witness :
  IP6Net_from_str "fc00:0:0:1::5/48" = Ok (mkIP6Net (ip6_from_value (252 * 2 ^ 120)) 48) /\
  IP6Net_valid (mkIP6Net (ip6_from_value (252 * 2 ^ 120)) 48).
Proof.
  split; [by vm_compute|].
  apply (ip6net_from_str_canonical "fc00:0:0:1::5/48" (mkIP6Net (ip6_from_value (252 * 2 ^ 120)) 48)).
  by vm_compute.
Defined.

(** Inclusion and overlap of IPv6 networks, computed on masks over the
    128-bit value of the byte arrays, are those of their sets of addresses. *)
Theorem ip6net_inclusion_overlap n m :
  IP6Net_valid n -> IP6Net_valid m ->
  (IP6Net_contains_cidr n m = true <->
   forall a, IP6_typed a -> IP6Net_contains m a = true -> IP6Net_contains n a = true) /\
  (IP6Net_overlaps n m = true <->
   exists a, IP6_typed a /\ IP6Net_contains n a = true /\ IP6Net_contains m a = true).
Proof.
  intros Hn Hm. split.
  - by apply (contains_cidr_iff (CidrNet0 := IP6Net_cidr)).
  - by apply (overlaps_iff (CidrNet0 := IP6Net_cidr)).
Qed.

Lemma ip6net_inclusion_overlap_witness :
  exists a, IP6_typed a /\
    IP6Net_contains (mkIP6Net (ip6_from_value (252 * 2 ^ 120)) 7) a = true /\
    IP6Net_contains (mkIP6Net (ip6_from_value (253 * 2 ^ 120)) 8) a = true.
Proof.
  refine (proj1 (proj2 (ip6net_inclusion_overlap
    (mkIP6Net (ip6_from_value (252 * 2 ^ 120)) 7)
    (mkIP6Net (ip6_from_value (253 * 2 ^ 120)) 8) _ _)) _);
    [split; cbn; [apply ip6_from_value_typed|lia]..|by vm_compute].
Defined.
