(* ===== verification/Lease.v ===== *)
(** * [lease/mod.rs]: leases, lease events and the [LeaseWatcher]

    The watcher keeps the other nodes' leases in a vector scanned with
    [same_subnet].  [lease_key] is the part of a lease that [same_subnet]
    compares; the refinement theorem shows that, while the leases agree on
    their address families, the vector implements a finite map from keys to
    leases. *)

From S2P Require Import Prelude RustStr IpNet Ip6Net.
#[local] Open Scope string_scope.
#[local] Open Scope list_scope.
#[local] Open Scope Z_scope.

Inductive EventType := Added | Removed.

(** [serde_json::value::RawValue]: a JSON text kept verbatim. *)
Abbreviation RawValue := string (only parsing).

Record LeaseAttrs := mkLeaseAttrs {
  la_public_ip : IP4;
  la_public_ipv6 : option IP6;
  la_backend_type : string;
  la_backend_data : option RawValue;
  la_backend_v6_data : option RawValue;
}.

Definition LeaseAttrs_default : LeaseAttrs := mkLeaseAttrs 0 None "" None None.

Definition raw_eq (a b : option RawValue) : bool :=
  match a, b with
  | Some x, Some y => String.eqb x y
  | None, None => true
  | _, _ => false
  end.

(** [PartialEq for LeaseAttrs] *)
Definition LeaseAttrs_eq (a b : LeaseAttrs) : bool :=
  (la_public_ip a =? la_public_ip b)
  && bool_decide (la_public_ipv6 a = la_public_ipv6 b)
  && String.eqb (la_backend_type a) (la_backend_type b)
  && raw_eq (la_backend_data a) (la_backend_data b)
  && raw_eq (la_backend_v6_data a) (la_backend_v6_data b).

(** [expiration] is a [SystemTime], in nanoseconds from the epoch. *)
Record Lease := mkLease {
  l_enable_ipv4 : bool;
  l_enable_ipv6 : bool;
  l_subnet : IP4Net;
  l_ipv6_subnet : IP6Net;
  l_attrs : LeaseAttrs;
  l_expiration : Z;
  l_asof : Z;
}.

Record Event := mkEvent { ev_type : EventType; ev_lease : Lease }.

Record LeaseWatchResult := mkLeaseWatchResult {
  wr_events : list Event;
  wr_snapshot : list Lease;
}.

Record LeaseWatcher := mkLeaseWatcher {
  lw_own_lease : option Lease;
  lw_leases : list Lease;
}.

#[global] Instance EventType_eq_dec : EqDecision EventType.
Proof. solve_decision. Defined.
#[global] Instance LeaseAttrs_eq_dec : EqDecision LeaseAttrs.
Proof. solve_decision. Defined.
#[global] Instance Lease_eq_dec : EqDecision Lease.
Proof. solve_decision. Defined.
#[global] Instance Event_eq_dec : EqDecision Event.
Proof. solve_decision. Defined.

Definition LeaseWatcher_new (own_lease : Lease) : LeaseWatcher :=
  mkLeaseWatcher (Some own_lease) [].

Definition same_subnet (ipv4_enabled ipv6_enabled : bool) (first second : Lease) : bool :=
  if ipv4_enabled && negb ipv6_enabled && bool_decide (l_subnet first = l_subnet second)
  then true
  else if negb ipv4_enabled && ipv6_enabled
          && bool_decide (l_ipv6_subnet first = l_ipv6_subnet second)
  then true
  else if ipv4_enabled && ipv6_enabled
          && bool_decide (l_subnet first = l_subnet second)
          && bool_decide (l_ipv6_subnet first = l_ipv6_subnet second)
  then true
  else if negb ipv4_enabled && negb ipv6_enabled
          && bool_decide (l_subnet first = l_subnet second)
  then true
  else false.

(** The scans of [add], [remove] and [reset] compare with the stored
    lease's flags. *)
Definition stored_matches (l lease : Lease) : bool :=
  same_subnet (l_enable_ipv4 l) (l_enable_ipv6 l) l lease.

(** The own lease is compared with the incoming lease's flags. *)
Definition is_own (own lease : Lease) : bool :=
  same_subnet (l_enable_ipv4 lease) (l_enable_ipv6 lease) own lease.

(** [add]: overwrite the first match or push at the end; the event carries
    the stored copy, which is the lease itself. *)
Fixpoint leases_put (leases : list Lease) (lease : Lease) : list Lease :=
  match leases with
  | [] => [lease]
  | l :: rest => if stored_matches l lease then lease :: rest else l :: leases_put rest lease
  end.

Definition LeaseWatcher_add (leases : list Lease) (lease : Lease) : list Lease * Event :=
  (leases_put leases lease, mkEvent Added lease).

(** The first stored match, with the vector after [Vec::remove]. *)
Fixpoint leases_take (leases : list Lease) (lease : Lease) : option (Lease * list Lease) :=
  match leases with
  | [] => None
  | l :: rest =>
      if stored_matches l lease then Some (l, rest)
      else match leases_take rest lease with
           | Some (x, rest') => Some (x, l :: rest')
           | None => None
           end
  end.

Definition LeaseWatcher_remove (leases : list Lease) (lease : Lease) : list Lease * Event :=
  match leases_take leases lease with
  | Some (l, leases') => (leases', mkEvent Removed l)
  | None => (leases, mkEvent Removed lease)
  end.

(** One event of [update]. *)
Definition update_event (own : Lease) (st : list Lease * list Event) (e : Event)
  : list Lease * list Event :=
  let '(leases, batch) := st in
  if is_own own (ev_lease e) then (leases, batch)
  else
    let '(leases', out) :=
      match ev_type e with
      | Added => LeaseWatcher_add leases (ev_lease e)
      | Removed => LeaseWatcher_remove leases (ev_lease e)
      end in
    (leases', batch ++ [out]).

(** [update]; [None] is the panic of [expect] when there is no own lease. *)
Definition LeaseWatcher_update (lw : LeaseWatcher) (events : list Event)
  : option (LeaseWatcher * list Event) :=
  match lw_own_lease lw with
  | None => None
  | Some own =>
      let '(leases, batch) := fold_left (update_event own) events (lw_leases lw, []) in
      Some (mkLeaseWatcher (Some own) leases, batch)
  end.

(** One lease of the snapshot in [reset]. *)
Definition reset_lease (own : Lease) (st : list Lease * list Event) (nl : Lease)
  : list Lease * list Event :=
  let '(stored, batch) := st in
  if is_own own nl then (stored, batch)
  else match leases_take stored nl with
       | Some (_, stored') => (stored', batch)
       | None => (stored, batch ++ [mkEvent Added nl])
       end.

Definition LeaseWatcher_reset (lw : LeaseWatcher) (leases : list Lease)
  : option (LeaseWatcher * list Event) :=
  match lw_own_lease lw with
  | None => None
  | Some own =>
      let '(stored, batch) := fold_left (reset_lease own) leases (lw_leases lw, []) in
      Some (mkLeaseWatcher (Some own) leases, batch ++ map (mkEvent Removed) stored)
  end.

(** [Display for LeaseAttrs] *)
Definition LeaseAttrs_fmt (a : LeaseAttrs) : string :=
  "BackendType: " +:+ la_backend_type a +:+ ", PublicIP: " +:+ IP4_fmt (la_public_ip a) +:+ ", "
  +:+ match la_public_ipv6 a with
      | Some ip6 => "PublicIPv6: " +:+ IP6_fmt ip6 +:+ ", "
      | None => "PublicIPv6: (nil), "
      end
  +:+ match la_backend_data a with
      | Some d => "BackendData: " +:+ d +:+ ", "
      | None => "BackendData: (nil), "
      end
  +:+ match la_backend_v6_data a with
      | Some d => "BackendV6Data: " +:+ d
      | None => "BackendV6Data: (nil)"
      end.

(** ** Specification: a finite map of leases *)

(** What [same_subnet] compares under a set of flags. *)
Definition lease_key (v4 v6 : bool) (l : Lease) : option IP4Net * option IP6Net :=
  (if negb v4 && v6 then None else Some (l_subnet l),
   if v6 then Some (l_ipv6_subnet l) else None).

#[global] Program Instance IP4Net_countable : Countable IP4Net :=
  inj_countable' (fun n => (ip4n_ip n, ip4n_plen n)) (fun p => mkIP4Net p.1 p.2) _.
Next Obligation. by intros []. Qed.
#[global] Program Instance IP6Net_countable : Countable IP6Net :=
  inj_countable' (fun n => (ip6n_ip n, ip6n_plen n)) (fun p => mkIP6Net p.1 p.2) _.
Next Obligation. by intros []. Qed.

Abbreviation LeaseKey := (option IP4Net * option IP6Net)%type.

(** The leases of one cluster agree on the address families they enable. *)
Definition has_flags (v4 v6 : bool) (l : Lease) : Prop :=
  l_enable_ipv4 l = v4 /\ l_enable_ipv6 l = v6.

Definition leases_abs (v4 v6 : bool) (ls : list Lease) : gmap LeaseKey Lease :=
  list_to_map (map (fun l => (lease_key v4 v6 l, l)) ls).

(** The invariant of the vector: one address-family setting, no duplicate key. *)
Definition leases_inv (v4 v6 : bool) (ls : list Lease) : Prop :=
  Forall (has_flags v4 v6) ls /\ NoDup (map (lease_key v4 v6) ls).

(** An event on the abstract map. *)
Definition apply_event (v4 v6 : bool) (m : gmap LeaseKey Lease) (e : Event) : gmap LeaseKey Lease :=
  match ev_type e with
  | Added => <[lease_key v4 v6 (ev_lease e) := ev_lease e]> m
  | Removed => delete (lease_key v4 v6 (ev_lease e)) m
  end.

Definition not_own_event (own : Lease) (e : Event) : bool := negb (is_own own (ev_lease e)).

(** ** Lemmas *)

Lemma same_subnet_key v4 v6 a b :
  same_subnet v4 v6 a b = bool_decide (lease_key v4 v6 a = lease_key v4 v6 b).
Proof.
  unfold same_subnet, lease_key. apply eq_true_iff_eq. rewrite bool_decide_eq_true.
  destruct v4, v6; cbn; repeat case_bool_decide; cbn; intuition congruence.
Qed.

Lemma LeaseAttrs_eq_spec a b : LeaseAttrs_eq a b = true <-> a = b.
Proof.
  assert (Hraw : forall x y, raw_eq x y = true <-> x = y).
  { intros [x|] [y|]; cbn; [rewrite String.eqb_eq|..]; naive_solver. }
  destruct a, b. unfold LeaseAttrs_eq. cbn.
  rewrite !andb_true_iff, !Hraw, String.eqb_eq, Z.eqb_eq, bool_decide_eq_true.
  split; [by intros ((((-> & ->) & ->) & ->) & ->)|by intros [= -> -> -> -> ->]].
Qed.

Section Watcher.
Context (v4 v6 : bool).

Lemma stored_matches_key l x :
  has_flags v4 v6 l -> stored_matches l x = bool_decide (lease_key v4 v6 l = lease_key v4 v6 x).
Proof. intros [<- <-]. apply same_subnet_key. Qed.

Lemma is_own_key own x :
  has_flags v4 v6 x -> is_own own x = bool_decide (lease_key v4 v6 own = lease_key v4 v6 x).
Proof. intros [<- <-]. apply same_subnet_key. Qed.

Lemma leases_abs_cons l ls :
  leases_abs v4 v6 (l :: ls) = <[lease_key v4 v6 l := l]> (leases_abs v4 v6 ls).
Proof. done. Qed.

Lemma leases_abs_lookup_None ls k :
  leases_abs v4 v6 ls !! k = None <-> k ∉ map (lease_key v4 v6) ls.
Proof.
  induction ls as [|l ls IH]; [by split; [intros _ []%elem_of_nil|]|].
  rewrite leases_abs_cons, lookup_insert_None, IH. cbn. rewrite not_elem_of_cons.
  intuition congruence.
Qed.

Lemma leases_put_inv ls l :
  has_flags v4 v6 l -> leases_inv v4 v6 ls ->
  leases_inv v4 v6 (leases_put ls l) /\
  leases_abs v4 v6 (leases_put ls l) = <[lease_key v4 v6 l := l]> (leases_abs v4 v6 ls) /\
  (forall k, k ∈ map (lease_key v4 v6) (leases_put ls l) ->
     k = lease_key v4 v6 l \/ k ∈ map (lease_key v4 v6) ls).
Proof.
  intros Hl. induction ls as [|x ls IH]; intros [Hf Hn]; cbn [leases_put].
  { split_and!; [|done|set_solver]. split; [by constructor|apply NoDup_singleton]. }
  apply list.Forall_cons in Hf as [Hx Hf]. apply list.NoDup_cons in Hn as [Hni Hn].
  rewrite stored_matches_key by done. case_bool_decide as Hk.
  - split_and!.
    + split; [by constructor|]. cbn. rewrite <- Hk. by constructor.
    + rewrite !leases_abs_cons, <- Hk. by rewrite insert_insert_eq.
    + cbn. intros k. rewrite elem_of_cons. set_solver.
  - destruct (IH (conj Hf Hn)) as ([Hf' Hn'] & Ha & Hin). split_and!.
    + split; [by constructor|]. cbn. constructor; [|done]. intros [?|?]%Hin; by eauto.
    + rewrite !leases_abs_cons, Ha, insert_insert_ne; [done|congruence].
    + cbn. intros k [->|[?|?]%Hin]%elem_of_cons; set_solver.
Qed.

Lemma leases_take_spec ls l :
  leases_inv v4 v6 ls ->
  match leases_take ls l with
  | Some (x, ls') =>
      leases_inv v4 v6 ls' /\ lease_key v4 v6 x = lease_key v4 v6 l /\
      leases_abs v4 v6 ls !! lease_key v4 v6 l = Some x /\
      leases_abs v4 v6 ls' = delete (lease_key v4 v6 l) (leases_abs v4 v6 ls) /\
      (forall y, y ∈ ls <-> y = x \/ y ∈ ls') /\
      lease_key v4 v6 l ∉ map (lease_key v4 v6) ls'
  | None => lease_key v4 v6 l ∉ map (lease_key v4 v6) ls
  end.
Proof.
  induction ls as [|x ls IH]; intros [Hf Hn]; cbn [leases_take]; [set_solver|].
  apply list.Forall_cons in Hf as [Hx Hf]. apply list.NoDup_cons in Hn as [Hni Hn].
  rewrite stored_matches_key by done. case_bool_decide as Hk.
  - rewrite leases_abs_cons, <- Hk. split_and!; try done.
    + by rewrite lookup_insert_eq.
    + rewrite delete_insert_id; [done|by apply leases_abs_lookup_None].
    + intros y. apply elem_of_cons.
  - specialize (IH (conj Hf Hn)). destruct (leases_take ls l) as [[y ls']|].
    + destruct IH as ([Hf' Hn'] & Hy & Hlk & Ha & Hin & Hnot). split_and!; try done.
      * split; [by constructor|]. cbn. constructor; [|done].
        intros (z & Hz & Hz')%list_elem_of_fmap. apply Hni, list_elem_of_fmap. exists z.
        split; [done|]. apply Hin. by right.
      * rewrite leases_abs_cons, lookup_insert_ne; done.
      * rewrite !leases_abs_cons, Ha, delete_insert_ne; done.
      * intros z. rewrite !elem_of_cons, Hin. tauto.
      * cbn. rewrite not_elem_of_cons. by split; [congruence|].
    + cbn. rewrite not_elem_of_cons. by split; [congruence|].
Qed.

(** The event [update] emits for [e], from the map before it. *)
Definition emitted (m : gmap LeaseKey Lease) (e : Event) : Event :=
  match ev_type e with
  | Added => e
  | Removed => mkEvent Removed (default (ev_lease e) (m !! lease_key v4 v6 (ev_lease e)))
  end.

Fixpoint emitted_batch (m : gmap LeaseKey Lease) (es : list Event) : list Event :=
  match es with
  | [] => []
  | e :: es => emitted m e :: emitted_batch (apply_event v4 v6 m e) es
  end.

Lemma update_event_spec own ls batch e :
  has_flags v4 v6 (ev_lease e) -> leases_inv v4 v6 ls ->
  not_own_event own e = true ->
  exists ls', update_event own (ls, batch) e = (ls', batch ++ [emitted (leases_abs v4 v6 ls) e]) /\
    leases_inv v4 v6 ls' /\ leases_abs v4 v6 ls' = apply_event v4 v6 (leases_abs v4 v6 ls) e.
Proof.
  intros He Hi Hown. unfold not_own_event in Hown. apply negb_true_iff in Hown.
  unfold update_event, emitted, apply_event. rewrite Hown.
  destruct e as [[|] l]; cbn in *.
  - destruct (leases_put_inv ls l He Hi) as (? & ? & _). eauto.
  - unfold LeaseWatcher_remove. pose proof (leases_take_spec ls l Hi) as Ht.
    destruct (leases_take ls l) as [[x ls']|].
    + destruct Ht as (? & _ & -> & ? & _). eauto.
    + apply leases_abs_lookup_None in Ht. rewrite Ht. cbn. eexists. split_and!; [done..|].
      by rewrite delete_id.
Qed.

Lemma update_fold own es ls batch :
  Forall (fun e => has_flags v4 v6 (ev_lease e)) es -> leases_inv v4 v6 ls ->
  let es' := List.filter (not_own_event own) es in
  exists ls', fold_left (update_event own) es (ls, batch)
              = (ls', batch ++ emitted_batch (leases_abs v4 v6 ls) es') /\
    leases_inv v4 v6 ls' /\
    leases_abs v4 v6 ls' = fold_left (apply_event v4 v6) es' (leases_abs v4 v6 ls).
Proof.
  intros Hf. revert ls batch. induction Hf as [|e es He Hf IH]; intros ls batch Hi; cbn [fold_left List.filter].
  { exists ls. by rewrite app_nil_r. }
  destruct (not_own_event own e) eqn:Hown.
  - destruct (update_event_spec own ls batch e He Hi Hown) as (ls' & -> & Hi' & Ha).
    destruct (IH ls' (batch ++ [emitted (leases_abs v4 v6 ls) e]) Hi') as (ls'' & -> & Hi'' & Ha'').
    exists ls''. cbn [emitted_batch fold_left]. by rewrite Ha'', Ha, <- app_assoc.
  - assert (update_event own (ls, batch) e = (ls, batch)) as ->; [|by apply IH].
    unfold not_own_event in Hown. apply negb_false_iff in Hown. unfold update_event. by rewrite Hown.
Qed.

(** The leases of a snapshot that are not the own lease. *)
Definition others (own : Lease) (snap : list Lease) : list Lease :=
  List.filter (fun l => negb (is_own own l)) snap.

Lemma reset_fold own snap ls batch :
  Forall (has_flags v4 v6) snap -> NoDup (map (lease_key v4 v6) snap) -> leases_inv v4 v6 ls ->
  exists ls' added, fold_left (reset_lease own) snap (ls, batch) = (ls', batch ++ added) /\
    (forall e, e ∈ added <-> exists l, e = mkEvent Added l /\ l ∈ others own snap /\
       lease_key v4 v6 l ∉ map (lease_key v4 v6) ls) /\
    (forall l, l ∈ ls' <-> l ∈ ls /\ lease_key v4 v6 l ∉ map (lease_key v4 v6) (others own snap)).
Proof.
  intros Hf. revert ls batch. induction Hf as [|n snap Hn Hf IH]; intros ls batch Hnd Hi; cbn [fold_left].
  { exists ls, []. rewrite app_nil_r. set_solver. }
  apply list.NoDup_cons in Hnd as [Hnin Hnd]. unfold reset_lease at 2.
  unfold others; cbn [List.filter]; fold (others own snap).
  destruct (is_own own n) eqn:Hown; cbn [negb]; [by apply IH|].
  assert (Hoth : forall l, l ∈ others own snap -> lease_key v4 v6 l <> lease_key v4 v6 n).
  { intros l Hl Heq. apply Hnin. rewrite <- Heq. apply list_elem_of_fmap. exists l. split; [done|].
    apply list_elem_of_In, List.filter_In in Hl as [? _]. by apply list_elem_of_In. }
  pose proof (leases_take_spec ls n Hi) as Ht. destruct (leases_take ls n) as [[x ls1]|].
  - destruct Ht as (Hi1 & Hx & _ & _ & Hin & Hnot).
    destruct (IH ls1 batch Hnd Hi1) as (ls' & added & -> & Ha & Hr). exists ls', added.
    split; [done|]. split.
    + intros e. rewrite Ha. split; intros (l & -> & Hl & Hk); exists l; (split; [done|]).
      * split; [by right|]. intros (z & Hz & [->|Hz']%Hin)%list_elem_of_fmap.
        -- apply (Hoth l Hl). congruence.
        -- apply Hk, list_elem_of_fmap. eauto.
      * apply elem_of_cons in Hl as [->|Hl].
        -- exfalso. apply Hk, list_elem_of_fmap. exists x. split; [done|]. apply Hin. by left.
        -- split; [done|]. intros (z & Hz & Hz')%list_elem_of_fmap. apply Hk, list_elem_of_fmap.
           exists z. split; [done|]. apply Hin. by right.
    + intros l. rewrite Hr, Hin. cbn [map]. rewrite not_elem_of_cons. split.
      * intros [Hl Hk]. split_and!; [by right| |done]. intros Heq. apply Hnot. rewrite <- Heq.
        apply list_elem_of_fmap. eauto.
      * intros ([->|Hl] & Hne & Hk); [congruence|done].
  - destruct (IH ls (batch ++ [mkEvent Added n]) Hnd Hi) as (ls' & added & -> & Ha & Hr).
    exists ls', (mkEvent Added n :: added). split; [by rewrite <- app_assoc|]. split.
    + intros e. rewrite elem_of_cons, Ha. split.
      * intros [->|(l & -> & Hl & Hk)]; [exists n|exists l]; split_and!; try done; set_solver.
      * intros (l & -> & [->|Hl]%elem_of_cons & Hk); [by left|right; eauto].
    + intros l. rewrite Hr. cbn [map]. rewrite not_elem_of_cons. split; [|tauto].
      intros [Hl Hk]. split_and!; try done. intros Heq. apply Ht. rewrite <- Heq.
      apply list_elem_of_fmap. eauto.
Qed.
End Watcher.

Lemma dom_fold_added (v4 v6 : bool) (es : list Event) (m : gmap LeaseKey Lease) :
  Forall (fun e => ev_type e = Added) es ->
  (dom (fold_left (apply_event v4 v6) es m) : gset LeaseKey)
  = dom m ∪ list_to_set (map (fun e => lease_key v4 v6 (ev_lease e)) es).
Proof.
  intros H. revert m. induction H as [|e es He H IH]; intros m; cbn; [set_solver|].
  rewrite IH. unfold apply_event. rewrite He, dom_insert_L. set_solver.
Qed.

Lemma dom_fold_removed (v4 v6 : bool) (ls : list Lease) (m : gmap LeaseKey Lease) :
  (dom (fold_left (apply_event v4 v6) (map (mkEvent Removed) ls) m) : gset LeaseKey)
  = dom m ∖ list_to_set (map (lease_key v4 v6) ls).
Proof.
  revert m. induction ls as [|l ls IH]; intros m; cbn; [set_solver|].
  rewrite IH. unfold apply_event. cbn. rewrite dom_delete_L. set_solver.
Qed.

(** ** Properties *)

(** A sample cluster for the witnesses: node leases [10.5.x.0/24]. *)
Definition sample_lease (x : Z) : Lease :=
  mkLease true false (mkIP4Net (IP4_from_octets 10 5 x 0) 24) IP6Net_default LeaseAttrs_default 0 0.

(** C2: [update] implements a finite map: on a vector that represents a map
    (leases of one address-family setting, no two with the same subnet) it
    never panics, keeps that invariant and the own lease, applies to the map
    exactly the events that are not about the own subnet, and emits one event
    for each of them: the new lease for an addition, the stored lease (or the
    event's own when nothing is stored) for a removal. *)
Theorem lease_watcher_update_refines v4 v6 own ls events :
  leases_inv v4 v6 ls -> Forall (fun e => has_flags v4 v6 (ev_lease e)) events ->
  let es := List.filter (not_own_event own) events in
  exists ls',
    LeaseWatcher_update (mkLeaseWatcher (Some own) ls) events
    = Some (mkLeaseWatcher (Some own) ls', emitted_batch v4 v6 (leases_abs v4 v6 ls) es) /\
    leases_inv v4 v6 ls' /\
    leases_abs v4 v6 ls' = fold_left (apply_event v4 v6) es (leases_abs v4 v6 ls).
Proof.
  intros Hi Hf es. destruct (update_fold v4 v6 own events ls [] Hf Hi) as (ls' & Hu & Hi' & Ha).
  exists ls'. unfold LeaseWatcher_update. cbn [lw_own_lease lw_leases]. by rewrite Hu.
Qed.

Lemma lease_watcher_update_refines_witness :
  exists ls', LeaseWatcher_update (mkLeaseWatcher (Some (sample_lease 1)) [sample_lease 2])
    [mkEvent Added (sample_lease 3); mkEvent Removed (sample_lease 1); mkEvent Removed (sample_lease 2)]
  = Some (mkLeaseWatcher (Some (sample_lease 1)) ls',
          [mkEvent Added (sample_lease 3); mkEvent Removed (sample_lease 2)]).
Proof.
  destruct (lease_watcher_update_refines true false (sample_lease 1) [sample_lease 2]
    [mkEvent Added (sample_lease 3); mkEvent Removed (sample_lease 1); mkEvent Removed (sample_lease 2)])
    as (ls' & H & _ & _).
  - split; [by repeat constructor|]. apply NoDup_singleton.
  - by repeat constructor.
  - by exists ls'.
Defined.

(** [reset] reports exactly the difference of the snapshot and the stored
    leases: an addition for each snapshot lease of another node whose subnet
    is not stored, a removal for each stored lease whose subnet is not among
    the snapshot's other nodes; afterwards the snapshot is stored. *)
Theorem lease_watcher_reset_diff v4 v6 own ls snap :
  leases_inv v4 v6 ls -> leases_inv v4 v6 snap ->
  exists batch,
    LeaseWatcher_reset (mkLeaseWatcher (Some own) ls) snap
    = Some (mkLeaseWatcher (Some own) snap, batch) /\
    (forall l, mkEvent Added l ∈ batch <->
       l ∈ others own snap /\ lease_key v4 v6 l ∉ map (lease_key v4 v6) ls) /\
    (forall l, mkEvent Removed l ∈ batch <->
       l ∈ ls /\ lease_key v4 v6 l ∉ map (lease_key v4 v6) (others own snap)).
Proof.
  intros Hi [Hf Hn]. destruct (reset_fold v4 v6 own snap ls [] Hf Hn Hi) as (ls' & added & Hr & Ha & Hs).
  exists (added ++ map (mkEvent Removed) ls'). unfold LeaseWatcher_reset. cbn [lw_own_lease lw_leases].
  rewrite Hr. split; [done|]. split; intros l; rewrite elem_of_app, Ha, list_elem_of_fmap.
  - split; [intros [(x & [= <-] & ?)|(x & ? & ?)]; done|]. intros ?. left. eauto.
  - rewrite <- Hs. split; [intros [(x & ? & ?)|(x & [= <-] & ?)]; done|]. intros ?. right. eauto.
Qed.

Lemma lease_watcher_reset_diff_witness :
  exists batch,
    LeaseWatcher_reset (mkLeaseWatcher (Some (sample_lease 1)) [sample_lease 2]) [sample_lease 3]
    = Some (mkLeaseWatcher (Some (sample_lease 1)) [sample_lease 3], batch).
Proof.
  destruct (lease_watcher_reset_diff true false (sample_lease 1) [sample_lease 2] [sample_lease 3])
    as (b & H & _); [split; [by repeat constructor|apply NoDup_singleton]..|by exists b].
Defined.

(** A consumer that tracks the watcher's events ends, after a [reset], with
    an entry for exactly the other nodes of the snapshot. *)
Theorem lease_watcher_reset_converges (v4 v6 : bool) (own : Lease) (ls snap : list Lease) (m : gmap LeaseKey Lease) lw' batch :
  leases_inv v4 v6 ls -> leases_inv v4 v6 snap ->
  (dom m : gset LeaseKey) = list_to_set (map (lease_key v4 v6) ls) ->
  LeaseWatcher_reset (mkLeaseWatcher (Some own) ls) snap = Some (lw', batch) ->
  (dom (fold_left (apply_event v4 v6) batch m) : gset LeaseKey)
  = list_to_set (map (lease_key v4 v6) (others own snap)).
Proof.
  intros Hi [Hf Hn] Hm Hres.
  destruct (reset_fold v4 v6 own snap ls [] Hf Hn Hi) as (ls' & added & Hr & Ha & Hs).
  unfold LeaseWatcher_reset in Hres. cbn [lw_own_lease lw_leases] in Hres. rewrite Hr in Hres.
  simplify_eq. rewrite app_nil_l, fold_left_app, dom_fold_removed, dom_fold_added, Hm.
  2: { apply list.Forall_forall. intros e (l & -> & _)%Ha. done. }
  apply set_eq. intros k. rewrite elem_of_difference, elem_of_union, !elem_of_list_to_set, !list_elem_of_fmap.
  setoid_rewrite Ha. setoid_rewrite Hs. split.
  - intros [[(l & -> & Hl)|(e & -> & l & -> & Hl & _)] Hno]; [|by eauto].
    destruct (decide (lease_key v4 v6 l ∈ map (lease_key v4 v6) (others own snap))) as [Hd|Hd].
    + apply list_elem_of_fmap in Hd. done.
    + exfalso. eauto.
  - intros (l & -> & Hl). split.
    + destruct (decide (lease_key v4 v6 l ∈ map (lease_key v4 v6) ls)) as [Hd|Hd].
      * left. by apply list_elem_of_fmap.
      * right. exists (mkEvent Added l). split; [done|]. eauto.
    + intros (x & Hx & _ & Hno). apply Hno. rewrite <- Hx. apply list_elem_of_fmap. eauto.
Qed.

Lemma lease_watcher_reset_converges_witness :
  (dom (fold_left (apply_event true false) [mkEvent Added (sample_lease 3); mkEvent Removed (sample_lease 2)]
    (leases_abs true false [sample_lease 2])) : gset LeaseKey)
  = list_to_set (map (lease_key true false) [sample_lease 3]).
Proof.
  apply (lease_watcher_reset_converges true false (sample_lease 1) [sample_lease 2] [sample_lease 3]
    (leases_abs true false [sample_lease 2])
    (mkLeaseWatcher (Some (sample_lease 1)) [sample_lease 3])
    [mkEvent Added (sample_lease 3); mkEvent Removed (sample_lease 2)]);
    [split; [by repeat constructor|apply NoDup_singleton]..|by vm_compute|by vm_compute].
Defined.

(** The own lease is not skipped by a second [reset]: the first stores the
    whole snapshot, own lease included, and the second passes over the own
    lease without taking it out of the stored list, so that it emits a
    [Removed] event for the node's own subnet. *)
Theorem lease_watcher_reset_twice_removes_own own rest lw lw' batch :
  leases_inv (l_enable_ipv4 own) (l_enable_ipv6 own) (own :: rest) ->
  LeaseWatcher_reset lw (own :: rest) = Some (lw', batch) -> lw_own_lease lw = Some own ->
  exists lw'' batch', LeaseWatcher_reset lw' (own :: rest) = Some (lw'', batch') /\
    mkEvent Removed own ∈ batch'.
Proof.
  intros Hi Hr Ho. unfold LeaseWatcher_reset in Hr. rewrite Ho in Hr.
  destruct (fold_left _ _ _) as [st b]. simplify_eq. pose proof Hi as [Hf Hn].
  set (v4 := l_enable_ipv4 own) in *. set (v6 := l_enable_ipv6 own) in *.
  destruct (reset_fold v4 v6 own (own :: rest) (own :: rest) [] Hf Hn Hi) as (ls' & added & Hr & _ & Hs).
  unfold LeaseWatcher_reset. cbn [lw_own_lease lw_leases]. rewrite Hr. do 2 eexists. split; [done|].
  apply elem_of_app. right. apply list_elem_of_fmap. exists own. split; [done|]. apply Hs.
  split; [by left|]. unfold others. cbn [List.filter].
  rewrite (is_own_key v4 v6) by by split. rewrite bool_decide_eq_true_2 by done. cbn [negb].
  apply list.NoDup_cons in Hn as [Hn _]. intros (x & Hx & Hin)%list_elem_of_fmap. apply Hn.
  rewrite Hx. apply list_elem_of_fmap. exists x. split; [done|].
  apply list_elem_of_In, List.filter_In in Hin as [Hin _]. by apply list_elem_of_In.
Qed.

Lemma lease_watcher_reset_twice_removes_own_witness :
  exists lw'' batch',
    LeaseWatcher_reset (mkLeaseWatcher (Some (sample_lease 1)) [sample_lease 1]) [sample_lease 1]
    = Some (lw'', batch') /\ mkEvent Removed (sample_lease 1) ∈ batch'.
Proof.
  apply (lease_watcher_reset_twice_removes_own (sample_lease 1) []
    (LeaseWatcher_new (sample_lease 1)) (mkLeaseWatcher (Some (sample_lease 1)) [sample_lease 1]) []);
    [split; [by repeat constructor|apply NoDup_singleton]|by vm_compute|done].
Defined.
