(* ===== verification/WatchLoop.v ===== *)
(** * [subnet/watch.rs]: the long-running lease watches

    [watch_leases] is a loop around [tokio::select!].  One iteration of the
    loop is a step of a state machine whose input says which branch of the
    [select!] fired; the sessions of the manager are the sequences of inputs.
    Delays are in seconds. *)

From S2P Require Import Prelude RustStr IpNet Ip6Net Lease.
#[local] Open Scope string_scope.
#[local] Open Scope list_scope.
#[local] Open Scope Z_scope.

Definition WATCH_RETRY_DELAY : Z := 1.
Definition WATCH_RETRY_MAX : Z := 30.

(** The receiving half of a channel as the sender sees it: what it has
    accepted, and how many more sends it accepts before it is dropped. *)
Record Receiver (A : Type) := mkReceiver { rcv_sent : list A; rcv_room : nat }.
Arguments mkReceiver {A} _ _.
Arguments rcv_sent {A} _.
Arguments rcv_room {A} _.

(** [receiver.send(x).await]: [None] is the error of a dropped receiver. *)
Definition rcv_send {A} (r : Receiver A) (x : A) : option (Receiver A) :=
  match rcv_room r with
  | O => None
  | S n => Some (mkReceiver (rcv_sent r ++ [x]) n)
  end.

Definition reduce (lw : LeaseWatcher) (wr : LeaseWatchResult)
  : option (LeaseWatcher * list Event) :=
  match wr_events wr with
  | _ :: _ => LeaseWatcher_update lw (wr_events wr)
  | [] => LeaseWatcher_reset lw (wr_snapshot wr)
  end.

(** Outcome of [handle_batch_results]: the flag it returns with the state
    after it, or the watcher's panic. *)
Inductive Handled (S A : Type) :=
| HandledOk (alive : bool) (lw : S) (rcv : Receiver A)
| HandledPanic.
Arguments HandledOk {S A} _ _ _.
Arguments HandledPanic {S A}.

Fixpoint handle_batch_results (lw : LeaseWatcher) (watch_results : list LeaseWatchResult)
    (receiver : Receiver (list Event)) : Handled LeaseWatcher (list Event) :=
  match watch_results with
  | [] => HandledOk true lw receiver
  | wr :: rest =>
      match reduce lw wr with
      | None => HandledPanic
      | Some (lw', batch) =>
          match batch with
          | [] => handle_batch_results lw' rest receiver
          | _ :: _ =>
              match rcv_send receiver batch with
              | None => HandledOk false lw' receiver
              | Some receiver' => handle_batch_results lw' rest receiver'
              end
          end
      end
  end.

(** [while let Ok(watch_results) = rx.try_recv()]: the buffered batches. *)
Fixpoint drain_batches (lw : LeaseWatcher) (buffered : list (list LeaseWatchResult))
    (receiver : Receiver (list Event)) : Handled LeaseWatcher (list Event) :=
  match buffered with
  | [] => HandledOk true lw receiver
  | watch_results :: rest =>
      match handle_batch_results lw watch_results receiver with
      | HandledOk true lw' receiver' => drain_batches lw' rest receiver'
      | h => h
      end
  end.

(** Which branch fires.  [WlWatchDone] carries what the channel still
    buffers, the manager's result and whether [ctx] is cancelled by then. *)
Inductive WlInput :=
| WlCancelled
| WlRecv (res : option (list LeaseWatchResult))
| WlWatchDone (buffered : list (list LeaseWatchResult)) (res : result unit string) (is_cancelled : bool)
| WlSleepCancelled
| WlSlept.

Inductive WlPhase :=
| WlSession
| WlBackoff
| WlReturned
| WlPanicked.

Record WlState := mkWlState {
  wl_phase : WlPhase;
  wl_lw : LeaseWatcher;
  wl_backoff : Z;
  wl_rcv : Receiver (list Event);
}.

Definition wl_init (own_lease : Lease) (receiver : Receiver (list Event)) : WlState :=
  mkWlState WlSession (LeaseWatcher_new own_lease) WATCH_RETRY_DELAY receiver.

Definition wl_goto (s : WlState) (p : WlPhase) : WlState :=
  mkWlState p (wl_lw s) (wl_backoff s) (wl_rcv s).

(** Continue in phase [p] unless the receiver is gone. *)
Definition wl_handled (s : WlState) (h : Handled LeaseWatcher (list Event)) (p : WlPhase) : WlState :=
  match h with
  | HandledPanic => wl_goto s WlPanicked
  | HandledOk alive lw r => mkWlState (if alive then p else WlReturned) lw (wl_backoff s) r
  end.

(** One iteration; an input that its phase cannot see is [None]. *)
Definition watch_leases_step (s : WlState) (i : WlInput) : option WlState :=
  match wl_phase s, i with
  | WlSession, WlCancelled => Some (wl_goto s WlReturned)
  | WlSession, WlRecv None => Some (wl_goto s WlBackoff)
  | WlSession, WlRecv (Some watch_results) =>
      Some (wl_handled s (handle_batch_results (wl_lw s) watch_results (wl_rcv s)) WlSession)
  | WlSession, WlWatchDone buffered res is_cancelled =>
      let next := match res with
                  | Ok _ => WlReturned
                  | Err _ => if is_cancelled then WlReturned else WlBackoff
                  end in
      Some (wl_handled s (drain_batches (wl_lw s) buffered (wl_rcv s)) next)
  | WlBackoff, WlSleepCancelled => Some (wl_goto s WlReturned)
  | WlBackoff, WlSlept =>
      Some (mkWlState WlSession (wl_lw s) (Z.min (wl_backoff s * 2) WATCH_RETRY_MAX) (wl_rcv s))
  | _, _ => None
  end.

Fixpoint watch_leases_run (s : WlState) (ins : list WlInput) : option WlState :=
  match ins with
  | [] => Some s
  | i :: ins => match watch_leases_step s i with
               | Some s' => watch_leases_run s' ins
               | None => None
               end
  end.

(** ** The single-lease watch *)

Definition single_event (wr : LeaseWatchResult) : option Event :=
  match wr_snapshot wr with
  | l :: _ => Some (mkEvent Added l)
  | [] => match wr_events wr with
          | e :: _ => Some e
          | [] => None
          end
  end.

Fixpoint handle_single_results (watch_results : list LeaseWatchResult) (receiver : Receiver Event)
  : bool * Receiver Event :=
  match watch_results with
  | [] => (true, receiver)
  | wr :: rest =>
      match single_event wr with
      | None => handle_single_results rest receiver
      | Some event =>
          match rcv_send receiver event with
          | None => (false, receiver)
          | Some receiver' => handle_single_results rest receiver'
          end
      end
  end.

Fixpoint drain_single (buffered : list (list LeaseWatchResult)) (receiver : Receiver Event)
  : Receiver Event :=
  match buffered with
  | [] => receiver
  | watch_results :: rest =>
      match handle_single_results watch_results receiver with
      | (true, receiver') => drain_single rest receiver'
      | (false, receiver') => receiver'
      end
  end.

(** [watch_lease]: the flag says the loop is still running. *)
Definition watch_lease_step (s : bool * Receiver Event) (i : WlInput) : option (bool * Receiver Event) :=
  match s, i with
  | (true, r), WlCancelled => Some (false, r)
  | (true, r), WlRecv None => Some (false, r)
  | (true, r), WlRecv (Some watch_results) => Some (handle_single_results watch_results r)
  | (true, r), WlWatchDone buffered _ _ => Some (false, drain_single buffered r)
  | _, _ => None
  end.

(** ** Specification *)

(** The watch results an input delivers. *)
Definition input_results (i : WlInput) : list LeaseWatchResult :=
  match i with
  | WlRecv (Some wrs) => wrs
  | WlWatchDone buffered _ _ => concat buffered
  | _ => []
  end.

(** The non-empty batches of a sequence of results, sessions forgotten. *)
Fixpoint reduced (lw : LeaseWatcher) (wrs : list LeaseWatchResult)
  : option (LeaseWatcher * list (list Event)) :=
  match wrs with
  | [] => Some (lw, [])
  | wr :: rest =>
      match reduce lw wr with
      | None => None
      | Some (lw', batch) =>
          match reduced lw' rest with
          | None => None
          | Some (lw'', bs) => Some (lw'', match batch with [] => bs | _ => batch :: bs end)
          end
      end
  end.

(** The inputs that may end the watch. *)
Definition ends_watch (i : WlInput) : bool :=
  match i with
  | WlCancelled | WlSleepCancelled => true
  | WlWatchDone _ (Ok _) _ => true
  | WlWatchDone _ (Err _) c => c
  | _ => false
  end.

Definition retries (ins : list WlInput) : nat :=
  length (List.filter (fun i => match i with WlSlept => true | _ => false end) ins).

(** ** Lemmas *)

Lemma reduce_own lw wr own :
  lw_own_lease lw = Some own ->
  exists lw' b, reduce lw wr = Some (lw', b) /\ lw_own_lease lw' = Some own.
Proof.
  intros H. unfold reduce, LeaseWatcher_update, LeaseWatcher_reset. rewrite H.
  destruct (wr_events wr); destruct (fold_left _ _ _); eauto.
Qed.

Lemma reduced_own lw wrs own :
  lw_own_lease lw = Some own ->
  exists lw' bs, reduced lw wrs = Some (lw', bs) /\ lw_own_lease lw' = Some own.
Proof.
  revert lw. induction wrs as [|wr wrs IH]; intros lw H; cbn; [eauto|].
  destruct (reduce_own lw wr own H) as (lw1 & b & -> & H1).
  destruct (IH lw1 H1) as (lw2 & bs & -> & H2). eauto.
Qed.

Lemma reduced_app lw xs ys lw1 b1 :
  reduced lw xs = Some (lw1, b1) ->
  reduced lw (xs ++ ys) = match reduced lw1 ys with
                          | Some (lw2, b2) => Some (lw2, b1 ++ b2)
                          | None => None
                          end.
Proof.
  revert lw lw1 b1. induction xs as [|x xs IH]; intros lw lw1 b1 H; cbn in H |- *.
  { simplify_eq. by destruct (reduced lw1 ys) as [[]|]. }
  destruct (reduce lw x) as [[lw' b]|]; [|done].
  destruct (reduced lw' xs) as [[lw'' bs]|] eqn:E; [|done]. simplify_eq.
  rewrite (IH _ _ _ E). destruct (reduced lw1 ys) as [[lw2 b2]|]; [|done]. by destruct b.
Qed.

Lemma handle_batch_results_spec wrs lw r lw' bs :
  reduced lw wrs = Some (lw', bs) -> (length bs <= rcv_room r)%nat ->
  handle_batch_results lw wrs r
  = HandledOk true lw' (mkReceiver (rcv_sent r ++ bs) (rcv_room r - length bs)).
Proof.
  revert lw r bs. induction wrs as [|wr wrs IH]; intros lw r bs H Hroom; cbn in H |- *.
  { simplify_eq. rewrite app_nil_r, Nat.sub_0_r. by destruct r. }
  destruct (reduce lw wr) as [[lw1 b]|]; [|done].
  destruct (reduced lw1 wrs) as [[lw2 bs']|] eqn:E; [|done]. simplify_eq.
  destruct b as [|e b]; [by apply IH|]. unfold rcv_send. cbn [length] in Hroom.
  destruct (rcv_room r) as [|n] eqn:Er; [lia|].
  rewrite (IH lw1 _ bs' E) by (cbn; lia). cbn. by rewrite <- app_assoc.
Qed.

Lemma drain_batches_spec buffered lw r lw' bs :
  reduced lw (concat buffered) = Some (lw', bs) -> (length bs <= rcv_room r)%nat ->
  lw_own_lease lw <> None ->
  drain_batches lw buffered r
  = HandledOk true lw' (mkReceiver (rcv_sent r ++ bs) (rcv_room r - length bs)).
Proof.
  revert lw r bs. induction buffered as [|wrs buffered IH]; intros lw r bs H Hroom Hown; cbn in H |- *.
  { simplify_eq. rewrite app_nil_r, Nat.sub_0_r. by destruct r. }
  destruct (lw_own_lease lw) as [own|] eqn:Eo; [|done].
  destruct (reduced_own lw wrs own Eo) as (lw1 & b1 & H1 & Ho1).
  rewrite (reduced_app _ _ _ _ _ H1) in H.
  destruct (reduced lw1 (concat buffered)) as [[lw2 b2]|] eqn:E2; [|done]. simplify_eq.
  rewrite length_app in Hroom. rewrite (handle_batch_results_spec _ _ _ _ _ H1) by lia.
  rewrite (IH lw1 _ b2 E2) by (cbn; try lia; congruence). cbn.
  rewrite length_app, <- app_assoc. do 2 f_equal. lia.
Qed.

Lemma handle_batch_results_own wrs lw r own :
  lw_own_lease lw = Some own ->
  exists alive lw' r', handle_batch_results lw wrs r = HandledOk alive lw' r' /\
    lw_own_lease lw' = Some own.
Proof.
  revert lw r. induction wrs as [|wr wrs IH]; intros lw r H; cbn; [eauto|].
  destruct (reduce_own lw wr own H) as (lw1 & b & -> & H1).
  destruct b; [by apply IH|]. destruct (rcv_send r _); [by apply IH|eauto].
Qed.

Lemma drain_batches_own buffered lw r own :
  lw_own_lease lw = Some own ->
  exists alive lw' r', drain_batches lw buffered r = HandledOk alive lw' r' /\
    lw_own_lease lw' = Some own.
Proof.
  revert lw r. induction buffered as [|wrs buffered IH]; intros lw r H; cbn; [eauto|].
  destruct (handle_batch_results_own wrs lw r own H) as (a & lw1 & r1 & -> & H1).
  destruct a; [by apply IH|eauto].
Qed.

(** The machine's invariant: the own lease is set and no panic happens. *)
Definition wl_inv (own : Lease) (s : WlState) : Prop :=
  lw_own_lease (wl_lw s) = Some own /\ wl_phase s <> WlPanicked.

Lemma watch_leases_step_inv own s i s' :
  wl_inv own s -> watch_leases_step s i = Some s' ->
  wl_inv own s' /\
  wl_backoff s' = (match i with WlSlept => Z.min (wl_backoff s * 2) WATCH_RETRY_MAX | _ => wl_backoff s end).
Proof.
  intros [Ho Hp] Hs. unfold watch_leases_step in Hs.
  destruct (wl_phase s); try done; destruct i as [|[wrs|]|buf res c| |]; simplify_eq; try (by repeat split).
  - destruct (handle_batch_results_own wrs (wl_lw s) (wl_rcv s) own Ho) as (a & lw' & r' & -> & H').
    by destruct a.
  - destruct (drain_batches_own buf (wl_lw s) (wl_rcv s) own Ho) as (a & lw' & r' & -> & H').
    by destruct a, res, c.
Qed.

Lemma watch_leases_step_spec own s i s' lw' bs :
  wl_inv own s -> watch_leases_step s i = Some s' ->
  reduced (wl_lw s) (input_results i) = Some (lw', bs) -> (length bs <= rcv_room (wl_rcv s))%nat ->
  wl_lw s' = lw' /\
  wl_rcv s' = mkReceiver (rcv_sent (wl_rcv s) ++ bs) (rcv_room (wl_rcv s) - length bs) /\
  (wl_phase s' = WlReturned -> ends_watch i = true).
Proof.
  intros [Ho _] Hs Hr Hroom. unfold watch_leases_step in Hs.
  assert (Hnil : forall r : Receiver (list Event),
    r = mkReceiver (rcv_sent r ++ []) (rcv_room r - 0)).
  { intros []. cbn. by rewrite app_nil_r, Nat.sub_0_r. }
  destruct (wl_phase s); try done; destruct i as [|[wrs|]|buf res c| |]; cbn in Hr; simplify_eq;
    try (by split_and!; [|apply Hnil|]).
  - by rewrite (handle_batch_results_spec _ _ _ _ _ Hr).
  - rewrite (drain_batches_spec _ _ _ _ _ Hr) by (done || congruence).
    by destruct res, c.
Qed.

Lemma watch_leases_run_spec own ins s s' lw' bs :
  wl_inv own s -> watch_leases_run s ins = Some s' ->
  reduced (wl_lw s) (concat (map input_results ins)) = Some (lw', bs) ->
  (length bs <= rcv_room (wl_rcv s))%nat ->
  wl_lw s' = lw' /\ rcv_sent (wl_rcv s') = rcv_sent (wl_rcv s) ++ bs /\
  (wl_phase s' = WlReturned -> wl_phase s = WlReturned \/ existsb ends_watch ins = true).
Proof.
  revert s bs. induction ins as [|i ins IH]; intros s bs Hi Hrun Hred Hroom; cbn in *.
  { simplify_eq. rewrite app_nil_r. by auto. }
  destruct (watch_leases_step s i) as [s1|] eqn:Es; [|done]. pose proof Hi as [Ho _].
  destruct (reduced_own (wl_lw s) (input_results i) own Ho) as (lw1 & b1 & H1 & _).
  rewrite (reduced_app _ _ _ _ _ H1) in Hred.
  destruct (reduced lw1 (concat (map input_results ins))) as [[lw2 b2]|] eqn:E2; [|done]. simplify_eq.
  rewrite length_app in Hroom.
  destruct (watch_leases_step_inv own s i s1 Hi Es) as [Hi1 _].
  destruct (watch_leases_step_spec own s i s1 _ _ Hi Es H1 ltac:(lia)) as (Hl1 & Hr1 & Hp1).
  destruct (IH s1 b2 Hi1 Hrun) as (Hl2 & Hr2 & Hp2).
  { by rewrite Hl1. }
  { rewrite Hr1. cbn. lia. }
  split_and!; [done| |].
  - rewrite Hr2, Hr1. cbn. by rewrite <- app_assoc.
  - intros [?|?]%Hp2; right; rewrite orb_true_iff; auto.
Qed.

Lemma pow2_min k b : 1 <= b <= 30 -> Z.min (Z.min (b * 2) 30 * 2 ^ Z.of_nat k) 30 = Z.min (b * 2 ^ Z.of_nat (S k)) 30.
Proof.
  intros Hb. rewrite Nat2Z.inj_succ, Z.pow_succ_r by lia.
  pose proof (Z.pow_pos_nonneg 2 (Z.of_nat k)). nia.
Qed.

Lemma watch_leases_run_backoff own ins s s' :
  wl_inv own s -> 1 <= wl_backoff s <= 30 -> watch_leases_run s ins = Some s' ->
  wl_inv own s' /\ wl_backoff s' = Z.min (wl_backoff s * 2 ^ Z.of_nat (retries ins)) 30.
Proof.
  revert s. induction ins as [|i ins IH]; intros s Hi Hb Hrun; cbn in Hrun.
  { simplify_eq. split; [done|]. unfold retries. cbn. lia. }
  destruct (watch_leases_step s i) as [s1|] eqn:Es; [|done].
  destruct (watch_leases_step_inv own s i s1 Hi Es) as [Hi1 Hb1].
  destruct (IH s1 Hi1) as [Hi2 Hb2]; [|done|].
  { rewrite Hb1. unfold WATCH_RETRY_MAX. destruct i; lia. }
  split; [done|]. rewrite Hb2, Hb1. unfold WATCH_RETRY_MAX, retries. destruct i; try done.
  cbn [List.filter length]. by apply pow2_min.
Qed.

(** ** Properties *)

(** C7: while the receiver keeps up, [watch_leases] delivers, across any
    number of failed and re-established manager sessions, exactly the
    non-empty batches that one [LeaseWatcher] derives from all the results
    received, in order (what is buffered when a session ends included); and it
    returns only on cancellation or on a clean end of the manager's watch,
    never because of a watch error. *)
Theorem watch_leases_delivers own room ins s :
  watch_leases_run (wl_init own (mkReceiver [] room)) ins = Some s ->
  exists lw bs,
    reduced (LeaseWatcher_new own) (concat (map input_results ins)) = Some (lw, bs) /\
    ((length bs <= room)%nat ->
     rcv_sent (wl_rcv s) = bs /\ wl_lw s = lw /\
     (wl_phase s = WlReturned -> existsb ends_watch ins = true)).
Proof.
  intros Hrun.
  destruct (reduced_own (LeaseWatcher_new own) (concat (map input_results ins)) own eq_refl)
    as (lw & bs & Hr & _).
  exists lw, bs. split; [done|]. intros Hroom.
  destruct (watch_leases_run_spec own ins (wl_init own (mkReceiver [] room)) s lw bs)
    as (Hl & Hs & Hp); [by split|done|done|done|].
  split_and!; [done..|]. intros [?|?]%Hp; done.
Qed.

Definition sample_inputs : list WlInput :=
  [WlRecv (Some [mkLeaseWatchResult [mkEvent Added (sample_lease 2)] []]);
   WlWatchDone [[mkLeaseWatchResult [] [sample_lease 3]]] (Err "watch failed") false; WlSlept;
   WlRecv None].

Lemma watch_leases_delivers_witness :
  exists s, watch_leases_run (wl_init (sample_lease 1) (mkReceiver [] 5)) sample_inputs = Some s /\
  exists lw bs,
    reduced (LeaseWatcher_new (sample_lease 1)) (concat (map input_results sample_inputs)) = Some (lw, bs) /\
    ((length bs <= 5)%nat ->
     rcv_sent (wl_rcv s) = bs /\ wl_lw s = lw /\
     (wl_phase s = WlReturned -> existsb ends_watch sample_inputs = true)).
Proof.
  eexists. split; [reflexivity|].
  apply (watch_leases_delivers (sample_lease 1) 5 sample_inputs). reflexivity.
Defined.

(** The retry delay of [watch_leases] starts at one second, doubles at
    each retry and is capped at thirty; whatever happens to the receiver, the
    watcher never panics. *)
Theorem watch_leases_backoff own room ins s :
  watch_leases_run (wl_init own (mkReceiver [] room)) ins = Some s ->
  wl_backoff s = Z.min (2 ^ Z.of_nat (retries ins)) 30 /\ wl_phase s <> WlPanicked.
Proof.
  intros Hrun. apply (watch_leases_run_backoff own) in Hrun as [[_ Hp] Hb]; [|by split|done].
  split; [|done]. rewrite Hb. cbn [wl_init wl_backoff]. unfold WATCH_RETRY_DELAY. f_equal. lia.
Qed.

Lemma watch_leases_backoff_witness :
  exists s, watch_leases_run (wl_init (sample_lease 1) (mkReceiver [] 0)) [WlRecv None; WlSlept] = Some s /\
  wl_backoff s = Z.min (2 ^ Z.of_nat (retries [WlRecv None; WlSlept])) 30 /\ wl_phase s <> WlPanicked.
Proof.
  eexists. split; [reflexivity|].
  apply (watch_leases_backoff (sample_lease 1) 0 [WlRecv None; WlSlept]). reflexivity.
Defined.
