(* ===== verification/Config.v ===== *)
(** * [subnet/config.rs]: the network configuration

    [parse_config] decodes net-conf.json; the JSON decoder itself
    ([serde_json]) is the interface [SerdeJson].  [check_network_config]
    mutates the configuration in place and may fail half way, so it returns
    the configuration after it together with its result. *)

From S2P Require Import Prelude RustStr StdNet Cidr IpNet Ip6Net.
#[local] Open Scope string_scope.
#[local] Open Scope list_scope.
#[local] Open Scope Z_scope.

(** [serde_json::Value]; a number keeps its text. *)
Inductive Value :=
| VNull
| VBool (b : bool)
| VNumber (n : string)
| VString (s : string)
| VArray (vs : list Value)
| VObject (fields : list (string * Value)).

(** What the code uses of [serde_json]. *)
Class SerdeJson := {
  (** the entries (key and raw value text) that a [MapAccess] yields, and the
      error that ends it, if any *)
  sj_entries : string -> list (string * string) * option string;
  sj_bool : string -> result bool string;
  sj_u32 : string -> result Z string;
  sj_string : string -> result string string;
  sj_is_null : string -> bool;
  sj_value : string -> result Value string;
  (** [Error::custom] *)
  sj_custom : string -> string;
  sj_u32_typed s n : sj_u32 s = Ok n -> u32 n;
}.

Inductive ConfigError :=
| CeJson (e : string)
| CeBackend (e : string)
| MissingNetwork
| MissingIpv6Network
| SubnetLenTooBigV4
| SubnetLenTooBigV6
| TooFewSubnets
| NetworkTooSmallV4
| NetworkTooSmallV6
| SubnetMinOutOfRange
| SubnetMaxOutOfRange
| Ipv6SubnetMinOutOfRange
| Ipv6SubnetMaxOutOfRange
| SubnetMinUnaligned (ip : IP4)
| SubnetMaxUnaligned (ip : IP4)
| Ipv6SubnetMinUnaligned (ip : IP6)
| Ipv6SubnetMaxUnaligned (ip : IP6).

Record Config := mkConfig {
  cfg_enable_ipv4 : bool;
  cfg_enable_ipv6 : bool;
  cfg_enable_nftables : bool;
  cfg_network : IP4Net;
  cfg_ipv6_network : IP6Net;
  cfg_subnet_min : IP4;
  cfg_subnet_max : IP4;
  cfg_ipv6_subnet_min : option IP6;
  cfg_ipv6_subnet_max : option IP6;
  cfg_subnet_len : Z;
  cfg_ipv6_subnet_len : Z;
  cfg_backend_type : string;
  cfg_backend : option string;
}.

Definition Config_default : Config :=
  mkConfig false false false IP4Net_default IP6Net_default 0 0 None None 0 0 "" None.

(** Field updates. *)
Definition set_enable_ipv4 b c := let 'mkConfig _ e6 nf n n6 mi ma mi6 ma6 sl sl6 bt be := c in
  mkConfig b e6 nf n n6 mi ma mi6 ma6 sl sl6 bt be.
Definition set_enable_ipv6 b c := let 'mkConfig e4 _ nf n n6 mi ma mi6 ma6 sl sl6 bt be := c in
  mkConfig e4 b nf n n6 mi ma mi6 ma6 sl sl6 bt be.
Definition set_enable_nftables b c := let 'mkConfig e4 e6 _ n n6 mi ma mi6 ma6 sl sl6 bt be := c in
  mkConfig e4 e6 b n n6 mi ma mi6 ma6 sl sl6 bt be.
Definition set_network n c := let 'mkConfig e4 e6 nf _ n6 mi ma mi6 ma6 sl sl6 bt be := c in
  mkConfig e4 e6 nf n n6 mi ma mi6 ma6 sl sl6 bt be.
Definition set_ipv6_network n6 c := let 'mkConfig e4 e6 nf n _ mi ma mi6 ma6 sl sl6 bt be := c in
  mkConfig e4 e6 nf n n6 mi ma mi6 ma6 sl sl6 bt be.
Definition set_subnet_min mi c := let 'mkConfig e4 e6 nf n n6 _ ma mi6 ma6 sl sl6 bt be := c in
  mkConfig e4 e6 nf n n6 mi ma mi6 ma6 sl sl6 bt be.
Definition set_subnet_max ma c := let 'mkConfig e4 e6 nf n n6 mi _ mi6 ma6 sl sl6 bt be := c in
  mkConfig e4 e6 nf n n6 mi ma mi6 ma6 sl sl6 bt be.
Definition set_ipv6_subnet_min mi6 c := let 'mkConfig e4 e6 nf n n6 mi ma _ ma6 sl sl6 bt be := c in
  mkConfig e4 e6 nf n n6 mi ma mi6 ma6 sl sl6 bt be.
Definition set_ipv6_subnet_max ma6 c := let 'mkConfig e4 e6 nf n n6 mi ma mi6 _ sl sl6 bt be := c in
  mkConfig e4 e6 nf n n6 mi ma mi6 ma6 sl sl6 bt be.
Definition set_subnet_len sl c := let 'mkConfig e4 e6 nf n n6 mi ma mi6 ma6 _ sl6 bt be := c in
  mkConfig e4 e6 nf n n6 mi ma mi6 ma6 sl sl6 bt be.
Definition set_ipv6_subnet_len sl6 c := let 'mkConfig e4 e6 nf n n6 mi ma mi6 ma6 sl _ bt be := c in
  mkConfig e4 e6 nf n n6 mi ma mi6 ma6 sl sl6 bt be.
Definition set_backend_type bt c := let 'mkConfig e4 e6 nf n n6 mi ma mi6 ma6 sl sl6 _ be := c in
  mkConfig e4 e6 nf n n6 mi ma mi6 ma6 sl sl6 bt be.
Definition set_backend be c := let 'mkConfig e4 e6 nf n n6 mi ma mi6 ma6 sl sl6 bt _ := c in
  mkConfig e4 e6 nf n n6 mi ma mi6 ma6 sl sl6 bt be.

Definition CONFIG_FIELDS : list string :=
  ["EnableIPv4"; "EnableIPv6"; "EnableNFTables"; "Network"; "IPv6Network"; "SubnetMin";
   "SubnetMax"; "IPv6SubnetMin"; "IPv6SubnetMax"; "SubnetLen"; "IPv6SubnetLen"; "Backend"].

Definition match_config_field (key : string) : option string :=
  match List.find (fun name => String.eqb name key) CONFIG_FIELDS with
  | Some name => Some name
  | None => List.find (fun name => eq_ignore_ascii_case name key) CONFIG_FIELDS
  end.

Definition json_type_name (v : Value) : string :=
  match v with
  | VNull => "null"
  | VBool _ => "bool"
  | VNumber _ => "number"
  | VString _ => "string"
  | VArray _ => "array"
  | VObject _ => "object"
  end.

Definition fold_lookup (fields : list (string * Value)) (name : string) : option Value :=
  match List.find (fun kv => String.eqb (fst kv) name) fields with
  | Some kv => Some (snd kv)
  | None => option_map snd (List.find (fun kv => eq_ignore_ascii_case (fst kv) name) fields)
  end.

Section Decode.
Context `{SJ : SerdeJson}.

(** [Deserialize] of the address types: a string, then [FromStr]. *)
Definition de_via {A E} (from_str : string -> result A E) (show : E -> string) (raw : string)
  : result A string :=
  let? s := sj_string raw in
  map_err (fun e => sj_custom (show e)) (from_str s).

Definition IP4ParseError_fmt (e : IP4ParseError) : string :=
  match e with
  | IP4InvalidAddr s => "invalid IPv4 address: " +:+ s
  | IP4InvalidNet s => "invalid IPv4 network: " +:+ s
  end.

Definition IP6ParseError_fmt (e : IP6ParseError) : string :=
  match e with
  | IP6InvalidAddr s => "invalid IPv6 address: " +:+ s
  | IP6InvalidNet s => "invalid IPv6 network: " +:+ s
  end.

Definition de_ip4 := de_via IP4_from_str IP4ParseError_fmt.
Definition de_ip4net := de_via IP4Net_from_str IP4ParseError_fmt.
Definition de_ip6 := de_via IP6_from_str IP6ParseError_fmt.
Definition de_ip6net := de_via IP6Net_from_str IP6ParseError_fmt.

(** [Option<T>]: JSON null is [None]. *)
Definition de_option {A} (de : string -> result A string) (raw : string) : result (option A) string :=
  if sj_is_null raw then Ok None else let? v := de raw in Ok (Some v).

(** One key of the map in [visit_map]. *)
Definition visit_entry (cfg : Config) (entry : string * string) : result Config string :=
  let '(key, raw) := entry in
  match match_config_field key with
  | None => Ok cfg
  | Some name =>
      if String.eqb name "EnableIPv4" then let? v := sj_bool raw in Ok (set_enable_ipv4 v cfg)
      else if String.eqb name "EnableIPv6" then let? v := sj_bool raw in Ok (set_enable_ipv6 v cfg)
      else if String.eqb name "EnableNFTables" then
        let? v := sj_bool raw in Ok (set_enable_nftables v cfg)
      else if String.eqb name "Network" then let? v := de_ip4net raw in Ok (set_network v cfg)
      else if String.eqb name "IPv6Network" then
        let? v := de_ip6net raw in Ok (set_ipv6_network v cfg)
      else if String.eqb name "SubnetMin" then let? v := de_ip4 raw in Ok (set_subnet_min v cfg)
      else if String.eqb name "SubnetMax" then let? v := de_ip4 raw in Ok (set_subnet_max v cfg)
      else if String.eqb name "IPv6SubnetMin" then
        let? v := de_option de_ip6 raw in Ok (set_ipv6_subnet_min v cfg)
      else if String.eqb name "IPv6SubnetMax" then
        let? v := de_option de_ip6 raw in Ok (set_ipv6_subnet_max v cfg)
      else if String.eqb name "SubnetLen" then let? v := sj_u32 raw in Ok (set_subnet_len v cfg)
      else if String.eqb name "IPv6SubnetLen" then
        let? v := sj_u32 raw in Ok (set_ipv6_subnet_len v cfg)
      else if String.eqb name "Backend" then Ok (set_backend (Some raw) cfg)
      else Ok cfg
  end.

Fixpoint visit_entries (cfg : Config) (entries : list (string * string)) : result Config string :=
  match entries with
  | [] => Ok cfg
  | e :: rest => let? cfg := visit_entry cfg e in visit_entries cfg rest
  end.

Definition visit_map (entries : list (string * string)) (end_error : option string)
  : result Config string :=
  let? cfg := visit_entries (set_enable_ipv4 true Config_default) entries in
  match end_error with Some e => Err e | None => Ok cfg end.

Definition parse_backend_type (backend : option string) : result string ConfigError :=
  match backend with
  | None => Ok "udp"
  | Some raw =>
      if str_is_empty raw then Ok "udp"
      else
        let? value := map_err CeBackend (sj_value raw) in
        match value with
        | VNull => Ok ""
        | VObject fields =>
            match fold_lookup fields "Type" with
            | None => Ok ""
            | Some (VString ty) => Ok ty
            | Some other =>
                Err (CeBackend ("cannot unmarshal " +:+ json_type_name other
                                +:+ " into Go struct field .Type of type string"))
            end
        | other =>
            Err (CeBackend ("cannot unmarshal " +:+ json_type_name other
                            +:+ " into Go value of type struct { Type string }"))
        end
  end.

Definition parse_config (s : string) : result Config ConfigError :=
  let '(entries, end_error) := sj_entries s in
  let? cfg := map_err CeJson (visit_map entries end_error) in
  let? bt := parse_backend_type (cfg_backend cfg) in
  Ok (set_backend_type bt cfg).
End Decode.

(** ** [check_network_config] *)

(** The effective subnet length: the configured one if it fits, else the
    default for the network's size.  [maxlen] is 30 or 126, [minnet] 28 or
    124, [dflt] 24 or 64, chosen when the prefix is at most [dflt - 2]. *)
Definition effective_len (too_big too_small : ConfigError) (maxlen minnet dflt plen slen : Z)
  : result Z ConfigError :=
  if 0 <? slen then
    if maxlen <? slen then Err too_big
    else if slen <? plen + 2 then Err TooFewSubnets
    else Ok slen
  else if minnet <? plen then Err too_small
  else if plen <=? dflt - 2 then Ok dflt
  else Ok (plen + 2).

Definition check_ipv4_config (c : Config) : Config * result unit ConfigError :=
  if IP4Net_empty (cfg_network c) then (c, Err MissingNetwork)
  else
    match effective_len SubnetLenTooBigV4 NetworkTooSmallV4 30 28 24
            (ip4n_plen (cfg_network c)) (cfg_subnet_len c) with
    | Err e => (c, Err e)
    | Ok slen =>
        let c := set_subnet_len slen c in
        let size := Z.shiftl 1 (32 - slen) in
        let c_min :=
          if cfg_subnet_min c =? 0
          then Ok (set_subnet_min (get_subnet_min (ip4n_ip (cfg_network c)) size) c)
          else if IP4Net_contains (cfg_network c) (cfg_subnet_min c) then Ok c
          else Err SubnetMinOutOfRange in
        match c_min with
        | Err e => (c, Err e)
        | Ok c =>
            let c_max :=
              if cfg_subnet_max c =? 0
              then Ok (set_subnet_max (get_subnet_max (ip4n_ip (IP4Net_next (cfg_network c))) size) c)
              else if IP4Net_contains (cfg_network c) (cfg_subnet_max c) then Ok c
              else Err SubnetMaxOutOfRange in
            match c_max with
            | Err e => (c, Err e)
            | Ok c =>
                let boundary := mask slen in
                if negb (check_subnet (cfg_subnet_min c) boundary)
                then (c, Err (SubnetMinUnaligned (cfg_subnet_min c)))
                else if negb (check_subnet (cfg_subnet_max c) boundary)
                then (c, Err (SubnetMaxUnaligned (cfg_subnet_max c)))
                else (c, Ok tt)
            end
        end
    end.

(** [Some(x) if !is_empty(x)] *)
Definition nonempty_ip6 (o : option IP6) : option IP6 :=
  match o with
  | Some x => if IP6_is_empty x then None else Some x
  | None => None
  end.

#[global] Arguments nonempty_ip6 : simpl never.

Definition check_ipv6_config (c : Config) : Config * result unit ConfigError :=
  if IP6Net_empty (cfg_ipv6_network c) then (c, Err MissingIpv6Network)
  else
    match effective_len SubnetLenTooBigV6 NetworkTooSmallV6 126 124 64
            (ip6n_plen (cfg_ipv6_network c)) (cfg_ipv6_subnet_len c) with
    | Err e => (c, Err e)
    | Ok slen =>
        let c := set_ipv6_subnet_len slen c in
        let size := Z.shiftl 1 (128 - slen) in
        let c_min :=
          match nonempty_ip6 (cfg_ipv6_subnet_min c) with
          | Some min => if IP6Net_contains (cfg_ipv6_network c) min then Ok (c, min)
                        else Err Ipv6SubnetMinOutOfRange
          | None => let min := get_ipv6_subnet_min (ip6n_ip (cfg_ipv6_network c)) size in
                    Ok (set_ipv6_subnet_min (Some min) c, min)
          end in
        match c_min with
        | Err e => (c, Err e)
        | Ok (c, v6_min) =>
            let c_max :=
              match nonempty_ip6 (cfg_ipv6_subnet_max c) with
              | Some max => if IP6Net_contains (cfg_ipv6_network c) max then Ok (c, max)
                            else Err Ipv6SubnetMaxOutOfRange
              | None => let max := get_ipv6_subnet_max (ip6n_ip (IP6Net_next (cfg_ipv6_network c))) size in
                        Ok (set_ipv6_subnet_max (Some max) c, max)
              end in
            match c_max with
            | Err e => (c, Err e)
            | Ok (c, v6_max) =>
                let boundary := mask6 slen in
                if negb (check_ipv6_subnet v6_min boundary)
                then (c, Err (Ipv6SubnetMinUnaligned v6_min))
                else if negb (check_ipv6_subnet v6_max boundary)
                then (c, Err (Ipv6SubnetMaxUnaligned v6_max))
                else (c, Ok tt)
            end
        end
    end.

Definition check_network_config (config : Config) : Config * result unit ConfigError :=
  let '(c, r) := if cfg_enable_ipv4 config then check_ipv4_config config else (config, Ok tt) in
  match r with
  | Err e => (c, Err e)
  | Ok _ => if cfg_enable_ipv6 c then check_ipv6_config c else (c, Ok tt)
  end.

(** ** Specification *)

(** What decoding guarantees of the address fields. *)
Record Config_wf (c : Config) : Prop := {
  cwf_net : IP4Net_valid (cfg_network c);
  cwf_net_base : IP4Net_network (cfg_network c) = cfg_network c;
  cwf_min : u32 (cfg_subnet_min c);
  cwf_max : u32 (cfg_subnet_max c);
  cwf_len : u32 (cfg_subnet_len c);
  cwf_net6 : IP6Net_valid (cfg_ipv6_network c);
  cwf_net6_base : IP6Net_network (cfg_ipv6_network c) = cfg_ipv6_network c;
  cwf_min6 : from_option IP6_typed True (cfg_ipv6_subnet_min c);
  cwf_max6 : from_option IP6_typed True (cfg_ipv6_subnet_max c);
  cwf_len6 : u32 (cfg_ipv6_subnet_len c);
}.

(** A usable IPv4 range: room for at least four subnets of at least four
    addresses, and bounds that are subnets of the network. *)
Definition ipv4_range_ok (c : Config) : Prop :=
  let n := cfg_network c in
  let k := cfg_subnet_len c in
  1 <= ip4n_plen n /\ ip4n_plen n + 2 <= k <= 30 /\
  IP4Net_contains n (cfg_subnet_min c) = true /\ IP4Net_contains n (cfg_subnet_max c) = true /\
  0 < cfg_subnet_min c /\ 0 < cfg_subnet_max c /\
  cfg_subnet_min c mod 2 ^ (32 - k) = 0 /\ cfg_subnet_max c mod 2 ^ (32 - k) = 0.

Definition ipv6_range_ok (c : Config) : Prop :=
  let n := cfg_ipv6_network c in
  let k := cfg_ipv6_subnet_len c in
  1 <= ip6n_plen n /\ ip6n_plen n + 2 <= k <= 126 /\
  exists min max,
    cfg_ipv6_subnet_min c = Some min /\ cfg_ipv6_subnet_max c = Some max /\
    IP6Net_contains n min = true /\ IP6Net_contains n max = true /\
    0 < ip6_value min /\ 0 < ip6_value max /\
    ip6_value min mod 2 ^ (128 - k) = 0 /\ ip6_value max mod 2 ^ (128 - k) = 0.

(** ** Lemmas *)

Lemma effective_len_ok big small maxlen minnet dflt plen slen k :
  0 <= slen -> dflt <= maxlen -> minnet + 2 <= maxlen ->
  effective_len big small maxlen minnet dflt plen slen = Ok k -> plen + 2 <= k <= maxlen.
Proof.
  intros. unfold effective_len in *. repeat case_match; simplify_eq; bool_to_prop; lia.
Qed.

Lemma IP4Net_nonempty_plen n :
  IP4Net_valid n -> IP4Net_network n = n -> IP4Net_empty n = false -> 1 <= ip4n_plen n.
Proof.
  intros [Hi Hp] Hn He. destruct (decide (ip4n_plen n = 0)) as [H0|]; [|lia].
  unfold IP4Net_empty in He. rewrite <- Hn in He. cbn in He.
  unfold IP4Net_mask in He. rewrite H0, Z.land_0_r in He. done.
Qed.

Lemma IP4Net_base_block n :
  IP4Net_valid n -> IP4Net_network n = n -> block_base 32 (ip4n_plen n) (ip4n_ip n) = ip4n_ip n.
Proof. intros Hv Hn. rewrite <- IP4Net_network_base by done. by rewrite Hn. Qed.

(** The default bounds of a usable network. *)
Lemma default_ipv4_bounds n k :
  IP4Net_valid n -> IP4Net_network n = n -> 1 <= ip4n_plen n -> ip4n_plen n + 2 <= k <= 30 ->
  let lo := get_subnet_min (ip4n_ip n) (Z.shiftl 1 (32 - k)) in
  let hi := get_subnet_max (ip4n_ip (IP4Net_next n)) (Z.shiftl 1 (32 - k)) in
  u32 lo /\ u32 hi /\ IP4Net_contains n lo = true /\ IP4Net_contains n hi = true /\
  ip4n_ip n < lo < hi /\ lo mod 2 ^ (32 - k) = 0 /\ hi mod 2 ^ (32 - k) = 0.
Proof.
  intros Hv Hn Hp Hk lo hi. pose proof (IP4Net_base_block n Hv Hn) as Hb. destruct Hv as [Hi Hp'].
  destruct (first_last_subnet 32 ltac:(lia) (ip4n_plen n) k (ip4n_ip n) Hp ltac:(lia) Hi Hb)
    as (H1 & H2 & H3 & H4 & H5 & H6 & H7 & H8).
  assert (Hlo : lo = wrap 32 (ip4n_ip n + 2 ^ (32 - k))).
  { subst lo. unfold get_subnet_min. by rewrite Z.shiftl_1_l. }
  assert (Hhi : hi = wrap 32 (wrap 32 (ip4n_ip n + 2 ^ (32 - ip4n_plen n)) - 2 ^ (32 - k))).
  { subst hi. unfold get_subnet_max, IP4Net_next. cbn [ip4n_ip].
    by rewrite Z.shiftl_1_l, subnet_size_of, size_of_value by lia. }
  rewrite Hlo, Hhi. rewrite !IP4Net_contains_block by done. done.
Qed.

Lemma check_subnet_multiple k x :
  0 <= k <= 32 -> u32 x -> check_subnet x (mask k) = true <-> x mod 2 ^ (32 - k) = 0.
Proof. intros. apply (land_mask_multiple 32); [lia|done..]. Qed.

Lemma check_ipv4_config_ok c c' :
  Config_wf c -> check_ipv4_config c = (c', Ok tt) ->
  Config_wf c' /\ ipv4_range_ok c' /\ cfg_network c' = cfg_network c /\
  cfg_enable_ipv6 c' = cfg_enable_ipv6 c /\ cfg_enable_ipv4 c' = cfg_enable_ipv4 c /\
  (cfg_subnet_min c = 0 -> cfg_subnet_max c = 0 ->
   ip4n_ip (cfg_network c') < cfg_subnet_min c' < cfg_subnet_max c').
Proof.
  intros Hwf H. unfold check_ipv4_config in H.
  destruct (IP4Net_empty (cfg_network c)) eqn:He; [done|].
  pose proof (IP4Net_nonempty_plen _ (cwf_net c Hwf) (cwf_net_base c Hwf) He) as Hp.
  destruct (effective_len _ _ 30 28 24 _ _) as [k|] eqn:Hk; [|done].
  apply effective_len_ok in Hk; [|apply (cwf_len c Hwf)|lia..].
  pose proof (default_ipv4_bounds _ k (cwf_net c Hwf) (cwf_net_base c Hwf) Hp Hk)
    as (D1 & D2 & D3 & D4 & D5 & D6 & D7).
  destruct Hwf as [W1 W2 W3 W4 W5 W6 W7 W8 W9 W10].
  destruct c as [e4 e6 nf n n6 mi ma mi6 ma6 sl sl6 bt be]. cbn in *. cbv zeta in H.
  assert (HM : forall x, u32 x -> check_subnet x (mask k) = true -> x mod 2 ^ (32 - k) = 0).
  { intros x Hx. apply check_subnet_multiple; [lia|done]. }
  assert (u32 k) by (split; lia).
  assert (Hb0 : 0 <= ip4n_ip n) by apply W1.
  assert (Hnz : forall x, u32 x -> x <> 0 -> 0 < x) by (intros x [? ?]; lia).
  assert (Hfin : forall mn mx, u32 mn -> u32 mx -> mn <> 0 -> mx <> 0 -> IP4Net_contains n mn = true -> IP4Net_contains n mx = true ->
    check_subnet mn (mask k) = true -> check_subnet mx (mask k) = true ->
    Config_wf (mkConfig e4 e6 nf n n6 mn mx mi6 ma6 k sl6 bt be) /\
    ipv4_range_ok (mkConfig e4 e6 nf n n6 mn mx mi6 ma6 k sl6 bt be)).
  { intros. split; [by split|]. unfold ipv4_range_ok. cbn. auto 10. }
  repeat case_match; simplify_eq/=; bool_to_prop; simplify_eq;
    (match goal with |- Config_wf (mkConfig _ _ _ _ _ ?a ?b _ _ _ _ _ _) /\ _ =>
       destruct (Hfin a b) as [? ?]; [done || lia..|] end);
    split_and!; try done; intros; try congruence.
Qed.

Lemma IP6Net_contains_block n ip :
  IP6Net_valid n -> IP6_typed ip ->
  IP6Net_contains n ip = true <-> in_block 128 (ip6n_plen n) (ip6_value (ip6n_ip n)) (ip6_value ip).
Proof. apply (cn_contains_spec (CidrNet := IP6Net_cidr)). Qed.

Lemma IP6Net_base_block n :
  IP6Net_valid n -> IP6Net_network n = n ->
  block_base 128 (ip6n_plen n) (ip6_value (ip6n_ip n)) = ip6_value (ip6n_ip n).
Proof.
  intros Hv Hn. transitivity (ip6_value (ip6n_ip (IP6Net_network n))); [|by rewrite Hn].
  rewrite IP6Net_network_base, ip6_value_from_value; [done| |done].
  apply block_base_wf; [lia|apply Hv|by apply ip6_at_bound].
Qed.

Lemma IP6Net_nonempty_plen n :
  IP6Net_valid n -> IP6Net_network n = n -> IP6Net_empty n = false -> 1 <= ip6n_plen n.
Proof.
  intros Hv Hn He. destruct (decide (ip6n_plen n = 0)) as [H0|]; [|destruct Hv; lia].
  exfalso. unfold IP6Net_empty in He. rewrite H0, andb_true_r in He.
  assert (ip6n_ip n = IP6_zero) as Hz; [|by rewrite Hz in He].
  rewrite <- Hn. cbn. unfold IP6Net_mask. rewrite H0.
  change (ip6_value (mask6 0)) with 0. by rewrite Z.land_0_r.
Qed.

Lemma default_ipv6_bounds n k :
  IP6Net_valid n -> IP6Net_network n = n -> 1 <= ip6n_plen n -> ip6n_plen n + 2 <= k <= 126 ->
  let lo := get_ipv6_subnet_min (ip6n_ip n) (Z.shiftl 1 (128 - k)) in
  let hi := get_ipv6_subnet_max (ip6n_ip (IP6Net_next n)) (Z.shiftl 1 (128 - k)) in
  IP6_typed lo /\ IP6_typed hi /\ IP6Net_contains n lo = true /\ IP6Net_contains n hi = true /\
  ip6_value (ip6n_ip n) < ip6_value lo < ip6_value hi /\
  ip6_value lo mod 2 ^ (128 - k) = 0 /\ ip6_value hi mod 2 ^ (128 - k) = 0.
Proof.
  intros Hv Hn Hp Hk lo hi. pose proof (IP6Net_base_block n Hv Hn) as Hb.
  pose proof (ip6_at_bound n Hv) as Hi.
  destruct (first_last_subnet 128 ltac:(lia) (ip6n_plen n) k _ Hp ltac:(lia) Hi Hb)
    as (H1 & H2 & H3 & H4 & H5 & H6 & H7 & H8).
  assert (Hlo : ip6_value lo = wrap 128 (ip6_value (ip6n_ip n) + 2 ^ (128 - k))).
  { subst lo. unfold get_ipv6_subnet_min. rewrite Z.shiftl_1_l. by rewrite ip6_value_from_value. }
  assert (Hhi : ip6_value hi
    = wrap 128 (wrap 128 (ip6_value (ip6n_ip n) + 2 ^ (128 - ip6n_plen n)) - 2 ^ (128 - k))).
  { subst hi. unfold get_ipv6_subnet_max, IP6Net_next. cbn [ip6n_ip].
    change subnet_size6 with (size_of 128). rewrite Z.shiftl_1_l, size_of_value by lia.
    rewrite !ip6_value_from_value; [done|by apply wrap_in_width|].
    rewrite ip6_value_from_value; [done|by apply wrap_in_width]. }
  assert (IP6_typed lo /\ IP6_typed hi) as [Tlo Thi] by (split; apply ip6_from_value_typed).
  rewrite !IP6Net_contains_block by done. rewrite Hlo, Hhi. by split_and!.
Qed.

Lemma check_ipv6_subnet_multiple k x :
  0 <= k <= 128 -> IP6_typed x ->
  check_ipv6_subnet x (mask6 k) = true <-> ip6_value x mod 2 ^ (128 - k) = 0.
Proof.
  intros Hk Hx. unfold check_ipv6_subnet. rewrite mask6_of by done.
  apply (land_mask_multiple 128); [lia|done|by apply ip6_value_bound].
Qed.

Lemma nonempty_ip6_Some o x : nonempty_ip6 o = Some x -> o = Some x /\ IP6_is_empty x = false.
Proof. unfold nonempty_ip6. intros. repeat case_match; simplify_eq; done. Qed.

Lemma IP6_nonzero x : IP6_typed x -> IP6_is_empty x = false <-> 0 < ip6_value x.
Proof.
  intros Hx. pose proof (ip6_value_bound x Hx) as [H0 _]. unfold IP6_is_empty.
  rewrite bool_decide_eq_false. split.
  - intros Hne. destruct (decide (ip6_value x = 0)) as [Hz|]; [|lia]. exfalso. apply Hne.
    rewrite <- (ip6_from_value_value x Hx), Hz. done.
  - intros Hlt ->. done.
Qed.

Lemma check_ipv6_config_ok c c' :
  Config_wf c -> check_ipv6_config c = (c', Ok tt) ->
  Config_wf c' /\ ipv6_range_ok c' /\ cfg_ipv6_network c' = cfg_ipv6_network c /\
  (ipv4_range_ok c -> ipv4_range_ok c') /\ cfg_enable_ipv4 c' = cfg_enable_ipv4 c /\
  cfg_enable_ipv6 c' = cfg_enable_ipv6 c /\
  cfg_network c' = cfg_network c /\ cfg_subnet_min c' = cfg_subnet_min c /\
  cfg_subnet_max c' = cfg_subnet_max c.
Proof.
  intros Hwf H. unfold check_ipv6_config in H.
  destruct (IP6Net_empty (cfg_ipv6_network c)) eqn:He; [done|].
  pose proof (IP6Net_nonempty_plen _ (cwf_net6 c Hwf) (cwf_net6_base c Hwf) He) as Hp.
  destruct (effective_len _ _ 126 124 64 _ _) as [k|] eqn:Hk; [|done].
  apply effective_len_ok in Hk; [|apply (cwf_len6 c Hwf)|lia..].
  pose proof (default_ipv6_bounds _ k (cwf_net6 c Hwf) (cwf_net6_base c Hwf) Hp Hk)
    as (D1 & D2 & D3 & D4 & D5 & D6 & D7).
  pose proof (Z.le_lt_trans _ _ _ (proj1 (ip6_at_bound _ (cwf_net6 c Hwf))) (proj1 D5)) as Hlo.
  pose proof (Z.lt_trans _ _ _ Hlo (proj2 D5)) as Hhi.
  destruct Hwf as [W1 W2 W3 W4 W5 W6 W7 W8 W9 W10].
  destruct c as [e4 e6 nf n n6 mi ma mi6 ma6 sl sl6 bt be]. cbn in *. cbv zeta in H.
  assert (u32 k) by (split; lia).
  assert (Hfin : forall mn mx, IP6_typed mn -> IP6_typed mx -> 0 < ip6_value mn -> 0 < ip6_value mx ->
    IP6Net_contains n6 mn = true -> IP6Net_contains n6 mx = true ->
    check_ipv6_subnet mn (mask6 k) = true -> check_ipv6_subnet mx (mask6 k) = true ->
    Config_wf (mkConfig e4 e6 nf n n6 mi ma (Some mn) (Some mx) sl k bt be) /\
    ipv6_range_ok (mkConfig e4 e6 nf n n6 mi ma (Some mn) (Some mx) sl k bt be)).
  { intros mn mx ? ? ? ? ? ? C1 C2. apply check_ipv6_subnet_multiple in C1, C2; [|done || lia..].
    split; [by split|]. unfold ipv6_range_ok. cbn. eauto 16. }
  repeat case_match; simplify_eq/=; bool_to_prop;
    repeat (match goal with E : nonempty_ip6 ?o = Some _ |- _ =>
              apply nonempty_ip6_Some in E as [-> ?] end);
    cbn in W8, W9;
    (match goal with |- Config_wf (mkConfig _ _ _ _ _ _ _ (Some ?a) (Some ?b) _ _ _ _) /\ _ =>
       destruct (Hfin a b) as [? ?]; [done || lia || by apply IP6_nonzero..|] end);
    by split_and!.
Qed.

Lemma effective_len_stable big small maxlen minnet dflt plen slen :
  0 <= plen -> plen + 2 <= slen <= maxlen ->
  effective_len big small maxlen minnet dflt plen slen = Ok slen.
Proof.
  intros. unfold effective_len. rewrite (proj2 (Z.ltb_lt 0 slen)) by lia.
  by rewrite (proj2 (Z.ltb_ge maxlen slen)), (proj2 (Z.ltb_ge slen (plen + 2))) by lia.
Qed.

Lemma check_ipv4_config_stable c :
  Config_wf c -> ipv4_range_ok c -> check_ipv4_config c = (c, Ok tt).
Proof.
  intros [W1 W2 W3 W4 W5 W6 W7 W8 W9 W10] (Hp & Hk & C1 & C2 & Z1 & Z2 & M1 & M2).
  destruct c as [e4 e6 nf n n6 mi ma mi6 ma6 sl sl6 bt be]. cbn in *.
  unfold check_ipv4_config. cbn.
  assert (IP4Net_empty n = false) as ->.
  { unfold IP4Net_empty. rewrite (proj2 (Z.eqb_neq (ip4n_plen n) 0)) by lia. apply andb_false_r. }
  rewrite effective_len_stable by lia. cbn.
  rewrite (proj2 (Z.eqb_neq mi 0)), C1 by lia. cbn.
  rewrite (proj2 (Z.eqb_neq ma 0)), C2 by lia. cbn.
  rewrite (proj2 (check_subnet_multiple sl mi ltac:(lia) W3)) by done.
  by rewrite (proj2 (check_subnet_multiple sl ma ltac:(lia) W4)).
Qed.

Lemma check_ipv6_config_stable c :
  Config_wf c -> ipv6_range_ok c -> check_ipv6_config c = (c, Ok tt).
Proof.
  intros [W1 W2 W3 W4 W5 W6 W7 W8 W9 W10] (Hp & Hk & mn & mx & E1 & E2 & C1 & C2 & Z1 & Z2 & M1 & M2).
  destruct c as [e4 e6 nf n n6 mi ma mi6 ma6 sl sl6 bt be]. cbn in *. subst. cbn in W8, W9.
  unfold check_ipv6_config. cbn.
  assert (IP6Net_empty n6 = false) as ->.
  { unfold IP6Net_empty. rewrite (proj2 (Z.eqb_neq (ip6n_plen n6) 0)) by lia. apply andb_false_r. }
  rewrite effective_len_stable by lia. cbn. unfold nonempty_ip6 at 1.
  rewrite (proj2 (IP6_nonzero mn W8) Z1), C1. cbn. unfold nonempty_ip6.
  rewrite (proj2 (IP6_nonzero mx W9) Z2), C2.
  rewrite (proj2 (check_ipv6_subnet_multiple sl6 mn ltac:(lia) W8)) by done.
  by rewrite (proj2 (check_ipv6_subnet_multiple sl6 mx ltac:(lia) W9)).
Qed.

Lemma Config_default_wf : Config_wf (set_enable_ipv4 true Config_default).
Proof.
  split; cbn; try done.
  - apply (bool_decide_unpack (IP6Net_valid IP6Net_default)). by vm_compute.
Qed.

Section DecodeWf.
Context `{SJ : SerdeJson}.

Lemma de_via_Ok {A E} (f : string -> result A E) show raw v :
  de_via f show raw = Ok v -> exists s, f s = Ok v.
Proof.
  unfold de_via. destruct (sj_string raw) as [s|]; [|done]. cbn.
  destruct (f s) eqn:E'; [|done]. cbn. intros [= ->]. eauto.
Qed.

Lemma visit_entry_wf c e c' : Config_wf c -> visit_entry c e = Ok c' -> Config_wf c'.
Proof.
  intros Hwf H. destruct e as [key raw]. unfold visit_entry in H.
  destruct c as [e4 e6 nf n n6 mi ma mi6 ma6 sl sl6 bt be].
  destruct Hwf as [W1 W2 W3 W4 W5 W6 W7 W8 W9 W10]. cbn in *.
  assert (Ho : forall o, de_option de_ip6 raw = Ok o -> from_option IP6_typed True o).
  { intros o. unfold de_option. destruct (sj_is_null raw); [by intros [= <-]|].
    destruct (de_ip6 raw) as [v|] eqn:E; [|done]. intros [= <-].
    apply de_via_Ok in E as [s E]. by apply IP6_from_str_typed in E. }
  destruct (match_config_field key) as [name|]; [|by simplify_eq].
  repeat (match type of H with (if String.eqb _ _ then _ else _) = _ => case_match end);
    (match type of H with
     | rbind ?r _ = _ => destruct r eqn:?; cbn in H; [|done]
     | _ => idtac
     end); simplify_eq; split; cbn; try done;
    try (by apply Ho); try (by eapply sj_u32_typed);
    try match goal with
    | E : de_ip4 _ = Ok _ |- _ => apply de_via_Ok in E as [? E]; by apply IP4_from_str_typed in E
    | E : de_ip4net _ = Ok _ |- _ => apply de_via_Ok in E as [? E]; by apply IP4Net_from_str_valid in E as [? ?]
    | E : de_ip6net _ = Ok _ |- _ => apply de_via_Ok in E as [? E]; by apply IP6Net_from_str_valid in E as [? ?]
    end.
Qed.

Lemma visit_entries_wf es c c' : Config_wf c -> visit_entries c es = Ok c' -> Config_wf c'.
Proof.
  revert c. induction es as [|e es IH]; intros c Hwf H; cbn in H; [by simplify_eq|].
  destruct (visit_entry c e) as [c1|] eqn:E; [|done]. eapply IH; [|exact H]. by eapply visit_entry_wf.
Qed.
End DecodeWf.

(** A decoder for a line format [key=value;key=value], to run [parse_config]
    on concrete inputs. *)
Definition line_entries (s : string) : list (string * string) * option string :=
  (omap (fun piece => split_once "=" piece) (str_split ";" s), None).

#[local] Program Instance line_serde : SerdeJson := {|
  sj_entries := line_entries;
  sj_bool s := if String.eqb s "true" then Ok true
               else if String.eqb s "false" then Ok false else Err "expected a boolean";
  sj_u32 s := map_err (fun _ => "expected u32") (parse_u32 s);
  sj_string s := Ok s;
  sj_is_null s := String.eqb s "null";
  sj_value s := Ok (VObject [("type", VString s)]);
  sj_custom s := s |}.
Next Obligation.
  cbn. intros s n. destruct (parse_u32 s) eqn:E; [|done]. intros [= <-]. by apply parse_u32_typed in E.
Qed.

(** ** Properties *)

(** C37: a decoded configuration is well-formed, whatever the text: its networks
    have valid prefixes and no host bits set, its addresses and lengths are in
    range; and the backend defaults to [udp] exactly when no [Backend] entry
    is given. *)
Theorem parse_config_wf `{SJ : SerdeJson} s c :
  parse_config s = Ok c ->
  Config_wf c /\ (cfg_backend c = None -> cfg_backend_type c = "udp").
Proof.
  unfold parse_config. destruct (sj_entries s) as [es err].
  unfold visit_map. destruct (visit_entries _ es) as [c0|] eqn:E; [|done]. cbn.
  destruct err; [done|]. cbn. apply visit_entries_wf in E; [|apply Config_default_wf].
  destruct (parse_backend_type (cfg_backend c0)) as [bt|] eqn:Eb; [|done]. cbn. intros [= <-].
  destruct c0 as [e4 e6 nf n n6 mi ma mi6 ma6 sl sl6 bt0 be]. destruct E. cbn in *.
  split; [by split|]. intros ->. by simplify_eq/=.
Qed.

Lemma parse_config_wf_witness :
  exists c, parse_config (SJ := line_serde) "Network=10.5.0.9/16;subnetlen=26" = Ok c /\ Config_wf c.
Proof.
  eexists. split; [vm_compute; reflexivity|].
  apply (parse_config_wf (SJ := line_serde) "Network=10.5.0.9/16;subnetlen=26"). vm_compute. reflexivity.
Defined.

(** C8: a configuration that passes [check_network_config] has, for each
    enabled address family, a subnet length that leaves room for at least four
    subnets of at least four addresses, and bounds that are non-zero, lie in
    the network and are aligned to that length; defaulted IPv4 bounds skip the
    network's first subnet and are in order.  Networks and flags are kept. *)
Theorem check_network_config_sound c c' :
  Config_wf c -> check_network_config c = (c', Ok tt) ->
  Config_wf c' /\ cfg_network c' = cfg_network c /\
  cfg_enable_ipv4 c' = cfg_enable_ipv4 c /\ cfg_enable_ipv6 c' = cfg_enable_ipv6 c /\
  (cfg_enable_ipv4 c = true -> ipv4_range_ok c' /\
     (cfg_subnet_min c = 0 -> cfg_subnet_max c = 0 ->
      ip4n_ip (cfg_network c') < cfg_subnet_min c' < cfg_subnet_max c')) /\
  (cfg_enable_ipv6 c = true -> ipv6_range_ok c').
Proof.
  intros Hwf H. unfold check_network_config in H. destruct (cfg_enable_ipv4 c) eqn:E4.
  - destruct (check_ipv4_config c) as [c1 [[]|]] eqn:H1; [|done].
    apply check_ipv4_config_ok in H1 as (Hwf1 & R1 & N1 & F6 & F4 & D1); [|done].
    destruct (cfg_enable_ipv6 c1) eqn:E6.
    + apply check_ipv6_config_ok in H as (Hwf2 & R2 & N2 & K4 & F4' & F6' & N4 & Nmi & Nma); [|done].
      rewrite N4, Nmi, Nma, F4', F6', N1, <- F6 in *. split_and!; try done; try congruence; auto.
    + simplify_eq. rewrite N1 in *. split_and!; try done; congruence.
  - destruct (cfg_enable_ipv6 c) eqn:E6.
    + apply check_ipv6_config_ok in H as (Hwf2 & R2 & N2 & K4 & F4' & F6' & N4 & Nmi & Nma); [|done].
      split_and!; try done; congruence.
    + by simplify_eq.
Qed.

Definition sample_config : Config :=
  mkConfig true true false (mkIP4Net (IP4_from_octets 10 5 0 0) 16)
    (mkIP6Net (ip6_from_value (252 * 2 ^ 120)) 48) 0 0 None None 0 0 "udp" None.

Lemma sample_config_wf : Config_wf sample_config.
Proof.
  split; try (by vm_compute).
  - apply (bool_decide_unpack (IP6Net_valid _)). by vm_compute.
Qed.

Lemma check_network_config_sound_witness :
  snd (check_network_config sample_config) = Ok tt /\
  Config_wf (fst (check_network_config sample_config)).
Proof.
  split; [by vm_compute|].
  apply (check_network_config_sound sample_config _ sample_config_wf). by vm_compute.
Defined.

(** [check_network_config] is idempotent: run again on the configuration
    it accepted, it accepts it and changes nothing. *)
Theorem check_network_config_idempotent c c' :
  Config_wf c -> check_network_config c = (c', Ok tt) -> check_network_config c' = (c', Ok tt).
Proof.
  intros Hwf H. unfold check_network_config in H. destruct (cfg_enable_ipv4 c) eqn:E4.
  - destruct (check_ipv4_config c) as [c1 [[]|]] eqn:H1; [|done].
    apply check_ipv4_config_ok in H1 as (Hwf1 & R1 & N1 & F6 & F4 & D1); [|done].
    destruct (cfg_enable_ipv6 c1) eqn:E6.
    + apply check_ipv6_config_ok in H as (Hwf2 & R2 & N2 & K4 & F4' & F6' & N4 & Nmi & Nma); [|done].
      unfold check_network_config. rewrite F4', F4, E4, check_ipv4_config_stable by auto.
      rewrite F6', E6. by apply check_ipv6_config_stable.
    + simplify_eq. unfold check_network_config. rewrite F4, E4, check_ipv4_config_stable by auto.
      by rewrite E6.
  - destruct (cfg_enable_ipv6 c) eqn:E6.
    + apply check_ipv6_config_ok in H as (Hwf2 & R2 & N2 & K4 & F4' & F6' & N4 & Nmi & Nma); [|done].
      unfold check_network_config. rewrite F4', E4, F6', E6. by apply check_ipv6_config_stable.
    + simplify_eq. unfold check_network_config. by rewrite E4, E6.
Qed.

Lemma check_network_config_idempotent_witness :
  check_network_config (fst (check_network_config sample_config))
  = (fst (check_network_config sample_config), Ok tt).
Proof. apply (check_network_config_idempotent sample_config _ sample_config_wf). by vm_compute. Defined.
