(* ===== verification/Anyhow.v ===== *)
(** * [anyhow::Error] and [serde_json::Map], as far as the code uses them

    An error is the list of its messages, from the outermost context to the
    cause.  A map of JSON members is a list sorted by key, as the [BTreeMap]
    that [serde_json] uses without the feature [preserve_order]. *)

From S2P Require Import Prelude RustStr Config.
#[local] Open Scope string_scope.
#[local] Open Scope list_scope.
#[local] Open Scope Z_scope.

Abbreviation anyhow := (list string) (only parsing).

(** [{e}]: the outermost message *)
Definition fmt_anyhow (e : anyhow) : string := default "" (list.head e).
(** [{e:#}]: the whole chain *)
Definition fmt_anyhow_alt (e : anyhow) : string := str_join ": " e.

(** [context], [with_context] *)
Definition with_context {T} (msg : string) (r : result T anyhow) : result T anyhow := map_err (cons msg) r.

(** ** [Map<String, Value>] *)

Abbreviation JsonMap := (list (string * Value)) (only parsing).

Fixpoint Map_get (m : JsonMap) (key : string) : option Value :=
  match m with
  | [] => None
  | (k, v) :: m => if String.eqb k key then Some v else Map_get m key
  end.

Definition Map_contains_key (m : JsonMap) (key : string) : bool := is_some (Map_get m key).

Fixpoint Map_insert (m : JsonMap) (key : string) (val : Value) : JsonMap :=
  match m with
  | [] => [(key, val)]
  | (k, v) :: m' =>
      match String.compare key k with
      | Lt => (key, val) :: m
      | Eq => (key, val) :: m'
      | Gt => (k, v) :: Map_insert m' key val
      end
  end.

(** [for (key, val) in other { m.insert(key.clone(), val.clone()); }] *)
Definition Map_extend (m other : JsonMap) : JsonMap :=
  fold_left (fun m kv => Map_insert m kv.1 kv.2) other m.

(** [value.get(key)]: of an object *)
Definition Value_get (v : Value) (key : string) : option Value :=
  match v with VObject m => Map_get m key | _ => None end.

(** [value[key]] *)
Definition Value_index (v : Value) (key : string) : Value := default VNull (Value_get v key).

Definition as_str (v : Value) : option string := match v with VString s => Some s | _ => None end.
Definition as_i64 (v : Value) : option Z :=
  match v with VNumber n => result_ok (from_str_radix_i 64 10 n) | _ => None end.

(** ** Lemmas *)

Lemma Map_get_insert m key val k :
  Map_get (Map_insert m key val) k = if String.eqb key k then Some val else Map_get m k.
Proof.
  induction m as [|[x v] m IH]; [done|]. cbn [Map_insert].
  destruct (String.compare key x) eqn:Hc; cbn [Map_get].
  - apply String.compare_eq_iff in Hc as ->. by destruct (String.eqb x k).
  - done.
  - destruct (String.eqb_spec x k) as [->|]; [|exact IH].
    destruct (String.eqb_spec key k) as [->|]; [|done].
    pose proof (String.compare_antisym k k) as Ha. by rewrite Hc in Ha.
Qed.

(** The last member of a key wins. *)
Fixpoint Map_last (m : JsonMap) (key : string) : option Value :=
  match m with
  | [] => None
  | (k, v) :: m => match Map_last m key with Some v => Some v | None => if String.eqb k key then Some v else None end
  end.

Lemma Map_get_extend m other k :
  Map_get (Map_extend m other) k = match Map_last other k with Some v => Some v | None => Map_get m k end.
Proof.
  unfold Map_extend. revert m. induction other as [|[x v] other IH]; intros m; [done|].
  cbn [fold_left Map_last fst snd]. rewrite IH, Map_get_insert. by destruct (Map_last other k), (String.eqb x k).
Qed.

(** Members of a map have different keys. *)
Definition keys_distinct (m : JsonMap) : Prop := NoDup (map fst m).

Lemma Map_last_get m k : keys_distinct m -> Map_last m k = Map_get m k.
Proof.
  unfold keys_distinct. induction m as [|[x v] m IH]; [done|]. cbn [map fst].
  intros [Hx Hm]%list.NoDup_cons. cbn [Map_last Map_get]. rewrite (IH Hm).
  destruct (String.eqb_spec x k) as [->|]; [|by destruct (Map_get m k)].
  replace (Map_get m k) with (@None Value); [done|]. symmetry. clear -Hx.
  induction m as [|[y w] m IH]; [done|]. cbn [map fst] in Hx. cbn [Map_get].
  destruct (String.eqb_spec y k) as [->|]; [|apply IH; intros ?; apply Hx, elem_of_cons; by right].
  destruct Hx. apply elem_of_cons. by left.
Qed.
