(* ===== verification/SubnetEnv.v ===== *)
(** * The subnet.env file: its writer and its two readers

    [subnet/writefile.rs] writes the file; [flanneld/src/subnetfile.rs] reads
    the previous CIDRs back at start-up; [flannel-cni/src/netconf.rs] reads it
    in the CNI plugin.  The file system is a map from paths to contents and an
    atomic write replaces one entry or fails. *)

From S2P Require Import Prelude RustStr StdNet Cidr IpNet Ip6Net Config.
#[local] Open Scope string_scope.
#[local] Open Scope list_scope.
#[local] Open Scope Z_scope.

Abbreviation FileSystem := (gmap string string).

Definition NLs : string := String NL "".

(** ** [write_subnet_file] *)

(** The text of the file; [None] is the panic of [increment_ip] in a build
    with overflow checks. *)
Definition subnet_file_content (overflow_checks : bool) (config : Config) (ip_masq : bool)
    (sn : IP4Net) (ipv6sn : IP6Net) (mtu : Z) : option string :=
  let v4 :=
    if cfg_enable_ipv4 config then
      match IP4Net_increment_ip overflow_checks sn with
      | None => None
      | Some sn =>
          Some ("FLANNEL_NETWORK=" +:+ IP4Net_fmt (cfg_network config) +:+ NLs
                +:+ "FLANNEL_SUBNET=" +:+ IP4Net_fmt sn +:+ NLs)
      end
    else Some "" in
  match v4 with
  | None => None
  | Some b =>
      let b :=
        if cfg_enable_ipv6 config then
          let ipv6sn := IP6Net_increment_ip ipv6sn in
          b +:+ "FLANNEL_IPV6_NETWORK=" +:+ IP6Net_fmt (cfg_ipv6_network config) +:+ NLs
            +:+ "FLANNEL_IPV6_SUBNET=" +:+ IP6Net_fmt ipv6sn +:+ NLs
        else b in
      Some (b +:+ "FLANNEL_MTU=" +:+ fmt_dec mtu +:+ NLs
              +:+ "FLANNEL_IPMASQ=" +:+ fmt_bool ip_masq +:+ NLs)
  end.

(** [write_subnet_file]: [mkdir] and [write] are the outcomes of creating the
    directory and of the atomic write. *)
Definition write_subnet_file (overflow_checks : bool) (mkdir write : result unit string)
    (fs : FileSystem) (path : string) (config : Config) (ip_masq : bool)
    (sn : IP4Net) (ipv6sn : IP6Net) (mtu : Z) : option (FileSystem * result unit string) :=
  match mkdir with
  | Err e => Some (fs, Err e)
  | Ok _ =>
      match subnet_file_content overflow_checks config ip_masq sn ipv6sn mtu with
      | None => None
      | Some b =>
          match write with
          | Err e => Some (fs, Err e)
          | Ok _ => Some (<[path := b]> fs, Ok tt)
          end
      end
  end.

(** ** [flanneld/src/subnetfile.rs] *)

Definition parse_ip4net (s : string) : option IP4Net :=
  match split_once "/" s with
  | None => None
  | Some (addr, prefix) =>
      match parse_u32 prefix with
      | Err _ => None
      | Ok prefix_len =>
          if 32 <? prefix_len then None
          else match IP4_from_str addr with
               | Err _ => None
               | Ok ip => Some (IP4Net_network (mkIP4Net ip prefix_len))
               end
      end
  end.

Definition parse_ip6net (s : string) : option IP6Net :=
  match rsplit_once "/" s with
  | None => None
  | Some (addr, prefix) =>
      match parse_u32 prefix with
      | Err _ => None
      | Ok prefix_len =>
          if 128 <? prefix_len then None
          else match IP6_from_str addr with
               | Err _ => None
               | Ok ip => Some (IP6Net_network (mkIP6Net ip prefix_len))
               end
      end
  end.

Definition env_line (values : gmap string string) (raw_line : string) : gmap string string :=
  let line := str_trim raw_line in
  if str_is_empty line || str_starts_with "#" line then values
  else match split_once "=" line with
       | None => values
       | Some (key, value) =>
           let key := str_trim key in
           if str_is_empty key then values else <[key := str_trim value]> values
       end.

Definition read_env_file (fs : FileSystem) (path : string) : option (gmap string string) :=
  match fs !! path with
  | None => None
  | Some content => Some (fold_left env_line (str_lines content) ∅)
  end.

Definition read_cidrs_from_subnet_file (fs : FileSystem) (path cidr_key : string) : list IP4Net :=
  match read_env_file fs path with
  | None => []
  | Some values =>
      match values !! cidr_key with
      | None => []
      | Some raw => omap parse_ip4net (str_split "," raw)
      end
  end.

Definition read_cidr_from_subnet_file (fs : FileSystem) (path cidr_key : string) : IP4Net :=
  match read_cidrs_from_subnet_file fs path cidr_key with
  | [cidr] => cidr
  | _ => IP4Net_default
  end.

Definition read_ip6_cidrs_from_subnet_file (fs : FileSystem) (path cidr_key : string) : list IP6Net :=
  match read_env_file fs path with
  | None => []
  | Some values =>
      match values !! cidr_key with
      | None => []
      | Some raw => omap parse_ip6net (str_split "," raw)
      end
  end.

Definition read_ip6_cidr_from_subnet_file (fs : FileSystem) (path cidr_key : string) : IP6Net :=
  match read_ip6_cidrs_from_subnet_file fs path cidr_key with
  | [cidr] => cidr
  | _ => IP6Net_default
  end.

(** ** [flannel-cni/src/netconf.rs] *)

Record FlannelSubnetEnv := mkSubnetEnv {
  fse_network : option IP4Net;
  fse_subnet : option IP4Net;
  fse_ipv6_network : option IP6Net;
  fse_ipv6_subnet : option IP6Net;
  fse_mtu : option Z;
  fse_ipmasq : bool;
}.

Definition FlannelSubnetEnv_default : FlannelSubnetEnv := mkSubnetEnv None None None None None false.

Definition parse_v4_net (val key : string) : result IP4Net string :=
  map_err (fun _ => "invalid " +:+ key +:+ " value: " +:+ val) (IP4Net_from_str val).

Definition parse_v6_net (val key : string) : result IP6Net string :=
  map_err (fun _ => "invalid " +:+ key +:+ " value: " +:+ val) (IP6Net_from_str val).

Definition cni_parse_bool (val : string) : option bool :=
  let l := to_ascii_lowercase val in
  if String.eqb l "true" then Some true
  else if String.eqb l "false" then Some false
  else None.

(** One line of [parse_subnet_env]. *)
Definition parse_env_line (env : FlannelSubnetEnv) (raw_line : string)
  : result FlannelSubnetEnv string :=
  let '(mkSubnetEnv nw sn nw6 sn6 mtu mq) := env in
  let line := str_trim raw_line in
  if str_is_empty line then Ok env
  else match split_once "=" line with
       | None => Ok env
       | Some (key, val) =>
           let val := str_trim val in
           let k := str_trim key in
           if String.eqb k "FLANNEL_NETWORK" then
             let? n := parse_v4_net val key in Ok (mkSubnetEnv (Some n) sn nw6 sn6 mtu mq)
           else if String.eqb k "FLANNEL_SUBNET" then
             let? n := parse_v4_net val key in Ok (mkSubnetEnv nw (Some n) nw6 sn6 mtu mq)
           else if String.eqb k "FLANNEL_IPV6_NETWORK" then
             let? n := parse_v6_net val key in Ok (mkSubnetEnv nw sn (Some n) sn6 mtu mq)
           else if String.eqb k "FLANNEL_IPV6_SUBNET" then
             let? n := parse_v6_net val key in Ok (mkSubnetEnv nw sn nw6 (Some n) mtu mq)
           else if String.eqb k "FLANNEL_MTU" then
             let? m := map_err (fun _ => "invalid FLANNEL_MTU value: " +:+ val) (parse_u32 val) in
             Ok (mkSubnetEnv nw sn nw6 sn6 (Some m) mq)
           else if String.eqb k "FLANNEL_IPMASQ" then
             let? b := ok_or (cni_parse_bool val) ("invalid FLANNEL_IPMASQ value: " +:+ val) in
             Ok (mkSubnetEnv nw sn nw6 sn6 mtu b)
           else Ok env
       end.

Fixpoint parse_env_lines (env : FlannelSubnetEnv) (lines : list string)
  : result FlannelSubnetEnv string :=
  match lines with
  | [] => Ok env
  | l :: rest => let? env := parse_env_line env l in parse_env_lines env rest
  end.

Definition parse_subnet_env (contents : string) : result FlannelSubnetEnv string :=
  parse_env_lines FlannelSubnetEnv_default (str_lines contents).

#[global] Arguments IP4Net_fmt : simpl never.
#[global] Arguments IP6Net_fmt : simpl never.
#[global] Arguments IP4Net_from_str : simpl never.
#[global] Arguments IP6Net_from_str : simpl never.

(** ** Lemmas: one [KEY=VALUE] line *)

Definition key_char (c : ascii) : bool := is_alnum c || Ascii.eqb c "_".

Definition plain_char (c : ascii) : bool := key_char c || net_char c.

Lemma plain_char_not c :
  plain_char c = true ->
  negb (is_space c) = true /\ negb (Ascii.eqb c NL) && negb (Ascii.eqb c CR) = true /\
  negb (Ascii.eqb c "=") = true /\ negb (Ascii.eqb c ",") = true /\ negb (Ascii.eqb c "#") = true.
Proof. destruct c as [[] [] [] [] [] [] [] []]; vm_compute; auto. Qed.

Lemma plain_trim s : str_all plain_char s = true -> str_trim s = s.
Proof. intros H. apply str_trim_id. revert H. apply str_all_mono. apply plain_char_not. Qed.

Lemma key_plain s : str_all key_char s = true -> str_all plain_char s = true.
Proof. apply str_all_mono. intros c H. unfold plain_char. by rewrite H. Qed.

Lemma net_plain s : str_all net_char s = true -> str_all plain_char s = true.
Proof. apply str_all_mono. intros c H. unfold plain_char. rewrite H. apply orb_true_r. Qed.

Lemma plain_no c s : plain_char c = false -> str_all plain_char s = true -> str_contains c s = false.
Proof. intros. by eapply str_all_contains. Qed.

Definition kv (key val : string) : string := key +:+ "=" +:+ val.

Lemma kv_trim key val :
  str_all plain_char key = true -> str_all plain_char val = true -> str_trim (kv key val) = kv key val.
Proof.
  intros Hk Hv. apply str_trim_id. unfold kv. rewrite !str_all_app.
  assert (Hm : forall s, str_all plain_char s = true -> str_all (fun c => negb (is_space c)) s = true).
  { intros s. apply str_all_mono. apply plain_char_not. }
  by rewrite (Hm key), (Hm val).
Qed.

Lemma kv_no_eol key val :
  str_all plain_char key = true -> str_all plain_char val = true -> no_eol (kv key val) = true.
Proof.
  intros Hk Hv. unfold no_eol, kv. rewrite !str_all_app.
  rewrite (str_all_mono plain_char _ key), (str_all_mono plain_char _ val); try done;
    intros c Hc; by apply plain_char_not.
Qed.

Lemma kv_split key val : str_all plain_char key = true -> split_once "=" (kv key val) = Some (key, val).
Proof. intros. apply split_once_app. by apply plain_no. Qed.

Lemma env_line_kv values key val :
  key <> "" -> str_all plain_char key = true -> str_all plain_char val = true ->
  env_line values (kv key val) = <[key := val]> values.
Proof.
  intros Hne Hk Hv. unfold env_line. rewrite kv_trim, kv_split by done.
  rewrite !plain_trim by done. destruct key as [|c key]; [done|]. cbn [str_is_empty String.eqb kv].
  replace (str_starts_with "#" (kv (String c key) val)) with false; [done|].
  cbn in Hk |- *. apply andb_true_iff in Hk as [Hc _]. apply plain_char_not in Hc as (_ & _ & _ & _ & Hc).
  by apply negb_true_iff in Hc.
Qed.

(** ** Lemmas: the file as a list of lines *)

Definition env_pairs (config : Config) (ip_masq : bool) (sn : IP4Net) (sn6 : IP6Net) (mtu : Z)
  : list (string * string) :=
  (if cfg_enable_ipv4 config
   then [("FLANNEL_NETWORK", IP4Net_fmt (cfg_network config)); ("FLANNEL_SUBNET", IP4Net_fmt sn)] else [])
  ++ (if cfg_enable_ipv6 config
      then [("FLANNEL_IPV6_NETWORK", IP6Net_fmt (cfg_ipv6_network config));
            ("FLANNEL_IPV6_SUBNET", IP6Net_fmt sn6)] else [])
  ++ [("FLANNEL_MTU", fmt_dec mtu); ("FLANNEL_IPMASQ", fmt_bool ip_masq)].

Lemma subnet_file_content_pairs oc config ip_masq sn sn1 sn6 mtu :
  IP4Net_increment_ip oc sn = Some sn1 ->
  subnet_file_content oc config ip_masq sn sn6 mtu
  = Some (unlines (map (fun p => kv p.1 p.2)
            (env_pairs config ip_masq sn1 (IP6Net_increment_ip sn6) mtu))).
Proof.
  intros Hi. unfold subnet_file_content, env_pairs. rewrite Hi.
  destruct (cfg_enable_ipv4 config), (cfg_enable_ipv6 config);
    unfold kv, NLs; cbn [map app unlines foldr fst snd]; f_equal;
    rewrite ?string_app_assoc; cbn [String.append]; rewrite ?string_app_assoc; cbn [String.append];
    rewrite ?string_app_assoc; done.
Qed.

Definition pair_plain (p : string * string) : Prop :=
  p.1 <> "" /\ str_all plain_char p.1 = true /\ str_all plain_char p.2 = true.

Lemma lines_of_pairs ps :
  Forall pair_plain ps ->
  str_lines (unlines (map (fun p => kv p.1 p.2) ps)) = map (fun p => kv p.1 p.2) ps.
Proof.
  intros H. apply str_lines_unlines. apply Forall_map. revert H. apply Forall_impl.
  intros [k v] (? & ? & ?). by apply kv_no_eol.
Qed.

Definition pairs_map (ps : list (string * string)) (m : gmap string string) : gmap string string :=
  fold_left (fun m p => <[p.1 := p.2]> m) ps m.

Lemma env_lines_fold ps m :
  Forall pair_plain ps -> fold_left env_line (map (fun p => kv p.1 p.2) ps) m = pairs_map ps m.
Proof.
  intros H. revert m. induction H as [|[k v] ps (? & ? & ?) H IH]; intros m; [done|].
  cbn [map fold_left fst snd]. rewrite env_line_kv by done. apply IH.
Qed.

Lemma fmt_dec_plain n : 0 <= n -> str_all plain_char (fmt_dec n) = true.
Proof.
  intros. apply key_plain. apply (str_all_mono is_alnum); [|by apply fmt_radix_alnum].
  intros c Hc. unfold key_char. by rewrite Hc.
Qed.

Lemma env_pairs_plain config ip_masq sn sn6 mtu :
  Config_wf config -> 0 <= ip4n_plen sn -> IP6Net_valid sn6 -> 0 <= mtu ->
  Forall pair_plain (env_pairs config ip_masq sn sn6 mtu).
Proof.
  intros Hwf Hsn Hsn6 Hm. unfold env_pairs.
  assert (Hp : forall k v, k <> "" -> str_all plain_char k = true -> str_all plain_char v = true ->
    pair_plain (k, v)) by done.
  pose proof (cwf_net _ Hwf) as [_ Hn]. pose proof (cwf_net6 _ Hwf) as Hn6.
  rewrite !Forall_app. split_and!.
  - destruct (cfg_enable_ipv4 config); repeat constructor; try done;
      apply net_plain, IP4Net_fmt_chars; lia.
  - destruct (cfg_enable_ipv6 config); repeat constructor; try done; by apply net_plain, IP6Net_fmt_chars.
  - repeat constructor; try done; [by apply fmt_dec_plain|by destruct ip_masq].
Qed.

(** ** Lemmas: the first usable address of a subnet reads back as the subnet *)

Lemma IP4Net_increment_base oc sn :
  IP4Net_valid sn -> IP4Net_network sn = sn -> ip4n_plen sn <= 31 ->
  exists sn1, IP4Net_increment_ip oc sn = Some sn1 /\ IP4Net_valid sn1 /\ IP4Net_network sn1 = sn.
Proof.
  intros Hv Hn Hp. pose proof Hv as [Hi Hp0]. pose proof (IP4Net_base_block sn Hv Hn) as Hb.
  destruct (block_base_succ 32 ltac:(lia) (ip4n_plen sn) (ip4n_ip sn) ltac:(lia) Hi Hb) as [Hw Hs].
  assert (ip4n_ip sn <> u32_MAX) by (destruct Hw; unfold u32_MAX; lia).
  unfold IP4Net_increment_ip. rewrite (proj2 (Z.eqb_neq _ _)), andb_false_r by done.
  rewrite wrap_small by done. eexists. split; [done|].
  assert (Hv1 : IP4Net_valid (mkIP4Net (ip4n_ip sn + 1) (ip4n_plen sn))) by done.
  split; [done|]. destruct sn as [ip plen]. unfold IP4Net_network. f_equal.
  change (ip4n_ip (IP4Net_network (mkIP4Net (ip + 1) plen)) = ip).
  rewrite IP4Net_network_base by done. apply Hs.
Qed.

Lemma IP6Net_increment_base sn :
  IP6Net_valid sn -> IP6Net_network sn = sn -> ip6n_plen sn <= 127 ->
  IP6Net_valid (IP6Net_increment_ip sn) /\ IP6Net_network (IP6Net_increment_ip sn) = sn.
Proof.
  intros Hv Hn Hp. pose proof Hv as [Hi Hp0]. pose proof (IP6Net_base_block sn Hv Hn) as Hb.
  destruct (block_base_succ 128 ltac:(lia) (ip6n_plen sn) (ip6_value (ip6n_ip sn)) ltac:(lia)
              (ip6_at_bound sn Hv) Hb) as [Hw Hs].
  assert (Hv1 : IP6Net_valid (IP6Net_increment_ip sn)) by (split; [apply ip6_from_value_typed|done]).
  split; [done|]. destruct sn as [ip plen].
  assert (He : ip6n_ip (IP6Net_network (IP6Net_increment_ip (mkIP6Net ip plen))) = ip).
  { rewrite IP6Net_network_base by done. unfold IP6Net_increment_ip. cbn [ip6n_ip ip6n_plen] in *.
    rewrite ip6_value_from_value by (by apply wrap_in_width). rewrite wrap_small, Hs by done.
    apply ip6_from_value_value, Hi. }
  unfold IP6Net_network in *. cbn [ip6n_ip ip6n_plen] in *. by rewrite He.
Qed.

Lemma parse_ip4net_fmt n : IP4Net_valid n -> parse_ip4net (IP4Net_fmt n) = Some (IP4Net_network n).
Proof.
  intros [Hi Hp]. unfold parse_ip4net, IP4Net_fmt. cbn [String.append].
  rewrite split_once_app by (by eapply str_all_contains; [apply IP4_fmt_chars|]).
  rewrite parse_u32_fmt by (split; lia). rewrite (proj2 (Z.ltb_ge 32 _)) by lia.
  rewrite IP4_from_str_fmt by done. by destruct n.
Qed.

Lemma parse_ip6net_fmt n : IP6Net_valid n -> parse_ip6net (IP6Net_fmt n) = Some (IP6Net_network n).
Proof.
  intros [Hi Hp]. unfold parse_ip6net, IP6Net_fmt. cbn [String.append].
  rewrite rsplit_once_app by (apply fmt_dec_no; [lia|done]).
  rewrite parse_u32_fmt by (split; lia). rewrite (proj2 (Z.ltb_ge 128 _)) by lia.
  rewrite IP6_from_str_fmt by done. by destruct n.
Qed.

(** A file holding one value for a key. *)
Lemma read_cidr_single fs path key values n :
  read_env_file fs path = Some values -> values !! key = Some (IP4Net_fmt n) -> IP4Net_valid n ->
  read_cidr_from_subnet_file fs path key = IP4Net_network n.
Proof.
  intros Hr Hk Hv. unfold read_cidr_from_subnet_file, read_cidrs_from_subnet_file. rewrite Hr, Hk.
  rewrite str_split_none by (apply plain_no; [done|by apply net_plain, IP4Net_fmt_chars, Hv]).
  cbn. by rewrite parse_ip4net_fmt.
Qed.

Lemma read_ip6_cidr_single fs path key values n :
  read_env_file fs path = Some values -> values !! key = Some (IP6Net_fmt n) -> IP6Net_valid n ->
  read_ip6_cidr_from_subnet_file fs path key = IP6Net_network n.
Proof.
  intros Hr Hk Hv. unfold read_ip6_cidr_from_subnet_file, read_ip6_cidrs_from_subnet_file. rewrite Hr, Hk.
  rewrite str_split_none by (apply plain_no; [done|by apply net_plain, IP6Net_fmt_chars]).
  cbn. by rewrite parse_ip6net_fmt.
Qed.

Lemma read_cidr_absent fs path key values :
  read_env_file fs path = Some values -> values !! key = None ->
  read_cidr_from_subnet_file fs path key = IP4Net_default /\
  read_ip6_cidr_from_subnet_file fs path key = IP6Net_default.
Proof.
  intros Hr Hk. unfold read_cidr_from_subnet_file, read_cidrs_from_subnet_file,
    read_ip6_cidr_from_subnet_file, read_ip6_cidrs_from_subnet_file. by rewrite Hr, Hk.
Qed.

(** What the CNI reader makes of each line the writer produces. *)
Lemma parse_env_line_kv env key val :
  key <> "" -> str_all plain_char key = true -> str_all plain_char val = true ->
  parse_env_line env (kv key val)
  = let '(mkSubnetEnv nw sn nw6 sn6 mtu mq) := env in
    if String.eqb key "FLANNEL_NETWORK" then
      let? n := parse_v4_net val key in Ok (mkSubnetEnv (Some n) sn nw6 sn6 mtu mq)
    else if String.eqb key "FLANNEL_SUBNET" then
      let? n := parse_v4_net val key in Ok (mkSubnetEnv nw (Some n) nw6 sn6 mtu mq)
    else if String.eqb key "FLANNEL_IPV6_NETWORK" then
      let? n := parse_v6_net val key in Ok (mkSubnetEnv nw sn (Some n) sn6 mtu mq)
    else if String.eqb key "FLANNEL_IPV6_SUBNET" then
      let? n := parse_v6_net val key in Ok (mkSubnetEnv nw sn nw6 (Some n) mtu mq)
    else if String.eqb key "FLANNEL_MTU" then
      let? m := map_err (fun _ => "invalid FLANNEL_MTU value: " +:+ val) (parse_u32 val) in
      Ok (mkSubnetEnv nw sn nw6 sn6 (Some m) mq)
    else if String.eqb key "FLANNEL_IPMASQ" then
      let? b := ok_or (cni_parse_bool val) ("invalid FLANNEL_IPMASQ value: " +:+ val) in
      Ok (mkSubnetEnv nw sn nw6 sn6 mtu b)
    else Ok env.
Proof.
  intros Hne Hk Hv. unfold parse_env_line. destruct env.
  rewrite kv_trim, kv_split by done. rewrite !plain_trim by done. by destruct key.
Qed.

(** The fields a CNI plugin must find, given the configuration. *)
Definition expected_env (config : Config) (ip_masq : bool) (sn : IP4Net) (sn6 : IP6Net) (mtu : Z)
  : FlannelSubnetEnv :=
  let on {A} (b : bool) (x : A) := if b then Some x else None in
  mkSubnetEnv (on (cfg_enable_ipv4 config) (cfg_network config)) (on (cfg_enable_ipv4 config) sn)
    (on (cfg_enable_ipv6 config) (cfg_ipv6_network config)) (on (cfg_enable_ipv6 config) sn6)
    (Some mtu) ip_masq.

Lemma parse_env_lines_pairs config ip_masq sn sn6 mtu :
  Config_wf config -> IP4Net_valid sn -> IP6Net_valid sn6 -> u32 mtu ->
  parse_env_lines FlannelSubnetEnv_default
    (map (fun p => kv p.1 p.2) (env_pairs config ip_masq sn sn6 mtu))
  = Ok (expected_env config ip_masq (IP4Net_network sn) (IP6Net_network sn6) mtu).
Proof.
  intros Hwf Hsn Hsn6 Hm. unfold env_pairs, expected_env.
  pose proof (cwf_net _ Hwf) as Hn. pose proof (cwf_net6 _ Hwf) as Hn6.
  assert (H4 : forall n, IP4Net_valid n -> str_all plain_char (IP4Net_fmt n) = true).
  { intros n [_ ?]. apply net_plain, IP4Net_fmt_chars. lia. }
  assert (H6 : forall n, IP6Net_valid n -> str_all plain_char (IP6Net_fmt n) = true).
  { intros n ?. by apply net_plain, IP6Net_fmt_chars. }
  assert (Hd : str_all plain_char (fmt_dec mtu) = true) by (apply fmt_dec_plain, Hm).
  assert (Hb : str_all plain_char (fmt_bool ip_masq) = true) by (by destruct ip_masq).
  assert (Hmq : cni_parse_bool (fmt_bool ip_masq) = Some ip_masq) by (by destruct ip_masq).
  destruct (cfg_enable_ipv4 config), (cfg_enable_ipv6 config); cbn [map app fst snd parse_env_lines];
    repeat (rewrite parse_env_line_kv by (done || by auto); unfold FlannelSubnetEnv_default, parse_v4_net, parse_v6_net;
      cbn [String.eqb Ascii.eqb Bool.eqb];
      rewrite ?IP4Net_from_str_fmt, ?IP6Net_from_str_fmt, ?parse_u32_fmt, ?Hmq by done;
      cbn [map_err rbind ok_or]);
    rewrite ?(cwf_net_base _ Hwf), ?(cwf_net6_base _ Hwf); done.
Qed.

(** The daemon's readers on the pairs of the file. *)
Lemma read_env_pairs fs path config ip_masq sn sn6 mtu :
  Config_wf config -> IP4Net_valid sn -> IP6Net_valid sn6 ->
  read_env_file fs path = Some (pairs_map (env_pairs config ip_masq sn sn6 mtu) ∅) ->
  let v4 := cfg_enable_ipv4 config in
  let v6 := cfg_enable_ipv6 config in
  read_cidr_from_subnet_file fs path "FLANNEL_NETWORK"
  = (if v4 then IP4Net_network (cfg_network config) else IP4Net_default) /\
  read_cidr_from_subnet_file fs path "FLANNEL_SUBNET"
  = (if v4 then IP4Net_network sn else IP4Net_default) /\
  read_ip6_cidr_from_subnet_file fs path "FLANNEL_IPV6_NETWORK"
  = (if v6 then IP6Net_network (cfg_ipv6_network config) else IP6Net_default) /\
  read_ip6_cidr_from_subnet_file fs path "FLANNEL_IPV6_SUBNET"
  = (if v6 then IP6Net_network sn6 else IP6Net_default).
Proof.
  intros Hwf Hsn Hsn6 Hr v4 v6. pose proof (cwf_net _ Hwf). pose proof (cwf_net6 _ Hwf).
  set (m := pairs_map _ _) in Hr.
  assert (Hm : m !! "FLANNEL_NETWORK" = (if v4 then Some (IP4Net_fmt (cfg_network config)) else None) /\
    m !! "FLANNEL_SUBNET" = (if v4 then Some (IP4Net_fmt sn) else None) /\
    m !! "FLANNEL_IPV6_NETWORK" = (if v6 then Some (IP6Net_fmt (cfg_ipv6_network config)) else None) /\
    m !! "FLANNEL_IPV6_SUBNET" = (if v6 then Some (IP6Net_fmt sn6) else None)).
  { unfold m, pairs_map, env_pairs, v4, v6.
    destruct (cfg_enable_ipv4 config), (cfg_enable_ipv6 config); cbn [fold_left app fst snd];
      split_and!; by simplify_map_eq. }
  destruct Hm as (M1 & M2 & M3 & M4). destruct v4, v6; split_and!;
    first [by eapply read_cidr_single | by eapply read_ip6_cidr_single
          | by apply (read_cidr_absent fs path _ m Hr)].
Qed.

(** A node's subnet: a network with room for a first usable address. *)
Definition node_subnet4 (sn : IP4Net) : Prop :=
  IP4Net_valid sn /\ IP4Net_network sn = sn /\ ip4n_plen sn <= 31.
Definition node_subnet6 (sn : IP6Net) : Prop :=
  IP6Net_valid sn /\ IP6Net_network sn = sn /\ ip6n_plen sn <= 127.

(** The text that is written is read by the CNI plugin. *)
Lemma written_env_parsed oc config ip_masq sn sn6 mtu :
  Config_wf config -> node_subnet4 sn -> node_subnet6 sn6 -> u32 mtu ->
  exists content, subnet_file_content oc config ip_masq sn sn6 mtu = Some content
    /\ parse_subnet_env content = Ok (expected_env config ip_masq sn sn6 mtu).
Proof.
  intros Hwf (Hv & Hb & Hp) (Hv6 & Hb6 & Hp6) Hm.
  destruct (IP4Net_increment_base oc sn Hv Hb Hp) as (sn1 & Hinc & Hv1 & Hn1).
  destruct (IP6Net_increment_base sn6 Hv6 Hb6 Hp6) as (Hv61 & Hn61).
  eexists. split; [exact (subnet_file_content_pairs oc config ip_masq sn sn1 sn6 mtu Hinc)|].
  unfold parse_subnet_env. rewrite lines_of_pairs by (apply env_pairs_plain; [done|apply Hv1|done|apply Hm]).
  rewrite parse_env_lines_pairs, Hn1, Hn61; done.
Qed.

(** ** Properties *)

(** C9: what flanneld writes to subnet.env, both readers get back: the daemon's
    CIDR readers return the cluster network and the node's subnet (the file
    holds its first usable address) for each enabled family and the zero
    network for a disabled one, and the CNI plugin's parser accepts the file
    and returns the same networks with the MTU and the masquerade flag.  The
    address increment does not overflow, with or without overflow checks. *)
Theorem subnet_env_round_trip oc fs path config ip_masq sn sn6 mtu :
  Config_wf config -> node_subnet4 sn -> node_subnet6 sn6 -> u32 mtu ->
  exists content,
    write_subnet_file oc (Ok tt) (Ok tt) fs path config ip_masq sn sn6 mtu
    = Some (<[path := content]> fs, Ok tt) /\
    (let fs' := <[path := content]> fs in
     let v4 := cfg_enable_ipv4 config in
     let v6 := cfg_enable_ipv6 config in
     read_cidr_from_subnet_file fs' path "FLANNEL_NETWORK"
     = (if v4 then cfg_network config else IP4Net_default) /\
     read_cidr_from_subnet_file fs' path "FLANNEL_SUBNET" = (if v4 then sn else IP4Net_default) /\
     read_ip6_cidr_from_subnet_file fs' path "FLANNEL_IPV6_NETWORK"
     = (if v6 then cfg_ipv6_network config else IP6Net_default) /\
     read_ip6_cidr_from_subnet_file fs' path "FLANNEL_IPV6_SUBNET" = (if v6 then sn6 else IP6Net_default)) /\
    parse_subnet_env content = Ok (expected_env config ip_masq sn sn6 mtu).
Proof.
  intros Hwf (Hv & Hb & Hp) (Hv6 & Hb6 & Hp6) Hm.
  destruct (IP4Net_increment_base oc sn Hv Hb Hp) as (sn1 & Hinc & Hv1 & Hn1).
  destruct (IP6Net_increment_base sn6 Hv6 Hb6 Hp6) as (Hv61 & Hn61).
  pose proof (subnet_file_content_pairs oc config ip_masq sn sn1 sn6 mtu Hinc) as Hc.
  set (ps := env_pairs config ip_masq sn1 (IP6Net_increment_ip sn6) mtu) in *.
  assert (Hps : Forall pair_plain ps).
  { apply env_pairs_plain; [done|apply Hv1|done|apply Hm]. }
  eexists. split; [unfold write_subnet_file; by rewrite Hc|]. split.
  - cbv zeta. rewrite <- (cwf_net_base _ Hwf) at 1. rewrite <- (cwf_net6_base _ Hwf) at 1.
    rewrite <- Hn1 at 1. rewrite <- Hn61 at 1.
    apply read_env_pairs with (ip_masq := ip_masq) (mtu := mtu); [done..|].
    unfold read_env_file. rewrite lookup_insert_eq. by rewrite lines_of_pairs, env_lines_fold.
  - unfold parse_subnet_env. rewrite lines_of_pairs by done. unfold ps.
    rewrite parse_env_lines_pairs, Hn1, Hn61; done.
Qed.

Lemma subnet_env_round_trip_witness :
  exists content,
    write_subnet_file true (Ok tt) (Ok tt) ∅ "subnet.env" sample_config true
      (mkIP4Net (IP4_from_octets 10 5 7 0) 24) (mkIP6Net (ip6_from_value (252 * 2 ^ 120)) 64) 1450
    = Some (<["subnet.env" := content]> ∅, Ok tt) /\
    parse_subnet_env content
    = Ok (expected_env sample_config true (mkIP4Net (IP4_from_octets 10 5 7 0) 24)
            (mkIP6Net (ip6_from_value (252 * 2 ^ 120)) 64) 1450).
Proof.
  destruct (subnet_env_round_trip true ∅ "subnet.env" sample_config true
    (mkIP4Net (IP4_from_octets 10 5 7 0) 24) (mkIP6Net (ip6_from_value (252 * 2 ^ 120)) 64) 1450)
    as (content & H1 & _ & H2).
  - exact sample_config_wf.
  - split_and!; [split; [by vm_compute|cbn; lia]|by vm_compute|cbn; lia].
  - split_and!; [split; [apply ip6_from_value_typed|cbn; lia]|by vm_compute|cbn; lia].
  - split; lia.
  - by exists content.
Defined.
