(* ===== verification/AtomicFile.v ===== *)
(** * [utils.rs]: files written and copied atomically

    [write_file_atomic] writes subnet.env; [copy_file_atomic] is its
    counterpart for whole files.  The file system is the interface [FsOps],
    with files named by their paths; [FsLaws] says what its calls do to the
    files, failures included.  A path ends in a name (not [.] or [..]). *)

From S2P Require Import Prelude RustStr.
#[local] Open Scope string_scope.
#[local] Open Scope list_scope.
#[local] Open Scope Z_scope.

Inductive FsErrorKind := FsNotFound | FsAlreadyExists | FsOther.
Record FsError := mkFsError { fe_kind : FsErrorKind; fe_text : string }.

(** [fo_create] truncates a file that exists, [fo_create_new] (mode 0600)
    refuses it; [fo_write] appends to what was written since; [fo_copy] is
    [io::copy] from an open source; [fo_stat] gives the mode. *)
Class FsOps (K : Type) := {
  fo_create : string -> io K FsError unit;
  fo_create_new : string -> io K FsError unit;
  fo_open : string -> io K FsError unit;
  fo_write : string -> bytes -> io K FsError unit;
  fo_copy : string -> string -> io K FsError unit;
  fo_sync : string -> io K FsError unit;
  fo_set_mode : string -> Z -> io K FsError unit;
  fo_rename : string -> string -> io K FsError unit;
  fo_remove : string -> io K FsError unit;
  fo_exists : K -> string -> bool;
  fo_stat : K -> string -> result Z FsError;
  fo_pid : Z;
  (** the first eight bytes of a new UUID *)
  fo_random : K -> K * Z;
}.

(** ** Paths *)

(** [Path::parent] and [Path::file_name], with the defaults of the code *)
Definition parent_and_name (path : string) : string * string :=
  let p := trim_end_slashes path in
  if str_is_empty p then (".", "file")
  else match rsplit_once "/" p with
       | None => ("", p)
       | Some (dir, name) => (if str_is_empty (trim_end_slashes dir) then "/" else trim_end_slashes dir, name)
       end.

Definition Path_join (dir file : string) : string :=
  if str_starts_with "/" file || str_is_empty dir then file
  else if str_ends_with "/" dir then dir +:+ file
  else dir +:+ "/" +:+ file.

Definition quoted_str (s : string) : string := String (chr 34) "" +:+ s +:+ String (chr 34) "".

Definition other_err (msg : string) : FsError := mkFsError FsOther msg.

(** [rfind('*')] *)
Definition split_pattern (pattern : string) : string * string := default (pattern, "") (rsplit_once "*" pattern).

Section Operations.
Context `{FsOps K}.

(** ** Writing *)

Definition tmp_path (path : string) : string :=
  let '(dir, name) := parent_and_name path in
  Path_join dir ("." +:+ name +:+ ".tmp-" +:+ fmt_dec fo_pid).

(** Only a failed rename removes the temporary file. *)
Definition write_file_atomic (path : string) (data : bytes) (mode : Z) : io K FsError unit :=
  let tmp := tmp_path path in
  let! _ := fo_create tmp in
  let! _ := fo_write tmp data in
  let! _ := fo_sync tmp in
  let! _ := fo_set_mode tmp mode in
  fun k => match fo_rename tmp path k with
           | (k, Err e) => ((fo_remove tmp k).1, Err e)
           | (k, Ok _) => (k, Ok tt)
           end.

(** ** Copying *)

Definition next_random (k : K) : K * string := let '(k, n) := fo_random k in (k, fmt_dec n).

(** At most 1000 names *)
Fixpoint create_temp_loop (attempts : nat) (dir prefix suffix : string) (k : K) : K * result string FsError :=
  match attempts with
  | O => (k, Err (mkFsError FsAlreadyExists "could not create unique temp file"))
  | S attempts =>
      let '(k, random) := next_random k in
      let path := Path_join dir (prefix +:+ random +:+ suffix) in
      match fo_create_new path k with
      | (k, Ok _) => (k, Ok path)
      | (k, Err e) =>
          match fe_kind e with
          | FsAlreadyExists => create_temp_loop attempts dir prefix suffix k
          | _ => (k, Err e)
          end
      end
  end.

Definition create_temp (dir pattern : string) : io K FsError string :=
  let '(prefix, suffix) := split_pattern pattern in
  create_temp_loop 1000 dir prefix suffix.

(** The old temporary file, and a new one *)
Definition remove_old_temp (temp_file_path : string) : io K FsError unit :=
  let! k := io_get in
  if fo_exists k temp_file_path
  then io_map_err (fun err => other_err ("cannot remove old temp file " +:+ quoted_str temp_file_path +:+ ": " +:+ fe_text err))
         (fo_remove temp_file_path)
  else io_ret tt.

(** A failed copy removes the file of the pattern's name. *)
Definition copy_into (src_file_path temp_file_path temp_path : string) : io K FsError unit := fun k =>
  match fo_copy src_file_path temp_path k with
  | (k, Ok _) => (k, Ok tt)
  | (k, Err err) =>
      ((fo_remove temp_file_path k).1,
       Err (other_err ("cannot write data to temp file " +:+ quoted_str temp_file_path +:+ ": " +:+ fe_text err)))
  end.

Definition copy_file_atomic (src_file_path dest_dir temp_file_name dest_file_name : string) : io K FsError unit :=
  let temp_file_path := Path_join dest_dir temp_file_name in
  let! _ := remove_old_temp temp_file_path in
  let! temp_path := io_map_err (fun err => other_err ("cannot create temp file " +:+ quoted_str temp_file_name +:+ " in "
                                                      +:+ quoted_str dest_dir +:+ ": " +:+ fe_text err))
                      (create_temp dest_dir temp_file_name) in
  let! _ := io_map_err (fun err => other_err ("cannot open file " +:+ quoted_str src_file_path +:+ ": " +:+ fe_text err))
              (fo_open src_file_path) in
  let! _ := copy_into src_file_path temp_file_path temp_path in
  let! _ := io_map_err (fun err => other_err ("cannot flush temp file " +:+ quoted_str temp_file_path +:+ ": " +:+ fe_text err))
              (fo_sync temp_path) in
  let dest_file_path := Path_join dest_dir dest_file_name in
  let! k := io_get in
  let! _ := io_lift match fo_stat k dest_file_path with
                    | Ok _ => Ok tt
                    | Err err => match fe_kind err with FsNotFound => Ok tt | _ => Err err end
                    end in
  let! mode := io_lift (fo_stat k src_file_path) in
  let! _ := io_map_err (fun err => other_err ("cannot set stat on temp file " +:+ quoted_str temp_path +:+ ": " +:+ fe_text err))
              (fo_set_mode temp_path mode) in
  io_map_err (fun err => other_err ("cannot replace " +:+ quoted_str dest_file_path +:+ " with temp file "
                                    +:+ quoted_str temp_path +:+ ": " +:+ fe_text err))
    (fo_rename temp_path dest_file_path).
End Operations.

(** * Theorems *)

(** The files: content and mode.  A call that fails leaves them as they are,
    but for a write, which may have written a part of the file it writes. *)
Abbreviation FileMap := (gmap string (bytes * Z)).

Definition only_at (p : string) (f f' : FileMap) : Prop := forall q, q <> p -> f' !! q = f !! q.

Class FsLaws (K : Type) `{FsOps K} := {
  fs_files : K -> FileMap;
  fl_create : forall p k,
    match fo_create p k with
    | (k', Ok _) => exists mode, fs_files k' = <[p := ([], mode)]> (fs_files k)
    | (k', Err _) => fs_files k' = fs_files k
    end;
  fl_create_new : forall p k,
    match fo_create_new p k with
    | (k', Ok _) => fs_files k !! p = None /\ fs_files k' = <[p := ([], 384)]> (fs_files k)
    | (k', Err _) => fs_files k' = fs_files k
    end;
  fl_open : forall p, keeps fs_files (fo_open p);
  fl_write : forall p data k,
    match fo_write p data k with
    | (k', Ok _) => exists old mode, fs_files k !! p = Some (old, mode) /\ fs_files k' = <[p := (old ++ data, mode)]> (fs_files k)
    | (k', Err _) => only_at p (fs_files k) (fs_files k')
    end;
  fl_copy : forall src p k,
    match fo_copy src p k with
    | (k', Ok _) => exists content m old mode, fs_files k !! src = Some (content, m) /\ fs_files k !! p = Some (old, mode)
                      /\ fs_files k' = <[p := (old ++ content, mode)]> (fs_files k)
    | (k', Err _) => only_at p (fs_files k) (fs_files k')
    end;
  fl_sync : forall p, keeps fs_files (fo_sync p);
  fl_set_mode : forall p mode k,
    match fo_set_mode p mode k with
    | (k', Ok _) => exists content m, fs_files k !! p = Some (content, m) /\ fs_files k' = <[p := (content, mode)]> (fs_files k)
    | (k', Err _) => fs_files k' = fs_files k
    end;
  fl_rename : forall p q k,
    match fo_rename p q k with
    | (k', Ok _) => exists f, fs_files k !! p = Some f /\ fs_files k' = <[q := f]> (delete p (fs_files k))
    | (k', Err _) => fs_files k' = fs_files k
    end;
  fl_remove : forall p k,
    match fo_remove p k with
    | (k', Ok _) => fs_files k' = delete p (fs_files k)
    | (k', Err _) => fs_files k' = fs_files k
    end;
  fl_stat : forall p k mode, fo_stat k p = Ok mode -> exists content, fs_files k !! p = Some (content, mode);
  fl_random : forall k, fs_files (fo_random k).1 = fs_files k;
}.

Section Atomicity.
Context `{FsLaws K}.

Lemma only_at_insert p v f : only_at p f (<[p := v]> f).
Proof. intros q Hq. by rewrite lookup_insert_ne. Qed.

Lemma only_at_trans p f g h : only_at p f g -> only_at p g h -> only_at p f h.
Proof. intros Hf Hg q Hq. by rewrite (Hg q Hq), (Hf q Hq). Qed.

Lemma only_at_delete p f : only_at p f (delete p f).
Proof. intros q Hq. by rewrite lookup_delete_ne. Qed.

(** C35: a file is written whole or not at all.  After a success it has the
    content and the mode, and the temporary file is gone; after a failure at
    any step, the file and all others are as before, the temporary one
    excepted.  (A crash is a failure of every call from some point on.) *)
Theorem write_file_atomic_safe path data mode (k : K) :
  tmp_path path <> path ->
  match write_file_atomic path data mode k with
  | (k', Ok _) => fs_files k' = <[path := (data, mode)]> (delete (tmp_path path) (fs_files k))
  | (k', Err _) => only_at (tmp_path path) (fs_files k) (fs_files k') /\ fs_files k' !! path = fs_files k !! path
  end.
Proof.
  intros Hne. set (tmp := tmp_path path) in *.
  assert (forall k', only_at tmp (fs_files k) (fs_files k') ->
            only_at tmp (fs_files k) (fs_files k') /\ fs_files k' !! path = fs_files k !! path) as Hkept
    by (intros k' Ho; split; [done|by apply Ho]).
  unfold write_file_atomic. fold tmp. unfold io_bind at 1.
  pose proof (fl_create tmp k) as Hc. destruct (fo_create tmp k) as [k1 [u1|e1]]; [|apply Hkept; intros q _; by rewrite Hc].
  destruct Hc as [m1 Hc]. unfold io_bind at 1. pose proof (fl_write tmp data k1) as Hw.
  destruct (fo_write tmp data k1) as [k2 [u2|e2]].
  2: { apply Hkept. eapply only_at_trans; [|exact Hw]. rewrite Hc. apply only_at_insert. }
  destruct Hw as (old & m2 & Hold & Hw). rewrite Hc, lookup_insert_eq in Hold. injection Hold as <- <-.
  cbn [app] in Hw. rewrite Hc, insert_insert_eq in Hw.
  unfold io_bind at 1. pose proof (fl_sync tmp k2) as Hs. destruct (fo_sync tmp k2) as [k3 [u3|e3]]; cbn [fst] in Hs.
  2: { apply Hkept. rewrite Hs, Hw. apply only_at_insert. }
  unfold io_bind at 1. pose proof (fl_set_mode tmp mode k3) as Hm. destruct (fo_set_mode tmp mode k3) as [k4 [u4|e4]].
  2: { apply Hkept. rewrite Hm, Hs, Hw. apply only_at_insert. }
  destruct Hm as (content & m & Hold & Hm). rewrite Hs, Hw, lookup_insert_eq in Hold. injection Hold as <- <-.
  rewrite Hs, Hw, insert_insert_eq in Hm. pose proof (fl_rename tmp path k4) as Hr. destruct (fo_rename tmp path k4) as [k5 [u5|e5]].
  - destruct Hr as (f & Hf & Hr). rewrite Hm, lookup_insert_eq in Hf. injection Hf as <-. rewrite Hr, Hm. by rewrite delete_insert_eq.
  - apply Hkept. pose proof (fl_remove tmp k5) as Hx. destruct (fo_remove tmp k5) as [k6 [u6|e6]]; cbn [fst]; rewrite Hx, Hr, Hm.
    + rewrite delete_insert_eq. apply only_at_delete.
    + apply only_at_insert.
Qed.

(** A failed write leaves the temporary file where it is. *)
Theorem write_error_no_cleanup path data mode (k k1 k2 : K) e :
  fo_create (tmp_path path) k = (k1, Ok tt) -> fo_write (tmp_path path) data k1 = (k2, Err e) ->
  write_file_atomic path data mode k = (k2, Err e).
Proof. intros Hc Hw. unfold write_file_atomic, io_bind. by rewrite Hc, Hw. Qed.

(** ** Copies *)

Lemma create_temp_loop_spec n dir prefix suffix (k : K) :
  match create_temp_loop n dir prefix suffix k with
  | (k', Ok p) => fs_files k !! p = None /\ fs_files k' = <[p := ([], 384)]> (fs_files k)
  | (k', Err _) => fs_files k' = fs_files k
  end.
Proof.
  revert k. induction n as [|n IH]; intros k; cbn [create_temp_loop]; [done|].
  unfold next_random. pose proof (fl_random k) as Hr. destruct (fo_random k) as [k1 r]. cbn [fst] in Hr.
  pose proof (fl_create_new (Path_join dir (prefix +:+ fmt_dec r +:+ suffix)) k1) as Hc.
  destruct (fo_create_new _ k1) as [k2 [u|e]]; [by rewrite <- Hr|].
  specialize (IH k2). rewrite Hc, Hr in IH. destruct (fe_kind e); [congruence|exact IH|congruence].
Qed.

Lemma create_temp_spec dir pattern (k : K) :
  match create_temp dir pattern k with
  | (k', Ok p) => fs_files k !! p = None /\ fs_files k' = <[p := ([], 384)]> (fs_files k)
  | (k', Err _) => fs_files k' = fs_files k
  end.
Proof. unfold create_temp. destruct (split_pattern pattern). apply create_temp_loop_spec. Qed.

Lemma remove_old_temp_only p (k : K) : only_at p (fs_files k) (fs_files (remove_old_temp p k).1).
Proof.
  unfold remove_old_temp, io_bind, io_get. destruct (fo_exists k p); [|done]. unfold io_map_err. pose proof (fl_remove p k) as Hr.
  destruct (fo_remove p k) as [k1 [u|e]]; cbn; rewrite Hr; [apply only_at_delete|done].
Qed.

(** The files that were there before: all but the old temporary file stay. *)
Definition old_files_kept (temp : string) (f f' : FileMap) : Prop := forall q v, q <> temp -> f !! q = Some v -> f' !! q = Some v.

Lemma old_files_kept_fresh temp p f g h :
  only_at temp f g -> g !! p = None -> only_at p g h -> old_files_kept temp f h.
Proof.
  intros Hf Hp Hg q v Hq Hv. rewrite Hg; [by rewrite Hf|]. intros ->. rewrite (Hf p Hq) in Hp. congruence.
Qed.

(** A copy replaces its target by the content and the mode of the source; if
    it fails, every file there was is as before, whatever its temporary file
    has become. *)
Theorem copy_file_atomic_safe src dir temp dest (k : K) content mode :
  let tp := Path_join dir temp in
  let dp := Path_join dir dest in
  fs_files k !! src = Some (content, mode) -> src <> tp -> dp <> tp ->
  match copy_file_atomic src dir temp dest k with
  | (k', Ok _) => fs_files k' !! dp = Some (content, mode)
                  /\ forall q v, q <> tp -> q <> dp -> fs_files k !! q = Some v -> fs_files k' !! q = Some v
  | (k', Err _) => old_files_kept tp (fs_files k) (fs_files k')
  end.
Proof.
  intros tp dp Hsrc Hst Hdt. unfold copy_file_atomic. fold tp dp. unfold io_bind at 1.
  pose proof (remove_old_temp_only tp k) as Ho. destruct (remove_old_temp tp k) as [k1 [u1|e1]]; cbn [fst] in Ho.
  2: { intros q v Hq Hv. by rewrite Ho. }
  unfold io_bind at 1, io_map_err at 1. pose proof (create_temp_spec dir temp k1) as Hc.
  destruct (create_temp dir temp k1) as [k2 [p|e2]]; cbn [map_err]; [|intros q v Hq Hv; rewrite Hc; by rewrite Ho].
  destruct Hc as [Hp Hc]. assert (forall h, only_at p (fs_files k2) h -> old_files_kept tp (fs_files k) h) as Hkept.
  { intros h Hh. eapply old_files_kept_fresh; [exact Ho|exact Hp|]. eapply only_at_trans; [|exact Hh]. rewrite Hc. apply only_at_insert. }
  assert (fs_files k1 !! src = Some (content, mode)) as Hsrc1 by (by rewrite Ho).
  assert (src <> p) as Hsp by congruence.
  unfold io_bind at 1, io_map_err at 1. pose proof (fl_open src k2) as Hop. destruct (fo_open src k2) as [k3 [u3|e3]]; cbn [fst map_err] in *;
    [|apply Hkept; by rewrite Hop].
  unfold io_bind at 1, copy_into. pose proof (fl_copy src p k3) as Hcp. destruct (fo_copy src p k3) as [k4 [u4|e4]].
  2: { pose proof (fl_remove tp k4) as Hr. destruct (fo_remove tp k4) as [k5 [u5|e5]]; cbn [fst]; rewrite Hr.
       - intros q v Hq Hv. rewrite lookup_delete_ne by done. apply (Hkept (fs_files k4)); [by rewrite <- Hop|done|done].
       - apply Hkept. by rewrite <- Hop. }
  destruct Hcp as (c & m & old & md & Hc1 & Hc2 & Hcp). rewrite Hop, Hc in Hc1, Hc2, Hcp.
  rewrite lookup_insert_ne in Hc1 by congruence. rewrite Hsrc1 in Hc1. injection Hc1 as <- <-.
  rewrite lookup_insert_eq in Hc2. injection Hc2 as <- <-. cbn [app] in Hcp. rewrite insert_insert_eq in Hcp.
  assert (forall v, only_at p (fs_files k2) (<[p := v]> (fs_files k1))) as Hat.
  { intros v q Hq. rewrite Hc, !lookup_insert_ne by congruence. done. }
  unfold io_bind at 1, io_map_err at 1. pose proof (fl_sync p k4) as Hs. destruct (fo_sync p k4) as [k5 [u5|e5]]; cbn [fst map_err] in *;
    [|apply Hkept; rewrite Hs, Hcp; apply Hat].
  unfold io_bind at 1, io_get. unfold io_bind at 1, io_lift at 1.
  destruct (match fo_stat k5 dp with Ok _ => _ | Err _ => _ end) as [u6|e6]; [|apply Hkept; rewrite Hs, Hcp; apply Hat].
  unfold io_bind at 1, io_lift at 1. destruct (fo_stat k5 src) as [md|e7] eqn:Est; [|apply Hkept; rewrite Hs, Hcp; apply Hat].
  apply fl_stat in Est as [c' Est]. rewrite Hs, Hcp, lookup_insert_ne in Est by congruence. rewrite Hsrc1 in Est. injection Est as <- <-.
  unfold io_bind at 1, io_map_err at 1. pose proof (fl_set_mode p mode k5) as Hm. destruct (fo_set_mode p mode k5) as [k6 [u7|e7]]; cbn [map_err];
    [|apply Hkept; rewrite Hm, Hs, Hcp; apply Hat].
  destruct Hm as (c' & m' & Hm1 & Hm). rewrite Hs, Hcp in Hm1, Hm. rewrite lookup_insert_eq in Hm1. injection Hm1 as <- <-.
  rewrite insert_insert_eq in Hm. unfold io_map_err. pose proof (fl_rename p dp k6) as Hr.
  destruct (fo_rename p dp k6) as [k7 [u8|e8]]; cbn [map_err]; [|apply Hkept; rewrite Hr, Hm; apply Hat].
  destruct Hr as (f & Hf & Hr). rewrite Hm, lookup_insert_eq in Hf. injection Hf as <-. rewrite Hr, Hm, delete_insert_eq.
  split; [apply lookup_insert_eq|]. intros q v Hq Hqd Hv. rewrite lookup_insert_ne by congruence.
  rewrite <- (Ho q Hq) in Hv. rewrite lookup_delete_ne; [done|]. intros ->. congruence.
Qed.
End Atomicity.

(** ** A file system for the witness *)

(** [fw_full]: there is no space left, so that a write writes half. *)
Record FsWorld := mkFsWorld { fw_files : FileMap; fw_full : bool }.

Definition fw_set (w : FsWorld) (f : FileMap) : FsWorld * result unit FsError := (mkFsWorld f (fw_full w), Ok tt).
Definition fw_fail (w : FsWorld) (kind : FsErrorKind) (text : string) : FsWorld * result unit FsError := (w, Err (mkFsError kind text)).

Definition fw_append (p : string) (data : bytes) (w : FsWorld) : FsWorld * result unit FsError :=
  match fw_files w !! p with
  | Some (old, mode) =>
      if fw_full w
      then (mkFsWorld (<[p := (old ++ take (length data / 2) data, mode)]> (fw_files w)) true, Err (mkFsError FsOther "No space left on device"))
      else fw_set w (<[p := (old ++ data, mode)]> (fw_files w))
  | None => fw_fail w FsNotFound "No such file or directory"
  end.

#[local] Instance FsWorld_ops : FsOps FsWorld := {
  fo_create p w := fw_set w (<[p := ([], from_option snd 420 (fw_files w !! p))]> (fw_files w));
  fo_create_new p w :=
    match fw_files w !! p with
    | Some _ => fw_fail w FsAlreadyExists "File exists"
    | None => fw_set w (<[p := ([], 384)]> (fw_files w))
    end;
  fo_open _ w := (w, Ok tt);
  fo_write := fw_append;
  fo_copy src p w :=
    match fw_files w !! src with Some (content, _) => fw_append p content w | None => fw_fail w FsNotFound "No such file or directory" end;
  fo_sync _ w := (w, Ok tt);
  fo_set_mode p mode w :=
    match fw_files w !! p with
    | Some (content, _) => fw_set w (<[p := (content, mode)]> (fw_files w))
    | None => fw_fail w FsNotFound "No such file or directory"
    end;
  fo_rename p q w :=
    match fw_files w !! p with
    | Some f => fw_set w (<[q := f]> (delete p (fw_files w)))
    | None => fw_fail w FsNotFound "No such file or directory"
    end;
  fo_remove p w := fw_set w (delete p (fw_files w));
  fo_exists w p := is_some (fw_files w !! p);
  fo_stat w p := ok_or (option_map snd (fw_files w !! p)) (mkFsError FsNotFound "No such file or directory");
  fo_pid := 42;
  fo_random w := (w, 7);
}.

Lemma fw_append_spec p data w :
  match fw_append p data w with
  | (w', Ok _) => exists old mode, fw_files w !! p = Some (old, mode) /\ fw_files w' = <[p := (old ++ data, mode)]> (fw_files w)
  | (w', Err _) => only_at p (fw_files w) (fw_files w')
  end.
Proof.
  unfold fw_append. destruct (fw_files w !! p) as [[old mode]|] eqn:E; [|done].
  destruct (fw_full w); [intros q Hq; cbn; by rewrite lookup_insert_ne|]. by exists old, mode.
Qed.

#[local] Program Instance FsWorld_laws : FsLaws FsWorld := { fs_files := fw_files }.
Next Obligation. intros p w. cbn. by eexists. Qed.
Next Obligation. intros p w. cbn. by destruct (fw_files w !! p) eqn:E. Qed.
Next Obligation. done. Qed.
Next Obligation. apply fw_append_spec. Qed.
Next Obligation.
  intros src p w. cbn. destruct (fw_files w !! src) as [[content m]|] eqn:E; [|done]. pose proof (fw_append_spec p content w) as Ha.
  destruct (fw_append p content w) as [w' [u|e]]; [|done]. destruct Ha as (old & mode & Ho & Hw). by exists content, m, old, mode.
Qed.
Next Obligation. done. Qed.
Next Obligation. intros p mode w. cbn. destruct (fw_files w !! p) as [[c m]|]; [by exists c, m|done]. Qed.
Next Obligation. intros p q w. cbn. destruct (fw_files w !! p) as [f|]; [by exists f|done]. Qed.
Next Obligation. done. Qed.
Next Obligation. intros p w mode. cbn. destruct (fw_files w !! p) as [[c m]|]; [|done]. intros [= <-]. by exists c. Qed.
Next Obligation. done. Qed.

Definition fw_demo (full : bool) : FsWorld := mkFsWorld {["/run/flannel/subnet.env" := ([1; 2], 420)]} full.

(** A file is replaced, and kept when the disk is full. *)
Lemma write_file_atomic_safe_witness :
  (exists w, write_file_atomic "/run/flannel/subnet.env" [3; 4; 5; 6] 420 (fw_demo false) = (w, Ok tt)
     /\ fs_files w !! "/run/flannel/subnet.env" = Some ([3; 4; 5; 6], 420))
  /\ (exists w e, write_file_atomic "/run/flannel/subnet.env" [3; 4; 5; 6] 420 (fw_demo true) = (w, Err e)
     /\ fs_files w !! "/run/flannel/subnet.env" = Some ([1; 2], 420)).
Proof.
  assert (tmp_path "/run/flannel/subnet.env" <> "/run/flannel/subnet.env") as Hne
    by (apply (bool_decide_unpack (tmp_path _ <> _)); vm_compute; exact I).
  split.
  - pose proof (write_file_atomic_safe "/run/flannel/subnet.env" [3; 4; 5; 6] 420 (fw_demo false) Hne) as Hw.
    assert (is_ok (write_file_atomic "/run/flannel/subnet.env" [3; 4; 5; 6] 420 (fw_demo false)).2 = true) as Hok by (vm_compute; reflexivity).
    destruct (write_file_atomic _ _ _ (fw_demo false)) as [w [[]|e]]; [|discriminate Hok].
    exists w. split; [reflexivity|]. rewrite Hw. apply lookup_insert_eq.
  - pose proof (write_file_atomic_safe "/run/flannel/subnet.env" [3; 4; 5; 6] 420 (fw_demo true) Hne) as Hw.
    assert (is_ok (write_file_atomic "/run/flannel/subnet.env" [3; 4; 5; 6] 420 (fw_demo true)).2 = false) as Hok by (vm_compute; reflexivity).
    destruct (write_file_atomic _ _ _ (fw_demo true)) as [w [[]|e]]; [discriminate Hok|].
    exists w, e. split; [reflexivity|]. destruct Hw as [_ Hw]. rewrite Hw. reflexivity.
Defined.
