(* ===== verification/UdpProxy.v ===== *)
(** * [backend/udp]: the userspace packet proxy

    [proxy_packet.rs] (checksums, TTL, ICMP replies) and [proxy.rs] (control
    commands, route table, forwarding steps and the poll loop).  The code is
    for amd64: native byte order is little-endian.  A packet is its list of
    bytes; reads from the tun device, the UDP socket and the control socket
    are inputs, writes are collected as outputs. *)

From S2P Require Import Prelude RustStr StdNet Cidr IpNet.
#[local] Open Scope string_scope.
#[local] Open Scope list_scope.
#[local] Open Scope Z_scope.

(** ** [proxy_packet.rs] *)

Definition IPHDR_LEN : nat := 20.
Definition MAX_IPOPTLEN : nat := 40.
Definition ICMP_DEST_UNREACH : Z := 3.
Definition ICMP_NET_UNREACH : Z := 0.
Definition PROTO_ICMP : Z := 1.

Definition inaddr_str (a : Z) : string := str_join "." (map fmt_dec (to_le 4 a)).

(** The sum over [data.chunks_exact(4)]: a last partial chunk is dropped. *)
Fixpoint cksum_sum (data : bytes) : Z :=
  match data with
  | a :: b :: c :: d :: rest => from_le [a; b; c; d] + cksum_sum rest
  | _ => 0
  end.

(** [while sum >> 16 != 0].  Eight rounds are enough for a 64-bit sum. *)
Fixpoint cksum_fold (fuel : nat) (sum : Z) : Z :=
  match fuel with
  | O => sum
  | S fuel =>
      if Z.shiftr sum 16 =? 0 then sum
      else cksum_fold fuel (Z.land sum 65535 + Z.shiftr sum 16)
  end.

Definition cksum (data : bytes) : Z := 65535 - wrap 16 (cksum_fold 8 (cksum_sum data)).

(** [x.to_be()] on a little-endian machine. *)
Definition swap16 (v : Z) : Z := from_le (to_be 2 v).
Definition swap32 (v : Z) : Z := from_le (to_be 4 v).

(** [decrement_ttl]: the returned flag and the packet after it; [None] is the
    panic of indexing a packet that is too short. *)
Definition decrement_ttl (pkt : bytes) : option (bool * bytes) :=
  match pkt !! 8%nat, pkt !! 10%nat, pkt !! 11%nat with
  | Some t, Some c0, Some c1 =>
      let ttl := wrap 8 (t - 1) in
      let pkt := <[8%nat := ttl]> pkt in
      if ttl =? 0 then Some (false, pkt)
      else
        let check := from_le [c0; c1] in
        let threshold := swap16 (65535 - 256) in
        let inc := swap16 256 in
        let patched := if threshold <=? check then wrap 16 (wrap 16 (check + inc) + 1)
                       else wrap 16 (check + inc) in
        Some (true, splice 10 (to_le 2 patched) pkt)
  | _, _, _ => None
  end.

Definition nth_byte (l : bytes) (i : nat) : Z := default 0 (l !! i).

Definition build_net_unreachable (offender : bytes) (tun_addr : Z) : option bytes :=
  if (length offender <? IPHDR_LEN)%nat then None
  else
    let off_iph_len := (Z.to_nat (Z.land (nth_byte offender 0) 15) * 4)%nat in
    if (IPHDR_LEN + MAX_IPOPTLEN <=? off_iph_len)%nat then None
    else if nth_byte offender 9 =? PROTO_ICMP then None
    else
      let frag_off := from_be [nth_byte offender 6; nth_byte offender 7] in
      if negb (Z.land frag_off 8191 =? 0) then None
      else if (length offender <? off_iph_len + 8)%nat then None
      else
        let pktlen := (IPHDR_LEN + 8 + off_iph_len + 8)%nat in
        let pkt := replicate pktlen 0 in
        let pkt := <[0%nat := 69]> pkt in
        let pkt := splice 2 (to_be 2 (Z.of_nat pktlen)) pkt in
        let pkt := <[8%nat := 8]> pkt in
        let pkt := <[9%nat := PROTO_ICMP]> pkt in
        let pkt := splice 12 (to_le 4 tun_addr) pkt in
        let pkt := splice 16 (slice 12 16 offender) pkt in
        let ip_check := cksum (slice 0 IPHDR_LEN pkt) in
        let pkt := splice 10 (to_le 2 ip_check) pkt in
        let pkt := <[20%nat := ICMP_DEST_UNREACH]> pkt in
        let pkt := <[21%nat := ICMP_NET_UNREACH]> pkt in
        let pkt := splice 28 (slice 0 (off_iph_len + 8) offender) pkt in
        let icmp_check := cksum (drop 20 pkt) in
        Some (splice 22 (to_le 2 icmp_check) pkt).

(** ** [proxy.rs]: commands *)

Definition CMD_SET_ROUTE : Z := 1.
Definition CMD_DEL_ROUTE : Z := 2.
Definition CMD_STOP : Z := 3.
Definition COMMAND_SIZE : nat := 20.

Record Command := mkCommand {
  c_cmd : Z;
  c_dest_net : Z;
  c_dest_net_len : Z;
  c_next_hop_ip : Z;
  c_next_hop_port : Z;
}.

(** [i{w}::from_le_bytes]: two's complement. *)
Definition signed (w u : Z) : Z := if u <? 2 ^ (w - 1) then u else u - 2 ^ w.

Definition Command_to_bytes (c : Command) : bytes :=
  to_le 4 (c_cmd c) ++ to_le 4 (c_dest_net c) ++ to_le 4 (c_dest_net_len c)
  ++ to_le 4 (c_next_hop_ip c) ++ to_le 2 (c_next_hop_port c) ++ [0; 0].

Definition Command_from_bytes (b : bytes) : Command :=
  mkCommand (signed 32 (from_le (slice 0 4 b))) (from_le (slice 4 8 b))
    (signed 32 (from_le (slice 8 12 b))) (from_le (slice 12 16 b))
    (signed 16 (from_le (slice 16 18 b))).

(** ** [proxy.rs]: the route table *)

Record IpNet := mkIpNet { in_ip : Z; in_mask : Z }.
Record RouteEntry := mkRouteEntry { re_dst : IpNet; re_next_hop_ip : Z; re_next_hop_port : Z }.

#[global] Instance IpNet_eq_dec : EqDecision IpNet.
Proof. solve_decision. Defined.
#[global] Instance RouteEntry_eq_dec : EqDecision RouteEntry.
Proof. solve_decision. Defined.

Fixpoint RouteTable_set_route (entries : list RouteEntry) (dst : IpNet) (ip port : Z) : list RouteEntry :=
  match entries with
  | [] => [mkRouteEntry dst ip port]
  | e :: rest =>
      if bool_decide (re_dst e = dst) then mkRouteEntry (re_dst e) ip port :: rest
      else e :: RouteTable_set_route rest dst ip port
  end.

(** [Vec::swap_remove(i)]: the last element takes the place of the removed. *)
Definition swap_remove {A} (i : nat) (l : list A) : list A :=
  match l !! (length l - 1)%nat with
  | Some x => take (length l - 1) (<[i := x]> l)
  | None => l
  end.

(** [slice::swap(0, i)] *)
Definition swap_front {A} (i : nat) (l : list A) : list A :=
  match l !! 0%nat, l !! i with
  | Some a, Some b => <[0%nat := b]> (<[i := a]> l)
  | _, _ => l
  end.

Definition RouteTable_del_route (entries : list RouteEntry) (dst : IpNet) : list RouteEntry * bool :=
  match position (fun e => bool_decide (re_dst e = dst)) entries with
  | Some i => (swap_remove i entries, true)
  | None => (entries, false)
  end.

Definition route_matches (dst_ip : Z) (e : RouteEntry) : bool :=
  in_ip (re_dst e) =? Z.land dst_ip (in_mask (re_dst e)).

Definition RouteTable_find_route (entries : list RouteEntry) (dst_ip : Z)
  : list RouteEntry * option (Z * Z) :=
  match position (route_matches dst_ip) entries with
  | None => (entries, None)
  | Some i =>
      let entries := if (i =? 0)%nat then entries else swap_front i entries in
      (entries, option_map (fun e => (re_next_hop_ip e, re_next_hop_port e)) (entries !! 0%nat))
  end.

Definition netmask (prefix_len : Z) : Z :=
  let bits := Z.max 0 (Z.min prefix_len 32) in
  if bits =? 0 then 0 else swap32 (wrap 32 (Z.shiftl u32_MAX (32 - bits))).

(** ** [proxy.rs]: one forwarding step *)

Inductive Output :=
| ToUdp (pkt : bytes) (ip port : Z)
| ToTun (pkt : bytes).

(** [tun_recv_packet]/[sock_recv_packet]: what a successful read returned,
    [None] for an error. *)
Definition recv_packet (read : option bytes) : option bytes :=
  match read with
  | Some pkt => if (length pkt <? IPHDR_LEN)%nat then None else Some pkt
  | None => None
  end.

(** A step returns its activity flag, the routes and what was written;
    [None] is a panic. *)
Definition tun_to_udp (read : option bytes) (tun_ip : Z) (routes : list RouteEntry)
  : option (bool * list RouteEntry * list Output) :=
  match recv_packet read with
  | None => Some (false, routes, [])
  | Some pkt =>
      let daddr := from_le (slice 16 20 pkt) in
      match RouteTable_find_route routes daddr with
      | (routes, None) =>
          Some (true, routes,
                match build_net_unreachable pkt tun_ip with
                | Some reply => [ToTun reply]
                | None => []
                end)
      | (routes, Some (hop_ip, hop_port)) =>
          match decrement_ttl pkt with
          | None => None
          | Some (false, _) => Some (true, routes, [])
          | Some (true, pkt) => Some (true, routes, [ToUdp pkt hop_ip hop_port])
          end
      end
  end.

Definition udp_to_tun (read : option bytes) : option (bool * list Output) :=
  match recv_packet read with
  | None => Some (false, [])
  | Some pkt =>
      match decrement_ttl pkt with
      | None => None
      | Some (false, _) => Some (true, [])
      | Some (true, pkt) => Some (true, [ToTun pkt])
      end
  end.

(** ** [proxy.rs]: commands and the poll loop *)

(** [process_cmd]: what [recv] returned ([None] an error); the new routes and
    exit flag. *)
Definition process_cmd (nrecv : option bytes) (routes : list RouteEntry) (exit_flag : bool)
  : list RouteEntry * bool :=
  match nrecv with
  | None => (routes, exit_flag)
  | Some b =>
      if (length b =? 0)%nat then (routes, true)
      else if (length b <? COMMAND_SIZE)%nat then (routes, exit_flag)
      else
        let cmd := Command_from_bytes b in
        let mask := netmask (c_dest_net_len cmd) in
        let dst := mkIpNet (Z.land (c_dest_net cmd) mask) mask in
        if c_cmd cmd =? CMD_SET_ROUTE
        then (RouteTable_set_route routes dst (c_next_hop_ip cmd) (wrap 16 (c_next_hop_port cmd)), exit_flag)
        else if c_cmd cmd =? CMD_DEL_ROUTE then (fst (RouteTable_del_route routes dst), exit_flag)
        else if c_cmd cmd =? CMD_STOP then (routes, true)
        else (routes, exit_flag)
  end.

(** One result of [poll]: a failure (interrupted or not), or which
    descriptors are readable, with the reads that the forwarding loop makes
    until neither is ready. *)
Inductive PollResult :=
| PollErr (eintr : bool)
| PollOk (ctl : option (option bytes)) (readable : bool) (rounds : list (option bytes * option bytes)).

(** The inner forwarding loop: it ends at the first round without activity. *)
Fixpoint forward_rounds (tun_ip : Z) (routes : list RouteEntry)
    (rounds : list (option bytes * option bytes)) : option (list RouteEntry * list Output) :=
  match rounds with
  | [] => Some (routes, [])
  | (tun_read, sock_read) :: rest =>
      match tun_to_udp tun_read tun_ip routes with
      | None => None
      | Some (act1, routes, out1) =>
          match udp_to_tun sock_read with
          | None => None
          | Some (act2, out2) =>
              if act1 || act2 then
                match forward_rounds tun_ip routes rest with
                | None => None
                | Some (routes, out) => Some (routes, out1 ++ out2 ++ out)
                end
              else Some (routes, out1 ++ out2)
          end
      end
  end.

(** [run_proxy] over the results of its calls to [poll]. *)
Fixpoint run_proxy_loop (tun_ip : Z) (routes : list RouteEntry) (polls : list PollResult)
  : option (list RouteEntry * list Output) :=
  match polls with
  | [] => Some (routes, [])
  | PollErr true :: rest => run_proxy_loop tun_ip routes rest
  | PollErr false :: _ => Some (routes, [])
  | PollOk ctl readable rounds :: rest =>
      let '(routes, exit_flag) :=
        match ctl with
        | Some nrecv => process_cmd nrecv routes false
        | None => (routes, false)
        end in
      let fwd := if readable then forward_rounds tun_ip routes rounds else Some (routes, []) in
      match fwd with
      | None => None
      | Some (routes, out) =>
          if exit_flag then Some (routes, out)
          else match run_proxy_loop tun_ip routes rest with
               | None => None
               | Some (routes, out') => Some (routes, out ++ out')
               end
      end
  end.

Definition run_proxy (tun_ip tun_mtu : Z) (polls : list PollResult)
  : option (list RouteEntry * list Output) :=
  if tun_mtu =? 0 then Some ([], []) else run_proxy_loop tun_ip [] polls.

#[global] Arguments cksum_sum : simpl never.
#[global] Arguments to_le : simpl never.
#[global] Arguments to_be : simpl never.

(** ** Lemmas: the one's complement checksum *)

Lemma cksum_sum_4 a b c d rest :
  cksum_sum (a :: b :: c :: d :: rest) = from_le [a; b; c; d] + cksum_sum rest.
Proof. done. Qed.

(** Induction over whole words. *)
Lemma words_ind (P : bytes -> Prop) :
  P [] -> (forall a b c d rest, P rest -> P (a :: b :: c :: d :: rest)) ->
  forall (n : nat) l, length l = (4 * n)%nat -> P l.
Proof.
  intros H0 H4. induction n as [|n IH]; intros l Hl.
  - by destruct l.
  - do 4 (destruct l as [|? l]; [cbn in Hl; lia|]). apply H4, IH. cbn in Hl. lia.
Qed.

(** The sum of the words is the value of the data modulo 65535. *)
Lemma cksum_sum_mod n l :
  length l = (4 * n)%nat -> cksum_sum l mod 65535 = from_le l mod 65535.
Proof.
  revert n l. apply (words_ind (fun l => cksum_sum l mod 65535 = from_le l mod 65535)); [done|].
  intros a b c d rest IH.
  rewrite cksum_sum_4. cbn [from_le].
  rewrite Z.add_mod, IH, <- Z.add_mod by lia.
  replace (a + 256 * (b + 256 * (c + 256 * (d + 256 * from_le rest))))
    with (a + 256 * (b + 256 * (c + 256 * (d + 256 * 0))) + from_le rest + (65537 * from_le rest) * 65535) by lia.
  by rewrite Z_mod_plus_full.
Qed.

Lemma cksum_sum_bound n l :
  length l = (4 * n)%nat -> Forall is_byte l -> 0 <= cksum_sum l <= Z.of_nat n * (2 ^ 32 - 1).
Proof.
  revert l. induction n as [|n IH]; intros l Hl Hb.
  - destruct l; [|done]. unfold cksum_sum. lia.
  - do 4 (destruct l as [|? l]; [cbn in Hl; lia|]). decompose_Forall_hyps. rewrite cksum_sum_4.
    specialize (IH l ltac:(cbn in Hl; lia) ltac:(done)). unfold is_byte in *. cbn [from_le]. lia.
Qed.

Lemma cksum_sum_pos n l :
  length l = (4 * n)%nat -> Forall is_byte l -> 0 < from_le l -> 0 < cksum_sum l.
Proof.
  revert l. induction n as [|n IH]; intros l Hl Hb Hp.
  - destruct l; [|done]. cbn in Hp. lia.
  - do 4 (destruct l as [|? l]; [cbn in Hl; lia|]). decompose_Forall_hyps. rewrite cksum_sum_4.
    pose proof (cksum_sum_bound n l ltac:(cbn in Hl; lia) ltac:(done)) as [Hs0 _].
    unfold is_byte in *. cbn [from_le] in *.
    destruct (decide (0 < from_le l)) as [Hl0|Hl0].
    + specialize (IH l ltac:(cbn in Hl; lia) ltac:(done) Hl0). lia.
    + pose proof (from_le_bound l ltac:(done)). lia.
Qed.

Lemma cksum_sum_zero n l :
  length l = (4 * n)%nat -> Forall is_byte l -> from_le l = 0 -> cksum_sum l = 0.
Proof.
  revert l. induction n as [|n IH]; intros l Hl Hb Hz.
  - by destruct l.
  - do 4 (destruct l as [|? l]; [cbn in Hl; lia|]). decompose_Forall_hyps. unfold is_byte in *.
    cbn [from_le] in Hz. pose proof (from_le_bound l ltac:(done)) as [? _]. rewrite cksum_sum_4.
    cbn [from_le]. rewrite (IH l); [lia|cbn in Hl; lia|done|lia].
Qed.

Lemma fold_step sum :
  0 <= sum -> Z.land sum 65535 + Z.shiftr sum 16 = sum mod 65536 + sum / 65536.
Proof.
  intros H. change 65535 with (Z.ones 16). rewrite Z.land_ones, Z.shiftr_div_pow2 by lia. done.
Qed.

(** The end-around carry fold keeps the sum modulo 65535. *)
Lemma cksum_fold_range fuel sum :
  0 <= sum -> let r := cksum_fold fuel sum in
  0 <= r /\ r mod 65535 = sum mod 65535 /\ (0 < sum -> 0 < r) /\ (sum < 65536 -> r < 65536).
Proof.
  revert sum. induction fuel as [|fuel IH]; intros sum Hs; cbn [cksum_fold]; [auto|].
  destruct (Z.shiftr sum 16 =? 0) eqn:E; [auto|].
  apply Z.eqb_neq in E. rewrite Z.shiftr_div_pow2 in E by lia. change (2 ^ 16) with 65536 in E.
  rewrite fold_step by done.
  pose proof (Z.div_mod sum 65536 ltac:(lia)). pose proof (Z.mod_pos_bound sum 65536 ltac:(lia)).
  assert (1 <= sum / 65536) by (pose proof (Z.div_pos sum 65536 Hs ltac:(lia)); lia).
  specialize (IH (sum mod 65536 + sum / 65536) ltac:(lia)) as (I1 & I2 & I3 & I4). split_and!; [done| | |].
  - rewrite I2. rewrite (Z.div_mod sum 65536) at 3 by lia.
    replace (65536 * (sum / 65536) + sum mod 65536)
      with (sum mod 65536 + sum / 65536 + (sum / 65536) * 65535) by lia.
    by rewrite Z_mod_plus_full.
  - intros _. apply I3. lia.
  - intros Hlt. exfalso. rewrite Z.div_small in E by lia. done.
Qed.

Lemma cksum_fold_small fuel sum : sum < 65536 -> 0 <= sum -> cksum_fold fuel sum < 65536.
Proof. intros. by apply cksum_fold_range. Qed.

Lemma cksum_fold_shrink fuel B sum :
  (forall s, 0 <= s <= 65535 + B -> cksum_fold fuel s < 65536) ->
  0 <= sum <= 65536 * B + 65535 -> cksum_fold (S fuel) sum < 65536.
Proof.
  intros H Hs. cbn [cksum_fold]. destruct (Z.shiftr sum 16 =? 0) eqn:E.
  - apply Z.eqb_eq in E. rewrite Z.shiftr_div_pow2 in E by lia. change (2 ^ 16) with 65536 in E.
    apply Z.div_small_iff in E; lia.
  - apply H. rewrite fold_step by lia. pose proof (Z.mod_pos_bound sum 65536 ltac:(lia)).
    assert (sum / 65536 <= B) by (apply Z.lt_succ_r, Z.div_lt_upper_bound; lia).
    pose proof (Z.div_pos sum 65536 ltac:(lia) ltac:(lia)). lia.
Qed.

(** Eight rounds end the fold of any 64-bit sum. *)
Lemma cksum_fold_enough sum : 0 <= sum < 2 ^ 64 -> cksum_fold 8 sum < 65536.
Proof.
  intros Hs. apply (cksum_fold_shrink 7 (2 ^ 48)); [|lia]. clear sum Hs. intros s Hs.
  apply (cksum_fold_shrink 6 (2 ^ 32)); [|lia]. clear s Hs. intros s Hs.
  apply (cksum_fold_shrink 5 (2 ^ 16)); [|lia]. clear s Hs. intros s Hs.
  apply (cksum_fold_shrink 4 1); [|lia]. clear s Hs. intros s Hs.
  destruct (decide (s = 65536)) as [->|]; [done|]. apply cksum_fold_small; lia.
Qed.

(** Data whose checksum the code can be asked for: whole words, small enough
    for the 64-bit accumulator. *)
Definition cksum_ok (l : bytes) : Prop :=
  Forall is_byte l /\ exists n, length l = (4 * n)%nat /\ Z.of_nat n < 2 ^ 32.

Lemma cksum_spec l :
  cksum_ok l -> 0 <= cksum l <= 65535 /\ (cksum l + from_le l) mod 65535 = 0 /\
  (cksum l = 0 <-> 0 < from_le l /\ from_le l mod 65535 = 0).
Proof.
  intros (Hb & n & Hl & Hn). pose proof (cksum_sum_bound n l Hl Hb) as [H0 H1].
  pose proof (cksum_sum_mod n l Hl) as Hm. pose proof (cksum_sum_pos n l Hl Hb) as Hpos.
  pose proof (from_le_bound l Hb) as [Hf _].
  destruct (cksum_fold_range 8 (cksum_sum l) H0) as (F0 & F1 & F2 & _).
  pose proof (cksum_fold_enough (cksum_sum l) ltac:(lia)) as F3.
  unfold cksum. set (f := cksum_fold 8 (cksum_sum l)) in *.
  rewrite wrap_small by (unfold in_width; lia). split; [lia|].
  pose proof (cksum_sum_zero n l Hl Hb) as Hz.
  assert (Hfm : f mod 65535 = from_le l mod 65535) by congruence.
  split.
  - rewrite <- Z.add_mod_idemp_r, <- Hfm, Z.add_mod_idemp_r by lia.
    replace (65535 - f + f) with (1 * 65535) by lia. apply Z_mod_mult.
  - split.
    + intros Hc. assert (f = 65535) as Hf5 by lia. rewrite Hf5 in Hfm. split; [|done].
      destruct (decide (from_le l = 0)) as [Hz0|]; [|lia].
      subst f. rewrite (Hz Hz0) in Hf5. vm_compute in Hf5. done.
    + intros [Hp Hmod]. specialize (F2 (Hpos Hp)). rewrite Hmod in Hfm.
      destruct (decide (f = 65535)); [lia|]. rewrite Z.mod_small in Hfm by lia. lia.
Qed.

(** ** Lemmas: patching bytes *)

Lemma from_le_insert l i b x :
  l !! i = Some b -> from_le (<[i := x]> l) = from_le l + 256 ^ Z.of_nat i * (x - b).
Proof.
  intros H. rewrite <- (take_drop_middle l i b H) at 2.
  rewrite insert_take_drop by (by apply lookup_lt_Some in H).
  rewrite !from_le_app. cbn [from_le]. rewrite !length_take. pose proof (lookup_lt_Some _ _ _ H).
  rewrite !Nat.min_l by lia. lia.
Qed.

Lemma length_splice {A} (a : nat) (src dst : list A) :
  (a + length src <= length dst)%nat -> length (splice a src dst) = length dst.
Proof. intros. unfold splice. rewrite !length_app, length_take, length_drop. lia. Qed.

Lemma Forall_splice {A} (P : A -> Prop) (a : nat) (src dst : list A) :
  Forall P src -> Forall P dst -> Forall P (splice a src dst).
Proof.
  intros. unfold splice. rewrite !Forall_app. split_and!; [by apply Forall_take|done|by apply Forall_drop].
Qed.

Lemma from_le_splice a src dst :
  (a + length src <= length dst)%nat ->
  from_le (splice a src dst)
  = from_le dst + 256 ^ Z.of_nat a * (from_le src - from_le (take (length src) (drop a dst))).
Proof.
  intros H. unfold splice.
  rewrite <- (take_drop a dst) at 3. rewrite <- (take_drop (length src) (drop a dst)) at 1.
  rewrite !from_le_app, drop_drop, !length_take, length_drop.
  rewrite (Nat.min_l a), (Nat.min_l (length src)) by lia. lia.
Qed.

(** Patching an even offset by [d] changes the value modulo 65535 by [d]. *)
Lemma even_offset_mod k d x : (x + 256 ^ Z.of_nat (2 * k) * d) mod 65535 = (x + d) mod 65535.
Proof.
  assert (H : 256 ^ Z.of_nat (2 * k) mod 65535 = 1).
  { rewrite Nat2Z.inj_mul, Z.pow_mul_r by lia. change (256 ^ Z.of_nat 2) with 65536.
    induction k as [|k IH]; [done|]. rewrite Nat2Z.inj_succ, Z.pow_succ_r by lia.
    rewrite Z.mul_mod, IH by lia. done. }
  rewrite <- Z.add_mod_idemp_r, <- Z.mul_mod_idemp_l, H by lia.
  rewrite Z.add_mod_idemp_r by lia. f_equal. lia.
Qed.

(** The patched check word: one more than before, modulo 65535. *)
Definition patch_check (check : Z) : Z :=
  if 65534 <=? check then wrap 16 (wrap 16 (check + 1) + 1) else wrap 16 (check + 1).

Lemma patch_check_spec check :
  0 <= check <= 65535 ->
  0 <= patch_check check <= 65535 /\ exists j, patch_check check = check + 1 + 65535 * j.
Proof.
  intros H. unfold patch_check, wrap. change (2 ^ 16) with 65536.
  destruct (65534 <=? check) eqn:E; bool_to_prop.
  - destruct (decide (check = 65534)) as [->|]; [split; [done|by exists (-1)]|].
    replace check with 65535 by lia. split; [done|by exists (-1)].
  - rewrite Z.mod_small by lia. split; [lia|exists 0; lia].
Qed.

(** [decrement_ttl] on a packet with its first twelve bytes spelled out. *)
Lemma decrement_ttl_cons b0 b1 b2 b3 b4 b5 b6 b7 t b9 c0 c1 rest :
  decrement_ttl (b0 :: b1 :: b2 :: b3 :: b4 :: b5 :: b6 :: b7 :: t :: b9 :: c0 :: c1 :: rest)
  = let ttl := wrap 8 (t - 1) in
    if ttl =? 0
    then Some (false, b0 :: b1 :: b2 :: b3 :: b4 :: b5 :: b6 :: b7 :: ttl :: b9 :: c0 :: c1 :: rest)
    else
      let p := patch_check (from_le [c0; c1]) in
      Some (true, b0 :: b1 :: b2 :: b3 :: b4 :: b5 :: b6 :: b7 :: ttl :: b9
                  :: p mod 256 :: (p / 256) mod 256 :: rest).
Proof.
  unfold decrement_ttl. cbn [lookup list_lookup]. cbv zeta. unfold patch_check.
  change (swap16 (65535 - 256)) with 65534. change (swap16 256) with 1.
  destruct (wrap 8 (t - 1) =? 0); [done|].
  unfold splice. cbn [to_le length insert list_insert take drop app Nat.add]. done.
Qed.

Definition same_but_ttl_check (pkt pkt' : bytes) : Prop :=
  length pkt' = length pkt /\
  forall i, i <> 8%nat -> i <> 10%nat -> i <> 11%nat -> pkt' !! i = pkt !! i.

Lemma decrement_ttl_sum pkt n t :
  Forall is_byte pkt -> (12 <= n <= length pkt)%nat -> pkt !! 8%nat = Some t -> t <> 1 ->
  exists pkt' j, decrement_ttl pkt = Some (true, pkt') /\ Forall is_byte pkt' /\
    same_but_ttl_check pkt pkt' /\ pkt' !! 8%nat = Some (wrap 8 (t - 1)) /\
    from_le (take n pkt') = from_le (take n pkt) + 256 ^ 8 * (wrap 8 (t - 1) - t + 1) + 65535 * j.
Proof.
  intros Hb Hn Ht Ht1. do 12 (destruct pkt as [|? pkt]; [cbn in Hn; lia|]).
  destruct n as [|[|[|[|[|[|[|[|[|[|[|[|n]]]]]]]]]]]]; try lia.
  cbn in Ht. injection Ht as ->. rewrite decrement_ttl_cons. cbv zeta.
  decompose_Forall_hyps. unfold is_byte in *.
  assert (Hw : 0 <= wrap 8 (t - 1) < 256) by (apply (wrap_in_width 8); lia).
  rewrite (proj2 (Z.eqb_neq (wrap 8 (t - 1)) 0)).
  2: { destruct (decide (t = 0)) as [->|]; [done|]. rewrite wrap_small; [lia|]. split; lia. }
  match goal with |- context [patch_check ?c] =>
    destruct (patch_check_spec c ltac:(cbn [from_le]; lia)) as (Hp & j & Hj); set (p := patch_check c) in * end.
  pose proof (Z.mod_pos_bound p 256 ltac:(lia)).
  assert (Hp2 : (p / 256) mod 256 = p / 256).
  { apply Z.mod_small. split; [apply Z.div_pos; lia|apply Z.div_lt_upper_bound; lia]. }
  assert (0 <= p / 256 < 256) by (split; [apply Z.div_pos; lia|apply Z.div_lt_upper_bound; lia]).
  pose proof (Z.div_mod p 256 ltac:(lia)).
  eexists. exists (256 ^ 8 + 256 ^ 10 * j). split; [done|]. split_and!.
  - unfold is_byte. repeat (constructor; [lia|]). done.
  - split; [done|]. intros i N8 N10 N11. do 12 (destruct i as [|i]; [done|]). done.
  - done.
  - cbn [take from_le] in *. rewrite Hp2. change (256 ^ 8) with 18446744073709551616.
    change (256 ^ 10) with 1208925819614629174706176. lia.
Qed.

(** Storing the checksum of data with a zero check field makes it valid. *)
Lemma cksum_patch (k : nat) pre post :
  length pre = (2 * k)%nat -> cksum_ok (pre ++ [0; 0] ++ post) ->
  0 < from_le (pre ++ [0; 0] ++ post) ->
  cksum (pre ++ to_le 2 (cksum (pre ++ [0; 0] ++ post)) ++ post) = 0.
Proof.
  intros Hk Hok Hpos. destruct (cksum_spec _ Hok) as (Hr & Hm & _).
  set (c := cksum _) in *. assert (Hc : from_le (to_le 2 c) = c).
  { rewrite from_le_to_le. apply Z.mod_small. change (256 ^ Z.of_nat 2) with 65536. lia. }
  assert (He : from_le (pre ++ to_le 2 c ++ post) = from_le (pre ++ [0; 0] ++ post) + 256 ^ Z.of_nat (2 * k) * c).
  { rewrite !from_le_app, Hc, Hk, length_to_le. cbn [from_le length]. lia. }
  apply cksum_spec.
  - destruct Hok as (Hb & n & Hl & Hn). rewrite !Forall_app in Hb. destruct Hb as (? & _ & ?). split.
    + rewrite !Forall_app. split_and!; auto using to_le_bytes.
    + exists n. rewrite !length_app, length_to_le in *. cbn [length] in *. lia.
  - rewrite He. split.
    + pose proof (Z.pow_pos_nonneg 256 (Z.of_nat (2 * k)) ltac:(lia) ltac:(lia)). nia.
    + rewrite even_offset_mod, Z.add_comm. exact Hm.
Qed.

(** The reply, laid out. *)
Definition unreach_ip (pktlen : nat) (check : bytes) (tun_addr : Z) (src : bytes) : bytes :=
  ([69; 0] ++ to_be 2 (Z.of_nat pktlen) ++ [0; 0; 0; 0; 8; PROTO_ICMP]) ++ check ++ to_le 4 tun_addr ++ src.

Definition unreach_icmp (check quote : bytes) : bytes :=
  [ICMP_DEST_UNREACH; ICMP_NET_UNREACH] ++ check ++ [0; 0; 0; 0] ++ quote.

Definition offender_ihl (offender : bytes) : nat := (Z.to_nat (Z.land (nth_byte offender 0) 15) * 4)%nat.

Lemma to_le_4 v : exists a b c d, to_le 4 v = [a; b; c; d].
Proof. unfold to_le. eauto. Qed.

Lemma to_be_2 v : exists a b, to_be 2 v = [a; b].
Proof. unfold to_be, to_le. cbn. eauto. Qed.

(** The writes into the zeroed buffer produce the layout. *)
Lemma unreach_steps (ihl : nat) (tun_addr : Z) (src quote : bytes) :
  length src = 4%nat -> length quote = (ihl + 8)%nat ->
  (let pkt := replicate (36 + ihl) 0 in
   let pkt := <[0%nat := 69]> pkt in
   let pkt := splice 2 (to_be 2 (Z.of_nat (36 + ihl))) pkt in
   let pkt := <[8%nat := 8]> pkt in
   let pkt := <[9%nat := PROTO_ICMP]> pkt in
   let pkt := splice 12 (to_le 4 tun_addr) pkt in
   let pkt := splice 16 src pkt in
   let ip_check := cksum (slice 0 20 pkt) in
   let pkt := splice 10 (to_le 2 ip_check) pkt in
   let pkt := <[20%nat := ICMP_DEST_UNREACH]> pkt in
   let pkt := <[21%nat := ICMP_NET_UNREACH]> pkt in
   let pkt := splice 28 quote pkt in
   let icmp_check := cksum (drop 20 pkt) in
   splice 22 (to_le 2 icmp_check) pkt)
  = unreach_ip (36 + ihl) (to_le 2 (cksum (unreach_ip (36 + ihl) [0; 0] tun_addr src))) tun_addr src
    ++ unreach_icmp (to_le 2 (cksum (unreach_icmp [0; 0] quote))) quote.
Proof.
  intros Hs Hq. unfold unreach_ip, unreach_icmp.
  pose proof (length_to_be 2 (Z.of_nat (36 + ihl))) as Hl.
  destruct (to_be 2 (Z.of_nat (36 + ihl))) as [|l0 [|l1 [|]]]; try done. clear Hl.
  pose proof (length_to_le 4 tun_addr) as Hl.
  destruct (to_le 4 tun_addr) as [|t0 [|t1 [|t2 [|t3 [|]]]]]; try done. clear Hl.
  destruct src as [|s0 [|s1 [|s2 [|s3 [|]]]]]; try done.
  replace (36 + ihl)%nat with (28 + (ihl + 8))%nat by lia. revert Hq. generalize (ihl + 8)%nat. intros m Hq.
  cbv zeta. set (buf := splice 16 _ _).
  assert (Hbuf : buf = [69; 0; l0; l1; 0; 0; 0; 0; 8; PROTO_ICMP; 0; 0; t0; t1; t2; t3; s0; s1; s2; s3;
                        0; 0; 0; 0; 0; 0; 0; 0] ++ replicate m 0) by reflexivity.
  rewrite Hbuf. clear Hbuf buf. cbn [app].
  change (slice 0 20 _) with [69; 0; l0; l1; 0; 0; 0; 0; 8; PROTO_ICMP; 0; 0; t0; t1; t2; t3; s0; s1; s2; s3].
  set (ck := cksum [69; 0; l0; l1; 0; 0; 0; 0; 8; PROTO_ICMP; 0; 0; t0; t1; t2; t3; s0; s1; s2; s3]).
  pose proof (length_to_le 2 ck) as Hl.
  destruct (to_le 2 ck) as [|c0 [|c1 [|]]]; try done. clear Hl.
  set (buf := splice 28 _ _).
  assert (Hbuf : buf = [69; 0; l0; l1; 0; 0; 0; 0; 8; PROTO_ICMP; c0; c1; t0; t1; t2; t3; s0; s1; s2; s3;
                        ICMP_DEST_UNREACH; ICMP_NET_UNREACH; 0; 0; 0; 0; 0; 0] ++ quote).
  { unfold buf. set (inner := <[21%nat := _]> _).
    assert (inner = [69; 0; l0; l1; 0; 0; 0; 0; 8; PROTO_ICMP; c0; c1; t0; t1; t2; t3; s0; s1; s2; s3;
                     ICMP_DEST_UNREACH; ICMP_NET_UNREACH; 0; 0; 0; 0; 0; 0] ++ replicate m 0) as -> by reflexivity.
    unfold splice. cbn [take drop app Nat.add].
    rewrite (drop_ge (replicate m 0)) by (rewrite length_replicate; lia). by rewrite app_nil_r. }
  rewrite Hbuf. clear Hbuf buf. cbn [app drop]. set (ick := cksum _).
  pose proof (length_to_le 2 ick) as Hl.
  destruct (to_le 2 ick) as [|i0 [|i1 [|]]]; try done.
Qed.

Lemma build_net_unreachable_layout offender tun_addr pkt :
  build_net_unreachable offender tun_addr = Some pkt ->
  let ihl := offender_ihl offender in
  let pktlen := (36 + ihl)%nat in
  let src := slice 12 16 offender in
  let quote := slice 0 (ihl + 8) offender in
  (20 <= length offender)%nat /\ (ihl + 8 <= length offender)%nat /\ (ihl < 60)%nat /\
  nth_byte offender 9 <> PROTO_ICMP /\
  Z.land (from_be [nth_byte offender 6; nth_byte offender 7]) 8191 = 0 /\
  pkt = unreach_ip pktlen (to_le 2 (cksum (unreach_ip pktlen [0; 0] tun_addr src))) tun_addr src
        ++ unreach_icmp (to_le 2 (cksum (unreach_icmp [0; 0] quote))) quote.
Proof.
  unfold build_net_unreachable, IPHDR_LEN, MAX_IPOPTLEN. fold (offender_ihl offender).
  destruct (length offender <? 20)%nat eqn:E1; [done|]. apply Nat.ltb_ge in E1.
  destruct (20 + 40 <=? offender_ihl offender)%nat eqn:E2; [done|]. apply Nat.leb_gt in E2.
  destruct (nth_byte offender 9 =? PROTO_ICMP) eqn:E3; [done|]. apply Z.eqb_neq in E3.
  destruct (negb _) eqn:E4; [done|]. apply negb_false_iff, Z.eqb_eq in E4.
  destruct (length offender <? offender_ihl offender + 8)%nat eqn:E5; [done|]. apply Nat.ltb_ge in E5.
  set (ihl := offender_ihl offender) in *. cbv zeta. intros <-%(inj Some).
  split_and!; try done; try lia.
  replace (20 + 8 + ihl + 8)%nat with (36 + ihl)%nat by lia. apply unreach_steps.
  - unfold slice. rewrite length_take, length_drop. lia.
  - unfold slice. rewrite length_take, length_drop. lia.
Qed.

(** ** Lemmas: the route table as a map *)

#[global] Program Instance IpNet_countable : Countable IpNet :=
  inj_countable' (fun n => (in_ip n, in_mask n)) (fun p => mkIpNet p.1 p.2) _.
Next Obligation. by intros []. Qed.

Definition routes_inv (entries : list RouteEntry) : Prop := NoDup (map re_dst entries).

Definition routes_abs (entries : list RouteEntry) : gmap IpNet (Z * Z) :=
  list_to_map (map (fun e => (re_dst e, (re_next_hop_ip e, re_next_hop_port e))) entries).

Lemma routes_abs_cons e es :
  routes_abs (e :: es) = <[re_dst e := (re_next_hop_ip e, re_next_hop_port e)]> (routes_abs es).
Proof. done. Qed.

Lemma routes_keys es :
  (map (fun e => (re_dst e, (re_next_hop_ip e, re_next_hop_port e))) es).*1 = map re_dst es.
Proof. induction es as [|e es IH]; cbn; [done|]. by f_equal. Qed.

Lemma routes_abs_lookup es d h :
  routes_inv es ->
  routes_abs es !! d = Some h <->
  exists e, e ∈ es /\ re_dst e = d /\ (re_next_hop_ip e, re_next_hop_port e) = h.
Proof.
  intros Hi. unfold routes_abs. rewrite <- elem_of_list_to_map by (by rewrite routes_keys).
  rewrite list_elem_of_fmap. split; intros (e & He & Hin); exists e; naive_solver.
Qed.

Lemma routes_abs_lookup_None es d : routes_abs es !! d = None <-> d ∉ map re_dst es.
Proof. unfold routes_abs. by rewrite <- not_elem_of_list_to_map, routes_keys. Qed.

Lemma routes_abs_perm es es' : routes_inv es -> es ≡ₚ es' -> routes_inv es' /\ routes_abs es' = routes_abs es.
Proof.
  intros Hi Hp. assert (map re_dst es ≡ₚ map re_dst es') as Hk by (by apply Permutation_map).
  split; [unfold routes_inv; by rewrite <- Hk|]. symmetry. apply list_to_map_proper.
  - by rewrite routes_keys.
  - by apply Permutation_map.
Qed.

Lemma set_route_spec es d ip port :
  routes_inv es ->
  routes_inv (RouteTable_set_route es d ip port) /\
  routes_abs (RouteTable_set_route es d ip port) = <[d := (ip, port)]> (routes_abs es) /\
  (forall k, k ∈ map re_dst (RouteTable_set_route es d ip port) -> k = d \/ k ∈ map re_dst es).
Proof.
  unfold routes_inv. induction es as [|e es IH]; intros Hi; cbn [RouteTable_set_route].
  { split_and!; [apply NoDup_singleton|done|set_solver]. }
  apply list.NoDup_cons in Hi as [Hni Hi]. case_bool_decide as Hd.
  - subst d. split_and!; [cbn; by constructor| |cbn; set_solver].
    rewrite !routes_abs_cons. by rewrite insert_insert_eq.
  - destruct (IH Hi) as (Hi' & Ha & Hin). split_and!.
    + cbn. constructor; [|done]. intros [?|?]%Hin; by eauto.
    + rewrite !routes_abs_cons, Ha. by rewrite insert_insert_ne.
    + cbn. intros k [->|[?|?]%Hin]%elem_of_cons; set_solver.
Qed.

Lemma swap_remove_perm {A} (l : list A) i x :
  l !! i = Some x -> l ≡ₚ x :: swap_remove i l.
Proof.
  intros Hi. pose proof (lookup_lt_Some _ _ _ Hi) as Hlt. unfold swap_remove.
  destruct (l !! (length l - 1)%nat) as [z|] eqn:Ez.
  2: { apply lookup_ge_None in Ez. lia. }
  assert (Hl : l = take (length l - 1) l ++ [z]).
  { rewrite <- (take_drop (length l - 1) l) at 1. f_equal.
    rewrite (drop_S l z) by done. by rewrite drop_ge by lia. }
  set (init := take (length l - 1) l) in *. assert (Hli : length init = (length l - 1)%nat).
  { unfold init. rewrite length_take. lia. }
  rewrite Hl at 3. destruct (decide (i = length l - 1)%nat) as [->|Hne].
  - assert (z = x) as -> by congruence. rewrite Hl at 1.
    rewrite <- Hli. rewrite insert_app_r_alt by lia. rewrite Nat.sub_diag. cbn.
    rewrite take_app_length. by rewrite Permutation_app_comm.
  - rewrite insert_app_l by lia. rewrite take_app_le by (rewrite length_insert; lia).
    rewrite take_ge by (rewrite length_insert; lia).
    assert (Hix : init !! i = Some x).
    { unfold init. rewrite lookup_take_lt by lia. done. }
    rewrite Hl at 1. rewrite Permutation_app_comm. cbn.
    rewrite <- (take_drop_middle init i x Hix) at 1. rewrite (insert_take_drop init i z) by lia.
    rewrite <- !Permutation_middle. apply perm_swap.
Qed.

Lemma swap_front_perm {A} (l : list A) i : swap_front i l ≡ₚ l.
Proof.
  unfold swap_front. destruct l as [|a t]; [done|]. destruct i as [|j]; [done|].
  change ((a :: t) !! S j) with (t !! j). destruct (t !! j) as [b|] eqn:Hj; [|done].
  change ((a :: t) !! 0%nat) with (Some a). cbn match.
  change (<[0%nat := b]> (<[S j := a]> (a :: t))) with (b :: <[j := a]> t).
  pose proof (lookup_lt_Some _ _ _ Hj). rewrite insert_take_drop by done.
  rewrite <- (take_drop_middle t j b Hj) at 3. rewrite <- !Permutation_middle. apply perm_swap.
Qed.

Lemma swap_front_head {A} (l : list A) i x : l !! i = Some x -> swap_front i l !! 0%nat = Some x.
Proof. unfold swap_front. destruct l as [|a t]; [done|]. intros H. rewrite H. by destruct i. Qed.

Lemma del_route_spec es d :
  routes_inv es ->
  let '(es', found) := RouteTable_del_route es d in
  routes_inv es' /\ routes_abs es' = delete d (routes_abs es) /\
  found = bool_decide (is_Some (routes_abs es !! d)).
Proof.
  intros Hi. unfold RouteTable_del_route.
  destruct (position _ es) as [i|] eqn:Hp.
  - apply position_Some in Hp as (e & He & Hd). apply bool_decide_eq_true in Hd.
    pose proof (swap_remove_perm es i e He) as Hperm.
    destruct (routes_abs_perm es _ Hi Hperm) as [Hi' Ha]. rewrite routes_abs_cons, Hd in Ha.
    apply list.NoDup_cons in Hi' as [Hni Hi']. rewrite <- Ha. split_and!; [done| |].
    + rewrite delete_insert_id; [done|]. apply routes_abs_lookup_None. by rewrite <- Hd.
    + symmetry. apply bool_decide_eq_true. rewrite lookup_insert_eq. eauto.
  - split_and!; [done| |].
    + rewrite delete_id; [done|]. apply routes_abs_lookup_None.
      intros (e & -> & He)%list_elem_of_fmap.
      pose proof (proj1 (position_None _ _) Hp e He) as Hf. by apply bool_decide_eq_false in Hf.
    + symmetry. apply bool_decide_eq_false. intros [h Hh].
      apply routes_abs_lookup in Hh as (e & He & <- & _); [|done].
      pose proof (proj1 (position_None _ _) Hp e He) as Hf. by apply bool_decide_eq_false in Hf.
Qed.

(** A route of the map covers an address. *)
Definition net_matches (dst_ip : Z) (n : IpNet) : bool := in_ip n =? Z.land dst_ip (in_mask n).

Lemma find_route_spec es a :
  routes_inv es ->
  let '(es', hop) := RouteTable_find_route es a in
  routes_inv es' /\ routes_abs es' = routes_abs es /\
  match hop with
  | Some h => exists n, routes_abs es !! n = Some h /\ net_matches a n = true
  | None => forall n, is_Some (routes_abs es !! n) -> net_matches a n = false
  end.
Proof.
  intros Hi. unfold RouteTable_find_route. destruct (position _ es) as [i|] eqn:Hp.
  - apply position_Some in Hp as (e & He & Hm).
    set (es' := if (i =? 0)%nat then es else swap_front i es).
    assert (Hperm : es' ≡ₚ es) by (unfold es'; destruct (i =? 0)%nat; [done|apply swap_front_perm]).
    assert (H0 : es' !! 0%nat = Some e).
    { unfold es'. destruct (i =? 0)%nat eqn:E0; [by apply Nat.eqb_eq in E0 as ->|by apply swap_front_head]. }
    destruct (routes_abs_perm es es' Hi (symmetry Hperm)) as [Hi' Ha]. split_and!; [done..|].
    rewrite H0. cbn. exists (re_dst e). split; [|done]. apply routes_abs_lookup; [done|].
    exists e. split_and!; [|done..]. by eapply list_elem_of_lookup_2.
  - split_and!; [done..|]. intros n [h (e & He & <- & _)%routes_abs_lookup]; [|done].
    by apply (proj1 (position_None _ _) Hp e He).
Qed.

(** ** Lemmas: network byte order and masks *)

Lemma testbit_byte_add a x n :
  0 <= a < 256 -> 0 <= n -> Z.testbit (a + 256 * x) n = if n <? 8 then Z.testbit a n else Z.testbit x (n - 8).
Proof.
  intros Ha Hn. change 256 with (2 ^ 8) in *. rewrite Z.mul_comm, <- Z.shiftl_mul_pow2 by lia.
  assert (Hl : Z.land a (Z.shiftl x 8) = 0).
  { apply Z.bits_inj'. intros i Hi. rewrite Z.land_spec, Z.shiftl_spec, Z.bits_0 by done.
    destruct (decide (i < 8)); [by rewrite (Z.testbit_neg_r x) by lia; apply andb_false_r|].
    rewrite <- (Z.mod_small a (2 ^ 8)) by done. by rewrite Z.mod_pow2_bits_high by lia. }
  rewrite Z.add_nocarry_lxor, Z.lxor_spec, Z.shiftl_spec by done.
  destruct (n <? 8) eqn:E; bool_to_prop.
  - by rewrite (Z.testbit_neg_r x) by lia; rewrite xorb_false_r.
  - rewrite <- (Z.mod_small a (2 ^ 8)) at 1 by done. by rewrite Z.mod_pow2_bits_high by lia.
Qed.

Lemma land_byte_add a b x y :
  0 <= a < 256 -> 0 <= b < 256 ->
  Z.land (a + 256 * x) (b + 256 * y) = Z.land a b + 256 * Z.land x y.
Proof.
  intros Ha Hb. apply Z.bits_inj'. intros n Hn.
  assert (0 <= Z.land a b < 256).
  { split; [apply Z.land_nonneg; lia|]. destruct (decide (Z.land a b = 0)) as [->|]; [lia|].
    assert (0 <= Z.land a b) by (apply Z.land_nonneg; lia).
    apply (Z.log2_lt_pow2 (Z.land a b) 8); [lia|]. pose proof (Z.log2_land a b ltac:(lia) ltac:(lia)).
    assert (a <> 0) by (intros ->; by rewrite Z.land_0_l in *).
    pose proof (proj1 (Z.log2_lt_pow2 a 8 ltac:(lia)) ltac:(lia)). lia. }
  rewrite Z.land_spec, !testbit_byte_add by done. destruct (n <? 8); by rewrite Z.land_spec.
Qed.

Lemma from_le_land xs ys :
  length xs = length ys -> Forall is_byte xs -> Forall is_byte ys ->
  from_le (zip_with Z.land xs ys) = Z.land (from_le xs) (from_le ys).
Proof.
  revert ys. induction xs as [|x xs IH]; intros [|y ys] Hl Hx Hy; try done. decompose_Forall_hyps.
  cbn in Hl. rewrite IH by (done || lia). symmetry. apply land_byte_add; done.
Qed.

Lemma swap32_list v : 0 <= v < 2 ^ 32 -> swap32 v = from_le (rev (to_le 4 v)) /\ v = from_le (to_le 4 v).
Proof.
  intros H. split; [done|]. rewrite from_le_to_le. symmetry. by apply Z.mod_small.
Qed.

(** Masking commutes with the byte swap. *)
Lemma swap32_land a b : u32 a -> u32 b -> swap32 (Z.land a b) = Z.land (swap32 a) (swap32 b).
Proof.
  intros Ha Hb. unfold swap32, to_be.
  assert (Hz : to_le 4 (Z.land a b) = zip_with Z.land (to_le 4 a) (to_le 4 b)).
  { rewrite <- (to_le_from_le (zip_with Z.land (to_le 4 a) (to_le 4 b))).
    - rewrite length_zip_with, !length_to_le, Nat.min_id.
      rewrite from_le_land; [|by rewrite !length_to_le|apply to_le_bytes..].
      f_equal. rewrite !from_le_to_le. change (256 ^ Z.of_nat 4) with (2 ^ 32).
      unfold in_width in *. by rewrite !Z.mod_small.
    - unfold to_le. unfold zip_with.
      assert (Hl : forall x y, is_byte (Z.land (x mod 256) (y mod 256))).
      { intros x y. unfold is_byte. change 256 with (2 ^ 8). rewrite <- !Z.land_ones by lia.
        rewrite Z.land_assoc, Z.land_ones by lia. apply Z.mod_pos_bound. lia. }
      repeat constructor; apply Hl. }
  rewrite Hz. rewrite <- from_le_land.
  - done.
  - by rewrite !length_rev, !length_to_le.
  - apply Forall_rev, to_le_bytes.
  - apply Forall_rev, to_le_bytes.
Qed.

Lemma swap32_inj a b : u32 a -> u32 b -> swap32 a = swap32 b -> a = b.
Proof.
  intros Ha Hb H. unfold swap32 in H.
  rewrite <- (rev_involutive (to_be 4 a)), <- (rev_involutive (to_be 4 b)) in H.
  fold (from_be (rev (to_be 4 a))) (from_be (rev (to_be 4 b))) in H. apply from_be_inj in H.
  - unfold to_be in H. rewrite !rev_involutive in H. apply (f_equal from_le) in H.
    rewrite !from_le_to_le in H. change (256 ^ Z.of_nat 4) with (2 ^ 32) in H.
    unfold in_width in *. by rewrite !Z.mod_small in H.
  - apply Forall_rev, to_be_bytes.
  - apply Forall_rev, to_be_bytes.
  - by rewrite !length_rev, !length_to_be.
Qed.

Lemma netmask_swap p : 0 <= p <= 32 -> netmask p = swap32 (mask_value p).
Proof.
  intros Hp. unfold netmask, mask_value. rewrite Z.min_l, Z.max_r by lia.
  destruct (p =? 0) eqn:E; [done|]. cbn [orb]. by rewrite (proj2 (Z.ltb_ge 32 p)) by lia.
Qed.

(** The table entry that a network of flannel becomes. *)
Definition wire_net (n : IP4Net) : IpNet :=
  let m := netmask (ip4n_plen n) in mkIpNet (Z.land (swap32 (ip4n_ip n)) m) m.

(** Matching a destination against it, on values in network byte order, is
    membership in the network. *)
Lemma net_matches_contains n a :
  IP4Net_valid n -> u32 a -> net_matches (swap32 a) (wire_net n) = IP4Net_contains n a.
Proof.
  intros [Hi Hp] Ha. unfold net_matches, wire_net, IP4Net_contains, IP4Net_mask. cbn.
  assert (Hm : u32 (mask_value (ip4n_plen n))) by (rewrite mask_value_of; apply mask_of_wf; lia).
  rewrite netmask_swap by lia. rewrite <- !swap32_land by done.
  assert (Hl : forall x, u32 x -> u32 (Z.land x (mask_value (ip4n_plen n)))).
  { intros x Hx. rewrite mask_value_of, land_mask_of by (done || lia). apply block_base_wf; done || lia. }
  apply eq_true_iff_eq. rewrite !Z.eqb_eq. split; [|congruence].
  apply swap32_inj; auto.
Qed.

(** ** Lemmas: commands on the wire *)

Definition Command_typed (c : Command) : Prop :=
  - 2 ^ 31 <= c_cmd c < 2 ^ 31 /\ u32 (c_dest_net c) /\ - 2 ^ 31 <= c_dest_net_len c < 2 ^ 31 /\
  u32 (c_next_hop_ip c) /\ - 2 ^ 15 <= c_next_hop_port c < 2 ^ 15.

Lemma signed_wrap w v : 0 < w -> - 2 ^ (w - 1) <= v < 2 ^ (w - 1) -> signed w (v mod 2 ^ w) = v.
Proof.
  intros Hw Hv. assert (H2 : 2 ^ w = 2 * 2 ^ (w - 1)).
  { rewrite <- Z.pow_succ_r by lia. f_equal. lia. }
  unfold signed. destruct (decide (0 <= v)).
  - rewrite Z.mod_small by lia. by rewrite (proj2 (Z.ltb_lt _ _)) by lia.
  - replace (v mod 2 ^ w) with (v + 2 ^ w).
    + rewrite (proj2 (Z.ltb_ge _ _)) by lia. lia.
    + rewrite <- (Z_mod_plus_full v 1), Z.mul_1_l. symmetry. apply Z.mod_small. lia.
Qed.

Lemma length_Command_to_bytes c : length (Command_to_bytes c) = COMMAND_SIZE.
Proof. done. Qed.

Lemma Command_from_to_bytes c : Command_typed c -> Command_from_bytes (Command_to_bytes c) = c.
Proof.
  intros (H1 & H2 & H3 & H4 & H5). destruct c as [cmd dn dl ip port]. cbn [c_cmd c_dest_net c_dest_net_len
    c_next_hop_ip c_next_hop_port] in *. unfold Command_from_bytes.
  change (slice 0 4 _) with (to_le 4 cmd). change (slice 4 8 _) with (to_le 4 dn).
  change (slice 8 12 _) with (to_le 4 dl). change (slice 12 16 _) with (to_le 4 ip).
  change (slice 16 18 _) with (to_le 2 port). rewrite !from_le_to_le.
  change (256 ^ Z.of_nat 4) with (2 ^ 32). change (256 ^ Z.of_nat 2) with (2 ^ 16).
  rewrite !signed_wrap by lia. unfold in_width in *. by rewrite !Z.mod_small.
Qed.

(** The command that routes network [n] to [hop]:[port]. *)
Definition set_route_command (n : IP4Net) (hop port : Z) : Command :=
  mkCommand CMD_SET_ROUTE (swap32 (ip4n_ip n)) (ip4n_plen n) hop (signed 16 port).

Lemma swap32_u32 v : u32 (swap32 v).
Proof.
  unfold swap32. pose proof (from_le_bound (to_be 4 v) (to_be_bytes 4 v)) as H.
  rewrite length_to_be in H. exact H.
Qed.

Lemma set_route_command_typed n hop port :
  IP4Net_valid n -> u32 hop -> u16 port -> Command_typed (set_route_command n hop port).
Proof.
  intros [Hi Hp] Hh Hport. unfold Command_typed, set_route_command, CMD_SET_ROUTE. cbn.
  split_and!; try lia; try done; try apply swap32_u32; unfold signed, in_width in *;
    case_match; bool_to_prop; lia.
Qed.

Lemma wrap_signed w v : 0 < w -> in_width w v -> wrap w (signed w v) = v.
Proof.
  intros Hw Hv. unfold signed. destruct (v <? 2 ^ (w - 1)); [by apply wrap_small|].
  unfold wrap. rewrite <- (Z_mod_plus_full _ 1), Z.mul_1_l. replace (v - 2 ^ w + 2 ^ w) with v by lia.
  by apply Z.mod_small.
Qed.

Lemma process_set_route n hop port es :
  IP4Net_valid n -> u32 hop -> u16 port ->
  process_cmd (Some (Command_to_bytes (set_route_command n hop port))) es false
  = (RouteTable_set_route es (wire_net n) hop port, false).
Proof.
  intros Hn Hh Hp. unfold process_cmd. rewrite length_Command_to_bytes.
  rewrite Command_from_to_bytes by (by apply set_route_command_typed).
  cbn -[netmask Z.land swap32 signed wrap RouteTable_set_route]. by rewrite wrap_signed by (done || lia).
Qed.

Lemma header_cksum_ok n k pkt :
  Forall is_byte pkt -> n = (4 * k)%nat -> (n <= length pkt)%nat -> (k <= 15)%nat -> cksum_ok (take n pkt).
Proof.
  intros Hb -> Hle Hk. split; [by apply Forall_take|]. exists k. rewrite length_take. split; lia.
Qed.

Lemma from_le_pos l i b : Forall is_byte l -> l !! i = Some b -> 0 < b -> 0 < from_le l.
Proof.
  revert i. induction l as [|x l IH]; intros i Hb Hi Hp; [done|]. decompose_Forall_hyps.
  pose proof (from_le_bound l ltac:(done)) as [? _]. unfold is_byte in *.
  destruct i as [|i]; cbn in Hi |- *; [simplify_eq; lia|]. specialize (IH i ltac:(done) Hi Hp). lia.
Qed.

Lemma decrement_ttl_keeps_checksum_aux pkt k t :
  Forall is_byte pkt -> (5 <= k <= 15)%nat -> (4 * k <= length pkt)%nat ->
  pkt !! 8%nat = Some t -> 2 <= t -> cksum (take (4 * k) pkt) = 0 ->
  exists pkt', decrement_ttl pkt = Some (true, pkt') /\ Forall is_byte pkt' /\
    same_but_ttl_check pkt pkt' /\ pkt' !! 8%nat = Some (t - 1) /\ cksum (take (4 * k) pkt') = 0.
Proof.
  intros Hb Hk Hl Ht Ht2 Hv.
  destruct (decrement_ttl_sum pkt (4 * k) t Hb ltac:(lia) Ht ltac:(lia))
    as (pkt' & j & Hd & Hb' & Hs & Ht' & He).
  assert (Htb : is_byte t) by (eapply Forall_lookup_1 in Hb; [exact Hb|exact Ht]). unfold is_byte in Htb.
  rewrite wrap_small in Ht', He by (split; lia).
  exists pkt'. split_and!; try done.
  pose proof (header_cksum_ok _ k pkt Hb eq_refl Hl ltac:(lia)) as Hok.
  apply cksum_spec in Hv as [_ Hv]; [|done].
  apply cksum_spec.
  - eapply header_cksum_ok; [done|done| |lia]. destruct Hs as [-> _]. done.
  - split.
    + apply (from_le_pos _ 8%nat (t - 1)); [by apply Forall_take| |lia]. rewrite lookup_take_lt by lia. done.
    + rewrite He. replace (t - 1 - t + 1) with 0 by lia. rewrite Z.mul_0_r, Z.add_0_r, Z.mul_comm.
      by rewrite Z_mod_plus_full.
Qed.

(** ** Lemmas: the ICMP reply *)

Lemma unreach_ip_fields L ck tun_addr src rest :
  length ck = 2%nat -> length src = 4%nat ->
  let ip := unreach_ip L ck tun_addr src in
  length ip = 20%nat /\ slice 2 4 (ip ++ rest) = to_be 2 (Z.of_nat L) /\ slice 0 20 (ip ++ rest) = ip /\
  slice 12 16 (ip ++ rest) = to_le 4 tun_addr /\ slice 16 20 (ip ++ rest) = src /\
  drop 20 (ip ++ rest) = rest.
Proof.
  intros Hck Hsrc. unfold unreach_ip.
  pose proof (length_to_be 2 (Z.of_nat L)) as Hl2. pose proof (length_to_le 4 tun_addr) as Hl4.
  destruct (to_be 2 (Z.of_nat L)) as [|x [|y [|]]]; try done.
  destruct (to_le 4 tun_addr) as [|t0 [|t1 [|t2 [|t3 [|]]]]]; try done.
  destruct ck as [|c0 [|c1 [|]]]; try done. by destruct src as [|s0 [|s1 [|s2 [|s3 [|]]]]].
Qed.

Lemma unreach_ip_valid L tun_addr src :
  Forall is_byte src -> length src = 4%nat ->
  cksum (unreach_ip L (to_le 2 (cksum (unreach_ip L [0; 0] tun_addr src))) tun_addr src) = 0.
Proof.
  intros Hb Hl. unfold unreach_ip.
  assert (HB : Forall is_byte (([69; 0] ++ to_be 2 (Z.of_nat L) ++ [0; 0; 0; 0; 8; PROTO_ICMP])
                               ++ [0; 0] ++ to_le 4 tun_addr ++ src)).
  { rewrite !Forall_app. split_and!; auto using to_be_bytes, to_le_bytes; repeat constructor; done. }
  apply (cksum_patch 5).
  - by rewrite !length_app, length_to_be.
  - split; [done|]. exists 5%nat. rewrite !length_app, length_to_be, length_to_le, Hl. split; [done|lia].
  - by apply (from_le_pos _ 0%nat 69).
Qed.

Lemma unreach_icmp_valid quote n :
  Forall is_byte quote -> (8 + length quote = 4 * n)%nat -> (n < 1000)%nat ->
  cksum (unreach_icmp (to_le 2 (cksum (unreach_icmp [0; 0] quote))) quote) = 0.
Proof.
  intros Hb Hl Hn. unfold unreach_icmp.
  assert (HB : Forall is_byte ([ICMP_DEST_UNREACH; ICMP_NET_UNREACH] ++ [0; 0] ++ [0; 0; 0; 0] ++ quote)).
  { rewrite !Forall_app. split_and!; auto; repeat constructor; done. }
  apply (cksum_patch 1); [done| |by apply (from_le_pos _ 0%nat 3)].
  split; [done|]. exists n. rewrite !length_app. cbn [length]. split; lia.
Qed.

(** ** Properties *)

(** Forwarding keeps a valid IPv4 header valid: for a TTL of at least two,
    [decrement_ttl] keeps the packet, lowers the TTL by one, changes nothing
    but the TTL and the check field, and its incremental update of the check
    field (with the end-around carry at the top) leaves a header of any length
    whose checksum still verifies. *)
Theorem decrement_ttl_keeps_checksum pkt k t :
  Forall is_byte pkt -> (5 <= k <= 15)%nat -> (4 * k <= length pkt)%nat ->
  pkt !! 8%nat = Some t -> 2 <= t -> cksum (take (4 * k) pkt) = 0 ->
  exists pkt', decrement_ttl pkt = Some (true, pkt') /\ Forall is_byte pkt' /\
    same_but_ttl_check pkt pkt' /\ pkt' !! 8%nat = Some (t - 1) /\ cksum (take (4 * k) pkt') = 0.
Proof. apply decrement_ttl_keeps_checksum_aux. Qed.

(** A header of test data: [45 00 00 3c 1c 46 40 00 40 06 b1 e6 ac 10 0a 63 ac
    10 0a 0c]. *)
Definition sample_header : bytes :=
  [69; 0; 0; 60; 28; 70; 64; 0; 64; 6; 177; 230; 172; 16; 10; 99; 172; 16; 10; 12].

Lemma sample_header_bytes : Forall is_byte sample_header.
Proof. apply (bool_decide_unpack (Forall is_byte sample_header)). by vm_compute. Qed.

Lemma decrement_ttl_keeps_checksum_witness :
  exists pkt', decrement_ttl sample_header = Some (true, pkt') /\ cksum (take (4 * 5) pkt') = 0.
Proof.
  destruct (decrement_ttl_keeps_checksum sample_header 5 64) as (pkt' & H1 & _ & _ & _ & H2);
    [exact sample_header_bytes|lia|cbn; lia|done|lia|by vm_compute|by exists pkt'].
Defined.

(** A packet that arrives with a TTL of zero is not discarded: the TTL wraps
    to 255, the packet is kept, and the header checksum, patched as for a
    decrement by one, no longer verifies. *)
Theorem decrement_ttl_zero_corrupts pkt k :
  Forall is_byte pkt -> (5 <= k <= 15)%nat -> (4 * k <= length pkt)%nat ->
  pkt !! 8%nat = Some 0 -> cksum (take (4 * k) pkt) = 0 ->
  exists pkt', decrement_ttl pkt = Some (true, pkt') /\ pkt' !! 8%nat = Some 255 /\
    cksum (take (4 * k) pkt') <> 0.
Proof.
  intros Hb Hk Hl Ht Hv.
  destruct (decrement_ttl_sum pkt (4 * k) 0 Hb ltac:(lia) Ht ltac:(lia))
    as (pkt' & j & Hd & Hb' & Hs & Ht' & He).
  exists pkt'. split_and!; try done.
  pose proof (header_cksum_ok _ k pkt Hb eq_refl Hl ltac:(lia)) as Hok.
  apply cksum_spec in Hv as [_ Hv]; [|done]. intros Hz. apply cksum_spec in Hz as [_ Hz].
  - rewrite He in Hz. change (wrap 8 (0 - 1)) with 255 in Hz.
    rewrite (Z.mul_comm 65535), Z_mod_plus_full, <- Z.add_mod_idemp_l, Hv in Hz by lia. done.
  - eapply header_cksum_ok; [done|done| |lia]. destruct Hs as [-> _]. done.
Qed.

Definition zero_ttl_header : bytes :=
  [69; 0; 0; 60; 28; 70; 64; 0; 0; 6; 241; 230; 172; 16; 10; 99; 172; 16; 10; 12].

Lemma decrement_ttl_zero_corrupts_witness :
  exists pkt', decrement_ttl zero_ttl_header = Some (true, pkt') /\ pkt' !! 8%nat = Some 255 /\
    cksum (take (4 * 5) pkt') <> 0.
Proof.
  apply (decrement_ttl_zero_corrupts zero_ttl_header 5);
    [apply (bool_decide_unpack (Forall is_byte zero_ttl_header)); by vm_compute|lia|cbn; lia|done|by vm_compute].
Defined.

(** The ICMP reply is a well-formed IPv4 packet: it is sent only about a
    first fragment that is not itself ICMP, its total length field and its two
    checksums verify, it goes from the tunnel address to the sender of the
    offending packet, and it quotes that packet's header and first eight bytes
    of payload. *)
Theorem net_unreachable_well_formed offender tun_addr pkt :
  Forall is_byte offender -> build_net_unreachable offender tun_addr = Some pkt ->
  let ihl := offender_ihl offender in
  nth_byte offender 9 <> PROTO_ICMP /\
  Z.land (from_be [nth_byte offender 6; nth_byte offender 7]) 8191 = 0 /\
  length pkt = (36 + ihl)%nat /\ slice 2 4 pkt = to_be 2 (Z.of_nat (length pkt)) /\
  cksum (slice 0 20 pkt) = 0 /\ cksum (drop 20 pkt) = 0 /\
  slice 12 16 pkt = to_le 4 tun_addr /\ slice 16 20 pkt = slice 12 16 offender /\
  drop 28 pkt = take (ihl + 8) offender.
Proof.
  intros Hb H. apply build_net_unreachable_layout in H as (H20 & H8 & H60 & H9 & Hf & Hpkt).
  cbv zeta in *. set (ihl := offender_ihl offender) in *.
  set (src := slice 12 16 offender) in *. set (quote := slice 0 (ihl + 8) offender) in *.
  assert (Hsrc : length src = 4%nat) by (unfold src, slice; rewrite length_take, length_drop; lia).
  assert (Hq : length quote = (ihl + 8)%nat) by (unfold quote, slice; rewrite length_take, length_drop; lia).
  assert (Hqe : quote = take (ihl + 8) offender) by (unfold quote, slice; by rewrite Nat.sub_0_r).
  assert (Bsrc : Forall is_byte src) by (apply Forall_take, Forall_drop, Hb).
  assert (Bq : Forall is_byte quote) by (apply Forall_take, Forall_drop, Hb).
  set (ck := to_le 2 (cksum (unreach_ip (36 + ihl) [0; 0] tun_addr src))) in *.
  set (ick := to_le 2 (cksum (unreach_icmp [0; 0] quote))) in *.
  destruct (unreach_ip_fields (36 + ihl) ck tun_addr src (unreach_icmp ick quote) eq_refl Hsrc)
    as (Hip & F1 & F2 & F3 & F4 & F5).
  assert (Hlen : length pkt = (36 + ihl)%nat).
  { rewrite Hpkt, length_app, Hip. unfold unreach_icmp. rewrite !length_app, Hq.
    unfold ick. rewrite length_to_le. cbn [length]. lia. }
  rewrite Hlen, Hpkt. split_and!; try done.
  - by rewrite F2; apply unreach_ip_valid.
  - rewrite F5. apply (unreach_icmp_valid quote (4 + Z.to_nat (Z.land (nth_byte offender 0) 15))%nat); [done| |].
    + rewrite Hq. unfold ihl, offender_ihl. lia.
    + unfold ihl, offender_ihl in H60. lia.
  - rewrite <- Hqe. etransitivity; [symmetry; apply (drop_drop _ 8 20)|]. by rewrite F5.
Qed.

Lemma net_unreachable_well_formed_witness :
  exists pkt, build_net_unreachable (sample_header ++ replicate 8 7) 16777226 = Some pkt /\
    cksum (slice 0 20 pkt) = 0.
Proof.
  eexists. split; [vm_compute; reflexivity|].
  refine (proj1 (proj2 (proj2 (proj2 (proj2 (net_unreachable_well_formed (sample_header ++ replicate 8 7) 16777226 _ _ _)))))).
  - apply (bool_decide_unpack (Forall is_byte (sample_header ++ replicate 8 7))). by vm_compute.
  - vm_compute. reflexivity.
Defined.

(** The route table implements a map from destination networks to next
    hops: [set_route] inserts or overwrites, [del_route] deletes and says
    whether there was a route, and [find_route], whose move-to-front only
    permutes the entries, leaves the map as it is, returns a route that covers
    the address, and fails only when none does. *)
Theorem route_table_refines entries dst ip port a :
  routes_inv entries ->
  (let es := RouteTable_set_route entries dst ip port in
   routes_inv es /\ routes_abs es = <[dst := (ip, port)]> (routes_abs entries)) /\
  (let '(es, found) := RouteTable_del_route entries dst in
   routes_inv es /\ routes_abs es = delete dst (routes_abs entries) /\
   found = bool_decide (is_Some (routes_abs entries !! dst))) /\
  (let '(es, hop) := RouteTable_find_route entries a in
   routes_inv es /\ routes_abs es = routes_abs entries /\
   match hop with
   | Some h => exists n, routes_abs entries !! n = Some h /\ net_matches a n = true
   | None => forall n, is_Some (routes_abs entries !! n) -> net_matches a n = false
   end).
Proof.
  intros Hi. split_and!.
  - destruct (set_route_spec entries dst ip port Hi) as (? & ? & _). done.
  - by apply del_route_spec.
  - by apply find_route_spec.
Qed.

Definition sample_routes : list RouteEntry :=
  [mkRouteEntry (wire_net (mkIP4Net (IP4_from_octets 10 1 0 0) 16)) 1 8285;
   mkRouteEntry (wire_net (mkIP4Net (IP4_from_octets 10 2 0 0) 16)) 2 8285].

Lemma route_table_refines_witness :
  routes_inv (RouteTable_set_route sample_routes (mkIpNet 0 0) 3 8285).
Proof.
  refine (proj1 (proj1 (route_table_refines sample_routes (mkIpNet 0 0) 3 8285 0 _))).
  apply (bool_decide_unpack (NoDup (map re_dst sample_routes))). by vm_compute.
Defined.

(** A packet for an address that the route of [n], and no other, covers goes to
    the next hop of [n], with its TTL one lower. *)
Lemma tun_forward es n hop port pkt a k t tun_ip :
  routes_inv es -> IP4Net_valid n -> u32 a -> IP4Net_contains n a = true ->
  routes_abs es !! wire_net n = Some (hop, port) ->
  (forall m, is_Some (routes_abs es !! m) -> net_matches (swap32 a) m = true -> m = wire_net n) ->
  Forall is_byte pkt -> (5 <= k <= 15)%nat -> (4 * k <= length pkt)%nat ->
  slice 16 20 pkt = to_be 4 a -> pkt !! 8%nat = Some t -> 2 <= t -> cksum (take (4 * k) pkt) = 0 ->
  exists es' pkt',
    tun_to_udp (Some pkt) tun_ip es = Some (true, es', [ToUdp pkt' hop port]) /\
    same_but_ttl_check pkt pkt' /\ pkt' !! 8%nat = Some (t - 1) /\ cksum (take (4 * k) pkt') = 0.
Proof.
  intros Hi Hn Ha Hin Hhop Huniq Hb Hk Hl Hd Ht Ht2 Hv.
  assert (Hshort : (length pkt <? IPHDR_LEN)%nat = false).
  { apply Nat.ltb_ge. change IPHDR_LEN with 20%nat. clear -Hl Hk. lia. }
  unfold tun_to_udp, recv_packet. rewrite Hshort, Hd. fold (swap32 a).
  pose proof (find_route_spec _ (swap32 a) Hi) as Hfind.
  destruct (RouteTable_find_route _ (swap32 a)) as [es' [[hip hport]|]]; destruct Hfind as (_ & _ & Hres).
  - destruct Hres as (m & Hm & Hmatch). assert (m = wire_net n) as -> by eauto.
    rewrite Hhop in Hm. injection Hm as <- <-.
    destruct (decrement_ttl_keeps_checksum_aux pkt k t Hb Hk Hl Ht Ht2 Hv) as (pkt' & -> & H1 & H2 & H3 & H4).
    eauto 10.
  - exfalso. specialize (Hres (wire_net n)). rewrite Hhop in Hres.
    rewrite net_matches_contains in Hres by done. rewrite Hin in Hres. discriminate Hres. eauto.
Qed.

(** From the control socket to the wire: after the bytes of a [SET_ROUTE]
    command for network [n] have been processed, a packet read from the tun
    device for an address of [n], which no other route covers, is sent to that
    next hop and nowhere else, with its TTL one lower and a header checksum
    that still verifies. *)
Theorem set_route_then_forward n hop port entries pkt a k t tun_ip :
  routes_inv entries -> IP4Net_valid n -> u32 hop -> u16 port -> u32 a ->
  IP4Net_contains n a = true ->
  (forall m, is_Some (routes_abs entries !! m) -> net_matches (swap32 a) m = true -> m = wire_net n) ->
  Forall is_byte pkt -> (5 <= k <= 15)%nat -> (4 * k <= length pkt)%nat ->
  slice 16 20 pkt = to_be 4 a -> pkt !! 8%nat = Some t -> 2 <= t -> cksum (take (4 * k) pkt) = 0 ->
  exists es pkt',
    tun_to_udp (Some pkt) tun_ip
      (fst (process_cmd (Some (Command_to_bytes (set_route_command n hop port))) entries false))
    = Some (true, es, [ToUdp pkt' hop port]) /\
    same_but_ttl_check pkt pkt' /\ pkt' !! 8%nat = Some (t - 1) /\ cksum (take (4 * k) pkt') = 0.
Proof.
  intros Hi Hn Hhop Hport Ha Hin Huniq Hb Hk Hl Hd Ht Ht2 Hv.
  rewrite process_set_route by done. cbn [fst].
  destruct (set_route_spec entries (wire_net n) hop port Hi) as (Hi' & Habs & _).
  apply (tun_forward _ n hop port pkt a k t); try done; rewrite Habs; [by rewrite lookup_insert_eq|].
  intros m Hm Hmatch. destruct (decide (m = wire_net n)) as [|Hne]; [done|].
  rewrite lookup_insert_ne in Hm by done. eauto.
Qed.

Lemma set_route_then_forward_witness :
  exists es pkt',
    tun_to_udp (Some sample_header) 0
      (fst (process_cmd (Some (Command_to_bytes
              (set_route_command (mkIP4Net (IP4_from_octets 172 16 0 0) 16) 16777226 8285))) [] false))
    = Some (true, es, [ToUdp pkt' 16777226 8285]) /\
    same_but_ttl_check sample_header pkt' /\ pkt' !! 8%nat = Some 63 /\ cksum (take (4 * 5) pkt') = 0.
Proof.
  refine (set_route_then_forward (mkIP4Net (IP4_from_octets 172 16 0 0) 16) 16777226 8285 []
           sample_header (IP4_from_octets 172 16 10 12) 5 64 0 _ _ _ _ _ _ _ _ _ _ _ _ _ _).
  - apply NoDup_nil_2.
  - apply (bool_decide_unpack (IP4Net_valid _)). vm_compute. exact I.
  - apply (bool_decide_unpack (in_width _ _)). vm_compute. exact I.
  - apply (bool_decide_unpack (in_width _ _)). vm_compute. exact I.
  - apply (bool_decide_unpack (in_width _ _)). vm_compute. exact I.
  - vm_compute. reflexivity.
  - intros m [h Hm] _. discriminate Hm.
  - exact sample_header_bytes.
  - lia.
  - cbn. lia.
  - vm_compute. reflexivity.
  - reflexivity.
  - lia.
  - vm_compute. reflexivity.
Defined.

(** With overlapping routes the next hop is not a function of the routes
    configured: the table takes the first entry that covers the address, and
    entries move when other packets are routed, so that the same destination
    is sent to two different next hops before and after an unrelated lookup. *)
Theorem find_route_order_dependent :
  let wide := mkRouteEntry (wire_net (mkIP4Net (IP4_from_octets 10 0 0 0) 8)) 1 8285 in
  let narrow := mkRouteEntry (wire_net (mkIP4Net (IP4_from_octets 10 2 0 0) 16)) 2 8285 in
  let inside := swap32 (IP4_from_octets 10 2 0 1) in
  let outside := swap32 (IP4_from_octets 10 3 0 1) in
  snd (RouteTable_find_route [narrow; wide] inside) = Some (2, 8285) /\
  snd (RouteTable_find_route (fst (RouteTable_find_route [narrow; wide] outside)) inside) = Some (1, 8285).
Proof. by vm_compute. Qed.
