(* ===== verification/Vici.v ===== *)
(** * [backend/ipsec/vici.rs]: the VICI protocol of strongSwan

    Messages, their encoding, packets and requests.  A Rust [String] is here
    its list of UTF-8 bytes; an offset into a buffer is the list of the bytes
    that remain; a stream is the list of the bytes still to be read. *)

From S2P Require Import Prelude RustStr Utf8.
#[local] Open Scope string_scope.
#[local] Open Scope list_scope.
#[local] Open Scope Z_scope.

Definition CMD_REQUEST : Z := 0.
Definition CMD_RESPONSE : Z := 1.
Definition CMD_UNKNOWN : Z := 2.
Definition SECTION_START : Z := 1.
Definition SECTION_END : Z := 2.
Definition KEY_VALUE : Z := 3.
Definition LIST_START : Z := 4.
Definition LIST_ITEM : Z := 5.
Definition LIST_END : Z := 6.
Definition MAX_PACKET_LEN : Z := 65536.

(** [ViciMessage] is its list of segments. *)
Inductive ViciSegment :=
| Key (k : bytes) (v : bytes)
| LList (name : bytes) (items : list bytes)
| Section' (name : bytes) (inner : list ViciSegment).

Abbreviation ViciMessage := (list ViciSegment).

Definition ViciSegment_name (s : ViciSegment) : bytes :=
  match s with Key k _ | LList k _ | Section' k _ => k end.

(** ** Builders *)

Definition ViciMessage_new : ViciMessage := [].
Definition ViciMessage_key (key value : bytes) (m : ViciMessage) : ViciMessage := m ++ [Key key value].
Definition ViciMessage_list (name : bytes) (items : list bytes) (m : ViciMessage) : ViciMessage :=
  m ++ [LList name items].
Definition ViciMessage_section (name : bytes) (inner m : ViciMessage) : ViciMessage :=
  m ++ [Section' name inner].

(** ** Encoding *)

Definition push_name (name : bytes) : bytes := wrap 8 (Z.of_nat (length name)) :: name.

Definition push_u16_bytes (v : bytes) : bytes := to_be 2 (wrap 16 (Z.of_nat (length v))) ++ v.

Fixpoint encode_segment (seg : ViciSegment) : bytes :=
  match seg with
  | Key k v => KEY_VALUE :: push_name k ++ push_u16_bytes v
  | LList name items =>
      LIST_START :: push_name name
      ++ concat (map (fun item => LIST_ITEM :: push_u16_bytes item) items) ++ [LIST_END]
  | Section' name inner =>
      SECTION_START :: push_name name ++ concat (map encode_segment inner) ++ [SECTION_END]
  end.

Definition encode_segments (segments : list ViciSegment) : bytes := concat (map encode_segment segments).

Definition ViciMessage_encode (m : ViciMessage) : bytes := encode_segments m.

(** ** Parsing *)

(** [InvalidData] with its text, the end of the stream, [InvalidInput], or
    another error; [OutOfFuel] is the model's own and never returned. *)
Inductive ViciError :=
| InvalidData (msg : string)
| UnexpectedEof
| InvalidInput (msg : string)
| OtherError (msg : bytes)
| OutOfFuel.

Definition bad {A} (msg : string) : result A ViciError := Err (InvalidData msg).

Definition read_name (bs : bytes) : result (bytes * bytes) ViciError :=
  match bs with
  | [] => bad "truncated VICI name"
  | len :: bs =>
      match get_range 0 (Z.to_nat len) bs with
      | None => bad "truncated VICI name"
      | Some raw => Ok (from_utf8_lossy raw, drop (Z.to_nat len) bs)
      end
  end.

Definition read_u16_bytes (bs : bytes) : result (bytes * bytes) ViciError :=
  match get_range 0 2 bs with
  | None => bad "truncated VICI length"
  | Some b =>
      let len := Z.to_nat (from_be b) in
      match get_range 2 len bs with
      | None => bad "truncated VICI value"
      | Some value => Ok (value, drop (2 + len) bs)
      end
  end.

(** The loop over the items of a list. *)
Fixpoint parse_items (fuel : nat) (bs : bytes) : result (list bytes * bytes) ViciError :=
  match fuel with
  | O => Err OutOfFuel
  | S fuel =>
      match bs with
      | [] => bad "unterminated VICI list"
      | t :: bs =>
          if t =? LIST_ITEM then
            let? (item, bs) := read_u16_bytes bs in
            let? (items, bs) := parse_items fuel bs in
            Ok (item :: items, bs)
          else if t =? LIST_END then Ok ([], bs)
          else bad ("segment " +:+ fmt_dec t +:+ " inside VICI list")
      end
  end.

Fixpoint parse_segments (fuel : nat) (bs : bytes) : result (list ViciSegment * bytes) ViciError :=
  match fuel with
  | O => Err OutOfFuel
  | S fuel =>
      match bs with
      | [] => Ok ([], [])
      | t :: bs =>
          if t =? SECTION_START then
            let? (name, bs) := read_name bs in
            let? (inner, bs) := parse_segments fuel bs in
            let? (out, bs) := parse_segments fuel bs in
            Ok (Section' name inner :: out, bs)
          else if t =? SECTION_END then Ok ([], bs)
          else if t =? KEY_VALUE then
            let? (key, bs) := read_name bs in
            let? (value, bs) := read_u16_bytes bs in
            let? (out, bs) := parse_segments fuel bs in
            Ok (Key key value :: out, bs)
          else if t =? LIST_START then
            let? (name, bs) := read_name bs in
            let? (items, bs) := parse_items fuel bs in
            let? (out, bs) := parse_segments fuel bs in
            Ok (LList name items :: out, bs)
          else bad ("unknown VICI segment type " +:+ fmt_dec t)
      end
  end.

(** Every iteration consumes a byte, so that one unit of fuel per byte and one
    for the end are enough. *)
Definition ViciMessage_parse (bs : bytes) : result ViciMessage ViciError :=
  let? (segments, rest) := parse_segments (S (length bs)) bs in
  match rest with
  | [] => Ok segments
  | _ :: _ => bad "trailing bytes in VICI message"
  end.

(** ** Access *)

Definition ViciMessage_get (m : ViciMessage) (name : bytes) : option ViciSegment :=
  List.find (fun s => bool_decide (ViciSegment_name s = name)) m.

Definition ViciMessage_get_str (m : ViciMessage) (name : bytes) : option bytes :=
  match ViciMessage_get m name with
  | Some (Key _ v) => Some (from_utf8_lossy v)
  | _ => None
  end.

Definition ViciMessage_get_list (m : ViciMessage) (name : bytes) : option (list bytes) :=
  match ViciMessage_get m name with
  | Some (LList _ items) => Some items
  | _ => None
  end.

Definition ViciMessage_get_section (m : ViciMessage) (name : bytes) : option ViciMessage :=
  match ViciMessage_get m name with
  | Some (Section' _ inner) => Some inner
  | _ => None
  end.

(** ** Packets and requests *)

(** What [write_packet] writes. *)
Definition write_packet (ptype : Z) (payload : bytes) : bytes :=
  to_be 4 (wrap 32 (Z.of_nat (length payload) + 1)) ++ [ptype] ++ payload.

(** [read_exact] *)
Definition read_exact (n : nat) (stream : bytes) : result (bytes * bytes) ViciError :=
  if (length stream <? n)%nat then Err UnexpectedEof else Ok (take n stream, drop n stream).

Definition read_packet (stream : bytes) : result (Z * bytes * bytes) ViciError :=
  let? (len_buf, stream) := read_exact 4 stream in
  let len := from_be len_buf in
  if len =? 0 then bad "empty VICI packet"
  else if MAX_PACKET_LEN <? len then
    bad ("VICI packet length " +:+ fmt_dec len +:+ " exceeds the 65536-byte limit")
  else
    let? (body, stream) := read_exact (Z.to_nat len) stream in
    match body with
    | [] => bad "empty VICI packet"
    | ptype :: payload => Ok (ptype, payload, stream)
    end.

Definition cmd_request_payload (name msg : bytes) : bytes :=
  wrap 8 (Z.of_nat (length name)) :: name ++ msg.

(** The loop of [request]: packets until a response.  A packet is at least
    five bytes, so the fuel is the length of the stream. *)
Fixpoint await_response (fuel : nat) (name : string) (stream : bytes)
  : result (ViciMessage * bytes) ViciError :=
  match fuel with
  | O => Err OutOfFuel
  | S fuel =>
      let? (ptype, body, stream) := read_packet stream in
      if ptype =? CMD_RESPONSE then let? m := ViciMessage_parse body in Ok (m, stream)
      else if ptype =? CMD_UNKNOWN then Err (InvalidInput ("unknown VICI command " +:+ name))
      else await_response fuel name stream
  end.

(** [request]: the bytes written, and the result with what is left to read. *)
Definition request (name : string) (msg : bytes) (stream : bytes)
  : bytes * result (ViciMessage * bytes) ViciError :=
  (write_packet CMD_REQUEST (cmd_request_payload (as_bytes name) msg),
   await_response (S (length stream)) name stream).

Definition check_success (resp : ViciMessage) : result unit ViciError :=
  match ViciMessage_get_str resp (as_bytes "success") with
  | Some v =>
      if bool_decide (v = as_bytes "yes") then Ok tt
      else Err (OtherError (default (as_bytes "unknown error") (ViciMessage_get_str resp (as_bytes "err"))))
  | None => Err (OtherError (default (as_bytes "unknown error") (ViciMessage_get_str resp (as_bytes "err"))))
  end.

Record ChildConf := mkChildConf {
  ch_local_ts : list bytes;
  ch_remote_ts : list bytes;
  ch_esp_proposals : list bytes;
  ch_start_action : bytes;
  ch_close_action : bytes;
  ch_dpd_action : bytes;
  ch_mode : bytes;
  ch_reqid : bytes;
  ch_rekey_time : bytes;
  ch_install_policy : bytes;
}.

Record IkeConf := mkIkeConf {
  ike_local_addrs : list bytes;
  ike_remote_addrs : list bytes;
  ike_proposals : list bytes;
  ike_version : bytes;
  ike_keying_tries : bytes;
  ike_encap : bytes;
  ike_child_name : bytes;
  ike_child : ChildConf;
}.

Definition load_shared_msg (typ data : bytes) (owners : list bytes) : ViciMessage :=
  ViciMessage_list (as_bytes "owners") owners
    (ViciMessage_key (as_bytes "data") data (ViciMessage_key (as_bytes "type") typ ViciMessage_new)).

Definition child_msg (c : ChildConf) : ViciMessage :=
  ViciMessage_key (as_bytes "install_policy") (ch_install_policy c)
  (ViciMessage_key (as_bytes "rekey_time") (ch_rekey_time c)
  (ViciMessage_key (as_bytes "reqid") (ch_reqid c)
  (ViciMessage_key (as_bytes "mode") (ch_mode c)
  (ViciMessage_key (as_bytes "dpd_action") (ch_dpd_action c)
  (ViciMessage_key (as_bytes "close_action") (ch_close_action c)
  (ViciMessage_key (as_bytes "start_action") (ch_start_action c)
  (ViciMessage_list (as_bytes "esp_proposals") (ch_esp_proposals c)
  (ViciMessage_list (as_bytes "remote_ts") (ch_remote_ts c)
  (ViciMessage_list (as_bytes "local_ts") (ch_local_ts c) ViciMessage_new))))))))).

Definition psk_msg : ViciMessage := ViciMessage_key (as_bytes "auth") (as_bytes "psk") ViciMessage_new.

Definition load_conn_msg (name : bytes) (ike : IkeConf) : ViciMessage :=
  ViciMessage_section name
    (ViciMessage_section (as_bytes "children")
       (ViciMessage_section (ike_child_name ike) (child_msg (ike_child ike)) ViciMessage_new)
    (ViciMessage_section (as_bytes "remote-1") psk_msg
    (ViciMessage_section (as_bytes "local-1") psk_msg
    (ViciMessage_key (as_bytes "encap") (ike_encap ike)
    (ViciMessage_key (as_bytes "keying_tries") (ike_keying_tries ike)
    (ViciMessage_key (as_bytes "version") (ike_version ike)
    (ViciMessage_list (as_bytes "proposals") (ike_proposals ike)
    (ViciMessage_list (as_bytes "remote_addrs") (ike_remote_addrs ike)
    (ViciMessage_list (as_bytes "local_addrs") (ike_local_addrs ike) ViciMessage_new)))))))))
    ViciMessage_new.

Definition unload_conn_msg (name : bytes) : ViciMessage :=
  ViciMessage_key (as_bytes "name") name ViciMessage_new.

(** A command: request, then [check_success]. *)
Definition run_command (cmd : string) (msg : ViciMessage) (stream : bytes)
  : bytes * result unit ViciError :=
  let '(written, r) := request cmd (ViciMessage_encode msg) stream in
  (written, let? (resp, _) := r in check_success resp).

Definition load_shared (typ data : bytes) (owners : list bytes) (stream : bytes) :=
  run_command "load-shared" (load_shared_msg typ data owners) stream.
Definition load_conn (name : bytes) (ike : IkeConf) (stream : bytes) :=
  run_command "load-conn" (load_conn_msg name ike) stream.
Definition unload_conn (name : bytes) (stream : bytes) :=
  run_command "unload-conn" (unload_conn_msg name) stream.

(** ** Well-formed messages: what the length fields can hold *)

Definition name_ok (n : bytes) : bool := (Z.of_nat (length n) <? 256) && bool_decide (is_utf8 n).
Definition value_ok (v : bytes) : bool := Z.of_nat (length v) <? 65536.

Fixpoint segment_ok (s : ViciSegment) : bool :=
  match s with
  | Key k v => name_ok k && value_ok v
  | LList name items => name_ok name && forallb value_ok items
  | Section' name inner => name_ok name && forallb segment_ok inner
  end.

Definition message_ok (m : ViciMessage) : bool := forallb segment_ok m.

(** Induction over nested sections. *)
Lemma segment_ind' (P : ViciSegment -> Prop) :
  (forall k v, P (Key k v)) -> (forall n items, P (LList n items)) ->
  (forall n inner, Forall P inner -> P (Section' n inner)) -> forall s, P s.
Proof.
  intros HK HL HS. fix IH 1. intros [k v|n items|n inner]; [apply HK|apply HL|].
  apply HS. induction inner as [|s inner IHi]; constructor; [apply IH|exact IHi].
Qed.

(** ** Lemmas: fuel *)

Lemma get_range_Some {A} a n (l r : list A) :
  get_range a n l = Some r -> r = take n (drop a l) /\ (a + n <= length l)%nat.
Proof. unfold get_range. case_decide; naive_solver. Qed.

Lemma read_name_shorter bs n r : read_name bs = Ok (n, r) -> (length r < length bs)%nat.
Proof.
  unfold read_name. destruct bs as [|len bs]; [done|].
  destruct (get_range 0 _ bs) eqn:E; [|done]. intros [= <- <-].
  rewrite length_drop. cbn. lia.
Qed.

Lemma read_u16_bytes_shorter bs n r : read_u16_bytes bs = Ok (n, r) -> (length r < length bs)%nat.
Proof.
  unfold read_u16_bytes. destruct (get_range 0 2 bs) eqn:E; [|done].
  destruct (get_range 2 _ bs) eqn:E2; [|done]. intros [= <- <-].
  apply get_range_Some in E as [_ H]. rewrite length_drop. lia.
Qed.

(** Enough fuel: the result does not depend on it and is not [OutOfFuel]. *)
Definition settled {A} (parse : nat -> bytes -> result (A * bytes) ViciError) (bs : bytes) : Prop :=
  (forall f f', (length bs < f)%nat -> (length bs < f')%nat -> parse f bs = parse f' bs) /\
  (forall f, (length bs < f)%nat -> parse f bs <> Err OutOfFuel) /\
  (forall f x r, parse f bs = Ok (x, r) -> (length r <= length bs)%nat).

Lemma read_name_fuel bs : read_name bs <> Err OutOfFuel.
Proof. unfold read_name, bad. repeat case_match; congruence. Qed.

Lemma read_u16_bytes_fuel bs : read_u16_bytes bs <> Err OutOfFuel.
Proof. unfold read_u16_bytes, bad. repeat case_match; congruence. Qed.

(** Composition: a settled parser followed by one that is settled on whatever
    the first leaves. *)
Lemma settled_bind {A B} (p : nat -> bytes -> result (A * bytes) ViciError)
    (q : nat -> A -> bytes -> result (B * bytes) ViciError) bs :
  settled p bs ->
  (forall x r, (length r <= length bs)%nat -> settled (fun f => q f x) r) ->
  settled (fun f b => let? (x, r) := p f b in q f x r) bs.
Proof.
  intros (P1 & P2 & P3) HQ. split_and!; cbn.
  - intros f f' Hf Hf'. rewrite (P1 f f' Hf Hf'). destruct (p f' bs) as [[x r]|] eqn:E; [|done]. cbn.
    pose proof (P3 _ _ _ E). destruct (HQ x r ltac:(done)) as [Q1 _]. apply Q1; lia.
  - intros f Hf. specialize (P2 f Hf). destruct (p f bs) as [[x r]|] eqn:E; cbn; [|congruence].
    pose proof (P3 _ _ _ E). destruct (HQ x r ltac:(done)) as (_ & Q2 & _). apply Q2. lia.
  - intros f y r Hy. destruct (p f bs) as [[x r']|] eqn:E; cbn in Hy; [|done].
    pose proof (P3 _ _ _ E). destruct (HQ x r' ltac:(done)) as (_ & _ & Q3). apply Q3 in Hy. lia.
Qed.

Lemma settled_const {A} (p : bytes -> result (A * bytes) ViciError) bs :
  p bs <> Err OutOfFuel -> (forall x r, p bs = Ok (x, r) -> (length r <= length bs)%nat) ->
  settled (fun _ => p) bs.
Proof. intros H1 H2. split_and!; eauto. Qed.

Lemma settled_ok {A} (x : A) bs : settled (fun _ b => Ok (x, b)) bs.
Proof. apply settled_const; [done|]. by intros ? ? [= <- <-]. Qed.

(** One more unit of fuel pays for one consumed byte. *)
Lemma settled_step {A} (p q : nat -> bytes -> result (A * bytes) ViciError) t bs :
  settled q bs -> (forall f, p (S f) (t :: bs) = q f bs) -> (forall x r, p O (t :: bs) <> Ok (x, r)) ->
  settled p (t :: bs).
Proof.
  intros (Q1 & Q2 & Q3) Hp H0. split_and!.
  - intros [|f] [|f']; cbn; try lia. intros. rewrite !Hp. apply Q1; lia.
  - intros [|f]; cbn; try lia. intros. rewrite Hp. apply Q2. lia.
  - intros [|f] x r; [intros E; by apply H0 in E|]. rewrite Hp. intros E%Q3. cbn. lia.
Qed.

Lemma settled_bind_const {A B} (p : bytes -> result (A * bytes) ViciError)
    (q : nat -> A -> bytes -> result (B * bytes) ViciError) bs :
  p bs <> Err OutOfFuel -> (forall x r, p bs = Ok (x, r) -> (length r <= length bs)%nat) ->
  (forall x r, (length r <= length bs)%nat -> settled (fun f => q f x) r) ->
  settled (fun f b => let? (x, r) := p b in q f x r) bs.
Proof. intros H1 H2 HQ. apply (settled_bind (fun _ => p)); [by apply settled_const|done]. Qed.

Lemma read_name_le bs n r : read_name bs = Ok (n, r) -> (length r <= length bs)%nat.
Proof. intros H%read_name_shorter. lia. Qed.
Lemma read_u16_bytes_le bs n r : read_u16_bytes bs = Ok (n, r) -> (length r <= length bs)%nat.
Proof. intros H%read_u16_bytes_shorter. lia. Qed.

Lemma settled_nil {A} (p : nat -> bytes -> result (A * bytes) ViciError) :
  (forall f f', p (S f) [] = p (S f') []) -> (forall f, p (S f) [] <> Err OutOfFuel) ->
  (forall f x r, p f [] = Ok (x, r) -> r = []) -> settled p [].
Proof.
  intros H1 H2 H3. split_and!.
  - intros [|f] [|f']; cbn; lia || auto.
  - intros [|f]; cbn; lia || auto.
  - intros f x r ->%H3. done.
Qed.

Lemma parse_items_settled bs : settled parse_items bs.
Proof.
  assert (forall n bs, (length bs <= n)%nat -> settled parse_items bs) as H; [|by eapply H].
  clear bs. induction n as [|n IH]; intros [|t bs] Hl; cbn in Hl; try lia;
    try (by apply settled_nil; [..|intros [|f]]).
  destruct (t =? LIST_ITEM) eqn:E1.
  { eapply settled_step with (q := fun f b => let? (item, b) := read_u16_bytes b in
      let? (items, b) := parse_items f b in Ok (item :: items, b)); [|intros f; cbn; by rewrite E1|done].
    apply settled_bind_const; [apply read_u16_bytes_fuel|apply read_u16_bytes_le|]. intros item r Hr.
    apply settled_bind; [apply IH; lia|]. intros. apply settled_ok. }
  destruct (t =? LIST_END) eqn:E2.
  { eapply settled_step with (q := fun _ b => Ok ([], b)); [apply settled_ok|intros f; cbn; by rewrite E1, E2|done]. }
  eapply settled_step with (q := fun _ _ => bad ("segment " +:+ fmt_dec t +:+ " inside VICI list"));
    [by apply settled_const|intros f; cbn; by rewrite E1, E2|done].
Qed.

Lemma parse_segments_settled bs : settled parse_segments bs.
Proof.
  assert (forall n bs, (length bs <= n)%nat -> settled parse_segments bs) as H; [|by eapply H].
  clear bs. induction n as [|n IH]; intros [|t bs] Hl; cbn in Hl; try lia.
  1,2: (apply settled_nil; [done|done|]; intros [|f] x r; cbn; [done|]; by intros [= <- <-]).
  assert (HI : forall r, (length r <= length bs)%nat -> settled parse_segments r) by (intros; apply IH; lia).
  assert (Hout : forall (x : ViciSegment) r, (length r <= length bs)%nat ->
    settled (fun f b => let? (out, r) := parse_segments f b in Ok (x :: out, r)) r).
  { intros x r Hr. apply settled_bind; [by apply HI|]. intros. apply settled_ok. }
  destruct (t =? SECTION_START) eqn:E1.
  { eapply settled_step with (q := fun f b => let? (name, b) := read_name b in
      let? (inner, b) := parse_segments f b in let? (out, b) := parse_segments f b in
      Ok (Section' name inner :: out, b)); [|intros f; cbn; by rewrite E1|done].
    apply settled_bind_const; [apply read_name_fuel|apply read_name_le|]. intros name r Hr.
    apply settled_bind; [by apply HI|]. intros inner r' Hr'. apply Hout. lia. }
  destruct (t =? SECTION_END) eqn:E2.
  { eapply settled_step with (q := fun _ b => Ok ([], b)); [apply settled_ok|intros f; cbn; by rewrite E1, E2|done]. }
  destruct (t =? KEY_VALUE) eqn:E3.
  { eapply settled_step with (q := fun f b => let? (key, b) := read_name b in
      let? (value, b) := read_u16_bytes b in let? (out, b) := parse_segments f b in
      Ok (Key key value :: out, b)); [|intros f; cbn; by rewrite E1, E2, E3|done].
    apply settled_bind_const; [apply read_name_fuel|apply read_name_le|]. intros key r Hr.
    apply settled_bind_const; [apply read_u16_bytes_fuel|apply read_u16_bytes_le|].
    intros v r' Hr'. apply Hout. lia. }
  destruct (t =? LIST_START) eqn:E4.
  { eapply settled_step with (q := fun f b => let? (name, b) := read_name b in
      let? (items, b) := parse_items f b in let? (out, b) := parse_segments f b in
      Ok (LList name items :: out, b)); [|intros f; cbn; by rewrite E1, E2, E3, E4|done].
    apply settled_bind_const; [apply read_name_fuel|apply read_name_le|]. intros name r Hr.
    apply settled_bind; [apply parse_items_settled|]. intros items r' Hr'. apply Hout. lia. }
  eapply settled_step with (q := fun _ _ => bad ("unknown VICI segment type " +:+ fmt_dec t));
    [by apply settled_const|intros f; cbn; by rewrite E1, E2, E3, E4|done].
Qed.

(** ** Lemmas: encoding and parsing *)

Definition parse_all (bs : bytes) : result (list ViciSegment * bytes) ViciError :=
  parse_segments (S (length bs)) bs.

Lemma parse_segments_all f bs : (length bs < f)%nat -> parse_segments f bs = parse_all bs.
Proof. intros. apply parse_segments_settled; [done|lia]. Qed.

Lemma parse_segments_S f t bs :
  parse_segments (S f) (t :: bs) =
  if t =? SECTION_START then
    let? (name, bs) := read_name bs in
    let? (inner, bs) := parse_segments f bs in
    let? (out, bs) := parse_segments f bs in
    Ok (Section' name inner :: out, bs)
  else if t =? SECTION_END then Ok ([], bs)
  else if t =? KEY_VALUE then
    let? (key, bs) := read_name bs in
    let? (value, bs) := read_u16_bytes bs in
    let? (out, bs) := parse_segments f bs in
    Ok (Key key value :: out, bs)
  else if t =? LIST_START then
    let? (name, bs) := read_name bs in
    let? (items, bs) := parse_items f bs in
    let? (out, bs) := parse_segments f bs in
    Ok (LList name items :: out, bs)
  else bad ("unknown VICI segment type " +:+ fmt_dec t).
Proof. reflexivity. Qed.

(** One unrolling of the loop. *)
Lemma parse_all_cons t bs :
  parse_all (t :: bs) =
  if t =? SECTION_START then
    let? (name, bs) := read_name bs in
    let? (inner, bs) := parse_all bs in
    let? (out, bs) := parse_all bs in
    Ok (Section' name inner :: out, bs)
  else if t =? SECTION_END then Ok ([], bs)
  else if t =? KEY_VALUE then
    let? (key, bs) := read_name bs in
    let? (value, bs) := read_u16_bytes bs in
    let? (out, bs) := parse_all bs in
    Ok (Key key value :: out, bs)
  else if t =? LIST_START then
    let? (name, bs) := read_name bs in
    let? (items, bs) := parse_items (S (length bs)) bs in
    let? (out, bs) := parse_all bs in
    Ok (LList name items :: out, bs)
  else bad ("unknown VICI segment type " +:+ fmt_dec t).
Proof.
  unfold parse_all at 1. cbn [length]. rewrite parse_segments_S.
  destruct (t =? SECTION_START).
  { destruct (read_name bs) as [[n r]|] eqn:E; [|done]. cbn [rbind]. apply read_name_shorter in E.
    rewrite parse_segments_all by lia. destruct (parse_all r) as [[inner r']|] eqn:E2; [|done]. cbn [rbind].
    apply parse_segments_settled in E2. by rewrite parse_segments_all by lia. }
  destruct (t =? SECTION_END); [done|]. destruct (t =? KEY_VALUE).
  { destruct (read_name bs) as [[n r]|] eqn:E; [|done]. cbn [rbind]. apply read_name_shorter in E.
    destruct (read_u16_bytes r) as [[v r']|] eqn:E2; [|done]. cbn [rbind].
    apply read_u16_bytes_shorter in E2. by rewrite parse_segments_all by lia. }
  destruct (t =? LIST_START); [|done].
  destruct (read_name bs) as [[n r]|] eqn:E; [|done]. cbn [rbind]. apply read_name_shorter in E.
  rewrite (proj1 (parse_items_settled r) _ (S (length r))) by lia.
  destruct (parse_items (S (length r)) r) as [[v r']|] eqn:E2; [|done]. cbn [rbind].
  apply parse_items_settled in E2. by rewrite parse_segments_all by lia.
Qed.

Lemma read_name_push n rest : name_ok n = true -> read_name (push_name n ++ rest) = Ok (n, rest).
Proof.
  intros [Hl Hu]%andb_true_iff. apply Z.ltb_lt in Hl. apply bool_decide_eq_true in Hu.
  unfold read_name, push_name. cbn [app]. rewrite wrap_small by (split; lia). rewrite Nat2Z.id.
  unfold get_range. rewrite decide_True by (rewrite length_app; lia). rewrite drop_0.
  by rewrite take_app_length, drop_app_length, Hu.
Qed.

Lemma read_u16_bytes_push v rest :
  value_ok v = true -> read_u16_bytes (push_u16_bytes v ++ rest) = Ok (v, rest).
Proof.
  intros Hl. apply Z.ltb_lt in Hl. unfold read_u16_bytes, push_u16_bytes.
  rewrite wrap_small by (split; lia). set (len := to_be 2 _).
  assert (Hlen : length len = 2%nat) by apply length_to_be.
  assert (Hv : from_be len = Z.of_nat (length v)).
  { unfold len. rewrite from_be_to_be. apply Z.mod_small. change (256 ^ Z.of_nat 2) with 65536. lia. }
  unfold get_range. rewrite !length_app, Hlen. rewrite decide_True by lia. rewrite drop_0.
  rewrite <- app_assoc, take_app_le by lia. rewrite take_ge by lia. rewrite Hv, Nat2Z.id.
  rewrite decide_True by lia. rewrite <- Hlen, drop_app_length.
  rewrite take_app_length. rewrite drop_app, drop_ge by lia.
  rewrite Nat.add_comm, Nat.add_sub, drop_app_length. done.
Qed.

Lemma parse_items_encode items rest f :
  forallb value_ok items = true ->
  (length (concat (map (fun i => LIST_ITEM :: push_u16_bytes i) items) ++ LIST_END :: rest) < f)%nat ->
  parse_items f (concat (map (fun i => LIST_ITEM :: push_u16_bytes i) items) ++ LIST_END :: rest)
  = Ok (items, rest).
Proof.
  revert f. induction items as [|i items IH]; intros f Hv Hf; (destruct f as [|f]; [lia|]); [done|].
  cbn in Hv. apply andb_true_iff in Hv as [Hi Hv]. cbn [map concat app] in *.
  rewrite <- !app_assoc in *. cbn [app length] in Hf. cbn [parse_items]. change (LIST_ITEM =? LIST_ITEM) with true.
  cbn match. rewrite read_u16_bytes_push by done. cbn [rbind]. rewrite IH; [done|done|].
  rewrite !length_app in *. lia.
Qed.

(** The parser reads one encoded segment off the front. *)
Definition parses_off (s : ViciSegment) : Prop :=
  segment_ok s = true ->
  forall rest, parse_all (encode_segment s ++ rest)
               = (let? (out, r) := parse_all rest in Ok (s :: out, r)).

Lemma parses_off_list segs rest :
  Forall parses_off segs -> forallb segment_ok segs = true ->
  parse_all (concat (map encode_segment segs) ++ rest)
  = (let? (out, r) := parse_all rest in Ok (segs ++ out, r)).
Proof.
  induction 1 as [|s segs Hs H IH]; intros Hok; cbn [map concat app].
  { by destruct (parse_all rest) as [[]|]. }
  cbn in Hok. apply andb_true_iff in Hok as [Ho Hok]. rewrite <- app_assoc, Hs by done.
  rewrite IH by done. by destruct (parse_all rest) as [[]|].
Qed.

Lemma segment_parses_off s : parses_off s.
Proof.
  induction s as [k v|n items|n inner IH] using segment_ind'; intros Hok rest; cbn in Hok;
    apply andb_true_iff in Hok as [Hn Hv].
  - cbn [encode_segment app]. rewrite parse_all_cons, <- app_assoc. cbn [Z.eqb Pos.eqb KEY_VALUE SECTION_START SECTION_END].
    rewrite read_name_push by done. cbn [rbind]. by rewrite read_u16_bytes_push.
  - cbn [encode_segment app]. rewrite parse_all_cons, <- !app_assoc.
    cbn [Z.eqb Pos.eqb KEY_VALUE SECTION_START SECTION_END LIST_START].
    rewrite read_name_push by done. cbn [rbind app]. by rewrite parse_items_encode by (done || lia).
  - cbn [encode_segment app]. rewrite parse_all_cons, <- !app_assoc. cbn [Z.eqb Pos.eqb SECTION_START].
    rewrite read_name_push by done. cbn [rbind app]. rewrite parses_off_list by done.
    rewrite parse_all_cons. cbn [Z.eqb Pos.eqb SECTION_START SECTION_END rbind]. by rewrite app_nil_r.
Qed.

Lemma parse_encode m : message_ok m = true -> ViciMessage_parse (ViciMessage_encode m) = Ok m.
Proof.
  intros Hok. unfold ViciMessage_parse, ViciMessage_encode, encode_segments.
  fold (parse_all (concat (map encode_segment m))).
  rewrite <- (app_nil_r (concat (map encode_segment m))). rewrite parses_off_list; [|by apply Forall_forall; intros; apply segment_parses_off|done].
  cbn. by rewrite app_nil_r.
Qed.

Lemma read_packet_write ptype payload rest :
  Z.of_nat (length payload) < 65536 ->
  read_packet (write_packet ptype payload ++ rest) = Ok (ptype, payload, rest).
Proof.
  intros Hl. unfold read_packet, write_packet, read_exact. rewrite wrap_small by (split; lia).
  set (len := to_be 4 _). assert (Hlen : length len = 4%nat) by apply length_to_be.
  assert (Hv : from_be len = Z.of_nat (length payload) + 1).
  { unfold len. rewrite from_be_to_be. apply Z.mod_small. change (256 ^ Z.of_nat 4) with (2 ^ 32). lia. }
  rewrite <- !app_assoc, !length_app, Hlen. rewrite (proj2 (Nat.ltb_ge _ _)) by lia. cbn [rbind].
  rewrite <- Hlen, take_app_length, drop_app_length, Hv.
  rewrite (proj2 (Z.eqb_neq _ 0)) by lia. unfold MAX_PACKET_LEN. rewrite (proj2 (Z.ltb_ge _ _)) by lia.
  replace (Z.to_nat (Z.of_nat (length payload) + 1)) with (S (length payload)) by lia.
  cbn [app length take drop]. rewrite length_app, (proj2 (Nat.ltb_ge _ _)) by lia. cbn [rbind].
  by rewrite take_app_length, drop_app_length.
Qed.

Lemma read_packet_shorter stream p b r :
  read_packet stream = Ok (p, b, r) -> (length r < length stream)%nat.
Proof.
  unfold read_packet, read_exact. destruct (length stream <? 4)%nat eqn:E; [done|]. apply Nat.ltb_ge in E.
  cbn [rbind]. repeat case_match; try done. cbn [rbind]. case_match; [done|]. intros [= <- <- <-].
  rewrite !length_drop. lia.
Qed.

Lemma read_packet_fuel stream : read_packet stream <> Err OutOfFuel.
Proof. unfold read_packet, read_exact, bad, rbind. repeat case_match; congruence. Qed.

Lemma ViciMessage_parse_fuel bs : ViciMessage_parse bs <> Err OutOfFuel.
Proof.
  unfold ViciMessage_parse. destruct (parse_segments_settled bs) as (_ & H & _).
  specialize (H (S (length bs)) ltac:(lia)). destruct (parse_segments _ bs) as [[s [|]]|]; cbn; unfold bad; congruence.
Qed.

Lemma await_response_fuel fuel name stream :
  (length stream < fuel)%nat -> await_response fuel name stream <> Err OutOfFuel.
Proof.
  revert stream. induction fuel as [|fuel IH]; intros stream Hf; [lia|]. cbn.
  pose proof (read_packet_fuel stream) as Hp.
  destruct (read_packet stream) as [[[p b] r]|] eqn:E; cbn; [|congruence].
  apply read_packet_shorter in E. destruct (p =? CMD_RESPONSE).
  - pose proof (ViciMessage_parse_fuel b) as Hb. destruct (ViciMessage_parse b); cbn; congruence.
  - destruct (p =? CMD_UNKNOWN); [done|]. apply IH. lia.
Qed.

(** A packet that [request] passes over. *)
Definition stray (p : Z * bytes) : Prop :=
  p.1 <> CMD_RESPONSE /\ p.1 <> CMD_UNKNOWN /\ Z.of_nat (length p.2) < 65536.

Lemma await_response_stray fuel name strays resp rest :
  Forall stray strays -> message_ok resp = true ->
  Z.of_nat (length (ViciMessage_encode resp)) < 65536 -> (length strays < fuel)%nat ->
  await_response fuel name
    (concat (map (fun p => write_packet p.1 p.2) strays)
     ++ write_packet CMD_RESPONSE (ViciMessage_encode resp) ++ rest)
  = Ok (resp, rest).
Proof.
  intros Hs Hok Hl. revert fuel. induction Hs as [|[p b] strays (H1 & H2 & H3) Hs IH]; intros fuel Hf;
    (destruct fuel as [|fuel]; [cbn in Hf; lia|]).
  - cbn [map concat app await_response]. rewrite read_packet_write by done. cbn [rbind].
    change (CMD_RESPONSE =? CMD_RESPONSE) with true. cbn match. by rewrite parse_encode.
  - cbn [map concat await_response fst snd]. rewrite <- app_assoc, read_packet_write by done. cbn [rbind].
    cbn in H1, H2. rewrite (proj2 (Z.eqb_neq p CMD_RESPONSE)), (proj2 (Z.eqb_neq p CMD_UNKNOWN)) by done.
    apply IH. cbn in Hf. lia.
Qed.

Lemma length_write_packet t b : (5 <= length (write_packet t b))%nat.
Proof. unfold write_packet. rewrite !length_app, length_to_be. cbn. lia. Qed.

Lemma length_strays strays :
  (length strays <= length (concat (map (fun p => write_packet p.1 p.2) strays)))%nat.
Proof.
  induction strays as [|p strays IH]; cbn [map concat length]; [lia|]. rewrite length_app.
  pose proof (length_write_packet p.1 p.2). lia.
Qed.

(** ** Properties *)

Definition sample_message : ViciMessage :=
  [Key (as_bytes "success") (as_bytes "yes");
   Section' (as_bytes "conn") [LList (as_bytes "ts") [as_bytes "10.5.0.0/16"; []];
                               Section' (as_bytes "x") [Key [] [0; 255]]]].

(** C12: a VICI message that the length fields can represent decodes from its
    encoding, nested sections and lists included. *)
Theorem vici_round_trip m :
  message_ok m = true -> ViciMessage_parse (ViciMessage_encode m) = Ok m.
Proof. apply parse_encode. Qed.

Lemma vici_round_trip_witness :
  ViciMessage_parse (ViciMessage_encode sample_message) = Ok sample_message.
Proof. apply (vici_round_trip sample_message). by vm_compute. Defined.

(** Decoding and waiting for a response terminate on every input: a message
    of any bytes is decoded or refused, and a request on any finite stream of
    packets returns a response or an error. *)
Theorem vici_terminates bs name msg stream :
  ViciMessage_parse bs <> Err OutOfFuel /\ snd (request name msg stream) <> Err OutOfFuel.
Proof. split; [apply ViciMessage_parse_fuel|]. apply await_response_fuel. lia. Qed.

(** A command request is one packet that the peer reads back as the command
    name and message, and its outcome is that of the first response packet,
    whatever event packets precede it: success exactly when the response says
    so. *)
Theorem vici_command_outcome name msg strays resp rest :
  Z.of_nat (length (as_bytes name) + length (ViciMessage_encode msg)) < 65535 ->
  Forall stray strays -> message_ok resp = true ->
  Z.of_nat (length (ViciMessage_encode resp)) < 65536 ->
  let stream := concat (map (fun p => write_packet p.1 p.2) strays)
                ++ write_packet CMD_RESPONSE (ViciMessage_encode resp) ++ rest in
  let '(written, outcome) := run_command name msg stream in
  read_packet written
  = Ok (CMD_REQUEST, cmd_request_payload (as_bytes name) (ViciMessage_encode msg), []) /\
  outcome = check_success resp /\
  (outcome = Ok tt <-> ViciMessage_get_str resp (as_bytes "success") = Some (as_bytes "yes")).
Proof.
  intros Hlen Hs Hok Hl stream. unfold run_command, request. split_and!.
  - rewrite <- (app_nil_r (write_packet _ _)) at 1. apply read_packet_write.
    unfold cmd_request_payload. cbn [length]. rewrite length_app. lia.
  - unfold stream. rewrite await_response_stray; [done..|].
    rewrite length_app. pose proof (length_strays strays). lia.
  - unfold stream. rewrite await_response_stray; [|done..|].
    2: { rewrite length_app. pose proof (length_strays strays). lia. }
    cbn [rbind]. unfold check_success.
    destruct (ViciMessage_get_str resp (as_bytes "success")) as [v|]; [|by split].
    case_bool_decide as Hv; [by rewrite Hv|]. split; [done|]. by intros [= ?].
Qed.

Lemma vici_command_outcome_witness :
  let stream := concat (map (fun p => write_packet p.1 p.2) [(7, [])])
                ++ write_packet CMD_RESPONSE (ViciMessage_encode sample_message) ++ [] in
  let '(written, outcome) := run_command "unload-conn" (unload_conn_msg (as_bytes "a")) stream in
  read_packet written
  = Ok (CMD_REQUEST, cmd_request_payload (as_bytes "unload-conn")
                       (ViciMessage_encode (unload_conn_msg (as_bytes "a"))), []) /\
  outcome = check_success sample_message /\
  (outcome = Ok tt <-> ViciMessage_get_str sample_message (as_bytes "success") = Some (as_bytes "yes")).
Proof.
  refine (vici_command_outcome "unload-conn" (unload_conn_msg (as_bytes "a")) [(7, [])] sample_message [] _ _ _ _);
    [by vm_compute|by repeat constructor|by vm_compute|by vm_compute].
Defined.

(** Decoding is not the inverse of encoding on ill-formed input: a section
    that is never closed and a stray end of section are both accepted. *)
Theorem vici_accepts_malformed :
  ViciMessage_parse ([SECTION_START] ++ push_name (as_bytes "a")) = Ok [Section' (as_bytes "a") []] /\
  ViciMessage_encode [Section' (as_bytes "a") []] <> [SECTION_START] ++ push_name (as_bytes "a") /\
  ViciMessage_parse [SECTION_END] = Ok [] /\ ViciMessage_encode [] = [].
Proof. by vm_compute. Qed.
