(* ===== verification/Flags.v ===== *)
(** * [flags.rs]: the command-line and environment parser

    A port of Go's [flag] package.  A [FlagSet] keeps its flags in
    registration order and finds them by name; [parse] walks the arguments,
    [set_flags_from_env] the flags. *)

From S2P Require Import Prelude RustStr.
#[local] Open Scope string_scope.
#[local] Open Scope list_scope.
#[local] Open Scope Z_scope.

Inductive FlagError :=
| UnknownFlag (name : string)
| BadValue (name value reason : string)
| MissingValue (name : string)
| BadSyntax (arg : string)
| Help.

Record EnvError := mkEnvError {
  ee_flag : string;
  ee_env_key : string;
  ee_value : string;
  ee_reason : string;
}.

Inductive Kind := KBool | KInt | KStr | KSlice.

Inductive FlagValue :=
| FvBool (b : bool)
| FvInt (i : Z)
| FvStr (s : string)
| FvSlice (items : list string).

Record Flag := mkFlag {
  fl_name : string;
  fl_kind : Kind;
  fl_help : string;
  fl_value : FlagValue;
  fl_default : FlagValue;
  fl_set_by_cli : bool;
  fl_set_by_env : bool;
}.

Record FlagSet := mkFlagSet {
  fs_name : string;
  fs_flags : list Flag;
  fs_remaining : list string;
  fs_tolerated_unknown : list string;
}.

#[global] Instance Kind_eq_dec : EqDecision Kind.
Proof. solve_decision. Defined.

Definition QUOTE : string := String (ascii_of_nat 34) "".
Definition MINUS : ascii := ascii_of_nat 45.
Definition PLUS : ascii := ascii_of_nat 43.

Definition str_mem (s : string) (l : list string) : bool := existsb (String.eqb s) l.

Definition parse_bool (s : string) : result bool string :=
  if str_mem s ["1"; "t"; "T"; "TRUE"; "true"; "True"] then Ok true
  else if str_mem s ["0"; "f"; "F"; "FALSE"; "false"; "False"] then Ok false
  else Err ("strconv.ParseBool: parsing " +:+ QUOTE +:+ s +:+ QUOTE +:+ ": invalid syntax").

(** [s[n..]] *)
Fixpoint str_drop (n : nat) (s : string) : string :=
  match n, s with
  | S n, String _ s => str_drop n s
  | _, _ => s
  end.

(** The digits and radix that [parse_int] reads off an unsigned text. *)
Definition int_digits (body : string) : string * Z :=
  let prefix := if (2 <=? String.length body)%nat
                then to_ascii_lowercase (String.substring 0 2 body) else "" in
  if String.eqb prefix "0x" then (str_drop 2 body, 16)
  else if String.eqb prefix "0o" then (str_drop 2 body, 8)
  else if String.eqb prefix "0b" then (str_drop 2 body, 2)
  else if (1 <? String.length body)%nat && str_starts_with "0" body then (str_drop 1 body, 8)
  else (body, 10).

Definition parse_int (s : string) : result Z string :=
  let invalid := "strconv.ParseInt: parsing " +:+ QUOTE +:+ s +:+ QUOTE +:+ ": invalid syntax" in
  let out_of_range := "strconv.ParseInt: parsing " +:+ QUOTE +:+ s +:+ QUOTE +:+ ": value out of range" in
  let '(sign, body) :=
    if str_starts_with PLUS s then ("+", str_drop 1 s)
    else if str_starts_with MINUS s then ("-", str_drop 1 s)
    else ("", s) in
  if str_is_empty body then Err invalid
  else
    let '(digits, radix) := int_digits body in
    if str_is_empty digits then Err invalid
    else map_err (fun e => match e with PosOverflow | NegOverflow => out_of_range | _ => invalid end)
           (from_str_radix_i 64 radix (sign +:+ digits)).

Definition with_value (v : FlagValue) (f : Flag) : Flag :=
  mkFlag (fl_name f) (fl_kind f) (fl_help f) v (fl_default f) (fl_set_by_cli f) (fl_set_by_env f).
Definition with_set_by_cli (f : Flag) : Flag :=
  mkFlag (fl_name f) (fl_kind f) (fl_help f) (fl_value f) (fl_default f) true (fl_set_by_env f).
Definition with_set_by_env (f : Flag) : Flag :=
  mkFlag (fl_name f) (fl_kind f) (fl_help f) (fl_value f) (fl_default f) (fl_set_by_cli f) true.

Definition set_flag_value (flag : Flag) (raw : string) : result Flag string :=
  match fl_kind flag with
  | KBool => let? b := parse_bool raw in Ok (with_value (FvBool b) flag)
  | KInt => let? i := parse_int raw in Ok (with_value (FvInt i) flag)
  | KStr => Ok (with_value (FvStr raw) flag)
  | KSlice =>
      match fl_value flag with
      | FvSlice items => Ok (with_value (FvSlice (items ++ [raw])) flag)
      | _ => Ok flag
      end
  end.

Definition fmt_int (i : Z) : string := if i <? 0 then "-" +:+ fmt_dec (- i) else fmt_dec i.

Definition def_value_string (flag : Flag) : string :=
  match fl_default flag with
  | FvBool b => fmt_bool b
  | FvInt i => fmt_int i
  | FvStr s => s
  | FvSlice items => "[" +:+ str_join " " items +:+ "]"
  end.

Definition shows_default (flag : Flag) : bool :=
  match fl_default flag with
  | FvBool b => b
  | FvInt i => negb (i =? 0)
  | FvStr s => negb (str_is_empty s)
  | FvSlice items => negb (bool_decide (items = []))
  end.

(** ** [impl FlagSet] *)

Definition FlagSet_new (name : string) : FlagSet := mkFlagSet name [] [] [].

Definition FlagSet_find (flags : list Flag) (name : string) : option nat :=
  position (fun f => String.eqb (fl_name f) name) flags.

(** [register]; [None] is the assertion that the name is new. *)
Definition FlagSet_register (fs : FlagSet) (name : string) (kind : Kind) (default : FlagValue)
    (help : string) : option FlagSet :=
  match FlagSet_find (fs_flags fs) name with
  | Some _ => None
  | None =>
      Some (mkFlagSet (fs_name fs)
              (fs_flags fs ++ [mkFlag name kind help default default false false])
              (fs_remaining fs) (fs_tolerated_unknown fs))
  end.

Definition register_bool (fs : FlagSet) (name : string) (default : bool) (help : string) :=
  FlagSet_register fs name KBool (FvBool default) help.
Definition register_int (fs : FlagSet) (name : string) (default : Z) (help : string) :=
  FlagSet_register fs name KInt (FvInt default) help.
Definition register_string (fs : FlagSet) (name : string) (default : string) (help : string) :=
  FlagSet_register fs name KStr (FvStr default) help.
Definition register_slice (fs : FlagSet) (name : string) (help : string) :=
  FlagSet_register fs name KSlice (FvSlice []) help.

Definition with_tolerated_unknown (fs : FlagSet) (names : list string) : FlagSet :=
  mkFlagSet (fs_name fs) (fs_flags fs) (fs_remaining fs) names.

(** [self.flags[self.find(name)?]], with the index. *)
Definition FlagSet_flag (flags : list Flag) (name : string) : option (nat * Flag) :=
  match FlagSet_find flags name with
  | Some idx => match flags !! idx with Some f => Some (idx, f) | None => None end
  | None => None
  end.

(** An argument taken apart: positional, the terminator, ill-formed, or a
    flag with its name and inline value. *)
Inductive ArgForm :=
| ArgPositional
| ArgTerminator
| ArgBad
| ArgFlag (name : string) (inline : option string).

Definition arg_form (arg : string) : ArgForm :=
  if (String.length arg <? 2)%nat || negb (str_starts_with MINUS arg) then ArgPositional
  else
    let two := str_starts_with MINUS (str_drop 1 arg) in
    if two && (String.length arg =? 2)%nat then ArgTerminator
    else
      let body := str_drop (if two then 2 else 1) arg in
      if str_is_empty body || str_starts_with MINUS body || str_starts_with "=" body then ArgBad
      else match split_once "=" body with
           | Some (name, inline) => ArgFlag name (Some inline)
           | None => ArgFlag body None
           end.

(** Set flag [idx] from the command line. *)
Definition apply_cli (flags : list Flag) (idx : nat) (flag : Flag) (name raw : string)
  : result (list Flag) FlagError :=
  match set_flag_value flag raw with
  | Err reason => Err (BadValue name raw reason)
  | Ok flag' => Ok (<[idx := with_set_by_cli flag']> flags)
  end.

(** The loop of [parse]: the flags after it, the remaining arguments it sets
    ([None] when it returns before setting them) and its result. *)
Fixpoint parse_loop (tolerated : list string) (flags : list Flag) (args : list string)
  : list Flag * option (list string) * result unit FlagError :=
  match args with
  | [] => (flags, Some [], Ok tt)
  | arg :: rest =>
      match arg_form arg with
      | ArgPositional => (flags, Some args, Ok tt)
      | ArgTerminator => (flags, Some rest, Ok tt)
      | ArgBad => (flags, None, Err (BadSyntax arg))
      | ArgFlag name inline =>
          match FlagSet_flag flags name with
          | Some (idx, flag) =>
              match (if bool_decide (fl_kind flag = KBool) then Some (default "true" inline) else inline) with
              | Some raw =>
                  match apply_cli flags idx flag name raw with
                  | Err e => (flags, None, Err e)
                  | Ok flags' => parse_loop tolerated flags' rest
                  end
              | None =>
                  match rest with
                  | [] => (flags, None, Err (MissingValue name))
                  | next :: rest' =>
                      match apply_cli flags idx flag name next with
                      | Err e => (flags, None, Err e)
                      | Ok flags' => parse_loop tolerated flags' rest'
                      end
                  end
              end
          | None =>
              if String.eqb name "help" || String.eqb name "h" then (flags, Some rest, Err Help)
              else if str_mem name tolerated then
                match inline, rest with
                | None, next :: rest' =>
                    if str_starts_with MINUS next then parse_loop tolerated flags rest
                    else parse_loop tolerated flags rest'
                | _, _ => parse_loop tolerated flags rest
                end
              else (flags, None, Err (UnknownFlag name))
          end
      end
  end.

Definition FlagSet_parse (fs : FlagSet) (args : list string) : FlagSet * result unit FlagError :=
  let '(flags, remaining, r) := parse_loop (fs_tolerated_unknown fs) (fs_flags fs) args in
  (mkFlagSet (fs_name fs) flags (default (fs_remaining fs) remaining) (fs_tolerated_unknown fs), r).

(** [name.replace('-', "_").to_uppercase()] on an ASCII name. *)
Definition env_name (name : string) : string :=
  to_ascii_uppercase (str_map (fun c => if Ascii.eqb c MINUS then "_"%char else c) name).

Definition env_key (prefix name : string) : string := prefix +:+ "_" +:+ env_name name.

(** One name of the loop; [env] gives the variables that are set. *)
Definition env_step (prefix : string) (env : string -> option string)
    (st : list Flag * list EnvError) (name : string) : list Flag * list EnvError :=
  let '(flags, errors) := st in
  let raw := default "" (env (env_key prefix name)) in
  if str_is_empty raw then (flags, errors)
  else match FlagSet_flag flags name with
       | None => (flags, errors)
       | Some (idx, flag) =>
           match set_flag_value flag raw with
           | Ok flag' => (<[idx := with_set_by_env flag']> flags, errors)
           | Err reason => (flags, errors ++ [mkEnvError name (env_key prefix name) raw reason])
           end
       end.

Definition set_flags_from_env (fs : FlagSet) (prefix : string) (env : string -> option string)
  : FlagSet * list EnvError :=
  let '(flags, errors) :=
    fold_left (env_step prefix env) (map fl_name (fs_flags fs)) (fs_flags fs, []) in
  (mkFlagSet (fs_name fs) flags (fs_remaining fs) (fs_tolerated_unknown fs), errors).

(** The getters; [None] is their panic. *)
Definition get_bool (fs : FlagSet) (name : string) : option bool :=
  match FlagSet_flag (fs_flags fs) name with Some (_, f) =>
    match fl_value f with FvBool b => Some b | _ => None end | None => None end.
Definition get_int (fs : FlagSet) (name : string) : option Z :=
  match FlagSet_flag (fs_flags fs) name with Some (_, f) =>
    match fl_value f with FvInt i => Some i | _ => None end | None => None end.
Definition get_string (fs : FlagSet) (name : string) : option string :=
  match FlagSet_flag (fs_flags fs) name with Some (_, f) =>
    match fl_value f with FvStr s => Some s | _ => None end | None => None end.
Definition get_slice (fs : FlagSet) (name : string) : option (list string) :=
  match FlagSet_flag (fs_flags fs) name with Some (_, f) =>
    match fl_value f with FvSlice l => Some l | _ => None end | None => None end.

Definition is_set (fs : FlagSet) (name : string) : bool :=
  match FlagSet_flag (fs_flags fs) name with
  | Some (_, f) => fl_set_by_cli f || fl_set_by_env f
  | None => false
  end.

Definition was_set_by_env (fs : FlagSet) (name : string) : bool :=
  match FlagSet_flag (fs_flags fs) name with Some (_, f) => fl_set_by_env f | None => false end.

Definition remaining_args (fs : FlagSet) : list string := fs_remaining fs.

Definition default_value (fs : FlagSet) (name : string) : option string :=
  match FlagSet_flag (fs_flags fs) name with Some (_, f) => Some (def_value_string f) | None => None end.

(** ** Specification *)

Definition kind_of (v : FlagValue) : Kind :=
  match v with FvBool _ => KBool | FvInt _ => KInt | FvStr _ => KStr | FvSlice _ => KSlice end.

(** A flag holds a value and a default of its kind, an integer in range. *)
Definition flag_ok (f : Flag) : Prop :=
  kind_of (fl_value f) = fl_kind f /\ kind_of (fl_default f) = fl_kind f /\
  (forall i, fl_value f = FvInt i -> - 2 ^ 63 <= i < 2 ^ 63).

Definition flags_inv (flags : list Flag) : Prop :=
  NoDup (map fl_name flags) /\ Forall flag_ok flags.

(** Names and kinds are those of registration. *)
Definition same_flags (a b : list Flag) : Prop :=
  map (fun f => (fl_name f, fl_kind f, fl_default f)) a = map (fun f => (fl_name f, fl_kind f, fl_default f)) b.

(** ** Lemmas *)

Lemma FlagSet_flag_Some flags name i f :
  FlagSet_flag flags name = Some (i, f) -> flags !! i = Some f /\ fl_name f = name.
Proof.
  unfold FlagSet_flag, FlagSet_find. destruct (position _ flags) as [j|] eqn:E; [|done].
  apply position_Some in E as (x & Hx & He). rewrite Hx. intros [= <- <-]. by apply String.eqb_eq in He.
Qed.

Lemma FlagSet_flag_registered flags f :
  f ∈ flags -> exists i f', FlagSet_flag flags (fl_name f) = Some (i, f').
Proof.
  intros Hin. unfold FlagSet_flag, FlagSet_find. destruct (position _ flags) as [j|] eqn:E.
  - apply position_Some in E as (x & -> & _). eauto.
  - pose proof (proj1 (position_None _ _) E f Hin) as Hf. cbn beta in Hf. by rewrite String.eqb_refl in Hf.
Qed.

Lemma parse_int_range s i : parse_int s = Ok i -> - 2 ^ 63 <= i < 2 ^ 63.
Proof.
  unfold parse_int. intros H. repeat case_match; try done;
  (match type of H with map_err _ ?r = _ => destruct r eqn:E; [|done] end);
  cbn in H; injection H as <-; by apply (from_str_radix_i_range 64) in E.
Qed.

Lemma set_flag_value_ok f raw f' :
  flag_ok f -> set_flag_value f raw = Ok f' ->
  flag_ok f' /\ fl_name f' = fl_name f /\ fl_kind f' = fl_kind f /\ fl_default f' = fl_default f.
Proof.
  intros (H1 & H2 & H3) H. unfold set_flag_value in H.
  destruct f as [n k h v d sc se]. cbn in *. destruct k.
  - destruct (parse_bool raw); [|done]. cbn in H. simplify_eq. by split_and!.
  - destruct (parse_int raw) eqn:E; [|done]. cbn in H. simplify_eq. unfold flag_ok. cbn. split_and!; try done.
    intros i [= <-]. by apply parse_int_range in E.
  - simplify_eq. by split_and!.
  - destruct v; try done. simplify_eq. by split_and!.
Qed.

Lemma map_insert_same {A B} (g : A -> B) (l : list A) i x y :
  l !! i = Some x -> g y = g x -> map g (<[i := y]> l) = map g l.
Proof.
  intros Hx Hg. change (g <$> <[i := y]> l = g <$> l). rewrite list_fmap_insert, Hg.
  apply list_insert_id. by rewrite list_lookup_fmap, Hx.
Qed.

Lemma flags_update flags i f f' :
  flags_inv flags -> flags !! i = Some f -> flag_ok f' ->
  fl_name f' = fl_name f -> fl_kind f' = fl_kind f -> fl_default f' = fl_default f ->
  flags_inv (<[i := f']> flags) /\ same_flags (<[i := f']> flags) flags.
Proof.
  intros [Hn Hf] Hi Hok H1 H2 H3. split; [split|].
  - by rewrite (map_insert_same fl_name flags i f f').
  - by apply Forall_insert.
  - unfold same_flags. apply (map_insert_same _ flags i f f' Hi). congruence.
Qed.

Lemma apply_cli_inv flags i f name raw flags' :
  flags_inv flags -> flags !! i = Some f -> apply_cli flags i f name raw = Ok flags' ->
  flags_inv flags' /\ same_flags flags' flags.
Proof.
  intros Hi Hf H. unfold apply_cli in H. destruct (set_flag_value f raw) as [f'|] eqn:E; [|done].
  injection H as <-. assert (Hok : flag_ok f) by (by eapply Forall_lookup_1; [apply Hi|]).
  destruct (set_flag_value_ok f raw f' Hok E) as ((K1 & K2 & K3) & N1 & N2 & N3).
  by apply (flags_update flags i f).
Qed.

(** What [parse] leaves: the invariant, the registered flags and, unless it
    fails, the arguments that it did not consume. *)
Definition parse_post (flags : list Flag) (args : list string)
    (r : list Flag * option (list string) * result unit FlagError) : Prop :=
  let '(flags', remaining, res) := r in
  flags_inv flags' /\ same_flags flags' flags /\
  (res = Ok tt -> exists pre rem, remaining = Some rem /\ args = pre ++ rem).

Lemma parse_post_cons flags flags1 pre args r :
  same_flags flags1 flags -> parse_post flags1 args r -> parse_post flags (pre ++ args) r.
Proof.
  destruct r as [[flags' remaining] res]. intros Hs (H1 & H2 & H3). split_and!; [done| |].
  - unfold same_flags in *. congruence.
  - intros (p & rem & -> & ->)%H3. exists (pre ++ p), rem. by rewrite app_assoc.
Qed.

Lemma parse_loop_post tolerated args flags :
  flags_inv flags -> parse_post flags args (parse_loop tolerated flags args).
Proof.
  assert (forall n args flags, (length args <= n)%nat -> flags_inv flags ->
    parse_post flags args (parse_loop tolerated flags args)) as H; [|by eapply H].
  clear args flags. induction n as [|n IH]; intros [|arg rest] flags Hl Hi; cbn in Hl; try lia;
    try (by cbn; split_and!; [..|exists [], []]).
  cbn [parse_loop].
  assert (Hstop : forall e, parse_post flags (arg :: rest) (flags, None, Err e)) by done.
  assert (Hend : forall pre rem, arg :: rest = pre ++ rem ->
    parse_post flags (arg :: rest) (flags, Some rem, Ok tt)).
  { intros pre rem He. split_and!; [done..|]. intros _. by exists pre, rem. }
  assert (Hgo : forall pre args' flags1, arg :: rest = pre ++ args' -> pre <> [] -> same_flags flags1 flags ->
    flags_inv flags1 -> parse_post flags (arg :: rest) (parse_loop tolerated flags1 args')).
  { intros pre args' flags1 He Hp Hs Hi1. rewrite He. apply (parse_post_cons _ flags1); [done|].
    apply IH; [|done]. destruct pre; [done|]. cbn in He. injection He as _ He.
    apply (f_equal length) in He. rewrite length_app in He. lia. }
  destruct (arg_form arg) as [| | |name inline].
  - by apply (Hend []).
  - by apply (Hend [arg]).
  - done.
  - destruct (FlagSet_flag flags name) as [[idx flag]|] eqn:Ef.
    + apply FlagSet_flag_Some in Ef as [Hidx _].
      destruct (if bool_decide _ then _ else _) as [raw|].
      * destruct (apply_cli flags idx flag name raw) as [flags1|] eqn:Ea; [|done].
        apply apply_cli_inv in Ea as [? ?]; [|done..]. by apply (Hgo [arg]).
      * destruct rest as [|next rest']; [done|].
        destruct (apply_cli flags idx flag name next) as [flags1|] eqn:Ea; [|done].
        apply apply_cli_inv in Ea as [? ?]; [|done..]. by apply (Hgo [arg; next]).
    + destruct (_ || _); [done|]. destruct (str_mem name tolerated); [|done].
      destruct inline as [v|]; [by apply (Hgo [arg])|].
      destruct rest as [|next rest']; [by apply (Hgo [arg])|].
      destruct (str_starts_with MINUS next); [by apply (Hgo [arg])|by apply (Hgo [arg; next])].
Qed.

(** ** Lemmas: the forms of a flag *)

Definition name_valid (name : string) : bool :=
  negb (str_is_empty name) && negb (str_starts_with MINUS name) && negb (str_contains "=" name).

Lemma name_valid_head name :
  name_valid name = true ->
  exists c s, name = String c s /\ Ascii.eqb c MINUS = false /\ Ascii.eqb c "=" = false.
Proof.
  unfold name_valid. destruct name as [|c s]; [done|]. rewrite !andb_true_iff, !negb_true_iff.
  intros [[_ Hm] He]. exists c, s. split; [done|]. cbn in Hm, He. apply orb_false_iff in He as [He _]. done.
Qed.

Definition is_dash (d : string) : Prop := d = "-" \/ d = "--".

Lemma arg_form_flag d name suffix :
  is_dash d -> name_valid name = true ->
  arg_form (d +:+ name +:+ suffix) =
  match split_once "=" (name +:+ suffix) with
  | Some (n, inline) => ArgFlag n (Some inline)
  | None => ArgFlag (name +:+ suffix) None
  end.
Proof.
  intros Hd Hn. destruct (name_valid_head name Hn) as (c & s & -> & Hc & He).
  set (t := s +:+ suffix). change (String c s +:+ suffix) with (String c t).
  assert (Hm : str_starts_with MINUS (String c t) = false) by exact Hc.
  assert (Hq : str_starts_with "=" (String c t) = false) by exact He.
  unfold arg_form. destruct Hd as [->| ->].
  - change (str_starts_with MINUS ("-" +:+ String c t)) with true.
    change (str_drop 1 ("-" +:+ String c t)) with (String c t). rewrite Hm. cbn [andb].
    change (str_drop 1 ("-" +:+ String c t)) with (String c t). by rewrite Hm, Hq.
  - change (str_starts_with MINUS ("--" +:+ String c t)) with true.
    change (str_starts_with MINUS (str_drop 1 ("--" +:+ String c t))) with true. cbn match.
    change (str_drop 2 ("--" +:+ String c t)) with (String c t). by rewrite Hm, Hq.
Qed.

Lemma arg_form_bare d name : is_dash d -> name_valid name = true -> arg_form (d +:+ name) = ArgFlag name None.
Proof.
  intros Hd Hn. rewrite <- (string_app_nil_r name) at 1. rewrite arg_form_flag by done.
  rewrite string_app_nil_r. unfold name_valid in Hn. rewrite !andb_true_iff, !negb_true_iff in Hn.
  destruct Hn as [_ Hn]. by rewrite split_once_none.
Qed.

Lemma arg_form_inline d name v :
  is_dash d -> name_valid name = true -> arg_form (d +:+ name +:+ "=" +:+ v) = ArgFlag name (Some v).
Proof.
  intros Hd Hn. rewrite arg_form_flag by done. unfold name_valid in Hn. rewrite !andb_true_iff, !negb_true_iff in Hn.
  destruct Hn as [_ Hn]. change ("=" +:+ v) with (String "=" v). by rewrite split_once_app.
Qed.

(** ** Lemmas: the environment *)

(** What the environment does to one flag. *)
Definition env_apply (prefix : string) (env : string -> option string) (f : Flag) : Flag * list EnvError :=
  let raw := default "" (env (env_key prefix (fl_name f))) in
  if str_is_empty raw then (f, [])
  else match set_flag_value f raw with
       | Ok f' => (with_set_by_env f', [])
       | Err reason => (f, [mkEnvError (fl_name f) (env_key prefix (fl_name f)) raw reason])
       end.

Lemma set_flag_value_name f raw f' : set_flag_value f raw = Ok f' -> fl_name f' = fl_name f.
Proof.
  unfold set_flag_value. destruct (fl_kind f).
  - destruct (parse_bool raw); [|done]. by intros [= <-].
  - destruct (parse_int raw); [|done]. by intros [= <-].
  - by intros [= <-].
  - destruct (fl_value f); by intros [= <-].
Qed.

Lemma env_apply_name prefix env f : fl_name (env_apply prefix env f).1 = fl_name f.
Proof.
  unfold env_apply. destruct (str_is_empty _); [done|].
  destruct (set_flag_value f _) eqn:E; [|done]. by apply set_flag_value_name in E.
Qed.

(** Finding a name that occurs once, after flags with other names. *)
Lemma FlagSet_flag_middle pre f post :
  fl_name f ∉ map fl_name pre -> FlagSet_flag (pre ++ f :: post) (fl_name f) = Some (length pre, f).
Proof.
  intros Hn. unfold FlagSet_flag, FlagSet_find.
  assert (position (fun g => String.eqb (fl_name g) (fl_name f)) (pre ++ f :: post) = Some (length pre)) as ->.
  { induction pre as [|g pre IH]; cbn [app position length].
    - by rewrite String.eqb_refl.
    - cbn in Hn. apply not_elem_of_cons in Hn as [Hg Hn].
      rewrite (proj2 (String.eqb_neq _ _)) by congruence. by rewrite IH. }
  by rewrite list_lookup_middle.
Qed.

Lemma env_fold prefix env todo done_ errs :
  NoDup (map fl_name (done_ ++ todo)) ->
  fold_left (env_step prefix env) (map fl_name todo) (done_ ++ todo, errs)
  = (done_ ++ map (fun f => (env_apply prefix env f).1) todo,
     errs ++ concat (map (fun f => (env_apply prefix env f).2) todo)).
Proof.
  revert done_ errs. induction todo as [|f todo IH]; intros done_ errs Hn; cbn [map fold_left concat].
  { by rewrite !app_nil_r. }
  assert (Hf : fl_name f ∉ map fl_name done_).
  { rewrite map_app in Hn. apply list.NoDup_app in Hn as (_ & Hd & _). intros Hin. apply (Hd _ Hin). by left. }
  assert (Hstep : env_step prefix env (done_ ++ f :: todo, errs) (fl_name f)
    = ((done_ ++ [(env_apply prefix env f).1]) ++ todo, errs ++ (env_apply prefix env f).2)).
  { unfold env_step, env_apply. destruct (str_is_empty _).
    { by rewrite <- app_assoc, app_nil_r. }
    rewrite FlagSet_flag_middle by done. destruct (set_flag_value f _); cbn [fst snd].
    - rewrite insert_app_r_alt, Nat.sub_diag by lia. cbn [insert list_insert]. by rewrite <- app_assoc, app_nil_r.
    - by rewrite <- app_assoc. }
  rewrite Hstep, IH.
  - by rewrite <- !app_assoc.
  - rewrite !map_app in *. cbn. by rewrite env_apply_name, <- app_assoc.
Qed.

(** ** Properties *)

(** The registrations of a test program. *)
Definition sample_flags : list Flag :=
  [mkFlag "kube-subnet-mgr" KBool "" (FvBool false) (FvBool false) false false;
   mkFlag "healthz-port" KInt "" (FvInt 0) (FvInt 0) false false;
   mkFlag "iface" KSlice "" (FvSlice []) (FvSlice []) false false].

Definition sample_flagset : FlagSet := mkFlagSet "flannel" sample_flags [] [].

Lemma sample_flags_inv : flags_inv sample_flags.
Proof.
  split.
  - apply (bool_decide_unpack (NoDup (map fl_name sample_flags))). by vm_compute.
  - unfold sample_flags, flag_ok.
    repeat (apply Forall_cons; [cbn; split_and!; [done|done|intros i Hi; simplify_eq/=; lia]|]).
    apply Forall_nil.
Qed.

(** Parsing a command line keeps the registered flags (names, kinds and
    defaults, all distinct) and every flag keeps a value of its kind, in range
    for an integer, whatever the arguments and even when parsing fails; so the
    typed getters do not panic.  A successful parse consumes a prefix of the
    arguments and leaves the rest as the remaining ones. *)
Theorem flags_parse_inv fs args :
  flags_inv (fs_flags fs) ->
  let '(fs', r) := FlagSet_parse fs args in
  flags_inv (fs_flags fs') /\ same_flags (fs_flags fs') (fs_flags fs) /\
  (forall i f, FlagSet_flag (fs_flags fs') (fl_name f) = Some (i, f) ->
     match fl_kind f with
     | KBool => is_Some (get_bool fs' (fl_name f))
     | KInt => exists n, get_int fs' (fl_name f) = Some n /\ - 2 ^ 63 <= n < 2 ^ 63
     | KStr => is_Some (get_string fs' (fl_name f))
     | KSlice => is_Some (get_slice fs' (fl_name f))
     end) /\
  (r = Ok tt -> exists pre, args = pre ++ remaining_args fs').
Proof.
  intros Hi. unfold FlagSet_parse.
  pose proof (parse_loop_post (fs_tolerated_unknown fs) args (fs_flags fs) Hi) as Hp.
  destruct (parse_loop _ _ args) as [[flags rem] r]. destruct Hp as (H1 & H2 & H3).
  split_and!; [done|done| |].
  - intros i f Hf. unfold get_bool, get_int, get_string, get_slice. cbn in *. rewrite !Hf.
    apply FlagSet_flag_Some in Hf as [Hf _]. destruct H1 as [_ Hall].
    pose proof (Forall_lookup_1 _ _ _ _ Hall Hf) as (K & _ & KI).
    destruct (fl_value f); cbn in K; rewrite <- K; eauto.
  - intros (pre & rem' & -> & ->)%H3. by exists pre.
Qed.

Lemma flags_parse_inv_witness :
  flags_inv (fs_flags (fst (FlagSet_parse sample_flagset ["--iface"; "eth0"; "-kube-subnet-mgr"; "x"]))).
Proof.
  pose proof (flags_parse_inv sample_flagset ["--iface"; "eth0"; "-kube-subnet-mgr"; "x"] sample_flags_inv) as H.
  destruct (FlagSet_parse sample_flagset _). apply H.
Defined.

(** The four ways to write a valued flag are equivalent: one or two dashes,
    the value after an equals sign or as the next argument (even when that
    argument starts with a dash). *)
Theorem flag_forms_equivalent fs d d' name v rest i f :
  is_dash d -> is_dash d' -> name_valid name = true ->
  FlagSet_flag (fs_flags fs) name = Some (i, f) -> fl_kind f <> KBool ->
  FlagSet_parse fs ((d +:+ name) :: v :: rest)
  = FlagSet_parse fs ((d' +:+ name +:+ "=" +:+ v) :: rest).
Proof.
  intros Hd Hd' Hn Hf Hk. unfold FlagSet_parse. cbn [parse_loop].
  rewrite arg_form_bare, arg_form_inline, Hf by done. by rewrite bool_decide_eq_false_2.
Qed.

Lemma flag_forms_equivalent_witness :
  FlagSet_parse sample_flagset ["-healthz-port"; "-1"; "x"]
  = FlagSet_parse sample_flagset ["--healthz-port=-1"; "x"].
Proof.
  refine (flag_forms_equivalent sample_flagset "-" "--" "healthz-port" "-1" ["x"] 1
    (mkFlag "healthz-port" KInt "" (FvInt 0) (FvInt 0) false false) _ _ _ _ _);
    [by left|by right|by vm_compute|by vm_compute|done].
Defined.

(** The environment is applied flag by flag: every flag whose variable is
    set to a valid non-empty text gets that value on top of its own and is
    marked; the others keep their value; exactly the invalid texts are
    reported, in registration order. *)
Theorem set_flags_from_env_pointwise fs prefix env :
  flags_inv (fs_flags fs) ->
  set_flags_from_env fs prefix env
  = (mkFlagSet (fs_name fs) (map (fun f => (env_apply prefix env f).1) (fs_flags fs))
       (fs_remaining fs) (fs_tolerated_unknown fs),
     concat (map (fun f => (env_apply prefix env f).2) (fs_flags fs))).
Proof.
  intros [Hn _]. unfold set_flags_from_env.
  pose proof (env_fold prefix env (fs_flags fs) [] []) as H. cbn [app] in H. by rewrite H.
Qed.

Lemma set_flags_from_env_pointwise_witness :
  set_flags_from_env sample_flagset "FLANNELD" (fun k => if String.eqb k "FLANNELD_HEALTHZ_PORT" then Some "abc" else None)
  = (sample_flagset, [mkEnvError "healthz-port" "FLANNELD_HEALTHZ_PORT" "abc"
       ("strconv.ParseInt: parsing " +:+ QUOTE +:+ "abc" +:+ QUOTE +:+ ": invalid syntax")]).
Proof.
  rewrite (set_flags_from_env_pointwise sample_flagset "FLANNELD"
    (fun k => if String.eqb k "FLANNELD_HEALTHZ_PORT" then Some "abc" else None) sample_flags_inv).
  by vm_compute.
Defined.

(** A repeatable flag given on the command line and in the environment has
    both values: the environment appends to it and does not override it. *)
Theorem env_appends_to_slice fs prefix env f items raw :
  flags_inv (fs_flags fs) -> f ∈ fs_flags fs -> fl_kind f = KSlice -> fl_value f = FvSlice items ->
  env (env_key prefix (fl_name f)) = Some raw -> raw <> "" ->
  exists f', f' ∈ fs_flags (fst (set_flags_from_env fs prefix env)) /\
    fl_name f' = fl_name f /\ fl_value f' = FvSlice (items ++ [raw]).
Proof.
  intros [Hn _] Hin Hk Hv He Hne. unfold set_flags_from_env.
  pose proof (env_fold prefix env (fs_flags fs) [] []) as H. cbn [app] in H. rewrite H by done. cbn.
  exists (env_apply prefix env f).1. split_and!.
  - apply list_elem_of_fmap. by exists f.
  - apply env_apply_name.
  - unfold env_apply. rewrite He. change (default "" (Some raw)) with raw.
    assert (str_is_empty raw = false) as -> by (by apply String.eqb_neq).
    unfold set_flag_value. by rewrite Hk, Hv.
Qed.

Lemma env_appends_to_slice_witness :
  exists f', f' ∈ fs_flags (fst (set_flags_from_env
      (fst (FlagSet_parse sample_flagset ["-iface=eth0"])) "FLANNELD"
      (fun k => if String.eqb k "FLANNELD_IFACE" then Some "eth1" else None))) /\
    fl_name f' = "iface" /\ fl_value f' = FvSlice (["eth0"] ++ ["eth1"]).
Proof.
  refine (env_appends_to_slice (fst (FlagSet_parse sample_flagset ["-iface=eth0"])) "FLANNELD"
    (fun k => if String.eqb k "FLANNELD_IFACE" then Some "eth1" else None)
    (mkFlag "iface" KSlice "" (FvSlice ["eth0"]) (FvSlice []) true false) ["eth0"] "eth1" _ _ _ _ _ _); try done.
  - pose proof (parse_loop_post [] ["-iface=eth0"] sample_flags sample_flags_inv) as H. apply H.
  - vm_compute. right. right. by left.
Defined.

(** [parse_int] accepts a second sign after the base prefix, and after the
    zero that marks an octal number, where Go's [ParseInt], which it ports,
    refuses them. *)
Theorem parse_int_inner_sign :
  parse_int "0x-5" = Ok (-5) /\ parse_int "0-7" = Ok (-7) /\ parse_int "0x+a" = Ok 10.
Proof. by vm_compute. Qed.
