(* ===== verification/KubeNode.v ===== *)
(** * [kube/types.rs], [subnet/kube/annotations.rs], [subnet/kube/events.rs]:
    nodes, their annotations and the leases made of them

    A node becomes a lease through its annotations and pod CIDRs
    ([node_to_lease]); the two handlers decide which lease event, if any, a
    change of a node is worth.  A handler returns the call it makes to
    [enqueue_lease_event] (the node's name and the event), the queue itself
    is in EventQueue.  [RawValue::from_string] and the regular expression of
    the annotation prefix belong to external crates and are parameters. *)

From S2P Require Import Prelude RustStr StdNet IpNet Ip6Net Lease.
#[local] Open Scope string_scope.
#[local] Open Scope list_scope.
#[local] Open Scope Z_scope.

(** ** [kube/types.rs] *)

Record ObjectMeta := mkObjectMeta {
  om_name : string;
  om_uid : string;
  om_resource_version : option string;
  om_annotations : gmap string string;
}.

Record NodeSpec := mkNodeSpec {
  ns_pod_cidr : option string;
  ns_pod_cidrs : list string;
}.

Record Node := mkNode { nd_metadata : ObjectMeta; nd_spec : NodeSpec }.

Record ListMeta := mkListMeta { lm_resource_version : option string }.

Record NodeList := mkNodeList { nl_metadata : ListMeta; nl_items : list Node }.

Record PodSpec := mkPodSpec { ps_node_name : option string }.

Record Pod := mkPod { pd_metadata : ObjectMeta; pd_spec : PodSpec }.

Inductive WatchEventType := WtAdded | WtModified | WtDeleted | WtBookmark | WtError.

Record WatchEvent (T : Type) := mkWatchEvent { we_event_type : WatchEventType; we_object : T }.
Arguments mkWatchEvent {T} _ _.
Arguments we_event_type {T} _.
Arguments we_object {T} _.

Record Status := mkStatus { st_message : string; st_reason : string; st_code : Z }.

(** [Display for Status] *)
Definition Status_fmt (s : Status) : string :=
  st_message s +:+ " (reason: " +:+ st_reason s +:+ ", code: " +:+ fmt_dec (st_code s) +:+ ")".

Definition is_expired (status : Status) : bool :=
  (st_code status =? 410) || String.eqb (st_reason status) "Expired".

#[global] Instance ObjectMeta_eq_dec : EqDecision ObjectMeta.
Proof. solve_decision. Defined.
#[global] Instance NodeSpec_eq_dec : EqDecision NodeSpec.
Proof. solve_decision. Defined.
#[global] Instance Node_eq_dec : EqDecision Node.
Proof. solve_decision. Defined.
#[global] Instance WatchEventType_eq_dec : EqDecision WatchEventType.
Proof. solve_decision. Defined.

(** [node.metadata.name], used everywhere. *)
Definition node_name (node : Node) : string := om_name (nd_metadata node).

(** ** [annotations.rs] *)

Record Annotations := mkAnnotations {
  an_subnet_kube_managed : string;
  an_backend_data : string;
  an_backend_v6_data : string;
  an_backend_type : string;
  an_backend_public_ip : string;
  an_backend_public_ipv6 : string;
  an_backend_node_public_ip : string;
  an_backend_node_public_ipv6 : string;
  an_backend_public_ip_overwrite : string;
  an_backend_public_ipv6_overwrite : string;
}.

Inductive AnnotationsError := TooManySlashes | BadPrefixFormat.

Definition annotations_of (prefix : string) : Annotations := {|
  an_subnet_kube_managed := prefix +:+ "kube-subnet-manager";
  an_backend_data := prefix +:+ "backend-data";
  an_backend_v6_data := prefix +:+ "backend-v6-data";
  an_backend_type := prefix +:+ "backend-type";
  an_backend_public_ip := prefix +:+ "public-ip";
  an_backend_node_public_ip := prefix +:+ "node-public-ip";
  an_backend_public_ip_overwrite := prefix +:+ "public-ip-overwrite";
  an_backend_public_ipv6 := prefix +:+ "public-ipv6";
  an_backend_node_public_ipv6 := prefix +:+ "node-public-ipv6";
  an_backend_public_ipv6_overwrite := prefix +:+ "public-ipv6-overwrite";
|}.

(** [is_match] is [Regex::is_match] of the prefix expression. *)
Definition new_annotations (is_match : string -> bool) (prefix : string)
  : result Annotations AnnotationsError :=
  let slash_cnt := str_count "/" prefix in
  if (1 <? slash_cnt)%nat then Err TooManySlashes
  else
    let prefix := if (slash_cnt =? 0)%nat then prefix +:+ "/" else prefix in
    let prefix :=
      if negb (str_ends_with "/" prefix) && negb (str_ends_with "-" prefix)
      then prefix +:+ "-" else prefix in
    if negb (is_match prefix) then Err BadPrefixFormat
    else Ok (annotations_of prefix).

Definition annotation (map : gmap string string) (key : string) : string :=
  default "" (map !! key).

(** ** [events.rs]: from a node to a lease *)

Inductive LeaseError :=
| LeIp4 (e : IP4ParseError)
| LeIp6 (e : IP6ParseError)
| LeTooManyCidrs (node : string)
| LeMissingIp4
| LeMissingIp6.

(** [RawValue::from_string]: the value that a JSON text denotes, or nothing
    when the text is not JSON. *)
Class RawJson := raw_from_string : string -> option RawValue.

(** The loops over [pod_cidrs], with their [continue] and [break]. *)
Fixpoint first_ip4_cidr (cidrs : list string) : result (option IP4Net) LeaseError :=
  match cidrs with
  | [] => Ok None
  | pod_cidr :: rest =>
      if str_contains ":" pod_cidr then first_ip4_cidr rest
      else let? n := map_err LeIp4 (IP4Net_from_str pod_cidr) in Ok (Some n)
  end.

Fixpoint first_ip6_cidr (cidrs : list string) : result (option IP6Net) LeaseError :=
  match cidrs with
  | [] => Ok None
  | pod_cidr :: rest =>
      if negb (str_contains ":" pod_cidr) then first_ip6_cidr rest
      else let? n := map_err LeIp6 (IP6Net_from_str pod_cidr) in Ok (Some n)
  end.

(** The selection of the pod CIDR of each family. *)
Definition node_ip4_cidr (node : Node) : result IP4Net LeaseError :=
  let cidrs := ns_pod_cidrs (nd_spec node) in
  let? cidr :=
    match length cidrs with
    | 0%nat =>
        let s := default "" (ns_pod_cidr (nd_spec node)) in
        if str_contains ":" s then Ok None
        else let? n := map_err LeIp4 (IP4Net_from_str s) in Ok (Some n)
    | 1%nat | 2%nat => first_ip4_cidr cidrs
    | _ => Err (LeTooManyCidrs (node_name node))
    end in
  ok_or cidr LeMissingIp4.

Definition node_ip6_cidr (node : Node) : result IP6Net LeaseError :=
  let cidrs := ns_pod_cidrs (nd_spec node) in
  let? cidr :=
    match length cidrs with
    | 0%nat =>
        let s := default "" (ns_pod_cidr (nd_spec node)) in
        if str_contains ":" s
        then let? n := map_err LeIp6 (IP6Net_from_str s) in Ok (Some n)
        else Ok None
    | 1%nat | 2%nat => first_ip6_cidr cidrs
    | _ => Err (LeTooManyCidrs (node_name node))
    end in
  ok_or cidr LeMissingIp6.

Section Events.
Context `{RawJson}.

Definition raw_from_annotation (ann : gmap string string) (key : string) : option RawValue :=
  match ann !! key with
  | None => None
  | Some value => raw_from_string value
  end.

(** [node_to_lease]; the lease is built up in place, one family at a time. *)
Definition node_to_lease (node : Node) (annotations : Annotations)
    (enable_ipv4 enable_ipv6 : bool) : result Lease LeaseError :=
  let l := mkLease false false IP4Net_default IP6Net_default LeaseAttrs_default 0 0 in
  let ann := om_annotations (nd_metadata node) in
  let? l :=
    if enable_ipv4 then
      let? public_ip :=
        map_err LeIp4 (IP4_from_str (annotation ann (an_backend_public_ip annotations))) in
      let backend_data := raw_from_annotation ann (an_backend_data annotations) in
      let? cidr := node_ip4_cidr node in
      Ok (mkLease enable_ipv4 (l_enable_ipv6 l) cidr (l_ipv6_subnet l)
            (mkLeaseAttrs public_ip (la_public_ipv6 (l_attrs l)) (la_backend_type (l_attrs l))
               backend_data (la_backend_v6_data (l_attrs l)))
            (l_expiration l) (l_asof l))
    else Ok l in
  let? l :=
    if enable_ipv6 then
      let? public_ipv6 :=
        map_err LeIp6 (IP6_from_str (annotation ann (an_backend_public_ipv6 annotations))) in
      let backend_v6_data := raw_from_annotation ann (an_backend_v6_data annotations) in
      let? ipv6_cidr := node_ip6_cidr node in
      Ok (mkLease (l_enable_ipv4 l) enable_ipv6 (l_subnet l) ipv6_cidr
            (mkLeaseAttrs (la_public_ip (l_attrs l)) (Some public_ipv6)
               (la_backend_type (l_attrs l)) (la_backend_data (l_attrs l)) backend_v6_data)
            (l_expiration l) (l_asof l))
    else Ok l in
  Ok (mkLease (l_enable_ipv4 l) (l_enable_ipv6 l) (l_subnet l) (l_ipv6_subnet l)
        (mkLeaseAttrs (la_public_ip (l_attrs l)) (la_public_ipv6 (l_attrs l))
           (annotation ann (an_backend_type annotations))
           (la_backend_data (l_attrs l)) (la_backend_v6_data (l_attrs l)))
        (l_expiration l) (l_asof l)).

(** The pure fields of [EventEnv]; the token, the channel and the semaphore
    are those of the queue. *)
Record EventEnv := mkEventEnv {
  ee_annotations : Annotations;
  ee_enable_ipv4 : bool;
  ee_enable_ipv6 : bool;
}.

Definition env_lease (env : EventEnv) (node : Node) : result Lease LeaseError :=
  node_to_lease node (ee_annotations env) (ee_enable_ipv4 env) (ee_enable_ipv6 env).

Definition node_managed (env : EventEnv) (node : Node) : bool :=
  String.eqb (annotation (om_annotations (nd_metadata node))
                (an_subnet_kube_managed (ee_annotations env))) "true".

(** The call to [enqueue_lease_event] that ends both handlers. *)
Definition lease_event (env : EventEnv) (et : EventType) (node : Node) : option (string * Event) :=
  match env_lease env node with
  | Ok lease => Some (node_name node, mkEvent et lease)
  | Err _ => None
  end.

Definition handle_add_lease_event (env : EventEnv) (et : EventType) (node : Node)
  : option (string * Event) :=
  if negb (node_managed env node) then None else lease_event env et node.

(** [annotation(o, key) == annotation(n, key)] *)
Definition same_annotation (old new : Node) (key : string) : bool :=
  String.eqb (annotation (om_annotations (nd_metadata old)) key)
             (annotation (om_annotations (nd_metadata new)) key).

Definition lease_changed (env : EventEnv) (old new : Node) : bool :=
  let a := ee_annotations env in
  let changed := true in
  let changed :=
    if ee_enable_ipv4 env && same_annotation old new (an_backend_data a)
       && same_annotation old new (an_backend_type a)
       && same_annotation old new (an_backend_public_ip a)
    then false else changed in
  if ee_enable_ipv6 env && same_annotation old new (an_backend_v6_data a)
     && same_annotation old new (an_backend_type a)
     && same_annotation old new (an_backend_public_ipv6 a)
  then false else changed.

Definition handle_update_lease_event (env : EventEnv) (old new : Node) : option (string * Event) :=
  if negb (node_managed env new) then None
  else if negb (lease_changed env old new) then None
  else lease_event env Added new.
End Events.

(** ** Specification *)

(** The text of the pod CIDR of a family: the [podCIDR] field of a node
    without [podCIDRs], else the first entry of that family. *)
Definition cidr_text (is_v6 : bool) (spec : NodeSpec) : option string :=
  match ns_pod_cidrs spec with
  | [] =>
      let s := default "" (ns_pod_cidr spec) in
      if Bool.eqb (str_contains ":" s) is_v6 then Some s else None
  | [_] | [_; _] =>
      head (List.filter (fun c => Bool.eqb (str_contains ":" c) is_v6) (ns_pod_cidrs spec))
  | _ => None
  end.

(** What a node says of each family, and the lease made of it. *)
Definition node_ip4_data `{RawJson} (node : Node) (a : Annotations) (l : Lease) : Prop :=
  let ann := om_annotations (nd_metadata node) in
  (exists s, cidr_text false (nd_spec node) = Some s /\ IP4Net_from_str s = Ok (l_subnet l)) /\
  IP4_from_str (annotation ann (an_backend_public_ip a)) = Ok (la_public_ip (l_attrs l)) /\
  la_backend_data (l_attrs l) = raw_from_annotation ann (an_backend_data a).

Definition node_ip6_data `{RawJson} (node : Node) (a : Annotations) (l : Lease) : Prop :=
  let ann := om_annotations (nd_metadata node) in
  (exists s, cidr_text true (nd_spec node) = Some s /\ IP6Net_from_str s = Ok (l_ipv6_subnet l)) /\
  (exists ip, IP6_from_str (annotation ann (an_backend_public_ipv6 a)) = Ok ip /\
              la_public_ipv6 (l_attrs l) = Some ip) /\
  la_backend_v6_data (l_attrs l) = raw_from_annotation ann (an_backend_v6_data a).

Definition no_ip4_data (l : Lease) : Prop :=
  l_subnet l = IP4Net_default /\ la_public_ip (l_attrs l) = 0 /\ la_backend_data (l_attrs l) = None.

Definition no_ip6_data (l : Lease) : Prop :=
  l_ipv6_subnet l = IP6Net_default /\ la_public_ipv6 (l_attrs l) = None /\
  la_backend_v6_data (l_attrs l) = None.

Definition lease_of_node `{RawJson} (node : Node) (a : Annotations) (v4 v6 : bool) (l : Lease) : Prop :=
  l_enable_ipv4 l = v4 /\ l_enable_ipv6 l = v6 /\ l_expiration l = 0 /\ l_asof l = 0 /\
  la_backend_type (l_attrs l) = annotation (om_annotations (nd_metadata node)) (an_backend_type a) /\
  (if v4 then node_ip4_data node a l else no_ip4_data l) /\
  (if v6 then node_ip6_data node a l else no_ip6_data l).

(** What the code relies on: the empty text is not JSON, and the text of a
    raw value denotes that value. *)
Class RawJsonLaws `{RawJson} := {
  raw_empty : raw_from_string "" = None;
  raw_null : raw_from_string "null" = Some "null";
  raw_verbatim s r : raw_from_string s = Some r -> raw_from_string r = Some r;
}.

(** ** Lemmas *)

Lemma first_ip4_cidr_head cidrs :
  first_ip4_cidr cidrs =
  match head (List.filter (fun c => Bool.eqb (str_contains ":" c) false) cidrs) with
  | Some s => let? n := map_err LeIp4 (IP4Net_from_str s) in Ok (Some n)
  | None => Ok None
  end.
Proof.
  induction cidrs as [|c cidrs IH]; [done|]. cbn [first_ip4_cidr List.filter].
  by destruct (str_contains ":" c).
Qed.

Lemma first_ip6_cidr_head cidrs :
  first_ip6_cidr cidrs =
  match head (List.filter (fun c => Bool.eqb (str_contains ":" c) true) cidrs) with
  | Some s => let? n := map_err LeIp6 (IP6Net_from_str s) in Ok (Some n)
  | None => Ok None
  end.
Proof.
  induction cidrs as [|c cidrs IH]; [done|]. cbn [first_ip6_cidr List.filter].
  by destruct (str_contains ":" c).
Qed.

(** Both selections are the parse of [cidr_text]. *)
Lemma node_ip4_cidr_Ok node n :
  node_ip4_cidr node = Ok n <->
  exists s, cidr_text false (nd_spec node) = Some s /\ IP4Net_from_str s = Ok n.
Proof.
  unfold node_ip4_cidr, cidr_text.
  destruct (ns_pod_cidrs (nd_spec node)) as [|c1 [|c2 [|c3 cs]]]; cbn [length];
    rewrite ?first_ip4_cidr_head.
  1: destruct (str_contains ":" (default "" (ns_pod_cidr (nd_spec node)))).
  all: try destruct (head _) as [s|]; try (split; [done|by intros (? & ? & _)]).
  all: cbn [Bool.eqb]; destruct (IP4Net_from_str _) eqn:E;
    (split; [intros [= <-]; by eauto|intros (? & [= <-] & E'); rewrite E in E'; by inversion E']).
Qed.

Lemma node_ip6_cidr_Ok node n :
  node_ip6_cidr node = Ok n <->
  exists s, cidr_text true (nd_spec node) = Some s /\ IP6Net_from_str s = Ok n.
Proof.
  unfold node_ip6_cidr, cidr_text.
  destruct (ns_pod_cidrs (nd_spec node)) as [|c1 [|c2 [|c3 cs]]]; cbn [length];
    rewrite ?first_ip6_cidr_head.
  1: destruct (str_contains ":" (default "" (ns_pod_cidr (nd_spec node)))).
  all: try destruct (head _) as [s|]; try (split; [done|by intros (? & ? & _)]).
  all: cbn [Bool.eqb]; destruct (IP6Net_from_str _) eqn:E;
    (split; [intros [= <-]; by eauto|intros (? & [= <-] & E'); rewrite E in E'; by inversion E']).
Qed.

Section Leases.
Context `{HR : RawJson}.

Lemma node_to_lease_spec node a v4 v6 l :
  node_to_lease node a v4 v6 = Ok l <-> lease_of_node node a v4 v6 l.
Proof.
  unfold node_to_lease, lease_of_node, node_ip4_data, node_ip6_data, no_ip4_data, no_ip6_data.
  pose proof (node_ip4_cidr_Ok node) as H4. pose proof (node_ip6_cidr_Ok node) as H6.
  set (p4 := IP4_from_str _). set (p6 := IP6_from_str _).
  clearbody p4 p6. split.
  - destruct v4, v6; destruct p4 as [ip4|]; cbn; try done;
      destruct (node_ip4_cidr node) as [n4|]; cbn; try done;
      destruct p6 as [ip6|]; cbn; try done;
      destruct (node_ip6_cidr node) as [n6|]; cbn; try done;
      intros [= <-]; cbn; rewrite <- ?H4, <- ?H6; naive_solver.
  - destruct l as [b4 b6 s4 s6 [pi pi6 bt bd bd6] ex asf].
    cbn. intros (-> & -> & -> & -> & -> & Hv4 & Hv6). destruct v4, v6.
    all: try (destruct Hv4 as (->%H4 & -> & ->)); try (destruct Hv4 as (-> & -> & ->)).
    all: try (destruct Hv6 as (->%H6 & (ip & -> & ->) & ->)); try (destruct Hv6 as (-> & -> & ->)).
    all: done.
Qed.

(** A lease made of a node is well formed: only masked, valid networks. *)
Definition lease_nets_ok (l : Lease) : Prop :=
  (l_enable_ipv4 l = true ->
   IP4Net_valid (l_subnet l) /\ IP4Net_network (l_subnet l) = l_subnet l /\
   u32 (la_public_ip (l_attrs l))) /\
  (l_enable_ipv6 l = true ->
   IP6Net_valid (l_ipv6_subnet l) /\ IP6Net_network (l_ipv6_subnet l) = l_ipv6_subnet l).

Lemma lease_of_node_nets node a v4 v6 l : lease_of_node node a v4 v6 l -> lease_nets_ok l.
Proof.
  unfold lease_nets_ok. intros (-> & -> & _ & _ & _ & H4 & H6). split; intros ->; cbn in *.
  - destruct H4 as ((s & _ & Hs) & Hip & _). apply IP4Net_from_str_valid in Hs as [].
    by apply IP4_from_str_typed in Hip.
  - destruct H6 as ((s & _ & Hs) & _). by apply IP6Net_from_str_valid in Hs as [].
Qed.

(** The change test reads an absent annotation as an empty one, which makes
    no difference to the raw values. *)
Context `{!RawJsonLaws}.

Lemma raw_from_annotation_alt ann key :
  raw_from_annotation ann key = raw_from_string (annotation ann key).
Proof. unfold raw_from_annotation, annotation. by destruct (ann !! key); cbn; rewrite ?raw_empty. Qed.

Lemma lease_of_node_same_ip4 old new a l :
  nd_spec old = nd_spec new ->
  same_annotation old new (an_backend_data a) = true ->
  same_annotation old new (an_backend_type a) = true ->
  same_annotation old new (an_backend_public_ip a) = true ->
  lease_of_node old a true false l -> lease_of_node new a true false l.
Proof.
  unfold same_annotation, lease_of_node, node_ip4_data. rewrite !String.eqb_eq.
  rewrite !raw_from_annotation_alt. by intros -> -> -> ->.
Qed.

Lemma lease_of_node_same_ip6 old new a l :
  nd_spec old = nd_spec new ->
  same_annotation old new (an_backend_v6_data a) = true ->
  same_annotation old new (an_backend_type a) = true ->
  same_annotation old new (an_backend_public_ipv6 a) = true ->
  lease_of_node old a false true l -> lease_of_node new a false true l.
Proof.
  unfold same_annotation, lease_of_node, node_ip6_data. rewrite !String.eqb_eq.
  rewrite !raw_from_annotation_alt. by intros -> -> -> ->.
Qed.

Lemma same_annotation_sym old new key : same_annotation old new key = same_annotation new old key.
Proof. apply String.eqb_sym. Qed.

Lemma lease_changed_sym env old new : lease_changed env old new = lease_changed env new old.
Proof. unfold lease_changed. by rewrite !(same_annotation_sym old new). Qed.

Lemma env_lease_unchanged env old new l :
  ee_enable_ipv4 env <> ee_enable_ipv6 env ->
  nd_spec old = nd_spec new -> lease_changed env old new = false ->
  env_lease env old = Ok l -> env_lease env new = Ok l.
Proof.
  unfold env_lease. rewrite !node_to_lease_spec. destruct env as [a v4 v6]; cbn.
  unfold lease_changed; cbn. intros Hx Hspec Hc.
  destruct v4, v6; try done; cbn in Hc; split_match; try done; bool_to_prop.
  - by apply lease_of_node_same_ip4.
  - by apply lease_of_node_same_ip6.
Qed.
End Leases.

(** ** Properties *)

(** C32: a node yields a lease exactly when each enabled family has a public
    address annotation that parses and a first pod CIDR of that family that
    parses (at most two pod CIDRs in all); the lease then carries precisely
    that data, the other family stays at its defaults, and its networks are
    valid and masked. *)
Theorem node_to_lease_iff `{RawJson} node a v4 v6 :
  forall l, node_to_lease node a v4 v6 = Ok l <-> lease_of_node node a v4 v6 l /\ lease_nets_ok l.
Proof.
  intros l. rewrite node_to_lease_spec. split; [|by intros []].
  intros Hl. split; [done|by eapply lease_of_node_nets].
Qed.

(** In a single-stack cluster whose pod CIDRs are fixed, the update
    handler misses no change of a lease: when the node yields a lease it did
    not yield before, that lease is sent as an [Added] event. *)
Theorem update_event_detects `{RawJson, !RawJsonLaws} env old new l :
  ee_enable_ipv4 env <> ee_enable_ipv6 env ->
  nd_spec old = nd_spec new ->
  node_managed env new = true ->
  env_lease env new = Ok l -> env_lease env old <> Ok l ->
  handle_update_lease_event env old new = Some (node_name new, mkEvent Added l).
Proof.
  intros Hx Hspec Hm Hnew Hold. unfold handle_update_lease_event, lease_event. rewrite Hm. cbn.
  destruct (lease_changed env old new) eqn:Hc; cbn; [by rewrite Hnew|].
  exfalso. apply Hold. rewrite lease_changed_sym in Hc. by eapply env_lease_unchanged.
Qed.

(** ** A node and an environment for the witnesses *)

(** A reader of raw values that accepts the texts it is shown, but the empty
    one. *)
Definition sample_raw : RawJson := fun s => if String.eqb s "" then None else Some s.

#[global] Instance sample_raw_laws : @RawJsonLaws sample_raw.
Proof.
  split; [done..|]. intros s r. unfold raw_from_string, sample_raw.
  destruct (String.eqb_spec s ""); [done|]. intros [= <-]. by apply String.eqb_neq in n as ->.
Qed.

Definition sample_annotations : Annotations := annotations_of "flannel.alpha.coreos.com/".

Definition sample_node (name ip cidr data : string) : Node :=
  let a := sample_annotations in
  mkNode (mkObjectMeta name "uid" (Some "7")
            (list_to_map [(an_subnet_kube_managed a, "true"); (an_backend_type a, "vxlan");
                          (an_backend_public_ip a, ip); (an_backend_data a, data)]))
         (mkNodeSpec (Some cidr) [cidr]).

Definition sample_env : EventEnv := mkEventEnv sample_annotations true false.

Definition sample_node_lease (ip cidr : IP4Net) (data : string) : Lease :=
  mkLease true false cidr IP6Net_default
    (mkLeaseAttrs (ip4n_ip ip) None "vxlan" (Some data) None) 0 0.

Definition cidr_of (a b c d plen : Z) : IP4Net := mkIP4Net (IP4_from_octets a b c d) plen.

Lemma update_event_detects_witness :
  @handle_update_lease_event sample_raw sample_env
    (sample_node "n1" "192.168.0.2" "10.244.1.0/24" "{1}")
    (sample_node "n1" "192.168.0.9" "10.244.1.0/24" "{1}")
  = Some ("n1", mkEvent Added
            (sample_node_lease (cidr_of 192 168 0 9 32) (cidr_of 10 244 1 0 24) "{1}")).
Proof.
  refine (@update_event_detects sample_raw sample_raw_laws sample_env
    (sample_node "n1" "192.168.0.2" "10.244.1.0/24" "{1}")
    (sample_node "n1" "192.168.0.9" "10.244.1.0/24" "{1}") _ _ _ _ _ _).
  - done.
  - done.
  - by vm_compute.
  - by vm_compute.
  - by vm_compute.
Defined.
