(* ===== verification/KubeClient.v ===== *)
(** * [kube/client.rs], [kube/watch.rs]: answers of the API server

    How an HTTP answer becomes a value or a [KubeError], and the decoder of
    the watch stream: newline-delimited JSON frames, cut into chunks at
    arbitrary places.  [serde_json]'s decoders of the frame, of a node, of a
    status and of a response body are the interface [KubeJson]; the HTTP
    exchange is an argument.  A text is its bytes, as in RustStr. *)

From S2P Require Import Prelude RustStr Utf8 IpNet Ip6Net Lease Config KubeNode.
#[local] Open Scope string_scope.
#[local] Open Scope list_scope.
#[local] Open Scope Z_scope.

(** The errors of the decoders, by the message each is wrapped in. *)
Inductive DecodeError :=
| DeTransport (e : string)
| DeUtf8 (line : string)
| DeFrame (line e : string)
| DeStatus (e : string)
| DeNode (event_type : WatchEventType) (e : string)
| DeBody (resource e : string).

Inductive KubeError :=
| KeHttp (e : string)
| KeApi (status : Status)
| KeNotFound (resource : string)
| KeGone
| KeConfig (e : string)
| KeDecode (e : DecodeError)
| KeCanceled.

Inductive PatchType := StrategicMerge | Merge.

Definition content_type (p : PatchType) : string :=
  match p with
  | StrategicMerge => "application/strategic-merge-patch+json"
  | Merge => "application/merge-patch+json"
  end.

(** What the client uses of [serde_json]. *)
Class KubeJson := {
  (** the [Frame] of a watch line: its type, its object kept as a value *)
  kj_frame : string -> result (WatchEventType * Value) string;
  kj_node : Value -> result Node string;
  kj_status : Value -> result Status string;
  kj_status_body : string -> result Status string;
}.

(** [String::from_utf8] *)
Definition from_utf8 (s : string) : result string DecodeError :=
  if bool_decide (is_utf8 (as_bytes s)) then Ok s else Err (DeUtf8 s).

Section Client.
Context `{KubeJson}.

(** ** Error answers *)

Definition status_error (code : Z) (body : string) : KubeError :=
  let status :=
    match kj_status_body body with Ok s => s | Err _ => mkStatus body "Unknown" code end in
  let status :=
    if st_code status =? 0 then mkStatus (st_message status) (st_reason status) code else status in
  if is_expired status then KeGone else KeApi status.

(** What happens first on a one-shot request: the token fires, the transport
    fails, or an answer (status code and body) arrives. *)
Inductive Exchange :=
| ExCancelled
| ExFailed (e : string)
| ExAnswer (code : Z) (body : string).

Definition is_success (code : Z) : bool := (200 <=? code) && (code <? 300).

Definition request_json {T} (decode : string -> result T string) (resource : string) (x : Exchange)
  : result T KubeError :=
  match x with
  | ExCancelled => Err KeCanceled
  | ExFailed e => Err (KeHttp e)
  | ExAnswer code body =>
      if code =? 404 then Err (KeNotFound resource)
      else if negb (is_success code) then Err (status_error code body)
      else map_err (fun e => KeDecode (DeBody resource e)) (decode body)
  end.

(** ** The watch stream *)

Definition parse_watch_line (line : string) : result (WatchEvent Node) KubeError :=
  let? (event_type, object) := map_err (fun e => KeDecode (DeFrame line e)) (kj_frame line) in
  match event_type with
  | WtError =>
      let? status := map_err (fun e => KeDecode (DeStatus e)) (kj_status object) in
      if is_expired status then Err KeGone else Err (KeApi status)
  | _ =>
      let? node := map_err (fun e => KeDecode (DeNode event_type e)) (kj_node object) in
      Ok (mkWatchEvent event_type node)
  end.

(** The lines that the loop of [decode_lines] drains from the buffer, each
    without its newline, and what is left in the buffer. *)
Fixpoint drain (buf : string) : list string * string :=
  match buf with
  | EmptyString => ([], "")
  | String c buf' =>
      let '(ls, r) := drain buf' in
      if Ascii.eqb c NL then ("" :: ls, r)
      else match ls with
           | [] => ([], String c r)
           | l :: ls => (String c l :: ls, r)
           end
  end.

(** One drained line: nothing for an empty one. *)
Definition decode_line (line : string) : result (option (WatchEvent Node)) KubeError :=
  let line := strip_cr line in
  if str_is_empty line then Ok None
  else
    let? text := map_err KeDecode (from_utf8 line) in
    let? event := parse_watch_line text in
    Ok (Some event).

Fixpoint decode_each (lines : list string) : result (list (WatchEvent Node)) KubeError :=
  match lines with
  | [] => Ok []
  | line :: rest =>
      let? event := decode_line line in
      let? events := decode_each rest in
      Ok (match event with Some e => e :: events | None => events end)
  end.

Definition decode_lines (buf : string) : string * result (list (WatchEvent Node)) KubeError :=
  let '(lines, rest) := drain buf in (rest, decode_each lines).

(** [take_trailing]: the newlines and carriage returns at the end go. *)
Fixpoint strip_eol (s : string) : string :=
  match s with
  | EmptyString => ""
  | String c s' =>
      let t := strip_eol s' in
      if str_is_empty t && (Ascii.eqb c NL || Ascii.eqb c CR) then "" else String c t
  end.

Definition take_trailing (buf : string) : string := text_of (from_utf8_lossy (as_bytes (strip_eol buf))).

(** The items of the stream; an error ends it. *)
Fixpoint decode_from (buf : string) (chunks : list (result string string))
  : list (result (WatchEvent Node) KubeError) :=
  match chunks with
  | [] =>
      if str_is_empty buf then []
      else
        let line := take_trailing buf in
        if str_is_empty line then [] else [parse_watch_line line]
  | Err e :: _ => [Err (KeDecode (DeTransport e))]
  | Ok chunk :: rest =>
      match decode_lines (buf +:+ chunk) with
      | (_, Err e) => [Err e]
      | (buf', Ok events) => map Ok events ++ decode_from buf' rest
      end
  end.

Definition decode_watch_stream (chunks : list (result string string))
  : list (result (WatchEvent Node) KubeError) := decode_from "" chunks.

(** ** Specification: one frame per line of the whole text *)

Definition line_item (line : string) : list (result (WatchEvent Node) KubeError) :=
  match decode_line line with
  | Ok None => []
  | Ok (Some e) => [Ok e]
  | Err e => [Err e]
  end.

Definition frame_items (text : string) : list (result (WatchEvent Node) KubeError) :=
  let '(lines, rest) := drain text in
  concat (map line_item lines)
  ++ (let line := take_trailing rest in
      if str_is_empty line then [] else [parse_watch_line line]).
End Client.

(** The values before the first error, and that error. *)
Fixpoint oks {T E} (l : list (result T E)) : list T :=
  match l with
  | Ok x :: l => x :: oks l
  | _ => []
  end.

Fixpoint first_err {T E} (l : list (result T E)) : option E :=
  match l with
  | [] => None
  | Ok _ :: l => first_err l
  | Err e :: _ => Some e
  end.

Fixpoint str_concat (l : list string) : string :=
  match l with
  | [] => ""
  | s :: l => s +:+ str_concat l
  end.

(** ** Lemmas *)

Lemma drain_app a b :
  drain (a +:+ b) =
  let '(la, ra) := drain a in let '(lb, rb) := drain (ra +:+ b) in (la ++ lb, rb).
Proof.
  induction a as [|c a IH]; cbn; [by destruct (drain b)|].
  rewrite IH. destruct (drain a) as [la ra].
  destruct (Ascii.eqb c NL) eqn:Hc; [by destruct (drain (ra +:+ b))|].
  destruct la as [|l la]; cbn; rewrite ?Hc; destruct (drain (ra +:+ b)) as [[|l' lb] rb]; done.
Qed.

Lemma drain_rest a la ra : drain a = (la, ra) -> drain ra = ([], ra).
Proof.
  revert la ra. induction a as [|c a IH]; cbn; intros la ra; [by intros [= <- <-]|].
  destruct (drain a) as [la' ra'] eqn:E. specialize (IH _ _ eq_refl).
  destruct (Ascii.eqb c NL) eqn:Hc; [by intros [= <- <-]|].
  destruct la'; intros [= <- <-]; [|done]. cbn. by rewrite IH, Hc.
Qed.

Lemma drain_line s t :
  str_contains NL s = false ->
  drain (s +:+ String NL t) = let '(ls, r) := drain t in (s :: ls, r).
Proof.
  induction s as [|c s IH]; [done|]. cbn. intros Hc. apply orb_false_iff in Hc as [Hc Hs].
  rewrite IH by done. destruct (drain t) as [ls r]. by rewrite Hc.
Qed.

Lemma oks_map_Ok {T E} (xs : list T) (l : list (result T E)) : oks (map Ok xs ++ l) = xs ++ oks l.
Proof. induction xs; cbn; congruence. Qed.

Lemma first_err_map_Ok {T E} (xs : list T) (l : list (result T E)) :
  first_err (map Ok xs ++ l) = first_err l.
Proof. by induction xs. Qed.

Lemma first_err_app {T E} (l l' : list (result T E)) e :
  first_err l = Some e -> first_err (l ++ l') = Some e.
Proof. induction l as [|[]]; cbn; done || auto. Qed.

Section ClientProofs.
Context `{KubeJson}.

Lemma decode_each_items lines :
  match decode_each lines with
  | Ok events => concat (map line_item lines) = map Ok events
  | Err e => first_err (concat (map line_item lines)) = Some e
  end.
Proof.
  induction lines as [|l lines IH]; [done|]. cbn [decode_each map concat]. unfold line_item at 1 3.
  destruct (decode_line l) as [[ev|]|e]; cbn; [| |done].
  all: by destruct (decode_each lines); cbn; rewrite ?IH.
Qed.

Lemma frame_items_step buf text l r :
  drain buf = (l, r) ->
  frame_items (buf +:+ text) = concat (map line_item l) ++ frame_items (r +:+ text).
Proof.
  intros Hd. unfold frame_items. rewrite drain_app, Hd.
  destruct (drain (r +:+ text)) as [lb rb]. by rewrite map_app, concat_app, app_assoc.
Qed.

Lemma decode_from_end buf : drain buf = ([], buf) -> decode_from buf [] = frame_items buf.
Proof. intros Hd. unfold frame_items. rewrite Hd. cbn. by destruct buf. Qed.

Lemma decode_from_frames chunks buf :
  drain buf = ([], buf) ->
  let items := decode_from buf (map Ok chunks) in
  let frames := frame_items (buf +:+ str_concat chunks) in
  first_err items = first_err frames /\ prefix (oks items) (oks frames) /\
  (first_err frames = None -> items = frames).
Proof.
  revert buf. induction chunks as [|c chunks IH]; intros buf Hbuf.
  { cbn [map str_concat]. rewrite string_app_nil_r, decode_from_end; done. }
  cbn [map decode_from str_concat]. rewrite <- string_app_assoc.
  unfold decode_lines. destruct (drain (buf +:+ c)) as [l r] eqn:Hd.
  rewrite (frame_items_step _ _ _ _ Hd). pose proof (decode_each_items l) as He.
  destruct (decode_each l) as [events|e].
  - destruct (IH r (drain_rest _ _ _ Hd)) as (H1 & H2 & H3). rewrite He.
    rewrite !oks_map_Ok, !first_err_map_Ok. split_and!; [done|by apply prefix_app|].
    intros Hn. by rewrite (H3 Hn).
  - cbn. rewrite (first_err_app _ _ _ He). split_and!; [done|apply prefix_nil|done].
Qed.
End ClientProofs.

(** ** Properties *)

(** C34: the watch decoder does not depend on how the stream is cut into
    chunks: its items are those of the lines of the whole text, one frame per
    non-empty line and a last one without a newline; if a line is in error
    the stream ends with the error of the first such line, after a part of
    the events before it. *)
Theorem watch_stream_frames `{KubeJson} chunks :
  let items := decode_watch_stream (map Ok chunks) in
  let frames := frame_items (str_concat chunks) in
  first_err items = first_err frames /\ prefix (oks items) (oks frames) /\
  (first_err frames = None -> items = frames).
Proof. apply (decode_from_frames chunks ""). reflexivity. Qed.

(** Events before an erroneous line of the same chunk are dropped: the same
    text, cut after the first line, yields the event. *)
Theorem watch_stream_drops_events `{KubeJson} good bad ev e :
  str_contains NL good = false -> str_contains NL bad = false ->
  decode_line good = Ok (Some ev) -> decode_line bad = Err e ->
  decode_watch_stream [Ok (good +:+ String NL (bad +:+ String NL ""))] = [Err e] /\
  decode_watch_stream [Ok (good +:+ String NL ""); Ok (bad +:+ String NL "")] = [Ok ev; Err e].
Proof.
  intros Hg Hb Eg Eb. unfold decode_watch_stream, decode_from, decode_lines. cbn [String.app].
  rewrite !drain_line by done. cbn [drain decode_each rbind]. rewrite Eg. cbn [rbind map app String.app].
  rewrite !drain_line by done. cbn [drain decode_each rbind]. by rewrite Eb.
Qed.
