(* ===== verification/EventQueue.v ===== *)
(** * [subnet/kube/events.rs]: [enqueue_lease_event]

    The bounded channel between the informer and the watchers, with the
    retry tasks that take over when it is full.  The state holds the
    channel's buffer, the free slots of the semaphore, the spawned tasks and
    the handler blocked on the semaphore (there is one informer, so at most
    one).  An input says what the runtime does next: the informer calls
    [enqueue_lease_event], the blocked handler or a retry task is polled,
    the consumer receives, the token is cancelled or the receiver dropped.
    Delays are in milliseconds. *)

From S2P Require Import Prelude RustStr IpNet Ip6Net Lease.
#[local] Open Scope string_scope.
#[local] Open Scope list_scope.
#[local] Open Scope Z_scope.

Definition ASYNC_SEND_SLOTS : nat := 100.
Definition RETRY_BACKOFF : Z := 100.
Definition RETRY_MAX_BACKOFF : Z := 5000.

(** The state of a spawned retry loop. *)
Record RetryTask := mkRetryTask {
  rt_node_name : string;
  rt_event : Event;
  rt_backoff : Z;
}.

Record EventQueue := mkEventQueue {
  eq_capacity : nat;
  eq_buffer : list Event;
  eq_closed : bool;
  eq_cancelled : bool;
  eq_permits : nat;
  eq_tasks : list RetryTask;
  eq_waiting : option (string * Event);
}.

Definition EventQueue_new (capacity : nat) : EventQueue :=
  mkEventQueue capacity [] false false ASYNC_SEND_SLOTS [] None.

Definition set_buffer (q : EventQueue) (b : list Event) : EventQueue :=
  mkEventQueue (eq_capacity q) b (eq_closed q) (eq_cancelled q) (eq_permits q) (eq_tasks q)
    (eq_waiting q).
Definition set_tasks (q : EventQueue) (permits : nat) (ts : list RetryTask) : EventQueue :=
  mkEventQueue (eq_capacity q) (eq_buffer q) (eq_closed q) (eq_cancelled q) permits ts
    (eq_waiting q).
Definition set_waiting (q : EventQueue) (w : option (string * Event)) : EventQueue :=
  mkEventQueue (eq_capacity q) (eq_buffer q) (eq_closed q) (eq_cancelled q) (eq_permits q)
    (eq_tasks q) w.

(** [mpsc::Sender::try_send] *)
Inductive TrySend := Sent (q : EventQueue) | Full | Closed.

Definition try_send (q : EventQueue) (evt : Event) : TrySend :=
  if eq_closed q then Closed
  else if (length (eq_buffer q) <? eq_capacity q)%nat
       then Sent (set_buffer q (eq_buffer q ++ [evt]))
       else Full.

(** The [select!] on the semaphore: cancelled first, else a free slot spawns
    the retry task, else the caller keeps waiting. *)
Definition acquire_slot (q : EventQueue) (name : string) (evt : Event) : EventQueue :=
  if eq_cancelled q then set_waiting q None
  else match eq_permits q with
       | O => set_waiting q (Some (name, evt))
       | S p => set_waiting (set_tasks q p (eq_tasks q ++ [mkRetryTask name evt RETRY_BACKOFF])) None
       end.

Definition enqueue_lease_event (q : EventQueue) (name : string) (evt : Event) : EventQueue :=
  match try_send q evt with
  | Sent q' => q'
  | Closed => q
  | Full => acquire_slot q name evt
  end.

(** The task at position [i] returns, dropping its permit. *)
Definition end_task (q : EventQueue) (i : nat) : EventQueue :=
  set_tasks q (S (eq_permits q)) (delete i (eq_tasks q)).

(** One round of the retry loop: the token, or the end of the sleep and a
    new attempt. *)
Definition retry_round (q : EventQueue) (i : nat) (t : RetryTask) : EventQueue :=
  if eq_cancelled q then end_task q i
  else match try_send q (rt_event t) with
       | Sent q' => end_task q' i
       | Closed => end_task q i
       | Full =>
           set_tasks q (eq_permits q)
             (<[i := mkRetryTask (rt_node_name t) (rt_event t)
                       (Z.min (rt_backoff t * 2) RETRY_MAX_BACKOFF)]> (eq_tasks q))
       end.

Inductive QueueInput :=
| QEnqueue (name : string) (evt : Event)
| QWake
| QRetry (i : nat)
| QRecv
| QCancel
| QDropReceiver.

(** A step, with what the consumer receives in it; [None]: not possible. *)
Definition queue_step (q : EventQueue) (i : QueueInput) : option (EventQueue * list Event) :=
  match i with
  | QEnqueue name evt =>
      match eq_waiting q with
      | Some _ => None
      | None => Some (enqueue_lease_event q name evt, [])
      end
  | QWake =>
      match eq_waiting q with
      | None => None
      | Some (name, evt) => Some (acquire_slot q name evt, [])
      end
  | QRetry i =>
      match eq_tasks q !! i with
      | None => None
      | Some t => Some (retry_round q i t, [])
      end
  | QRecv =>
      match eq_buffer q with
      | [] => None
      | e :: b => Some (set_buffer q b, [e])
      end
  | QCancel =>
      Some (mkEventQueue (eq_capacity q) (eq_buffer q) (eq_closed q) true (eq_permits q)
              (eq_tasks q) (eq_waiting q), [])
  | QDropReceiver =>
      Some (mkEventQueue (eq_capacity q) [] true (eq_cancelled q) (eq_permits q)
              (eq_tasks q) (eq_waiting q), [])
  end.

Fixpoint queue_run (q : EventQueue) (ins : list QueueInput) : option (EventQueue * list Event) :=
  match ins with
  | [] => Some (q, [])
  | i :: ins =>
      match queue_step q i with
      | None => None
      | Some (q', out) =>
          match queue_run q' ins with
          | None => None
          | Some (q'', out') => Some (q'', out ++ out')
          end
      end
  end.

(** ** Specification *)

Definition offered_event (i : QueueInput) : list Event :=
  match i with QEnqueue _ e => [e] | _ => [] end.

Definition offered (ins : list QueueInput) : list Event := concat (map offered_event ins).

(** The events still on their way. *)
Definition pending (q : EventQueue) : list Event :=
  eq_buffer q ++ map rt_event (eq_tasks q)
  ++ match eq_waiting q with Some (_, e) => [e] | None => [] end.

Definition stops_queue (i : QueueInput) : bool :=
  match i with QCancel | QDropReceiver => true | _ => false end.

(** A delay of the retry loop: 100 ms doubled some number of times, at most 5 s. *)
Definition is_backoff (b : Z) : Prop :=
  exists k, 0 <= k /\ b = Z.min (RETRY_BACKOFF * 2 ^ k) RETRY_MAX_BACKOFF.

Record queue_inv (q : EventQueue) : Prop := {
  qi_buffer : (length (eq_buffer q) <= eq_capacity q)%nat;
  qi_permits : (eq_permits q + length (eq_tasks q) = ASYNC_SEND_SLOTS)%nat;
  qi_backoff : Forall (fun t => is_backoff (rt_backoff t)) (eq_tasks q);
}.

(** ** Lemmas *)

Lemma is_backoff_first : is_backoff RETRY_BACKOFF.
Proof. by exists 0. Qed.

Lemma is_backoff_next b : is_backoff b -> is_backoff (Z.min (b * 2) RETRY_MAX_BACKOFF).
Proof.
  intros (k & Hk & ->). exists (k + 1). split; [lia|]. rewrite Z.pow_add_r by lia.
  unfold RETRY_BACKOFF, RETRY_MAX_BACKOFF. change (2 ^ 1) with 2. lia.
Qed.

Lemma queue_inv_new capacity : queue_inv (EventQueue_new capacity).
Proof. split; [cbn; lia|done|constructor]. Qed.

#[local] Hint Resolve is_backoff_first is_backoff_next : flannel.

Lemma end_task_inv q i t :
  queue_inv q -> eq_tasks q !! i = Some t -> queue_inv (end_task q i).
Proof.
  intros [Hb Hp Hf] Hi. split; cbn; [done| |by apply Forall_delete].
  apply lookup_lt_Some in Hi as Hlt. rewrite length_delete by done. lia.
Qed.

Lemma set_buffer_inv q b :
  (length b <= eq_capacity q)%nat -> queue_inv q -> queue_inv (set_buffer q b).
Proof. intros ? [? ? ?]. by split. Qed.

Lemma try_send_Sent q e q' :
  try_send q e = Sent q' ->
  q' = set_buffer q (eq_buffer q ++ [e]) /\ (length (eq_buffer q) < eq_capacity q)%nat /\
  eq_closed q = false.
Proof.
  unfold try_send. destruct (eq_closed q); [done|].
  destruct (Nat.ltb_spec (length (eq_buffer q)) (eq_capacity q)); [|done]. by intros [= <-].
Qed.

Lemma acquire_slot_inv q name e : queue_inv q -> queue_inv (acquire_slot q name e).
Proof.
  intros [Hb Hp Hf]. unfold acquire_slot.
  destruct (eq_cancelled q); [by split|]. destruct (eq_permits q) eqn:E; [by split; cbn; rewrite ?E|].
  split; cbn; [done|rewrite length_app; cbn; lia|].
  apply Forall_app. split; [done|]. by constructor; auto with flannel.
Qed.

Lemma queue_step_inv q i q' out : queue_inv q -> queue_step q i = Some (q', out) -> queue_inv q'.
Proof.
  intros Hq. destruct i as [name e| |j| | |]; cbn.
  - destruct (eq_waiting q); [done|]. intros [= <- _]. unfold enqueue_lease_event.
    destruct (try_send q e) as [q1| |] eqn:E; [|by apply acquire_slot_inv|done].
    apply try_send_Sent in E as (-> & Hlt & _). apply set_buffer_inv; [|done].
    rewrite length_app. cbn. lia.
  - destruct (eq_waiting q) as [[]|]; [|done]. intros [= <- _]. by apply acquire_slot_inv.
  - destruct (eq_tasks q !! j) as [t|] eqn:Hj; [|done]. intros [= <- _]. unfold retry_round.
    destruct (eq_cancelled q); [by eapply end_task_inv|].
    destruct (try_send q (rt_event t)) as [q1| |] eqn:E; [| |by eapply end_task_inv].
    + apply try_send_Sent in E as (-> & Hlt & _). eapply end_task_inv; [|done].
      apply set_buffer_inv; [|done]. rewrite length_app. cbn. lia.
    + destruct Hq as [Hb Hp Hf]. split; cbn; [done|by rewrite length_insert|].
      apply Forall_insert; [done|]. cbn. apply is_backoff_next.
      by eapply (list.Forall_lookup_1 _ _ _ _ Hf).
  - destruct (eq_buffer q) as [|e b] eqn:E; [done|]. intros [= <- _].
    apply set_buffer_inv; [|done]. destruct Hq as [Hb _ _]. rewrite E in Hb. cbn in Hb. lia.
  - intros [= <- _]. by destruct Hq.
  - intros [= <- _]. destruct Hq. split; [cbn; lia|done..].
Qed.

Definition running (q : EventQueue) : Prop := eq_closed q = false /\ eq_cancelled q = false.

Lemma pending_end_task q i t :
  eq_tasks q !! i = Some t -> pending q ≡ₚ rt_event t :: pending (end_task q i).
Proof.
  intros Hi. unfold pending. cbn. rewrite (delete_Permutation _ _ _ Hi) at 1. cbn.
  by rewrite <- Permutation_middle.
Qed.

Lemma pending_push q e : pending (set_buffer q (eq_buffer q ++ [e])) ≡ₚ e :: pending q.
Proof. unfold pending. cbn. rewrite <- app_assoc. cbn. by rewrite <- Permutation_middle. Qed.

Lemma pending_retry_full q i t t' :
  eq_tasks q !! i = Some t -> rt_event t' = rt_event t ->
  pending (set_tasks q (eq_permits q) (<[i := t']> (eq_tasks q))) = pending q.
Proof.
  intros Hi He. unfold pending. cbn. do 2 f_equal.
  apply list_eq. intros j.
  change (map rt_event) with (fmap (M := list) rt_event). rewrite !list_lookup_fmap.
  destruct (decide (i = j)) as [<-|Hne].
  - rewrite list_lookup_insert_eq by (by eapply lookup_lt_Some). by rewrite Hi; cbn; rewrite He.
  - by rewrite list_lookup_insert_ne.
Qed.

Lemma acquire_slot_pending q name e :
  eq_cancelled q = false ->
  pending (acquire_slot q name e) ≡ₚ e :: pending (set_waiting q None).
Proof.
  intros Hc. unfold acquire_slot. rewrite Hc. unfold pending.
  destruct (eq_permits q); cbn; rewrite ?map_app; cbn; rewrite ?app_nil_r.
  - rewrite (assoc_L (++)). by rewrite <- Permutation_cons_append.
  - rewrite (assoc_L (++)). by rewrite <- Permutation_cons_append.
Qed.

Lemma acquire_slot_running q name e : running q -> running (acquire_slot q name e).
Proof. intros []. unfold acquire_slot. rewrite H0. by destruct (eq_permits q). Qed.

Lemma set_waiting_id q : eq_waiting q = None -> set_waiting q None = q.
Proof. destruct q; cbn. by intros ->. Qed.

Lemma try_send_running q e : running q -> try_send q e <> Closed.
Proof. intros [Hc _]. unfold try_send. rewrite Hc. by destruct (_ <? _)%nat. Qed.

(** While the consumer is there and the token is not cancelled, a step moves
    events without losing or duplicating one. *)
Lemma queue_step_conserves q i q' out :
  running q -> stops_queue i = false -> queue_step q i = Some (q', out) ->
  running q' /\ out ++ pending q' ≡ₚ offered_event i ++ pending q.
Proof.
  intros Hr Hi. pose proof Hr as [Hcl Hca]. destruct i as [name e| |j| | |]; try done; cbn.
  - destruct (eq_waiting q) eqn:Hw; [done|]. intros [= <- <-]. unfold enqueue_lease_event.
    destruct (try_send q e) as [q1| |] eqn:E; [| |by apply try_send_running in E].
    + apply try_send_Sent in E as (-> & _). split; [done|apply pending_push].
    + split; [by apply acquire_slot_running|]. cbn. by rewrite acquire_slot_pending, set_waiting_id.
  - destruct (eq_waiting q) as [[name e]|] eqn:Hw; [|done]. intros [= <- <-].
    split; [by apply acquire_slot_running|]. cbn. rewrite acquire_slot_pending by done.
    unfold pending. cbn. rewrite Hw, app_nil_r. rewrite (assoc_L (++)).
    by rewrite <- Permutation_cons_append.
  - destruct (eq_tasks q !! j) as [t|] eqn:Hj; [|done]. intros [= <- <-]. unfold retry_round.
    rewrite Hca. destruct (try_send q (rt_event t)) as [q1| |] eqn:E; [| |by apply try_send_running in E].
    + apply try_send_Sent in E as (-> & _). split; [done|]. cbn [app offered_event].
      apply (Permutation_cons_inv (a := rt_event t)). by rewrite <- pending_end_task, pending_push.
    + split; [done|]. cbn [app offered_event]. by erewrite pending_retry_full.
  - destruct (eq_buffer q) as [|e b] eqn:E; [done|]. intros [= <- <-]. split; [done|].
    unfold pending. cbn. by rewrite E.
Qed.

(** In any case no event is made up or duplicated. *)
Lemma queue_step_sound q i q' out :
  queue_step q i = Some (q', out) -> out ++ pending q' ⊆+ offered_event i ++ pending q.
Proof.
  assert (Hacq : forall name e, pending (acquire_slot q name e) ⊆+ e :: pending (set_waiting q None)).
  { intros name e. destruct (eq_cancelled q) eqn:Hc; [|by rewrite acquire_slot_pending].
    unfold acquire_slot. rewrite Hc. by apply submseteq_cons. }
  destruct i as [name e| |j| | |]; cbn.
  - destruct (eq_waiting q) eqn:Hw; [done|]. intros [= <- <-]. unfold enqueue_lease_event.
    destruct (try_send q e) as [q1| |] eqn:E; cbn.
    + apply try_send_Sent in E as (-> & _). by rewrite pending_push.
    + by rewrite Hacq, set_waiting_id.
    + by apply submseteq_cons.
  - destruct (eq_waiting q) as [[name e]|] eqn:Hw; [|done]. intros [= <- <-]. cbn.
    rewrite Hacq. unfold pending. cbn. rewrite Hw, app_nil_r. rewrite (assoc_L (++)).
    by rewrite <- Permutation_cons_append.
  - destruct (eq_tasks q !! j) as [t|] eqn:Hj; [|done]. intros [= <- <-]. cbn [app].
    assert (Hend : pending (end_task q j) ⊆+ pending q).
    { rewrite (pending_end_task q j t Hj). by apply submseteq_cons. }
    unfold retry_round. destruct (eq_cancelled q); [done|].
    destruct (try_send q (rt_event t)) as [q1| |] eqn:E; [| |done].
    + apply try_send_Sent in E as (-> & _). apply Permutation_submseteq.
      apply (Permutation_cons_inv (a := rt_event t)). by rewrite <- pending_end_task, pending_push.
    + by erewrite pending_retry_full.
  - destruct (eq_buffer q) as [|e b] eqn:E; [done|]. intros [= <- <-].
    unfold pending. cbn. by rewrite E.
  - by intros [= <- <-].
  - intros [= <- <-]. unfold pending. cbn. by apply submseteq_inserts_l.
Qed.

Lemma queue_run_app q ins1 ins2 :
  queue_run q (ins1 ++ ins2) =
  match queue_run q ins1 with
  | None => None
  | Some (q1, out1) =>
      match queue_run q1 ins2 with
      | None => None
      | Some (q2, out2) => Some (q2, out1 ++ out2)
      end
  end.
Proof.
  revert q. induction ins1 as [|i ins1 IH]; intros q; cbn.
  { by destruct (queue_run q ins2) as [[]|]. }
  destruct (queue_step q i) as [[q1 out]|]; [|done]. rewrite IH.
  destruct (queue_run q1 ins1) as [[q2 out1]|]; [|done].
  destruct (queue_run q2 ins2) as [[q3 out2]|]; [|done]. by rewrite app_assoc.
Qed.

(** Induction over the steps of a run, on a property that relates the inputs
    consumed and the events received so far. *)
Lemma queue_run_ind (P : EventQueue -> list QueueInput -> list Event -> Prop) q0 :
  P q0 [] [] ->
  (forall q ins out i q' o, P q ins out -> queue_step q i = Some (q', o) ->
     P q' (ins ++ [i]) (out ++ o)) ->
  forall ins q out, queue_run q0 ins = Some (q, out) -> P q ins out.
Proof.
  intros H0 Hstep ins. induction ins as [|i ins IH] using rev_ind; intros q out; cbn.
  { by intros [= <- <-]. }
  rewrite queue_run_app. destruct (queue_run q0 ins) as [[q1 out1]|]; [|done]. cbn.
  destruct (queue_step q1 i) as [[q2 o]|] eqn:Hs; [|done]. rewrite app_nil_r. intros [= <- <-].
  by eapply Hstep; [apply IH|].
Qed.

Lemma queue_step_capacity q i q' out :
  queue_step q i = Some (q', out) -> eq_capacity q' = eq_capacity q.
Proof.
  destruct i; cbn; unfold enqueue_lease_event, retry_round, acquire_slot, try_send;
    repeat split_match; by intros; simplify_eq.
Qed.

Lemma offered_snoc ins i : offered (ins ++ [i]) = offered ins ++ offered_event i.
Proof. unfold offered. rewrite map_app, concat_app. cbn. by rewrite app_nil_r. Qed.

Lemma queue_run_inv capacity ins q out :
  queue_run (EventQueue_new capacity) ins = Some (q, out) ->
  eq_capacity q = capacity /\ queue_inv q /\ out ++ pending q ⊆+ offered ins.
Proof.
  revert ins q out. apply queue_run_ind; [split_and!; [done|apply queue_inv_new|done]|].
  intros q ins out i q' o (Hc & Hq & Hsub) Hs.
  split_and!; [by erewrite queue_step_capacity|by eapply queue_step_inv|].
  apply queue_step_sound in Hs. rewrite offered_snoc, <- app_assoc.
  etrans; [apply submseteq_app; [reflexivity|exact Hs]|]. rewrite Permutation_app_swap_app.
  rewrite (Permutation_app_comm (offered ins)). by apply submseteq_app.
Qed.

Lemma queue_run_conserves capacity ins q out :
  queue_run (EventQueue_new capacity) ins = Some (q, out) ->
  Forall (fun i => stops_queue i = false) ins ->
  running q /\ out ++ pending q ≡ₚ offered ins.
Proof.
  revert ins q out.
  apply (queue_run_ind (fun q ins out => Forall (fun i => stops_queue i = false) ins ->
    running q /\ out ++ pending q ≡ₚ offered ins)); [done|].
  intros q ins out i q' o IH Hs [Hins [Hi _]%list.Forall_cons]%Forall_app.
  destruct (IH Hins) as [Hr Hp]. destruct (queue_step_conserves _ _ _ _ Hr Hi Hs) as [Hr' Hc].
  split; [done|]. rewrite offered_snoc, <- app_assoc, Hc, Permutation_app_swap_app, Hp.
  apply Permutation_app_comm.
Qed.

(** How many steps the pending events are from their delivery. *)
Definition queue_work (q : EventQueue) : nat :=
  length (eq_buffer q) + 2 * length (eq_tasks q)
  + match eq_waiting q with Some _ => 3 | None => 0 end.

(** What the runtime does while the informer is quiet: the consumer receives,
    a retry task or the blocked handler is polled. *)
Definition drain_input (i : QueueInput) : bool :=
  match i with QRecv | QRetry _ | QWake => true | _ => false end.

Definition is_recv (i : QueueInput) : bool := match i with QRecv => true | _ => false end.
Definition is_retry (i : QueueInput) : bool := match i with QRetry _ => true | _ => false end.
Definition is_wake (i : QueueInput) : bool := match i with QWake => true | _ => false end.

(** A round of such steps is fair when nobody who could act at its start is
    left out: the consumer if there is something to receive, the retry tasks
    (one of them is enough) if there are any, the blocked handler if there is
    one. *)
Definition fair_round (q : EventQueue) (r : list QueueInput) : bool :=
  forallb drain_input r
  && (bool_decide (eq_buffer q = []) || existsb is_recv r)
  && (bool_decide (eq_tasks q = []) || existsb is_retry r)
  && (negb (is_some (eq_waiting q)) || existsb is_wake r).

(** A sequence of possible fair rounds *)
Fixpoint fair_rounds (q : EventQueue) (rounds : list (list QueueInput)) : bool :=
  match rounds with
  | [] => true
  | r :: rounds =>
      fair_round q r
      && match queue_run q r with
         | Some (q', _) => fair_rounds q' rounds
         | None => false
         end
  end.

Record drainable (q : EventQueue) : Prop := {
  da_inv : queue_inv q;
  da_running : running q;
  da_capacity : (0 < eq_capacity q)%nat;
}.

Lemma queue_work_pending q : (queue_work q <= 3 * length (pending q))%nat.
Proof. unfold queue_work, pending. rewrite !length_app, length_map. destruct (eq_waiting q) as [[]|]; cbn; lia. Qed.

Lemma queue_work_zero q : queue_work q = 0%nat -> pending q = [].
Proof.
  unfold queue_work, pending. destruct (eq_buffer q), (eq_tasks q), (eq_waiting q) as [[]|]; cbn; by intros.
Qed.

(** A retry that finds room brings its event closer, any other changes the
    delay only. *)
Lemma retry_round_work q j t :
  running q -> eq_tasks q !! j = Some t ->
  (queue_work (retry_round q j t) <= queue_work q)%nat
  /\ ((length (eq_buffer q) < eq_capacity q)%nat -> (queue_work (retry_round q j t) < queue_work q)%nat).
Proof.
  intros [Hcl Hca] Hj. unfold retry_round, try_send, queue_work. rewrite Hcl, Hca.
  apply lookup_lt_Some in Hj. destruct (Nat.ltb_spec (length (eq_buffer q)) (eq_capacity q)) as [Hlt|Hge]; cbn.
  - rewrite length_app, length_delete by (by apply lookup_lt_is_Some). cbn. lia.
  - rewrite length_insert. lia.
Qed.

Lemma acquire_slot_work q name e :
  running q -> eq_waiting q = Some (name, e) ->
  (eq_permits q = 0%nat /\ acquire_slot q name e = q) \/ (queue_work (acquire_slot q name e) < queue_work q)%nat.
Proof.
  intros [_ Hca] Hw. unfold acquire_slot, queue_work. rewrite Hca. destruct (eq_permits q) eqn:Hp.
  - left. split; [done|]. destruct q. cbn in *. by subst.
  - right. cbn. rewrite length_app, Hw. cbn. lia.
Qed.

Lemma drain_step q i q' o :
  drainable q -> drain_input i = true -> queue_step q i = Some (q', o) ->
  drainable q' /\ (queue_work q' <= queue_work q)%nat /\ o ++ pending q' ≡ₚ pending q
  /\ (is_recv i = true -> (queue_work q' < queue_work q)%nat)
  /\ (is_retry i = true -> eq_buffer q = [] -> (queue_work q' < queue_work q)%nat)
  /\ (is_wake i = true -> q' = q /\ eq_permits q = 0%nat \/ (queue_work q' < queue_work q)%nat).
Proof.
  intros [Hq Hr Hcap] Hi Hs. destruct (queue_step_conserves q i q' o Hr) as [Hr1 Hp1]; [by destruct i|done|].
  assert (drainable q') as Hq'.
  { split; [by eapply queue_step_inv|done|]. by rewrite (queue_step_capacity _ _ _ _ Hs). }
  assert (o ++ pending q' ≡ₚ pending q) as Hp by (rewrite Hp1; by destruct i).
  split; [done|]. destruct i as [| |j| | |]; try done; cbn in Hs |- *.
  - destruct (eq_waiting q) as [[name e]|] eqn:Hw; [|done]. injection Hs as <- <-.
    destruct (acquire_slot_work q name e Hr Hw) as [[Hz He]|Hlt]; [rewrite He|]; split_and!; try done; try lia; auto.
  - destruct (eq_tasks q !! j) as [t|] eqn:Hj; [|done]. injection Hs as <- <-.
    destruct (retry_round_work q j t Hr Hj) as [Hle Hlt]. split_and!; try done.
    intros _ Hb. apply Hlt. rewrite Hb. cbn. lia.
  - destruct (eq_buffer q) as [|e b] eqn:Hb; [done|]. injection Hs as <- <-.
    assert (queue_work (set_buffer q b) < queue_work q)%nat by (unfold queue_work; cbn; rewrite Hb; cbn; lia).
    split_and!; try done. lia.
Qed.

Lemma drain_run q ins q' out :
  drainable q -> forallb drain_input ins = true -> queue_run q ins = Some (q', out) ->
  drainable q' /\ (queue_work q' <= queue_work q)%nat /\ out ++ pending q' ≡ₚ pending q
  /\ (existsb is_recv ins = true -> (queue_work q' < queue_work q)%nat).
Proof.
  revert q out. induction ins as [|i ins IH]; intros q out Hq; cbn; [by intros _ [= <- <-]|].
  intros [Hi Hins]%andb_true_iff. destruct (queue_step q i) as [[q1 o]|] eqn:Hs; [|done].
  destruct (queue_run q1 ins) as [[q2 o2]|] eqn:Hrun; [|done]. intros [= <- <-].
  destruct (drain_step q i q1 o Hq Hi Hs) as (Hq1 & Hle & Hp & Hrecv & _).
  destruct (IH q1 o2 Hq1 Hins Hrun) as (Hq2 & Hle2 & Hp2 & Hrecv2). split_and!; [done|lia| |].
  - by rewrite <- app_assoc, Hp2.
  - intros [?%Hrecv|?%Hrecv2]%orb_true_iff; lia.
Qed.

(** With an empty buffer the first retry finds room, and without retry tasks
    the blocked handler finds a slot. *)
Lemma empty_buffer_progress q ins q' out :
  drainable q -> forallb drain_input ins = true -> queue_run q ins = Some (q', out) -> eq_buffer q = [] ->
  existsb is_retry ins = true \/ eq_tasks q = [] /\ existsb is_wake ins = true ->
  (queue_work q' < queue_work q)%nat.
Proof.
  revert out. induction ins as [|i ins IH]; intros out Hq; cbn [forallb queue_run existsb]; [by intros _ _ _ [|[]]|].
  intros [Hi Hins]%andb_true_iff. destruct (queue_step q i) as [[q1 o]|] eqn:Hs; [|done].
  destruct (queue_run q1 ins) as [[q2 o2]|] eqn:Hrun; [|done]. intros [= <- <-] Hb Hf.
  destruct (drain_step q i q1 o Hq Hi Hs) as (Hq1 & Hle & _ & Hrecv & Hretry & Hwake).
  destruct (drain_run q1 ins q2 o2 Hq1 Hins Hrun) as (_ & Hle2 & _).
  destruct i as [| | | | |]; cbn in Hi, Hf; try done.
  - destruct (Hwake eq_refl) as [[-> Hz]|]; [|lia]. apply (IH o2); [done..|]. destruct Hf as [|[Ht _]]; [by left|].
    exfalso. destruct Hq as [[_ Hp _] _ _]. rewrite Hz, Ht in Hp. done.
  - specialize (Hretry eq_refl Hb). lia.
  - specialize (Hrecv eq_refl). lia.
Qed.

Lemma round_progress q r q' out :
  drainable q -> fair_round q r = true -> queue_run q r = Some (q', out) -> pending q <> [] ->
  (queue_work q' < queue_work q)%nat.
Proof.
  unfold fair_round. rewrite !andb_true_iff, !orb_true_iff, !bool_decide_eq_true. intros Hq (((Hd & Hb) & Ht) & Hw) Hrun Hne.
  destruct Hb as [Hb|Hb]; [|by eapply drain_run].
  eapply empty_buffer_progress; [done..|]. destruct Ht as [Ht|]; [|by left]. right. split; [done|].
  destruct Hw as [Hw|]; [|done]. exfalso. apply Hne. unfold pending. rewrite Hb, Ht. by destruct (eq_waiting q).
Qed.

Lemma fair_rounds_drain rounds q :
  drainable q -> fair_rounds q rounds = true -> (queue_work q <= length rounds)%nat ->
  exists q' out, queue_run q (concat rounds) = Some (q', out) /\ pending q' = [] /\ out ≡ₚ pending q.
Proof.
  revert q. induction rounds as [|r rounds IH]; intros q Hq Hf Hle; cbn in Hf, Hle |- *.
  { exists q, []. rewrite queue_work_zero by lia. done. }
  apply andb_true_iff in Hf as [Hfr Hf]. destruct (queue_run q r) as [[q1 o]|] eqn:Hrun; [|done].
  pose proof Hfr as Hfr'. unfold fair_round in Hfr'. rewrite !andb_true_iff in Hfr'. destruct Hfr' as (((Hd & _) & _) & _).
  destruct (drain_run q r q1 o Hq Hd Hrun) as (Hq1 & Hle1 & Hp & _).
  destruct (IH q1 Hq1 Hf) as (q' & out & Hr & Hn & Ho).
  - destruct (decide (pending q = [])) as [He|Hne].
    + assert (queue_work q = 0%nat) by (pose proof (queue_work_pending q) as Hx; rewrite He in Hx; cbn in Hx; lia). lia.
    + pose proof (round_progress q r q1 o Hq Hfr Hrun Hne). lia.
  - exists q', (o ++ out). rewrite queue_run_app, Hrun, Hr. split_and!; [done..|]. by rewrite Ho.
Qed.

(** Fair rounds are always possible. *)
Definition one_round (q : EventQueue) : list QueueInput :=
  (if bool_decide (eq_buffer q = []) then [] else [QRecv])
  ++ (if bool_decide (eq_tasks q = []) then [] else [QRetry 0])
  ++ (if is_some (eq_waiting q) then [QWake] else []).

Lemma one_round_runs q : drainable q -> fair_round q (one_round q) = true /\ is_some (queue_run q (one_round q)) = true.
Proof.
  intros [_ [Hcl Hca] _]. unfold fair_round, one_round.
  destruct (eq_buffer q) as [|e b] eqn:Hb, (eq_tasks q) as [|t ts] eqn:Ht, (eq_waiting q) as [[name e']|] eqn:Hw;
    cbn; rewrite ?Hb; cbn; rewrite ?Ht; cbn;
    repeat (unfold retry_round, try_send; cbn; rewrite ?Hcl, ?Hca, ?Hw, ?Ht; repeat case_match; cbn); try done;
    simplify_eq; cbn in *; congruence.
Qed.

Lemma fair_rounds_exist n q : drainable q -> exists rounds, length rounds = n /\ fair_rounds q rounds = true.
Proof.
  revert q. induction n as [|n IH]; intros q Hq; [by exists []|].
  destruct (one_round_runs q Hq) as [Hf Hr]. destruct (queue_run q (one_round q)) as [[q1 o]|] eqn:Hrun; [|done].
  pose proof Hf as Hd. unfold fair_round in Hd. rewrite !andb_true_iff in Hd. destruct Hd as (((Hd & _) & _) & _).
  destruct (drain_run q _ q1 o Hq Hd Hrun) as (Hq1 & _). destruct (IH q1 Hq1) as (rounds & Hl & Hfr).
  exists (one_round q :: rounds). split; [cbn; by rewrite Hl|]. cbn [fair_rounds]. by rewrite Hf, Hrun.
Qed.

(** ** Properties *)

(** C10: the event queue never exceeds its capacity nor its 100 retry slots,
    every retry delay is 100 ms doubled up to 5 s, and what the consumer has
    received together with what is pending (buffered, being retried, or held
    by the blocked handler) comes from the enqueued events, each at most
    once; while the consumer is there and the token is not cancelled it is
    exactly the enqueued events, so none is lost. *)
Theorem event_queue_conserves capacity ins q out :
  queue_run (EventQueue_new capacity) ins = Some (q, out) ->
  queue_inv q /\ out ++ pending q ⊆+ offered ins /\
  (Forall (fun i => stops_queue i = false) ins -> out ++ pending q ≡ₚ offered ins).
Proof.
  intros Hrun. destruct (queue_run_inv _ _ _ _ Hrun) as (_ & Hq & Hs). split_and!; [done..|].
  intros Hins. by destruct (queue_run_conserves _ _ _ _ Hrun Hins).
Qed.

(** C33: no event gets stuck.  From every state the queue reaches while the
    consumer is there and the token is not cancelled, once the informer is
    quiet every fair schedule delivers all pending events: after any [3 n]
    fair rounds, where [n] is the number of pending events, in each of which
    the consumer receives if there is something to receive, some retry task is
    polled if there are any and the blocked handler is polled if there is one,
    in whatever order and however often, nothing is pending and the consumer
    has received each enqueued event once.  Such schedules exist, of any
    length. *)
Theorem event_queue_drains capacity ins q out :
  (0 < capacity)%nat ->
  queue_run (EventQueue_new capacity) ins = Some (q, out) ->
  Forall (fun i => stops_queue i = false) ins ->
  (forall rounds, fair_rounds q rounds = true -> (3 * length (pending q) <= length rounds)%nat ->
     exists q' out', queue_run (EventQueue_new capacity) (ins ++ concat rounds) = Some (q', out ++ out')
       /\ pending q' = [] /\ out ++ out' ≡ₚ offered ins)
  /\ (forall n, exists rounds, length rounds = n /\ fair_rounds q rounds = true).
Proof.
  intros Hcap Hrun Hins. destruct (queue_run_inv _ _ _ _ Hrun) as (Hc & Hq & _).
  destruct (queue_run_conserves _ _ _ _ Hrun Hins) as [Hr Hp].
  assert (drainable q) as Hd by (split; [done|done|by rewrite Hc]).
  split; [|intros n; by apply fair_rounds_exist]. intros rounds Hf Hl.
  destruct (fair_rounds_drain rounds q Hd Hf) as (q' & out' & Hrun' & He & Hout); [pose proof (queue_work_pending q); lia|].
  exists q', out'. split_and!; [by rewrite queue_run_app, Hrun, Hrun'|done|by rewrite Hout].
Qed.

(** Two events of the same node can overtake each other: the first one meets
    a full channel and is retried later, the second one finds room at once.
    A node that was added and removed is then delivered as removed and
    added. *)
Theorem event_queue_reorders name e l :
  let ins := [QEnqueue "other" e; QEnqueue name (mkEvent Added l); QRecv;
              QEnqueue name (mkEvent Removed l); QRecv; QRetry 0; QRecv] in
  offered ins = [e; mkEvent Added l; mkEvent Removed l] /\
  queue_run (EventQueue_new 1) ins
  = Some (EventQueue_new 1, [e; mkEvent Removed l; mkEvent Added l]).
Proof. split; reflexivity. Qed.

(** ** Witnesses *)

Definition sample_queue_inputs : list QueueInput :=
  [QEnqueue "a" (mkEvent Added (sample_lease 1)); QEnqueue "b" (mkEvent Added (sample_lease 2));
   QRetry 0; QEnqueue "c" (mkEvent Removed (sample_lease 1))].

Definition sample_queue : EventQueue :=
  mkEventQueue 1 [mkEvent Added (sample_lease 1)] false false 98
    [mkRetryTask "b" (mkEvent Added (sample_lease 2)) 200;
     mkRetryTask "c" (mkEvent Removed (sample_lease 1)) 100] None.

Lemma event_queue_conserves_witness :
  queue_run (EventQueue_new 1) sample_queue_inputs = Some (sample_queue, []) /\
  pending sample_queue ≡ₚ offered sample_queue_inputs.
Proof.
  assert (Hrun : queue_run (EventQueue_new 1) sample_queue_inputs = Some (sample_queue, [])) by reflexivity.
  split; [exact Hrun|].
  refine (proj2 (proj2 (event_queue_conserves 1 sample_queue_inputs sample_queue [] Hrun)) _).
  repeat constructor.
Defined.

(** Nine rounds for the three pending events of the sample, of which four have
    something to do *)
Definition sample_rounds : list (list QueueInput) :=
  [[QRetry 1; QRecv; QRetry 1]; [QRetry 0; QRecv]; [QRetry 0]] ++ [[QRecv]; []; []; []; []; []].

Lemma event_queue_drains_witness :
  exists q' out', queue_run (EventQueue_new 1) (sample_queue_inputs ++ concat sample_rounds) = Some (q', [] ++ out')
    /\ pending q' = [] /\ [] ++ out' ≡ₚ offered sample_queue_inputs.
Proof.
  refine (proj1 (event_queue_drains 1 sample_queue_inputs sample_queue [] _ _ _) sample_rounds _ _).
  - lia.
  - reflexivity.
  - repeat constructor.
  - by vm_compute.
  - cbn. lia.
Defined.
