(* ===== verification/Informer.v ===== *)
(** * [subnet/kube/informer.rs]: the node informer

    The node store, the reaction to a LIST, to a watch frame and to the
    resync timer, and the list-and-watch loop as a state machine: an input
    says what the loop's await point yields.  A handler's calls to
    [enqueue_lease_event] are awaited one after the other, so a step returns
    the sequence of those calls.  The specification is the map of leases that
    a consumer of these events builds, by node name. *)

From S2P Require Import Prelude RustStr IpNet Ip6Net Lease KubeNode KubeClient.
#[local] Open Scope string_scope.
#[local] Open Scope list_scope.
#[local] Open Scope Z_scope.

(** Durations, in milliseconds. *)
Definition RESYNC_PERIOD : Z := 5 * 60 * 1000.
Definition LIST_RETRY_BACKOFF : Z := 1000.
Definition RELIST_BACKOFF : Z := 500.

(** ** The store *)

Abbreviation NodeMap := (gmap string Node).

(** Iteration over a [HashMap], whose order is unspecified. *)
Class HashOrder := {
  hash_iter : NodeMap -> list (string * Node);
  hash_iter_perm m : hash_iter m ≡ₚ map_to_list m;
}.

Record NodeStore := mkNodeStore { sto_nodes : NodeMap; sto_synced : bool }.

Definition NodeStore_new : NodeStore := mkNodeStore ∅ false.

Definition NodeStore_get (s : NodeStore) (name : string) : option Node := sto_nodes s !! name.

Definition NodeStore_snapshot `{HashOrder} (s : NodeStore) : list Node :=
  map snd (hash_iter (sto_nodes s)).

Definition NodeStore_put (s : NodeStore) (node : Node) : NodeStore * option Node :=
  (mkNodeStore (<[node_name node := node]> (sto_nodes s)) (sto_synced s),
   sto_nodes s !! node_name node).

Definition NodeStore_remove (s : NodeStore) (name : string) : NodeStore * option Node :=
  (mkNodeStore (delete name (sto_nodes s)) (sto_synced s), sto_nodes s !! name).

Definition NodeStore_replace_all (s : NodeStore) (items : list Node) : NodeStore * NodeMap :=
  (mkNodeStore (fold_left (fun new node => <[node_name node := node]> new) items ∅) (sto_synced s),
   sto_nodes s).

Definition NodeStore_mark_synced (s : NodeStore) : NodeStore := mkNodeStore (sto_nodes s) true.

Definition NodeStore_is_synced (s : NodeStore) : bool := sto_synced s.

(** A call to [enqueue_lease_event]. *)
Abbreviation Emission := (string * Event)%type.

Definition emit (o : option Emission) : list Emission :=
  match o with Some e => [e] | None => [] end.

Inductive WatchEnd :=
| WeCancelled
| WeEnded
| WeGone
| WeFailed (e : KubeError).

Section Informer.
Context `{RawJson} `{HashOrder} (env : EventEnv).

(** ** Reactions *)

(** The two loops of [reconcile_relist]. *)
Definition relist_item (old : NodeMap) (node : Node) : option Emission :=
  match old !! node_name node with
  | None => handle_add_lease_event env Added node
  | Some prev => handle_update_lease_event env prev node
  end.

Definition relist_gone (seen : gset string) (entry : string * Node) : option Emission :=
  if bool_decide (entry.1 ∈ seen) then None else handle_add_lease_event env Removed entry.2.

Definition reconcile_relist (old : NodeMap) (items : list Node) : list Emission :=
  let seen : gset string := list_to_set (map node_name items) in
  omap (relist_item old) items ++ omap (relist_gone seen) (hash_iter old).

Definition dispatch (store : NodeStore) (event : WatchEvent Node) : NodeStore * list Emission :=
  let object := we_object event in
  match we_event_type event with
  | WtAdded =>
      let '(store, previous) := NodeStore_put store object in
      (store, emit (match previous with
                    | None => handle_add_lease_event env Added object
                    | Some old => handle_update_lease_event env old object
                    end))
  | WtBookmark => (store, [])
  | WtModified =>
      let '(store, previous) := NodeStore_put store object in
      let old := default object previous in
      (store, emit (handle_update_lease_event env old object))
  | WtDeleted =>
      let '(store, _) := NodeStore_remove store (node_name object) in
      (store, emit (handle_add_lease_event env Removed object))
  | WtError => (store, [])
  end.

(** The resync tick: every stored node against itself. *)
Definition resync (store : NodeStore) : list Emission :=
  omap (fun node => handle_update_lease_event env node node) (NodeStore_snapshot store).

(** ** The loop *)

(** Where [run_node_informer] waits. *)
Inductive InfPhase :=
| PhList
| PhListRetry
| PhConnect
| PhWatch
| PhRelist (ended : WatchEnd)
| PhDone.

(** What the await point yields: the LIST, the answer to the WATCH request,
    an item of the stream ([None]: its end), the resync timer, the end of a
    back-off, or the token. *)
Inductive InfInput :=
| IiListed (r : result NodeList KubeError)
| IiConnected (r : result unit KubeError)
| IiItem (item : option (result (WatchEvent Node) KubeError))
| IiTick
| IiSlept
| IiCancelled.

Record InfState := mkInfState {
  inf_phase : InfPhase;
  inf_store : NodeStore;
  inf_rv : option string;
}.

Definition informer_init : InfState := mkInfState PhList NodeStore_new None.

Definition listed (s : InfState) (nodes : NodeList) : InfState * list Emission :=
  let '(store, old) := NodeStore_replace_all (inf_store s) (nl_items nodes) in
  (mkInfState PhConnect (NodeStore_mark_synced store) (lm_resource_version (nl_metadata nodes)),
   reconcile_relist old (nl_items nodes)).

(** One item of the stream in [run_watch]. *)
Definition watch_item (s : InfState) (item : option (result (WatchEvent Node) KubeError))
  : InfState * list Emission :=
  match item with
  | None => (mkInfState (PhRelist WeEnded) (inf_store s) (inf_rv s), [])
  | Some (Ok event) =>
      let rv := match om_resource_version (nd_metadata (we_object event)) with
                | Some new_rv => Some new_rv
                | None => inf_rv s
                end in
      let '(store, out) := dispatch (inf_store s) event in
      (mkInfState PhWatch store rv, out)
  | Some (Err KeGone) => (mkInfState (PhRelist WeGone) (inf_store s) (inf_rv s), [])
  | Some (Err e) => (mkInfState (PhRelist (WeFailed e)) (inf_store s) (inf_rv s), [])
  end.

Definition goto (s : InfState) (p : InfPhase) : option (InfState * list Emission) :=
  Some (mkInfState p (inf_store s) (inf_rv s), []).

Definition informer_step (s : InfState) (i : InfInput) : option (InfState * list Emission) :=
  match inf_phase s, i with
  | PhList, IiCancelled => goto s PhDone
  | PhList, IiListed (Err _) => goto s PhListRetry
  | PhList, IiListed (Ok nodes) => Some (listed s nodes)
  | PhListRetry, IiSlept => goto s PhList
  | PhListRetry, IiCancelled => goto s PhDone
  | PhConnect, IiConnected (Err e) => goto s (PhRelist (WeFailed e))
  | PhConnect, IiConnected (Ok _) => goto s PhWatch
  | PhWatch, IiCancelled => goto s PhDone
  | PhWatch, IiItem item => Some (watch_item s item)
  | PhWatch, IiTick => Some (s, resync (inf_store s))
  | PhRelist _, IiSlept => goto s PhList
  | PhRelist _, IiCancelled => goto s PhDone
  | _, _ => None
  end.

Fixpoint run_node_informer (s : InfState) (ins : list InfInput) : option (InfState * list Emission) :=
  match ins with
  | [] => Some (s, [])
  | i :: ins =>
      match informer_step s i with
      | None => None
      | Some (s', out) =>
          match run_node_informer s' ins with
          | None => None
          | Some (s'', out') => Some (s'', out ++ out')
          end
      end
  end.

(** ** Specification: the leases of the stored nodes *)

(** The lease of a node that flannel manages. *)
Definition node_lease (node : Node) : option Lease :=
  if node_managed env node then result_ok (env_lease env node) else None.

Definition leases_of (m : NodeMap) : gmap string Lease := omap node_lease m.

(** What a consumer makes of the emissions. *)
Definition apply_emission (v : gmap string Lease) (em : Emission) : gmap string Lease :=
  match ev_type em.2 with
  | Added => <[em.1 := ev_lease em.2]> v
  | Removed => delete em.1 v
  end.

(** The cluster changes a node steadily: its pod CIDRs are fixed, a node that
    has a lease keeps having one, and a node becomes managed together with a
    change of its lease annotations (flannel writes them in one patch). *)
Definition steady_update (old new : Node) : bool :=
  bool_decide (nd_spec old = nd_spec new)
  && (negb (is_some (node_lease old)) || is_some (node_lease new))
  && (negb (node_managed env new) || lease_changed env old new || node_managed env old).

Definition steady_put (m : NodeMap) (new : Node) : bool :=
  match m !! node_name new with
  | Some old => steady_update old new
  | None => true
  end.

(** A frame: a modified node is known or has no lease, and a deleted one
    still describes the lease it had, if any. *)
Definition steady_event (m : NodeMap) (event : WatchEvent Node) : bool :=
  let object := we_object event in
  match we_event_type event with
  | WtAdded => steady_put m object
  | WtModified =>
      steady_put m object && (is_some (m !! node_name object) || negb (is_some (node_lease object)))
  | WtDeleted =>
      is_some (node_lease object) || negb (is_some (leases_of m !! node_name object))
  | WtBookmark | WtError => true
  end.

Definition steady_input (m : NodeMap) (i : InfInput) : bool :=
  match i with
  | IiListed (Ok nodes) =>
      bool_decide (NoDup (map node_name (nl_items nodes))) && forallb (steady_put m) (nl_items nodes)
  | IiItem (Some (Ok event)) => steady_event m event
  | _ => true
  end.

Fixpoint steady_run (s : InfState) (ins : list InfInput) : bool :=
  match ins with
  | [] => true
  | i :: ins =>
      steady_input (sto_nodes (inf_store s)) i
      && match informer_step s i with
         | Some (s', _) => steady_run s' ins
         | None => true
         end
  end.
End Informer.

(** ** Lemmas *)

(** Emissions act on each name by itself. *)
Definition effect (o : option Emission) (cur : option Lease) : option Lease :=
  match o with
  | None => cur
  | Some (_, e) => match ev_type e with Added => Some (ev_lease e) | Removed => None end
  end.

Lemma apply_emission_lookup v name e k :
  apply_emission v (name, e) !! k =
  if decide (name = k) then effect (Some (name, e)) (v !! k) else v !! k.
Proof.
  unfold apply_emission. cbn. destruct (ev_type e); case_decide; subst.
  - apply lookup_insert_eq.
  - by apply lookup_insert_ne.
  - apply lookup_delete_eq.
  - by apply lookup_delete_ne.
Qed.

Lemma apply_emissions_lookup {A} (f : A -> option Emission) (key : A -> string) l v k :
  (forall x em, f x = Some em -> em.1 = key x) -> NoDup (map key l) ->
  (forall x, x ∈ l -> key x = k ->
     fold_left apply_emission (omap f l) v !! k = effect (f x) (v !! k)) /\
  (k ∉ map key l -> fold_left apply_emission (omap f l) v !! k = v !! k).
Proof.
  intros Hf. revert v. induction l as [|y l IH]; intros v Hnd.
  { by split; [intros x Hx%elem_of_nil|]. }
  cbn in Hnd. apply list.NoDup_cons in Hnd as [Hy Hnd].
  assert (Hstep : fold_left apply_emission (omap f (y :: l)) v =
    fold_left apply_emission (omap f l) (fold_left apply_emission (emit (f y)) v)).
  { cbn. by destruct (f y). }
  rewrite Hstep. set (v1 := fold_left apply_emission (emit (f y)) v).
  assert (Hv1 : v1 !! k = if decide (key y = k) then effect (f y) (v !! k) else v !! k).
  { unfold v1. destruct (f y) as [[name e]|] eqn:E; cbn [emit fold_left]; [|by case_decide].
    rewrite apply_emission_lookup. by rewrite <- (Hf _ _ E). }
  destruct (IH v1 Hnd) as [IH1 IH2]. split.
  - intros x [->|Hx]%elem_of_cons Hk.
    + rewrite IH2 by (by rewrite <- Hk). by rewrite Hv1, decide_True.
    + rewrite (IH1 x Hx Hk), Hv1, decide_False; [done|]. intros Hyk. apply Hy. rewrite Hyk, <- Hk.
      apply list_elem_of_fmap. eauto.
  - cbn. intros [Hne Hk]%not_elem_of_cons. rewrite IH2 by done. rewrite Hv1, decide_False; done.
Qed.

Definition named (m : NodeMap) : Prop := map_Forall (fun k n => node_name n = k) m.

Lemma named_insert m node : named m -> named (<[node_name node := node]> m).
Proof. intros Hm. by apply map_Forall_insert_2. Qed.

Lemma replace_lookup items (m : NodeMap) :
  NoDup (map node_name items) ->
  let m' := fold_left (fun new node => <[node_name node := node]> new) items m in
  (forall x, x ∈ items -> m' !! node_name x = Some x) /\
  (forall k, k ∉ map node_name items -> m' !! k = m !! k).
Proof.
  revert m. induction items as [|y items IH]; intros m Hnd m'.
  { by split; [intros x Hx%elem_of_nil|]. }
  cbn in Hnd. apply list.NoDup_cons in Hnd as [Hy Hnd].
  destruct (IH (<[node_name y := y]> m) Hnd) as [H1 H2]. split.
  - intros x [->|Hx]%elem_of_cons; [|by apply H1]. cbn in m'. unfold m'.
    rewrite H2 by done. apply lookup_insert_eq.
  - cbn. intros k [Hne Hk]%not_elem_of_cons. unfold m'. cbn. rewrite H2 by done.
    by apply lookup_insert_ne.
Qed.

Lemma replace_named items (m : NodeMap) :
  named m -> named (fold_left (fun new node => <[node_name node := node]> new) items m).
Proof. revert m. induction items; cbn; intros m Hm; [done|]. by apply IHitems, named_insert. Qed.

Section Tracks.
Context `{HR : RawJson, !RawJsonLaws, HO : HashOrder} (env : EventEnv).
Context (single_stack : ee_enable_ipv4 env <> ee_enable_ipv6 env).

Lemma leases_of_lookup m k : leases_of env m !! k = m !! k ≫= node_lease env.
Proof. apply lookup_omap. Qed.

Lemma handle_add_name et n em : handle_add_lease_event env et n = Some em -> em.1 = node_name n.
Proof.
  unfold handle_add_lease_event, lease_event. repeat split_match; by intros; simplify_eq.
Qed.

Lemma handle_update_name o n em : handle_update_lease_event env o n = Some em -> em.1 = node_name n.
Proof.
  unfold handle_update_lease_event, lease_event. repeat split_match; by intros; simplify_eq.
Qed.

Lemma effect_add n : effect (handle_add_lease_event env Added n) None = node_lease env n.
Proof.
  unfold handle_add_lease_event, lease_event, node_lease.
  destruct (node_managed env n); [|done]. cbn. by destruct (env_lease env n).
Qed.

Lemma effect_remove n :
  effect (handle_add_lease_event env Removed n) (node_lease env n) = None.
Proof.
  unfold handle_add_lease_event, lease_event, node_lease.
  destruct (node_managed env n); [|done]. cbn. by destruct (env_lease env n).
Qed.

Lemma unchanged_lease old new :
  nd_spec old = nd_spec new -> lease_changed env old new = false ->
  result_ok (env_lease env old) = result_ok (env_lease env new).
Proof.
  intros Hs Hc. destruct (env_lease env old) as [l|] eqn:Ho; cbn.
  - by rewrite (env_lease_unchanged env old new l).
  - destruct (env_lease env new) as [l|] eqn:Hn; [|done]. rewrite lease_changed_sym in Hc.
    by rewrite (env_lease_unchanged env new old l) in Ho.
Qed.

Lemma effect_update old new :
  steady_update env old new = true ->
  effect (handle_update_lease_event env old new) (node_lease env old) = node_lease env new.
Proof.
  unfold steady_update. rewrite !andb_true_iff, bool_decide_eq_true. intros [[Hs Hl] Hm].
  assert (Hnone : node_lease env new = None -> node_lease env old = None).
  { intros Hn. rewrite Hn in Hl. by destruct (node_lease env old). }
  unfold handle_update_lease_event, lease_event.
  destruct (node_managed env new) eqn:Hmn; cbn in *.
  2: { rewrite Hnone; unfold node_lease; by rewrite Hmn. }
  destruct (lease_changed env old new) eqn:Hc; cbn in *.
  - destruct (env_lease env new) as [l|] eqn:Hn; cbn; [|rewrite Hnone].
    all: unfold node_lease; by rewrite Hmn, Hn.
  - unfold node_lease. rewrite Hmn, Hm. by apply unchanged_lease.
Qed.

Lemma lease_changed_refl node : lease_changed env node node = false.
Proof.
  unfold lease_changed, same_annotation. rewrite !String.eqb_refl.
  destruct (ee_enable_ipv4 env), (ee_enable_ipv6 env); done.
Qed.

Lemma handle_update_refl node : handle_update_lease_event env node node = None.
Proof.
  unfold handle_update_lease_event. rewrite lease_changed_refl. by destruct (node_managed env node).
Qed.

Lemma resync_silent store : resync env store = [].
Proof.
  unfold resync. induction (NodeStore_snapshot store) as [|n ns IH]; [done|].
  cbn. by rewrite handle_update_refl.
Qed.

Lemma hash_iter_elem m k n : (k, n) ∈ hash_iter m <-> m !! k = Some n.
Proof. by rewrite hash_iter_perm, elem_of_map_to_list. Qed.

Lemma hash_iter_keys m :
  named m -> map (fun e => node_name e.2) (hash_iter m) = map fst (hash_iter m).
Proof.
  intros Hm. apply map_ext_in. intros [k n] Hin. apply Hm. by apply hash_iter_elem, list_elem_of_In.
Qed.

Lemma hash_iter_nodup m : NoDup (map fst (hash_iter m)).
Proof.
  assert (map fst (hash_iter m) ≡ₚ (map_to_list m).*1) as ->
    by apply (fmap_Permutation fst), hash_iter_perm.
  apply NoDup_fst_map_to_list.
Qed.

(** The second loop of [reconcile_relist] removes the unseen nodes. *)
Lemma relist_gone_lookup (seen : gset string) m v k :
  named m ->
  fold_left apply_emission (omap (relist_gone env seen) (hash_iter m)) v !! k =
  if decide (k ∈ seen) then v !! k
  else match m !! k with
       | Some n => effect (handle_add_lease_event env Removed n) (v !! k)
       | None => v !! k
       end.
Proof.
  intros Hm.
  destruct (apply_emissions_lookup (relist_gone env seen) (fun e => node_name e.2) (hash_iter m) v k)
    as [H1 H2].
  { intros [k' n] em. unfold relist_gone. case_bool_decide; [done|]. apply handle_add_name. }
  { rewrite hash_iter_keys by done. apply hash_iter_nodup. }
  destruct (m !! k) as [n|] eqn:Hk.
  - rewrite (H1 (k, n)); [|by apply hash_iter_elem|by apply Hm]. unfold relist_gone. cbn.
    by case_decide; case_bool_decide.
  - rewrite H2; [by case_decide|]. rewrite hash_iter_keys by done.
    intros ([k' n] & -> & Hin)%list_elem_of_fmap. apply hash_iter_elem in Hin. cbn in Hk. congruence.
Qed.

Lemma relist_tracks m items :
  named m -> NoDup (map node_name items) -> forallb (steady_put env m) items = true ->
  fold_left apply_emission (reconcile_relist env m items) (leases_of env m) =
  leases_of env (fold_left (fun new node => <[node_name node := node]> new) items ∅).
Proof.
  intros Hm Hnd Hst. apply map_eq. intros k. unfold reconcile_relist.
  rewrite fold_left_app, leases_of_lookup, relist_gone_lookup by done.
  destruct (apply_emissions_lookup (relist_item env m) node_name items (leases_of env m) k)
    as [H1 H2]; [|done|].
  { intros x em. unfold relist_item. case_match; [apply handle_update_name|apply handle_add_name]. }
  destruct (replace_lookup items ∅ Hnd) as [R1 R2].
  destruct (decide (k ∈ map node_name items)) as [Hk|Hk].
  - rewrite decide_True by (by apply elem_of_list_to_set).
    apply list_elem_of_fmap in Hk as (x & -> & Hx). rewrite (H1 x), R1 by done. cbn.
    rewrite leases_of_lookup. unfold relist_item.
    assert (Hp : steady_put env m x = true).
    { apply (proj1 (forallb_forall _ _) Hst). by apply list_elem_of_In. }
    unfold steady_put in Hp. destruct (m !! node_name x) as [old|]; cbn.
    + by apply effect_update.
    + apply effect_add.
  - rewrite decide_False by (by rewrite elem_of_list_to_set).
    rewrite H2, R2, leases_of_lookup by done. destruct (m !! k) as [n|]; [|done]. cbn.
    apply effect_remove.
Qed.

(** One emission for one node of the store. *)
Lemma emit_tracks o name m m' :
  (forall em, o = Some em -> em.1 = name) ->
  effect o (leases_of env m !! name) = leases_of env m' !! name ->
  (forall k, k <> name -> m' !! k = m !! k) ->
  fold_left apply_emission (emit o) (leases_of env m) = leases_of env m'.
Proof.
  intros Ho He Hm. apply map_eq. intros k.
  assert (Hother : k <> name -> leases_of env m' !! k = leases_of env m !! k).
  { intros Hk. by rewrite !leases_of_lookup, Hm. }
  destruct o as [[name' e]|]; cbn [emit fold_left].
  - pose proof (Ho _ eq_refl) as Hn. cbn in Hn. subst name'. rewrite apply_emission_lookup.
    case_decide as Hk; [by rewrite <- Hk|by rewrite Hother].
  - destruct (decide (k = name)) as [->|Hk]; [done|by rewrite Hother].
Qed.

Lemma put_tracks m n o :
  (forall em, o = Some em -> em.1 = node_name n) ->
  effect o (m !! node_name n ≫= node_lease env) = node_lease env n ->
  fold_left apply_emission (emit o) (leases_of env m) = leases_of env (<[node_name n := n]> m).
Proof.
  intros Ho He. apply (emit_tracks o (node_name n)); [done| |].
  - by rewrite !leases_of_lookup, lookup_insert_eq.
  - intros k Hk. by apply lookup_insert_ne.
Qed.

Lemma dispatch_tracks store event store' out :
  steady_event env (sto_nodes store) event = true ->
  dispatch env store event = (store', out) ->
  fold_left apply_emission out (leases_of env (sto_nodes store)) = leases_of env (sto_nodes store').
Proof.
  unfold dispatch, steady_event, steady_put. destruct event as [[] n]; cbn; intros Hst [= <- <-]; cbn.
  - apply put_tracks.
    + case_match; [apply handle_update_name|apply handle_add_name].
    + destruct (sto_nodes store !! node_name n); cbn; [by apply effect_update|apply effect_add].
  - apply andb_true_iff in Hst as [Hst Hn]. apply put_tracks; [apply handle_update_name|].
    destruct (sto_nodes store !! node_name n); cbn in *; [by apply effect_update|].
    rewrite handle_update_refl. cbn. by destruct (node_lease env n).
  - apply (emit_tracks _ (node_name n)); [apply handle_add_name| |].
    + rewrite !leases_of_lookup, lookup_delete_eq. cbn. rewrite leases_of_lookup in Hst.
      unfold handle_add_lease_event, lease_event. unfold node_lease at 1 in Hst.
      set (cur := _ ≫= _) in *.
      destruct (node_managed env n); cbn [negb] in *; [|by destruct cur].
      destruct (env_lease env n); [done|by destruct cur].
    + intros k Hk. by apply lookup_delete_ne.
  - done.
  - done.
Qed.

Lemma dispatch_named store event store' out :
  named (sto_nodes store) -> dispatch env store event = (store', out) -> named (sto_nodes store').
Proof.
  unfold dispatch. destruct event as [[] n]; cbn; intros Hm [= <- <-]; cbn; try done.
  - by apply named_insert.
  - by apply named_insert.
  - by apply map_Forall_delete.
Qed.

Lemma informer_step_tracks s i s' out :
  named (sto_nodes (inf_store s)) ->
  steady_input env (sto_nodes (inf_store s)) i = true ->
  informer_step env s i = Some (s', out) ->
  named (sto_nodes (inf_store s')) /\
  fold_left apply_emission out (leases_of env (sto_nodes (inf_store s))) =
  leases_of env (sto_nodes (inf_store s')).
Proof.
  intros Hm Hst. unfold informer_step, goto.
  destruct (inf_phase s), i as [[nodes|]|[]|item| | |]; try done; try (by intros [= <- <-]).
  - cbn in Hst. apply andb_true_iff in Hst as [Hnd%bool_decide_eq_true Hst].
    intros [= <- <-]. cbn. split; [by apply replace_named|by apply relist_tracks].
  - unfold watch_item. destruct item as [[event|e]|]; [| |by intros [= <- <-]].
    + destruct (dispatch env (inf_store s) event) as [store out'] eqn:Hd. intros [= <- <-]. cbn.
      split; [by eapply dispatch_named|by eapply dispatch_tracks].
    + destruct e; by intros [= <- <-].
  - intros [= <- <-]. by rewrite resync_silent.
Qed.

Lemma informer_run_tracks ins s s' out :
  named (sto_nodes (inf_store s)) -> steady_run env s ins = true ->
  run_node_informer env s ins = Some (s', out) ->
  fold_left apply_emission out (leases_of env (sto_nodes (inf_store s))) =
  leases_of env (sto_nodes (inf_store s')).
Proof.
  revert s out. induction ins as [|i ins IH]; intros s out Hm; cbn; [by intros _ [= <- <-]|].
  intros [Hst Hrun]%andb_true_iff. destruct (informer_step env s i) as [[s1 o]|] eqn:Hs; [|done].
  destruct (informer_step_tracks _ _ _ _ Hm Hst Hs) as [Hm1 H1].
  destruct (run_node_informer env s1 ins) as [[s2 o2]|] eqn:Hr; [|done]. intros [= <- <-].
  rewrite fold_left_app, H1. by apply IH.
Qed.
End Tracks.

(** ** Properties *)

(** C3: in a single-stack cluster whose nodes change steadily, the lease
    events of the informer are exact: over any sequence of lists, watch
    frames, resyncs, failures and relists, a consumer that applies the events
    in the order they are emitted holds precisely the leases of the managed
    nodes in the informer's store, whatever order the hash map is walked in. *)
Theorem informer_tracks `{RawJson, !RawJsonLaws, HashOrder} env ins s out :
  ee_enable_ipv4 env <> ee_enable_ipv6 env ->
  run_node_informer env informer_init ins = Some (s, out) ->
  steady_run env informer_init ins = true ->
  fold_left apply_emission out ∅ = leases_of env (sto_nodes (inf_store s)).
Proof.
  intros Hx Hrun Hst.
  assert (leases_of env (sto_nodes (inf_store informer_init)) = ∅) as <- by apply omap_empty.
  by apply (informer_run_tracks env Hx ins); [apply map_Forall_empty| |].
Qed.

(** A MODIFIED frame of a node that is not in the store adds it to the store
    without an event, even when the node has a lease: it is compared with
    itself.  (In client-go the update of an unknown object is an addition.) *)
Theorem informer_modified_unknown `{RawJson} env store node :
  (ee_enable_ipv4 env || ee_enable_ipv6 env)%bool = true ->
  sto_nodes store !! node_name node = None ->
  dispatch env store (mkWatchEvent WtModified node)
  = (mkNodeStore (<[node_name node := node]> (sto_nodes store)) (sto_synced store), []).
Proof.
  intros Hen Hn. unfold dispatch. cbn. rewrite Hn. cbn. unfold handle_update_lease_event.
  assert (lease_changed env node node = false) as ->; [|by destruct (node_managed env node)].
  unfold lease_changed, same_annotation. rewrite !String.eqb_refl.
  by destruct (ee_enable_ipv4 env), (ee_enable_ipv6 env).
Qed.

(** ** Witnesses *)

Definition sample_order : HashOrder := {| hash_iter := map_to_list; hash_iter_perm m := Permutation_refl _ |}.

Definition frame (et : WatchEventType) (n : Node) : InfInput :=
  IiItem (Some (Ok (mkWatchEvent et n))).

Definition sample_session : list InfInput :=
  let n1 := sample_node "n1" "192.168.0.1" "10.244.1.0/24" "{1}" in
  let n1' := sample_node "n1" "192.168.0.9" "10.244.1.0/24" "{1}" in
  let n2 := sample_node "n2" "192.168.0.2" "10.244.2.0/24" "{2}" in
  let n3 := sample_node "n3" "192.168.0.3" "10.244.3.0/24" "{3}" in
  [IiListed (Err KeCanceled); IiSlept; IiListed (Ok (mkNodeList (mkListMeta (Some "5")) [n1; n2]));
   IiConnected (Ok ()); frame WtModified n1'; IiTick; frame WtAdded n3; frame WtDeleted n1';
   IiItem (Some (Err KeGone)); IiSlept;
   IiListed (Ok (mkNodeList (mkListMeta (Some "9")) [n3]))].

Lemma informer_tracks_witness :
  exists s out,
    @run_node_informer sample_raw sample_order sample_env informer_init sample_session = Some (s, out) /\
    length out = 6%nat /\
    fold_left apply_emission out ∅ = @leases_of sample_raw sample_env (sto_nodes (inf_store s)).
Proof.
  destruct (@run_node_informer sample_raw sample_order sample_env informer_init sample_session)
    as [[s out]|] eqn:E; [|by vm_compute in E].
  exists s, out. split_and!; [done|by vm_compute in E; injection E as <- <-|].
  refine (@informer_tracks sample_raw sample_raw_laws sample_order sample_env sample_session s out _ E _).
  - done.
  - by vm_compute.
Defined.
