(* ===== verification/KubeAcquire.v ===== *)
(** * [subnet/kube/acquire.rs], [subnet/kube/status.rs]: acquiring the own lease

    [acquire_lease] waits for the own node and its pod CIDRs, annotates the
    node and derives the lease.  The two polling loops run over the rounds
    the environment offers: what the attempt yields, the clock, the token and
    the outcome of the sleep; times are in milliseconds from the start of the
    loop.  A patch of annotations is the map of the changed ones, which is
    what the source computes before wrapping it in JSON. *)

From S2P Require Import Prelude RustStr StdNet IpNet Ip6Net Lease Config KubeNode KubeClient.
#[local] Open Scope string_scope.
#[local] Open Scope list_scope.
#[local] Open Scope Z_scope.

Definition POLL_INTERVAL : Z := 3000.
Definition POLL_TIMEOUT : Z := 30000.

(** The parts of [KubeSubnetManager] that acquiring a lease reads. *)
Record KubeSubnetManager := mkManager {
  km_config : Config;
  km_node_name : string;
  km_annotations : Annotations;
  km_disable_node_informer : bool;
  km_set_node_network_unavailable : bool;
}.

Inductive AcquireError :=
| AeLease (e : LeaseError)
| AeNodeTimeout (canceled : bool)
| AePatchTimeout (canceled : bool)
| AeOutsideNetwork (network cidr : IP4Net)
| AeOutsideIpv6Network (network cidr : IP6Net).

Definition raw_to_string (data : option RawValue) : string :=
  match data with Some raw => raw | None => "null" end.

(** The own node, from the answer to a GET or from the informer's store. *)
Definition fetch_node (mgr : KubeSubnetManager) (get_node : result Node KubeError)
    (stored : option Node) : option Node :=
  if km_disable_node_informer mgr then result_ok get_node else stored.

(** The loop over one or two pod CIDRs: the last one of a family counts. *)
Fixpoint acquire_each (cidrs : list string) (acc : option IP4Net * option IP6Net)
  : result (option IP4Net * option IP6Net) LeaseError :=
  match cidrs with
  | [] => Ok acc
  | pod_cidr :: rest =>
      if str_contains ":" pod_cidr then
        let? n := map_err LeIp6 (IP6Net_from_str pod_cidr) in acquire_each rest (acc.1, Some n)
      else
        let? n := map_err LeIp4 (IP4Net_from_str pod_cidr) in acquire_each rest (Some n, acc.2)
  end.

Definition acquire_pod_cidrs (mgr : KubeSubnetManager) (node : Node)
  : result (option IP4Net * option IP6Net) LeaseError :=
  match length (ns_pod_cidrs (nd_spec node)) with
  | 0%nat =>
      let s := default "" (ns_pod_cidr (nd_spec node)) in
      if str_contains ":" s then
        let? n := map_err LeIp6 (IP6Net_from_str s) in Ok (None, Some n)
      else if negb (str_is_empty s) then
        let? n := map_err LeIp4 (IP4Net_from_str s) in Ok (Some n, None)
      else Ok (None, None)
  | 1%nat | 2%nat => acquire_each (ns_pod_cidrs (nd_spec node)) (None, None)
  | _ => Err (LeTooManyCidrs (km_node_name mgr))
  end.

Definition cidrs_ready (mgr : KubeSubnetManager) (cidr : option IP4Net) (ipv6_cidr : option IP6Net)
  : bool :=
  (negb (cfg_enable_ipv4 (km_config mgr)) || is_some cidr)
  && (negb (cfg_enable_ipv6 (km_config mgr)) || is_some ipv6_cidr).

(** ** Polling *)

Record Round (O : Type) := mkRound {
  rd_seen : O;
  rd_cancelled : bool;
  rd_now : Z;
  rd_slept : bool;
}.
Arguments mkRound {O} _ _ _ _.
Arguments rd_seen {O} _.
Arguments rd_cancelled {O} _.
Arguments rd_now {O} _.
Arguments rd_slept {O} _.

(** The sleep before the next round. *)
Definition poll_sleep (now : Z) : Z := Z.min POLL_INTERVAL (POLL_TIMEOUT - now).

(** The loop around an attempt; [None]: the rounds are over and it is still
    polling. *)
Fixpoint poll {O A} (attempt : O -> option (result A AcquireError)) (timeout : bool -> AcquireError)
    (rounds : list (Round O)) : option (result A AcquireError) :=
  match rounds with
  | [] => None
  | r :: rest =>
      match attempt (rd_seen r) with
      | Some res => Some res
      | None =>
          if rd_cancelled r then Some (Err (timeout true))
          else if POLL_TIMEOUT <=? rd_now r then Some (Err (timeout false))
          else if negb (rd_slept r) then Some (Err (timeout true))
          else poll attempt timeout rest
      end
  end.

(** What a round sees of the own node: the answer to a GET and the store. *)
Abbreviation NodeSight := (result Node KubeError * option Node)%type.

(** An attempt of [wait_for_node_with_cidrs]. *)
Definition node_attempt (mgr : KubeSubnetManager) (seen : NodeSight)
  : option (result Node AcquireError) :=
  match fetch_node mgr seen.1 seen.2 with
  | None => None
  | Some node =>
      match acquire_pod_cidrs mgr node with
      | Ok (cidr, ipv6_cidr) => if cidrs_ready mgr cidr ipv6_cidr then Some (Ok node) else None
      | Err e => Some (Err (AeLease e))
      end
  end.

Definition wait_for_node_with_cidrs (mgr : KubeSubnetManager) (rounds : list (Round NodeSight))
  : option (result Node AcquireError) := poll (node_attempt mgr) AeNodeTimeout rounds.

(** An attempt of [patch_with_retry], by the answer to the PATCH. *)
Definition patch_attempt (answer : result Node KubeError) : option (result unit AcquireError) :=
  match answer with Ok _ => Some (Ok ()) | Err _ => None end.

Definition patch_with_retry (rounds : list (Round (result Node KubeError)))
  : option (result unit AcquireError) := poll patch_attempt AePatchTimeout rounds.

(** ** Annotations *)

Definition needs_patch (a : Annotations) (attrs : LeaseAttrs) (ann : gmap string string)
    (bd v6_bd : string) : bool :=
  let differs key v := negb (String.eqb (annotation ann key) v) in
  let overwrites key v := negb (str_is_empty (annotation ann key)) && differs key v in
  let public_ip := IP4_fmt (la_public_ip attrs) in
  let v4_changed :=
    differs (an_backend_data a) bd || differs (an_backend_type a) (la_backend_type attrs)
    || differs (an_backend_public_ip a) public_ip || differs (an_subnet_kube_managed a) "true"
    || overwrites (an_backend_public_ip_overwrite a) public_ip in
  let v6_changed :=
    match la_public_ipv6 attrs with
    | None => false
    | Some ip6 =>
        let public_ipv6 := IP6_fmt ip6 in
        differs (an_backend_v6_data a) v6_bd || differs (an_backend_type a) (la_backend_type attrs)
        || differs (an_backend_public_ipv6 a) public_ipv6
        || differs (an_subnet_kube_managed a) "true"
        || overwrites (an_backend_public_ipv6_overwrite a) public_ipv6
    end in
  v4_changed || v6_changed.

(** The public address of a family, unless an annotation overwrites it. *)
Definition put_public_ip (ann : gmap string string) (key overwrite_key public_ip : string)
  : gmap string string :=
  let overwrite := annotation ann overwrite_key in
  if negb (str_is_empty overwrite) then
    if negb (String.eqb (annotation ann key) overwrite) then <[key := overwrite]> ann else ann
  else <[key := public_ip]> ann.

Definition writes_v4 (attrs : LeaseAttrs) (bd : string) : bool :=
  negb (String.eqb (la_backend_type attrs) "vxlan") || negb (String.eqb bd "null").

Definition writes_v6 (attrs : LeaseAttrs) (v6_bd : string) : bool :=
  let bt := la_backend_type attrs in
  let has_v6 := is_some (la_public_ipv6 attrs) in
  (String.eqb bt "vxlan" && negb (String.eqb v6_bd "null"))
  || (String.eqb bt "wireguard" && negb (String.eqb v6_bd "null") && has_v6)
  || (String.eqb bt "host-gw" && has_v6)
  || (String.eqb bt "extension" && has_v6).

(** The annotations after the block guarded by [needs_patch]. *)
Definition patched_annotations (a : Annotations) (attrs : LeaseAttrs) (ann : gmap string string)
    (bd v6_bd : string) : gmap string string :=
  let ann := <[an_backend_type a := la_backend_type attrs]> ann in
  let ann :=
    if writes_v4 attrs bd then
      put_public_ip (<[an_backend_data a := bd]> ann) (an_backend_public_ip a)
        (an_backend_public_ip_overwrite a) (IP4_fmt (la_public_ip attrs))
    else ann in
  let ann :=
    if writes_v6 attrs v6_bd then
      match la_public_ipv6 attrs with
      | Some v6 =>
          put_public_ip (<[an_backend_v6_data a := v6_bd]> ann) (an_backend_public_ipv6 a)
            (an_backend_public_ipv6_overwrite a) (IP6_fmt v6)
      | None => ann
      end
    else ann in
  <[an_subnet_kube_managed a := "true"]> ann.

(** The changed entries, the body of the patch. *)
Definition annotation_diff (old new : gmap string string) : gmap string string :=
  filter (fun kv : string * string => old !! kv.1 <> Some kv.2) new.

(** The patch that [maybe_patch_annotations] sends, if any. *)
Definition annotation_patch (a : Annotations) (attrs : LeaseAttrs) (ann : gmap string string)
    (bd v6_bd : string) : option (gmap string string) :=
  if needs_patch a attrs ann bd v6_bd
  then Some (annotation_diff ann (patched_annotations a attrs ann bd v6_bd))
  else None.

Definition maybe_patch_annotations (mgr : KubeSubnetManager) (attrs : LeaseAttrs) (node : Node)
    (bd v6_bd : string) (answers : list (Round (result Node KubeError)))
  : option (result unit AcquireError) :=
  match annotation_patch (km_annotations mgr) attrs (om_annotations (nd_metadata node)) bd v6_bd with
  | Some _ => patch_with_retry answers
  | None => Some (Ok ())
  end.

(** ** The lease *)

Definition lease_expiration_24h (now : Z) : Z := now + 24 * 60 * 60 * 10 ^ 9.

(** The network checks and the lease itself, after the patch. *)
Definition acquired_lease (mgr : KubeSubnetManager) (attrs : LeaseAttrs) (now : Z)
    (cidr : option IP4Net) (ipv6_cidr : option IP6Net) : result Lease AcquireError :=
  let config := km_config mgr in
  let? subnet :=
    match cidr with
    | Some cidr =>
        if cfg_enable_ipv4 config then
          if IP4Net_empty (cfg_network config) || negb (IP4Net_contains_cidr (cfg_network config) cidr)
          then Err (AeOutsideNetwork (cfg_network config) cidr)
          else Ok cidr
        else Ok IP4Net_default
    | None => Ok IP4Net_default
    end in
  let? ipv6_subnet :=
    match ipv6_cidr with
    | Some cidr =>
        if cfg_enable_ipv6 config then
          if IP6Net_empty (cfg_ipv6_network config)
             || negb (IP6Net_contains_cidr (cfg_ipv6_network config) cidr)
          then Err (AeOutsideIpv6Network (cfg_ipv6_network config) cidr)
          else Ok cidr
        else Ok IP6Net_default
    | None => Ok IP6Net_default
    end in
  let bt := la_backend_type attrs in
  let enable_ipv4 :=
    negb (String.eqb bt "vxlan") && negb (String.eqb bt "host-gw")
    && negb (String.eqb bt "wireguard") in
  Ok (mkLease enable_ipv4 false subnet ipv6_subnet attrs (lease_expiration_24h now) 0).

(** [None]: still waiting for the node or for the patch. *)
Definition acquire_lease (mgr : KubeSubnetManager) (attrs : LeaseAttrs)
    (fetches : list (Round NodeSight)) (answers : list (Round (result Node KubeError))) (now : Z)
  : option (result Lease AcquireError) :=
  let bd := raw_to_string (la_backend_data attrs) in
  let v6_bd := raw_to_string (la_backend_v6_data attrs) in
  match wait_for_node_with_cidrs mgr fetches with
  | None => None
  | Some (Err e) => Some (Err e)
  | Some (Ok node) =>
      match acquire_pod_cidrs mgr node with
      | Err e => Some (Err (AeLease e))
      | Ok (cidr, ipv6_cidr) =>
          match maybe_patch_annotations mgr attrs node bd v6_bd answers with
          | None => None
          | Some (Err e) => Some (Err e)
          | Some (Ok _) => Some (acquired_lease mgr attrs now cidr ipv6_cidr)
          end
      end
  end.

(** ** Specification *)

(** What the API server makes of a patch of annotations: the patched keys are
    replaced, the others stay. *)
Definition merge_annotations (patch ann : gmap string string) : gmap string string := patch ∪ ann.

(** The node after [maybe_patch_annotations] has succeeded. *)
Definition announced_annotations (a : Annotations) (attrs : LeaseAttrs) (ann : gmap string string)
    (bd v6_bd : string) : gmap string string :=
  match annotation_patch a attrs ann bd v6_bd with
  | Some patch => merge_annotations patch ann
  | None => ann
  end.

Definition with_annotations (node : Node) (ann : gmap string string) : Node :=
  mkNode (mkObjectMeta (om_name (nd_metadata node)) (om_uid (nd_metadata node))
            (om_resource_version (nd_metadata node)) ann) (nd_spec node).

(** ** Lemmas: polling *)

(** Every sleep that ends lasts at least its duration. *)
Fixpoint rounds_timed {O} (from : Z) (rounds : list (Round O)) : Prop :=
  match rounds with
  | [] => True
  | r :: rest => from <= rd_now r /\ rounds_timed (rd_now r + poll_sleep (rd_now r)) rest
  end.

Lemma poll_ends {O A} (attempt : O -> option (result A AcquireError)) timeout rounds from n :
  rounds_timed from rounds -> POLL_TIMEOUT - from <= POLL_INTERVAL * Z.of_nat n ->
  (S n <= length rounds)%nat -> is_Some (poll attempt timeout rounds).
Proof.
  unfold POLL_TIMEOUT, POLL_INTERVAL.
  revert from rounds. induction n as [|n IH]; intros from [|r rounds] Ht Hn Hl; cbn in Hl; try lia.
  all: destruct Ht as [Hf Ht]; cbn; destruct (attempt (rd_seen r)); [done|];
    destruct (rd_cancelled r); [done|]; destruct (Z.leb_spec POLL_TIMEOUT (rd_now r)) as [|Hlt]; [done|];
    unfold POLL_TIMEOUT in Hlt.
  { lia. }
  destruct (negb (rd_slept r)); [done|]. apply (IH (rd_now r + poll_sleep (rd_now r))); [done| |lia].
  unfold poll_sleep, POLL_TIMEOUT, POLL_INTERVAL. lia.
Qed.

Lemma poll_Ok {O A} (attempt : O -> option (result A AcquireError)) timeout rounds x :
  poll attempt timeout rounds = Some (Ok x) ->
  exists r, r ∈ rounds /\ attempt (rd_seen r) = Some (Ok x).
Proof.
  induction rounds as [|r rounds IH]; cbn; [done|].
  destruct (attempt (rd_seen r)) as [res|] eqn:E.
  { intros [= ->]. exists r. split; [by left|done]. }
  repeat (case_match; try done). intros (r' & Hr & He)%IH. exists r'. split; [by right|done].
Qed.

(** ** Lemmas: annotations *)

(** The keys of one prefix are different. *)
Ltac keys_ne := by intros ?%string_app_inj_l.

Lemma put_public_ip_insert ann key overwrite_key ip :
  put_public_ip ann key overwrite_key ip =
  <[key := if str_is_empty (annotation ann overwrite_key) then ip else annotation ann overwrite_key]> ann.
Proof.
  unfold put_public_ip. destruct (str_is_empty (annotation ann overwrite_key)) eqn:He; cbn; [done|].
  destruct (String.eqb_spec (annotation ann key) (annotation ann overwrite_key)) as [Heq|]; cbn; [|done].
  symmetry. apply insert_id. rewrite <- Heq. unfold annotation in *.
  destruct (ann !! key); [done|]. cbn in Heq. by rewrite <- Heq in He.
Qed.

Lemma annotation_insert_eq ann key v : annotation (<[key := v]> ann) key = v.
Proof. unfold annotation. by rewrite lookup_insert_eq. Qed.

Lemma annotation_insert_ne ann key key' v :
  key <> key' -> annotation (<[key := v]> ann) key' = annotation ann key'.
Proof. intros Hne. unfold annotation. by rewrite lookup_insert_ne. Qed.

Ltac annotation_simpl :=
  repeat (rewrite annotation_insert_eq || (rewrite annotation_insert_ne by keys_ne)).

Lemma annotation_diff_merge old new :
  dom old ⊆@{gset string} dom new -> merge_annotations (annotation_diff old new) old = new.
Proof.
  intros Hdom. unfold merge_annotations, annotation_diff. apply map_eq. intros k.
  rewrite lookup_union, map_lookup_filter. destruct (new !! k) as [v|] eqn:Hn; cbn.
  - case_guard as Hg; cbn in *; [by destruct (old !! k)|by rewrite Hg].
  - destruct (old !! k) eqn:Ho; [|done]. apply elem_of_dom_2 in Ho. apply Hdom, elem_of_dom in Ho as [? Ho].
    congruence.
Qed.

Section Patch.
Context (prefix : string) (attrs : LeaseAttrs) (bd v6_bd : string).
#[local] Abbreviation a := (annotations_of prefix).

Lemma patched_dom ann :
  dom ann ⊆@{gset string} dom (patched_annotations a attrs ann bd v6_bd).
Proof.
  unfold patched_annotations. rewrite !put_public_ip_insert.
  destruct (writes_v4 attrs bd), (writes_v6 attrs v6_bd), (la_public_ipv6 attrs);
    rewrite ?put_public_ip_insert, !dom_insert_L; set_solver.
Qed.

(** After a successful patch the node carries the annotations computed. *)
Lemma announced_patched ann :
  announced_annotations a attrs ann bd v6_bd =
  if needs_patch a attrs ann bd v6_bd then patched_annotations a attrs ann bd v6_bd else ann.
Proof.
  unfold announced_annotations, annotation_patch. destruct (needs_patch _ _ _ _ _); [|done].
  apply annotation_diff_merge, patched_dom.
Qed.

(** What the patched annotations say of the IPv4 family. *)
Lemma patched_v4 ann :
  writes_v4 attrs bd = true ->
  let m := patched_annotations a attrs ann bd v6_bd in
  let overwrite := annotation ann (an_backend_public_ip_overwrite a) in
  annotation m (an_subnet_kube_managed a) = "true" /\
  annotation m (an_backend_type a) = la_backend_type attrs /\
  annotation m (an_backend_data a) = bd /\
  annotation m (an_backend_public_ip_overwrite a) = overwrite /\
  annotation m (an_backend_public_ip a) =
    if str_is_empty overwrite then IP4_fmt (la_public_ip attrs) else overwrite.
Proof.
  intros Hw. unfold patched_annotations. rewrite Hw, put_public_ip_insert. cbn.
  destruct (writes_v6 attrs v6_bd), (la_public_ipv6 attrs); rewrite ?put_public_ip_insert.
  all: by annotation_simpl.
Qed.

(** A node that needs no patch already says the same. *)
Lemma unpatched_v4 ann :
  needs_patch a attrs ann bd v6_bd = false ->
  let overwrite := annotation ann (an_backend_public_ip_overwrite a) in
  annotation ann (an_subnet_kube_managed a) = "true" /\
  annotation ann (an_backend_type a) = la_backend_type attrs /\
  annotation ann (an_backend_data a) = bd /\
  annotation ann (an_backend_public_ip a) =
    if str_is_empty overwrite then IP4_fmt (la_public_ip attrs) else overwrite.
Proof.
  unfold needs_patch. rewrite !orb_false_iff, !negb_false_iff, !String.eqb_eq, andb_false_iff.
  intros [[[[[-> ->] ->] ->] Ho] _]. split_and!; [done..|].
  destruct (str_is_empty _); [done|]. destruct Ho as [|Ho]; [done|].
  by apply negb_false_iff, String.eqb_eq in Ho.
Qed.

Lemma announced_v4 ann :
  writes_v4 attrs bd = true ->
  let m := announced_annotations a attrs ann bd v6_bd in
  let overwrite := annotation ann (an_backend_public_ip_overwrite a) in
  annotation m (an_subnet_kube_managed a) = "true" /\
  annotation m (an_backend_type a) = la_backend_type attrs /\
  annotation m (an_backend_data a) = bd /\
  annotation m (an_backend_public_ip a) =
    if str_is_empty overwrite then IP4_fmt (la_public_ip attrs) else overwrite.
Proof.
  intros Hw. cbn zeta. rewrite announced_patched. destruct (needs_patch _ _ _ _ _) eqn:Hn.
  - by destruct (patched_v4 ann Hw) as (? & ? & ? & _ & ?).
  - by apply unpatched_v4.
Qed.

(** The annotation that overwrites the address stays as it is. *)
Lemma announced_overwrite ann :
  writes_v4 attrs bd = true ->
  annotation (announced_annotations a attrs ann bd v6_bd) (an_backend_public_ip_overwrite a)
  = annotation ann (an_backend_public_ip_overwrite a).
Proof.
  intros Hw. rewrite announced_patched. destruct (needs_patch _ _ _ _ _); [|done]. by destruct (patched_v4 ann Hw) as (_ & _ & _ & ? & _).
Qed.

(** Patching twice is patching once. *)
Lemma patched_idem ann :
  let m := patched_annotations a attrs ann bd v6_bd in
  patched_annotations a attrs m bd v6_bd = m.
Proof.
  intros m. assert (Hm : m = patched_annotations a attrs ann bd v6_bd) by done. clearbody m.
  unfold patched_annotations in Hm |- *. rewrite !put_public_ip_insert in Hm |- *.
  destruct (writes_v4 attrs bd), (writes_v6 attrs v6_bd), (la_public_ipv6 attrs);
    rewrite ?put_public_ip_insert in Hm |- *; cbn in Hm |- *.
  all: repeat (rewrite insert_id; [|
    rewrite Hm; annotation_simpl;
    repeat (rewrite lookup_insert_eq || (rewrite lookup_insert_ne by keys_ne)); done]).
  all: done.
Qed.
End Patch.

Lemma annotation_diff_same m : annotation_diff m m = ∅.
Proof. apply map_empty_filter. intros k v Hk Hne. cbn in Hne. congruence. Qed.

(** ** Lemmas: pod CIDRs *)

Definition of_family (is_v6 : bool) (c : string) : bool := Bool.eqb (str_contains ":" c) is_v6.

(** A node lists at most one pod CIDR of a family. *)
Definition one_cidr (is_v6 : bool) (spec : NodeSpec) : Prop :=
  (length (List.filter (of_family is_v6) (ns_pod_cidrs spec)) <= 1)%nat.

Lemma acquire_ip4_cidr mgr node cidr c6 :
  acquire_pod_cidrs mgr node = Ok (Some cidr, c6) -> one_cidr false (nd_spec node) ->
  exists s, cidr_text false (nd_spec node) = Some s /\ IP4Net_from_str s = Ok cidr.
Proof.
  unfold acquire_pod_cidrs, one_cidr, cidr_text, of_family.
  destruct (ns_pod_cidrs (nd_spec node)) as [|c1 [|c2 [|]]]; cbn [length List.filter].
  - set (s := default "" _). destruct (str_contains ":" s) eqn:Hs; [by destruct (IP6Net_from_str s)|].
    destruct (str_is_empty s); [done|]. cbn [negb Bool.eqb].
    destruct (IP4Net_from_str s) eqn:E; [|done]. intros [= <- _]. eauto.
  - unfold acquire_each. destruct (str_contains ":" c1) eqn:Hs; [by destruct (IP6Net_from_str c1)|].
    cbn [Bool.eqb]. destruct (IP4Net_from_str c1) eqn:E; [|done]. intros [= <- _]. eauto.
  - unfold acquire_each.
    destruct (str_contains ":" c1) eqn:H1, (str_contains ":" c2) eqn:H2; cbn [Bool.eqb length].
    + by destruct (IP6Net_from_str c1), (IP6Net_from_str c2).
    + destruct (IP6Net_from_str c1), (IP4Net_from_str c2) eqn:E; try done. intros [= <- _]. eauto.
    + destruct (IP4Net_from_str c1) eqn:E, (IP6Net_from_str c2); try done. intros [= <- _]. eauto.
    + lia.
  - done.
Qed.

(** ** Lemmas: the announcement *)

(** What the other nodes read once the patch is applied. *)
Lemma announced_node_lease `{RawJson, !RawJsonLaws} mgr prefix attrs node cidr c6 :
  let a := annotations_of prefix in
  let bd := raw_to_string (la_backend_data attrs) in
  let v6_bd := raw_to_string (la_backend_v6_data attrs) in
  let ann := om_annotations (nd_metadata node) in
  u32 (la_public_ip attrs) ->
  (forall d, la_backend_data attrs = Some d -> raw_from_string d = Some d) ->
  writes_v4 attrs bd = true ->
  annotation ann (an_backend_public_ip_overwrite a) = "" ->
  acquire_pod_cidrs mgr node = Ok (Some cidr, c6) -> one_cidr false (nd_spec node) ->
  let node' := with_annotations node (announced_annotations a attrs ann bd v6_bd) in
  node_managed (mkEventEnv a true false) node' = true /\
  node_to_lease node' a true false =
  Ok (mkLease true false cidr IP6Net_default
        (mkLeaseAttrs (la_public_ip attrs) None (la_backend_type attrs) (Some bd) None) 0 0).
Proof.
  intros a bd v6_bd ann Hip Hraw Hw Hov Hc H1 node'.
  destruct (announced_v4 prefix attrs bd v6_bd ann Hw) as (Hm & Ht & Hd & Hp).
  unfold node_managed. subst a node'. unfold with_annotations.
  cbn [nd_metadata om_annotations ee_annotations]. rewrite Hm. split; [done|].
  apply node_to_lease_spec. unfold lease_of_node, node_ip4_data.
  cbn -[announced_annotations annotations_of IP4_from_str]. rewrite Ht, Hp, Hov.
  split_and!; try done.
  - by eapply acquire_ip4_cidr.
  - by apply IP4_from_str_fmt.
  - rewrite raw_from_annotation_alt, Hd. subst bd.
    destruct (la_backend_data attrs) as [d|]; cbn; [by rewrite Hraw|by rewrite raw_null].
Qed.

(** ** Properties *)

(** An acquired lease comes from a node that was fetched, carries the
    attributes asked for and, for each enabled family, a pod CIDR of that node
    that lies in the configured, non-empty network; a disabled family keeps an
    empty subnet. *)
Theorem acquire_lease_sound mgr attrs fetches answers now l :
  acquire_lease mgr attrs fetches answers now = Some (Ok l) ->
  let config := km_config mgr in
  l_attrs l = attrs /\ l_expiration l = lease_expiration_24h now /\
  exists r node c4 c6,
    r ∈ fetches /\ fetch_node mgr (rd_seen r).1 (rd_seen r).2 = Some node /\
    acquire_pod_cidrs mgr node = Ok (c4, c6) /\
    (if cfg_enable_ipv4 config
     then c4 = Some (l_subnet l) /\ IP4Net_empty (cfg_network config) = false /\
          IP4Net_contains_cidr (cfg_network config) (l_subnet l) = true
     else l_subnet l = IP4Net_default) /\
    (if cfg_enable_ipv6 config
     then c6 = Some (l_ipv6_subnet l) /\ IP6Net_empty (cfg_ipv6_network config) = false /\
          IP6Net_contains_cidr (cfg_ipv6_network config) (l_ipv6_subnet l) = true
     else l_ipv6_subnet l = IP6Net_default).
Proof.
  unfold acquire_lease. destruct (wait_for_node_with_cidrs mgr fetches) as [[node|]|] eqn:Hw; try done.
  apply poll_Ok in Hw as (r & Hr & Ha). unfold node_attempt in Ha.
  destruct (fetch_node mgr _ _) as [node'|] eqn:Hseen; [|done].
  destruct (acquire_pod_cidrs mgr node') as [[c4 c6]|] eqn:Hc; [|done].
  destruct (cidrs_ready mgr c4 c6) eqn:Hready; [|done]. injection Ha as ->. rewrite Hc.
  destruct (maybe_patch_annotations _ _ _ _ _ _) as [[|]|]; try done. intros [= Hl].
  unfold cidrs_ready in Hready. apply andb_true_iff in Hready as [H4 H6].
  unfold acquired_lease in Hl. cbn zeta.
  destruct (cfg_enable_ipv4 (km_config mgr)), (cfg_enable_ipv6 (km_config mgr)), c4, c6;
    cbn in H4, H6, Hl |- *; try done;
    repeat (case_match; bool_to_prop; cbn in Hl; try done);
    injection Hl as <-; (split_and!; [done..|]); exists r, node; do 2 eexists; split_and!; done.
Qed.

(** C39: [acquire_lease] answers: when every sleep lasts at least its
    duration, eleven rounds of each polling loop are enough for it to return
    a lease or an error. *)
Theorem acquire_lease_terminates mgr attrs fetches answers now :
  rounds_timed 0 fetches -> (11 <= length fetches)%nat ->
  rounds_timed 0 answers -> (11 <= length answers)%nat ->
  is_Some (acquire_lease mgr attrs fetches answers now).
Proof.
  intros Hf Hlf Ha Hla. unfold acquire_lease.
  destruct (poll_ends (node_attempt mgr) AeNodeTimeout fetches 0 10 Hf) as [[node|] Hw];
    [unfold POLL_TIMEOUT, POLL_INTERVAL; lia|lia| |]; unfold wait_for_node_with_cidrs; rewrite Hw; [|done].
  destruct (acquire_pod_cidrs mgr node) as [[]|]; [|done]. unfold maybe_patch_annotations.
  destruct (annotation_patch _ _ _ _ _); [|done].
  destruct (poll_ends patch_attempt AePatchTimeout answers 0 10 Ha) as [[|] Hp];
    [unfold POLL_TIMEOUT, POLL_INTERVAL; lia|lia| |]; unfold patch_with_retry; by rewrite Hp.
Qed.

(** C6: what [acquire_lease] writes on the own node is what the other nodes
    read: once the patch is applied, the node is managed and [node_to_lease]
    gives the lease with the same subnet, public address, backend type and
    backend data (for an IPv4 cluster, without an overwrite annotation). *)
Theorem acquire_announces `{RawJson, !RawJsonLaws} mgr prefix attrs node cidr c6 :
  let a := annotations_of prefix in
  let bd := raw_to_string (la_backend_data attrs) in
  let v6_bd := raw_to_string (la_backend_v6_data attrs) in
  let ann := om_annotations (nd_metadata node) in
  u32 (la_public_ip attrs) ->
  (forall d, la_backend_data attrs = Some d -> raw_from_string d = Some d) ->
  writes_v4 attrs bd = true ->
  annotation ann (an_backend_public_ip_overwrite a) = "" ->
  acquire_pod_cidrs mgr node = Ok (Some cidr, c6) -> one_cidr false (nd_spec node) ->
  let node' := with_annotations node (announced_annotations a attrs ann bd v6_bd) in
  node_managed (mkEventEnv a true false) node' = true /\
  node_to_lease node' a true false =
  Ok (mkLease true false cidr IP6Net_default
        (mkLeaseAttrs (la_public_ip attrs) None (la_backend_type attrs) (Some bd) None) 0 0).
Proof. apply announced_node_lease. Qed.

(** The annotation patch is minimal and settles: it holds only keys whose
    value changes, applying it gives the annotations computed, and a second
    [maybe_patch_annotations] sends nothing or an empty patch. *)
Theorem annotation_patch_settles prefix attrs ann bd v6_bd patch :
  let a := annotations_of prefix in
  annotation_patch a attrs ann bd v6_bd = Some patch ->
  let ann' := merge_annotations patch ann in
  ann' = patched_annotations a attrs ann bd v6_bd /\
  map_Forall (fun k v => ann !! k <> Some v) patch /\
  default ∅ (annotation_patch a attrs ann' bd v6_bd) = ∅.
Proof.
  intros a Hp ann'. unfold annotation_patch in Hp.
  destruct (needs_patch a attrs ann bd v6_bd) eqn:Hn; [|done].
  assert (Hpatch : patch = annotation_diff ann (patched_annotations a attrs ann bd v6_bd)) by congruence.
  assert (Hann : ann' = patched_annotations a attrs ann bd v6_bd).
  { unfold ann'. rewrite Hpatch. apply annotation_diff_merge, patched_dom. }
  split_and!; [done| |].
  - intros k v Hk. rewrite Hpatch in Hk. by apply map_lookup_filter_Some in Hk as [_ Hk].
  - unfold annotation_patch. destruct (needs_patch a attrs ann' bd v6_bd); [|done].
    change (annotation_diff ann' (patched_annotations a attrs ann' bd v6_bd) = ∅).
    rewrite Hann. unfold a. rewrite patched_idem. apply annotation_diff_same.
Qed.

(** ** Witnesses *)

Definition sample_manager : KubeSubnetManager :=
  mkManager (mkConfig true false false (mkIP4Net (IP4_from_octets 10 5 0 0) 16) IP6Net_default
               24 24 None None 0 0 "vxlan" None)
    "n1" sample_annotations false false.

(** A node that the controller has given a pod CIDR, without annotations. *)
Definition bare_node (cidr : string) : Node :=
  mkNode (mkObjectMeta "n1" "uid" None ∅) (mkNodeSpec (Some cidr) [cidr]).

Definition sample_attrs : LeaseAttrs :=
  mkLeaseAttrs (IP4_from_octets 192 168 0 1) None "vxlan" (Some "{1}") None.

(** The node appears in the second round, the second PATCH succeeds. *)
Definition sample_fetches : list (Round NodeSight) :=
  [mkRound (Err KeGone, None) false 0 true;
   mkRound (Err KeGone, Some (bare_node "10.5.7.0/24")) false 3000 true].

Definition sample_answers : list (Round (result Node KubeError)) :=
  [mkRound (Err KeGone) false 0 true; mkRound (Ok (bare_node "10.5.7.0/24")) false 3000 true].

Definition sample_acquired : Lease :=
  mkLease false false (cidr_of 10 5 7 0 24) IP6Net_default sample_attrs (lease_expiration_24h 7) 0.

Lemma acquire_lease_sound_witness :
  acquire_lease sample_manager sample_attrs sample_fetches sample_answers 7 = Some (Ok sample_acquired) /\
  l_attrs sample_acquired = sample_attrs.
Proof.
  split; [by vm_compute|].
  apply (acquire_lease_sound sample_manager sample_attrs sample_fetches sample_answers 7 sample_acquired).
  by vm_compute.
Defined.

(** Eleven rounds, three seconds apart. *)
Definition poll_rounds {O} (seen : O) : list (Round O) :=
  map (fun i => mkRound seen false (3000 * Z.of_nat i) true) (seq 0 11).

Lemma acquire_lease_terminates_witness :
  is_Some (acquire_lease sample_manager sample_attrs (poll_rounds (Err KeGone, Some (bare_node "10.5.7.0/24")))
             (poll_rounds (Err KeGone)) 7).
Proof.
  refine (acquire_lease_terminates sample_manager sample_attrs _ _ 7 _ _ _ _).
  - repeat split; by vm_compute.
  - cbn. lia.
  - repeat split; by vm_compute.
  - cbn. lia.
Defined.

Lemma acquire_announces_witness :
  @node_to_lease sample_raw
    (with_annotations (bare_node "10.5.7.0/24")
       (announced_annotations sample_annotations sample_attrs ∅ "{1}" "null"))
    sample_annotations true false
  = Ok (mkLease true false (cidr_of 10 5 7 0 24) IP6Net_default sample_attrs 0 0).
Proof.
  refine (proj2 (@acquire_announces sample_raw sample_raw_laws sample_manager
    "flannel.alpha.coreos.com/" sample_attrs (bare_node "10.5.7.0/24") (cidr_of 10 5 7 0 24) None
    _ _ _ _ _ _)).
  - by vm_compute.
  - by intros d [= <-].
  - reflexivity.
  - reflexivity.
  - by vm_compute.
  - vm_compute. lia.
Defined.

Lemma annotation_patch_settles_witness :
  exists patch,
    annotation_patch sample_annotations sample_attrs ∅ "{1}" "null" = Some patch /\
    default ∅ (annotation_patch sample_annotations sample_attrs (merge_annotations patch ∅) "{1}" "null") = ∅.
Proof.
  destruct (annotation_patch sample_annotations sample_attrs ∅ "{1}" "null") as [patch|] eqn:E;
    [|by vm_compute in E].
  exists patch. split; [done|].
  exact (proj2 (proj2 (annotation_patch_settles "flannel.alpha.coreos.com/" sample_attrs ∅ "{1}" "null" patch E))).
Defined.
