(* ===== verification/EventHub.v ===== *)
(** * [subnet/kube/mod.rs] (EventHub), [subnet/kube/watch_ops.rs]: fan-out of lease events

    One task ([fan_out]) publishes to the hub, any number of watchers
    subscribe.  The lock is not held while a publication awaits its
    subscribers, so a publication is a sequence of steps that subscriptions
    and dropped receivers can interleave with.  A channel is what its
    receiver gets, in order; a [send] that waits for room is a step that
    happens later. *)

From S2P Require Import Prelude RustStr IpNet Ip6Net Lease WatchLoop KubeNode KubeClient KubeAcquire.
#[local] Open Scope string_scope.
#[local] Open Scope list_scope.
#[local] Open Scope Z_scope.

(** ** The hub *)

Record HubChannel := mkHubChannel { hc_capacity : nat; hc_sent : list Event; hc_open : bool }.

(** A publication under way: the event, the subscribers still to be served
    and those found closed. *)
Record Publication := mkPublication {
  pb_event : Event;
  pb_todo : list nat;
  pb_retired : list nat;
}.

(** [HubInner], with the channels by their identity (their creation order)
    and the state of the publishing task. *)
Record EventHub := mkEventHub {
  hub_backlog : list Event;
  hub_capacity : nat;
  hub_subscribers : list nat;
  hub_channels : list HubChannel;
  hub_publishing : option Publication;
}.

Definition EventHub_new (capacity : nat) : EventHub := mkEventHub [] (Nat.max capacity 1) [] [] None.

(** The loop that pops the oldest events. *)
Definition trim_backlog (capacity : nat) (backlog : list Event) : list Event :=
  drop (length backlog - capacity) backlog.

(** [publish] up to its first await. *)
Definition publish (h : EventHub) (event : Event) : EventHub :=
  mkEventHub (trim_backlog (hub_capacity h) (hub_backlog h ++ [event])) (hub_capacity h)
    (hub_subscribers h) (hub_channels h)
    (Some (mkPublication event (hub_subscribers h) [])).

(** [tx.send(event).await] to the next subscriber. *)
Definition publish_send (h : EventHub) (p : Publication) (id : nat) (todo : list nat) : EventHub :=
  match hub_channels h !! id with
  | Some c =>
      if hc_open c
      then mkEventHub (hub_backlog h) (hub_capacity h) (hub_subscribers h)
             (<[id := mkHubChannel (hc_capacity c) (hc_sent c ++ [pb_event p]) true]> (hub_channels h))
             (Some (mkPublication (pb_event p) todo (pb_retired p)))
      else mkEventHub (hub_backlog h) (hub_capacity h) (hub_subscribers h) (hub_channels h)
             (Some (mkPublication (pb_event p) todo (pb_retired p ++ [id])))
  | None => h
  end.

(** The end of [publish]: the closed subscribers go. *)
Definition publish_retire (h : EventHub) (p : Publication) : EventHub :=
  mkEventHub (hub_backlog h) (hub_capacity h)
    (List.filter (fun id => negb (bool_decide (id ∈ pb_retired p))) (hub_subscribers h))
    (hub_channels h) None.

(** [subscribe]: a channel with room for the backlog, which is replayed with
    [try_send] before the sender is registered. *)
Definition subscribe (h : EventHub) : EventHub :=
  let capacity := (hub_capacity h + length (hub_backlog h))%nat in
  let id := length (hub_channels h) in
  mkEventHub (hub_backlog h) (hub_capacity h) (hub_subscribers h ++ [id])
    (hub_channels h ++ [mkHubChannel capacity (take capacity (hub_backlog h)) true])
    (hub_publishing h).

Definition drop_receiver (h : EventHub) (id : nat) : EventHub :=
  mkEventHub (hub_backlog h) (hub_capacity h) (hub_subscribers h)
    (alter (fun c => mkHubChannel (hc_capacity c) (hc_sent c) false) id (hub_channels h))
    (hub_publishing h).

Inductive HubInput :=
| HPublish (event : Event)
| HSend
| HRetire
| HSubscribe
| HDrop (id : nat).

(** [fan_out] publishes one event after the other. *)
Definition hub_step (h : EventHub) (i : HubInput) : option EventHub :=
  match i, hub_publishing h with
  | HPublish e, None => Some (publish h e)
  | HPublish _, Some _ => None
  | HSend, Some p =>
      match pb_todo p with
      | id :: todo => Some (publish_send h p id todo)
      | [] => None
      end
  | HRetire, Some p =>
      match pb_todo p with
      | [] => Some (publish_retire h p)
      | _ :: _ => None
      end
  | HSend, None | HRetire, None => None
  | HSubscribe, _ => Some (subscribe h)
  | HDrop id, _ => Some (drop_receiver h id)
  end.

Fixpoint hub_run (h : EventHub) (ins : list HubInput) : option EventHub :=
  match ins with
  | [] => Some h
  | i :: ins => match hub_step h i with Some h' => hub_run h' ins | None => None end
  end.

(** ** Watching the hub *)

(** What [rx.recv()] or the token yields. *)
Inductive WatchInput :=
| WiCancelled
| WiReceived (event : option Event).

(** The loops: still running, or ended with or without the error of a
    cancelled context. *)
Inductive WatchOutcome := WoRunning | WoOk | WoCancelled.

Definition forward (tx : Receiver (list LeaseWatchResult)) (event : Event)
  : option (Receiver (list LeaseWatchResult)) :=
  rcv_send tx [mkLeaseWatchResult [event] []].

Fixpoint hub_watch_leases (tx : Receiver (list LeaseWatchResult)) (ins : list WatchInput)
  : WatchOutcome * Receiver (list LeaseWatchResult) :=
  match ins with
  | [] => (WoRunning, tx)
  | WiCancelled :: _ => (WoCancelled, tx)
  | WiReceived None :: _ => (WoOk, tx)
  | WiReceived (Some event) :: ins =>
      match forward tx event with
      | None => (WoOk, tx)
      | Some tx' => hub_watch_leases tx' ins
      end
  end.

Definition lease_matches (sn : IP4Net) (sn6 : IP6Net) (event : Event) : bool :=
  let v4_match := negb (IP4Net_empty sn) && bool_decide (l_subnet (ev_lease event) = sn) in
  let v6_match := negb (IP6Net_empty sn6) && bool_decide (l_ipv6_subnet (ev_lease event) = sn6) in
  negb (negb v4_match && negb v6_match).

Fixpoint hub_watch_lease (sn : IP4Net) (sn6 : IP6Net) (tx : Receiver (list LeaseWatchResult))
    (ins : list WatchInput) : WatchOutcome * Receiver (list LeaseWatchResult) :=
  match ins with
  | [] => (WoRunning, tx)
  | WiCancelled :: _ => (WoCancelled, tx)
  | WiReceived None :: _ => (WoOk, tx)
  | WiReceived (Some event) :: ins =>
      if negb (lease_matches sn sn6 event) then hub_watch_lease sn sn6 tx ins
      else match forward tx event with
           | None => (WoOk, tx)
           | Some tx' => hub_watch_lease sn sn6 tx' ins
           end
  end.

(** ** Stored annotations *)

(** [trim_matches] of double quotes and closing braces *)
Definition DQUOTE : ascii := chr 34.

Definition is_trim (c : ascii) : bool := Ascii.eqb c DQUOTE || Ascii.eqb c "}".

Fixpoint trim_start_matches (p : ascii -> bool) (s : string) : string :=
  match s with
  | String c s' => if p c then trim_start_matches p s' else s
  | EmptyString => ""
  end.

Fixpoint trim_end_matches (p : ascii -> bool) (s : string) : string :=
  match s with
  | String c s' =>
      let t := trim_end_matches p s' in
      if str_is_empty t && p c then "" else String c t
  | EmptyString => ""
  end.

(** [split] on a colon followed by a double quote. *)
Fixpoint split_colon_quote (s : string) : list string :=
  match s with
  | EmptyString => [""]
  | String c s' =>
      match s' with
      | String d s'' =>
          if Ascii.eqb c ":" && Ascii.eqb d DQUOTE then "" :: split_colon_quote s''
          else match split_colon_quote s' with
               | p :: ps => String c p :: ps
               | [] => [String c ""]
               end
      | EmptyString => [String c ""]
      end
  end.

Definition extract_mac (value : option string) : string :=
  match value with
  | None => ""
  | Some backend_data =>
      let mac_str := trim_end_matches is_trim (trim_start_matches is_trim backend_data) in
      match split_colon_quote mac_str with
      | [_; mac] => mac
      | _ => ""
      end
  end.

Definition get_stored_mac_addresses (mgr : KubeSubnetManager) (get_node : result Node KubeError)
  : string * string :=
  match get_node with
  | Err _ => ("", "")
  | Ok node =>
      let ann := om_annotations (nd_metadata node) in
      (extract_mac (ann !! an_backend_data (km_annotations mgr)),
       extract_mac (ann !! an_backend_v6_data (km_annotations mgr)))
  end.

Definition get_stored_public_ip (mgr : KubeSubnetManager) (get_node : result Node KubeError)
  : string * string :=
  match get_node with
  | Err _ => ("", "")
  | Ok node =>
      let ann := om_annotations (nd_metadata node) in
      (annotation ann (an_backend_node_public_ip (km_annotations mgr)),
       annotation ann (an_backend_node_public_ipv6 (km_annotations mgr)))
  end.

(** ** Specification *)

Definition published_event (i : HubInput) : list Event :=
  match i with HPublish e => [e] | _ => [] end.

Definition published (ins : list HubInput) : list Event := concat (map published_event ins).

(** The last [n] events. *)
Definition last_events (n : nat) (l : list Event) : list Event := drop (length l - n) l.

(** A publication under way has yet to serve channel [id]. *)
Definition awaits (h : EventHub) (id : nat) : Prop :=
  match hub_publishing h with Some p => id ∈ pb_todo p | None => False end.

Definition in_flight (h : EventHub) (id : nat) : list Event :=
  match hub_publishing h with
  | Some p => if bool_decide (id ∈ pb_todo p) then [pb_event p] else []
  | None => []
  end.

(** ** Lemmas *)

(** The bookkeeping: identities are those of channels, none is listed twice,
    and only closed channels are retired. *)
Record hub_inv (h : EventHub) : Prop := {
  hi_subs : Forall (fun id => id < length (hub_channels h))%nat (hub_subscribers h);
  hi_nodup : NoDup (hub_subscribers h);
  hi_open : forall id c, hub_channels h !! id = Some c -> hc_open c = true -> id ∈ hub_subscribers h;
  hi_todo : forall p, hub_publishing h = Some p ->
    NoDup (pb_todo p) /\ Forall (fun id => id < length (hub_channels h))%nat (pb_todo p) /\
    Forall (fun id => id < length (hub_channels h))%nat (pb_retired p) /\
    forall id c, id ∈ pb_retired p -> hub_channels h !! id = Some c -> hc_open c = false;
}.

Lemma hub_inv_new capacity : hub_inv (EventHub_new capacity).
Proof. split; cbn; [done|apply NoDup_nil_2|done|done]. Qed.

Lemma published_snoc ins i : published (ins ++ [i]) = published ins ++ published_event i.
Proof. unfold published. rewrite map_app, concat_app. cbn. by rewrite app_nil_r. Qed.

Lemma hub_run_app h ins1 ins2 :
  hub_run h (ins1 ++ ins2) = match hub_run h ins1 with Some h' => hub_run h' ins2 | None => None end.
Proof. revert h. induction ins1 as [|i ins1 IH]; intros h; cbn; [done|]. by destruct (hub_step h i). Qed.

Lemma last_events_snoc n l e :
  last_events n (last_events n l ++ [e]) = last_events n (l ++ [e]).
Proof.
  unfold last_events. rewrite !length_app, length_drop. cbn.
  destruct (decide (length l <= n)%nat) as [Hle|Hgt].
  - replace (length l - n)%nat with 0%nat by lia. cbn. do 2 f_equal. lia.
  - rewrite !drop_app, !drop_drop, length_drop. f_equal; f_equal; lia.
Qed.

Lemma backlog_spec capacity ins h :
  hub_run (EventHub_new capacity) ins = Some h ->
  hub_capacity h = Nat.max capacity 1 /\ hub_backlog h = last_events (hub_capacity h) (published ins).
Proof.
  revert h. induction ins as [|i ins IH] using rev_ind; intros h; [by intros [= <-]|].
  rewrite hub_run_app. destruct (hub_run (EventHub_new capacity) ins) as [h0|]; [|done]. cbn.
  destruct (IH h0 eq_refl) as [Hc Hb]. destruct (hub_step h0 i) as [h1|] eqn:Hs; [|done].
  intros [= <-]. rewrite published_snoc.
  unfold hub_step, publish_send in Hs. repeat split_match; simplify_eq; cbn; rewrite ?app_nil_r; try done.
  split; [done|]. rewrite Hb. apply last_events_snoc.
Qed.

Lemma publish_send_inv h p id todo :
  hub_inv h -> hub_publishing h = Some p -> pb_todo p = id :: todo ->
  hub_inv (publish_send h p id todo).
Proof.
  intros Hh Hp Ht. destruct (hi_todo h Hh p Hp) as (Hnd & Hall & Hlt & Hret). rewrite Ht in Hnd, Hall.
  apply list.NoDup_cons in Hnd as [_ Hnd]. apply list.Forall_cons in Hall as [Hid Hall].
  unfold publish_send. destruct (hub_channels h !! id) as [c|] eqn:Hc; [|done].
  destruct (hc_open c) eqn:Ho; split; cbn; rewrite ?length_insert; try apply Hh.
  - intros id' c' [(<- & <- & _)|[_ Hl]]%list_lookup_insert_Some; [by eauto using hi_open|by apply Hh].
  - intros q [= <-]. split_and!; [done..|]. cbn. intros id' c' Hin Hl.
    apply list_lookup_insert_Some in Hl as [(<- & <- & _)|[_ Hl]]; [|by eapply Hret].
    by rewrite (Hret id c Hin Hc) in Ho.
  - intros q [= <-]. split_and!; [done..| |]; cbn; [by apply Forall_app; repeat constructor|].
    intros id' c' [Hin|Hin%list_elem_of_singleton]%elem_of_app Hl; [by eapply Hret|].
    subst id'. rewrite Hc in Hl. by simplify_eq.
Qed.

Lemma publish_retire_inv h p :
  hub_inv h -> hub_publishing h = Some p -> hub_inv (publish_retire h p).
Proof.
  intros Hh Hp. destruct (hi_todo h Hh p Hp) as (_ & _ & _ & Hret). destruct Hh as [Hs Hnd Ho _].
  split; cbn; [..|done].
  - apply list.Forall_forall. intros id Hin%list_elem_of_In. apply filter_In in Hin as [Hin _].
    rewrite list.Forall_forall in Hs. by apply Hs, list_elem_of_In.
  - apply NoDup_ListNoDup, List.NoDup_filter. by apply NoDup_ListNoDup.
  - intros id c Hc Hopen. apply list_elem_of_In, filter_In. split; [by eapply list_elem_of_In, Ho|].
    rewrite bool_decide_false; [done|]. intros Hin. by rewrite (Hret _ _ Hin Hc) in Hopen.
Qed.

Lemma subscribe_inv h : hub_inv h -> hub_inv (subscribe h).
Proof.
  intros [Hs Hnd Ho Ht]. split; cbn; rewrite ?length_app; cbn.
  - apply Forall_app. split; [|by constructor; [lia|]].
    revert Hs. apply Forall_impl. intros. cbn in *. lia.
  - apply list.NoDup_app. split_and!; [done| |apply NoDup_singleton].
    intros id Hin ->%list_elem_of_singleton. rewrite list.Forall_forall in Hs. apply Hs in Hin. lia.
  - intros id c [Hl|[Hge Hl]]%lookup_app_Some Hopen; apply elem_of_app; [left; by eauto|right].
    apply list_lookup_singleton_Some in Hl as [Hz _]. apply list_elem_of_singleton. lia.
  - intros p Hp. destruct (Ht p Hp) as (H1 & H2 & H3 & H4). split_and!; [done| | |].
    + revert H2. apply Forall_impl. intros. cbn in *. lia.
    + revert H3. apply Forall_impl. intros. cbn in *. lia.
    + intros id c Hin [Hl|[Hge _]]%lookup_app_Some; [by eauto|].
      rewrite list.Forall_forall in H3. apply H3 in Hin. lia.
Qed.

Lemma drop_receiver_inv h id : hub_inv h -> hub_inv (drop_receiver h id).
Proof.
  assert (Hopen : forall j c, hub_channels (drop_receiver h id) !! j = Some c ->
    exists c0, hub_channels h !! j = Some c0 /\ (hc_open c = true -> hc_open c0 = true)).
  { intros j c. cbn. destruct (decide (id = j)) as [<-|Hne].
    - rewrite list_lookup_alter_eq. destruct (hub_channels h !! id) as [c0|]; [|done].
      intros [= <-]. by exists c0.
    - rewrite list_lookup_alter_ne by done. eauto. }
  intros [Hs Hnd Ho Ht]. split; cbn in *; rewrite ?length_alter; try done.
  - intros j c (c0 & Hl & Hc)%Hopen Hop. eauto.
  - intros p Hp. destruct (Ht p Hp) as (H1 & H2 & H3 & H4). split_and!; [done..|].
    intros j c Hin (c0 & Hl & Hc)%Hopen. specialize (H4 _ _ Hin Hl).
    destruct (hc_open c); [|done]. by rewrite Hc in H4.
Qed.

Lemma hub_step_inv h i h' : hub_inv h -> hub_step h i = Some h' -> hub_inv h'.
Proof.
  intros Hh. destruct i; cbn.
  - destruct (hub_publishing h); [done|]. intros [= <-]. destruct Hh as [Hs Hnd Ho _].
    split; cbn; [done..|]. intros p [= <-]. cbn.
    split_and!; [done|done|constructor|by intros ? ? ?%elem_of_nil].
  - destruct (hub_publishing h) as [p|] eqn:Hp; [|done]. destruct (pb_todo p) eqn:Ht; [done|].
    intros [= <-]. by apply publish_send_inv.
  - destruct (hub_publishing h) as [p|] eqn:Hp; [|done]. destruct (pb_todo p) eqn:Ht; [|done].
    intros [= <-]. by apply publish_retire_inv.
  - intros [= <-]. by apply subscribe_inv.
  - intros [= <-]. by apply drop_receiver_inv.
Qed.

(** Channel [id] has been sent the events [due], but for the one a
    publication is about to send; a dropped one a part of them. *)
Definition chan_inv (h : EventHub) (id : nat) (due : list Event) : Prop :=
  exists c, hub_channels h !! id = Some c /\
    if hc_open c then hc_sent c ++ in_flight h id = due else prefix (hc_sent c) due.

Lemma chan_inv_step h i h' id due :
  hub_inv h -> chan_inv h id due -> hub_step h i = Some h' ->
  chan_inv h' id (due ++ published_event i).
Proof.
  intros Hh (c & Hc & Hdue). unfold chan_inv, in_flight in *. destruct i as [e| | | |id']; cbn.
  - destruct (hub_publishing h) eqn:Hp; [done|]. intros [= <-]. cbn. exists c. split; [done|].
    destruct (hc_open c) eqn:Ho; [|by apply prefix_app_r].
    rewrite app_nil_r in Hdue. subst due. by rewrite bool_decide_true by (by eapply hi_open).
  - destruct (hub_publishing h) as [p|] eqn:Hp; [|done]. destruct (pb_todo p) as [|id' todo] eqn:Ht; [done|].
    destruct (hi_todo h Hh p Hp) as (Hnd & Hall & _). rewrite Ht in Hnd, Hall.
    apply list.NoDup_cons in Hnd as [Hni _]. apply list.Forall_cons in Hall as [Hlt _].
    intros [= <-]. rewrite app_nil_r. unfold publish_send.
    apply lookup_lt_is_Some_2 in Hlt as [c' Hc']. rewrite Hc'.
    destruct (decide (id' = id)) as [->|Hne].
    + rewrite Hc in Hc'. injection Hc' as <-. destruct (hc_open c) eqn:Ho; cbn.
      * eexists. rewrite list_lookup_insert_eq by (by eapply lookup_lt_Some). split; [done|]. cbn.
        rewrite bool_decide_false, app_nil_r by done. by rewrite bool_decide_true in Hdue by by left.
      * exists c. by rewrite Ho.
    + assert (Hsame : bool_decide (id ∈ todo) = bool_decide (id ∈ id' :: todo)).
      { apply bool_decide_ext. rewrite elem_of_cons. naive_solver. }
      rewrite <- Hsame in Hdue.
      destruct (hc_open c'); cbn; exists c; [rewrite list_lookup_insert_ne by done|]; done.
  - destruct (hub_publishing h) as [p|] eqn:Hp; [|done]. destruct (pb_todo p) eqn:Ht; [|done].
    intros [= <-]. rewrite app_nil_r. cbn. exists c. split; [done|]. by rewrite app_nil_r in Hdue |- *.
  - intros [= <-]. rewrite app_nil_r. cbn. exists c. split; [|done]. by apply lookup_app_l_Some.
  - intros [= <-]. rewrite app_nil_r. cbn. destruct (decide (id' = id)) as [->|Hne].
    + rewrite list_lookup_alter_eq, Hc. eexists. split; [done|]. cbn.
      destruct (hc_open c); [|done]. rewrite <- Hdue. by apply prefix_app_r.
    + rewrite list_lookup_alter_ne by done. by exists c.
Qed.

Lemma hub_run_inv h ins h' : hub_inv h -> hub_run h ins = Some h' -> hub_inv h'.
Proof.
  revert h. induction ins as [|i ins IH]; intros h Hh; cbn; [by intros [= <-]|].
  destruct (hub_step h i) as [h1|] eqn:Hs; [|done]. apply IH. by eapply hub_step_inv.
Qed.

Lemma chan_inv_run h ins h' id due :
  hub_inv h -> chan_inv h id due -> hub_run h ins = Some h' ->
  chan_inv h' id (due ++ published ins).
Proof.
  revert h due. induction ins as [|i ins IH]; intros h due Hh Hc.
  { intros [= <-]. unfold published. cbn. by rewrite app_nil_r. }
  cbn [hub_run]. destruct (hub_step h i) as [h1|] eqn:Hs; [|done]. intros Hrun.
  apply (IH h1 (due ++ published_event i)) in Hrun;
    [|by eapply hub_step_inv|by eapply chan_inv_step].
  unfold published in *. cbn. by rewrite <- app_assoc in Hrun.
Qed.

(** The new channel has room for the whole backlog. *)
Lemma subscribe_chan h : hub_inv h -> chan_inv (subscribe h) (length (hub_channels h)) (hub_backlog h).
Proof.
  intros Hh. eexists. cbn. rewrite lookup_app_r, Nat.sub_diag by done. split; [done|]. cbn.
  rewrite take_ge by lia. unfold in_flight. cbn. destruct (hub_publishing h) as [p|] eqn:Hp.
  - destruct (hi_todo h Hh p Hp) as (_ & Hall & _). rewrite bool_decide_false, app_nil_r; [done|].
    intros Hin. rewrite list.Forall_forall in Hall. apply Hall in Hin. lia.
  - by rewrite app_nil_r.
Qed.

(** What is due to a new channel *)
Lemma subscriber_due capacity before after h1 h :
  hub_run (EventHub_new capacity) before = Some h1 ->
  hub_run h1 (HSubscribe :: after) = Some h ->
  let id := length (hub_channels h1) in
  let due := last_events (Nat.max capacity 1) (published before) ++ published after in
  exists c, hub_channels h !! id = Some c /\
    (hc_open c = true -> hc_sent c ++ in_flight h id = due) /\ prefix (hc_sent c) due.
Proof.
  intros H1 H2 id due. destruct (backlog_spec _ _ _ H1) as [Hcap Hb].
  pose proof (hub_run_inv _ _ _ (hub_inv_new capacity) H1) as Hinv. cbn in H2.
  destruct (chan_inv_run _ _ _ id _ (subscribe_inv _ Hinv) (subscribe_chan _ Hinv) H2) as (c & Hc & Hs).
  rewrite Hb, Hcap in Hs. fold due in Hs. exists c. split; [done|].
  destruct (hc_open c); [|by split]. split; [done|]. rewrite <- Hs. by apply prefix_app_r.
Qed.

(** ** Properties *)

(** C13: the hub delivers: a watcher that subscribes at any moment, also in
    the middle of a publication, receives the last events published before
    (as many as the backlog holds) followed by every event published after,
    in order, without loss or duplicate, up to the one a publication is
    about to send it; once dropped it has received a beginning of these. *)
Theorem hub_delivers capacity before after h1 h :
  hub_run (EventHub_new capacity) before = Some h1 ->
  hub_run h1 (HSubscribe :: after) = Some h ->
  let id := length (hub_channels h1) in
  let due := last_events (Nat.max capacity 1) (published before) ++ published after in
  exists c, hub_channels h !! id = Some c /\
    (hc_open c = true -> hc_sent c ++ in_flight h id = due) /\ prefix (hc_sent c) due.
Proof. apply subscriber_due. Qed.

(** [watch_lease] forwards exactly the events of its subnet, one batch
    each, in order: with a receiver that stays, the batches are those of the
    received events whose lease has the IPv4 or the IPv6 subnet asked for,
    and an unset subnet matches nothing. *)
Theorem watch_lease_filters sn sn6 events sent room :
  (length events <= room)%nat ->
  let wanted e :=
    (sn <> IP4Net_default /\ l_subnet (ev_lease e) = sn) \/
    (IP6Net_empty sn6 = false /\ l_ipv6_subnet (ev_lease e) = sn6) in
  exists selected room',
    hub_watch_lease sn sn6 (mkReceiver sent room) (map (fun e => WiReceived (Some e)) events)
    = (WoRunning, mkReceiver (sent ++ map (fun e => [mkLeaseWatchResult [e] []]) selected) room') /\
    selected `sublist_of` events /\ (forall e, e ∈ selected <-> e ∈ events /\ wanted e).
Proof.
  intros Hroom wanted.
  assert (Hw : forall e, lease_matches sn sn6 e = true <-> wanted e).
  { intros e. unfold lease_matches, wanted.
    rewrite negb_true_iff, andb_false_iff, !negb_false_iff, !andb_true_iff, !bool_decide_eq_true, !negb_true_iff.
    assert (IP4Net_empty sn = false <-> sn <> IP4Net_default) as ->; [|done].
    destruct sn as [ip plen]. unfold IP4Net_empty, IP4Net_default. cbn.
    rewrite andb_false_iff, !Z.eqb_neq. split.
    - intros [] [= -> ->]; done.
    - intros Hne. destruct (decide (ip = 0)) as [->|]; [right|by left]. intros ->. done. }
  clearbody wanted. revert sent room Hroom.
  induction events as [|e events IH]; intros sent room Hroom; cbn [length] in Hroom.
  { exists [], room. cbn. rewrite app_nil_r. split_and!; [done..|]. intros e. set_solver. }
  cbn [map hub_watch_lease]. destruct (lease_matches sn sn6 e) eqn:Hm; cbn [negb].
  - unfold forward, rcv_send. cbn. destruct room as [|room]; [lia|].
    destruct (IH (sent ++ [[mkLeaseWatchResult [e] []]]) room) as (sel & room' & Hr & Hsub & Hel); [lia|].
    exists (e :: sel), room'. rewrite Hr. cbn. rewrite <- app_assoc. split_and!; [done|by constructor|].
    intros e'. rewrite !elem_of_cons, Hel. apply Hw in Hm. naive_solver.
  - destruct (IH sent room) as (sel & room' & Hr & Hsub & Hel); [lia|].
    exists sel, room'. rewrite Hr. split_and!; [done|by constructor|].
    intros e'. rewrite !elem_of_cons, Hel. apply not_true_iff_false in Hm. rewrite Hw in Hm.
    naive_solver.
Qed.

(** ** Witnesses *)

Definition sample_before : list HubInput :=
  [HPublish (mkEvent Added (sample_lease 1)); HRetire; HPublish (mkEvent Added (sample_lease 2))].

Definition sample_after : list HubInput :=
  [HRetire; HPublish (mkEvent Removed (sample_lease 1)); HSend; HRetire;
   HPublish (mkEvent Added (sample_lease 3))].

Lemma hub_delivers_witness :
  exists h1 h c, hub_run (EventHub_new 1) sample_before = Some h1 /\
    hub_run h1 (HSubscribe :: sample_after) = Some h /\
    hub_channels h !! 0%nat = Some c /\
    hc_sent c = [mkEvent Added (sample_lease 2); mkEvent Removed (sample_lease 1)] /\
    prefix (hc_sent c) ([mkEvent Added (sample_lease 2)] ++ published sample_after).
Proof.
  destruct (hub_run (EventHub_new 1) sample_before) as [h1|] eqn:E1; [|by vm_compute in E1].
  destruct (hub_run h1 (HSubscribe :: sample_after)) as [h|] eqn:E2.
  2: { vm_compute in E1. injection E1 as <-. by vm_compute in E2. }
  destruct (hub_delivers 1 sample_before sample_after h1 h E1 E2) as (c & Hc & _ & Hp).
  exists h1, h, c. split_and!; [done|done| |by vm_compute in E1; injection E1 as <-;
    vm_compute in E2; injection E2 as <-; vm_compute in Hc; injection Hc as <-|exact Hp].
  vm_compute in E1; injection E1 as <-. exact Hc.
Defined.

Lemma watch_lease_filters_witness :
  exists selected room',
    hub_watch_lease (l_subnet (sample_lease 2)) IP6Net_default (mkReceiver [] 5)
      [WiReceived (Some (mkEvent Added (sample_lease 1))); WiReceived (Some (mkEvent Added (sample_lease 2)))]
    = (WoRunning, mkReceiver (map (fun e => [mkLeaseWatchResult [e] []]) selected) room') /\
    selected `sublist_of` [mkEvent Added (sample_lease 1); mkEvent Added (sample_lease 2)].
Proof.
  destruct (watch_lease_filters (l_subnet (sample_lease 2)) IP6Net_default
    [mkEvent Added (sample_lease 1); mkEvent Added (sample_lease 2)] [] 5) as (sel & room' & H & Hs & _).
  - cbn. lia.
  - exists sel, room'. split; [exact H|exact Hs].
Defined.
