(* ===== verification/RouteNetwork.v ===== *)
(** * [backend/route_network.rs], [route_network/spec.rs]: one static route per peer

    The network of the route-based backends: lease events add and remove
    routes in the kernel, which it also records so that a periodic check can
    put back the missing ones.  The kernel is the interface [RouteKernel]
    with its laws; a message is what the code reads of a netlink route
    message.  The route closures of the host-gw backend are here too. *)

From S2P Require Import Prelude RustStr IpNet Ip6Net Lease.
#[local] Open Scope string_scope.
#[local] Open Scope list_scope.
#[local] Open Scope Z_scope.

(** [std::net::IpAddr], over the address values of the other files. *)
Inductive IpAddr := V4 (ip : IP4) | V6 (ip : IP6).

Inductive AddressFamily := Inet | Inet6.

#[global] Instance IpAddr_eq_dec : EqDecision IpAddr.
Proof. solve_decision. Defined.
#[global] Instance AddressFamily_eq_dec : EqDecision AddressFamily.
Proof. solve_decision. Defined.
#[global] Program Instance IpAddr_countable : Countable IpAddr :=
  inj_countable' (fun a => match a with V4 x => inl x | V6 x => inr x end)
    (fun s => match s with inl x => V4 x | inr x => V6 x end) _.
Next Obligation. by intros []. Qed.
#[global] Program Instance AddressFamily_countable : Countable AddressFamily :=
  inj_countable' (fun f => match f with Inet => true | Inet6 => false end)
    (fun b : bool => if b then Inet else Inet6) _.
Next Obligation. by intros []. Qed.

(** ** [spec.rs] *)

Record RouteSpec := mkRouteSpec {
  rs_dst : IpAddr;
  rs_prefix_len : Z;
  rs_gateway : IpAddr;
  rs_link_index : Z;
  rs_family : AddressFamily;
  rs_onlink : bool;
}.

(** A netlink route message: its family and prefix length, and the first
    destination, gateway and output interface among its attributes. *)
Record RouteMessage := mkRouteMessage {
  rm_family : AddressFamily;
  rm_prefix_len : Z;
  rm_dst : option IpAddr;
  rm_gateway : option IpAddr;
  rm_oif : option Z;
  rm_onlink : bool;
}.

#[global] Instance RouteSpec_eq_dec : EqDecision RouteSpec.
Proof. solve_decision. Defined.
#[global] Instance RouteMessage_eq_dec : EqDecision RouteMessage.
Proof. solve_decision. Defined.

Definition ip4_of (ip : IpAddr) : IP4 := match ip with V4 v4 => v4 | V6 _ => 0 end.
Definition ip6_of (ip : IpAddr) : IP6 := match ip with V6 v6 => v6 | V4 _ => IP6_zero end.

Definition to_message (s : RouteSpec) : RouteMessage :=
  match rs_family s with
  | Inet =>
      mkRouteMessage Inet (rs_prefix_len s) (Some (V4 (ip4_of (rs_dst s))))
        (match rs_gateway s with V4 g => Some (V4 g) | V6 _ => None end)
        (Some (rs_link_index s)) (rs_onlink s)
  | Inet6 =>
      mkRouteMessage Inet6 (rs_prefix_len s) (Some (V6 (ip6_of (rs_dst s))))
        (match rs_gateway s with V6 g => Some (V6 g) | V4 _ => None end)
        (Some (rs_link_index s)) (rs_onlink s)
  end.

Definition route_spec_equal (x y : RouteSpec) : bool :=
  bool_decide (rs_dst x = rs_dst y) && (rs_prefix_len x =? rs_prefix_len y)
  && bool_decide (rs_gateway x = rs_gateway y) && (rs_link_index x =? rs_link_index y).

Definition route_msg_matches (msg : RouteMessage) (spec : RouteSpec) : bool :=
  bool_decide (rm_dst msg = Some (rs_dst spec)) && (rm_prefix_len msg =? rs_prefix_len spec)
  && bool_decide (rm_gateway msg = Some (rs_gateway spec))
  && bool_decide (rm_oif msg = Some (rs_link_index spec)).

Definition add_to_route_list (routes : list RouteSpec) (route : RouteSpec) : list RouteSpec :=
  if negb (existsb (fun r => route_spec_equal r route) routes) then routes ++ [route] else routes.

Definition remove_from_route_list (routes : list RouteSpec) (route : RouteSpec) : list RouteSpec :=
  match position (fun r => route_spec_equal r route) routes with
  | Some i => delete i routes
  | None => routes
  end.

Definition remove_msg_from_route_list (routes : list RouteSpec) (msg : RouteMessage)
  : list RouteSpec :=
  match position (fun r => route_msg_matches msg r) routes with
  | Some i => delete i routes
  | None => routes
  end.

(** ** The kernel *)

Class RouteKernel (K : Type) := {
  k_dump : K -> result (list RouteMessage) string;
  k_add : K -> RouteMessage -> K * result unit string;
  k_del : K -> RouteMessage -> K * result unit string;
}.

Section Network.
Context `{RouteKernel K}.

Definition dump_routes (k : K) (family : AddressFamily) : result (list RouteMessage) string :=
  let? routes := k_dump k in
  Ok (List.filter (fun r => bool_decide (rm_family r = family)) routes).

Definition list_routes_by_dst (k : K) (family : AddressFamily) (route : RouteSpec)
  : result (list RouteMessage) string :=
  let? routes := dump_routes k family in
  Ok (List.filter (fun r => bool_decide (rm_dst r = Some (rs_dst route))
                            && (rm_prefix_len r =? rs_prefix_len route)) routes).

(** [match list_routes_by_dst(..) { Ok(l) => l, Err(e) => Vec::new() }] *)
Definition routes_by_dst (k : K) (family : AddressFamily) (route : RouteSpec) : list RouteMessage :=
  match list_routes_by_dst k family route with Ok l => l | Err _ => [] end.

(** The end of [route_add]: add unless an equal route exists. *)
Definition route_add_missing (k : K) (family : AddressFamily) (route : RouteSpec) : K :=
  match routes_by_dst k family route with
  | first :: _ =>
      if route_msg_matches first route then k else (k_add k (to_message route)).1
  | [] => (k_add k (to_message route)).1
  end.

Definition route_add (k : K) (family : AddressFamily) (route : RouteSpec) (routes : list RouteSpec)
  : K * list RouteSpec :=
  let routes := add_to_route_list routes route in
  match routes_by_dst k family route with
  | first :: _ =>
      if negb (route_msg_matches first route) then
        let '(k, res) := k_del k first in
        match res with
        | Err _ => (k, routes)
        | Ok _ => (route_add_missing k family route, remove_msg_from_route_list routes first)
        end
      else (route_add_missing k family route, routes)
  | [] => (route_add_missing k family route, routes)
  end.

(** The removal of a route: from the record first, then from the kernel. *)
Definition route_remove (k : K) (route : RouteSpec) (routes : list RouteSpec) : K * list RouteSpec :=
  ((k_del k (to_message route)).1, remove_from_route_list routes route).

Record RouteState := mkRouteState {
  rt_kernel : K;
  rt_routes : list RouteSpec;
  rt_v6_routes : list RouteSpec;
}.

(** One event of [handle_subnet_events]; [get_route] is [None] when the
    backend disabled the family. *)
Definition handle_subnet_event (backend_type : string) (get_route get_v6_route : option (Lease -> RouteSpec))
    (st : RouteState) (evt : Event) : RouteState :=
  let lease := ev_lease evt in
  if negb (String.eqb (la_backend_type (l_attrs lease)) backend_type) then st
  else
    let change (k : K) (family : AddressFamily) (route : RouteSpec) (routes : list RouteSpec) :=
      match ev_type evt with
      | Added => route_add k family route routes
      | Removed => route_remove k route routes
      end in
    let v6 (st : RouteState) :=
      if l_enable_ipv6 lease then
        match get_v6_route with
        | None => st
        | Some gr6 =>
            let '(k, routes) := change (rt_kernel st) Inet6 (gr6 lease) (rt_v6_routes st) in
            mkRouteState k (rt_routes st) routes
        end
      else st in
    if l_enable_ipv4 lease then
      match get_route with
      | None => st
      | Some gr =>
          let '(k, routes) := change (rt_kernel st) Inet (gr lease) (rt_routes st) in
          v6 (mkRouteState k routes (rt_v6_routes st))
      end
    else v6 st.

Definition handle_subnet_events (backend_type : string)
    (get_route get_v6_route : option (Lease -> RouteSpec)) (batch : list Event) (st : RouteState)
  : RouteState :=
  fold_left (handle_subnet_event backend_type get_route get_v6_route) batch st.

(** [check_subnet_exist_in_routes]: the table is dumped once. *)
Definition check_route (dumped : list RouteMessage) (k : K) (route : RouteSpec) : K :=
  if existsb (fun r => is_some (rm_dst r) && route_msg_matches r route) dumped then k
  else (k_add k (to_message route)).1.

Definition check_subnet_exist_in_routes (k : K) (routes : list RouteSpec) (family : AddressFamily) : K :=
  match dump_routes k family with
  | Err _ => k
  | Ok route_list => fold_left (check_route route_list) routes k
  end.

(** One round of [route_check]. *)
Definition route_check_round (st : RouteState) : RouteState :=
  let k := check_subnet_exist_in_routes (rt_kernel st) (rt_routes st) Inet in
  let k := check_subnet_exist_in_routes k (rt_v6_routes st) Inet6 in
  mkRouteState k (rt_routes st) (rt_v6_routes st).
End Network.
Arguments RouteState : clear implicits.

(** ** [hostgw.rs]: the routes of the host-gw backend *)

Definition hostgw_get_route (link_index : Z) (lease : Lease) : RouteSpec :=
  mkRouteSpec (V4 (ip4n_ip (l_subnet lease))) (wrap 8 (ip4n_plen (l_subnet lease)))
    (V4 (la_public_ip (l_attrs lease))) link_index Inet false.

Definition hostgw_get_v6_route (link_index : Z) (lease : Lease) : RouteSpec :=
  mkRouteSpec (V6 (ip6n_ip (l_ipv6_subnet lease))) (wrap 8 (ip6n_plen (l_ipv6_subnet lease)))
    (V6 (default IP6_zero (la_public_ipv6 (l_attrs lease)))) link_index Inet6 false.

(** ** Specification *)

Abbreviation RouteKey := (AddressFamily * option IpAddr * Z)%type.

Definition msg_key (m : RouteMessage) : RouteKey := (rm_family m, rm_dst m, rm_prefix_len m).
Definition spec_key (s : RouteSpec) : RouteKey := (rs_family s, Some (rs_dst s), rs_prefix_len s).

Definition same_hop (m m' : RouteMessage) : Prop :=
  rm_gateway m = rm_gateway m' /\ rm_oif m = rm_oif m'.

#[global] Instance same_hop_dec m m' : Decision (same_hop m m').
Proof. unfold same_hop. apply _. Defined.

(** The main table of the kernel, for routes of equal metric: at most one
    route per destination.  A dump lists it, adding an existing destination
    is refused ([NLM_F_EXCL]), and a deletion needs the same next hop. *)
Class RouteKernelLaws (K : Type) `{RouteKernel K} := {
  k_table : K -> gmap RouteKey RouteMessage;
  k_table_key k key m : k_table k !! key = Some m -> msg_key m = key;
  k_dump_table k : exists l, k_dump k = Ok l /\ forall m, m ∈ l <-> k_table k !! msg_key m = Some m;
  k_add_table k m :
    let '(k', res) := k_add k m in
    if is_some (k_table k !! msg_key m) then is_ok res = false /\ k_table k' = k_table k
    else is_ok res = true /\ k_table k' = <[msg_key m := m]> (k_table k);
  k_del_table k m :
    let '(k', res) := k_del k m in
    match k_table k !! msg_key m with
    | Some m' =>
        if decide (same_hop m m')
        then is_ok res = true /\ k_table k' = delete (msg_key m) (k_table k)
        else is_ok res = false /\ k_table k' = k_table k
    | None => is_ok res = false /\ k_table k' = k_table k
    end;
}.

(** The recorded routes, by destination. *)
Definition recorded (routes : list RouteSpec) : gmap RouteKey RouteSpec :=
  list_to_map (map (fun s => (spec_key s, s)) routes).

(** What an event asks of the recorded routes. *)
Definition want_route (backend_type : string) (get_route : Lease -> RouteSpec)
    (want : gmap RouteKey RouteSpec) (evt : Event) : gmap RouteKey RouteSpec :=
  let s := get_route (ev_lease evt) in
  if negb (String.eqb (la_backend_type (l_attrs (ev_lease evt))) backend_type) then want
  else match ev_type evt with
       | Added => <[spec_key s := s]> want
       | Removed => if decide (want !! spec_key s = Some s) then delete (spec_key s) want else want
       end.

(** A plain IPv4 route, as host-gw makes them. *)
Definition plain_v4 (s : RouteSpec) : Prop :=
  rs_family s = Inet /\ rs_onlink s = false /\
  (exists d, rs_dst s = V4 d) /\ exists g, rs_gateway s = V4 g.

(** Every recorded route is in the kernel with its gateway and interface. *)
Definition installed `{RouteKernelLaws K} (k : K) (routes : list RouteSpec) : Prop :=
  NoDup (map spec_key routes) /\ Forall plain_v4 routes /\
  forall s, s ∈ routes ->
    exists m, k_table k !! spec_key s = Some m /\ route_msg_matches m s = true.

(** ** Lemmas *)

Lemma route_spec_equal_plain x y :
  plain_v4 x -> plain_v4 y -> route_spec_equal x y = true -> x = y.
Proof.
  intros (Hf & Ho & _) (Hf' & Ho' & _). unfold route_spec_equal.
  rewrite !andb_true_iff, !bool_decide_eq_true, !Z.eqb_eq. destruct x, y; cbn in *.
  intros [[[-> ->] ->] ->]. congruence.
Qed.

Lemma route_spec_equal_refl x : route_spec_equal x x = true.
Proof. unfold route_spec_equal. by rewrite !bool_decide_true, !Z.eqb_refl. Qed.

Lemma matches_equal m x y :
  route_msg_matches m x = true -> route_msg_matches m y = true -> route_spec_equal x y = true.
Proof.
  unfold route_msg_matches, route_spec_equal.
  rewrite !andb_true_iff, !bool_decide_eq_true, !Z.eqb_eq. naive_solver congruence.
Qed.

Lemma matches_key m s :
  route_msg_matches m s = true -> rm_family m = rs_family s -> msg_key m = spec_key s.
Proof.
  unfold route_msg_matches, msg_key, spec_key.
  rewrite !andb_true_iff, !bool_decide_eq_true, Z.eqb_eq. naive_solver congruence.
Qed.

Lemma to_message_plain s :
  plain_v4 s -> msg_key (to_message s) = spec_key s /\ route_msg_matches (to_message s) s = true.
Proof.
  intros (Hf & _ & [d Hd] & [g Hg]). unfold to_message, msg_key, spec_key, route_msg_matches.
  rewrite Hf, Hd, Hg. cbn. by rewrite !bool_decide_true, Z.eqb_refl.
Qed.

Lemma recorded_lookup routes key s :
  NoDup (map spec_key routes) ->
  recorded routes !! key = Some s <-> s ∈ routes /\ spec_key s = key.
Proof.
  intros Hnd. unfold recorded. rewrite <- elem_of_list_to_map.
  - split.
    + intros (x & [= -> ->] & Hin)%list_elem_of_fmap. done.
    + intros [Hin <-]. apply list_elem_of_fmap. eauto.
  - by rewrite <- list_fmap_compose.
Qed.

Lemma recorded_None routes key :
  recorded routes !! key = None <-> key ∉ map spec_key routes.
Proof.
  unfold recorded. rewrite <- not_elem_of_list_to_map. by rewrite <- list_fmap_compose.
Qed.

(** The recorded routes are determined by the destination. *)
Lemma installed_key `{RouteKernelLaws K} k routes s x m :
  installed k routes -> x ∈ routes -> plain_v4 s -> spec_key x = spec_key s ->
  k_table k !! spec_key s = Some m -> route_msg_matches m s = true -> x = s.
Proof.
  intros (_ & Hf & Hi) Hx Hs Hk Hm Hms. destruct (Hi x Hx) as (m' & Hm' & Hmx).
  rewrite Hk in Hm'. assert (m' = m) by congruence. subst m'.
  rewrite list.Forall_forall in Hf. apply route_spec_equal_plain; [by apply Hf|done|].
  by eapply matches_equal.
Qed.

Lemma recorded_perm l l' :
  NoDup (map spec_key l) -> l ≡ₚ l' -> recorded l = recorded l' /\ NoDup (map spec_key l').
Proof.
  intros Hnd Hp. split.
  - apply list_to_map_proper; [by rewrite <- list_fmap_compose|]. by apply Permutation_map.
  - by rewrite <- (Permutation_map spec_key Hp).
Qed.

Lemma delete_route routes i x :
  NoDup (map spec_key routes) -> routes !! i = Some x ->
  let routes' := delete i routes in
  NoDup (map spec_key routes') /\ recorded routes' = delete (spec_key x) (recorded routes) /\
  (forall y, y ∈ routes' <-> y ∈ routes /\ spec_key y <> spec_key x).
Proof.
  intros Hnd Hi routes'. pose proof (delete_Permutation _ _ _ Hi) as Hp.
  destruct (recorded_perm _ _ Hnd Hp) as [Ha Hnd']. cbn in Hnd'.
  apply list.NoDup_cons in Hnd' as [Hx Hnd']. split_and!; [done| |].
  - rewrite Ha. unfold recorded. cbn. rewrite delete_insert_id; [done|].
    by apply (recorded_None routes').
  - intros y. rewrite Hp, elem_of_cons. split.
    + intros Hy. split; [by right|]. intros Hk. apply Hx. rewrite <- Hk. apply list_elem_of_fmap. eauto.
    + intros [[->|Hy] Hk]; done.
Qed.

Lemma delete_app_l {A} (l k : list A) i :
  (i < length l)%nat -> delete i (l ++ k) = delete i l ++ k.
Proof.
  intros Hi. rewrite !delete_take_drop, take_app_le, drop_app_le by lia. by rewrite app_assoc.
Qed.

Lemma snoc_route routes s :
  NoDup (map spec_key routes) -> spec_key s ∉ map spec_key routes ->
  NoDup (map spec_key (routes ++ [s])) /\
  recorded (routes ++ [s]) = <[spec_key s := s]> (recorded routes).
Proof.
  intros Hnd Hs. assert (Hp : s :: routes ≡ₚ routes ++ [s]) by apply Permutation_cons_append.
  assert (Hnd' : NoDup (map spec_key (s :: routes))) by by constructor.
  destruct (recorded_perm _ _ Hnd' Hp) as [<- ?]. done.
Qed.

Lemma existsb_plain routes s :
  Forall plain_v4 routes -> plain_v4 s ->
  existsb (fun r => route_spec_equal r s) routes = bool_decide (s ∈ routes).
Proof.
  intros Hf Hs. apply eq_true_iff_eq. rewrite existsb_exists, bool_decide_eq_true. split.
  - intros (x & Hx%list_elem_of_In & Heq). rewrite list.Forall_forall in Hf.
    by rewrite <- (route_spec_equal_plain x s (Hf x Hx) Hs Heq).
  - intros Hin. exists s. by rewrite <- list_elem_of_In, route_spec_equal_refl.
Qed.

Lemma position_plain routes s :
  Forall plain_v4 routes -> plain_v4 s ->
  match position (fun r => route_spec_equal r s) routes with
  | Some i => routes !! i = Some s
  | None => s ∉ routes
  end.
Proof.
  intros Hf Hs. destruct (position _ routes) as [i|] eqn:Hp.
  - apply position_Some in Hp as (x & Hi & Heq). rewrite list.Forall_forall in Hf.
    rewrite <- (route_spec_equal_plain x s); [done|by eapply Hf, list_elem_of_lookup_2|done..].
  - intros Hin. rewrite position_None in Hp. apply Hp in Hin.
    by rewrite route_spec_equal_refl in Hin.
Qed.

(** Replacing the recorded route of a destination by way of its message. *)
Lemma replace_route routes s m :
  NoDup (map spec_key routes) -> route_msg_matches m s = false ->
  (forall y, y ∈ routes -> route_msg_matches m y = true <-> spec_key y = spec_key s) ->
  let routes' := remove_msg_from_route_list (routes ++ [s]) m in
  NoDup (map spec_key routes') /\ recorded routes' = <[spec_key s := s]> (recorded routes) /\
  (forall y, y ∈ routes' <-> y = s \/ y ∈ routes /\ spec_key y <> spec_key s).
Proof.
  intros Hnd Hms Hm. unfold remove_msg_from_route_list.
  destruct (position _ (routes ++ [s])) as [i|] eqn:Hp.
  - apply position_Some in Hp as (y & Hi & Hy).
    apply lookup_app_Some in Hi as [Hi|[_ Hi]].
    2: { apply list_lookup_singleton_Some in Hi as [_ <-]. by rewrite Hms in Hy. }
    assert (Hk : spec_key y = spec_key s) by (apply Hm; [by eapply list_elem_of_lookup_2|done]).
    apply lookup_lt_Some in Hi as Hlt. rewrite delete_app_l by done.
    destruct (delete_route routes i y Hnd Hi) as (Hnd' & Ha & Hin). rewrite Hk in Ha, Hin.
    assert (Hni : spec_key s ∉ map spec_key (delete i routes)).
    { intros (z & Hz & [_ Hne]%Hin)%list_elem_of_fmap. congruence. }
    destruct (snoc_route _ s Hnd' Hni) as [Hnd2 Ha2]. split_and!; [done| |].
    + rewrite Ha2, Ha. apply insert_delete_eq.
    + intros z. rewrite elem_of_app, list_elem_of_singleton, Hin. tauto.
  - rewrite position_None in Hp.
    assert (Hni : forall y, y ∈ routes -> spec_key y <> spec_key s).
    { intros y Hy Hk. specialize (Hp y (proj2 (elem_of_app _ _ _) (or_introl Hy))).
      by rewrite (proj2 (Hm y Hy) Hk) in Hp. }
    destruct (snoc_route routes s Hnd) as [Hnd2 Ha2].
    { intros (z & Hz & Hin)%list_elem_of_fmap. by eapply Hni. }
    split_and!; [done..|]. intros z. rewrite elem_of_app, list_elem_of_singleton. naive_solver.
Qed.

Section Kernel.
Context `{RouteKernelLaws K}.
Implicit Types (k : K) (s : RouteSpec) (routes : list RouteSpec).

(** The listing by destination is the kernel's route to it. *)
Lemma routes_by_dst_table k s :
  match k_table k !! spec_key s with
  | Some m => exists l, routes_by_dst k (rs_family s) s = m :: l
  | None => routes_by_dst k (rs_family s) s = []
  end.
Proof.
  destruct (k_dump_table k) as (l & Hd & Hl).
  unfold routes_by_dst, list_routes_by_dst, dump_routes. rewrite Hd. cbn.
  set (l' := List.filter _ (List.filter _ l)).
  assert (Hin : forall m, m ∈ l' <-> k_table k !! spec_key s = Some m).
  { intros m. unfold l'. rewrite list_elem_of_In, !filter_In, <- list_elem_of_In, Hl.
    rewrite andb_true_iff, !bool_decide_eq_true, Z.eqb_eq. unfold spec_key. split.
    - intros [[Hm <-] [<- <-]]. done.
    - intros Hm. apply k_table_key in Hm as Hk. unfold msg_key in *. split_and!; congruence. }
  clearbody l'. destruct (k_table k !! spec_key s) as [m|] eqn:Hm.
  - destruct l' as [|m' l'']; [exfalso; by eapply not_elem_of_nil, Hin|].
    exists l''. f_equal. assert (Hm' : Some m = Some m') by (apply Hin; by left). congruence.
  - destruct l' as [|m' l'']; [done|]. exfalso.
    assert (Hm' : None = Some m') by (apply Hin; by left). done.
Qed.

Lemma k_add_free k s :
  plain_v4 s -> k_table k !! spec_key s = None ->
  k_table (k_add k (to_message s)).1 = <[spec_key s := to_message s]> (k_table k).
Proof.
  intros Hs Hn. destruct (to_message_plain s Hs) as [Hk _]. pose proof (k_add_table k (to_message s)) as Ha.
  rewrite Hk, Hn in Ha. destruct (k_add k (to_message s)). by destruct Ha.
Qed.

Lemma route_add_missing_table k s m :
  plain_v4 s ->
  k_table k !! spec_key s = None \/ (k_table k !! spec_key s = Some m /\ route_msg_matches m s = true) ->
  exists m', k_table (route_add_missing k Inet s) = <[spec_key s := m']> (k_table k) /\
    route_msg_matches m' s = true.
Proof.
  intros Hs Hk. pose proof (routes_by_dst_table k s) as Hr. pose proof Hs as (Hf & _). rewrite Hf in Hr.
  unfold route_add_missing. destruct Hk as [Hk|[Hk Hm]]; rewrite Hk in Hr.
  - rewrite Hr. exists (to_message s). split; [by apply k_add_free|by apply to_message_plain].
  - destruct Hr as [l ->]. rewrite Hm. exists m. split; [|done]. by rewrite insert_id.
Qed.

(** [installed] only depends on the destinations recorded. *)
Lemma installed_insert k k' routes routes' s m :
  installed k routes -> plain_v4 s -> NoDup (map spec_key routes') ->
  (forall y, y ∈ routes' -> y = s \/ (y ∈ routes /\ spec_key y <> spec_key s)) ->
  k_table k' = <[spec_key s := m]> (k_table k) -> route_msg_matches m s = true ->
  installed k' routes'.
Proof.
  intros (_ & Hf & Hi) Hs Hnd Hin Ht Hm. rewrite list.Forall_forall in Hf. split_and!; [done| |].
  - apply list.Forall_forall. intros y [->|[Hy _]]%Hin; [done|by apply Hf].
  - intros y [->|[Hy Hk]]%Hin; rewrite Ht.
    + exists m. by rewrite lookup_insert_eq.
    + rewrite lookup_insert_ne by done. by apply Hi.
Qed.

(** [route_add] puts the route in the kernel, whatever route to the same
    destination was there, and records it in place of that one. *)
Lemma route_add_installs k routes s :
  installed k routes -> plain_v4 s ->
  let '(k', routes') := route_add k Inet s routes in
  installed k' routes' /\ recorded routes' = <[spec_key s := s]> (recorded routes) /\
  exists m, k_table k' = <[spec_key s := m]> (k_table k) /\ route_msg_matches m s = true.
Proof.
  intros Hinst Hs. pose proof Hinst as (Hnd & Hf & Hi). pose proof Hs as (Hfam & _).
  pose proof (routes_by_dst_table k s) as Hr. rewrite Hfam in Hr. unfold route_add, add_to_route_list.
  rewrite existsb_plain by done.
  assert (Hkeys : (forall y, y ∈ routes -> spec_key y <> spec_key s) -> spec_key s ∉ map spec_key routes).
  { intros Hne (y & Hy & Hin)%list_elem_of_fmap. by eapply Hne. }
  destruct (k_table k !! spec_key s) as [m|] eqn:Hk.
  2: { rewrite Hr. assert (Hne : forall y, y ∈ routes -> spec_key y <> spec_key s).
       { intros y Hy Heq. destruct (Hi y Hy) as (m & Hm & _). congruence. }
       rewrite bool_decide_false by (intros Hin; by eapply Hne). cbn.
       destruct (snoc_route routes s Hnd (Hkeys Hne)) as [Hnd' Ha].
       destruct (route_add_missing_table k s (to_message s) Hs (or_introl Hk)) as (m & Ht & Hm).
       split_and!; [|done|by eauto]. eapply installed_insert; [done..| |done|done].
       intros y. rewrite elem_of_app, list_elem_of_singleton. naive_solver. }
  destruct Hr as [l ->]. destruct (route_msg_matches m s) eqn:Hms; cbn.
  - destruct (route_add_missing_table k s m Hs (or_intror (conj Hk Hms))) as (m' & Ht & Hm').
    case_bool_decide as Hin; cbn.
    + assert (Ha : recorded routes !! spec_key s = Some s) by by apply recorded_lookup.
      split_and!; [|by rewrite insert_id|by eauto]. eapply installed_insert; [done..| |done|done].
      intros y Hy. destruct (decide (spec_key y = spec_key s)) as [Heq|]; [left|by right].
      by eapply installed_key.
    + assert (Hne : forall y, y ∈ routes -> spec_key y <> spec_key s).
      { intros y Hy Heq. apply Hin. by rewrite <- (installed_key k routes s y m). }
      destruct (snoc_route routes s Hnd (Hkeys Hne)) as [Hnd' Ha].
      split_and!; [|done|by eauto]. eapply installed_insert; [done..| |done|done].
      intros y. rewrite elem_of_app, list_elem_of_singleton. naive_solver.
  - rewrite bool_decide_false; cbn.
    2: { intros Hin. destruct (Hi s Hin) as (m' & Hm' & Hms'). congruence. }
    pose proof (k_del_table k m) as Hd. destruct (k_del k m) as [k1 res].
    rewrite (k_table_key _ _ _ Hk), Hk, decide_True in Hd by done.
    destruct Hd as [Hok Ht1]. destruct res; [|done].
    destruct (replace_route routes s m Hnd Hms) as (Hnd' & Ha & Hin).
    { intros y Hy. split.
      - intros Hmy. rewrite <- (matches_key m y Hmy); [by apply k_table_key in Hk|].
        apply k_table_key in Hk. rewrite list.Forall_forall in Hf. destruct (Hf y Hy) as (-> & _).
        unfold msg_key, spec_key in Hk. congruence.
      - intros Heq. destruct (Hi y Hy) as (m' & Hm' & Hmy). rewrite Heq in Hm'. congruence. }
    destruct (route_add_missing_table k1 s m Hs) as (m' & Ht & Hm').
    { left. by rewrite Ht1, lookup_delete_eq. }
    rewrite Ht1, insert_delete_eq in Ht.
    split_and!; [|done|by eauto]. eapply installed_insert; [done..| |done|done].
    intros y Hy. by apply Hin.
Qed.

Lemma matches_same_hop m s :
  plain_v4 s -> msg_key m = spec_key s -> same_hop (to_message s) m <-> route_msg_matches m s = true.
Proof.
  intros (Hf & _ & [d Hd] & [g Hg]) Hk. unfold same_hop, to_message, route_msg_matches.
  unfold msg_key, spec_key in Hk. rewrite Hf, Hg in *. cbn.
  rewrite !andb_true_iff, !bool_decide_eq_true, Z.eqb_eq. naive_solver congruence.
Qed.

(** Deleting the route of a spec: it goes exactly when it is the kernel's
    route to that destination. *)
Lemma route_remove_table k s :
  plain_v4 s ->
  let t := k_table k in
  let t' := k_table (k_del k (to_message s)).1 in
  match t !! spec_key s with
  | Some m => if route_msg_matches m s then t' = delete (spec_key s) t else t' = t
  | None => t' = t
  end.
Proof.
  intros Hs t t'. destruct (to_message_plain s Hs) as [Hk _].
  pose proof (k_del_table k (to_message s)) as Hd. subst t t'.
  destruct (k_del k (to_message s)) as [k' res]. cbn. rewrite Hk in Hd.
  destruct (k_table k !! spec_key s) as [m|] eqn:Hm; [|by destruct Hd].
  pose proof (matches_same_hop m s Hs (k_table_key _ _ _ Hm)) as Hh.
  case_decide as Hsame; destruct Hd as [_ Hd].
  - apply Hh in Hsame. by rewrite Hsame.
  - destruct (route_msg_matches m s); [|done]. exfalso. by apply Hsame, Hh.
Qed.

Lemma route_remove_removes k routes s :
  installed k routes -> plain_v4 s ->
  let '(k', routes') := route_remove k s routes in
  installed k' routes' /\
  recorded routes' =
    (if decide (recorded routes !! spec_key s = Some s)
     then delete (spec_key s) (recorded routes) else recorded routes) /\
  (recorded routes' !! spec_key s = None ->
   is_Some (recorded routes !! spec_key s) \/ k_table k !! spec_key s = None ->
   k_table k' !! spec_key s = None) /\
  (forall key, key <> spec_key s -> k_table k' !! key = k_table k !! key).
Proof.
  intros Hinst Hs. pose proof Hinst as (Hnd & Hf & Hi). unfold route_remove, remove_from_route_list.
  pose proof (route_remove_table k s Hs) as Ht. cbn zeta in Ht.
  set (k' := (k_del k (to_message s)).1) in *. clearbody k'.
  assert (Hother : forall key, key <> spec_key s -> k_table k' !! key = k_table k !! key).
  { intros key Hne. repeat case_match; rewrite Ht; try done. by rewrite lookup_delete_ne. }
  pose proof (position_plain routes s Hf Hs) as Hp.
  destruct (position _ routes) as [i|].
  - apply list_elem_of_lookup_2 in Hp as Hin. destruct (Hi s Hin) as (m & Hm & Hms).
    rewrite Hm, Hms in Ht. destruct (delete_route routes i s Hnd Hp) as (Hnd' & Ha & Hel).
    rewrite decide_True by by apply recorded_lookup. split_and!; [|done| |done].
    + split_and!; [done|by apply Forall_delete|]. intros y [Hy Hk]%Hel.
      rewrite Hother by done. by apply Hi.
    + intros _ _. by rewrite Ht, lookup_delete_eq.
  - rewrite decide_False by (by rewrite recorded_lookup by done; intros []).
    split_and!; [|done| |done].
    + split_and!; [done..|]. intros y Hy. destruct (Hi y Hy) as (m & Hm & Hmy).
      destruct (decide (spec_key y = spec_key s)) as [Hk|Hk]; [|rewrite Hother by done; eauto].
      rewrite Hk in Hm |- *. rewrite Hm in Ht. destruct (route_msg_matches m s) eqn:Hms.
      * exfalso. apply Hp. by rewrite <- (installed_key k routes s y m).
      * rewrite Ht. eauto.
    + intros Hn [[x Hx]|Hn']; [congruence|]. rewrite Hn' in Ht. by rewrite Ht.
Qed.

(** ** Lemmas: batches of the host-gw backend *)

Lemma hostgw_plain link lease : plain_v4 (hostgw_get_route link lease).
Proof. unfold plain_v4. cbn. split_and!; eauto. Qed.

Definition own_event (backend_type : string) (e : Event) : bool :=
  String.eqb (la_backend_type (l_attrs (ev_lease e))) backend_type.

(** The destinations that the events of the backend name, and those added. *)
Definition event_keys (link : Z) (batch : list Event) : list RouteKey :=
  map (fun e => spec_key (hostgw_get_route link (ev_lease e)))
    (List.filter (own_event "host-gw") batch).

Definition added_keys (link : Z) (batch : list Event) : list RouteKey :=
  event_keys link (List.filter (fun e => bool_decide (ev_type e = Added)) batch).

Lemma added_keys_one link e :
  added_keys link [e] = match ev_type e with Added => event_keys link [e] | Removed => [] end.
Proof. unfold added_keys. cbn. by destruct (ev_type e). Qed.

Definition ipv4_event (e : Event) : Prop :=
  l_enable_ipv4 (ev_lease e) = true /\ l_enable_ipv6 (ev_lease e) = false.

(** What holds after a batch, from the state before it: [seen] are the
    destinations the network has been responsible for. *)
Record batch_post (link : Z) (batch : list Event) (seen : RouteKey -> Prop)
    (st st' : RouteState K) : Prop := {
  bp_installed : installed (rt_kernel st') (rt_routes st');
  bp_routes : recorded (rt_routes st') =
    fold_left (want_route "host-gw" (hostgw_get_route link)) batch (recorded (rt_routes st));
  bp_gone key : seen key \/ key ∈ added_keys link batch ->
    recorded (rt_routes st') !! key = None -> k_table (rt_kernel st') !! key = None;
  bp_other key : key ∉ event_keys link batch ->
    k_table (rt_kernel st') !! key = k_table (rt_kernel st) !! key;
}.

(** One event. *)
Lemma hostgw_event link gr6 st e (seen : RouteKey -> Prop) :
  installed (rt_kernel st) (rt_routes st) -> ipv4_event e ->
  (forall key, seen key -> recorded (rt_routes st) !! key = None ->
     k_table (rt_kernel st) !! key = None) ->
  batch_post link [e] seen st
    (handle_subnet_event "host-gw" (Some (hostgw_get_route link)) gr6 st e).
Proof.
  intros Hinst [H4 H6] Hseen. unfold handle_subnet_event. rewrite H4, H6.
  set (s := hostgw_get_route link (ev_lease e)). pose proof (hostgw_plain link (ev_lease e)) as Hs.
  fold s in Hs. destruct (String.eqb (la_backend_type _) "host-gw") eqn:Hbt; cbn [negb].
  2: { split; cbn; unfold want_route, added_keys, event_keys, own_event; cbn [fold_left List.filter];
       rewrite ?Hbt; try done.
       intros key [Hk|Hk]; [by apply Hseen|]. destruct (bool_decide _); cbn in Hk; rewrite ?Hbt in Hk;
       by apply elem_of_nil in Hk. }
  assert (Hkeys : event_keys link [e] = [spec_key s]).
  { unfold event_keys, own_event. cbn. by rewrite Hbt. }
  destruct (ev_type e) eqn:Het.
  - pose proof (route_add_installs (rt_kernel st) (rt_routes st) s Hinst Hs) as Hadd.
    destruct (route_add _ _ _ _) as [k' routes']. destruct Hadd as (Hi & Ha & m & Ht & Hm).
    split; cbn [rt_kernel rt_routes]; [done|..].
    + cbn. unfold want_route. fold s. by rewrite Hbt, Het.
    + intros key Hk. rewrite Ha, Ht, lookup_insert_None. intros [Hn Hne].
      rewrite lookup_insert_ne by done. destruct Hk as [Hk|Hk]; [by apply Hseen|].
      rewrite added_keys_one, Het, Hkeys in Hk. apply list_elem_of_singleton in Hk. by subst key.
    + intros key. rewrite Hkeys, list_elem_of_singleton. intros Hne. rewrite Ht.
      by rewrite lookup_insert_ne.
  - pose proof (route_remove_removes (rt_kernel st) (rt_routes st) s Hinst Hs) as Hrem.
    destruct (route_remove _ _ _) as [k' routes']. destruct Hrem as (Hi & Ha & Hg & Ho).
    split; cbn [rt_kernel rt_routes]; [done|..].
    + cbn. unfold want_route. fold s. rewrite Hbt, Het. exact Ha.
    + intros key Hk Hn.
      assert (Hk' : seen key).
      { destruct Hk as [Hk|Hk]; [done|]. rewrite added_keys_one, Het in Hk.
        by apply elem_of_nil in Hk. }
      destruct (decide (key = spec_key s)) as [->|Hne].
      * apply Hg; [done|]. destruct (recorded (rt_routes st) !! spec_key s) eqn:E; [by left|right].
        by apply Hseen.
      * rewrite Ho by done. apply Hseen; [done|]. rewrite Ha in Hn.
        case_decide; [by rewrite lookup_delete_ne in Hn|done].
    + intros key. rewrite Hkeys, list_elem_of_singleton. apply Ho.
Qed.

Lemma added_keys_cons link e batch key :
  key ∈ added_keys link (e :: batch) <-> key ∈ added_keys link [e] \/ key ∈ added_keys link batch.
Proof.
  unfold added_keys, event_keys. cbn. destruct (bool_decide _); cbn; [|set_solver].
  destruct (own_event "host-gw" e); cbn; set_solver.
Qed.

Lemma event_keys_cons link e batch key :
  key ∈ event_keys link (e :: batch) <-> key ∈ event_keys link [e] \/ key ∈ event_keys link batch.
Proof. unfold event_keys. cbn. destruct (own_event "host-gw" e); cbn; set_solver. Qed.

Lemma hostgw_batch link gr6 batch st (seen : RouteKey -> Prop) :
  installed (rt_kernel st) (rt_routes st) -> Forall ipv4_event batch ->
  (forall key, seen key -> recorded (rt_routes st) !! key = None ->
     k_table (rt_kernel st) !! key = None) ->
  batch_post link batch seen st
    (handle_subnet_events "host-gw" (Some (hostgw_get_route link)) gr6 batch st).
Proof.
  revert st seen. induction batch as [|e batch IH]; intros st seen Hinst Hb Hseen.
  { split; cbn; [done..| |done]. intros key [Hk|Hk]; [by apply Hseen|by apply elem_of_nil in Hk]. }
  apply list.Forall_cons in Hb as [He Hb].
  destruct (hostgw_event link gr6 st e seen Hinst He Hseen) as [I1 R1 G1 O1].
  set (st1 := handle_subnet_event _ _ _ st e) in *.
  destruct (IH st1 (fun key => seen key \/ key ∈ added_keys link [e]) I1 Hb G1) as [I2 R2 G2 O2].
  unfold handle_subnet_events in *. cbn [fold_left]. fold st1.
  set (st2 := fold_left _ batch st1) in *. split; [done| | |].
  - rewrite R2, R1. done.
  - intros key Hk. apply G2. rewrite added_keys_cons in Hk. tauto.
  - intros key Hk. rewrite event_keys_cons in Hk. rewrite O2, O1; tauto.
Qed.

(** ** Lemmas: the periodic check *)

(** A recorded route is found in the dump exactly when it is in the table. *)
Lemma dumped_exists k s :
  plain_v4 s ->
  exists dumped, dump_routes k Inet = Ok dumped /\
    existsb (fun r => is_some (rm_dst r) && route_msg_matches r s) dumped =
    match k_table k !! spec_key s with Some m => route_msg_matches m s | None => false end.
Proof.
  intros (Hf & _). destruct (k_dump_table k) as (l & Hd & Hl). unfold dump_routes. rewrite Hd. cbn.
  eexists. split; [done|]. apply eq_true_iff_eq. rewrite existsb_exists. split.
  - intros (r & Hr & [_ Hm]%andb_true_iff). apply filter_In in Hr as [Hr Hfam%bool_decide_eq_true].
    apply list_elem_of_In, Hl in Hr. rewrite (matches_key r s Hm) in Hr by congruence. by rewrite Hr.
  - destruct (k_table k !! spec_key s) as [m|] eqn:Hm; [|done]. intros Hms. exists m.
    apply k_table_key in Hm as Hk. split.
    + apply filter_In. rewrite <- list_elem_of_In, Hl, Hk. split; [done|].
      apply bool_decide_true. unfold msg_key, spec_key in Hk. congruence.
    + apply andb_true_iff. split; [|done]. unfold msg_key, spec_key in Hk. by replace (rm_dst m) with (Some (rs_dst s)) by congruence.
Qed.

Lemma check_fold k0 dumped routes k :
  dump_routes k0 Inet = Ok dumped ->
  NoDup (map spec_key routes) -> Forall plain_v4 routes ->
  (forall s, s ∈ routes -> k_table k !! spec_key s = k_table k0 !! spec_key s) ->
  (forall s m, s ∈ routes -> k_table k0 !! spec_key s = Some m -> route_msg_matches m s = true) ->
  let k' := fold_left (check_route dumped) routes k in
  (forall s, s ∈ routes -> exists m, k_table k' !! spec_key s = Some m /\ route_msg_matches m s = true) /\
  (forall key, key ∉ map spec_key routes -> k_table k' !! key = k_table k !! key).
Proof.
  intros Hd. revert k. induction routes as [|s routes IH]; intros k Hnd Hf Hk Hm.
  { split; [by intros s Hs%elem_of_nil|done]. }
  cbn in Hnd. apply list.NoDup_cons in Hnd as [Hs Hnd]. apply list.Forall_cons in Hf as [Hps Hf].
  cbn [fold_left]. set (k1 := check_route dumped k s).
  assert (H1 : exists m, k_table k1 = <[spec_key s := m]> (k_table k) /\ route_msg_matches m s = true).
  { destruct (dumped_exists k0 s Hps) as (dumped' & Hd' & He). rewrite Hd in Hd'. injection Hd' as <-.
    unfold k1, check_route. rewrite He. specialize (Hk s ltac:(by left)).
    destruct (k_table k0 !! spec_key s) as [m|] eqn:E.
    - rewrite (Hm s m) by (done || by left). exists m. split; [by rewrite insert_id|]. eapply Hm; [by left|done].
    - exists (to_message s). split; [by apply k_add_free|by apply to_message_plain]. }
  destruct H1 as (m1 & Ht1 & Hm1).
  assert (Hne : forall y, y ∈ routes -> spec_key s <> spec_key y).
  { intros y Hy Heq. apply Hs. rewrite Heq. apply list_elem_of_fmap. eauto. }
  destruct (IH k1 Hnd Hf) as [IH1 IH2].
  { intros y Hy. rewrite Ht1, lookup_insert_ne by by apply Hne. apply Hk. by right. }
  { intros y m Hy. apply Hm. by right. }
  split.
  - intros y [->|Hy]%elem_of_cons; [|by apply IH1]. exists m1. rewrite IH2 by done.
    by rewrite Ht1, lookup_insert_eq.
  - cbn. intros key [Hkey Hkeys]%not_elem_of_cons. rewrite IH2 by done.
    by rewrite Ht1, lookup_insert_ne.
Qed.
End Kernel.

(** ** Properties *)

(** C4: for the host-gw backend and a kernel that obeys its laws, a batch of
    IPv4 lease events is carried out: the recorded routes are the map that the
    events describe, every one of them is in the kernel with the peer's public
    address as gateway on the right interface (also when another route to the
    destination was there), every destination the network was responsible for
    and no longer wants has no route, and no other route changes. *)
Theorem route_network_refines `{RouteKernelLaws K} link batch st :
  installed (rt_kernel st) (rt_routes st) -> Forall ipv4_event batch ->
  let st' := handle_subnet_events "host-gw" (Some (hostgw_get_route link))
               (Some (hostgw_get_v6_route link)) batch st in
  installed (rt_kernel st') (rt_routes st') /\
  recorded (rt_routes st') =
    fold_left (want_route "host-gw" (hostgw_get_route link)) batch (recorded (rt_routes st)) /\
  (forall key, is_Some (recorded (rt_routes st) !! key) \/ key ∈ added_keys link batch ->
     recorded (rt_routes st') !! key = None -> k_table (rt_kernel st') !! key = None) /\
  (forall key, key ∉ event_keys link batch ->
     k_table (rt_kernel st') !! key = k_table (rt_kernel st) !! key).
Proof.
  intros Hinst Hb st'.
  destruct (hostgw_batch link (Some (hostgw_get_v6_route link)) batch st
    (fun key => is_Some (recorded (rt_routes st) !! key)) Hinst Hb) as [I R G O].
  { intros key [x Hx]. congruence. }
  by split_and!.
Qed.

(** The periodic check restores: when recorded IPv4 routes have gone
    missing from the kernel (and none was replaced by another), one round puts
    every one of them back and leaves the rest of the table alone. *)
Theorem route_check_restores `{RouteKernelLaws K} k routes :
  NoDup (map spec_key routes) -> Forall plain_v4 routes ->
  (forall s m, s ∈ routes -> k_table k !! spec_key s = Some m -> route_msg_matches m s = true) ->
  let k' := check_subnet_exist_in_routes k routes Inet in
  installed k' routes /\
  forall key, key ∉ map spec_key routes -> k_table k' !! key = k_table k !! key.
Proof.
  intros Hnd Hf Hm. unfold check_subnet_exist_in_routes.
  destruct (k_dump_table k) as (l & Hl & _).
  assert (exists dumped, dump_routes k Inet = Ok dumped) as [dumped Hd].
  { unfold dump_routes. rewrite Hl. cbn. eauto. }
  rewrite Hd. by destruct (check_fold k dumped routes k Hd Hnd Hf) as [H1 H2].
Qed.

(** ** A kernel for the witnesses: the table itself *)

Abbreviation Table := (gmap RouteKey RouteMessage).

(** The entries filed under their own key. *)
Definition filed (t : Table) : Table :=
  filter (fun e : RouteKey * RouteMessage => msg_key e.2 = e.1) t.

#[global] Instance table_kernel : RouteKernel Table := {
  k_dump t := Ok (map snd (map_to_list (filed t)));
  k_add t m :=
    if is_some (filed t !! msg_key m) then (t, Err "File exists")
    else (<[msg_key m := m]> t, Ok ());
  k_del t m :=
    match filed t !! msg_key m with
    | Some m' =>
        if bool_decide (same_hop m m') then (delete (msg_key m) t, Ok ())
        else (t, Err "No such process")
    | None => (t, Err "No such process")
    end;
}.

#[global] Program Instance table_kernel_laws : RouteKernelLaws Table := {| k_table := filed |}.
Next Obligation. intros t key m [_ Hk]%map_lookup_filter_Some. done. Qed.
Next Obligation.
  intros t. eexists. split; [done|]. intros m. split.
  - intros ([key m'] & -> & Hin%elem_of_map_to_list)%list_elem_of_fmap. cbn.
    pose proof Hin as [_ Hk]%map_lookup_filter_Some. cbn in Hk. by rewrite Hk.
  - intros Hm. apply list_elem_of_fmap. exists (msg_key m, m). by rewrite elem_of_map_to_list.
Qed.
Next Obligation.
  intros t m. cbn. destruct (is_some (filed t !! msg_key m)); [done|]. split; [done|].
  unfold filed. by rewrite map_filter_insert_True.
Qed.
Next Obligation.
  intros t m. cbn. destruct (filed t !! msg_key m) as [m'|]; [|done].
  destruct (decide (same_hop m m')) as [Hh|Hh].
  - rewrite bool_decide_true by done. split; [done|]. apply map_filter_delete.
  - by rewrite bool_decide_false.
Qed.

(** ** Witnesses *)

Definition gw_lease (subnet gw : IP4) : Lease :=
  mkLease true false (mkIP4Net subnet 24) IP6Net_default (mkLeaseAttrs gw None "host-gw" None None) 0 0.

(** A route to the same destination through another gateway is in the way. *)
Definition sample_table : Table :=
  let m := to_message (hostgw_get_route 2 (gw_lease 10 99)) in <[msg_key m := m]> ∅.

Definition sample_batch : list Event :=
  [mkEvent Added (gw_lease 10 7); mkEvent Added (gw_lease 11 8); mkEvent Removed (gw_lease 11 8)].

Lemma route_network_refines_witness :
  let st' := handle_subnet_events "host-gw" (Some (hostgw_get_route 2)) (Some (hostgw_get_v6_route 2))
               sample_batch (mkRouteState sample_table [] []) in
  rt_routes st' = [hostgw_get_route 2 (gw_lease 10 7)] /\
  installed (rt_kernel st') (rt_routes st').
Proof.
  split; [by vm_compute|].
  refine (proj1 (route_network_refines 2 sample_batch (mkRouteState sample_table [] []) _ _)).
  - split_and!; [constructor|constructor|by intros s Hs%elem_of_nil].
  - repeat constructor.
Defined.

Lemma route_check_restores_witness :
  installed (check_subnet_exist_in_routes sample_table [hostgw_get_route 2 (gw_lease 12 7)] Inet)
    [hostgw_get_route 2 (gw_lease 12 7)].
Proof.
  refine (proj1 (route_check_restores sample_table [hostgw_get_route 2 (gw_lease 12 7)] _ _ _)).
  - apply NoDup_singleton.
  - repeat constructor; cbn; eauto.
  - intros s m ->%list_elem_of_singleton Hm. by vm_compute in Hm.
Defined.

(** A recorded route whose destination is missing from the kernel is not
    replaced when the peer comes back with another gateway: both are
    recorded, and when the kernel loses the route again the check puts the
    outdated one back. *)
Theorem route_add_keeps_stale :
  let r7 := hostgw_get_route 2 (gw_lease 10 7) in
  let r8 := hostgw_get_route 2 (gw_lease 10 8) in
  let st' := handle_subnet_events "host-gw" (Some (hostgw_get_route 2)) None
               [mkEvent Added (gw_lease 10 8)] (mkRouteState (∅ : Table) [r7] []) in
  rt_routes st' = [r7; r8] /\
  k_table (rt_kernel st') !! spec_key r8 = Some (to_message r8) /\
  k_table (check_subnet_exist_in_routes (∅ : Table) (rt_routes st') Inet) !! spec_key r8
  = Some (to_message r7).
Proof. split_and!; by vm_compute. Qed.
