(* ===== verification/VxlanConf.v ===== *)
(** * [backend/vxlan/config.rs], [mac.rs], [parse_mac] and [new_subnet_attrs]

    The configuration of the VXLAN backend, the MAC addresses of its devices
    and the backend data by which a node announces its own.  The decoder of
    the two fields of a backend data is the interface [VxlanJson]. *)

From S2P Require Import Prelude RustStr IpNet Ip6Net Lease Config RouteNetwork.
#[local] Open Scope string_scope.
#[local] Open Scope list_scope.
#[local] Open Scope Z_scope.

(** ** Configuration *)

Record VXLANConfig := mkVXLANConfig {
  vc_vni : Z;
  vc_port : Z;
  vc_mtu : Z;
  vc_gbp : bool;
  vc_learning : bool;
  vc_direct_routing : bool;
}.

Definition VXLAN_FIELDS : list string := ["mtu"; "vni"; "port"; "gbp"; "learning"; "directRouting"].

Inductive VxlanConfigError :=
| VcJson (e : string)
| VcNotObject (type : string)
| VcNotInt (type tag : string)
| VcNotBool (type tag : string).

Definition match_vxlan_field (key : string) : option string :=
  match List.find (fun tag => String.eqb key tag) VXLAN_FIELDS with
  | Some tag => Some tag
  | None => List.find (fun tag => eq_ignore_ascii_case key tag) VXLAN_FIELDS
  end.

(** [Value::as_i64]: an integer literal in range ([-0] is read as a float). *)
Definition value_as_i64 (v : Value) : option Z :=
  match v with
  | VNumber n => if String.eqb n "-0" then None else result_ok (from_str_radix_i 64 10 n)
  | _ => None
  end.

(** [n as u32] *)
Definition int_field (tag : string) (v : Value) : result Z VxlanConfigError :=
  let? n := ok_or (value_as_i64 v) (VcNotInt (json_type_name v) tag) in Ok (wrap 32 n).

Definition bool_field (tag : string) (v : Value) : result bool VxlanConfigError :=
  match v with VBool b => Ok b | _ => Err (VcNotBool (json_type_name v) tag) end.

Definition set_vxlan_field (tag : string) (v : Value) (c : VXLANConfig)
  : result VXLANConfig VxlanConfigError :=
  let 'mkVXLANConfig vni port mtu gbp learning direct := c in
  if String.eqb tag "mtu" then
    let? n := int_field tag v in Ok (mkVXLANConfig vni port n gbp learning direct)
  else if String.eqb tag "vni" then
    let? n := int_field tag v in Ok (mkVXLANConfig n port mtu gbp learning direct)
  else if String.eqb tag "port" then
    let? n := int_field tag v in Ok (mkVXLANConfig vni n mtu gbp learning direct)
  else if String.eqb tag "gbp" then
    let? b := bool_field tag v in Ok (mkVXLANConfig vni port mtu b learning direct)
  else if String.eqb tag "learning" then
    let? b := bool_field tag v in Ok (mkVXLANConfig vni port mtu gbp b direct)
  else
    let? b := bool_field tag v in Ok (mkVXLANConfig vni port mtu gbp learning b).

(** The loop over the entries, in the order the map yields them. *)
Fixpoint set_vxlan_fields (fields : list (string * Value)) (c : VXLANConfig)
  : result VXLANConfig VxlanConfigError :=
  match fields with
  | [] => Ok c
  | (key, v) :: rest =>
      match match_vxlan_field key with
      | None => set_vxlan_fields rest c
      | Some tag => let? c := set_vxlan_field tag v c in set_vxlan_fields rest c
      end
  end.

Definition parse_vxlan_config `{SerdeJson} (backend : option string) (default_mtu : Z)
  : result VXLANConfig VxlanConfigError :=
  let cfg := mkVXLANConfig 1 0 default_mtu false false false in
  match backend with
  | None => Ok cfg
  | Some text =>
      if String.eqb text "null" then Ok cfg
      else
        let? value := map_err VcJson (sj_value text) in
        match value with
        | VObject fields => set_vxlan_fields fields cfg
        | _ => Err (VcNotObject (json_type_name value))
        end
  end.

(** ** MAC addresses *)

Abbreviation MacAddr := bytes (only parsing).

(** [new_hardware_addr] of six random bytes. *)
Definition new_hardware_addr (random : bytes) : MacAddr :=
  match take 6 random with
  | [] => []
  | b :: rest => Z.lor (Z.land b 254) 2 :: rest
  end.

(** [format!("{octet:02x}")] *)
Definition fmt_hex2 (b : Z) : string :=
  if b <? 16 then "0" +:+ fmt_hex b else fmt_hex b.

Definition mac_to_string (addr : MacAddr) : string := str_join ":" (map fmt_hex2 addr).

(** [s.split([':', '-'])] *)
Definition split_mac (s : string) : list string :=
  str_split ":" (str_map (fun c => if Ascii.eqb c "-" then ":"%char else c) s).

Inductive MacError := MacInvalid (s : string) | MacBadHex (s : string).

Fixpoint parse_octets (s : string) (parts : list string) : result bytes MacError :=
  match parts with
  | [] => Ok []
  | p :: rest =>
      if negb (String.length p =? 2)%nat then Err (MacInvalid s)
      else
        let? b := map_err (fun _ => MacBadHex s) (from_str_radix_u 8 16 p) in
        let? bs := parse_octets s rest in
        Ok (b :: bs)
  end.

Definition parse_mac (s : string) : result MacAddr MacError :=
  let parts := split_mac s in
  if negb (length parts =? 6)%nat then Err (MacInvalid s) else parse_octets s parts.

(** ** Backend data *)

(** [serde_json] on [VXLANLeaseAttrs]: decoding, before [MacJson] looks at
    the second field, and encoding. *)
Class VxlanJson := {
  vx_fields : string -> result (Z * Value) string;
  vx_encode : Z -> string -> result string string;
}.

Record VXLANLeaseAttrs := mkVXLANLeaseAttrs { vx_vni : Z; vx_vtep_mac : MacAddr }.

Inductive BackendDataError :=
| BdJson (e : string)
| BdNotString
| BdMac (e : MacError).

(** [Deserialize for MacJson] *)
Definition mac_json (v : Value) : result MacAddr BackendDataError :=
  match v with
  | VString s => map_err BdMac (parse_mac s)
  | _ => Err BdNotString
  end.

Definition parse_backend_data `{VxlanJson} (raw : option string)
  : result VXLANLeaseAttrs BackendDataError :=
  let? (vni, v) := map_err BdJson (vx_fields (default "null" raw)) in
  let? mac := mac_json v in
  Ok (mkVXLANLeaseAttrs vni mac).

(** The encoder and the decoder fit together. *)
Class VxlanJsonLaws `{VxlanJson} :=
  vx_round_trip vni mac : u32 vni ->
    exists raw, vx_encode vni mac = Ok raw /\ vx_fields raw = Ok (vni, VString mac).

(** ** The announcement *)

Record VXLANDevice := mkVXLANDevice {
  vd_name : string;
  vd_ifindex : Z;
  vd_mtu : Z;
  vd_mac : MacAddr;
  vd_direct_routing : bool;
}.

(** [new_subnet_attrs]: what a node announces of itself. *)
Definition new_subnet_attrs `{VxlanJson} (public_ip public_ipv6 : option IpAddr) (vni : Z)
    (dev v6_dev : option VXLANDevice) : result LeaseAttrs string :=
  let attrs := mkLeaseAttrs 0 None "vxlan" None None in
  let? attrs :=
    match public_ip, dev with
    | Some (V4 ip), Some d =>
        let? data := vx_encode vni (mac_to_string (vd_mac d)) in
        Ok (mkLeaseAttrs (IP4_from_bytes (IP4_octets ip)) (la_public_ipv6 attrs)
              (la_backend_type attrs) (Some data) (la_backend_v6_data attrs))
    | _, _ => Ok attrs
    end in
  match public_ipv6, v6_dev with
  | Some (V6 ip), Some d =>
      let? data := vx_encode vni (mac_to_string (vd_mac d)) in
      Ok (mkLeaseAttrs (la_public_ip attrs) (Some ip) (la_backend_type attrs)
            (la_backend_data attrs) (Some data))
  | _, _ => Ok attrs
  end.

(** ** Lemmas *)

(** *** Octets and MAC addresses *)

Definition octet_ok (b : Z) : bool :=
  let s := fmt_hex2 b in
  match from_str_radix_u 8 16 s with Ok v => v =? b | Err _ => false end
  && (String.length s =? 2)%nat && negb (str_contains ":" s) && negb (str_contains "-" s).

(** All 256 octets, by computation. *)
Lemma octets_ok : forallb octet_ok (map Z.of_nat (seq 0 256)) = true.
Proof. by vm_compute. Qed.

Lemma octet_round_trip b :
  is_byte b ->
  from_str_radix_u 8 16 (fmt_hex2 b) = Ok b /\ String.length (fmt_hex2 b) = 2%nat /\
  str_contains ":" (fmt_hex2 b) = false /\ str_contains "-" (fmt_hex2 b) = false.
Proof.
  intros Hb. pose proof octets_ok as H. rewrite forallb_forall in H.
  specialize (H b). unfold octet_ok in H. cbv zeta in H.
  assert (In b (map Z.of_nat (seq 0 256))) as Hin.
  { apply in_map_iff. exists (Z.to_nat b). unfold is_byte in Hb. split; [lia|]. apply in_seq. lia. }
  specialize (H Hin). rewrite !andb_true_iff, !negb_true_iff in H. destruct H as [[[H1 H2] H3] H4].
  apply Nat.eqb_eq in H2. split_and!; [|done..].
  destruct (from_str_radix_u 8 16 (fmt_hex2 b)); [by apply Z.eqb_eq in H1 as ->|done].
Qed.

Lemma str_map_id f s : (forall c, str_contains c s = true -> f c = c) -> str_map f s = s.
Proof.
  induction s as [|a s IH]; intros Hf; cbn; [done|]. rewrite (Hf a), IH; [done| |].
  - intros c Hc. apply Hf. cbn. rewrite Hc. apply orb_true_r.
  - cbn. by rewrite Ascii.eqb_refl.
Qed.

Definition mac_typed (m : MacAddr) : Prop := length m = 6%nat /\ Forall is_byte m.

Lemma split_mac_join parts :
  parts <> [] -> Forall (fun p => str_contains ":" p = false /\ str_contains "-" p = false) parts ->
  split_mac (str_join ":" parts) = parts.
Proof.
  intros Hne Hp. unfold split_mac. rewrite str_map_id.
  - apply str_split_join; [done|]. revert Hp. apply Forall_impl. naive_solver.
  - intros c Hc. destruct (Ascii.eqb_spec c "-") as [->|]; [|done].
    enough (str_contains "-" (str_join ":" parts) = false) by congruence. clear Hc Hne.
    induction Hp as [|p ps [_ Hp] _ IH]; [done|]. destruct ps as [|q ps]; [done|].
    change (str_contains "-" (p +:+ ":" +:+ str_join ":" (q :: ps)) = false).
    by rewrite !str_contains_app, Hp, IH.
Qed.

Lemma parse_octets_fmt s m : Forall is_byte m -> parse_octets s (map fmt_hex2 m) = Ok m.
Proof.
  induction 1 as [|b m Hb _ IH]; cbn; [done|].
  destruct (octet_round_trip b Hb) as (-> & -> & _). cbn. by rewrite IH.
Qed.

Lemma mac_round_trip m : mac_typed m -> parse_mac (mac_to_string m) = Ok m.
Proof.
  intros [Hl Hb]. unfold parse_mac, mac_to_string. rewrite split_mac_join.
  - rewrite length_map, Hl. cbn. by apply parse_octets_fmt.
  - by destruct m.
  - apply Forall_map. revert Hb. apply Forall_impl. intros b Hb.
    by apply octet_round_trip in Hb as (_ & _ & ?).
Qed.

Lemma parse_octets_typed s parts m :
  parse_octets s parts = Ok m -> length m = length parts /\ Forall is_byte m.
Proof.
  revert m. induction parts as [|p parts IH]; intros m H; cbn in H; [by simplify_eq|].
  destruct (negb _); [done|]. destruct (from_str_radix_u 8 16 p) as [b|] eqn:E; [|done]. cbn in H.
  destruct (parse_octets s parts) as [bs|]; [|done]. cbn in H. simplify_eq. cbn.
  destruct (IH bs eq_refl) as [Hl Hb]. split; [lia|]. constructor; [|done].
  apply from_str_radix_u_typed in E; [|lia]. done.
Qed.

Lemma parse_mac_typed s m : parse_mac s = Ok m -> mac_typed m.
Proof.
  unfold parse_mac, mac_typed. destruct (Nat.eqb_spec (length (split_mac s)) 6) as [E|]; [|done].
  cbn. intros [Hl Hb]%parse_octets_typed. by rewrite Hl.
Qed.

(** *** Configuration *)

(** The values that the entries give to a tag, in order. *)
Definition field_values (tag : string) (fields : list (string * Value)) : list Value :=
  omap (fun kv => if decide (match_vxlan_field kv.1 = Some tag) then Some kv.2 else None) fields.

Definition last_int (tag : string) (d : Z) (fields : list (string * Value)) : Z :=
  match list.last (field_values tag fields) with
  | Some v => wrap 32 (default 0 (value_as_i64 v))
  | None => d
  end.

Definition last_bool (tag : string) (d : bool) (fields : list (string * Value)) : bool :=
  match list.last (field_values tag fields) with
  | Some v => match v with VBool b => b | _ => false end
  | None => d
  end.

Definition is_int (v : Value) : bool := is_some (value_as_i64 v).
Definition is_bool (v : Value) : bool := match v with VBool _ => true | _ => false end.

(** An entry that names a field has a value of the field's type. *)
Definition well_typed_entry (kv : string * Value) : bool :=
  match match_vxlan_field kv.1 with
  | None => true
  | Some tag =>
      if bool_decide (tag ∈ ["mtu"; "vni"; "port"]) then is_int kv.2 else is_bool kv.2
  end.

Definition config_of (fields : list (string * Value)) (c : VXLANConfig) : VXLANConfig :=
  mkVXLANConfig (last_int "vni" (vc_vni c) fields) (last_int "port" (vc_port c) fields)
    (last_int "mtu" (vc_mtu c) fields) (last_bool "gbp" (vc_gbp c) fields)
    (last_bool "learning" (vc_learning c) fields)
    (last_bool "directRouting" (vc_direct_routing c) fields).

Lemma match_vxlan_field_known key tag : match_vxlan_field key = Some tag -> tag ∈ VXLAN_FIELDS.
Proof.
  unfold match_vxlan_field. intros H. apply list_elem_of_In.
  destruct (List.find _ VXLAN_FIELDS) eqn:E; simplify_eq;
    [by apply find_some in E as [? _]|by apply find_some in H as [? _]].
Qed.

Lemma field_values_cons tag key v fields :
  field_values tag ((key, v) :: fields) =
  (if decide (match_vxlan_field key = Some tag) then [v] else []) ++ field_values tag fields.
Proof. unfold field_values. cbn. by destruct (decide _). Qed.

(** One entry: the code sets the field when the value has its type. *)
Lemma set_vxlan_field_spec key tag v c :
  match_vxlan_field key = Some tag ->
  if well_typed_entry (key, v) then set_vxlan_field tag v c = Ok (config_of [(key, v)] c)
  else is_ok (set_vxlan_field tag v c) = false.
Proof.
  intros Hm. pose proof (match_vxlan_field_known _ _ Hm) as Ht.
  unfold well_typed_entry, config_of, last_int, last_bool. cbn [fst snd]. rewrite Hm.
  rewrite !field_values_cons, Hm. cbn [field_values omap list_omap].
  destruct c as [vni port mtu gbp learning direct]. clear Hm.
  apply list_elem_of_In in Ht. cbn in Ht. destruct_or! Ht; try done; subst tag;
    cbn [set_vxlan_field]; unfold is_int, int_field, bool_field.
  all: repeat first [rewrite decide_True by done | rewrite decide_False by congruence];
    cbn [list.last app vc_vni vc_port vc_mtu vc_gbp vc_learning vc_direct_routing].
  1-3: change (bool_decide _) with true; by destruct (value_as_i64 v).
  all: change (bool_decide _) with false; by destruct v.
Qed.

Lemma config_of_cons kv fields c : config_of (kv :: fields) c = config_of fields (config_of [kv] c).
Proof.
  destruct kv as [key v]. unfold config_of, last_int, last_bool. cbn [vc_vni vc_port vc_mtu vc_gbp vc_learning vc_direct_routing].
  rewrite !(field_values_cons _ key v fields), !(field_values_cons _ key v []).
  f_equal; destruct (decide _); cbn [app]; try done; rewrite list.last_cons; cbn;
    by destruct (list.last _).
Qed.

(** The loop: all entries are checked, the last of each field wins. *)
Lemma set_vxlan_fields_spec fields c :
  if forallb well_typed_entry fields then set_vxlan_fields fields c = Ok (config_of fields c)
  else is_ok (set_vxlan_fields fields c) = false.
Proof.
  revert c. induction fields as [|[key v] fields IH]; intros c.
  { cbn. f_equal. by destruct c. }
  cbn [forallb set_vxlan_fields]. rewrite config_of_cons.
  destruct (match_vxlan_field key) as [tag|] eqn:E.
  - pose proof (set_vxlan_field_spec key tag v c E) as H. destruct (well_typed_entry (key, v)); cbn [andb].
    + rewrite H. cbn. apply IH.
    + by destruct (set_vxlan_field tag v c).
  - unfold well_typed_entry. cbn [fst]. rewrite E. cbn [andb].
    replace (config_of [(key, v)] c) with c; [apply IH|].
    unfold config_of, last_int, last_bool. rewrite !field_values_cons, E.
    rewrite !decide_False by done. by destruct c.
Qed.

(** ** Properties *)

(** The MAC address that a node announces is the one that its peers
    program: the backend data of [new_subnet_attrs] decodes at the other nodes
    to the VNI and the device's address, in both families. *)
Theorem vxlan_announced_mac `{VxlanJsonLaws} ip ip6 vni dev v6_dev :
  u32 vni -> mac_typed (vd_mac dev) -> mac_typed (vd_mac v6_dev) ->
  exists attrs,
    new_subnet_attrs (Some (V4 ip)) (Some (V6 ip6)) vni (Some dev) (Some v6_dev) = Ok attrs /\
    la_backend_type attrs = "vxlan" /\
    (u32 ip -> la_public_ip attrs = ip) /\ la_public_ipv6 attrs = Some ip6 /\
    parse_backend_data (la_backend_data attrs) = Ok (mkVXLANLeaseAttrs vni (vd_mac dev)) /\
    parse_backend_data (la_backend_v6_data attrs) = Ok (mkVXLANLeaseAttrs vni (vd_mac v6_dev)).
Proof.
  intros Hv Hm Hm6. unfold new_subnet_attrs, parse_backend_data.
  destruct (vx_round_trip vni (mac_to_string (vd_mac dev)) Hv) as (raw & -> & Hr).
  destruct (vx_round_trip vni (mac_to_string (vd_mac v6_dev)) Hv) as (raw6 & -> & Hr6).
  cbn. eexists. split; [done|]. cbn. rewrite Hr, Hr6. cbn. rewrite !mac_round_trip by done.
  split_and!; try done. intros Hip. by apply IP4_octets_value.
Qed.

(** A VXLAN configuration object is accepted exactly when every entry
    that names a field (exactly or up to case) has a value of its type, and
    then each field has the value of its last entry (integers taken modulo
    2^32) or its default: VNI 1, kernel port, the interface's MTU, flags off. *)
Theorem vxlan_config_fields `{SerdeJson} text fields mtu :
  text <> "null" -> sj_value text = Ok (VObject fields) ->
  let default_config := mkVXLANConfig 1 0 mtu false false false in
  if forallb well_typed_entry fields
  then parse_vxlan_config (Some text) mtu = Ok (config_of fields default_config)
  else is_ok (parse_vxlan_config (Some text) mtu) = false.
Proof.
  intros Hn Hj. unfold parse_vxlan_config. apply String.eqb_neq in Hn. rewrite Hn, Hj.
  apply set_vxlan_fields_spec.
Qed.

(** ** Witnesses *)

(** Backend data written as a MAC address, with VNI 1. *)
#[global] Instance plain_vxlan_json : VxlanJson := {
  vx_fields raw := match split_once "/" raw with
                   | Some (vni, mac) =>
                       match parse_u32 vni with Ok n => Ok (n, VString mac) | Err _ => Err "vni" end
                   | None => Err "no VNI"
                   end;
  vx_encode vni mac := Ok (fmt_dec vni +:+ String "/" mac);
}.

#[global] Instance plain_vxlan_json_laws : VxlanJsonLaws.
Proof.
  intros vni mac Hv. eexists. split; [done|]. cbn. rewrite split_once_app.
  - by rewrite parse_u32_fmt.
  - apply fmt_dec_no; [unfold in_width in Hv; lia|done].
Qed.

Definition sample_mac (x : Z) : MacAddr := [10; 88; 0; 0; 0; x].
Definition vx_dev : VXLANDevice := mkVXLANDevice "flannel.1" 5 1450 (sample_mac 1) false.

Lemma vxlan_announced_mac_witness :
  exists attrs,
    new_subnet_attrs (Some (V4 77)) (Some (V6 IP6_zero)) 1 (Some vx_dev) (Some vx_dev) = Ok attrs /\
    parse_backend_data (la_backend_data attrs) = Ok (mkVXLANLeaseAttrs 1 (sample_mac 1)).
Proof.
  assert (mac_typed (vd_mac vx_dev)) as Hm.
  { split; [done|]. repeat constructor; done. }
  destruct (vxlan_announced_mac 77 IP6_zero 1 vx_dev vx_dev) as (attrs & H1 & _ & _ & _ & H2 & _);
    [done|exact Hm|exact Hm|].
  exists attrs. split; [exact H1|exact H2].
Defined.

(** A decoder that always answers with the given entries. *)
Definition fields_serde (fields : list (string * Value)) : SerdeJson :=
  Build_SerdeJson line_entries (fun _ => Err "") (fun _ => Err "") (fun s => Ok s) (fun _ => false)
    (fun _ => Ok (VObject fields)) (fun s => s) (fun s n H => match H with end).

Definition vx_fields_sample : list (string * Value) :=
  [("DirectROUTING", VBool true); ("Name", VNull); ("VNI", VNumber "5"); ("mtu", VNumber "-1"); ("vni", VNumber "7")].

Lemma vxlan_config_fields_witness :
  parse_vxlan_config (H := fields_serde vx_fields_sample) (Some "{}") 1500
  = Ok (mkVXLANConfig 7 0 4294967295 false false true).
Proof.
  exact (vxlan_config_fields (H := fields_serde vx_fields_sample) "{}" vx_fields_sample 1500
           ltac:(done) eq_refl).
Defined.

(** An octet may carry a sign: [u8::from_str_radix] accepts one. *)
Theorem parse_mac_accepts_sign : parse_mac "+a:58:00:00:00:+1" = Ok [10; 88; 0; 0; 0; 1].
Proof. by vm_compute. Qed.
