(* ===== verification/Vxlan.v ===== *)
(** * [backend/vxlan/events.rs], the neighbour entries of [device.rs]

    The lease events of the VXLAN backend.  A peer takes three kernel entries:
    a permanent ARP entry, a forwarding entry (FDB) and a route, each written
    with retries and taken back when a later one fails; a peer on the same
    network may get a direct route instead.  The kernel and the cancellation
    token are the interface [VxlanKernel] with its laws. *)

From S2P Require Import Prelude RustStr IpNet Ip6Net Lease RouteNetwork VxlanConf.
#[local] Open Scope string_scope.
#[local] Open Scope list_scope.
#[local] Open Scope Z_scope.

(** ** Routes *)

Definition v4_vxlan_route (ifindex : Z) (sn : IP4Net) : RouteMessage :=
  mkRouteMessage Inet (wrap 8 (ip4n_plen sn)) (Some (V4 (ip4n_ip sn))) (Some (V4 (ip4n_ip sn)))
    (Some ifindex) true.

Definition v4_direct_route (sn : IP4Net) (public_ip : IP4) : RouteMessage :=
  mkRouteMessage Inet (wrap 8 (ip4n_plen sn)) (Some (V4 (ip4n_ip sn))) (Some (V4 public_ip)) None false.

Definition v6_vxlan_route (ifindex : Z) (sn : IP6Net) : RouteMessage :=
  mkRouteMessage Inet6 (wrap 8 (ip6n_plen sn)) (Some (V6 (ip6n_ip sn))) (Some (V6 (ip6n_ip sn)))
    (Some ifindex) true.

Definition v6_direct_route (sn : IP6Net) (public_ip : IP6) : RouteMessage :=
  mkRouteMessage Inet6 (wrap 8 (ip6n_plen sn)) (Some (V6 (ip6n_ip sn))) (Some (V6 public_ip)) None false.

(** ** The kernel *)

Inductive NeighbourState := NudNone | NudPermanent.
Inductive NeighbourFamily := NfInet | NfInet6 | NfBridge.

(** A neighbour message; [nm_own] is the flag [NTF_SELF]. *)
Record NeighbourMessage := mkNeighbourMessage {
  nm_family : NeighbourFamily;
  nm_ifindex : Z;
  nm_state : NeighbourState;
  nm_own : bool;
  nm_dst : IpAddr;
  nm_lladdr : bytes;
}.

(** A netlink request changes the kernel and answers. *)
Abbreviation Request K := (K -> K * result unit string).

(** The requests of [rtnetlink] that the handler makes, and whether the token
    interrupts the back-off after a failed one.  [vk_neigh_add] and
    [vk_neigh_add_bridge] are the builders [add(ifindex, ip)] and
    [add_bridge(ifindex, mac)] with [replace()]. *)
Class VxlanKernel (K : Type) := {
  vk_neigh_add : Z -> IpAddr -> bytes -> Request K;
  vk_neigh_add_bridge : Z -> bytes -> IpAddr -> Request K;
  vk_neigh_del : NeighbourMessage -> Request K;
  vk_route_replace : RouteMessage -> Request K;
  vk_route_del : RouteMessage -> Request K;
  vk_route_get : RouteMessage -> K -> result (list RouteMessage) string;
  vk_cancelled : K -> bool;
}.

Definition neigh_message (ifindex : Z) (mac : MacAddr) (dst : IpAddr) (state : NeighbourState)
  : NeighbourMessage :=
  mkNeighbourMessage (match dst with V4 _ => NfInet | V6 _ => NfInet6 end) ifindex state false dst mac.

(** The devices and the MTU that the tasks of a network share. *)
Record NetState := mkNetState {
  ns_dev : option VXLANDevice;
  ns_v6_dev : option VXLANDevice;
  ns_mtu : Z;
}.

Definition ATTEMPTS : nat := 10.

Section Handler.
Context `{VxlanKernel K} `{VxlanJson}.

Definition add_arp (dev : VXLANDevice) (mac : MacAddr) (ip : IpAddr) : Request K :=
  vk_neigh_add (vd_ifindex dev) ip mac.

Definition del_arp (dev : VXLANDevice) (mac : MacAddr) (ip : IpAddr) : Request K :=
  vk_neigh_del (neigh_message (vd_ifindex dev) mac ip NudPermanent).

Definition add_fdb (dev : VXLANDevice) (mac : MacAddr) (dst : IpAddr) : Request K :=
  vk_neigh_add_bridge (vd_ifindex dev) mac dst.

Definition del_fdb (dev : VXLANDevice) (mac : MacAddr) (dst : IpAddr) : Request K :=
  let msg := neigh_message (vd_ifindex dev) mac dst NudNone in
  vk_neigh_del (mkNeighbourMessage NfBridge (nm_ifindex msg) (nm_state msg) true
                  (nm_dst msg) (nm_lladdr msg)).

Definition route_get (k : K) (ip : IpAddr) : result (list RouteMessage) string :=
  vk_route_get (match ip with
                | V4 v4 => mkRouteMessage Inet 32 (Some (V4 v4)) None None false
                | V6 v6 => mkRouteMessage Inet6 128 (Some (V6 v6)) None None false
                end) k.

(** [direct_routing]: exactly one route, without a gateway. *)
Definition direct_routing (k : K) (ip : IpAddr) : result bool string :=
  let? routes := route_get k ip in
  Ok match routes with [r] => negb (is_some (rm_gateway r)) | _ => false end.

(** [retry_do] with [n] attempts to go. *)
Fixpoint retry_from (n : nat) (f : Request K) (k : K) : K * result unit string :=
  match n with
  | O => (k, Err "unreachable")
  | S n =>
      let '(k, res) := f k in
      match res with
      | Ok _ => (k, Ok ())
      | Err e =>
          match n with
          | O => (k, Err e)
          | S _ => if vk_cancelled k then (k, Err "context canceled") else retry_from n f k
          end
      end
  end.

Definition retry_do (f : Request K) (k : K) : K * result unit string := retry_from ATTEMPTS f k.

(** What an event asks for in one family. *)
Record Peer := mkPeer {
  pe_dev : VXLANDevice;
  pe_mac : MacAddr;
  pe_gw : IpAddr;
  pe_vtep : IpAddr;
  pe_vxlan_route : RouteMessage;
  pe_direct_route : RouteMessage;
  pe_direct_ok : bool;
}.

(** The direct-routing test: an error counts as no. *)
Definition direct_ok (k : K) (dev : VXLANDevice) (ip : IpAddr) : bool :=
  if vd_direct_routing dev then
    match direct_routing k ip with Ok dr => dr | Err _ => false end
  else false.

(** The preparation of each family; an error skips the whole event, [None]
    is a family with nothing to do. *)
Definition prepare_v4 (direct : VXLANDevice -> IpAddr -> bool) (dev : option VXLANDevice) (lease : Lease)
  : result (option Peer) BackendDataError :=
  match l_enable_ipv4 lease, dev with
  | true, Some d =>
      let attrs := l_attrs lease in
      let sn := l_subnet lease in
      let? a := parse_backend_data (la_backend_data attrs) in
      Ok (Some (mkPeer d (vx_vtep_mac a) (V4 (ip4n_ip sn)) (V4 (la_public_ip attrs))
                  (v4_vxlan_route (vd_ifindex d) sn) (v4_direct_route sn (la_public_ip attrs))
                  (direct d (V4 (la_public_ip attrs)))))
  | _, _ => Ok None
  end.

Definition prepare_v6 (direct : VXLANDevice -> IpAddr -> bool) (v6_dev : option VXLANDevice) (lease : Lease)
  : result (option Peer) BackendDataError :=
  match l_enable_ipv6 lease, v6_dev with
  | true, Some d =>
      let attrs := l_attrs lease in
      let sn := l_ipv6_subnet lease in
      let pub6 := default IP6_zero (la_public_ipv6 attrs) in
      let? a := parse_backend_data (la_backend_v6_data attrs) in
      Ok (if negb (IP6Net_empty sn)
          then Some (mkPeer d (vx_vtep_mac a) (V6 (ip6n_ip sn)) (V6 pub6)
                       (v6_vxlan_route (vd_ifindex d) sn) (v6_direct_route sn pub6)
                       (direct d (V6 pub6)))
          else None)
  | _, _ => Ok None
  end.

(** [EventAdded] of one family: whether the event goes on ([false] is the
    [continue]).  After a failed route the clean-up of the IPv6 branch
    retries, that of the IPv4 branch does not. *)
Definition add_peer (cleanup_retries : bool) (p : Peer) (k : K) : K * bool :=
  let dev := pe_dev p in
  let cleanup (f : Request K) := if cleanup_retries then retry_do f else f in
  if pe_direct_ok p then
    let '(k, r) := retry_do (vk_route_replace (pe_direct_route p)) k in (k, is_ok r)
  else
    let '(k, r) := retry_do (add_arp dev (pe_mac p) (pe_gw p)) k in
    if negb (is_ok r) then (k, false)
    else
      let '(k, r) := retry_do (add_fdb dev (pe_mac p) (pe_vtep p)) k in
      if negb (is_ok r) then
        ((retry_do (del_arp dev (pe_mac p) (pe_gw p)) k).1, false)
      else
        let '(k, r) := retry_do (vk_route_replace (pe_vxlan_route p)) k in
        if negb (is_ok r) then
          let k := (cleanup (del_arp dev (pe_mac p) (pe_gw p)) k).1 in
          ((cleanup (del_fdb dev (pe_mac p) (pe_vtep p)) k).1, false)
        else (k, true).

(** [EventRemoved] of one family: failures are only logged. *)
Definition remove_peer (p : Peer) (k : K) : K :=
  let dev := pe_dev p in
  if pe_direct_ok p then (retry_do (vk_route_del (pe_direct_route p)) k).1
  else
    let k := (retry_do (del_arp dev (pe_mac p) (pe_gw p)) k).1 in
    let k := (retry_do (del_fdb dev (pe_mac p) (pe_vtep p)) k).1 in
    (retry_do (vk_route_del (pe_vxlan_route p)) k).1.

(** One turn of the loop; the devices are those that the event's look at
    the shared [NetState] finds. *)
Definition vxlan_event (k : K) (turn : NetState * Event) : K :=
  let '(st, event) := turn in
  let lease := ev_lease event in
  if negb (String.eqb (la_backend_type (l_attrs lease)) "vxlan") then k
  else
    match prepare_v4 (direct_ok k) (ns_dev st) lease with
    | Err _ => k
    | Ok peer =>
        match prepare_v6 (direct_ok k) (ns_v6_dev st) lease with
        | Err _ => k
        | Ok v6_peer =>
            match ev_type event with
            | Added =>
                let '(k, go_on) := match peer with Some p => add_peer false p k | None => (k, true) end in
                if negb go_on then k
                else match v6_peer with Some p => (add_peer true p k).1 | None => k end
            | Removed =>
                let k := match peer with Some p => remove_peer p k | None => k end in
                match v6_peer with Some p => remove_peer p k | None => k end
            end
        end
    end.

(** The batch, each event with the state it finds: another task may replace
    the devices between two of them. *)
Definition vxlan_handle_subnet_events (batch : list (NetState * Event)) (k : K) : K :=
  fold_left vxlan_event batch k.
End Handler.

(** ** The device state *)

Definition ENCAP_OVERHEAD : Z := 50.

(** [Network::mtu]: [saturating_sub] *)
Definition vxlan_mtu (st : NetState) : Z := Z.max 0 (ns_mtu st - ENCAP_OVERHEAD).

(** The end of [recreate_vxlan]: the new devices replace the old ones. *)
Definition store_devices (dev v6_dev : option VXLANDevice) (st : NetState) : NetState :=
  match dev with
  | Some d => mkNetState (Some d) v6_dev (vd_mtu d)
  | None => mkNetState (ns_dev st) v6_dev (ns_mtu st)
  end.

(** ** What the kernel promises *)

Record VxlanTables := mkVxlanTables {
  vt_arp : gmap (Z * IpAddr) bytes;
  vt_fdb : gmap (Z * bytes) IpAddr;
  vt_routes : gmap RouteKey RouteMessage;
}.

Definition put_arp (i : Z) (ip : IpAddr) (mac : bytes) (t : VxlanTables) : VxlanTables :=
  mkVxlanTables (<[(i, ip) := mac]> (vt_arp t)) (vt_fdb t) (vt_routes t).
Definition put_fdb (i : Z) (mac : bytes) (dst : IpAddr) (t : VxlanTables) : VxlanTables :=
  mkVxlanTables (vt_arp t) (<[(i, mac) := dst]> (vt_fdb t)) (vt_routes t).
Definition put_route (m : RouteMessage) (t : VxlanTables) : VxlanTables :=
  mkVxlanTables (vt_arp t) (vt_fdb t) (<[msg_key m := m]> (vt_routes t)).

(** Deletions fail when there is nothing to delete: a forwarding entry needs
    its destination, a route the same message that added it. *)
Definition drop_neigh (m : NeighbourMessage) (t : VxlanTables) : option VxlanTables :=
  let i := nm_ifindex m in
  match nm_family m with
  | NfBridge =>
      if decide (vt_fdb t !! (i, nm_lladdr m) = Some (nm_dst m))
      then Some (mkVxlanTables (vt_arp t) (delete (i, nm_lladdr m) (vt_fdb t)) (vt_routes t))
      else None
  | _ =>
      if is_some (vt_arp t !! (i, nm_dst m))
      then Some (mkVxlanTables (delete (i, nm_dst m) (vt_arp t)) (vt_fdb t) (vt_routes t))
      else None
  end.
Definition drop_route (m : RouteMessage) (t : VxlanTables) : option VxlanTables :=
  if decide (vt_routes t !! msg_key m = Some m)
  then Some (mkVxlanTables (vt_arp t) (vt_fdb t) (delete (msg_key m) (vt_routes t)))
  else None.

Section Requests.
Context {K : Type} (tables : K -> VxlanTables).

(** A request that answers [Ok] has the effect, one that fails has none. *)
Definition obeys (f : Request K) (effect : VxlanTables -> option VxlanTables) : Prop :=
  forall k, match f k with
            | (k', Ok _) => effect (tables k) = Some (tables k')
            | (k', Err _) => tables k' = tables k
            end.

(** A request that the kernel never refuses without a reason. *)
Definition reliable (f : Request K) (effect : VxlanTables -> option VxlanTables) : Prop :=
  forall k, is_some (effect (tables k)) = true -> is_ok (f k).2 = true.
End Requests.

Class VxlanKernelLaws (K : Type) `{VxlanKernel K} := {
  vk_tables : K -> VxlanTables;
  vk_neigh_add_obeys i ip mac :
    obeys vk_tables (vk_neigh_add i ip mac) (fun t => Some (put_arp i ip mac t));
  vk_neigh_add_bridge_obeys i mac dst :
    obeys vk_tables (vk_neigh_add_bridge i mac dst) (fun t => Some (put_fdb i mac dst t));
  vk_neigh_del_obeys m : obeys vk_tables (vk_neigh_del m) (drop_neigh m);
  vk_route_replace_obeys m : obeys vk_tables (vk_route_replace m) (fun t => Some (put_route m t));
  vk_route_del_obeys m : obeys vk_tables (vk_route_del m) (drop_route m);
}.

(** A kernel that carries out every request it can. *)
Record reliable_kernel (K : Type) `{VxlanKernelLaws K} : Prop := {
  rk_neigh_add i ip mac : reliable vk_tables (vk_neigh_add i ip mac) (fun t => Some (put_arp i ip mac t));
  rk_neigh_add_bridge i mac dst :
    reliable vk_tables (vk_neigh_add_bridge i mac dst) (fun t => Some (put_fdb i mac dst t));
  rk_neigh_del m : reliable vk_tables (vk_neigh_del m) (drop_neigh m);
  rk_route_replace m : reliable vk_tables (vk_route_replace m) (fun t => Some (put_route m t));
  rk_route_del m : reliable vk_tables (vk_route_del m) (drop_route m);
}.

(** The three entries of a peer, or its direct route. *)
Definition pe_route (p : Peer) : RouteMessage :=
  if pe_direct_ok p then pe_direct_route p else pe_vxlan_route p.
Definition arp_key (p : Peer) : Z * IpAddr := (vd_ifindex (pe_dev p), pe_gw p).
Definition fdb_key (p : Peer) : Z * bytes := (vd_ifindex (pe_dev p), pe_mac p).

Definition install_peer (p : Peer) (t : VxlanTables) : VxlanTables :=
  let i := vd_ifindex (pe_dev p) in
  if pe_direct_ok p then put_route (pe_route p) t
  else put_route (pe_route p) (put_fdb i (pe_mac p) (pe_vtep p) (put_arp i (pe_gw p) (pe_mac p) t)).

Definition uninstall_peer (p : Peer) (t : VxlanTables) : VxlanTables :=
  let t := if pe_direct_ok p then t
           else mkVxlanTables (delete (arp_key p) (vt_arp t))
                  (if decide (vt_fdb t !! fdb_key p = Some (pe_vtep p))
                   then delete (fdb_key p) (vt_fdb t) else vt_fdb t) (vt_routes t) in
  default t (drop_route (pe_route p) t).

(** Every table entry of the peer is there, or none is. *)
Definition has_entries (p : Peer) (t : VxlanTables) : Prop :=
  vt_routes t !! msg_key (pe_route p) = Some (pe_route p) /\
  (pe_direct_ok p = false ->
   vt_arp t !! arp_key p = Some (pe_mac p) /\ vt_fdb t !! fdb_key p = Some (pe_vtep p)).

Definition no_entries (p : Peer) (t : VxlanTables) : Prop :=
  vt_routes t !! msg_key (pe_route p) <> Some (pe_route p) /\
  (pe_direct_ok p = false ->
   vt_arp t !! arp_key p = None /\ vt_fdb t !! fdb_key p <> Some (pe_vtep p)).

(** Two peers that share no table key. *)
Definition disjoint_peers (p q : Peer) : Prop :=
  arp_key p <> arp_key q /\ fdb_key p <> fdb_key q /\ msg_key (pe_route p) <> msg_key (pe_route q).

(** The peers that a turn is about, in order. *)
Definition turn_peers `{VxlanJson} (direct : VXLANDevice -> IpAddr -> bool) (turn : NetState * Event)
  : list Peer :=
  let '(st, event) := turn in
  let lease := ev_lease event in
  if negb (String.eqb (la_backend_type (l_attrs lease)) "vxlan") then []
  else match prepare_v4 direct (ns_dev st) lease, prepare_v6 direct (ns_v6_dev st) lease with
       | Ok p4, Ok p6 => option_list p4 ++ option_list p6
       | _, _ => []
       end.

Definition want_turn `{VxlanJson} (direct : VXLANDevice -> IpAddr -> bool) (t : VxlanTables)
    (turn : NetState * Event) : VxlanTables :=
  let act := match ev_type turn.2 with Added => install_peer | Removed => uninstall_peer end in
  fold_left (fun t p => act p t) (turn_peers direct turn) t.

(** ** Lemmas *)

Lemma drop_neigh_arp i mac ip st t :
  drop_neigh (neigh_message i mac ip st) t =
  if is_some (vt_arp t !! (i, ip))
  then Some (mkVxlanTables (delete (i, ip) (vt_arp t)) (vt_fdb t) (vt_routes t)) else None.
Proof. unfold drop_neigh, neigh_message. cbn. by destruct ip. Qed.

Section Retry.
Context `{VxlanKernelLaws K}.

(** Retries keep the contract of a request. *)
Lemma retry_from_obeys n f effect :
  obeys vk_tables f effect -> (n > 0)%nat -> obeys vk_tables (retry_from n f) effect.
Proof.
  intros Hf. induction n as [|n IH]; [lia|]. intros _ k. cbn [retry_from].
  specialize (Hf k). destruct (f k) as [k' [[]|e]]; [done|].
  destruct n as [|n]; [done|]. destruct (vk_cancelled k'); [done|].
  specialize (IH ltac:(lia) k'). rewrite Hf in IH.
  destruct (retry_from (S n) f k') as [k'' [[]|e']]; done.
Qed.

Lemma retry_do_obeys f effect : obeys vk_tables f effect -> obeys vk_tables (retry_do f) effect.
Proof. intros. apply retry_from_obeys; [done|unfold ATTEMPTS; lia]. Qed.

Lemma retry_do_reliable f effect :
  reliable vk_tables f effect -> reliable vk_tables (retry_do f) effect.
Proof.
  intros Hf k Hk. unfold retry_do, ATTEMPTS. cbn [retry_from]. specialize (Hf k Hk).
  by destruct (f k) as [k' [[]|e]].
Qed.

(** A reliable request carries out its effect when it has one. *)
Lemma reliable_effect f effect k :
  obeys vk_tables f effect -> reliable vk_tables f effect ->
  vk_tables (f k).1 = default (vk_tables k) (effect (vk_tables k)) /\
  is_ok (f k).2 = is_some (effect (vk_tables k)).
Proof.
  intros Ho Hr. specialize (Ho k). specialize (Hr k).
  destruct (effect (vk_tables k)) as [t|], (f k) as [k' [[]|e]]; cbn in *;
    simplify_eq; (done || by specialize (Hr eq_refl)).
Qed.

(** A request whose failure does not matter changes only what it may. *)
Lemma obeys_frame {A} (get : VxlanTables -> A) f effect k :
  obeys vk_tables f effect -> (forall t t', effect t = Some t' -> get t' = get t) ->
  get (vk_tables (f k).1) = get (vk_tables k).
Proof.
  intros Ho He. specialize (Ho k). destruct (f k) as [k' [[]|e]]; cbn; [by apply He|by rewrite Ho].
Qed.
End Retry.

#[local] Create HintDb vxlan.
#[local] Hint Resolve vk_neigh_add_obeys vk_neigh_add_bridge_obeys vk_neigh_del_obeys
  vk_route_replace_obeys vk_route_del_obeys retry_do_obeys retry_do_reliable : vxlan.

(** Tables that differ at most in the neighbour entries of a peer. *)
Definition same_but (p : Peer) (t t' : VxlanTables) : Prop :=
  vt_routes t' = vt_routes t /\
  (forall key, key <> arp_key p -> vt_arp t' !! key = vt_arp t !! key) /\
  (forall key, key <> fdb_key p -> vt_fdb t' !! key = vt_fdb t !! key).

#[local] Instance same_but_preorder p : PreOrder (same_but p).
Proof.
  split; [by intros t|]. intros t1 t2 t3 (Hr & Ha & Hf) (Hr' & Ha' & Hf').
  split_and!; [by rewrite Hr'| |]; intros key Hk; [by rewrite Ha', Ha|by rewrite Hf', Hf].
Qed.

Section AddPeer.
Context `{VxlanKernelLaws K} (p : Peer).
Let i := vd_ifindex (pe_dev p).
Let arp_msg := neigh_message i (pe_mac p) (pe_gw p) NudPermanent.
Let fdb_msg := mkNeighbourMessage NfBridge i NudNone true (pe_vtep p) (pe_mac p).

(** The requests for a peer's neighbour entries touch nothing else. *)
Lemma obeys_same_but f effect k :
  obeys vk_tables f effect -> (forall t t', effect t = Some t' -> same_but p t t') ->
  same_but p (vk_tables k) (vk_tables (f k).1).
Proof.
  intros Ho He. specialize (Ho k). destruct (f k) as [k' [[]|e]]; cbn; [by apply He|by rewrite Ho].
Qed.

Lemma put_arp_same t : same_but p t (put_arp i (pe_gw p) (pe_mac p) t).
Proof. split_and!; [done| |done]. intros key Hk. apply lookup_insert_ne. by apply not_eq_sym. Qed.

Lemma put_fdb_same t : same_but p t (put_fdb i (pe_mac p) (pe_vtep p) t).
Proof. split_and!; [done|done|]. intros key Hk. apply lookup_insert_ne. by apply not_eq_sym. Qed.

Lemma drop_arp_same t t' : drop_neigh arp_msg t = Some t' -> same_but p t t'.
Proof.
  unfold arp_msg. rewrite drop_neigh_arp. destruct (is_some _); [|done]. intros [= <-].
  split_and!; [done| |done]. intros key Hk. apply lookup_delete_ne. by apply not_eq_sym.
Qed.

Lemma drop_fdb_same t t' : drop_neigh fdb_msg t = Some t' -> same_but p t t'.
Proof.
  unfold drop_neigh. cbn. destruct (decide _); [|done]. intros [= <-].
  split_and!; [done|done|]. intros key Hk. apply lookup_delete_ne. by apply not_eq_sym.
Qed.

(** The clean-up after a failed route. *)
Definition neigh_cleanup (r : bool) (m : NeighbourMessage) : Request K :=
  if r then retry_do (vk_neigh_del m) else vk_neigh_del m.

Lemma neigh_cleanup_obeys r m : obeys vk_tables (neigh_cleanup r m) (drop_neigh m).
Proof. destruct r; cbn; auto with vxlan. Qed.

(** The three outcomes of an addition by encapsulation. *)
Inductive add_outcome (retries : bool) (k : K) : K -> bool -> Prop :=
| AoArp k' :
    vk_tables k' = vk_tables k -> add_outcome retries k k' false
| AoFdb k1 :
    vk_tables k1 = put_arp i (pe_gw p) (pe_mac p) (vk_tables k) ->
    add_outcome retries k (retry_do (vk_neigh_del arp_msg) k1).1 false
| AoRoute k1 :
    vk_tables k1 = put_fdb i (pe_mac p) (pe_vtep p) (put_arp i (pe_gw p) (pe_mac p) (vk_tables k)) ->
    add_outcome retries k
      (neigh_cleanup retries fdb_msg (neigh_cleanup retries arp_msg k1).1).1 false
| AoDone k' :
    vk_tables k' = put_route (pe_vxlan_route p)
      (put_fdb i (pe_mac p) (pe_vtep p) (put_arp i (pe_gw p) (pe_mac p) (vk_tables k))) ->
    add_outcome retries k k' true.

Lemma add_peer_outcome retries k :
  pe_direct_ok p = false ->
  add_outcome retries k (add_peer retries p k).1 (add_peer retries p k).2.
Proof.
  intros Hd. unfold add_peer. rewrite Hd. cbv zeta.
  unfold add_arp, add_fdb, del_arp, del_fdb. fold i.
  pose proof (retry_do_obeys _ _ (vk_neigh_add_obeys i (pe_gw p) (pe_mac p)) k) as Ha.
  destruct (retry_do (vk_neigh_add i (pe_gw p) (pe_mac p)) k) as [k1 [[]|e]]; cbn [is_ok negb fst snd];
    [injection Ha as Ha|by constructor].
  pose proof (retry_do_obeys _ _ (vk_neigh_add_bridge_obeys i (pe_mac p) (pe_vtep p)) k1) as Hf.
  destruct (retry_do (vk_neigh_add_bridge i (pe_mac p) (pe_vtep p)) k1) as [k2 [[]|e]];
    cbn [is_ok negb fst snd]; [injection Hf as Hf|by apply AoFdb; rewrite Hf].
  pose proof (retry_do_obeys _ _ (vk_route_replace_obeys (pe_vxlan_route p)) k2) as Hr.
  destruct (retry_do (vk_route_replace (pe_vxlan_route p)) k2) as [k3 [[]|e]];
    cbn [is_ok negb fst snd]; [injection Hr as Hr|].
  - apply AoDone. by rewrite <- Hr, <- Hf, <- Ha.
  - apply AoRoute. by rewrite Hr, <- Hf, <- Ha.
Qed.

Lemma add_outcome_frame retries k k' :
  add_outcome retries k k' false -> same_but p (vk_tables k) (vk_tables k').
Proof.
  inversion 1 as [? E|k1 E|k1 E|]; subst; [by rewrite E| |].
  - etrans; [apply put_arp_same|]. rewrite <- E.
    eapply obeys_same_but, drop_arp_same. auto with vxlan.
  - etrans; [apply put_arp_same|]. etrans; [apply put_fdb_same|]. rewrite <- E.
    etrans; [eapply obeys_same_but, drop_arp_same; apply neigh_cleanup_obeys|].
    eapply obeys_same_but, drop_fdb_same. apply neigh_cleanup_obeys.
Qed.

Hypothesis Hdel : forall m, reliable vk_tables (vk_neigh_del m) (drop_neigh m).

(** When entries can be deleted, a failed addition leaves none behind. *)
Lemma add_outcome_clean retries k k' :
  add_outcome retries k k' false ->
  vk_tables k' = vk_tables k \/
  vt_arp (vk_tables k') !! arp_key p = None /\
  (vt_fdb (vk_tables k') = vt_fdb (vk_tables k) \/ vt_fdb (vk_tables k') !! fdb_key p = None).
Proof.
  inversion 1 as [? E|k1 E|k1 E|]; subst; [by left|right..].
  - destruct (reliable_effect (retry_do (vk_neigh_del arp_msg)) (drop_neigh arp_msg) k1) as [Ht _];
      [auto with vxlan..|].
    rewrite Ht, E. unfold arp_msg. rewrite drop_neigh_arp. cbn. rewrite lookup_insert_eq. cbn.
    split; [apply lookup_delete_eq|by left].
  - set (del := neigh_cleanup retries).
    assert (forall m, reliable vk_tables (del m) (drop_neigh m)) as Hr
      by (unfold del; destruct retries; cbn; auto with vxlan).
    destruct (reliable_effect (del arp_msg) (drop_neigh arp_msg) k1) as [Ht _];
      [apply neigh_cleanup_obeys|done|].
    destruct (reliable_effect (del fdb_msg) (drop_neigh fdb_msg) (del arp_msg k1).1) as [Ht' _];
      [apply neigh_cleanup_obeys|done|].
    rewrite Ht', Ht, E. unfold arp_msg. rewrite drop_neigh_arp. cbn. rewrite lookup_insert_eq. cbn.
    unfold drop_neigh. cbn. rewrite lookup_insert_eq, decide_True by done. cbn.
    split; [apply lookup_delete_eq|right; apply lookup_delete_eq].
Qed.
End AddPeer.

Section Reliable.
Context `{VxlanKernelLaws K} `{VxlanJson} (Hk : reliable_kernel K).

Lemma reliable_add {f g} k :
  obeys vk_tables f (fun t => Some (g t)) -> reliable vk_tables f (fun t => Some (g t)) ->
  exists k', retry_do f k = (k', Ok ()) /\ vk_tables k' = g (vk_tables k).
Proof.
  intros Ho Hr.
  destruct (reliable_effect (retry_do f) (fun t => Some (g t)) k) as [Ht Hok]; [auto with vxlan..|].
  destruct (retry_do f k) as [k' [[]|e]]; [|done]. eauto.
Qed.

Lemma reliable_del {f effect} k :
  obeys vk_tables f effect -> reliable vk_tables f effect ->
  vk_tables (retry_do f k).1 = default (vk_tables k) (effect (vk_tables k)).
Proof. intros Ho Hr. apply (reliable_effect (retry_do f) effect k); auto with vxlan. Qed.

Lemma add_peer_reliable r p k :
  exists k', add_peer r p k = (k', true) /\ vk_tables k' = install_peer p (vk_tables k).
Proof.
  unfold add_peer, install_peer, pe_route, add_arp, add_fdb. destruct (pe_direct_ok p).
  - destruct (reliable_add k (vk_route_replace_obeys (pe_direct_route p)) (rk_route_replace _ Hk _))
      as (k' & -> & Ht). eauto.
  - set (i := vd_ifindex (pe_dev p)).
    destruct (reliable_add k (vk_neigh_add_obeys i (pe_gw p) (pe_mac p)) (rk_neigh_add _ Hk _ _ _))
      as (k1 & -> & Ht1). cbn [is_ok negb].
    destruct (reliable_add k1 (vk_neigh_add_bridge_obeys i (pe_mac p) (pe_vtep p))
                (rk_neigh_add_bridge _ Hk _ _ _)) as (k2 & -> & Ht2). cbn [is_ok negb].
    destruct (reliable_add k2 (vk_route_replace_obeys (pe_vxlan_route p)) (rk_route_replace _ Hk _))
      as (k3 & -> & Ht3). cbn [is_ok negb]. exists k3. by rewrite Ht3, Ht2, Ht1.
Qed.

Lemma drop_arp_default p t :
  default t (drop_neigh (neigh_message (vd_ifindex (pe_dev p)) (pe_mac p) (pe_gw p) NudPermanent) t)
  = mkVxlanTables (delete (arp_key p) (vt_arp t)) (vt_fdb t) (vt_routes t).
Proof.
  rewrite drop_neigh_arp. fold (arp_key p). destruct (vt_arp t !! arp_key p) eqn:E; [done|].
  cbn. rewrite delete_id by done. by destruct t.
Qed.

Lemma remove_peer_reliable p k : vk_tables (remove_peer p k) = uninstall_peer p (vk_tables k).
Proof.
  unfold remove_peer, uninstall_peer, pe_route, del_arp, del_fdb. cbv zeta. destruct (pe_direct_ok p).
  - apply reliable_del; [apply vk_route_del_obeys|by apply rk_route_del].
  - rewrite (reliable_del _ (vk_route_del_obeys _) (rk_route_del _ Hk _)).
    rewrite (reliable_del _ (vk_neigh_del_obeys _) (rk_neigh_del _ Hk _)).
    rewrite (reliable_del _ (vk_neigh_del_obeys _) (rk_neigh_del _ Hk _)), drop_arp_default.
    unfold drop_neigh at 1 2. cbn. fold (fdb_key p). by destruct (decide _).
Qed.

Context (direct : VXLANDevice -> IpAddr -> bool).

Lemma prepare_v4_ext f dev lease :
  (forall d ip, f d ip = direct d ip) -> prepare_v4 f dev lease = prepare_v4 direct dev lease.
Proof.
  intros Hf. unfold prepare_v4. destruct (l_enable_ipv4 lease), dev; try done.
  destruct (parse_backend_data _); cbn; [by rewrite Hf|done].
Qed.

Lemma prepare_v6_ext f dev lease :
  (forall d ip, f d ip = direct d ip) -> prepare_v6 f dev lease = prepare_v6 direct dev lease.
Proof.
  intros Hf. unfold prepare_v6. destruct (l_enable_ipv6 lease), dev; try done.
  destruct (parse_backend_data _); cbn; [by rewrite Hf|done].
Qed.

Hypothesis Htopology : forall (k : K) d ip, direct_ok k d ip = direct d ip.

Lemma vxlan_event_refines k turn :
  vk_tables (vxlan_event k turn) = want_turn direct (vk_tables k) turn.
Proof.
  destruct turn as [st [et lease]]. unfold vxlan_event, want_turn, turn_peers. cbn [ev_lease ev_type snd].
  rewrite (prepare_v4_ext (direct_ok k)), (prepare_v6_ext (direct_ok k)) by apply Htopology.
  destruct (negb _); [by destruct et|].
  destruct (prepare_v4 direct _ lease) as [p4|e]; [|by destruct et].
  destruct (prepare_v6 direct _ lease) as [p6|e]; [|by destruct et]. destruct et.
  - destruct p4 as [p4|], p6 as [p6|]; cbn; try done.
    + destruct (add_peer_reliable false p4 k) as (k1 & -> & <-). cbn.
      by destruct (add_peer_reliable true p6 k1) as (k2 & -> & <-).
    + by destruct (add_peer_reliable false p4 k) as (k1 & -> & <-).
    + by destruct (add_peer_reliable true p6 k) as (k1 & -> & <-).
  - destruct p4, p6; cbn; by rewrite ?remove_peer_reliable.
Qed.

Lemma vxlan_batch_refines batch k :
  vk_tables (vxlan_handle_subnet_events batch k) = fold_left (want_turn direct) batch (vk_tables k).
Proof.
  revert k. induction batch as [|turn batch IH]; intros k; cbn; [done|].
  unfold vxlan_handle_subnet_events in IH. by rewrite IH, vxlan_event_refines.
Qed.
End Reliable.

(** *** The entries of a peer among those of others *)

Lemma drop_route_lookup m t :
  vt_routes (default t (drop_route m t)) !! msg_key m <> Some m.
Proof.
  unfold drop_route. destruct (decide _) as [|Hn]; cbn; [by rewrite lookup_delete_eq|done].
Qed.

Lemma install_has_entries p t : has_entries p (install_peer p t).
Proof.
  unfold has_entries, install_peer, arp_key, fdb_key. destruct (pe_direct_ok p); cbn;
    by rewrite ?lookup_insert_eq.
Qed.

Lemma drop_route_rest m t :
  vt_arp (default t (drop_route m t)) = vt_arp t /\ vt_fdb (default t (drop_route m t)) = vt_fdb t /\
  forall key, key <> msg_key m -> vt_routes (default t (drop_route m t)) !! key = vt_routes t !! key.
Proof.
  unfold drop_route. destruct (decide _); cbn; [|done]. split_and!; [done..|].
  intros key Hk. apply lookup_delete_ne. by apply not_eq_sym.
Qed.

Lemma uninstall_no_entries p t : no_entries p (uninstall_peer p t).
Proof.
  unfold uninstall_peer. cbv zeta.
  match goal with |- context [drop_route _ ?u] => set (t' := u) end.
  split; [apply drop_route_lookup|]. intros Hd.
  destruct (drop_route_rest (pe_route p) t') as (-> & -> & _). subst t'. rewrite Hd. cbn.
  split; [apply lookup_delete_eq|]. destruct (decide _); [by rewrite lookup_delete_eq|done].
Qed.

(** A change for one peer keeps the keys of a disjoint one. *)
Definition agree (p : Peer) (t t' : VxlanTables) : Prop :=
  vt_routes t' !! msg_key (pe_route p) = vt_routes t !! msg_key (pe_route p) /\
  vt_arp t' !! arp_key p = vt_arp t !! arp_key p /\
  vt_fdb t' !! fdb_key p = vt_fdb t !! fdb_key p.

Lemma install_agree p q t : disjoint_peers p q -> agree p t (install_peer q t).
Proof.
  intros (Ha & Hf & Hr). unfold agree, install_peer. unfold arp_key, fdb_key in Ha, Hf |- *.
  destruct (pe_direct_ok q); cbn; rewrite ?lookup_insert_ne; done || by apply not_eq_sym.
Qed.

Lemma uninstall_agree p q t : disjoint_peers p q -> agree p t (uninstall_peer q t).
Proof.
  intros (Ha & Hf & Hr). unfold agree, uninstall_peer. cbv zeta.
  match goal with |- context [drop_route _ ?u] => set (t' := u) end.
  destruct (drop_route_rest (pe_route q) t') as (-> & -> & ->); [|done]. subst t'.
  destruct (pe_direct_ok q); cbn; [done|]. rewrite lookup_delete_ne by by apply not_eq_sym.
  destruct (decide _); [|done]. by rewrite lookup_delete_ne by by apply not_eq_sym.
Qed.

Lemma agree_trans p t1 t2 t3 : agree p t1 t2 -> agree p t2 t3 -> agree p t1 t3.
Proof. unfold agree. intuition congruence. Qed.

Lemma want_turn_agree `{VxlanJson} direct p turn t :
  Forall (disjoint_peers p) (turn_peers direct turn) -> agree p t (want_turn direct t turn).
Proof.
  unfold want_turn. intros Hf. revert t. induction Hf as [|q ps Hq _ IH]; intros t; cbn; [done|].
  eapply agree_trans, IH. destruct (ev_type turn.2); [by apply install_agree|by apply uninstall_agree].
Qed.

Lemma want_turns_agree `{VxlanJson} direct p turns t :
  Forall (fun turn => Forall (disjoint_peers p) (turn_peers direct turn)) turns ->
  agree p t (fold_left (want_turn direct) turns t).
Proof.
  intros Hf. revert t. induction Hf as [|turn turns Ht _ IH]; intros t; cbn; [done|].
  eapply agree_trans, IH. by apply want_turn_agree.
Qed.

Lemma agree_entries p t t' :
  agree p t t' ->
  (has_entries p t -> has_entries p t') /\ (no_entries p t -> no_entries p t').
Proof. unfold agree, has_entries, no_entries. intros (-> & -> & ->). done. Qed.

(** What a clean failure leaves of a peer that had no neighbour entry *)
Lemma clean_new_peer p t t' :
  same_but p t t' -> t' = t \/ vt_arp t' !! arp_key p = None /\ (vt_fdb t' = vt_fdb t \/ vt_fdb t' !! fdb_key p = None) ->
  vt_arp t !! arp_key p = None -> vt_fdb t !! fdb_key p = None -> t' = t.
Proof.
  intros (Hr & Ha & Hf) [->|[Hna Hnf]] Ka Kf; [done|].
  assert (vt_arp t' = vt_arp t) as Hea.
  { apply map_eq. intros key. destruct (decide (key = arp_key p)) as [->|]; [congruence|by apply Ha]. }
  assert (vt_fdb t' = vt_fdb t) as Hef.
  { destruct Hnf as [?|Hnf]; [done|]. apply map_eq. intros key. destruct (decide (key = fdb_key p)) as [->|]; [congruence|by apply Hf]. }
  destruct t, t'. cbn in *. congruence.
Qed.

(** ** Properties *)

(** C14: adding a new peer is all or nothing.  Whatever requests the kernel
    refuses and whenever the token is cancelled, an addition that goes through
    leaves exactly the peer's entries added, and one that does not leaves the
    route table and the neighbour entries of all other peers as they were.
    The peer's own neighbour entries after a failure are told only for a
    kernel that deletes existing entries on request (without it the clean-up
    itself may fail): a peer that had no ARP and no FDB entry before has none
    left, so nothing has changed at all; a peer that was known loses its ARP
    entry or keeps all its entries, and its FDB entry is either as it was or
    gone too.  For a known peer this is not all or nothing: its route, if it
    had one, stays while the neighbour entries are gone
    ([vxlan_readd_blackhole]). *)
Theorem vxlan_added_all_or_nothing `{VxlanKernelLaws K} (retries : bool) (p : Peer) (k : K) :
  let '(k', ok) := add_peer retries p k in
  let t := vk_tables k in
  let t' := vk_tables k' in
  if ok then t' = install_peer p t
  else
    vt_routes t' = vt_routes t /\
    (forall key, key <> arp_key p -> vt_arp t' !! key = vt_arp t !! key) /\
    (forall key, key <> fdb_key p -> vt_fdb t' !! key = vt_fdb t !! key) /\
    ((forall m, reliable vk_tables (vk_neigh_del m) (drop_neigh m)) ->
     (vt_arp t !! arp_key p = None -> vt_fdb t !! fdb_key p = None -> t' = t) /\
     (t' = t \/ vt_arp t' !! arp_key p = None /\
                (vt_fdb t' = vt_fdb t \/ vt_fdb t' !! fdb_key p = None))).
Proof.
  destruct (pe_direct_ok p) eqn:Hd.
  - unfold add_peer, install_peer, pe_route. rewrite Hd.
    pose proof (retry_do_obeys _ _ (vk_route_replace_obeys (pe_direct_route p)) k) as Hr.
    destruct (retry_do (vk_route_replace (pe_direct_route p)) k) as [k' [[]|e]]; cbn;
      [by injection Hr|]. rewrite Hr. auto 8.
  - pose proof (add_peer_outcome p retries k Hd) as Ho. destruct (add_peer retries p k) as [k' ok].
    cbn in Ho. destruct ok.
    + inversion Ho as [| | |? E]. rewrite E. unfold install_peer, pe_route. by rewrite Hd.
    + pose proof (add_outcome_frame p _ _ _ Ho) as Hframe. pose proof Hframe as (? & ? & ?). split_and!; [done..|].
      intros Hdel. pose proof (add_outcome_clean p Hdel _ _ _ Ho) as Hclean. split; [|done].
      intros Ha Hf. by eapply clean_new_peer.
Qed.

(** The last event of a peer decides.  With a kernel that carries out
    what it can and an unchanging topology, after a batch the tables hold all
    entries of a peer whose last event is an addition and none of a peer
    whose last event is a removal, whatever happened before, as long as the
    later peers of the batch share no subnet address and no MAC with it. *)
Theorem vxlan_last_event_decides `{VxlanKernelLaws K} `{VxlanJson}
    (direct : VXLANDevice -> IpAddr -> bool) (k : K) before turn after ps p qs :
  reliable_kernel K ->
  (forall (k : K) d ip, direct_ok k d ip = direct d ip) ->
  turn_peers direct turn = ps ++ p :: qs ->
  Forall (disjoint_peers p) qs ->
  Forall (fun turn => Forall (disjoint_peers p) (turn_peers direct turn)) after ->
  let t' := vk_tables (vxlan_handle_subnet_events (before ++ turn :: after) k) in
  match ev_type turn.2 with Added => has_entries p t' | Removed => no_entries p t' end.
Proof.
  intros Hk Htop Hps Hqs Hafter. cbv zeta. rewrite (vxlan_batch_refines Hk direct Htop).
  rewrite fold_left_app. cbn [fold_left]. set (t := fold_left _ before _).
  pose proof (want_turns_agree direct p after (want_turn direct t turn) Hafter) as [Ha Hn]%agree_entries.
  unfold want_turn in Ha, Hn |- *. rewrite Hps, fold_left_app in Ha, Hn |- *. cbn [fold_left] in *.
  set (t1 := fold_left _ ps t) in *.
  destruct (ev_type turn.2); [apply Ha|apply Hn].
  - refine (proj1 (agree_entries p _ _ _) (install_has_entries p t1)). clear -Hqs.
    generalize (install_peer p t1). induction Hqs as [|q qs Hq _ IH]; intros u; cbn; [done|].
    eapply agree_trans, IH. by apply install_agree.
  - refine (proj2 (agree_entries p _ _ _) (uninstall_no_entries p t1)). clear -Hqs.
    generalize (uninstall_peer p t1). induction Hqs as [|q qs Hq _ IH]; intros u; cbn; [done|].
    eapply agree_trans, IH. by apply uninstall_agree.
Qed.

(** ** Witnesses *)

(** The tables themselves as a kernel, which may refuse all routes. *)
Definition TableKernel (refuse : bool) : Type := VxlanTables.

Definition apply_effect (effect : VxlanTables -> option VxlanTables) : Request VxlanTables :=
  fun t => match effect t with Some t' => (t', Ok ()) | None => (t, Err "No such file or directory") end.

#[global] Instance vxlan_table_kernel refuse : VxlanKernel (TableKernel refuse) := {
  vk_neigh_add i ip mac := apply_effect (fun t => Some (put_arp i ip mac t));
  vk_neigh_add_bridge i mac dst := apply_effect (fun t => Some (put_fdb i mac dst t));
  vk_neigh_del m := apply_effect (drop_neigh m);
  vk_route_replace m :=
    if refuse then fun t => (t, Err "Network is unreachable")
    else apply_effect (fun t => Some (put_route m t));
  vk_route_del m := apply_effect (drop_route m);
  vk_route_get m t := Ok [];
  vk_cancelled t := false;
}.

Lemma apply_effect_obeys effect : obeys (fun t => t) (apply_effect effect) effect.
Proof. intros t. unfold apply_effect. by destruct (effect t). Qed.

Lemma apply_effect_reliable effect : reliable (fun t => t) (apply_effect effect) effect.
Proof. intros t. unfold apply_effect. by destruct (effect t). Qed.

#[global] Program Instance vxlan_table_kernel_laws refuse : VxlanKernelLaws (TableKernel refuse) :=
  {| vk_tables := fun t => t |}.
Next Obligation. intros. apply apply_effect_obeys. Qed.
Next Obligation. intros. apply apply_effect_obeys. Qed.
Next Obligation. intros. apply apply_effect_obeys. Qed.
Next Obligation. intros []; intros m; [by intros t|apply apply_effect_obeys]. Qed.
Next Obligation. intros. apply apply_effect_obeys. Qed.

Lemma table_kernel_reliable : reliable_kernel (TableKernel false).
Proof. split; intros; apply apply_effect_reliable. Qed.

Definition vx_state : NetState := mkNetState (Some vx_dev) None 1500.

Definition vx_lease (subnet node : IP4) (mac : MacAddr) : Lease :=
  mkLease true false (mkIP4Net subnet 24) IP6Net_default
    (mkLeaseAttrs node None "vxlan" (Some ("1/" +:+ mac_to_string mac)) None) 0 0.

Definition vx_turn (t : EventType) (subnet node : IP4) (mac : MacAddr) : NetState * Event :=
  (vx_state, mkEvent t (vx_lease subnet node mac)).

Definition vx_peer : Peer :=
  mkPeer vx_dev (sample_mac 2) (V4 2560) (V4 77)
    (v4_vxlan_route 5 (mkIP4Net 2560 24)) (v4_direct_route (mkIP4Net 2560 24) 77) false.

Definition no_direct (d : VXLANDevice) (ip : IpAddr) : bool := false.

Lemma vxlan_last_event_decides_witness :
  has_entries vx_peer
    (vk_tables (vxlan_handle_subnet_events (K := TableKernel false)
       ([vx_turn Removed 2560 77 (sample_mac 2)] ++ vx_turn Added 2560 77 (sample_mac 2)
        :: [vx_turn Added 2816 78 (sample_mac 3)]) (mkVxlanTables ∅ ∅ ∅))).
Proof.
  refine (vxlan_last_event_decides (K := TableKernel false) no_direct (mkVxlanTables ∅ ∅ ∅)
            _ (vx_turn Added 2560 77 (sample_mac 2)) _ [] vx_peer [] table_kernel_reliable _ _ _ _).
  - intros k d ip. unfold direct_ok, no_direct. by destruct (vd_direct_routing d).
  - by vm_compute.
  - constructor.
  - repeat constructor; intros E; vm_compute in E; discriminate E.
Defined.

(** The kernel refuses the route: the entries written before it are gone. *)
Lemma vxlan_added_all_or_nothing_witness :
  let k := mkVxlanTables ∅ ∅ ∅ : TableKernel true in
  (add_peer false vx_peer k).2 = false /\
  vt_routes (vk_tables (add_peer false vx_peer k).1) = ∅ /\
  vk_tables (add_peer false vx_peer k).1 = k.
Proof.
  pose proof (vxlan_added_all_or_nothing (K := TableKernel true) false vx_peer (mkVxlanTables ∅ ∅ ∅)) as H.
  destruct (add_peer false vx_peer _) as [k' ok] eqn:E. cbn [fst snd].
  assert (ok = false) as -> by (vm_compute in E; by injection E as _ <-).
  cbv zeta. rewrite E. cbn [fst snd]. destruct H as (Hr & _ & _ & Hc). split_and!; [done|exact Hr|].
  by apply (Hc (fun m => apply_effect_reliable _)).
Defined.

(** Failing to add a known peer again takes the ARP entry of the first
    addition away and leaves its route. *)
Theorem vxlan_readd_blackhole :
  let k := vk_tables (vxlan_event (K := TableKernel false) (mkVxlanTables ∅ ∅ ∅)
                        (vx_turn Added 2560 77 (sample_mac 2))) in
  let k' := vk_tables (vxlan_event (K := TableKernel true) k (vx_turn Added 2560 77 (sample_mac 2))) in
  has_entries vx_peer k /\
  vt_routes k' !! msg_key (pe_route vx_peer) = Some (pe_route vx_peer) /\
  vt_arp k' !! arp_key vx_peer = None /\ vt_fdb k' !! fdb_key vx_peer = None.
Proof. split_and!; by vm_compute. Qed.
