(* ===== verification/IptRules.v ===== *)
(** * [trafficmngr/iptables_rules.rs], [iptables_restore.rs]: rules and scripts

    The masquerade and forward rules as the builders write them, the script
    handed to iptables-restore, and two readings of this text from the side
    of the tool: how it splits a script into commands, and what a list of
    rules does to a packet.  The readings cover the options that the builders
    use. *)

From S2P Require Import Prelude RustStr StdNet IpNet Ip6Net Lease.
#[local] Open Scope string_scope.
#[local] Open Scope list_scope.
#[local] Open Scope Z_scope.

(** ** Rules *)

Definition KUBE_PROXY_MARK : string := "0x4000/0x4000".

Record IPTablesRule := mkIPTablesRule {
  ir_table : string;
  ir_action : string;
  ir_chain : string;
  ir_rulespec : list string;
}.

#[global] Instance IPTablesRule_eq_dec : EqDecision IPTablesRule.
Proof. solve_decision. Defined.

Definition rule (table chain : string) (rulespec : list string) : IPTablesRule :=
  mkIPTablesRule table "-A" chain rulespec.

Definition commented (parts : list string) (comment jump : string) : list string :=
  parts ++ ["-m"; "comment"; "--comment"; comment; "-j"; jump].

Definition push_spec (r : IPTablesRule) (token : string) : IPTablesRule :=
  mkIPTablesRule (ir_table r) (ir_action r) (ir_chain r) (ir_rulespec r ++ [token]).

Definition masq_rules_with (cluster_cidr pod_cidr multicast : string)
    (ip_masq_random_fully_disable supports_random_fully : bool) : list IPTablesRule :=
  let random_fully := supports_random_fully && negb ip_masq_random_fully_disable in
  let spec parts jump := commented parts "flanneld masq" jump in
  let post parts jump := rule "nat" "FLANNEL-POSTRTG" (spec parts jump) in
  let rules :=
    [ rule "nat" "POSTROUTING" (spec [] "FLANNEL-POSTRTG");
      post ["-m"; "mark"; "--mark"; KUBE_PROXY_MARK] "RETURN";
      post ["-s"; pod_cidr; "-d"; cluster_cidr] "RETURN";
      post ["-s"; cluster_cidr; "-d"; pod_cidr] "RETURN";
      post ["!"; "-s"; cluster_cidr; "-d"; pod_cidr] "RETURN" ] in
  let nat := post ["-s"; cluster_cidr; "!"; "-d"; multicast] "MASQUERADE" in
  let nat := if random_fully then push_spec nat "--random-fully" else nat in
  let host := post ["!"; "-s"; cluster_cidr; "-d"; cluster_cidr] "MASQUERADE" in
  let host := if random_fully then push_spec host "--random-fully" else host in
  rules ++ [nat; host].

(** [masq_rules] and [masq_ip6_rules], given the answer of the probe. *)
Definition masq_rules (supports : bool) (ccidr : IP4Net) (lease : Lease) (disable : bool)
  : list IPTablesRule :=
  masq_rules_with (IP4Net_fmt ccidr) (IP4Net_fmt (l_subnet lease)) "224.0.0.0/4" disable supports.

Definition masq_ip6_rules (supports : bool) (ccidr : IP6Net) (lease : Lease) (disable : bool)
  : list IPTablesRule :=
  masq_rules_with (IP6Net_fmt ccidr) (IP6Net_fmt (l_ipv6_subnet lease)) "ff00::/8" disable supports.

Definition forward_rules (flannel_network : string) : list IPTablesRule :=
  let spec parts jump := commented parts "flanneld forward" jump in
  [ rule "filter" "FORWARD" (spec [] "FLANNEL-FWD");
    rule "filter" "FLANNEL-FWD" (spec ["-s"; flannel_network] "ACCEPT");
    rule "filter" "FLANNEL-FWD" (spec ["-d"; flannel_network] "ACCEPT") ].

(** ** Scripts *)

(** [BTreeMap<String, Vec<Vec<String>>>]: entries in the order of the keys. *)
Abbreviation IPTablesRestoreRules := (list (string * list (list string))).

(** [m.entry(table).or_default().extend(lines)] *)
Fixpoint entry_extend (table : string) (lines : list (list string)) (m : IPTablesRestoreRules)
  : IPTablesRestoreRules :=
  match m with
  | [] => [(table, lines)]
  | (t, ls) :: rest =>
      match String.compare table t with
      | Lt => (table, lines) :: m
      | Eq => (t, ls ++ lines) :: rest
      | Gt => (t, ls) :: entry_extend table lines rest
      end
  end.

Definition DQUOTE : string := String (chr 34) "".
Definition EOL : string := String NL "".

(** A token after [--comment] is quoted. *)
Definition push_token (prev : option string) (token : string) : string :=
  if bool_decide (prev = Some "--comment") then DQUOTE +:+ token +:+ DQUOTE else token.

Fixpoint push_line (prev : option string) (line_rule : list string) : string :=
  match line_rule with
  | [] => ""
  | [token] => push_token prev token +:+ EOL
  | token :: rest => push_token prev token +:+ " " +:+ push_line (Some token) rest
  end.

Definition push_table (entry : string * list (list string)) : string :=
  let '(table, rules) := entry in
  "*" +:+ table +:+ EOL +:+ String.concat "" (map (push_line None) rules) +:+ "COMMIT" +:+ EOL.

Definition build_payload (table_rules : IPTablesRestoreRules) : string :=
  String.concat "" (map push_table table_rules).

(** ** The tool's reading of a script *)

(** Words of a command line: spaces separate, double quotes protect. *)
Fixpoint words (quoted : bool) (cur : option string) (s : string) : list string :=
  match s with
  | "" => option_list cur
  | String c s =>
      if Ascii.eqb c (chr 34) then words (negb quoted) (Some (default "" cur)) s
      else if Ascii.eqb c " " && negb quoted then option_list cur ++ words quoted None s
      else words quoted (Some (default "" cur +:+ String c "")) s
  end.

(** Tables open with [*name] and close with [COMMIT]. *)
Fixpoint read_lines (open_table : option (string * list (list string))) (lines : list string)
  : option IPTablesRestoreRules :=
  match lines, open_table with
  | [], None => Some []
  | [], Some _ => None
  | line :: lines, None =>
      match line with
      | String c table => if Ascii.eqb c "*" then read_lines (Some (table, [])) lines else None
      | "" => None
      end
  | line :: lines, Some (table, cmds) =>
      if String.eqb line "COMMIT"
      then option_map (cons (table, cmds)) (read_lines None lines)
      else read_lines (Some (table, cmds ++ [words false None line])) lines
  end.

Definition read_payload (s : string) : option IPTablesRestoreRules := read_lines None (str_lines s).

(** ** The tool's reading of rules *)

(** What a chain does with a packet of the nat or filter table. *)
Inductive Outcome := Masqueraded | Accepted | Through.

Section Traverse.
Context {A : Type} (net_of : string -> option (A -> bool)).

Record Packet := mkPacket { pk_src : A; pk_dst : A; pk_mark : Z }.

(** [--mark value/mask] *)
Definition mark_matches (text : string) (mark : Z) : option bool :=
  match split_once "/" text with
  | Some (String "0" (String "x" v), String "0" (String "x" m)) =>
      match from_str_radix_u 32 16 v, from_str_radix_u 32 16 m with
      | Ok v, Ok m => Some (Z.land mark m =? v)
      | _, _ => None
      end
  | _ => None
  end.

(** Whether the packet meets all conditions, and the target; [None] for a
    text that this reading does not cover. *)
Fixpoint spec_matches (p : Packet) (neg : bool) (toks : list string) : option (bool * string) :=
  match toks with
  | ["-j"; target] | ["-j"; target; "--random-fully"] => Some (true, target)
  | "!" :: toks => spec_matches p true toks
  | "-s" :: cidr :: toks =>
      match net_of cidr, spec_matches p false toks with
      | Some net, Some (b, target) => Some (xorb neg (net (pk_src p)) && b, target)
      | _, _ => None
      end
  | "-d" :: cidr :: toks =>
      match net_of cidr, spec_matches p false toks with
      | Some net, Some (b, target) => Some (xorb neg (net (pk_dst p)) && b, target)
      | _, _ => None
      end
  | "--mark" :: text :: toks =>
      match mark_matches text (pk_mark p), spec_matches p false toks with
      | Some m, Some (b, target) => Some (xorb neg m && b, target)
      | _, _ => None
      end
  | "-m" :: _ :: toks => spec_matches p false toks
  | "--comment" :: _ :: toks => spec_matches p false toks
  | _ => None
  end.

(** The first matching rule decides; [RETURN] and the end of a chain go back
    to the caller.  The depth bounds the jumps. *)
Fixpoint traverse (depth : nat) (rules : list IPTablesRule) (chain : string) (p : Packet)
  : option Outcome :=
  match depth with
  | O => None
  | S depth =>
      (fix walk (todo : list IPTablesRule) : option Outcome :=
         match todo with
         | [] => Some Through
         | r :: todo =>
             if negb (String.eqb (ir_chain r) chain) then walk todo
             else
               match spec_matches p false (ir_rulespec r) with
               | None => None
               | Some (false, _) => walk todo
               | Some (true, target) =>
                   if String.eqb target "RETURN" then Some Through
                   else if String.eqb target "MASQUERADE" then Some Masqueraded
                   else if String.eqb target "ACCEPT" then Some Accepted
                   else match traverse depth rules target p with
                        | Some Through => walk todo
                        | res => res
                        end
               end
         end) rules
  end.
End Traverse.

Definition net4_of (cidr : string) : option (IP4 -> bool) :=
  option_map IP4Net_contains (result_ok (IP4Net_from_str cidr)).
Definition net6_of (cidr : string) : option (IP6 -> bool) :=
  option_map IP6Net_contains (result_ok (IP6Net_from_str cidr)).

(** ** Lemmas: what the rules do *)

Lemma kube_proxy_mark_matches mark :
  mark_matches KUBE_PROXY_MARK mark = Some (Z.land mark 16384 =? 16384).
Proof. done. Qed.

Section Masq.
Context {A : Type} (net_of : string -> option (A -> bool)).
Context (cluster_cidr pod_cidr multicast : string) (cluster pod mcast : A -> bool).
Hypothesis Hcluster : net_of cluster_cidr = Some cluster.
Hypothesis Hpod : net_of pod_cidr = Some pod.
Hypothesis Hmcast : net_of multicast = Some mcast.

(** The decision that the seven rules add up to. *)
Definition masq_outcome (p : Packet) : Outcome :=
  let marked := Z.land (pk_mark p) 16384 =? 16384 in
  let from_cluster := cluster (pk_src p) in
  if marked || pod (pk_dst p) || pod (pk_src p) && cluster (pk_dst p) then Through
  else if from_cluster && negb (mcast (pk_dst p)) || negb from_cluster && cluster (pk_dst p)
       then Masqueraded
       else Through.

Lemma masq_rules_outcome disable supports p :
  traverse net_of 2 (masq_rules_with cluster_cidr pod_cidr multicast disable supports) "POSTROUTING" p
  = Some (masq_outcome p).
Proof.
  unfold masq_rules_with, masq_outcome.
  destruct (supports && negb disable); cbn -[mark_matches KUBE_PROXY_MARK];
    rewrite kube_proxy_mark_matches, Hcluster, Hpod, Hmcast; cbn;
    destruct (Z.land (pk_mark p) 16384 =? 16384), (pod (pk_src p)), (pod (pk_dst p)),
      (cluster (pk_src p)), (cluster (pk_dst p)), (mcast (pk_dst p)); done.
Qed.
End Masq.

Lemma net4_of_fmt n : IP4Net_valid n -> net4_of (IP4Net_fmt n) = Some (IP4Net_contains (IP4Net_network n)).
Proof. intros Hn. unfold net4_of. by rewrite IP4Net_from_str_fmt. Qed.

Lemma net6_of_fmt n : IP6Net_valid n -> net6_of (IP6Net_fmt n) = Some (IP6Net_contains (IP6Net_network n)).
Proof. intros Hn. unfold net6_of. by rewrite IP6Net_from_str_fmt. Qed.

Lemma forward_rules_outcome {A} (net_of : string -> option (A -> bool)) cidr net p :
  net_of cidr = Some net ->
  traverse net_of 2 (forward_rules cidr) "FORWARD" p
  = Some (if net (pk_src p) || net (pk_dst p) then Accepted else Through).
Proof.
  intros H. cbn. rewrite H. destruct (net (pk_src p)), (net (pk_dst p)); done.
Qed.

(** ** Lemmas: reading scripts back *)

Definition word_char (c : ascii) : bool :=
  negb (Ascii.eqb c (chr 34)) && negb (Ascii.eqb c " ") && negb (Ascii.eqb c NL) && negb (Ascii.eqb c CR).
Definition comment_char (c : ascii) : bool :=
  negb (Ascii.eqb c (chr 34)) && negb (Ascii.eqb c NL) && negb (Ascii.eqb c CR).

(** Tokens that survive: no quotes and line ends, and no spaces except after
    [--comment]. *)
Definition clean_token (prev : option string) (t : string) : bool :=
  if bool_decide (prev = Some "--comment") then str_all comment_char t
  else negb (str_is_empty t) && str_all word_char t.

Fixpoint clean_tokens (prev : option string) (line : list string) : bool :=
  match line with [] => true | t :: line => clean_token prev t && clean_tokens (Some t) line end.

Definition clean_line (line : list string) : bool :=
  match line with [] => false | t :: _ => negb (String.eqb t "COMMIT") && clean_tokens None line end.

Definition clean_script (m : IPTablesRestoreRules) : bool :=
  forallb (fun e : string * list (list string) => no_eol e.1 && forallb clean_line e.2) m.

(** A line without its end. *)
Fixpoint line_text (prev : option string) (line : list string) : string :=
  match line with
  | [] => ""
  | [t] => push_token prev t
  | t :: rest => push_token prev t +:+ " " +:+ line_text (Some t) rest
  end.

Lemma push_line_text prev line : line <> [] -> push_line prev line = line_text prev line +:+ EOL.
Proof.
  revert prev. induction line as [|t line IH]; intros prev Hne; [done|].
  destruct line as [|t' line]; [done|].
  change (push_line prev (t :: t' :: line)) with (push_token prev t +:+ " " +:+ push_line (Some t) (t' :: line)).
  change (line_text prev (t :: t' :: line)) with (push_token prev t +:+ " " +:+ line_text (Some t) (t' :: line)).
  rewrite IH by done. by rewrite !string_app_assoc.
Qed.

Lemma words_plain cur t s :
  str_all word_char t = true -> t <> "" \/ is_some cur = true ->
  words false cur (t +:+ s) = words false (Some (default "" cur +:+ t)) s.
Proof.
  revert cur. induction t as [|c t IH]; intros cur Ht Hne; cbn [String.append].
  { destruct cur; [|naive_solver]. cbn. by rewrite string_app_nil_r. }
  cbn in Ht. apply andb_true_iff in Ht as [Hc Ht]. unfold word_char in Hc. bool_to_prop.
  cbn [words]. repeat match goal with H : Ascii.eqb c _ = false |- _ => rewrite H; clear H end. cbn [andb].
  rewrite IH by (done || by right). cbn. by rewrite string_app_assoc.
Qed.

Lemma words_quoted cur t s :
  str_all comment_char t = true ->
  words true (Some cur) (t +:+ s) = words true (Some (cur +:+ t)) s.
Proof.
  revert cur. induction t as [|c t IH]; intros cur Ht; cbn [String.append].
  { by rewrite string_app_nil_r. }
  cbn in Ht. apply andb_true_iff in Ht as [Hc Ht]. unfold comment_char in Hc. bool_to_prop.
  cbn [words]. repeat match goal with H : Ascii.eqb c _ = false |- _ => rewrite H; clear H end.
  rewrite andb_false_r, IH by done. cbn. by rewrite string_app_assoc.
Qed.

Lemma words_push_token prev t s :
  clean_token prev t = true -> words false None (push_token prev t +:+ s) = words false (Some t) s.
Proof.
  unfold clean_token, push_token. destruct (bool_decide _); intros Ht.
  - rewrite string_app_assoc. cbn [DQUOTE String.append words Ascii.eqb]. cbn -[words String.append].
    rewrite string_app_assoc, words_quoted by done. done.
  - bool_to_prop. rewrite words_plain; [done|done|]. left. by apply String.eqb_neq.
Qed.

Lemma words_line_text prev line :
  clean_tokens prev line = true -> words false None (line_text prev line) = line.
Proof.
  revert prev. induction line as [|t line IH]; intros prev Hl; [done|].
  cbn in Hl. apply andb_true_iff in Hl as [Ht Hl]. destruct line as [|t' line].
  - cbn [line_text]. rewrite <- (string_app_nil_r (push_token _ _)). by rewrite words_push_token.
  - change (line_text prev (t :: t' :: line)) with (push_token prev t +:+ " " +:+ line_text (Some t) (t' :: line)).
    rewrite words_push_token by done. cbn -[line_text]. by rewrite IH.
Qed.

Definition table_lines (e : string * list (list string)) : list string :=
  ("*" +:+ e.1) :: map (line_text None) e.2 ++ ["COMMIT"].

Lemma unlines_app ls ls' : unlines (ls ++ ls') = unlines ls +:+ unlines ls'.
Proof. unfold unlines. induction ls as [|l ls IH]; cbn; [done|]. by rewrite IH, string_app_assoc. Qed.

Lemma unlines_cons l ls : unlines (l :: ls) = l +:+ EOL +:+ unlines ls.
Proof. done. Qed.

Lemma concat_cons s l : String.concat "" (s :: l) = s +:+ String.concat "" l.
Proof. destruct l; cbn; [by rewrite string_app_nil_r|done]. Qed.

Lemma push_lines_unlines rules :
  forallb clean_line rules = true ->
  String.concat "" (map (push_line None) rules) = unlines (map (line_text None) rules).
Proof.
  induction rules as [|l rules IH]; intros Hc; [done|]. cbn in Hc. apply andb_true_iff in Hc as [Hl Hc].
  cbn [map]. rewrite concat_cons, IH by done. rewrite push_line_text by (by intros ->).
  by rewrite string_app_assoc.
Qed.

Lemma build_payload_unlines m :
  clean_script m = true -> build_payload m = unlines (flat_map table_lines m).
Proof.
  unfold build_payload. induction m as [|[t rules] m IH]; intros Hc; [done|].
  cbn in Hc. apply andb_true_iff in Hc as [[_ Hr]%andb_true_iff Hc].
  cbn [map flat_map]. rewrite concat_cons, IH by done. unfold push_table.
  rewrite push_lines_unlines, unlines_app by done. 
  change (table_lines (t, rules)) with (("*" +:+ t) :: map (line_text None) rules ++ ["COMMIT"]).
  rewrite !unlines_cons, unlines_app, unlines_cons, !string_app_assoc. done.
Qed.

Lemma no_eol_app a b : no_eol (a +:+ b) = no_eol a && no_eol b.
Proof. apply str_all_app. Qed.

Lemma push_token_no_eol prev t : clean_token prev t = true -> no_eol (push_token prev t) = true.
Proof.
  unfold clean_token, push_token. destruct (bool_decide _); intros Ht.
  - rewrite !no_eol_app. apply andb_true_iff; split; [done|]. rewrite andb_true_r.
    revert Ht. apply str_all_mono. unfold comment_char. intros c Hc. bool_to_prop.
    by apply andb_true_iff; split; apply negb_true_iff.
  - bool_to_prop. revert H0. apply str_all_mono. unfold word_char. intros c Hc. bool_to_prop.
    by apply andb_true_iff; split; apply negb_true_iff.
Qed.

Lemma line_text_no_eol prev line : clean_tokens prev line = true -> no_eol (line_text prev line) = true.
Proof.
  revert prev. induction line as [|t line IH]; intros prev Hl; [done|].
  cbn in Hl. apply andb_true_iff in Hl as [Ht Hl].
  destruct line as [|t' line]; [by apply push_token_no_eol|].
  change (line_text prev (t :: t' :: line)) with (push_token prev t +:+ " " +:+ line_text (Some t) (t' :: line)).
  rewrite !no_eol_app, push_token_no_eol by done. by rewrite (IH (Some t) Hl).
Qed.

Lemma clean_line_text line :
  clean_line line = true ->
  no_eol (line_text None line) = true /\ words false None (line_text None line) = line /\
  line_text None line <> "COMMIT".
Proof.
  unfold clean_line. destruct line as [|t line]; [done|]. intros [Ht Hl]%andb_true_iff.
  pose proof (words_line_text None _ Hl) as Hw. split_and!; [by apply line_text_no_eol|done|].
  intros E. rewrite E in Hw. change (["COMMIT"] = t :: line) in Hw. by simplify_eq.
Qed.

Lemma table_lines_no_eol m :
  clean_script m = true -> Forall (fun l => no_eol l = true) (flat_map table_lines m).
Proof.
  induction m as [|[t rules] m IH]; intros Hc; [constructor|].
  cbn in Hc. apply andb_true_iff in Hc as [[Ht Hr]%andb_true_iff Hc].
  cbn [flat_map]. apply Forall_app; split; [|by apply IH]. constructor; [done|].
  apply Forall_app; split; [|by repeat constructor]. apply Forall_map, Forall_forall.
  intros l Hl. rewrite forallb_forall in Hr. by apply clean_line_text, Hr.
Qed.

Lemma read_table_lines t cmds rules rest :
  forallb clean_line rules = true ->
  read_lines (Some (t, cmds)) (map (line_text None) rules ++ "COMMIT" :: rest)
  = option_map (cons (t, cmds ++ rules)) (read_lines None rest).
Proof.
  revert cmds. induction rules as [|l rules IH]; intros cmds Hc.
  { cbn. by rewrite app_nil_r. }
  cbn in Hc. apply andb_true_iff in Hc as [(_ & Hw & Hne)%clean_line_text Hc].
  cbn [map app read_lines]. apply String.eqb_neq in Hne. rewrite Hne, Hw, IH by done.
  by rewrite <- app_assoc.
Qed.

Lemma read_payload_build m : clean_script m = true -> read_payload (build_payload m) = Some m.
Proof.
  intros Hc. unfold read_payload. rewrite build_payload_unlines by done.
  rewrite str_lines_unlines by (by apply table_lines_no_eol).
  induction m as [|[t rules] m IH]; [done|].
  cbn in Hc. apply andb_true_iff in Hc as [[_ Hr]%andb_true_iff Hc].
  cbn [flat_map].
  change (table_lines (t, rules)) with (("*" +:+ t) :: map (line_text None) rules ++ ["COMMIT"]).
  cbn [app read_lines String.append Ascii.eqb Bool.eqb].
  rewrite <- app_assoc. cbn [app]. rewrite read_table_lines by done. rewrite IH by done. done.
Qed.

Lemma net4_multicast :
  net4_of "224.0.0.0/4" = Some (IP4Net_contains (mkIP4Net (IP4_from_octets 224 0 0 0) 4)).
Proof.
  unfold net4_of.
  assert (IP4Net_from_str "224.0.0.0/4" = Ok (mkIP4Net (IP4_from_octets 224 0 0 0) 4)) as -> by by vm_compute.
  done.
Qed.

Lemma net6_multicast :
  net6_of "ff00::/8" = Some (IP6Net_contains (mkIP6Net (ip6_from_value (255 * 2 ^ 120)) 8)).
Proof.
  unfold net6_of.
  assert (IP6Net_from_str "ff00::/8" = Ok (mkIP6Net (ip6_from_value (255 * 2 ^ 120)) 8)) as -> by by vm_compute.
  done.
Qed.

(** 10.64.0.0/16 as the cluster, 10.64.1.0/24 as the pods of the node. *)
Definition prev_lease_sample : Lease :=
  mkLease true false (mkIP4Net 171966720 24) IP6Net_default LeaseAttrs_default 0 0.

(** ** Properties *)

(** C16: the masquerade rules do what they are for.  A packet that leaves
    through POSTROUTING is masqueraded exactly when it is not marked by
    kube-proxy, not for a pod of this node, not from a pod of this node to the
    cluster, and either from the cluster to an address that is not multicast
    or from outside into the cluster; in both families, whatever the probe of
    the binary said. *)
Theorem masq_rules_decide (disable supports : bool) (network : IP4Net) (v6_network : IP6Net) (lease : Lease)
    (p : @Packet IP4) (p6 : @Packet IP6) :
  IP4Net_valid network -> IP4Net_valid (l_subnet lease) ->
  IP6Net_valid v6_network -> IP6Net_valid (l_ipv6_subnet lease) ->
  traverse net4_of 2 (masq_rules supports network lease disable) "POSTROUTING" p
  = Some (masq_outcome (IP4Net_contains (IP4Net_network network))
            (IP4Net_contains (IP4Net_network (l_subnet lease)))
            (IP4Net_contains (mkIP4Net (IP4_from_octets 224 0 0 0) 4)) p) /\
  traverse net6_of 2 (masq_ip6_rules supports v6_network lease disable) "POSTROUTING" p6
  = Some (masq_outcome (IP6Net_contains (IP6Net_network v6_network))
            (IP6Net_contains (IP6Net_network (l_ipv6_subnet lease)))
            (IP6Net_contains (mkIP6Net (ip6_from_value (255 * 2 ^ 120)) 8)) p6).
Proof.
  intros Hn Hs Hn6 Hs6. split.
  - apply masq_rules_outcome; [by apply net4_of_fmt..|apply net4_multicast].
  - apply masq_rules_outcome; [by apply net6_of_fmt..|apply net6_multicast].
Qed.

Lemma masq_rules_decide_witness :
  let lease := prev_lease_sample in
  traverse net4_of 2 (masq_rules true (mkIP4Net 171966464 16) lease false) "POSTROUTING"
    (mkPacket 171966722 134744072 0) = Some Masqueraded /\
  traverse net4_of 2 (masq_rules true (mkIP4Net 171966464 16) lease false) "POSTROUTING"
    (mkPacket 171966722 171967234 0) = Some Through.
Proof.
  assert (IP4Net_valid (mkIP4Net 171966464 16)) as H1 by (split; [by vm_compute|cbn; lia]).
  assert (IP4Net_valid (mkIP4Net 171966720 24)) as H2 by (split; [by vm_compute|cbn; lia]).
  assert (IP6Net_valid IP6Net_default) as H3 by (apply (bool_decide_unpack _); by vm_compute).
  split.
  - exact (proj1 (masq_rules_decide false true (mkIP4Net 171966464 16) IP6Net_default prev_lease_sample
             (mkPacket 171966722 134744072 0) (mkPacket IP6_zero IP6_zero 0) H1 H2 H3 H3)).
  - exact (proj1 (masq_rules_decide false true (mkIP4Net 171966464 16) IP6Net_default prev_lease_sample
             (mkPacket 171966722 171967234 0) (mkPacket IP6_zero IP6_zero 0) H1 H2 H3 H3)).
Defined.

(** The script says what was meant: for tokens without quotes and line
    ends, and without spaces outside comments, iptables-restore reads from
    the text of [build_payload] exactly the tables, commands and arguments it
    was built from. *)
Theorem restore_script_round_trip m :
  clean_script m = true -> read_payload (build_payload m) = Some m.
Proof. apply read_payload_build. Qed.

Lemma restore_script_round_trip_witness :
  let lines := map (fun r => "-A" :: ir_chain r :: ir_rulespec r) (masq_rules_with "10.64.0.0/16" "10.64.1.0/24" "224.0.0.0/4" false true) in
  read_payload (build_payload [("filter", []); ("nat", lines)]) = Some [("filter", []); ("nat", lines)].
Proof. apply restore_script_round_trip. by vm_compute. Defined.
