(* ===== verification/Iptables.v ===== *)
(** * [trafficmngr/ipt.rs], [ip_tables.rs], [iptables.rs]: the iptables manager

    The wrapper around the iptables binaries, the transactions that put rules
    in place through iptables-restore, and the manager that uses them.  The
    file system and the processes are the interface [IptSystem]; what the
    iptables tools do with their chains is stated by [IptLaws]. *)

From S2P Require Import Prelude RustStr IpNet Ip6Net Lease IptRules.
#[local] Open Scope string_scope.
#[local] Open Scope list_scope.
#[local] Open Scope Z_scope.

(** ** The wrapper *)

Inductive Protocol := IPv4 | IPv6.

#[global] Instance Protocol_eq_dec : EqDecision Protocol.
Proof. solve_decision. Defined.
#[global] Program Instance Protocol_countable : Countable Protocol :=
  inj_countable' (fun p => match p with IPv4 => true | IPv6 => false end)
    (fun b : bool => if b then IPv4 else IPv6) _.
Next Obligation. by intros []. Qed.

Definition proto_cmd (proto : Protocol) : string :=
  match proto with IPv4 => "iptables" | IPv6 => "ip6tables" end.

(** An error of the wrapper: [IptCmd] carries what iptables wrote to stderr
    ([IPTablesError]), [IptOther] any other failure. *)
Inductive IptError := IptCmd (msg : string) | IptOther (msg : string).

Definition IptError_fmt (e : IptError) : string :=
  match e with IptCmd msg => trim_end msg | IptOther msg => msg end.

(** [s.contains(pat)] *)
Fixpoint str_has (pat s : string) : bool :=
  String.prefix pat s || match s with "" => false | String _ s => str_has pat s end.

Definition is_not_exist (msg : string) : bool :=
  str_has "does a matching rule exist in that chain?" msg
  || str_has "No chain/target/match by that name" msg.

Definition is_exist (msg : string) : bool := str_has "Chain already exists" msg.

(** How a process ended: exit status zero with its stdout, another status
    with its stderr, or it could not be run. *)
Inductive Ran := Exited (stdout : string) | Failed (stderr : string) | NotRun (e : string).

(** The search path, the executables and the processes. *)
Class IptSystem (K : Type) := {
  sys_path : K -> option (list string);
  sys_executable : K -> string -> bool;
  sys_run : string -> list string -> string -> K -> K * Ran;
}.

(** [dir.join(cmd)] *)
Definition path_join (dir cmd : string) : string :=
  if str_is_empty dir then cmd
  else if str_ends_with "/" dir then dir +:+ cmd
  else dir +:+ "/" +:+ cmd.

(** The first [v<digits>.<digits>.<digits>] of a text. *)
Definition is_ascii_digit (c : ascii) : bool := (48 <=? ord c) && (ord c <=? 57).

Fixpoint take_digits (s : string) : string * string :=
  match s with
  | "" => ("", "")
  | String c s' =>
      if is_ascii_digit c then let '(ds, rest) := take_digits s' in (String c ds, rest) else ("", s)
  end.

Definition some_digits (s : string) : option (string * string) :=
  let '(ds, rest) := take_digits s in if str_is_empty ds then None else Some (ds, rest).

Definition version_at (s : string) : option (string * string * string) :=
  match some_digits s with
  | Some (a, String "." s) =>
      match some_digits s with
      | Some (b, String "." s) =>
          match some_digits s with Some (c, _) => Some (a, b, c) | None => None end
      | _ => None
      end
  | _ => None
  end.

Fixpoint find_version (s : string) : option (string * string * string) :=
  match s with
  | "" => None
  | String c s =>
      if Ascii.eqb c "v" then
        match version_at s with Some v => Some v | None => find_version s end
      else find_version s
  end.

Definition Version : Type := Z * Z * Z.

Definition parse_version (s : string) : result Version IptError :=
  let? (a, b, c) := ok_or (find_version s) (IptOther ("no iptables version found in string: " +:+ s)) in
  let num t := map_err (fun _ => IptOther "number too large to fit in target type") (parse_u32 t) in
  let? a := num a in
  let? b := num b in
  let? c := num c in
  Ok (a, b, c).

(** [v >= w], the order of tuples *)
Definition version_ge (v w : Version) : bool :=
  let '(a, b, c) := v in
  let '(x, y, z) := w in
  (x <? a) || (a =? x) && ((y <? b) || (b =? y) && (z <=? c)).

Definition has_wait_support (v : Version) : bool := version_ge v (1, 6, 0).
Definition has_random_fully_support (v : Version) : bool := version_ge v (1, 6, 2).
Definition ip_tables_has_wait_support (v : Version) : bool := version_ge v (1, 6, 2).

Definition restore_command (proto : Protocol) : string :=
  match proto with IPv6 => "ip6tables-restore" | IPv4 => "iptables-restore" end.

Record IPTables := mkIPTables {
  it_path : string;
  it_has_wait : bool;
  it_has_random_fully : bool;
}.

Record IPTablesRestore := mkIPTablesRestore { itr_path : string; itr_has_wait : bool }.

Definition table_chain (table flag chain : string) : list string := ["-t"; table; flag; chain].

Section Wrapper.
Context `{IptSystem K}.
#[local] Abbreviation IO := (io K IptError).

Definition look_path (k : K) (cmd : string) : option string :=
  if str_contains "/" cmd then (if sys_executable k cmd then Some cmd else None)
  else
    match sys_path k with
    | None => None
    | Some dirs => List.find (sys_executable k) (map (fun dir => path_join dir cmd) dirs)
    end.

(** [Command::new(path).args(args).output()] *)
Definition command (path : string) (args : list string) (stdin : string) : IO Ran :=
  fun k => let '(k, ran) := sys_run path args stdin k in (k, Ok ran).

Definition IPTables_new (proto : Protocol) : IO IPTables :=
  let cmd := proto_cmd proto in
  let! k := io_get in
  let! path := io_lift (ok_or (look_path k cmd) (IptOther ("iptables binary was not found: " +:+ cmd))) in
  let! out := command path ["--version"] "" in
  match out with
  | NotRun e => io_err (IptOther ("unable to find iptables version: " +:+ cmd))
  | Failed _ => io_err (IptOther ("unable to find iptables version: " +:+ cmd +:+ " exited"))
  | Exited version =>
      let! v := io_lift (parse_version version) in
      io_ret (mkIPTables path (has_wait_support v) (has_random_fully_support v))
  end.

Definition ipt_run (ipt : IPTables) (args : list string) : IO string :=
  let full := (if it_has_wait ipt then ["-w"] else []) ++ args in
  let! out := command (it_path ipt) full "" in
  match out with
  | NotRun e => io_err (IptOther ("failed to run " +:+ it_path ipt))
  | Failed stderr => io_err (IptCmd stderr)
  | Exited stdout => io_ret stdout
  end.

Definition ipt_exists (ipt : IPTables) (table chain : string) (rulespec : list string) : IO bool :=
  let! r := io_try (ipt_run ipt (table_chain table "-C" chain ++ rulespec)) in
  match r with
  | Ok _ => io_ret true
  | Err (IptCmd msg) => if is_not_exist msg then io_ret false else io_err (IptCmd msg)
  | Err e => io_err e
  end.

Definition ipt_new_chain (ipt : IPTables) (table chain : string) : IO unit :=
  let! _ := ipt_run ipt (table_chain table "-N" chain) in io_ret ().

Definition ipt_clear_chain (ipt : IPTables) (table chain : string) : IO unit :=
  let! r := io_try (ipt_new_chain ipt table chain) in
  match r with
  | Ok _ => io_ret ()
  | Err (IptCmd msg) =>
      if is_exist msg then let! _ := ipt_run ipt (table_chain table "-F" chain) in io_ret ()
      else io_err (IptCmd msg)
  | Err e => io_err e
  end.

Definition ipt_chain_exists (ipt : IPTables) (table chain : string) : IO bool :=
  let! r := io_try (ipt_run ipt (table_chain table "-nL" chain)) in
  match r with
  | Ok _ => io_ret true
  | Err (IptCmd msg) =>
      if is_not_exist msg || str_has "is incompatible, use 'nft' tool" msg then io_ret false
      else io_err (IptCmd msg)
  | Err e => io_err e
  end.

Definition ipt_delete (ipt : IPTables) (table chain : string) (rulespec : list string) : IO unit :=
  let! _ := ipt_run ipt (table_chain table "-D" chain ++ rulespec) in io_ret ().

Definition ipt_clear_and_delete_chain (ipt : IPTables) (table chain : string) : IO unit :=
  let! exists_ := ipt_chain_exists ipt table chain in
  if negb exists_ then io_ret ()
  else
    let! _ := ipt_run ipt (table_chain table "-F" chain) in
    let! _ := ipt_run ipt (table_chain table "-X" chain) in
    io_ret ().

(** [version_string] *)
Definition restore_version_string (path : string) : IO string :=
  let! out := command path ["--version"] "" in
  match out with
  | NotRun e => io_err (IptOther ("unable to find iptables-restore version: " +:+ e))
  | Failed _ => io_err (IptOther "unable to find iptables-restore version: exit status")
  | Exited stdout => io_ret stdout
  end.

Definition IPTablesRestore_new (proto : Protocol) : IO IPTablesRestore :=
  let cmd := restore_command proto in
  let! k := io_get in
  let! path := io_lift (ok_or (look_path k cmd) (IptOther (cmd +:+ " binary was not found"))) in
  let ipt_cmd := proto_cmd proto in
  let! ipt_path := io_lift (ok_or (look_path k ipt_cmd) (IptOther (ipt_cmd +:+ " binary was not found"))) in
  let! version := restore_version_string ipt_path in
  let! v := io_map_err (fun _ => IptOther ("no iptables-restore version found in string: " +:+ version))
              (io_lift (parse_version version)) in
  io_ret (mkIPTablesRestore path (ip_tables_has_wait_support v)).

Definition apply_without_flush (iptr : IPTablesRestore) (rules : IPTablesRestoreRules) : IO unit :=
  let payload := build_payload rules in
  let args := "--noflush" :: (if itr_has_wait iptr then ["--wait"] else []) in
  let! out := command (itr_path iptr) args payload in
  match out with
  | NotRun e => io_err (IptOther ("failed to run " +:+ itr_path iptr))
  | Failed stderr => io_err (IptOther ("unable to run iptables-restore: " +:+ stderr))
  | Exited _ => io_ret ()
  end.

(** ** Transactions ([ip_tables.rs]) *)

Definition iptables_family (proto : Protocol) : string :=
  match proto with IPv4 => "IPTables" | IPv6 => "IP6Tables" end.

Definition flannel_chain (r : IPTablesRule) : option string :=
  let last := list.last (ir_rulespec r) in
  if String.eqb (ir_chain r) "FLANNEL-FWD" || bool_decide (last = Some "FLANNEL-FWD")
  then Some "FLANNEL-FWD"
  else if String.eqb (ir_chain r) "FLANNEL-POSTRTG" || bool_decide (last = Some "FLANNEL-POSTRTG")
  then Some "FLANNEL-POSTRTG"
  else None.

Definition with_prefix (op chain : string) (rulespec : list string) : list string :=
  op :: chain :: rulespec.

Definition check_err (e : IptError) : IptError :=
  IptOther ("failed to check rule existence: " +:+ IptError_fmt e).

Definition flannel_chain_exists (ipt : IPTables) (r : IPTablesRule) : IO bool :=
  match flannel_chain r with
  | Some chain => io_map_err check_err (ipt_chain_exists ipt (ir_table r) chain)
  | None => io_ret true
  end.

Fixpoint ip_tables_rules_exist (ipt : IPTables) (rules : list IPTablesRule) : IO bool :=
  match rules with
  | [] => io_ret true
  | r :: rules =>
      let! there := flannel_chain_exists ipt r in
      if negb there then io_ret false
      else
        let! found := io_map_err check_err (ipt_exists ipt (ir_table r) (ir_chain r) (ir_rulespec r)) in
        if found then ip_tables_rules_exist ipt rules else io_ret false
  end.

(** The loop of [ip_tables_clean_and_build], from the entries so far. *)
Fixpoint clean_and_build (ipt : IPTables) (rules : list IPTablesRule) (tables_rules : IPTablesRestoreRules)
  : IO IPTablesRestoreRules :=
  match rules with
  | [] => io_ret tables_rules
  | r :: rules =>
      let! _ :=
        match flannel_chain r with
        | Some chain =>
            let! there := flannel_chain_exists ipt r in
            if negb there then
              io_map_err (fun e => IptOther ("failed to create rule chain: " +:+ IptError_fmt e))
                (ipt_clear_chain ipt (ir_table r) chain)
            else io_ret ()
        | None => io_ret ()
        end in
      let! found := io_map_err check_err (ipt_exists ipt (ir_table r) (ir_chain r) (ir_rulespec r)) in
      let lines :=
        (if found then [with_prefix "-D" (ir_chain r) (ir_rulespec r)] else [])
        ++ [with_prefix (ir_action r) (ir_chain r) (ir_rulespec r)] in
      clean_and_build ipt rules (entry_extend (ir_table r) lines tables_rules)
  end.

Definition ip_tables_clean_and_build (ipt : IPTables) (rules : list IPTablesRule)
  : IO IPTablesRestoreRules := clean_and_build ipt rules [].

Definition ip_tables_bootstrap (ipt : IPTables) (ipt_restore : IPTablesRestore) (rules : list IPTablesRule)
  : IO unit :=
  let! tables_rules :=
    io_map_err (fun e => IptOther ("failed to setup iptables-restore payload: " +:+ IptError_fmt e))
      (ip_tables_clean_and_build ipt rules) in
  io_map_err (fun e => IptOther ("failed to apply partial iptables-restore " +:+ IptError_fmt e))
    (apply_without_flush ipt_restore tables_rules).

Definition ensure_iptables (ipt : IPTables) (ipt_restore : IPTablesRestore) (rules : list IPTablesRule)
  : IO unit :=
  let! found := io_map_err (fun e => IptOther ("error checking rule existence: " +:+ IptError_fmt e))
                  (ip_tables_rules_exist ipt rules) in
  if found then io_ret ()
  else io_map_err (fun e => IptOther ("error setting up rules: " +:+ IptError_fmt e))
         (ip_tables_bootstrap ipt ipt_restore rules).

(** The loop of [teardown_ip_tables]. *)
Fixpoint build_teardown (ipt : IPTables) (rules : list IPTablesRule) (tables_rules : IPTablesRestoreRules)
  : IO IPTablesRestoreRules :=
  match rules with
  | [] => io_ret tables_rules
  | r :: rules =>
      let! there := flannel_chain_exists ipt r in
      if negb there then build_teardown ipt rules tables_rules
      else
        let! found := io_map_err check_err (ipt_exists ipt (ir_table r) (ir_chain r) (ir_rulespec r)) in
        build_teardown ipt rules
          (if found
           then entry_extend (ir_table r) [with_prefix "-D" (ir_chain r) (ir_rulespec r)] tables_rules
           else tables_rules)
  end.

Definition teardown_ip_tables (ipt : IPTables) (iptr : IPTablesRestore) (rules : list IPTablesRule)
  : IO unit :=
  let! tables_rules := build_teardown ipt rules [] in
  io_map_err (fun e => IptOther ("unable to teardown iptables: " +:+ IptError_fmt e))
    (apply_without_flush iptr tables_rules).

Definition delete_tables (proto : Protocol) (rules : list IPTablesRule) : IO unit :=
  let! ipt := IPTables_new proto in
  let! iptr := IPTablesRestore_new proto in
  teardown_ip_tables ipt iptr rules.

(** Errors are logged: only the state is left. *)
Definition create_chain (proto : Protocol) (table chain : string) (k : K) : K :=
  ((let! ipt := IPTables_new proto in ipt_clear_chain ipt table chain) k).1.

Definition clean_up_chains (proto : Protocol) : IO unit :=
  let binary := match proto with IPv4 => "iptables" | IPv6 => "ip6tables" end in
  let! ipt := io_map_err (fun e => IptOther ("failed to setup IPTables. " +:+ binary
                                       +:+ " binary was not found: " +:+ IptError_fmt e))
                (IPTables_new proto) in
  let! _ := io_try (ipt_clear_and_delete_chain ipt "nat" "FLANNEL-POSTRTG") in
  let! _ := io_try (E := IptError) (ipt_clear_and_delete_chain ipt "nat" "FLANNEL-FWD") in
  io_ret ().

(** ** The manager *)

(** What [spawn_resync] runs every [rt_period] seconds until the token is
    cancelled. *)
Record ResyncTask := mkResyncTask {
  rt_ipt : IPTables;
  rt_restore : IPTablesRestore;
  rt_rules : list IPTablesRule;
  rt_period : Z;
}.

Definition spawn_resync (ipt : IPTables) (iptr : IPTablesRestore) (rules : list IPTablesRule)
    (resync_seconds : Z) : ResyncTask :=
  mkResyncTask ipt iptr rules (Z.max resync_seconds 1).

(** One firing of its timer. *)
Definition resync_round (t : ResyncTask) (k : K) : K :=
  (ensure_iptables (rt_ipt t) (rt_restore t) (rt_rules t) k).1.

Record IPTablesManager := mkIPTablesManager {
  im_ipv4_rules : list IPTablesRule;
  im_ipv6_rules : list IPTablesRule;
  im_tasks : list ResyncTask;
}.

Definition manager_extend (proto : Protocol) (rules : list IPTablesRule) (task : ResyncTask)
    (m : IPTablesManager) : IPTablesManager :=
  match proto with
  | IPv4 => mkIPTablesManager (im_ipv4_rules m ++ rules) (im_ipv6_rules m) (im_tasks m ++ [task])
  | IPv6 => mkIPTablesManager (im_ipv4_rules m) (im_ipv6_rules m ++ rules) (im_tasks m ++ [task])
  end.

Definition setup_and_ensure (proto : Protocol) (rules : list IPTablesRule) (resync_seconds : Z)
    (m : IPTablesManager) (k : K) : K * IPTablesManager :=
  match IPTables_new proto k with
  | (k, Err _) => (k, m)
  | (k, Ok ipt) =>
      match IPTablesRestore_new proto k with
      | (k, Err _) => (k, m)
      | (k, Ok iptr) =>
          let k := (ip_tables_bootstrap ipt iptr rules k).1 in
          (k, manager_extend proto rules (spawn_resync ipt iptr rules resync_seconds) m)
      end
  end.

(** [supports_random_fully]: the probe, [false] when it fails. *)
Definition supports_random_fully (proto : Protocol) (k : K) : K * bool :=
  match IPTables_new proto k with
  | (k, Ok ipt) => (k, it_has_random_fully ipt)
  | (k, Err _) => (k, false)
  end.

Definition iptables_init (m : IPTablesManager) : IPTablesManager :=
  mkIPTablesManager [] [] (im_tasks m).

Definition iptables_clean_up : IO unit :=
  let! _ := clean_up_chains IPv4 in
  let! _ := clean_up_chains IPv6 in
  io_ret ().

Definition prev_lease (subnet : IP4Net) (ipv6_subnet : IP6Net) : Lease :=
  mkLease false false subnet ipv6_subnet LeaseAttrs_default 0 0.

(** One family of [setup_and_ensure_masq_rules]: [masq supports] and
    [old_masq supports] are its rules for the current and the previous
    network, given the answer of the probe. *)
Definition setup_masq_family (proto : Protocol) (changed : bool)
    (old_masq masq : bool -> list IPTablesRule) (resync_seconds : Z) (m : IPTablesManager) (k : K)
  : K * IPTablesManager * result unit IptError :=
  let '(k, deleted) :=
    if changed then
      let '(k, supports) := supports_random_fully proto k in
      delete_tables proto (old_masq supports) k
    else (k, Ok ()) in
  match deleted with
  | Err e => (k, m, Err e)
  | Ok _ =>
      let k := create_chain proto "nat" "FLANNEL-POSTRTG" k in
      let '(k, supports) := supports_random_fully proto k in
      (setup_and_ensure proto (masq supports) resync_seconds m k, Ok ())
  end.

Definition setup_and_ensure_masq_rules (network prev_subnet prev_network : IP4Net)
    (v6_network prev_v6_subnet prev_v6_network : IP6Net) (lease : Lease) (resync_seconds : Z)
    (random_fully_disabled : bool) (m : IPTablesManager) (k : K)
  : K * IPTablesManager * result unit IptError :=
  let '(k, m, res) :=
    if negb (IP4Net_empty network) then
      setup_masq_family IPv4
        (bool_decide (network <> prev_network) || bool_decide (prev_subnet <> l_subnet lease))
        (fun s => masq_rules s prev_network (prev_lease prev_subnet IP6Net_default) random_fully_disabled)
        (fun s => masq_rules s network lease random_fully_disabled) resync_seconds m k
    else (k, m, Ok ()) in
  match res with
  | Err e => (k, m, Err e)
  | Ok _ =>
      if negb (IP6Net_empty v6_network) then
        setup_masq_family IPv6
          (bool_decide (v6_network <> prev_v6_network)
           || bool_decide (prev_v6_subnet <> l_ipv6_subnet lease))
          (fun s => masq_ip6_rules s prev_v6_network (prev_lease IP4Net_default prev_v6_subnet)
                      random_fully_disabled)
          (fun s => masq_ip6_rules s v6_network lease random_fully_disabled) resync_seconds m k
      else (k, m, Ok ())
  end.

Definition setup_and_ensure_forward_rules (network : IP4Net) (v6_network : IP6Net) (resync_seconds : Z)
    (m : IPTablesManager) (k : K) : K * IPTablesManager :=
  let '(k, m) :=
    if negb (IP4Net_empty network) then
      setup_and_ensure IPv4 (forward_rules (IP4Net_fmt network)) resync_seconds m
        (create_chain IPv4 "filter" "FLANNEL-FWD" k)
    else (k, m) in
  if negb (IP6Net_empty v6_network) then
    setup_and_ensure IPv6 (forward_rules (IP6Net_fmt v6_network)) resync_seconds m
      (create_chain IPv6 "filter" "FLANNEL-FWD" k)
  else (k, m).
End Wrapper.
