(* ===== verification/IptTools.v ===== *)
(** * The iptables tools as the transactions use them

    Chains of rules per protocol and table, the answers of the iptables
    commands, and iptables-restore as the execution of the script it reads,
    with the laws [IptLaws] of working tools; and what a bootstrap and a
    teardown of rules do to the chains under these laws. *)

From S2P Require Import Prelude RustStr StdNet IpNet Ip6Net Lease IptRules Iptables.
#[local] Open Scope string_scope.
#[local] Open Scope list_scope.
#[local] Open Scope Z_scope.

(** ** The tools *)

Abbreviation ChainKey := (Protocol * string * string)%type.
Abbreviation Chains := (gmap ChainKey (list (list string))).

Definition chain_of (c : Chains) (pr : Protocol) (table chain : string) : list (list string) :=
  default [] (c !! (pr, table, chain)).

Fixpoint remove_first (spec : list string) (l : list (list string)) : list (list string) :=
  match l with
  | [] => []
  | x :: l => if decide (x = spec) then l else x :: remove_first spec l
  end.

(** The target of a rule. *)
Fixpoint jump_target (spec : list string) : option string :=
  match spec with
  | [] => None
  | token :: spec => if String.eqb token "-j" then head spec else jump_target spec
  end.

Definition target_ok (c : Chains) (pr : Protocol) (table : string) (spec : list string) : bool :=
  match jump_target spec with
  | None => true
  | Some target =>
      bool_decide (target ∈ ["RETURN"; "ACCEPT"; "MASQUERADE"]) || is_some (c !! (pr, table, target))
  end.

(** The answer of an iptables command, by the kind of its message. *)
Inductive Answer := AnsOk | AnsNotExist | AnsExist | AnsOther.

Definition ipt_exec (pr : Protocol) (args : list string) (c : Chains) : Chains * Answer :=
  match args with
  | "-t" :: t :: op :: ch :: spec =>
      let key := (pr, t, ch) in
      match c !! key with
      | None =>
          if String.eqb op "-N" then (<[key := []]> c, AnsOk)
          else (c, AnsNotExist)
      | Some l =>
          if String.eqb op "-C" then
            (c, if negb (target_ok c pr t spec) then AnsOther
                else if decide (spec ∈ l) then AnsOk else AnsNotExist)
          else if String.eqb op "-N" then (c, AnsExist)
          else if String.eqb op "-F" then (<[key := []]> c, AnsOk)
          else if String.eqb op "-nL" then (c, AnsOk)
          else if String.eqb op "-D" then
            if decide (spec ∈ l) then (<[key := remove_first spec l]> c, AnsOk) else (c, AnsNotExist)
          else if String.eqb op "-X" then
            if bool_decide (l = [])
               && negb (existsb (fun e : ChainKey * list (list string) =>
                                   bool_decide (e.1.1 = (pr, t)) && existsb (existsb (String.eqb ch)) e.2)
                          (map_to_list c))
            then (delete key c, AnsOk) else (c, AnsOther)
          else (c, AnsOther)
      end
  | _ => (c, AnsOther)
  end.

Definition answered (a : Answer) (ran : Ran) : Prop :=
  match a with
  | AnsOk => exists out, ran = Exited out
  | AnsNotExist => exists msg, ran = Failed msg /\ is_not_exist msg = true /\ is_exist msg = false
  | AnsExist => exists msg, ran = Failed msg /\ is_exist msg = true /\ is_not_exist msg = false
  | AnsOther => exists msg, ran = Failed msg /\ is_not_exist msg = false /\ is_exist msg = false
  end.

(** One command of a script, a table of commands, a script. *)
Definition restore_cmd (pr : Protocol) (table : string) (c : Chains) (cmd : list string) : option Chains :=
  match cmd with
  | op :: ch :: spec =>
      let key := (pr, table, ch) in
      match c !! key with
      | None => None
      | Some l =>
          if String.eqb op "-A" then
            if target_ok c pr table spec then Some (<[key := l ++ [spec]]> c) else None
          else if String.eqb op "-D" then
            if decide (spec ∈ l) then Some (<[key := remove_first spec l]> c) else None
          else None
      end
  | _ => None
  end.

Fixpoint restore_cmds (pr : Protocol) (table : string) (cmds : list (list string)) (c : Chains)
  : option Chains :=
  match cmds with
  | [] => Some c
  | cmd :: cmds => match restore_cmd pr table c cmd with Some c => restore_cmds pr table cmds c | None => None end
  end.

Fixpoint restore_script (pr : Protocol) (m : IPTablesRestoreRules) (c : Chains) : option Chains :=
  match m with
  | [] => Some c
  | (table, cmds) :: m =>
      match restore_cmds pr table cmds c with Some c => restore_script pr m c | None => None end
  end.

(** Arguments after the optional [-w]. *)
Definition plain_args (args : list string) : list string :=
  match args with "-w" :: args => args | _ => args end.

(** The tools are installed and work; a script that cannot be carried out is
    refused. *)
Class IptLaws (K : Type) `{IptSystem K} := {
  sys_chains : K -> Chains;
  tool_path : Protocol -> string;
  restore_path : Protocol -> string;
  tool_version : Protocol -> string;
  tool_found k pr : look_path k (proto_cmd pr) = Some (tool_path pr);
  restore_found k pr : look_path k (restore_command pr) = Some (restore_path pr);
  tool_says_version k pr : sys_run (tool_path pr) ["--version"] "" k = (k, Exited (tool_version pr));
  tool_version_ok pr : is_ok (parse_version (tool_version pr)) = true;
  tool_runs k pr args : args <> ["--version"] ->
    let '(k', ran) := sys_run (tool_path pr) args "" k in
    let '(c', a) := ipt_exec pr (plain_args args) (sys_chains k) in
    sys_chains k' = c' /\ answered a ran;
  restore_runs k pr args payload m :
    read_payload payload = Some m ->
    let '(k', ran) := sys_run (restore_path pr) ("--noflush" :: args) payload k in
    match restore_script pr m (sys_chains k) with
    | Some c' => sys_chains k' = c' /\ exists out, ran = Exited out
    | None => exists msg, ran = Failed msg
    end;
}.

(** ** What the transactions achieve *)

Definition rule_key (pr : Protocol) (r : IPTablesRule) : ChainKey := (pr, ir_table r, ir_chain r).

(** A rule is moved to the end of its chain. *)
Definition push_rule (l : list (list string)) (spec : list string) : list (list string) :=
  remove_first spec l ++ [spec].

(** The specs of the rules of one chain, in order. *)
Definition specs_of (rules : list IPTablesRule) (chain : string) : list (list string) :=
  map ir_rulespec (List.filter (fun r => String.eqb (ir_chain r) chain) rules).

(** Rules that a transaction can place in one table: distinct, appended, with
    readable tokens, whose chain is a flannel chain or exists. *)
Definition rule_id (r : IPTablesRule) : string * list string := (ir_chain r, ir_rulespec r).

Record tidy (pr : Protocol) (table : string) (c : Chains) (rules : list IPTablesRule) : Prop := {
  ti_name : no_eol table = true;
  ti_table : Forall (fun r => ir_table r = table /\ ir_action r = "-A") rules;
  ti_clean : Forall (fun r => clean_tokens (Some (ir_chain r)) (ir_rulespec r) = true
                              /\ clean_token None (ir_chain r) = true) rules;
  ti_target : Forall (fun r => target_ok c pr table (ir_rulespec r) = true
                               \/ flannel_chain r = jump_target (ir_rulespec r)) rules;
}.

Record placeable (pr : Protocol) (table : string) (c : Chains) (rules : list IPTablesRule) : Prop := {
  pl_tidy : tidy pr table c rules;
  pl_nodup : NoDup (map rule_id rules);
  pl_chain : Forall (fun r => flannel_chain r = Some (ir_chain r) \/ is_some (c !! rule_key pr r) = true) rules;
}.

Definition rule_present (pr : Protocol) (c : Chains) (r : IPTablesRule) : bool :=
  bool_decide (ir_rulespec r ∈ chain_of c pr (ir_table r) (ir_chain r)).

(** What the code looks for: the flannel chain of the rule and the rule. *)
Definition in_place (pr : Protocol) (c : Chains) (r : IPTablesRule) : bool :=
  match flannel_chain r with Some ch => is_some (c !! (pr, ir_table r, ch)) | None => true end
  && rule_present pr c r.

(** The flannel chains that the rules need. *)
Definition add_chain (pr : Protocol) (c : Chains) (r : IPTablesRule) : Chains :=
  match flannel_chain r with
  | Some ch =>
      let key := (pr, ir_table r, ch) in
      match c !! key with Some _ => c | None => <[key := []]> c end
  | None => c
  end.

(** The outcome of a transaction: missing chains are created and each rule is
    moved to the end of its chain. *)
Definition place (pr : Protocol) (c : Chains) (r : IPTablesRule) : Chains :=
  <[rule_key pr r := push_rule (chain_of c pr (ir_table r) (ir_chain r)) (ir_rulespec r)]> c.

Definition placed (pr : Protocol) (rules : list IPTablesRule) (c : Chains) : Chains :=
  fold_left (place pr) rules (fold_left (add_chain pr) rules c).

(** What is left of a chain when each of the rules is taken out once. *)
Definition without (specs l : list (list string)) : list (list string) :=
  fold_left (fun l spec => remove_first spec l) specs l.

(** ** Lemmas *)

Lemma chain_of_add_chain pr c r t ch : chain_of (add_chain pr c r) pr t ch = chain_of c pr t ch.
Proof.
  unfold add_chain, chain_of. destruct (flannel_chain r) as [f|]; [|done].
  destruct (c !! (pr, ir_table r, f)) eqn:E; [done|].
  destruct (decide ((pr, ir_table r, f) = (pr, t, ch))) as [Heq|Hne].
  - rewrite <- Heq, lookup_insert_eq, E. done.
  - by rewrite lookup_insert_ne.
Qed.

Lemma rule_present_add_chain pr c r r' : rule_present pr (add_chain pr c r) r' = rule_present pr c r'.
Proof. unfold rule_present. by rewrite chain_of_add_chain. Qed.

(** More chains, no chain lost. *)
Definition grows (c c' : Chains) : Prop := forall key, is_some (c !! key) = true -> is_some (c' !! key) = true.

#[local] Instance grows_preorder : PreOrder grows.
Proof. split; [by intros c key|]. intros c1 c2 c3 H1 H2 key ?. by apply H2, H1. Qed.

Lemma grows_insert c key l : grows c (<[key := l]> c).
Proof.
  intros key' H. destruct (decide (key = key')) as [->|]; [by rewrite lookup_insert_eq|by rewrite lookup_insert_ne].
Qed.

Lemma grows_target c c' pr t spec : grows c c' -> target_ok c pr t spec = true -> target_ok c' pr t spec = true.
Proof.
  intros Hg. unfold target_ok. destruct (jump_target spec); [|done].
  rewrite !orb_true_iff. intros [|]; [by left|right]. by apply Hg.
Qed.

Lemma add_chain_grows pr c r : grows c (add_chain pr c r).
Proof.
  unfold add_chain. destruct (flannel_chain r); [|done]. destruct (c !! _); [done|]. apply grows_insert.
Qed.

Lemma add_chains_grows pr rules c : grows c (fold_left (add_chain pr) rules c).
Proof.
  revert c. induction rules as [|r rules IH]; intros c; cbn; [done|].
  etrans; [apply add_chain_grows|apply IH].
Qed.

Lemma add_chain_has pr c r ch :
  flannel_chain r = Some ch -> is_some (add_chain pr c r !! (pr, ir_table r, ch)) = true.
Proof.
  intros H. unfold add_chain. rewrite H. destruct (c !! (pr, ir_table r, ch)) eqn:E; [by rewrite E|].
  by rewrite lookup_insert_eq.
Qed.

Lemma remove_first_notin spec l : spec ∉ l -> remove_first spec l = l.
Proof.
  induction l as [|x l IH]; cbn; [done|]. intros [Hx Hl]%not_elem_of_cons.
  rewrite decide_False by done. by rewrite IH.
Qed.

Lemma remove_first_other spec spec' l : spec' <> spec -> spec' ∈ remove_first spec l <-> spec' ∈ l.
Proof.
  intros Hne. induction l as [|x l IH]; cbn; [done|].
  destruct (decide (x = spec)) as [->|]; rewrite !elem_of_cons; [naive_solver|by rewrite IH].
Qed.

Lemma push_rule_elem spec spec' l : spec' <> spec -> spec' ∈ push_rule l spec <-> spec' ∈ l.
Proof.
  intros Hne. unfold push_rule. rewrite elem_of_app, remove_first_other by done.
  rewrite list_elem_of_singleton. naive_solver.
Qed.

Section Tools.
Context `{IptLaws K} (pr : Protocol).

Lemma IPTables_new_ok k :
  exists ipt, IPTables_new pr k = (k, Ok ipt) /\ it_path ipt = tool_path pr.
Proof.
  unfold IPTables_new, io_bind, io_get, io_lift, command. rewrite tool_found. cbn.
  rewrite tool_says_version. pose proof (tool_version_ok pr) as Hv.
  destruct (parse_version (tool_version pr)); [|done]. eexists. by split.
Qed.

Lemma IPTablesRestore_new_ok k :
  exists iptr, IPTablesRestore_new pr k = (k, Ok iptr) /\ itr_path iptr = restore_path pr.
Proof.
  unfold IPTablesRestore_new, io_bind, io_get, io_lift, io_map_err, restore_version_string, io_bind, command.
  rewrite tool_found, restore_found. cbn. rewrite tool_says_version. cbn.
  pose proof (tool_version_ok pr) as Hv.
  destruct (parse_version (tool_version pr)); [|done]. eexists. by split.
Qed.

Context (ipt : IPTables) (Hipt : it_path ipt = tool_path pr).

(** A command on a table does what [ipt_exec] says. *)
Lemma ipt_run_spec t rest k :
  exists k', sys_chains k' = (ipt_exec pr ("-t" :: t :: rest) (sys_chains k)).1 /\
    match (ipt_exec pr ("-t" :: t :: rest) (sys_chains k)).2 with
    | AnsOk => exists out, ipt_run ipt ("-t" :: t :: rest) k = (k', Ok out)
    | AnsNotExist => exists msg, ipt_run ipt ("-t" :: t :: rest) k = (k', Err (IptCmd msg)) /\
                                 is_not_exist msg = true
    | AnsExist => exists msg, ipt_run ipt ("-t" :: t :: rest) k = (k', Err (IptCmd msg)) /\
                              is_exist msg = true
    | AnsOther => exists msg, ipt_run ipt ("-t" :: t :: rest) k = (k', Err (IptCmd msg))
    end.
Proof.
  unfold ipt_run, io_bind, command. rewrite Hipt.
  set (args := (if it_has_wait ipt then ["-w"] else []) ++ "-t" :: t :: rest).
  pose proof (tool_runs k pr args) as Hr.
  assert (plain_args args = "-t" :: t :: rest) as Ha by (by subst args; destruct (it_has_wait ipt)).
  rewrite Ha in Hr. specialize (Hr ltac:(subst args; by destruct (it_has_wait ipt))).
  destruct (sys_run (tool_path pr) args "" k) as [k' ran].
  destruct (ipt_exec pr _ (sys_chains k)) as [c' a]. destruct Hr as [Hc Hans].
  exists k'. split; [done|]. cbn. destruct a; cbn in Hans.
  - destruct Hans as [out ->]. by exists out.
  - destruct Hans as (msg & -> & ? & _). by exists msg.
  - destruct Hans as (msg & -> & ? & _). by exists msg.
  - destruct Hans as (msg & -> & _). by exists msg.
Qed.

Lemma ipt_exists_spec t ch spec k :
  target_ok (sys_chains k) pr t spec = true ->
  exists k', ipt_exists ipt t ch spec k = (k', Ok (bool_decide (spec ∈ chain_of (sys_chains k) pr t ch)))
             /\ sys_chains k' = sys_chains k.
Proof.
  intros Ht. destruct (ipt_run_spec t ("-C" :: ch :: spec) k) as (k' & Hc & Hr).
  unfold ipt_exists, io_bind, io_try. cbn [table_chain app]. exists k'.
  cbn [ipt_exec] in Hc, Hr. unfold chain_of. destruct (sys_chains k !! (pr, t, ch)) as [l|]; cbn [default].
  - cbn [String.eqb Ascii.eqb Bool.eqb] in Hc, Hr. rewrite Ht in Hr. cbn [negb snd fst] in Hc, Hr.
    destruct (decide (spec ∈ l)) as [Hin|Hin].
    + destruct Hr as [out ->]. by rewrite bool_decide_true.
    + destruct Hr as (msg & -> & ->). by rewrite bool_decide_false.
  - cbn in Hc, Hr. destruct Hr as (msg & -> & ->). split; [|done].
    by rewrite bool_decide_false by apply not_elem_of_nil.
Qed.

Lemma ipt_chain_exists_spec t ch k :
  exists k', ipt_chain_exists ipt t ch k = (k', Ok (is_some (sys_chains k !! (pr, t, ch))))
             /\ sys_chains k' = sys_chains k.
Proof.
  destruct (ipt_run_spec t ["-nL"; ch] k) as (k' & Hc & Hr).
  unfold ipt_chain_exists, io_bind, io_try, table_chain. exists k'.
  cbn [ipt_exec] in Hc, Hr. destruct (sys_chains k !! (pr, t, ch)) as [l|]; cbn in Hc, Hr.
  - by destruct Hr as [out ->].
  - by destruct Hr as (msg & -> & ->).
Qed.

Lemma ipt_clear_chain_spec t ch k :
  exists k', ipt_clear_chain ipt t ch k = (k', Ok ()) /\
             sys_chains k' = <[(pr, t, ch) := []]> (sys_chains k).
Proof.
  destruct (ipt_run_spec t ["-N"; ch] k) as (k1 & Hc & Hr).
  unfold ipt_clear_chain, ipt_new_chain, io_bind, io_try, io_ret, table_chain.
  cbn [ipt_exec] in Hc, Hr. destruct (sys_chains k !! (pr, t, ch)) as [l|] eqn:E; cbn in Hc, Hr.
  - destruct Hr as (msg & -> & ->).
    destruct (ipt_run_spec t ["-F"; ch] k1) as (k2 & Hc2 & Hr2).
    cbn [ipt_exec] in Hc2, Hr2. rewrite Hc, E in Hc2, Hr2. cbn in Hc2, Hr2.
    destruct Hr2 as [out ->]. exists k2. by split.
  - destruct Hr as [out ->]. exists k1. by split.
Qed.

Context (iptr : IPTablesRestore) (Hiptr : itr_path iptr = restore_path pr).

Lemma apply_without_flush_spec m k c' :
  clean_script m = true -> restore_script pr m (sys_chains k) = Some c' ->
  exists k', apply_without_flush iptr m k = (k', Ok ()) /\ sys_chains k' = c'.
Proof.
  intros Hm Hs. unfold apply_without_flush, io_bind, command. rewrite Hiptr.
  match goal with |- context [sys_run _ ("--noflush" :: ?args) _ _] =>
    pose proof (restore_runs k pr args (build_payload m) m (read_payload_build m Hm)) as Hr;
    destruct (sys_run _ ("--noflush" :: args) _ _) as [k' ran] end.
  rewrite Hs in Hr. destruct Hr as (Hc & out & ->). by exists k'.
Qed.
End Tools.

(** *** Building the script *)

Definition rule_lines (pr : Protocol) (c : Chains) (r : IPTablesRule) : list (list string) :=
  (if rule_present pr c r then [with_prefix "-D" (ir_chain r) (ir_rulespec r)] else [])
  ++ [with_prefix (ir_action r) (ir_chain r) (ir_rulespec r)].

Definition teardown_lines (pr : Protocol) (c : Chains) (r : IPTablesRule) : list (list string) :=
  if rule_present pr c r then [with_prefix "-D" (ir_chain r) (ir_rulespec r)] else [].

Lemma string_compare_refl s : String.compare s s = Eq.
Proof. induction s as [|a s IH]; [done|]. cbn. unfold Ascii.compare. by rewrite N.compare_refl. Qed.

Lemma entry_extend_same t ls ls' : entry_extend t ls' [(t, ls)] = [(t, ls ++ ls')].
Proof. cbn. by rewrite string_compare_refl. Qed.

(** The entries of rules of one table. *)
Lemma entries_one_table t (f : IPTablesRule -> list (list string)) rules ls :
  Forall (fun r => ir_table r = t) rules ->
  fold_left (fun m r => entry_extend (ir_table r) (f r) m) rules [(t, ls)]
  = [(t, ls ++ flat_map f rules)].
Proof.
  intros Hr. revert ls. induction Hr as [|r rules Ht _ IH]; intros ls; cbn [fold_left flat_map].
  { by rewrite app_nil_r. }
  rewrite Ht, entry_extend_same, IH. by rewrite app_assoc.
Qed.

Lemma entries_from_nil t (f : IPTablesRule -> list (list string)) r rules :
  Forall (fun r => ir_table r = t) (r :: rules) ->
  fold_left (fun m r => entry_extend (ir_table r) (f r) m) (r :: rules) []
  = [(t, flat_map f (r :: rules))].
Proof.
  intros Hr. inv Hr. cbn [fold_left entry_extend flat_map]. by rewrite entries_one_table.
Qed.

Section Build.
Context `{IptLaws K} (pr : Protocol) (ipt : IPTables) (Hipt : it_path ipt = tool_path pr).

Lemma flannel_chain_exists_spec r k :
  exists k', flannel_chain_exists ipt r k
             = (k', Ok (match flannel_chain r with
                        | Some ch => is_some (sys_chains k !! (pr, ir_table r, ch))
                        | None => true end))
             /\ sys_chains k' = sys_chains k.
Proof.
  unfold flannel_chain_exists. destruct (flannel_chain r) as [ch|]; [|by exists k].
  destruct (ipt_chain_exists_spec pr ipt Hipt (ir_table r) ch k) as (k' & Hr & Hc).
  exists k'. unfold io_map_err. by rewrite Hr.
Qed.

(** The guard of the loop creates the flannel chain of the rule. *)
Lemma chain_guard_spec r k :
  exists k', match flannel_chain r with
             | Some chain =>
                 let! there := flannel_chain_exists ipt r in
                 if negb there then
                   io_map_err (fun e => IptOther ("failed to create rule chain: " +:+ IptError_fmt e))
                     (ipt_clear_chain ipt (ir_table r) chain)
                 else io_ret ()
             | None => io_ret ()
             end k = (k', Ok ())
             /\ sys_chains k' = add_chain pr (sys_chains k) r.
Proof.
  unfold add_chain. destruct (flannel_chain r) as [ch|] eqn:Ef; [|by exists k].
  destruct (flannel_chain_exists_spec r k) as (k1 & Hr & Hc). rewrite Ef in Hr.
  unfold io_bind. rewrite Hr. destruct (sys_chains k !! (pr, ir_table r, ch)) eqn:E; cbn.
  - by exists k1.
  - destruct (ipt_clear_chain_spec pr ipt Hipt (ir_table r) ch k1) as (k2 & Hr2 & Hc2).
    exists k2. unfold io_map_err. rewrite Hr2. by rewrite Hc2, Hc.
Qed.

(** The target of a rule exists once its flannel chain does. *)
Definition targets_ok (c : Chains) (r : IPTablesRule) : Prop :=
  target_ok c pr (ir_table r) (ir_rulespec r) = true \/ flannel_chain r = jump_target (ir_rulespec r).

Lemma add_chain_target c r : targets_ok c r -> target_ok (add_chain pr c r) pr (ir_table r) (ir_rulespec r) = true.
Proof.
  intros [Ht|Hf]; [by eapply grows_target; [apply add_chain_grows|]|].
  unfold target_ok. rewrite <- Hf. destruct (flannel_chain r) as [ch|] eqn:E; [|done].
  rewrite (add_chain_has pr c r ch E). apply orb_true_r.
Qed.

Lemma targets_ok_grows c c' r : grows c c' -> targets_ok c r -> targets_ok c' r.
Proof. intros Hg [Ht|]; [left; by eapply grows_target|by right]. Qed.

Lemma entries_add_chain r c rules m :
  fold_left (fun m r' => entry_extend (ir_table r') (rule_lines pr (add_chain pr c r) r') m) rules m
  = fold_left (fun m r' => entry_extend (ir_table r') (rule_lines pr c r') m) rules m.
Proof.
  revert m. induction rules as [|r' rules IH]; intros m; cbn; [done|].
  rewrite IH. unfold rule_lines at 2 4. by rewrite rule_present_add_chain.
Qed.

Lemma clean_and_build_spec rules m k :
  Forall (targets_ok (sys_chains k)) rules ->
  exists k', clean_and_build ipt rules m k
             = (k', Ok (fold_left (fun m r => entry_extend (ir_table r) (rule_lines pr (sys_chains k) r) m)
                          rules m))
             /\ sys_chains k' = fold_left (add_chain pr) rules (sys_chains k).
Proof.
  revert m k. induction rules as [|r rules IH]; intros m k Ht; [by exists k|].
  inv Ht. cbn [clean_and_build fold_left].
  destruct (chain_guard_spec r k) as (k1 & Hr1 & Hc1).
  unfold io_bind at 1. rewrite Hr1.
  destruct (ipt_exists_spec pr ipt Hipt (ir_table r) (ir_chain r) (ir_rulespec r) k1) as (k2 & Hr2 & Hc2).
  { rewrite Hc1. by apply add_chain_target. }
  unfold io_bind at 1, io_map_err at 1. rewrite Hr2. cbn [map_err].
  destruct (IH (entry_extend (ir_table r) (rule_lines pr (sys_chains k) r) m) k2) as (k3 & Hr3 & Hc3).
  { rewrite Hc2, Hc1. revert H4. apply Forall_impl. intros r'. apply targets_ok_grows, add_chain_grows. }
  exists k3. split; [|by rewrite Hc3, Hc2, Hc1].
  rewrite Hc1, chain_of_add_chain. fold (rule_present pr (sys_chains k) r).
  fold (rule_lines pr (sys_chains k) r). rewrite Hr3. do 2 f_equal. rewrite Hc2, Hc1.
  apply entries_add_chain.
Qed.
End Build.

(** *** Executing the script *)

Lemma restore_cmds_app pr t xs ys c :
  restore_cmds pr t (xs ++ ys) c =
  match restore_cmds pr t xs c with Some c => restore_cmds pr t ys c | None => None end.
Proof.
  revert c. induction xs as [|x xs IH]; intros c; cbn; [done|].
  destruct (restore_cmd pr t c x); [apply IH|done].
Qed.

Section Execute.
Context (pr : Protocol) (table : string) (c0 : Chains).

(** When the script runs, a rule is in its chain as it was when the script
    was built. *)
Definition ready (c : Chains) (r : IPTablesRule) : Prop :=
  ir_table r = table /\ ir_action r = "-A" /\
  is_some (c !! rule_key pr r) = true /\ target_ok c pr table (ir_rulespec r) = true /\
  rule_present pr c r = rule_present pr c0 r.

Lemma chain_of_some c r l : c !! rule_key pr r = Some l -> chain_of c pr (ir_table r) (ir_chain r) = l.
Proof. unfold chain_of, rule_key. by intros ->. Qed.

Lemma rule_lines_exec c r :
  ready c r -> restore_cmds pr table (rule_lines pr c0 r) c = Some (place pr c r).
Proof.
  intros (Ht & Ha & Hk & Htg & Hp). destruct (c !! rule_key pr r) as [l|] eqn:E; [|done].
  unfold rule_lines, place, push_rule. rewrite <- Hp, (chain_of_some c r l E), Ha. unfold with_prefix.
  unfold rule_present. rewrite (chain_of_some c r l E).
  unfold rule_key in E |- *. rewrite Ht in E |- *.
  destruct (decide (ir_rulespec r ∈ l)) as [Hin|Hin].
  - rewrite bool_decide_true by done. cbn [app restore_cmds restore_cmd].
    rewrite E. cbn [String.eqb Ascii.eqb Bool.eqb]. rewrite decide_True by done.
    cbn [restore_cmds restore_cmd]. rewrite lookup_insert_eq. cbn [String.eqb Ascii.eqb Bool.eqb].
    rewrite (grows_target c) by (done || apply grows_insert). by rewrite insert_insert_eq.
  - rewrite bool_decide_false by done. cbn [app restore_cmds restore_cmd].
    rewrite E. cbn [String.eqb Ascii.eqb Bool.eqb]. rewrite Htg. by rewrite remove_first_notin.
Qed.

Lemma chain_of_place c r t ch :
  chain_of (place pr c r) pr t ch =
  if decide ((ir_table r, ir_chain r) = (t, ch)) then push_rule (chain_of c pr t ch) (ir_rulespec r)
  else chain_of c pr t ch.
Proof.
  unfold place, chain_of at 1, rule_key. destruct (decide _) as [[= -> ->]|Hne].
  - by rewrite lookup_insert_eq.
  - rewrite lookup_insert_ne by congruence. done.
Qed.

Lemma ready_place c r r' :
  rule_id r <> rule_id r' ->
  ready c r -> ready c r' -> ready (place pr c r) r'.
Proof.
  unfold rule_id. intros Hne (Ht & _) (Ht' & Ha' & Hk' & Htg' & Hp'). split_and!; [done..| | |].
  - by apply grows_insert.
  - by eapply grows_target; [apply grows_insert|].
  - rewrite <- Hp'. unfold rule_present. rewrite chain_of_place.
    destruct (decide _) as [[= _ Hc]|]; [|done]. apply bool_decide_ext, push_rule_elem. congruence.
Qed.

Lemma script_exec rules c :
  NoDup (map rule_id rules) -> Forall (ready c) rules ->
  restore_cmds pr table (flat_map (rule_lines pr c0) rules) c = Some (fold_left (place pr) rules c).
Proof.
  revert c. induction rules as [|r rules IH]; intros c Hnd Hr; [done|].
  cbn in Hnd. apply list.NoDup_cons in Hnd as [Hni Hnd]. inv Hr.
  cbn [flat_map fold_left]. rewrite restore_cmds_app, rule_lines_exec by done. apply IH; [done|].
  rewrite Forall_forall in H2 |- *. intros r' Hr'. apply ready_place; [|done|by apply H2].
  intros E. apply Hni. rewrite E. apply list_elem_of_In, (in_map rule_id), Hr'.
Qed.
End Execute.

Lemma add_chains_present pr rules c r :
  rule_present pr (fold_left (add_chain pr) rules c) r = rule_present pr c r.
Proof.
  revert c. induction rules as [|r' rules IH]; intros c; cbn; [done|].
  by rewrite IH, rule_present_add_chain.
Qed.

(** After the chains are created, all rules are ready. *)
Lemma add_chains_ready pr t c rules rules' :
  placeable pr t c rules -> (forall r, In r rules -> In r rules') ->
  Forall (ready pr t c (fold_left (add_chain pr) rules' c)) rules.
Proof.
  intros [[_ Htab _ Htg] _ Hch] Hsub. rewrite Forall_forall in Htab, Hch, Htg |- *. intros r Hr.
  destruct (Htab r Hr) as [Ht Ha].
  assert (forall ch, flannel_chain r = Some ch ->
            is_some (fold_left (add_chain pr) rules' c !! (pr, ir_table r, ch)) = true) as Hhas.
  { intros ch Hc. specialize (Hsub r Hr). clear -Hsub Hc. revert c.
    induction rules' as [|r' rules' IH]; intros c; [done|]. cbn. destruct Hsub as [->|Hin]; [|by apply IH].
    apply add_chains_grows. by apply add_chain_has. }
  split_and!; [done..| | |by apply add_chains_present].
  - destruct (Hch r Hr) as [Hf|Hs]; [by apply Hhas|]. by apply add_chains_grows.
  - destruct (Htg r Hr) as [Htt|Hf]; [by eapply grows_target; [apply add_chains_grows|]|].
    unfold target_ok. rewrite <- Hf. destruct (flannel_chain r) as [ch|]; [|done].
    rewrite <- Ht, (Hhas ch eq_refl). apply orb_true_r.
Qed.

Lemma tidy_targets pr t c rules : tidy pr t c rules -> Forall (targets_ok pr c) rules.
Proof.
  intros [_ Htab _ Htg]. rewrite Forall_forall in *. intros r Hr.
  destruct (Htab r Hr) as [Ht _]. unfold targets_ok. rewrite Ht. by apply Htg.
Qed.

Lemma rule_line_clean r op :
  op <> "COMMIT" -> op <> "--comment" -> clean_token None op = true ->
  clean_tokens (Some (ir_chain r)) (ir_rulespec r) = true /\ clean_token None (ir_chain r) = true ->
  clean_line (with_prefix op (ir_chain r) (ir_rulespec r)) = true.
Proof.
  intros Hop Hc Hcl [Hs Hch]. unfold clean_line, with_prefix. cbn [clean_tokens].
  apply String.eqb_neq in Hop. rewrite Hop, Hcl, Hs, andb_true_r. cbn.
  unfold clean_token in *. rewrite bool_decide_false by congruence.
  rewrite bool_decide_false in Hch by done. exact Hch.
Qed.

Lemma script_clean pr t c rules :
  placeable pr t c rules -> clean_script [(t, flat_map (rule_lines pr c) rules)] = true.
Proof.
  intros [[Hn Htab Hcl _] _ _]. unfold clean_script. cbn [forallb fst snd]. rewrite Hn, andb_true_r.
  apply forallb_forall. intros l (r & Hr & Hl)%in_flat_map.
  rewrite Forall_forall in Htab, Hcl. destruct (Htab r Hr) as [_ Ha]. specialize (Hcl r Hr).
  unfold rule_lines in Hl. rewrite Ha in Hl.
  destruct (rule_present pr c r); cbn in Hl; destruct_or! Hl; try done; subst l; by apply rule_line_clean.
Qed.

Section Bootstrap.
Context `{IptLaws K} (pr : Protocol) (ipt : IPTables) (iptr : IPTablesRestore).
Context (Hipt : it_path ipt = tool_path pr) (Hiptr : itr_path iptr = restore_path pr).

Lemma bootstrap_spec table rules k :
  placeable pr table (sys_chains k) rules ->
  exists k', ip_tables_bootstrap ipt iptr rules k = (k', Ok ()) /\
             sys_chains k' = placed pr rules (sys_chains k).
Proof.
  intros Hp. destruct (clean_and_build_spec pr ipt Hipt rules [] k) as (k1 & Hr1 & Hc1).
  { eapply tidy_targets, Hp. }
  unfold ip_tables_bootstrap, ip_tables_clean_and_build, io_bind, io_map_err at 1. rewrite Hr1. cbn [map_err].
  set (m := fold_left _ rules []).
  assert (clean_script m = true /\ restore_script pr m (sys_chains k1) = Some (placed pr rules (sys_chains k)))
    as [Hm Hs].
  { subst m. destruct rules as [|r rules]; [by rewrite Hc1|].
    rewrite (entries_from_nil table).
    - split; [by eapply script_clean|]. cbn [restore_script]. rewrite Hc1, script_exec; [done|apply Hp|].
      by apply add_chains_ready.
    - destruct Hp as [[_ Ht _ _] _ _]. revert Ht. apply Forall_impl. naive_solver. }
  destruct (apply_without_flush_spec pr iptr Hiptr m k1 _ Hm Hs) as (k2 & Hr2 & Hc2).
  exists k2. unfold io_map_err. by rewrite Hr2.
Qed.
End Bootstrap.

(** *** Chains after a transaction *)

Lemma remove_first_app spec l x : spec <> x -> remove_first spec (l ++ [x]) = remove_first spec l ++ [x].
Proof.
  intros Hne. induction l as [|y l IH]; cbn; [by rewrite decide_False|].
  destruct (decide (y = spec)); [done|]. by rewrite IH.
Qed.

Lemma without_app specs l x : x ∉ specs -> without specs (l ++ [x]) = without specs l ++ [x].
Proof.
  revert l. induction specs as [|s specs IH]; intros l Hx; [done|].
  apply not_elem_of_cons in Hx as [Hs Hx]. unfold without in *. cbn.
  rewrite remove_first_app by congruence. by apply IH.
Qed.

(** Moving rules to the end one by one leaves them in order at the end. *)
Lemma push_rules_order specs l :
  NoDup specs -> fold_left push_rule specs l = without specs l ++ specs.
Proof.
  intros Hnd. revert l. induction Hnd as [|s specs Hs Hnd IH]; intros l; cbn [fold_left].
  { unfold without. cbn. by rewrite app_nil_r. }
  rewrite IH. unfold push_rule. rewrite without_app by done. by rewrite <- app_assoc.
Qed.

Lemma chain_of_placed_from pr table rules c ch :
  Forall (fun r => ir_table r = table) rules ->
  chain_of (fold_left (place pr) rules c) pr table ch
  = fold_left push_rule (specs_of rules ch) (chain_of c pr table ch).
Proof.
  intros Hr. revert c. induction Hr as [|r rules Ht _ IH]; intros c; [done|].
  cbn [fold_left]. rewrite IH, chain_of_place. unfold specs_of. cbn [List.filter].
  destruct (String.eqb_spec (ir_chain r) ch) as [<-|Hne].
  - rewrite decide_True by congruence. done.
  - rewrite decide_False by congruence. done.
Qed.

Lemma chain_of_add_chains pr rules c t ch :
  chain_of (fold_left (add_chain pr) rules c) pr t ch = chain_of c pr t ch.
Proof.
  revert c. induction rules as [|r rules IH]; intros c; cbn; [done|]. by rewrite IH, chain_of_add_chain.
Qed.

Lemma specs_nodup rules ch : NoDup (map rule_id rules) -> NoDup (specs_of rules ch).
Proof.
  unfold specs_of. induction rules as [|r rules IH]; intros Hnd; cbn; [constructor|].
  cbn in Hnd. apply list.NoDup_cons in Hnd as [Hni Hnd].
  destruct (String.eqb_spec (ir_chain r) ch) as [<-|]; [|by apply IH]. cbn.
  apply list.NoDup_cons. split; [|by apply IH]. intros (r' & Hs & Hin)%list_elem_of_fmap.
  apply list_elem_of_In, filter_In in Hin as [Hin Hc]. apply String.eqb_eq in Hc.
  apply Hni, list_elem_of_fmap. exists r'. unfold rule_id. split; [congruence|by apply list_elem_of_In].
Qed.

Lemma chain_of_placed pr table c rules ch :
  placeable pr table c rules ->
  chain_of (placed pr rules c) pr table ch
  = without (specs_of rules ch) (chain_of c pr table ch) ++ specs_of rules ch.
Proof.
  intros [[_ Ht _ _] Hnd _]. unfold placed. rewrite chain_of_placed_from.
  - rewrite chain_of_add_chains. by apply push_rules_order, specs_nodup.
  - revert Ht. apply Forall_impl. naive_solver.
Qed.

(** Chains of other tables and protocols, and chains that no rule names, are
    left alone. *)
Lemma placed_other pr table rules c key :
  Forall (fun r => ir_table r = table) rules ->
  Forall (fun r => key <> rule_key pr r /\ forall ch, flannel_chain r = Some ch -> key <> (pr, table, ch)) rules ->
  placed pr rules c !! key = c !! key.
Proof.
  intros Ht Hk. unfold placed.
  assert (forall c, fold_left (place pr) rules c !! key = c !! key) as ->.
  { clear Ht. induction Hk as [|r rules [Hr _] _ IH]; intros c'; cbn; [done|].
    rewrite IH. unfold place. by rewrite lookup_insert_ne. }
  revert c. induction Hk as [|r rules [_ Hf] _ IH]; intros c; cbn; [done|]. inv Ht.
  rewrite IH by done. unfold add_chain. destruct (flannel_chain r) as [ch|]; [|done].
  destruct (c !! _); [done|]. apply lookup_insert_ne, not_eq_sym. by apply Hf.
Qed.

Lemma placed_grows pr rules c : grows c (placed pr rules c).
Proof.
  unfold placed. etrans; [apply (add_chains_grows pr rules)|].
  generalize (fold_left (add_chain pr) rules c). induction rules as [|r rules IH]; intros c'; cbn; [done|].
  etrans; [|apply IH]. apply grows_insert.
Qed.

Lemma placed_present pr table c rules :
  placeable pr table c rules -> Forall (fun r => rule_present pr (placed pr rules c) r = true) rules.
Proof.
  intros Hp. apply Forall_forall. intros r Hr. apply bool_decide_eq_true.
  pose proof Hp as [[_ Ht _ _] _ _]. rewrite Forall_forall in Ht. destruct (Ht r Hr) as [-> _].
  rewrite chain_of_placed by done. apply elem_of_app. right. unfold specs_of.
  apply list_elem_of_fmap. exists r. split; [done|]. apply list_elem_of_In, filter_In.
  split; [done|apply String.eqb_refl].
Qed.

Section Ensure.
Context `{IptLaws K} (pr : Protocol) (ipt : IPTables) (Hipt : it_path ipt = tool_path pr).

Lemma chain_there_target c r :
  targets_ok pr c r ->
  match flannel_chain r with Some ch => is_some (c !! (pr, ir_table r, ch)) | None => true end = true ->
  target_ok c pr (ir_table r) (ir_rulespec r) = true.
Proof.
  intros [Ht|Hf] Hc; [done|]. unfold target_ok. rewrite <- Hf. destruct (flannel_chain r); [|done].
  rewrite Hc. apply orb_true_r.
Qed.

Lemma rules_exist_spec rules k :
  Forall (targets_ok pr (sys_chains k)) rules ->
  exists k', ip_tables_rules_exist ipt rules k = (k', Ok (forallb (in_place pr (sys_chains k)) rules))
             /\ sys_chains k' = sys_chains k.
Proof.
  revert k. induction rules as [|r rules IH]; intros k Ht; [by exists k|]. inv Ht.
  cbn [ip_tables_rules_exist forallb]. unfold in_place at 1.
  destruct (flannel_chain_exists_spec pr ipt Hipt r k) as (k1 & Hr1 & Hc1).
  unfold io_bind at 1. rewrite Hr1.
  match goal with |- context [negb ?b] => destruct b eqn:Eb end; cbn [negb andb]; [|by exists k1].
  destruct (ipt_exists_spec pr ipt Hipt (ir_table r) (ir_chain r) (ir_rulespec r) k1) as (k2 & Hr2 & Hc2).
  { rewrite Hc1. by apply chain_there_target. }
  unfold io_bind at 1, io_map_err. rewrite Hr2, Hc1. cbn [map_err].
  fold (rule_present pr (sys_chains k) r). destruct (rule_present pr (sys_chains k) r); cbn [andb].
  - destruct (IH k2) as (k3 & Hr3 & Hc3); [by rewrite Hc2, Hc1|].
    exists k3. rewrite Hr3, Hc3, Hc2, Hc1. done.
  - exists k2. by rewrite Hc2, Hc1.
Qed.
End Ensure.

(** *** Taking rules out *)

(** The chains after a teardown of rules that were in place in [c0]. *)
Definition take_out (pr : Protocol) (c0 c : Chains) (r : IPTablesRule) : Chains :=
  if in_place pr c0 r
  then <[rule_key pr r := remove_first (ir_rulespec r) (chain_of c pr (ir_table r) (ir_chain r))]> c
  else c.

Definition teardown_line (pr : Protocol) (c0 : Chains) (r : IPTablesRule) : list (list string) :=
  if in_place pr c0 r then [with_prefix "-D" (ir_chain r) (ir_rulespec r)] else [].

Section Teardown.
Context `{IptLaws K} (pr : Protocol) (ipt : IPTables) (iptr : IPTablesRestore).
Context (Hipt : it_path ipt = tool_path pr) (Hiptr : itr_path iptr = restore_path pr).

(** The entries of the rules in place only. *)
Definition teardown_entries (c0 : Chains) (rules : list IPTablesRule) (m : IPTablesRestoreRules)
  : IPTablesRestoreRules :=
  fold_left (fun m r => if in_place pr c0 r
                        then entry_extend (ir_table r) [with_prefix "-D" (ir_chain r) (ir_rulespec r)] m
                        else m) rules m.

Lemma build_teardown_spec rules m k :
  Forall (targets_ok pr (sys_chains k)) rules ->
  exists k', build_teardown ipt rules m k = (k', Ok (teardown_entries (sys_chains k) rules m))
             /\ sys_chains k' = sys_chains k.
Proof.
  revert m k. induction rules as [|r rules IH]; intros m k Ht; [by exists k|]. inv Ht.
  cbn [build_teardown]. unfold teardown_entries. cbn [fold_left]. unfold in_place at 2.
  destruct (flannel_chain_exists_spec pr ipt Hipt r k) as (k1 & Hr1 & Hc1).
  unfold io_bind at 1. rewrite Hr1.
  match goal with |- context [negb ?b] => destruct b eqn:Eb end; cbn [negb andb].
  2:{ destruct (IH m k1) as (k2 & Hr2 & Hc2); [by rewrite Hc1|]. exists k2. by rewrite Hr2, Hc2, Hc1. }
  destruct (ipt_exists_spec pr ipt Hipt (ir_table r) (ir_chain r) (ir_rulespec r) k1) as (k2 & Hr2 & Hc2).
  { rewrite Hc1. by apply chain_there_target. }
  unfold io_bind at 1, io_map_err. rewrite Hr2, Hc1. cbn [map_err].
  fold (rule_present pr (sys_chains k) r).
  destruct (IH (if rule_present pr (sys_chains k) r
                then entry_extend (ir_table r) [with_prefix "-D" (ir_chain r) (ir_rulespec r)] m else m) k2)
    as (k3 & Hr3 & Hc3); [by rewrite Hc2, Hc1|].
  exists k3. by rewrite Hr3, Hc3, Hc2, Hc1.
Qed.

Lemma teardown_entries_filter c0 rules m :
  teardown_entries c0 rules m
  = fold_left (fun m r => entry_extend (ir_table r) [with_prefix "-D" (ir_chain r) (ir_rulespec r)] m)
      (List.filter (in_place pr c0) rules) m.
Proof.
  unfold teardown_entries. revert m. induction rules as [|r rules IH]; intros m; cbn; [done|].
  destruct (in_place pr c0 r); cbn; apply IH.
Qed.

Lemma take_outs_filter c0 rules c :
  fold_left (take_out pr c0) rules c
  = fold_left (take_out pr c0) (List.filter (in_place pr c0) rules) c.
Proof.
  revert c. induction rules as [|r rules IH]; intros c; cbn; [done|].
  unfold take_out at 2. destruct (in_place pr c0 r) eqn:E; cbn; [|apply IH].
  unfold take_out at 3. rewrite E. apply IH.
Qed.

Lemma take_outs_exec table c0 rules c :
  Forall (fun r => ir_table r = table /\ in_place pr c0 r = true) rules ->
  NoDup (map rule_id rules) ->
  Forall (fun r => rule_present pr c r = true) rules ->
  restore_cmds pr table (map (fun r => with_prefix "-D" (ir_chain r) (ir_rulespec r)) rules) c
  = Some (fold_left (take_out pr c0) rules c).
Proof.
  intros Ht. revert c. induction Ht as [|r rules [Htr Hp] _ IH]; intros c Hnd Hpr; [done|].
  cbn in Hnd. apply list.NoDup_cons in Hnd as [Hni Hnd]. apply Forall_cons_iff in Hpr as [H2 H3].
  cbn [map restore_cmds fold_left]. unfold take_out at 2. rewrite Hp.
  apply bool_decide_eq_true in H2. unfold chain_of in H2 |- *. unfold with_prefix at 1. cbn [restore_cmd].
  unfold rule_key. rewrite Htr in H2 |- *.
  destruct (c !! (pr, table, ir_chain r)) as [l|] eqn:E; cbn [default] in H2 |- *; [|by apply elem_of_nil in H2].
  cbn [String.eqb Ascii.eqb Bool.eqb]. rewrite decide_True by done.
  apply IH; [done|]. rewrite Forall_forall in H3 |- *. intros r' Hr'. specialize (H3 r' Hr').
  unfold rule_present in H3 |- *. rewrite <- H3. unfold chain_of.
  destruct (decide ((pr, table, ir_chain r) = (pr, ir_table r', ir_chain r'))) as [[= Ht' Hc']|Hne].
  - rewrite <- Ht', <- Hc', lookup_insert_eq, E. cbn. apply bool_decide_ext, remove_first_other.
    intros Hs. apply Hni. unfold rule_id. rewrite <- Hs, Hc'.
    apply list_elem_of_fmap. exists r'. split; [done|by apply list_elem_of_In].
  - by rewrite lookup_insert_ne.
Qed.

Lemma teardown_spec table rules k :
  tidy pr table (sys_chains k) rules ->
  NoDup (map rule_id (List.filter (in_place pr (sys_chains k)) rules)) ->
  exists k', teardown_ip_tables ipt iptr rules k = (k', Ok ()) /\
             sys_chains k' = fold_left (take_out pr (sys_chains k)) rules (sys_chains k).
Proof.
  intros Hti Hnd. destruct (build_teardown_spec rules [] k) as (k1 & Hr1 & Hc1);
    [by eapply tidy_targets|].
  unfold teardown_ip_tables, io_bind. rewrite Hr1. set (m := teardown_entries _ _ _).
  assert (clean_script m = true /\ restore_script pr m (sys_chains k1)
            = Some (fold_left (take_out pr (sys_chains k)) rules (sys_chains k))) as [Hm Hs].
  { subst m. rewrite teardown_entries_filter, take_outs_filter, Hc1.
    destruct Hti as [Hn Ht Hcl _]. rewrite Forall_forall in Ht, Hcl.
    assert (Forall (fun r => (ir_table r = table /\ in_place pr (sys_chains k) r = true) /\
              clean_line (with_prefix "-D" (ir_chain r) (ir_rulespec r)) = true)
              (List.filter (in_place pr (sys_chains k)) rules)) as Hf.
    { apply Forall_forall. intros r [Hr Hp]%filter_In. destruct (Ht r Hr) as [? _].
      split_and!; [done..|]. apply rule_line_clean; [done..|]. by apply Hcl. }
    revert Hnd Hf. generalize (List.filter (in_place pr (sys_chains k)) rules). intros [|r rs] Hnd Hf; [done|].
    rewrite (entries_from_nil table) by (revert Hf; apply Forall_impl; naive_solver).
    assert (forall l : list IPTablesRule, flat_map (fun r => [with_prefix "-D" (ir_chain r) (ir_rulespec r)]) l
              = map (fun r => with_prefix "-D" (ir_chain r) (ir_rulespec r)) l) as ->
      by (intros l; induction l as [|x l IHl]; cbn; [done|by rewrite IHl]).
    split.
    - unfold clean_script. cbn [forallb fst snd]. rewrite Hn, andb_true_r. apply forallb_forall.
      intros l (r' & <- & Hr')%in_map_iff. rewrite Forall_forall in Hf. by apply Hf.
    - cbn [restore_script]. rewrite (take_outs_exec table (sys_chains k)); [done| |done|].
      + revert Hf. apply Forall_impl. naive_solver.
      + revert Hf. apply Forall_impl. intros r' [[_ Hp] _]. by apply andb_true_iff in Hp as [_ ?]. }
  destruct (apply_without_flush_spec pr iptr Hiptr m k1 _ Hm Hs) as (k2 & Hr2 & Hc2).
  exists k2. unfold io_map_err. by rewrite Hr2.
Qed.
End Teardown.
