(* ===== verification/IptSetup.v ===== *)
(** * What the iptables manager achieves

    With working tools ([IptTools]): the masquerade set-up of both families
    from any previous state, and the repair of missing rules by the resync
    task. *)

From S2P Require Import Prelude RustStr StdNet IpNet Ip6Net Lease IptRules Iptables IptTools.
#[local] Open Scope string_scope.
#[local] Open Scope list_scope.
#[local] Open Scope Z_scope.

(** *** The masquerade rules *)

(** A word like the text of a network. *)
Definition plain_text (s : string) : bool :=
  negb (str_is_empty s) && str_all word_char s && negb (str_starts_with "-" s).

Lemma clean_token_plain prev t : prev <> Some "--comment" -> plain_text t = true -> clean_token prev t = true.
Proof.
  intros Hp [Ht _]%andb_true_iff. unfold clean_token. by rewrite bool_decide_false.
Qed.

Lemma clean_token_after t u : plain_text t = true -> clean_token (Some t) u = clean_token None u.
Proof.
  intros [_ Ht]%andb_true_iff. unfold clean_token. rewrite !bool_decide_false; [done|done|].
  intros [= ->]. done.
Qed.

Lemma jump_target_skip t spec : plain_text t = true -> jump_target (t :: spec) = jump_target spec.
Proof.
  intros [_ Ht]%andb_true_iff. cbn. destruct (String.eqb_spec t "-j") as [->|]; done.
Qed.

Section MasqRules.
Context (cluster pod multicast : string) (disable supports : bool).
Hypothesis Hcluster : plain_text cluster = true.
Hypothesis Hpod : plain_text pod = true.
Hypothesis Hmulticast : plain_text multicast = true.

#[local] Abbreviation RULES := (masq_rules_with cluster pod multicast disable supports).

Ltac clean_masq :=
  cbn [ir_rulespec ir_chain rule commented push_spec app clean_tokens];
  rewrite ?(clean_token_after cluster), ?(clean_token_after pod), ?(clean_token_after multicast) by done;
  rewrite ?(clean_token_plain _ cluster), ?(clean_token_plain _ pod), ?(clean_token_plain _ multicast)
    by done; done.

Ltac target_masq :=
  unfold target_ok; cbn [ir_rulespec rule commented push_spec app];
  repeat match goal with
  | |- context [jump_target (?t :: ?l)] =>
      first [rewrite (jump_target_skip t l) by done
            |change (jump_target (t :: l)) with (jump_target l)]
  end; done.

Lemma masq_tidy pr c : tidy pr "nat" c RULES.
Proof.
  unfold masq_rules_with. split; [done| | |].
  - destruct (supports && negb disable); repeat constructor.
  - destruct (supports && negb disable); repeat (apply Forall_cons; [split; clean_masq|]); apply Forall_nil.
  - destruct (supports && negb disable);
      repeat (apply Forall_cons; [(by right) || (left; target_masq)|]); apply Forall_nil.
Qed.

Lemma masq_nodup : cluster <> pod -> NoDup (map rule_id RULES).
Proof.
  intros Hne. unfold masq_rules_with, rule_id.
  destruct (supports && negb disable); cbn;
    repeat (apply list.NoDup_cons; split;
            [intros Hin; repeat (apply elem_of_cons in Hin as [Hin|Hin]; [congruence|]);
             by apply elem_of_nil in Hin|]);
    by apply list.NoDup_nil.
Qed.

Lemma masq_placeable pr c :
  cluster <> pod -> is_some (c !! (pr, "nat", "POSTROUTING")) = true -> placeable pr "nat" c RULES.
Proof.
  intros Hne Hpost. split; [apply masq_tidy|by apply masq_nodup|].
  unfold masq_rules_with. destruct (supports && negb disable);
    repeat (apply Forall_cons; [(by left) || (by right)|]); apply Forall_nil.
Qed.

Lemma masq_specs :
  RULES = rule "nat" "POSTROUTING" (commented [] "flanneld masq" "FLANNEL-POSTRTG") :: tail RULES /\
  specs_of RULES "POSTROUTING" = [commented [] "flanneld masq" "FLANNEL-POSTRTG"] /\
  specs_of RULES "FLANNEL-POSTRTG" = map ir_rulespec (tail RULES) /\
  Forall (fun r => ir_table r = "nat" /\ ir_chain r = "FLANNEL-POSTRTG" /\
                   flannel_chain r = Some "FLANNEL-POSTRTG") (tail RULES).
Proof.
  unfold masq_rules_with, specs_of. destruct (supports && negb disable); split_and!;
    try done; repeat constructor.
Qed.
End MasqRules.

(** *** Setting up one family *)

Lemma without_nil specs : without specs [] = [].
Proof. unfold without. induction specs as [|s specs IH]; [done|]. exact IH. Qed.

Lemma remove_first_twice spec l : NoDup l -> remove_first spec (remove_first spec l) = remove_first spec l.
Proof.
  intros Hnd. apply remove_first_notin. induction Hnd as [|x l Hx Hnd IH]; cbn; [apply not_elem_of_nil|].
  destruct (decide (x = spec)) as [<-|]; [done|]. apply not_elem_of_cons. split; [done|exact IH].
Qed.

Lemma take_outs_other pr c0 rules c key :
  Forall (fun r => key <> rule_key pr r) rules ->
  fold_left (take_out pr c0) rules c !! key = c !! key.
Proof.
  intros Hk. revert c. induction Hk as [|r rules Hr _ IH]; intros c; cbn; [done|].
  rewrite IH. unfold take_out. destruct (in_place pr c0 r); [|done]. by rewrite lookup_insert_ne.
Qed.

(** The probe's answer. *)
Definition tool_supports `{IptLaws K} (pr : Protocol) : bool :=
  match parse_version (tool_version pr) with Ok v => has_random_fully_support v | Err _ => false end.

Section Family.
Context `{IptLaws K} (pr : Protocol).

Lemma supports_random_fully_spec k : supports_random_fully pr k = (k, tool_supports pr).
Proof.
  unfold supports_random_fully, tool_supports, IPTables_new, io_bind, io_get, io_lift, command.
  rewrite tool_found. cbn. rewrite tool_says_version. by destruct (parse_version (tool_version pr)).
Qed.

Lemma create_chain_spec t ch k : sys_chains (create_chain pr t ch k) = <[(pr, t, ch) := []]> (sys_chains k).
Proof.
  unfold create_chain, io_bind. destruct (IPTables_new_ok pr k) as (ipt & -> & Hipt).
  destruct (ipt_clear_chain_spec pr ipt Hipt t ch k) as (k' & -> & Hc). exact Hc.
Qed.

Lemma delete_tables_spec table rules k :
  tidy pr table (sys_chains k) rules ->
  NoDup (map rule_id (List.filter (in_place pr (sys_chains k)) rules)) ->
  exists k', delete_tables pr rules k = (k', Ok ()) /\
             sys_chains k' = fold_left (take_out pr (sys_chains k)) rules (sys_chains k).
Proof.
  intros Hti Hnd. unfold delete_tables, io_bind.
  destruct (IPTables_new_ok pr k) as (ipt & -> & Hipt).
  destruct (IPTablesRestore_new_ok pr k) as (iptr & -> & Hiptr).
  by eapply teardown_spec.
Qed.

Lemma setup_and_ensure_spec table rules seconds m k :
  placeable pr table (sys_chains k) rules ->
  exists k' ipt iptr,
    setup_and_ensure pr rules seconds m k
    = (k', manager_extend pr rules (mkResyncTask ipt iptr rules (Z.max seconds 1)) m) /\
    sys_chains k' = placed pr rules (sys_chains k).
Proof.
  intros Hp. unfold setup_and_ensure.
  destruct (IPTables_new_ok pr k) as (ipt & -> & Hipt).
  destruct (IPTablesRestore_new_ok pr k) as (iptr & -> & Hiptr).
  destruct (bootstrap_spec pr ipt iptr Hipt Hiptr table rules k Hp) as (k' & -> & Hc).
  by exists k', ipt, iptr.
Qed.

Definition JUMP : list string := commented [] "flanneld masq" "FLANNEL-POSTRTG".

(** The chains of the nat table that the manager owns or changes. *)
Definition masq_done (c c' : Chains) (rules : list IPTablesRule) : Prop :=
  chain_of c' pr "nat" "FLANNEL-POSTRTG" = map ir_rulespec (tail rules) /\
  chain_of c' pr "nat" "POSTROUTING" = remove_first JUMP (chain_of c pr "nat" "POSTROUTING") ++ [JUMP] /\
  forall key, key <> (pr, "nat", "FLANNEL-POSTRTG") -> key <> (pr, "nat", "POSTROUTING") ->
    c' !! key = c !! key.

Context (cl pod mc old_cl old_pod : string) (disable : bool) (seconds : Z).
#[local] Abbreviation NEW := (fun s => masq_rules_with cl pod mc disable s).
#[local] Abbreviation OLD := (fun s => masq_rules_with old_cl old_pod mc disable s).
Hypothesis Hcl : plain_text cl = true.
Hypothesis Hpod : plain_text pod = true.
Hypothesis Hmc : plain_text mc = true.
Hypothesis Hocl : plain_text old_cl = true.
Hypothesis Hopod : plain_text old_pod = true.
Hypothesis Hne : cl <> pod.

(** The recycling of the old rules leaves POSTROUTING without the jump at most. *)
Lemma recycle_spec (changed : bool) k :
  NoDup (map rule_id (List.filter (in_place pr (sys_chains k)) (OLD (tool_supports pr)))) ->
  exists k', (if changed then
                let '(k, supports) := supports_random_fully pr k in delete_tables pr (OLD supports) k
              else (k, Ok ())) = (k', Ok ()) /\
    (sys_chains k' !! (pr, "nat", "POSTROUTING") = sys_chains k !! (pr, "nat", "POSTROUTING") \/
     sys_chains k' !! (pr, "nat", "POSTROUTING")
     = Some (remove_first JUMP (chain_of (sys_chains k) pr "nat" "POSTROUTING"))) /\
    forall key, key <> (pr, "nat", "FLANNEL-POSTRTG") -> key <> (pr, "nat", "POSTROUTING") ->
      sys_chains k' !! key = sys_chains k !! key.
Proof.
  intros Hnd. destruct changed; [|exists k; split_and!; [done|by left|done]].
  rewrite supports_random_fully_spec.
  destruct (delete_tables_spec "nat" (OLD (tool_supports pr)) k) as (k' & -> & Hc);
    [by apply masq_tidy|done|].
  exists k'. split; [done|]. rewrite Hc.
  destruct (masq_specs old_cl old_pod mc disable (tool_supports pr)) as (-> & _ & _ & Htl). cbn [tl fold_left].
  assert (forall key c, key <> (pr, "nat", "FLANNEL-POSTRTG") ->
    fold_left (take_out pr (sys_chains k)) (tail (OLD (tool_supports pr))) c !! key = c !! key) as Hoth.
  { intros key c Hk. apply take_outs_other. revert Htl. apply Forall_impl. intros r (Ht & Hch & _).
    unfold rule_key. by rewrite Ht, Hch. }
  split.
  - rewrite Hoth by done. unfold take_out. destruct (in_place pr (sys_chains k) _); [right|by left].
    by rewrite lookup_insert_eq.
  - intros key Hk1 Hk2. rewrite Hoth by done. unfold take_out. destruct (in_place pr (sys_chains k) _); [|done].
    by rewrite lookup_insert_ne by by apply not_eq_sym.
Qed.

Lemma setup_masq_family_spec (changed : bool) m k :
  is_some (sys_chains k !! (pr, "nat", "POSTROUTING")) = true ->
  NoDup (chain_of (sys_chains k) pr "nat" "POSTROUTING") ->
  NoDup (map rule_id (List.filter (in_place pr (sys_chains k)) (OLD (tool_supports pr)))) ->
  exists k' ipt iptr,
    let rules := NEW (tool_supports pr) in
    setup_masq_family pr changed OLD NEW seconds m k
    = (k', manager_extend pr rules (mkResyncTask ipt iptr rules (Z.max seconds 1)) m, Ok ()) /\
    masq_done (sys_chains k) (sys_chains k') rules.
Proof.
  intros Hpost Hnd Hold. destruct (recycle_spec changed k Hold) as (k1 & Hr1 & Hpr1 & Hoth1).
  unfold setup_masq_family. rewrite Hr1, supports_random_fully_spec.
  set (k2 := create_chain pr "nat" "FLANNEL-POSTRTG" k1).
  assert (sys_chains k2 = <[(pr, "nat", "FLANNEL-POSTRTG") := []]> (sys_chains k1)) as Hc2
    by apply create_chain_spec.
  assert (placeable pr "nat" (sys_chains k2) (NEW (tool_supports pr))) as Hpl.
  { apply masq_placeable; [done..|]. rewrite Hc2, lookup_insert_ne by done.
    destruct Hpr1 as [->| ->]; [done|done]. }
  destruct (setup_and_ensure_spec "nat" (NEW (tool_supports pr)) seconds m k2 Hpl) as (k3 & ipt & iptr & -> & Hc3).
  exists k3, ipt, iptr. cbv zeta. split; [done|].
  destruct (masq_specs cl pod mc disable (tool_supports pr)) as (Heq & Hs1 & Hs2 & Htl).
  unfold masq_done. rewrite Hc3, !chain_of_placed, Hs1, Hs2 by done. split_and!.
  - unfold chain_of. rewrite Hc2, lookup_insert_eq. cbn [default]. by rewrite without_nil.
  - f_equal. unfold without. cbn [fold_left]. fold JUMP. unfold chain_of at 1.
    rewrite Hc2, lookup_insert_ne by done.
    destruct Hpr1 as [->| ->]; [done|]. cbn [default]. by apply remove_first_twice.
  - intros key Hk1 Hk2. rewrite (placed_other pr "nat").
    + rewrite Hc2, lookup_insert_ne by by apply not_eq_sym. by apply Hoth1.
    + destruct Hpl as [[_ Ht _ _] _ _]. revert Ht. apply Forall_impl. naive_solver.
    + rewrite Heq. apply Forall_cons; [split; [done|intros ch [= <-]; done]|].
      revert Htl. apply Forall_impl. intros r (Ht & Hch & Hf). unfold rule_key. rewrite Ht, Hch, Hf.
      split; [done|]. by intros ch [= <-].
Qed.
End Family.

Lemma net_word c : net_char c = true -> word_char c = true /\ c <> "-"%char.
Proof.
  intros Hc. unfold word_char. split; [|by intros ->].
  rewrite !andb_true_iff, !negb_true_iff, !Ascii.eqb_neq. split_and!; by intros ->.
Qed.

Lemma net_plain_text s : str_all net_char s = true -> s <> "" -> plain_text s = true.
Proof.
  intros Hs Hne. unfold plain_text. apply String.eqb_neq in Hne. unfold str_is_empty. rewrite Hne.
  rewrite (str_all_mono net_char word_char) by (done || (intros c Hc; by apply net_word)).
  destruct s as [|c s]; [done|]. cbn in Hs |- *. apply andb_true_iff in Hs as [[_ Hc]%net_word _].
  apply Ascii.eqb_neq in Hc. by rewrite Hc.
Qed.

Lemma IP4Net_plain_text n : IP4Net_valid n -> plain_text (IP4Net_fmt n) = true.
Proof.
  intros Hn. apply net_plain_text; [apply IP4Net_fmt_chars; apply Hn|].
  intros E. apply IP4Net_from_str_fmt in Hn. by rewrite E in Hn.
Qed.

Lemma IP6Net_plain_text n : IP6Net_valid n -> plain_text (IP6Net_fmt n) = true.
Proof.
  intros Hn. apply net_plain_text; [by apply IP6Net_fmt_chars|].
  intros E. apply IP6Net_from_str_fmt in Hn. by rewrite E in Hn.
Qed.

(** ** Properties *)

(** The resync repairs.  With working tools, [ensure_iptables] succeeds;
    it changes nothing when every rule and flannel chain is there, and
    otherwise leaves every chain of the table with its other rules in their
    old order followed by the wanted rules in the wanted order, and every
    other table as it was.  Either way all rules are there afterwards. *)
Theorem iptables_ensure_repairs `{IptLaws K} (pr : Protocol) (table : string) (rules : list IPTablesRule) (k : K) :
  let c := sys_chains k in
  placeable pr table c rules ->
  exists k',
    (let! ipt := IPTables_new pr in
     let! iptr := IPTablesRestore_new pr in
     ensure_iptables ipt iptr rules) k = (k', Ok ()) /\
    let c' := sys_chains k' in
    Forall (fun r => rule_present pr c' r = true) rules /\
    if forallb (in_place pr c) rules then c' = c
    else (forall ch, chain_of c' pr table ch
                     = without (specs_of rules ch) (chain_of c pr table ch) ++ specs_of rules ch) /\
         (forall pr' table' ch, (pr', table') <> (pr, table) ->
            c' !! (pr', table', ch) = c !! (pr', table', ch)).
Proof.
  cbv zeta. intros Hp. unfold io_bind.
  destruct (IPTables_new_ok pr k) as (ipt & -> & Hipt).
  destruct (IPTablesRestore_new_ok pr k) as (iptr & -> & Hiptr).
  destruct (rules_exist_spec pr ipt Hipt rules k) as (k1 & Hr1 & Hc1); [eapply tidy_targets, Hp|].
  unfold ensure_iptables, io_bind, io_map_err at 1. rewrite Hr1. cbn [map_err].
  destruct (forallb (in_place pr (sys_chains k)) rules) eqn:E.
  - exists k1. split; [done|]. rewrite Hc1. split; [|done]. apply Forall_forall. intros r Hr.
    rewrite forallb_forall in E. specialize (E r Hr). by apply andb_true_iff in E as [_ ?].
  - destruct (bootstrap_spec pr ipt iptr Hipt Hiptr table rules k1) as (k2 & Hr2 & Hc2);
      [by rewrite Hc1|].
    exists k2. unfold io_map_err. rewrite Hr2. split; [done|]. rewrite Hc2, Hc1.
    split; [by eapply placed_present|]. split; [intros ch; by apply chain_of_placed|].
    intros pr' t' ch Hne. pose proof Hp as [[_ Ht _ _] _ _].
    apply (placed_other pr table).
    + revert Ht. apply Forall_impl. naive_solver.
    + revert Ht. apply Forall_impl. intros r [Htr _]. unfold rule_key. rewrite Htr.
      split; [|intros ? _]; congruence.
Qed.

(** What the set-up asks of the chains of one family: POSTROUTING exists
    without repeated rules, and the old rules in place are distinct. *)
Definition masq_ready (pr : Protocol) (c : Chains) (old : list IPTablesRule) : Prop :=
  is_some (c !! (pr, "nat", "POSTROUTING")) = true /\
  NoDup (chain_of c pr "nat" "POSTROUTING") /\
  NoDup (map rule_id (List.filter (in_place pr c) old)).

Lemma masq_ready_frame pr c c' old :
  (forall t ch, c' !! (pr, t, ch) = c !! (pr, t, ch)) -> masq_ready pr c old -> masq_ready pr c' old.
Proof.
  intros Hc (Hp & Hnd & Hold). unfold masq_ready, chain_of. rewrite !Hc. split_and!; [done..|].
  assert (forall l, List.filter (in_place pr c') l = List.filter (in_place pr c) l) as ->; [|done].
  intros l. apply filter_ext. intros r. unfold in_place, rule_present, chain_of. rewrite Hc.
  destruct (flannel_chain r); by rewrite ?Hc.
Qed.

(** C15: the masquerade set-up.  On a dual-stack node, with both tools
    installed and working ([IptLaws]), valid networks of which the current
    ones are not empty, a pod network whose text differs from the one of the
    cluster network in each family, and chains in which each POSTROUTING
    exists and repeats no rule and the rules of the previous networks that are
    in place are distinct ([masq_ready]): [setup_and_ensure_masq_rules]
    succeeds, whatever the previous networks were, and in each family leaves
    FLANNEL-POSTRTG holding exactly the rules of the current network in order,
    POSTROUTING with its other rules unchanged and in their order and the jump
    behind them, and every other chain as it was; it records the rules and
    starts one resync task per family with them.  The jump is the last rule of
    POSTROUTING: the comment on it in the source, that the flannel rules run
    before any other node rules, does not hold ([flannel_jumps_run_last]). *)
Theorem iptables_setup_masq `{IptLaws K} (network prev_subnet prev_network : IP4Net)
    (v6_network prev_v6_subnet prev_v6_network : IP6Net) (lease : Lease) (seconds : Z) (disable : bool)
    (m : IPTablesManager) (k : K) :
  let rules := masq_rules (tool_supports IPv4) network lease disable in
  let old := masq_rules (tool_supports IPv4) prev_network (prev_lease prev_subnet IP6Net_default) disable in
  let rules6 := masq_ip6_rules (tool_supports IPv6) v6_network lease disable in
  let old6 := masq_ip6_rules (tool_supports IPv6) prev_v6_network
                (prev_lease IP4Net_default prev_v6_subnet) disable in
  Forall IP4Net_valid [network; l_subnet lease; prev_subnet; prev_network] ->
  Forall IP6Net_valid [v6_network; l_ipv6_subnet lease; prev_v6_subnet; prev_v6_network] ->
  IP4Net_empty network = false -> IP6Net_empty v6_network = false ->
  IP4Net_fmt network <> IP4Net_fmt (l_subnet lease) ->
  IP6Net_fmt v6_network <> IP6Net_fmt (l_ipv6_subnet lease) ->
  masq_ready IPv4 (sys_chains k) old -> masq_ready IPv6 (sys_chains k) old6 ->
  exists k' m',
    setup_and_ensure_masq_rules network prev_subnet prev_network v6_network prev_v6_subnet prev_v6_network
      lease seconds disable m k = (k', m', Ok ()) /\
    (forall pr rs, (pr, rs) = (IPv4, rules) \/ (pr, rs) = (IPv6, rules6) ->
       chain_of (sys_chains k') pr "nat" "FLANNEL-POSTRTG" = map ir_rulespec (tail rs) /\
       chain_of (sys_chains k') pr "nat" "POSTROUTING"
       = remove_first JUMP (chain_of (sys_chains k) pr "nat" "POSTROUTING") ++ [JUMP]) /\
    (forall key, key.1.2 <> "nat" \/ key.2 ∉ ["FLANNEL-POSTRTG"; "POSTROUTING"] ->
       sys_chains k' !! key = sys_chains k !! key) /\
    im_ipv4_rules m' = im_ipv4_rules m ++ rules /\ im_ipv6_rules m' = im_ipv6_rules m ++ rules6 /\
    map rt_rules (im_tasks m') = map rt_rules (im_tasks m) ++ [rules; rules6].
Proof.
  cbv zeta. intros Hv Hv6 He He6 Hne Hne6 (Hp & Hnd & Hold) (Hp6 & Hnd6 & Hold6).
  rewrite !Forall_cons_iff in Hv, Hv6. destruct Hv as (V1 & V2 & V3 & V4 & _), Hv6 as (W1 & W2 & W3 & W4 & _).
  unfold setup_and_ensure_masq_rules. rewrite He, He6. cbn [negb].
  destruct (setup_masq_family_spec IPv4 (IP4Net_fmt network) (IP4Net_fmt (l_subnet lease)) "224.0.0.0/4"
              (IP4Net_fmt prev_network) (IP4Net_fmt prev_subnet) disable seconds
              (IP4Net_plain_text _ V1) (IP4Net_plain_text _ V2) eq_refl (IP4Net_plain_text _ V4)
              (IP4Net_plain_text _ V3) Hne
              (bool_decide (network <> prev_network) || bool_decide (prev_subnet <> l_subnet lease)) m k
              Hp Hnd Hold) as (k1 & ipt & iptr & Hr & Hd1 & Hd2 & Hd3).
  match goal with |- context [setup_masq_family IPv4 ?a ?b ?c ?d ?e ?f] =>
    replace (setup_masq_family IPv4 a b c d e f) with
      (k1, manager_extend IPv4 (masq_rules (tool_supports IPv4) network lease disable)
             (mkResyncTask ipt iptr (masq_rules (tool_supports IPv4) network lease disable) (Z.max seconds 1)) m,
       Ok () : result unit IptError) by (symmetry; exact Hr) end.
  destruct (masq_ready_frame IPv6 (sys_chains k) (sys_chains k1) (masq_ip6_rules (tool_supports IPv6)
    prev_v6_network (prev_lease IP4Net_default prev_v6_subnet) disable)) as (Q1 & Q2 & Q3);
    [intros t ch; by apply Hd3|done|].
  match goal with |- context [setup_masq_family IPv6 ?a _ _ _ ?e _] =>
    destruct (setup_masq_family_spec IPv6 (IP6Net_fmt v6_network) (IP6Net_fmt (l_ipv6_subnet lease)) "ff00::/8"
              (IP6Net_fmt prev_v6_network) (IP6Net_fmt prev_v6_subnet) disable seconds
              (IP6Net_plain_text _ W1) (IP6Net_plain_text _ W2) eq_refl (IP6Net_plain_text _ W4)
              (IP6Net_plain_text _ W3) Hne6 a e k1 Q1 Q2 Q3) as (k2 & ipt6 & iptr6 & Hr6 & He1 & He2 & He3)
  end.
  eexists k2, _. split; [exact Hr6|]. split_and!.
  - intros pr rs [[= -> ->]|[= -> ->]].
    + unfold chain_of. rewrite !He3 by done. by split.
    + split; [exact He1|]. rewrite He2. unfold chain_of. by rewrite Hd3 by done.
  - intros [[pr t] ch] Hk. cbn [fst snd] in Hk.
    assert (forall pr', (pr, t, ch) <> (pr', "nat", "FLANNEL-POSTRTG") /\ (pr, t, ch) <> (pr', "nat", "POSTROUTING"))
      as Hkk by (intros pr'; split; intros [= _ -> ->]; destruct Hk as [Hk|Hk]; [done| |done|]; apply Hk; rewrite !elem_of_cons; tauto).
    rewrite He3, Hd3; [done|apply Hkk..].
  - done.
  - done.
  - cbn. by rewrite !map_app, <- app_assoc.
Qed.

(** ** Witnesses: the tools as functions on the chains *)

Definition answer_run (a : Answer) : Ran :=
  match a with
  | AnsOk => Exited ""
  | AnsNotExist => Failed "iptables: No chain/target/match by that name."
  | AnsExist => Failed "iptables: Chain already exists."
  | AnsOther => Failed "iptables: Invalid argument."
  end.

Definition ref_run (path : string) (args : list string) (stdin : string) (c : Chains) : Chains * Ran :=
  if bool_decide (args = ["--version"]) then (c, Exited "iptables v1.8.7 (nf_tables)")
  else
    let tool pr := let '(c', a) := ipt_exec pr (plain_args args) c in (c', answer_run a) in
    let restore pr :=
      match read_payload stdin with
      | Some m => match restore_script pr m c with
                  | Some c' => (c', Exited "")
                  | None => (c, Failed "line failed")
                  end
      | None => (c, Failed "line failed")
      end in
    if String.eqb path "/sbin/iptables" then tool IPv4
    else if String.eqb path "/sbin/ip6tables" then tool IPv6
    else if String.eqb path "/sbin/iptables-restore" then restore IPv4
    else restore IPv6.

#[global] Instance ref_system : IptSystem Chains := {
  sys_path _ := Some ["/usr/local/sbin"; "/sbin"];
  sys_executable _ path := bool_decide (path ∈ ["/sbin/iptables"; "/sbin/ip6tables";
                                                "/sbin/iptables-restore"; "/sbin/ip6tables-restore"]);
  sys_run := ref_run;
}.

#[global] Program Instance ref_laws : IptLaws Chains := {|
  sys_chains := fun c => c;
  tool_path pr := match pr with IPv4 => "/sbin/iptables" | IPv6 => "/sbin/ip6tables" end;
  restore_path pr := match pr with IPv4 => "/sbin/iptables-restore" | IPv6 => "/sbin/ip6tables-restore" end;
  tool_version pr := "iptables v1.8.7 (nf_tables)";
|}.
Next Obligation. by intros c []. Qed.
Next Obligation. by intros c []. Qed.
Next Obligation. by intros c []. Qed.
Next Obligation. by intros []. Qed.
Next Obligation.
  intros c pr args Hne. cbn [sys_run ref_system]. unfold ref_run. rewrite bool_decide_false by done.
  assert (forall a, answered a (answer_run a)) as Ha by (intros []; cbn; eauto).
  destruct pr; cbn [String.eqb Ascii.eqb Bool.eqb]; destruct (ipt_exec _ _ c) as [c' a]; by split.
Qed.
Next Obligation.
  intros c pr args payload m Hm. cbn [sys_run ref_system]. unfold ref_run.
  rewrite bool_decide_false by done. rewrite Hm.
  destruct pr; cbn [String.eqb Ascii.eqb Bool.eqb]; destruct (restore_script _ m c); eauto.
Qed.

Definition flush_chains : Chains :=
  <[(IPv4, "nat", "POSTROUTING") := [["-j"; "KUBE-POSTROUTING"]; JUMP]]>
  (<[(IPv6, "nat", "POSTROUTING") := []]>
  (<[(IPv4, "filter", "FORWARD") := []]> ∅)).

Definition masq_sample : list IPTablesRule :=
  masq_rules_with "10.64.0.0/16" "10.64.1.0/24" "224.0.0.0/4" false true.

(** Someone flushed the rules but the jump. *)
Lemma iptables_ensure_repairs_witness :
  exists c', (let! ipt := IPTables_new IPv4 in
              let! iptr := IPTablesRestore_new IPv4 in
              ensure_iptables ipt iptr masq_sample) flush_chains = (c', Ok ()) /\
    chain_of c' IPv4 "nat" "FLANNEL-POSTRTG" = map ir_rulespec (tail masq_sample) /\
    chain_of c' IPv4 "nat" "POSTROUTING" = [["-j"; "KUBE-POSTROUTING"]; JUMP].
Proof.
  destruct (iptables_ensure_repairs (K := Chains) IPv4 "nat" masq_sample flush_chains) as (c' & Hr & _ & Hc).
  { apply masq_placeable; [by vm_compute..|done|by vm_compute]. }
  exists c'. split; [exact Hr|]. cbn [sys_chains ref_laws] in Hc.
  assert (forallb (in_place IPv4 flush_chains) masq_sample = false) as E by by vm_compute.
  rewrite E in Hc. destruct Hc as [Hc _]. rewrite !Hc. split; by vm_compute.
Defined.

Definition setup_lease : Lease :=
  mkLease true true (mkIP4Net 171966720 24) (mkIP6Net (ip6_from_value (64 * 2 ^ 120)) 64) LeaseAttrs_default 0 0.

Lemma iptables_setup_masq_witness :
  exists c' m',
    setup_and_ensure_masq_rules (K := Chains) (mkIP4Net 171966464 16) IP4Net_default IP4Net_default
      (mkIP6Net (ip6_from_value (64 * 2 ^ 120)) 48) IP6Net_default IP6Net_default setup_lease 5 false
      (mkIPTablesManager [] [] []) flush_chains = (c', m', Ok ()) /\
    chain_of c' IPv4 "nat" "FLANNEL-POSTRTG" = map ir_rulespec (tail masq_sample) /\
    length (im_tasks m') = 2%nat.
Proof.
  destruct (iptables_setup_masq (K := Chains) (mkIP4Net 171966464 16) IP4Net_default IP4Net_default
      (mkIP6Net (ip6_from_value (64 * 2 ^ 120)) 48) IP6Net_default IP6Net_default setup_lease 5 false
      (mkIPTablesManager [] [] []) flush_chains) as (c' & m' & Hr & Hc & _ & _ & _ & Ht).
  - repeat (apply Forall_cons; [apply (bool_decide_unpack _); by vm_compute|]). apply Forall_nil.
  - repeat (apply Forall_cons; [apply (bool_decide_unpack _); by vm_compute|]). apply Forall_nil.
  - by vm_compute.
  - by vm_compute.
  - intros E. vm_compute in E. discriminate E.
  - intros E. vm_compute in E. discriminate E.
  - split_and!; [by vm_compute|apply (bool_decide_unpack _); by vm_compute..].
  - split_and!; [by vm_compute|apply (bool_decide_unpack _); by vm_compute..].
  - exists c', m'. split; [exact Hr|]. split.
    + destruct (Hc IPv4 _ (or_introl eq_refl)) as [H1 _]. cbn [sys_chains ref_laws] in H1. rewrite H1. by vm_compute.
    + rewrite <- (length_map rt_rules), Ht. done.
Defined.

(** The jumps to the flannel chains are appended: a rule that the node had in
    POSTROUTING or FORWARD is tried before all rules of flannel. *)
Theorem flannel_jumps_run_last :
  let node_rule := ["-j"; "KUBE-FORWARD"] in
  let c := <[(IPv4, "filter", "FORWARD") := [node_rule]]> flush_chains in
  let network := mkIP4Net 171966464 16 in
  let masq := setup_and_ensure_masq_rules (K := Chains) network IP4Net_default IP4Net_default
                IP6Net_default IP6Net_default IP6Net_default setup_lease 5 false (mkIPTablesManager [] [] []) c in
  let forward := setup_and_ensure_forward_rules (K := Chains) network IP6Net_default 5 (mkIPTablesManager [] [] []) c in
  chain_of masq.1.1 IPv4 "nat" "POSTROUTING" = [["-j"; "KUBE-POSTROUTING"]; JUMP]
  /\ chain_of forward.1 IPv4 "filter" "FORWARD" = [node_rule; commented [] "flanneld forward" "FLANNEL-FWD"].
Proof. by vm_compute. Qed.

(** The order is not checked: rules that are all there in another order are
    left as they are. *)
Theorem ensure_keeps_wrong_order :
  let c := <[(IPv4, "nat", "POSTROUTING") := [JUMP]]>
           (<[(IPv4, "nat", "FLANNEL-POSTRTG") := rev (map ir_rulespec (tail masq_sample))]> ∅) : Chains in
  let '(c', res) := (let! ipt := IPTables_new IPv4 in
                     let! iptr := IPTablesRestore_new IPv4 in
                     ensure_iptables ipt iptr masq_sample) c in
  is_ok res = true /\
  chain_of c' IPv4 "nat" "FLANNEL-POSTRTG" = rev (map ir_rulespec (tail masq_sample)).
Proof. by vm_compute. Qed.

(** Cleaning up leaves the forward rules and the jumps: FLANNEL-FWD is looked
    for in the nat table, and the emptied FLANNEL-POSTRTG is still referenced. *)
Theorem clean_up_leaves_rules :
  let fwd := forward_rules "10.64.0.0/16" in
  let c := placed IPv4 fwd (placed IPv4 masq_sample flush_chains) in
  let '(c', res) := iptables_clean_up (K := Chains) c in
  is_ok res = true /\
  chain_of c' IPv4 "filter" "FLANNEL-FWD" = specs_of fwd "FLANNEL-FWD" /\
  chain_of c' IPv4 "nat" "POSTROUTING" = [["-j"; "KUBE-POSTROUTING"]; JUMP] /\
  c' !! (IPv4, "nat", "FLANNEL-POSTRTG") = Some [].
Proof. by vm_compute. Qed.
