(* ===== verification/Nftables.v ===== *)
(** * [trafficmngr/nft.rs], [nftables.rs], [nftables_masq.rs]: the nftables manager

    Transactions rendered to scripts for [nft], the masquerade and forward
    rules as texts, and the manager that runs them.  Files and processes are
    the interface [IptSystem]; [NftLaws] states what [nft] does with a script,
    by a reading of the lines that the transactions can contain. *)

From S2P Require Import Prelude RustStr StdNet IpNet Ip6Net Lease IptRules Iptables.
#[local] Open Scope string_scope.
#[local] Open Scope list_scope.
#[local] Open Scope Z_scope.

(** ** Transactions *)

Inductive Family := Ip | Ip6.

#[global] Instance Family_eq_dec : EqDecision Family.
Proof. solve_decision. Defined.

Definition family_str (f : Family) : string := match f with Ip => "ip" | Ip6 => "ip6" end.

Definition nft_concat (parts : list string) : string := str_join " " parts.

Record ChainDef := mkChainDef {
  cd_name : string;
  cd_comment : option string;
  cd_typ : option string;
  cd_hook : option string;
  cd_priority : option string;
}.

Record Transaction := mkTransaction {
  tx_family : Family;
  tx_table : string;
  tx_modern : bool;
  tx_lines : list string;
}.

Definition Transaction_new (family : Family) (table : string) (modern : bool) : Transaction :=
  mkTransaction family table modern [].

Definition push_tx (line : string) (tx : Transaction) : Transaction :=
  mkTransaction (tx_family tx) (tx_table tx) (tx_modern tx) (tx_lines tx ++ [line]).

(** [<op> table <family> <table>] and the like *)
Definition tx_head (op : string) (tx : Transaction) : string :=
  op +:+ " " +:+ family_str (tx_family tx) +:+ " " +:+ tx_table tx.

Definition add_table (comment : option string) (tx : Transaction) : Transaction :=
  let line := tx_head "add table" tx in
  push_tx (match comment with
           | Some c => if tx_modern tx then line +:+ " comment " +:+ debug_str c else line
           | None => line
           end) tx.

Definition opt_text (prefix : string) (o : option string) : string :=
  match o with Some s => prefix +:+ s | None => "" end.

Definition chain_attrs (modern : bool) (def : ChainDef) : list string :=
  let opt prefix o := option_list (option_map (fun s => prefix +:+ s) o) in
  opt "comment " (option_map debug_str (cd_comment def))
  ++ (if modern then
        opt "type " (cd_typ def) ++ opt "hook " (cd_hook def) ++ opt "priority " (cd_priority def)
      else if is_some (cd_typ def) || is_some (cd_hook def) || is_some (cd_priority def) then
        [opt_text "type " (cd_typ def) +:+ opt_text " hook " (cd_hook def)
           +:+ opt_text " priority " (cd_priority def)]
      else []).

Definition add_chain_tx (def : ChainDef) (tx : Transaction) : Transaction :=
  let attrs := chain_attrs (tx_modern tx) def in
  let line := tx_head "add chain" tx +:+ " " +:+ cd_name def in
  push_tx (match attrs with
           | [] => line
           | _ => line +:+ " { " +:+ str_join " ; " attrs +:+ " ; }"
           end) tx.

Definition flush_chain (name : string) (tx : Transaction) : Transaction :=
  push_tx (tx_head "flush chain" tx +:+ " " +:+ name) tx.

Definition add_rule (chain rule : string) (tx : Transaction) : Transaction :=
  push_tx (tx_head "add rule" tx +:+ " " +:+ chain +:+ " " +:+ rule) tx.

Definition delete_table (tx : Transaction) : Transaction := push_tx (tx_head "delete table" tx) tx.

Definition render (tx : Transaction) : string :=
  match tx_lines tx with [] => "" | lines => str_join EOL lines +:+ EOL end.

(** ** Rules *)

Definition IPV4_TABLE : string := "flannel-ipv4".
Definition IPV6_TABLE : string := "flannel-ipv6".
Definition FORWARD_CHAIN : string := "forward".
Definition POSTRTG_CHAIN : string := "postrtg".
Definition MASQUERADE_TEST_CHAIN : string := "masqueradeTest".
Definition MASQ_FULLY_RANDOM : string := "masquerade fully-random".
Definition MASQ_PLAIN : string := "masquerade".

Definition table_name (family : Family) : string :=
  match family with Ip => IPV4_TABLE | Ip6 => IPV6_TABLE end.

Definition chain_def (name comment typ hook priority : string) : ChainDef :=
  mkChainDef name (Some comment) (Some typ) (Some hook) (Some priority).

Definition masq_rule_texts (cluster_cidr pod_cidr family masquerade : string) : list string :=
  let multicast_cidr := if String.eqb family "ip6" then "ff00::/8" else "224.0.0.0/4" in
  [ nft_concat ["meta mark"; "0x4000"; "return"];
    nft_concat [family; "saddr"; pod_cidr; family; "daddr"; cluster_cidr; "return"];
    nft_concat [family; "saddr"; cluster_cidr; family; "daddr"; pod_cidr; "return"];
    nft_concat [family; "saddr"; "!="; pod_cidr; family; "daddr"; cluster_cidr; "return"];
    nft_concat [family; "saddr"; cluster_cidr; family; "daddr"; "!="; multicast_cidr; masquerade];
    nft_concat [family; "saddr"; "!="; cluster_cidr; family; "daddr"; cluster_cidr; masquerade] ].

Definition masquerade_test_tx (modern : bool) : Transaction :=
  let tx := Transaction_new Ip IPV4_TABLE modern in
  let tx := add_chain_tx (chain_def MASQUERADE_TEST_CHAIN
              "chain to test if masquerade random fully is supported" "nat" "postrouting" "100") tx in
  let tx := flush_chain MASQUERADE_TEST_CHAIN tx in
  add_rule MASQUERADE_TEST_CHAIN (nft_concat ["ip saddr"; "!="; "127.0.0.1"; MASQ_FULLY_RANDOM]) tx.

Definition forward_tx (family : Family) (modern : bool) (network : string) : Transaction :=
  let f := family_str family in
  let tx := Transaction_new family (table_name family) modern in
  let tx := add_chain_tx (chain_def FORWARD_CHAIN "chain to accept flannel traffic"
                            "filter" "forward" "0") tx in
  let tx := flush_chain FORWARD_CHAIN tx in
  let tx := add_rule FORWARD_CHAIN (nft_concat [f; "saddr"; network; "accept"]) tx in
  add_rule FORWARD_CHAIN (nft_concat [f; "daddr"; network; "accept"]) tx.

(** ** Running scripts *)

Record Nft := mkNft {
  nft_family : Family;
  nft_table : string;
  nft_path : string;
  nft_modern : bool;
}.

Record NFTablesManager := mkNFTablesManager { nm_v4 : option Nft; nm_v6 : option Nft }.

Section Manager.
Context `{IptSystem K} (cancelled : K -> bool).
#[local] Abbreviation IO := (io K string).

Definition nft_look_path (k : K) (bin : string) : option string :=
  match sys_path k with
  | None => None
  | Some dirs => List.find (sys_executable k) (map (fun dir => path_join dir bin) dirs)
  end.

(** [nft [-c] -f -]; the token may end the wait. *)
Definition exec_script (path : string) (check : bool) (script : string) : IO unit :=
  fun k =>
    let '(k, ran) := sys_run path ((if check then ["-c"] else []) ++ ["-f"; "-"]) script k in
    (k, match ran with
        | NotRun e => Err ("nft spawn failed: " +:+ e)
        | Exited _ => if cancelled k then Err "nft run cancelled" else Ok ()
        | Failed detail =>
            if cancelled k then Err "nft run cancelled"
            else Err ("nft run failed: " +:+ str_trim detail)
        end).

Definition probe_script (family : Family) : string :=
  let f := family_str family in
  "add table " +:+ f +:+ " flannel-syntax-probe comment " +:+ debug_str "probe" +:+ EOL
  +:+ "add chain " +:+ f +:+ " flannel-syntax-probe probe { comment " +:+ debug_str "probe"
  +:+ " ; type filter ; hook forward ; priority 0 ; }" +:+ EOL.

(** The probe runs with a token of its own, which nothing cancels. *)
Definition probe_modern_syntax (path : string) (family : Family) (k : K) : K * bool :=
  let '(k, ran) := sys_run path ["-c"; "-f"; "-"] (probe_script family) k in
  (k, match ran with Exited _ => true | _ => false end).

Definition Nft_new (family : Family) (table : string) : IO Nft :=
  fun k =>
    match nft_look_path k "nft" with
    | None => (k, Err "no nftables support: nft binary not found")
    | Some path =>
        let '(k, modern) := probe_modern_syntax path family k in
        (k, Ok (mkNft family table path modern))
    end.

Definition new_transaction (nft : Nft) : Transaction :=
  Transaction_new (nft_family nft) (nft_table nft) (nft_modern nft).

Definition nft_run (nft : Nft) (tx : Transaction) : IO unit := exec_script (nft_path nft) false (render tx).
Definition nft_check (nft : Nft) (tx : Transaction) : IO unit := exec_script (nft_path nft) true (render tx).

(** ** The manager *)

Definition handle (slot : option Nft) (which : string) : IO Nft :=
  io_lift (ok_or slot ("nftables: " +:+ which +:+ " handle not initialised (Init not called)")).

Definition check_random_fully (mgr : NFTablesManager) (k : K) : K * bool :=
  match nm_v4 mgr with
  | None => (k, false)
  | Some nft =>
      let '(k, r) := nft_check nft (masquerade_test_tx (nft_modern nft)) k in (k, is_ok r)
  end.

Definition add_masq_rules (mgr : NFTablesManager) (tx : Transaction) (cluster_cidr pod_cidr : string)
    (family : Family) (random_fully_disabled : bool) (k : K) : K * Transaction :=
  let '(k, supported) := check_random_fully mgr k in
  let masquerade := if supported && negb random_fully_disabled then MASQ_FULLY_RANDOM else MASQ_PLAIN in
  (k, fold_left (fun tx rule => add_rule POSTRTG_CHAIN rule tx)
        (masq_rule_texts cluster_cidr pod_cidr (family_str family) masquerade) tx).

Definition init_table (family : Family) (name : string) : IO Nft :=
  let! nft := Nft_new family name in
  let tx := add_table (Some ("rules for " +:+ name)) (new_transaction nft) in
  let! _ := io_map_err (fun e => "nftables: couldn't initialise table " +:+ name +:+ ": " +:+ e)
              (nft_run nft tx) in
  io_ret nft.

Definition clean_up_table (family : Family) (k : K) : K :=
  ((let! nft := Nft_new family (table_name family) in
    nft_run nft (delete_table (new_transaction nft))) k).1.

Definition ensure_forward (slot : option Nft) (which net : string) (k : K) : K :=
  ((let! nft := handle slot which in
    nft_run nft (forward_tx (nft_family nft) (nft_modern nft) net)) k).1.

Definition nft_clean_up (k : K) : K := clean_up_table Ip6 (clean_up_table Ip k).

(** [init] stores each handle as soon as its table is there. *)
Definition nft_init (mgr : NFTablesManager) (k : K) : K * NFTablesManager * result unit string :=
  match init_table Ip IPV4_TABLE k with
  | (k, Err e) => (k, mgr, Err e)
  | (k, Ok v4) =>
      let mgr := mkNFTablesManager (Some v4) (nm_v6 mgr) in
      match init_table Ip6 IPV6_TABLE k with
      | (k, Err e) => (k, mgr, Err e)
      | (k, Ok v6) => (k, mkNFTablesManager (nm_v4 mgr) (Some v6), Ok ())
      end
  end.

Definition setup_masq (mgr : NFTablesManager) (slot : option Nft) (which cluster_cidr pod_cidr : string)
    (family : Family) (random_fully_disabled : bool) : IO unit :=
  let! nft := handle slot which in
  let tx := add_chain_tx (chain_def POSTRTG_CHAIN "chain to manage traffic masquerading by flannel"
                            "nat" "postrouting" "100") (new_transaction nft) in
  let tx := flush_chain POSTRTG_CHAIN tx in
  fun k =>
    let '(k, tx) := add_masq_rules mgr tx cluster_cidr pod_cidr family random_fully_disabled k in
    io_map_err (fun e => "nftables: couldn't setup masq rules: " +:+ e) (nft_run nft tx) k.

Definition nft_setup_masq_rules (mgr : NFTablesManager) (network : IP4Net) (v6_network : IP6Net)
    (lease : Lease) (random_fully_disabled : bool) : IO unit :=
  let! _ :=
    if negb (IP4Net_empty network) then
      setup_masq mgr (nm_v4 mgr) "ipv4" (IP4Net_fmt network) (IP4Net_fmt (l_subnet lease)) Ip
        random_fully_disabled
    else io_ret () in
  if negb (IP6Net_empty v6_network) then
    setup_masq mgr (nm_v6 mgr) "ipv6" (IP6Net_fmt v6_network) (IP6Net_fmt (l_ipv6_subnet lease)) Ip6
      random_fully_disabled
  else io_ret ().

Definition nft_setup_forward_rules (mgr : NFTablesManager) (network : IP4Net) (v6_network : IP6Net)
    (k : K) : K :=
  let k := if negb (IP4Net_empty network)
           then ensure_forward (nm_v4 mgr) "ipv4" (IP4Net_fmt network) k else k in
  if negb (IP6Net_empty v6_network)
  then ensure_forward (nm_v6 mgr) "ipv6" (IP6Net_fmt v6_network) k else k.
End Manager.

(** ** What [nft] does with a script *)

Abbreviation NftChains := (gmap string (list (list string))).
Abbreviation NftTables := (gmap (string * string) NftChains).

(** One line, by its words; a rule is kept as its words. *)
Definition nft_line (words : list string) (t : NftTables) : option NftTables :=
  match words with
  | "add" :: "table" :: f :: tb :: _ =>
      Some (if is_some (t !! (f, tb)) then t else <[(f, tb) := ∅]> t)
  | "add" :: "chain" :: f :: tb :: ch :: _ =>
      match t !! (f, tb) with
      | Some chains => Some (if is_some (chains !! ch) then t else <[(f, tb) := <[ch := []]> chains]> t)
      | None => None
      end
  | "flush" :: "chain" :: f :: tb :: ch :: _ =>
      match t !! (f, tb) with
      | Some chains => if is_some (chains !! ch) then Some (<[(f, tb) := <[ch := []]> chains]> t) else None
      | None => None
      end
  | "add" :: "rule" :: f :: tb :: ch :: rule =>
      match t !! (f, tb) with
      | Some chains =>
          match chains !! ch with
          | Some rules => Some (<[(f, tb) := <[ch := rules ++ [rule]]> chains]> t)
          | None => None
          end
      | None => None
      end
  | "delete" :: "table" :: f :: tb :: _ => if is_some (t !! (f, tb)) then Some (delete (f, tb) t) else None
  | _ => None
  end.

Fixpoint nft_lines (lines : list string) (t : NftTables) : option NftTables :=
  match lines with
  | [] => Some t
  | l :: lines => match nft_line (str_split " " l) t with Some t => nft_lines lines t | None => None end
  end.

(** A script is carried out as a whole or not at all; checking one changes
    nothing. *)
Class NftLaws (K : Type) `{IptSystem K} := {
  nft_tables : K -> NftTables;
  nft_runs k path script :
    match sys_run path ["-f"; "-"] script k with
    | (k', Exited _) => nft_lines (str_lines script) (nft_tables k) = Some (nft_tables k')
    | (k', _) => nft_tables k' = nft_tables k
    end;
  nft_checks k path script : nft_tables (sys_run path ["-c"; "-f"; "-"] script k).1 = nft_tables k;
}.

(** ** What the rules do *)

Section NftTraverse.
Context {A : Type} (net_of : string -> option (A -> bool)) (family : string).

(** Conditions and verdict of a rule, as [spec_matches] for iptables. *)
Fixpoint nft_matches (p : @Packet A) (toks : list string) : option (bool * string) :=
  match toks with
  | [] => None
  | fam :: toks =>
      if String.eqb fam "meta" then
        match toks with
        | key :: value :: toks =>
            if String.eqb key "mark" && String.eqb value "0x4000" then
              match nft_matches p toks with
              | Some (b, v) => Some ((pk_mark p =? 16384) && b, v)
              | None => None
              end
            else None
        | _ => None
        end
      else
        match toks with
        | [] => Some (true, fam)
        | dir :: toks =>
            if String.eqb dir "fully-random" then
              match toks with [] => Some (true, fam) | _ => None end
            else if negb (String.eqb fam family) then None
            else
              let field := if String.eqb dir "saddr" then Some (pk_src p)
                           else if String.eqb dir "daddr" then Some (pk_dst p) else None in
              let test neg cidr rest :=
                match field, net_of cidr, rest with
                | Some a, Some net, Some (b, v) => Some (xorb neg (net a) && b, v)
                | _, _, _ => None
                end in
              match toks with
              | [] => None
              | x :: toks =>
                  if String.eqb x "!=" then
                    match toks with
                    | [] => None
                    | cidr :: toks => test true cidr (nft_matches p toks)
                    end
                  else test false x (nft_matches p toks)
              end
        end
  end.

Fixpoint nft_traverse (rules : list (list string)) (p : @Packet A) : option Outcome :=
  match rules with
  | [] => Some Through
  | r :: rules =>
      match nft_matches p r with
      | None => None
      | Some (false, _) => nft_traverse rules p
      | Some (true, v) =>
          if String.eqb v "return" then Some Through
          else if String.eqb v "masquerade" then Some Masqueraded
          else if String.eqb v "accept" then Some Accepted
          else None
      end
  end.
End NftTraverse.

(** The decision that the six rules add up to. *)
Definition nft_masq_outcome {A} (cluster pod mcast : A -> bool) (p : @Packet A) : Outcome :=
  if (pk_mark p =? 16384) || cluster (pk_dst p) || cluster (pk_src p) && pod (pk_dst p) then Through
  else if cluster (pk_src p) && negb (mcast (pk_dst p)) then Masqueraded
  else Through.

(** What the comments of the rules ask for, in their order: traffic marked by
    kube-proxy (one bit of the mark, as in the iptables rules) is skipped;
    traffic within the overlay network is not translated; nor is external
    traffic to a pod of this node; what comes from the cluster is, unless it is
    multicast; and so is anything headed towards flannel from the host. *)
Definition nft_documented {A} (cluster pod mcast : A -> bool) (p : @Packet A) : Outcome :=
  let overlay a := cluster a || pod a in
  if Z.testbit (pk_mark p) 14 then Through
  else if overlay (pk_src p) && overlay (pk_dst p) then Through
  else if pod (pk_dst p) then Through
  else if cluster (pk_src p) && negb (mcast (pk_dst p)) then Masqueraded
  else if cluster (pk_dst p) then Masqueraded
  else Through.

(** The two kinds of packets on which the rules differ from their comments:
    kube-proxy's mark together with other bits, and what the host sends into
    the cluster other than to its own pods. *)
Definition combined_mark {A} (p : @Packet A) : bool := Z.testbit (pk_mark p) 14 && negb (pk_mark p =? 16384).

Definition host_to_flannel {A} (cluster pod : A -> bool) (p : @Packet A) : bool :=
  negb (cluster (pk_src p) || pod (pk_src p)) && cluster (pk_dst p) && negb (pod (pk_dst p)).

Definition unmarked {A} (p : @Packet A) : @Packet A := mkPacket (pk_src p) (pk_dst p) 0.

(** The rules of a chain do what their comments say on all other packets, let
    the packets from the host through, and do not see a combined mark. *)
Record decides_documented {A} (net_of : string -> option (A -> bool)) (family : string) (cluster pod mcast : A -> bool)
    (rules : list (list string)) : Prop := {
  dd_documented p : combined_mark p = false -> host_to_flannel cluster pod p = false ->
    nft_traverse net_of family rules p = Some (nft_documented cluster pod mcast p);
  dd_host p : host_to_flannel cluster pod p = true -> nft_traverse net_of family rules p = Some Through;
  dd_mark p : combined_mark p = true -> host_to_flannel cluster pod p = false ->
    nft_traverse net_of family rules p = Some (nft_documented cluster pod mcast (unmarked p));
}.

(** ** Lemmas *)

Lemma split_rule parts :
  parts <> [] -> Forall (fun p => str_contains " " p = false) parts ->
  str_split " " (nft_concat parts) = parts.
Proof. apply str_split_join. Qed.

Section MasqWords.
Context (cluster_cidr pod_cidr : string) (family : Family) (fully : bool).
Hypothesis Hcl : str_contains " " cluster_cidr = false.
Hypothesis Hpod : str_contains " " pod_cidr = false.

Definition multicast_of (family : Family) : string :=
  match family with Ip => "224.0.0.0/4" | Ip6 => "ff00::/8" end.

Definition masq_words : list string := if fully then ["masquerade"; "fully-random"] else ["masquerade"].

(** The words of the six rules. *)
Lemma masq_rule_words :
  let f := family_str family in
  map (str_split " ") (masq_rule_texts cluster_cidr pod_cidr f
                         (if fully then MASQ_FULLY_RANDOM else MASQ_PLAIN))
  = [ ["meta"; "mark"; "0x4000"; "return"];
      [f; "saddr"; pod_cidr; f; "daddr"; cluster_cidr; "return"];
      [f; "saddr"; cluster_cidr; f; "daddr"; pod_cidr; "return"];
      [f; "saddr"; "!="; pod_cidr; f; "daddr"; cluster_cidr; "return"];
      [f; "saddr"; cluster_cidr; f; "daddr"; "!="; multicast_of family] ++ masq_words;
      [f; "saddr"; "!="; cluster_cidr; f; "daddr"; cluster_cidr] ++ masq_words ].
Proof.
  cbv zeta. unfold masq_rule_texts. cbn [map].
  assert (forall a l, nft_concat (a ++ [if fully then MASQ_FULLY_RANDOM else MASQ_PLAIN]) = l ->
            nft_concat (a ++ masq_words) = l) as Hw.
  { intros a l <-. unfold masq_words, nft_concat. destruct fully; [|done].
    induction a as [|x a IH]; [done|]. cbn [app]. destruct a as [|y a]; [done|].
    change (x +:+ " " +:+ str_join " " ((y :: a) ++ ["masquerade"; "fully-random"])
            = x +:+ " " +:+ str_join " " ((y :: a) ++ [MASQ_FULLY_RANDOM])).
    by rewrite IH. }
  assert (Forall (fun p => str_contains " " p = false) masq_words) as Hmw
    by (unfold masq_words; destruct fully; repeat constructor).
  assert (str_contains " " (family_str family) = false) as Hf by by destruct family.
  assert (str_contains " " (multicast_of family) = false) as Hm by by destruct family.
  apply (f_equal2 cons); [done|].
  do 3 (apply (f_equal2 cons); [apply split_rule; [done|by repeat constructor]|]).
  replace (if String.eqb (family_str family) "ip6" then "ff00::/8" else "224.0.0.0/4")
    with (multicast_of family) by by destruct family.
  set (masq := if fully then MASQ_FULLY_RANDOM else MASQ_PLAIN) in *. set (f := family_str family) in *.
  rewrite <- (Hw [f; "saddr"; cluster_cidr; f; "daddr"; "!="; multicast_of family]
    (nft_concat [f; "saddr"; cluster_cidr; f; "daddr"; "!="; multicast_of family; masq]) eq_refl).
  rewrite <- (Hw [f; "saddr"; "!="; cluster_cidr; f; "daddr"; cluster_cidr]
    (nft_concat [f; "saddr"; "!="; cluster_cidr; f; "daddr"; cluster_cidr; masq]) eq_refl).
  rewrite !split_rule; [done| | | |]; try (unfold masq_words; by destruct fully);
    apply Forall_app; split; [by repeat constructor|done|by repeat constructor|done].
Qed.
End MasqWords.

Lemma net_text_ne s c t : str_all net_char s = true -> net_char c = false -> String.eqb s (String c t) = false.
Proof.
  intros Hs Hc. apply String.eqb_neq. intros ->. cbn in Hs. by rewrite Hc in Hs.
Qed.

Lemma IP4Net_text_chars n : IP4Net_valid n -> str_all net_char (IP4Net_fmt n) = true.
Proof. intros [_ Hp]. apply IP4Net_fmt_chars. lia. Qed.

Section MasqDecide.
Context {A : Type} (net_of : string -> option (A -> bool)) (family : Family).
Context (cluster_cidr pod_cidr : string) (cluster pod mcast : A -> bool).
Hypothesis Hcl : str_all net_char cluster_cidr = true.
Hypothesis Hpod : str_all net_char pod_cidr = true.
Hypothesis Ncl : net_of cluster_cidr = Some cluster.
Hypothesis Npod : net_of pod_cidr = Some pod.
Hypothesis Nmc : net_of (multicast_of family) = Some mcast.

Lemma nft_masq_rules_outcome fully p :
  nft_traverse net_of (family_str family)
    (map (str_split " ") (masq_rule_texts cluster_cidr pod_cidr (family_str family)
       (if fully : bool then MASQ_FULLY_RANDOM else MASQ_PLAIN))) p
  = Some (nft_masq_outcome cluster pod mcast p).
Proof.
  rewrite masq_rule_words by (by eapply str_all_contains).
  assert (String.eqb cluster_cidr "!=" = false) as E1 by by apply net_text_ne.
  assert (String.eqb pod_cidr "!=" = false) as E2 by by apply net_text_ne.
  assert (String.eqb (multicast_of family) "!=" = false) as E3 by by destruct family.
  unfold nft_masq_outcome, masq_words.
  destruct family, fully; cbn; rewrite ?E1, ?E2; cbn in Nmc; rewrite ?Ncl, ?Npod, ?Nmc; cbn;
    destruct (pk_mark p =? 16384), (pod (pk_src p)), (pod (pk_dst p)),
      (cluster (pk_src p)), (cluster (pk_dst p)), (mcast (pk_dst p)); done.
Qed.
End MasqDecide.

(** *** Scripts *)

Lemma render_lines tx :
  Forall (fun l => no_eol l = true) (tx_lines tx) -> str_lines (render tx) = tx_lines tx.
Proof.
  intros Hl. transitivity (str_lines (unlines (tx_lines tx))); [|by apply str_lines_unlines].
  f_equal. unfold render. clear Hl. destruct (tx_lines tx) as [|l ls]; [done|]. revert l.
  induction ls as [|l' ls IH]; intros l; [done|].
  change (str_join EOL (l :: l' :: ls)) with (l +:+ EOL +:+ str_join EOL (l' :: ls)).
  rewrite unlines_cons, <- (IH l'), !string_app_assoc. done.
Qed.

Definition nft_key (family : Family) : string * string := (family_str family, table_name family).

Definition rule_line (family : Family) (chain rule : string) : string :=
  "add rule " +:+ family_str family +:+ " " +:+ table_name family +:+ " " +:+ chain +:+ " " +:+ rule.

Lemma split_rule_line family chain rule :
  str_contains " " chain = false ->
  str_split " " (rule_line family chain rule)
  = "add" :: "rule" :: family_str family :: table_name family :: chain :: str_split " " rule.
Proof.
  intros Hc. unfold rule_line.
  change ("add rule " +:+ ?x) with ("add" +:+ String " " ("rule" +:+ String " " x)).
  repeat change (" " +:+ ?b) with (String " " b).
  assert (str_contains " " (family_str family) = false) by by destruct family.
  assert (str_contains " " (table_name family) = false) by by destruct family.
  by rewrite !str_split_app.
Qed.

Lemma nft_rule_lines family chain rules t chains rs :
  str_contains " " chain = false ->
  t !! nft_key family = Some chains -> chains !! chain = Some rs ->
  nft_lines (map (rule_line family chain) rules) t
  = Some (<[nft_key family := <[chain := rs ++ map (str_split " ") rules]> chains]> t).
Proof.
  intros Hc. revert t chains rs. induction rules as [|r rules IH]; intros t chains rs Ht Hr; cbn [map nft_lines].
  - by rewrite app_nil_r, (insert_id chains), insert_id.
  - rewrite split_rule_line by done. cbn [nft_line]. 
    change (family_str family, table_name family) with (nft_key family). rewrite Ht, Hr.
    erewrite IH by (by rewrite lookup_insert_eq).
    by rewrite !insert_insert_eq, <- app_assoc.
Qed.

(** The script of a chain: created if missing, emptied, filled. *)
Definition chain_script (family : Family) (modern : bool) (def : ChainDef) (rules : list string) : Transaction :=
  fold_left (fun tx r => add_rule (cd_name def) r tx) rules
    (flush_chain (cd_name def) (add_chain_tx def (Transaction_new family (table_name family) modern))).

Lemma chain_script_lines family modern def rules :
  let tx := Transaction_new family (table_name family) modern in
  tx_lines (chain_script family modern def rules)
  = tx_lines (flush_chain (cd_name def) (add_chain_tx def tx)) ++ map (rule_line family (cd_name def)) rules.
Proof.
  cbv zeta. unfold chain_script.
  assert (forall tx, tx_family tx = family -> tx_table tx = table_name family ->
    tx_lines (fold_left (fun tx r => add_rule (cd_name def) r tx) rules tx)
    = tx_lines tx ++ map (rule_line family (cd_name def)) rules) as Hf; [|by apply Hf].
  induction rules as [|r rules IH]; intros tx Hfam Htb; cbn [fold_left map]; [by rewrite app_nil_r|].
  rewrite IH by done. unfold add_rule at 1, push_tx, tx_head, rule_line. cbn [tx_lines]. rewrite Hfam, Htb.
  by rewrite <- app_assoc, !string_app_assoc.
Qed.

Definition flannel_chain_def (def : ChainDef) : Prop :=
  def = chain_def POSTRTG_CHAIN "chain to manage traffic masquerading by flannel" "nat" "postrouting" "100" \/
  def = chain_def FORWARD_CHAIN "chain to accept flannel traffic" "filter" "forward" "0".

Lemma chain_script_runs family modern def rules t t' :
  flannel_chain_def def -> Forall (fun r => no_eol r = true) rules ->
  nft_lines (str_lines (render (chain_script family modern def rules))) t = Some t' ->
  exists chains, t !! nft_key family = Some chains /\
    t' = <[nft_key family := <[cd_name def := map (str_split " ") rules]> chains]> t.
Proof.
  intros Hdef Hr Hrun. rewrite render_lines in Hrun.
  2: { rewrite chain_script_lines. apply Forall_app. split.
       - destruct Hdef as [-> | ->]; destruct family, modern; repeat constructor.
       - apply Forall_map. revert Hr. apply Forall_impl. intros r Hr. unfold rule_line.
         rewrite !no_eol_app, Hr. destruct Hdef as [-> | ->]; by destruct family. }
  rewrite chain_script_lines in Hrun. 
  assert (str_contains " " (cd_name def) = false) as Hn by by destruct Hdef as [-> | ->].
  set (name := cd_name def) in *.
  assert (exists rest, map (str_split " ") (tx_lines (flush_chain name (add_chain_tx def
            (Transaction_new family (table_name family) modern))))
          = [["add"; "chain"; family_str family; table_name family; name] ++ rest;
             ["flush"; "chain"; family_str family; table_name family; name]]) as [rest Hw].
  { subst name. destruct Hdef as [-> | ->]; destruct family, modern; eexists; vm_compute; done. }
  destruct (tx_lines (flush_chain _ _)) as [|l1 [|l2 [|??]]]; try done. inv Hw.
  cbn [app nft_lines] in Hrun. rewrite H0, H1 in Hrun. cbn [app nft_line] in Hrun.
  change (family_str family, table_name family) with (nft_key family) in Hrun.
  destruct (t !! nft_key family) as [chains|] eqn:Et; [|done]. exists chains. split; [done|].
  destruct (chains !! name) as [rs|] eqn:Ec; cbn [is_some] in Hrun.
  - rewrite Et, Ec in Hrun. cbn [is_some] in Hrun.
    erewrite nft_rule_lines in Hrun by (done || by rewrite lookup_insert_eq).
    inv Hrun. by rewrite !insert_insert_eq.
  - rewrite !lookup_insert_eq in Hrun. cbn [is_some] in Hrun.
    erewrite nft_rule_lines in Hrun by (done || by rewrite lookup_insert_eq).
    inv Hrun. by rewrite !insert_insert_eq.
Qed.

(** *** The manager *)

Section ManagerLemmas.
Context `{NftLaws K} (cancelled : K -> bool).

Lemma exec_script_effect path script k k' r :
  exec_script cancelled path false script k = (k', r) ->
  match r with
  | Ok _ => nft_lines (str_lines script) (nft_tables k) = Some (nft_tables k')
  | Err _ =>
      nft_tables k' = nft_tables k \/
      cancelled k' = true /\ nft_lines (str_lines script) (nft_tables k) = Some (nft_tables k')
  end.
Proof.
  unfold exec_script. cbn [app]. pose proof (nft_runs k path script) as Hrun.
  destruct (sys_run path ["-f"; "-"] script k) as [k1 [out|e|e]]; intros E.
  - destruct (cancelled k1) eqn:Ec; inv E; [by right|done].
  - destruct (cancelled k1) eqn:Ec; inv E; by left.
  - inv E. by left.
Qed.

Lemma exec_check_tables path script k : nft_tables (exec_script cancelled path true script k).1 = nft_tables k.
Proof.
  unfold exec_script. cbn [app]. pose proof (nft_checks k path script) as Hc.
  by destruct (sys_run path ["-c"; "-f"; "-"] script k).
Qed.

Lemma check_random_fully_tables mgr k : nft_tables (check_random_fully cancelled mgr k).1 = nft_tables k.
Proof.
  unfold check_random_fully. destruct (nm_v4 mgr) as [nft|]; [|done].
  pose proof (exec_check_tables (nft_path nft) (render (masquerade_test_tx (nft_modern nft))) k) as Hc.
  unfold nft_check. by destruct (exec_script _ _ _ _ k).
Qed.

Lemma Nft_new_effect family table k k' r :
  Nft_new family table k = (k', r) ->
  nft_tables k' = nft_tables k /\
  forall nft, r = Ok nft -> nft_family nft = family /\ nft_table nft = table.
Proof.
  unfold Nft_new, probe_modern_syntax. destruct (nft_look_path k "nft") as [path|]; [|by intros [= <- <-]].
  pose proof (nft_checks k path (probe_script family)) as Hc.
  destruct (sys_run path _ _ k) as [k1 ran]. intros [= <- <-]. split; [done|]. by intros nft [= <-].
Qed.

(** The rules of a chain, if it is there *)
Definition nft_chain (t : NftTables) (key : string * string) (ch : string) : option (list (list string)) :=
  match t !! key with Some chains => chains !! ch | None => None end.

(** What [handle] finds for a family *)
Definition slot_of (family : Family) (slot : option Nft) : Prop :=
  forall nft, slot = Some nft -> nft_family nft = family /\ nft_table nft = table_name family.

Lemma chain_run_effect family nft def rules k k' r :
  nft_family nft = family -> nft_table nft = table_name family ->
  flannel_chain_def def -> Forall (fun r => no_eol r = true) rules ->
  nft_run cancelled nft (chain_script family (nft_modern nft) def rules) k = (k', r) ->
  let done := exists chains, nft_tables k !! nft_key family = Some chains /\
    nft_tables k' = <[nft_key family := <[cd_name def := map (str_split " ") rules]> chains]> (nft_tables k) in
  match r with
  | Ok _ => done
  | Err _ => nft_tables k' = nft_tables k \/ cancelled k' = true /\ done
  end.
Proof.
  intros Hf Ht Hdef Hr Hrun. apply exec_script_effect in Hrun. destruct r as [u|e].
  - by apply chain_script_runs in Hrun.
  - destruct Hrun as [Hrun|[Hc Hrun]]; [by left|]. right. split; [done|].
    by apply chain_script_runs in Hrun.
Qed.

Lemma masq_texts_no_eol cluster_cidr pod_cidr family (fully : bool) :
  str_all net_char cluster_cidr = true -> str_all net_char pod_cidr = true ->
  Forall (fun r => no_eol r = true)
    (masq_rule_texts cluster_cidr pod_cidr (family_str family) (if fully then MASQ_FULLY_RANDOM else MASQ_PLAIN)).
Proof.
  assert (forall s, str_all net_char s = true -> no_eol s = true) as Hn.
  { intros s. apply str_all_mono. intros c Hc. unfold net_char, addr_char in Hc.
    apply andb_true_iff; split; apply negb_true_iff, Ascii.eqb_neq; by intros ->. }
  intros Hc%Hn Hp%Hn. unfold masq_rule_texts, nft_concat.
  destruct family, fully; repeat constructor; cbn [str_join]; rewrite ?no_eol_app, ?Hc, ?Hp; done.
Qed.

Lemma setup_masq_effect mgr slot which cluster_cidr pod_cidr family disable k k' r :
  slot_of family slot -> str_all net_char cluster_cidr = true -> str_all net_char pod_cidr = true ->
  setup_masq cancelled mgr slot which cluster_cidr pod_cidr family disable k = (k', r) ->
  let done := exists chains (fully : bool), nft_tables k !! nft_key family = Some chains /\
    nft_tables k' = <[nft_key family := <[POSTRTG_CHAIN := map (str_split " ")
       (masq_rule_texts cluster_cidr pod_cidr (family_str family)
          (if fully then MASQ_FULLY_RANDOM else MASQ_PLAIN))]> chains]> (nft_tables k) in
  match r with
  | Ok _ => done
  | Err _ => nft_tables k' = nft_tables k \/ cancelled k' = true /\ done
  end.
Proof.
  intros Hs Hc Hp. unfold setup_masq, handle. destruct slot as [nft|]; cbn.
  2: { intros [= <- <-]. by left. }
  destruct (Hs nft eq_refl) as [Hf Ht]. unfold add_masq_rules.
  pose proof (check_random_fully_tables mgr k) as Hk.
  destruct (check_random_fully cancelled mgr k) as [k1 supported]. cbn in Hk.
  set (fully := supported && negb disable).
  unfold io_map_err. cbv zeta.
  set (def := chain_def POSTRTG_CHAIN _ _ _ _).
  set (rules := masq_rule_texts _ _ _ _). 
  assert (fold_left (fun tx rule => add_rule POSTRTG_CHAIN rule tx) rules
            (flush_chain POSTRTG_CHAIN (add_chain_tx def (new_transaction nft)))
          = chain_script family (nft_modern nft) def rules) as ->.
  { unfold chain_script, new_transaction. by rewrite Hf, Ht. }
  destruct (nft_run _ _ _ k1) as [k2 r2] eqn:Erun. intros [= <- <-].
  apply (chain_run_effect family) in Erun;
    [|done|done|by left|by apply masq_texts_no_eol].
  rewrite Hk in Erun. destruct r2 as [u|e].
  - destruct Erun as (chains & ? & ?). by exists chains, fully.
  - destruct Erun as [?|[? (chains & ? & ?)]]; [by left|right]. split; [done|]. by exists chains, fully.
Qed.

Lemma init_table_effect family k k' r :
  init_table cancelled family (table_name family) k = (k', r) ->
  forall nft, r = Ok nft ->
  slot_of family (Some nft) /\ is_some (nft_tables k' !! nft_key family) = true /\
  forall key ch, nft_chain (nft_tables k') key ch = nft_chain (nft_tables k) key ch.
Proof.
  unfold init_table, io_bind. destruct (Nft_new family _ k) as [k1 [nft|e]] eqn:En; [|by intros [= <- <-]].
  apply Nft_new_effect in En as [Hk Hn]. destruct (Hn nft eq_refl) as [Hf Ht].
  unfold io_map_err. destruct (nft_run _ _ _ k1) as [k2 [u|e]] eqn:Er; intros [= <- <-]; intros ? [= <-].
  split; [by intros ? [= <-]|]. apply exec_script_effect in Er. rewrite Hk in Er.
  rewrite render_lines in Er.
  2: { unfold new_transaction. rewrite Hf, Ht. destruct family, (nft_modern nft); repeat constructor. }
  assert (exists rest, str_split " " (default "" (head (tx_lines (add_table
     (Some ("rules for " +:+ table_name family)) (new_transaction nft)))))
     = ["add"; "table"; family_str family; table_name family] ++ rest) as [rest Hw].
  { unfold new_transaction. rewrite Hf, Ht. destruct family, (nft_modern nft); eexists; vm_compute; done. }
  destruct (tx_lines (add_table _ _)) as [|l [|? ?]] eqn:El; try done.
  cbn [list.head default nft_lines] in Er, Hw. change (id l) with l in Hw.
  rewrite Hw in Er. cbn [app nft_line] in Er.
  change (family_str family, table_name family) with (nft_key family) in Er.
  destruct (nft_tables k !! nft_key family) as [chains|] eqn:Et; cbn [is_some] in Er; inv Er.
  - by rewrite Et.
  - rewrite lookup_insert_eq. split; [done|]. intros key ch. unfold nft_chain.
    destruct (decide (key = nft_key (nft_family nft))) as [->|Hne].
    + by rewrite lookup_insert_eq, Et.
    + by rewrite lookup_insert_ne.
Qed.
End ManagerLemmas.

(** The decision of the rules against the documented one *)
Lemma masq_outcome_documented {A} (cluster pod mcast : A -> bool) (p : @Packet A) :
  nft_masq_outcome cluster pod mcast p
  = if host_to_flannel cluster pod p then Through
    else nft_documented cluster pod mcast (if combined_mark p then unmarked p else p).
Proof.
  unfold nft_masq_outcome, nft_documented, host_to_flannel, combined_mark, unmarked. destruct p as [src dst mark]. cbn [pk_src pk_dst pk_mark].
  destruct (Z.eqb_spec mark 16384) as [->|_]; [|destruct (Z.testbit mark 14) eqn:Hm];
    cbn [andb orb negb]; rewrite ?andb_false_r; cbn [pk_src pk_dst pk_mark]; rewrite ?Hm;
    by destruct (cluster src), (cluster dst), (pod src), (pod dst), (mcast dst).
Qed.

Lemma outcome_decides {A} (net_of : string -> option (A -> bool)) family cluster pod mcast rules :
  (forall p, nft_traverse net_of family rules p = Some (nft_masq_outcome cluster pod mcast p)) ->
  decides_documented net_of family cluster pod mcast rules.
Proof. intros Hd. split; intros p; rewrite Hd, masq_outcome_documented; [by intros -> ->|by intros ->|by intros -> ->]. Qed.

Section SetupMasq.
Context `{NftLaws K} (cancelled : K -> bool).

Lemma nft_init_effect mgr0 mgr k k' :
  nft_init cancelled mgr0 k = (k', mgr, Ok ()) ->
  slot_of Ip (nm_v4 mgr) /\ slot_of Ip6 (nm_v6 mgr) /\
  forall key ch, nft_chain (nft_tables k') key ch = nft_chain (nft_tables k) key ch.
Proof.
  unfold nft_init. destruct (init_table _ Ip _ k) as [k1 [v4|e]] eqn:E4; [|done].
  destruct (init_table _ Ip6 _ k1) as [k2 [v6|e]] eqn:E6; [|done]. intros [= <- <-].
  apply (init_table_effect cancelled Ip) with (nft := v4) in E4 as (S4 & _ & C4); [|done].
  apply (init_table_effect cancelled Ip6) with (nft := v6) in E6 as (S6 & _ & C6); [|done].
  split; [done|]. split; [done|]. intros key ch. by rewrite C6, C4.
Qed.

(** One family: the chain decides as stated, or it is as it was; the rest
    stays. *)
Lemma setup_masq_chain {A} (net_of : string -> option (A -> bool)) cluster pod mcast
    mgr slot which cluster_cidr pod_cidr family disable (empty : bool) k k' r :
  slot_of family slot -> str_all net_char cluster_cidr = true -> str_all net_char pod_cidr = true ->
  net_of cluster_cidr = Some cluster -> net_of pod_cidr = Some pod ->
  net_of (multicast_of family) = Some mcast ->
  (if negb empty then setup_masq cancelled mgr slot which cluster_cidr pod_cidr family disable
   else io_ret ()) k = (k', r) ->
  let chain t := nft_chain t (nft_key family) POSTRTG_CHAIN in
  let decides := exists rules, chain (nft_tables k') = Some rules /\
    decides_documented net_of (family_str family) cluster pod mcast rules in
  (decides \/ (is_ok r = false \/ empty = true) /\ chain (nft_tables k') = chain (nft_tables k)) /\
  forall key ch, (key, ch) <> (nft_key family, POSTRTG_CHAIN) ->
    nft_chain (nft_tables k') key ch = nft_chain (nft_tables k) key ch.
Proof.
  intros Hs Hc Hp Nc Np Nm E. cbv zeta. destruct empty; cbn [negb] in E.
  { inv E. split; [right; by split; [right|]|done]. }
  apply setup_masq_effect in E; [|done..].
  assert (nft_tables k' = nft_tables k /\ is_ok r = false \/
    exists chains (fully : bool), nft_tables k !! nft_key family = Some chains /\
    nft_tables k' = <[nft_key family := <[POSTRTG_CHAIN := map (str_split " ")
       (masq_rule_texts cluster_cidr pod_cidr (family_str family)
          (if fully then MASQ_FULLY_RANDOM else MASQ_PLAIN))]> chains]> (nft_tables k)) as Hcase.
  { destruct r; [by right|]. destruct E as [?|[_ ?]]; [by left|by right]. }
  clear E. destruct Hcase as [[-> Hr]|(chains & fully & Ht & ->)].
  - split; [right; by split; [left|]|done].
  - split.
    + left. eexists. split; [unfold nft_chain; by rewrite !lookup_insert_eq|].
      apply outcome_decides. intros p. by apply nft_masq_rules_outcome.
    + intros key ch Hne. unfold nft_chain. destruct (decide (key = nft_key family)) as [->|Hk].
      * rewrite lookup_insert_eq, Ht, lookup_insert_ne; [done|]. by intros <-.
      * by rewrite lookup_insert_ne.
Qed.
End SetupMasq.

(** ** Properties *)

(** C17: after [init] has succeeded, setting up the masquerade rules for valid
    networks makes the chain of each family whose network is not empty decide
    every packet as the comments of the six rules say ([nft_documented]), with
    two exceptions, for which the decision is stated too: what the host sends
    into the cluster other than to its own pods goes through untranslated
    (documented: masqueraded, see [nft_host_not_masqueraded]), and kube-proxy's
    mark 0x4000 is not seen when the mark has other bits as well (documented:
    skipped, see [nft_mark_compared_whole]).  On an error, also when the run is
    cancelled in between, each chain either has all of the new rules or is as
    it was; no other chain of any table changes. *)
Theorem nft_setup_masq_refines `{NftLaws K} (cancelled : K -> bool) (mgr0 mgr : NFTablesManager)
    (network : IP4Net) (v6_network : IP6Net) (lease : Lease) (disable : bool) (k k1 k2 : K)
    (r : result unit string) :
  IP4Net_valid network -> IP4Net_valid (l_subnet lease) ->
  IP6Net_valid v6_network -> IP6Net_valid (l_ipv6_subnet lease) ->
  nft_init cancelled mgr0 k = (k1, mgr, Ok ()) ->
  nft_setup_masq_rules cancelled mgr network v6_network lease disable k1 = (k2, r) ->
  let chain4 k := nft_chain (nft_tables k) (nft_key Ip) POSTRTG_CHAIN in
  let chain6 k := nft_chain (nft_tables k) (nft_key Ip6) POSTRTG_CHAIN in
  let decides4 := exists rules, chain4 k2 = Some rules /\
    decides_documented net4_of "ip" (IP4Net_contains (IP4Net_network network))
      (IP4Net_contains (IP4Net_network (l_subnet lease)))
      (IP4Net_contains (mkIP4Net (IP4_from_octets 224 0 0 0) 4)) rules in
  let decides6 := exists rules, chain6 k2 = Some rules /\
    decides_documented net6_of "ip6" (IP6Net_contains (IP6Net_network v6_network))
      (IP6Net_contains (IP6Net_network (l_ipv6_subnet lease)))
      (IP6Net_contains (mkIP6Net (ip6_from_value (255 * 2 ^ 120)) 8)) rules in
  (decides4 \/ (is_ok r = false \/ IP4Net_empty network = true) /\ chain4 k2 = chain4 k) /\
  (decides6 \/ (is_ok r = false \/ IP6Net_empty v6_network = true) /\ chain6 k2 = chain6 k) /\
  forall key ch, (key, ch) <> (nft_key Ip, POSTRTG_CHAIN) -> (key, ch) <> (nft_key Ip6, POSTRTG_CHAIN) ->
    nft_chain (nft_tables k2) key ch = nft_chain (nft_tables k) key ch.
Proof.
  intros Hn Hs Hn6 Hs6 Hi%nft_init_effect Hr. destruct Hi as (S4 & S6 & Hi). cbv zeta.
  unfold nft_setup_masq_rules, io_bind in Hr.
  destruct ((if negb (IP4Net_empty network) then _ else io_ret ()) k1) as [ka ra] eqn:E4.
  apply (setup_masq_chain _ net4_of) with (3 := IP4Net_text_chars _ Hs) (4 := net4_of_fmt _ Hn)
    (5 := net4_of_fmt _ Hs) (6 := net4_multicast) in E4 as [D4 F4]; [|done|by apply IP4Net_text_chars].
  rewrite Hi in D4. destruct ra as [u|e].
  - apply (setup_masq_chain _ net6_of) with (3 := IP6Net_fmt_chars _ Hs6) (4 := net6_of_fmt _ Hn6)
      (5 := net6_of_fmt _ Hs6) (6 := net6_multicast) in Hr as [D6 F6]; [|done|by apply IP6Net_fmt_chars].
    rewrite (F6 (nft_key Ip)) by done. rewrite F4, Hi in D6 by done. split; [|split; [done|]].
    + destruct D4 as [?|[[?|?] ?]]; [by left|done|]. right. by split; [right|].
    + intros key ch H1 H2. by rewrite F6, F4, Hi.
  - inv Hr. split; [done|]. split.
    + right. rewrite F4, Hi by done. by split; [left|].
    + intros key ch H1 H2. by rewrite F4, Hi.
Qed.

(** A node whose [nft] accepts what [nft_lines] accepts. *)
#[local] Instance NftNode : IptSystem NftTables := {|
  sys_path _ := Some ["/usr/sbin"];
  sys_executable _ path := String.eqb path "/usr/sbin/nft";
  sys_run path args script t :=
    match args with
    | ["-c"; "-f"; "-"] => (t, Exited "")
    | _ => match nft_lines (str_lines script) t with
           | Some t => (t, Exited "")
           | None => (t, Failed "Error: No such file or directory")
           end
    end;
|}.

#[local] Program Instance NftNodeLaws : NftLaws NftTables := {| nft_tables := id |}.
Next Obligation. intros t path script. cbn. by destruct (nft_lines _ t). Qed.
Next Obligation. done. Qed.

(** A node that starts with a foreign rule in its table and another table. *)
Definition nft_before : NftTables :=
  {[ ("ip", "flannel-ipv4") := {[ "postrtg" := [["accept"]]; "other" := [["accept"]] ]};
     ("inet", "filter") := {[ "input" := [["accept"]] ]} ]}.

Definition nft_after : NftTables * result unit string :=
  let '(k, mgr, _) := nft_init (fun _ => false) (mkNFTablesManager None None) nft_before in
  nft_setup_masq_rules (fun _ => false) mgr (mkIP4Net 171966464 16) IP6Net_default prev_lease_sample false k.

Lemma nft_setup_masq_refines_witness :
  (exists rules, nft_chain nft_after.1 (nft_key Ip) POSTRTG_CHAIN = Some rules /\
    nft_traverse net4_of "ip" rules (mkPacket 171966722 134744072 0) = Some Masqueraded) /\
  nft_chain nft_after.1 (nft_key Ip6) POSTRTG_CHAIN = None /\
  nft_chain nft_after.1 ("inet", "filter") "input" = Some [["accept"]].
Proof.
  assert (IP4Net_valid (mkIP4Net 171966464 16)) as H1 by (split; [by vm_compute|cbn; lia]).
  assert (IP4Net_valid (mkIP4Net 171966720 24)) as H2 by (split; [by vm_compute|cbn; lia]).
  assert (IP6Net_valid IP6Net_default) as H3 by (apply (bool_decide_unpack _); by vm_compute).
  unfold nft_after.
  destruct (nft_init (fun _ => false) (mkNFTablesManager None None) nft_before) as [[k mgr] [u|e]] eqn:Ei.
  2: { apply (f_equal (fun x => is_ok x.2)) in Ei. by vm_compute in Ei. }
  destruct u.
  destruct (nft_setup_masq_rules (fun _ => false) mgr (mkIP4Net 171966464 16) IP6Net_default
              prev_lease_sample false k) as [k2 r] eqn:Er.
  assert (is_ok r = true) as Hok.
  { assert (mgr = (nft_init (fun _ => false) (mkNFTablesManager None None) nft_before).1.2) as -> by by rewrite Ei.
    assert (k = (nft_init (fun _ => false) (mkNFTablesManager None None) nft_before).1.1) as -> by by rewrite Ei.
    apply (f_equal (fun x => is_ok x.2)) in Er. cbn [snd] in Er. rewrite <- Er. by vm_compute. }
  pose proof (nft_setup_masq_refines (fun _ => false) _ _ (mkIP4Net 171966464 16) IP6Net_default
                prev_lease_sample false _ _ _ _ H1 H2 H3 H3 Ei Er) as (D4 & D6 & Hf).
  cbv zeta in D4, D6. cbn [fst]. split; [|split].
  - destruct D4 as [(rules & Hc & Hd)|[[Hr|He] _]].
    + exists rules. split; [done|]. rewrite (dd_documented _ _ _ _ _ _ Hd) by by vm_compute. by vm_compute.
    + by rewrite Hok in Hr.
    + by vm_compute in He.
  - destruct D6 as [(rules & Hc & Hd)|[_ Hc]].
    + exfalso. clear -Er Ei Hc.
      assert (k2 = nft_after.1) as -> by (unfold nft_after; by rewrite Ei, Er).
      by vm_compute in Hc.
    + change (nft_chain (nft_tables k2) (nft_key Ip6) POSTRTG_CHAIN = None). rewrite Hc. by vm_compute.
  - rewrite Hf by done. by vm_compute.
Defined.

(** The rule for "traffic from the host" never takes effect: what comes from
    outside into the cluster is left alone, marked or not, while the iptables
    rules masquerade it unless it goes to the pods of this node. *)
Theorem nft_host_not_masqueraded {A} (cluster pod mcast : A -> bool) (p : @Packet A) :
  cluster (pk_src p) = false -> cluster (pk_dst p) = true -> pod (pk_src p) = false ->
  pod (pk_dst p) = false -> pk_mark p = 0 ->
  nft_masq_outcome cluster pod mcast p = Through /\ nft_documented cluster pod mcast p = Masqueraded
  /\ masq_outcome cluster pod mcast p = Masqueraded.
Proof.
  unfold nft_masq_outcome, nft_documented, masq_outcome. intros -> -> -> -> ->. done.
Qed.

(** The mark is compared as a whole: with any other bit set, kube-proxy's mark
    is not seen, and the packet is masqueraded where iptables leaves it. *)
Theorem nft_mark_compared_whole {A} (cluster pod mcast : A -> bool) (p : @Packet A) :
  pk_mark p = 16385 -> cluster (pk_src p) = true -> cluster (pk_dst p) = false ->
  pod (pk_dst p) = false -> mcast (pk_dst p) = false ->
  nft_masq_outcome cluster pod mcast p = Masqueraded /\ nft_documented cluster pod mcast p = Through
  /\ masq_outcome cluster pod mcast p = Through.
Proof.
  unfold nft_masq_outcome, nft_documented, masq_outcome. intros -> -> -> -> ->. done.
Qed.
