(* ===== verification/Genl.v ===== *)
(** * [backend/wireguard/genl.rs], the reading side of [device.rs]

    The generic-netlink client of the WireGuard backend: attributes and their
    encoding, requests and the collection of their replies, the resolution of
    the family, and the configuration and dump of a device.  Bytes are in the
    order of a little-endian machine.  The socket is the interface
    [GenlKernel]. *)

From S2P Require Import Prelude RustStr Utf8 IpNet Ip6Net RouteNetwork UdpProxy.
#[local] Open Scope string_scope.
#[local] Open Scope list_scope.
#[local] Open Scope Z_scope.

Definition GENL_ID_CTRL : Z := 16.
Definition CTRL_CMD_GETFAMILY : Z := 3.
Definition CTRL_ATTR_FAMILY_ID : Z := 1.
Definition CTRL_ATTR_FAMILY_NAME : Z := 2.
Definition CTRL_ATTR_OPS : Z := 6.
Definition CTRL_ATTR_OP_ID : Z := 1.
Definition CTRL_ATTR_OP_FLAGS : Z := 2.
Definition GENL_CMD_CAP_DO : Z := 2.
Definition GENL_CMD_CAP_DUMP : Z := 4.
Definition NLM_F_REQUEST : Z := 1.
Definition NLM_F_ACK : Z := 4.
Definition NLM_F_DUMP : Z := 768.
Definition NLMSG_ERROR : Z := 2.
Definition NLMSG_DONE : Z := 3.

Definition WG_GENL_NAME : string := "wireguard".
Definition WG_GENL_VERSION : Z := 1.
Definition WGDEVICE_A_IFINDEX : Z := 1.
Definition WGDEVICE_A_IFNAME : Z := 2.
Definition WGDEVICE_A_PRIVATE_KEY : Z := 3.
Definition WGDEVICE_A_FLAGS : Z := 5.
Definition WGDEVICE_A_LISTEN_PORT : Z := 6.
Definition WGDEVICE_A_PEERS : Z := 8.
Definition WGDEVICE_F_REPLACE_PEERS : Z := 1.
Definition WGPEER_A_PUBLIC_KEY : Z := 1.
Definition WGPEER_A_PRESHARED_KEY : Z := 2.
Definition WGPEER_A_FLAGS : Z := 3.
Definition WGPEER_A_ENDPOINT : Z := 4.
Definition WGPEER_A_PERSISTENT_KEEPALIVE_INTERVAL : Z := 5.
Definition WGPEER_A_ALLOWEDIPS : Z := 9.
Definition WGPEER_F_REMOVE_ME : Z := 1.
Definition WGPEER_F_REPLACE_ALLOWEDIPS : Z := 2.
Definition WGALLOWEDIP_A_FAMILY : Z := 1.
Definition WGALLOWEDIP_A_IPADDR : Z := 2.
Definition WGALLOWEDIP_A_CIDR_MASK : Z := 3.

Definition AF_INET : Z := 2.
Definition AF_INET6 : Z := 10.
Definition ENODEV : Z := 19.

(** [SocketAddr]; the last two fields of a V6 address are its flow
    information and its scope. *)
Inductive SocketAddr :=
| SockV4 (ip : IP4) (port : Z)
| SockV6 (ip : IP6) (port flowinfo scope_id : Z).

Record WgAllowedIp := mkWgAllowedIp { wa_ip : IpAddr; wa_cidr : Z }.

Record WgPeerConfig := mkWgPeerConfig {
  wp_public_key : bytes;
  wp_preshared_key : option bytes;
  wp_flags : Z;
  wp_endpoint : option SocketAddr;
  wp_keepalive : option Z;
  wp_allowed_ips : list WgAllowedIp;
}.

Record WgDeviceConfig := mkWgDeviceConfig {
  wc_ifname : bytes;
  wc_private_key : option bytes;
  wc_listen_port : option Z;
  wc_flags : Z;
  wc_peers : list WgPeerConfig;
}.

(** ** Attributes *)

Definition align4 (n : nat) : nat := Z.to_nat (Z.land (Z.of_nat n + 3) (Z.lnot 3)).

Definition nla (attr_type : Z) (payload : bytes) : bytes :=
  let v := to_le 2 (wrap 16 (Z.of_nat (4 + length payload))) ++ to_le 2 attr_type ++ payload in
  v ++ replicate (align4 (length v) - length v) 0.

Definition nla_u8 (t v : Z) : bytes := nla t [v].
Definition nla_u16 (t v : Z) : bytes := nla t (to_le 2 v).
Definition nla_u32 (t v : Z) : bytes := nla t (to_le 4 v).
Definition nla_str (t : Z) (s : bytes) : bytes := nla t (s ++ [0]).
Definition nla_nest (t : Z) (children : list bytes) : bytes := nla (Z.lor t 32768) (concat children).

(** The last two: a panic, and a [recv] that never returns. *)
Inductive IoError :=
| OsError (code : Z)
| ShortErrorBody (len : nat)
| FamilyNotFound (name : string)
| NoDevice (ifname : bytes)
| Panicked
| Blocked.

(** The slice [b[align4(len)..]] panics when the padding of the last attribute
    is missing. *)
Fixpoint parse_nlas_from (fuel : nat) (b : bytes) : result (list (Z * bytes)) IoError :=
  match fuel with
  | O => Ok []
  | S fuel =>
      if (length b <? 4)%nat then Ok []
      else
        let len := Z.to_nat (from_le (slice 0 2 b)) in
        let t := from_le (slice 2 4 b) in
        if (len <? 4)%nat || (length b <? len)%nat then Ok []
        else if (length b <? align4 len)%nat then Err Panicked
        else
          let? rest := parse_nlas_from fuel (drop (align4 len) b) in
          Ok ((Z.land t 32767, slice 4 len b) :: rest)
  end.

Definition parse_nlas (b : bytes) : result (list (Z * bytes)) IoError := parse_nlas_from (length b) b.

Definition u16_of (v : bytes) : option Z := option_map from_le (get_range 0 2 v).
Definition u32_of (v : bytes) : option Z := option_map from_le (get_range 0 4 v).

Definition sockaddr_bytes (addr : SocketAddr) : bytes :=
  match addr with
  | SockV4 ip port => to_le 2 AF_INET ++ to_be 2 port ++ IP4_octets ip ++ replicate 8 0
  | SockV6 ip port _ scope_id =>
      to_le 2 AF_INET6 ++ to_be 2 port ++ to_le 4 0 ++ ip ++ to_le 4 scope_id
  end.

Definition parse_endpoint (b : bytes) : option SocketAddr :=
  match u16_of b, get_range 2 2 b with
  | Some family, Some p =>
      let port := from_be p in
      if family =? AF_INET then option_map (fun o => SockV4 (IP4_from_bytes o) port) (get_range 4 4 b)
      else if family =? AF_INET6 then option_map (fun o => SockV6 o port 0 0) (get_range 8 16 b)
      else None
  | _, _ => None
  end.

(** ** The attributes of a configuration *)

Definition allowed_ip_attrs (ip : WgAllowedIp) : list bytes :=
  let '(family, addr) := match wa_ip ip with
                         | V4 v4 => (AF_INET, IP4_octets v4)
                         | V6 v6 => (AF_INET6, v6)
                         end in
  [ nla_u16 WGALLOWEDIP_A_FAMILY family; nla WGALLOWEDIP_A_IPADDR addr;
    nla_u8 WGALLOWEDIP_A_CIDR_MASK (wa_cidr ip) ].

(** [iter().enumerate().map(|(i, x)| nla_nest((i + 1) as u16, f(x)))] *)
Definition numbered {A} (f : A -> list bytes) (l : list A) : list bytes :=
  imap (fun i x => nla_nest (wrap 16 (Z.of_nat (i + 1))) (f x)) l.

Definition opt_nla {A} (f : A -> bytes) (o : option A) : list bytes :=
  match o with Some a => [f a] | None => [] end.

Definition peer_attrs (p : WgPeerConfig) : list bytes :=
  [nla WGPEER_A_PUBLIC_KEY (wp_public_key p)]
  ++ opt_nla (nla WGPEER_A_PRESHARED_KEY) (wp_preshared_key p)
  ++ (if negb (wp_flags p =? 0) then [nla_u32 WGPEER_A_FLAGS (wp_flags p)] else [])
  ++ opt_nla (fun ep => nla WGPEER_A_ENDPOINT (sockaddr_bytes ep)) (wp_endpoint p)
  ++ opt_nla (nla_u16 WGPEER_A_PERSISTENT_KEEPALIVE_INTERVAL) (wp_keepalive p)
  ++ (match wp_allowed_ips p with
      | [] => []
      | ips => [nla_nest WGPEER_A_ALLOWEDIPS (numbered allowed_ip_attrs ips)]
      end).

Definition device_attrs (cfg : WgDeviceConfig) : list bytes :=
  [nla_str WGDEVICE_A_IFNAME (wc_ifname cfg)]
  ++ opt_nla (nla WGDEVICE_A_PRIVATE_KEY) (wc_private_key cfg)
  ++ opt_nla (nla_u16 WGDEVICE_A_LISTEN_PORT) (wc_listen_port cfg)
  ++ (if negb (wc_flags cfg =? 0) then [nla_u32 WGDEVICE_A_FLAGS (wc_flags cfg)] else [])
  ++ (match wc_peers cfg with
      | [] => []
      | peers => [nla_nest WGDEVICE_A_PEERS (numbered peer_attrs peers)]
      end).

(** ** Requests *)

(** Errors of the socket are their [errno]. *)
Class GenlKernel (K : Type) := {
  gk_open : K -> K * result Z Z;
  gk_send : bytes -> K -> K * result unit Z;
  gk_recv : K -> K * result bytes Z;
}.

Record GenlSocket := mkGenlSocket { gs_seq : Z; gs_port : Z }.

Definition error_code_of (body : bytes) : result Z IoError :=
  match get_range 0 4 body with
  | Some b => Ok (signed 32 (from_le b))
  | None => Err (ShortErrorBody (length body))
  end.

(** The messages of one datagram: [b] is what is left of it from [off] on. *)
Fixpoint walk_messages (fuel : nat) (b : bytes) (results : list bytes) (finished : bool)
  : result (list bytes * bool) IoError :=
  match fuel with
  | O => Ok (results, finished)
  | S fuel =>
      if (length b <? 16)%nat then Ok (results, finished)
      else
        let mlen := Z.to_nat (default 0 (u32_of b)) in
        let mtype := default 0 (u16_of (drop 4 b)) in
        if (mlen <? 16)%nat || (length b <? mlen)%nat then Ok (results, finished)
        else
          let body := slice 16 mlen b in
          let rest := drop (align4 mlen) b in
          if mtype =? NLMSG_ERROR then
            let? code := error_code_of body in
            if negb (code =? 0) then Err (OsError (- code)) else walk_messages fuel rest results true
          else if mtype =? NLMSG_DONE then walk_messages fuel rest results true
          else walk_messages fuel rest (results ++ [body]) finished
  end.

Definition message_bytes (family cmd flags seq port : Z) (attrs : bytes) : bytes :=
  let payload := [cmd; WG_GENL_VERSION] ++ to_le 2 0 ++ attrs in
  to_le 4 (wrap 32 (Z.of_nat (16 + length payload))) ++ to_le 2 family ++ to_le 2 flags
  ++ to_le 4 seq ++ to_le 4 port ++ payload.

Section Client.
Context `{GenlKernel K}.

(** [fuel] bounds the number of datagrams received. *)
Fixpoint collect_replies (fuel : nat) (results : list bytes) : io K IoError (list bytes) :=
  match fuel with
  | O => io_err Blocked
  | S fuel =>
      let! buf := io_map_err OsError gk_recv in
      let! (results, finished) := io_lift (walk_messages (length buf) buf results false) in
      if finished then io_ret results else collect_replies fuel results
  end.

Definition GenlSocket_new : io K IoError GenlSocket :=
  let! port := io_map_err OsError gk_open in io_ret (mkGenlSocket 0 port).

Definition genl_request (fuel : nat) (sock : GenlSocket) (family cmd flags : Z) (attrs : bytes)
  : io K IoError (GenlSocket * list bytes) :=
  let sock := mkGenlSocket (gs_seq sock + 1) (gs_port sock) in
  let! _ := io_map_err OsError (gk_send (message_bytes family cmd flags (gs_seq sock) (gs_port sock) attrs)) in
  let! results := collect_replies fuel [] in
  io_ret (sock, results).
End Client.

(** ** The family *)

Definition fold_nlas {A} (f : A -> Z * bytes -> result A IoError) (b : bytes) (init : A) : result A IoError :=
  let? attrs := parse_nlas b in
  fold_left (fun acc tv => let? acc := acc in f acc tv) attrs (Ok init).

(** The id and the flags of one operation *)
Definition op_of (op : bytes) : result (option Z * Z) IoError :=
  fold_nlas (fun '(id, flags) '(ot, ov) =>
    let id := if (ot =? CTRL_ATTR_OP_ID) && negb (bool_decide (ov = [])) then Some (nth_byte ov 0) else id in
    let flags := if ot =? CTRL_ATTR_OP_FLAGS then default 0 (u32_of ov) else flags in
    Ok (id, flags)) op (None, 0).

Definition note_op (cmds : option Z * option Z) (entry : Z * bytes) : result (option Z * option Z) IoError :=
  let '(get_cmd, set_cmd) := cmds in
  let? (id, flags) := op_of entry.2 in
  match id with
  | None => Ok (get_cmd, set_cmd)
  | Some id =>
      Ok (if negb (Z.land flags GENL_CMD_CAP_DUMP =? 0) && negb (is_some get_cmd) then Some id else get_cmd,
          if negb (Z.land flags GENL_CMD_CAP_DO =? 0) && negb (is_some set_cmd) then Some id else set_cmd)
  end.

Definition parse_family_ops (name : string) (body : bytes) : result (Z * Z * Z) IoError :=
  let? (fam, (get_cmd, set_cmd)) :=
    fold_nlas (fun '(fam, cmds) '(t, v) =>
      if t =? CTRL_ATTR_FAMILY_ID then Ok (u16_of v, cmds)
      else if t =? CTRL_ATTR_OPS then let? cmds := fold_nlas note_op v cmds in Ok (fam, cmds)
      else Ok (fam, cmds)) body (None, (None, None)) in
  match fam with
  | None => Err (FamilyNotFound name)
  | Some fam =>
      let '(get_cmd, set_cmd) :=
        match get_cmd, set_cmd with
        | Some get, Some set => if get =? set then (None, None) else (get_cmd, set_cmd)
        | _, _ => (get_cmd, set_cmd)
        end in
      Ok (fam, default 1 get_cmd, default 2 set_cmd)
  end.

(** The first reply that names the family; a panic is not an [Err]. *)
Fixpoint first_family (name : string) (msgs : list bytes) : result (Z * Z * Z) IoError :=
  match msgs with
  | [] => Err (FamilyNotFound name)
  | m :: msgs =>
      match parse_family_ops name (drop 4 m) with
      | Ok resolved => Ok resolved
      | Err Panicked => Err Panicked
      | Err _ => first_family name msgs
      end
  end.

(** ** Configuration and dump *)

Section Device.
Context `{GenlKernel K} (fuel : nat).

Definition resolve_family_ops (sock : GenlSocket) (name : string)
  : io K IoError (GenlSocket * (Z * Z * Z)) :=
  let! (sock, msgs) := genl_request fuel sock GENL_ID_CTRL CTRL_CMD_GETFAMILY
                         (Z.lor NLM_F_REQUEST NLM_F_ACK) (nla_str CTRL_ATTR_FAMILY_NAME (as_bytes name)) in
  let! ops := io_lift (first_family name msgs) in
  io_ret (sock, ops).

Definition configure_device (cfg : WgDeviceConfig) : io K IoError unit :=
  let! sock := GenlSocket_new in
  let! (sock, (fam, _, set_cmd)) := resolve_family_ops sock WG_GENL_NAME in
  let! _ := genl_request fuel sock fam set_cmd (Z.lor NLM_F_REQUEST NLM_F_ACK) (concat (device_attrs cfg)) in
  io_ret ().

Definition dump_device (ifname : bytes) : io K IoError (list bytes) :=
  let! sock := GenlSocket_new in
  let! (sock, (fam, get_cmd, _)) := resolve_family_ops sock WG_GENL_NAME in
  let! (_, msgs) := genl_request fuel sock fam get_cmd
                      (Z.lor (Z.lor NLM_F_REQUEST NLM_F_DUMP) NLM_F_ACK) (nla_str WGDEVICE_A_IFNAME ifname) in
  io_ret msgs.
End Device.

Record WgPeerInfo := mkWgPeerInfo {
  wi_public_key : bytes;
  wi_endpoint : option SocketAddr;
  wi_keepalive : Z;
  wi_allowed_ips : list WgAllowedIp;
}.

Definition WgPeerInfo_default : WgPeerInfo := mkWgPeerInfo (replicate 32 0) None 0 [].

Record WgDeviceInfo := mkWgDeviceInfo { wd_ifindex : Z; wd_listen_port : Z; wd_peers : list WgPeerInfo }.

Definition parse_allowed_ip (body : bytes) : result (option WgAllowedIp) IoError :=
  let? (family, addr, cidr) :=
    fold_nlas (fun '(family, addr, cidr) '(t, v) =>
      Ok (if t =? WGALLOWEDIP_A_FAMILY then (default 0 (u16_of v), addr, cidr)
          else if t =? WGALLOWEDIP_A_IPADDR then (family, Some v, cidr)
          else if (t =? WGALLOWEDIP_A_CIDR_MASK) && negb (bool_decide (v = [])) then (family, addr, nth_byte v 0)
          else (family, addr, cidr))) body (0, None, 0) in
  Ok match addr with
     | None => None
     | Some addr =>
         if (family =? AF_INET) && (4 <=? length addr)%nat
         then Some (mkWgAllowedIp (V4 (IP4_from_bytes (take 4 addr))) cidr)
         else if (family =? AF_INET6) && (16 <=? length addr)%nat
         then Some (mkWgAllowedIp (V6 (take 16 addr)) cidr)
         else None
     end.

Fixpoint parse_each {A} (f : bytes -> result A IoError) (nlas : list (Z * bytes)) : result (list A) IoError :=
  match nlas with
  | [] => Ok []
  | (_, v) :: nlas => let? a := f v in let? rest := parse_each f nlas in Ok (a :: rest)
  end.

Definition peer_attr (peer : WgPeerInfo) (tv : Z * bytes) : result WgPeerInfo IoError :=
  let '(t, v) := tv in
  let '(mkWgPeerInfo key ep ka ips) := peer in
  if (t =? WGPEER_A_PUBLIC_KEY) && (32 <=? length v)%nat then Ok (mkWgPeerInfo (take 32 v) ep ka ips)
  else if t =? WGPEER_A_ENDPOINT then Ok (mkWgPeerInfo key (parse_endpoint v) ka ips)
  else if t =? WGPEER_A_PERSISTENT_KEEPALIVE_INTERVAL then Ok (mkWgPeerInfo key ep (default 0 (u16_of v)) ips)
  else if t =? WGPEER_A_ALLOWEDIPS then
    let? more := (let? nlas := parse_nlas v in parse_each parse_allowed_ip nlas) in
    Ok (mkWgPeerInfo key ep ka (ips ++ omap id more))
  else Ok peer.

Definition parse_peer (body : bytes) : result WgPeerInfo IoError :=
  fold_nlas peer_attr body WgPeerInfo_default.

Definition device_attr (info : WgDeviceInfo) (tv : Z * bytes) : result WgDeviceInfo IoError :=
  let '(t, v) := tv in
  let '(mkWgDeviceInfo i port peers) := info in
  if t =? WGDEVICE_A_IFINDEX then Ok (mkWgDeviceInfo (default 0 (u32_of v)) port peers)
  else if t =? WGDEVICE_A_LISTEN_PORT then Ok (mkWgDeviceInfo i (default 0 (u16_of v)) peers)
  else if t =? WGDEVICE_A_PEERS then
    let? more := (let? nlas := parse_nlas v in parse_each parse_peer nlas) in
    Ok (mkWgDeviceInfo i port (peers ++ more))
  else Ok info.

(** The fields of the first message of a dump, after its generic header *)
Definition parse_device (msg : bytes) : result WgDeviceInfo IoError :=
  if (length msg <? 4)%nat then Err Panicked
  else fold_nlas device_attr (drop 4 msg) (mkWgDeviceInfo 0 0 []).

Definition get_device `{GenlKernel K} (fuel : nat) (ifname : bytes) : io K IoError WgDeviceInfo :=
  fun k =>
    match dump_device fuel ifname k with
    | (k, Err e) =>
        (k, Err (match e with OsError c => if c =? ENODEV then NoDevice ifname else e | _ => e end))
    | (k, Ok msgs) =>
        (k, match msgs with [] => Err (NoDevice ifname) | msg :: _ => parse_device msg end)
    end.

(** ** Lemmas: attributes *)

Lemma align4_div n : align4 n = Z.to_nat ((Z.of_nat n + 3) / 4 * 4).
Proof.
  unfold align4. rewrite <- Z.ldiff_land. f_equal. change 3 with (Z.ones 2) at 2.
  by rewrite Z.ldiff_ones_r, Z.shiftl_mul_pow2, Z.shiftr_div_pow2.
Qed.

Lemma align4_bounds n : (n <= align4 n < n + 4)%nat.
Proof.
  rewrite align4_div. pose proof (Z.div_mod (Z.of_nat n + 3) 4 ltac:(lia)).
  pose proof (Z.mod_pos_bound (Z.of_nat n + 3) 4 ltac:(lia)). lia.
Qed.

Lemma align4_le n q : (n <= 4 * q)%nat -> (align4 n <= 4 * q)%nat.
Proof.
  rewrite align4_div. intros Hn. pose proof (Z.div_mod (Z.of_nat n + 3) 4 ltac:(lia)).
  pose proof (Z.mod_pos_bound (Z.of_nat n + 3) 4 ltac:(lia)). lia.
Qed.

Definition nla_pad (n : nat) : bytes := replicate (align4 n - n) 0.

Lemma length_nla_pad n : length (nla_pad n) = (align4 n - n)%nat.
Proof. apply length_replicate. Qed.

Lemma nla_app t payload :
  nla t payload = to_le 2 (wrap 16 (Z.of_nat (4 + length payload))) ++ to_le 2 t ++ payload
                  ++ nla_pad (4 + length payload).
Proof.
  unfold nla, nla_pad. rewrite <- !app_assoc. by rewrite !length_app, !length_to_le.
Qed.

Lemma length_nla t payload : length (nla t payload) = align4 (4 + length payload).
Proof.
  rewrite nla_app, !length_app, !length_to_le, length_nla_pad.
  pose proof (align4_bounds (4 + length payload)). lia.
Qed.

Lemma slice_app_l {A} (n : nat) (x y : list A) : length x = n -> slice 0 n (x ++ y) = x.
Proof. intros <-. unfold slice. rewrite Nat.sub_0_r. cbn. apply take_app_length. Qed.

Lemma slice_app_r {A} (a b : nat) (x y : list A) :
  (length x <= a)%nat -> slice a b (x ++ y) = slice (a - length x) (b - length x) y.
Proof.
  intros Ha. unfold slice. rewrite drop_app_ge by done.
  by replace (b - length x - (a - length x))%nat with (b - a)%nat by lia.
Qed.

Lemma get_range_app_l {A} (n : nat) (x y : list A) : length x = n -> get_range 0 n (x ++ y) = Some x.
Proof.
  intros <-. unfold get_range. rewrite decide_True by (rewrite length_app; lia).
  by rewrite drop_0, take_app_length.
Qed.

Lemma get_range_app_r {A} (a n : nat) (x y : list A) :
  (length x <= a)%nat -> get_range a n (x ++ y) = get_range (a - length x) n y.
Proof.
  intros Ha. unfold get_range. rewrite drop_app_ge, length_app by done.
  do 2 case_decide; done || lia.
Qed.

Lemma get_range_split {A} (a n : nat) (pre y post l : list A) :
  l = pre ++ y ++ post -> length pre = a -> length y = n -> get_range a n l = Some y.
Proof.
  intros -> <- <-. rewrite get_range_app_r, Nat.sub_diag by done. by apply get_range_app_l.
Qed.

Lemma get_range_all {A} (n : nat) (x : list A) : length x = n -> get_range 0 n x = Some x.
Proof. intros. rewrite <- (app_nil_r x) at 1. by apply get_range_app_l. Qed.

Lemma u16_of_le v rest : u16 v -> u16_of (to_le 2 v ++ rest) = Some v.
Proof.
  intros Hv. unfold u16_of. rewrite get_range_app_l by (by rewrite length_to_le). cbn [option_map].
  rewrite from_le_to_le. f_equal. by apply Z.mod_small.
Qed.

Lemma u32_of_le v rest : u32 v -> u32_of (to_le 4 v ++ rest) = Some v.
Proof.
  intros Hv. unfold u32_of. rewrite get_range_app_l by (by rewrite length_to_le). cbn [option_map].
  rewrite from_le_to_le. f_equal. by apply Z.mod_small.
Qed.

Lemma u16_of_all v : u16 v -> u16_of (to_le 2 v) = Some v.
Proof. intros. rewrite <- (app_nil_r (to_le 2 v)). by apply u16_of_le. Qed.

Lemma u32_of_all v : u32 v -> u32_of (to_le 4 v) = Some v.
Proof. intros. rewrite <- (app_nil_r (to_le 4 v)). by apply u32_of_le. Qed.

(** More fuel than bytes does not matter. *)
Lemma parse_nlas_fuel fuel b : (length b <= fuel)%nat -> parse_nlas_from fuel b = parse_nlas b.
Proof.
  unfold parse_nlas.
  assert (forall f f' b, (length b <= f)%nat -> (length b <= f')%nat ->
            parse_nlas_from f b = parse_nlas_from f' b) as Hf.
  { clear. induction f as [|f IH]; intros f' b Hl Hl'.
    - destruct b; [|cbn in Hl; lia]. by destruct f'.
    - destruct f' as [|f']; [destruct b; [done|cbn in Hl'; lia]|]. cbn [parse_nlas_from].
      destruct (length b <? 4)%nat eqn:E4; [done|]. apply Nat.ltb_ge in E4.
      destruct ((_ <? 4)%nat || _) eqn:Ec; [done|].
      destruct (length b <? align4 _)%nat; [done|].
      apply orb_false_iff in Ec as [E1%Nat.ltb_ge _].
      set (len := Z.to_nat (from_le (slice 0 2 b))) in *. pose proof (align4_bounds len).
      by rewrite (IH f') by (rewrite length_drop; lia). }
  intros Hl. by apply Hf.
Qed.

(** What an attribute can hold. *)
Definition field_fits (f : Z * bytes) : Prop := u16 f.1 /\ Z.of_nat (length f.2) < 65532.

Lemma parse_nlas_cons t payload rest :
  field_fits (t, payload) ->
  parse_nlas (nla t payload ++ rest)
  = (let? more := parse_nlas rest in Ok ((Z.land t 32767, payload) :: more)).
Proof.
  intros [Ht Hp]. cbn [fst snd] in *. unfold parse_nlas at 1.
  pose proof (align4_bounds (4 + length payload)) as Ha.
  destruct (length (nla t payload ++ rest)) as [|fuel] eqn:Ef.
  { rewrite length_app, length_nla in Ef. lia. }
  cbn [parse_nlas_from]. rewrite Ef.
  assert (from_le (slice 0 2 (nla t payload ++ rest)) = Z.of_nat (4 + length payload)) as ->.
  { rewrite nla_app, <- app_assoc, slice_app_l by (by rewrite length_to_le).
    rewrite from_le_to_le, wrap_small by (unfold in_width; lia). apply Z.mod_small. lia. }
  rewrite Nat2Z.id.
  assert (from_le (slice 2 4 (nla t payload ++ rest)) = t) as ->.
  { rewrite nla_app, <- !app_assoc, slice_app_r by (by rewrite length_to_le). rewrite length_to_le.
    rewrite slice_app_l by (by rewrite length_to_le). rewrite from_le_to_le. by apply Z.mod_small. }
  rewrite length_app, length_nla in Ef.
  rewrite !(proj2 (Nat.ltb_ge _ _)) by lia. cbn [orb].
  assert (slice 4 (4 + length payload) (nla t payload ++ rest) = payload) as ->.
  { rewrite nla_app, <- !app_assoc, !slice_app_r by (rewrite !length_to_le; lia). rewrite !length_to_le.
    apply slice_app_l. lia. }
  assert (drop (align4 (4 + length payload)) (nla t payload ++ rest) = rest) as ->
    by (rewrite <- (length_nla t payload); apply drop_app_length).
  by rewrite parse_nlas_fuel by lia.
Qed.

Definition encode_fields (fs : list (Z * bytes)) : bytes := concat (map (fun f => nla f.1 f.2) fs).

(** What was encoded is read back, without the nest flag. *)
Lemma parse_encode_fields fs :
  Forall field_fits fs -> parse_nlas (encode_fields fs) = Ok (map (fun f => (Z.land f.1 32767, f.2)) fs).
Proof.
  unfold encode_fields. induction 1 as [|[t p] fs Hf _ IH]; [done|].
  cbn [map concat]. rewrite parse_nlas_cons by done. by rewrite IH.
Qed.

Lemma fold_encode_fields {A} (f : A -> Z * bytes -> result A IoError) fs init :
  Forall field_fits fs ->
  fold_nlas f (encode_fields fs) init
  = fold_left (fun acc tv => let? acc := acc in f acc tv) (map (fun f => (Z.land f.1 32767, f.2)) fs) (Ok init).
Proof. intros Hf. unfold fold_nlas. by rewrite parse_encode_fields. Qed.

(** ** The other side: what the attributes of a configuration say *)

Definition attr (t : Z) (fs : list (Z * bytes)) : option bytes :=
  option_map snd (List.find (fun f => f.1 =? t) fs).

Definition read_sockaddr (b : bytes) : option SocketAddr :=
  family ← u16_of b;
  port ← get_range 2 2 b;
  if (family =? AF_INET) && (length b =? 16)%nat then
    o ← get_range 4 4 b; Some (SockV4 (from_be o) (from_be port))
  else if (family =? AF_INET6) && (length b =? 28)%nat then
    flow ← get_range 4 4 b; ip ← get_range 8 16 b; scope ← get_range 24 4 b;
    Some (SockV6 ip (from_be port) (from_le flow) (from_le scope))
  else None.

Definition read_allowed_ip (b : bytes) : option WgAllowedIp :=
  fs ← result_ok (parse_nlas b);
  family ← attr WGALLOWEDIP_A_FAMILY fs ≫= u16_of;
  addr ← attr WGALLOWEDIP_A_IPADDR fs;
  cidr ← attr WGALLOWEDIP_A_CIDR_MASK fs ≫= list.head;
  if (family =? AF_INET) && (length addr =? 4)%nat then Some (mkWgAllowedIp (V4 (from_be addr)) cidr)
  else if (family =? AF_INET6) && (length addr =? 16)%nat then Some (mkWgAllowedIp (V6 addr) cidr)
  else None.

(** The entries of a nest, whatever their numbers *)
Definition read_nest {A} (read : bytes -> option A) (o : option bytes) : option (list A) :=
  match o with
  | None => Some []
  | Some b => fs ← result_ok (parse_nlas b); mapM (fun f => read f.2) fs
  end.

Definition read_peer (b : bytes) : option WgPeerConfig :=
  fs ← result_ok (parse_nlas b);
  key ← attr WGPEER_A_PUBLIC_KEY fs;
  ips ← read_nest read_allowed_ip (attr WGPEER_A_ALLOWEDIPS fs);
  Some (mkWgPeerConfig key (attr WGPEER_A_PRESHARED_KEY fs) (default 0 (attr WGPEER_A_FLAGS fs ≫= u32_of))
          (attr WGPEER_A_ENDPOINT fs ≫= read_sockaddr)
          (attr WGPEER_A_PERSISTENT_KEEPALIVE_INTERVAL fs ≫= u16_of) ips).

Definition read_device (b : bytes) : option WgDeviceConfig :=
  fs ← result_ok (parse_nlas b);
  name ← attr WGDEVICE_A_IFNAME fs;
  peers ← read_nest read_peer (attr WGDEVICE_A_PEERS fs);
  Some (mkWgDeviceConfig (take (length name - 1) name) (attr WGDEVICE_A_PRIVATE_KEY fs)
          (attr WGDEVICE_A_LISTEN_PORT fs ≫= u16_of) (default 0 (attr WGDEVICE_A_FLAGS fs ≫= u32_of)) peers).

(** ** Lemmas: configurations *)

Lemma attr_cons t f fs : attr t (f :: fs) = if f.1 =? t then Some f.2 else attr t fs.
Proof. unfold attr. cbn. by destruct (f.1 =? t). Qed.

(** Decides the comparisons of attribute types. *)
Ltac attr_types :=
  repeat match goal with
  | |- context [Z.land ?a 32767 =? ?b] =>
      let v := eval vm_compute in (Z.land a 32767 =? b) in
      change (Z.land a 32767 =? b) with v; cbv iota
  end.

Ltac attr_simpl := cbn [map app fst snd]; rewrite ?attr_cons; cbn [fst snd]; attr_types.

Definition addr_typed (a : IpAddr) : Prop := match a with V4 ip => u32 ip | V6 ip => IP6_typed ip end.
Definition allowed_typed (a : WgAllowedIp) : Prop := addr_typed (wa_ip a) /\ u8 (wa_cidr a).

(** Flow information is not sent. *)
Definition sock_typed (s : SocketAddr) : Prop :=
  match s with
  | SockV4 ip port => u32 ip /\ u16 port
  | SockV6 ip port flow scope => IP6_typed ip /\ u16 port /\ flow = 0 /\ u32 scope
  end.

Definition opt_all {A} (P : A -> Prop) (o : option A) : Prop := match o with Some a => P a | None => True end.

Definition peer_typed (p : WgPeerConfig) : Prop :=
  length (wp_public_key p) = 32%nat /\ opt_all (fun k => length k = 32%nat) (wp_preshared_key p) /\
  u32 (wp_flags p) /\ opt_all sock_typed (wp_endpoint p) /\ opt_all u16 (wp_keepalive p) /\
  Forall allowed_typed (wp_allowed_ips p) /\ Z.of_nat (length (wp_allowed_ips p)) <= 1600.

(** An upper bound of the space that the peers take *)
Definition peers_size (ps : list WgPeerConfig) : Z :=
  foldr (fun p n => 160 + 40 * Z.of_nat (length (wp_allowed_ips p)) + n) 0 ps.

Definition config_typed (c : WgDeviceConfig) : Prop :=
  Z.of_nat (length (wc_ifname c)) < 65531 /\ opt_all (fun k => length k = 32%nat) (wc_private_key c) /\
  opt_all u16 (wc_listen_port c) /\ u32 (wc_flags c) /\ Forall peer_typed (wc_peers c) /\
  peers_size (wc_peers c) < 65532.

Definition addr_field (a : IpAddr) : Z * bytes :=
  match a with V4 v4 => (AF_INET, IP4_octets v4) | V6 v6 => (AF_INET6, v6) end.

Definition allowed_fields (a : WgAllowedIp) : list (Z * bytes) :=
  [ (WGALLOWEDIP_A_FAMILY, to_le 2 (addr_field (wa_ip a)).1); (WGALLOWEDIP_A_IPADDR, (addr_field (wa_ip a)).2);
    (WGALLOWEDIP_A_CIDR_MASK, [wa_cidr a]) ].

Definition nest_fields {A} (fields : A -> list (Z * bytes)) (l : list A) : list (Z * bytes) :=
  imap (fun i x => (Z.lor (wrap 16 (Z.of_nat (i + 1))) 32768, encode_fields (fields x))) l.

Definition opt_field {A} (t : Z) (f : A -> bytes) (o : option A) : list (Z * bytes) :=
  match o with Some a => [(t, f a)] | None => [] end.

Definition list_field {A} (t : Z) (fields : A -> list (Z * bytes)) (l : list A) : list (Z * bytes) :=
  match l with [] => [] | _ => [(Z.lor t 32768, encode_fields (nest_fields fields l))] end.

Definition flags_field (t flags : Z) : list (Z * bytes) :=
  if negb (flags =? 0) then [(t, to_le 4 flags)] else [].

Definition peer_fields (p : WgPeerConfig) : list (Z * bytes) :=
  [(WGPEER_A_PUBLIC_KEY, wp_public_key p)] ++ opt_field WGPEER_A_PRESHARED_KEY id (wp_preshared_key p)
  ++ flags_field WGPEER_A_FLAGS (wp_flags p) ++ opt_field WGPEER_A_ENDPOINT sockaddr_bytes (wp_endpoint p)
  ++ opt_field WGPEER_A_PERSISTENT_KEEPALIVE_INTERVAL (to_le 2) (wp_keepalive p)
  ++ list_field WGPEER_A_ALLOWEDIPS allowed_fields (wp_allowed_ips p).

Definition device_fields (c : WgDeviceConfig) : list (Z * bytes) :=
  [(WGDEVICE_A_IFNAME, wc_ifname c ++ [0])] ++ opt_field WGDEVICE_A_PRIVATE_KEY id (wc_private_key c)
  ++ opt_field WGDEVICE_A_LISTEN_PORT (to_le 2) (wc_listen_port c)
  ++ flags_field WGDEVICE_A_FLAGS (wc_flags c)
  ++ list_field WGDEVICE_A_PEERS peer_fields (wc_peers c).

Lemma encode_fields_app xs ys : encode_fields (xs ++ ys) = encode_fields xs ++ encode_fields ys.
Proof. unfold encode_fields. by rewrite map_app, concat_app. Qed.

Lemma concat_opt_nla {A} g t (f : A -> bytes) o :
  (forall a, g a = nla t (f a)) -> concat (opt_nla g o) = encode_fields (opt_field t f o).
Proof. intros Hg. destruct o; [|done]. cbn. by rewrite Hg. Qed.

Lemma concat_numbered {A} (g : A -> list bytes) fields l :
  (forall x, concat (g x) = encode_fields (fields x)) ->
  concat (numbered g l) = encode_fields (nest_fields fields l).
Proof.
  intros Hg. unfold numbered, nest_fields, encode_fields. f_equal.
  change (map ?f ?l) with (f <$> l). rewrite fmap_imap. apply imap_ext. intros i x _.
  cbn. unfold nla_nest. by rewrite Hg.
Qed.

Lemma concat_allowed_attrs a : concat (allowed_ip_attrs a) = encode_fields (allowed_fields a).
Proof. unfold allowed_ip_attrs, allowed_fields, addr_field. by destruct (wa_ip a). Qed.

Lemma concat_flags t flags :
  concat (if negb (flags =? 0) then [nla_u32 t flags] else []) = encode_fields (flags_field t flags).
Proof. unfold flags_field. by destruct (flags =? 0). Qed.

Lemma concat_list {A} t (g : A -> list bytes) fields l :
  (forall x, concat (g x) = encode_fields (fields x)) ->
  concat (match l with [] => [] | xs => [nla_nest t (numbered g xs)] end) = encode_fields (list_field t fields l).
Proof.
  intros Hg. unfold list_field. destruct l as [|x l]; [done|].
  unfold nla_nest. by rewrite (concat_numbered g fields).
Qed.

Lemma concat_peer_attrs p : concat (peer_attrs p) = encode_fields (peer_fields p).
Proof.
  unfold peer_attrs, peer_fields. rewrite !concat_app, !encode_fields_app.
  rewrite (concat_opt_nla _ WGPEER_A_PRESHARED_KEY id), concat_flags, (concat_opt_nla _ WGPEER_A_ENDPOINT sockaddr_bytes),
    (concat_opt_nla _ WGPEER_A_PERSISTENT_KEEPALIVE_INTERVAL (to_le 2)) by done.
  pose proof (concat_list WGPEER_A_ALLOWEDIPS _ _ (wp_allowed_ips p) concat_allowed_attrs) as Hl.
  destruct (wp_allowed_ips p); by rewrite Hl.
Qed.

Lemma concat_device_attrs c : concat (device_attrs c) = encode_fields (device_fields c).
Proof.
  unfold device_attrs, device_fields. rewrite !concat_app, !encode_fields_app.
  rewrite (concat_opt_nla _ WGDEVICE_A_PRIVATE_KEY id), concat_flags,
    (concat_opt_nla _ WGDEVICE_A_LISTEN_PORT (to_le 2)) by done.
  pose proof (concat_list WGDEVICE_A_PEERS _ _ (wc_peers c) concat_peer_attrs) as Hl.
  destruct (wc_peers c); by rewrite Hl.
Qed.

(** *** Sizes *)

Lemma length_encode_cons f fs :
  length (encode_fields (f :: fs)) = (align4 (4 + length f.2) + length (encode_fields fs))%nat.
Proof. unfold encode_fields. cbn [map concat]. by rewrite length_app, length_nla. Qed.

(** Up to its numbers a nest is a plain list. *)
Lemma nest_fields_ind {A} (fields : A -> list (Z * bytes)) (P : list A -> list (Z * bytes) -> Prop) :
  P [] [] ->
  (forall x l fs t, u16 t -> P l fs -> P (x :: l) ((t, encode_fields (fields x)) :: fs)) ->
  forall l, P l (nest_fields fields l).
Proof.
  intros H0 Hs l. unfold nest_fields.
  assert (forall g : nat -> Z, (forall i, u16 (g i)) ->
    P l (imap (fun i x => (g i, encode_fields (fields x))) l)) as Hg.
  { induction l as [|x l IH]; intros g Hg; [done|]. rewrite imap_cons. apply Hs; [done|].
    apply (IH (g ∘ S)). intros i. apply Hg. }
  apply (Hg (fun i => Z.lor (wrap 16 (Z.of_nat (i + 1))) 32768)). intros i.
  pose proof (wrap_in_width 16 (Z.of_nat (i + 1)) ltac:(lia)) as Hw. unfold in_width in *.
  split; [apply Z.lor_nonneg; lia|].
  destruct (decide (Z.lor (wrap 16 (Z.of_nat (i + 1))) 32768 = 0)) as [->|Hne]; [lia|].
  apply Z.log2_lt_pow2; [pose proof (Z.lor_nonneg (wrap 16 (Z.of_nat (i + 1))) 32768); lia|].
  rewrite Z.log2_lor by lia. apply Z.max_lub_lt; [|done].
  destruct (decide (wrap 16 (Z.of_nat (i + 1)) = 0)) as [->|]; [done|]. apply Z.log2_lt_pow2; lia.
Qed.

Lemma length_nest_fields {A} (fields : A -> list (Z * bytes)) l :
  length (encode_fields (nest_fields fields l))
  = foldr (fun x n => align4 (4 + length (encode_fields (fields x))) + n)%nat O l.
Proof.
  apply (nest_fields_ind fields (fun l fs => length (encode_fields fs)
    = foldr (fun x n => align4 (4 + length (encode_fields (fields x))) + n)%nat O l)); [done|].
  intros x l' fs t _ IH. by rewrite length_encode_cons, IH.
Qed.

Lemma length_addr_field a : addr_typed a -> (length (addr_field a).2 <= 16)%nat.
Proof.
  destruct a as [ip|ip]; cbn; intros Ht; [unfold IP4_octets; rewrite length_to_be; lia|].
  by rewrite (proj1 Ht).
Qed.

Lemma length_allowed_fields a : allowed_typed a -> (length (encode_fields (allowed_fields a)) <= 36)%nat.
Proof.
  intros [Ha _]. unfold allowed_fields. rewrite !length_encode_cons. cbn [fst snd]. rewrite length_to_le.
  destruct (wa_ip a) as [ip|ip]; cbn [addr_field snd].
  - unfold IP4_octets. rewrite length_to_be. by apply Nat.leb_le.
  - cbn in Ha. rewrite (proj1 Ha). by apply Nat.leb_le.
Qed.

Lemma length_allowed_nest l :
  Forall allowed_typed l ->
  (length (encode_fields (nest_fields allowed_fields l)) <= 40 * length l)%nat.
Proof.
  intros Hl. rewrite length_nest_fields. induction Hl as [|a l Ha _ IH]; [done|]. cbn [foldr length].
  pose proof (length_allowed_fields a Ha) as Hlen.
  pose proof (align4_le (4 + length (encode_fields (allowed_fields a))) 10). lia.
Qed.

Lemma length_sockaddr s : sock_typed s -> (length (sockaddr_bytes s) <= 28)%nat.
Proof.
  destruct s as [ip port|ip port flow scope]; cbn [sock_typed sockaddr_bytes]; intros Hs.
  - unfold IP4_octets. rewrite !length_app, !length_to_le, !length_to_be, length_replicate. lia.
  - rewrite !length_app, !length_to_le, !length_to_be, (proj1 (proj1 Hs)). lia.
Qed.

(** Fields that fit and take at most [n] bytes *)
Definition small (n : Z) (fs : list (Z * bytes)) : Prop :=
  Forall field_fits fs /\ Z.of_nat (length (encode_fields fs)) <= n.

Lemma small_nil n : 0 <= n -> small n [].
Proof. intros. by split; [constructor|]. Qed.

Lemma small_app m n fs gs : small m fs -> small n gs -> small (m + n) (fs ++ gs).
Proof.
  intros [Hf Hm] [Hg Hn]. split; [by apply Forall_app|]. rewrite encode_fields_app, length_app. lia.
Qed.

Lemma small_one n t b : u16 t -> Z.of_nat (length b) <= n < 65532 -> small (7 + n) [(t, b)].
Proof.
  intros Ht Hn. split; [constructor; [split; [done|cbn [snd]; lia]|constructor]|].
  rewrite length_encode_cons. cbn [snd]. pose proof (align4_bounds (4 + length b)).
  change (length (encode_fields [])) with O. lia.
Qed.

Lemma small_opt {A} n t (f : A -> bytes) (P : A -> Prop) o :
  u16 t -> 0 <= n < 65532 -> (forall a, P a -> Z.of_nat (length (f a)) <= n) -> opt_all P o ->
  small (7 + n) (opt_field t f o).
Proof.
  intros Ht Hn Hf Ho. destruct o as [a|]; [|apply small_nil; lia].
  apply small_one; [done|]. cbn in Ho. apply Hf in Ho. lia.
Qed.

Lemma small_flags t flags : u16 t -> small 11 (flags_field t flags).
Proof.
  intros Ht. unfold flags_field. destruct (negb _); [|by apply small_nil].
  apply (small_one 4); [done|]. rewrite length_to_le. lia.
Qed.

Lemma small_list {A} n t (fields : A -> list (Z * bytes)) l :
  u16 (Z.lor t 32768) -> 0 <= n < 65532 ->
  Z.of_nat (length (encode_fields (nest_fields fields l))) <= n -> small (7 + n) (list_field t fields l).
Proof.
  intros Ht Hn Hl. unfold list_field. destruct l; [apply small_nil; lia|]. apply small_one; [done|lia].
Qed.

Lemma peer_fields_small p :
  peer_typed p -> small (140 + 40 * Z.of_nat (length (wp_allowed_ips p))) (peer_fields p).
Proof.
  intros (Hk & Hpsk & Hfl & Hep & Hka & Hips & Hn).
  pose proof (length_allowed_nest _ Hips) as Hnest. unfold peer_fields.
  replace (140 + 40 * Z.of_nat (length (wp_allowed_ips p))) with
    ((7 + 32) + ((7 + 32) + (11 + ((7 + 28) + ((7 + 2) + (7 + 40 * Z.of_nat (length (wp_allowed_ips p)))))))) by lia.
  apply small_app; [apply small_one; [done|lia]|].
  apply small_app; [eapply (small_opt _ _ id (fun k => length k = 32%nat)); [done|lia| |done]; intros k E; unfold id; lia|].
  apply small_app; [by apply small_flags|].
  apply small_app; [eapply (small_opt _ _ _ sock_typed); [done|lia| |done]; intros s E%length_sockaddr; lia|].
  apply small_app; [eapply (small_opt _ _ _ u16); [done|lia| |done]; intros a _; rewrite length_to_le; lia|].
  apply small_list; [done|lia|lia].
Qed.

Lemma length_peers_nest ps :
  Forall peer_typed ps -> Z.of_nat (length (encode_fields (nest_fields peer_fields ps))) <= peers_size ps.
Proof.
  intros Hp. rewrite length_nest_fields. induction Hp as [|p ps Hp _ IH]; [done|]. cbn [foldr].
  destruct (peer_fields_small p Hp) as [_ Hs].
  pose proof (align4_bounds (4 + length (encode_fields (peer_fields p)))).
  unfold peers_size in *. cbn [foldr]. lia.
Qed.

Lemma device_fields_fit c : config_typed c -> Forall field_fits (device_fields c).
Proof.
  intros (Hn & Hk & Hp & Hf & Hps & Hs). pose proof (length_peers_nest _ Hps).
  unfold device_fields. rewrite !Forall_app. split_and!.
  - constructor; [split; [done|cbn [snd]; rewrite length_app; cbn; lia]|constructor].
  - eapply (small_opt 32 _ id (fun k => length k = 32%nat)); [done|lia| |done]. intros k E. unfold id. lia.
  - eapply (small_opt 2 _ _ u16); [done|lia| |done]. intros k E. rewrite length_to_le. lia.
  - by apply small_flags.
  - eapply (small_list (peers_size (wc_peers c))); [done| |lia]. split; [|done].
    clear. unfold peers_size. induction (wc_peers c); cbn; lia.
Qed.

(** *** Reading back *)

Lemma nest_fields_fit {A} (fields : A -> list (Z * bytes)) l :
  Forall (fun x => Z.of_nat (length (encode_fields (fields x))) < 65532) l ->
  Forall field_fits (nest_fields fields l).
Proof.
  apply (nest_fields_ind fields (fun l fs =>
    Forall (fun x => Z.of_nat (length (encode_fields (fields x))) < 65532) l -> Forall field_fits fs)); [done|].
  intros x l' fs t Ht IH Hl. apply Forall_cons_iff in Hl as [Hx Hl]. constructor; [by split|by apply IH].
Qed.

Lemma nest_payloads {A} (fields : A -> list (Z * bytes)) l :
  map snd (nest_fields fields l) = map (fun x => encode_fields (fields x)) l.
Proof.
  apply (nest_fields_ind fields (fun l fs => map snd fs = map (fun x => encode_fields (fields x)) l)); [done|].
  intros x l' fs t _ IH. cbn [map snd]. by rewrite IH.
Qed.

Lemma mapM_payloads {A} (read : bytes -> option A) fs :
  mapM (fun f : Z * bytes => read f.2) fs = mapM read (map snd fs).
Proof. induction fs as [|f fs IH]; [done|]. cbn. by rewrite IH. Qed.

Lemma map_land_payloads fs : map snd (map (fun f : Z * bytes => (Z.land f.1 32767, f.2)) fs) = map snd fs.
Proof. rewrite map_map. by apply map_ext. Qed.

Lemma read_nest_encoded {A} (read : bytes -> option A) (fields : A -> list (Z * bytes)) l :
  Forall (fun x => Z.of_nat (length (encode_fields (fields x))) < 65532
                   /\ read (encode_fields (fields x)) = Some x) l ->
  read_nest read (Some (encode_fields (nest_fields fields l))) = Some l.
Proof.
  intros Hl. cbn [read_nest]. rewrite parse_encode_fields.
  2: { apply nest_fields_fit. revert Hl. apply Forall_impl. by intros x [? _]. }
  cbn. rewrite mapM_payloads, map_land_payloads, nest_payloads.
  induction Hl as [|x l [_ Hx] _ IH]; [done|]. cbn. rewrite Hx. cbn. by rewrite IH.
Qed.

Lemma parse_each_encoded {A B} (parse : bytes -> result B IoError) (fields : A -> list (Z * bytes)) (h : A -> B) l :
  Forall (fun x => Z.of_nat (length (encode_fields (fields x))) < 65532
                   /\ parse (encode_fields (fields x)) = Ok (h x)) l ->
  (let? nlas := parse_nlas (encode_fields (nest_fields fields l)) in parse_each parse nlas) = Ok (map h l).
Proof.
  intros Hl. rewrite parse_encode_fields.
  2: { apply nest_fields_fit. revert Hl. apply Forall_impl. by intros x [? _]. }
  cbn [rbind].
  apply (nest_fields_ind fields (fun l fs => Forall (fun x => Z.of_nat (length (encode_fields (fields x))) < 65532
      /\ parse (encode_fields (fields x)) = Ok (h x)) l ->
    parse_each parse (map (fun f => (Z.land f.1 32767, f.2)) fs) = Ok (map h l))); [done| |done].
  clear. intros x l fs t _ IH Hl. apply Forall_cons_iff in Hl as [[_ Hx] Hl].
  cbn [map parse_each fst snd]. by rewrite Hx, IH.
Qed.

Lemma from_be_port port : u16 port -> from_be (to_be 2 port) = port.
Proof. intros Hp. rewrite from_be_to_be. by apply Z.mod_small. Qed.

Lemma allowed_fields_fit a : allowed_typed a -> Forall field_fits (allowed_fields a).
Proof.
  intros [Ha _]. apply length_addr_field in Ha. unfold allowed_fields.
  repeat constructor; try done. cbn [snd]. lia.
Qed.

Lemma read_allowed_encoded a :
  allowed_typed a -> read_allowed_ip (encode_fields (allowed_fields a)) = Some a.
Proof.
  intros Ha. unfold read_allowed_ip. rewrite parse_encode_fields by by apply allowed_fields_fit.
  destruct a as [[ip|ip] cidr], Ha as [Hip Hc]; unfold allowed_fields; cbn [wa_ip wa_cidr addr_field] in *;
    cbn [result_ok mbind option_bind]; attr_simpl; cbn [mbind option_bind];
    rewrite u16_of_all by done; cbn [mbind option_bind list.head].
  - unfold IP4_octets at 1. rewrite length_to_be. cbn -[from_be IP4_octets]. by rewrite IP4_octets_value.
  - cbn in Hip. by rewrite (proj1 Hip).
Qed.

Lemma read_sockaddr_encoded s : sock_typed s -> read_sockaddr (sockaddr_bytes s) = Some s.
Proof.
  unfold read_sockaddr. destruct s as [ip port|ip port flow scope]; cbn [sockaddr_bytes sock_typed].
  - intros [Hip Hp]. rewrite u16_of_le by done. cbn [mbind option_bind].
    rewrite (get_range_split 2 2 (to_le 2 AF_INET) (to_be 2 port) (IP4_octets ip ++ replicate 8 0)),
      (get_range_split 4 4 (to_le 2 AF_INET ++ to_be 2 port) (IP4_octets ip) (replicate 8 0))
      by (rewrite ?length_app; done).
    cbn [mbind option_bind]. rewrite !length_app, !length_to_le, !length_to_be. unfold IP4_octets at 1.
    rewrite length_to_be, length_replicate. cbn -[to_le to_be from_be IP4_octets].
    by rewrite IP4_octets_value, from_be_port.
  - intros (Hip & Hp & -> & Hs). rewrite u16_of_le by done. cbn [mbind option_bind].
    pose proof (proj1 Hip) as Hlen.
    rewrite (get_range_split 2 2 (to_le 2 AF_INET6) (to_be 2 port) (to_le 4 0 ++ ip ++ to_le 4 scope)),
      (get_range_split 4 4 (to_le 2 AF_INET6 ++ to_be 2 port) (to_le 4 0) (ip ++ to_le 4 scope)),
      (get_range_split 8 16 (to_le 2 AF_INET6 ++ to_be 2 port ++ to_le 4 0) ip (to_le 4 scope)),
      (get_range_split 24 4 (to_le 2 AF_INET6 ++ to_be 2 port ++ to_le 4 0 ++ ip) (to_le 4 scope) [])
      by (rewrite ?length_app, ?length_to_le, ?length_to_be, ?app_nil_r, <- ?app_assoc, ?Hlen; done).
    cbn [mbind option_bind]. rewrite !length_app, !length_to_le, !length_to_be, Hlen.
    cbn -[to_le to_be from_be from_le]. rewrite from_be_port, !from_le_to_le by done.
    do 2 f_equal. by apply Z.mod_small.
Qed.

Lemma flags_read flags (o : option bytes) :
  u32 flags -> o = (if negb (flags =? 0) then Some (to_le 4 flags) else None) ->
  default 0 (o ≫= u32_of) = flags.
Proof.
  intros Hf ->. destruct (Z.eqb_spec flags 0) as [->|Hne]; cbn [negb mbind option_bind]; [done|].
  by rewrite u32_of_all.
Qed.

(** The attributes of optional fields are found under their types. *)
Lemma attr_app t xs ys : attr t (xs ++ ys) = match attr t xs with Some b => Some b | None => attr t ys end.
Proof.
  induction xs as [|f xs IH]; [done|]. cbn [app]. rewrite !attr_cons. by destruct (f.1 =? t).
Qed.

Definition masked (fs : list (Z * bytes)) : list (Z * bytes) := map (fun f => (Z.land f.1 32767, f.2)) fs.

Lemma attr_opt {A} t t' (f : A -> bytes) o :
  attr t (masked (opt_field t' f o)) = if Z.land t' 32767 =? t then option_map f o else None.
Proof. destruct o as [a|]; cbn [opt_field masked map]; [rewrite attr_cons|]; by destruct (_ =? _). Qed.

Lemma attr_flags t t' flags :
  attr t (masked (flags_field t' flags))
  = if Z.land t' 32767 =? t then (if negb (flags =? 0) then Some (to_le 4 flags) else None) else None.
Proof.
  unfold flags_field. destruct (negb _); cbn [masked map]; [rewrite attr_cons|]; by destruct (_ =? t).
Qed.

Lemma attr_list {A} t t' (fields : A -> list (Z * bytes)) l :
  attr t (masked (list_field t' fields l))
  = if Z.land (Z.lor t' 32768) 32767 =? t
    then match l with [] => None | _ => Some (encode_fields (nest_fields fields l)) end else None.
Proof.
  unfold list_field. destruct l; cbn [masked map]; [|rewrite attr_cons]; by destruct (_ =? t).
Qed.

Lemma masked_app xs ys : masked (xs ++ ys) = masked xs ++ masked ys.
Proof. apply map_app. Qed.

Lemma read_nest_list {A} (read : bytes -> option A) (fields : A -> list (Z * bytes)) l :
  Forall (fun x => Z.of_nat (length (encode_fields (fields x))) < 65532
                   /\ read (encode_fields (fields x)) = Some x) l ->
  read_nest read (match l with [] => None | _ => Some (encode_fields (nest_fields fields l)) end) = Some l.
Proof. intros Hl. destruct l; [done|]. by apply read_nest_encoded. Qed.

Lemma bind_option_map {A B C} (f : A -> B) (g : B -> option C) (h : A -> C) (P : A -> Prop) (o : option A) :
  (forall a, P a -> g (f a) = Some (h a)) -> opt_all P o -> option_map f o ≫= g = option_map h o.
Proof. intros Hg Ho. destruct o as [a|]; [|done]. cbn in *. by apply Hg. Qed.

Lemma option_map_self {A} (o : option A) : option_map (fun a => a) o = o.
Proof. by destruct o. Qed.

Lemma match_option_id {A} (o : option A) : match o with Some a => Some a | None => None end = o.
Proof. by destruct o. Qed.

Lemma allowed_each l :
  Forall allowed_typed l ->
  Forall (fun x => Z.of_nat (length (encode_fields (allowed_fields x))) < 65532
                   /\ read_allowed_ip (encode_fields (allowed_fields x)) = Some x) l.
Proof.
  apply Forall_impl. intros a Ha. pose proof (length_allowed_fields a Ha).
  split; [lia|]. by apply read_allowed_encoded.
Qed.

Ltac attr_fields :=
  rewrite ?masked_app, ?attr_app, ?attr_opt, ?attr_flags, ?attr_list;
  cbn [masked map fst snd]; rewrite ?attr_cons; cbn [fst snd]; attr_types;
  repeat change (attr _ []) with (@None bytes); cbv iota beta; rewrite ?match_option_id.

Lemma read_peer_encoded p : peer_typed p -> read_peer (encode_fields (peer_fields p)) = Some p.
Proof.
  intros Hp. unfold read_peer. rewrite parse_encode_fields by by apply (peer_fields_small p Hp).
  destruct Hp as (Hk & Hpsk & Hfl & Hep & Hka & Hips & Hn). cbn [result_ok mbind option_bind].
  fold (masked (peer_fields p)). unfold peer_fields. attr_fields.
  rewrite read_nest_list by by apply allowed_each. cbn [mbind option_bind].
  rewrite (flags_read (wp_flags p)) by done.
  rewrite (bind_option_map _ read_sockaddr (fun a => a) sock_typed), (bind_option_map _ u16_of (fun a => a) u16)
    by (done || apply read_sockaddr_encoded || apply u16_of_all).
  rewrite !option_map_self. by destruct p.
Qed.

Lemma peers_each l :
  Forall peer_typed l ->
  Forall (fun x => Z.of_nat (length (encode_fields (peer_fields x))) < 65532
                   /\ read_peer (encode_fields (peer_fields x)) = Some x) l.
Proof.
  apply Forall_impl. intros p Hp. pose proof (peer_fields_small p Hp) as [_ Hs].
  split; [|by apply read_peer_encoded]. destruct Hp as (_ & _ & _ & _ & _ & _ & Hn). lia.
Qed.

Lemma read_device_encoded c : config_typed c -> read_device (encode_fields (device_fields c)) = Some c.
Proof.
  intros Hc. unfold read_device. rewrite parse_encode_fields by by apply device_fields_fit.
  destruct Hc as (Hn & Hk & Hp & Hf & Hps & Hs). cbn [result_ok mbind option_bind].
  fold (masked (device_fields c)). unfold device_fields. attr_fields. cbn [mbind option_bind].
  rewrite read_nest_list by by apply peers_each. cbn [mbind option_bind].
  rewrite (flags_read (wc_flags c)), (bind_option_map _ u16_of (fun a => a) u16) by (done || apply u16_of_all).
  rewrite !option_map_self, length_app, Nat.add_sub, take_app_length. by destruct c.
Qed.

(** *** The client's own reader *)

Lemma parse_endpoint_encoded s :
  sock_typed s ->
  parse_endpoint (sockaddr_bytes s)
  = Some (match s with SockV4 ip port => SockV4 ip port | SockV6 ip port _ _ => SockV6 ip port 0 0 end).
Proof.
  unfold parse_endpoint. destruct s as [ip port|ip port flow scope]; cbn [sockaddr_bytes sock_typed].
  - intros [Hip Hp]. rewrite u16_of_le by done.
    rewrite (get_range_split 2 2 (to_le 2 AF_INET) (to_be 2 port) (IP4_octets ip ++ replicate 8 0)),
      (get_range_split 4 4 (to_le 2 AF_INET ++ to_be 2 port) (IP4_octets ip) (replicate 8 0)) by done.
    cbn -[to_le to_be from_be IP4_octets]. unfold IP4_from_bytes. by rewrite IP4_octets_value, from_be_port.
  - intros (Hip & Hp & -> & Hs). rewrite u16_of_le by done. pose proof (proj1 Hip) as Hlen.
    rewrite (get_range_split 2 2 (to_le 2 AF_INET6) (to_be 2 port) (to_le 4 0 ++ ip ++ to_le 4 scope)),
      (get_range_split 8 16 (to_le 2 AF_INET6 ++ to_be 2 port ++ to_le 4 0) ip (to_le 4 scope)) by done.
    cbn -[to_le to_be from_be from_le]. by rewrite from_be_port.
Qed.

Lemma parse_allowed_encoded a :
  allowed_typed a -> parse_allowed_ip (encode_fields (allowed_fields a)) = Ok (Some a).
Proof.
  intros Ha. unfold parse_allowed_ip. rewrite fold_encode_fields by by apply allowed_fields_fit.
  destruct a as [[ip|ip] cidr], Ha as [Hip Hc]; unfold allowed_fields; cbn [wa_ip wa_cidr addr_field] in *;
    cbn [map fst snd fold_left rbind]; attr_types; rewrite u16_of_all by done; cbn [default fold_left rbind];
    attr_types; cbn [rbind]; attr_types; cbn [rbind andb]; rewrite bool_decide_eq_false_2 by done; cbn [negb rbind].
  - assert (length (IP4_octets ip) = 4%nat) as Hl by apply length_to_be.
    rewrite Hl, take_ge by lia. cbn -[IP4_octets IP4_from_bytes]. unfold IP4_from_bytes.
    by rewrite IP4_octets_value.
  - cbn in Hip. destruct Hip as [Hl _]. rewrite Hl, (take_ge ip 16) by lia. done.
Qed.

(** The socket address as the client reads it *)
Definition endpoint_read (s : SocketAddr) : SocketAddr :=
  match s with SockV4 ip port => SockV4 ip port | SockV6 ip port _ _ => SockV6 ip port 0 0 end.

Definition info_of (p : WgPeerConfig) : WgPeerInfo :=
  mkWgPeerInfo (wp_public_key p) (option_map endpoint_read (wp_endpoint p)) (default 0 (wp_keepalive p))
    (wp_allowed_ips p).

Lemma fold_opt {A B} (f : A -> Z * bytes -> result A IoError) t (g : B -> bytes) o st :
  fold_left (fun acc tv => let? acc := acc in f acc tv) (masked (opt_field t g o)) (Ok st)
  = match o with Some a => f st (Z.land t 32767, g a) | None => Ok st end.
Proof. by destruct o. Qed.

Lemma fold_flags {A} (f : A -> Z * bytes -> result A IoError) t flags st :
  fold_left (fun acc tv => let? acc := acc in f acc tv) (masked (flags_field t flags)) (Ok st)
  = if negb (flags =? 0) then f st (Z.land t 32767, to_le 4 flags) else Ok st.
Proof. unfold flags_field. by destruct (negb _). Qed.

Lemma fold_list {A B} (f : A -> Z * bytes -> result A IoError) t (fields : B -> list (Z * bytes)) l st :
  fold_left (fun acc tv => let? acc := acc in f acc tv) (masked (list_field t fields l)) (Ok st)
  = match l with
    | [] => Ok st
    | _ => f st (Z.land (Z.lor t 32768) 32767, encode_fields (nest_fields fields l))
    end.
Proof. unfold list_field. by destruct l. Qed.

Lemma omap_some {A} (l : list A) : omap id (map Some l) = l.
Proof. induction l as [|x l IH]; [done|]. cbn. by f_equal. Qed.

Lemma parse_allowed_list l :
  Forall allowed_typed l ->
  (let? nlas := parse_nlas (encode_fields (nest_fields allowed_fields l)) in parse_each parse_allowed_ip nlas)
  = Ok (map Some l).
Proof.
  intros Hl. apply parse_each_encoded. revert Hl. apply Forall_impl. intros a Ha.
  pose proof (length_allowed_fields a Ha). split; [lia|]. by apply parse_allowed_encoded.
Qed.

(** One step of the reader for each field *)
Section PeerSteps.
Context (key : bytes) (ep : option SocketAddr) (ka : Z) (ips : list WgAllowedIp).
#[local] Abbreviation st := (mkWgPeerInfo key ep ka ips).

Lemma peer_step_key k :
  length k = 32%nat -> peer_attr st (Z.land WGPEER_A_PUBLIC_KEY 32767, k) = Ok (mkWgPeerInfo k ep ka ips).
Proof. intros Hk. unfold peer_attr. attr_types. by rewrite Hk, take_ge by lia. Qed.

Lemma peer_step_psk v : peer_attr st (Z.land WGPEER_A_PRESHARED_KEY 32767, v) = Ok st.
Proof. unfold peer_attr. by attr_types. Qed.

Lemma peer_step_flags v : peer_attr st (Z.land WGPEER_A_FLAGS 32767, v) = Ok st.
Proof. unfold peer_attr. by attr_types. Qed.

Lemma peer_step_endpoint s :
  sock_typed s ->
  peer_attr st (Z.land WGPEER_A_ENDPOINT 32767, sockaddr_bytes s)
  = Ok (mkWgPeerInfo key (Some (endpoint_read s)) ka ips).
Proof. intros Hs. unfold peer_attr. attr_types. cbn [andb]. by rewrite parse_endpoint_encoded. Qed.

Lemma peer_step_keepalive k :
  u16 k ->
  peer_attr st (Z.land WGPEER_A_PERSISTENT_KEEPALIVE_INTERVAL 32767, to_le 2 k) = Ok (mkWgPeerInfo key ep k ips).
Proof. intros Hs. unfold peer_attr. attr_types. cbn [andb]. by rewrite u16_of_all. Qed.

Lemma peer_step_ips l :
  Forall allowed_typed l ->
  peer_attr st (Z.land (Z.lor WGPEER_A_ALLOWEDIPS 32768) 32767, encode_fields (nest_fields allowed_fields l))
  = Ok (mkWgPeerInfo key ep ka (ips ++ l)).
Proof.
  intros Hl. unfold peer_attr. attr_types. cbn [andb]. rewrite parse_allowed_list by done. cbn [rbind].
  by rewrite omap_some.
Qed.
End PeerSteps.

Lemma parse_peer_encoded p : peer_typed p -> parse_peer (encode_fields (peer_fields p)) = Ok (info_of p).
Proof.
  intros Hp. unfold parse_peer. rewrite fold_encode_fields by by apply (peer_fields_small p Hp).
  destruct p as [k psk fl ep ka ips], Hp as (Hk & Hpsk & Hfl & Hep & Hka & Hips & Hn).
  cbn [wp_public_key wp_preshared_key wp_flags wp_endpoint wp_keepalive wp_allowed_ips] in Hk, Hpsk, Hfl, Hep, Hka, Hips, Hn.
  fold (masked (peer_fields (mkWgPeerConfig k psk fl ep ka ips))).
  unfold peer_fields, WgPeerInfo_default, info_of. cbn [wp_public_key wp_preshared_key wp_flags wp_endpoint
    wp_keepalive wp_allowed_ips]. rewrite !masked_app, !fold_left_app.
  cbn [masked map fold_left fst snd rbind]. rewrite peer_step_key by done.
  rewrite fold_opt. replace (match psk with Some _ => _ | None => _ end) with
    (@Ok WgPeerInfo IoError (mkWgPeerInfo k None 0 [])) by (destruct psk; [by rewrite peer_step_psk|done]).
  rewrite fold_flags. replace (if negb (fl =? 0) then _ else _) with
    (@Ok WgPeerInfo IoError (mkWgPeerInfo k None 0 [])) by (destruct (negb _); [by rewrite peer_step_flags|done]).
  rewrite fold_opt. replace (match ep with Some _ => _ | None => _ end) with
    (@Ok WgPeerInfo IoError (mkWgPeerInfo k (option_map endpoint_read ep) 0 []))
    by (destruct ep; [by rewrite peer_step_endpoint|done]).
  rewrite fold_opt. replace (match ka with Some _ => _ | None => _ end) with
    (@Ok WgPeerInfo IoError (mkWgPeerInfo k (option_map endpoint_read ep) (default 0 ka) []))
    by (destruct ka; [by rewrite peer_step_keepalive|done]).
  rewrite fold_list. destruct ips as [|a l]; [done|]. by rewrite peer_step_ips.
Qed.

(** ** Properties *)

(** C22: the attributes that [configure_device] sends say what was asked for:
    a reader of the netlink format gets back the whole configuration, and the
    client's own reader gets back key, endpoint, keep-alive and allowed IPs of
    each peer. *)
Theorem wg_config_round_trip (cfg : WgDeviceConfig) :
  config_typed cfg ->
  read_device (concat (device_attrs cfg)) = Some cfg /\
  Forall (fun p => parse_peer (concat (peer_attrs p)) = Ok (info_of p)) (wc_peers cfg).
Proof.
  intros Hc. rewrite concat_device_attrs. split; [by apply read_device_encoded|].
  destruct Hc as (_ & _ & _ & _ & Hp & _). revert Hp. apply Forall_impl. intros p Hp.
  rewrite concat_peer_attrs. by apply parse_peer_encoded.
Qed.

(** Two peers, one of each family *)
Definition wg_sample_key (x : Z) : bytes := replicate 32 x.

Definition wg_sample : WgDeviceConfig :=
  mkWgDeviceConfig (as_bytes "flannel-wg") (Some (wg_sample_key 9)) (Some 51820) WGDEVICE_F_REPLACE_PEERS
    [ mkWgPeerConfig (wg_sample_key 1) (Some (wg_sample_key 7)) WGPEER_F_REPLACE_ALLOWEDIPS
        (Some (SockV4 (IP4_from_octets 1 2 3 4) 51820)) (Some 25)
        [mkWgAllowedIp (V4 (IP4_from_octets 10 0 0 0)) 24];
      mkWgPeerConfig (wg_sample_key 2) None WGPEER_F_REPLACE_ALLOWEDIPS
        (Some (SockV6 (IP6_zero) 51821 0 3)) None
        [mkWgAllowedIp (V6 IP6_zero) 64; mkWgAllowedIp (V4 (IP4_from_octets 10 0 1 0)) 24] ].

Lemma wg_sample_typed : config_typed wg_sample.
Proof. repeat split; try done. repeat constructor; done. Qed.

Lemma wg_config_round_trip_witness :
  read_device (concat (device_attrs wg_sample)) = Some wg_sample.
Proof. apply (wg_config_round_trip wg_sample wg_sample_typed). Defined.

(** A last attribute without its padding is read past the end. *)
Theorem parse_nlas_unpadded_panics : parse_nlas [5; 0; 1; 0; 7] = Err Panicked.
Proof. done. Qed.
