(* ===== verification/UdpSend.v ===== *)
(** * [backend/udp/proxy.rs]: how the outputs of the proxy are sent

    [UdpProxy] collects what a forwarding step sends; here are the calls that
    send it.  A result of [write] or [sendto] is an input. *)

From S2P Require Import Prelude RustStr StdNet Cidr IpNet UdpProxy Genl.
#[local] Open Scope string_scope.
#[local] Open Scope list_scope.
#[local] Open Scope Z_scope.

(** The number of bytes that were sent, EAGAIN, or another error *)
Inductive SendResult := SentBytes (n : nat) | SendAgain | SendFailed.

(** The bytes of the [sockaddr_in]: the port is swapped, the address is in
    network order already. *)
Definition sock_send_addr (dst_ip dst_port : Z) : bytes :=
  to_le 2 AF_INET ++ to_le 2 (swap16 dst_port) ++ to_le 4 dst_ip ++ replicate 8 0.

(** [sendto] once: the address and the payload, and whether all of it went *)
Definition sock_send_packet (pkt : bytes) (dst_ip dst_port : Z) (res : SendResult) : bytes * bytes * bool :=
  (sock_send_addr dst_ip dst_port, pkt,
   match res with SentBytes n => (n =? length pkt)%nat | _ => false end).

(** The number of writes and whether the packet went through; [None]: it is
    still retrying after these results. *)
Fixpoint tun_send_packet (pkt : bytes) (results : list SendResult) : option (nat * bool) :=
  match results with
  | [] => None
  | SentBytes n :: _ => Some (1%nat, (n =? length pkt)%nat)
  | SendAgain :: results => option_map (fun r => (S r.1, r.2)) (tun_send_packet pkt results)
  | SendFailed :: _ => Some (1%nat, false)
  end.

(** [send_net_unreachable]: one write, whose result is only logged *)
Definition send_net_unreachable (offender : bytes) (tun_addr : Z) : list bytes :=
  match build_net_unreachable offender tun_addr with Some pkt => [pkt] | None => [] end.

(** * Theorems *)

(** The datagram goes to the next hop: for the address that a route command
    carries (the peer's, in network order), the bytes given to the kernel are
    those of the socket address of the peer. *)
Theorem sock_send_reaches ip port pkt res :
  (sock_send_packet pkt (swap32 ip) port res).1 = (sockaddr_bytes (SockV4 ip port), pkt).
Proof.
  unfold sock_send_packet, sock_send_addr, sockaddr_bytes. cbn [fst]. do 2 f_equal.
  assert (forall n v, to_le n (from_le (to_be n v)) = to_be n v) as Hswap.
  { intros n v. pose proof (to_le_from_le (to_be n v) (to_be_bytes n v)) as H. unfold to_be in *. rewrite length_rev, length_to_le in H. exact H. }
  unfold swap16, swap32. rewrite !Hswap. done.
Qed.

Example sock_send_sample :
  (sock_send_packet [1; 2] (swap32 (IP4_from_octets 192 168 0 5)) 8285 (SentBytes 2)).1
  = ([2; 0; 32; 93; 192; 168; 0; 5; 0; 0; 0; 0; 0; 0; 0; 0], [1; 2]).
Proof. reflexivity. Qed.

(** The packet is written again only after EAGAIN, and at most one write
    sends any of it; the proxy does nothing else as long as the device
    answers EAGAIN. *)
Theorem tun_send_retries pkt results n ok :
  tun_send_packet pkt results = Some (n, ok) <->
  exists k r rest, n = S k /\ results = replicate k SendAgain ++ r :: rest /\ r <> SendAgain
    /\ ok = match r with SentBytes m => (m =? length pkt)%nat | _ => false end.
Proof.
  revert n ok. induction results as [|r results IH]; intros n ok; cbn [tun_send_packet].
  { split; [done|]. intros (k & r & rest & _ & Hr & _). by destruct k. }
  destruct r as [m| |].
  - split.
    + intros [= <- <-]. by exists 0%nat, (SentBytes m), results.
    + intros (k & r & rest & -> & Hr & Hne & ->). destruct k; [by injection Hr as <- _|done].
  - split.
    + destruct (tun_send_packet pkt results) as [[n' ok']|] eqn:E; [|done]. cbn. intros [= <- <-].
      destruct (proj1 (IH n' ok') eq_refl) as (k & r & rest & -> & -> & Hne & ->). by exists (S k), r, rest.
    + intros (k & r & rest & -> & Hr & Hne & ->). destruct k as [|k]; [by injection Hr as <- _|]. injection Hr as Hr.
      assert (tun_send_packet pkt results = Some (S k, match r with SentBytes m => (m =? length pkt)%nat | _ => false end)) as ->; [|done].
      apply IH. by exists k, r, rest.
  - split.
    + intros [= <- <-]. by exists 0%nat, SendFailed, results.
    + intros (k & r & rest & -> & Hr & Hne & ->). destruct k; [by injection Hr as <- _|done].
Qed.
