(* ===== verification/WgKernel.v ===== *)
(** * What the kernel answers to [backend/wireguard/genl.rs]

    Lemmas on the collection of replies and on the resolution of the family,
    what WireGuard does with a configuration, and the interface [WgKernelLaws]
    that states what a configuration request does. *)

From S2P Require Import Prelude RustStr Utf8 IpNet Ip6Net RouteNetwork UdpProxy Genl.
#[local] Open Scope string_scope.
#[local] Open Scope list_scope.
#[local] Open Scope Z_scope.

(** ** Lemmas: replies *)

(** A message of the kernel; [rp_rest] is what the client skips of its header:
    flags, sequence number and port. *)
Record Reply := mkReply { rp_type : Z; rp_rest : bytes; rp_body : bytes }.

Definition reply_ok (r : Reply) : Prop :=
  u16 (rp_type r) /\ length (rp_rest r) = 10%nat /\ Z.of_nat (length (rp_body r)) < 2 ^ 31.

Definition encode_reply (r : Reply) : bytes :=
  to_le 4 (Z.of_nat (16 + length (rp_body r))) ++ to_le 2 (rp_type r) ++ rp_rest r ++ rp_body r
  ++ nla_pad (16 + length (rp_body r)).

Lemma length_encode_reply r :
  length (rp_rest r) = 10%nat -> length (encode_reply r) = align4 (16 + length (rp_body r)).
Proof.
  intros Hr. unfold encode_reply. rewrite !length_app, !length_to_le, Hr, length_nla_pad.
  pose proof (align4_bounds (16 + length (rp_body r))). lia.
Qed.

Lemma walk_fuel f f' b results fin :
  (length b <= f)%nat -> (length b <= f')%nat -> walk_messages f b results fin = walk_messages f' b results fin.
Proof.
  revert f' b results fin. induction f as [|f IH]; intros f' b results fin Hl Hl'.
  - destruct b; [|cbn in Hl; lia]. by destruct f'.
  - destruct f' as [|f']; [destruct b; [done|cbn in Hl'; lia]|]. cbn [walk_messages].
    destruct (length b <? 16)%nat eqn:E; [done|]. apply Nat.ltb_ge in E.
    destruct (_ || _) eqn:Ec; [done|]. apply orb_false_iff in Ec as [E1%Nat.ltb_ge _].
    set (mlen := Z.to_nat _) in *. pose proof (align4_bounds mlen).
    destruct (_ =? NLMSG_ERROR).
    + destruct (error_code_of _) as [c|e]; [|done]. cbn [rbind]. destruct (negb _); [done|].
      apply IH; rewrite length_drop; lia.
    + destruct (_ =? NLMSG_DONE); apply IH; rewrite length_drop; lia.
Qed.

(** The effect of one message on the collection *)
Definition reply_step (r : Reply) (acc : list bytes * bool) : result (list bytes * bool) IoError :=
  let '(results, fin) := acc in
  if rp_type r =? NLMSG_ERROR then
    let? code := error_code_of (rp_body r) in
    if negb (code =? 0) then Err (OsError (- code)) else Ok (results, true)
  else if rp_type r =? NLMSG_DONE then Ok (results, true)
  else Ok (results ++ [rp_body r], fin).

(** The parts of an encoded message *)
Lemma encode_reply_len r rest :
  reply_ok r -> u32_of (encode_reply r ++ rest) = Some (Z.of_nat (16 + length (rp_body r))).
Proof.
  intros (_ & _ & Hb). unfold encode_reply. rewrite <- app_assoc. apply u32_of_le. unfold in_width. lia.
Qed.

Lemma encode_reply_type r rest : reply_ok r -> u16_of (drop 4 (encode_reply r ++ rest)) = Some (rp_type r).
Proof.
  intros (Ht & _). unfold encode_reply. rewrite <- !app_assoc, drop_app_ge by (rewrite length_to_le; lia).
  rewrite length_to_le. by apply u16_of_le.
Qed.

Lemma encode_reply_body r rest :
  length (rp_rest r) = 10%nat -> slice 16 (16 + length (rp_body r)) (encode_reply r ++ rest) = rp_body r.
Proof.
  intros Hr. unfold encode_reply. rewrite <- !app_assoc, !slice_app_r by (rewrite !length_to_le, ?Hr; lia).
  rewrite !length_to_le, Hr. apply slice_app_l. lia.
Qed.

Lemma encode_reply_rest r rest :
  length (rp_rest r) = 10%nat -> drop (align4 (16 + length (rp_body r))) (encode_reply r ++ rest) = rest.
Proof. intros Hr. rewrite <- (length_encode_reply r Hr). apply drop_app_length. Qed.

Lemma walk_reply f r rest results fin :
  reply_ok r -> (length (encode_reply r ++ rest) <= f)%nat ->
  walk_messages f (encode_reply r ++ rest) results fin
  = (let? (results, fin) := reply_step r (results, fin) in walk_messages (length rest) rest results fin).
Proof.
  intros Hok Hl. pose proof Hok as (Ht & Hr & Hb). pose proof (align4_bounds (16 + length (rp_body r))) as Ha.
  rewrite length_app, length_encode_reply in Hl by done. destruct f as [|f]; [lia|].
  cbn [walk_messages]. rewrite length_app, length_encode_reply, (proj2 (Nat.ltb_ge _ 16)) by lia.
  rewrite encode_reply_len, encode_reply_type by done. cbn [default]. change (id ?x) with x. rewrite Nat2Z.id.
  rewrite !(proj2 (Nat.ltb_ge _ _)) by lia. cbn [orb].
  rewrite encode_reply_body, encode_reply_rest by done.
  unfold reply_step. destruct (rp_type r =? NLMSG_ERROR).
  - destruct (error_code_of _) as [c|e]; [|done]. cbn [rbind]. destruct (negb _); [done|]. cbn [rbind].
    apply walk_fuel; lia.
  - destruct (rp_type r =? NLMSG_DONE); cbn [rbind]; apply walk_fuel; lia.
Qed.

Definition encode_replies (rs : list Reply) : bytes := concat (map encode_reply rs).

Definition reply_steps (rs : list Reply) (acc : list bytes * bool) : result (list bytes * bool) IoError :=
  fold_left (fun acc r => let? acc := acc in reply_step r acc) rs (Ok acc).

Lemma walk_replies rs results fin :
  Forall reply_ok rs ->
  walk_messages (length (encode_replies rs)) (encode_replies rs) results fin = reply_steps rs (results, fin).
Proof.
  intros Hrs. revert results fin. induction Hrs as [|r rs Hr _ IH]; intros results fin; [done|].
  unfold encode_replies. cbn [map concat]. rewrite walk_reply by done. fold (encode_replies rs).
  unfold reply_steps. cbn [fold_left rbind].
  destruct (reply_step r (results, fin)) as [[results' fin']|e]; cbn [rbind]; [by rewrite IH|].
  clear. induction rs; [done|]. cbn. by rewrite <- IHrs.
Qed.

(** The kernel that has the datagrams [ds] ready *)
Fixpoint delivers `{GenlKernel K} (ds : list (list Reply)) (k k' : K) : Prop :=
  match ds with
  | [] => k = k'
  | d :: ds => exists k1, gk_recv k = (k1, Ok (encode_replies d)) /\ delivers ds k1 k'
  end.

Definition is_data (r : Reply) : bool := negb (rp_type r =? NLMSG_ERROR) && negb (rp_type r =? NLMSG_DONE).

(** The end of the replies: an acknowledgement or the end of a dump *)
Definition is_final (r : Reply) : bool :=
  (rp_type r =? NLMSG_DONE)
  || (rp_type r =? NLMSG_ERROR) && match error_code_of (rp_body r) with Ok c => c =? 0 | Err _ => false end.

Lemma reply_steps_data rs results fin :
  Forall (fun r => is_data r = true) rs -> reply_steps rs (results, fin) = Ok (results ++ map rp_body rs, fin).
Proof.
  intros Hd. revert results. induction Hd as [|r rs Hr _ IH]; intros results.
  - cbn. by rewrite app_nil_r.
  - unfold reply_steps. cbn [fold_left rbind map]. apply andb_true_iff in Hr as [H1%negb_true_iff H2%negb_true_iff].
    assert (reply_step r (results, fin) = Ok (results ++ [rp_body r], fin)) as ->
      by (unfold reply_step; by rewrite H1, H2).
    fold (reply_steps rs (results ++ [rp_body r], fin)). by rewrite IH, <- app_assoc.
Qed.

Lemma reply_step_final r results fin : is_final r = true -> reply_step r (results, fin) = Ok (results, true).
Proof.
  unfold is_final, reply_step. destruct (Z.eqb_spec (rp_type r) NLMSG_DONE) as [->|]; [done|]. cbn [orb].
  intros [-> Hc]%andb_true_iff. destruct (error_code_of _) as [c|e]; [|done]. cbn [rbind]. by rewrite Hc.
Qed.

Section Collect.
Context `{GenlKernel K}.

Lemma collect_replies_data ds k k' fuel results :
  Forall (Forall reply_ok) ds -> Forall (Forall (fun r => is_data r = true)) ds -> delivers ds k k' ->
  collect_replies (length ds + fuel) results k
  = collect_replies fuel (results ++ map rp_body (concat ds)) k'.
Proof.
  intros Hok Hd. revert k results. induction Hd as [|d ds Hd _ IH]; intros k results Hdel.
  - cbn in Hdel |- *. subst k'. by rewrite app_nil_r.
  - apply Forall_cons_iff in Hok as [Hokd Hok]. destruct Hdel as (k1 & Hr & Hdel).
    cbn [length Nat.add collect_replies]. unfold io_bind, io_map_err, io_lift. rewrite Hr. cbn [map_err].
    rewrite walk_replies, reply_steps_data by done. rewrite (IH Hok k1) by done.
    cbn [concat]. by rewrite map_app, app_assoc.
Qed.

(** One more datagram, with data before and after the end of the replies *)
Lemma collect_replies_end pre r post k k' fuel results :
  Forall reply_ok (pre ++ r :: post) -> Forall (fun r => is_data r = true) (pre ++ post) -> is_final r = true ->
  gk_recv k = (k', Ok (encode_replies (pre ++ r :: post))) ->
  collect_replies (S fuel) results k = (k', Ok (results ++ map rp_body (pre ++ post))).
Proof.
  intros Hok Hd Hf Hr. cbn [collect_replies]. unfold io_bind, io_map_err, io_lift. rewrite Hr. cbn [map_err].
  rewrite walk_replies by done. apply Forall_app in Hd as [Hpre Hpost].
  assert (reply_steps (pre ++ r :: post) (results, false) = Ok (results ++ map rp_body (pre ++ post), true)) as ->.
  { unfold reply_steps. rewrite fold_left_app. fold (reply_steps pre (results, false)).
    rewrite reply_steps_data by done. cbn [fold_left rbind]. rewrite reply_step_final by done.
    change (reply_steps post (results ++ map rp_body pre, true) = Ok (results ++ map rp_body (pre ++ post), true)).
    by rewrite reply_steps_data, map_app, app_assoc. }
  done.
Qed.

(** An error ends the collection with its code. *)
Lemma collect_replies_error pre r post code k k' fuel results :
  Forall reply_ok (pre ++ r :: post) -> Forall (fun r => is_data r = true) pre ->
  rp_type r = NLMSG_ERROR -> error_code_of (rp_body r) = Ok code -> code <> 0 ->
  gk_recv k = (k', Ok (encode_replies (pre ++ r :: post))) ->
  collect_replies (S fuel) results k = (k', Err (OsError (- code))).
Proof.
  intros Hok Hd Ht Hc Hne Hr. cbn [collect_replies]. unfold io_bind, io_map_err, io_lift. rewrite Hr. cbn [map_err].
  rewrite walk_replies by done. unfold reply_steps. rewrite fold_left_app. fold (reply_steps pre (results, false)).
  rewrite reply_steps_data by done. cbn [fold_left rbind].
  assert (reply_step r (results ++ map rp_body pre, false) = Err (OsError (- code))) as ->.
  { unfold reply_step. rewrite Ht, Hc. cbn [rbind]. by rewrite Z.eqb_refl, (proj2 (Z.eqb_neq _ _) Hne). }
  assert (forall rs e, fold_left (fun acc r => let? acc := acc in reply_step r acc) rs
            (@Err (list bytes * bool) IoError e) = Err e) as ->; [|done].
  intros rs e. induction rs; [done|]. cbn. by rewrite IHrs.
Qed.
(** The replies [rs] are waiting, packed into datagrams in some way. *)
Definition answers (rs : list Reply) (k k' : K) : Prop :=
  exists ds, concat ds = rs /\ Forall (fun d => d <> []) ds /\ delivers ds k k'.

Lemma split_last_reply (d rest pre : list Reply) r :
  d ++ rest = pre ++ [r] -> rest <> [] -> exists pre', pre = d ++ pre' /\ rest = pre' ++ [r].
Proof.
  intros E Hne. destruct rest as [|x rest] using rev_ind; [done|]. clear Hne IHrest.
  rewrite app_assoc in E. apply app_inj_tail in E as [<- <-]. by exists rest.
Qed.

(** Whatever the packing, the collection ends with the bodies before the
    acknowledgement unless it makes too few attempts. *)
Lemma collect_answers pre r k k' fuel results :
  Forall reply_ok (pre ++ [r]) -> Forall (fun r => is_data r = true) pre -> is_final r = true ->
  answers (pre ++ [r]) k k' ->
  (collect_replies fuel results k).2 = Ok (results ++ map rp_body pre)
  \/ (fuel <= length pre)%nat /\ (collect_replies fuel results k).2 = Err Blocked.
Proof.
  intros Hok Hd Hf (ds & Hc & Hne & Hdel). revert pre k fuel results Hok Hd Hc Hdel.
  induction Hne as [|d ds Hnd Hne IH]; intros pre k fuel results Hok Hd Hc Hdel; [by destruct pre|].
  destruct fuel as [|fuel]; [right; split; [lia|done]|]. cbn [concat] in Hc. destruct Hdel as (k1 & Hr & Hdel).
  destruct Hne as [|d' ds Hd' Hne].
  - left. cbn in Hc. rewrite app_nil_r in Hc. subst d.
    rewrite (collect_replies_end pre r [] k k1) by (done || by rewrite app_nil_r). cbn. by rewrite app_nil_r.
  - apply split_last_reply in Hc as (pre' & -> & Hrest); [|destruct d'; done].
    apply Forall_app in Hd as [Hdd Hd]. rewrite <- app_assoc in Hok. apply Forall_app in Hok as [Hokd Hok].
    pose proof (collect_replies_data [d] k k1 fuel results) as Hstep. cbn [length Nat.add concat app] in Hstep.
    rewrite app_nil_r in Hstep. rewrite Hstep; [|by constructor|by constructor|by exists k1].
    destruct (IH pre' k1 fuel (results ++ map rp_body d) Hok Hd Hrest Hdel) as [->|[Hle ->]].
    + left. by rewrite map_app, app_assoc.
    + right. split; [|done]. rewrite length_app. destruct d; [done|]. cbn. lia.
Qed.

(** A single error message *)
Lemma collect_error r code k k' fuel :
  reply_ok r -> rp_type r = NLMSG_ERROR -> error_code_of (rp_body r) = Ok code -> code <> 0 ->
  answers [r] k k' -> (collect_replies (S fuel) [] k).2 = Err (OsError (- code)).
Proof.
  intros Hok Ht Hc Hne (ds & Hds & Hn & Hdel). destruct Hn as [|d ds Hnd Hn]; [done|].
  destruct d as [|r' [|]]; [done| |done]. cbn in Hds. destruct Hn as [|d' ds Hd' _]; [|by destruct d']. injection Hds as ->.
  destruct Hdel as (k1 & Hr & _). by rewrite (collect_replies_error [] r [] code k k1) by (done || by constructor).
Qed.
End Collect.

(** ** Lemmas: the family *)

Definition op_fields (op : Z * Z) : list (Z * bytes) :=
  [(CTRL_ATTR_OP_ID, [op.1]); (CTRL_ATTR_OP_FLAGS, to_le 4 op.2)].

(** The answer to a request for a family with the given operations *)
Definition family_fields (fam : Z) (ops : list (Z * Z)) : list (Z * bytes) :=
  [(CTRL_ATTR_FAMILY_ID, to_le 2 fam)] ++ list_field CTRL_ATTR_OPS op_fields ops.

Definition first_with (bit : Z) (ops : list (Z * Z)) : option Z :=
  option_map fst (List.find (fun op => negb (Z.land op.2 bit =? 0)) ops).

(** The commands that the operations of a family stand for *)
Definition resolved_ops (ops : list (Z * Z)) : Z * Z :=
  match first_with GENL_CMD_CAP_DUMP ops, first_with GENL_CMD_CAP_DO ops with
  | Some get, Some set => if get =? set then (1, 2) else (get, set)
  | get, set => (default 1 get, default 2 set)
  end.

Lemma op_of_encoded op : u32 op.2 -> op_of (encode_fields (op_fields op)) = Ok (Some op.1, op.2).
Proof.
  intros Hf. unfold op_of. rewrite fold_encode_fields by (unfold op_fields; repeat constructor; done).
  unfold op_fields. cbn [map fold_left fst snd rbind]. attr_types. cbn [andb].
  rewrite bool_decide_eq_false_2 by done. cbn [negb rbind]. attr_types. cbn [andb rbind].
  by rewrite u32_of_all.
Qed.

Lemma fold_note_ops fs ops g s :
  map snd fs = map (fun op => encode_fields (op_fields op)) ops -> Forall (fun op => u32 op.2) ops ->
  fold_left (fun acc tv => let? acc := acc in note_op acc tv) (masked fs) (Ok (g, s))
  = Ok (if is_some g then g else first_with GENL_CMD_CAP_DUMP ops,
        if is_some s then s else first_with GENL_CMD_CAP_DO ops).
Proof.
  intros Hfs Hops. revert fs g s Hfs. induction Hops as [|[id flags] ops Hop _ IH]; intros [|[t v] fs] g s; try done.
  - intros _. by destruct g, s.
  - cbn [map snd]. intros [= -> Hfs]. cbn [masked map fold_left rbind fst snd]. unfold note_op at 2. cbn [snd].
    rewrite op_of_encoded by done. cbn [rbind fst snd]. fold (masked fs). rewrite IH by done.
    unfold first_with. cbn [List.find snd].
    destruct g, s, (negb (Z.land flags GENL_CMD_CAP_DUMP =? 0)), (negb (Z.land flags GENL_CMD_CAP_DO =? 0)); done.
Qed.

(** What a reply says of a family: its id and then its operations, each with
    an id and flags, among other attributes such as the name and the version;
    whether nests are flagged and how operations are numbered is left open. *)
Definition family_body (fam : Z) (ops : list (Z * Z)) (b : bytes) : Prop :=
  exists o1 o2 o3 ops_type ops_fields,
    let fs := o1 ++ [(CTRL_ATTR_FAMILY_ID, to_le 2 fam)] ++ o2 ++ [(ops_type, encode_fields ops_fields)] ++ o3 in
    b = encode_fields fs /\ Forall field_fits fs /\ Forall field_fits ops_fields
    /\ Z.land ops_type 32767 = CTRL_ATTR_OPS
    /\ Forall (fun f => Z.land f.1 32767 <> CTRL_ATTR_FAMILY_ID /\ Z.land f.1 32767 <> CTRL_ATTR_OPS) (o1 ++ o2 ++ o3)
    /\ map snd ops_fields = map (fun op => encode_fields (op_fields op)) ops.

Lemma fold_skip {A} (f : A -> Z * bytes -> result A IoError) fs acc :
  Forall (fun tv => f acc tv = Ok acc) fs ->
  fold_left (fun acc tv => let? acc := acc in f acc tv) fs (Ok acc) = Ok acc.
Proof. induction 1 as [|tv fs Hf _ IH]; [done|]. cbn [fold_left rbind]. by rewrite Hf. Qed.

(** The function that [parse_family_ops] folds over the attributes *)
Definition note_attr : option Z * (option Z * option Z) -> Z * bytes -> result (option Z * (option Z * option Z)) IoError :=
  fun '(fam, cmds) '(t, v) =>
  if t =? CTRL_ATTR_FAMILY_ID then Ok (u16_of v, cmds)
  else if t =? CTRL_ATTR_OPS then let? cmds := fold_nlas note_op v cmds in Ok (fam, cmds)
  else Ok (fam, cmds).

Lemma skip_attrs o acc :
  Forall (fun f => Z.land f.1 32767 <> CTRL_ATTR_FAMILY_ID /\ Z.land f.1 32767 <> CTRL_ATTR_OPS) o ->
  fold_left (fun acc tv => let? acc := acc in note_attr acc tv) (masked o) (Ok acc) = Ok acc.
Proof.
  intros Ho. apply fold_skip, Forall_map. revert Ho. apply Forall_impl. intros f [H1 H2]. destruct acc. unfold note_attr.
  by rewrite (proj2 (Z.eqb_neq _ _) H1), (proj2 (Z.eqb_neq _ _) H2).
Qed.

Lemma fold_family_body fam ops b :
  u16 fam -> Forall (fun op => u32 op.2) ops -> family_body fam ops b ->
  fold_nlas note_attr b (None, (None, None))
  = Ok (Some fam, (first_with GENL_CMD_CAP_DUMP ops, first_with GENL_CMD_CAP_DO ops)).
Proof.
  intros Hfam Hops (o1 & o2 & o3 & ty & fs & -> & Hfit & Hfs & Hty & Hskip & Hval).
  rewrite fold_encode_fields by done. rewrite !map_app, !fold_left_app. rewrite !Forall_app in Hskip.
  destruct Hskip as (H1 & H2 & H3). repeat match goal with |- context [map ?f ?o] => fold (masked o) end.
  rewrite (skip_attrs o1) by done. cbn [masked map fold_left fst snd rbind].
  change (note_attr (None, (None, None)) (Z.land CTRL_ATTR_FAMILY_ID 32767, to_le 2 fam))
    with (Ok (u16_of (to_le 2 fam), (@None Z, @None Z)) : result (option Z * (option Z * option Z)) IoError).
  rewrite u16_of_all by done. rewrite (skip_attrs o2) by done. cbn [rbind]. rewrite Hty.
  change (note_attr (Some fam, (None, None)) (CTRL_ATTR_OPS, encode_fields fs))
    with (let? cmds := fold_nlas note_op (encode_fields fs) (None, None) in (Ok (Some fam, cmds) : result (option Z * (option Z * option Z)) IoError)).
  rewrite (fold_encode_fields note_op fs) by done. fold (masked fs). rewrite (fold_note_ops fs ops) by done. cbn [rbind is_some].
  by rewrite (skip_attrs o3).
Qed.

Lemma parse_family_body name fam ops b :
  u16 fam -> Forall (fun op => u32 op.2) ops -> family_body fam ops b ->
  parse_family_ops name b = Ok (fam, (resolved_ops ops).1, (resolved_ops ops).2).
Proof.
  intros Hfam Hops Hb. unfold parse_family_ops. fold note_attr.
  rewrite (fold_family_body fam ops) by done. cbn [rbind]. unfold resolved_ops.
  destruct (first_with GENL_CMD_CAP_DUMP ops) as [g|], (first_with GENL_CMD_CAP_DO ops) as [s|]; try done.
  by destruct (g =? s).
Qed.

(** ** What WireGuard does with a configuration *)

(** An allowed network, without its host bits. *)
Abbreviation WgNet := (IpAddr * Z)%type.

Definition allowed_key (a : WgAllowedIp) : WgNet :=
  (match wa_ip a with
   | V4 ip => V4 (ip4n_ip (IP4Net_network (mkIP4Net ip (wa_cidr a))))
   | V6 ip => V6 (ip6n_ip (IP6Net_network (mkIP6Net ip (wa_cidr a))))
   end, wa_cidr a).

Record WgPeerState := mkWgPeerState {
  st_preshared_key : option bytes;
  st_endpoint : option SocketAddr;
  st_keepalive : Z;
}.

(** Each allowed network belongs to one peer, the last that was given it. *)
Record WgDevState := mkWgDevState {
  st_private_key : option bytes;
  st_listen_port : Z;
  st_peers : gmap bytes WgPeerState;
  st_allowed : gmap WgNet bytes;
}.

Definition without_peer (key : bytes) (m : gmap WgNet bytes) : gmap WgNet bytes :=
  filter (fun e => e.2 <> key) m.

Definition or_else {A} (o o' : option A) : option A := match o with Some a => Some a | None => o' end.

Definition apply_peer (p : WgPeerConfig) (d : WgDevState) : WgDevState :=
  let key := wp_public_key p in
  if Z.testbit (wp_flags p) 0 then
    mkWgDevState (st_private_key d) (st_listen_port d) (delete key (st_peers d)) (without_peer key (st_allowed d))
  else
    let old := default (mkWgPeerState None None 0) (st_peers d !! key) in
    let new := mkWgPeerState (or_else (wp_preshared_key p) (st_preshared_key old))
                 (or_else (wp_endpoint p) (st_endpoint old)) (default (st_keepalive old) (wp_keepalive p)) in
    let allowed := if Z.testbit (wp_flags p) 1 then without_peer key (st_allowed d) else st_allowed d in
    mkWgDevState (st_private_key d) (st_listen_port d) (<[key := new]> (st_peers d))
      (fold_left (fun m a => <[allowed_key a := key]> m) (wp_allowed_ips p) allowed).

Definition apply_device (c : WgDeviceConfig) (d : WgDevState) : WgDevState :=
  let d := mkWgDevState (or_else (wc_private_key c) (st_private_key d)) (default (st_listen_port d) (wc_listen_port c))
             (st_peers d) (st_allowed d) in
  let d := if Z.testbit (wc_flags c) 0 then mkWgDevState (st_private_key d) (st_listen_port d) ∅ ∅ else d in
  fold_left (fun d p => apply_peer p d) (wc_peers c) d.

Abbreviation WgState := (gmap bytes WgDevState).

Definition wg_apply (c : WgDeviceConfig) (st : WgState) : option WgState :=
  match st !! wc_ifname c with
  | Some d => Some (<[wc_ifname c := apply_device c d]> st)
  | None => None
  end.

(** The changes a configuration is carried out in, one after the other: when
    the kernel fails at one of them it answers an error and keeps what it has
    done so far. *)
Definition on_peer (key : bytes) (f : WgPeerState -> WgPeerState) (d : WgDevState) : WgDevState :=
  mkWgDevState (st_private_key d) (st_listen_port d) (alter f key (st_peers d)) (st_allowed d).

Definition on_allowed (f : gmap WgNet bytes -> gmap WgNet bytes) (d : WgDevState) : WgDevState :=
  mkWgDevState (st_private_key d) (st_listen_port d) (st_peers d) (f (st_allowed d)).

Definition peer_steps (p : WgPeerConfig) : list (WgDevState -> WgDevState) :=
  let key := wp_public_key p in
  if Z.testbit (wp_flags p) 0 then
    [fun d => mkWgDevState (st_private_key d) (st_listen_port d) (delete key (st_peers d)) (without_peer key (st_allowed d))]
  else
    [fun d => mkWgDevState (st_private_key d) (st_listen_port d)
                (<[key := default (mkWgPeerState None None 0) (st_peers d !! key)]> (st_peers d)) (st_allowed d);
     on_peer key (fun o => mkWgPeerState (or_else (wp_preshared_key p) (st_preshared_key o)) (st_endpoint o) (st_keepalive o));
     on_peer key (fun o => mkWgPeerState (st_preshared_key o) (or_else (wp_endpoint p) (st_endpoint o)) (st_keepalive o));
     on_allowed (fun m => if Z.testbit (wp_flags p) 1 then without_peer key m else m)]
    ++ map (fun a => on_allowed <[allowed_key a := key]>) (wp_allowed_ips p)
    ++ [on_peer key (fun o => mkWgPeerState (st_preshared_key o) (st_endpoint o) (default (st_keepalive o) (wp_keepalive p)))].

Definition device_steps (c : WgDeviceConfig) : list (WgDevState -> WgDevState) :=
  [fun d => mkWgDevState (st_private_key d) (default (st_listen_port d) (wc_listen_port c)) (st_peers d) (st_allowed d);
   fun d => if Z.testbit (wc_flags c) 0 then mkWgDevState (st_private_key d) (st_listen_port d) ∅ ∅ else d;
   fun d => mkWgDevState (or_else (wc_private_key c) (st_private_key d)) (st_listen_port d) (st_peers d) (st_allowed d)]
  ++ concat (map peer_steps (wc_peers c)).

Definition run_steps (steps : list (WgDevState -> WgDevState)) (d : WgDevState) : WgDevState :=
  fold_left (fun d f => f d) steps d.

(** What a configuration request leaves, by the code it is answered with *)
Definition set_effect (c : WgDeviceConfig) (code : Z) (st st' : WgState) : Prop :=
  match st !! wc_ifname c with
  | None => code <> 0 /\ st' = st
  | Some d => exists n, st' = <[wc_ifname c := run_steps (take n (device_steps c)) d]> st
                /\ (code = 0 -> n = length (device_steps c))
  end.

(** An error message repeats the request; with the header it has to fit the
    buffer of 64 KiB that the client receives into. *)
Definition answer_fits (attrs : bytes) : Prop := Z.of_nat (length attrs) <= 65536 - 40.

(** The kernel: requests are carried out when they are sent, the answers wait
    to be received.  A request for the family is answered with its data and an
    acknowledgement, a configuration with an error code that is zero only when
    all of its changes were made.  Error messages repeat the request or its
    header behind the code, and the answers may come in one datagram or in
    several.  The names of interfaces have less than 16 bytes. *)
Class WgKernelLaws (K : Type) `{GenlKernel K} := {
  wk_state : K -> WgState;
  wk_family : Z;
  wk_ops : list (Z * Z);
  wk_family_typed : u16 wk_family /\ Forall (fun op => u32 op.2) wk_ops;
  wk_get : Z;
  wk_set : Z;
  wk_ops_are :
    first_with GENL_CMD_CAP_DUMP wk_ops = Some wk_get /\ first_with GENL_CMD_CAP_DO wk_ops = Some wk_set /\
    wk_get <> wk_set;
  wk_names k name : is_some (wk_state k !! name) = true -> (length name < 16)%nat;
  wk_open_state k : wk_state (gk_open k).1 = wk_state k;
  wk_recv_state k : wk_state (gk_recv k).1 = wk_state k;
  wk_send_fails k msg k' e : gk_send msg k = (k', Err e) -> wk_state k' = wk_state k;
  wk_family_answer k k1 seq port :
    gk_send (message_bytes GENL_ID_CTRL CTRL_CMD_GETFAMILY (Z.lor NLM_F_REQUEST NLM_F_ACK) seq port
               (nla_str CTRL_ATTR_FAMILY_NAME (as_bytes WG_GENL_NAME))) k = (k1, Ok ()) ->
    wk_state k1 = wk_state k /\
    exists k2 hdr body rest rest' echo,
      answers [mkReply GENL_ID_CTRL rest (hdr ++ body); mkReply NLMSG_ERROR rest' (to_le 4 0 ++ echo)] k1 k2 /\
      family_body wk_family wk_ops body /\ length hdr = 4%nat /\ length rest = 10%nat /\ length rest' = 10%nat /\
      Z.of_nat (length body + length echo) <= 65536;
  wk_set_answer k k1 seq port attrs cfg :
    read_device attrs = Some cfg ->
    gk_send (message_bytes wk_family wk_set (Z.lor NLM_F_REQUEST NLM_F_ACK) seq port attrs) k = (k1, Ok ()) ->
    exists code, set_effect cfg code (wk_state k) (wk_state k1) /\
      (answer_fits attrs -> exists k2 rest echo,
         answers [mkReply NLMSG_ERROR rest (to_le 4 (wrap 32 code) ++ echo)] k1 k2 /\
         length rest = 10%nat /\ Z.of_nat (length echo) <= 65536 /\ - 2 ^ 31 <= code < 2 ^ 31);
}.

Lemma error_code_encoded code echo :
  - 2 ^ 31 <= code < 2 ^ 31 -> error_code_of (to_le 4 (wrap 32 code) ++ echo) = Ok code.
Proof.
  intros Hc. unfold error_code_of. rewrite get_range_app_l by apply length_to_le.
  rewrite from_le_to_le. f_equal. change (256 ^ Z.of_nat 4) with (2 ^ 32). fold (wrap 32 (wrap 32 code)).
  rewrite wrap_wrap. unfold signed, wrap. change (2 ^ (32 - 1)) with (2 ^ 31).
  destruct (decide (0 <= code)).
  - rewrite Z.mod_small by lia. by rewrite (proj2 (Z.ltb_lt _ _)) by lia.
  - replace (code mod 2 ^ 32) with (code + 2 ^ 32).
    + rewrite (proj2 (Z.ltb_ge _ _)) by lia. lia.
    + apply (Z.mod_unique _ _ (-1)); lia.
Qed.

(** *** The steps add up to the configuration. *)

Lemma run_steps_app l l' d : run_steps (l ++ l') d = run_steps l' (run_steps l d).
Proof. unfold run_steps. by rewrite fold_left_app. Qed.

Lemma run_allow key ips d :
  run_steps (map (fun a => on_allowed <[allowed_key a := key]>) ips) d
  = on_allowed (fun m => fold_left (fun m a => <[allowed_key a := key]> m) ips m) d.
Proof. revert d. induction ips as [|a ips IH]; intros d; [by destruct d|]. cbn. rewrite IH. done. Qed.

Lemma run_peer_steps p d : run_steps (peer_steps p) d = apply_peer p d.
Proof.
  unfold peer_steps, apply_peer. cbv zeta. destruct (Z.testbit (wp_flags p) 0); [done|].
  rewrite !run_steps_app, run_allow. unfold run_steps, on_peer, on_allowed. cbn.
  by rewrite !alter_insert_eq.
Qed.

Lemma run_device_steps c d : run_steps (device_steps c) d = apply_device c d.
Proof.
  unfold device_steps, apply_device. rewrite run_steps_app.
  set (d0 := run_steps [_; _; _] d). set (d1 := if Z.testbit (wc_flags c) 0 then _ else _).
  assert (d0 = d1) as ->.
  { subst d0 d1. unfold run_steps. cbn [fold_left]. by destruct (Z.testbit (wc_flags c) 0). }
  generalize d1. clear. induction (wc_peers c) as [|p ps IH]; intros d; [done|].
  cbn [map concat fold_left]. by rewrite run_steps_app, run_peer_steps, IH.
Qed.

(** *** What some of the steps leave alone *)

Definition named_keys (c : WgDeviceConfig) : list bytes := map wp_public_key (wc_peers c).

Definition asked_net (c : WgDeviceConfig) (key : bytes) (net : WgNet) : Prop :=
  exists p, p ∈ wc_peers c /\ wp_public_key p = key /\ net ∈ map allowed_key (wp_allowed_ips p).

(** Part of a configuration: the key and the port are the old or the new
    ones; a peer it does not name is as it was unless the configuration
    replaces the peers, and then it may be gone; a network belongs to a peer
    because it did before or because the configuration asks for it; and a peer
    it does not name keeps its networks, except for those it asks for or when
    peers are replaced. *)
Record partly_applied (c : WgDeviceConfig) (d d' : WgDevState) : Prop := {
  pa_key : st_private_key d' = st_private_key d \/ st_private_key d' = wc_private_key c;
  pa_port : st_listen_port d' = st_listen_port d \/ wc_listen_port c = Some (st_listen_port d');
  pa_peer key : key ∉ named_keys c ->
    st_peers d' !! key = st_peers d !! key \/ Z.testbit (wc_flags c) 0 = true /\ st_peers d' !! key = None;
  pa_gained net key : st_allowed d' !! net = Some key -> st_allowed d !! net = Some key \/ asked_net c key net;
  pa_kept net key : st_allowed d !! net = Some key -> key ∉ named_keys c ->
    st_allowed d' !! net = Some key \/ Z.testbit (wc_flags c) 0 = true \/ exists key', asked_net c key' net;
}.

Lemma partly_refl c d : partly_applied c d d.
Proof. split; auto. Qed.

Lemma partly_same_but_peers c d0 d priv port peers :
  partly_applied c d0 d -> priv = st_private_key d -> port = st_listen_port d ->
  (forall key, key ∉ named_keys c -> peers !! key = st_peers d !! key) ->
  partly_applied c d0 (mkWgDevState priv port peers (st_allowed d)).
Proof.
  intros [] -> -> Hp. split; cbn; auto. intros key Hk. rewrite Hp by done. auto.
Qed.

Lemma partly_allowed c d0 d f :
  partly_applied c d0 d ->
  (forall net key, f (st_allowed d) !! net = Some key -> st_allowed d !! net = Some key \/ asked_net c key net) ->
  (forall net key, st_allowed d !! net = Some key -> key ∉ named_keys c ->
     f (st_allowed d) !! net = Some key \/ exists key', asked_net c key' net) ->
  partly_applied c d0 (on_allowed f d).
Proof.
  intros [? ? ? Hg Hk] H1 H2. split; cbn; auto.
  - intros net key Hn. destruct (H1 net key Hn) as [?|?]; auto.
  - intros net key Hn Hkey. destruct (Hk net key Hn Hkey) as [Hd|[?|?]]; auto. destruct (H2 net key Hd Hkey); auto.
Qed.

Lemma without_peer_kept key m net key' :
  without_peer key m !! net = Some key' <-> m !! net = Some key' /\ key' <> key.
Proof. unfold without_peer. rewrite map_lookup_filter_Some. done. Qed.

Definition keeps_partly (c : WgDeviceConfig) (f : WgDevState -> WgDevState) : Prop :=
  forall d0 d, partly_applied c d0 d -> partly_applied c d0 (f d).

Lemma on_peer_partly c key f : key ∈ named_keys c -> keeps_partly c (on_peer key f).
Proof.
  intros Hk d0 d Hd. unfold on_peer. apply partly_same_but_peers; [done..|]. intros key' Hk'.
  apply lookup_alter_ne. by intros ->.
Qed.

Lemma peer_steps_partly c p : p ∈ wc_peers c -> Forall (keeps_partly c) (peer_steps p).
Proof.
  intros Hp. assert (wp_public_key p ∈ named_keys c) as Hk by (by apply list_elem_of_fmap_2).
  assert (forall d0 d, partly_applied c d0 d -> partly_applied c d0 (on_allowed (without_peer (wp_public_key p)) d)) as Hw.
  { intros d0 d Hd. apply partly_allowed; [done| |].
    - intros net key [Hn _]%without_peer_kept. by left.
    - intros net key Hn Hkey. left. apply without_peer_kept. split; [done|]. by intros ->. }
  unfold peer_steps. cbv zeta. destruct (Z.testbit (wp_flags p) 0).
  - constructor; [|done]. intros d0 d Hd. apply (partly_same_but_peers c d0 (on_allowed (without_peer (wp_public_key p)) d));
      [by apply Hw|done..|]. intros key Hkey. cbn. apply lookup_delete_ne. by intros <-.
  - rewrite !Forall_app. split_and!.
    + repeat apply Forall_cons; try apply Forall_nil; try (by apply on_peer_partly).
      * intros d0 d Hd. apply partly_same_but_peers; [done..|]. intros key Hkey. apply lookup_insert_ne. by intros <-.
      * intros d0 d Hd. destruct (Z.testbit (wp_flags p) 1); [by apply Hw|by destruct d].
    + apply Forall_map, List.Forall_forall. intros a Ha d0 d Hd.
      assert (asked_net c (wp_public_key p) (allowed_key a)) as Hask.
      { exists p. split_and!; [done..|]. apply list_elem_of_fmap_2. by apply list_elem_of_In. }
      apply partly_allowed; [done| |].
      * intros net key. rewrite lookup_insert_Some. intros [[<- <-]|[_ ?]]; auto.
      * intros net key Hn _. destruct (decide (allowed_key a = net)) as [<-|]; [right; by eexists|left; by rewrite lookup_insert_ne].
    + constructor; [by apply on_peer_partly|done].
Qed.

Lemma device_steps_partly c : Forall (keeps_partly c) (device_steps c).
Proof.
  unfold device_steps. apply Forall_app. split.
  - repeat apply Forall_cons; try apply Forall_nil.
    + intros d0 d []. split; cbn; auto. destruct (wc_listen_port c) as [port|]; cbn; auto.
    + intros d0 d Hd. destruct (Z.testbit (wc_flags c) 0) eqn:Hf; [|done]. destruct Hd. split; cbn; auto.
      intros net key Hn. by rewrite lookup_empty in Hn.
    + intros d0 d []. split; cbn; auto. destruct (wc_private_key c) as [key|]; cbn; auto.
  - apply Forall_concat, Forall_map, List.Forall_forall. intros p Hp. apply peer_steps_partly. by apply list_elem_of_In.
Qed.

Lemma steps_partly c n d : partly_applied c d (run_steps (take n (device_steps c)) d).
Proof.
  pose proof (partly_refl c d) as Hd. assert (Forall (keeps_partly c) (take n (device_steps c))) as Hs
    by (apply Forall_take, device_steps_partly).
  revert Hd. generalize d at 2 4. induction Hs as [|f fs Hf _ IH]; intros d1 Hd; [done|]. cbn. by apply IH, Hf.
Qed.

(** The effect of a request, by its outcome *)
Lemma set_effect_done c st st' : set_effect c 0 st st' -> wg_apply c st = Some st'.
Proof.
  unfold set_effect, wg_apply. destruct (st !! wc_ifname c) as [d|]; [|by intros []].
  intros (n & -> & Hn). rewrite (Hn eq_refl). rewrite firstn_all. by rewrite run_device_steps.
Qed.

Lemma set_effect_partly c code st st' :
  set_effect c code st st' ->
  st' = st \/ exists d d', st !! wc_ifname c = Some d /\ partly_applied c d d' /\ st' = <[wc_ifname c := d']> st.
Proof.
  unfold set_effect. destruct (st !! wc_ifname c) as [d|]; [|by intros [_ ->]; left].
  intros (n & -> & _). right. eexists d, _. split; [done|]. split; [|done]. apply steps_partly.
Qed.

Section Applies.
Context `{WgKernelLaws K}.

Lemma collect_frame fuel results (k : K) : wk_state (collect_replies fuel results k).1 = wk_state k.
Proof.
  revert results k. induction fuel as [|fuel IH]; intros results k; [done|].
  cbn [collect_replies]. unfold io_bind, io_map_err, io_lift, io_ret.
  pose proof (wk_recv_state k) as Hr. destruct (gk_recv k) as [k1 [buf|e]]; cbn [map_err fst] in *; [|done].
  destruct (walk_messages _ _ _ _) as [[results' fin]|e]; cbn [fst]; [|done]. destruct fin; [done|]. by rewrite IH.
Qed.

Lemma first_family_body name hdr body :
  length hdr = 4%nat -> family_body wk_family wk_ops body ->
  first_family name [hdr ++ body] = Ok (wk_family, wk_get, wk_set).
Proof.
  intros Hh Hb. cbn [first_family]. rewrite <- Hh, drop_app_length.
  destruct wk_family_typed as (Hf & Ho), wk_ops_are as (Hg & Hs & Hne).
  rewrite (parse_family_body _ wk_family wk_ops) by done. unfold resolved_ops. rewrite Hg, Hs.
  by rewrite (proj2 (Z.eqb_neq _ _) Hne).
Qed.

Lemma resolve_wireguard fuel sock k k' r :
  resolve_family_ops fuel sock WG_GENL_NAME k = (k', r) ->
  wk_state k' = wk_state k /\
  match r with
  | Ok (sock', ops) => ops = (wk_family, wk_get, wk_set) /\ (0 < fuel)%nat
  | Err e => (exists c, e = OsError c) \/ (fuel < 2)%nat
  end.
Proof.
  unfold resolve_family_ops, genl_request, io_bind, io_map_err, io_lift. cbn [gs_seq gs_port].
  destruct (gk_send _ k) as [k1 [[]|e]] eqn:Es; cbn [map_err].
  2: { intros [= <- <-]. split; [by eapply wk_send_fails|left; by exists e]. }
  apply wk_family_answer in Es as (Hst & k2 & hdr & body & rest & rest' & echo & Hr & Hb & Hh & Hl & Hl' & Hsz).
  pose proof (collect_frame fuel [] k1) as Hf.
  destruct (collect_answers [mkReply GENL_ID_CTRL rest (hdr ++ body)] (mkReply NLMSG_ERROR rest' (to_le 4 0 ++ echo)) k1 k2 fuel [])
    as [Hc|[Hle Hc]]; [|by repeat constructor| |done| |].
  - repeat constructor; cbn [rp_type rp_rest rp_body]; try done; rewrite length_app; [lia|rewrite length_to_le; lia].
  - unfold is_final. cbn [rp_type rp_body]. change (to_le 4 0) with (to_le 4 (wrap 32 0)).
    rewrite error_code_encoded by lia. done.
  - destruct fuel as [|fuel]; [by cbn in Hc|]. destruct (collect_replies (S fuel) [] k1) as [k3 r3]. cbn [fst snd] in *. subst r3.
    unfold io_ret. cbn [map app rp_body]. rewrite first_family_body by done. intros [= <- <-].
    split; [congruence|]. split; [done|lia].
  - destruct (collect_replies fuel [] k1) as [k3 r3]. cbn [fst snd] in *. subst r3. intros [= <- <-].
    split; [congruence|]. right. cbn in Hle. lia.
Qed.

(** The request of a configuration, with its answer when that fits *)
Lemma configure_device_effect (cfg : WgDeviceConfig) (fuel : nat) (k k' : K) (r : result unit IoError) :
  config_typed cfg -> configure_device fuel cfg k = (k', r) ->
  (wk_state k' = wk_state k /\ exists e, r = Err e /\ ((exists c, e = OsError c) \/ (fuel < 2)%nat))
  \/ exists code, set_effect cfg code (wk_state k) (wk_state k') /\
       (answer_fits (concat (device_attrs cfg)) -> r = if code =? 0 then Ok () else Err (OsError (- code))).
Proof.
  intros Hc. unfold configure_device, GenlSocket_new, io_bind, io_map_err, io_ret.
  pose proof (wk_open_state k) as Ho. destruct (gk_open k) as [k1 [port|e]]; cbn [map_err fst] in *.
  2: { intros [= <- <-]. left. split; [done|]. eauto. }
  destruct (resolve_family_ops _ _ _ k1) as [k2 [[sock ops]|e]] eqn:Er; apply resolve_wireguard in Er as [Hs Hr].
  2: { intros [= <- <-]. left. split; [congruence|]. eauto. }
  destruct Hr as [-> Hfuel]. unfold genl_request, io_bind, io_map_err. cbn [gs_seq gs_port].
  destruct (gk_send _ k2) as [k3 [[]|e]] eqn:Es; cbn [map_err].
  2: { intros [= <- <-]. apply wk_send_fails in Es. left. split; [congruence|]. eauto. }
  apply (wk_set_answer _ _ _ _ _ cfg) in Es as (code & Heff & Hans).
  2: { rewrite concat_device_attrs. by apply read_device_encoded. }
  pose proof (collect_frame fuel [] k3) as Hf. destruct (collect_replies fuel [] k3) as [k4 r4] eqn:Ec. cbn [fst] in Hf.
  intros Hres. right. exists code. split.
  { rewrite <- Ho, <- Hs. replace (wk_state k') with (wk_state k3); [done|]. destruct r4; by injection Hres as <- <-. }
  intros Hfits. destruct (Hans Hfits) as (k5 & rest & echo & Ha & Hl & He & Hcode).
  set (rp := mkReply _ _ _) in Ha. assert (reply_ok rp) as Hok by (split; [done|split; [exact Hl|unfold rp; cbn [rp_body]; rewrite length_app, length_to_le; lia]]).
  assert (error_code_of (rp_body rp) = Ok code) as Hec by by apply error_code_encoded.
  destruct fuel as [|fuel]; [lia|]. destruct (Z.eqb_spec code 0) as [Hz|Hne].
  - assert (is_final rp = true) as Hfin by (unfold is_final; rewrite Hec; cbn; by apply Z.eqb_eq).
    destruct (collect_answers [] rp k3 k5 (S fuel) []) as [Hx|[Hx _]]; [by constructor|done|done|done| |cbn in Hx; lia].
    rewrite Ec in Hx. cbn in Hx. subst r4. by injection Hres as _ <-.
  - pose proof (collect_error rp code k3 k5 fuel Hok eq_refl Hec Hne Ha) as Hx. rewrite Ec in Hx. cbn in Hx. subst r4.
    by injection Hres as _ <-.
Qed.

(** A device the kernel has: its name is short, so that a small configuration
    fits. *)
Lemma small_config_fits cfg : config_typed cfg ->
  Z.of_nat (length (wc_ifname cfg)) + peers_size (wc_peers cfg) <= 65000 -> answer_fits (concat (device_attrs cfg)).
Proof.
  intros (Hn & Hk & Hp & Hf & Hps & Hs) Hsz. rewrite concat_device_attrs. unfold answer_fits, device_fields.
  pose proof (length_peers_nest _ Hps). assert (0 <= peers_size (wc_peers cfg)) as Hpos
    by (clear; unfold peers_size; induction (wc_peers cfg); cbn; lia).
  assert (small ((7 + (Z.of_nat (length (wc_ifname cfg)) + 1)) + ((7 + 32) + ((7 + 2) + (11 + (7 + peers_size (wc_peers cfg))))))
    (device_fields cfg)) as [_ Hl]; [|unfold device_fields in Hl; lia].
  apply small_app; [apply small_one; [done|rewrite length_app; cbn; lia]|].
  apply small_app; [eapply (small_opt 32 _ id (fun k => length k = 32%nat)); [done|lia| |done]; intros k E; unfold id; lia|].
  apply small_app; [eapply (small_opt 2 _ _ u16); [done|lia| |done]; intros k E; rewrite length_to_le; lia|].
  apply small_app; [by apply small_flags|]. apply small_list; [done|lia|lia].
Qed.
End Applies.

(** ** Properties *)

(** A request returns the bodies of all data messages in their order,
    however the kernel packs them into datagrams, up to the acknowledgement or
    the end of the dump; a message with a non-zero error code makes it an
    error with that code. *)
Theorem genl_request_replies `{GenlKernel K} (ds : list (list Reply)) (pre post : list Reply) (r : Reply)
    (fuel : nat) (sock : GenlSocket) (family cmd flags : Z) (attrs : bytes) (k k1 k2 k' : K) :
  Forall (Forall reply_ok) ds -> Forall reply_ok (pre ++ r :: post) ->
  Forall (Forall (fun r => is_data r = true)) ds -> Forall (fun r => is_data r = true) (pre ++ post) ->
  gk_send (message_bytes family cmd flags (gs_seq sock + 1) (gs_port sock) attrs) k = (k1, Ok ()) ->
  delivers ds k1 k2 -> gk_recv k2 = (k', Ok (encode_replies (pre ++ r :: post))) ->
  (length ds < fuel)%nat ->
  (is_final r = true ->
    genl_request fuel sock family cmd flags attrs k
    = (k', Ok (mkGenlSocket (gs_seq sock + 1) (gs_port sock), map rp_body (concat ds ++ pre ++ post)))) /\
  (forall code, rp_type r = NLMSG_ERROR -> error_code_of (rp_body r) = Ok code -> code <> 0 ->
    genl_request fuel sock family cmd flags attrs k = (k', Err (OsError (- code)))).
Proof.
  intros Hok Hokr Hd Hdr Hs Hdel Hr Hf.
  destruct (Nat.le_exists_sub (S (length ds)) fuel Hf) as (n & -> & _).
  unfold genl_request, io_bind, io_map_err. cbn [gs_seq gs_port]. rewrite Hs. cbn [map_err].
  replace (n + S (length ds))%nat with (length ds + S n)%nat by lia.
  rewrite (collect_replies_data ds k1 k2) by done. split.
  - intros Hfin. rewrite (collect_replies_end pre r post k2 k') by done. unfold io_ret.
    cbn [app]. by rewrite !map_app.
  - intros code Ht Hc Hne. apply Forall_app in Hdr as [Hpre _].
    by rewrite (collect_replies_error pre r post code k2 k') by done.
Qed.

(** C21: configuring a device.  For a configuration that can be encoded and
    whose error answer would fit the client's buffer of 64 KiB, on a kernel
    that carries out the changes of a configuration one by one and answers an
    error when it stops in between: when [configure_device] answers [Ok],
    exactly the whole configuration has been carried out, all other devices
    are as they were; when it fails it is with an error of the system, never
    for a family that is not found, a reply it cannot read or a receive with
    nothing to come, and either no device has changed or only the one
    configured, by a part of the configuration: peers that it does not name
    keep their settings and, except where it asks for or replaces them, their
    networks. *)
Theorem configure_device_applies `{WgKernelLaws K} (cfg : WgDeviceConfig) (fuel : nat) (k k' : K)
    (r : result unit IoError) :
  config_typed cfg -> answer_fits (concat (device_attrs cfg)) -> configure_device (2 + fuel) cfg k = (k', r) ->
  match r with
  | Ok _ => wg_apply cfg (wk_state k) = Some (wk_state k')
  | Err e =>
      (exists c, e = OsError c) /\
      (wk_state k' = wk_state k \/
       exists d d', wk_state k !! wc_ifname cfg = Some d /\ partly_applied cfg d d' /\
         wk_state k' = <[wc_ifname cfg := d']> (wk_state k))
  end.
Proof.
  intros Hc Hfits Hrun. destruct (configure_device_effect cfg (2 + fuel) k k' r Hc Hrun) as [(Hs & e & -> & He)|(code & Heff & Hr)].
  - split; [destruct He; [done|lia]|by left].
  - rewrite (Hr Hfits). destruct (Z.eqb_spec code 0) as [->|].
    + by apply set_effect_done.
    + split; [by eexists|]. by eapply set_effect_partly.
Qed.

(** A kernel with the operations of the mainline module, which sends each
    message in a datagram of its own and repeats the header of a request that
    it acknowledges and the whole of one that it refuses *)
Record WgNode := mkWgNode { wn_links : WgState; wn_inbox : list bytes }.

Definition wn_state (k : WgNode) : WgState := filter (fun e => (length e.1 < 16)%nat) (wn_links k).

Definition wn_ops : list (Z * Z) := [(0, 28); (1, 26)].

Definition wn_error (code : Z) (echo : bytes) : bytes :=
  encode_replies [mkReply NLMSG_ERROR (replicate 10 0) (to_le 4 (wrap 32 code) ++ echo)].

Definition wn_family : bytes :=
  encode_fields ([(CTRL_ATTR_FAMILY_NAME, as_bytes "wireguard" ++ [0])] ++ [(CTRL_ATTR_FAMILY_ID, to_le 2 27)]
    ++ [(3, to_le 4 1); (4, to_le 4 0); (5, to_le 4 8)]
    ++ [(CTRL_ATTR_OPS, encode_fields [(1, encode_fields (op_fields (0, 28))); (2, encode_fields (op_fields (1, 26)))])]
    ++ [(7, [])]).

Definition wn_family_reply : bytes :=
  encode_replies [mkReply GENL_ID_CTRL (replicate 10 0) ([1; 2; 0; 0] ++ wn_family)].

#[local] Instance WgNodeKernel : GenlKernel WgNode := {|
  gk_open k := (k, Ok 4711);
  gk_send msg k :=
    (if bool_decide (u16_of (drop 4 msg) = Some GENL_ID_CTRL)
     then mkWgNode (wn_links k) [wn_family_reply; wn_error 0 (replicate 16 0)]
     else match read_device (drop 20 msg) with
          | Some cfg =>
              match wg_apply cfg (wn_state k) with
              | Some st => mkWgNode st [wn_error 0 (replicate 16 0)]
              | None => mkWgNode (wn_links k) [wn_error (- ENODEV) msg]
              end
          | None => mkWgNode (wn_links k) [wn_error (-22) msg]
          end, Ok ());
  gk_recv k := match wn_inbox k with d :: ds => (mkWgNode (wn_links k) ds, Ok d) | [] => (k, Err 11) end;
|}.

Lemma wn_state_applied cfg k st inbox :
  wg_apply cfg (wn_state k) = Some st -> wn_state (mkWgNode st inbox) = st.
Proof.
  unfold wg_apply. destruct (wn_state k !! wc_ifname cfg) as [d|] eqn:Hd; [|done]. intros [= <-].
  apply map_filter_id. intros name x. cbn. rewrite lookup_insert_Some.
  intros [[<- _]|[_ Hx]]; [apply map_lookup_filter_Some in Hd as [_ ?]|apply map_lookup_filter_Some in Hx as [_ ?]]; done.
Qed.

Lemma wn_family_describes : family_body 27 wn_ops wn_family.
Proof.
  eexists [_], [_; _; _], [_], _, [_; _]. split; [reflexivity|].
  split; [repeat constructor; done|]. split; [repeat constructor; done|]. split; [done|]. split; [|done]. repeat constructor; done.
Qed.

Lemma message_family family cmd flags seq port attrs :
  u16 family -> u16_of (drop 4 (message_bytes family cmd flags seq port attrs)) = Some family.
Proof.
  intros Hf. unfold message_bytes. rewrite drop_app_ge by (by rewrite length_to_le).
  rewrite length_to_le. by apply u16_of_le.
Qed.

Lemma message_attrs family cmd flags seq port attrs :
  drop 20 (message_bytes family cmd flags seq port attrs) = attrs.
Proof.
  unfold message_bytes. rewrite !app_assoc.
  apply (drop_app_length' _ attrs). rewrite !length_app, !length_to_le. done.
Qed.

Lemma message_length family cmd flags seq port attrs :
  length (message_bytes family cmd flags seq port attrs) = (20 + length attrs)%nat.
Proof. unfold message_bytes. rewrite !length_app, !length_to_le. cbn. lia. Qed.

#[local] Program Instance WgNodeLaws : WgKernelLaws WgNode := {|
  wk_state := wn_state; wk_family := 27; wk_ops := wn_ops; wk_get := 0; wk_set := 1;
|}.
Next Obligation. split; [done|]. repeat constructor; done. Qed.
Next Obligation. done. Qed.
Next Obligation.
  intros k name. unfold wn_state. destruct (filter _ (wn_links k) !! name) as [d|] eqn:Hd; [|done].
  by apply map_lookup_filter_Some in Hd as [_ ?].
Qed.
Next Obligation. done. Qed.
Next Obligation. intros k. cbn. by destruct (wn_inbox k). Qed.
Next Obligation. intros k msg k' e H. cbn in H. done. Qed.
Next Obligation.
  intros k k1 seq port H. cbn [gk_send WgNodeKernel] in H. rewrite message_family in H by done.
  rewrite bool_decide_eq_true_2 in H by done. injection H as <-. split; [done|].
  eexists _, [1; 2; 0; 0], wn_family, (replicate 10 0), (replicate 10 0), (replicate 16 0).
  split; [|split; [apply wn_family_describes|done]].
  exists [[mkReply GENL_ID_CTRL (replicate 10 0) ([1; 2; 0; 0] ++ wn_family)];
          [mkReply NLMSG_ERROR (replicate 10 0) (to_le 4 0 ++ replicate 16 0)]].
  split; [done|]. split; [by repeat constructor|]. eexists. split; [done|]. by eexists.
Qed.
Next Obligation.
  intros k k1 seq port attrs cfg Hread H. cbn [gk_send WgNodeKernel] in H.
  rewrite message_family, message_attrs, Hread in H by done.
  rewrite bool_decide_eq_false_2 in H by done. injection H as <-.
  assert (forall k echo code, answers [mkReply NLMSG_ERROR (replicate 10 0) (to_le 4 (wrap 32 code) ++ echo)]
            (mkWgNode k [wn_error code echo]) (mkWgNode k [])) as Ha.
  { intros k0 echo code. eexists [[_]]. split; [done|]. split; [by repeat constructor|]. by eexists. }
  destruct (wg_apply cfg (wn_state k)) as [st|] eqn:Ea.
  - exists 0. split; [|intros _; eexists _, _, _; by split; [apply Ha|]].
    rewrite (wn_state_applied _ _ _ _ Ea). unfold wg_apply, set_effect in *.
    destruct (wn_state k !! wc_ifname cfg) as [d|]; [|done]. injection Ea as <-. exists (length (device_steps cfg)).
    by rewrite firstn_all, run_device_steps.
  - exists (- ENODEV). split.
    + unfold wg_apply, set_effect in *. by destruct (wn_state k !! wc_ifname cfg).
    + intros Hfit. eexists _, _, _. split; [apply Ha|]. rewrite message_length. unfold answer_fits in Hfit.
      split_and!; [done|lia|done|done].
Qed.

Definition wg_node : WgNode :=
  mkWgNode {[ as_bytes "flannel-wg" := mkWgDevState None 0 ∅ ∅ ]} [].

Lemma configure_device_applies_witness :
  let '(k', r) := configure_device 2 wg_sample wg_node in
  is_ok r = true /\ wg_apply wg_sample (wn_state wg_node) = Some (wn_state k').
Proof.
  destruct (configure_device 2 wg_sample wg_node) as [k' r] eqn:E.
  assert (is_ok r = true) as Hr.
  { apply (f_equal (fun x => is_ok x.2)) in E. cbn [snd] in E. rewrite <- E. by vm_compute. }
  split; [exact Hr|].
  assert (answer_fits (concat (device_attrs wg_sample))) as Hf by by vm_compute.
  pose proof (configure_device_applies wg_sample 0 wg_node k' r wg_sample_typed Hf E) as Ha. clear E. by destruct r.
Defined.

(** Half of a configuration: a kernel that stops after the listening port has
    changed the device and answers an error. *)
Example half_configured :
  partly_applied wg_sample (mkWgDevState None 0 ∅ ∅) (run_steps (take 1 (device_steps wg_sample)) (mkWgDevState None 0 ∅ ∅))
  /\ st_listen_port (run_steps (take 1 (device_steps wg_sample)) (mkWgDevState None 0 ∅ ∅)) <> 0.
Proof. split; [apply steps_partly|by vm_compute]. Qed.

(** A dump in two datagrams, the end of it with one more message *)
Definition wg_reply (t x : Z) : Reply := mkReply t (replicate 10 0) [x].

#[local] Instance WgListKernel : GenlKernel (list bytes) := {|
  gk_open k := (k, Ok 1);
  gk_send _ k := (k, Ok ());
  gk_recv k := match k with d :: k => (k, Ok d) | [] => ([], Err 11) end;
|}.

Lemma genl_request_replies_witness :
  genl_request 2 (mkGenlSocket 0 1) 27 0 0 []
    [encode_replies [wg_reply 27 1; wg_reply 27 2]; encode_replies [wg_reply 27 3; wg_reply NLMSG_DONE 0]]
  = ([], Ok (mkGenlSocket 1 1, [[1]; [2]; [3]])).
Proof.
  set (d1 := encode_replies [wg_reply 27 1; wg_reply 27 2]).
  set (d2 := encode_replies [wg_reply 27 3; wg_reply NLMSG_DONE 0]).
  apply (genl_request_replies [[wg_reply 27 1; wg_reply 27 2]] [wg_reply 27 3] [] (wg_reply NLMSG_DONE 0)
    2 (mkGenlSocket 0 1) 27 0 0 [] [d1; d2] [d1; d2] [d2] []); try done; try (repeat constructor; done).
  by exists [d2].
Defined.

(** The ids that stand in for a missing operation can be those of the other:
    an operation 1 that can only be done is also taken for the dump. *)
Theorem family_ops_collide :
  parse_family_ops WG_GENL_NAME (encode_fields (family_fields 26 [(1, GENL_CMD_CAP_DO)])) = Ok (26, 1, 1).
Proof. by vm_compute. Qed.
