(* ===== verification/Iface.v ===== *)
(** * [ip/iface]: addresses, links and routes of the host over netlink

    [mod.rs] reads the messages of a dump, [query.rs] looks interfaces and
    addresses up, [config.rs] sets the address of a link and the blackhole
    routes.  The kernel is the interface [NlKernel]; a dump is a stream of
    messages that may break off with an error, and the laws [NlLaws] say how
    a request changes the dumps that follow. *)

From S2P Require Import Prelude RustStr IpNet Ip6Net Lease RouteNetwork.
From Stdlib Require Import Permutation Sorted.
#[local] Open Scope string_scope.
#[local] Open Scope list_scope.
#[local] Open Scope Z_scope.

(** ** Messages

    The attributes the code names; the others are one constructor.  A family is
    [None] when it is neither of the two the code asks for. *)

Inductive AddressAttribute := IfaLocal (ip : IpAddr) | IfaAddress (ip : IpAddr) | IfaOther.

Record AddressMessage := mkAddressMessage {
  am_index : Z;
  am_family : option AddressFamily;
  am_prefix_len : Z;
  am_permanent : bool;
  am_secondary : bool;
  am_deprecated : bool;
  am_attributes : list AddressAttribute;
}.

Inductive InfoKind := KVxlan | KIpIp | KWireguard | KOther (name : string).

Inductive InfoVxlan :=
  | IvId (n : Z) | IvLink (index : Z) | IvLocal (ip : IP4) | IvLocal6 (ip : IP6) | IvGroup (ip : IP4)
  | IvGroup6 (ip : IP6) | IvL2Miss (b : bool) | IvPort (p : Z) | IvGbp | IvOther.

Inductive InfoIpTunnel := ItLocal (ip : IpAddr) | ItRemote (ip : IpAddr) | ItOther.

Inductive InfoData := IdVxlan (items : list InfoVxlan) | IdIpTunnel (attrs : list InfoIpTunnel) | IdOther.

Inductive LinkInfo := LiKind (k : InfoKind) | LiData (d : InfoData) | LiOther.

Inductive LinkAttribute :=
  | IfName (name : string) | Mtu (mtu : Z) | IflaAddress (b : bytes) | IflaInfo (infos : list LinkInfo) | IflaOther.

Record LinkMessage := mkLinkMessage {
  lm_index : Z;
  lm_attributes : list LinkAttribute;
}.

Inductive RouteAddress := RtInet (ip : IP4) | RtInet6 (ip : IP6) | RtMpls.

Inductive RouteAttribute :=
  | Destination (a : RouteAddress) | Gateway (a : RouteAddress) | PrefSource (a : RouteAddress)
  | Oif (index : Z) | RtaOther.

Inductive RouteType := Unicast | BlackHole | RtnOther.

Record NlRoute := mkNlRoute {
  nr_family : option AddressFamily;
  nr_prefix_len : Z;
  nr_kind : RouteType;
  nr_attributes : list RouteAttribute;
}.

(** [Netlink] owns the connection: here the kernel is passed instead. *)
Record NetIface := mkNetIface {
  ni_index : Z;
  ni_name : string;
}.

(** [backend/common.rs]: the interface the backends use. *)
Record ExternalInterface := mkExternalInterface {
  ei_iface_index : Z;
  ei_iface_name : string;
  ei_iface_addr : option IpAddr;
  ei_iface_v6_addr : option IpAddr;
  ei_ext_addr : option IpAddr;
  ei_ext_v6_addr : option IpAddr;
}.

#[global] Instance AddressAttribute_eq_dec : EqDecision AddressAttribute.
Proof. solve_decision. Defined.
#[global] Instance AddressMessage_eq_dec : EqDecision AddressMessage.
Proof. solve_decision. Defined.
#[global] Instance RouteAddress_eq_dec : EqDecision RouteAddress.
Proof. solve_decision. Defined.
#[global] Instance RouteAttribute_eq_dec : EqDecision RouteAttribute.
Proof. solve_decision. Defined.
#[global] Instance RouteType_eq_dec : EqDecision RouteType.
Proof. solve_decision. Defined.
#[global] Instance NlRoute_eq_dec : EqDecision NlRoute.
Proof. solve_decision. Defined.
#[global] Instance NetIface_eq_dec : EqDecision NetIface.
Proof. solve_decision. Defined.

(** ** [mod.rs] *)

(** [Iterator::find_map] *)
Fixpoint find_map {A B} (f : A -> option B) (l : list A) : option B :=
  match l with
  | [] => None
  | a :: l => match f a with Some b => Some b | None => find_map f l end
  end.

(** The first [IfaLocal], or else the last [IfaAddress]. *)
Fixpoint addr_ip_from (address : option IpAddr) (attrs : list AddressAttribute) : option IpAddr :=
  match attrs with
  | [] => address
  | IfaLocal ip :: _ => Some ip
  | IfaAddress ip :: attrs => addr_ip_from (Some ip) attrs
  | IfaOther :: attrs => addr_ip_from address attrs
  end.

Definition addr_ip (msg : AddressMessage) : option IpAddr := addr_ip_from None (am_attributes msg).

Definition link_name (msg : LinkMessage) : string :=
  default "?" (find_map (fun a => match a with IfName n => Some n | _ => None end) (lm_attributes msg)).

Definition link_mtu (msg : LinkMessage) : Z :=
  default 0 (find_map (fun a => match a with Mtu m => Some m | _ => None end) (lm_attributes msg)).

Definition net_iface_of (msg : LinkMessage) : NetIface := mkNetIface (lm_index msg) (link_name msg).

Definition route_addr_to_ip (addr : RouteAddress) : option IpAddr :=
  match addr with
  | RtInet v4 => Some (V4 v4)
  | RtInet6 v6 => Some (V6 v6)
  | RtMpls => None
  end.

Definition route_attr_ip (route : NlRoute) (want_dst : bool) : option IpAddr :=
  find_map (fun a =>
    match a with
    | Destination r => if want_dst then route_addr_to_ip r else None
    | Gateway r => if negb want_dst then route_addr_to_ip r else None
    | _ => None
    end) (nr_attributes route).

Definition route_dst (route : NlRoute) : option IpAddr := route_attr_ip route true.

Definition route_gateway (route : NlRoute) : option IpAddr :=
  find_map (fun a => match a with Gateway g => route_addr_to_ip g | _ => None end) (nr_attributes route).

Definition route_pref_source (route : NlRoute) : option IpAddr :=
  find_map (fun a => match a with PrefSource s => route_addr_to_ip s | _ => None end) (nr_attributes route).

Definition route_oif (route : NlRoute) : option Z :=
  find_map (fun a => match a with Oif i => Some i | _ => None end) (nr_attributes route).

(** [std::net]: [is_unspecified], [is_loopback], [is_multicast] *)
Definition is_unspecified (ip : IpAddr) : bool :=
  match ip with V4 v4 => v4 =? 0 | V6 v6 => bool_decide (v6 = IP6_zero) end.
Definition is_loopback (ip : IpAddr) : bool :=
  match ip with
  | V4 v4 => nth 0 (IP4_octets v4) 0 =? 127
  | V6 v6 => bool_decide (v6 = replicate 15 0 ++ [1])
  end.
Definition is_multicast (ip : IpAddr) : bool :=
  match ip with
  | V4 v4 => (224 <=? nth 0 (IP4_octets v4) 0) && (nth 0 (IP4_octets v4) 0 <=? 239)
  | V6 v6 => nth 0 v6 0 =? 255
  end.

Definition is_link_local_unicast (ip : IpAddr) : bool :=
  match ip with
  | V4 v4 => (nth 0 (IP4_octets v4) 0 =? 169) && (nth 1 (IP4_octets v4) 0 =? 254)
  | V6 v6 => Z.land (from_be (take 2 v6)) 65472 =? 65152
  end.

Definition is_global_unicast (ip : IpAddr) : bool :=
  negb (is_unspecified ip) && negb (is_loopback ip) && negb (is_multicast ip)
  && negb (is_link_local_unicast ip).

(** [Ordering] is [comparison]. *)
Definition compare_addrs (a b : AddressMessage) : comparison :=
  match addr_ip a, addr_ip b with
  | Some a_ip, Some b_ip =>
      if is_global_unicast a_ip && is_link_local_unicast b_ip then Lt
      else if is_link_local_unicast a_ip && is_global_unicast b_ip then Gt
      else if am_permanent a && negb (am_permanent b) then Lt
      else if negb (am_permanent a) && am_permanent b then Gt
      else if negb (am_secondary a) && am_secondary b then Lt
      else if am_secondary a && negb (am_secondary b) then Gt
      else Eq
  | _, _ => Eq
  end.

(** [slice::sort_by]: a stable sort, which the standard library documents for
    comparisons that are total orders; as an insertion sort. *)
Fixpoint insert_by {A} (cmp : A -> A -> comparison) (x : A) (l : list A) : list A :=
  match l with
  | [] => [x]
  | y :: l' => match cmp x y with Gt => y :: insert_by cmp x l' | _ => x :: l end
  end.

Definition sort_by {A} (cmp : A -> A -> comparison) (l : list A) : list A :=
  foldr (insert_by cmp) [] l.

(** ** Dumps *)

(** The messages that arrive, and the error the stream ends with. *)
Definition stream (A : Type) : Type := list A * option string.

(** The loops [while let Some(m) = s.try_next().await?] that keep what [p]
    accepts. *)
Definition collect {A} (p : A -> bool) (s : stream A) : result (list A) string :=
  match s.2 with Some e => Err e | None => Ok (List.filter p s.1) end.

(** [try_next] once *)
Definition try_next {A} (s : stream A) : result (option A) string :=
  match s.1, s.2 with
  | a :: _, _ => Ok (Some a)
  | [], Some e => Err e
  | [], None => Ok None
  end.

(** The loops that return at the first message [p] accepts. *)
Definition any_in {A} (p : A -> bool) (s : stream A) : result bool string :=
  if existsb p s.1 then Ok true
  else match s.2 with Some e => Err e | None => Ok false end.

(** The requests of [rtnetlink] the module makes: dumps of the links, of one
    link by index or name, of the addresses of a link, of the routes and of
    the route to an address, and the changes. *)
Class NlKernel (K : Type) := {
  nl_links : K -> stream LinkMessage;
  nl_link_by_index : K -> Z -> stream LinkMessage;
  nl_link_by_name : K -> string -> stream LinkMessage;
  nl_addrs : K -> Z -> stream AddressMessage;
  nl_routes : K -> stream NlRoute;
  nl_route_get : K -> NlRoute -> stream NlRoute;
  nl_addr_add : Z -> IpAddr -> Z -> io K string unit;
  nl_addr_del : AddressMessage -> io K string unit;
  nl_route_add : NlRoute -> io K string unit;
}.

Section Queries.
Context `{NlKernel K}.

(** ** [query.rs]

    A query leaves the kernel as it is, so it is a function of it. *)

Definition list_links (k : K) : result (list LinkMessage) string :=
  collect (fun _ => true) (nl_links k).

Definition list_iface_addrs (k : K) (index : Z) (family : AddressFamily)
  : result (list AddressMessage) string :=
  collect (fun a => bool_decide (am_family a = Some family)) (nl_addrs k index).

Definition list_routes (k : K) : result (list NlRoute) string :=
  collect (fun _ => true) (nl_routes k).

Definition query_route_get (k : K) (ip : IpAddr) : result (list NlRoute) string :=
  collect (fun _ => true)
    (nl_route_get k
       (match ip with
        | V4 v4 => mkNlRoute (Some Inet) 32 Unicast [Destination (RtInet v4)]
        | V6 v6 => mkNlRoute (Some Inet6) 128 Unicast [Destination (RtInet6 v6)]
        end)).

Definition no_such_index (index : Z) : string :=
  "no such network interface with index " +:+ fmt_dec index.

Definition iface_from_links (links : list LinkMessage) (index : Z) : result NetIface string :=
  ok_or (option_map net_iface_of (List.find (fun l => lm_index l =? index) links)) (no_such_index index).

(** The [filter_map] of the two functions below; [v4_only] is the test
    [ip.is_ipv4()] that only the first one makes. *)
Definition usable_ip (v4_only : bool) (a : AddressMessage) : option IpAddr :=
  match addr_ip a with
  | None => None
  | Some ip =>
      let usable := is_global_unicast ip || is_link_local_unicast ip in
      let v4 := match ip with V4 _ => true | V6 _ => false end in
      if (negb v4_only || v4) && usable && negb (am_deprecated a) then Some ip else None
  end.

Definition get_iface_ip4_addrs (k : K) (iface : NetIface) : result (list IpAddr) string :=
  let? addrs := list_iface_addrs k (ni_index iface) Inet in
  let ips := omap (usable_ip true) (sort_by compare_addrs addrs) in
  if bool_decide (ips = []) then Err "no IPv4 address found for given interface" else Ok ips.

Definition get_iface_ip6_addrs (k : K) (iface : NetIface) : result (list IpAddr) string :=
  let? addrs := list_iface_addrs k (ni_index iface) Inet6 in
  let ips := omap (usable_ip false) (sort_by compare_addrs addrs) in
  if bool_decide (ips = []) then Err "no IPv6 address found for given interface" else Ok ips.

Definition get_interface_ip4_addr_match (k : K) (iface : NetIface) (match_addr : IP4) : result unit string :=
  let? addrs := list_iface_addrs k (ni_index iface) Inet in
  if existsb (fun a => bool_decide (addr_ip a = Some (V4 match_addr))) addrs then Ok tt
  else Err "no IPv4 address found for given interface".

Definition get_interface_ip6_addr_match (k : K) (iface : NetIface) (match_addr : IP6) : result unit string :=
  let? addrs := list_iface_addrs k (ni_index iface) Inet6 in
  if existsb (fun a => bool_decide (addr_ip a = Some (V6 match_addr))) addrs then Ok tt
  else Err "no IPv6 address found for given interface".

Definition is_default (family : AddressFamily) (zero : IpAddr) (r : NlRoute) : bool :=
  bool_decide (nr_family r = Some family)
  && match route_dst r with
     | None => true
     | Some dst => bool_decide (dst = zero) && (nr_prefix_len r =? 0)
     end.

Definition default_gateway_iface (routes : list NlRoute) (family : AddressFamily) (zero : IpAddr)
    (no_iface_err no_route_err : string) : result (NetIface * option IpAddr) string :=
  match List.find (is_default family zero) routes with
  | Some route =>
      let oif := default 0 (route_oif route) in
      if oif =? 0 then Err no_iface_err else Ok (mkNetIface oif "", route_gateway route)
  | None => Err no_route_err
  end.

Definition link_name_by_index (k : K) (index : Z) : result string string :=
  let? link := try_next (nl_link_by_index k index) in
  match link with Some link => Ok (link_name link) | None => Err (no_such_index index) end.

Definition get_default_gateway_interface (k : K) : result (NetIface * option IpAddr) string :=
  let? routes := list_routes k in
  let? (iface, gw) := default_gateway_iface routes Inet (V4 0)
    "found default route but could not determine interface" "unable to find default route" in
  let? name := link_name_by_index k (ni_index iface) in
  Ok (mkNetIface (ni_index iface) name, gw).

Definition get_default_v6_gateway_interface (k : K) : result (NetIface * option IpAddr) string :=
  let? routes := list_routes k in
  let? (iface, gw) := default_gateway_iface routes Inet6 (V6 IP6_zero)
    "found default v6 route but could not determine interface" "unable to find default v6 route" in
  let? name := link_name_by_index k (ni_index iface) in
  Ok (mkNetIface (ni_index iface) name, gw).

Definition get_interface_by_name (k : K) (name : string) : result NetIface string :=
  let? link := try_next (nl_link_by_name k name) in
  match link with Some link => Ok (net_iface_of link) | None => Err "no such network interface" end.

(** The loop over the links: the addresses of each are dumped until one is
    found. *)
Fixpoint iface_owning (k : K) (family : AddressFamily) (want : IpAddr) (none_err : string)
    (links : list LinkMessage) : result NetIface string :=
  match links with
  | [] => Err none_err
  | link :: links =>
      let? found := any_in (fun a => bool_decide (am_family a = Some family)
                                     && bool_decide (addr_ip a = Some want)) (nl_addrs k (lm_index link)) in
      if found : bool then Ok (net_iface_of link) else iface_owning k family want none_err links
  end.

Definition get_interface_by_ip (k : K) (ip : IP4) : result NetIface string :=
  let? links := list_links k in iface_owning k Inet (V4 ip) "no interface with given IP found" links.

Definition get_interface_by_ip6 (k : K) (ip : IP6) : result NetIface string :=
  let? links := list_links k in iface_owning k Inet6 (V6 ip) "no interface with given IPv6 found" links.

Definition ip_fmt (ip : IpAddr) : string :=
  match ip with V4 v4 => IP4_fmt v4 | V6 v6 => IP6_fmt v6 end.

Definition no_route_to (ip : IpAddr) (e : string) : string :=
  "couldn't lookup route to " +:+ ip_fmt ip +:+ ": " +:+ e.

Definition get_interface_by_specific_ip_routing (k : K) (ip : IpAddr)
  : result (NetIface * option IpAddr) string :=
  let? routes := map_err (no_route_to ip) (query_route_get k ip) in
  let? links := list_links k in
  match routes with
  | route :: _ =>
      let oif := default 0 (route_oif route) in
      if oif =? 0 then Err "couldn't lookup interface: no such network interface with index 0"
      else
        let? iface := map_err (fun e => "couldn't lookup interface: " +:+ e) (iface_from_links links oif) in
        Ok (iface, route_pref_source route)
  | [] => Err "no interface with given IP found"
  end.

(** [direct_routing] is modelled with the VXLAN backend, its caller. *)

Definition get_link_mtu (k : K) (index : Z) : result Z string :=
  let? link := try_next (nl_link_by_index k index) in
  match link with Some link => Ok (link_mtu link) | None => Err (no_such_index index) end.

End Queries.

Section Configuration.
Context `{NlKernel K}.

(** ** [config.rs] *)

Definition iface_v4_addrs (k : K) (index : Z) : result (list AddressMessage) string :=
  collect (fun a => bool_decide (am_family a = Some Inet)) (nl_addrs k index).

Definition iface_v6_addrs (k : K) (index : Z) : result (list AddressMessage) string :=
  collect (fun a => bool_decide (am_family a = Some Inet6)) (nl_addrs k index).

Definition name_of (k : K) (index : Z) : result string string :=
  let? link := try_next (nl_link_by_index k index) in
  match link with Some link => Ok (link_name link) | None => Err (no_such_index index) end.

(** [eip == want_ip && existing.header.prefix_len == want_prefix] *)
Definition is_wanted (want_ip : IpAddr) (want_prefix : Z) (a : AddressMessage) : bool :=
  bool_decide (addr_ip a = Some want_ip) && (am_prefix_len a =? want_prefix).

(** The addresses the loop removes: others of the network. *)
Definition is_stray (want_ip : IpAddr) (want_prefix : Z) (ipn : IP4Net) (a : AddressMessage) : bool :=
  match addr_ip a with
  | Some (V4 v4) => negb (is_wanted want_ip want_prefix a) && IP4Net_contains ipn v4
  | _ => false
  end.

Definition v4_removal_err (a : AddressMessage) (name e : string) : string :=
  "failed to remove IP address "
  +:+ (match addr_ip a with Some ip => ip_fmt ip | None => "" end) +:+ "/"
  +:+ fmt_dec (am_prefix_len a) +:+ " from " +:+ name +:+ ": " +:+ e.

(** The loop of [ensure_v4_address_on_link]; its value is [has_addr]. *)
Fixpoint v4_loop (name : string) (want_ip : IpAddr) (want_prefix : Z) (ipn : IP4Net) (has_addr : bool)
    (existing : list AddressMessage) : io K string bool :=
  match existing with
  | [] => io_ret has_addr
  | a :: existing =>
      if is_wanted want_ip want_prefix a then v4_loop name want_ip want_prefix ipn true existing
      else if is_stray want_ip want_prefix ipn a then
        let! _ := io_map_err (v4_removal_err a name) (nl_addr_del a) in
        v4_loop name want_ip want_prefix ipn has_addr existing
      else v4_loop name want_ip want_prefix ipn has_addr existing
  end.

Definition ensure_v4_address_on_link (ipa ipn : IP4Net) (link_index : Z) : io K string unit :=
  let! k := io_get in
  let! name := io_lift (name_of k link_index) in
  let want_ip := V4 (ip4n_ip ipa) in
  let want_prefix := wrap 8 (ip4n_plen ipa) in
  let! existing := io_lift (iface_v4_addrs k link_index) in
  let! has_addr := v4_loop name want_ip want_prefix ipn false existing in
  if negb has_addr then
    io_map_err (fun e => "failed to add IP address " +:+ IP4Net_fmt ipa +:+ " to " +:+ name +:+ ": " +:+ e)
      (nl_addr_add link_index want_ip want_prefix)
  else io_ret tt.

(** The loop of [ensure_v6_address_on_link]: [None] when it returns early,
    else the flags [cleared] and [only_link_local]. *)
Fixpoint v6_loop (name : string) (want_ip : IpAddr) (want_prefix : Z) (ipn : IP6Net)
    (cleared only_link_local : bool) (existing : list AddressMessage) : io K string (option (bool * bool)) :=
  match existing with
  | [] => io_ret (Some (cleared, only_link_local))
  | a :: existing =>
      match addr_ip a with
      | None => v6_loop name want_ip want_prefix ipn cleared only_link_local existing
      | Some eip =>
          if is_link_local_unicast eip then v6_loop name want_ip want_prefix ipn cleared only_link_local existing
          else if is_wanted want_ip want_prefix a then io_ret None
          else
            let! _ := io_map_err (fun e => "failed to remove v6 IP address " +:+ IP6Net_fmt ipn +:+ " from "
                                           +:+ name +:+ ": " +:+ e) (nl_addr_del a) in
            v6_loop name want_ip want_prefix ipn true false existing
      end
  end.

Definition ensure_v6_address_on_link (ipa ipn : IP6Net) (link_index : Z) : io K string unit :=
  let! k := io_get in
  let! name := io_lift (name_of k link_index) in
  let want_ip := V6 (ip6n_ip ipa) in
  let want_prefix := wrap 8 (ip6n_plen ipa) in
  let! existing := io_lift (iface_v6_addrs k link_index) in
  let! flags := v6_loop name want_ip want_prefix ipn false true existing in
  match flags with
  | None => io_ret tt
  | Some (cleared, only_link_local) =>
      let cleared := if only_link_local : bool then true else cleared in
      if cleared : bool then
        io_map_err (fun e => "failed to add v6 IP address " +:+ IP6Net_fmt ipn +:+ " to " +:+ name +:+ ": " +:+ e)
          (nl_addr_add link_index want_ip want_prefix)
      else io_ret tt
  end.

Definition is_blackhole (family : AddressFamily) (dst : IpAddr) (prefix_len : Z) (route : NlRoute) : bool :=
  bool_decide (nr_family route = Some family) && bool_decide (nr_kind route = BlackHole)
  && (nr_prefix_len route =? prefix_len) && bool_decide (route_dst route = Some dst).

Definition has_blackhole_route (k : K) (family : AddressFamily) (dst : IpAddr) (prefix_len : Z)
  : result bool string :=
  any_in (is_blackhole family dst prefix_len) (nl_routes k).

Definition add_blackhole_v4_route (dst : IP4Net) : io K string unit :=
  let prefix := wrap 8 (ip4n_plen dst) in
  let! k := io_get in
  let! found := io_lift (has_blackhole_route k Inet (V4 (ip4n_ip dst)) prefix) in
  if found : bool then io_ret tt
  else nl_route_add (mkNlRoute (Some Inet) prefix BlackHole [Destination (RtInet (ip4n_ip dst))]).

Definition add_blackhole_v6_route (dst : IP6Net) : io K string unit :=
  let prefix := wrap 8 (ip6n_plen dst) in
  let! k := io_get in
  let! found := io_lift (has_blackhole_route k Inet6 (V6 (ip6n_ip dst)) prefix) in
  if found : bool then io_ret tt
  else nl_route_add (mkNlRoute (Some Inet6) prefix BlackHole [Destination (RtInet6 (ip6n_ip dst))]).

End Configuration.

(** * Theorems *)

(** ** The order of preference

    The classes the comparison is documented for: global unicast before
    link-local, permanent before generated, then non-temporary before
    temporary. *)

Definition classified (a : AddressMessage) : bool :=
  match addr_ip a with Some ip => is_global_unicast ip || is_link_local_unicast ip | None => false end.

Definition pref (a : AddressMessage) : Z :=
  (if match addr_ip a with Some ip => is_link_local_unicast ip | None => false end then 4 else 0)
  + (if am_permanent a then 0 else 2) + (if am_secondary a then 1 else 0).

Definition prefs : list Z := [0; 1; 2; 3; 4; 5; 6; 7].

(** The reference: one group of addresses after the other, each in the order
    of the dump. *)
Definition by_pref (l : list AddressMessage) : list AddressMessage :=
  flat_map (fun p => List.filter (fun a => pref a =? p) l) prefs.

Lemma compare_addrs_pref a b :
  classified a = true -> classified b = true -> compare_addrs a b = (pref a ?= pref b).
Proof.
  unfold classified, compare_addrs, pref, is_global_unicast.
  destruct (addr_ip a) as [x|], (addr_ip b) as [y|]; try done.
  destruct (is_link_local_unicast x), (is_link_local_unicast y);
    rewrite ?andb_false_r, ?andb_true_r, ?orb_false_r; intros; simplify_eq/=;
    repeat match goal with Hx : _ = true |- _ => rewrite !Hx; clear Hx end;
    destruct (am_permanent a), (am_permanent b), (am_secondary a), (am_secondary b); reflexivity.
Qed.

Lemma pref_in_prefs a : pref a ∈ prefs.
Proof.
  unfold pref, prefs.
  destruct (match addr_ip a with Some ip => is_link_local_unicast ip | None => false end),
    (am_permanent a), (am_secondary a); cbn; rewrite list_elem_of_In; cbn; lia.
Qed.

Lemma flat_map_ext_in {A B} (f g : A -> list B) l :
  (forall a, In a l -> f a = g a) -> flat_map f l = flat_map g l.
Proof. intros Hfg. rewrite !flat_map_concat_map. f_equal. by apply map_ext_in. Qed.

(** A stable insertion puts an element before the others of its group. *)
Section StableSort.
Context {A : Type} (cmp : A -> A -> comparison) (key : A -> Z) (P : A -> bool).
Hypothesis cmp_key : forall a b, P a = true -> P b = true -> cmp a b = (key a ?= key b).

Lemma insert_by_above x ys rest :
  P x = true -> Forall (fun y => P y = true /\ key y < key x) ys ->
  insert_by cmp x (ys ++ rest) = ys ++ insert_by cmp x rest.
Proof.
  intros Hx. induction 1 as [|y ys [Hy Hk] _ IH]; [done|]. cbn [app insert_by].
  rewrite (cmp_key x y), (proj2 (Z.compare_gt_iff _ _)) by (done || lia). by rewrite IH.
Qed.

Lemma insert_by_below x ys :
  P x = true -> Forall (fun y => P y = true /\ key x <= key y) ys -> insert_by cmp x ys = x :: ys.
Proof.
  intros Hx Hys. destruct ys as [|y ys]; [done|]. apply Forall_cons_iff in Hys as [[Hy Hk] _]. cbn.
  rewrite (cmp_key x y) by done. by destruct (Z.compare_spec (key x) (key y)); [| |lia].
Qed.

Lemma insert_by_groups x (F : Z -> list A) ks :
  P x = true -> (forall p, Forall (fun y => P y = true /\ key y = p) (F p)) ->
  StronglySorted Z.lt ks -> key x ∈ ks ->
  insert_by cmp x (flat_map F ks) = flat_map (fun p => if key x =? p then x :: F p else F p) ks.
Proof.
  intros Hx HF. induction 1 as [|p ks Hs IH Hp]; intros Hin; [by apply elem_of_nil in Hin|]. cbn [flat_map].
  destruct (Z.eqb_spec (key x) p) as [Heq|Hne].
  - rewrite insert_by_below, (flat_map_ext_in (fun p => if key x =? p then x :: F p else F p) F ks);
      [done| |done|].
    + intros q Hq. rewrite (proj2 (Z.eqb_neq _ _)); [done|].
      rewrite List.Forall_forall in Hp. specialize (Hp q Hq). lia.
    + apply Forall_app. split.
      * eapply Forall_impl; [|apply HF]. intros y [? ?]. split; [done|lia].
      * apply List.Forall_forall. intros y Hy. apply in_flat_map in Hy as (q & Hq & Hy).
        rewrite List.Forall_forall in Hp. specialize (Hp q Hq). specialize (HF q).
        rewrite List.Forall_forall in HF. destruct (HF y Hy). split; [done|lia].
  - apply elem_of_cons in Hin as [Hin|Hin]; [done|].
    rewrite insert_by_above, IH; [done|done|done|].
    apply list_elem_of_In in Hin. rewrite List.Forall_forall in Hp. specialize (Hp _ Hin).
    eapply Forall_impl; [|apply HF]. intros y [? ?]. split; [done|lia].
Qed.

Lemma sort_by_groups ks l :
  StronglySorted Z.lt ks -> (forall a, key a ∈ ks) -> forallb P l = true ->
  sort_by cmp l = flat_map (fun p => List.filter (fun a => key a =? p) l) ks.
Proof.
  intros Hs Hin. induction l as [|x l IH]; intros Hl.
  - clear. by induction ks.
  - cbn [forallb] in Hl. apply andb_true_iff in Hl as [Hx Hl]. cbn [sort_by foldr].
    fold (sort_by cmp l). rewrite (IH Hl).
    rewrite insert_by_groups; [|done| |done|done].
    { apply flat_map_ext. intros p. by cbn. }
    intros p. apply List.Forall_forall. intros y Hy. apply filter_In in Hy as [Hy Hk].
    rewrite forallb_forall in Hl. split; [by apply Hl|lia].
Qed.
End StableSort.

Lemma sort_by_pref l : forallb classified l = true -> sort_by compare_addrs l = by_pref l.
Proof.
  apply (sort_by_groups compare_addrs pref classified).
  - exact compare_addrs_pref.
  - unfold prefs. repeat constructor; lia.
  - exact pref_in_prefs.
Qed.

(** When every address of the asked family on the interface is global or
    link-local unicast, the addresses the lookup returns are the usable ones
    group by group in order of preference - global before link-local, permanent
    before generated, non-temporary before temporary - and in kernel order
    inside a group; the lookup fails exactly when none is usable. *)
Theorem iface_addrs_preferred `{NlKernel K} (k : K) iface addrs4 addrs6 :
  list_iface_addrs k (ni_index iface) Inet = Ok addrs4 ->
  list_iface_addrs k (ni_index iface) Inet6 = Ok addrs6 ->
  forallb classified (addrs4 ++ addrs6) = true ->
  result_ok (get_iface_ip4_addrs k iface)
    = (let ips := omap (usable_ip true) (by_pref addrs4) in
       if bool_decide (ips = []) then None else Some ips)
  /\ result_ok (get_iface_ip6_addrs k iface)
    = (let ips := omap (usable_ip false) (by_pref addrs6) in
       if bool_decide (ips = []) then None else Some ips).
Proof.
  intros H4 H6 Hc. rewrite forallb_app in Hc. apply andb_true_iff in Hc as [Hc4 Hc6].
  unfold get_iface_ip4_addrs, get_iface_ip6_addrs. rewrite H4, H6. cbn [rbind].
  rewrite !sort_by_pref by done. split; by case_bool_decide.
Qed.

(** The comparison is not transitive beyond these classes: a permanent
    loopback address comes before a generated global one, which comes before a
    permanent link-local one, yet the first and the last are equal. *)
Theorem compare_addrs_not_transitive :
  let addr ip permanent := mkAddressMessage 1 (Some Inet) 24 permanent false false [IfaLocal (V4 ip)] in
  let lo := addr (IP4_from_octets 127 0 0 1) true in
  let global := addr (IP4_from_octets 10 0 0 1) false in
  let ll := addr (IP4_from_octets 169 254 0 1) true in
  compare_addrs lo global = Lt /\ compare_addrs global ll = Lt /\ compare_addrs lo ll = Eq.
Proof. by vm_compute. Qed.

(** ** The address of a link *)

Definition family_of (ip : IpAddr) : AddressFamily := match ip with V4 _ => Inet | V6 _ => Inet6 end.
Definition max_prefix (ip : IpAddr) : Z := match ip with V4 _ => 32 | V6 _ => 128 end.

(** Whether the kernel answers [EEXIST]: for IPv4 an address with the same
    prefix length, for IPv6 the address alone. *)
Definition address_taken (ip : IpAddr) (prefix_len : Z) (a : AddressMessage) : bool :=
  bool_decide (addr_ip a = Some ip)
  && match ip with V4 _ => am_prefix_len a =? prefix_len | V6 _ => true end.

Definition is_primary (a : AddressMessage) : bool := negb (am_secondary a).

(** What rtnetlink documents of a kernel that lets the process change its
    addresses and routes, [nl_admin].  A deletion also takes the secondary addresses of a primary
    one, so that its law asks for a link without any; the kernel decides where
    a new address is listed. *)
Class NlLaws (K : Type) `{NlKernel K} := {
  nl_admin : K -> Prop;
  nl_addrs_nodup : forall k idx l, nl_admin k -> nl_addrs k idx = (l, None) -> NoDup l;
  nl_addrs_family : forall k idx l a ip,
    nl_admin k -> nl_addrs k idx = (l, None) -> a ∈ l -> addr_ip a = Some ip -> am_family a = Some (family_of ip);
  nl_del_effect : forall k idx l a,
    nl_admin k -> nl_addrs k idx = (l, None) -> a ∈ l -> forallb is_primary l = true ->
    exists k', nl_addr_del a k = (k', Ok tt) /\ nl_admin k'
      /\ nl_addrs k' idx = (List.filter (fun b => bool_decide (b <> a)) l, None)
      /\ (forall j, nl_link_by_index k' j = nl_link_by_index k j);
  nl_add_effect : forall k idx l ip plen,
    nl_admin k -> nl_addrs k idx = (l, None) -> is_ok (name_of k idx) = true ->
    existsb (address_taken ip plen) l = false -> 0 <= plen <= max_prefix ip ->
    exists k' m l', nl_addr_add idx ip plen k = (k', Ok tt) /\ nl_admin k'
      /\ nl_addrs k' idx = (l', None) /\ Permutation l' (m :: l)
      /\ addr_ip m = Some ip /\ am_prefix_len m = plen /\ am_family m = Some (family_of ip)
      /\ (forall j, nl_link_by_index k' j = nl_link_by_index k j);
  nl_route_effect : forall k k' r rs,
    nl_admin k -> nl_routes k = (rs, None) -> 0 < nr_prefix_len r -> nl_route_add r k = (k', Ok tt) ->
    exists rs' r', nl_routes k' = (rs', None) /\ In r' rs' /\ nr_family r' = nr_family r
      /\ nr_prefix_len r' = nr_prefix_len r /\ nr_kind r' = nr_kind r /\ route_dst r' = route_dst r;
}.

Section EnsureAddress.
Context `{NlLaws K}.

(** A run of deletions: from a link that lists [l], the addresses of [dead]
    disappear one after the other. *)
Fixpoint del_all (dead : list AddressMessage) : io K string unit :=
  match dead with
  | [] => io_ret tt
  | a :: dead => let! _ := nl_addr_del a in del_all dead
  end.

Definition survivors (dead l : list AddressMessage) : list AddressMessage :=
  List.filter (fun b => bool_decide (b ∉ dead)) l.

Lemma del_all_effect dead k idx l :
  nl_admin k -> nl_addrs k idx = (l, None) -> NoDup dead -> (forall a, a ∈ dead -> a ∈ l) ->
  forallb is_primary l = true ->
  exists k', del_all dead k = (k', Ok tt) /\ nl_admin k' /\ nl_addrs k' idx = (survivors dead l, None)
    /\ (forall j, nl_link_by_index k' j = nl_link_by_index k j).
Proof.
  revert k l. induction dead as [|a dead IH]; intros k l Hadm Hl Hnd Hsub Hprim.
  - exists k. rewrite Hl. unfold survivors. split_and!; try done. f_equal. symmetry.
    clear. induction l as [|b l IH]; [done|]. cbn. rewrite bool_decide_true by apply not_elem_of_nil. by rewrite IH.
  - apply list.NoDup_cons in Hnd as [Ha Hnd].
    destruct (nl_del_effect k idx l a Hadm Hl (Hsub a ltac:(apply elem_of_cons; by left)) Hprim)
      as (k1 & Hd & Hadm1 & Hl1 & Hlk1).
    destruct (IH k1 _ Hadm1 Hl1 Hnd) as (k2 & Hr & Hadm2 & Hl2 & Hlk2).
    + intros b Hb. apply list_elem_of_In, filter_In. rewrite <- list_elem_of_In. split.
      * apply Hsub, elem_of_cons. by right.
      * apply bool_decide_eq_true_2. intros ->. done.
    + apply forallb_forall. intros b Hb. apply filter_In in Hb as [Hb _].
      rewrite forallb_forall in Hprim. by apply Hprim.
    + exists k2. cbn [del_all]. unfold io_bind. rewrite Hd, Hr. split_and!; try done.
      * rewrite Hl2. f_equal. unfold survivors. clear. induction l as [|b l IH]; [done|]. cbn.
        destruct (decide (b = a)) as [->|Hne].
        -- rewrite (bool_decide_false (a <> a)) by tauto.
           rewrite (bool_decide_false (a ∉ a :: dead)) by (intros Hn; apply Hn, elem_of_cons; by left). done.
        -- rewrite (bool_decide_true (b <> a)) by done. cbn. rewrite IH.
           rewrite (bool_decide_ext (b ∉ dead) (b ∉ a :: dead)) by (rewrite elem_of_cons; tauto). done.
      * intros j. by rewrite Hlk2, Hlk1.
Qed.

Lemma v4_loop_deletes name ip plen ipn has ex (k k' : K) :
  del_all (List.filter (is_stray ip plen ipn) ex) k = (k', Ok tt) ->
  v4_loop name ip plen ipn has ex k = (k', Ok (has || existsb (is_wanted ip plen) ex)).
Proof.
  revert has k. induction ex as [|a ex IH]; intros has k Hd.
  - cbn in Hd |- *. injection Hd as <-. by rewrite orb_false_r.
  - cbn [v4_loop List.filter existsb] in *. destruct (is_wanted ip plen a) eqn:Hw.
    + assert (is_stray ip plen ipn a = false) as Hs
        by (unfold is_stray; rewrite Hw; by destruct (addr_ip a) as [[]|]).
      rewrite Hs in Hd. rewrite (IH true k Hd). by rewrite orb_true_r.
    + destruct (is_stray ip plen ipn a); [|by rewrite (IH has k Hd)].
      cbn [del_all] in Hd. unfold io_bind in Hd. unfold io_bind, io_map_err.
      destruct (nl_addr_del a k) as [k1 [[]|]]; [|done]. cbn. by rewrite (IH has k1 Hd).
Qed.

(** The addresses of the link that [ensure_v4_address_on_link] removes *)
Definition stray_on (ipa ipn : IP4Net) (a : AddressMessage) : bool :=
  bool_decide (am_family a = Some Inet) && is_stray (V4 (ip4n_ip ipa)) (wrap 8 (ip4n_plen ipa)) ipn a.

Definition wanted_on (ipa : IP4Net) (a : AddressMessage) : bool :=
  bool_decide (am_family a = Some Inet) && is_wanted (V4 (ip4n_ip ipa)) (wrap 8 (ip4n_plen ipa)) a.

Lemma filter_filter_bool {A} (p q : A -> bool) l :
  List.filter p (List.filter q l) = List.filter (fun a => q a && p a) l.
Proof. induction l as [|a l IH]; [done|]. cbn. destruct (q a); cbn; by rewrite IH. Qed.

Lemma existsb_filter_bool {A} (p q : A -> bool) l :
  existsb p (List.filter q l) = existsb (fun a => q a && p a) l.
Proof. induction l as [|a l IH]; [done|]. cbn. destruct (q a); cbn; by rewrite IH. Qed.

Lemma survivors_filter (p : AddressMessage -> bool) l :
  survivors (List.filter p l) l = List.filter (fun a => negb (p a)) l.
Proof.
  apply List.filter_ext_in. intros a Ha. case_bool_decide as Hb; destruct (p a) eqn:Hp; try done.
  - destruct Hb. apply list_elem_of_In, filter_In. done.
  - apply list_elem_of_In, filter_In in Hb as [_ Hb]. congruence.
Qed.

Lemma nodup_filter_bool {A} (p : A -> bool) (l : list A) : NoDup l -> NoDup (List.filter p l).
Proof. rewrite !NoDup_ListNoDup. apply List.NoDup_filter. Qed.

(** The removals of [ensure_v4_address_on_link], before the addition. *)
Lemma ensure_v4_removals ipa ipn idx (k : K) l name :
  nl_admin k -> nl_addrs k idx = (l, None) -> forallb is_primary l = true -> name_of k idx = Ok name ->
  exists k', nl_admin k' /\ nl_addrs k' idx = (List.filter (fun a => negb (stray_on ipa ipn a)) l, None)
    /\ name_of k' idx = Ok name
    /\ ensure_v4_address_on_link ipa ipn idx k
       = (if negb (existsb (wanted_on ipa) l) then
            io_map_err (fun e => "failed to add IP address " +:+ IP4Net_fmt ipa +:+ " to " +:+ name +:+ ": " +:+ e)
              (nl_addr_add idx (V4 (ip4n_ip ipa)) (wrap 8 (ip4n_plen ipa)))
          else io_ret tt) k'.
Proof.
  intros Hadm Hl Hprim Hname. pose proof (nl_addrs_nodup k idx l Hadm Hl) as Hnd.
  destruct (del_all_effect (List.filter (stray_on ipa ipn) l) k idx l Hadm Hl
              (nodup_filter_bool _ _ Hnd)) as (k' & Hd & Hadm' & Hl' & Hlk); [|done|].
  { intros a Ha. apply list_elem_of_In, filter_In in Ha as [Ha _]. by apply list_elem_of_In. }
  exists k'. split_and!; [done|by rewrite Hl', survivors_filter| |].
  { unfold name_of in *. by rewrite Hlk. }
  unfold ensure_v4_address_on_link, io_bind, io_get, io_lift, iface_v4_addrs, collect.
  rewrite Hname, Hl. cbn [snd fst].
  rewrite (v4_loop_deletes _ _ _ _ _ _ k k') by (by rewrite filter_filter_bool).
  by rewrite existsb_filter_bool.
Qed.

Lemma survivor_wanted ipa ipn l :
  existsb (wanted_on ipa) (List.filter (fun a => negb (stray_on ipa ipn a)) l) = existsb (wanted_on ipa) l.
Proof.
  rewrite existsb_filter_bool. induction l as [|a l IH]; [done|]. cbn. rewrite IH. f_equal.
  unfold wanted_on, stray_on, is_stray. case_bool_decide; [|by rewrite andb_false_r]. cbn.
  destruct (is_wanted _ _ a); [|by rewrite andb_false_r].
  by destruct (addr_ip a) as [[]|].
Qed.

Lemma existsb_false_iff {A} (p : A -> bool) l : existsb p l = false <-> forall a, In a l -> p a = false.
Proof.
  split.
  - intros Hp a Ha. destruct (p a) eqn:E; [|done]. rewrite <- Hp. symmetry. apply existsb_exists. eauto.
  - intros Hp. destruct (existsb p l) eqn:E; [|done]. apply existsb_exists in E as (a & Ha & Hpa).
    by rewrite (Hp a Ha) in Hpa.
Qed.

Lemma wanted_not_taken ipa (k : K) idx l :
  nl_admin k -> nl_addrs k idx = (l, None) -> existsb (wanted_on ipa) l = false ->
  existsb (address_taken (V4 (ip4n_ip ipa)) (wrap 8 (ip4n_plen ipa))) l = false.
Proof.
  intros Hadm Hl Hw. rewrite existsb_false_iff in *. intros a Ha. specialize (Hw a Ha).
  unfold address_taken. unfold wanted_on, is_wanted in Hw.
  destruct (decide (addr_ip a = Some (V4 (ip4n_ip ipa)))) as [Hip|Hip]; [|by rewrite bool_decide_false].
  assert (am_family a = Some Inet) as Hfam.
  { apply (nl_addrs_family k idx l a (V4 (ip4n_ip ipa)) Hadm Hl); [by apply list_elem_of_In|done]. }
  rewrite !bool_decide_true in Hw by done. by rewrite bool_decide_true.
Qed.

Lemma existsb_perm {A} (p : A -> bool) l l' : Permutation l l' -> existsb p l = existsb p l'.
Proof.
  intros Hp. apply eq_true_iff_eq. rewrite !existsb_exists.
  split; intros (a & Ha & Hpa); exists a; split; try done; [|symmetry in Hp]; by apply (Permutation_in _ Hp).
Qed.

Lemma ensure_v4_settled ipa ipn idx (k : K) l name :
  nl_addrs k idx = (l, None) -> name_of k idx = Ok name ->
  existsb (wanted_on ipa) l = true -> existsb (stray_on ipa ipn) l = false ->
  ensure_v4_address_on_link ipa ipn idx k = (k, Ok tt).
Proof.
  intros Hl Hn Hw Hs. unfold ensure_v4_address_on_link, io_bind, io_get, io_lift, iface_v4_addrs, collect.
  rewrite Hn, Hl. cbn [snd fst]. rewrite (v4_loop_deletes _ _ _ _ _ _ k k).
  - rewrite existsb_filter_bool. unfold wanted_on in Hw. by rewrite Hw.
  - rewrite filter_filter_bool. replace (List.filter _ l) with (@nil AddressMessage); [done|]. symmetry.
    rewrite existsb_false_iff in Hs. unfold stray_on in Hs. clear -Hs.
    induction l as [|a l IH]; [done|]. cbn [List.filter]. rewrite (Hs a) by (by left).
    apply IH. intros b Hb. apply Hs. by right.
Qed.

Lemma ensure_v4_effect ipa ipn idx (k : K) l :
  nl_admin k -> nl_addrs k idx = (l, None) -> forallb is_primary l = true ->
  is_ok (name_of k idx) = true -> IP4Net_valid ipa ->
  exists k' l' added,
    ensure_v4_address_on_link ipa ipn idx k = (k', Ok tt) /\ nl_admin k'
    /\ nl_addrs k' idx = (l', None)
    /\ Permutation l' (added ++ List.filter (fun a => negb (stray_on ipa ipn a)) l)
    /\ Forall (fun a => wanted_on ipa a = true) added
    /\ length added = (if existsb (wanted_on ipa) l then 0 else 1)%nat
    /\ existsb (wanted_on ipa) l' = true /\ existsb (stray_on ipa ipn) l' = false
    /\ ensure_v4_address_on_link ipa ipn idx k' = (k', Ok tt).
Proof.
  intros Hadm Hl Hprim Hname Hv. destruct (name_of k idx) as [name|] eqn:Hn; [|done]. clear Hname.
  destruct (ensure_v4_removals ipa ipn idx k l name Hadm Hl Hprim Hn) as (k1 & Hadm1 & Hl1 & Hn1 & ->).
  set (kept := List.filter _ l) in *.
  assert (existsb (wanted_on ipa) kept = existsb (wanted_on ipa) l) as Hkw by apply survivor_wanted.
  assert (existsb (stray_on ipa ipn) kept = false) as Hks.
  { unfold kept. rewrite existsb_filter_bool. apply existsb_false_iff. intros a _. by destruct (stray_on ipa ipn a). }
  destruct (existsb (wanted_on ipa) l) eqn:Hw; cbn [negb].
  - exists k1, kept, []. split_and!; try done.
    by apply (ensure_v4_settled ipa ipn idx k1 kept name).
  - destruct (nl_add_effect k1 idx kept (V4 (ip4n_ip ipa)) (wrap 8 (ip4n_plen ipa)))
      as (k2 & m & l2 & Ha & Hadm2 & Hl2 & Hperm & Hip & Hpl & Hfam & Hlk); try done.
    { by rewrite Hn1. }
    { by apply (wanted_not_taken ipa k1 idx). }
    { destruct Hv as [_ Hv]. cbn [max_prefix]. rewrite wrap_small; [done|]. split; [lia|]. cbn. lia. }
    assert (wanted_on ipa m = true) as Hm.
    { unfold wanted_on, is_wanted. by rewrite Hip, Hpl, Hfam, !bool_decide_true, Z.eqb_refl. }
    assert (existsb (wanted_on ipa) l2 = true) as Hw2.
    { rewrite (existsb_perm _ _ _ Hperm). cbn. by rewrite Hm. }
    assert (existsb (stray_on ipa ipn) l2 = false) as Hs2.
    { rewrite (existsb_perm _ _ _ Hperm). cbn [existsb]. rewrite Hks, orb_false_r.
      unfold stray_on, is_stray. unfold wanted_on in Hm. apply andb_true_iff in Hm as [_ Hm].
      rewrite Hip, Hm. by rewrite andb_false_r. }
    exists k2, l2, [m]. unfold io_map_err. rewrite Ha. split_and!; try done; [by repeat constructor|].
    apply (ensure_v4_settled ipa ipn idx k2 l2 name); try done.
    unfold name_of in *. by rewrite Hlk.
Qed.

(** C26: on a link that exists and lists primary addresses only, with a
    kernel that lets the process change addresses ([nl_admin]) and a valid
    wanted address, [ensure_v4_address_on_link] succeeds, keeps the addresses
    of the link other than the stray ones of the network, and leaves the
    wanted address there, added only if it was missing: afterwards each IPv4
    address of the link inside the network is the wanted one, and a second call
    changes nothing.  That all addresses are primary is needed: the kernel
    deletes the secondary addresses of a primary one together with it, and if
    the wanted address is among them it is lost
    ([ensure_v4_loses_secondary]). *)
Theorem ensure_v4_leaves_one ipa ipn idx (k : K) l :
  nl_admin k -> nl_addrs k idx = (l, None) -> forallb is_primary l = true ->
  is_ok (name_of k idx) = true -> IP4Net_valid ipa ->
  exists k' l' added,
    ensure_v4_address_on_link ipa ipn idx k = (k', Ok tt)
    /\ nl_addrs k' idx = (l', None)
    /\ Permutation l' (added ++ List.filter (fun a => negb (stray_on ipa ipn a)) l)
    /\ Forall (fun a => wanted_on ipa a = true) added
    /\ length added = (if existsb (wanted_on ipa) l then 0 else 1)%nat
    /\ existsb (wanted_on ipa) l' = true /\ existsb (stray_on ipa ipn) l' = false
    /\ ensure_v4_address_on_link ipa ipn idx k' = (k', Ok tt).
Proof.
  intros Hadm Hl Hprim Hname Hv.
  destruct (ensure_v4_effect ipa ipn idx k l Hadm Hl Hprim Hname Hv) as (k' & l' & added & He & _ & Hrest). by exists k', l', added.
Qed.

(** The addresses the loop of [ensure_v6_address_on_link] removes, and whether
    it meets the wanted one. *)
Fixpoint v6_dead (ip : IpAddr) (plen : Z) (ex : list AddressMessage) : list AddressMessage * bool :=
  match ex with
  | [] => ([], false)
  | a :: ex =>
      match addr_ip a with
      | None => v6_dead ip plen ex
      | Some eip =>
          if is_link_local_unicast eip then v6_dead ip plen ex
          else if is_wanted ip plen a then ([], true)
          else let '(dead, met) := v6_dead ip plen ex in (a :: dead, met)
      end
  end.

Lemma v6_loop_deletes name ip plen ipn cleared only ex (k k' : K) :
  del_all (v6_dead ip plen ex).1 k = (k', Ok tt) ->
  v6_loop name ip plen ipn cleared only ex k
  = (k', Ok (if (v6_dead ip plen ex).2 then None
             else Some (cleared || negb (bool_decide ((v6_dead ip plen ex).1 = [])),
                        only && bool_decide ((v6_dead ip plen ex).1 = [])))).
Proof.
  revert cleared only k. induction ex as [|a ex IH]; intros cleared only k Hd.
  - cbn in Hd |- *. injection Hd as <-. by rewrite orb_false_r, andb_true_r.
  - cbn [v6_loop v6_dead] in *. destruct (addr_ip a) as [eip|]; [|by apply IH].
    destruct (is_link_local_unicast eip); [by apply IH|].
    destruct (is_wanted ip plen a); [cbn in Hd |- *; by injection Hd as <-|].
    destruct (v6_dead ip plen ex) as [dead met] eqn:He. cbn [fst snd del_all] in *.
    unfold io_bind in Hd. unfold io_bind, io_map_err. destruct (nl_addr_del a k) as [k1 [[]|]]; [|done].
    rewrite (IH true false k1 Hd). cbn. by rewrite orb_true_r, andb_false_r.
Qed.

Lemma v6_dead_sublist ip plen ex : sublist (v6_dead ip plen ex).1 ex.
Proof.
  induction ex as [|a ex IH]; [done|]. cbn [v6_dead].
  destruct (addr_ip a) as [eip|]; [|by apply sublist_cons].
  destruct (is_link_local_unicast eip); [by apply sublist_cons|].
  destruct (is_wanted ip plen a); [apply sublist_nil_l|].
  destruct (v6_dead ip plen ex). by apply sublist_skip.
Qed.

(** Without the wanted address, everything but link-local is removed. *)
Lemma v6_dead_all ip plen ex a eip :
  (v6_dead ip plen ex).2 = false -> a ∈ ex -> addr_ip a = Some eip -> is_link_local_unicast eip = false ->
  a ∈ (v6_dead ip plen ex).1.
Proof.
  intros Hm Ha Hip Hll. induction ex as [|b ex IH]; [by apply elem_of_nil in Ha|].
  cbn [v6_dead] in *. apply elem_of_cons in Ha as [<-|Ha].
  - rewrite Hip, Hll in *. destruct (is_wanted ip plen a); [done|].
    destruct (v6_dead ip plen ex). apply elem_of_cons. by left.
  - destruct (addr_ip b) as [x|]; [|by apply IH]. destruct (is_link_local_unicast x); [by apply IH|].
    destruct (is_wanted ip plen b); [done|]. destruct (v6_dead ip plen ex). cbn in *.
    apply elem_of_cons. right. by apply IH.
Qed.

Lemma v6_dead_met ip plen ex :
  (v6_dead ip plen ex).2 = true -> exists a, a ∈ ex /\ is_wanted ip plen a = true /\ a ∉ (v6_dead ip plen ex).1.
Proof.
  induction ex as [|b ex IH]; [done|]. cbn [v6_dead]. intros Hm.
  assert (forall p : list AddressMessage * bool, p.2 = true -> p = v6_dead ip plen ex ->
            exists a, a ∈ b :: ex /\ is_wanted ip plen a = true /\ a ∉ p.1) as Hrec.
  { intros p Hp ->. destruct (IH Hp) as (a & ? & ? & ?). exists a. split_and!; try done. apply elem_of_cons. by right. }
  destruct (addr_ip b) as [x|]; [|by apply Hrec]. destruct (is_link_local_unicast x); [by apply Hrec|].
  destruct (is_wanted ip plen b) eqn:Hb.
  - exists b. split_and!; [apply elem_of_cons; by left|done|apply not_elem_of_nil].
  - destruct (v6_dead ip plen ex) as [dead met]. cbn in *.
    destruct (Hrec (dead, met) Hm eq_refl) as (a & Ha & Hw & Hn). exists a. split_and!; try done.
    rewrite elem_of_cons. intros [->|?]; [congruence|done].
Qed.

Definition v6_of (l : list AddressMessage) : list AddressMessage :=
  List.filter (fun a => bool_decide (am_family a = Some Inet6)) l.

Definition wanted6_on (ipa : IP6Net) (a : AddressMessage) : bool :=
  bool_decide (am_family a = Some Inet6) && is_wanted (V6 (ip6n_ip ipa)) (wrap 8 (ip6n_plen ipa)) a.

Definition dead6 (ipa : IP6Net) (l : list AddressMessage) : list AddressMessage :=
  (v6_dead (V6 (ip6n_ip ipa)) (wrap 8 (ip6n_plen ipa)) (v6_of l)).1.
Definition met6 (ipa : IP6Net) (l : list AddressMessage) : bool :=
  (v6_dead (V6 (ip6n_ip ipa)) (wrap 8 (ip6n_plen ipa)) (v6_of l)).2.

Lemma dead6_sub ipa l : NoDup l -> NoDup (dead6 ipa l) /\ forall a, a ∈ dead6 ipa l -> a ∈ l.
Proof.
  intros Hnd. pose proof (v6_dead_sublist (V6 (ip6n_ip ipa)) (wrap 8 (ip6n_plen ipa)) (v6_of l)) as Hs.
  fold (dead6 ipa l) in Hs. split.
  - eapply sublist_NoDup; [|exact Hs]. by apply nodup_filter_bool.
  - intros a Ha. pose proof (elem_of_sublist _ _ _ Ha Hs) as Hin.
    apply list_elem_of_In, filter_In in Hin as [Hin _]. by apply list_elem_of_In.
Qed.

(** Once the others are gone the wanted address is free. *)
Lemma wanted6_not_taken ipa (k : K) idx l :
  nl_admin k -> nl_addrs k idx = (l, None) -> met6 ipa l = false ->
  is_link_local_unicast (V6 (ip6n_ip ipa)) = false ->
  existsb (address_taken (V6 (ip6n_ip ipa)) (wrap 8 (ip6n_plen ipa))) (survivors (dead6 ipa l) l) = false.
Proof.
  intros Hadm Hl Hm Hll. apply existsb_false_iff. intros a Ha. apply filter_In in Ha as [Ha Hn].
  apply bool_decide_eq_true_1 in Hn. unfold address_taken. rewrite andb_true_r.
  apply bool_decide_eq_false_2. intros Hip. apply Hn. eapply v6_dead_all; [done| |done|done].
  apply list_elem_of_In, filter_In. split; [done|]. apply bool_decide_eq_true_2.
  apply (nl_addrs_family k idx l a (V6 (ip6n_ip ipa)) Hadm Hl); [by apply list_elem_of_In|done].
Qed.

(** [ensure_v6_address_on_link] succeeds and leaves the wanted address on the
    link.  It removes the other addresses, link-local ones excepted, that are
    listed before the wanted one; if there is no wanted one it removes them
    all and adds it. *)
Theorem ensure_v6_outcome ipa ipn idx (k : K) l :
  nl_admin k -> nl_addrs k idx = (l, None) -> forallb is_primary l = true ->
  is_ok (name_of k idx) = true -> IP6Net_valid ipa -> is_link_local_unicast (V6 (ip6n_ip ipa)) = false ->
  exists k' l' added,
    ensure_v6_address_on_link ipa ipn idx k = (k', Ok tt)
    /\ nl_addrs k' idx = (l', None)
    /\ Permutation l' (added ++ survivors (dead6 ipa l) l)
    /\ Forall (fun a => wanted6_on ipa a = true) added
    /\ length added = (if met6 ipa l then 0 else 1)%nat
    /\ existsb (wanted6_on ipa) l' = true.
Proof.
  intros Hadm Hl Hprim Hname Hv Hll. destruct (name_of k idx) as [name|] eqn:Hn; [|done]. clear Hname.
  destruct (dead6_sub ipa l (nl_addrs_nodup k idx l Hadm Hl)) as [Hnd Hsub].
  destruct (del_all_effect (dead6 ipa l) k idx l Hadm Hl Hnd Hsub Hprim) as (k1 & Hd & Hadm1 & Hl1 & Hlk1).
  unfold ensure_v6_address_on_link, io_bind, io_get, io_lift, iface_v6_addrs, collect.
  rewrite Hn, Hl. cbn [snd fst]. fold (v6_of l).
  rewrite (v6_loop_deletes _ _ _ _ _ _ _ k k1 Hd). fold (dead6 ipa l) (met6 ipa l).
  destruct (met6 ipa l) eqn:Hm.
  - exists k1, (survivors (dead6 ipa l) l), []. split_and!; try done.
    destruct (v6_dead_met _ _ _ Hm) as (a & Ha & Hw & Hna). apply existsb_exists. exists a.
    apply list_elem_of_In, filter_In in Ha as [Ha Hfam]. split.
    + apply filter_In. split; [done|]. by apply bool_decide_eq_true_2.
    + unfold wanted6_on. by rewrite Hfam, Hw.
  - replace (if true && bool_decide (dead6 ipa l = []) then true else _) with true
      by (by destruct (bool_decide (dead6 ipa l = []))).
    destruct (nl_add_effect k1 idx (survivors (dead6 ipa l) l) (V6 (ip6n_ip ipa)) (wrap 8 (ip6n_plen ipa)))
      as (k2 & m & l2 & Ha & Hadm2 & Hl2 & Hperm & Hip & Hpl & Hfam & _); try done.
    { unfold name_of in *. by rewrite Hlk1, Hn. }
    { by apply (wanted6_not_taken ipa k idx). }
    { destruct Hv as [_ Hv]. cbn [max_prefix]. rewrite wrap_small; [done|]. split; [lia|]. cbn. lia. }
    assert (wanted6_on ipa m = true) as Hw.
    { unfold wanted6_on, is_wanted. by rewrite Hip, Hpl, Hfam, !bool_decide_true, Z.eqb_refl. }
    exists k2, l2, [m]. unfold io_map_err. rewrite Ha. split_and!; try done; [by repeat constructor|].
    rewrite (existsb_perm _ _ _ Hperm). cbn. by rewrite Hw.
Qed.

(** A successful [add_blackhole_v4_route] leaves a blackhole route for the
    network, and the next one has nothing to add. *)
Theorem add_blackhole_v4_route_settles dst (k k' : K) :
  nl_admin k -> IP4Net_valid dst -> 0 < ip4n_plen dst ->
  (nl_routes k).2 = None -> add_blackhole_v4_route dst k = (k', Ok tt) ->
  has_blackhole_route k' Inet (V4 (ip4n_ip dst)) (ip4n_plen dst) = Ok true
  /\ add_blackhole_v4_route dst k' = (k', Ok tt).
Proof.
  intros Hadm [_ Hv] Hp Hr Hadd.
  assert (wrap 8 (ip4n_plen dst) = ip4n_plen dst) as Hw by (apply wrap_small; split; [lia|cbn; lia]).
  cut (has_blackhole_route k' Inet (V4 (ip4n_ip dst)) (ip4n_plen dst) = Ok true).
  { intros Hh. split; [done|]. unfold add_blackhole_v4_route, io_bind, io_get, io_lift. by rewrite Hw, Hh. }
  unfold add_blackhole_v4_route, io_bind, io_get, io_lift in Hadd. rewrite Hw in Hadd.
  unfold has_blackhole_route in *. destruct (any_in _ (nl_routes k)) as [[]|] eqn:Ha; cbn in Hadd; [|clear Ha|done].
  { by injection Hadd as <-. }
  destruct (nl_routes k) as [rs err] eqn:Hrs. cbn in Hr. subst err.
  edestruct (fun Hp => nl_route_effect k k' _ rs Hadm Hrs Hp Hadd)
    as (rs' & r' & Hrs' & Hin & Hf & Hpl & Hk & Hdst); [exact Hp|].
  unfold any_in. rewrite Hrs'. cbn [fst snd].
  replace (existsb _ rs') with true; [done|]. symmetry. apply existsb_exists. exists r'. split; [done|].
  unfold is_blackhole. rewrite Hf, Hpl, Hk, Hdst. cbn. by rewrite Z.eqb_refl, !bool_decide_true.
Qed.
End EnsureAddress.

(** ** A kernel of tables, for the witnesses *)

Record NlTable := mkNlTable {
  nt_links : list LinkMessage;
  nt_addrs : list AddressMessage;
  nt_routes : list NlRoute;
}.

Definition addrs_of (idx : Z) (l : list AddressMessage) : list AddressMessage :=
  List.filter (fun a => am_index a =? idx) l.

#[global] Instance NlTable_kernel : NlKernel NlTable := {
  nl_links t := (nt_links t, None);
  nl_link_by_index t i := (List.filter (fun m => lm_index m =? i) (nt_links t), None);
  nl_link_by_name t n := (List.filter (fun m => String.eqb (link_name m) n) (nt_links t), None);
  nl_addrs t i := (addrs_of i (nt_addrs t), None);
  nl_routes t := (nt_routes t, None);
  nl_route_get t r := (List.filter (fun x => bool_decide (nr_family x = nr_family r)) (nt_routes t), None);
  nl_addr_add i ip plen t :=
    if existsb (address_taken ip plen) (addrs_of i (nt_addrs t)) then (t, Err "File exists")
    else (mkNlTable (nt_links t)
            (nt_addrs t ++ [mkAddressMessage i (Some (family_of ip)) plen true false false [IfaLocal ip]])
            (nt_routes t), Ok tt);
  nl_addr_del a t :=
    (mkNlTable (nt_links t) (List.filter (fun b => bool_decide (b <> a)) (nt_addrs t)) (nt_routes t), Ok tt);
  nl_route_add r t := (mkNlTable (nt_links t) (nt_addrs t) (nt_routes t ++ [r]), Ok tt);
}.

Definition table_sane (t : NlTable) : Prop :=
  NoDup (nt_addrs t)
  /\ Forall (fun a => forall ip, addr_ip a = Some ip -> am_family a = Some (family_of ip)) (nt_addrs t).

#[global] Program Instance NlTable_laws : NlLaws NlTable := { nl_admin := table_sane }.
Next Obligation. intros k idx l [Hn _] [= <-]. by apply nodup_filter_bool. Qed.
Next Obligation.
  intros k idx l a ip [_ Hf] [= <-] Ha Hip. apply list_elem_of_In, filter_In in Ha as [Ha _].
  rewrite List.Forall_forall in Hf. by apply Hf.
Qed.
Next Obligation.
  intros k idx l a [Hn Hf] [= <-] Ha _. eexists. split; [done|]. split_and!; try done.
  - split; cbn; [by apply nodup_filter_bool|]. rewrite List.Forall_forall in *. intros b Hb.
    apply filter_In in Hb as [Hb _]. by apply Hf.
  - unfold nl_addrs, NlTable_kernel, addrs_of. cbn [nt_addrs]. f_equal. rewrite !filter_filter_bool.
    apply List.filter_ext. intros b. apply andb_comm.
Qed.
Next Obligation.
  intros k idx l ip plen [Hn Hf] [= <-] _ Ht Hp. unfold nl_addr_add, NlTable_kernel. rewrite Ht.
  eexists _, (mkAddressMessage idx (Some (family_of ip)) plen true false false [IfaLocal ip]), _.
  split; [done|]. split; [|split; [done|]].
  - split; cbn.
    + apply list.NoDup_app. split_and!; [done| |apply NoDup_singleton].
      intros a Ha ->%list_elem_of_singleton. rewrite existsb_false_iff in Ht.
      assert (address_taken ip plen (mkAddressMessage idx (Some (family_of ip)) plen true false false [IfaLocal ip]) = true) as Hx.
      { unfold address_taken. rewrite bool_decide_true by done. cbn. destruct ip; [apply Z.eqb_refl|done]. }
      rewrite Ht in Hx; [done|]. apply filter_In. split; [by apply list_elem_of_In|apply Z.eqb_refl].
    + apply Forall_app. split; [done|]. repeat constructor. cbn. by intros ? [= <-].
  - unfold addrs_of. cbn [nt_addrs]. rewrite List.filter_app. cbn. rewrite Z.eqb_refl.
    split_and!; try done. symmetry. apply Permutation_cons_append.
Qed.
Next Obligation.
  intros k k' r rs _ [= <-] Hp [= <-]. eexists _, r. split; [done|]. split; [|done].
  cbn. apply in_app_iff. right. by left.
Qed.

#[local] Abbreviation addr i fam plen ip := (mkAddressMessage i (Some fam) plen true false false [IfaLocal ip]).

(** A device with an old address of the network 10.244.0.0/16 and one
    outside it, and a host interface. *)
Definition nl_host : NlTable :=
  mkNlTable [mkLinkMessage 2 [IfName "eth0"; Mtu 1500]; mkLinkMessage 7 [IflaOther; IfName "flannel.1"; Mtu 1450]]
    [addr 2 Inet 24 (V4 (IP4_from_octets 192 168 0 7));
     addr 7 Inet 32 (V4 (IP4_from_octets 10 244 9 0));
     addr 7 Inet 24 (V4 (IP4_from_octets 10 9 0 1))]
    [mkNlRoute (Some Inet) 0 Unicast [Gateway (RtInet (IP4_from_octets 192 168 0 1)); Oif 2]].

Definition own_addr : IP4Net := mkIP4Net (IP4_from_octets 10 244 3 0) 32.
Definition own_net : IP4Net := mkIP4Net (IP4_from_octets 10 244 0 0) 16.

Lemma nl_host_sane : table_sane nl_host.
Proof.
  split; [apply (bool_decide_unpack _); by vm_compute|].
  repeat (constructor; [cbn; by intros ip [= <-]|]). constructor.
Qed.

Lemma ensure_v4_leaves_one_witness :
  exists k' l' added,
    ensure_v4_address_on_link own_addr own_net 7 nl_host = (k', Ok tt)
    /\ nl_addrs k' 7 = (l', None)
    /\ Permutation l' (added ++ List.filter (fun a => negb (stray_on own_addr own_net a)) (nl_addrs nl_host 7).1)
    /\ Forall (fun a => wanted_on own_addr a = true) added
    /\ length added = (if existsb (wanted_on own_addr) (nl_addrs nl_host 7).1 then 0 else 1)%nat
    /\ existsb (wanted_on own_addr) l' = true /\ existsb (stray_on own_addr own_net) l' = false
    /\ ensure_v4_address_on_link own_addr own_net 7 k' = (k', Ok tt).
Proof.
  apply (ensure_v4_leaves_one own_addr own_net 7 nl_host (nl_addrs nl_host 7).1);
    [exact nl_host_sane|reflexivity|by vm_compute|by vm_compute|by vm_compute].
Defined.

(** Evaluated: the old address goes, the one outside the network stays. *)
Example ensure_v4_example :
  map addr_ip (nl_addrs (ensure_v4_address_on_link own_addr own_net 7 nl_host).1 7).1
  = [Some (V4 (IP4_from_octets 10 9 0 1)); Some (V4 (IP4_from_octets 10 244 3 0))].
Proof. by vm_compute. Qed.

(** The same tables with the secondary addresses as Linux has them: the
    deletion of a primary IPv4 address takes along the secondary ones of its
    subnet. *)
Record SecondaryTable := mkSecondaryTable { st_table : NlTable }.

Definition subnet_mates (a b : AddressMessage) : bool :=
  match addr_ip a, addr_ip b with
  | Some (V4 x), Some (V4 y) =>
      (am_index a =? am_index b) && (am_prefix_len a =? am_prefix_len b)
      && bool_decide (IP4Net_network (mkIP4Net x (am_prefix_len a)) = IP4Net_network (mkIP4Net y (am_prefix_len b)))
  | _, _ => false
  end.

Definition goes_along (a b : AddressMessage) : bool :=
  bool_decide (a = b) || is_primary a && am_secondary b && subnet_mates a b.

Definition on_table {A} (f : io NlTable string A) : io SecondaryTable string A :=
  fun t => let '(t', r) := f (st_table t) in (mkSecondaryTable t', r).

#[global] Instance SecondaryTable_kernel : NlKernel SecondaryTable := {
  nl_links t := nl_links (st_table t);
  nl_link_by_index t := nl_link_by_index (st_table t);
  nl_link_by_name t := nl_link_by_name (st_table t);
  nl_addrs t := nl_addrs (st_table t);
  nl_routes t := nl_routes (st_table t);
  nl_route_get t := nl_route_get (st_table t);
  nl_addr_add i ip plen := on_table (nl_addr_add i ip plen);
  nl_addr_del a := on_table (fun t =>
    (mkNlTable (nt_links t) (List.filter (fun b => negb (goes_along a b)) (nt_addrs t)) (nt_routes t), Ok tt));
  nl_route_add r := on_table (nl_route_add r);
}.

(** A stray primary address with the wanted one as its secondary: the wanted
    address is seen, goes with the stray one, and is not added again; the call
    succeeds and the link has no address of the network.  A second call adds
    it. *)
Theorem ensure_v4_loses_secondary :
  let stray := mkAddressMessage 7 (Some Inet) 24 true false false [IfaLocal (V4 (IP4_from_octets 10 244 3 9))] in
  let wanted := mkAddressMessage 7 (Some Inet) 24 true true false [IfaLocal (V4 (IP4_from_octets 10 244 3 1))] in
  let ipa := mkIP4Net (IP4_from_octets 10 244 3 1) 24 in
  let t := mkSecondaryTable (mkNlTable [mkLinkMessage 7 [IfName "flannel.1"]] [stray; wanted] []) in
  let first := ensure_v4_address_on_link ipa own_net 7 t in
  let second := ensure_v4_address_on_link ipa own_net 7 first.1 in
  wanted_on ipa wanted = true /\ is_ok first.2 = true /\ nt_addrs (st_table first.1) = []
  /\ is_ok second.2 = true /\ length (nt_addrs (st_table second.1)) = 1%nat.
Proof. by vm_compute. Qed.

Lemma iface_addrs_preferred_witness :
  exists addrs,
  result_ok (get_iface_ip4_addrs nl_host (mkNetIface 7 "flannel.1"))
    = (let ips := omap (usable_ip true) (by_pref addrs) in
       if bool_decide (ips = []) then None else Some ips)
  /\ result_ok (get_iface_ip6_addrs nl_host (mkNetIface 7 "flannel.1")) = None.
Proof.
  eexists.
  apply (iface_addrs_preferred nl_host (mkNetIface 7 "flannel.1") (addrs_of 7 (nt_addrs nl_host)) []);
    [reflexivity|reflexivity|by vm_compute].
Defined.

Definition own_addr6 : IP6Net := mkIP6Net (to_be 16 0xfd000000000000000000000000000001) 128.
Definition other_addr6 : IP6 := to_be 16 0xfd000000000000000000000000000002.

(** [ensure_v6_address_on_link] stops at the wanted address: an extra address
    listed after it stays, one listed before it is removed. *)
Theorem ensure_v6_keeps_later_extras :
  let link := [mkLinkMessage 7 [IfName "flannel-v6.1"]] in
  let own := addr 7 Inet6 128 (V6 (ip6n_ip own_addr6)) in
  let other := addr 7 Inet6 64 (V6 other_addr6) in
  nt_addrs (ensure_v6_address_on_link own_addr6 own_addr6 7 (mkNlTable link [own; other] [])).1 = [own; other]
  /\ nt_addrs (ensure_v6_address_on_link own_addr6 own_addr6 7 (mkNlTable link [other; own] [])).1 = [own].
Proof. by vm_compute. Qed.

(** The default route leads to [eth0]. *)
Example default_gateway_example :
  get_default_gateway_interface nl_host
  = Ok (mkNetIface 2 "eth0", Some (V4 (IP4_from_octets 192 168 0 1))).
Proof. by vm_compute. Qed.
