(* ===== verification/Wireguard.v ===== *)
(** * [backend/wireguard/mod.rs], [keys.rs], [network.rs], the peers of [device.rs]

    The configuration of the WireGuard backend, the keys and attributes that
    a node announces, and the lease events: each makes one or two nodes peers
    of a device, or no longer peers.  Base64 and JSON are interfaces with
    their round trips as laws; the kernel is [GenlKernel] with [WgKernelLaws],
    and [WgSystem] for links, routes and the subnet manager. *)

From S2P Require Import Prelude RustStr Utf8 StdNet IpNet Ip6Net Lease Config RouteNetwork VxlanConf Genl WgKernel Iface.
#[local] Open Scope string_scope.
#[local] Open Scope list_scope.
#[local] Open Scope Z_scope.

Definition WG_BACKEND_TYPE : string := "wireguard".
Definition OVERHEAD : Z := 80.

Inductive Mode := Separate | Auto | Ipv4 | Ipv6.

#[global] Instance Mode_eq_dec : EqDecision Mode.
Proof. solve_decision. Defined.

Definition Mode_parse (s : string) : option Mode :=
  if String.eqb s "separate" then Some Separate
  else if String.eqb s "auto" then Some Auto
  else if String.eqb s "ipv4" then Some Ipv4
  else if String.eqb s "ipv6" then Some Ipv6
  else None.

(** ** Configuration *)

Record WgConfig := mkWgConfig {
  wg_listen_port : Z;
  wg_listen_port_v6 : Z;
  wg_mtu : Z;
  wg_psk : string;
  wg_keepalive_secs : Z;
  wg_mode : option Mode;
}.

Inductive WgConfigError :=
| WeJson (e : string)
| WeNotObject (type : string)
| WeNotInt (type tag : string)
| WeNotString (type tag : string)
| WeNotDuration (type tag : string).

Definition WG_FIELDS : list string :=
  ["ListenPort"; "ListenPortV6"; "MTU"; "PSK"; "PersistentKeepaliveInterval"; "Mode"].

Definition match_wg_field (key : string) : option string :=
  match List.find (fun tag => String.eqb key tag) WG_FIELDS with
  | Some tag => Some tag
  | None => List.find (fun tag => eq_ignore_ascii_case key tag) WG_FIELDS
  end.

Definition wg_int_field (tag : string) (v : Value) : result Z WgConfigError :=
  let? n := ok_or (value_as_i64 v) (WeNotInt (json_type_name v) tag) in Ok (wrap 32 n).

Definition wg_string_field (tag : string) (v : Value) : result string WgConfigError :=
  match v with VString s => Ok s | _ => Err (WeNotString (json_type_name v) tag) end.

Definition set_wg_field (tag : string) (v : Value) (c : WgConfig) : result WgConfig WgConfigError :=
  let 'mkWgConfig port port6 mtu psk ka mode := c in
  if String.eqb tag "ListenPort" then
    let? n := wg_int_field tag v in Ok (mkWgConfig n port6 mtu psk ka mode)
  else if String.eqb tag "ListenPortV6" then
    let? n := wg_int_field tag v in Ok (mkWgConfig port n mtu psk ka mode)
  else if String.eqb tag "MTU" then
    let? n := wg_int_field tag v in Ok (mkWgConfig port port6 n psk ka mode)
  else if String.eqb tag "PSK" then
    let? s := wg_string_field tag v in Ok (mkWgConfig port port6 mtu s ka mode)
  else if String.eqb tag "PersistentKeepaliveInterval" then
    let? n := ok_or (value_as_i64 v) (WeNotDuration (json_type_name v) tag) in
    Ok (mkWgConfig port port6 mtu psk (Z.max n 0) mode)
  else
    let? s := wg_string_field tag v in Ok (mkWgConfig port port6 mtu psk ka (Mode_parse s)).

Fixpoint set_wg_fields (fields : list (string * Value)) (c : WgConfig) : result WgConfig WgConfigError :=
  match fields with
  | [] => Ok c
  | (key, v) :: rest =>
      match match_wg_field key with
      | None => set_wg_fields rest c
      | Some tag => let? c := set_wg_field tag v c in set_wg_fields rest c
      end
  end.

Definition parse_wg_config `{SerdeJson} (backend : option string) (default_mtu : Z)
  : result WgConfig WgConfigError :=
  let cfg := mkWgConfig 51820 51821 default_mtu "" 0 (Some Separate) in
  match backend with
  | None => Ok cfg
  | Some text =>
      if String.eqb text "null" then Ok cfg
      else
        let? value := map_err WeJson (sj_value text) in
        match value with
        | VObject fields => set_wg_fields fields cfg
        | _ => Err (WeNotObject (json_type_name value))
        end
  end.

(** ** Keys *)

(** [base64::STANDARD] and the scalar multiplication of [curve25519_dalek] *)
Class WgCrypto := {
  b64_encode : bytes -> string;
  b64_decode : string -> result bytes string;
  x25519_base : bytes -> bytes;
}.

Class WgCryptoLaws `{WgCrypto} := {
  b64_round_trip b : Forall is_byte b -> b64_decode (b64_encode b) = Ok b;
  x25519_typed b : length (x25519_base b) = 32%nat /\ Forall is_byte (x25519_base b);
}.

Inductive KeyError := KeyBase64 (e : string) | KeyLength (n : nat).

(** [generate_private_key] from what [getrandom] gave. *)
Definition clamp_key (random : bytes) : bytes :=
  let b := take 32 random in
  match b with
  | b0 :: rest =>
      let b31 := List.last rest 0 in
      Z.land b0 248 :: removelast rest ++ [Z.lor (Z.land b31 127) 64]
  | [] => []
  end.

Definition Key_public_key `{WgCrypto} (key : bytes) : bytes := x25519_base key.

Definition Key_parse `{WgCrypto} (s : string) : result bytes KeyError :=
  let? b := map_err KeyBase64 (b64_decode s) in
  if (length b =? 32)%nat then Ok b else Err (KeyLength (length b)).

Definition Key_fmt `{WgCrypto} (key : bytes) : string := b64_encode key.

(** ** Announcement *)

Record WireguardLeaseAttrs := mkWireguardLeaseAttrs { wl_public_key : string; wl_port : Z }.

Definition WireguardLeaseAttrs_default : WireguardLeaseAttrs := mkWireguardLeaseAttrs "" 0.

(** [serde_json] on [WireguardLeaseAttrs] *)
Class WgJson := {
  wj_encode : WireguardLeaseAttrs -> result string string;
  wj_decode : string -> result WireguardLeaseAttrs string;
}.

Class WgJsonLaws `{WgJson} := {
  wj_round_trip a : u16 (wl_port a) -> exists raw, wj_encode a = Ok raw /\ wj_decode raw = Ok a;
  wj_typed raw a : wj_decode raw = Ok a -> u16 (wl_port a);
}.

Definition wg_subnet_attrs `{WgJson} (public_ip public_ipv6 : option IpAddr) (enable_ipv4 enable_ipv6 : bool)
    (public_key : string) (v4_port v6_port : Z) : result LeaseAttrs string :=
  let? v4_data := wj_encode (mkWireguardLeaseAttrs public_key (wrap 16 v4_port)) in
  let? v6_data := wj_encode (mkWireguardLeaseAttrs public_key (wrap 16 v6_port)) in
  Ok (mkLeaseAttrs
        (match public_ip with Some (V4 ip) => IP4_from_bytes (IP4_octets ip) | _ => 0 end)
        (match public_ipv6 with Some (V6 ip) => Some ip | _ => None end)
        WG_BACKEND_TYPE
        (if enable_ipv4 then Some v4_data else None)
        (if enable_ipv6 then Some v6_data else None)).

(** ** Devices *)

Record WGDeviceAttrs := mkWGDeviceAttrs {
  da_listen_port : Z;
  da_private_key : option bytes;
  da_public_key : option bytes;
  da_psk : option bytes;
  da_keepalive : option Z;
  da_name : string;
  da_mtu : Z;
}.

Record WGDevice := mkWGDevice { gd_attrs : WGDeviceAttrs; gd_ifindex : Z; gd_ifname : string }.

Definition public_key_of `{WgCrypto} (dev : WGDevice) : string :=
  match da_public_key (gd_attrs dev) with Some key => Key_fmt key | None => "" end.

(** A decimal number of a socket address *)
Definition read_uint (w : Z) (s : string) : option Z :=
  if negb (str_is_empty s) && str_all (fun c => is_some (to_digit 10 c)) s
  then result_ok (from_str_radix_u w 10 s) else None.

(** [s.parse::<SocketAddr>()] *)
Definition parse_socket_addr (s : string) : option SocketAddr :=
  match s with
  | String c rest =>
      if Ascii.eqb c "[" then
        match split_once "]" rest with
        | Some (host, String c' port) =>
            if Ascii.eqb c' ":" then
              let '(ip, scope) := match split_once "%" host with
                                  | Some (ip, scope) => (ip, read_uint 32 scope)
                                  | None => (host, Some 0)
                                  end in
              match IP6_from_str ip, scope, read_uint 16 port with
              | Ok ip, Some scope, Some port => Some (SockV6 ip port 0 scope)
              | _, _, _ => None
              end
            else None
        | _ => None
        end
      else
        match split_once ":" s with
        | Some (host, port) =>
            match IP4_from_str host, read_uint 16 port with
            | Ok ip, Some port => Some (SockV4 ip port)
            | _, _ => None
            end
        | None => None
        end
  | "" => None
  end.

Inductive WgPeerError :=
| PeResolve (e : string)
| PeKey (e : KeyError)
| PeConfigure (e : IoError).

(** Links, routes (all of scope [link]), name resolution and the subnet
    manager *)
Class WgSystem (K : Type) := {
  ws_netlink_new : K -> K * result unit string;
  ws_link_up : Z -> K -> K * result unit string;
  ws_route_replace : RouteMessage -> K -> K * result unit string;
  ws_network_config : K -> K * result Config string;
  ws_lookup_host : string -> K -> K * result (list SocketAddr) string;
}.

Record WireguardNetwork := mkWireguardNetwork {
  gn_ei : ExternalInterface;
  gn_dev : option WGDevice;
  gn_v6_dev : option WGDevice;
  gn_mode : Mode;
  gn_lease : Lease;
  gn_mtu : Z;
}.

(** [saturating_sub] *)
Definition wg_network_mtu (n : WireguardNetwork) : Z := Z.max 0 (gn_mtu n - OVERHEAD).

Definition select_mode (ei : ExternalInterface) (ip4 : IP4) (ip6 : option IP6) : Mode :=
  match ip6 with
  | None => Ipv4
  | Some ip6 =>
      if negb (IP4_is_private ip4) && is_some (ei_ext_addr ei) then Ipv4
      else if negb (IP6_is_private ip6)
              && match ei_ext_v6_addr ei with Some (V6 v6) => negb (IP6_is_private v6) | _ => false end
      then Ipv6
      else Ipv4
  end.

Section Events.
Context `{GenlKernel K} `{WgSystem K} `{WgCrypto} `{WgJson} (fuel : nat).

Definition resolve_udp_addr (s : string) : io K WgPeerError SocketAddr :=
  match parse_socket_addr s with
  | Some addr => io_ret addr
  | None =>
      let! addrs := io_map_err PeResolve (ws_lookup_host s) in
      io_lift (ok_or (list.head addrs) (PeResolve "failed to resolve UDP address"))
  end.

Definition wg_add_peer (dev : WGDevice) (public_endpoint peer_public_key_raw : string)
    (peer_subnets : list WgAllowedIp) : io K WgPeerError unit :=
  let! endpoint := resolve_udp_addr public_endpoint in
  let! peer_public_key := io_lift (map_err PeKey (Key_parse peer_public_key_raw)) in
  let attrs := gd_attrs dev in
  let cfg := mkWgDeviceConfig (as_bytes (gd_ifname dev)) (da_private_key attrs) (Some (da_listen_port attrs)) 0
               [mkWgPeerConfig peer_public_key (da_psk attrs) WGPEER_F_REPLACE_ALLOWEDIPS (Some endpoint)
                  (option_map (wrap 16) (da_keepalive attrs)) peer_subnets] in
  io_map_err PeConfigure (configure_device fuel cfg).

Definition wg_remove_peer (dev : WGDevice) (peer_public_key_raw : string) : io K WgPeerError unit :=
  let! peer_public_key := io_lift (map_err PeKey (Key_parse peer_public_key_raw)) in
  let cfg := mkWgDeviceConfig (as_bytes (gd_ifname dev)) None None 0
               [mkWgPeerConfig peer_public_key None WGPEER_F_REMOVE_ME None None []] in
  io_map_err PeConfigure (configure_device fuel cfg).

Definition up_and_add_route (dev : WGDevice) (msg : RouteMessage) : io K string unit :=
  let! _ := ws_link_up (gd_ifindex dev) in ws_route_replace msg.

Definition add_net_route (dev : WGDevice) (dst : IpAddr) (prefix_len : Z) : io K string unit :=
  let! _ := ws_netlink_new in
  up_and_add_route dev
    (mkRouteMessage (match dst with V4 _ => Inet | V6 _ => Inet6 end) prefix_len (Some dst) None
       (Some (gd_ifindex dev)) false).

(** Errors of the steps below are logged, and the next step follows. *)
Definition logged {E} (m : io K E unit) (k : K) : K := (m k).1.

Definition net_route_v4 (dev : WGDevice) (c : Config) : io K string unit :=
  add_net_route dev (V4 (ip4n_ip (cfg_network c))) (wrap 8 (ip4n_plen (cfg_network c))).
Definition net_route_v6 (dev : WGDevice) (c : Config) : io K string unit :=
  add_net_route dev (V6 (ip6n_ip (cfg_ipv6_network c))) (wrap 8 (ip6n_plen (cfg_ipv6_network c))).

Definition add_config_route (dev : option WGDevice) (v4 : bool) (k : K) : K :=
  match dev with
  | None => k
  | Some dev =>
      match ws_network_config k with
      | (k, Ok netconf) => logged (if v4 then net_route_v4 dev netconf else net_route_v6 dev netconf) k
      | (k, Err _) => k
      end
  end.

(** The attributes of one family: the default without data, [None] when the
    data cannot be decoded. *)
Definition family_attrs (enabled : bool) (data : option RawValue) : option WireguardLeaseAttrs :=
  match enabled, data with
  | true, Some raw => result_ok (wj_decode raw)
  | _, _ => Some WireguardLeaseAttrs_default
  end.

(** The port of the attributes, or else that of the device *)
Definition peer_port (attrs : WireguardLeaseAttrs) (dev : option WGDevice) : Z :=
  if wl_port attrs =? 0
  then match dev with Some dev => da_listen_port (gd_attrs dev) | None => wl_port attrs end
  else wl_port attrs.

Definition v4_allowed (lease : Lease) : WgAllowedIp :=
  mkWgAllowedIp (V4 (ip4n_ip (l_subnet lease))) (wrap 8 (ip4n_plen (l_subnet lease))).
Definition v6_allowed (lease : Lease) : WgAllowedIp :=
  mkWgAllowedIp (V6 (ip6n_ip (l_ipv6_subnet lease))) (wrap 8 (ip6n_plen (l_ipv6_subnet lease))).

Definition v4_endpoint (lease : Lease) (port : Z) : string :=
  IP4_fmt (la_public_ip (l_attrs lease)) +:+ ":" +:+ fmt_dec port.
Definition v6_endpoint (lease : Lease) (port : Z) : string :=
  match la_public_ipv6 (l_attrs lease) with
  | Some ip => "[" +:+ IP6_fmt ip +:+ "]:" +:+ fmt_dec port
  | None => ""
  end.

Definition try_add_peer (dev : option WGDevice) (endpoint key : string) (subnets : list WgAllowedIp) (k : K) : K :=
  match dev with Some dev => logged (wg_add_peer dev endpoint key subnets) k | None => k end.

Definition wg_handle_added (n : WireguardNetwork) (lease : Lease) (k : K) : K :=
  if negb (String.eqb (la_backend_type (l_attrs lease)) WG_BACKEND_TYPE) then k
  else
    match family_attrs (l_enable_ipv4 lease) (la_backend_data (l_attrs lease)),
          family_attrs (l_enable_ipv6 lease) (la_backend_v6_data (l_attrs lease)) with
    | Some v4_attrs, Some v6_attrs =>
        let v4_ep := v4_endpoint lease (peer_port v4_attrs (gn_dev n)) in
        let v6_ep := v6_endpoint lease (peer_port v6_attrs (gn_v6_dev n)) in
        if bool_decide (gn_mode n = Separate) then
          let k := if l_enable_ipv4 lease
                   then add_config_route (gn_dev n) true
                          (try_add_peer (gn_dev n) v4_ep (wl_public_key v4_attrs) [v4_allowed lease] k)
                   else k in
          if l_enable_ipv6 lease
          then add_config_route (gn_v6_dev n) false
                 (try_add_peer (gn_v6_dev n) v6_ep (wl_public_key v6_attrs) [v6_allowed lease] k)
          else k
        else
          let attrs := if l_enable_ipv6 lease then v6_attrs
                       else if l_enable_ipv4 lease then v4_attrs else WireguardLeaseAttrs_default in
          let mode := if bool_decide (gn_mode n = Auto)
                      then select_mode (gn_ei n) (la_public_ip (l_attrs lease)) (la_public_ipv6 (l_attrs lease))
                      else gn_mode n in
          let endpoint := if bool_decide (mode = Ipv6) then v6_ep else v4_ep in
          let peers := (if l_enable_ipv4 lease then [v4_allowed lease] else [])
                       ++ (if l_enable_ipv6 lease then [v6_allowed lease] else []) in
          let k := try_add_peer (gn_dev n) endpoint (wl_public_key attrs) peers k in
          match ws_network_config k with
          | (k, Ok netconf) =>
              match gn_dev n with
              | Some dev => logged (net_route_v6 dev netconf) (logged (net_route_v4 dev netconf) k)
              | None => k
              end
          | (k, Err _) => k
          end
    | _, _ => k
    end.

(** The attributes keep their value from the first family to the second. *)
Definition read_attrs (attrs : WireguardLeaseAttrs) (data : option RawValue) : option WireguardLeaseAttrs :=
  match data with Some raw => result_ok (wj_decode raw) | None => Some attrs end.

Definition wg_handle_removed (n : WireguardNetwork) (lease : Lease) (k : K) : K :=
  if negb (String.eqb (la_backend_type (l_attrs lease)) WG_BACKEND_TYPE) then k
  else
    let v4 :=
      match l_enable_ipv4 lease, gn_dev n with
      | true, Some dev =>
          match read_attrs WireguardLeaseAttrs_default (la_backend_data (l_attrs lease)) with
          | Some attrs => Some (attrs, logged (wg_remove_peer dev (wl_public_key attrs)) k)
          | None => None
          end
      | _, _ => Some (WireguardLeaseAttrs_default, k)
      end in
    match v4 with
    | None => k
    | Some (attrs, k) =>
        if l_enable_ipv6 lease then
          match read_attrs attrs (la_backend_v6_data (l_attrs lease)) with
          | None => k
          | Some attrs =>
              let target := if bool_decide (gn_mode n = Separate) && is_some (gn_v6_dev n)
                            then gn_v6_dev n else gn_dev n in
              match target with
              | Some dev => logged (wg_remove_peer dev (wl_public_key attrs)) k
              | None => k
              end
          end
        else k
    end.

Definition wg_event (n : WireguardNetwork) (k : K) (e : Event) : K :=
  match ev_type e with
  | Added => wg_handle_added n (ev_lease e) k
  | Removed => wg_handle_removed n (ev_lease e) k
  end.

Definition wg_handle_subnet_events (n : WireguardNetwork) (batch : list Event) (k : K) : K :=
  fold_left (wg_event n) batch k.
End Events.

(** ** What the events ask for *)

(** Only configuration requests change the devices; the empty text is no
    host. *)
Class WgSystemLaws (K : Type) `{WgKernelLaws K} `{WgSystem K} := {
  ws_netlink_frame k : wk_state (ws_netlink_new k).1 = wk_state k;
  ws_link_frame i k : wk_state (ws_link_up i k).1 = wk_state k;
  ws_route_frame m k : wk_state (ws_route_replace m k).1 = wk_state k;
  ws_config_frame k : wk_state (ws_network_config k).1 = wk_state k;
  ws_lookup_frame s k : wk_state (ws_lookup_host s k).1 = wk_state k;
  ws_lookup_empty k : is_ok (ws_lookup_host "" k).2 = false;
}.

(** A kernel that carries out every configuration of a device it has *)
Definition wg_reliable (K : Type) `{WgKernelLaws K} (fuel : nat) : Prop :=
  forall cfg k, config_typed cfg -> is_some (wk_state k !! wc_ifname cfg) = true ->
  is_ok (configure_device fuel cfg k).2 = true.

Definition added_config (dev : WGDevice) (ep : SocketAddr) (key : bytes) (nets : list WgAllowedIp) : WgDeviceConfig :=
  let attrs := gd_attrs dev in
  mkWgDeviceConfig (as_bytes (gd_ifname dev)) (da_private_key attrs) (Some (da_listen_port attrs)) 0
    [mkWgPeerConfig key (da_psk attrs) WGPEER_F_REPLACE_ALLOWEDIPS (Some ep)
       (option_map (wrap 16) (da_keepalive attrs)) nets].

Definition removed_config (dev : WGDevice) (key : bytes) : WgDeviceConfig :=
  mkWgDeviceConfig (as_bytes (gd_ifname dev)) None None 0
    [mkWgPeerConfig key None WGPEER_F_REMOVE_ME None None []].

Section Wanted.
Context `{WgCrypto} `{WgJson}.

Definition want_added (dev : option WGDevice) (ep : option SocketAddr) (raw : string) (nets : list WgAllowedIp)
  : list WgDeviceConfig :=
  match dev, ep, Key_parse raw with
  | Some dev, Some ep, Ok key => [added_config dev ep key nets]
  | _, _, _ => []
  end.

Definition want_removed (dev : option WGDevice) (raw : string) : list WgDeviceConfig :=
  match dev, Key_parse raw with Some dev, Ok key => [removed_config dev key] | _, _ => [] end.

Definition v4_sock (lease : Lease) (port : Z) : option SocketAddr :=
  Some (SockV4 (la_public_ip (l_attrs lease)) port).
Definition v6_sock (lease : Lease) (port : Z) : option SocketAddr :=
  option_map (fun ip => SockV6 ip port 0 0) (la_public_ipv6 (l_attrs lease)).

(** The configurations that an event leads to *)
Definition added_configs (n : WireguardNetwork) (lease : Lease) : list WgDeviceConfig :=
  match family_attrs (l_enable_ipv4 lease) (la_backend_data (l_attrs lease)),
        family_attrs (l_enable_ipv6 lease) (la_backend_v6_data (l_attrs lease)) with
  | Some a4, Some a6 =>
      let s4 := v4_sock lease (peer_port a4 (gn_dev n)) in
      let s6 := v6_sock lease (peer_port a6 (gn_v6_dev n)) in
      if bool_decide (gn_mode n = Separate) then
        (if l_enable_ipv4 lease then want_added (gn_dev n) s4 (wl_public_key a4) [v4_allowed lease] else [])
        ++ (if l_enable_ipv6 lease then want_added (gn_v6_dev n) s6 (wl_public_key a6) [v6_allowed lease] else [])
      else
        let mode := if bool_decide (gn_mode n = Auto)
                    then select_mode (gn_ei n) (la_public_ip (l_attrs lease)) (la_public_ipv6 (l_attrs lease))
                    else gn_mode n in
        want_added (gn_dev n) (if bool_decide (mode = Ipv6) then s6 else s4)
          (if l_enable_ipv6 lease then wl_public_key a6 else if l_enable_ipv4 lease then wl_public_key a4 else "")
          ((if l_enable_ipv4 lease then [v4_allowed lease] else [])
           ++ (if l_enable_ipv6 lease then [v6_allowed lease] else []))
  | _, _ => []
  end.

Definition removed_configs (n : WireguardNetwork) (lease : Lease) : list WgDeviceConfig :=
  let v6_target := if bool_decide (gn_mode n = Separate) && is_some (gn_v6_dev n) then gn_v6_dev n else gn_dev n in
  let v4 := if l_enable_ipv4 lease && is_some (gn_dev n)
            then read_attrs WireguardLeaseAttrs_default (la_backend_data (l_attrs lease))
            else Some WireguardLeaseAttrs_default in
  match v4 with
  | None => []
  | Some a4 =>
      (if l_enable_ipv4 lease then want_removed (gn_dev n) (wl_public_key a4) else [])
      ++ (if l_enable_ipv6 lease then
            match read_attrs a4 (la_backend_v6_data (l_attrs lease)) with
            | Some a6 => want_removed v6_target (wl_public_key a6)
            | None => []
            end
          else [])
  end.

Definition event_configs (n : WireguardNetwork) (e : Event) : list WgDeviceConfig :=
  if negb (String.eqb (la_backend_type (l_attrs (ev_lease e))) WG_BACKEND_TYPE) then []
  else match ev_type e with
       | Added => added_configs n (ev_lease e)
       | Removed => removed_configs n (ev_lease e)
       end.
End Wanted.

Definition wg_applied (st : WgState) (c : WgDeviceConfig) : WgState := default st (wg_apply c st).

(** ** Lemmas *)

Definition device_typed (d : WGDevice) : Prop :=
  Z.of_nat (length (as_bytes (gd_ifname d))) < 65531 /\ u16 (da_listen_port (gd_attrs d)) /\
  opt_all (fun k => length k = 32%nat) (da_private_key (gd_attrs d)) /\
  opt_all (fun k => length k = 32%nat) (da_psk (gd_attrs d)).

Definition network_typed (n : WireguardNetwork) : Prop :=
  opt_all device_typed (gn_dev n) /\ opt_all device_typed (gn_v6_dev n).

Definition lease_typed (l : Lease) : Prop :=
  IP4Net_valid (l_subnet l) /\ IP6Net_valid (l_ipv6_subnet l) /\ u32 (la_public_ip (l_attrs l)) /\
  opt_all IP6_typed (la_public_ipv6 (l_attrs l)).

(** *** Endpoints *)

Lemma read_uint_fmt w n : in_width w n -> read_uint w (fmt_dec n) = Some n.
Proof.
  intros Hn. unfold read_uint.
  assert (str_all (fun c => is_some (to_digit 10 c)) (fmt_dec n) = true) as ->.
  { unfold fmt_dec. destruct (fmt_radix_digits 10 n) as (ds & -> & _ & Hf & _); [destruct Hn; lia..|].
    induction Hf as [|d ds Hd _ IH]; cbn; [done|]. by rewrite to_digit_from_digit, IH by lia. }
  assert (str_is_empty (fmt_dec n) = false) as ->.
  { pose proof (fmt_radix_nonempty 10 n ltac:(lia) ltac:(destruct Hn; lia)) as Hne. unfold fmt_dec.
    by destruct (fmt_radix 10 n). }
  cbn [negb andb]. unfold fmt_dec. by rewrite from_str_radix_u_fmt by (done || lia).
Qed.

Definition dotted_char (c : ascii) : bool := is_alnum c || Ascii.eqb c ".".

Lemma IP4_fmt_dotted ip : str_all dotted_char (IP4_fmt ip) = true.
Proof.
  unfold IP4_fmt, fmt_ipv4. apply str_all_join; [done|]. apply Forall_map.
  eapply Forall_impl; [|apply to_be_bytes]. intros o [Ho _].
  apply (str_all_mono is_alnum); [|by apply fmt_radix_alnum]. intros c Hc. unfold dotted_char. by rewrite Hc.
Qed.

Lemma parse_v4_endpoint lease port :
  u32 (la_public_ip (l_attrs lease)) -> u16 port ->
  parse_socket_addr (v4_endpoint lease port) = v4_sock lease port.
Proof.
  intros Hip Hp. unfold parse_socket_addr, v4_endpoint, v4_sock. set (ip := la_public_ip (l_attrs lease)) in *.
  pose proof (IP4_fmt_dotted ip) as Hc. pose proof (IP4_from_str_fmt ip Hip) as Hs.
  assert (split_once ":" (IP4_fmt ip +:+ ":" +:+ fmt_dec port) = Some (IP4_fmt ip, fmt_dec port)) as Hsp
    by (apply split_once_app; by eapply str_all_contains).
  destruct (IP4_fmt ip) as [|c t] eqn:E; [done|]. cbn [String.append] in *.
  rewrite Hsp, Hs, read_uint_fmt by done.
  cbn in Hc. apply andb_true_iff in Hc as [Hc _]. destruct (Ascii.eqb_spec c "[") as [->|]; [done|done].
Qed.

Lemma parse_v6_endpoint lease port :
  opt_all IP6_typed (la_public_ipv6 (l_attrs lease)) -> u16 port ->
  parse_socket_addr (v6_endpoint lease port) = v6_sock lease port.
Proof.
  intros Hip Hp. unfold v6_endpoint, v6_sock. destruct (la_public_ipv6 (l_attrs lease)) as [ip|]; [|done].
  cbn in Hip. cbn [option_map]. pose proof (IP6_fmt_chars ip Hip) as Hc. unfold parse_socket_addr.
  change ("[" +:+ ?x) with (String "[" x). cbv iota beta. rewrite Ascii.eqb_refl.
  change ("]:" +:+ ?x) with (String "]" (String ":" x)).
  rewrite split_once_app by (by eapply str_all_contains). rewrite Ascii.eqb_refl.
  rewrite split_once_none by (by eapply str_all_contains).
  by rewrite IP6_from_str_fmt, read_uint_fmt.
Qed.

(** *** Typing *)

Lemma Key_parse_length `{WgCrypto} raw key : Key_parse raw = Ok key -> length key = 32%nat.
Proof.
  unfold Key_parse. destruct (b64_decode raw) as [b|e]; cbn; [|done].
  destruct (Nat.eqb_spec (length b) 32); [|done]. by intros [= <-].
Qed.

Lemma added_config_typed dev ep key nets :
  device_typed dev -> sock_typed ep -> length key = 32%nat -> Forall allowed_typed nets ->
  (length nets <= 2)%nat -> config_typed (added_config dev ep key nets).
Proof.
  intros (Hn & Hp & Hk & Hpsk) Hep Hkey Hnets Hlen. unfold added_config, config_typed.
  cbn [wc_ifname wc_private_key wc_listen_port wc_flags wc_peers]. repeat split; try done; try lia; try apply Hp.
  - constructor; [|done]. unfold peer_typed.
    cbn [wp_public_key wp_preshared_key wp_flags wp_endpoint wp_keepalive wp_allowed_ips].
    repeat split; try done; try lia. destruct (da_keepalive _); [|done]. cbn. by apply wrap_in_width.
  - unfold peers_size. cbn [foldr wp_allowed_ips]. lia.
Qed.

Lemma removed_config_typed dev key :
  device_typed dev -> length key = 32%nat -> config_typed (removed_config dev key).
Proof.
  intros (Hn & Hp & Hk & Hpsk) Hkey. unfold removed_config, config_typed.
  cbn [wc_ifname wc_private_key wc_listen_port wc_flags wc_peers]. repeat split; try done; try lia.
  constructor; [|done]. unfold peer_typed.
  cbn [wp_public_key wp_preshared_key wp_flags wp_endpoint wp_keepalive wp_allowed_ips]. repeat split; done.
Qed.

Lemma v4_allowed_typed lease : lease_typed lease -> allowed_typed (v4_allowed lease).
Proof. intros ([Hip Hp] & _). split; [done|]. by apply wrap_in_width. Qed.

Lemma v6_allowed_typed lease : lease_typed lease -> allowed_typed (v6_allowed lease).
Proof. intros (_ & [Hip Hp] & _). split; [done|]. by apply wrap_in_width. Qed.

Lemma family_attrs_typed `{WgJson, !WgJsonLaws} enabled data a :
  family_attrs enabled data = Some a -> u16 (wl_port a).
Proof.
  unfold family_attrs. destruct enabled, data as [raw|]; try by intros [= <-].
  destruct (wj_decode raw) as [b|e] eqn:E; [|done]. intros [= <-]. by eapply wj_typed.
Qed.

Lemma peer_port_typed a dev : u16 (wl_port a) -> opt_all device_typed dev -> u16 (peer_port a dev).
Proof.
  intros Ha Hd. unfold peer_port. destruct (wl_port a =? 0); [|done]. destruct dev as [d|]; [|done].
  apply Hd.
Qed.

Lemma v4_sock_typed lease port s : lease_typed lease -> u16 port -> v4_sock lease port = Some s -> sock_typed s.
Proof. intros (_ & _ & Hip & _) Hp [= <-]. done. Qed.

Lemma v6_sock_typed lease port s : lease_typed lease -> u16 port -> v6_sock lease port = Some s -> sock_typed s.
Proof.
  intros (_ & _ & _ & Hip) Hp. unfold v6_sock. destruct (la_public_ipv6 _) as [ip|]; [|done].
  intros [= <-]. done.
Qed.

Section Effects.
Context {K : Type} `{!GenlKernel K, !WgKernelLaws K, !WgSystem K, !WgSystemLaws K}.
Context `{WgCrypto} `{WgJson, !WgJsonLaws} (fuel : nat).
Hypothesis Hrel : wg_reliable K (S fuel).

Lemma configure_applied cfg k :
  config_typed cfg -> peers_size (wc_peers cfg) <= 1000 ->
  wk_state (configure_device (S fuel) cfg k).1 = wg_applied (wk_state k) cfg.
Proof.
  intros Hc Hsz. unfold wg_applied. destruct (configure_device (S fuel) cfg k) as [k' r] eqn:E. cbn [fst].
  assert (forall e, r = Err e -> wk_state k !! wc_ifname cfg = None) as Hok.
  { intros e ->. destruct (wk_state k !! wc_ifname cfg) as [d|] eqn:Ed; [|done].
    specialize (Hrel cfg k Hc). rewrite Ed, E in Hrel. by specialize (Hrel eq_refl). }
  destruct (configure_device_effect cfg (S fuel) k k' r Hc E) as [(Hs & e & He & _)|(code & Heff & Hr)].
  - unfold wg_apply. by rewrite (Hok e He).
  - destruct (wk_state k !! wc_ifname cfg) as [d|] eqn:Ed.
    + assert (length (wc_ifname cfg) < 16)%nat by (apply (wk_names k); by rewrite Ed).
      assert (answer_fits (concat (device_attrs cfg))) as Hfit by (apply small_config_fits; [done|lia]).
      specialize (Hr Hfit). destruct (Z.eqb_spec code 0) as [Hz|]; [|by specialize (Hok _ Hr)].
      rewrite Hz in Heff. by rewrite (set_effect_done _ _ _ Heff).
    + unfold set_effect in Heff. unfold wg_apply. rewrite Ed in *. by destruct Heff as [_ ->].
Qed.

Lemma add_peer_applied dev eps ep raw nets k :
  opt_all device_typed dev -> parse_socket_addr eps = ep -> (ep = None -> eps = "") ->
  (forall s, ep = Some s -> sock_typed s) -> Forall allowed_typed nets -> (length nets <= 2)%nat ->
  wk_state (try_add_peer (S fuel) dev eps raw nets k)
  = fold_left wg_applied (want_added dev ep raw nets) (wk_state k).
Proof.
  intros Hd Hp Hempty Hs Hn Hl. unfold try_add_peer, want_added, logged. destruct dev as [dev|]; [|done].
  unfold wg_add_peer, resolve_udp_addr. rewrite Hp. destruct ep as [s|].
  - unfold io_bind, io_ret, io_lift. destruct (Key_parse raw) as [key|e] eqn:Ek; cbn [map_err fst]; [|done].
    unfold io_map_err. fold (added_config dev s key nets).
    pose proof (configure_applied (added_config dev s key nets) k) as Hc.
    destruct (configure_device (S fuel) _ k) as [k' r]. cbn [fst fold_left] in *.
    apply Hc; [apply added_config_typed; eauto using Key_parse_length|unfold peers_size; cbn; lia].
  - rewrite (Hempty eq_refl). unfold io_bind, io_map_err.
    pose proof (ws_lookup_frame "" k) as Hf. pose proof (ws_lookup_empty k) as He.
    destruct (ws_lookup_host "" k) as [k' [addrs|e]]; [done|]. cbn [map_err fst] in *. done.
Qed.

Lemma remove_peer_applied dev raw k :
  opt_all device_typed dev ->
  wk_state (match dev with Some dev => logged (wg_remove_peer (S fuel) dev raw) k | None => k end)
  = fold_left wg_applied (want_removed dev raw) (wk_state k).
Proof.
  intros Hd. unfold want_removed, logged, wg_remove_peer. destruct dev as [dev|]; [|done].
  unfold io_bind, io_lift. destruct (Key_parse raw) as [key|e] eqn:Ek; cbn [map_err fst]; [|done].
  unfold io_map_err. fold (removed_config dev key).
  pose proof (configure_applied (removed_config dev key) k) as Hc.
  destruct (configure_device (S fuel) _ k) as [k' r]. cbn [fst fold_left] in *.
  apply Hc; [apply removed_config_typed; eauto using Key_parse_length|unfold peers_size; cbn; lia].
Qed.

(** Routes do not change the devices. *)
Lemma add_net_route_frame dev dst plen k : wk_state (logged (add_net_route dev dst plen) k) = wk_state k.
Proof.
  unfold logged, add_net_route, up_and_add_route, io_bind.
  pose proof (ws_netlink_frame k) as Hn. destruct (ws_netlink_new k) as [k1 [u|e]]; cbn [fst] in *; [|done].
  pose proof (ws_link_frame (gd_ifindex dev) k1) as Hl.
  destruct (ws_link_up (gd_ifindex dev) k1) as [k2 [u'|e]]; cbn [fst] in *; [|congruence].
  rewrite ws_route_frame. congruence.
Qed.

Lemma add_config_route_frame dev v4 k : wk_state (add_config_route dev v4 k) = wk_state k.
Proof.
  unfold add_config_route. destruct dev as [dev|]; [|done].
  pose proof (ws_config_frame k) as Hc. destruct (ws_network_config k) as [k1 [c|e]]; cbn [fst] in *; [|done].
  destruct v4; unfold net_route_v4, net_route_v6; by rewrite add_net_route_frame.
Qed.

Lemma v6_endpoint_empty lease port : v6_sock lease port = None -> v6_endpoint lease port = "".
Proof. unfold v6_sock, v6_endpoint. by destruct (la_public_ipv6 _). Qed.

Section Lease.
Context (n : WireguardNetwork) (lease : Lease).
Hypothesis Hn : network_typed n.
Hypothesis Hl : lease_typed lease.

Lemma v4_peer_applied dev a raw nets k :
  opt_all device_typed dev -> u16 (wl_port a) -> Forall allowed_typed nets -> (length nets <= 2)%nat ->
  wk_state (try_add_peer (S fuel) dev (v4_endpoint lease (peer_port a (gn_dev n))) raw nets k)
  = fold_left wg_applied (want_added dev (v4_sock lease (peer_port a (gn_dev n))) raw nets) (wk_state k).
Proof.
  intros Hd Ha Hnets Hlen. pose proof (peer_port_typed a (gn_dev n) Ha (proj1 Hn)) as Hp.
  apply add_peer_applied; try done; [apply parse_v4_endpoint; [apply Hl|done]|].
  intros s. by apply v4_sock_typed.
Qed.

Lemma v6_peer_applied dev a raw nets k :
  opt_all device_typed dev -> u16 (wl_port a) -> Forall allowed_typed nets -> (length nets <= 2)%nat ->
  wk_state (try_add_peer (S fuel) dev (v6_endpoint lease (peer_port a (gn_v6_dev n))) raw nets k)
  = fold_left wg_applied (want_added dev (v6_sock lease (peer_port a (gn_v6_dev n))) raw nets) (wk_state k).
Proof.
  intros Hd Ha Hnets Hlen. pose proof (peer_port_typed a (gn_v6_dev n) Ha (proj2 Hn)) as Hp.
  apply add_peer_applied; try done; [apply parse_v6_endpoint; [apply Hl|done]|apply v6_endpoint_empty|].
  intros s. by apply v6_sock_typed.
Qed.

Lemma handle_added_applied k :
  String.eqb (la_backend_type (l_attrs lease)) WG_BACKEND_TYPE = true ->
  wk_state (wg_handle_added (S fuel) n lease k) = fold_left wg_applied (added_configs n lease) (wk_state k).
Proof.
  intros Ht. unfold wg_handle_added, added_configs. rewrite Ht. cbn [negb].
  destruct (family_attrs (l_enable_ipv4 lease) _) as [a4|] eqn:E4; [|done].
  destruct (family_attrs (l_enable_ipv6 lease) _) as [a6|] eqn:E6; [|done].
  apply family_attrs_typed in E4, E6.
  pose proof (v4_allowed_typed lease Hl) as T4. pose proof (v6_allowed_typed lease Hl) as T6.
  destruct Hn as [Hd Hd6]. case_bool_decide.
  - rewrite fold_left_app. destruct (l_enable_ipv4 lease), (l_enable_ipv6 lease); cbn [fold_left];
      rewrite ?add_config_route_frame, ?v6_peer_applied, ?add_config_route_frame, ?v4_peer_applied;
      try done; auto.
  - set (nets := _ ++ _).
    assert (Forall allowed_typed nets /\ (length nets <= 2)%nat) as [Hnets Hlen].
    { subst nets. destruct (l_enable_ipv4 lease), (l_enable_ipv6 lease); split; cbn; (lia || auto). }
    set (mode := if bool_decide (gn_mode n = Auto) then _ else _).
    set (raw := wl_public_key _).
    assert ((if l_enable_ipv6 lease then wl_public_key a6
             else if l_enable_ipv4 lease then wl_public_key a4 else "") = raw) as ->
      by (subst raw; by destruct (l_enable_ipv4 lease), (l_enable_ipv6 lease)).
    set (k1 := try_add_peer _ _ _ _ _ _).
    assert (wk_state k1 = fold_left wg_applied (want_added (gn_dev n)
      (if bool_decide (mode = Ipv6) then v6_sock lease (peer_port a6 (gn_v6_dev n))
       else v4_sock lease (peer_port a4 (gn_dev n))) raw nets) (wk_state k)) as Hk1.
    { subst k1. case_bool_decide; [by apply v6_peer_applied|by apply v4_peer_applied]. }
    rewrite <- Hk1. pose proof (ws_config_frame k1) as Hc.
    destruct (ws_network_config k1) as [k2 [c|e]]; cbn [fst] in Hc; [|done].
    destruct (gn_dev n); [|done]. unfold net_route_v4, net_route_v6. by rewrite !add_net_route_frame.
Qed.

Lemma handle_removed_applied k :
  String.eqb (la_backend_type (l_attrs lease)) WG_BACKEND_TYPE = true ->
  wk_state (wg_handle_removed (S fuel) n lease k) = fold_left wg_applied (removed_configs n lease) (wk_state k).
Proof.
  intros Ht. unfold wg_handle_removed, removed_configs. rewrite Ht. cbn [negb]. destruct Hn as [Hd Hd6].
  set (target := if bool_decide (gn_mode n = Separate) && _ then _ else _).
  assert (opt_all device_typed target) as Htarget by (subst target; by destruct (_ && _)).
  set (second := fun a4 => if l_enable_ipv6 lease then
    match read_attrs a4 (la_backend_v6_data (l_attrs lease)) with
    | Some a6 => want_removed target (wl_public_key a6) | None => [] end else []).
  assert (forall a k, wk_state (if l_enable_ipv6 lease then
      match read_attrs a (la_backend_v6_data (l_attrs lease)) with
      | None => k
      | Some attrs => match target with
                      | Some dev => logged (wg_remove_peer (S fuel) dev (wl_public_key attrs)) k
                      | None => k end
      end else k) = fold_left wg_applied (second a) (wk_state k)) as H6.
  { intros a k'. subst second. cbv beta. destruct (l_enable_ipv6 lease); [|done].
    destruct (read_attrs a _) as [a6|]; [|done]. by apply remove_peer_applied. }
  destruct (l_enable_ipv4 lease); cbn [andb].
  - destruct (gn_dev n) as [d|] eqn:Ed; cbn [is_some].
    + destruct (read_attrs WireguardLeaseAttrs_default _) as [a4|]; [|done].
      rewrite H6, fold_left_app. f_equal. by apply (remove_peer_applied (Some d)).
    + rewrite H6. done.
  - by rewrite H6.
Qed.
End Lease.

Lemma events_applied n batch k :
  network_typed n -> Forall (fun e => lease_typed (ev_lease e)) batch ->
  wk_state (wg_handle_subnet_events (S fuel) n batch k)
  = fold_left wg_applied (concat (map (event_configs n) batch)) (wk_state k).
Proof.
  intros Hn Hb. revert k. induction Hb as [|e batch He _ IH]; intros k; [done|].
  unfold wg_handle_subnet_events in *. cbn [fold_left map concat]. rewrite IH, fold_left_app. f_equal.
  unfold wg_event, event_configs.
  destruct (String.eqb (la_backend_type (l_attrs (ev_lease e))) WG_BACKEND_TYPE) eqn:Et; cbn [negb].
  - destruct (ev_type e); [by apply handle_added_applied|by apply handle_removed_applied].
  - unfold wg_handle_added, wg_handle_removed. rewrite Et. by destruct (ev_type e).
Qed.
End Effects.

(** *** The devices after a sequence of configurations *)

Definition wg_peer (st : WgState) (ifname key : bytes) : option WgPeerState :=
  match st !! ifname with Some d => st_peers d !! key | None => None end.

Definition wg_owner (st : WgState) (ifname : bytes) (net : WgNet) : option bytes :=
  match st !! ifname with Some d => st_allowed d !! net | None => None end.

(** What a request for a peer leaves: the peer with its endpoint and networks,
    or no trace of it. *)
Definition peer_settled (st : WgState) (ifname : bytes) (p : WgPeerConfig) : Prop :=
  let key := wp_public_key p in
  if Z.testbit (wp_flags p) 0
  then wg_peer st ifname key = None /\ forall net, wg_owner st ifname net <> Some key
  else option_map st_endpoint (wg_peer st ifname key) = Some (wp_endpoint p) /\
       Forall (fun a => wg_owner st ifname (allowed_key a) = Some key) (wp_allowed_ips p).

Definition config_settled (st : WgState) (c : WgDeviceConfig) : Prop :=
  Forall (peer_settled st (wc_ifname c)) (wc_peers c).

(** Another device, or another peer with other networks *)
Definition unrelated (c c' : WgDeviceConfig) : Prop :=
  wc_ifname c' <> wc_ifname c \/
  Forall (fun p => Forall (fun p' => wp_public_key p' <> wp_public_key p /\
    Forall (fun a' => Forall (fun a => allowed_key a <> allowed_key a') (wp_allowed_ips p))
      (wp_allowed_ips p')) (wc_peers c')) (wc_peers c).

(** The requests of the events: one peer, no device flag, an endpoint unless
    the peer is removed. *)
Definition event_shape (c : WgDeviceConfig) : Prop :=
  wc_flags c = 0 /\ exists p, wc_peers c = [p] /\
    (wp_flags p = WGPEER_F_REMOVE_ME \/ wp_flags p = WGPEER_F_REPLACE_ALLOWEDIPS /\ is_some (wp_endpoint p) = true).

Lemma event_configs_shape `{WgCrypto} `{WgJson} n e : Forall event_shape (event_configs n e).
Proof.
  assert (forall dev ep raw nets, Forall event_shape (want_added dev ep raw nets)) as Ha.
  { intros dev ep raw nets. unfold want_added. destruct dev, ep, (Key_parse raw); auto.
    constructor; [|done]. split; [done|]. eexists. split; [done|]. by right. }
  assert (forall dev raw, Forall event_shape (want_removed dev raw)) as Hr.
  { intros dev raw. unfold want_removed. destruct dev, (Key_parse raw); auto.
    constructor; [|done]. split; [done|]. eexists. split; [done|]. by left. }
  unfold event_configs. destruct (negb _); [done|]. destruct (ev_type e).
  - unfold added_configs. destruct (family_attrs (l_enable_ipv4 (ev_lease e)) (la_backend_data (l_attrs (ev_lease e)))); [|done].
    destruct (family_attrs (l_enable_ipv6 (ev_lease e)) (la_backend_v6_data (l_attrs (ev_lease e)))); [|done].
    case_bool_decide; [|apply Ha]. apply Forall_app. split; by case_match.
  - unfold removed_configs. cbv zeta. destruct (if l_enable_ipv4 _ && _ then _ else _); [|done].
    apply Forall_app. split; [by destruct (l_enable_ipv4 _)|].
    destruct (l_enable_ipv6 _); [|done]. by destruct (read_attrs _ _).
Qed.

Lemma owner_after_inserts (nets : list WgAllowedIp) (key : bytes) (m : gmap WgNet bytes) net :
  fold_left (fun m a => <[allowed_key a := key]> m) nets m !! net
  = if decide (net ∈ map allowed_key nets) then Some key else m !! net.
Proof.
  revert m. induction nets as [|a nets IH]; intros m; cbn [fold_left map].
  - rewrite decide_False; [done|]. apply not_elem_of_nil.
  - rewrite IH. destruct (decide (net ∈ map allowed_key nets)) as [Hin|Hin].
    + rewrite decide_True; [done|]. by apply elem_of_cons; right.
    + destruct (decide (net = allowed_key a)) as [->|Hne].
      * rewrite lookup_insert_eq, decide_True; [done|]. by apply elem_of_cons; left.
      * rewrite lookup_insert_ne, decide_False; [done| |done]. by intros [|]%elem_of_cons.
Qed.

Lemma without_peer_lookup (key : bytes) (m : gmap WgNet bytes) net :
  without_peer key m !! net = match m !! net with Some k => if decide (k = key) then None else Some k | None => None end.
Proof.
  unfold without_peer. rewrite map_lookup_filter. destruct (m !! net) as [k|]; [|done]. cbn.
  by destruct (decide (k = key)); repeat case_guard.
Qed.

Lemma wg_applied_lookup st c ifname :
  wg_applied st c !! ifname
  = if decide (ifname = wc_ifname c) then option_map (apply_device c) (st !! ifname) else st !! ifname.
Proof.
  unfold wg_applied, wg_apply. destruct (st !! wc_ifname c) as [d|] eqn:Ed; cbn [default];
    change (id ?x) with x.
  - destruct (decide (ifname = wc_ifname c)) as [->|Hne]; [by rewrite lookup_insert_eq, Ed|].
    by rewrite lookup_insert_ne.
  - destruct (decide (ifname = wc_ifname c)) as [->|Hne]; [by rewrite Ed|done].
Qed.

(** A device after the request for one peer *)
Lemma apply_device_one c p d :
  wc_flags c = 0 -> wc_peers c = [p] ->
  st_peers (apply_device c d) = st_peers (apply_peer p d) /\
  st_allowed (apply_device c d) = st_allowed (apply_peer p d).
Proof.
  intros Hf Hp. unfold apply_device. rewrite Hf, Hp. cbn [fold_left]. unfold apply_peer.
  by destruct (Z.testbit (wp_flags p) 0).
Qed.

Lemma applied_settles st c :
  event_shape c -> is_some (st !! wc_ifname c) = true -> config_settled (wg_applied st c) c.
Proof.
  intros (Hf & p & Hp & Hfl) Hd. unfold config_settled. rewrite Hp. constructor; [|done].
  destruct (st !! wc_ifname c) as [d|] eqn:Ed; [|done].
  destruct (apply_device_one c p d Hf Hp) as [E1 E2].
  unfold peer_settled, wg_peer, wg_owner. rewrite wg_applied_lookup, decide_True, Ed by done. cbn [option_map].
  rewrite E1, E2. destruct Hfl as [Hfl|[Hfl Hep]]; unfold apply_peer; rewrite Hfl.
  - change (Z.testbit WGPEER_F_REMOVE_ME 0) with true. cbv iota. cbn [st_peers st_allowed].
    split; [apply lookup_delete_eq|]. intros net. rewrite without_peer_lookup.
    destruct (st_allowed d !! net) as [k|]; [|done].
    destruct (decide (k = wp_public_key p)) as [->|Hne]; [done|]. congruence.
  - change (Z.testbit WGPEER_F_REPLACE_ALLOWEDIPS 0) with false.
    change (Z.testbit WGPEER_F_REPLACE_ALLOWEDIPS 1) with true. cbv iota. cbn [st_peers st_allowed]. split.
    + rewrite lookup_insert_eq. cbn. by destruct (wp_endpoint p).
    + apply List.Forall_forall. intros a Ha. rewrite owner_after_inserts, decide_True; [done|].
      apply list_elem_of_In. by apply in_map.
Qed.

Lemma applied_keeps st c c' :
  event_shape c -> event_shape c' -> unrelated c c' -> config_settled st c -> config_settled (wg_applied st c') c.
Proof.
  intros (Hf & p & Hp & _) (Hf' & p' & Hp' & Hfl') Hu. unfold config_settled. rewrite Hp.
  intros Hs. apply Forall_cons_iff in Hs as [Hs _]. constructor; [|done].
  unfold peer_settled, wg_peer, wg_owner in *. rewrite wg_applied_lookup.
  destruct (decide (wc_ifname c = wc_ifname c')) as [Heq|Hne]; [|done].
  destruct Hu as [Hu|Hu]; [congruence|]. rewrite Hp, Hp' in Hu.
  apply Forall_cons_iff in Hu as [Hu _]. apply Forall_cons_iff in Hu as [[Hk Hnets] _].
  destruct (st !! wc_ifname c) as [d|] eqn:Ed; cbn [option_map]; [|done].
  destruct (apply_device_one c' p' d Hf' Hp') as [-> ->].
  assert (st_peers (apply_peer p' d) !! wp_public_key p = st_peers d !! wp_public_key p) as Epeer.
  { unfold apply_peer. destruct (Z.testbit (wp_flags p') 0); cbn;
      [by apply lookup_delete_ne|by apply lookup_insert_ne]. }
  assert (forall net, st_allowed (apply_peer p' d) !! net = Some (wp_public_key p) ->
            st_allowed d !! net = Some (wp_public_key p)) as Eback.
  { intros net. unfold apply_peer. destruct (Z.testbit (wp_flags p') 0); cbn [st_allowed].
    - rewrite without_peer_lookup. destruct (st_allowed d !! net); [|done]. by case_decide.
    - rewrite owner_after_inserts. destruct (decide (net ∈ map allowed_key (wp_allowed_ips p'))); [congruence|].
      destruct (Z.testbit (wp_flags p') 1); [|done]. rewrite without_peer_lookup.
      destruct (st_allowed d !! net); [|done]. by case_decide. }
  assert (forall a, In a (wp_allowed_ips p) -> st_allowed d !! allowed_key a = Some (wp_public_key p) ->
            st_allowed (apply_peer p' d) !! allowed_key a = Some (wp_public_key p)) as Ekeep.
  { intros a Ha Ho. unfold apply_peer. destruct (Z.testbit (wp_flags p') 0); cbn [st_allowed].
    - rewrite without_peer_lookup, Ho. rewrite decide_False by congruence. done.
    - rewrite owner_after_inserts, decide_False.
      + destruct (Z.testbit (wp_flags p') 1); [|done]. rewrite without_peer_lookup, Ho.
        by rewrite decide_False by congruence.
      + intros (a' & Hn & Ha')%list_elem_of_fmap. apply list_elem_of_In in Ha'.
        apply List.Forall_forall with (x := a') in Hnets; [|done].
        by apply List.Forall_forall with (x := a) in Hnets. }
  rewrite Epeer. destruct (Z.testbit (wp_flags p) 0).
  - destruct Hs as [Hs1 Hs2]. split; [done|]. intros net Hnet. apply (Hs2 net). by apply Eback.
  - destruct Hs as [Hs1 Hs2]. split; [done|]. rewrite List.Forall_forall in Hs2 |- *. auto.
Qed.

Lemma applied_exists st c ifname :
  is_some (st !! ifname) = true -> is_some (wg_applied st c !! ifname) = true.
Proof. rewrite wg_applied_lookup. case_decide; [|done]. by destruct (st !! ifname). Qed.

Lemma fold_applied_exists cs st ifname :
  is_some (st !! ifname) = true -> is_some (fold_left wg_applied cs st !! ifname) = true.
Proof. revert st. induction cs as [|c cs IH]; intros st Hs; [done|]. by apply IH, applied_exists. Qed.

Lemma fold_applied_keeps cs st c :
  event_shape c -> Forall event_shape cs -> Forall (unrelated c) cs -> config_settled st c ->
  config_settled (fold_left wg_applied cs st) c.
Proof.
  intros Hc Hs. revert st. induction Hs as [|c' cs Hc' _ IH]; intros st Hu Hst; [done|].
  apply Forall_cons_iff in Hu as [Hu Hus]. cbn [fold_left]. apply IH; [done|]. by apply applied_keeps.
Qed.

(** ** Properties *)

(** C20: the events of a batch carry out, in their order, exactly the
    configurations that each asks for, and the last request about a peer
    decides: after an addition the node is a peer with the announced endpoint
    and owns the networks of its lease, after a removal it is no peer and owns
    no network, on a kernel that carries out what it can. *)
Theorem wg_last_event_decides {K : Type} `{!GenlKernel K, !WgKernelLaws K, !WgSystem K, !WgSystemLaws K}
    `{WgCrypto} `{WgJson, !WgJsonLaws} (fuel : nat) (n : WireguardNetwork) (batch : list Event) (k : K) :
  wg_reliable K (S fuel) -> network_typed n -> Forall (fun e => lease_typed (ev_lease e)) batch ->
  let cs := concat (map (event_configs n) batch) in
  let st := wk_state (wg_handle_subnet_events (S fuel) n batch k) in
  st = fold_left wg_applied cs (wk_state k) /\
  forall pre c post, cs = pre ++ c :: post -> is_some (wk_state k !! wc_ifname c) = true ->
    Forall (unrelated c) post -> config_settled st c.
Proof.
  intros Hrel Hn Hb cs st. subst st. rewrite events_applied by done. fold cs. split; [done|].
  intros pre c post Hcs Hd Hu.
  assert (Forall event_shape cs) as Hshape.
  { subst cs. clear. induction batch as [|e batch IH]; [done|]. cbn [map concat].
    apply Forall_app. split; [apply event_configs_shape|done]. }
  rewrite Hcs in *. apply Forall_app in Hshape as [_ Hshape]. apply Forall_cons_iff in Hshape as [Hc Hpost].
  rewrite fold_left_app. cbn [fold_left]. apply fold_applied_keeps; [done..|].
  apply applied_settles; [done|]. by apply fold_applied_exists.
Qed.

(** What a node announces makes it the right peer elsewhere: its public
    key, its address with its port, and the networks of its lease, on the
    device of each family in mode [Separate] and on the one device in the
    other modes; its removal takes that key away. *)
Theorem wg_announced_peer `{WgCryptoLaws} `{WgJsonLaws} (n : WireguardNetwork) (lease : Lease) (attrs : LeaseAttrs)
    (pub : bytes) (ip : IP4) (ip6 : IP6) (port port6 : Z) (dev : WGDevice) :
  Forall is_byte pub -> length pub = 32%nat -> u32 ip -> wrap 16 port <> 0 -> wrap 16 port6 <> 0 ->
  wg_subnet_attrs (Some (V4 ip)) (Some (V6 ip6)) true true (Key_fmt pub) port port6 = Ok attrs ->
  l_attrs lease = attrs -> l_enable_ipv4 lease = true -> l_enable_ipv6 lease = true -> gn_dev n = Some dev ->
  let added := event_configs n (mkEvent Added lease) in
  let removed := event_configs n (mkEvent Removed lease) in
  let s4 := SockV4 ip (wrap 16 port) in
  let s6 := SockV6 ip6 (wrap 16 port6) 0 0 in
  (forall dev6, gn_mode n = Separate -> gn_v6_dev n = Some dev6 ->
    added = [added_config dev s4 pub [v4_allowed lease]; added_config dev6 s6 pub [v6_allowed lease]] /\
    removed = [removed_config dev pub; removed_config dev6 pub]) /\
  (gn_mode n <> Separate ->
    added = [added_config dev (if bool_decide ((if bool_decide (gn_mode n = Auto) then select_mode (gn_ei n) ip (Some ip6)
                                                else gn_mode n) = Ipv6) then s6 else s4)
               pub [v4_allowed lease; v6_allowed lease]] /\
    removed = [removed_config dev pub; removed_config dev pub]).
Proof.
  intros Hpub Hlen Hip Hp Hp6 Ha Hl E4 E6 Ed. cbv zeta.
  assert (Key_parse (Key_fmt pub) = Ok pub) as Hkey.
  { unfold Key_parse, Key_fmt. rewrite b64_round_trip by done. cbn. by rewrite Hlen. }
  destruct (wj_round_trip (mkWireguardLeaseAttrs (Key_fmt pub) (wrap 16 port))) as (raw4 & R4 & D4);
    [by apply wrap_in_width|].
  destruct (wj_round_trip (mkWireguardLeaseAttrs (Key_fmt pub) (wrap 16 port6))) as (raw6 & R6 & D6);
    [by apply wrap_in_width|].
  unfold wg_subnet_attrs in Ha. rewrite R4, R6 in Ha. cbn [rbind] in Ha. injection Ha as <-.
  unfold IP4_from_bytes in Hl. rewrite IP4_octets_value in Hl by done.
  unfold event_configs, added_configs, removed_configs, family_attrs, read_attrs, v4_sock, v6_sock, peer_port.
  cbn [ev_type ev_lease]. rewrite Hl, E4, E6, Ed.
  cbn [la_backend_type la_backend_data la_backend_v6_data la_public_ip la_public_ipv6 option_map].
  rewrite D4, D6. cbn [result_ok wl_port wl_public_key is_some andb].
  change (String.eqb WG_BACKEND_TYPE WG_BACKEND_TYPE) with true. cbn [negb].
  rewrite (proj2 (Z.eqb_neq _ _) Hp), (proj2 (Z.eqb_neq _ _) Hp6). unfold want_added, want_removed. rewrite Hkey.
  split.
  - intros dev6 Hm E6'. rewrite Hm, E6', bool_decide_eq_true_2 by done. done.
  - intros Hm. rewrite bool_decide_eq_false_2 by done. cbn [andb app]. split; [|done].
    by case_bool_decide; case_bool_decide.
Qed.

(** *** A sample *)

(** Key texts that are the bytes themselves, and attributes as port and key *)
#[local] Instance PlainCrypto : WgCrypto := {|
  b64_encode := text_of;
  b64_decode s := Ok (as_bytes s);
  x25519_base _ := wg_sample_key 9;
|}.

Lemma ord_chr_byte b : is_byte b -> ord (chr (Z.to_nat b)) = b.
Proof.
  intros Hb. unfold ord, chr. unfold is_byte in Hb.
  rewrite nat_ascii_embedding by lia. lia.
Qed.

#[local] Program Instance PlainCryptoLaws : WgCryptoLaws.
Next Obligation.
  intros b Hb. cbn. f_equal. unfold text_of. induction Hb as [|x b Hx _ IH]; [done|]. cbn.
  by rewrite ord_chr_byte, IH.
Qed.
Next Obligation. intros b. split; [done|]. cbn. by apply (bool_decide_unpack _). Qed.

#[local] Instance PlainJson : WgJson := {|
  wj_encode a := Ok (fmt_dec (wl_port a) +:+ "," +:+ wl_public_key a);
  wj_decode s :=
    match split_once "," s with
    | Some (port, key) =>
        match from_str_radix_u 16 10 port with
        | Ok port => Ok (mkWireguardLeaseAttrs key port)
        | Err _ => Err "bad port"
        end
    | None => Err "no comma"
    end;
|}.

#[local] Program Instance PlainJsonLaws : WgJsonLaws.
Next Obligation.
  intros [key port] Hp. eexists. split; [done|]. cbn -[fmt_dec split_once].
  rewrite split_once_app by (apply fmt_dec_no; [destruct Hp; done|done]).
  unfold fmt_dec. by rewrite from_str_radix_u_fmt by (done || lia).
Qed.
Next Obligation.
  intros raw a. cbn. destruct (split_once "," raw) as [[port key]|]; [|done].
  destruct (from_str_radix_u 16 10 port) as [p|e] eqn:E; [|done]. intros [= <-]. cbn.
  eapply from_str_radix_u_typed; [|done]. lia.
Qed.

#[local] Existing Instance WgNodeKernel.
#[local] Existing Instance WgNodeLaws.

#[local] Instance WgNodeSystem : WgSystem WgNode := {|
  ws_netlink_new k := (k, Ok ());
  ws_link_up _ k := (k, Ok ());
  ws_route_replace _ k := (k, Ok ());
  ws_network_config k := (k, Ok Config_default);
  ws_lookup_host _ k := (k, Err "failed to lookup address information");
|}.

#[local] Program Instance WgNodeSystemLaws : WgSystemLaws WgNode.
Solve Obligations with done.

Lemma node_resolves fuel sock k :
  resolve_family_ops (2 + fuel) sock WG_GENL_NAME k
  = (mkWgNode (wn_links k) [], Ok (mkGenlSocket (gs_seq sock + 1) (gs_port sock), (27, 0, 1))).
Proof.
  unfold resolve_family_ops, genl_request, io_bind, io_map_err, io_lift. cbn [gs_seq gs_port gk_send WgNodeKernel].
  rewrite message_family, bool_decide_eq_true_2 by done. cbn [map_err Nat.add collect_replies io_bind].
  assert (walk_messages (length wn_family_reply) wn_family_reply [] false
    = Ok ([[1; 2; 0; 0] ++ wn_family], false)) as Hw by by vm_compute.
  assert (forall fam, walk_messages (length (wn_error 0 (replicate 16 0))) (wn_error 0 (replicate 16 0)) fam false
    = Ok (fam, true)) as Hw2 by by vm_compute.
  unfold io_bind, io_map_err, io_lift, io_ret. cbn [gk_recv WgNodeKernel wn_inbox wn_links map_err].
  rewrite Hw. cbn [gk_recv WgNodeKernel wn_inbox wn_links map_err]. rewrite Hw2.
  assert (first_family WG_GENL_NAME [[1; 2; 0; 0] ++ wn_family] = Ok (27, 0, 1)) as Hf by by vm_compute. by rewrite Hf.
Qed.

Lemma node_reliable fuel : wg_reliable WgNode (2 + fuel).
Proof.
  intros cfg k Hc Hd. unfold configure_device, GenlSocket_new, io_bind, io_map_err, io_ret.
  cbn [gk_open WgNodeKernel map_err]. rewrite node_resolves.
  unfold genl_request, io_bind, io_map_err. cbn [gs_seq gs_port gk_send WgNodeKernel].
  rewrite message_family, message_attrs, bool_decide_eq_false_2 by done.
  rewrite concat_device_attrs, read_device_encoded by done.
  change (wn_state (mkWgNode (wn_links k) [])) with (wn_state k).
  unfold wg_apply. cbn [wk_state WgNodeLaws] in Hd.
  destruct (wn_state k !! wc_ifname cfg) as [d|]; [|done]. cbn [map_err].
  assert (walk_messages (length (wn_error 0 (replicate 16 0))) (wn_error 0 (replicate 16 0)) [] false = Ok ([], true)) as Hw by by vm_compute.
  cbn [collect_replies Nat.add]. unfold io_bind, io_map_err, io_lift, io_ret. cbn [gk_recv WgNodeKernel wn_inbox map_err].
  by rewrite Hw.
Qed.

Definition wg_dev : WGDevice :=
  mkWGDevice (mkWGDeviceAttrs 51820 (Some (wg_sample_key 8)) (Some (wg_sample_key 9)) None (Some 25) "flannel-wg" 1500)
    7 "flannel-wg".

Definition no_interface : ExternalInterface := mkExternalInterface 2 "eth0" None None None None.

(** The node [x]: key, address and subnet *)
Definition wg_lease (x : Z) : Lease :=
  mkLease true false (mkIP4Net (IP4_from_octets 10 64 x 0) 24) IP6Net_default
    (mkLeaseAttrs (IP4_from_octets 192 168 0 x) None WG_BACKEND_TYPE
       (Some ("51820," +:+ text_of (wg_sample_key x))) None) 0 0.

Definition wg_net (mode : Mode) : WireguardNetwork :=
  mkWireguardNetwork no_interface (Some wg_dev) None mode (wg_lease 64) 1500.

Definition wg_batch : list Event :=
  [mkEvent Added (wg_lease 65); mkEvent Added (wg_lease 66); mkEvent Removed (wg_lease 65)].

Lemma wg_last_event_decides_witness :
  let st := wk_state (wg_handle_subnet_events 2 (wg_net Separate) wg_batch wg_node) in
  let name := as_bytes "flannel-wg" in
  wg_peer st name (wg_sample_key 65) = None /\
  option_map st_endpoint (wg_peer st name (wg_sample_key 66))
  = Some (Some (SockV4 (IP4_from_octets 192 168 0 66) 51820)) /\
  wg_owner st name (V4 (IP4_from_octets 10 64 66 0), 24) = Some (wg_sample_key 66).
Proof.
  assert (network_typed (wg_net Separate)) as Hn by (split; [|done]; repeat split; done).
  assert (Forall (fun e => lease_typed (ev_lease e)) wg_batch) as Hb.
  { repeat constructor; try done; try (by vm_compute); try (apply (bool_decide_unpack _); by vm_compute). }
  destruct (wg_last_event_decides 1 (wg_net Separate) wg_batch wg_node (node_reliable 0) Hn Hb) as [_ Hlast].
  set (st := wk_state (wg_handle_subnet_events _ _ _ _)) in *. clearbody st. cbv zeta.
  assert (concat (map (event_configs (wg_net Separate)) wg_batch)
    = [added_config wg_dev (SockV4 (IP4_from_octets 192 168 0 65) 51820) (wg_sample_key 65) [v4_allowed (wg_lease 65)];
       added_config wg_dev (SockV4 (IP4_from_octets 192 168 0 66) 51820) (wg_sample_key 66) [v4_allowed (wg_lease 66)];
       removed_config wg_dev (wg_sample_key 65)]) as Hcs by by vm_compute.
  rewrite Hcs in Hlast. clear Hcs Hb Hn.
  pose proof (Hlast [_; _] _ [] eq_refl eq_refl ltac:(constructor)) as H65.
  pose proof (Hlast [_] _ [_] eq_refl eq_refl) as H66. clear Hlast.
  assert (config_settled st (added_config wg_dev (SockV4 (IP4_from_octets 192 168 0 66) 51820) (wg_sample_key 66)
    [v4_allowed (wg_lease 66)])) as H66'.
  { apply H66. constructor; [|constructor]. right. repeat constructor; done. }
  apply Forall_cons_iff in H65 as [[H65 _] _]. apply Forall_cons_iff in H66' as [[He Ho] _].
  split; [exact H65|]. split; [exact He|]. apply Forall_cons_iff in Ho as [Ho _].
  etrans; [|exact Ho]. f_equal.
Defined.

Lemma wg_announced_peer_witness :
  exists attrs,
    wg_subnet_attrs (Some (V4 (IP4_from_octets 192 168 0 65))) (Some (V6 IP6_zero)) true true
      (Key_fmt (wg_sample_key 65)) 51820 51821 = Ok attrs /\
    let lease := mkLease true true (l_subnet (wg_lease 65)) IP6Net_default attrs 0 0 in
    event_configs (wg_net Ipv4) (mkEvent Removed lease)
    = [removed_config wg_dev (wg_sample_key 65); removed_config wg_dev (wg_sample_key 65)].
Proof.
  destruct (wg_subnet_attrs (Some (V4 (IP4_from_octets 192 168 0 65))) (Some (V6 IP6_zero)) true true
      (Key_fmt (wg_sample_key 65)) 51820 51821) as [attrs|e] eqn:E; [|by vm_compute in E].
  exists attrs. split; [done|]. cbv zeta.
  apply (wg_announced_peer (wg_net Ipv4) (mkLease true true (l_subnet (wg_lease 65)) IP6Net_default attrs 0 0)
           attrs (wg_sample_key 65) (IP4_from_octets 192 168 0 65) IP6_zero 51820 51821 wg_dev);
    try done; apply (bool_decide_unpack _); by vm_compute.
Defined.

(** A kernel that only records the routes it is asked for; its configuration
    has an IPv4 network and no IPv6 network. *)
#[local] Instance RouteLogKernel : GenlKernel (list RouteMessage) := {|
  gk_open k := (k, Err 1);
  gk_send _ k := (k, Err 1);
  gk_recv k := (k, Err 1);
|}.

#[local] Instance RouteLogSystem : WgSystem (list RouteMessage) := {|
  ws_netlink_new k := (k, Ok ());
  ws_link_up _ k := (k, Ok ());
  ws_route_replace m k := (k ++ [m], Ok ());
  ws_network_config k :=
    (k, Ok (mkConfig true false false (mkIP4Net (IP4_from_octets 10 64 0 0) 16) IP6Net_default 0 0 None None 24 0
              "wireguard" None));
  ws_lookup_host _ k := (k, Err "failed to lookup address information");
|}.

(** Without an IPv6 network the event of an IPv4 peer in the modes with one
    device takes the default route of IPv6 to the WireGuard device; in mode
    [Separate] it does not. *)
Theorem wg_default_route_taken :
  let v4_route := mkRouteMessage Inet 16 (Some (V4 (IP4_from_octets 10 64 0 0))) None (Some 7) false in
  let default_route := mkRouteMessage Inet6 0 (Some (V6 IP6_zero)) None (Some 7) false in
  wg_handle_added 1 (wg_net Auto) (wg_lease 65) [] = [v4_route; default_route] /\
  wg_handle_added 1 (wg_net Ipv4) (wg_lease 65) [] = [v4_route; default_route] /\
  wg_handle_added 1 (wg_net Separate) (wg_lease 65) [] = [v4_route].
Proof. by vm_compute. Qed.
