(* ===== verification/IpMatch.v ===== *)
(** * [ipmatch/mod.rs], [flanneld/iface_select.rs]: the external interface

    The interface whose addresses this node announces: found by the literal
    or the name of [--iface], by a pattern, by a route, or as the interface of
    the default route; [select_external_iface] tries the configured ways in
    order.  The host is the interface [NlKernel] of the file Iface, the regular
    expressions are the interface [RegexEngine]. *)

From S2P Require Import Prelude RustStr Anyhow StdNet IpNet Ip6Net Lease RouteNetwork Iface.
#[local] Open Scope string_scope.
#[local] Open Scope list_scope.
#[local] Open Scope Z_scope.

(** ** [ipmatch/mod.rs] *)

Definition IPV4_STACK : Z := 0.
Definition IPV6_STACK : Z := 1.
Definition DUAL_STACK : Z := 2.
Definition NONE_STACK : Z := 3.

Record PublicIPOpts := mkPublicIPOpts {
  po_public_ip : string;
  po_public_ip_v6 : string;
}.

Definition get_ip_family (auto_detect_ipv4 auto_detect_ipv6 : bool) : result Z anyhow :=
  if auto_detect_ipv4 && negb auto_detect_ipv6 then Ok IPV4_STACK
  else if negb auto_detect_ipv4 && auto_detect_ipv6 then Ok IPV6_STACK
  else if auto_detect_ipv4 && auto_detect_ipv6 then Ok DUAL_STACK
  else Err ["none defined stack"].

Definition show_ip (ip : option IpAddr) : string :=
  match ip with None => "<nil>" | Some a => ip_fmt a end.

Definition ctx (prefix : string) (err : anyhow) : anyhow := prefix :: err.

Definition lookup_err (ifname : string) : anyhow -> anyhow :=
  ctx ("error looking up interface " +:+ ifname).
Definition lookup_v6_err (name : string) : anyhow -> anyhow :=
  ctx ("error looking up v6 interface " +:+ name).
Definition default_iface_err : anyhow -> anyhow := ctx "failed to get default interface".
Definition default_v6_iface_err : anyhow -> anyhow := ctx "failed to get default v6 interface".

(** [s.parse::<IpAddr>()]: a dotted quad, or else an IPv6 address, to the end
    of the string. *)
Definition parse_ip (s : string) : option IpAddr :=
  match read_ipv4_addr s with
  | Some (os, rest) => if str_is_empty rest then Some (V4 (from_be os)) else None
  | None => match parse_ipv6 s with Some gs => Some (V6 (octets_of_segments gs)) | None => None end
  end.

Definition is_ipv4 (ip : IpAddr) : bool := match ip with V4 _ => true | V6 _ => false end.

(** The crate [regex] *)
Class RegexEngine := {
  Regex : Type;
  regex_new : string -> result Regex string;
  is_match : Regex -> string -> bool;
}.

(** What the matching has found: the interface and its two addresses. *)
Record Found := mkFound {
  fd_iface : option NetIface;
  fd_addr : option IpAddr;
  fd_v6_addr : option IpAddr;
}.

Section Lookup.
Context `{NlKernel K} `{RegexEngine} (k : K).

(** The errors of the queries have no context. *)
Definition query {T} (r : result T string) : result T anyhow := map_err (fun e => [e]) r.

Definition iface_by_ip (ip : IpAddr) : result NetIface anyhow :=
  match ip with
  | V4 v4 => query (get_interface_by_ip k v4)
  | V6 _ => Err ["no interface with given IP found"]
  end.

Definition iface_by_ip6 (ip : IpAddr) : result NetIface anyhow :=
  match ip with
  | V6 v6 => query (get_interface_by_ip6 k v6)
  | V4 _ => Err ["no interface with given IPv6 found"]
  end.

Definition match_ip (re : Regex) (ips : list IpAddr) : option IpAddr :=
  List.find (fun ip => is_match re (ip_fmt ip)) ips.

Definition face_desc (name : string) (ips : list IpAddr) : string :=
  name +:+ ":[" +:+ str_join " " (map ip_fmt ips) +:+ "]".

(** [--iface] is an address. *)
Definition lookup_literal (ifname : string) (ip : IpAddr) (ip_stack : Z) (opts : PublicIPOpts)
  : result Found anyhow :=
  if ip_stack =? IPV4_STACK then
    let? f := map_err (lookup_err ifname) (iface_by_ip ip) in Ok (mkFound (Some f) (Some ip) None)
  else if ip_stack =? IPV6_STACK then
    let? f := map_err (lookup_v6_err ifname) (iface_by_ip6 ip) in Ok (mkFound (Some f) (Some ip) (Some ip))
  else if ip_stack =? DUAL_STACK then
    let? iface := (if is_ipv4 ip then
                     let? f := map_err (lookup_err ifname) (iface_by_ip ip) in Ok (Some f)
                   else Ok None) in
    match (if str_is_empty (po_public_ip_v6 opts) then None else parse_ip (po_public_ip_v6 opts)) with
    | None => Ok (mkFound iface (Some ip) None)
    | Some v6 =>
        let? v6_iface := map_err (lookup_v6_err (po_public_ip_v6 opts)) (iface_by_ip6 v6) in
        match iface with
        | None => Ok (mkFound (Some v6_iface) None (Some v6))
        | Some i =>
            if negb (String.eqb (ni_name i) (ni_name v6_iface)) then
              Err ["v6 interface " +:+ ni_name v6_iface +:+ " must be the same with v4 interface " +:+ ni_name i]
            else Ok (mkFound iface (Some ip) (Some v6))
        end
    end
  else Ok (mkFound None (Some ip) None).

(** One step of the loop over the interfaces for the pattern: the state and
    whether the loop ends. *)
Definition match_face (re : Regex) (ip_stack : Z) (st : Found) (face : NetIface) : Found * bool :=
  if ip_stack =? IPV4_STACK then
    match get_iface_ip4_addrs k face with
    | Ok ips => match match_ip re ips with
                | Some m => (mkFound (Some face) (Some m) (fd_v6_addr st), true)
                | None => (st, false)
                end
    | Err _ => (st, false)
    end
  else if ip_stack =? IPV6_STACK then
    match get_iface_ip6_addrs k face with
    | Ok ips => match match_ip re ips with
                | Some m => (mkFound (Some face) (fd_addr st) (Some m), true)
                | None => (st, false)
                end
    | Err _ => (st, false)
    end
  else if ip_stack =? DUAL_STACK then
    match get_iface_ip4_addrs k face, get_iface_ip6_addrs k face with
    | Ok v4s, Ok v6s =>
        match match_ip re v4s with
        | None => (st, false)
        | Some m =>
            let st := mkFound (fd_iface st) (Some m) (fd_v6_addr st) in
            match match_ip re v6s with
            | Some m6 => (mkFound (Some face) (fd_addr st) (Some m6), true)
            | None => (st, false)
            end
        end
    | _, _ => (st, false)
    end
  else (st, false).

Fixpoint match_faces (re : Regex) (ip_stack : Z) (st : Found) (faces : list NetIface) : Found :=
  match faces with
  | [] => st
  | face :: faces =>
      let '(st, matched) := match_face re ip_stack st face in
      if matched : bool then st else match_faces re ip_stack st faces
  end.

(** [get_iface_ip*_addrs(..).unwrap_or_default()] of the error message *)
Definition available (ip_stack : Z) (faces : list NetIface) : string :=
  str_join ", " (map (fun face =>
    face_desc (ni_name face)
      (default [] (result_ok (if ip_stack =? IPV6_STACK then get_iface_ip6_addrs k face
                              else get_iface_ip4_addrs k face)))) faces).

Definition lookup_regex (re : Regex) (ifregex : string) (ip_stack : Z) : result Found anyhow :=
  let? links := map_err (ctx "error listing all interfaces") (query (list_links k)) in
  let faces := map net_iface_of links in
  let st := match_faces re ip_stack (mkFound None None None) faces in
  let st :=
    if negb (is_some (fd_iface st)) && (negb (is_some (fd_addr st)) || negb (is_some (fd_v6_addr st)))
    then match List.find (fun face => is_match re (ni_name face)) faces with
         | Some face => mkFound (Some face) (fd_addr st) (fd_v6_addr st)
         | None => st
         end
    else st in
  if is_some (fd_iface st) then Ok st
  else Err ["could not match pattern " +:+ ifregex +:+ " to any of the available network interfaces ("
            +:+ available ip_stack faces +:+ ")"].

Definition lookup_canreach (ifcanreach : string) : result Found anyhow :=
  match parse_ip ifcanreach with
  | None => Err ["failed to get ifcanreach based interface"; "invalid IP address syntax"]
  | Some ip =>
      let? (i, addr) := map_err (ctx "failed to get ifcanreach based interface")
                          (query (get_interface_by_specific_ip_routing k ip)) in
      Ok (mkFound (Some i) addr None)
  end.

Definition lookup_default (ip_stack : Z) : result Found anyhow :=
  if ip_stack =? IPV4_STACK then
    let? (i, _) := map_err default_iface_err (query (get_default_gateway_interface k)) in
    Ok (mkFound (Some i) None None)
  else if ip_stack =? IPV6_STACK then
    let? (i, _) := map_err default_v6_iface_err (query (get_default_v6_gateway_interface k)) in
    Ok (mkFound (Some i) None None)
  else if ip_stack =? DUAL_STACK then
    let? (i, _) := map_err default_iface_err (query (get_default_gateway_interface k)) in
    let? (v6_iface, _) := map_err default_v6_iface_err (query (get_default_v6_gateway_interface k)) in
    if negb (String.eqb (ni_name i) (ni_name v6_iface)) then
      Err ["v6 default route interface " +:+ ni_name v6_iface
           +:+ " must be the same with v4 default route interface " +:+ ni_name i]
    else Ok (mkFound (Some i) None None)
  else Ok (mkFound None None None).

(** The four ways to find the interface *)
Definition find_iface (ifname : string) (compiled : option Regex) (ifregex ifcanreach : string) (ip_stack : Z)
    (opts : PublicIPOpts) : result Found anyhow :=
  if negb (str_is_empty ifname) then
    match parse_ip ifname with
    | Some ip => lookup_literal ifname ip ip_stack opts
    | None =>
        let? f := map_err (lookup_err ifname) (query (get_interface_by_name k ifname)) in
        Ok (mkFound (Some f) None None)
    end
  else
    match compiled with
    | Some re => lookup_regex re ifregex ip_stack
    | None =>
        if negb (str_is_empty ifcanreach) then lookup_canreach ifcanreach else lookup_default ip_stack
    end.

(** The addresses that the matching has left open: the first of the
    interface. *)
Definition fill_addr (ip_stack : Z) (i : NetIface) (addr : option IpAddr) : result (option IpAddr) anyhow :=
  if ((ip_stack =? IPV4_STACK) && negb (is_some addr)) || ((ip_stack =? DUAL_STACK) && negb (is_some addr)) then
    match get_iface_ip4_addrs k i with
    | Ok (a :: _) => Ok (Some a)
    | _ => Err ["failed to find IPv4 address for interface " +:+ ni_name i]
    end
  else Ok addr.

Definition fill_v6_addr (ip_stack : Z) (i : NetIface) (addr : option IpAddr) : result (option IpAddr) anyhow :=
  if ((ip_stack =? IPV6_STACK) && negb (is_some addr)) || ((ip_stack =? DUAL_STACK) && negb (is_some addr)) then
    match get_iface_ip6_addrs k i with
    | Ok (a :: _) => Ok (Some a)
    | _ => Err ["failed to find IPv6 address for interface " +:+ ni_name i]
    end
  else Ok addr.

(** A public address: given, or that of the interface unless the stack is the
    other family's. *)
Definition external_addr (public what : string) (other_stack ip_stack : Z) (iface_addr : option IpAddr)
  : result (option IpAddr) anyhow :=
  let? ext := (if negb (str_is_empty public) then
                 match parse_ip public with
                 | Some ip => Ok (Some ip)
                 | None => Err ["invalid public " +:+ what +:+ " address: " +:+ public]
                 end
               else Ok None) in
  Ok (if negb (is_some ext) && negb (ip_stack =? other_stack) then iface_addr else ext).

Definition compile_regex (ifregex : string) : result (option Regex) anyhow :=
  if negb (str_is_empty ifregex) then
    match regex_new ifregex with
    | Ok re => Ok (Some re)
    | Err e => Err ["could not compile the IP address regex '" +:+ ifregex +:+ "': " +:+ e]
    end
  else Ok None.

Definition lookup_ext_iface (ifname ifregex ifcanreach : string) (ip_stack : Z) (opts : PublicIPOpts)
  : result ExternalInterface anyhow :=
  let? compiled := compile_regex ifregex in
  if ip_stack =? NONE_STACK then Err ["none matched ip stack"]
  else
    let? found := find_iface ifname compiled ifregex ifcanreach ip_stack opts in
    let? i := ok_or (fd_iface found) ["couldn't find interface to use"] in
    let? iface_addr := fill_addr ip_stack i (fd_addr found) in
    let? iface_v6_addr := fill_v6_addr ip_stack i (fd_v6_addr found) in
    let mtu := default 0 (result_ok (get_link_mtu k (ni_index i))) in
    if mtu =? 0 then Err ["failed to determine MTU for " +:+ show_ip iface_addr +:+ " interface"]
    else
      let? ext_addr := external_addr (po_public_ip opts) "IP" IPV6_STACK ip_stack iface_addr in
      let? ext_v6_addr := external_addr (po_public_ip_v6 opts) "IPv6" IPV4_STACK ip_stack iface_v6_addr in
      Ok (mkExternalInterface (ni_index i) (ni_name i) iface_addr iface_v6_addr ext_addr ext_v6_addr).
End Lookup.

(** ** [flanneld/iface_select.rs] *)

(** The options of [flanneld] that the selection reads *)
Record IfaceOptions := mkIfaceOptions {
  op_iface : list string;
  op_iface_regex : list string;
  op_iface_can_reach : string;
  op_public_ip : string;
  op_public_ipv6 : string;
}.

Section Select.
Context `{NlKernel K} `{RegexEngine}.

Definition no_valid (e : string) : string := "Failed to find any valid interface to use: " +:+ e.
Definition no_match : string :=
  "Failed to find interface to use that matches the interfaces and/or regexes provided".

(** A loop over candidates: the first that is found *)
Fixpoint first_found (look : string -> result ExternalInterface anyhow) (names : list string)
  : option ExternalInterface :=
  match names with
  | [] => None
  | name :: names => match look name with Ok found => Some found | Err _ => first_found look names end
  end.

(** [connection] is the outcome of [Netlink::new]. *)
Definition select_external_iface (connection : result K string) (opts : IfaceOptions) (ip_stack : Z)
  : result ExternalInterface anyhow :=
  let public_opts := mkPublicIPOpts (op_public_ip opts) (op_public_ipv6 opts) in
  let no_explicit := bool_decide (op_iface opts = []) && bool_decide (op_iface_regex opts = [])
                     && str_is_empty (op_iface_can_reach opts) in
  let? k := map_err (fun e => if no_explicit then [no_valid e] else [no_match]) connection in
  if no_explicit then
    let ifname := if negb (str_is_empty (op_public_ip opts)) then op_public_ip opts else op_public_ipv6 opts in
    map_err (fun e => [no_valid (fmt_anyhow e)]) (lookup_ext_iface k ifname "" "" ip_stack public_opts)
  else
    let ext_iface := first_found (fun iface => lookup_ext_iface k iface "" "" ip_stack public_opts) (op_iface opts) in
    let ext_iface :=
      if is_some ext_iface then ext_iface
      else first_found (fun re => lookup_ext_iface k "" re "" ip_stack public_opts) (op_iface_regex opts) in
    let ext_iface :=
      if negb (is_some ext_iface) && negb (str_is_empty (op_iface_can_reach opts)) then
        match lookup_ext_iface k "" "" (op_iface_can_reach opts) ip_stack public_opts with
        | Ok found => Some found
        | Err _ => ext_iface
        end
      else ext_iface in
    ok_or ext_iface [no_match].
End Select.

(** * Theorems *)

Section Ownership.
Context `{NlKernel K}.

(** The kernel lists the address on the interface. *)
Definition owns (k : K) (index : Z) (family : AddressFamily) (ip : IpAddr) : Prop :=
  exists a, In a (nl_addrs k index).1 /\ am_family a = Some family /\ addr_ip a = Some ip.

Lemma insert_by_In {A} (cmp : A -> A -> comparison) x l a : In a (insert_by cmp x l) -> a = x \/ In a l.
Proof.
  induction l as [|y l IH]; cbn; [intuition|]. destruct (cmp x y); cbn; intuition.
Qed.

Lemma sort_by_In {A} (cmp : A -> A -> comparison) l a : In a (sort_by cmp l) -> In a l.
Proof.
  induction l as [|x l IH]; [done|]. cbn [sort_by foldr]. intros Ha.
  destruct (insert_by_In _ _ _ _ Ha) as [->|Ha']; [by left|right; by apply IH].
Qed.

Lemma usable_addr_owned (k : K) i family only addrs ip :
  list_iface_addrs k (ni_index i) family = Ok addrs ->
  ip ∈ omap (usable_ip only) (sort_by compare_addrs addrs) -> owns k (ni_index i) family ip.
Proof.
  unfold list_iface_addrs, collect. destruct (nl_addrs k (ni_index i)) as [l [e|]] eqn:Hl; [done|].
  intros [= <-] Hip. apply list_elem_of_omap in Hip as (a & Ha & Hu).
  apply list_elem_of_In, sort_by_In, filter_In in Ha as [Ha Hf]. apply bool_decide_eq_true_1 in Hf.
  exists a. rewrite Hl. split_and!; [done|done|]. unfold usable_ip in Hu.
  destruct (addr_ip a) as [x|]; [|done]. by destruct (_ && _); simplify_eq.
Qed.

Lemma ip4_addrs_owned (k : K) i ips ip :
  get_iface_ip4_addrs k i = Ok ips -> ip ∈ ips -> owns k (ni_index i) Inet ip.
Proof.
  unfold get_iface_ip4_addrs. destruct (list_iface_addrs k (ni_index i) Inet) as [addrs|] eqn:Ha; [|done].
  cbn [rbind]. case_bool_decide; [done|]. intros [= <-]. by apply usable_addr_owned.
Qed.

Lemma ip6_addrs_owned (k : K) i ips ip :
  get_iface_ip6_addrs k i = Ok ips -> ip ∈ ips -> owns k (ni_index i) Inet6 ip.
Proof.
  unfold get_iface_ip6_addrs. destruct (list_iface_addrs k (ni_index i) Inet6) as [addrs|] eqn:Ha; [|done].
  cbn [rbind]. case_bool_decide; [done|]. intros [= <-]. by apply usable_addr_owned.
Qed.

Lemma iface_owning_sound (k : K) family ip err links i :
  iface_owning k family ip err links = Ok i ->
  exists link, In link links /\ i = net_iface_of link /\ owns k (lm_index link) family ip.
Proof.
  induction links as [|link links IH]; [done|]. cbn [iface_owning].
  unfold any_in. destruct (existsb _ _) eqn:He; cbn [rbind].
  - intros [= <-]. exists link. split_and!; [by left|done|].
    apply existsb_exists in He as (a & Ha & Hp). apply andb_true_iff in Hp as [Hf Hi].
    exists a. split_and!; [done|by apply bool_decide_eq_true_1 in Hf|by apply bool_decide_eq_true_1 in Hi].
  - destruct (nl_addrs k (lm_index link)).2; [done|]. cbn. intros Hi.
    destruct (IH Hi) as (l & ? & ? & ?). exists l. split_and!; [by right|done|done].
Qed.

(** A listed link of that name owns the address. *)
Definition owned_under (k : K) (name : string) (family : AddressFamily) (ip : IpAddr) : Prop :=
  exists link, In link (nl_links k).1 /\ link_name link = name /\ owns k (lm_index link) family ip.

Lemma iface_by_ip_sound (k : K) ip i :
  iface_by_ip k ip = Ok i -> owns k (ni_index i) Inet ip.
Proof.
  destruct ip as [v4|v6]; [|done]. cbn. unfold query, get_interface_by_ip.
  destruct (list_links k) as [links|]; [|done]. cbn [rbind].
  destruct (iface_owning _ _ _ _ _) eqn:Ho; [|done]. intros [= <-].
  apply iface_owning_sound in Ho as (link & _ & -> & Ho). exact Ho.
Qed.

Lemma iface_by_ip6_sound (k : K) ip i :
  iface_by_ip6 k ip = Ok i -> owns k (ni_index i) Inet6 ip /\ owned_under k (ni_name i) Inet6 ip.
Proof.
  destruct ip as [v4|v6]; [done|]. cbn. unfold query, get_interface_by_ip6, list_links, collect.
  destruct (nl_links k) as [links [e|]] eqn:Hl; [done|]. cbn [rbind snd fst].
  destruct (iface_owning _ _ _ _ _) eqn:Ho; [|done]. intros [= <-].
  apply iface_owning_sound in Ho as (link & Hin & -> & Ho). split; [exact Ho|].
  apply filter_In in Hin as [Hin _]. exists link. rewrite Hl. done.
Qed.
End Ownership.

Section Soundness.
Context `{NlKernel K} `{RegexEngine}.

(** For two stacks the IPv6 address may be that of an interface of the same
    name. *)
Definition v6_owned (k : K) (ip_stack : Z) (index : Z) (name : string) (ip : IpAddr) : Prop :=
  owns k index Inet6 ip \/ (ip_stack = DUAL_STACK /\ owned_under k name Inet6 ip).

(** The addresses that the matching has fixed, if any, are the interface's. *)
Definition found_owned (k : K) (ip_stack : Z) (f : Found) : Prop :=
  forall i, fd_iface f = Some i ->
    (ip_stack <> IPV6_STACK -> forall a, fd_addr f = Some a -> owns k (ni_index i) Inet a)
    /\ (forall a, fd_v6_addr f = Some a -> v6_owned k ip_stack (ni_index i) (ni_name i) a).

Lemma found_owned_bare k ip_stack i : found_owned k ip_stack (mkFound i None None).
Proof. by intros j _. Qed.

Lemma lookup_literal_owned k ifname ip ip_stack opts f :
  lookup_literal k ifname ip ip_stack opts = Ok f -> found_owned k ip_stack f.
Proof.
  unfold lookup_literal. destruct (Z.eqb_spec ip_stack IPV4_STACK) as [->|_].
  { destruct (iface_by_ip k ip) as [i|] eqn:Hi; [|done]. intros [= <-] j [= <-]. split; [|done].
    intros _ a [= <-]. by apply iface_by_ip_sound. }
  destruct (Z.eqb_spec ip_stack IPV6_STACK) as [->|_].
  { destruct (iface_by_ip6 k ip) as [i|] eqn:Hi; [|done]. intros [= <-] j [= <-]. split; [done|].
    intros a [= <-]. left. by apply iface_by_ip6_sound. }
  destruct (Z.eqb_spec ip_stack DUAL_STACK) as [->|_]; [|by intros [= <-]].
  destruct (is_ipv4 ip) eqn:H4; cbn [rbind].
  - destruct (iface_by_ip k ip) as [i|] eqn:Hi; [|done]. cbn [rbind map_err].
    apply iface_by_ip_sound in Hi.
    destruct (if str_is_empty _ then _ else _) as [v6|].
    + destruct (iface_by_ip6 k v6) as [i6|] eqn:Hi6; [|done]. cbn [rbind map_err].
      apply iface_by_ip6_sound in Hi6 as [_ Hi6].
      destruct (String.eqb_spec (ni_name i) (ni_name i6)) as [Hn|]; [|done]. intros [= <-] j [= <-].
      split; [by intros _ a [= <-]|]. intros a [= <-]. right. by rewrite Hn.
    + intros [= <-] j [= <-]. split; [by intros _ a [= <-]|done].
  - destruct (if str_is_empty _ then _ else _) as [v6|]; [|by intros [= <-]].
    destruct (iface_by_ip6 k v6) as [i6|] eqn:Hi6; [|done]. intros [= <-] j [= <-]. split; [done|].
    intros a [= <-]. left. by apply iface_by_ip6_sound.
Qed.

Lemma match_ip_elem re ips ip : match_ip re ips = Some ip -> ip ∈ ips.
Proof. intros Hf. apply List.find_some in Hf as [Hf _]. by apply list_elem_of_In. Qed.

Lemma match_faces_owned k re ip_stack faces :
  ip_stack <> DUAL_STACK ->
  let f := match_faces k re ip_stack (mkFound None None None) faces in
  f = mkFound None None None \/ (is_some (fd_iface f) = true /\ found_owned k ip_stack f).
Proof.
  intros Hd. induction faces as [|face faces IH]; [by left|]. cbn [match_faces]. unfold match_face.
  destruct (Z.eqb_spec ip_stack IPV4_STACK) as [->|H4].
  { destruct (get_iface_ip4_addrs k face) as [ips|] eqn:Hips; [|exact IH].
    destruct (match_ip re ips) as [m|] eqn:Hm; [|exact IH]. right. split; [done|]. intros i [= <-]. split; [|done].
    intros _ a [= <-]. eapply ip4_addrs_owned; [done|by eapply match_ip_elem]. }
  destruct (Z.eqb_spec ip_stack IPV6_STACK) as [->|H6].
  { destruct (get_iface_ip6_addrs k face) as [ips|] eqn:Hips; [|exact IH].
    destruct (match_ip re ips) as [m|] eqn:Hm; [|exact IH]. right. split; [done|]. intros i [= <-]. split; [done|].
    intros a [= <-]. left. eapply ip6_addrs_owned; [done|by eapply match_ip_elem]. }
  rewrite (proj2 (Z.eqb_neq _ _) Hd). exact IH.
Qed.

Lemma lookup_regex_owned k re ifregex ip_stack f :
  ip_stack <> DUAL_STACK -> lookup_regex k re ifregex ip_stack = Ok f -> found_owned k ip_stack f.
Proof.
  intros Hd. unfold lookup_regex. destruct (list_links k) as [links|]; [|done]. cbn [rbind map_err query].
  pose proof (match_faces_owned k re ip_stack (map net_iface_of links) Hd) as Hm. cbv zeta in Hm.
  destruct (match_faces _ _ _ _ _) as [i a a6]. cbn [fd_iface fd_addr fd_v6_addr] in *.
  destruct Hm as [[= -> -> ->]|[Hi Hm]].
  - cbn. destruct (List.find _ _) as [face|]; [|done]. cbn. intros [= <-]. apply found_owned_bare.
  - destruct i as [i|]; [|done]. cbn. intros [= <-]. exact Hm.
Qed.

(** Without a route lookup, and without a pattern over two stacks, the
    matching only fixes addresses of the interface it finds. *)
Definition exact_lookup (ifname ifregex ifcanreach : string) (ip_stack : Z) : bool :=
  negb (str_is_empty ifname)
  || (if negb (str_is_empty ifregex) then negb (ip_stack =? DUAL_STACK) else str_is_empty ifcanreach).

Lemma find_iface_owned k ifname re ifregex ifcanreach ip_stack opts f :
  exact_lookup ifname ifregex ifcanreach ip_stack = true -> compile_regex ifregex = Ok re ->
  find_iface k ifname re ifregex ifcanreach ip_stack opts = Ok f -> found_owned k ip_stack f.
Proof.
  unfold exact_lookup, compile_regex, find_iface. intros He Hre.
  destruct (str_is_empty ifname) eqn:Hn; cbn [negb orb] in *.
  - destruct (str_is_empty ifregex); cbn [negb] in *.
    + injection Hre as <-. rewrite He. cbn [negb]. unfold lookup_default.
      destruct (ip_stack =? IPV4_STACK); [|destruct (ip_stack =? IPV6_STACK); [|destruct (ip_stack =? DUAL_STACK)]];
        repeat match goal with |- context [query ?q] => destruct q as [[? ?]|]; cbn end;
        try (intros [= <-]); try done; try apply found_owned_bare.
      destruct (negb _); [done|]. intros [= <-]. apply found_owned_bare.
    + destruct (regex_new ifregex) as [r|]; [|done]. injection Hre as <-.
      apply lookup_regex_owned. apply negb_true_iff, Z.eqb_neq in He. exact He.
  - destruct (parse_ip ifname) as [ip|]; [apply lookup_literal_owned|].
    destruct (query _) as [i|]; [|done]. intros [= <-]. apply found_owned_bare.
Qed.

Lemma fill_addr_owned k ip_stack i a0 a :
  ip_stack = IPV4_STACK \/ ip_stack = DUAL_STACK ->
  (forall x, a0 = Some x -> owns k (ni_index i) Inet x) ->
  fill_addr k ip_stack i a0 = Ok a -> exists x, a = Some x /\ owns k (ni_index i) Inet x.
Proof.
  intros Hs Ha0. unfold fill_addr. destruct a0 as [x|]; cbn [is_some negb].
  - rewrite !andb_false_r. intros [= <-]. eauto.
  - replace (_ || _) with true by (by destruct Hs as [->| ->]).
    destruct (get_iface_ip4_addrs k i) as [[|x l]|] eqn:Hi; try done. intros [= <-]. exists x. split; [done|].
    eapply ip4_addrs_owned; [done|]. apply elem_of_cons. by left.
Qed.

Lemma fill_v6_addr_owned k ip_stack i a0 a :
  ip_stack = IPV6_STACK \/ ip_stack = DUAL_STACK ->
  (forall x, a0 = Some x -> v6_owned k ip_stack (ni_index i) (ni_name i) x) ->
  fill_v6_addr k ip_stack i a0 = Ok a ->
  exists x, a = Some x /\ v6_owned k ip_stack (ni_index i) (ni_name i) x.
Proof.
  intros Hs Ha0. unfold fill_v6_addr. destruct a0 as [x|]; cbn [is_some negb].
  - rewrite !andb_false_r. intros [= <-]. eauto.
  - replace (_ || _) with true by (by destruct Hs as [->| ->]).
    destruct (get_iface_ip6_addrs k i) as [[|x l]|] eqn:Hi; try done. intros [= <-]. exists x. split; [done|].
    left. eapply ip6_addrs_owned; [done|]. apply elem_of_cons. by left.
Qed.

(** The external address the options and the interface give *)
Definition announced (public : string) (other_stack ip_stack : Z) (iface_addr : option IpAddr) : option IpAddr :=
  if str_is_empty public then if ip_stack =? other_stack then None else iface_addr else parse_ip public.

Lemma external_addr_announced public what other ip_stack addr ext :
  external_addr public what other ip_stack addr = Ok ext ->
  ext = announced public other ip_stack addr /\ (public <> "" -> is_some (parse_ip public) = true).
Proof.
  unfold external_addr, announced, str_is_empty. destruct (String.eqb_spec public "") as [->|Hne]; cbn.
  - intros [= <-]. split; [by destruct (ip_stack =? other)|done].
  - destruct (parse_ip public); [|done]. cbn. intros [= <-]. done.
Qed.

(** C27: when the lookup of the external interface succeeds, the interface has a
    known MTU.  On the IPv4 stack and on both stacks it has an IPv4 address
    that the kernel lists on that interface, on the IPv6 stack and on both an
    IPv6 address (for two stacks perhaps on an interface of the same name),
    unless the addresses come from a route lookup or from a pattern over two
    stacks.  The announced addresses are the configured ones, which are then
    valid, or else those of the interface. *)
Theorem lookup_ext_iface_sound (k : K) ifname ifregex ifcanreach ip_stack opts ei :
  lookup_ext_iface k ifname ifregex ifcanreach ip_stack opts = Ok ei ->
  (exists mtu, get_link_mtu k (ei_iface_index ei) = Ok mtu /\ mtu <> 0)
  /\ (exact_lookup ifname ifregex ifcanreach ip_stack = true ->
       (ip_stack = IPV4_STACK \/ ip_stack = DUAL_STACK ->
        exists a, ei_iface_addr ei = Some a /\ owns k (ei_iface_index ei) Inet a)
       /\ (ip_stack = IPV6_STACK \/ ip_stack = DUAL_STACK ->
           exists a, ei_iface_v6_addr ei = Some a
             /\ v6_owned k ip_stack (ei_iface_index ei) (ei_iface_name ei) a))
  /\ ei_ext_addr ei = announced (po_public_ip opts) IPV6_STACK ip_stack (ei_iface_addr ei)
  /\ ei_ext_v6_addr ei = announced (po_public_ip_v6 opts) IPV4_STACK ip_stack (ei_iface_v6_addr ei)
  /\ (po_public_ip opts <> "" -> is_some (parse_ip (po_public_ip opts)) = true)
  /\ (po_public_ip_v6 opts <> "" -> is_some (parse_ip (po_public_ip_v6 opts)) = true).
Proof.
  unfold lookup_ext_iface. destruct (compile_regex ifregex) as [re|] eqn:Hre; [|done]. cbn [rbind].
  destruct (ip_stack =? NONE_STACK); [done|].
  destruct (find_iface _ _ _ _ _ _ _) as [f|] eqn:Hf; [|done]. cbn [rbind].
  destruct (fd_iface f) as [i|] eqn:Hi; [|done]. cbn [rbind ok_or].
  destruct (fill_addr k ip_stack i _) as [a|] eqn:Ha; [|done]. cbn [rbind].
  destruct (fill_v6_addr k ip_stack i _) as [a6|] eqn:Ha6; [|done]. cbn [rbind]. cbv zeta.
  destruct (Z.eqb_spec (default 0 (result_ok (get_link_mtu k (ni_index i)))) 0) as [|Hmtu]; [done|].
  destruct (external_addr (po_public_ip opts) _ _ _ _) as [x|] eqn:Hx; [|done]. cbn [rbind].
  destruct (external_addr (po_public_ip_v6 opts) _ _ _ _) as [x6|] eqn:Hx6; [|done]. cbn [rbind].
  intros [= <-]. cbn [ei_iface_index ei_iface_name ei_iface_addr ei_iface_v6_addr ei_ext_addr ei_ext_v6_addr].
  apply external_addr_announced in Hx as [-> Hp], Hx6 as [-> Hp6].
  split; [destruct (get_link_mtu k (ni_index i)) as [mtu|]; [by exists mtu|done]|].
  split; [|done]. intros He. destruct (find_iface_owned _ _ _ _ _ _ _ _ He Hre Hf i Hi) as [H4 H6]. split.
  - intros Hs. eapply fill_addr_owned; [done| |done]. apply H4. by destruct Hs as [->| ->].
  - intros Hs. by eapply fill_v6_addr_owned.
Qed.
End Soundness.

Section Selection.
Context `{NlKernel K} `{RegexEngine}.

(** The lookups that the options ask for, in order: each [--iface], each
    [--iface-regex], then [--iface-can-reach]. *)
Definition candidates (opts : IfaceOptions) : list (string * string * string) :=
  map (fun iface => (iface, "", "")) (op_iface opts)
  ++ map (fun re => ("", re, "")) (op_iface_regex opts)
  ++ (if str_is_empty (op_iface_can_reach opts) then [] else [("", "", op_iface_can_reach opts)]).

Definition attempt (k : K) (opts : IfaceOptions) (ip_stack : Z) (c : string * string * string)
  : option ExternalInterface :=
  let '(ifname, ifregex, ifcanreach) := c in
  result_ok (lookup_ext_iface k ifname ifregex ifcanreach ip_stack
               (mkPublicIPOpts (op_public_ip opts) (op_public_ipv6 opts))).

Lemma find_map_app {A B} (f : A -> option B) l l' :
  find_map f (l ++ l') = match find_map f l with Some b => Some b | None => find_map f l' end.
Proof. induction l as [|a l IH]; [done|]. cbn. by destruct (f a). Qed.

Lemma first_found_find look names (tag : string -> string * string * string) (f : _ -> option ExternalInterface) :
  (forall n, f (tag n) = result_ok (look n)) -> first_found look names = find_map f (map tag names).
Proof.
  intros Hf. induction names as [|n names IH]; [done|]. cbn. rewrite Hf, IH. by destruct (look n).
Qed.

(** When some interface, pattern or destination is configured, the
    selection answers with the first of the configured lookups, in order, that
    succeeds, and fails only when none does. *)
Theorem select_external_iface_first (k : K) opts ip_stack :
  candidates opts <> [] ->
  select_external_iface (Ok k) opts ip_stack
  = ok_or (find_map (attempt k opts ip_stack) (candidates opts)) [no_match].
Proof.
  intros Hc. unfold select_external_iface. cbn [map_err rbind].
  replace (bool_decide (op_iface opts = []) && _ && _) with false.
  2:{ symmetry. apply not_true_is_false. rewrite !andb_true_iff. intros [[Hi Hr] Hr'].
      apply bool_decide_eq_true_1 in Hi, Hr. apply Hc. unfold candidates. by rewrite Hi, Hr, Hr'. }
  f_equal. unfold candidates. rewrite !find_map_app.
  rewrite (first_found_find _ _ (fun iface => (iface, "", "")) (attempt k opts ip_stack)) by done.
  rewrite (first_found_find _ _ (fun re => ("", re, "")) (attempt k opts ip_stack)) by done.
  destruct (find_map _ (map _ (op_iface opts))); [done|]. cbn [is_some negb andb].
  destruct (find_map _ (map _ (op_iface_regex opts))); [done|]. cbn [is_some negb andb].
  destruct (str_is_empty (op_iface_can_reach opts)); [done|]. cbn [negb find_map attempt].
  by destruct (lookup_ext_iface _ _ _ _ _ _).
Qed.

(** Without options, the interface of the default route with its first address. *)
Theorem select_default_iface (k : K) i gw a ips mtu :
  get_default_gateway_interface k = Ok (i, gw) -> get_iface_ip4_addrs k i = Ok (a :: ips) ->
  get_link_mtu k (ni_index i) = Ok mtu -> mtu <> 0 ->
  select_external_iface (Ok k) (mkIfaceOptions [] [] "" "" "") IPV4_STACK
  = Ok (mkExternalInterface (ni_index i) (ni_name i) (Some a) None (Some a) None).
Proof.
  intros Hi Ha Hm Hne. unfold select_external_iface. cbn [map_err rbind].
  rewrite !bool_decide_true by done. cbn -[lookup_ext_iface].
  unfold lookup_ext_iface, compile_regex, find_iface, lookup_default. cbn -[get_default_gateway_interface get_iface_ip4_addrs get_link_mtu].
  rewrite Hi. cbn -[get_iface_ip4_addrs get_link_mtu]. unfold fill_addr, fill_v6_addr. cbn -[get_iface_ip4_addrs get_link_mtu].
  rewrite Ha. cbn -[get_link_mtu]. rewrite Hm. cbn. by rewrite (proj2 (Z.eqb_neq _ _) Hne).
Qed.
End Selection.

(** ** Witnesses: patterns that are alternatives of prefixes *)

#[local] Instance PrefixRegex : RegexEngine := {
  Regex := list string;
  regex_new s := Ok (str_split "|" s);
  is_match re s := existsb (fun p => String.prefix p s) re;
}.

#[local] Abbreviation addr i fam plen ip := (mkAddressMessage i (Some fam) plen true false false [IfaLocal ip]).

Definition eth0_found : ExternalInterface :=
  mkExternalInterface 2 "eth0" (Some (V4 (IP4_from_octets 192 168 0 7))) None
    (Some (V4 (IP4_from_octets 203 0 113 9))) None.

Lemma eth0_lookup :
  lookup_ext_iface nl_host "" "192." "" IPV4_STACK (mkPublicIPOpts "203.0.113.9" "") = Ok eth0_found.
Proof. by vm_compute. Qed.

Lemma lookup_ext_iface_sound_witness :
  exists a, ei_iface_addr eth0_found = Some a /\ owns nl_host (ei_iface_index eth0_found) Inet a.
Proof.
  pose proof (lookup_ext_iface_sound nl_host "" "192." "" IPV4_STACK (mkPublicIPOpts "203.0.113.9" "")
                eth0_found eth0_lookup) as Hs.
  apply (proj1 (proj1 (proj2 Hs) eq_refl) (or_introl eq_refl)).
Defined.

Definition eth_or_route : IfaceOptions := mkIfaceOptions ["10.0.0.1"; "eth0"] [] "192.168.0.1" "" "".

Lemma select_external_iface_first_witness :
  select_external_iface (Ok nl_host) eth_or_route IPV4_STACK
  = ok_or (find_map (attempt nl_host eth_or_route IPV4_STACK) (candidates eth_or_route)) [no_match].
Proof. apply select_external_iface_first. by vm_compute. Defined.

Example select_example :
  option_map ei_iface_name (result_ok (select_external_iface (Ok nl_host) eth_or_route IPV4_STACK)) = Some "eth0".
Proof. by vm_compute. Qed.

(** A host with two interfaces of both families *)
Definition two_hosts : NlTable :=
  mkNlTable [mkLinkMessage 2 [IfName "eth0"; Mtu 1500]; mkLinkMessage 3 [IfName "wan0"; Mtu 1500]]
    [addr 2 Inet 24 (V4 (IP4_from_octets 10 0 0 7)); addr 2 Inet6 64 (V6 (to_be 16 0xfd000000000000000000000000000001));
     addr 3 Inet 24 (V4 (IP4_from_octets 192 0 2 7)); addr 3 Inet6 64 (V6 (to_be 16 0xfd000000000000000000000000000002))] [].

(** A pattern over two stacks that matches the IPv4 address of one interface
    and the name of another selects the second with the address of the first. *)
Theorem dual_regex_mixes_interfaces :
  exists ei, lookup_ext_iface two_hosts "" "10.|wan" "" DUAL_STACK (mkPublicIPOpts "" "") = Ok ei
    /\ ei_iface_name ei = "wan0" /\ ei_iface_addr ei = Some (V4 (IP4_from_octets 10 0 0 7))
    /\ ei_iface_v6_addr ei = Some (V6 (to_be 16 0xfd000000000000000000000000000002)).
Proof. eexists. split; [by vm_compute|]. by vm_compute. Qed.

(** The error of the selection carries only the outermost message: the cause
    of a failed default lookup is not in it. *)
Theorem select_error_drops_cause :
  select_external_iface (Ok (mkNlTable [] [] [])) (mkIfaceOptions [] [] "" "" "") IPV4_STACK
  = Err ["Failed to find any valid interface to use: failed to get default interface"].
Proof. by vm_compute. Qed.
