(* ===== verification/Cni.v ===== *)
(** * [flannel-cni]: the CNI plugin

    [netconf.rs] builds the configuration of the delegate plugin from the
    runtime's configuration and subnet.env (whose parser is in the file
    SubnetEnv), [delegate.rs] finds and runs the delegate, [masq.rs] installs
    the masquerade rules, [lib.rs] and [skel.rs] put the commands together.
    The JSON texts are the interface [CniJson], the environment, the files and
    the processes the interface [CniSystem]; outputs are decoded text.  An
    error of a parser carries its outermost message. *)

From S2P Require Import Prelude RustStr StdNet IpNet Ip6Net Config Anyhow SubnetEnv Lease IptRules Iptables IptTools.
#[local] Open Scope string_scope.
#[local] Open Scope list_scope.
#[local] Open Scope Z_scope.

(** ** [netconf.rs] *)

Definition DEFAULT_SUBNET_ENV : string := "/run/flannel/subnet.env".
Definition DEFAULT_DELEGATE_TYPE : string := "bridge".
Definition DEFAULT_DELEGATE_IPAM_TYPE : string := "host-local".

Record NetConf := mkNetConf {
  nc_cni_version : string;
  nc_name : string;
  nc_plugin_type : string;
  nc_delegate : JsonMap;
}.

Definition default_cni_version : string := "1.0.0".

(** A JSON text: the members of an object in the order of the text, the
    elements of an array, or something else. *)
Inductive JsonText := TObject (members : list (string * Value)) | TArray (elements : list Value) | TOther.

Class CniJson := {
  cj_text : string -> result JsonText string;
  cj_value : string -> result Value string;
  cj_print : Value -> string;
  (** the message of a member that does not decode *)
  cj_invalid : string -> string -> string;
}.

(** One field of the derived [Deserialize]: at most one member, of the right
    type, or else the default. *)
Definition members_of (key : string) (members : list (string * Value)) : list Value :=
  map snd (List.filter (fun kv => String.eqb kv.1 key) members).

Definition field_of {T} (decode : Value -> option T) (absent : T) (vs : list Value) : option T :=
  match vs with
  | [] => Some absent
  | [v] => decode v
  | _ => None
  end.

Definition as_map (v : Value) : option JsonMap := match v with VObject m => Some m | _ => None end.

Definition netconf_of (cni_version name plugin_type delegate : list Value) : option NetConf :=
  match field_of as_str default_cni_version cni_version, field_of as_str "" name,
        field_of as_str "" plugin_type, field_of as_map [] delegate with
  | Some v, Some n, Some t, Some d => Some (mkNetConf v n t d)
  | _, _, _, _ => None
  end.

(** A struct is also read from the array of its fields. *)
Definition netconf_of_text (t : JsonText) : option NetConf :=
  match t with
  | TObject ms => netconf_of (members_of "cniVersion" ms) (members_of "name" ms) (members_of "type" ms)
                    (members_of "delegate" ms)
  | TArray vs =>
      if (length vs <=? 4)%nat
      then netconf_of (take 1 vs) (take 1 (drop 1 vs)) (take 1 (drop 2 vs)) (take 1 (drop 3 vs))
      else None
  | TOther => None
  end.

Definition load_flannel_net_conf `{CniJson} (bytes : string) : result NetConf anyhow :=
  with_context "failed to parse flannel netconf"
    (let? t := map_err (fun e => [e]) (cj_text bytes) in
     ok_or (netconf_of_text t) [cj_invalid "NetConf" bytes]).

(** [s.split('.').map(|c| c.parse::<u64>().unwrap_or(0))] *)
Definition components (s : string) : list Z :=
  map (fun c => default 0 (result_ok (parse_u64 c))) (str_split "." s).

(** The loop over the positions of the longer list *)
Fixpoint at_least (n : nat) (va vb : list Z) : bool :=
  match n with
  | O => true
  | S n =>
      let x := default 0 (list.head va) in
      let y := default 0 (list.head vb) in
      if negb (x =? y) then y <? x else at_least n (tail va) (tail vb)
  end.

Definition version_at_least (a b : string) : bool :=
  let '(va, vb) := (components a, components b) in at_least (Nat.max (length va) (length vb)) va vb.

Definition user_routes_present (conf : NetConf) : bool :=
  Map_contains_key (nc_delegate conf) "routes"
  || match Map_get (nc_delegate conf) "ipam" with
     | Some (VObject ipam) => Map_contains_key ipam "routes"
     | _ => false
     end.

(** [json!({"key": text})] *)
Definition json_str (key text : string) : Value := VObject [(key, VString text)].

Definition build_ipam (conf : NetConf) (env : FlannelSubnetEnv) : result Value anyhow :=
  let ipam := Map_insert [] "type" (VString DEFAULT_DELEGATE_IPAM_TYPE) in
  let ipam := match Map_get (nc_delegate conf) "ipam" with
              | Some (VObject user_ipam) => Map_extend ipam user_ipam
              | _ => ipam
              end in
  let? ipam :=
    (if version_at_least (nc_cni_version conf) "0.3.0" then
       let ranges := map (fun subnet => VArray [json_str "subnet" subnet])
                       (option_list (option_map IP4Net_fmt (fse_subnet env))
                        ++ option_list (option_map IP6Net_fmt (fse_ipv6_subnet env))) in
       Ok (Map_insert ipam "ranges" (VArray ranges))
     else
       match fse_subnet env with
       | Some subnet => Ok (Map_insert ipam "subnet" (VString (IP4Net_fmt subnet)))
       | None => Err ["IPv6 subnets are not supported for cniVersion " +:+ nc_cni_version conf]
       end) in
  let ipam :=
    if negb (user_routes_present conf) then
      Map_insert ipam "routes"
        (VArray ((if is_some (fse_subnet env) then [json_str "dst" "0.0.0.0/0"] else [])
                 ++ (if is_some (fse_ipv6_subnet env) then [json_str "dst" "::/0"] else [])))
    else ipam in
  Ok (VObject ipam).

(** The first lines of the two functions below *)
Definition base_delegate (conf : NetConf) : JsonMap :=
  let delegate := Map_insert [] "cniVersion" (VString (nc_cni_version conf)) in
  let delegate := Map_insert delegate "name" (VString (nc_name conf)) in
  let delegate := Map_insert delegate "type" (VString DEFAULT_DELEGATE_TYPE) in
  Map_extend delegate (nc_delegate conf).

Definition is_bridge (delegate : JsonMap) : bool :=
  match Map_get delegate "type" with
  | Some v => bool_decide (as_str v = Some DEFAULT_DELEGATE_TYPE)
  | None => false
  end.

(** Bridge delegates default [isGateway] to true. *)
Definition add_gateway (delegate : JsonMap) : JsonMap :=
  if is_bridge delegate && negb (Map_contains_key delegate "isGateway")
  then Map_insert delegate "isGateway" (VBool true) else delegate.

Definition build_delegate_conf (conf : NetConf) (env : FlannelSubnetEnv) : result Value anyhow :=
  if negb (is_some (fse_subnet env)) && negb (is_some (fse_ipv6_subnet env)) then
    Err ["no subnet found in subnet.env (need FLANNEL_SUBNET or FLANNEL_IPV6_SUBNET)"]
  else
    let delegate := add_gateway (base_delegate conf) in
    let delegate := Map_insert delegate "ipMasq" (VBool false) in
    let delegate := match fse_mtu env with
                    | Some mtu => Map_insert delegate "mtu" (VNumber (fmt_dec mtu))
                    | None => delegate
                    end in
    let? ipam := build_ipam conf env in
    Ok (VObject (Map_insert delegate "ipam" ipam)).

Definition minimal_delegate_conf (conf : NetConf) : result Value anyhow := Ok (VObject (base_delegate conf)).

(** ** The system *)

(** [std::process::Output], with the exit status as it prints *)
Record ExecOutput := mkExecOutput {
  out_success : bool;
  out_status : string;
  out_stdout : string;
  out_stderr : string;
}.

(** How the run of a delegate fails: it cannot be started, its end cannot be
    awaited, its input cannot be written, the thread that writes panics. *)
Inductive ExecError := SpawnFailed (e : string) | WaitFailed (e : string) | WriteFailed (e : string) | WriterPanicked.

Class CniSystem (K : Type) := {
  cs_var : K -> string -> option string;
  cs_read : K -> string -> result string string;
  cs_is_file : K -> string -> bool;
  cs_exec : string -> list (string * string) -> string -> K -> K * result ExecOutput ExecError;
  cs_run : string -> list string -> K -> K * result ExecOutput string;
}.

(** ** [skel.rs]: the arguments *)

Record CniArgs := mkCniArgs {
  ca_command : string;
  ca_container_id : string;
  ca_netns : string;
  ca_if_name : string;
  ca_args : string;
  ca_path : string;
}.

Definition args_from (lookup : string -> option string) : result CniArgs anyhow :=
  let? command := ok_or (match lookup "CNI_COMMAND" with
                         | Some value => if negb (str_is_empty value) then Some value else None
                         | None => None
                         end) ["CNI_COMMAND env var missing"] in
  Ok (mkCniArgs command (default "" (lookup "CNI_CONTAINERID")) (default "" (lookup "CNI_NETNS"))
        (default "" (lookup "CNI_IFNAME")) (default "" (lookup "CNI_ARGS")) (default "" (lookup "CNI_PATH"))).

Section Plugin.
Context `{CniSystem K} `{CniJson}.
#[local] Abbreviation IO := (io K anyhow).

Definition default_subnet_env_path (k : K) : string := default DEFAULT_SUBNET_ENV (cs_var k "FLANNEL_SUBNET_FILE").

Definition load_flannel_subnet_env (k : K) (path : string) : result FlannelSubnetEnv anyhow :=
  let? contents := map_err (fun e => ["failed to read subnet.env file " +:+ path; e]) (cs_read k path) in
  map_err (fun e => [e]) (parse_subnet_env contents).

(** ** [delegate.rs] *)

(** [Path::new(dir).join(name)]: an absolute name replaces the directory *)
Definition plugin_path (dir name : string) : string :=
  if str_starts_with "/" name then name else path_join dir name.

Definition find_plugin (k : K) (path : string) (plugin_type : Value) : result string anyhow :=
  let? name := ok_or (as_str plugin_type) ["delegate config has no string 'type' field"] in
  if str_is_empty name then Err ["delegate config has an empty 'type' field"]
  else
    ok_or (List.find (cs_is_file k)
             (map (fun dir => plugin_path dir name)
                (List.filter (fun dir => negb (str_is_empty dir)) (str_split ":" path))))
      ["failed to find plugin " +:+ name +:+ " in CNI_PATH " +:+ path].

Definition cni_env (command : string) (args : CniArgs) : list (string * string) :=
  [("CNI_COMMAND", command); ("CNI_CONTAINERID", ca_container_id args); ("CNI_NETNS", ca_netns args);
   ("CNI_IFNAME", ca_if_name args); ("CNI_ARGS", ca_args args); ("CNI_PATH", ca_path args)].

Definition exec_delegate (plugin command : string) (args : CniArgs) (conf : Value) : IO ExecOutput :=
  io_map_err (fun e =>
    match e with
    | SpawnFailed e => ["failed to spawn delegate plugin " +:+ plugin; e]
    | WaitFailed e => ["failed to wait for delegate plugin"; e]
    | WriteFailed e => ["failed to write delegate config to plugin stdin"; e]
    | WriterPanicked => ["delegate stdin writer thread panicked"]
    end) (cs_exec plugin (cni_env command args) (cj_print conf)).

Definition delegate_error (op plugin : string) (out : ExecOutput) : anyhow :=
  let cni_error :=
    match cj_value (out_stdout out) with
    | Ok value =>
        match Value_get value "code", Value_get value "msg" with
        | Some code, Some msg =>
            match as_i64 code, as_str msg with Some code, Some msg => Some (code, msg) | _, _ => None end
        | _, _ => None
        end
    | Err _ => None
    end in
  match cni_error with
  | Some (code, msg) =>
      ["delegate " +:+ op +:+ " via " +:+ plugin +:+ " failed: code "
       +:+ (if code <? 0 then "-" else "") +:+ fmt_dec (Z.abs code) +:+ ": " +:+ msg
       +:+ " (stderr: " +:+ str_trim (out_stderr out) +:+ ")"]
  | None =>
      ["delegate " +:+ op +:+ " via " +:+ plugin +:+ " exited with " +:+ out_status out +:+ ": stdout: "
       +:+ str_trim (out_stdout out) +:+ "; stderr: " +:+ str_trim (out_stderr out)]
  end.

Definition delegate_add (conf : Value) (plugin : string) (args : CniArgs) : IO Value :=
  let! out := exec_delegate plugin "ADD" args conf in
  if negb (out_success out) then io_err (delegate_error "ADD" plugin out)
  else
    io_lift (map_err (fun e => [plugin +:+ ": unparseable ADD result: " +:+ out_stdout out; e])
               (cj_value (out_stdout out))).

Definition delegate_del (conf : Value) (plugin : string) (args : CniArgs) : IO unit :=
  let! out := exec_delegate plugin "DEL" args conf in
  if out_success out then io_ret tt else io_err (delegate_error "DEL" plugin out).

Definition delegate_check (conf : Value) (plugin : string) (args : CniArgs) : IO unit :=
  let! out := exec_delegate plugin "CHECK" args conf in
  if out_success out then io_ret tt else io_err (delegate_error "CHECK" plugin out).

(** ** [masq.rs] *)

Definition CHAIN : string := "FLANNEL-POSTRTG-CHAIN-01".
Definition COMMENT : string := "flannel masq".

Definition cni_exec (binary : string) (args : list string) : IO unit :=
  let! out := io_map_err (fun e => ["failed to run " +:+ binary; e]) (cs_run binary args) in
  if out_success out then io_ret tt
  else io_err [binary +:+ " " +:+ str_join " " args +:+ " failed (" +:+ out_status out +:+ "): stdout: "
               +:+ str_trim (out_stdout out) +:+ "; stderr: " +:+ str_trim (out_stderr out)].

Definition ensure_chain (binary : string) : IO unit :=
  let! r := io_try (cni_exec binary ["-t"; "nat"; "-N"; CHAIN]) in
  match r with
  | Ok _ => io_ret tt
  | Err e => if str_has "Chain already exists" (fmt_anyhow e) then io_ret tt else io_err e
  end.

Definition ensure_masq_rule (binary : string) (match_spec : list string) : IO unit :=
  let tail := ["-m"; "comment"; "--comment"; COMMENT; "-j"; "MASQUERADE"] in
  let! r := io_try (cni_exec binary (["-t"; "nat"; "-C"; CHAIN] ++ match_spec ++ tail)) in
  match (r : result unit anyhow) with
  | Ok _ => io_ret tt
  | Err _ =>
      io_map_err (cons (binary +:+ ": failed to append rule to " +:+ CHAIN))
        (cni_exec binary (["-t"; "nat"; "-A"; CHAIN] ++ match_spec ++ tail))
  end.

Definition jump_spec : list string := ["-m"; "comment"; "--comment"; COMMENT; "-j"; CHAIN].

(** The jump rule is checked wherever it is, and inserted in front. *)
Definition ensure_jump (binary : string) : IO unit :=
  let! r := io_try (cni_exec binary (["-t"; "nat"; "-C"; "POSTROUTING"] ++ jump_spec)) in
  match (r : result unit anyhow) with
  | Err _ =>
      io_map_err (cons (binary +:+ ": failed to insert POSTROUTING jump to " +:+ CHAIN))
        (cni_exec binary (["-t"; "nat"; "-I"; "POSTROUTING"; "1"] ++ jump_spec))
  | Ok _ => io_ret tt
  end.

Definition masq_family (binary network subnet : string) : IO unit :=
  let! _ := ensure_chain binary in
  let! _ := ensure_jump binary in
  let! _ := ensure_masq_rule binary ["-s"; subnet; "!"; "-d"; network] in
  ensure_masq_rule binary ["!"; "-s"; subnet; "-d"; network].

Definition ip_masq_config (v4_net v4_subnet : option IP4Net) (v6_net v6_subnet : option IP6Net) : IO unit :=
  let! _ := match v4_net, v4_subnet with
            | Some net, Some subnet => masq_family "iptables" (IP4Net_fmt net) (IP4Net_fmt subnet)
            | _, _ => io_ret tt
            end in
  match v6_net, v6_subnet with
  | Some net6, Some subnet6 => masq_family "ip6tables" (IP6Net_fmt net6) (IP6Net_fmt subnet6)
  | _, _ => io_ret tt
  end.

(** ** [lib.rs] *)

Definition SUPPORTED_VERSIONS : list string := ["0.1.0"; "0.2.0"; "0.3.0"; "0.3.1"; "0.4.0"; "1.0.0"].

Definition cmd_add (args : CniArgs) (conf_bytes : string) : IO Value :=
  let! conf := io_lift (load_flannel_net_conf conf_bytes) in
  let! k := io_get in
  let! env := io_lift (load_flannel_subnet_env k (default_subnet_env_path k)) in
  let! delegate_conf := io_lift (build_delegate_conf conf env) in
  let! plugin := io_lift (find_plugin k (ca_path args) (Value_index delegate_conf "type")) in
  let! result := delegate_add delegate_conf plugin args in
  let! _ := (if fse_ipmasq env
             then ip_masq_config (fse_network env) (fse_subnet env) (fse_ipv6_network env) (fse_ipv6_subnet env)
             else io_ret tt) in
  io_ret result.

Definition cmd_del (args : CniArgs) (conf_bytes : string) : IO unit :=
  let! conf := io_lift (load_flannel_net_conf conf_bytes) in
  let! k := io_get in
  let! delegate_conf :=
    match (let? env := load_flannel_subnet_env k (default_subnet_env_path k) in build_delegate_conf conf env) with
    | Ok delegate_conf => io_ret delegate_conf
    | Err _ => io_lift (minimal_delegate_conf conf)
    end in
  let! plugin := io_lift (find_plugin k (ca_path args) (Value_index delegate_conf "type")) in
  let! _ := io_try (delegate_del delegate_conf plugin args) in
  io_ret tt.

Definition cmd_check (args : CniArgs) (conf_bytes : string) : IO unit :=
  let! conf := io_lift (load_flannel_net_conf conf_bytes) in
  let! k := io_get in
  let! env := io_lift (load_flannel_subnet_env k (default_subnet_env_path k)) in
  let! delegate_conf := io_lift (build_delegate_conf conf env) in
  let! plugin := io_lift (find_plugin k (ca_path args) (Value_index delegate_conf "type")) in
  delegate_check delegate_conf plugin args.

Definition conf_version (conf_bytes : string) : string :=
  match load_flannel_net_conf conf_bytes with Ok c => nc_cni_version c | Err _ => "1.0.0" end.

Definition cmd_version (conf_bytes : string) : Value :=
  VObject [("cniVersion", VString (conf_version conf_bytes));
           ("supportedVersions", VArray (map VString SUPPORTED_VERSIONS))].

(** ** [skel.rs]: the dispatch *)

Definition error_value (version : string) (code : Z) (msg : string) : Value :=
  VObject [("cniVersion", VString version); ("code", VNumber (fmt_dec code)); ("details", VString "");
           ("msg", VString msg)].

Definition error_json (version : string) (code : Z) (msg : string) : string :=
  cj_print (error_value version code msg).

(** What the process prints to stdout, and its exit code. *)
Record Printed := mkPrinted { pr_stdout : list string; pr_code : Z }.

Definition cni_dispatch (args : CniArgs) (conf_bytes : string) (k : K) : K * Printed :=
  let unread := if negb (String.eqb (ca_command args) "VERSION")
                then match load_flannel_net_conf conf_bytes with Err e => Some e | Ok _ => None end
                else None in
  match unread with
  | Some e => (k, mkPrinted [error_json "1.0.0" 1 ("invalid flannel netconf: " +:+ fmt_anyhow_alt e)] 1)
  | None =>
      let version := conf_version conf_bytes in
      let fail (e : anyhow) := mkPrinted [error_json version 100 (fmt_anyhow_alt e)] 1 in
      if String.eqb (ca_command args) "ADD" then
        match cmd_add args conf_bytes k with
        | (k, Ok result) => (k, mkPrinted [cj_print result] 0)
        | (k, Err e) => (k, fail e)
        end
      else if String.eqb (ca_command args) "DEL" then
        match cmd_del args conf_bytes k with
        | (k, Ok _) => (k, mkPrinted [] 0)
        | (k, Err e) => (k, fail e)
        end
      else if String.eqb (ca_command args) "CHECK" then
        match cmd_check args conf_bytes k with
        | (k, Ok _) => (k, mkPrinted [] 0)
        | (k, Err e) => (k, fail e)
        end
      else if String.eqb (ca_command args) "VERSION" then (k, mkPrinted [cj_print (cmd_version conf_bytes)] 0)
      else (k, mkPrinted [error_json version 4 ("unknown CNI_COMMAND " +:+ ca_command args)] 1)
  end.

(** [stdin] is the outcome of reading it to the end. *)
Definition read_netconf (stdin : result string string) : result string anyhow :=
  let? buf := map_err (fun e => ["failed to read netconf from stdin: " +:+ e]) stdin in
  Ok (if str_is_empty (str_trim buf) then "{}" else buf).

Definition run (stdin : result string string) (k : K) : K * Printed :=
  match args_from (cs_var k) with
  | Err e => (k, mkPrinted [error_json "1.0.0" 1 (fmt_anyhow_alt e)] 1)
  | Ok args =>
      match read_netconf stdin with
      | Err e => (k, mkPrinted [error_json "1.0.0" 1 (fmt_anyhow_alt e)] 1)
      | Ok conf => cni_dispatch args conf k
      end
  end.
End Plugin.

(** * Theorems *)

(** ** Versions *)

Lemma at_least_nil n : at_least n [] [] = true.
Proof. induction n; [done|]. cbn. done. Qed.

Lemma at_least_enough n m va vb :
  (length va <= n)%nat -> (length vb <= n)%nat -> at_least (n + m) va vb = at_least n va vb.
Proof.
  revert va vb. induction n as [|n IH]; intros va vb Ha Hb.
  - destruct va, vb; cbn in *; try lia. apply at_least_nil.
  - cbn. destruct (negb _); [done|]. apply IH; [destruct va|destruct vb]; cbn in *; lia.
Qed.

Lemma version_at_least_fuel n a b :
  (length (components a) <= n)%nat -> (length (components b) <= n)%nat ->
  version_at_least a b = at_least n (components a) (components b).
Proof.
  intros Ha Hb. unfold version_at_least. set (m := Nat.max _ _).
  replace n with (m + (n - m))%nat by lia. symmetry. apply at_least_enough; lia.
Qed.

Lemma at_least_trans n va vb vc :
  at_least n va vb = true -> at_least n vb vc = true -> at_least n va vc = true.
Proof.
  revert va vb vc. induction n as [|n IH]; intros va vb vc; [done|]. cbn.
  generalize (default 0 (list.head va)) (default 0 (list.head vb)) (default 0 (list.head vc)). intros x y z.
  destruct (Z.eqb_spec x y), (Z.eqb_spec y z), (Z.eqb_spec x z); cbn [negb]; try lia.
  apply IH.
Qed.

Lemma at_least_total n va vb : at_least n va vb = true \/ at_least n vb va = true.
Proof.
  revert va vb. induction n as [|n IH]; intros va vb; [by left|]. cbn.
  generalize (default 0 (list.head va)) (default 0 (list.head vb)). intros x y.
  destruct (Z.eqb_spec x y), (Z.eqb_spec y x); cbn [negb]; try lia. apply IH.
Qed.

(** The comparison of versions is a total preorder, missing components being
    zeros. *)
Theorem version_at_least_preorder a b c :
  (version_at_least a b = true -> version_at_least b c = true -> version_at_least a c = true)
  /\ (version_at_least a b = true \/ version_at_least b a = true).
Proof.
  set (n := (length (components a) + length (components b) + length (components c))%nat).
  split_and!.
  - rewrite !(version_at_least_fuel n) by lia. apply at_least_trans.
  - rewrite !(version_at_least_fuel n) by lia. apply at_least_total.
Qed.

(** ** The delegate configuration *)

(** What the documentation says of each member: flannel decides [ipam] and
    [ipMasq] and, with FLANNEL_MTU, [mtu]; a bridge is a gateway unless the
    user says otherwise; the rest is the user's, or the base configuration. *)
Definition delegate_member (conf : NetConf) (env : FlannelSubnetEnv) (ipam : Value) (key : string) : option Value :=
  let user := Map_get (nc_delegate conf) key in
  let or_else o := match user with Some v => Some v | None => o end in
  let bridge := match Map_get (nc_delegate conf) "type" with
                | None => true
                | Some v => bool_decide (as_str v = Some DEFAULT_DELEGATE_TYPE)
                end in
  if String.eqb key "ipam" then Some ipam
  else if String.eqb key "ipMasq" then Some (VBool false)
  else if String.eqb key "mtu" then
    match fse_mtu env with Some mtu => Some (VNumber (fmt_dec mtu)) | None => user end
  else if String.eqb key "isGateway" then or_else (if bridge then Some (VBool true) else None)
  else if String.eqb key "type" then or_else (Some (VString DEFAULT_DELEGATE_TYPE))
  else if String.eqb key "name" then or_else (Some (VString (nc_name conf)))
  else if String.eqb key "cniVersion" then or_else (Some (VString (nc_cni_version conf)))
  else user.

Definition user_ipam (conf : NetConf) : JsonMap :=
  match Map_get (nc_delegate conf) "ipam" with Some (VObject m) => m | _ => [] end.

(** The members of [ipam]: the subnets, default routes unless the user has
    routes, and the user's own members over the type. *)
Definition ipam_member (conf : NetConf) (env : FlannelSubnetEnv) (key : string) : option Value :=
  let user := Map_last (user_ipam conf) key in
  let modern := version_at_least (nc_cni_version conf) "0.3.0" in
  let subnets := option_list (option_map IP4Net_fmt (fse_subnet env))
                 ++ option_list (option_map IP6Net_fmt (fse_ipv6_subnet env)) in
  let defaults := (if is_some (fse_subnet env) then ["0.0.0.0/0"] else [])
                  ++ (if is_some (fse_ipv6_subnet env) then ["::/0"] else []) in
  if String.eqb key "routes" && negb (user_routes_present conf) then
    Some (VArray (map (json_str "dst") defaults))
  else if String.eqb key "ranges" && modern then
    Some (VArray (map (fun s => VArray [json_str "subnet" s]) subnets))
  else if String.eqb key "subnet" && negb modern then option_map VString (list.head subnets)
  else match user with
       | Some v => Some v
       | None => if String.eqb key "type" then Some (VString DEFAULT_DELEGATE_IPAM_TYPE) else None
       end.

(** Without a subnet there is nothing to delegate; the legacy format has no
    IPv6 subnet. *)
Definition undelegable (conf : NetConf) (env : FlannelSubnetEnv) : bool :=
  negb (is_some (fse_subnet env))
  && (negb (is_some (fse_ipv6_subnet env)) || negb (version_at_least (nc_cni_version conf) "0.3.0")).

Lemma build_ipam_spec conf env :
  match build_ipam conf env with
  | Ok ipam =>
      (is_some (fse_subnet env) || version_at_least (nc_cni_version conf) "0.3.0" = true)
      /\ exists m, ipam = VObject m /\ forall key, Map_get m key = ipam_member conf env key
  | Err _ => fse_subnet env = None /\ version_at_least (nc_cni_version conf) "0.3.0" = false
  end.
Proof.
  unfold build_ipam, ipam_member, user_ipam.
  set (base := Map_insert [] "type" (VString DEFAULT_DELEGATE_IPAM_TYPE)).
  set (ipam := match Map_get (nc_delegate conf) "ipam" with Some (VObject u) => Map_extend base u | _ => base end).
  assert (forall key, Map_get ipam key
            = match Map_last (match Map_get (nc_delegate conf) "ipam" with Some (VObject m) => m | _ => [] end) key with
              | Some v => Some v
              | None => if String.eqb "type" key then Some (VString DEFAULT_DELEGATE_IPAM_TYPE) else None
              end) as Hipam.
  { intros key. unfold ipam, base. destruct (Map_get (nc_delegate conf) "ipam") as [[]|];
      rewrite ?Map_get_extend, Map_get_insert; done. }
  clearbody ipam.
  destruct (version_at_least (nc_cni_version conf) "0.3.0") eqn:Hv; cbn [rbind negb].
  2:{ destruct (fse_subnet env) as [sn|] eqn:Hs; [|done]. cbn [rbind]. split; [done|]. eexists. split; [done|]. intros key.
      cbn [is_some option_map option_list app list.head].
      destruct (user_routes_present conf) eqn:Hr; cbn [negb];
        rewrite ?Map_get_insert, ?Hipam, ?(String.eqb_sym _ key), ?andb_false_r, ?andb_true_r;
        destruct (String.eqb key "routes"), (String.eqb key "ranges"); try done;
        destruct (fse_ipv6_subnet env); done. }
  split; [apply orb_true_r|]. eexists. split; [done|]. intros key. rewrite andb_false_r, andb_true_r.
  destruct (user_routes_present conf) eqn:Hr; cbn [negb];
    rewrite ?Map_get_insert, ?Hipam, ?(String.eqb_sym _ key), ?andb_false_r, ?andb_true_r; try done.
  destruct (String.eqb key "routes"); [|done]. by destruct (fse_subnet env), (fse_ipv6_subnet env).
Qed.

Lemma base_delegate_get conf key :
  keys_distinct (nc_delegate conf) ->
  Map_get (base_delegate conf) key
  = match Map_get (nc_delegate conf) key with
    | Some v => Some v
    | None => if String.eqb key "type" then Some (VString DEFAULT_DELEGATE_TYPE)
              else if String.eqb key "name" then Some (VString (nc_name conf))
              else if String.eqb key "cniVersion" then Some (VString (nc_cni_version conf)) else None
    end.
Proof.
  intros Hk. unfold base_delegate. rewrite Map_get_extend, Map_last_get, !Map_get_insert by done.
  rewrite !(String.eqb_sym _ key). done.
Qed.

Lemma add_gateway_get m key :
  Map_get (add_gateway m) key
  = match Map_get m key with
    | Some v => Some v
    | None => if String.eqb key "isGateway" && is_bridge m then Some (VBool true) else None
    end.
Proof.
  unfold add_gateway, Map_contains_key. destruct (is_bridge m); cbn [andb].
  - destruct (Map_get m "isGateway") as [v|] eqn:Hv; cbn [is_some negb].
    + destruct (String.eqb_spec key "isGateway") as [->|]; [by rewrite Hv|]. by destruct (Map_get _ key).
    + rewrite Map_get_insert, (String.eqb_sym _ key), andb_true_r.
      destruct (String.eqb_spec key "isGateway") as [->|]; [by rewrite Hv|]. by destruct (Map_get _ key).
  - rewrite andb_false_r. by destruct (Map_get _ key).
Qed.

Lemma is_bridge_base conf :
  keys_distinct (nc_delegate conf) ->
  is_bridge (base_delegate conf)
  = match Map_get (nc_delegate conf) "type" with
    | None => true
    | Some v => bool_decide (as_str v = Some DEFAULT_DELEGATE_TYPE)
    end.
Proof.
  intros Hk. unfold is_bridge. rewrite base_delegate_get by done. by destruct (Map_get (nc_delegate conf) "type").
Qed.

Lemma build_delegate_members conf env :
  keys_distinct (nc_delegate conf) ->
  match build_delegate_conf conf env with
  | Ok v => exists m ipam, v = VObject m /\ build_ipam conf env = Ok ipam
              /\ undelegable conf env = false
              /\ forall key, Map_get m key = delegate_member conf env ipam key
  | Err _ => undelegable conf env = true
  end.
Proof.
  intros Hk. unfold build_delegate_conf, undelegable.
  pose proof (build_ipam_spec conf env) as Hi.
  destruct (negb (is_some (fse_subnet env)) && negb (is_some (fse_ipv6_subnet env))) eqn:Hs.
  { apply andb_true_iff in Hs as [-> ->]. done. }
  destruct (build_ipam conf env) as [ipam|]; cbn [rbind].
  2:{ destruct Hi as [Hs4 Hv]. rewrite Hs4, Hv. apply orb_true_r. }
  destruct Hi as [Hi _]. eexists _, ipam. split; [done|]. split; [done|]. split.
  { destruct (is_some (fse_subnet env)); [done|]. cbn in *. by rewrite Hs, Hi. }
  intros key. unfold delegate_member. rewrite Map_get_insert, (String.eqb_sym _ key).
  destruct (String.eqb_spec key "ipam") as [->|Hn1]; [done|].
  destruct (fse_mtu env) as [mtu|];
    rewrite ?Map_get_insert, add_gateway_get, base_delegate_get, is_bridge_base, ?(String.eqb_sym _ key) by done;
    (destruct (String.eqb_spec key "ipMasq") as [->|]; [done|]);
    (destruct (String.eqb_spec key "mtu") as [->|]; [try done; by destruct (Map_get (nc_delegate conf) "mtu")|]);
    (destruct (String.eqb_spec key "isGateway") as [->|]; [by destruct (Map_get (nc_delegate conf) "isGateway")|]);
    cbn [andb]; destruct (Map_get (nc_delegate conf) key);
    by destruct (String.eqb key "type"), (String.eqb key "name"), (String.eqb key "cniVersion").
Qed.

(** The delegate configuration member by member.  There is one exactly when
    a subnet is known that the CNI version can express; then [ipMasq] is off,
    [mtu] is FLANNEL_MTU if present, a bridge is a gateway unless the user
    decides, [ipam] holds one range per subnet (or the subnet, in the old
    format), default routes unless the user has routes, and the user's members;
    every other member is the user's, over the base configuration. *)
Theorem build_delegate_conf_spec conf env :
  keys_distinct (nc_delegate conf) ->
  match build_delegate_conf conf env with
  | Ok v => undelegable conf env = false
      /\ exists m im, v = VObject m
           /\ (forall key, Map_get m key = delegate_member conf env (VObject im) key)
           /\ (forall key, Map_get im key = ipam_member conf env key)
  | Err _ => undelegable conf env = true
  end.
Proof.
  intros Hk. pose proof (build_delegate_members conf env Hk) as Hm.
  destruct (build_delegate_conf conf env) as [v|]; [|done].
  destruct Hm as (m & ipam & -> & Hi & Hu & Hm). split; [done|].
  pose proof (build_ipam_spec conf env) as Hs. rewrite Hi in Hs. destruct Hs as (_ & im & -> & Him). eauto.
Qed.

Definition conf_sample : NetConf :=
  mkNetConf "0.3.1" "cbr0" "flannel" [("hairpinMode", VBool true); ("ipMasq", VBool true)].
Definition env_sample : FlannelSubnetEnv :=
  mkSubnetEnv (Some (mkIP4Net (IP4_from_octets 10 244 0 0) 16)) (Some (mkIP4Net (IP4_from_octets 10 244 1 0) 24))
    None None (Some 1450) true.

Lemma build_delegate_conf_spec_witness :
  exists v m im, build_delegate_conf conf_sample env_sample = Ok v /\ v = VObject m
    /\ (forall key, Map_get m key = delegate_member conf_sample env_sample (VObject im) key)
    /\ (forall key, Map_get im key = ipam_member conf_sample env_sample key).
Proof.
  assert (keys_distinct (nc_delegate conf_sample)) as Hk by (apply (bool_decide_unpack _); by vm_compute).
  pose proof (build_delegate_conf_spec conf_sample env_sample Hk) as Hs.
  destruct (build_delegate_conf conf_sample env_sample) as [v|] eqn:Hb; [|vm_compute in Hb; discriminate Hb].
  destruct Hs as (_ & m & im & Hv & Hm & Him). exists v, m, im. done.
Defined.

Example delegate_example :
  option_map (fun v => (Value_index v "ipMasq", Value_index v "mtu", Value_index v "isGateway",
                        Value_index (Value_index v "ipam") "ranges"))
    (result_ok (build_delegate_conf conf_sample env_sample))
  = Some (VBool false, VNumber "1450", VBool true, VArray [VArray [json_str "subnet" "10.244.1.0/24"]]).
Proof. by vm_compute. Qed.

(** ** The commands *)

Section Commands.
Context `{CniSystem K} `{CniJson}.

(** C25: the configuration that flanneld leaves behind reaches the delegate.
    When subnet.env holds what flanneld wrote for a node, CNI ADD with a
    current version runs the delegate with the MTU and exactly the node's
    subnets of the enabled families as address ranges, and installs the
    masquerade rules after it exactly when flanneld asked for them. *)
Theorem cmd_add_uses_subnet_env oc config ip_masq sn sn6 mtu content args bytes conf plugin (k : K) :
  Config_wf config -> node_subnet4 sn -> node_subnet6 sn6 -> u32 mtu ->
  cfg_enable_ipv4 config || cfg_enable_ipv6 config = true ->
  subnet_file_content oc config ip_masq sn sn6 mtu = Some content ->
  cs_read k (default_subnet_env_path k) = Ok content ->
  load_flannel_net_conf bytes = Ok conf -> keys_distinct (nc_delegate conf) ->
  version_at_least (nc_cni_version conf) "0.3.0" = true ->
  let name := match Map_get (nc_delegate conf) "type" with Some v => v | None => VString DEFAULT_DELEGATE_TYPE end in
  find_plugin k (ca_path args) name = Ok plugin ->
  exists d,
    cmd_add args bytes k
    = (let! result := delegate_add d plugin args in
       let! _ := (if ip_masq : bool then
                    ip_masq_config
                      (if cfg_enable_ipv4 config then Some (cfg_network config) else None)
                      (if cfg_enable_ipv4 config then Some sn else None)
                      (if cfg_enable_ipv6 config then Some (cfg_ipv6_network config) else None)
                      (if cfg_enable_ipv6 config then Some sn6 else None)
                  else io_ret tt) in
       io_ret result) k
    /\ Value_index d "mtu" = VNumber (fmt_dec mtu) /\ Value_index d "ipMasq" = VBool false
    /\ Value_index (Value_index d "ipam") "ranges"
       = VArray (map (fun s => VArray [json_str "subnet" s])
                   ((if cfg_enable_ipv4 config then [IP4Net_fmt sn] else [])
                    ++ (if cfg_enable_ipv6 config then [IP6Net_fmt sn6] else []))).
Proof.
  intros Hwf Hsn Hsn6 Hmtu Hen Hc Hr Hl Hk Hv name Hp.
  destruct (written_env_parsed oc config ip_masq sn sn6 mtu Hwf Hsn Hsn6 Hmtu) as (c' & Hc' & He).
  assert (c' = content) as -> by congruence.
  set (env := expected_env config ip_masq sn sn6 mtu) in *.
  assert (undelegable conf env = false) as Hu.
  { unfold undelegable. rewrite Hv. unfold env, expected_env. cbn. by destruct (cfg_enable_ipv4 config), (cfg_enable_ipv6 config). }
  pose proof (build_delegate_members conf env Hk) as Hb. pose proof (build_ipam_spec conf env) as Hi.
  destruct (build_delegate_conf conf env) as [d|] eqn:Hd; [|by rewrite Hu in Hb].
  destruct Hb as (m & ipam & -> & Hib & _ & Hm). rewrite Hib in Hi. destruct Hi as (_ & im & -> & Him).
  assert (Value_index (VObject m) "type" = name) as Ht.
  { unfold Value_index, name. cbn [Value_get]. rewrite Hm. unfold delegate_member. cbn. by destruct (Map_get (nc_delegate conf) "type"). }
  exists (VObject m). split; [|split_and!].
  - unfold cmd_add, io_bind, io_lift, io_get. rewrite Hl. unfold load_flannel_subnet_env. rewrite Hr. cbn [rbind map_err].
    rewrite He. cbn [map_err]. rewrite Hd, Ht, Hp.
    destruct (delegate_add (VObject m) plugin args k) as [k1 [res|]]; [|done].
    unfold env, expected_env. cbn. by destruct ip_masq.
  - unfold Value_index. cbn [Value_get]. rewrite Hm. done.
  - unfold Value_index. cbn [Value_get]. rewrite Hm. done.
  - unfold Value_index at 2. cbn [Value_get]. rewrite Hm.
    change (delegate_member conf env (VObject im) "ipam") with (Some (VObject im)). cbn.
    unfold Value_index. cbn [Value_get]. rewrite Him. unfold ipam_member. rewrite Hv. cbn [String.eqb Ascii.eqb Bool.eqb andb].
    unfold env, expected_env. cbn. by destruct (cfg_enable_ipv4 config), (cfg_enable_ipv6 config).
Qed.
End Commands.

(** ** The masquerade rules *)

(** The commands that the plugin gives to iptables: [-A] appends, [-I chain 1]
    inserts in front, the others as in the file IptTools. *)
Definition cni_ipt (pr : Protocol) (args : list string) (c : Chains) : Chains * Answer :=
  match args with
  | "-t" :: t :: op :: ch :: spec =>
      let key := (pr, t, ch) in
      let add (spec : list string) (place : list (list string) -> list (list string)) :=
        match c !! key with
        | None => (c, AnsNotExist)
        | Some l => if target_ok c pr t spec then (<[key := place l]> c, AnsOk) else (c, AnsOther)
        end in
      if String.eqb op "-A" then add spec (fun l => l ++ [spec])
      else if String.eqb op "-I" then
        match spec with
        | "1" :: spec => add spec (cons spec)
        | _ => (c, AnsOther)
        end
      else ipt_exec pr args c
  | _ => (c, AnsOther)
  end.

#[global] Instance Answer_eq_dec : EqDecision Answer.
Proof. solve_decision. Defined.

Definition cni_answered (a : Answer) (r : result ExecOutput string) : Prop :=
  exists out, r = Ok out
    /\ out_success out = bool_decide (a = AnsOk)
    /\ (a = AnsExist -> str_has "Chain already exists" (str_trim (out_stderr out)) = true).

(** iptables and ip6tables are installed and work. *)
Class CniLaws (K : Type) `{CniSystem K} := {
  cs_chains : K -> Chains;
  cs_iptables : forall k pr args,
    let '(k', r) := cs_run (proto_cmd pr) args k in
    let '(c', a) := cni_ipt pr args (cs_chains k) in
    cs_chains k' = c' /\ cni_answered a r;
}.

(** The rule at the end of the list, unless it is there already. *)
Definition with_rule (spec : list string) (l : list (list string)) : list (list string) :=
  if decide (spec ∈ l) then l else l ++ [spec].

Definition masq_tail : list string := ["-m"; "comment"; "--comment"; COMMENT; "-j"; "MASQUERADE"].
Definition out_spec (network subnet : string) : list string := ["-s"; subnet; "!"; "-d"; network] ++ masq_tail.
Definition in_spec (network subnet : string) : list string := ["!"; "-s"; subnet; "-d"; network] ++ masq_tail.

(** The chains after [masq_family]: the chain with both rules, and the jump
    first in POSTROUTING unless it is there already. *)
Definition masq_chains (pr : Protocol) (network subnet : string) (c : Chains) : Chains :=
  let post := chain_of c pr "nat" "POSTROUTING" in
  <[(pr, "nat", CHAIN) := with_rule (in_spec network subnet)
                            (with_rule (out_spec network subnet) (chain_of c pr "nat" CHAIN))]>
  (<[(pr, "nat", "POSTROUTING") := if decide (jump_spec ∈ post) then post else jump_spec :: post]> c).

Lemma str_has_app pat a b : str_has pat b = true -> str_has pat (a +:+ b) = true.
Proof.
  intros Hb. induction a as [|x a IH]; [done|]. cbn [String.append str_has]. rewrite IH. apply orb_true_r.
Qed.

Section Masq.
Context `{CniLaws K}.

(** One command: how the chains change and whether it succeeds. *)
Lemma cni_exec_answer pr args (k : K) :
  exists k' r, cni_exec (proto_cmd pr) args k = (k', r)
    /\ cs_chains k' = (cni_ipt pr args (cs_chains k)).1
    /\ is_ok r = bool_decide ((cni_ipt pr args (cs_chains k)).2 = AnsOk)
    /\ ((cni_ipt pr args (cs_chains k)).2 = AnsExist ->
        exists e, r = Err e /\ str_has "Chain already exists" (fmt_anyhow e) = true).
Proof.
  pose proof (cs_iptables k pr args) as Hl. unfold cni_exec, io_bind, io_map_err.
  destruct (cs_run (proto_cmd pr) args k) as [k' r]. destruct (cni_ipt pr args (cs_chains k)) as [c' a].
  destruct Hl as (Hc & out & -> & Hs & Hx). cbn [map_err fst snd]. destruct (out_success out) eqn:Ho.
  - eexists _, _. split; [done|]. split_and!; [done|by rewrite <- Hs|]. intros ->. by vm_compute in Hs.
  - eexists _, _. split; [done|]. split_and!; [done|by rewrite <- Hs|]. intros Ha. eexists. split; [done|].
    cbn [fmt_anyhow list.head]. change (default "" (Some ?x)) with x.
    repeat apply str_has_app. by apply Hx.
Qed.

Lemma ensure_chain_effect pr (k : K) :
  exists k', ensure_chain (proto_cmd pr) k = (k', Ok tt)
    /\ cs_chains k' = <[(pr, "nat", CHAIN) := chain_of (cs_chains k) pr "nat" CHAIN]> (cs_chains k).
Proof.
  destruct (cni_exec_answer pr ["-t"; "nat"; "-N"; CHAIN] k) as (k' & r & Hr & Hc & Hok & Hex).
  exists k'. unfold ensure_chain, io_bind, io_try. rewrite Hr. cbn [fst snd].
  unfold cni_ipt in *. cbn [String.eqb Ascii.eqb Bool.eqb] in *. unfold ipt_exec in *.
  unfold chain_of. destruct (cs_chains k !! (pr, "nat", CHAIN)) as [l|] eqn:Hl.
  - cbn in Hc, Hex. destruct (Hex eq_refl) as (e & -> & Hh). rewrite Hh. split; [done|].
    rewrite Hc. symmetry. by apply insert_id.
  - cbn in Hc, Hok. destruct r as [[]|]; [|done]. split; [done|]. by rewrite Hc.
Qed.

Lemma ensure_masq_rule_effect pr spec (k : K) l :
  cs_chains k !! (pr, "nat", CHAIN) = Some l -> jump_target (spec ++ masq_tail) = Some "MASQUERADE" ->
  exists k', ensure_masq_rule (proto_cmd pr) spec k = (k', Ok tt)
    /\ cs_chains k' = <[(pr, "nat", CHAIN) := with_rule (spec ++ masq_tail) l]> (cs_chains k).
Proof.
  intros Hl Hj. unfold ensure_masq_rule, io_bind, io_try. fold masq_tail.
  assert (forall c, target_ok c pr "nat" (spec ++ masq_tail) = true) as Ht.
  { intros c. unfold target_ok. by rewrite Hj. }
  destruct (cni_exec_answer pr (["-t"; "nat"; "-C"; CHAIN] ++ spec ++ masq_tail) k) as (k1 & r & Hr & Hc & Hok & _).
  rewrite Hr. unfold cni_ipt in Hc, Hok. cbn [app String.eqb Ascii.eqb Bool.eqb] in Hc, Hok.
  unfold ipt_exec in Hc, Hok. cbn [String.eqb Ascii.eqb Bool.eqb] in Hc, Hok. rewrite Hl, Ht in Hc, Hok. cbn [negb fst snd] in Hc, Hok.
  unfold with_rule. destruct (decide (spec ++ masq_tail ∈ l)) as [Hin|Hin].
  - destruct r as [[]|]; [|done]. exists k1. split; [done|]. rewrite Hc. symmetry. by apply insert_id.
  - destruct r as [[]|]; [done|].
    destruct (cni_exec_answer pr (["-t"; "nat"; "-A"; CHAIN] ++ spec ++ masq_tail) k1) as (k2 & r & Hr2 & Hc2 & Hok2 & _).
    unfold io_map_err. rewrite Hr2. unfold cni_ipt in Hc2, Hok2.
    cbn [app String.eqb Ascii.eqb Bool.eqb] in Hc2, Hok2. rewrite Hc, Hl, Ht in Hc2, Hok2. cbn [fst snd] in Hc2, Hok2.
    destruct r as [[]|]; [|done]. exists k2. split; [done|]. exact Hc2.
Qed.

Lemma insert_jump_effect pr (k : K) l chain :
  cs_chains k !! (pr, "nat", "POSTROUTING") = Some l -> cs_chains k !! (pr, "nat", CHAIN) = Some chain ->
  exists k', ensure_jump (proto_cmd pr) k = (k', Ok tt)
    /\ cs_chains k' = <[(pr, "nat", "POSTROUTING") := if decide (jump_spec ∈ l) then l else jump_spec :: l]> (cs_chains k).
Proof.
  intros Hl Hch. unfold ensure_jump, io_bind, io_try.
  assert (forall c, c !! (pr, "nat", CHAIN) = Some chain -> target_ok c pr "nat" jump_spec = true) as Ht.
  { intros c Hx. unfold target_ok. change (jump_target jump_spec) with (Some CHAIN). cbv beta iota. by rewrite Hx. }
  destruct (cni_exec_answer pr (["-t"; "nat"; "-C"; "POSTROUTING"] ++ jump_spec) k) as (k1 & r & Hr & Hc & Hok & _).
  rewrite Hr. unfold cni_ipt in Hc, Hok. cbn [app String.eqb Ascii.eqb Bool.eqb] in Hc, Hok.
  unfold ipt_exec in Hc, Hok. cbn [String.eqb Ascii.eqb Bool.eqb] in Hc, Hok. rewrite Hl, Ht in Hc, Hok by done. cbn [negb fst snd] in Hc, Hok.
  destruct (decide (jump_spec ∈ l)) as [Hin|Hin].
  - destruct r as [[]|]; [|done]. exists k1. split; [done|]. rewrite Hc. symmetry. by apply insert_id.
  - destruct r as [[]|]; [done|].
    destruct (cni_exec_answer pr (["-t"; "nat"; "-I"; "POSTROUTING"; "1"] ++ jump_spec) k1) as (k2 & r & Hr2 & Hc2 & Hok2 & _).
    unfold io_map_err. rewrite Hr2. unfold cni_ipt in Hc2, Hok2.
    cbn [app String.eqb Ascii.eqb Bool.eqb] in Hc2, Hok2. rewrite Hc, Hl, Ht in Hc2, Hok2 by done. cbn [fst snd] in Hc2, Hok2.
    destruct r as [[]|]; [|done]. exists k2. split; [done|]. exact Hc2.
Qed.

(** A CIDR is not an option. *)
Definition cidr_shaped (s : string) : bool := str_contains "/" s.

Lemma cidr_not_jump s : cidr_shaped s = true -> String.eqb s "-j" = false.
Proof. intros Hs. apply String.eqb_neq. intros ->. done. Qed.

Lemma masq_family_effect pr network subnet (k : K) :
  cidr_shaped network = true -> cidr_shaped subnet = true ->
  is_some (cs_chains k !! (pr, "nat", "POSTROUTING")) = true ->
  exists k', masq_family (proto_cmd pr) network subnet k = (k', Ok tt)
    /\ cs_chains k' = masq_chains pr network subnet (cs_chains k).
Proof.
  intros Hn Hs Hp. destruct (cs_chains k !! (pr, "nat", "POSTROUTING")) as [post|] eqn:Hpost; [|done].
  destruct (ensure_chain_effect pr k) as (k1 & H1 & Hc1).
  destruct (insert_jump_effect pr k1 post (chain_of (cs_chains k) pr "nat" CHAIN)) as (k2 & H2 & Hc2).
  { rewrite Hc1, lookup_insert_ne by (unfold CHAIN; congruence). done. }
  { by rewrite Hc1, lookup_insert_eq. }
  destruct (ensure_masq_rule_effect pr ["-s"; subnet; "!"; "-d"; network] k2 (chain_of (cs_chains k) pr "nat" CHAIN))
    as (k3 & H3 & Hc3).
  { rewrite Hc2, lookup_insert_ne by (unfold CHAIN; congruence). by rewrite Hc1, lookup_insert_eq. }
  { cbn. by rewrite (cidr_not_jump _ Hs), (cidr_not_jump _ Hn). }
  destruct (ensure_masq_rule_effect pr ["!"; "-s"; subnet; "-d"; network] k3
              (with_rule (out_spec network subnet) (chain_of (cs_chains k) pr "nat" CHAIN))) as (k4 & H4 & Hc4).
  { by rewrite Hc3, lookup_insert_eq. }
  { cbn. by rewrite (cidr_not_jump _ Hs), (cidr_not_jump _ Hn). }
  exists k4. unfold masq_family. split.
  - unfold io_bind. by rewrite H1, H2, H3, H4.
  - assert (chain_of (cs_chains k) pr "nat" "POSTROUTING" = post) as Hpo by (unfold chain_of; by rewrite Hpost).
    rewrite Hc4, Hc3, insert_insert_eq, Hc2, Hc1. unfold masq_chains. rewrite Hpo.
    rewrite (insert_insert_ne (cs_chains k)) by (unfold CHAIN; congruence). by rewrite insert_insert_eq.
Qed.
End Masq.

(** What [ip_masq_config] asks for in each family *)
Definition masq_pair {N} (fmt : N -> string) (net subnet : option N) : option (string * string) :=
  match net, subnet with Some net, Some subnet => Some (fmt net, fmt subnet) | _, _ => None end.

Definition masq_wanted (pr : Protocol) (wanted : option (string * string)) (c : Chains) : Chains :=
  match wanted with Some (network, subnet) => masq_chains pr network subnet c | None => c end.

Definition masq_installed (pr : Protocol) (network subnet : string) (c : Chains) : Prop :=
  (exists post, c !! (pr, "nat", "POSTROUTING") = Some post /\ jump_spec ∈ post)
  /\ exists l, c !! (pr, "nat", CHAIN) = Some l /\ out_spec network subnet ∈ l /\ in_spec network subnet ∈ l.

Lemma with_rule_elem spec l : spec ∈ with_rule spec l.
Proof. unfold with_rule. destruct (decide (spec ∈ l)); [done|]. apply elem_of_app. right. by apply list_elem_of_singleton. Qed.

Lemma with_rule_keeps spec x l : x ∈ l -> x ∈ with_rule spec l.
Proof. intros Hx. unfold with_rule. destruct (decide (spec ∈ l)); [done|]. apply elem_of_app. by left. Qed.

Lemma masq_chains_installed pr network subnet c : masq_installed pr network subnet (masq_chains pr network subnet c).
Proof.
  unfold masq_installed, masq_chains. split.
  - rewrite lookup_insert_ne by (unfold CHAIN; congruence). rewrite lookup_insert_eq. eexists. split; [done|].
    destruct (decide (jump_spec ∈ chain_of c pr "nat" "POSTROUTING")); [done|]. apply elem_of_cons. by left.
  - rewrite lookup_insert_eq. eexists. split; [done|]. split; [|apply with_rule_elem].
    apply with_rule_keeps, with_rule_elem.
Qed.

Lemma masq_chains_settled pr network subnet c :
  masq_installed pr network subnet c -> masq_chains pr network subnet c = c.
Proof.
  intros [(post & Hp & Hj) (l & Hl & Ho & Hi)]. unfold masq_chains.
  assert (chain_of c pr "nat" "POSTROUTING" = post) as -> by (unfold chain_of; by rewrite Hp).
  assert (chain_of c pr "nat" CHAIN = l) as -> by (unfold chain_of; by rewrite Hl).
  unfold with_rule. rewrite (decide_True (P := out_spec network subnet ∈ l)) by done.
  rewrite (decide_True (P := in_spec network subnet ∈ l)) by done.
  rewrite (decide_True (P := jump_spec ∈ post)) by done. rewrite (insert_id c) by done. by apply insert_id.
Qed.

(** The other family and the other chains are left alone. *)
Lemma masq_chains_other pr network subnet c (key : ChainKey) :
  key <> (pr, "nat", CHAIN) -> key <> (pr, "nat", "POSTROUTING") ->
  masq_chains pr network subnet c !! key = c !! key.
Proof. intros H1 H2. unfold masq_chains. by rewrite !lookup_insert_ne by congruence. Qed.

Lemma masq_wanted_other pr pr' wanted c t ch :
  pr <> pr' -> masq_wanted pr wanted c !! ((pr', t, ch) : ChainKey) = c !! ((pr', t, ch) : ChainKey).
Proof. intros Hne. destruct wanted as [[n s]|]; [|done]. apply masq_chains_other; congruence. Qed.

Lemma IP4Net_fmt_cidr n : cidr_shaped (IP4Net_fmt n) = true.
Proof. unfold cidr_shaped, IP4Net_fmt. rewrite !str_contains_app. apply orb_true_r. Qed.
Lemma IP6Net_fmt_cidr n : cidr_shaped (IP6Net_fmt n) = true.
Proof. unfold cidr_shaped, IP6Net_fmt. rewrite !str_contains_app. apply orb_true_r. Qed.

Section MasqConfig.
Context `{CniLaws K}.

Lemma ip_masq_config_effect n4 s4 n6 s6 (k : K) :
  (forall pr, is_some (cs_chains k !! (pr, "nat", "POSTROUTING")) = true) ->
  exists k', ip_masq_config n4 s4 n6 s6 k = (k', Ok tt)
    /\ cs_chains k' = masq_wanted IPv6 (masq_pair IP6Net_fmt n6 s6)
                        (masq_wanted IPv4 (masq_pair IP4Net_fmt n4 s4) (cs_chains k)).
Proof.
  intros Hp. unfold ip_masq_config, io_bind.
  assert (exists k1, (match n4, s4 with
                      | Some net, Some subnet => masq_family "iptables" (IP4Net_fmt net) (IP4Net_fmt subnet)
                      | _, _ => io_ret tt end) k = (k1, Ok tt)
            /\ cs_chains k1 = masq_wanted IPv4 (masq_pair IP4Net_fmt n4 s4) (cs_chains k)) as (k1 & -> & Hc1).
  { destruct n4 as [net|], s4 as [subnet|]; try (by exists k).
    apply (masq_family_effect IPv4); [apply IP4Net_fmt_cidr..|apply Hp]. }
  destruct n6 as [net|], s6 as [subnet|]; try (by exists k1). rewrite <- Hc1.
  apply (masq_family_effect IPv6); [apply IP6Net_fmt_cidr..|]. rewrite Hc1, masq_wanted_other by done. apply Hp.
Qed.

(** The plugin's masquerade rules are installed exactly once.  With working
    iptables tools [ip_masq_config] succeeds; in each family with a network
    and a subnet the chain ends with the missing ones of its two rules and
    POSTROUTING starts with the jump unless it had it; everything else stays,
    and a second run changes nothing. *)
Theorem ip_masq_config_once n4 s4 n6 s6 (k : K) :
  (forall pr, is_some (cs_chains k !! (pr, "nat", "POSTROUTING")) = true) ->
  exists k', ip_masq_config n4 s4 n6 s6 k = (k', Ok tt)
    /\ cs_chains k' = masq_wanted IPv6 (masq_pair IP6Net_fmt n6 s6)
                        (masq_wanted IPv4 (masq_pair IP4Net_fmt n4 s4) (cs_chains k))
    /\ (forall network subnet, masq_pair IP4Net_fmt n4 s4 = Some (network, subnet) ->
          masq_installed IPv4 network subnet (cs_chains k'))
    /\ (forall network subnet, masq_pair IP6Net_fmt n6 s6 = Some (network, subnet) ->
          masq_installed IPv6 network subnet (cs_chains k'))
    /\ exists k'', ip_masq_config n4 s4 n6 s6 k' = (k'', Ok tt) /\ cs_chains k'' = cs_chains k'.
Proof.
  intros Hp. destruct (ip_masq_config_effect n4 s4 n6 s6 k Hp) as (k' & Hr & Hc).
  set (w4 := masq_pair IP4Net_fmt n4 s4) in *. set (w6 := masq_pair IP6Net_fmt n6 s6) in *.
  assert (forall network subnet, w4 = Some (network, subnet) -> masq_installed IPv4 network subnet (cs_chains k')) as H4.
  { intros network subnet Hw. rewrite Hc. unfold masq_installed.
    rewrite (masq_wanted_other IPv6 IPv4 _ _ _ "POSTROUTING"), (masq_wanted_other IPv6 IPv4 _ _ _ CHAIN) by done.
    rewrite Hw. apply masq_chains_installed. }
  assert (forall network subnet, w6 = Some (network, subnet) -> masq_installed IPv6 network subnet (cs_chains k')) as H6.
  { intros network subnet Hw. rewrite Hc, Hw. apply masq_chains_installed. }
  exists k'. split_and!; [done..|].
  destruct (ip_masq_config_effect n4 s4 n6 s6 k') as (k'' & Hr' & Hc').
  { intros pr. rewrite Hc. destruct pr.
    - rewrite masq_wanted_other by done. destruct w4 as [[n s]|]; [|apply Hp]. cbn [masq_wanted].
      destruct (masq_chains_installed IPv4 n s (cs_chains k)) as [(post & -> & _) _]. done.
    - destruct w6 as [[n s]|]; [|cbn [masq_wanted]; rewrite masq_wanted_other by done; apply Hp]. cbn [masq_wanted].
      destruct (masq_chains_installed IPv6 n s (masq_wanted IPv4 w4 (cs_chains k))) as [(post & -> & _) _]. done. }
  exists k''. split; [done|]. rewrite Hc'. fold w4 w6.
  destruct w4 as [[n s]|]; cbn [masq_wanted]; [rewrite masq_chains_settled by (by apply H4)|];
    (destruct w6 as [[n' s']|]; cbn [masq_wanted]; [by apply masq_chains_settled, H6|done]).
Qed.
End MasqConfig.

(** The rules of one family as a list, with the jump first *)
Definition cni_rules (network subnet : string) : list IPTablesRule :=
  [rule "nat" "POSTROUTING" jump_spec; rule "nat" CHAIN (out_spec network subnet); rule "nat" CHAIN (in_spec network subnet)].

(** A packet is masqueraded exactly when either it comes from the subnet of the
    node and leaves the network, or it enters the network from outside the
    subnet. *)
Theorem cni_rules_decide (network subnet : IP4Net) (p : @Packet IP4) :
  IP4Net_valid network -> IP4Net_valid subnet ->
  let from_subnet := IP4Net_contains (IP4Net_network subnet) (pk_src p) in
  let to_network := IP4Net_contains (IP4Net_network network) (pk_dst p) in
  traverse net4_of 2 (cni_rules (IP4Net_fmt network) (IP4Net_fmt subnet)) "POSTROUTING" p
  = Some (if Bool.eqb from_subnet to_network then Through else Masqueraded).
Proof.
  intros Hn Hs from_subnet to_network. pose proof (net4_of_fmt network Hn) as Hnet. pose proof (net4_of_fmt subnet Hs) as Hsub.
  unfold from_subnet, to_network.
  set (n := IP4Net_fmt network) in *. set (s := IP4Net_fmt subnet) in *. clearbody n s.
  unfold cni_rules, out_spec, in_spec, masq_tail, jump_spec, CHAIN, COMMENT.
  cbn. rewrite Hnet, Hsub. cbn.
  destruct (IP4Net_contains (IP4Net_network subnet) (pk_src p)), (IP4Net_contains (IP4Net_network network) (pk_dst p)); done.
Qed.

(** In particular a packet from a pod of another node to a pod of this one. *)
Theorem cni_masquerades_remote_pods :
  traverse net4_of 2 (cni_rules "10.244.0.0/16" "10.244.1.0/24") "POSTROUTING"
    (mkPacket (IP4_from_octets 10 244 2 5) (IP4_from_octets 10 244 1 7) 0) = Some Masqueraded.
Proof. by vm_compute. Qed.

(** ** The dispatch *)

Section Dispatch.
Context `{CniSystem K} `{CniJson}.

Definition delegate_type (conf : NetConf) : Value :=
  match Map_get (nc_delegate conf) "type" with Some v => v | None => VString DEFAULT_DELEGATE_TYPE end.

Lemma build_delegate_type conf env v :
  keys_distinct (nc_delegate conf) -> build_delegate_conf conf env = Ok v -> Value_index v "type" = delegate_type conf.
Proof.
  intros Hk Hb. pose proof (build_delegate_members conf env Hk) as Hm. rewrite Hb in Hm.
  destruct Hm as (m & ipam & -> & _ & _ & Hm). unfold Value_index, delegate_type. cbn [Value_get]. rewrite Hm.
  unfold delegate_member. cbn. by destruct (Map_get (nc_delegate conf) "type").
Qed.

Lemma minimal_delegate_type conf :
  keys_distinct (nc_delegate conf) -> Value_index (VObject (base_delegate conf)) "type" = delegate_type conf.
Proof.
  intros Hk. unfold Value_index, delegate_type. cbn [Value_get]. rewrite base_delegate_get by done.
  by destruct (Map_get (nc_delegate conf) "type").
Qed.

(** C40: DEL is best effort.  When the configuration is read and the delegate
    plugin is found, DEL runs the delegate once and exits with 0 and no output,
    whether or not subnet.env can be used and whatever the delegate does. *)
Theorem cni_del_tolerant args bytes conf plugin (k : K) :
  ca_command args = "DEL" -> load_flannel_net_conf bytes = Ok conf -> keys_distinct (nc_delegate conf) ->
  find_plugin k (ca_path args) (delegate_type conf) = Ok plugin ->
  exists d, Value_index d "type" = delegate_type conf
    /\ cni_dispatch args bytes k = ((delegate_del d plugin args k).1, mkPrinted [] 0).
Proof.
  intros Hcmd Hl Hk Hp. unfold cni_dispatch. rewrite Hcmd, Hl. cbn [String.eqb Ascii.eqb Bool.eqb negb].
  unfold cmd_del, io_bind, io_lift, io_get, io_try. rewrite Hl.
  destruct (let? env := _ in _) as [d|] eqn:Hd.
  - assert (Value_index d "type" = delegate_type conf) as Ht.
    { destruct (load_flannel_subnet_env k (default_subnet_env_path k)) as [env|]; [|done].
      by apply (build_delegate_type conf env). }
    exists d. split; [done|]. cbn [io_ret]. rewrite Ht, Hp. by destruct (delegate_del d plugin args k) as [k1 [[]|]].
  - exists (VObject (base_delegate conf)). pose proof (minimal_delegate_type conf Hk) as Ht. split; [done|].
    cbn [minimal_delegate_conf]. rewrite Ht, Hp. by destruct (delegate_del _ plugin args k) as [k1 [[]|]].
Qed.

(** Without the plugin DEL fails, although it is documented to succeed. *)
Theorem cni_del_needs_plugin args bytes conf e (k : K) :
  ca_command args = "DEL" -> load_flannel_net_conf bytes = Ok conf -> keys_distinct (nc_delegate conf) ->
  find_plugin k (ca_path args) (delegate_type conf) = Err e ->
  cni_dispatch args bytes k = (k, mkPrinted [error_json (nc_cni_version conf) 100 (fmt_anyhow_alt e)] 1).
Proof.
  intros Hcmd Hl Hk Hp. unfold cni_dispatch, conf_version. rewrite Hcmd, Hl. cbn [String.eqb Ascii.eqb Bool.eqb negb].
  unfold cmd_del, io_bind, io_lift, io_get. rewrite Hl.
  destruct (let? env := _ in _) as [d|] eqn:Hd.
  - assert (Value_index d "type" = delegate_type conf) as Ht.
    { destruct (load_flannel_subnet_env k (default_subnet_env_path k)) as [env|]; [|done].
      by apply (build_delegate_type conf env). }
    cbn [io_ret]. by rewrite Ht, Hp.
  - cbn [minimal_delegate_conf]. by rewrite (minimal_delegate_type conf Hk), Hp.
Qed.

(** The plugin that is found is a file in a directory of the path, the first
    such directory. *)
Theorem find_plugin_first (k : K) path name plugin :
  find_plugin k path (VString name) = Ok plugin <->
  name <> "" /\ exists before dir after,
    List.filter (fun dir => negb (str_is_empty dir)) (str_split ":" path) = before ++ dir :: after
    /\ plugin = plugin_path dir name /\ cs_is_file k plugin = true
    /\ forall d, In d before -> cs_is_file k (plugin_path d name) = false.
Proof.
  unfold find_plugin. cbn [as_str ok_or rbind]. unfold str_is_empty at 1.
  destruct (String.eqb_spec name "") as [->|Hne]; [split; [done|by intros [? _]]|].
  set (dirs := List.filter _ _). clearbody dirs. split.
  - intros Hf. split; [done|]. induction dirs as [|d dirs IH]; [done|]. cbn [map List.find] in Hf.
    destruct (cs_is_file k (plugin_path d name)) eqn:Hd.
    + injection Hf as <-. exists [], d, dirs. split_and!; try done.
    + destruct (IH Hf) as (b & x & a & -> & ? & ? & Hb). exists (d :: b), x, a. split_and!; try done.
      intros y [<-|Hy]; [done|by apply Hb].
  - intros (_ & b & d & a & -> & -> & Hfile & Hb). induction b as [|x b IH]; cbn [app map List.find].
    + by rewrite Hfile.
    + rewrite (Hb x) by (by left). apply IH. intros y Hy. apply Hb. by right.
Qed.
End Dispatch.

(** ** A node, for the witnesses *)

Record CniNode := mkCniNode { cn_subnet_env : string; cn_chains : Chains; cn_runs : list string }.

Definition answer_output (a : Answer) : ExecOutput :=
  match a with
  | AnsOk => mkExecOutput true "exit status: 0" "" ""
  | AnsExist => mkExecOutput false "exit status: 1" "" "iptables: Chain already exists."
  | _ => mkExecOutput false "exit status: 1" "" "iptables: Bad rule."
  end.

Definition node_run (binary : string) (args : list string) (n : CniNode) : CniNode * result ExecOutput string :=
  let go pr := let '(c, a) := cni_ipt pr args (cn_chains n) in
               (mkCniNode (cn_subnet_env n) c (cn_runs n), Ok (answer_output a)) in
  if String.eqb binary "iptables" then go IPv4
  else if String.eqb binary "ip6tables" then go IPv6
  else (n, Err "No such file or directory").

#[local] Instance node_system : CniSystem CniNode := {
  cs_var _ _ := None;
  cs_read n _ := Ok (cn_subnet_env n);
  cs_is_file _ path := String.eqb path "/opt/cni/bin/bridge";
  cs_exec plugin _ _ n := (mkCniNode (cn_subnet_env n) (cn_chains n) (cn_runs n ++ [plugin]),
                           Ok (mkExecOutput true "exit status: 0" "{}" ""));
  cs_run := node_run;
}.

#[local] Program Instance node_laws : CniLaws CniNode := { cs_chains := cn_chains }.
Next Obligation.
  intros n pr args. cbn [cs_run node_system]. unfold node_run.
  destruct pr; cbn [proto_cmd String.eqb Ascii.eqb Bool.eqb]; destruct (cni_ipt _ args (cn_chains n)) as [c a];
    (split; [done|]); exists (answer_output a); (split; [done|]); by destruct a.
Qed.

#[local] Instance node_json : CniJson := {
  cj_text _ := Ok (TObject [("cniVersion", VString "1.0.0"); ("name", VString "cbr0"); ("type", VString "flannel")]);
  cj_value _ := Ok (VObject []);
  cj_print _ := "{}";
  cj_invalid _ _ := "invalid";
}.

Definition sn_sample : IP4Net := mkIP4Net (IP4_from_octets 10 5 7 0) 24.
Definition sn6_sample : IP6Net := mkIP6Net (ip6_from_value (252 * 2 ^ 120)) 64.

Definition written : string := default "" (subnet_file_content true sample_config true sn_sample sn6_sample 1450).

Definition cni_node : CniNode :=
  mkCniNode written
    (<[(IPv4, "nat", "POSTROUTING") := [["-j"; "KUBE-POSTROUTING"]]]> (<[(IPv6, "nat", "POSTROUTING") := []]> ∅)) [].

Definition add_args : CniArgs := mkCniArgs "ADD" "c1" "/var/run/netns/x" "eth0" "" "/usr/lib/cni:/opt/cni/bin".

Lemma cmd_add_uses_subnet_env_witness :
  exists d, Value_index d "mtu" = VNumber "1450"
    /\ Value_index (Value_index d "ipam") "ranges"
       = VArray [VArray [json_str "subnet" (IP4Net_fmt sn_sample)]; VArray [json_str "subnet" (IP6Net_fmt sn6_sample)]].
Proof.
  destruct (cmd_add_uses_subnet_env true sample_config true sn_sample sn6_sample 1450 written add_args "{}"
              (mkNetConf "1.0.0" "cbr0" "flannel" []) "/opt/cni/bin/bridge" cni_node) as (d & _ & Hm & _ & Hr).
  - exact sample_config_wf.
  - split_and!; [split; [by vm_compute|cbn; lia]|by vm_compute|cbn; lia].
  - split_and!; [apply (bool_decide_unpack (IP6Net_valid _)); by vm_compute|by vm_compute|cbn; lia].
  - by vm_compute.
  - by vm_compute.
  - by vm_compute.
  - reflexivity.
  - by vm_compute.
  - apply (bool_decide_unpack _). by vm_compute.
  - by vm_compute.
  - by vm_compute.
  - exists d. split; [exact Hm|exact Hr].
Defined.

Lemma ip_masq_config_once_witness :
  exists k', ip_masq_config (Some (mkIP4Net (IP4_from_octets 10 5 0 0) 16)) (Some sn_sample) None None cni_node = (k', Ok tt)
    /\ masq_installed IPv4 (IP4Net_fmt (mkIP4Net (IP4_from_octets 10 5 0 0) 16)) (IP4Net_fmt sn_sample) (cn_chains k').
Proof.
  destruct (ip_masq_config_once (Some (mkIP4Net (IP4_from_octets 10 5 0 0) 16)) (Some sn_sample) None None cni_node)
    as (k' & Hr & _ & H4 & _).
  - by intros [].
  - exists k'. split; [exact Hr|]. by apply H4.
Defined.

Definition del_args : CniArgs := mkCniArgs "DEL" "c1" "" "eth0" "" "/usr/lib/cni:/opt/cni/bin".

Lemma cni_del_tolerant_witness :
  exists d, cni_dispatch del_args "{}" (mkCniNode "FLANNEL_MTU=x" ∅ [])
            = ((delegate_del d "/opt/cni/bin/bridge" del_args (mkCniNode "FLANNEL_MTU=x" ∅ [])).1, mkPrinted [] 0).
Proof.
  destruct (cni_del_tolerant del_args "{}" (mkNetConf "1.0.0" "cbr0" "flannel" []) "/opt/cni/bin/bridge"
              (mkCniNode "FLANNEL_MTU=x" ∅ [])) as (d & _ & Hd).
  - reflexivity.
  - by vm_compute.
  - apply (bool_decide_unpack _). by vm_compute.
  - by vm_compute.
  - exists d. exact Hd.
Defined.
