(* ===== verification/Xfrm.v ===== *)
(** * [backend/ipsec/xfrm.rs]: the policies of the kernel, over raw netlink

    The structures of the kernel interface as bytes with the layout that
    [repr(C)] gives them, the requests, the collection of the replies and the
    reading of a policy.  The socket is the interface [GenlKernel]; a panic is
    an error.  [kernel_tmpl] and [linux_selector] are the same structures as
    linux/xfrm.h lays them out. *)

From S2P Require Import Prelude RustStr IpNet Ip6Net Lease RouteNetwork UdpProxy Genl WgKernel.
#[local] Open Scope string_scope.
#[local] Open Scope list_scope.
#[local] Open Scope Z_scope.

Definition XFRM_MSG_NEWPOLICY : Z := 19.
Definition XFRM_MSG_DELPOLICY : Z := 20.
Definition XFRM_MSG_GETPOLICY : Z := 21.
Definition XFRM_MSG_UPDPOLICY : Z := 25.
Definition XFRMA_TMPL : Z := 5.
Definition PROTO_ESP : Z := 50.
Definition MODE_TUNNEL : Z := 1.

Definition DIR_IN : Z := 0.
Definition DIR_OUT : Z := 1.
Definition DIR_FWD : Z := 2.

Record XfrmPolicySpec := mkXfrmPolicySpec {
  xs_src : IpAddr;
  xs_src_prefix : Z;
  xs_dst : IpAddr;
  xs_dst_prefix : Z;
  xs_dir : Z;
  xs_tunnel_src : IpAddr;
  xs_tunnel_dst : IpAddr;
  xs_reqid : Z;
}.

Record XfrmTmpl := mkXfrmTmpl {
  xt_src : IpAddr;
  xt_dst : IpAddr;
  xt_proto : Z;
  xt_mode : Z;
  xt_reqid : Z;
}.

Record XfrmPolicy := mkXfrmPolicy {
  xp_src : IpAddr;
  xp_src_prefix : Z;
  xp_dst : IpAddr;
  xp_dst_prefix : Z;
  xp_dir : Z;
  xp_index : Z;
  xp_priority : Z;
  xp_tmpls : list XfrmTmpl;
}.

(** ** The structures

    An address is its sixteen bytes; the limits and counters of a lifetime,
    which the code leaves zero, are their bytes. *)

Record XfrmSelector := mkXfrmSelector {
  sl_daddr : bytes;
  sl_saddr : bytes;
  sl_dport : Z;
  sl_dport_mask : Z;
  sl_sport : Z;
  sl_sport_mask : Z;
  sl_family : Z;
  sl_prefixlen_d : Z;
  sl_prefixlen_s : Z;
  sl_proto : Z;
  sl_ifindex : Z;
  sl_user : Z;
}.

Record XfrmUserpolicyInfo := mkXfrmUserpolicyInfo {
  ui_sel : XfrmSelector;
  ui_lft : bytes;
  ui_curlft : bytes;
  ui_priority : Z;
  ui_index : Z;
  ui_dir : Z;
  ui_action : Z;
  ui_flags : Z;
  ui_share : Z;
}.

Record XfrmUserTmpl := mkXfrmUserTmpl {
  ut_daddr : bytes;
  ut_spi : Z;
  ut_proto : Z;
  ut_family : Z;
  ut_saddr : bytes;
  ut_reqid : Z;
  ut_mode : Z;
  ut_share : Z;
  ut_optional : Z;
  ut_aalgos : Z;
  ut_ealgos : Z;
  ut_calgos : Z;
}.

Record XfrmUserpolicyId := mkXfrmUserpolicyId { pi_sel : XfrmSelector; pi_index : Z; pi_dir : Z }.

Definition addr16 (ip : IpAddr) : bytes :=
  match ip with V4 v4 => IP4_octets v4 ++ replicate 12 0 | V6 v6 => v6 end.

Definition ip_family (ip : IpAddr) : Z := match ip with V4 _ => AF_INET | V6 _ => AF_INET6 end.

Definition ip_of (a : bytes) (family : Z) : IpAddr :=
  if family =? AF_INET6 then V6 a else V4 (IP4_from_bytes (take 4 a)).

Definition fill_selector (spec : XfrmPolicySpec) : XfrmSelector :=
  mkXfrmSelector (addr16 (xs_dst spec)) (addr16 (xs_src spec)) 0 0 0 0 (ip_family (xs_src spec))
    (xs_dst_prefix spec) (xs_src_prefix spec) 0 0 0.

Definition policy_info (spec : XfrmPolicySpec) : XfrmUserpolicyInfo :=
  mkXfrmUserpolicyInfo (fill_selector spec) (replicate 64 0) (replicate 32 0) 0 0 (xs_dir spec) 0 0 0.

Definition user_tmpl (spec : XfrmPolicySpec) : XfrmUserTmpl :=
  mkXfrmUserTmpl (addr16 (xs_tunnel_dst spec)) 0 PROTO_ESP (ip_family (xs_tunnel_src spec))
    (addr16 (xs_tunnel_src spec)) (xs_reqid spec) MODE_TUNNEL 0 0 0 0 0.

(** [bytes_of]: the fields at their offsets, with the padding of [repr(C)].
    An address is an array of bytes, whose alignment is one: in the template
    it follows the family directly. *)
Definition selector_bytes (s : XfrmSelector) : bytes :=
  sl_daddr s ++ sl_saddr s ++ to_le 2 (sl_dport s) ++ to_le 2 (sl_dport_mask s) ++ to_le 2 (sl_sport s)
  ++ to_le 2 (sl_sport_mask s) ++ to_le 2 (sl_family s)
  ++ [sl_prefixlen_d s; sl_prefixlen_s s; sl_proto s; 0; 0; 0] ++ to_le 4 (sl_ifindex s) ++ to_le 4 (sl_user s).

Definition info_bytes (i : XfrmUserpolicyInfo) : bytes :=
  selector_bytes (ui_sel i) ++ ui_lft i ++ ui_curlft i ++ to_le 4 (ui_priority i) ++ to_le 4 (ui_index i)
  ++ [ui_dir i; ui_action i; ui_flags i; ui_share i] ++ [0; 0; 0; 0].

Definition tmpl_bytes (t : XfrmUserTmpl) : bytes :=
  ut_daddr t ++ to_le 4 (ut_spi t) ++ [ut_proto t; 0; 0; 0] ++ to_le 2 (ut_family t) ++ ut_saddr t ++ [0; 0]
  ++ to_le 4 (ut_reqid t) ++ [ut_mode t; ut_share t; ut_optional t; 0] ++ to_le 4 (ut_aalgos t)
  ++ to_le 4 (ut_ealgos t) ++ to_le 4 (ut_calgos t).

Definition id_bytes (p : XfrmUserpolicyId) : bytes :=
  selector_bytes (pi_sel p) ++ to_le 4 (pi_index p) ++ [pi_dir p; 0; 0; 0].

Definition SELECTOR_SIZE : nat := 56.
Definition INFO_SIZE : nat := 168.
Definition TMPL_SIZE : nat := 64.
Definition ID_SIZE : nat := 64.

(** [read_struct]: [None] when the slice is too short. *)
Definition le_at (n a : nat) (b : bytes) : Z := from_le (slice a (a + n) b).

Definition selector_of (b : bytes) : XfrmSelector :=
  mkXfrmSelector (slice 0 16 b) (slice 16 32 b) (le_at 2 32 b) (le_at 2 34 b) (le_at 2 36 b) (le_at 2 38 b)
    (le_at 2 40 b) (le_at 1 42 b) (le_at 1 43 b) (le_at 1 44 b) (le_at 4 48 b) (le_at 4 52 b).

Definition read_info (b : bytes) : option XfrmUserpolicyInfo :=
  match get_range 0 INFO_SIZE b with
  | None => None
  | Some c =>
      Some (mkXfrmUserpolicyInfo (selector_of c) (slice 56 120 c) (slice 120 152 c) (le_at 4 152 c) (le_at 4 156 c)
              (le_at 1 160 c) (le_at 1 161 c) (le_at 1 162 c) (le_at 1 163 c))
  end.

Definition read_tmpl (b : bytes) : option XfrmUserTmpl :=
  match get_range 0 TMPL_SIZE b with
  | None => None
  | Some c =>
      Some (mkXfrmUserTmpl (slice 0 16 c) (le_at 4 16 c) (le_at 1 20 c) (le_at 2 24 c) (slice 26 42 c) (le_at 4 44 c)
              (le_at 1 48 c) (le_at 1 49 c) (le_at 1 50 c) (le_at 4 52 c) (le_at 4 56 c) (le_at 4 60 c))
  end.

(** ** Attributes *)

Definition rtattr (attr_type : Z) (payload : bytes) : bytes :=
  let v := to_le 2 (wrap 16 (Z.of_nat (4 + length payload))) ++ to_le 2 attr_type ++ payload in
  v ++ replicate (align4 (length v) - length v) 0.

(** The requests end in one of these; the last two are a panic and a [recv]
    that never returns. *)
Inductive XfrmError :=
| XOs (code : Z)
| XShortReplies (n : nat)
| XShortPolicy
| XPanicked
| XBlocked.

Fixpoint parse_rtattrs_from (fuel : nat) (b : bytes) : result (list (Z * bytes)) XfrmError :=
  match fuel with
  | O => Ok []
  | S fuel =>
      if (length b <? 4)%nat then Ok []
      else
        let len := Z.to_nat (from_le (slice 0 2 b)) in
        let t := from_le (slice 2 4 b) in
        if (len <? 4)%nat || (length b <? len)%nat then Ok []
        else if (length b <? align4 len)%nat then Err XPanicked
        else
          let? rest := parse_rtattrs_from fuel (drop (align4 len) b) in
          Ok ((t, slice 4 len b) :: rest)
  end.

Definition parse_rtattrs (b : bytes) : result (list (Z * bytes)) XfrmError := parse_rtattrs_from (length b) b.

(** ** Replies *)

Definition MAX_SHORT_REPLIES : nat := 8.

Definition short_reply_error (short_replies : nat) : option XfrmError :=
  if (MAX_SHORT_REPLIES <=? short_replies)%nat then Some (XShortReplies short_replies) else None.

(** The messages of one datagram from [off] on: bodies, whether the reply is
    complete, malformed messages. *)
Fixpoint parse_reply_from (fuel : nat) (b : bytes) (results : list bytes) (done : bool) (shorts : nat)
  : result (list bytes * bool * nat) XfrmError :=
  match fuel with
  | O => Ok (results, done, shorts)
  | S fuel =>
      if (length b <? 16)%nat then Ok (results, done, shorts)
      else
        let mlen := Z.to_nat (default 0 (u32_of b)) in
        let mtype := default 0 (u16_of (drop 4 b)) in
        if (mlen <? 16)%nat || (length b <? mlen)%nat then Ok (results, done, S shorts)
        else
          let rest := drop (align4 mlen) b in
          if mtype =? NLMSG_ERROR then
            if (20 <=? mlen)%nat then
              let code := signed 32 (from_le (slice 16 20 b)) in
              if negb (code =? 0) then Err (XOs (- code)) else parse_reply_from fuel rest results true shorts
            else parse_reply_from fuel rest results done (S shorts)
          else if mtype =? NLMSG_DONE then parse_reply_from fuel rest results true shorts
          else parse_reply_from fuel rest (results ++ [slice 16 mlen b]) done shorts
  end.

Definition parse_reply (buf : bytes) : result (list bytes * bool * nat) XfrmError :=
  parse_reply_from (length buf) buf [] false 0.

Definition xfrm_message (msg_type seq port : Z) (payload : bytes) : bytes :=
  to_le 4 (wrap 32 (Z.of_nat (16 + length payload))) ++ to_le 2 msg_type
  ++ to_le 2 (Z.lor NLM_F_REQUEST NLM_F_ACK) ++ to_le 4 seq ++ to_le 4 port ++ payload.

Section Requests.
Context `{GenlKernel K} (fuel : nat).

(** The loop over the datagrams; [fuel] bounds their number. *)
Fixpoint xfrm_collect (fuel : nat) (results : list bytes) (short_replies : nat) : io K XfrmError (list bytes) :=
  match fuel with
  | O => io_err XBlocked
  | S fuel =>
      let! buf := io_map_err XOs gk_recv in
      let! (bodies, finished, shorts) := io_lift (parse_reply buf) in
      let results := results ++ bodies in
      if finished : bool then io_ret results
      else if (0 <? shorts)%nat || (length buf =? 0)%nat then
        let short_replies := (short_replies + shorts + (if (length buf =? 0)%nat then 1 else 0))%nat in
        match short_reply_error short_replies with
        | Some e => io_err e
        | None => xfrm_collect fuel results short_replies
        end
      else xfrm_collect fuel results short_replies
  end.

(** [XfrmSocket::new()?.request(..)]: the first request of a new socket has
    the sequence number one. *)
Definition xfrm_request (msg_type : Z) (payload : bytes) : io K XfrmError (list bytes) :=
  let! port := io_map_err XOs gk_open in
  let! _ := io_map_err XOs (gk_send (xfrm_message msg_type 1 port payload)) in
  xfrm_collect fuel [] 0.

Definition xfrm_req (msg_type : Z) (payload : bytes) : io K XfrmError unit :=
  let! _ := xfrm_request msg_type payload in io_ret tt.

(** ** Policies *)

Definition policy_info_msg (spec : XfrmPolicySpec) : bytes :=
  info_bytes (policy_info spec) ++ rtattr XFRMA_TMPL (tmpl_bytes (user_tmpl spec)).

Definition policy_id_msg (spec : XfrmPolicySpec) : bytes :=
  id_bytes (mkXfrmUserpolicyId (fill_selector spec) 0 (xs_dir spec)).

(** [chunks_exact]: the full chunks *)
Fixpoint chunks_exact (fuel n : nat) (b : bytes) : list bytes :=
  match fuel with
  | O => []
  | S fuel => if (length b <? n)%nat then [] else take n b :: chunks_exact fuel n (drop n b)
  end.

Definition tmpls_of (attrs : list (Z * bytes)) : list XfrmTmpl :=
  flat_map (fun '(t, payload) =>
    if negb (t =? XFRMA_TMPL) then []
    else omap (fun chunk =>
           match read_tmpl chunk with
           | None => None
           | Some ut => Some (mkXfrmTmpl (ip_of (ut_saddr ut) (ut_family ut)) (ip_of (ut_daddr ut) (ut_family ut))
                                (ut_proto ut) (ut_mode ut) (ut_reqid ut))
           end) (chunks_exact (length payload) TMPL_SIZE payload)) attrs.

Definition parse_policy (body : bytes) : result XfrmPolicy XfrmError :=
  match read_info body with
  | None => Err XShortPolicy
  | Some info =>
      let family := sl_family (ui_sel info) in
      let? attrs := parse_rtattrs (drop INFO_SIZE body) in
      Ok (mkXfrmPolicy (ip_of (sl_saddr (ui_sel info)) family) (sl_prefixlen_s (ui_sel info))
            (ip_of (sl_daddr (ui_sel info)) family) (sl_prefixlen_d (ui_sel info)) (ui_dir info) (ui_index info)
            (ui_priority info) (tmpls_of attrs))
  end.

Definition add_policy (spec : XfrmPolicySpec) : io K XfrmError unit :=
  xfrm_req XFRM_MSG_NEWPOLICY (policy_info_msg spec).
Definition update_policy (spec : XfrmPolicySpec) : io K XfrmError unit :=
  xfrm_req XFRM_MSG_UPDPOLICY (policy_info_msg spec).
Definition del_policy (spec : XfrmPolicySpec) : io K XfrmError unit :=
  xfrm_req XFRM_MSG_DELPOLICY (policy_id_msg spec).

Definition ENOENT : Z := 2.
Definition ENODATA : Z := 61.

Definition get_policy (spec : XfrmPolicySpec) : io K XfrmError (option XfrmPolicy) :=
  let! r := io_try (xfrm_request XFRM_MSG_GETPOLICY (policy_id_msg spec)) in
  let! bodies := io_lift (match r with
                          | Ok bodies => Ok bodies
                          | Err (XOs code) => if (code =? ENOENT) || (code =? ENODATA) then Ok [] else Err (XOs code)
                          | Err e => Err e
                          end) in
  match bodies with
  | [] => io_ret None
  | b :: _ => let! p := io_lift (parse_policy b) in io_ret (Some p)
  end.
End Requests.

(** * Theorems *)

(** Both addresses of a pair are of one family, as flannel's are. *)
Definition spec_typed (s : XfrmPolicySpec) : Prop :=
  addr_typed (xs_src s) /\ addr_typed (xs_dst s) /\ addr_typed (xs_tunnel_src s) /\ addr_typed (xs_tunnel_dst s)
  /\ ip_family (xs_src s) = ip_family (xs_dst s) /\ ip_family (xs_tunnel_src s) = ip_family (xs_tunnel_dst s)
  /\ u8 (xs_src_prefix s) /\ u8 (xs_dst_prefix s) /\ u8 (xs_dir s) /\ u32 (xs_reqid s).

Lemma length_addr16 ip : addr_typed ip -> length (addr16 ip) = 16%nat.
Proof. destruct ip as [v4|v6]; [intros _|intros [H _]; exact H]. unfold addr16, IP4_octets. by rewrite length_app, length_to_be. Qed.

Lemma ip_of_addr16 ip : addr_typed ip -> ip_of (addr16 ip) (ip_family ip) = ip.
Proof.
  destruct ip as [v4|v6]; [|done]. intros Hv. unfold ip_of, addr16, ip_family, IP4_octets. cbn [Z.eqb AF_INET AF_INET6].
  change (AF_INET =? AF_INET6) with false. cbv iota. f_equal.
  rewrite take_app_length' by (by rewrite length_to_be). unfold IP4_from_bytes. rewrite from_be_to_be.
  change (256 ^ Z.of_nat 4) with (2 ^ 32). by apply Z.mod_small.
Qed.

Lemma from_le_one x : from_le [x] = x.
Proof. cbn. lia. Qed.

Lemma le_round n v : in_width (8 * Z.of_nat n) v -> from_le (to_le n v) = v.
Proof.
  intros Hv. rewrite from_le_to_le. replace (256 ^ Z.of_nat n) with (2 ^ (8 * Z.of_nat n)).
  - by apply Z.mod_small.
  - rewrite Z.pow_mul_r by lia. done.
Qed.

(** An address, byte by byte *)
Ltac spell l :=
  let H := fresh in
  assert (length l = 16%nat) as H by assumption;
  do 16 (destruct l as [|? l]; [discriminate H|]); destruct l as [|? l]; [clear H|discriminate H].

(** A number read where it was written *)
Ltac read_field :=
  match goal with
  | |- _ = ?v =>
      first [ reflexivity
            | transitivity (from_le [v]); [reflexivity|apply from_le_one]
            | transitivity (from_le (to_le 2 v)); [reflexivity|by apply le_round]
            | transitivity (from_le (to_le 4 v)); [reflexivity|by apply le_round] ]
  end.

Lemma length_selector_bytes s :
  length (sl_daddr s) = 16%nat -> length (sl_saddr s) = 16%nat -> length (selector_bytes s) = SELECTOR_SIZE.
Proof. intros H1 H2. unfold selector_bytes. by rewrite !length_app, !length_to_le, H1, H2. Qed.

Lemma length_info_bytes spec : spec_typed spec -> length (info_bytes (policy_info spec)) = INFO_SIZE.
Proof.
  intros (Hs & Hd & _). unfold info_bytes. rewrite !length_app, !length_to_le.
  rewrite length_selector_bytes by (by apply length_addr16). done.
Qed.

Lemma length_tmpl_bytes spec : spec_typed spec -> length (tmpl_bytes (user_tmpl spec)) = TMPL_SIZE.
Proof.
  intros (_ & _ & Hs & Hd & _). unfold tmpl_bytes. rewrite !length_app, !length_to_le. cbn [ut_daddr ut_saddr user_tmpl].
  by rewrite !length_addr16.
Qed.

Lemma read_info_bytes spec rest :
  spec_typed spec -> read_info (info_bytes (policy_info spec) ++ rest) = Some (policy_info spec).
Proof.
  intros Ht. unfold read_info. rewrite get_range_app_l by (by apply length_info_bytes).
  destruct Ht as (Hs%length_addr16 & Hd%length_addr16 & _ & _ & _ & _ & Hsp & Hdp & Hdir & _).
  destruct spec as [src sp dst dp dir ts td reqid]. unfold policy_info, fill_selector. cbn in Hs, Hd, Hsp, Hdp, Hdir.
  cbn [xs_src xs_src_prefix xs_dst xs_dst_prefix xs_dir xs_tunnel_src xs_tunnel_dst xs_reqid].
  assert (u16 (ip_family src)) as Hf by (by destruct src).
  set (f := ip_family src) in *. set (a := addr16 src) in *. set (b := addr16 dst) in *. clearbody f a b.
  spell a. spell b.
  f_equal. f_equal; [unfold selector_of; f_equal|..]; read_field.
Qed.

Lemma read_tmpl_bytes spec :
  spec_typed spec -> read_tmpl (tmpl_bytes (user_tmpl spec)) = Some (user_tmpl spec).
Proof.
  intros Ht. unfold read_tmpl. rewrite get_range_all by (by apply length_tmpl_bytes).
  destruct Ht as (_ & _ & Hs%length_addr16 & Hd%length_addr16 & _ & _ & _ & _ & _ & Hr).
  destruct spec as [src sp dst dp dir ts td reqid]. unfold user_tmpl. cbn in Hs, Hd, Hr.
  cbn [xs_src xs_src_prefix xs_dst xs_dst_prefix xs_dir xs_tunnel_src xs_tunnel_dst xs_reqid].
  assert (u16 (ip_family ts)) as Hf by (by destruct ts).
  set (f := ip_family ts) in *. set (a := addr16 ts) in *. set (b := addr16 td) in *. clearbody f a b.
  spell a. spell b.
  f_equal. f_equal; read_field.
Qed.

Lemma parse_rtattrs_tmpl payload :
  length payload = TMPL_SIZE -> parse_rtattrs (rtattr XFRMA_TMPL payload) = Ok [(XFRMA_TMPL, payload)].
Proof.
  unfold TMPL_SIZE. intros Hl. do 64 (destruct payload as [|? payload]; [discriminate Hl|]).
  destruct payload as [|? payload]; [reflexivity|discriminate Hl].
Qed.

(** What a request asks for, as a policy *)
Definition policy_of (spec : XfrmPolicySpec) : XfrmPolicy :=
  mkXfrmPolicy (xs_src spec) (xs_src_prefix spec) (xs_dst spec) (xs_dst_prefix spec) (xs_dir spec) 0 0
    [mkXfrmTmpl (xs_tunnel_src spec) (xs_tunnel_dst spec) PROTO_ESP MODE_TUNNEL (xs_reqid spec)].

(** A policy that the client writes is read back by the client as the
    policy that was asked for, template included; the structures have the
    sizes of the kernel interface. *)
Theorem xfrm_policy_round_trip spec :
  spec_typed spec ->
  parse_policy (policy_info_msg spec) = Ok (policy_of spec)
  /\ length (info_bytes (policy_info spec)) = INFO_SIZE /\ length (tmpl_bytes (user_tmpl spec)) = TMPL_SIZE
  /\ length (policy_id_msg spec) = ID_SIZE.
Proof.
  intros Ht. pose proof (length_info_bytes spec Ht) as Hi. pose proof (length_tmpl_bytes spec Ht) as Hl.
  split_and!; [|done|done|].
  - unfold parse_policy, policy_info_msg. rewrite read_info_bytes by done.
    rewrite <- Hi, drop_app_length, parse_rtattrs_tmpl by done. cbn [rbind tmpls_of flat_map].
    change (negb (XFRMA_TMPL =? XFRMA_TMPL)) with false. cbv iota. rewrite Hl. cbn [TMPL_SIZE chunks_exact].
    rewrite Hl, take_ge, drop_ge by (rewrite Hl; done). cbn [TMPL_SIZE Nat.ltb Nat.leb omap list_omap length].
    rewrite read_tmpl_bytes by done. destruct Ht as (Hs & Hd & Hts & Htd & Hf & Htf & _).
    unfold policy_of, policy_info, fill_selector, user_tmpl. cbn [ui_sel sl_family sl_saddr sl_daddr sl_prefixlen_s
      sl_prefixlen_d ui_dir ui_index ui_priority ut_saddr ut_daddr ut_family ut_proto ut_mode ut_reqid app].
    rewrite (ip_of_addr16 (xs_src spec)), (ip_of_addr16 (xs_tunnel_src spec)) by done.
    rewrite Hf, Htf, !ip_of_addr16 by done. done.
  - destruct Ht as (Hs & Hd & _). unfold policy_id_msg, id_bytes. cbn [pi_sel pi_index pi_dir].
    rewrite !length_app, length_to_le, length_selector_bytes by (by apply length_addr16). done.
Qed.

(** ** The layout of linux/xfrm.h *)

(** Addresses are unions of 32-bit words there, so that the source address of
    a template starts at the next multiple of four after the family. *)
Definition kernel_tmpl (b : bytes) : XfrmTmpl :=
  mkXfrmTmpl (ip_of (slice 28 44 b) (le_at 2 24 b)) (ip_of (slice 0 16 b) (le_at 2 24 b)) (le_at 1 20 b)
    (le_at 1 48 b) (le_at 4 44 b).

(** The 56 bytes of [struct xfrm_selector] for the packets from one IPv4
    network to another, of any protocol, port, interface and user: daddr,
    saddr, dport, dport_mask, sport, sport_mask, family, prefixlen_d,
    prefixlen_s, proto, three bytes of padding, ifindex, user. *)
Definition linux_selector (src dst : IP4Net) : bytes :=
  IP4_octets (ip4n_ip dst) ++ replicate 12 0 ++ IP4_octets (ip4n_ip src) ++ replicate 12 0
  ++ replicate 8 0 ++ [2; 0] ++ [ip4n_plen dst; ip4n_plen src] ++ [0] ++ replicate 3 0 ++ replicate 8 0.

(** The kernel reads the destination, the protocol, the mode and the id of a
    template as they were meant, and the source address two bytes late. *)
Theorem kernel_reads_tmpl spec :
  spec_typed spec ->
  let t := kernel_tmpl (tmpl_bytes (user_tmpl spec)) in
  xt_dst t = xs_tunnel_dst spec /\ xt_proto t = PROTO_ESP /\ xt_mode t = MODE_TUNNEL /\ xt_reqid t = xs_reqid spec
  /\ xt_src t = ip_of (drop 2 (addr16 (xs_tunnel_src spec)) ++ [0; 0]) (ip_family (xs_tunnel_src spec)).
Proof.
  intros (_ & _ & Hs & Hd & _ & Hf & _ & _ & _ & Hr). rewrite <- (ip_of_addr16 _ Hd), <- Hf.
  apply length_addr16 in Hs, Hd. destruct spec as [src sp dst dp dir ts td reqid]. unfold user_tmpl. cbn in Hs, Hd, Hr.
  cbn [xs_tunnel_src xs_tunnel_dst xs_reqid]. assert (u16 (ip_family ts)) as Hw by (by destruct ts).
  set (f := ip_family ts) in *. set (a := addr16 ts) in *. set (b := addr16 td) in *. clearbody f a b.
  spell a. spell b. unfold kernel_tmpl. cbn [xt_dst xt_proto xt_mode xt_reqid xt_src].
  split_and!; [f_equal; read_field|read_field|read_field|read_field|f_equal; read_field].
Qed.

(** For 192.168.1.5 that is 1.5.0.0. *)
Theorem tmpl_source_misplaced :
  let spec := mkXfrmPolicySpec (V4 (IP4_from_octets 10 99 1 0)) 24 (V4 (IP4_from_octets 10 99 2 0)) 24 DIR_OUT
                (V4 (IP4_from_octets 192 168 1 5)) (V4 (IP4_from_octets 192 168 1 6)) 11 in
  xt_src (kernel_tmpl (tmpl_bytes (user_tmpl spec))) = V4 (IP4_from_octets 1 5 0 0).
Proof. by vm_compute. Qed.

(** ** Lemmas: the collection of the replies *)

(** The effect of one message, for an error message that carries its code *)
Definition xreply_step (r : Reply) (acc : list bytes * bool) : result (list bytes * bool) XfrmError :=
  let '(results, fin) := acc in
  if rp_type r =? NLMSG_ERROR then
    let code := signed 32 (from_le (take 4 (rp_body r))) in
    if negb (code =? 0) then Err (XOs (- code)) else Ok (results, true)
  else if rp_type r =? NLMSG_DONE then Ok (results, true)
  else Ok (results ++ [rp_body r], fin).

Definition xreply_ok (r : Reply) : Prop :=
  reply_ok r /\ (rp_type r = NLMSG_ERROR -> (4 <= length (rp_body r))%nat).

Lemma parse_reply_fuel f f' b results fin n :
  (length b <= f)%nat -> (length b <= f')%nat ->
  parse_reply_from f b results fin n = parse_reply_from f' b results fin n.
Proof.
  revert f' b results fin n. induction f as [|f IH]; intros f' b results fin n Hl Hl'.
  - destruct b; [|cbn in Hl; lia]. by destruct f'.
  - destruct f' as [|f']; [destruct b; [done|cbn in Hl'; lia]|]. cbn [parse_reply_from].
    destruct (length b <? 16)%nat eqn:E; [done|]. apply Nat.ltb_ge in E.
    destruct (_ || _) eqn:Ec; [done|]. apply orb_false_iff in Ec as [E1%Nat.ltb_ge _].
    set (mlen := Z.to_nat _) in *. pose proof (align4_bounds mlen).
    destruct (_ =? NLMSG_ERROR).
    + destruct (20 <=? mlen)%nat; [destruct (negb _); [done|]|]; apply IH; rewrite length_drop; lia.
    + destruct (_ =? NLMSG_DONE); apply IH; rewrite length_drop; lia.
Qed.

Lemma parse_reply_one f r rest results fin n :
  xreply_ok r -> (length (encode_reply r ++ rest) <= f)%nat ->
  parse_reply_from f (encode_reply r ++ rest) results fin n
  = (let? (results, fin) := xreply_step r (results, fin) in parse_reply_from (length rest) rest results fin n).
Proof.
  intros [(Ht & Hr & Hb) He] Hl. pose proof (align4_bounds (16 + length (rp_body r))) as Ha.
  rewrite length_app, length_encode_reply in Hl by done. destruct f as [|f]; [lia|].
  cbn [parse_reply_from]. rewrite length_app, length_encode_reply, (proj2 (Nat.ltb_ge _ 16)) by lia.
  rewrite (encode_reply_len r rest) by done. rewrite (encode_reply_type r rest) by done.
  cbn [default]. change (id ?x) with x. rewrite Nat2Z.id.
  rewrite !(proj2 (Nat.ltb_ge _ _)) by lia. cbn [orb].
  rewrite (encode_reply_body r rest), (encode_reply_rest r rest) by done.
  unfold xreply_step. destruct (Z.eqb_spec (rp_type r) NLMSG_ERROR) as [Herr|].
  - specialize (He Herr). rewrite (proj2 (Nat.leb_le 20 _)) by lia.
    assert (slice 16 20 (encode_reply r ++ rest) = take 4 (rp_body r)) as ->.
    { transitivity (take 4 (slice 16 (16 + length (rp_body r)) (encode_reply r ++ rest))).
      - unfold slice. rewrite take_take. f_equal. lia.
      - by rewrite encode_reply_body. }
    destruct (negb _); [done|]. cbn [rbind]. apply parse_reply_fuel; lia.
  - destruct (rp_type r =? NLMSG_DONE); cbn [rbind]; apply parse_reply_fuel; lia.
Qed.

Lemma parse_reply_single r :
  xreply_ok r ->
  parse_reply (encode_replies [r])
  = (let? (results, fin) := xreply_step r ([], false) in Ok (results, fin, 0%nat)).
Proof.
  intros Hr. unfold parse_reply, encode_replies. cbn [map concat]. rewrite parse_reply_one by done.
  by destruct (xreply_step r ([], false)) as [[? ?]|].
Qed.

(** A message with an error code, zero for the acknowledgement, and what it
    repeats of the request *)
Definition status_reply (rest : bytes) (code : Z) (echo : bytes) : Reply :=
  mkReply NLMSG_ERROR rest (to_le 4 (wrap 32 (- code)) ++ echo).

Lemma status_reply_ok rest code echo :
  length rest = 10%nat -> Z.of_nat (length echo) <= 65536 -> xreply_ok (status_reply rest code echo).
Proof.
  intros Hr He. split; [split; [done|]; split; [done|]|]; cbn [status_reply rp_body]; rewrite ?length_app, ?length_to_le; [lia|].
  intros _. lia.
Qed.

Lemma status_reply_step rest code echo results fin :
  0 <= code < 2 ^ 31 ->
  xreply_step (status_reply rest code echo) (results, fin) = if code =? 0 then Ok (results, true) else Err (XOs code).
Proof.
  intros Hc. unfold xreply_step, status_reply. cbn [rp_type rp_body]. rewrite Z.eqb_refl.
  rewrite take_app_length' by (by rewrite length_to_le).
  pose proof (error_code_encoded (- code) [] ltac:(lia)) as He. unfold error_code_of in He.
  rewrite get_range_app_l in He by apply length_to_le.
  assert (signed 32 (from_le (to_le 4 (wrap 32 (- code)))) = - code) as -> by congruence.
  destruct (Z.eqb_spec code 0) as [->|]; [done|]. rewrite (proj2 (Z.eqb_neq _ _)) by lia. cbn [negb]. by rewrite Z.opp_involutive.
Qed.

(** ** The kernel *)

(** A policy is found by the bytes of its selector and its direction. *)
Abbreviation PolicyKey := (bytes * Z)%type.
Abbreviation PolicyTable := (gmap PolicyKey XfrmTmpl).

Definition EEXIST : Z := 17.
Definition EINVAL : Z := 22.

Definition kernel_key (dir_at : nat) (payload : bytes) : PolicyKey := (take SELECTOR_SIZE payload, nth dir_at payload 0).

Definition kernel_policy (payload : bytes) : option XfrmTmpl :=
  match parse_rtattrs (drop INFO_SIZE payload) with
  | Ok ((t, b) :: _) => if (t =? XFRMA_TMPL) && (length b =? TMPL_SIZE)%nat then Some (kernel_tmpl b) else None
  | _ => None
  end.

(** What the kernel does with a request: the table after it, and the code of
    its answer. *)
Definition xfrm_do (msg_type : Z) (payload : bytes) (t : PolicyTable) : PolicyTable * Z :=
  let key := kernel_key 160 payload in
  let id := kernel_key 60 payload in
  if msg_type =? XFRM_MSG_NEWPOLICY then
    match kernel_policy payload with
    | None => (t, EINVAL)
    | Some tmpl => if is_some (t !! key) then (t, EEXIST) else (<[key := tmpl]> t, 0)
    end
  else if msg_type =? XFRM_MSG_UPDPOLICY then
    match kernel_policy payload with None => (t, EINVAL) | Some tmpl => (<[key := tmpl]> t, 0) end
  else if msg_type =? XFRM_MSG_DELPOLICY then
    if is_some (t !! id) then (delete id t, 0) else (t, ENOENT)
  else if msg_type =? XFRM_MSG_GETPOLICY then (t, if is_some (t !! id) then 0 else ENOENT)
  else (t, EINVAL).

(** A policy that the kernel reports can be read. *)
Definition policy_body (r : Reply) : Prop :=
  xreply_ok r /\ rp_type r <> NLMSG_ERROR /\ rp_type r <> NLMSG_DONE /\ is_ok (parse_policy (rp_body r)) = true.

(** The socket of a process with the right to change policies: it opens, takes
    the request, and the kernel answers with an error, or, after the policy
    that was asked for, with an acknowledgement. *)
Class XfrmLaws (K : Type) `{GenlKernel K} := {
  xk_table : K -> PolicyTable;
  xk_open : forall k, exists k' port, gk_open k = (k', Ok port) /\ xk_table k' = xk_table k;
  xk_answer : forall k msg_type port payload,
    u16 msg_type ->
    exists k1 k2 rest echo ds,
      gk_send (xfrm_message msg_type 1 port payload) k = (k1, Ok tt)
      /\ delivers (ds ++ [[status_reply rest (xfrm_do msg_type payload (xk_table k)).2 echo]]) k1 k2
      /\ length rest = 10%nat /\ Z.of_nat (length echo) <= 65536 /\ xk_table k2 = (xfrm_do msg_type payload (xk_table k)).1
      /\ if (msg_type =? XFRM_MSG_GETPOLICY) && ((xfrm_do msg_type payload (xk_table k)).2 =? 0)
         then exists r, ds = [[r]] /\ policy_body r
         else ds = [];
}.

Section Effects.
Context `{XfrmLaws K}.

Lemma xfrm_do_code msg_type payload t : 0 <= (xfrm_do msg_type payload t).2 < 2 ^ 31.
Proof.
  unfold xfrm_do, EINVAL, EEXIST, ENOENT.
  repeat match goal with |- context [if ?c then _ else _] => destruct c | |- context [match ?o with _ => _ end] => destruct o end; cbn; lia.
Qed.

(** A request other than GETPOLICY succeeds exactly when the kernel's code is
    zero, and the table is the kernel's. *)
Lemma xfrm_req_effect fuel msg_type payload (k : K) :
  msg_type <> XFRM_MSG_GETPOLICY -> u16 msg_type ->
  exists k', xfrm_req (S fuel) msg_type payload k
    = (k', let code := (xfrm_do msg_type payload (xk_table k)).2 in if code =? 0 then Ok tt else Err (XOs code))
    /\ xk_table k' = (xfrm_do msg_type payload (xk_table k)).1.
Proof.
  intros Ht Hw. destruct (xk_open k) as (k0 & port & Ho & Htab).
  destruct (xk_answer k0 msg_type port payload Hw) as (k1 & k2 & rest & echo & ds & Hs & Hd & Hl & Hle & Htab2 & Hds).
  rewrite (proj2 (Z.eqb_neq _ _) Ht) in Hds. cbn [andb] in Hds. subst ds. rewrite Htab in *.
  destruct Hd as (k1' & Hr & <-). exists k1'. split; [|done].
  unfold xfrm_req, xfrm_request, io_bind, io_map_err. rewrite Ho. cbn [map_err]. rewrite Hs. cbn [map_err xfrm_collect].
  unfold io_bind, io_map_err, io_lift. rewrite Hr. cbn [map_err]. rewrite parse_reply_single by (by apply status_reply_ok).
  rewrite status_reply_step by apply xfrm_do_code. cbv zeta.
  by destruct (_ =? 0).
Qed.

(** GETPOLICY finds the policy exactly when the table has it. *)
Lemma get_policy_effect fuel spec (k : K) :
  exists k' r, get_policy (S (S fuel)) spec k = (k', Ok r) /\ xk_table k' = xk_table k
    /\ is_some r = is_some (xk_table k !! kernel_key 60 (policy_id_msg spec)).
Proof.
  destruct (xk_open k) as (k0 & port & Ho & Htab).
  destruct (xk_answer k0 XFRM_MSG_GETPOLICY port (policy_id_msg spec) ltac:(done)) as (k1 & k2 & rest & echo & ds & Hs & Hd & Hl & Hle & Htab2 & Hds).
  rewrite Htab in *. unfold xfrm_do in Hd, Htab2, Hds.
  cbn [Z.eqb XFRM_MSG_GETPOLICY XFRM_MSG_NEWPOLICY XFRM_MSG_UPDPOLICY XFRM_MSG_DELPOLICY Pos.eqb fst snd andb] in Hd, Htab2, Hds.
  unfold get_policy, xfrm_request, io_bind, io_try, io_map_err, io_lift. rewrite Ho. cbn [map_err]. rewrite Hs. cbn [map_err].
  destruct (is_some (xk_table k !! kernel_key 60 (policy_id_msg spec))) eqn:He.
  - change (0 =? 0) with true in Hds. cbv iota in Hds. destruct Hds as (r & -> & Hr & Hn1 & Hn2 & Hp). cbn [app delivers] in Hd.
    destruct Hd as (k3 & Hr1 & k4 & Hr2 & <-).
    destruct (parse_policy (rp_body r)) as [p|] eqn:Hpp; [|done].
    exists k4, (Some p). split; [|done]. cbn [xfrm_collect]. unfold io_bind, io_map_err, io_lift. rewrite Hr1. cbn [map_err].
    rewrite parse_reply_single by done. unfold xreply_step.
    rewrite (proj2 (Z.eqb_neq _ _) Hn1), (proj2 (Z.eqb_neq _ _) Hn2). cbn [rbind app Nat.ltb Nat.leb orb].
    replace (length (encode_replies [r]) =? 0)%nat with false.
    2:{ symmetry. apply Nat.eqb_neq. unfold encode_replies. cbn [map concat]. rewrite length_app, length_encode_reply by apply Hr.
        pose proof (align4_bounds (16 + length (rp_body r))). lia. }
    rewrite Hr2. cbn [map_err]. rewrite parse_reply_single by (by apply status_reply_ok).
    rewrite status_reply_step by done.
    change (0 =? 0) with true. cbn [rbind app]. unfold io_ret. by rewrite Hpp.
  - change (ENOENT =? 0) with false in Hds. cbv iota in Hds. subst ds. cbn [app delivers] in Hd. destruct Hd as (k3 & Hr1 & <-).
    exists k3, None. split; [|done]. cbn [xfrm_collect]. unfold io_bind, io_map_err, io_lift. rewrite Hr1. cbn [map_err].
    rewrite parse_reply_single by (by apply status_reply_ok). by rewrite status_reply_step.
Qed.
End Effects.

Definition policy_key (spec : XfrmPolicySpec) : PolicyKey := (selector_bytes (fill_selector spec), xs_dir spec).

(** The template as the kernel keeps it *)
Definition kept_tmpl (spec : XfrmPolicySpec) : XfrmTmpl := kernel_tmpl (tmpl_bytes (user_tmpl spec)).

Lemma length_fill_selector spec : spec_typed spec -> length (selector_bytes (fill_selector spec)) = SELECTOR_SIZE.
Proof. intros (Hs & Hd & _). apply length_selector_bytes; by apply length_addr16. Qed.

Lemma kernel_key_info spec : spec_typed spec -> kernel_key 160 (policy_info_msg spec) = policy_key spec.
Proof.
  intros Ht. pose proof (length_fill_selector spec Ht) as Hl. unfold kernel_key, policy_key, policy_info_msg, info_bytes.
  cbn [ui_sel policy_info ui_lft ui_curlft ui_priority ui_index ui_dir ui_action ui_flags ui_share].
  rewrite <- !app_assoc. f_equal; [rewrite <- Hl; apply take_app_length|].
  rewrite app_nth2 by (rewrite Hl; unfold SELECTOR_SIZE; lia). rewrite Hl. reflexivity.
Qed.

Lemma kernel_key_id spec : spec_typed spec -> kernel_key 60 (policy_id_msg spec) = policy_key spec.
Proof.
  intros Ht. pose proof (length_fill_selector spec Ht) as Hl. unfold kernel_key, policy_key, policy_id_msg, id_bytes.
  cbn [pi_sel pi_index pi_dir]. f_equal; [rewrite <- Hl; apply take_app_length|].
  rewrite app_nth2 by (rewrite Hl; unfold SELECTOR_SIZE; lia). rewrite Hl. reflexivity.
Qed.

Lemma kernel_policy_info spec : spec_typed spec -> kernel_policy (policy_info_msg spec) = Some (kept_tmpl spec).
Proof.
  intros Ht. unfold kernel_policy, policy_info_msg. rewrite <- (length_info_bytes spec Ht), drop_app_length.
  pose proof (length_tmpl_bytes spec Ht) as Hl. rewrite parse_rtattrs_tmpl by done. by rewrite Hl.
Qed.

(** ** Malformed replies *)

(** A socket that yields the same datagram for ever *)
Definition stuck_socket (datagram : bytes) : GenlKernel unit := {|
  gk_open k := (k, Ok 0);
  gk_send _ k := (k, Ok tt);
  gk_recv k := (k, Ok datagram);
|}.

(** Empty datagrams are counted and end the request with the eighth. *)
Theorem empty_datagrams_end fuel :
  (8 <= fuel)%nat -> (xfrm_collect (H := stuck_socket []) fuel [] 0 tt).2 = Err (XShortReplies 8).
Proof. intros Hf. do 8 (destruct fuel as [|fuel]; [lia|]). reflexivity. Qed.

(** Datagrams shorter than a header are not counted, although the limit is
    meant for every short reply: the request receives them for ever. *)
Theorem short_datagrams_spin fuel :
  (xfrm_collect (H := stuck_socket [0; 0; 0; 0]) fuel [] 0 tt).2 = Err XBlocked.
Proof. induction fuel as [|fuel IH]; [done|]. cbn in IH |- *. exact IH. Qed.

(** Like the attributes of generic netlink, an unpadded last one panics. *)
Theorem parse_rtattrs_unpadded_panics : parse_rtattrs [5; 0; 1; 0; 7] = Err XPanicked.
Proof. by vm_compute. Qed.

Definition xfrm_sample : XfrmPolicySpec :=
  mkXfrmPolicySpec (V4 (IP4_from_octets 10 5 1 0)) 24 (V4 (IP4_from_octets 10 5 2 0)) 24 DIR_OUT
    (V4 (IP4_from_octets 192 168 1 5)) (V4 (IP4_from_octets 192 168 1 6)) 11.

Lemma xfrm_sample_typed : spec_typed xfrm_sample.
Proof. repeat split; by vm_compute. Qed.

Lemma xfrm_policy_round_trip_witness :
  parse_policy (policy_info_msg xfrm_sample) = Ok (policy_of xfrm_sample).
Proof. exact (proj1 (xfrm_policy_round_trip xfrm_sample xfrm_sample_typed)). Defined.
