(* ===== verification/Backend.v ===== *)
(** * [backend/traits.rs], [alloc.rs], [hostgw.rs], [simple_network.rs]

    What every backend is given (the subnet manager and the external
    interface) and what it registers (a lease, an MTU and, for the route-based
    ones, the routes of a lease), with the two backends that need no device of
    their own.  The subnet manager is the interface [SubnetManager]; netlink
    is [NlKernel]. *)

From S2P Require Import Prelude RustStr StdNet IpNet Ip6Net Lease Config Anyhow RouteNetwork Iface.
#[local] Open Scope string_scope.
#[local] Open Scope list_scope.
#[local] Open Scope Z_scope.

(** The trait [Manager] and the cancellation token, as far as the backends
    and the daemon use them. *)
Class SubnetManager (K : Type) := {
  sm_network_config : io K anyhow Config;
  sm_acquire_lease : LeaseAttrs -> io K anyhow Lease;
  sm_stored_macs : K -> K * (string * string);
  sm_stored_public_ip : K -> K * (string * string);
  sm_handle_subnet_file : string -> Config -> bool -> IP4Net -> IP6Net -> Z -> io K string unit;
  (** [true]: the error is [Interrupted]. *)
  sm_complete_lease : Lease -> io K bool unit;
  sm_is_cancelled : K -> bool;
  (** [Netlink::new] *)
  sm_netlink : io K anyhow unit;
}.

(** ** Networks *)

Record SimpleNetwork := mkSimpleNetwork { sn_lease : Lease; sn_mtu : Z }.

(** A route may depend on the kernel at the time of the event. *)
Record RouteNetwork (K : Type) := mkRouteNetwork {
  rn_lease : Lease;
  rn_backend_type : string;
  rn_mtu : Z;
  rn_link_index : Z;
  rn_get_route : option (K -> Lease -> RouteSpec);
  rn_get_v6_route : option (K -> Lease -> RouteSpec);
}.
Arguments mkRouteNetwork {K}.
Arguments rn_lease {K}.
Arguments rn_backend_type {K}.
Arguments rn_mtu {K}.
Arguments rn_link_index {K}.
Arguments rn_get_route {K}.
Arguments rn_get_v6_route {K}.

(** ** Registration *)

Definition ext_addr_ip4 (ei : ExternalInterface) : result IP4 anyhow :=
  match ei_ext_addr ei with
  | Some (V4 v4) => Ok v4
  | _ => Err ["Address is not an IPv4 address"]
  end.

Definition ext_addr_ip6 (ei : ExternalInterface) : result IP6 anyhow :=
  match ei_ext_v6_addr ei with
  | Some (V6 v6) => Ok v6
  | _ => Err ["Address is not an IPv6 address"]
  end.

Definition lease_failed (e : anyhow) : anyhow := ["failed to acquire lease: " +:+ fmt_anyhow e].

Section Registration.
Context `{SubnetManager K} `{NlKernel K}.

(** The [match self.sm.acquire_lease(..)] the backends share: an error after
    a cancellation passes unchanged. *)
Definition acquire_registered (attrs : LeaseAttrs) : io K anyhow Lease := fun k =>
  match sm_acquire_lease attrs k with
  | (k, Ok lease) => (k, Ok lease)
  | (k, Err e) => if sm_is_cancelled k then (k, Err e) else (k, Err (lease_failed e))
  end.

(** [get_link_mtu], whose errors are messages *)
Definition iface_mtu (index : Z) : io K anyhow Z :=
  let! k := io_get in io_lift (map_err (fun e => [e]) (get_link_mtu k index)).

Definition public_attrs (ip : IP4) (ip6 : option IP6) (backend_type : string) : LeaseAttrs :=
  mkLeaseAttrs ip ip6 backend_type None None.

(** [alloc.rs] *)
Definition alloc_register_network (ei : ExternalInterface) : io K anyhow SimpleNetwork :=
  let! ip := io_lift (ext_addr_ip4 ei) in
  let! lease := acquire_registered (public_attrs ip None "") in
  let! _ := sm_netlink in
  let! mtu := iface_mtu (ei_iface_index ei) in
  io_ret (mkSimpleNetwork lease mtu).

(** [hostgw.rs]: the constructor refuses an address behind a NAT. *)
Definition nat_unsupported : string :=
  "your PublicIP differs from interface IP, meaning that probably you're on a NAT, which is not supported by host-gw backend".

Definition hostgw_new_backend (ei : ExternalInterface) : result ExternalInterface anyhow :=
  if bool_decide (ei_ext_addr ei = ei_iface_addr ei) then Ok ei else Err [nat_unsupported].

(** [if c { x = Some(f()?) }] from [None] *)
Definition when_enabled {A} (c : bool) (r : result A anyhow) : result (option A) anyhow :=
  if c then let? a := r in Ok (Some a) else Ok None.

Definition hostgw_register_network (ei : ExternalInterface) (config : Config) : io K anyhow (RouteNetwork K) :=
  let! _ := sm_netlink in
  let! mtu := iface_mtu (ei_iface_index ei) in
  let! ip := io_lift (when_enabled (cfg_enable_ipv4 config) (ext_addr_ip4 ei)) in
  let! ip6 := io_lift (when_enabled (cfg_enable_ipv6 config) (ext_addr_ip6 ei)) in
  let! lease := acquire_registered (public_attrs (default 0 ip) ip6 "host-gw") in
  io_ret (mkRouteNetwork lease "host-gw" mtu (ei_iface_index ei)
            (option_map (fun _ _ => hostgw_get_route (ei_iface_index ei)) ip)
            (option_map (fun _ _ => hostgw_get_v6_route (ei_iface_index ei)) ip6)).
End Registration.
