(* ===== verification/Ipsec.v ===== *)
(** * [backend/ipsec/mod.rs], [charon.rs], [network.rs]: the IPsec backend

    Three kernel policies and one charon connection per remote lease.  The
    policies go through [Xfrm] over [GenlKernel]; charon is a Unix socket that
    speaks the protocol of [Vici], the interface [CharonSystem].  Waiting
    loops take as fuel the number of their rounds; [cs_wait] is the race of the
    cancellation with the one-second sleep. *)

From S2P Require Import Prelude RustStr Utf8 StdNet IpNet Ip6Net Lease Config Anyhow RouteNetwork UdpProxy Vici Genl WgKernel Iface Cni Xfrm Backend.
#[local] Open Scope string_scope.
#[local] Open Scope list_scope.
#[local] Open Scope Z_scope.

Definition IPSEC_BACKEND_TYPE : string := "ipsec".
Definition DEFAULT_ESP_PROPOSAL : string := "aes128gcm16-sha256-prfsha256-ecp256".
Definition MIN_PASSWORD_LENGTH : nat := 96.
Definition IPSEC_OVERHEAD : Z := 77.
Definition UDP_ENCAP_OVERHEAD : Z := 8.
Definition DEFAULT_REQ_ID : Z := 11.
Definition VICI_SOCKET_PATH : string := "/var/run/charon.vici".

(** ** Configuration *)

Record IPsecCfg := mkIPsecCfg {
  ic_udp_encap : bool;
  ic_esp_proposal : string;
  ic_psk : string;
}.

Definition as_bool (v : Value) : option bool := match v with VBool b => Some b | _ => None end.

(** The derived [Deserialize] of [IPsecCfgJson] *)
Definition ipsec_cfg_of (udp_encap esp_proposal psk : list Value) : option IPsecCfg :=
  match field_of as_bool false udp_encap, field_of as_str DEFAULT_ESP_PROPOSAL esp_proposal, field_of as_str "" psk with
  | Some u, Some e, Some p => Some (mkIPsecCfg u e p)
  | _, _, _ => None
  end.

Definition ipsec_cfg_of_text (t : JsonText) : option IPsecCfg :=
  match t with
  | TObject ms => ipsec_cfg_of (members_of "UDPEncap" ms) (members_of "ESPProposal" ms) (members_of "PSK" ms)
  | TArray vs =>
      if (length vs <=? 3)%nat then ipsec_cfg_of (take 1 vs) (take 1 (drop 1 vs)) (take 1 (drop 2 vs)) else None
  | TOther => None
  end.

Definition ipsec_decode_error (e : string) : anyhow := ["error decoding IPSEC backend config: " +:+ e].

Definition parse_ipsec_config `{CniJson} (backend : option string) : result IPsecCfg anyhow :=
  let? cfg :=
    match backend with
    | None => Ok (mkIPsecCfg false DEFAULT_ESP_PROPOSAL "")
    | Some text =>
        if str_is_empty text || String.eqb text "null" then Ok (mkIPsecCfg false DEFAULT_ESP_PROPOSAL "")
        else
          let? t := map_err ipsec_decode_error (cj_text text) in
          ok_or (ipsec_cfg_of_text t) (ipsec_decode_error (cj_invalid "IPsecCfgJson" text))
    end in
  if (String.length (ic_psk cfg) <? MIN_PASSWORD_LENGTH)%nat then Err ["config error, password is too short"]
  else Ok cfg.

(** ** charon *)

Record Charon := mkCharon { ch_esp_proposal : string }.

(** The executables, the daemon and its socket.  [cs_unread] is what the
    client can still read from the open connection, [cs_consume] reads so many
    bytes of it; [cs_wait] answers whether the wait was cancelled. *)
Class CharonSystem (K : Type) := {
  cs_is_executable : K -> string -> bool;
  cs_path : K -> option string;
  cs_spawn : string -> io K anyhow unit;
  cs_connect : string -> io K ViciError unit;
  cs_write : bytes -> io K ViciError unit;
  cs_unread : K -> bytes;
  cs_consume : nat -> K -> K;
  cs_close : K -> K;
  cs_wait : K -> K * bool;
}.

Definition CANDIDATES : list string :=
  ["charon"; "/usr/lib/strongswan/charon"; "/usr/lib/ipsec/charon"; "/usr/libexec/strongswan/charon";
   "/usr/libexec/ipsec/charon"].

Definition candidate_in (candidate dir : string) : string :=
  if str_is_empty dir then candidate else trim_end_slashes dir +:+ "/" +:+ candidate.

(** ** Names *)

Definition format_connection_name (local_lease remote_lease : Lease) : string :=
  IP4_fmt (la_public_ip (l_attrs local_lease)) +:+ "-" +:+ IP4Net_fmt (l_subnet local_lease) +:+ "-"
  +:+ IP4Net_fmt (l_subnet remote_lease) +:+ "-" +:+ IP4_fmt (la_public_ip (l_attrs remote_lease)).

Definition format_child_sa_conf_name (local_lease remote_lease : Lease) : string :=
  IP4Net_fmt (l_subnet local_lease) +:+ "-" +:+ IP4Net_fmt (l_subnet remote_lease).

(** The [IkeConf] of [load_connection] *)
Definition ike_conf (charon : Charon) (local_lease remote_lease : Lease) (req_id : string) (encap : bool) : IkeConf :=
  mkIkeConf [as_bytes (IP4_fmt (la_public_ip (l_attrs local_lease)))]
    [as_bytes (IP4_fmt (la_public_ip (l_attrs remote_lease)))]
    [as_bytes "aes256-sha256-modp4096"] (as_bytes "2") (as_bytes "0") (as_bytes (fmt_bool encap))
    (as_bytes (format_child_sa_conf_name local_lease remote_lease))
    (mkChildConf [as_bytes (IP4Net_fmt (l_subnet local_lease))] [as_bytes (IP4Net_fmt (l_subnet remote_lease))]
       [as_bytes (ch_esp_proposal charon)] (as_bytes "start") (as_bytes "trap") (as_bytes "restart")
       (as_bytes "tunnel") (as_bytes req_id) (as_bytes "1h") (as_bytes "no")).

(** What a [request] leaves unread: a packet is read to its end, unless its
    length is refused; a stream that ends early is read to its end. *)
Definition read_rest (stream : bytes) : bytes :=
  match read_exact 4 stream with
  | Err _ => []
  | Ok (len_buf, stream) =>
      let len := from_be len_buf in
      if (len =? 0) || (MAX_PACKET_LEN <? len) then stream else drop (Z.to_nat len) stream
  end.

Fixpoint await_rest (fuel : nat) (stream : bytes) : bytes :=
  match fuel with
  | O => stream
  | S fuel =>
      match read_packet stream with
      | Ok (ptype, _, _) =>
          if (ptype =? CMD_RESPONSE) || (ptype =? CMD_UNKNOWN) then read_rest stream
          else await_rest fuel (read_rest stream)
      | Err _ => read_rest stream
      end
  end.

Section Charon.
Context `{CharonSystem K}.

Definition look_path_in (k : K) (candidate : string) (path_var : option string) : option string :=
  if str_contains "/" candidate then if cs_is_executable k candidate then Some candidate else None
  else
    match path_var with
    | None => None
    | Some path => List.find (cs_is_executable k) (map (candidate_in candidate) (str_split ":" path))
    end.

Definition find_exec_path_in (k : K) (path_var : option string) : result string anyhow :=
  ok_or (find_map (fun candidate => look_path_in k candidate path_var) CANDIDATES)
    ["no valid charon executable found at paths [" +:+ str_join ", " (map (fun c => String (chr 34) c +:+ String (chr 34) EmptyString) CANDIDATES) +:+ "]"].

Definition find_exec_path (k : K) : result string anyhow := find_exec_path_in k (cs_path k).

Definition new_charon (esp_proposal : string) : io K anyhow Charon :=
  let! k := io_get in
  let! exec_path := io_lift (find_exec_path k) in
  let! _ := cs_spawn exec_path in
  io_ret (mkCharon esp_proposal).

(** A command of [ViciConn] on the open connection *)
Definition conn_command (cmd : string) (msg : ViciMessage) : io K ViciError unit :=
  let! _ := cs_write (request cmd (ViciMessage_encode msg) []).1 in
  fun k =>
    let stream := cs_unread k in
    let left := await_rest (S (length stream)) stream in
    (cs_consume (length stream - length left) k, (run_command cmd msg stream).2).

(** [None]: the fuel ran out. *)
Fixpoint get_client (fuel : nat) (wait : bool) (k : K) : K * option (result unit ViciError) :=
  match fuel with
  | O => (k, None)
  | S fuel =>
      match cs_connect VICI_SOCKET_PATH k with
      | (k, Ok conn) => (k, Some (Ok conn))
      | (k, Err e) =>
          if negb wait then (k, Some (Err e))
          else
            let '(k, cancelled) := cs_wait k in
            if cancelled : bool then (k, Some (Err e)) else get_client fuel wait k
      end
  end.

(** The errors of the operations on charon *)
Inductive CharonError :=
| ChAcquire (e : ViciError)
| ChCancelled
| ChCommand (e : ViciError)
| ChWaiting.

(** [get_client(..)?], and what follows on the connection *)
Definition on_client {A} (fuel : nat) (wait : bool) (m : io K CharonError A) : io K CharonError A := fun k =>
  match get_client fuel wait k with
  | (k, None) => (k, Err ChWaiting)
  | (k, Some (Err e)) => (k, Err (ChAcquire e))
  | (k, Some (Ok _)) => m k
  end.

Fixpoint load_shared_loop (fuel : nat) (owner password : string) : io K CharonError unit := fun k =>
  match fuel with
  | O => (k, Err ChWaiting)
  | S fuel =>
      match conn_command "load-shared" (load_shared_msg (as_bytes "IKE") (as_bytes password) [as_bytes owner]) k with
      | (k, Ok _) => (cs_close k, Ok tt)
      | (k, Err _) =>
          let '(k, cancelled) := cs_wait k in
          if cancelled : bool then (k, Err ChCancelled) else load_shared_loop fuel owner password k
      end
  end.

Definition load_shared_key (fuel : nat) (remote_public_ip password : string) : io K CharonError unit :=
  on_client fuel true (load_shared_loop fuel remote_public_ip password).

Definition load_connection (fuel : nat) (charon : Charon) (local_lease remote_lease : Lease) (req_id : string)
    (encap : bool) : io K CharonError unit :=
  on_client fuel true
    (let! _ := io_map_err ChCommand
                 (conn_command "load-conn"
                    (load_conn_msg (as_bytes (format_connection_name local_lease remote_lease))
                       (ike_conf charon local_lease remote_lease req_id encap))) in
     fun k => (cs_close k, Ok tt)).

(** The connection is dropped, which closes it too. *)
Definition unload_charon_connection (fuel : nat) (local_lease remote_lease : Lease) : io K CharonError unit :=
  on_client fuel false
    (io_map_err ChCommand
       (conn_command "unload-conn" (unload_conn_msg (as_bytes (format_connection_name local_lease remote_lease))))).
End Charon.

(** ** The network *)

Record IPsecNetwork := mkIPsecNetwork {
  pn_lease : Lease;
  pn_mtu : Z;
  pn_password : string;
  pn_udp_encap : bool;
  pn_iked : Charon;
}.

(** [saturating_sub] *)
Definition saturating_sub (a b : Z) : Z := Z.max 0 (a - b).

Definition new_network (ext_mtu : Z) (udp_encap : bool) (password : string) (iked : Charon) (lease : Lease)
  : IPsecNetwork :=
  let mtu := saturating_sub ext_mtu IPSEC_OVERHEAD in
  let mtu := if udp_encap then saturating_sub mtu UDP_ENCAP_OVERHEAD else mtu in
  mkIPsecNetwork lease mtu password udp_encap iked.

Definition policy_spec (src_lease dst_lease : Lease) (dir req_id : Z) : XfrmPolicySpec :=
  mkXfrmPolicySpec (V4 (ip4n_ip (l_subnet src_lease))) (wrap 8 (ip4n_plen (l_subnet src_lease)))
    (V4 (ip4n_ip (l_subnet dst_lease))) (wrap 8 (ip4n_plen (l_subnet dst_lease))) dir
    (V4 (la_public_ip (l_attrs src_lease))) (V4 (la_public_ip (l_attrs dst_lease))) req_id.

Section Network.
Context `{GenlKernel K} `{CharonSystem K} (fuel : nat).

Definition add_xfrm_policy (my_lease remote_lease : Lease) (dir req_id : Z) : io K XfrmError unit :=
  let spec := policy_spec my_lease remote_lease dir req_id in
  let! existing := get_policy fuel spec in
  match existing with
  | None => add_policy fuel spec
  | Some _ => update_policy fuel spec
  end.

Definition del_xfrm_policy (src_lease dst_lease : Lease) (dir req_id : Z) : io K XfrmError unit :=
  del_policy fuel (policy_spec src_lease dst_lease dir req_id).

Definition add_ipsec_policies (local_lease remote_lease : Lease) (req_id : Z) : io K XfrmError unit :=
  let! _ := add_xfrm_policy local_lease remote_lease DIR_OUT req_id in
  let! _ := add_xfrm_policy remote_lease local_lease DIR_IN req_id in
  add_xfrm_policy remote_lease local_lease DIR_FWD req_id.

Definition delete_ipsec_policies (local_lease remote_lease : Lease) (req_id : Z) : io K XfrmError unit :=
  let! _ := del_xfrm_policy local_lease remote_lease DIR_OUT req_id in
  let! _ := del_xfrm_policy remote_lease local_lease DIR_IN req_id in
  del_xfrm_policy remote_lease local_lease DIR_FWD req_id.

(** An error is logged, and the next step follows. *)
Definition ipsec_logged {E} (m : io K E unit) (k : K) : K := (m k).1.

(** One event of [handle_subnet_events] *)
Definition ipsec_handle_event (net : IPsecNetwork) (k : K) (evt : Event) : K :=
  let lease := ev_lease evt in
  if negb (String.eqb (la_backend_type (l_attrs lease)) IPSEC_BACKEND_TYPE) then k
  else if bool_decide (l_subnet lease = l_subnet (pn_lease net)) then k
  else
    match ev_type evt with
    | Added =>
        let k := ipsec_logged (add_ipsec_policies (pn_lease net) lease DEFAULT_REQ_ID) k in
        let k := ipsec_logged (load_shared_key fuel (IP4_fmt (la_public_ip (l_attrs lease))) (pn_password net)) k in
        ipsec_logged (load_connection fuel (pn_iked net) (pn_lease net) lease (fmt_dec DEFAULT_REQ_ID) (pn_udp_encap net)) k
    | Removed =>
        let k := ipsec_logged (unload_charon_connection fuel (pn_lease net) lease) k in
        ipsec_logged (delete_ipsec_policies (pn_lease net) lease DEFAULT_REQ_ID) k
    end.

Definition ipsec_handle_subnet_events (net : IPsecNetwork) (batch : list Event) (k : K) : K :=
  fold_left (ipsec_handle_event net) batch k.

(** [run]: the own key first, then the batches the lease watch delivers. *)
Definition ipsec_run (net : IPsecNetwork) (batches : list (list Event)) (k : K) : K :=
  match load_shared_key fuel (IP4_fmt (la_public_ip (l_attrs (pn_lease net)))) (pn_password net) k with
  | (k, Err _) => k
  | (k, Ok _) => fold_left (fun k batch => ipsec_handle_subnet_events net batch k) batches k
  end.
End Network.

Definition ipsec_register_network `{SubnetManager K} `{NlKernel K} `{CharonSystem K} `{CniJson}
    (ei : ExternalInterface) (config : Config) : io K anyhow IPsecNetwork :=
  let! cfg := io_lift (parse_ipsec_config (cfg_backend config)) in
  let public_ip := match ei_ext_addr ei with Some (V4 ip) => ip | _ => 0 end in
  let! lease := acquire_registered (public_attrs public_ip None IPSEC_BACKEND_TYPE) in
  let! iked := io_map_err (fun e => ["error creating CharonIKEDaemon struct: " +:+ fmt_anyhow e])
                 (new_charon (ic_esp_proposal cfg)) in
  let! _ := sm_netlink in
  let! ext_mtu := iface_mtu (ei_iface_index ei) in
  io_ret (new_network ext_mtu (ic_udp_encap cfg) (ic_psk cfg) iked lease).

(** * Theorems *)

(** ** Names are text, messages fit *)

Lemma is_utf8_ascii bs : Forall (fun b => b < 128) bs -> is_utf8 bs.
Proof.
  unfold is_utf8, from_utf8_lossy. induction 1 as [|b bs Hb _ IH]; [done|]. cbn [utf8_lossy].
  rewrite (proj2 (Z.ltb_lt _ _) Hb). by rewrite IH.
Qed.

Definition is_ascii (c : ascii) : bool := ord c <? 128.

Lemma as_bytes_ascii s : str_all is_ascii s = true -> Forall (fun b => b < 128) (as_bytes s).
Proof.
  induction s as [|c s IH]; [constructor|]. cbn [str_all as_bytes]. intros [Hc Hs]%andb_true_iff.
  constructor; [unfold is_ascii in Hc; lia|by apply IH].
Qed.

Lemma length_as_bytes s : length (as_bytes s) = String.length s.
Proof. induction s as [|c s IH]; [done|]. cbn. by rewrite IH. Qed.

Lemma name_ok_text s :
  str_all is_ascii s = true -> (String.length s < 256)%nat -> name_ok (as_bytes s) = true.
Proof.
  intros Ha Hl. unfold name_ok. rewrite length_as_bytes, (proj2 (Z.ltb_lt _ _)) by lia.
  by apply bool_decide_eq_true_2, is_utf8_ascii, as_bytes_ascii.
Qed.

Lemma value_ok_text s : Z.of_nat (String.length s) < 65536 -> value_ok (as_bytes s) = true.
Proof. intros Hl. unfold value_ok. rewrite length_as_bytes. by apply Z.ltb_lt. Qed.

Lemma net_char_ascii c : net_char c = true -> is_ascii c = true.
Proof. by destruct c as [[] [] [] [] [] [] [] []]. Qed.
Lemma addr_char_ascii c : addr_char c = true -> is_ascii c = true.
Proof. by destruct c as [[] [] [] [] [] [] [] []]. Qed.

Lemma IP4_fmt_ascii ip : str_all is_ascii (IP4_fmt ip) = true.
Proof. eapply str_all_mono; [apply addr_char_ascii|apply IP4_fmt_chars]. Qed.
Lemma IP4Net_fmt_ascii n : IP4Net_valid n -> str_all is_ascii (IP4Net_fmt n) = true.
Proof. intros [_ Hp]. eapply str_all_mono; [apply net_char_ascii|apply IP4Net_fmt_chars; lia]. Qed.

Lemma length_fmt_byte b : 0 <= b < 256 -> (String.length (fmt_dec b) <= 3)%nat.
Proof. intros Hb. apply length_fmt_radix; [lia| |lia]. change (10 ^ Z.of_nat 3) with 1000. lia. Qed.

Lemma length_IP4_fmt ip : (String.length (IP4_fmt ip) <= 15)%nat.
Proof.
  unfold IP4_fmt, IP4_octets. pose proof (to_be_bytes 4 ip) as Hb. pose proof (length_to_be 4 ip) as Hl.
  destruct (to_be 4 ip) as [|a [|b [|c [|d [|]]]]]; try discriminate Hl.
  rewrite !Forall_cons_iff in Hb. destruct Hb as (Ha%length_fmt_byte & Hb%length_fmt_byte & Hc%length_fmt_byte & Hd%length_fmt_byte & _).
  unfold fmt_ipv4. cbn [map str_join]. rewrite !length_string_app. cbn [String.length]. lia.
Qed.

Lemma length_IP4Net_fmt n : IP4Net_valid n -> (String.length (IP4Net_fmt n) <= 19)%nat.
Proof.
  intros [_ Hp]. unfold IP4Net_fmt. rewrite !length_string_app. pose proof (length_IP4_fmt (ip4n_ip n)).
  pose proof (length_fmt_byte (ip4n_plen n) ltac:(lia)). cbn [String.length]. lia.
Qed.

(** The length of an encoded message *)
Fixpoint seg_size (s : ViciSegment) : nat :=
  match s with
  | Key k v => 4 + length k + length v
  | LList name items => 3 + length name + list_sum (map (fun v => 3 + length v)%nat items)
  | Section' name inner => 3 + length name + list_sum (map seg_size inner)
  end.

Lemma length_concat_sum {A B} (f : A -> list B) (g : A -> nat) l :
  Forall (fun a => length (f a) = g a) l -> length (concat (map f l)) = list_sum (map g l).
Proof. induction 1 as [|a l Ha _ IH]; [done|]. cbn. by rewrite length_app, Ha, IH. Qed.

Lemma length_encode_segment s : length (encode_segment s) = seg_size s.
Proof.
  induction s as [k v|n items|n inner IH] using segment_ind'; cbn [encode_segment seg_size length push_name];
    unfold push_name, push_u16_bytes; cbn [length app]; rewrite ?length_app, ?length_to_be; cbn [length].
  - lia.
  - rewrite (length_concat_sum _ (fun v => 3 + length v)%nat); [lia|].
    apply List.Forall_forall. intros v _. cbn [length]. rewrite length_app, length_to_be. lia.
  - rewrite (length_concat_sum _ seg_size) by done. lia.
Qed.

Lemma length_message m : length (ViciMessage_encode m) = list_sum (map seg_size m).
Proof. apply length_concat_sum, List.Forall_forall. intros s _. apply length_encode_segment. Qed.

(** ** The effect of a command *)

(** What charon keeps: the connections it was given by name, the key of each
    owner, and the number of seconds until its socket exists. *)
Record CharonView := mkCharonView {
  cv_delay : nat;
  cv_conns : gmap bytes ViciMessage;
  cv_keys : gmap bytes bytes;
}.

(** A request as charon reads it *)
Definition charon_reads (written : bytes) : option (bytes * ViciMessage) :=
  match read_packet written with
  | Ok (ptype, n :: payload, []) =>
      if ptype =? CMD_REQUEST
      then match ViciMessage_parse (drop (Z.to_nat n) payload) with
           | Ok m => Some (take (Z.to_nat n) payload, m)
           | Err _ => None
           end
      else None
  | _ => None
  end.

Definition raw_value (msg : ViciMessage) (name : bytes) : option bytes :=
  match ViciMessage_get msg name with Some (Key _ v) => Some v | _ => None end.

(** What charon does, and whether it reports success *)
Definition charon_do (cmd : bytes) (msg : ViciMessage) (v : CharonView) : CharonView * bool :=
  let 'mkCharonView d conns keys := v in
  if bool_decide (cmd = as_bytes "load-shared") then
    match raw_value msg (as_bytes "data"), ViciMessage_get_list msg (as_bytes "owners") with
    | Some data, Some owners => (mkCharonView d conns (foldr (fun o m => <[o := data]> m) keys owners), true)
    | _, _ => (v, false)
    end
  else if bool_decide (cmd = as_bytes "load-conn") then
    match msg with
    | [Section' name inner] => (mkCharonView d (<[name := inner]> conns) keys, true)
    | _ => (v, false)
    end
  else if bool_decide (cmd = as_bytes "unload-conn") then
    match raw_value msg (as_bytes "name") with
    | Some name => if is_some (conns !! name) then (mkCharonView d (delete name conns) keys, true) else (v, false)
    | None => (v, false)
    end
  else (v, false).

Definition answer (success : bool) : bytes := as_bytes (if success then "yes" else "no").

(** A charon that answers the requests it reads, from the moment its socket
    exists, with a response that other packets may precede; nothing is
    cancelled. *)
Class CharonLaws (K : Type) `{CharonSystem K} := {
  ck_view : K -> CharonView;
  ck_connect : forall k path,
    if (cv_delay (ck_view k) =? 0)%nat
    then exists k', cs_connect path k = (k', Ok tt) /\ ck_view k' = ck_view k /\ cs_unread k' = []
    else exists k' e, cs_connect path k = (k', Err e) /\ ck_view k' = ck_view k;
  ck_wait : forall k, exists k', cs_wait k = (k', false)
    /\ ck_view k' = mkCharonView (pred (cv_delay (ck_view k))) (cv_conns (ck_view k)) (cv_keys (ck_view k));
  ck_close : forall k, ck_view (cs_close k) = ck_view k;
  ck_consume : forall n k, ck_view (cs_consume n k) = ck_view k /\ cs_unread (cs_consume n k) = drop n (cs_unread k);
  ck_write : forall k written cmd msg,
    cs_unread k = [] -> charon_reads written = Some (cmd, msg) ->
    exists k' strays resp,
      cs_write written k = (k', Ok tt) /\ ck_view k' = (charon_do cmd msg (ck_view k)).1
      /\ cs_unread k' = concat (map (fun p => write_packet p.1 p.2) strays)
                        ++ write_packet CMD_RESPONSE (ViciMessage_encode resp)
      /\ Forall stray strays /\ message_ok resp = true /\ Z.of_nat (length (ViciMessage_encode resp)) < 65536
      /\ ViciMessage_get_str resp (as_bytes "success") = Some (answer (charon_do cmd msg (ck_view k)).2);
}.

Lemma charon_reads_request cmd msg :
  (length (as_bytes cmd) < 256)%nat -> message_ok msg = true ->
  Z.of_nat (length (as_bytes cmd) + length (ViciMessage_encode msg)) < 65535 ->
  charon_reads (request cmd (ViciMessage_encode msg) []).1 = Some (as_bytes cmd, msg).
Proof.
  intros Hc Hok Hl. unfold charon_reads, request. cbn [fst].
  rewrite <- (app_nil_r (write_packet _ _)), read_packet_write.
  2:{ unfold cmd_request_payload. cbn [length]. rewrite length_app. lia. }
  unfold cmd_request_payload. change (CMD_REQUEST =? CMD_REQUEST) with true. cbv iota.
  unfold wrap. rewrite Z.mod_small, Nat2Z.id by lia. rewrite drop_app_length, take_app_length, parse_encode by done. done.
Qed.

Section CommandEffects.
Context `{CharonLaws K}.

(** The outcome of a command is charon's, and so is the state after it. *)
Lemma conn_command_effect cmd msg (k : K) :
  cs_unread k = [] -> (length (as_bytes cmd) < 256)%nat -> message_ok msg = true ->
  Z.of_nat (length (as_bytes cmd) + length (ViciMessage_encode msg)) < 65535 ->
  exists k' r, conn_command cmd msg k = (k', r)
    /\ ck_view k' = (charon_do (as_bytes cmd) msg (ck_view k)).1
    /\ is_ok r = (charon_do (as_bytes cmd) msg (ck_view k)).2.
Proof.
  intros Hu Hc Hok Hl. pose proof (charon_reads_request cmd msg Hc Hok Hl) as Hr.
  destruct (ck_write k _ _ _ Hu Hr) as (k1 & strays & resp & Hw & Hv & Hs & Hst & Hrok & Hrl & Hsuc).
  unfold conn_command, io_bind. rewrite Hw. cbv zeta. eexists _, _. split; [reflexivity|].
  rewrite (proj1 (ck_consume _ _)). split; [done|].
  unfold run_command, request. cbn [snd]. rewrite Hs. rewrite <- (app_nil_r (write_packet CMD_RESPONSE _)).
  rewrite await_response_stray; [|done..|].
  2:{ rewrite length_app. pose proof (length_strays strays). lia. }
  cbn [rbind]. unfold check_success. rewrite Hsuc. unfold answer. by destruct (charon_do _ _ _).2.
Qed.

(** Waiting for the socket *)
Lemma get_client_waits fuel (k : K) :
  (cv_delay (ck_view k) < fuel)%nat ->
  exists k', get_client fuel true k = (k', Some (Ok tt)) /\ cs_unread k' = []
    /\ ck_view k' = mkCharonView 0 (cv_conns (ck_view k)) (cv_keys (ck_view k)).
Proof.
  revert k. induction fuel as [|fuel IH]; intros k Hd; [lia|]. cbn [get_client].
  pose proof (ck_connect k VICI_SOCKET_PATH) as Hc. destruct (Nat.eqb_spec (cv_delay (ck_view k)) 0) as [Hz|Hz].
  - destruct Hc as (k' & -> & Hv & Hu). exists k'. split_and!; [done..|]. rewrite Hv.
    destruct (ck_view k); cbn in *; by subst.
  - destruct Hc as (k' & e & -> & Hv). cbn [negb]. destruct (ck_wait k') as (k2 & -> & Hv2). rewrite Hv in Hv2.
    destruct (IH k2) as (k3 & -> & Hu & Hv3); [rewrite Hv2; cbn [cv_delay]; lia|]. rewrite Hv2 in Hv3. eauto.
Qed.
End CommandEffects.

(** ** What the operations on charon do to it *)

Definition charon_typed (net : IPsecNetwork) : Prop :=
  Z.of_nat (String.length (pn_password net)) < 60000
  /\ Z.of_nat (String.length (ch_esp_proposal (pn_iked net))) < 60000.

Definition ipsec_lease_typed (l : Lease) : Prop := IP4Net_valid (l_subnet l) /\ u32 (la_public_ip (l_attrs l)).

Lemma connection_name_ok a b :
  ipsec_lease_typed a -> ipsec_lease_typed b ->
  str_all is_ascii (format_connection_name a b) = true /\ (String.length (format_connection_name a b) <= 71)%nat.
Proof.
  intros [Ha _] [Hb _]. unfold format_connection_name. rewrite !str_all_app, !length_string_app, !IP4_fmt_ascii, !IP4Net_fmt_ascii by done.
  pose proof (length_IP4_fmt (la_public_ip (l_attrs a))). pose proof (length_IP4_fmt (la_public_ip (l_attrs b))).
  pose proof (length_IP4Net_fmt _ Ha). pose proof (length_IP4Net_fmt _ Hb). cbn [String.length]. split; [done|lia].
Qed.

Lemma child_name_ok a b :
  ipsec_lease_typed a -> ipsec_lease_typed b ->
  str_all is_ascii (format_child_sa_conf_name a b) = true /\ (String.length (format_child_sa_conf_name a b) <= 39)%nat.
Proof.
  intros [Ha _] [Hb _]. unfold format_child_sa_conf_name. rewrite !str_all_app, !length_string_app, !IP4Net_fmt_ascii by done.
  pose proof (length_IP4Net_fmt _ Ha). pose proof (length_IP4Net_fmt _ Hb). cbn [String.length]. split; [done|lia].
Qed.

(** A message made of constants and of texts whose lengths are known *)
Ltac message_fits :=
  cbn [message_ok forallb segment_ok andb ViciMessage_section ViciMessage_key ViciMessage_list ViciMessage_new app];
  repeat match goal with |- andb _ _ = true => apply andb_true_intro; split end;
  first [ reflexivity
        | apply name_ok_text; [done|lia]
        | apply value_ok_text; lia ].

Lemma load_shared_msg_ok owner password :
  Z.of_nat (String.length password) < 60000 -> (String.length owner <= 15)%nat ->
  message_ok (load_shared_msg (as_bytes "IKE") (as_bytes password) [as_bytes owner]) = true
  /\ Z.of_nat (length (ViciMessage_encode (load_shared_msg (as_bytes "IKE") (as_bytes password) [as_bytes owner]))) <= 60100.
Proof.
  intros Hp Ho. split.
  - unfold load_shared_msg. message_fits.
  - rewrite length_message. cbn [load_shared_msg ViciMessage_list ViciMessage_key ViciMessage_new app map seg_size list_sum foldr].
    rewrite !length_as_bytes. cbn [String.length]. lia.
Qed.

Lemma load_conn_msg_ok charon a b req_id encap :
  ipsec_lease_typed a -> ipsec_lease_typed b -> Z.of_nat (String.length (ch_esp_proposal charon)) < 60000 ->
  (String.length req_id <= 10)%nat ->
  let msg := load_conn_msg (as_bytes (format_connection_name a b)) (ike_conf charon a b req_id encap) in
  message_ok msg = true /\ Z.of_nat (length (ViciMessage_encode msg)) <= 61000.
Proof.
  intros Ha Hb He Hr. pose proof (connection_name_ok a b Ha Hb) as [Hn1 Hn2]. pose proof (child_name_ok a b Ha Hb) as [Hc1 Hc2].
  pose proof (length_IP4_fmt (la_public_ip (l_attrs a))). pose proof (length_IP4_fmt (la_public_ip (l_attrs b))).
  destruct Ha as [Ha _], Hb as [Hb _]. pose proof (length_IP4Net_fmt _ Ha). pose proof (length_IP4Net_fmt _ Hb).
  assert (String.length (fmt_bool encap) <= 5)%nat as Hf by (destruct encap; cbn; lia).
  cbv zeta. split.
  - unfold load_conn_msg, ike_conf, child_msg, psk_msg.
    cbn [ike_local_addrs ike_remote_addrs ike_proposals ike_version ike_keying_tries ike_encap ike_child_name ike_child
         ch_local_ts ch_remote_ts ch_esp_proposals ch_start_action ch_close_action ch_dpd_action ch_mode ch_reqid ch_rekey_time
         ch_install_policy].
    message_fits.
  - rewrite length_message. unfold load_conn_msg, ike_conf, child_msg, psk_msg.
    cbn [ViciMessage_section ViciMessage_list ViciMessage_key ViciMessage_new app map seg_size list_sum foldr
         ike_local_addrs ike_remote_addrs ike_proposals ike_version ike_keying_tries ike_encap ike_child_name ike_child
         ch_local_ts ch_remote_ts ch_esp_proposals ch_start_action ch_close_action ch_dpd_action ch_mode ch_reqid ch_rekey_time
         ch_install_policy].
    rewrite !length_as_bytes. cbn [String.length]. lia.
Qed.

Lemma unload_msg_ok a b :
  ipsec_lease_typed a -> ipsec_lease_typed b ->
  let msg := unload_conn_msg (as_bytes (format_connection_name a b)) in
  message_ok msg = true /\ Z.of_nat (length (ViciMessage_encode msg)) <= 100.
Proof.
  intros Ha Hb. pose proof (connection_name_ok a b Ha Hb) as [Hn1 Hn2]. cbv zeta. split.
  - unfold unload_conn_msg. message_fits.
  - rewrite length_message. unfold unload_conn_msg. cbn [ViciMessage_key ViciMessage_new app map seg_size list_sum foldr].
    rewrite !length_as_bytes. cbn [String.length]. lia.
Qed.

(** The connection of two leases, under the name that charon keeps it *)
Definition conn_name (a b : Lease) : bytes := as_bytes (format_connection_name a b).

Definition conn_body (net : IPsecNetwork) (b : Lease) : ViciMessage :=
  match load_conn_msg (conn_name (pn_lease net) b)
          (ike_conf (pn_iked net) (pn_lease net) b (fmt_dec DEFAULT_REQ_ID) (pn_udp_encap net)) with
  | [Section' _ inner] => inner
  | _ => []
  end.

Definition key_loaded (owner password : string) (v : CharonView) : CharonView :=
  mkCharonView 0 (cv_conns v) (<[as_bytes owner := as_bytes password]> (cv_keys v)).
Definition conn_loaded (net : IPsecNetwork) (b : Lease) (v : CharonView) : CharonView :=
  mkCharonView 0 (<[conn_name (pn_lease net) b := conn_body net b]> (cv_conns v)) (cv_keys v).
(** No wait: before the socket exists, nothing is unloaded. *)
Definition conn_unloaded (net : IPsecNetwork) (b : Lease) (v : CharonView) : CharonView :=
  if (cv_delay v =? 0)%nat then mkCharonView 0 (delete (conn_name (pn_lease net) b) (cv_conns v)) (cv_keys v) else v.

Lemma charon_do_load_shared typ data owner v :
  charon_do (as_bytes "load-shared") (load_shared_msg typ data [owner]) v
  = (mkCharonView (cv_delay v) (cv_conns v) (<[owner := data]> (cv_keys v)), true).
Proof. by destruct v. Qed.

Lemma charon_do_unload name v :
  charon_do (as_bytes "unload-conn") (unload_conn_msg name) v
  = if is_some (cv_conns v !! name) then (mkCharonView (cv_delay v) (delete name (cv_conns v)) (cv_keys v), true) else (v, false).
Proof. by destruct v. Qed.

Section CharonEffects.
Context `{CharonLaws K} (fuel : nat).

Lemma load_shared_key_effect owner password (k : K) :
  (cv_delay (ck_view k) < fuel)%nat -> Z.of_nat (String.length password) < 60000 -> (String.length owner <= 15)%nat ->
  exists k', load_shared_key fuel owner password k = (k', Ok tt) /\ ck_view k' = key_loaded owner password (ck_view k).
Proof.
  intros Hf Hp Ho. destruct (get_client_waits fuel k Hf) as (k1 & Hg & Hu & Hv).
  unfold load_shared_key, on_client. rewrite Hg. destruct fuel as [|f]; [lia|]. cbn [load_shared_loop].
  destruct (load_shared_msg_ok owner password Hp Ho) as [Hok Hl].
  destruct (conn_command_effect "load-shared" _ k1 Hu ltac:(cbn; lia) Hok ltac:(rewrite length_as_bytes; cbn [String.length]; lia)) as (k2 & r & -> & Hv2 & Hr).
  rewrite charon_do_load_shared, Hv in Hv2, Hr. destruct r as [[]|]; [|done]. eexists. split; [done|]. by rewrite ck_close, Hv2.
Qed.

Lemma load_connection_effect net b (k : K) :
  (cv_delay (ck_view k) < fuel)%nat -> charon_typed net -> ipsec_lease_typed (pn_lease net) -> ipsec_lease_typed b ->
  exists k', load_connection fuel (pn_iked net) (pn_lease net) b (fmt_dec DEFAULT_REQ_ID) (pn_udp_encap net) k = (k', Ok tt)
    /\ ck_view k' = conn_loaded net b (ck_view k).
Proof.
  intros Hf [_ He] Ha Hb. destruct (get_client_waits fuel k Hf) as (k1 & Hg & Hu & Hv).
  unfold load_connection, on_client. rewrite Hg.
  destruct (load_conn_msg_ok (pn_iked net) (pn_lease net) b (fmt_dec DEFAULT_REQ_ID) (pn_udp_encap net) Ha Hb He
              ltac:(vm_compute; lia)) as [Hok Hl].
  destruct (conn_command_effect "load-conn" _ k1 Hu ltac:(cbn; lia) Hok ltac:(rewrite length_as_bytes; cbn [String.length]; lia)) as (k2 & r & Hc & Hv2 & Hr).
  unfold io_bind, io_map_err. rewrite Hc. rewrite Hv in Hv2, Hr. cbn [charon_do] in Hv2, Hr.
  rewrite bool_decide_false, bool_decide_true in Hv2, Hr by done.
  cbn [fst snd load_conn_msg ViciMessage_section ViciMessage_new app] in Hv2, Hr. destruct r as [[]|]; [|done].
  cbn [map_err]. eexists. split; [done|]. by rewrite ck_close, Hv2.
Qed.

Lemma unload_effect net b (k : K) :
  (0 < fuel)%nat -> ipsec_lease_typed (pn_lease net) -> ipsec_lease_typed b ->
  ck_view (unload_charon_connection fuel (pn_lease net) b k).1 = conn_unloaded net b (ck_view k).
Proof.
  intros Hf Ha Hb. unfold unload_charon_connection, on_client, conn_unloaded. destruct fuel as [|f]; [lia|]. cbn [get_client].
  pose proof (ck_connect k VICI_SOCKET_PATH) as Hc. destruct (Nat.eqb_spec (cv_delay (ck_view k)) 0) as [Hz|Hz].
  - destruct Hc as (k1 & -> & Hv & Hu). destruct (unload_msg_ok _ _ Ha Hb) as [Hok Hl].
    destruct (conn_command_effect "unload-conn" _ k1 Hu ltac:(cbn; lia) Hok ltac:(rewrite length_as_bytes; cbn [String.length]; lia)) as (k2 & r & Hc & Hv2 & Hr).
    unfold io_map_err. rewrite Hc. cbn [fst]. rewrite Hv2, Hv, charon_do_unload. fold (conn_name (pn_lease net) b).
    destruct (ck_view k) as [d conns keys]. cbn [cv_delay cv_conns cv_keys] in *. subst d.
    destruct (conns !! conn_name (pn_lease net) b) eqn:E; cbn [is_some fst]; [done|]. by rewrite delete_id.
  - destruct Hc as (k1 & e & -> & Hv). cbn [negb]. by cbn [fst].
Qed.
End CharonEffects.

(** ** What the events do to the kernel's policies and to charon *)

(** The two services do not touch each other. *)
Class IpsecLaws (K : Type) `{XfrmLaws K} `{CharonLaws K} := {
  il_open : keeps (K := K) (E := Z) ck_view gk_open;
  il_send : forall b, keeps (K := K) (E := Z) ck_view (gk_send b);
  il_recv : keeps (K := K) (E := Z) ck_view gk_recv;
  il_connect : forall path, keeps (K := K) xk_table (cs_connect path);
  il_write : forall b, keeps (K := K) xk_table (cs_write b);
  il_wait : forall k : K, xk_table (cs_wait k).1 = xk_table k;
  il_consume : forall n (k : K), xk_table (cs_consume n k) = xk_table k;
  il_close : forall k : K, xk_table (cs_close k) = xk_table k;
}.
#[global] Hint Extern 2 (keeps _ _) => first [apply il_open | apply il_send | apply il_recv | apply il_connect | apply il_write] : keeps.

(** [fuel] stands for itself plus two: an answer of two datagrams *)
Section PolicyEffects.
Context `{IpsecLaws K} (fuel : nat).

Lemma keeps_collect n results shorts : keeps (K := K) ck_view (xfrm_collect n results shorts).
Proof.
  revert results shorts. induction n as [|n IH]; intros results shorts; cbn [xfrm_collect]; [apply keeps_err|].
  apply keeps_bind; [auto with keeps|]. intros buf. apply keeps_bind; [auto with keeps|]. intros [[bodies fin] s].
  destruct fin; [auto with keeps|]. destruct (_ || _); [|apply IH]. cbv zeta.
  destruct (short_reply_error _); [auto with keeps|apply IH].
Qed.

Lemma keeps_xfrm_request n t payload : keeps (K := K) ck_view (xfrm_request n t payload).
Proof.
  unfold xfrm_request. apply keeps_bind; [auto with keeps|]. intros port. apply keeps_bind; [auto with keeps|]. intros _. apply keeps_collect.
Qed.

Lemma keeps_xfrm_req n t payload : keeps (K := K) ck_view (xfrm_req n t payload).
Proof. apply keeps_bind; [apply keeps_xfrm_request|auto with keeps]. Qed.

Lemma keeps_get_policy n spec : keeps (K := K) ck_view (get_policy n spec).
Proof.
  unfold get_policy. apply keeps_bind; [apply keeps_try, keeps_xfrm_request|]. intros r. apply keeps_bind; [auto with keeps|].
  intros [|b bodies]; auto with keeps.
Qed.

Lemma xfrm_do_put spec t :
  spec_typed spec ->
  xfrm_do XFRM_MSG_NEWPOLICY (policy_info_msg spec) t
  = (if is_some (t !! policy_key spec) then (t, EEXIST) else (<[policy_key spec := kept_tmpl spec]> t, 0))
  /\ xfrm_do XFRM_MSG_UPDPOLICY (policy_info_msg spec) t = (<[policy_key spec := kept_tmpl spec]> t, 0)
  /\ xfrm_do XFRM_MSG_DELPOLICY (policy_id_msg spec) t
     = if is_some (t !! policy_key spec) then (delete (policy_key spec) t, 0) else (t, ENOENT).
Proof.
  intros Ht. unfold xfrm_do. rewrite kernel_key_info, kernel_key_id, kernel_policy_info by done. done.
Qed.

Lemma add_xfrm_policy_effect a b dir req (k : K) :
  spec_typed (policy_spec a b dir req) ->
  exists k', add_xfrm_policy (S (S fuel)) a b dir req k = (k', Ok tt)
    /\ xk_table k' = <[policy_key (policy_spec a b dir req) := kept_tmpl (policy_spec a b dir req)]> (xk_table k)
    /\ ck_view k' = ck_view k.
Proof.
  intros Ht. set (spec := policy_spec a b dir req) in *. unfold add_xfrm_policy. fold spec.
  destruct (get_policy_effect fuel spec k) as (k1 & r & Hg & Htab & Hr). pose proof (keeps_get_policy (S (S fuel)) spec k) as Hk.
  rewrite Hg in Hk. cbn [fst] in Hk. rewrite kernel_key_id in Hr by done. unfold io_bind. rewrite Hg.
  destruct (xfrm_do_put spec (xk_table k1) Ht) as (Hn & Hu & _). rewrite <- Htab in Hr.
  destruct r as [p|]; cbn [is_some] in Hr.
  - pose proof (keeps_xfrm_req (S (S fuel)) XFRM_MSG_UPDPOLICY (policy_info_msg spec) k1) as Hk2.
    destruct (xfrm_req_effect (S fuel) XFRM_MSG_UPDPOLICY (policy_info_msg spec) k1 ltac:(done) ltac:(done)) as (k2 & Hq & Ht2).
    rewrite Hu in Hq, Ht2. unfold update_policy. rewrite Hq in Hk2 |- *. cbn [fst] in Hk2. exists k2. split_and!; [done| |congruence].
    by rewrite Ht2, Htab.
  - rewrite <- Hr in Hn. pose proof (keeps_xfrm_req (S (S fuel)) XFRM_MSG_NEWPOLICY (policy_info_msg spec) k1) as Hk2.
    destruct (xfrm_req_effect (S fuel) XFRM_MSG_NEWPOLICY (policy_info_msg spec) k1 ltac:(done) ltac:(done)) as (k2 & Hq & Ht2).
    rewrite Hn in Hq, Ht2. unfold add_policy. rewrite Hq in Hk2 |- *. cbn [fst] in Hk2. exists k2. split_and!; [done| |congruence].
    by rewrite Ht2, Htab.
Qed.

Lemma del_xfrm_policy_effect a b dir req (k : K) :
  let key := policy_key (policy_spec a b dir req) in
  spec_typed (policy_spec a b dir req) ->
  exists k', del_xfrm_policy (S (S fuel)) a b dir req k
      = (k', if is_some (xk_table k !! key) then Ok tt else Err (XOs ENOENT))
    /\ xk_table k' = delete key (xk_table k) /\ ck_view k' = ck_view k.
Proof.
  intros key Ht. unfold del_xfrm_policy, del_policy. set (spec := policy_spec a b dir req) in *.
  destruct (xfrm_do_put spec (xk_table k) Ht) as (_ & _ & Hd).
  pose proof (keeps_xfrm_req (S (S fuel)) XFRM_MSG_DELPOLICY (policy_id_msg spec) k) as Hk.
  destruct (xfrm_req_effect (S fuel) XFRM_MSG_DELPOLICY (policy_id_msg spec) k ltac:(done) ltac:(done)) as (k' & Hq & Ht').
  rewrite Hd in Hq, Ht'. rewrite Hq in Hk |- *. cbn [fst] in Hk. exists k'. fold key in Ht', Hq |- *.
  destruct (xk_table k !! key) eqn:E; cbn [is_some fst snd] in *; [done|]. by rewrite delete_id.
Qed.
End PolicyEffects.

(** The policies of the own lease [a] and a remote lease [b] *)
Definition out_policy (a b : Lease) : XfrmPolicySpec := policy_spec a b DIR_OUT DEFAULT_REQ_ID.
Definition in_policy (a b : Lease) : XfrmPolicySpec := policy_spec b a DIR_IN DEFAULT_REQ_ID.
Definition fwd_policy (a b : Lease) : XfrmPolicySpec := policy_spec b a DIR_FWD DEFAULT_REQ_ID.

Definition put_policy (spec : XfrmPolicySpec) (t : PolicyTable) : PolicyTable := <[policy_key spec := kept_tmpl spec]> t.

Definition policies_added (a b : Lease) (t : PolicyTable) : PolicyTable :=
  put_policy (fwd_policy a b) (put_policy (in_policy a b) (put_policy (out_policy a b) t)).

(** The deletions stop at the first policy that is absent. *)
Definition policies_removed (a b : Lease) (t : PolicyTable) : PolicyTable :=
  if is_some (t !! policy_key (out_policy a b)) then
    let t := delete (policy_key (out_policy a b)) t in
    if is_some (t !! policy_key (in_policy a b)) then delete (policy_key (fwd_policy a b)) (delete (policy_key (in_policy a b)) t)
    else t
  else t.

Definition ipsec_ignored (net : IPsecNetwork) (evt : Event) : bool :=
  negb (String.eqb (la_backend_type (l_attrs (ev_lease evt))) IPSEC_BACKEND_TYPE)
  || bool_decide (l_subnet (ev_lease evt) = l_subnet (pn_lease net)).

Definition policy_effect (net : IPsecNetwork) (t : PolicyTable) (evt : Event) : PolicyTable :=
  if ipsec_ignored net evt then t
  else match ev_type evt with
       | Added => policies_added (pn_lease net) (ev_lease evt) t
       | Removed => policies_removed (pn_lease net) (ev_lease evt) t
       end.

Definition charon_effect (net : IPsecNetwork) (v : CharonView) (evt : Event) : CharonView :=
  if ipsec_ignored net evt then v
  else match ev_type evt with
       | Added => conn_loaded net (ev_lease evt)
                    (key_loaded (IP4_fmt (la_public_ip (l_attrs (ev_lease evt)))) (pn_password net) v)
       | Removed => conn_unloaded net (ev_lease evt) v
       end.

Lemma policy_spec_typed a b dir : ipsec_lease_typed a -> ipsec_lease_typed b -> u8 dir -> spec_typed (policy_spec a b dir DEFAULT_REQ_ID).
Proof.
  intros [[Ha ?] Hpa] [[Hb ?] Hpb] Hd. unfold spec_typed, policy_spec, wrap.
  cbn [xs_src xs_dst xs_tunnel_src xs_tunnel_dst xs_src_prefix xs_dst_prefix xs_dir xs_reqid].
  pose proof (Z.mod_pos_bound (ip4n_plen (l_subnet a)) (2 ^ 8) ltac:(done)).
  pose proof (Z.mod_pos_bound (ip4n_plen (l_subnet b)) (2 ^ 8) ltac:(done)). done.
Qed.

Section EventEffects.
Context `{IpsecLaws K} (fuel : nat) (net : IPsecNetwork).
Context (Hnet : charon_typed net) (Hown : ipsec_lease_typed (pn_lease net)).

Lemma add_policies_effect b (k : K) :
  ipsec_lease_typed b ->
  exists k', add_ipsec_policies (S (S fuel)) (pn_lease net) b DEFAULT_REQ_ID k = (k', Ok tt)
    /\ xk_table k' = policies_added (pn_lease net) b (xk_table k) /\ ck_view k' = ck_view k.
Proof.
  intros Hb. unfold add_ipsec_policies, io_bind.
  destruct (add_xfrm_policy_effect fuel (pn_lease net) b DIR_OUT DEFAULT_REQ_ID k) as (k1 & -> & T1 & V1); [by apply policy_spec_typed|].
  destruct (add_xfrm_policy_effect fuel b (pn_lease net) DIR_IN DEFAULT_REQ_ID k1) as (k2 & -> & T2 & V2); [by apply policy_spec_typed|].
  destruct (add_xfrm_policy_effect fuel b (pn_lease net) DIR_FWD DEFAULT_REQ_ID k2) as (k3 & -> & T3 & V3); [by apply policy_spec_typed|].
  exists k3. split_and!; [done|by rewrite T3, T2, T1|congruence].
Qed.

Lemma delete_policies_effect b (k : K) :
  ipsec_lease_typed b ->
  let k' := (delete_ipsec_policies (S (S fuel)) (pn_lease net) b DEFAULT_REQ_ID k).1 in
  xk_table k' = policies_removed (pn_lease net) b (xk_table k) /\ ck_view k' = ck_view k.
Proof.
  intros Hb. unfold delete_ipsec_policies, io_bind, policies_removed.
  destruct (del_xfrm_policy_effect fuel (pn_lease net) b DIR_OUT DEFAULT_REQ_ID k) as (k1 & -> & T1 & V1); [by apply policy_spec_typed|].
  fold (out_policy (pn_lease net) b) in T1 |- *. destruct (xk_table k !! policy_key (out_policy (pn_lease net) b)) eqn:E1; cbn [is_some].
  2:{ cbn [fst]. rewrite T1, delete_id; done. }
  rewrite <- T1. destruct (del_xfrm_policy_effect fuel b (pn_lease net) DIR_IN DEFAULT_REQ_ID k1) as (k2 & -> & T2 & V2); [by apply policy_spec_typed|].
  fold (in_policy (pn_lease net) b) in T2 |- *. destruct (xk_table k1 !! policy_key (in_policy (pn_lease net) b)) eqn:E2; cbn [is_some].
  2:{ cbn [fst]. rewrite T2, delete_id; [|done]. split; [done|congruence]. }
  rewrite <- T2. destruct (del_xfrm_policy_effect fuel b (pn_lease net) DIR_FWD DEFAULT_REQ_ID k2) as (k3 & -> & T3 & V3); [by apply policy_spec_typed|].
  cbn [fst]. split; [done|congruence].
Qed.

(** The operations on charon leave the policies alone. *)
Lemma keeps_get_client n wait (k : K) : xk_table (get_client n wait k).1 = xk_table k.
Proof.
  revert k. induction n as [|n IH]; intros k; cbn [get_client]; [done|].
  pose proof (il_connect VICI_SOCKET_PATH k) as Hc. destruct (cs_connect VICI_SOCKET_PATH k) as [k1 [[]|e]]; cbn [fst] in *; [done|].
  destruct (negb wait); [done|]. pose proof (il_wait k1) as Hw. destruct (cs_wait k1) as [k2 []]; cbn [fst] in *; [congruence|].
  rewrite IH. congruence.
Qed.

Lemma keeps_conn_command cmd msg : keeps (K := K) xk_table (conn_command cmd msg).
Proof. apply keeps_bind; [auto with keeps|]. intros _ k. apply il_consume. Qed.

Lemma keeps_on_client {A} n wait (m : io K CharonError A) : keeps xk_table m -> keeps xk_table (on_client n wait m).
Proof.
  intros Hm k. unfold on_client. pose proof (keeps_get_client n wait k) as Hg.
  destruct (get_client n wait k) as [k1 [[[]|e]|]]; cbn [fst] in *; [by rewrite Hm|done..].
Qed.

Lemma keeps_load_shared n owner password : keeps (K := K) xk_table (load_shared_key n owner password).
Proof.
  apply keeps_on_client. generalize n at 1. intros m. induction m as [|m IH]; intros k; [done|]. cbn [load_shared_loop].
  set (c := load_shared_msg _ _ _). pose proof (keeps_conn_command "load-shared" c k) as Hc.
  destruct (conn_command "load-shared" c k) as [k1 [[]|e]]; cbn [fst] in *; [by rewrite il_close|].
  pose proof (il_wait k1) as Hw. destruct (cs_wait k1) as [k2 []]; cbn [fst] in *; [congruence|]. rewrite IH. congruence.
Qed.

Lemma keeps_load_connection n charon a b req encap : keeps (K := K) xk_table (load_connection n charon a b req encap).
Proof. apply keeps_on_client, keeps_bind; [apply keeps_map_err, keeps_conn_command|]. intros _ k. apply il_close. Qed.

Lemma keeps_unload n a b : keeps (K := K) xk_table (unload_charon_connection n a b).
Proof. apply keeps_on_client, keeps_map_err, keeps_conn_command. Qed.

(** One event *)
Lemma ipsec_event_effect evt (k : K) :
  (cv_delay (ck_view k) < S (S fuel))%nat -> ipsec_lease_typed (ev_lease evt) ->
  let k' := ipsec_handle_event (S (S fuel)) net k evt in
  xk_table k' = policy_effect net (xk_table k) evt /\ ck_view k' = charon_effect net (ck_view k) evt.
Proof.
  intros Hf Hb. unfold ipsec_handle_event, policy_effect, charon_effect, ipsec_ignored, ipsec_logged.
  destruct (negb _) eqn:E1; [done|]. cbn [orb]. destruct (bool_decide _) eqn:E2; [done|].
  destruct (ev_type evt).
  - destruct (add_policies_effect (ev_lease evt) k Hb) as (k1 & -> & T1 & V1). cbn [fst]. rewrite <- V1 in Hf.
    set (ip := IP4_fmt (la_public_ip (l_attrs (ev_lease evt)))).
    destruct (load_shared_key_effect (S (S fuel)) ip (pn_password net) k1 Hf (proj1 Hnet) (length_IP4_fmt _)) as (k2 & Hs & V2).
    pose proof (keeps_load_shared (S (S fuel)) ip (pn_password net) k1) as T2. rewrite Hs in T2 |- *. cbn [fst] in *.
    destruct (load_connection_effect (S (S fuel)) net (ev_lease evt) k2) as (k3 & Hl & V3); [rewrite V2; cbn; lia|done..|].
    pose proof (keeps_load_connection (S (S fuel)) (pn_iked net) (pn_lease net) (ev_lease evt) (fmt_dec DEFAULT_REQ_ID) (pn_udp_encap net) k2) as T3.
    rewrite Hl in T3 |- *. cbn [fst] in *. split; [congruence|]. by rewrite V3, V2, V1.
  - pose proof (keeps_unload (S (S fuel)) (pn_lease net) (ev_lease evt) k) as T1.
    pose proof (unload_effect (S (S fuel)) net (ev_lease evt) k ltac:(lia) Hown Hb) as V1.
    set (k1 := (unload_charon_connection _ _ _ k).1) in *.
    destruct (delete_policies_effect (ev_lease evt) k1 Hb) as [T2 V2]. split; [by rewrite T2, T1|by rewrite V2, V1].
Qed.

Lemma charon_effect_delay v evt : (cv_delay (charon_effect net v evt) <= cv_delay v)%nat.
Proof.
  unfold charon_effect. destruct (ipsec_ignored net evt); [done|]. destruct (ev_type evt); [cbn; lia|].
  unfold conn_unloaded. destruct (_ =? _)%nat; cbn; lia.
Qed.

Lemma ipsec_events_effect batch (k : K) :
  (cv_delay (ck_view k) < S (S fuel))%nat -> Forall (fun e => ipsec_lease_typed (ev_lease e)) batch ->
  let k' := ipsec_handle_subnet_events (S (S fuel)) net batch k in
  xk_table k' = fold_left (policy_effect net) batch (xk_table k) /\ ck_view k' = fold_left (charon_effect net) batch (ck_view k).
Proof.
  intros Hf Hb. revert k Hf. induction Hb as [|e batch He _ IH]; intros k Hf; [done|].
  cbn [ipsec_handle_subnet_events fold_left]. destruct (ipsec_event_effect e k Hf He) as [HT HV].
  rewrite <- HT, <- HV. apply IH. rewrite HV. pose proof (charon_effect_delay (ck_view k) e). lia.
Qed.
End EventEffects.

(** ** The policies are those of the live leases *)

Definition DIRS : list Z := [DIR_OUT; DIR_IN; DIR_FWD].

Definition dir_spec (dir : Z) (a b : Lease) : XfrmPolicySpec :=
  if dir =? DIR_OUT then policy_spec a b dir DEFAULT_REQ_ID else policy_spec b a dir DEFAULT_REQ_ID.

Definition dir_key (dir : Z) (a b : Lease) : PolicyKey := policy_key (dir_spec dir a b).

(** The last lease added for each subnet, unless it was removed since *)
Definition live_step (net : IPsecNetwork) (live : IP4Net -> option Lease) (evt : Event) : IP4Net -> option Lease :=
  if ipsec_ignored net evt then live
  else fun s => if bool_decide (s = l_subnet (ev_lease evt))
                then match ev_type evt with Added => Some (ev_lease evt) | Removed => None end
                else live s.

(** *** What the kernel should hold, by the lease data and linux/xfrm.h

    The directions IN, OUT and FWD are 0, 1 and 2.  Packets from the own subnet
    to the other one go OUT, through a tunnel from the own public address to
    that of the other node; packets in the opposite direction come IN or are
    forwarded, through the tunnel from the other node. *)
Definition wanted_key (dir : Z) (own b : Lease) : PolicyKey :=
  (if dir =? 1 then linux_selector (l_subnet own) (l_subnet b) else linux_selector (l_subnet b) (l_subnet own), dir).

(** The address that the kernel takes for the source of the tunnel: the code
    writes it two bytes too early ([Xfrm.tmpl_source_misplaced]). *)
Definition misread_source (ip : IP4) : IP4 := IP4_from_bytes (drop 2 (IP4_octets ip) ++ [0; 0]).

(** ESP is protocol 50, tunnel mode is 1, flannel's request id is 11. *)
Definition tunnel_tmpl (from to : IP4) : XfrmTmpl := mkXfrmTmpl (V4 (misread_source from)) (V4 to) 50 1 11.

Definition wanted_tmpl (dir : Z) (own l : Lease) : XfrmTmpl :=
  let own_ip := la_public_ip (l_attrs own) in
  let ip := la_public_ip (l_attrs l) in
  if dir =? 1 then tunnel_tmpl own_ip ip else tunnel_tmpl ip own_ip.

(** Between the own subnet and another one, the kernel has the policies of
    the live lease in the three directions, or none. *)
Definition coherent (net : IPsecNetwork) (live : IP4Net -> option Lease) (t : PolicyTable) : Prop :=
  forall dir b, In dir [0; 1; 2] -> ipsec_lease_typed b -> l_subnet b <> l_subnet (pn_lease net) ->
    t !! wanted_key dir (pn_lease net) b = option_map (wanted_tmpl dir (pn_lease net)) (live (l_subnet b)).

(** *** What charon should hold, by the keys that strongSwan documents *)

Record ChildSa := mkChildSa { cc_local_ts : list bytes; cc_remote_ts : list bytes; cc_mode : bytes; cc_reqid : bytes }.

Record Connection := mkConnection {
  cn_local_addrs : list bytes;
  cn_remote_addrs : list bytes;
  cn_local_auth : bytes;
  cn_remote_auth : bytes;
  cn_children : list ChildSa;
}.

Definition read_child (s : ViciSegment) : option ChildSa :=
  match s with
  | Section' _ m =>
      match ViciMessage_get_list m (as_bytes "local_ts"), ViciMessage_get_list m (as_bytes "remote_ts"),
            raw_value m (as_bytes "mode"), raw_value m (as_bytes "reqid") with
      | Some l, Some r, Some mode, Some reqid => Some (mkChildSa l r mode reqid)
      | _, _, _, _ => None
      end
  | _ => None
  end.

Definition auth_of (m : ViciMessage) (round : string) : option bytes :=
  match ViciMessage_get_section m (as_bytes round) with Some r => raw_value r (as_bytes "auth") | None => None end.

Definition read_connection (m : ViciMessage) : option Connection :=
  match ViciMessage_get_list m (as_bytes "local_addrs"), ViciMessage_get_list m (as_bytes "remote_addrs"),
        auth_of m "local-1", auth_of m "remote-1", ViciMessage_get_section m (as_bytes "children") with
  | Some l, Some r, Some la, Some ra, Some children =>
      match mapM read_child children with Some cs => Some (mkConnection l r la ra cs) | None => None end
  | _, _, _, _, _ => None
  end.

(** One tunnel between the two subnets, from address to address, with the
    shared key on both sides *)
Definition wanted_connection (own l : Lease) : Connection :=
  mkConnection [as_bytes (IP4_fmt (la_public_ip (l_attrs own)))] [as_bytes (IP4_fmt (la_public_ip (l_attrs l)))]
    (as_bytes "psk") (as_bytes "psk")
    [mkChildSa [as_bytes (IP4Net_fmt (l_subnet own))] [as_bytes (IP4Net_fmt (l_subnet l))] (as_bytes "tunnel") (as_bytes "11")].

(** Connections are loaded and unloaded under a name made of both addresses
    and subnets; keys are loaded by address and never unloaded. *)
Definition conn_step (net : IPsecNetwork) (m : gmap bytes Connection) (evt : Event) : gmap bytes Connection :=
  let l := ev_lease evt in
  if ipsec_ignored net evt then m
  else match ev_type evt with
       | Added => <[conn_name (pn_lease net) l := wanted_connection (pn_lease net) l]> m
       | Removed => delete (conn_name (pn_lease net) l) m
       end.

Definition key_step (net : IPsecNetwork) (keys : gmap bytes bytes) (evt : Event) : gmap bytes bytes :=
  if ipsec_ignored net evt then keys
  else match ev_type evt with
       | Added => <[as_bytes (IP4_fmt (la_public_ip (l_attrs (ev_lease evt)))) := as_bytes (pn_password net)]> keys
       | Removed => keys
       end.

(** *** The code's policies and connections are the wanted ones. *)

Lemma dirs_in dir : In dir [0; 1; 2] <-> In dir DIRS.
Proof. cbn. unfold DIR_OUT, DIR_IN, DIR_FWD. intuition. Qed.

Lemma dir_is_u8 dir : In dir DIRS -> u8 dir.
Proof. cbn. intros [<-|[<-|[<-|[]]]]; done. Qed.

Lemma dir_spec_typed dir a b :
  In dir DIRS -> ipsec_lease_typed a -> ipsec_lease_typed b -> spec_typed (dir_spec dir a b).
Proof. intros Hd%dir_is_u8 Ha Hb. unfold dir_spec. destruct (dir =? DIR_OUT); by apply policy_spec_typed. Qed.

Lemma selector_linux a b dir req :
  ipsec_lease_typed a -> ipsec_lease_typed b ->
  selector_bytes (fill_selector (policy_spec a b dir req)) = linux_selector (l_subnet a) (l_subnet b).
Proof.
  intros [[_ Ha] _] [[_ Hb] _]. unfold selector_bytes, fill_selector, policy_spec, linux_selector.
  cbn [sl_daddr sl_saddr sl_dport sl_dport_mask sl_sport sl_sport_mask sl_family sl_prefixlen_d sl_prefixlen_s sl_proto sl_ifindex sl_user
       xs_src xs_dst xs_src_prefix xs_dst_prefix addr16].
  rewrite !wrap_small by (unfold in_width; lia). rewrite <- !app_assoc. reflexivity.
Qed.

Lemma dir_key_wanted dir a b :
  ipsec_lease_typed a -> ipsec_lease_typed b -> dir_key dir a b = wanted_key dir a b.
Proof.
  intros Ha Hb. unfold dir_key, dir_spec, wanted_key, policy_key. change DIR_OUT with 1.
  destruct (dir =? 1); by rewrite selector_linux.
Qed.

Lemma kept_tmpl_tunnel a b dir :
  ipsec_lease_typed a -> ipsec_lease_typed b -> In dir DIRS ->
  kept_tmpl (policy_spec a b dir DEFAULT_REQ_ID) = tunnel_tmpl (la_public_ip (l_attrs a)) (la_public_ip (l_attrs b)).
Proof.
  intros Ha Hb Hd. destruct (kernel_reads_tmpl _ (policy_spec_typed a b dir Ha Hb (dir_is_u8 dir Hd))) as (H1 & H2 & H3 & H4 & H5).
  unfold kept_tmpl. destruct (kernel_tmpl _) as [src dst proto mode reqid]. cbn in H1, H2, H3, H4, H5 |- *. subst.
  unfold tunnel_tmpl, misread_source. f_equal.
Qed.

Lemma kept_tmpl_wanted dir a l :
  In dir DIRS -> ipsec_lease_typed a -> ipsec_lease_typed l -> kept_tmpl (dir_spec dir a l) = wanted_tmpl dir a l.
Proof.
  intros Hd Ha Hl. unfold dir_spec, wanted_tmpl. change DIR_OUT with 1. destruct (dir =? 1); by rewrite kept_tmpl_tunnel.
Qed.

Lemma conn_body_wanted net l : read_connection (conn_body net l) = Some (wanted_connection (pn_lease net) l).
Proof. reflexivity. Qed.

(** The state of charon in these terms: while its socket is not there it has
    no connection to unload. *)
Lemma charon_effect_steps net v evt :
  cv_delay v = 0%nat \/ cv_conns v = ∅ ->
  let v' := charon_effect net v evt in
  (cv_delay v' = 0%nat \/ cv_conns v' = ∅)
  /\ omap read_connection (cv_conns v') = conn_step net (omap read_connection (cv_conns v)) evt
  /\ cv_keys v' = key_step net (cv_keys v) evt.
Proof.
  intros Hv. unfold charon_effect, conn_step, key_step. cbv zeta. destruct (ipsec_ignored net evt); [done|]. destruct (ev_type evt).
  - split; [by left|]. split; [|done]. cbn. by rewrite (omap_insert_Some _ _ _ _ _ (conn_body_wanted net (ev_lease evt))).
  - unfold conn_unloaded. destruct (Nat.eqb_spec (cv_delay v) 0) as [Hz|Hz].
    + split; [by left|]. split; [|done]. cbn. apply omap_delete.
    + split; [done|]. split; [|done]. destruct Hv as [Hv|Hv]; [done|]. by rewrite Hv, omap_empty, delete_empty.
Qed.

Lemma charon_effects_steps net batch v :
  cv_delay v = 0%nat \/ cv_conns v = ∅ ->
  let v' := fold_left (charon_effect net) batch v in
  omap read_connection (cv_conns v') = fold_left (conn_step net) batch (omap read_connection (cv_conns v))
  /\ cv_keys v' = fold_left (key_step net) batch (cv_keys v).
Proof.
  revert v. induction batch as [|e batch IH]; intros v Hv; [done|]. cbn [fold_left].
  destruct (charon_effect_steps net v e Hv) as (Hv' & Hc & Hk). rewrite <- Hc, <- Hk. by apply IH.
Qed.

(** A key determines the selector and the direction. *)
Lemma policy_key_inj s s' :
  spec_typed s -> spec_typed s' -> policy_key s = policy_key s' -> fill_selector s = fill_selector s' /\ xs_dir s = xs_dir s'.
Proof.
  intros Hs Hs' [= Hsel Hdir]. split; [|done].
  pose proof (read_info_bytes s [] Hs) as Hr. pose proof (read_info_bytes s' [] Hs') as Hr'.
  assert (info_bytes (policy_info s) = info_bytes (policy_info s')) as He.
  { unfold info_bytes. cbn [ui_sel policy_info ui_lft ui_curlft ui_priority ui_index ui_dir ui_action ui_flags ui_share]. by rewrite Hsel, Hdir. }
  rewrite He, Hr' in Hr. assert (policy_info s' = policy_info s) as Hp by congruence. symmetry. exact (f_equal ui_sel Hp).
Qed.

Lemma fill_selector_subnets a b dir a' b' dir' :
  ipsec_lease_typed a -> ipsec_lease_typed b -> ipsec_lease_typed a' -> ipsec_lease_typed b' ->
  fill_selector (policy_spec a b dir DEFAULT_REQ_ID) = fill_selector (policy_spec a' b' dir' DEFAULT_REQ_ID) ->
  l_subnet a = l_subnet a' /\ l_subnet b = l_subnet b'.
Proof.
  intros [[Ha Hpa] _] [[Hb Hpb] _] [[Ha' Hpa'] _] [[Hb' Hpb'] _] He.
  assert (forall x y, u32 x -> u32 y -> addr16 (V4 x) = addr16 (V4 y) -> x = y) as Hinj.
  { intros x y Hx Hy Hxy. pose proof (ip_of_addr16 (V4 x) Hx) as H1. rewrite Hxy in H1.
    pose proof (ip_of_addr16 (V4 y) Hy) as H2. cbn [ip_family] in *. congruence. }
  pose proof (f_equal sl_saddr He) as H1. pose proof (f_equal sl_daddr He) as H2.
  pose proof (f_equal sl_prefixlen_s He) as H3. pose proof (f_equal sl_prefixlen_d He) as H4.
  unfold fill_selector, policy_spec, wrap in H1, H2, H3, H4.
  cbn [sl_saddr sl_daddr sl_prefixlen_s sl_prefixlen_d xs_src xs_dst xs_src_prefix xs_dst_prefix] in H1, H2, H3, H4.
  apply Hinj in H1, H2; [|done..]. rewrite !Z.mod_small in H3, H4 by lia.
  destruct (l_subnet a), (l_subnet b), (l_subnet a'), (l_subnet b'); cbn in *; by subst.
Qed.

Lemma dir_key_inj dir dir' a b b' :
  In dir DIRS -> In dir' DIRS -> ipsec_lease_typed a -> ipsec_lease_typed b -> ipsec_lease_typed b' ->
  dir_key dir a b = dir_key dir' a b' -> dir = dir' /\ l_subnet b = l_subnet b'.
Proof.
  intros Hd Hd' Ha Hb Hb' Hk. apply policy_key_inj in Hk as [Hs Hdir]; [|by apply dir_spec_typed..].
  unfold dir_spec in Hdir, Hs. assert (dir = dir') as <- by (by destruct (dir =? DIR_OUT), (dir' =? DIR_OUT)). split; [done|].
  destruct (dir =? DIR_OUT); apply fill_selector_subnets in Hs as [? ?]; done.
Qed.

Lemma dir_key_subnet dir a b b' : l_subnet b = l_subnet b' -> dir_key dir a b = dir_key dir a b'.
Proof. intros Hs. unfold dir_key, dir_spec, policy_key, policy_spec, fill_selector. destruct (dir =? DIR_OUT); cbn; by rewrite Hs. Qed.

Lemma dir_in_cases (P : Z -> Prop) : P DIR_OUT -> P DIR_IN -> P DIR_FWD -> forall dir, In dir DIRS -> P dir.
Proof. intros H1 H2 H3 dir [<-|[<-|[<-|[]]]]; done. Qed.

Section Coherence.
Context (net : IPsecNetwork) (Hown : ipsec_lease_typed (pn_lease net)).
#[local] Abbreviation own := (pn_lease net).
#[local] Abbreviation key dir l := (dir_key dir own l).

Lemma key_ne dir dir' b b' :
  In dir DIRS -> In dir' DIRS -> ipsec_lease_typed b -> ipsec_lease_typed b' ->
  dir <> dir' \/ l_subnet b <> l_subnet b' -> key dir b <> key dir' b'.
Proof. intros Hd Hd' Hb Hb' Hn Hk. apply dir_key_inj in Hk as [? ?]; [|done..]. tauto. Qed.

Lemma added_lookup l t dir b :
  In dir DIRS -> ipsec_lease_typed l -> ipsec_lease_typed b ->
  policies_added own l t !! key dir b
  = if bool_decide (l_subnet b = l_subnet l) then Some (kept_tmpl (dir_spec dir own l)) else t !! key dir b.
Proof.
  intros Hd Hl Hb. unfold policies_added, put_policy.
  change (policy_key (fwd_policy own l)) with (key DIR_FWD l). change (policy_key (in_policy own l)) with (key DIR_IN l).
  change (policy_key (out_policy own l)) with (key DIR_OUT l).
  destruct (decide (l_subnet b = l_subnet l)) as [Hs|Hs].
  - rewrite bool_decide_true by done. rewrite (dir_key_subnet dir own b l Hs).
    revert dir Hd. apply dir_in_cases.
    + rewrite !lookup_insert_ne by (apply key_ne; cbn; auto; left; done). by rewrite lookup_insert_eq.
    + rewrite lookup_insert_ne by (apply key_ne; cbn; auto; left; done). by rewrite lookup_insert_eq.
    + by rewrite lookup_insert_eq.
  - rewrite bool_decide_false by done. by rewrite !lookup_insert_ne by (apply key_ne; cbn; auto).
Qed.

Lemma removed_lookup live l t dir b :
  coherent net live t -> In dir DIRS -> ipsec_lease_typed l -> l_subnet l <> l_subnet own -> ipsec_lease_typed b ->
  policies_removed own l t !! key dir b = if bool_decide (l_subnet b = l_subnet l) then None else t !! key dir b.
Proof.
  intros Hc Hd Hl Hne Hb.
  assert (forall dir, In dir DIRS -> t !! key dir l = option_map (wanted_tmpl dir own) (live (l_subnet l))) as Hcl.
  { intros dir' Hd'. rewrite dir_key_wanted by done. apply Hc; [by apply dirs_in|done..]. }
  unfold policies_removed.
  change (policy_key (fwd_policy own l)) with (key DIR_FWD l). change (policy_key (in_policy own l)) with (key DIR_IN l).
  change (policy_key (out_policy own l)) with (key DIR_OUT l).
  rewrite (Hcl DIR_OUT) by (cbn; auto). destruct (live (l_subnet l)) as [l0|] eqn:El; cbn [option_map is_some].
  - cbv zeta. rewrite lookup_delete_ne by (apply key_ne; cbn; auto; left; done).
    rewrite (Hcl DIR_IN) by (cbn; auto). cbn [option_map is_some].
    destruct (decide (l_subnet b = l_subnet l)) as [Hs|Hs].
    + rewrite bool_decide_true by done. rewrite (dir_key_subnet dir own b l Hs). revert dir Hd. apply dir_in_cases.
      * rewrite !lookup_delete_ne by (apply key_ne; cbn; auto; left; done). by rewrite lookup_delete_eq.
      * rewrite lookup_delete_ne by (apply key_ne; cbn; auto; left; done). by rewrite lookup_delete_eq.
      * by rewrite lookup_delete_eq.
    + rewrite bool_decide_false by done. by rewrite !lookup_delete_ne by (apply key_ne; cbn; auto).
  - case_bool_decide as Hs; [|done]. rewrite (dir_key_subnet dir own b l Hs), (Hcl dir Hd). done.
Qed.

Lemma coherent_step live t evt :
  ipsec_lease_typed (ev_lease evt) -> coherent net live t -> coherent net (live_step net live evt) (policy_effect net t evt).
Proof.
  intros Hl Hc dir b Hd Hb Hne. unfold live_step, policy_effect. destruct (ipsec_ignored net evt) eqn:Ei; [by apply Hc|].
  apply orb_false_iff in Ei as [_ Ei%bool_decide_eq_false]. pose proof (proj1 (dirs_in dir) Hd) as Hd'.
  rewrite <- dir_key_wanted by done. destruct (ev_type evt).
  - rewrite added_lookup by done. case_bool_decide; [cbn; by rewrite kept_tmpl_wanted|rewrite dir_key_wanted by done; by apply Hc].
  - rewrite (removed_lookup live) by done. case_bool_decide; [done|rewrite dir_key_wanted by done; by apply Hc].
Qed.

Lemma coherent_fold batch live t :
  Forall (fun e => ipsec_lease_typed (ev_lease e)) batch -> coherent net live t ->
  coherent net (fold_left (live_step net) batch live) (fold_left (policy_effect net) batch t).
Proof.
  intros Hb. revert live t. induction Hb as [|e batch He _ IH]; intros live t Hc; [done|]. by apply IH, coherent_step.
Qed.

(** Other policies stay. *)
Lemma effect_other t evt k :
  (forall dir, In dir DIRS -> k <> key dir (ev_lease evt)) -> policy_effect net t evt !! k = t !! k.
Proof.
  intros Hk. unfold policy_effect. destruct (ipsec_ignored net evt); [done|].
  pose proof (Hk DIR_OUT ltac:(cbn; auto)) as H1. pose proof (Hk DIR_IN ltac:(cbn; auto)) as H2. pose proof (Hk DIR_FWD ltac:(cbn; auto)) as H3.
  destruct (ev_type evt).
  - unfold policies_added, put_policy. by rewrite !lookup_insert_ne by (intros E; by symmetry in E).
  - unfold policies_removed. destruct (is_some _); [|done]. cbv zeta. destruct (is_some _);
      by rewrite !lookup_delete_ne by (intros E; by symmetry in E).
Qed.

Lemma fold_effect_other batch t k :
  Forall (fun e => forall dir, In dir DIRS -> k <> key dir (ev_lease e)) batch ->
  fold_left (policy_effect net) batch t !! k = t !! k.
Proof.
  intros Hb. revert t. induction Hb as [|e batch He _ IH]; intros t; [done|]. cbn [fold_left]. rewrite IH. by apply effect_other.
Qed.
End Coherence.

(** C28: a batch of lease events.  On a kernel and a charon that answer through
    their wire formats, with addresses and prefix lengths in range and a kernel
    table that is coherent before (charon may come up late, after fewer
    attempts than [fuel] and without connections until then): afterwards the kernel has, between the own subnet and
    every other one, the OUT policy from the own subnet through the tunnel to
    the public address of the live lease of that subnet, and the IN and FWD
    policies in the opposite direction, with ESP in tunnel mode and request id
    11, and none where no lease is live; the selectors are those of
    linux/xfrm.h.  One field is not as meant: the source of each tunnel is
    stored as its last two octets followed by zeros ([misread_source]).  Every
    other policy is as it was.  In charon an addition has loaded the shared key
    under the remote address and, under the name made of both addresses and
    subnets, a tunnel connection between the two subnets and addresses with
    that key; a removal has unloaded the connection of that name.  Keys are
    never unloaded, and a lease that another one of its subnet supersedes
    keeps its connection ([superseded_connection_stays]). *)
Theorem ipsec_events_coherent `{IpsecLaws K} fuel net batch live (k : K) :
  (cv_delay (ck_view k) < fuel)%nat -> (2 <= fuel)%nat ->
  charon_typed net -> ipsec_lease_typed (pn_lease net) -> Forall (fun e => ipsec_lease_typed (ev_lease e)) batch ->
  coherent net live (xk_table k) -> cv_delay (ck_view k) = 0%nat \/ cv_conns (ck_view k) = ∅ ->
  let k' := ipsec_handle_subnet_events fuel net batch k in
  coherent net (fold_left (live_step net) batch live) (xk_table k')
  /\ (forall key, Forall (fun e => forall dir, In dir [0; 1; 2] -> key <> wanted_key dir (pn_lease net) (ev_lease e)) batch ->
      xk_table k' !! key = xk_table k !! key)
  /\ omap read_connection (cv_conns (ck_view k'))
     = fold_left (conn_step net) batch (omap read_connection (cv_conns (ck_view k)))
  /\ cv_keys (ck_view k') = fold_left (key_step net) batch (cv_keys (ck_view k)).
Proof.
  intros Hd Hf Hnet Hown Hb Hc Hv. destruct fuel as [|[|fuel]]; [lia..|].
  destruct (ipsec_events_effect fuel net Hnet Hown batch k Hd Hb) as [HT HV]. cbv zeta. rewrite HT, HV. split; [|split].
  - by apply coherent_fold.
  - intros key Hk. apply fold_effect_other. clear -Hk Hb Hown. induction Hk as [|e batch He _ IH]; [constructor|].
    apply Forall_cons_iff in Hb as [Hbe Hb]. constructor; [|by apply IH].
    intros dir Hdir%dirs_in. rewrite dir_key_wanted by done. by apply He.
  - by apply charon_effects_steps.
Qed.

(** ** An example

    A kernel that holds its table and the datagrams it still has to deliver,
    and a charon that answers at once. *)

Record ExampleNode := mkExampleNode {
  en_table : PolicyTable;
  en_queue : list bytes;
  en_charon : CharonView;
  en_unread : bytes;
}.

Definition policy_reply : Reply := mkReply XFRM_MSG_NEWPOLICY (replicate 10 0) (policy_info_msg xfrm_sample).

Definition example_answer (msg_type code : Z) : list (list Reply) :=
  (if (msg_type =? XFRM_MSG_GETPOLICY) && (code =? 0) then [[policy_reply]] else [])
  ++ [[status_reply (replicate 10 0) code (replicate 16 0)]].

#[global] Instance example_genl : GenlKernel ExampleNode := {
  gk_open k := (k, Ok 0);
  gk_send msg k :=
    let msg_type := from_le (slice 4 6 msg) in
    let '(t, code) := xfrm_do msg_type (drop 16 msg) (en_table k) in
    (mkExampleNode t (map encode_replies (example_answer msg_type code)) (en_charon k) (en_unread k), Ok tt);
  gk_recv k :=
    match en_queue k with
    | [] => (k, Err 11)
    | d :: q => (mkExampleNode (en_table k) q (en_charon k) (en_unread k), Ok d)
    end;
}.

Definition example_response (success : bool) : ViciMessage := [Key (as_bytes "success") (answer success)].

Definition with_charon (k : ExampleNode) (v : CharonView) (unread : bytes) : ExampleNode :=
  mkExampleNode (en_table k) (en_queue k) v unread.

#[global] Instance example_charon : CharonSystem ExampleNode := {
  cs_is_executable _ path := String.eqb path "/usr/lib/ipsec/charon";
  cs_path _ := Some "/usr/bin:/bin";
  cs_spawn _ k := (k, Ok tt);
  cs_connect _ k :=
    if (cv_delay (en_charon k) =? 0)%nat then (with_charon k (en_charon k) [], Ok tt) else (k, Err UnexpectedEof);
  cs_write written k :=
    match charon_reads written with
    | Some (cmd, msg) =>
        let '(v, success) := charon_do cmd msg (en_charon k) in
        (with_charon k v (en_unread k ++ write_packet CMD_RESPONSE (ViciMessage_encode (example_response success))), Ok tt)
    | None => (k, Ok tt)
    end;
  cs_unread := en_unread;
  cs_consume n k := with_charon k (en_charon k) (drop n (en_unread k));
  cs_close k := k;
  cs_wait k :=
    let 'mkCharonView d conns keys := en_charon k in (with_charon k (mkCharonView (pred d) conns keys) (en_unread k), false);
}.

Lemma policy_reply_ok : policy_body policy_reply.
Proof. repeat split; try done; by vm_compute. Qed.

#[global] Instance example_xfrm_laws : XfrmLaws ExampleNode.
Proof.
  refine {| xk_table := en_table |}.
  - intros k. by exists k, 0.
  - intros k msg_type port payload Hw.
    assert (from_le (slice 4 6 (xfrm_message msg_type 1 port payload)) = msg_type) as Ht.
    { unfold xfrm_message. rewrite slice_app_r by (rewrite length_to_le; lia). rewrite length_to_le.
      rewrite slice_app_l by (by rewrite length_to_le). rewrite from_le_to_le. by apply Z.mod_small. }
    assert (drop 16 (xfrm_message msg_type 1 port payload) = payload) as Hp.
    { unfold xfrm_message. rewrite !app_assoc. apply drop_app_length'. by rewrite !length_app, !length_to_le. }
    cbn [gk_send example_genl]. rewrite Ht, Hp. destruct (xfrm_do msg_type payload (en_table k)) as [t code] eqn:E. cbn [fst snd].
    set (got := (msg_type =? XFRM_MSG_GETPOLICY) && (code =? 0)).
    exists (mkExampleNode t (map encode_replies (example_answer msg_type code)) (en_charon k) (en_unread k)),
      (mkExampleNode t [] (en_charon k) (en_unread k)), (replicate 10 0), (replicate 16 0), (if got then [[policy_reply]] else []).
    unfold example_answer. fold got. split_and!; [done| |done..|].
    + destruct got; cbn [app delivers map].
      * eexists. split; [reflexivity|]. eexists. split; [reflexivity|]. done.
      * eexists. split; [reflexivity|]. done.
    + destruct got; [|done]. exists policy_reply. split; [done|apply policy_reply_ok].
Defined.

#[global] Instance example_charon_laws : CharonLaws ExampleNode.
Proof.
  refine {| ck_view := en_charon |}.
  - intros k path. cbn [cs_connect example_charon]. destruct (cv_delay (en_charon k) =? 0)%nat; [by eexists|]. by eexists _, _.
  - intros k. cbn [cs_wait example_charon]. destruct (en_charon k) as [d conns keys]. eexists. split; [done|]. done.
  - done.
  - done.
  - intros k written cmd msg Hu Hr. cbn [cs_write cs_unread example_charon] in *. rewrite Hr, Hu. cbn [app].
    destruct (charon_do cmd msg (en_charon k)) as [v success] eqn:E.
    exists (with_charon k v (write_packet CMD_RESPONSE (ViciMessage_encode (example_response success)))), [], (example_response success).
    split_and!; [done..|constructor| | |]; destruct success; by vm_compute.
Defined.

#[global] Instance example_ipsec_laws : IpsecLaws ExampleNode.
Proof.
  constructor.
  - done.
  - intros b k. cbn [gk_send example_genl]. by destruct (xfrm_do _ _ _).
  - intros k. cbn [gk_recv example_genl]. by destruct (en_queue k).
  - intros p k. cbn [cs_connect example_charon]. by destruct (_ =? _)%nat.
  - intros b k. cbn [cs_write example_charon]. destruct (charon_reads b) as [[cmd msg]|]; [|done]. by destruct (charon_do _ _ _).
  - intros k. cbn [cs_wait example_charon]. by destruct (en_charon k).
  - done.
  - done.
Defined.

Definition ipsec_lease (host net : Z) : Lease :=
  mkLease true false (mkIP4Net (IP4_from_octets 10 5 net 0) 24) IP6Net_default
    (mkLeaseAttrs (IP4_from_octets 192 168 1 host) None IPSEC_BACKEND_TYPE None None) 0 0.

Definition example_ipsec_net : IPsecNetwork :=
  new_network 1500 true "secret" (mkCharon DEFAULT_ESP_PROPOSAL) (ipsec_lease 5 1).

Definition example_ipsec_batch : list Event :=
  [mkEvent Added (ipsec_lease 6 2); mkEvent Added (ipsec_lease 7 3); mkEvent Removed (ipsec_lease 6 2);
   mkEvent Added (ipsec_lease 5 1); mkEvent Added (ipsec_lease 8 3)].

Definition example_node : ExampleNode := mkExampleNode ∅ [] (mkCharonView 3 ∅ ∅) [].

(** After five events, one of the own lease, while charon starts: the policies
    of the subnet 10.5.3.0/24 are those of its last lease. *)
Lemma ipsec_events_coherent_witness :
  let live := fold_left (live_step example_ipsec_net) example_ipsec_batch (fun _ => None) in
  live (l_subnet (ipsec_lease 8 3)) = Some (ipsec_lease 8 3) /\ live (l_subnet (ipsec_lease 6 2)) = None
  /\ coherent example_ipsec_net live
       (xk_table (ipsec_handle_subnet_events 4 example_ipsec_net example_ipsec_batch example_node)).
Proof.
  split; [by vm_compute|]. split; [by vm_compute|].
  refine (proj1 (ipsec_events_coherent 4 example_ipsec_net example_ipsec_batch (fun _ => None) example_node _ _ _ _ _ _ _)).
  - cbn. lia.
  - lia.
  - by vm_compute.
  - repeat split; by vm_compute.
  - repeat constructor; by vm_compute.
  - intros dir b _ _ _. done.
  - by right.
Defined.

(** Two leases of 10.5.3.0/24, one after the other: the connection to the
    first node and its key are still in charon when the second has replaced
    it and is removed in its turn, although no lease of the subnet is live. *)
Theorem superseded_connection_stays :
  let v := fold_left (charon_effect example_ipsec_net)
             [mkEvent Added (ipsec_lease 7 3); mkEvent Added (ipsec_lease 8 3); mkEvent Removed (ipsec_lease 8 3)] (mkCharonView 0 ∅ ∅) in
  is_some (cv_conns v !! conn_name (ipsec_lease 5 1) (ipsec_lease 7 3)) = true
  /\ is_some (cv_conns v !! conn_name (ipsec_lease 5 1) (ipsec_lease 8 3)) = false
  /\ is_some (cv_keys v !! as_bytes "192.168.1.7") = true.
Proof. by vm_compute. Qed.
