(* ===== verification/CharonProc.v ===== *)
(** * [backend/ipsec/charon.rs]: the process of the IKE daemon

    [spawn_charon] starts charon with a parent-death signal and leaves a task
    that terminates and reaps it after the cancellation.  [Ipsec] uses the
    start as [cs_spawn]; here is what is behind it, over the calls for
    processes ([ProcessOps]) and what the kernel does with them
    ([ProcessLaws]). *)

From S2P Require Import Prelude RustStr Anyhow.
#[local] Open Scope string_scope.
#[local] Open Scope list_scope.
#[local] Open Scope Z_scope.

Definition SIGTERM : Z := 15.

(** [ps_spawn]: fork and exec, with the [pre_exec] hook between them, whose
    failure makes the spawn fail; [ps_kill] and [ps_wait] are [kill] and
    [Child::wait]. *)
Class ProcessOps (K : Type) := {
  ps_spawn : string -> option Z -> io K string Z;
  ps_kill : Z -> Z -> io K string unit;
  ps_wait : Z -> io K string unit;
}.

Section Charon.
Context `{ProcessOps K}.

(** The child; [PR_SET_PDEATHSIG] is set to SIGTERM. *)
Definition spawn_charon (exec_path : string) : io K anyhow Z :=
  io_map_err (fun e => [e]) (ps_spawn exec_path (Some SIGTERM)).

(** The task, once the token is cancelled: the errors are only logged. *)
Definition charon_watcher (pid : Z) (k : K) : K :=
  let k := (ps_kill pid SIGTERM k).1 in
  (ps_wait pid k).1.
End Charon.

(** A process runs, has ended without being waited for, or is gone; it
    records the signal that it gets when its parent dies. *)
Inductive ProcState := PsRunning (pdeathsig : option Z) | PsZombie.

(** The process table: a new process has a new identifier; charon ends on
    SIGTERM; a process that has ended is removed by [wait]; the calls leave
    the other processes alone. *)
Class ProcessLaws (K : Type) `{ProcessOps K} := {
  pl_table : K -> gmap Z ProcState;
  pl_spawn : forall path sig k k' pid, ps_spawn path sig k = (k', Ok pid) ->
    pl_table k !! pid = None /\ pl_table k' = <[pid := PsRunning sig]> (pl_table k);
  pl_spawn_err : forall path sig k k' e, ps_spawn path sig k = (k', Err e) -> pl_table k' = pl_table k;
  pl_kill : forall pid k, is_Some (pl_table k !! pid) -> pl_table (ps_kill pid SIGTERM k).1 = <[pid := PsZombie]> (pl_table k);
  pl_wait : forall pid k, pl_table k !! pid = Some PsZombie -> pl_table (ps_wait pid k).1 = delete pid (pl_table k);
}.

Section CharonTheorems.
Context `{ProcessLaws K}.

(** A start that fails leaves no process behind; one that succeeds starts a
    process that does not outlive its parent, and after the cancellation the
    table is what it was, whether or not charon had ended by itself. *)
Theorem charon_leaves_nothing path (k k' : K) r :
  spawn_charon path k = (k', r) ->
  match r with
  | Err _ => pl_table k' = pl_table k
  | Ok pid => pl_table k' !! pid = Some (PsRunning (Some SIGTERM))
      /\ forall k2, is_Some (pl_table k2 !! pid) -> delete pid (pl_table k2) = pl_table k -> pl_table (charon_watcher pid k2) = pl_table k
  end.
Proof.
  unfold spawn_charon, io_map_err. destruct (ps_spawn path (Some SIGTERM) k) as [k1 [pid|e]] eqn:Hs; cbn [map_err]; intros [= <- <-].
  - destruct (pl_spawn _ _ _ _ _ Hs) as [Hnew Ht]. split; [by rewrite Ht, lookup_insert_eq|].
    intros k2 Hk2 Hd. unfold charon_watcher. rewrite pl_wait; rewrite pl_kill by done; [|apply lookup_insert_eq].
    by rewrite delete_insert_eq.
  - by eapply pl_spawn_err.
Qed.
End CharonTheorems.

(** ** A process table, for the witness *)

#[local] Instance ptable_ops : ProcessOps (gmap Z ProcState) := {
  ps_spawn path sig k := if str_is_empty path then (k, Err "No such file or directory")
                         else let pid := fresh (dom k : gset Z) in (<[pid := PsRunning sig]> k, Ok pid);
  ps_kill pid sig k := if is_some (k !! pid) then (<[pid := PsZombie]> k, Ok tt) else (k, Err "No such process");
  ps_wait pid k := match k !! pid with Some PsZombie => (delete pid k, Ok tt) | _ => (k, Err "No child processes") end;
}.

#[local] Instance ptable_laws : ProcessLaws (gmap Z ProcState).
Proof.
  apply (Build_ProcessLaws _ _ (fun k => k)).
  - intros path sig k k' pid. cbn. destruct (str_is_empty path); [done|]. intros [= <- <-]. split; [|done].
    apply not_elem_of_dom, is_fresh.
  - intros path sig k k' e. cbn. by destruct (str_is_empty path); intros [= <-].
  - intros pid k [x Hx]. cbn. by rewrite Hx.
  - intros pid k Hx. cbn. by rewrite Hx.
Defined.

Lemma charon_leaves_nothing_witness :
  let k1 := (spawn_charon "/usr/lib/ipsec/charon" (∅ : gmap Z ProcState)) in
  exists pid, k1.2 = Ok pid /\ k1.1 !! pid = Some (PsRunning (Some SIGTERM)).
Proof.
  destruct (spawn_charon "/usr/lib/ipsec/charon" (∅ : gmap Z ProcState)) as [k' r] eqn:E.
  pose proof (charon_leaves_nothing "/usr/lib/ipsec/charon" (∅ : gmap Z ProcState) k' r E) as H.
  destruct r as [pid|e]; [|discriminate E]. exists pid. split; [reflexivity|exact (proj1 H)].
Defined.
