(* ===== verification/Links.v ===== *)
(** * Link devices: [backend/vxlan/link_info.rs], the helpers of [ipip.rs]

    The link messages of netlink as the backends read them, and the requests
    that create, change and delete a device.  [LinkKernel] is the interface of
    these requests; [LinkLaws] states what the kernel does with them, on a
    table of devices by name. *)

From S2P Require Import Prelude RustStr StdNet IpNet Ip6Net Lease Config Anyhow RouteNetwork Iface.
#[local] Open Scope string_scope.
#[local] Open Scope list_scope.
#[local] Open Scope Z_scope.

#[global] Instance InfoKind_eq_dec : EqDecision InfoKind.
Proof. solve_decision. Defined.

(** [Display for InfoKind] *)
Definition InfoKind_fmt (k : InfoKind) : string :=
  match k with KVxlan => "vxlan" | KIpIp => "ipip" | KWireguard => "wireguard" | KOther name => name end.

(** ** Reading link messages *)

Definition link_kind (msg : LinkMessage) : option InfoKind :=
  find_map (fun a => match a with
                     | IflaInfo infos => find_map (fun i => match i with LiKind k => Some k | _ => None end) infos
                     | _ => None
                     end) (lm_attributes msg).

(** The first [LinkInfo] attribute *)
Definition link_infos (msg : LinkMessage) : option (list LinkInfo) :=
  find_map (fun a => match a with IflaInfo infos => Some infos | _ => None end) (lm_attributes msg).

Definition tun_attr (acc : option IpAddr * option IpAddr) (a : InfoIpTunnel) : option IpAddr * option IpAddr :=
  match a with
  | ItLocal ip => (Some ip, acc.2)
  | ItRemote ip => (acc.1, Some ip)
  | ItOther => acc
  end.

Definition iptun_local_remote (msg : LinkMessage) : option IpAddr * option IpAddr :=
  fold_left (fun acc info => match info with LiData (IdIpTunnel attrs) => fold_left tun_attr attrs acc | _ => acc end)
    (default [] (link_infos msg)) (None, None).

Definition link_mac (link : LinkMessage) : option bytes :=
  find_map (fun a => match a with
                     | IflaAddress b => if (length b =? 6)%nat then Some b else None
                     | _ => None
                     end) (lm_attributes link).

(** [link_info.rs] has its own [link_name], with the empty default. *)
Definition link_name_or_empty (link : LinkMessage) : string :=
  default "" (find_map (fun a => match a with IfName n => Some n | _ => None end) (lm_attributes link)).

Record VxlanInfo := mkVxlanInfo {
  vi_vni : Z;
  vi_vtep_index : Z;
  vi_vtep_addr : option IpAddr;
  vi_group : option IpAddr;
  vi_l2miss : bool;
  vi_port : Z;
  vi_gbp : bool;
}.

Definition VxlanInfo_default : VxlanInfo := mkVxlanInfo 0 0 None None false 0 false.

Definition vxlan_item (v : VxlanInfo) (item : InfoVxlan) : VxlanInfo :=
  let 'mkVxlanInfo vni idx addr group l2miss port gbp := v in
  match item with
  | IvId n => mkVxlanInfo n idx addr group l2miss port gbp
  | IvLink i => mkVxlanInfo vni i addr group l2miss port gbp
  | IvLocal ip => mkVxlanInfo vni idx (Some (V4 ip)) group l2miss port gbp
  | IvLocal6 ip => mkVxlanInfo vni idx (Some (V6 ip)) group l2miss port gbp
  | IvGroup ip => mkVxlanInfo vni idx addr (Some (V4 ip)) l2miss port gbp
  | IvGroup6 ip => mkVxlanInfo vni idx addr (Some (V6 ip)) l2miss port gbp
  | IvL2Miss b => mkVxlanInfo vni idx addr group b port gbp
  | IvPort p => mkVxlanInfo vni idx addr group l2miss p gbp
  | IvGbp => mkVxlanInfo vni idx addr group l2miss port true
  | IvOther => v
  end.

(** Whether a kind [vxlan] was seen, and the last data *)
Definition scan_info (acc : bool * option InfoData) (info : LinkInfo) : bool * option InfoData :=
  match info with
  | LiKind KVxlan => (true, acc.2)
  | LiData d => (acc.1, Some d)
  | _ => acc
  end.

Definition vxlan_info (link : LinkMessage) : option VxlanInfo :=
  match link_infos link with
  | None => None
  | Some infos =>
      let '(is_vxlan, data) := fold_left scan_info infos (false, None) in
      if negb is_vxlan then None
      else Some match data with
                | Some (IdVxlan items) => fold_left vxlan_item items VxlanInfo_default
                | _ => VxlanInfo_default
                end
  end.

(** ** Requests *)

(** An error of [rtnetlink], with the code of a [NetlinkError] *)
Record NlError := mkNlError { ne_code : option Z; ne_text : string }.

Definition EEXIST_CODE : Z := -17.

Definition is_eexist (e : NlError) : bool := bool_decide (ne_code e = Some EEXIST_CODE).

(** The link builders and what is set on them *)
Record VxlanRequest := mkVxlanRequest {
  vr_name : string;
  vr_id : Z;
  vr_learning : bool;
  vr_dev : option Z;
  vr_local : option IpAddr;
  vr_port : option Z;
  vr_gbp : bool;
  vr_address : bytes;
  vr_mtu : option Z;
}.

Inductive LinkRequest :=
| NewIpIp (name : string) (local : IP4)
| NewVxlan (r : VxlanRequest)
| NewWireguard (name : string) (mtu : option Z).

Definition request_name (r : LinkRequest) : string :=
  match r with NewIpIp name _ => name | NewVxlan r => vr_name r | NewWireguard name _ => name end.

Class LinkKernel (K : Type) := {
  lk_add : LinkRequest -> io K NlError unit;
  lk_del : Z -> io K NlError unit;
  lk_set_mtu : Z -> Z -> io K NlError unit;
  lk_set_up : Z -> io K NlError unit;
}.

Section Lookup.
Context `{NlKernel K}.

(** [link_by_name] of [ipip.rs] *)
Definition link_by_name (k : K) (name : string) : result LinkMessage anyhow :=
  let? link := map_err (fun e => [e]) (try_next (nl_link_by_name k name)) in
  ok_or link ["Link not found"].

(** [get_link_by_name] of [link_info.rs]: the first of a dump *)
Definition get_link_by_name (k : K) (name : string) : result LinkMessage anyhow :=
  let? links := map_err (fun e => [e]) (list_links k) in
  ok_or (List.find (fun l => String.eqb (link_name_or_empty l) name) links)
    ["no such network interface with name " +:+ name].
End Lookup.

(** ** What the kernel does *)

(** A device: what a link message of it says *)
Record LinkDev := mkLinkDev {
  ld_index : Z;
  ld_kind : option InfoKind;
  ld_tun : option IpAddr * option IpAddr;
  ld_vxlan : option VxlanInfo;
  ld_mac : option bytes;
  ld_mtu : Z;
  ld_up : bool;
}.

Abbreviation LinkTable := (gmap string LinkDev).

Definition describes (name : string) (d : LinkDev) (m : LinkMessage) : Prop :=
  lm_index m = ld_index d /\ link_name_or_empty m = name /\ link_name m = name /\ link_kind m = ld_kind d
  /\ iptun_local_remote m = ld_tun d /\ vxlan_info m = ld_vxlan d /\ link_mac m = ld_mac d /\ link_mtu m = ld_mtu d.

(** What a device created by a request is like; the kernel chooses the index,
    an MTU when none is asked for, and the port when none is. *)
Definition created (r : LinkRequest) (d : LinkDev) : Prop :=
  ld_up d = false
  /\ match r with
     | NewIpIp _ local =>
         ld_kind d = Some KIpIp /\ ld_tun d = (Some (V4 local), Some (V4 0)) /\ ld_vxlan d = None
     | NewVxlan r =>
         ld_kind d = Some KVxlan /\ ld_mac d = Some (vr_address r) /\ from_option (fun m => ld_mtu d = m) True (vr_mtu r)
         /\ exists v, ld_vxlan d = Some v /\ vi_vni v = vr_id r /\ vi_vtep_index v = default 0 (vr_dev r)
              /\ vi_vtep_addr v = vr_local r /\ vi_l2miss v = false /\ from_option (fun p => vi_port v = p) True (vr_port r)
              /\ vi_gbp v = vr_gbp r
     | NewWireguard _ mtu =>
         ld_kind d = Some KWireguard /\ ld_vxlan d = None /\ from_option (fun m => ld_mtu d = m) True mtu
     end.

Definition set_up (d : LinkDev) : LinkDev :=
  let 'mkLinkDev i k t v m mtu _ := d in mkLinkDev i k t v m mtu true.
Definition set_dev_mtu (mtu : Z) (d : LinkDev) : LinkDev :=
  let 'mkLinkDev i k t v m _ up := d in mkLinkDev i k t v m mtu up.

(** A kernel that lets the process change its links ([nl_admin] of [NlLaws]
    stays): names and indexes identify devices; a request on an existing name
    is refused with EEXIST, one that [ll_admits] holds of (the driver is there
    and no device of another name is in the way) is granted on a free name; a
    new device has no address; devices with a driver can be deleted. *)
Class LinkLaws (K : Type) `{NlLaws K} `{LinkKernel K} := {
  ll_table : K -> LinkTable;
  ll_admits : K -> LinkRequest -> Prop;
  ll_by_name : forall k name d,
    nl_admin k -> ll_table k !! name = Some d ->
    exists m rest e, nl_link_by_name k name = (m :: rest, e) /\ describes name d m;
  ll_dump : forall k name d,
    nl_admin k -> ll_table k !! name = Some d ->
    exists ms m, nl_links k = (ms, None)
      /\ List.find (fun l => String.eqb (link_name_or_empty l) name) ms = Some m /\ describes name d m;
  ll_by_index : forall k name d,
    nl_admin k -> ll_table k !! name = Some d ->
    exists m rest e, nl_link_by_index k (ld_index d) = (m :: rest, e) /\ describes name d m;
  ll_index_inj : forall k n n' d d',
    nl_admin k -> ll_table k !! n = Some d -> ll_table k !! n' = Some d' -> ld_index d = ld_index d' -> n = n';
  ll_add_taken : forall k r,
    nl_admin k -> is_Some (ll_table k !! request_name r) -> exists k' e, lk_add r k = (k', Err e) /\ is_eexist e = true
      /\ nl_admin k' /\ ll_table k' = ll_table k /\ (forall j, nl_addrs k' j = nl_addrs k j)
      /\ (forall r', ll_admits k r' -> ll_admits k' r');
  ll_add_new : forall k r,
    nl_admin k -> ll_admits k r -> ll_table k !! request_name r = None ->
    exists k' d, lk_add r k = (k', Ok tt) /\ nl_admin k' /\ created r d
      /\ ll_table k' = <[request_name r := d]> (ll_table k)
      /\ nl_addrs k' (ld_index d) = ([], None);
  ll_del : forall k name d,
    nl_admin k -> ll_table k !! name = Some d -> is_Some (ld_kind d) ->
    exists k', lk_del (ld_index d) k = (k', Ok tt) /\ nl_admin k' /\ ll_table k' = delete name (ll_table k)
      /\ (forall r, ll_admits k r -> ll_admits k' r);
  ll_set_mtu : forall k name d mtu,
    nl_admin k -> ll_table k !! name = Some d -> 68 <= mtu <= 65000 ->
    exists k', lk_set_mtu (ld_index d) mtu k = (k', Ok tt) /\ nl_admin k'
      /\ ll_table k' = <[name := set_dev_mtu mtu d]> (ll_table k) /\ (forall j, nl_addrs k' j = nl_addrs k j);
  ll_set_up : forall k name d,
    nl_admin k -> ll_table k !! name = Some d ->
    exists k', lk_set_up (ld_index d) k = (k', Ok tt) /\ nl_admin k'
      /\ ll_table k' = <[name := set_up d]> (ll_table k) /\ (forall j, nl_addrs k' j = nl_addrs k j);
  (** the requests on addresses leave the devices as they are *)
  ll_addr_add : forall idx ip plen, keeps ll_table (nl_addr_add idx ip plen);
  ll_addr_del : forall a, keeps ll_table (nl_addr_del a);
}.
#[global] Hint Extern 2 (keeps _ _) => first [apply ll_addr_add | apply ll_addr_del] : keeps.

(** [ensure_v4_address_on_link] changes addresses only. *)
Lemma keeps_ensure_v4 `{LinkLaws K} ipa ipn idx : keeps (K := K) ll_table (ensure_v4_address_on_link ipa ipn idx).
Proof.
  unfold ensure_v4_address_on_link. apply keeps_bind; [auto with keeps|]. intros k. apply keeps_bind; [auto with keeps|].
  intros name. apply keeps_bind; [auto with keeps|]. intros existing. apply keeps_bind.
  - generalize false as has. induction existing as [|a existing IH]; intros has; cbn [v4_loop]; [auto with keeps|].
    destruct (is_wanted _ _ a); [apply IH|]. destruct (is_stray _ _ _ a); [|apply IH]. apply keeps_bind; [auto with keeps|done].
  - intros has. destruct (negb has); auto with keeps.
Qed.

Lemma filter_all_true {A} (l : list A) : List.filter (fun _ => true) l = l.
Proof. induction l as [|a l IH]; [done|]. cbn. by rewrite IH. Qed.

Section LookupLemmas.
Context `{LinkLaws K}.

Lemma link_by_name_found (k : K) name d :
  nl_admin k -> ll_table k !! name = Some d -> exists m, link_by_name k name = Ok m /\ describes name d m.
Proof.
  intros Ha Hd. destruct (ll_by_name k name d Ha Hd) as (m & rest & e & Hm & Hdesc). exists m. split; [|done].
  unfold link_by_name. by rewrite Hm.
Qed.

Lemma get_link_by_name_found (k : K) name d :
  nl_admin k -> ll_table k !! name = Some d -> exists m, get_link_by_name k name = Ok m /\ describes name d m.
Proof.
  intros Ha Hd. destruct (ll_dump k name d Ha Hd) as (ms & m & Hms & Hf & Hdesc). exists m. split; [|done].
  unfold get_link_by_name, list_links, collect. rewrite Hms. cbn [snd fst map_err rbind].
  by rewrite filter_all_true, Hf.
Qed.

Lemma name_of_found (k : K) name d :
  nl_admin k -> ll_table k !! name = Some d -> name_of k (ld_index d) = Ok name.
Proof.
  intros Ha Hd. destruct (ll_by_index k name d Ha Hd) as (m & rest & e & Hm & Hdesc). unfold name_of. rewrite Hm. cbn.
  f_equal. apply Hdesc.
Qed.

Lemma get_link_mtu_found (k : K) name d :
  nl_admin k -> ll_table k !! name = Some d -> get_link_mtu k (ld_index d) = Ok (ld_mtu d).
Proof.
  intros Ha Hd. destruct (ll_by_index k name d Ha Hd) as (m & rest & e & Hm & Hdesc). unfold get_link_mtu. rewrite Hm. cbn.
  f_equal. apply Hdesc.
Qed.

(** Delete the device of a name, and create it anew *)
Lemma recreate_link (k : K) r d :
  nl_admin k -> ll_admits k r -> ll_table k !! request_name r = Some d -> is_Some (ld_kind d) ->
  exists k1 k2 d', lk_del (ld_index d) k = (k1, Ok tt) /\ lk_add r k1 = (k2, Ok tt) /\ nl_admin k2 /\ created r d'
    /\ ll_table k2 = <[request_name r := d']> (ll_table k) /\ nl_addrs k2 (ld_index d') = ([], None).
Proof.
  intros Ha Hr Hd Hk. destruct (ll_del k _ d Ha Hd Hk) as (k1 & Hdel & Ha1 & Ht1 & Hr1).
  destruct (ll_add_new k1 r Ha1 (Hr1 _ Hr)) as (k2 & d' & Hadd & Ha2 & Hc & Ht2 & Hl2); [by rewrite Ht1, lookup_delete_eq|].
  exists k1, k2, d'. split_and!; try done. by rewrite Ht2, Ht1, insert_delete_eq.
Qed.
End LookupLemmas.

(** ** A kernel of tables, for the witnesses *)

Record RawDev := mkRawDev {
  rd_index : Z;
  rd_kind : option InfoKind;
  rd_data : InfoData;
  rd_mac : bytes;
  rd_mtu : Z;
  rd_up : bool;
}.

(** The message of a device *)
Definition raw_message (name : string) (d : RawDev) : LinkMessage :=
  mkLinkMessage (rd_index d)
    [IfName name; Mtu (rd_mtu d); IflaAddress (rd_mac d);
     IflaInfo (match rd_kind d with Some kind => [LiKind kind; LiData (rd_data d)] | None => [] end)].

Definition raw_dev (d : RawDev) : LinkDev :=
  let m := raw_message "" d in
  mkLinkDev (rd_index d) (link_kind m) (iptun_local_remote m) (vxlan_info m) (link_mac m) (rd_mtu d) (rd_up d).

Record LinkNode := mkLinkNode {
  nd_devs : gmap string RawDev;
  nd_next : Z;
  nd_addrs : list AddressMessage;
}.

Definition node_table (n : LinkNode) : NlTable :=
  mkNlTable (map (fun p => raw_message p.1 p.2) (map_to_list (nd_devs n))) (nd_addrs n) [].

Definition with_addrs (n : LinkNode) (r : NlTable * result unit string) : LinkNode * result unit string :=
  (mkLinkNode (nd_devs n) (nd_next n) (nt_addrs r.1), r.2).

#[global] Instance LinkNode_nl : NlKernel LinkNode := {
  nl_links n := nl_links (node_table n);
  nl_link_by_index n i := nl_link_by_index (node_table n) i;
  nl_link_by_name n name :=
    match nd_devs n !! name with Some d => ([raw_message name d], None) | None => ([], Some "No such device") end;
  nl_addrs n i := nl_addrs (node_table n) i;
  nl_routes n := ([], None);
  nl_route_get n _ := ([], None);
  nl_addr_add i ip plen n := with_addrs n (nl_addr_add i ip plen (node_table n));
  nl_addr_del a n := with_addrs n (nl_addr_del a (node_table n));
  nl_route_add _ n := (n, Err "Operation not permitted");
}.

Definition raw_of (r : LinkRequest) (index : Z) : RawDev :=
  match r with
  | NewIpIp _ local => mkRawDev index (Some KIpIp) (IdIpTunnel [ItLocal (V4 local); ItRemote (V4 0)]) [] 1480 false
  | NewVxlan r =>
      mkRawDev index (Some KVxlan)
        (IdVxlan ([IvId (vr_id r); IvLink (default 0 (vr_dev r)); IvPort (default 8472 (vr_port r))]
                  ++ match vr_local r with Some (V4 ip) => [IvLocal ip] | Some (V6 ip) => [IvLocal6 ip] | None => [] end
                  ++ (if vr_gbp r then [IvGbp] else [])))
        (vr_address r) (default 1500 (vr_mtu r)) false
  | NewWireguard _ mtu => mkRawDev index (Some KWireguard) IdOther [] (default 1420 mtu) false
  end.

Definition on_index (n : LinkNode) (i : Z) (f : option RawDev -> option RawDev) : LinkNode * result unit NlError :=
  match List.find (fun p => rd_index p.2 =? i) (map_to_list (nd_devs n)) with
  | Some (name, d) => (mkLinkNode (partial_alter f name (nd_devs n)) (nd_next n) (nd_addrs n), Ok tt)
  | None => (n, Err (mkNlError (Some (-19)) "No such device"))
  end.

#[global] Instance LinkNode_links : LinkKernel LinkNode := {
  lk_add r n :=
    if is_some (nd_devs n !! request_name r) then (n, Err (mkNlError (Some EEXIST_CODE) "File exists"))
    else (mkLinkNode (<[request_name r := raw_of r (nd_next n)]> (nd_devs n)) (nd_next n + 1) (nd_addrs n), Ok tt);
  lk_del i n := on_index n i (fun _ => None);
  lk_set_mtu i mtu n := on_index n i (option_map (fun d => mkRawDev (rd_index d) (rd_kind d) (rd_data d) (rd_mac d) mtu (rd_up d)));
  lk_set_up i n := on_index n i (option_map (fun d => mkRawDev (rd_index d) (rd_kind d) (rd_data d) (rd_mac d) (rd_mtu d) true));
}.

Definition devs_sane (n : LinkNode) : Prop :=
  (forall a b x y, nd_devs n !! a = Some x -> nd_devs n !! b = Some y -> rd_index x = rd_index y -> a = b)
  /\ (forall a x, nd_devs n !! a = Some x -> rd_index x < nd_next n)
  /\ Forall (fun a => am_index a < nd_next n) (nd_addrs n).

Definition node_sane (n : LinkNode) : Prop := table_sane (node_table n) /\ devs_sane n.

Lemma raw_describes name d : describes name (raw_dev d) (raw_message name d).
Proof. unfold describes, raw_dev. repeat split. Qed.

Lemma find_dev n name d :
  devs_sane n -> nd_devs n !! name = Some d ->
  List.find (fun p => rd_index p.2 =? rd_index d) (map_to_list (nd_devs n)) = Some (name, d).
Proof.
  intros (Hinj & _ & _) Hd. destruct (List.find _ _) as [[a x]|] eqn:E.
  - apply find_some in E as [Hin%list_elem_of_In%elem_of_map_to_list Hi%Z.eqb_eq]. cbn in Hi.
    assert (a = name) as -> by (by eapply Hinj). congruence.
  - eapply find_none in E; [|apply list_elem_of_In, elem_of_map_to_list; exact Hd]. cbn in E. by rewrite Z.eqb_refl in E.
Qed.

Lemma on_index_found n name d f :
  devs_sane n -> nd_devs n !! name = Some d ->
  on_index n (rd_index d) f = (mkLinkNode (partial_alter f name (nd_devs n)) (nd_next n) (nd_addrs n), Ok tt).
Proof. intros Hs Hd. unfold on_index. by rewrite (find_dev n name d). Qed.

Lemma by_index_found n name d :
  devs_sane n -> nd_devs n !! name = Some d ->
  exists rest, nl_link_by_index n (rd_index d) = (raw_message name d :: rest, None).
Proof.
  intros Hs Hd. pose proof (find_dev n name d Hs Hd) as Hf. revert Hf. cbn [nl_link_by_index LinkNode_nl NlTable_kernel node_table nt_links].
  induction (map_to_list (nd_devs n)) as [|[a x] l IH]; [done|]. cbn [List.find map List.filter fst snd raw_message lm_index].
  change (lm_index (raw_message a x)) with (rd_index x). destruct (rd_index x =? rd_index d).
  - intros [= -> ->]. by eexists.
  - intros Hf. apply IH in Hf as (rest & Hr). exists rest. exact Hr.
Qed.

Lemma table_find n name d :
  nd_devs n !! name = Some d ->
  List.find (fun l => String.eqb (link_name_or_empty l) name) (map (fun p => raw_message p.1 p.2) (map_to_list (nd_devs n)))
  = Some (raw_message name d).
Proof.
  intros Hd. destruct (List.find _ _) as [m|] eqn:E.
  - apply find_some in E as [Hin Hn%String.eqb_eq]. apply in_map_iff in Hin as ([a x] & <- & Hin).
    apply list_elem_of_In, elem_of_map_to_list in Hin. cbn in Hn. cbn [fst snd] in *. subst a. congruence.
  - eapply find_none in E; [|apply in_map_iff; exists (name, d); split; [done|apply list_elem_of_In, elem_of_map_to_list; exact Hd]].
    cbn in E. by rewrite String.eqb_refl in E.
Qed.

#[global] Program Instance LinkNode_laws : NlLaws LinkNode := { nl_admin := node_sane }.
Next Obligation. intros k idx l [Ht _]. by apply (nl_addrs_nodup (node_table k)). Qed.
Next Obligation. intros k idx l a ip [Ht _]. by apply (nl_addrs_family (node_table k)). Qed.
Next Obligation.
  intros k idx l a [Ht (Hi & Hn & Ha)] Hl Hin Hp.
  destruct (@nl_del_effect NlTable NlTable_kernel NlTable_laws (node_table k) idx l a Ht Hl Hin Hp) as (t & Hd & Ht' & Hl' & Hlk).
  cbn [nl_addr_del LinkNode_nl]. rewrite Hd. injection Hd as <-. eexists. split; [done|]. split_and!; try done.
  split; [exact Ht'|]. split_and!; [done..|]. cbn. rewrite List.Forall_forall in *. intros b Hb.
  apply filter_In in Hb as [Hb _]. by apply Ha.
Qed.
Next Obligation.
  intros k idx l ip plen [Ht (Hi & Hn & Ha)] Hl Hname Htk Hp.
  destruct (@nl_add_effect NlTable NlTable_kernel NlTable_laws (node_table k) idx l ip plen Ht Hl Hname Htk Hp) as (t & m & l' & Hd & Ht' & Hl' & Hperm & H1 & H2 & H3 & Hlk).
  cbn [nl_addr_add LinkNode_nl]. rewrite Hd. unfold nl_addr_add, NlTable_kernel in Hd. injection Hl as <-. cbn [node_table nt_addrs nt_links nt_routes] in Hd, Htk. rewrite Htk in Hd. injection Hd as <-.
  eexists _, m, l'. split; [done|]. split_and!; try done. split; [exact Ht'|]. split_and!; [done..|].
  cbn. apply Forall_app. split; [done|]. repeat constructor. cbn [am_index].
  unfold name_of, nl_link_by_index, LinkNode_nl, nl_link_by_index, NlTable_kernel in Hname. cbn [node_table nt_links] in Hname.
  destruct (List.filter _ _) as [|m0 ms] eqn:E; [done|].
  assert (In m0 (m0 :: ms)) as Hm0 by (by left). rewrite <- E in Hm0. apply filter_In in Hm0 as [Hm0 Hi0%Z.eqb_eq].
  apply in_map_iff in Hm0 as ([a x] & <- & Hax). apply list_elem_of_In, elem_of_map_to_list in Hax. apply Hn in Hax. cbn in Hi0, Hax. lia.
Qed.
Next Obligation. intros k k' r rs _ _ _ Hr. discriminate Hr. Qed.

(** A state whose devices are those of [n] but for one *)
Lemma sane_alter n name d d' :
  node_sane n -> nd_devs n !! name = Some d -> rd_index d' = rd_index d ->
  node_sane (mkLinkNode (<[name := d']> (nd_devs n)) (nd_next n) (nd_addrs n)).
Proof.
  intros [Ht (Hi & Hn & Ha)] Hd Hx. split; [exact Ht|]. split_and!; [| |done]; cbn [nd_devs].
  - intros a b x y. rewrite !lookup_insert. repeat case_decide; subst; intros; simplify_eq; try done.
    + eapply Hi; [exact Hd|done|congruence].
    + eapply Hi; [done|exact Hd|congruence].
    + by eapply Hi.
  - intros a x. rewrite lookup_insert. case_decide; intros; simplify_eq; [rewrite Hx|]; by eapply Hn.
Qed.

Lemma created_raw r i : (forall v, r = NewVxlan v -> length (vr_address v) = 6%nat) -> created r (raw_dev (raw_of r i)).
Proof.
  intros Hm. split; [by destruct r|]. destruct r as [name local|v|name mtu]; cbn [created raw_of].
  - done.
  - specialize (Hm v eq_refl). split_and!; [done| | |].
    + unfold raw_dev, link_mac. cbn [raw_message lm_attributes find_map rd_mac ld_mac]. by rewrite Hm.
    + by destruct (vr_mtu v).
    + eexists. split; [reflexivity|]. destruct v as [nm id lr dv lc pt gb ad mt]; cbn. by destruct lc as [[]|], gb, pt.
  - split_and!; [done..|]. by destruct mtu.
Qed.

Lemma table_some n name d :
  (raw_dev <$> nd_devs n) !! name = Some d -> exists x, nd_devs n !! name = Some x /\ d = raw_dev x.
Proof. rewrite lookup_fmap. intros (x & -> & Hx)%fmap_Some. eauto. Qed.

#[global] Program Instance LinkNode_link_laws : LinkLaws LinkNode := {
  ll_table n := raw_dev <$> nd_devs n;
  ll_admits _ r := forall v, r = NewVxlan v -> length (vr_address v) = 6%nat;
}.
Next Obligation.
  intros k name d _ (x & Hx & ->)%table_some. exists (raw_message name x), [], None. split; [|apply raw_describes].
  cbn [nl_link_by_name LinkNode_nl]. by rewrite Hx.
Qed.
Next Obligation.
  intros k name d _ (x & Hx & ->)%table_some. eexists _, (raw_message name x). split; [done|].
  split; [by apply table_find|apply raw_describes].
Qed.
Next Obligation.
  intros k name d [_ Hs] (x & Hx & ->)%table_some. destruct (by_index_found k name x Hs Hx) as (rest & Hr).
  exists (raw_message name x), rest, None. split; [exact Hr|apply raw_describes].
Qed.
Next Obligation.
  intros k n n' d d' [_ (Hi & _)] (x & Hx & ->)%table_some (y & Hy & ->)%table_some He. by eapply Hi.
Qed.
Next Obligation.
  intros k r Hs [d (x & Hx & ->)%table_some]. exists k. eexists. cbn [lk_add LinkNode_links]. rewrite Hx. done.
Qed.
Next Obligation.
  intros k r [Ht (Hi & Hn & Ha)] Hr Hd. rewrite lookup_fmap in Hd. apply fmap_None in Hd.
  eexists _, (raw_dev (raw_of r (nd_next k))). cbn [lk_add LinkNode_links]. rewrite Hd. cbn [is_some].
  assert (rd_index (raw_of r (nd_next k)) = nd_next k) as Hidx by (by destruct r).
  split; [done|]. split_and!.
  - split; [exact Ht|]. split_and!; cbn [nd_devs nd_next nd_addrs].
    + intros a b x y. rewrite !lookup_insert. repeat case_decide; subst; intros Hx Hy He; simplify_eq; try done.
      * apply Hn in Hy. lia.
      * apply Hn in Hx. lia.
      * by eapply Hi.
    + intros a x. rewrite lookup_insert. case_decide; intros Hx; simplify_eq; [lia|]. apply Hn in Hx. lia.
    + eapply Forall_impl; [|exact Ha]. cbn. lia.
  - by apply created_raw.
  - by cbn [nd_devs]; rewrite fmap_insert.
  - change (ld_index (raw_dev (raw_of r (nd_next k)))) with (rd_index (raw_of r (nd_next k))). rewrite Hidx.
    cbn [nl_addrs LinkNode_nl NlTable_kernel node_table nt_addrs]. f_equal. unfold addrs_of. cbn [nd_addrs].
    clear -Ha. induction Ha as [|a l Ha _ IH]; [done|]. cbn. by rewrite (proj2 (Z.eqb_neq _ _)) by lia.
Qed.
Next Obligation.
  intros k name d Hs (x & Hx & ->)%table_some Hk. destruct Hs as [Ht Hd]. eexists. cbn [lk_del LinkNode_links].
  rewrite (on_index_found k name x _ Hd Hx). split; [done|]. destruct Hd as (Hi & Hn & Ha). split_and!; [|cbn [nd_devs]; by rewrite <- fmap_delete|done].
  split; [exact Ht|]. split_and!; [| |done]; cbn [nd_devs]; change (partial_alter (fun _ => None) name (nd_devs k)) with (delete name (nd_devs k)).
  - intros a b y z [_ Hy]%lookup_delete_Some [_ Hz]%lookup_delete_Some. by eapply Hi.
  - intros a y [_ Hy]%lookup_delete_Some. by eapply Hn.
Qed.
Next Obligation.
  intros k name d mtu Hs (x & Hx & ->)%table_some _. eexists. cbn [lk_set_mtu LinkNode_links].
  rewrite (on_index_found k name x _ (proj2 Hs) Hx). split; [done|].
  rewrite (partial_alter_ext _ (fun _ => Some (mkRawDev (rd_index x) (rd_kind x) (rd_data x) (rd_mac x) mtu (rd_up x))) (nd_devs k) name)
    by (intros ? <-; by rewrite Hx).
  change (partial_alter (fun _ => Some ?y) name (nd_devs k)) with (<[name := y]> (nd_devs k)).
  split_and!; [by eapply sane_alter|by cbn [nd_devs]; rewrite fmap_insert|done].
Qed.
Next Obligation.
  intros k name d Hs (x & Hx & ->)%table_some. eexists. cbn [lk_set_up LinkNode_links].
  rewrite (on_index_found k name x _ (proj2 Hs) Hx). split; [done|].
  rewrite (partial_alter_ext _ (fun _ => Some (mkRawDev (rd_index x) (rd_kind x) (rd_data x) (rd_mac x) (rd_mtu x) true)) (nd_devs k) name)
    by (intros ? <-; by rewrite Hx).
  change (partial_alter (fun _ => Some ?y) name (nd_devs k)) with (<[name := y]> (nd_devs k)).
  split_and!; [by eapply sane_alter|by cbn [nd_devs]; rewrite fmap_insert|done].
Qed.
Next Obligation. done. Qed.
Next Obligation. done. Qed.
