(* ===== verification/Ipip.v ===== *)
(** * [backend/ipip.rs]: the ipip backend

    The tunnel device [flannel.ipip], its MTU and address, and the routes
    through it.  Devices are [Links], addresses [Iface], registration
    [Backend]. *)

From S2P Require Import Prelude RustStr StdNet IpNet Ip6Net Lease Config Anyhow RouteNetwork Iface Cni Backend Links.
#[local] Open Scope string_scope.
#[local] Open Scope list_scope.
#[local] Open Scope Z_scope.

Definition IPIP_BACKEND_TYPE : string := "ipip".
Definition TUNNEL_NAME : string := "flannel.ipip".

(** The derived [Deserialize] of [IPIPBackendConfig] *)
Definition ipip_config_of_text (t : JsonText) : option bool :=
  let as_bool v := match v with VBool b => Some b | _ => None end in
  match t with
  | TObject ms => field_of as_bool false (members_of "DirectRouting" ms)
  | TArray vs => if (length vs <=? 1)%nat then field_of as_bool false vs else None
  | TOther => None
  end.

Definition ipip_decode_error (e : string) : anyhow := ["error decoding IPIP backend config: " +:+ e].

Definition parse_ipip_config `{CniJson} (backend : option string) : result bool anyhow :=
  match backend with
  | Some raw =>
      let? t := map_err ipip_decode_error (cj_text raw) in
      ok_or (ipip_config_of_text t) (ipip_decode_error (cj_invalid "IPIPBackendConfig" raw))
  | None => Ok false
  end.

Definition expected_tunnel_mtu (ext_mtu : Z) (iface_name : string) : result Z anyhow :=
  if ext_mtu <=? 20
  then Err ["MTU " +:+ fmt_dec ext_mtu +:+ " of iface " +:+ iface_name +:+ " is too small for ipip mode to work"]
  else Ok (ext_mtu - 20).

Definition should_apply_mtu (old_mtu expect_mtu : Z) : bool := (expect_mtu <? old_mtu) || (old_mtu =? 0).

Section Ipip.
Context `{SubnetManager K} `{NlKernel K} `{LinkKernel K}.

(** [direct_routing] of [ip/iface/query.rs] over rtnetlink: exactly one
    route, without a gateway *)
Definition nl_direct_routing (k : K) (ip : IpAddr) : result bool string :=
  let? routes := map_err (fun e => "couldn't lookup route to " +:+ ip_fmt ip +:+ ": " +:+ e) (query_route_get k ip) in
  Ok match routes with [r] => negb (is_some (route_gateway r)) | _ => false end.

Definition ipip_get_route (is_direct_routing : bool) (tunnel_index ext_index : Z) (k : K) (lease : Lease) : RouteSpec :=
  let spec link_index :=
    mkRouteSpec (V4 (ip4n_ip (l_subnet lease))) (wrap 8 (ip4n_plen (l_subnet lease)))
      (V4 (la_public_ip (l_attrs lease))) link_index Inet true in
  if negb is_direct_routing then spec tunnel_index
  else match nl_direct_routing k (V4 (la_public_ip (l_attrs lease))) with
       | Ok true => spec ext_index
       | Ok false | Err _ => spec tunnel_index
       end.

Definition nl_text (prefix : string) (e : NlError) : anyhow := [prefix +:+ ne_text e].

Definition not_ipip : string := TUNNEL_NAME +:+ " isn't an ipip mode device, please remove device and try again".

(** The first part of [configure_ipip_device]: the device exists with the
    local address [local] and no remote one. *)
Definition ensure_ipip_link (local : IP4) : io K anyhow unit := fun k =>
  match lk_add (NewIpIp TUNNEL_NAME local) k with
  | (k, Ok _) => (k, Ok tt)
  | (k, Err e) =>
      if negb (is_eexist e) then (k, Err [ne_text e])
      else
        (let! existing := io_lift (link_by_name k TUNNEL_NAME) in
         if negb (bool_decide (link_kind existing = Some KIpIp)) then io_err [not_ipip]
         else
           let '(tun_local, tun_remote) := iptun_local_remote existing in
           let bad_local := negb (bool_decide (tun_local = Some (V4 local))) in
           let bad_remote := match tun_remote with Some r => negb (is_unspecified r) | None => false end in
           if bad_local || bad_remote then
             let! _ := io_map_err (nl_text "failed to delete interface: ") (lk_del (lm_index existing)) in
             io_map_err (nl_text "failed to create ipip interface: ") (lk_add (NewIpIp TUNNEL_NAME local))
           else io_ret tt) k
  end.

(** The second part: the MTU is only lowered, or set when it is missing. *)
Definition apply_tunnel_mtu (link_index old_mtu expect_mtu : Z) : io K anyhow Z :=
  if should_apply_mtu old_mtu expect_mtu then
    let! _ := io_map_err (nl_text ("failed to set " +:+ TUNNEL_NAME +:+ " MTU to " +:+ fmt_dec expect_mtu +:+ ": "))
                (lk_set_mtu link_index expect_mtu) in
    io_ret expect_mtu
  else io_ret old_mtu.

Definition configure_ipip_device (ei : ExternalInterface) (lease : Lease) (flannelnet : IP4Net) : io K anyhow (Z * Z) :=
  let! local := io_lift (match ei_iface_addr ei with
                         | Some (V4 v4) => Ok v4
                         | _ => Err ["Address is not an IPv4 address"]
                         end) in
  let! _ := ensure_ipip_link local in
  let! k := io_get in
  let! link := io_lift (link_by_name k TUNNEL_NAME) in
  let link_index := lm_index link in
  let old_mtu := link_mtu link in
  let! ext_mtu := iface_mtu (ei_iface_index ei) in
  let! expect_mtu := io_lift (expected_tunnel_mtu ext_mtu (ei_iface_name ei)) in
  let! mtu := apply_tunnel_mtu link_index old_mtu expect_mtu in
  let ipa := mkIP4Net (ip4n_ip (l_subnet lease)) 32 in
  let! _ := io_map_err (fun e => ["failed to ensure address of interface " +:+ TUNNEL_NAME +:+ ": " +:+ e])
              (ensure_v4_address_on_link ipa flannelnet link_index) in
  let! _ := io_map_err (nl_text ("failed to set " +:+ TUNNEL_NAME +:+ " UP: ")) (lk_set_up link_index) in
  io_ret (link_index, mtu).

Definition ipip_register_network `{CniJson} (ei : ExternalInterface) (config : Config) : io K anyhow (RouteNetwork K) :=
  let! direct_routing := io_lift (parse_ipip_config (cfg_backend config)) in
  let! _ := sm_netlink in
  let! ip := io_lift (ext_addr_ip4 ei) in
  let! lease := acquire_registered (public_attrs ip None IPIP_BACKEND_TYPE) in
  let! (link_index, mtu) := configure_ipip_device ei lease (cfg_network config) in
  io_ret (mkRouteNetwork lease IPIP_BACKEND_TYPE mtu link_index
            (Some (ipip_get_route direct_routing link_index (ei_iface_index ei))) None).
End Ipip.

(** * Theorems *)

Section Device.
Context `{SubnetManager K} `{LinkLaws K}.

(** The device that the backend can use *)
Definition ipip_usable (local : IP4) (d : LinkDev) : Prop :=
  ld_kind d = Some KIpIp /\ (ld_tun d).1 = Some (V4 local) /\ from_option is_unspecified true (ld_tun d).2 = true.

(** A device of the name, if there is one, is an ipip device whose addresses
    are primary ones. *)
Definition ipip_or_none (k : K) : Prop :=
  forall d, ll_table k !! TUNNEL_NAME = Some d ->
    ld_kind d = Some KIpIp /\ exists l, nl_addrs k (ld_index d) = (l, None) /\ forallb is_primary l = true.

Lemma ensure_ipip_link_effect local (k : K) :
  nl_admin k -> ll_admits k (NewIpIp TUNNEL_NAME local) -> ipip_or_none k ->
  exists k' d l, ensure_ipip_link local k = (k', Ok tt) /\ nl_admin k' /\ ll_table k' = <[TUNNEL_NAME := d]> (ll_table k)
    /\ ipip_usable local d /\ nl_addrs k' (ld_index d) = (l, None) /\ forallb is_primary l = true.
Proof.
  intros Ha Hr Hn. set (r := NewIpIp TUNNEL_NAME local) in *. unfold ensure_ipip_link. fold r.
  destruct (ll_table k !! TUNNEL_NAME) as [d|] eqn:Ed.
  - destruct (Hn d Ed) as (Hk & l & Hl & Hp).
    destruct (ll_add_taken k r Ha) as (k1 & e & -> & -> & Ha1 & Ht1 & Hl1 & Hr1); [by exists d|]. cbn [negb].
    rewrite <- Ht1 in Ed. destruct (link_by_name_found k1 TUNNEL_NAME d Ha1 Ed) as (m & Hm & Hi & _ & _ & Hmk & Htun & _).
    unfold io_bind at 1, io_lift. rewrite Hm, Hmk, Hk, bool_decide_true by done. cbn [negb]. rewrite Htun.
    destruct (ld_tun d) as [tl tr] eqn:Et. destruct (_ || _) eqn:Hbad.
    + rewrite Hi. destruct (recreate_link k1 r d Ha1 (Hr1 _ Hr) Ed) as (k2 & k3 & d' & Hdel & Hadd & Ha3 & Hc & Ht3 & Hl3);
        [by rewrite Hk|].
      unfold io_bind, io_map_err. rewrite Hdel. cbn [map_err]. rewrite Hadd. exists k3, d', []. rewrite Ht1 in Ht3.
      destruct Hc as (_ & Hck & Hct & _). split_and!; try done. unfold ipip_usable. by rewrite Hck, Hct.
    + exists k1, d, l. apply orb_false_iff in Hbad as [Hb1 Hb2]. rewrite Hl1. split_and!; try done.
      * by rewrite <- Ht1, insert_id.
      * unfold ipip_usable. rewrite Et. cbn [fst snd]. apply negb_false_iff, bool_decide_eq_true in Hb1. split_and!; [done..|].
        destruct tr; cbn; [by apply negb_false_iff|done].
  - destruct (ll_add_new k r Ha Hr Ed) as (k1 & d & -> & Ha1 & (_ & Hck & Hct & _) & Ht1 & Hl1). exists k1, d, [].
    split_and!; try done. unfold ipip_usable. by rewrite Hck, Hct.
Qed.

Lemma apply_tunnel_mtu_effect local d expect (k : K) :
  nl_admin k -> ll_table k !! TUNNEL_NAME = Some d -> ipip_usable local d -> 68 <= expect <= 65000 ->
  exists k' d', apply_tunnel_mtu (ld_index d) (ld_mtu d) expect k = (k', Ok (ld_mtu d')) /\ nl_admin k'
    /\ ll_table k' = <[TUNNEL_NAME := d']> (ll_table k) /\ (forall j, nl_addrs k' j = nl_addrs k j)
    /\ ipip_usable local d' /\ ld_index d' = ld_index d /\ ld_mtu d' <> 0 /\ ld_mtu d' <= expect.
Proof.
  intros Ha Hd Hu He. unfold apply_tunnel_mtu, should_apply_mtu. destruct (_ || _) eqn:Hs.
  - destruct (ll_set_mtu k TUNNEL_NAME d expect Ha Hd He) as (k2 & Hset & Ha2 & Ht2 & Hl2).
    exists k2, (set_dev_mtu expect d). unfold io_bind, io_map_err. rewrite Hset. destruct d. split_and!; try done; cbn; lia.
  - apply orb_false_iff in Hs as [Hs1%Z.ltb_ge Hs2%Z.eqb_neq]. exists k, d. split_and!; try done. by rewrite insert_id.
Qed.

(** When the kernel admits the tunnel and no device of another kind has its
    name, [configure_ipip_device] succeeds: the device [flannel.ipip] is an
    ipip tunnel from the address of the external interface to any, kept or made
    anew, up, with an MTU at most 20 below that of the external interface, the
    one that is returned; it has the first address of the lease as a /32 and no
    other address of the network; no other device changed. *)
Theorem ipip_device_ready ei lease flannelnet local ext_name ext (k : K) :
  nl_admin k -> ei_iface_addr ei = Some (V4 local) -> ll_admits k (NewIpIp TUNNEL_NAME local) -> ipip_or_none k ->
  ll_table k !! ext_name = Some ext -> ei_iface_index ei = ld_index ext -> ext_name <> TUNNEL_NAME ->
  88 <= ld_mtu ext <= 65020 -> u32 (ip4n_ip (l_subnet lease)) ->
  let ipa := mkIP4Net (ip4n_ip (l_subnet lease)) 32 in
  exists k' d l,
    configure_ipip_device ei lease flannelnet k = (k', Ok (ld_index d, ld_mtu d))
    /\ ll_table k' = <[TUNNEL_NAME := d]> (ll_table k)
    /\ ipip_usable local d /\ ld_up d = true /\ ld_mtu d <> 0 /\ ld_mtu d <= ld_mtu ext - 20
    /\ nl_addrs k' (ld_index d) = (l, None) /\ existsb (wanted_on ipa) l = true
    /\ existsb (stray_on ipa flannelnet) l = false.
Proof.
  intros Ha Hei Hr Hn Hext Hidx Hne Hmtu Hip ipa.
  destruct (ensure_ipip_link_effect local k Ha Hr Hn) as (k1 & d & l & Hens & Ha1 & Ht1 & Hu & Hl & Hp).
  assert (ll_table k1 !! TUNNEL_NAME = Some d) as Hd by (by rewrite Ht1, lookup_insert_eq).
  assert (ll_table k1 !! ext_name = Some ext) as Hext1 by (by rewrite Ht1, lookup_insert_ne).
  destruct (link_by_name_found k1 TUNNEL_NAME d Ha1 Hd) as (m & Hm & Hi & _ & _ & _ & _ & _ & _ & Hmm).
  unfold configure_ipip_device. rewrite Hei. unfold io_bind at 1, io_lift at 1. unfold io_bind at 1. rewrite Hens.
  unfold io_bind at 1, io_get at 1. unfold io_bind at 1, io_lift at 1. rewrite Hm, Hi, Hmm.
  unfold io_bind at 1, iface_mtu, io_get at 1. unfold io_bind at 1, io_lift at 1. rewrite Hidx, (get_link_mtu_found k1 ext_name ext) by done.
  cbn [map_err]. unfold io_bind at 1, io_lift, expected_tunnel_mtu. rewrite (proj2 (Z.leb_gt _ _)) by lia.
  unfold io_bind at 1. destruct (apply_tunnel_mtu_effect local d (ld_mtu ext - 20) k1 Ha1 Hd Hu ltac:(lia))
    as (k2 & d2 & -> & Ha2 & Ht2 & Hl2 & Hu2 & Hi2 & Hm2 & Hm3).
  rewrite Ht1, insert_insert_eq in Ht2.
  assert (ll_table k2 !! TUNNEL_NAME = Some d2) as Hd2 by (by rewrite Ht2, lookup_insert_eq).
  unfold io_bind at 1. rewrite <- Hl2, <- Hi2 in Hl.
  destruct (ensure_v4_effect ipa flannelnet (ld_index d2) k2 l Ha2 Hl Hp) as (k3 & l3 & added & He & Ha3 & Hl3 & _ & _ & _ & Hw & Hst & _).
  { by rewrite (name_of_found k2 TUNNEL_NAME d2). }
  { split; [done|cbn; lia]. }
  pose proof (keeps_ensure_v4 ipa flannelnet (ld_index d2) k2) as Ht3. rewrite He in Ht3. cbn [fst] in Ht3.
  rewrite <- Hi2. unfold io_map_err at 1. fold ipa. rewrite He. cbn [map_err]. rewrite <- Ht3 in Hd2.
  destruct (ll_set_up k3 TUNNEL_NAME d2 Ha3 Hd2) as (k4 & Hup & Ha4 & Ht4 & Hl4).
  unfold io_bind, io_map_err. rewrite Hup. cbn [map_err]. exists k4, (set_up d2), l3.
  rewrite Ht3, Ht2, insert_insert_eq in Ht4. destruct d2 as [i kd tun vx mac mtu up]. cbn [set_up ld_index ld_mtu ld_up] in *.
  split_and!; try done. by rewrite Hl4.
Qed.

(** A device of another kind under the name is not touched. *)
Theorem ipip_foreign_device ei lease flannelnet local d (k : K) :
  nl_admin k -> ei_iface_addr ei = Some (V4 local) ->
  ll_table k !! TUNNEL_NAME = Some d -> ld_kind d <> Some KIpIp ->
  exists k', configure_ipip_device ei lease flannelnet k = (k', Err [not_ipip]) /\ ll_table k' = ll_table k.
Proof.
  intros Ha Hei Hd Hk. unfold configure_ipip_device. rewrite Hei. unfold io_bind at 1, io_lift at 1. unfold io_bind at 1, ensure_ipip_link.
  destruct (ll_add_taken k (NewIpIp TUNNEL_NAME local) Ha) as (k1 & e & -> & -> & Ha1 & Ht1 & _); [by exists d|]. cbn [negb].
  rewrite <- Ht1 in Hd. destruct (link_by_name_found k1 TUNNEL_NAME d Ha1 Hd) as (m & Hm & _ & _ & _ & Hmk & _).
  unfold io_bind at 1, io_lift. rewrite Hm, Hmk, bool_decide_false by done. by exists k1.
Qed.
End Device.

(** A node whose tunnel has the address of another interface *)
Definition ipip_node : LinkNode :=
  mkLinkNode
    (<["eth0" := mkRawDev 2 None IdOther [] 1500 true]>
       (<[TUNNEL_NAME := mkRawDev 7 (Some KIpIp) (IdIpTunnel [ItLocal (V4 (IP4_from_octets 192 168 9 9))]) [] 1480 true]> ∅))
    8 [mkAddressMessage 7 (Some Inet) 32 true false false [IfaLocal (V4 (IP4_from_octets 10 244 9 0))]].

Definition ipip_ei : ExternalInterface :=
  mkExternalInterface 2 "eth0" (Some (V4 (IP4_from_octets 192 168 0 7))) None (Some (V4 (IP4_from_octets 192 168 0 7))) None.

Definition ipip_lease : Lease :=
  mkLease true false (mkIP4Net (IP4_from_octets 10 244 3 0) 24) IP6Net_default LeaseAttrs_default 0 0.

Lemma ipip_node_devs a x :
  nd_devs ipip_node !! a = Some x ->
  a = "eth0" /\ x = mkRawDev 2 None IdOther [] 1500 true
  \/ a = TUNNEL_NAME /\ x = mkRawDev 7 (Some KIpIp) (IdIpTunnel [ItLocal (V4 (IP4_from_octets 192 168 9 9))]) [] 1480 true.
Proof.
  cbn [nd_devs ipip_node]. rewrite lookup_insert. case_decide; [intros [= <-]; left; done|].
  rewrite lookup_insert. case_decide; [intros [= <-]; right; done|]. by rewrite lookup_empty.
Qed.

Lemma ipip_node_sane : node_sane ipip_node.
Proof.
  split; [split|split_and!].
  - apply (bool_decide_unpack _); by vm_compute.
  - repeat constructor. cbn. by intros ip [= <-].
  - intros a b x y [[-> ->]|[-> ->]]%ipip_node_devs [[-> ->]|[-> ->]]%ipip_node_devs; done.
  - intros a x [[-> ->]|[-> ->]]%ipip_node_devs; done.
  - repeat constructor.
Qed.

Lemma ipip_device_ready_witness :
  exists k' d l,
    configure_ipip_device ipip_ei ipip_lease own_net ipip_node = (k', Ok (ld_index d, ld_mtu d))
    /\ ll_table k' = <[TUNNEL_NAME := d]> (ll_table ipip_node)
    /\ ipip_usable (IP4_from_octets 192 168 0 7) d /\ ld_up d = true /\ ld_mtu d <> 0 /\ ld_mtu d <= 1480
    /\ nl_addrs k' (ld_index d) = (l, None) /\ existsb (wanted_on (mkIP4Net (IP4_from_octets 10 244 3 0) 32)) l = true
    /\ existsb (stray_on (mkIP4Net (IP4_from_octets 10 244 3 0) 32) own_net) l = false.
Proof.
  refine (ipip_device_ready ipip_ei ipip_lease own_net (IP4_from_octets 192 168 0 7) "eth0"
            (raw_dev (mkRawDev 2 None IdOther [] 1500 true)) ipip_node _ _ _ _ _ _ _ _ _).
  - exact ipip_node_sane.
  - reflexivity.
  - discriminate.
  - intros d (x & Hx & ->)%table_some. apply ipip_node_devs in Hx as [[? _]|[_ ->]]; [done|]. split; [done|]. by eexists.
  - reflexivity.
  - reflexivity.
  - discriminate.
  - cbn. lia.
  - by vm_compute.
Defined.
