(* ===== verification/VxlanDevice.v ===== *)
(** * [backend/vxlan/device.rs], [mod.rs], [network.rs]: the VXLAN device

    Creation and reuse of the device, its configuration, the registration of
    the network, the run loop with the device watcher, and the re-creation of
    a deleted device.  Devices are [Links], addresses [Iface]; random MACs,
    the sysctl and the sleep are the interface [VxlanSystem]. *)

From S2P Require Import Prelude RustStr StdNet IpNet Ip6Net Lease Config Anyhow RouteNetwork VxlanConf Vxlan Iface Backend Links.
#[local] Open Scope string_scope.
#[local] Open Scope list_scope.
#[local] Open Scope Z_scope.

Record VXLANAttrs := mkVXLANAttrs {
  va_name : string;
  va_vni : Z;
  va_mtu : Z;
  va_vtep_index : Z;
  va_vtep_addr : option IpAddr;
  va_port : Z;
  va_gbp : bool;
  va_learning : bool;
  va_hw_addr : option MacAddr;
}.

(** [uuid::Uuid::new_v4], of which the first six bytes are used; writing the
    sysctl [accept_ra] of a device, errors ignored; [tokio::time::sleep] *)
Class VxlanSystem (K : Type) := {
  vs_random : K -> K * bytes;
  vs_accept_ra_off : string -> K -> K;
  vs_sleep : Z -> K -> K;
}.

Definition positive (c : bool) (v : Z) : option Z := if c then Some v else None.

Definition build_vxlan_link (attrs : VXLANAttrs) (hw_addr : MacAddr) : LinkRequest :=
  let mtu := va_mtu attrs - ENCAP_OVERHEAD in
  NewVxlan (mkVxlanRequest (va_name attrs) (va_vni attrs) (va_learning attrs)
              (positive (0 <? va_vtep_index attrs) (va_vtep_index attrs)) (va_vtep_addr attrs)
              (positive (0 <? va_port attrs) (wrap 16 (va_port attrs))) (va_gbp attrs) hw_addr
              (positive (0 <? mtu) mtu)).

(** The first mismatch *)
Definition vxlan_links_incompat (attrs : VXLANAttrs) (existing : LinkMessage) : result unit string :=
  match vxlan_info existing with
  | None =>
      Err ("link type: vxlan vs " +:+ match link_kind existing with Some k => InfoKind_fmt k | None => "unknown" end)
  | Some v2 =>
      if negb (va_vni attrs =? vi_vni v2) then
        Err ("vni: " +:+ fmt_dec (va_vni attrs) +:+ " vs " +:+ fmt_dec (vi_vni v2))
      else if (0 <? va_vtep_index attrs) && (0 <? vi_vtep_index v2) && negb (va_vtep_index attrs =? vi_vtep_index v2) then
        Err ("vtep (external) interface: " +:+ fmt_dec (va_vtep_index attrs) +:+ " vs " +:+ fmt_dec (vi_vtep_index v2))
      else
        let bad_addr := match va_vtep_addr attrs, vi_vtep_addr v2 with
                        | Some a, Some b => if bool_decide (a = b) then None else Some (a, b)
                        | _, _ => None
                        end in
        match bad_addr with
        | Some (a, b) => Err ("vtep (external) IP: " +:+ ip_fmt a +:+ " vs " +:+ ip_fmt b)
        | None =>
            if vi_l2miss v2 then Err "l2miss: false vs true"
            else if (0 <? va_port attrs) && (0 <? vi_port v2) && negb (va_port attrs =? vi_port v2) then
              Err ("port: " +:+ fmt_dec (va_port attrs) +:+ " vs " +:+ fmt_dec (vi_port v2))
            else if negb (Bool.eqb (va_gbp attrs) (vi_gbp v2)) then
              Err ("gbp: " +:+ fmt_bool (va_gbp attrs) +:+ " vs " +:+ fmt_bool (vi_gbp v2))
            else Ok tt
        end
  end.

Section Device.
Context `{NlKernel K} `{LinkKernel K} `{VxlanSystem K}.

Definition nl_failed (prefix : string) (e : NlError) : anyhow := [prefix +:+ ne_text e].

Definition locate_created (name : string) : io K anyhow LinkMessage := fun k =>
  (k, let? link := map_err (fun e => ["can't locate created vxlan device with index 0: " +:+ fmt_anyhow e])
                     (get_link_by_name k name) in
      match vxlan_info link with
      | None => Err ["created vxlan device with index " +:+ fmt_dec (lm_index link) +:+ " is not vxlan"]
      | Some _ => Ok link
      end).

Definition ensure_link (attrs : VXLANAttrs) (hw_addr : MacAddr) : io K anyhow LinkMessage := fun k =>
  let msg := build_vxlan_link attrs hw_addr in
  match lk_add msg k with
  | (k, Ok _) => locate_created (va_name attrs) k
  | (k, Err e) =>
      if negb (is_eexist e) then (k, Err [ne_text e])
      else
        (let! existing := io_lift (get_link_by_name k (va_name attrs)) in
         match vxlan_links_incompat attrs existing with
         | Ok _ => io_ret existing
         | Err _ =>
             let! _ := io_map_err (nl_failed "failed to delete interface: ") (lk_del (lm_index existing)) in
             let! _ := io_map_err (nl_failed "failed to create vxlan interface: ") (lk_add msg) in
             locate_created (va_name attrs)
         end) k
  end.

Definition new_vxlan_device (attrs : VXLANAttrs) : io K anyhow VXLANDevice := fun k =>
  let '(k, hw_addr) :=
    match va_hw_addr attrs with
    | Some m => (k, m)
    | None => let '(k, random) := vs_random k in (k, new_hardware_addr random)
    end in
  (let! link := ensure_link attrs hw_addr in
   fun k => (vs_accept_ra_off (va_name attrs) k,
             Ok (mkVXLANDevice (va_name attrs) (lm_index link) (link_mtu link) (default hw_addr (link_mac link)) false))) k.

Definition set_link_up (dev : VXLANDevice) : io K anyhow unit :=
  io_map_err (fun e => ["failed to set interface " +:+ vd_name dev +:+ " to UP state: " +:+ ne_text e]) (lk_set_up (vd_ifindex dev)).

(** Lookup errors and links that are no vxlan are ignored. *)
Definition check_mac (dev : VXLANDevice) (label : string) : io K anyhow unit := fun k =>
  (k, match get_link_by_name k (vd_name dev) with
      | Ok link =>
          match vxlan_info link, link_mac link with
          | Some _, Some mac =>
              if bool_decide (mac = vd_mac dev) then Ok tt
              else Err [vd_name dev +:+ "'s " +:+ label +:+ "mac address wanted: " +:+ mac_to_string (vd_mac dev)
                        +:+ ", but got: " +:+ mac_to_string mac]
          | _, _ => Ok tt
          end
      | Err _ => Ok tt
      end).

Definition configure_device_v4 (dev : VXLANDevice) (ipa flannelnet : IP4Net) : io K anyhow unit :=
  let! _ := io_map_err (fun e => ["failed to ensure address of interface " +:+ vd_name dev +:+ ": " +:+ e])
              (ensure_v4_address_on_link ipa flannelnet (vd_ifindex dev)) in
  let! _ := set_link_up dev in
  check_mac dev "".

Definition configure_device_v6 (dev : VXLANDevice) (ipn flannelnet : IP6Net) : io K anyhow unit :=
  let! _ := io_map_err (fun e => ["failed to ensure v6 address of interface " +:+ vd_name dev +:+ ": " +:+ e])
              (ensure_v6_address_on_link ipn flannelnet (vd_ifindex dev)) in
  let! _ := io_map_err (fun e => ["failed to set v6 interface " +:+ vd_name dev +:+ " to UP state: " +:+ fmt_anyhow e])
              (set_link_up dev) in
  check_mac dev "v6 ".

(** ** [mod.rs] *)

Definition configure_failed (dev : VXLANDevice) (e : anyhow) : anyhow :=
  ["failed to configure interface " +:+ vd_name dev +:+ ": " +:+ fmt_anyhow e].

Definition configure_ipv4 (dev : option VXLANDevice) (lease : Lease) (config : Config) : io K anyhow unit :=
  match dev with
  | None => io_err ["failed to configure interface: IPv4 is enabled but no vxlan device"]
  | Some dev =>
      if IP4Net_empty (l_subnet lease) then
        io_err ["failed to configure interface " +:+ vd_name dev +:+ ": IPv4 is enabled but the lease has no IPv4"]
      else io_map_err (configure_failed dev)
             (configure_device_v4 dev (mkIP4Net (ip4n_ip (l_subnet lease)) 32) (cfg_network config))
  end.

Definition configure_ipv6 (v6_dev : option VXLANDevice) (lease : Lease) (config : Config) : io K anyhow unit :=
  match v6_dev with
  | None => io_err ["failed to configure interface: IPv6 is enabled but no vxlan device"]
  | Some dev =>
      if IP6Net_empty (l_ipv6_subnet lease) then
        io_err ["failed to configure interface " +:+ vd_name dev +:+ ": IPv6 is enabled but the lease has no IPv6"]
      else io_map_err (configure_failed dev)
             (configure_device_v6 dev (mkIP6Net (ip6n_ip (l_ipv6_subnet lease)) 128) (cfg_ipv6_network config))
  end.

Definition configure_device_ipv4_ipv6 (dev v6_dev : option VXLANDevice) (lease : Lease) (config : Config) : io K anyhow unit :=
  let! _ := (if cfg_enable_ipv4 config then configure_ipv4 dev lease config else io_ret tt) in
  if cfg_enable_ipv6 config then configure_ipv6 v6_dev lease config else io_ret tt.

Context `{SubnetManager K} `{SerdeJson} `{VxlanJson}.

(** A stored MAC that does not parse counts as none. *)
Definition stored_mac (s : string) : option MacAddr := if str_is_empty s then None else result_ok (parse_mac s).

Definition vxlan_attrs (name : string) (cfg : VXLANConfig) (ext_index : Z) (addr : option IpAddr) (mac : string) : VXLANAttrs :=
  mkVXLANAttrs (name +:+ fmt_dec (vc_vni cfg)) (vc_vni cfg) (vc_mtu cfg) ext_index addr (vc_port cfg) (vc_gbp cfg)
    (vc_learning cfg) (stored_mac mac).

Definition create_family_device (enabled : bool) (cfg : VXLANConfig) (attrs : VXLANAttrs) : io K anyhow (option VXLANDevice) :=
  if enabled then
    let! d := new_vxlan_device attrs in
    io_ret (Some (mkVXLANDevice (vd_name d) (vd_ifindex d) (vd_mtu d) (vd_mac d) (vc_direct_routing cfg)))
  else io_ret None.

Definition create_vxlan_device (config : Config) (cfg : VXLANConfig) (ext_index : Z) (ext_addr ext_v6_addr : option IpAddr)
  : io K anyhow (option VXLANDevice * option VXLANDevice) := fun k =>
  let '(k, (mac, mac_v6)) := sm_stored_macs k in
  (let! dev := create_family_device (cfg_enable_ipv4 config) cfg (vxlan_attrs "flannel." cfg ext_index ext_addr mac) in
   let! v6_dev := create_family_device (cfg_enable_ipv6 config) cfg (vxlan_attrs "flannel-v6." cfg ext_index ext_v6_addr mac_v6) in
   io_ret (dev, v6_dev)) k.

(** The step of [register_network] that failed *)
Inductive VxlanSetupError :=
| VsMessage (e : anyhow)
| VsConfig (e : VxlanConfigError).

Record VXLANNetwork := mkVXLANNetwork { vn_ei : ExternalInterface; vn_lease : Lease; vn_state : NetState }.

Definition vxlan_register_network (ei : ExternalInterface) (config : Config) : io K VxlanSetupError VXLANNetwork :=
  let! _ := io_map_err VsMessage sm_netlink in
  let! ext_mtu := io_map_err VsMessage (iface_mtu (ei_iface_index ei)) in
  let! cfg := io_lift (map_err VsConfig (parse_vxlan_config (cfg_backend config) ext_mtu)) in
  let! (dev, v6_dev) := io_map_err (fun e => VsMessage ["failed to create vxlan device: " +:+ fmt_anyhow e])
                          (create_vxlan_device config cfg (ei_iface_index ei) (ei_ext_addr ei) (ei_ext_v6_addr ei)) in
  let! attrs := io_lift (map_err (fun e => VsMessage [e])
                           (new_subnet_attrs (ei_ext_addr ei) (ei_ext_v6_addr ei) (vc_vni cfg) dev v6_dev)) in
  let! lease := io_map_err VsMessage (acquire_registered attrs) in
  let! _ := io_map_err VsMessage (configure_device_ipv4_ipv6 dev v6_dev lease config) in
  io_ret (mkVXLANNetwork ei lease (mkNetState dev v6_dev (vc_mtu cfg))).

(** ** [network.rs] *)

Definition MAX_BACKOFF : Z := 30.

Definition next_backoff (backoff : Z) : Z := Z.min (backoff * 2) MAX_BACKOFF.

(** One round of [recreate_vxlan] after the cancellation check: [None] when a
    step failed and the round is tried again. *)
Definition first_addr (enabled : bool) (addrs : result (list IpAddr) string) : option (option IpAddr) :=
  if enabled then
    match addrs with Ok (a :: _) => Some (Some a) | _ => None end
  else Some None.

Definition recreate_round (ei : ExternalInterface) (lease : Lease) (st : NetState) (k : K) : K * option NetState :=
  match sm_netlink k with
  | (k, Err _) => (k, None)
  | (k, Ok _) =>
      match get_interface_by_name k (ei_iface_name ei) with
      | Err _ => (k, None)
      | Ok iface =>
          match sm_network_config k with
          | (k, Err _) => (k, None)
          | (k, Ok config) =>
              let ext_mtu := default 0 (result_ok (get_link_mtu k (ni_index iface))) in
              match parse_vxlan_config (cfg_backend config) ext_mtu with
              | Err _ => (k, None)
              | Ok cfg =>
                  match first_addr (cfg_enable_ipv4 config) (get_iface_ip4_addrs k iface),
                        first_addr (cfg_enable_ipv6 config) (get_iface_ip6_addrs k iface) with
                  | Some addr, Some v6_addr =>
                      match create_vxlan_device config cfg (ni_index iface) addr v6_addr k with
                      | (k, Err _) => (k, None)
                      | (k, Ok (dev, v6_dev)) =>
                          match configure_device_ipv4_ipv6 dev v6_dev lease config k with
                          | (k, Err _) => (k, None)
                          | (k, Ok _) =>
                              (k, Some (match dev with
                                        | Some d => mkNetState (Some d) v6_dev (vd_mtu d)
                                        | None => mkNetState (ns_dev st) v6_dev (ns_mtu st)
                                        end))
                          end
                      end
                  | _, _ => (k, None)
                  end
              end
          end
      end
  end.

(** [fuel] rounds; [None] when they were not enough *)
Fixpoint recreate_vxlan (fuel : nat) (ei : ExternalInterface) (lease : Lease) (st : NetState) (backoff : Z) (k : K)
  : K * option (result NetState anyhow) :=
  match fuel with
  | O => (k, None)
  | S fuel =>
      if sm_is_cancelled k then (k, Some (Err ["context canceled, stopping vxlan recreate"]))
      else
        match recreate_round ei lease st k with
        | (k, Some st) => (k, Some (Ok st))
        | (k, None) => recreate_vxlan fuel ei lease st (next_backoff backoff) (vs_sleep backoff k)
        end
  end.
End Device.

(** The device watcher: what its select sees, and whether it queued a
    notification (the channel has room for one) *)
Inductive DevWatchInput := WiCancelled | WiDelLink (link : LinkMessage) | WiOther | WiStreamEnd.

(** The notifications, in a channel of one place that the run loop empties
    ([taken] at each input); the watcher ends when the inputs do. *)
Fixpoint watch_links (name : string) (queued : bool) (ins : list (bool * DevWatchInput)) : list bool :=
  match ins with
  | [] => []
  | (taken, i) :: ins =>
      let queued := queued && negb taken in
      match i with
      | WiCancelled | WiStreamEnd => []
      | WiDelLink link =>
          if String.eqb (link_name_or_empty link) name then negb queued :: watch_links name true ins
          else watch_links name queued ins
      | WiOther => watch_links name queued ins
      end
  end.

(** [None]: the watcher ends at once, and its channel closes. *)
Definition watch_vxlan_device (st : NetState) (ins : list (bool * DevWatchInput)) : option (list bool) :=
  match ns_dev st with
  | Some d => if str_is_empty (vd_name d) then None else Some (watch_links (vd_name d) false ins)
  | None => None
  end.

(** The run loop: a turn of its select sees what the two channels hold;
    [Closed] once the sender is gone and the channel is empty. *)
Inductive Channel (A : Type) := Holds (a : A) | Empty | Closed.
Arguments Holds {A} _.
Arguments Empty {A}.
Arguments Closed {A}.

Inductive RunAction := HandleBatch (b : list Event) | SpawnRecreate.

(** The lease events first; the loop ends when either channel is closed. *)
Fixpoint vxlan_run_loop (turns : list (Channel (list Event) * Channel bool)) : list RunAction :=
  match turns with
  | [] => []
  | (ev, miss) :: turns =>
      match ev, miss with
      | Holds batch, _ => HandleBatch batch :: vxlan_run_loop turns
      | Closed, _ => []
      | Empty, Holds _ => SpawnRecreate :: vxlan_run_loop turns
      | Empty, Closed => []
      | Empty, Empty => vxlan_run_loop turns
      end
  end.

(** * Theorems *)

(** ** The device *)

(** What an existing device must agree on: a zero index or port, or a missing
    address, on either side is not compared. *)
Definition agrees (attrs : VXLANAttrs) (v : VxlanInfo) : bool :=
  (va_vni attrs =? vi_vni v)
  && ((va_vtep_index attrs <=? 0) || (vi_vtep_index v <=? 0) || (va_vtep_index attrs =? vi_vtep_index v))
  && match va_vtep_addr attrs, vi_vtep_addr v with Some a, Some b => bool_decide (a = b) | _, _ => true end
  && negb (vi_l2miss v)
  && ((va_port attrs <=? 0) || (vi_port v <=? 0) || (va_port attrs =? vi_port v))
  && Bool.eqb (va_gbp attrs) (vi_gbp v).

Definition dev_agrees (attrs : VXLANAttrs) (d : LinkDev) : bool := from_option (agrees attrs) false (ld_vxlan d).

Lemma zero_or_equal a b : negb ((0 <? a) && (0 <? b) && negb (a =? b)) = (a <=? 0) || (b <=? 0) || (a =? b).
Proof. rewrite !negb_andb, negb_involutive, <- !Z.leb_antisym. done. Qed.

Lemma incompat_agrees attrs m :
  is_ok (vxlan_links_incompat attrs m) = from_option (agrees attrs) false (vxlan_info m).
Proof.
  unfold vxlan_links_incompat, agrees. destruct (vxlan_info m) as [v|]; [|done]. cbn [from_option].
  rewrite <- !zero_or_equal. destruct (va_vni attrs =? vi_vni v); [|done]. cbn [negb andb].
  destruct ((0 <? va_vtep_index attrs) && (0 <? vi_vtep_index v) && _); [done|]. cbn [negb andb].
  set (port := (0 <? va_port attrs) && (0 <? vi_port v) && negb (va_port attrs =? vi_port v)).
  assert (is_ok (if vi_l2miss v then Err "l2miss: false vs true"
                 else if port then Err ("port: " +:+ fmt_dec (va_port attrs) +:+ " vs " +:+ fmt_dec (vi_port v))
                 else if negb (Bool.eqb (va_gbp attrs) (vi_gbp v))
                 then Err ("gbp: " +:+ fmt_bool (va_gbp attrs) +:+ " vs " +:+ fmt_bool (vi_gbp v))
                 else Ok tt) = negb (vi_l2miss v) && negb port && Bool.eqb (va_gbp attrs) (vi_gbp v)) as Hrest.
  { destruct (vi_l2miss v), port, (Bool.eqb (va_gbp attrs) (vi_gbp v)); done. }
  destruct (va_vtep_addr attrs) as [a|], (vi_vtep_addr v) as [b|]; cbn [andb]; try exact Hrest.
  destruct (bool_decide (a = b)); [exact Hrest|done].
Qed.

Lemma created_agrees attrs hw d :
  0 <= va_port attrs < 65536 -> created (build_vxlan_link attrs hw) d -> dev_agrees attrs d = true.
Proof.
  intros Hp (_ & _ & _ & _ & v & Hv & H1 & H2 & H3 & H4 & H5 & H6). unfold dev_agrees. rewrite Hv. cbn [from_option].
  cbn [vr_id vr_dev vr_local vr_port vr_gbp] in *. unfold agrees. rewrite H1, H2, H3, H4, H6, Z.eqb_refl. cbn [andb negb].
  rewrite Bool.eqb_reflx, andb_true_r. unfold positive in *. apply andb_true_intro. split; [apply andb_true_intro; split|].
  - apply andb_true_intro. split; [|by destruct (va_vtep_addr attrs); [apply bool_decide_eq_true|]].
    destruct (Z.ltb_spec 0 (va_vtep_index attrs)); cbn [default]; [by rewrite Z.eqb_refl, orb_true_r|].
    by rewrite (proj2 (Z.leb_le _ _)) by lia.
  - done.
  - destruct (Z.ltb_spec 0 (va_port attrs)); cbn [from_option] in H5.
    + rewrite H5, wrap_small by (split; lia). by rewrite Z.eqb_refl, orb_true_r.
    + by rewrite (proj2 (Z.leb_le _ _)) by lia.
Qed.

Section Ensure.
Context `{LinkLaws K} `{VxlanSystem K}.

Lemma locate_created_found (k : K) name d :
  nl_admin k -> ll_table k !! name = Some d -> is_Some (ld_vxlan d) ->
  exists m, locate_created name k = (k, Ok m) /\ describes name d m.
Proof.
  intros Ha Hd [v Hv]. destruct (get_link_by_name_found k name d Ha Hd) as (m & Hm & Hdesc). exists m. split; [|done].
  unfold locate_created. rewrite Hm. cbn [map_err rbind]. destruct Hdesc as (_ & _ & _ & _ & _ & Hvx & _). by rewrite Hvx, Hv.
Qed.

(** The call on a device that agrees *)
Lemma ensure_link_keeps attrs hw (k : K) d :
  nl_admin k -> ll_table k !! va_name attrs = Some d -> dev_agrees attrs d = true ->
  exists k' m, ensure_link attrs hw k = (k', Ok m) /\ nl_admin k' /\ ll_table k' = ll_table k /\ describes (va_name attrs) d m.
Proof.
  intros Ha Hd Hag. unfold ensure_link.
  destruct (ll_add_taken k (build_vxlan_link attrs hw) Ha) as (k1 & e & -> & -> & Ha1 & Ht1 & _); [by exists d|]. cbn [negb].
  rewrite <- Ht1 in Hd. destruct (get_link_by_name_found k1 _ d Ha1 Hd) as (m & Hm & Hdesc). unfold io_bind at 1, io_lift. rewrite Hm.
  pose proof (incompat_agrees attrs m) as Hi. destruct Hdesc as (D1 & D2 & D3 & D4 & D5 & Hvx & D6 & D7). rewrite Hvx in Hi.
  unfold dev_agrees in Hag. rewrite Hag in Hi. destruct (vxlan_links_incompat attrs m); [|done]. exists k1, m. done.
Qed.

(** C29: when the kernel admits the device, whatever has its name can be
    deleted and the port is one of UDP (below 65536), [ensure_link] returns a device of that name that agrees with the
    attributes: the existing one, untouched, if it already agreed, and else a
    new one as requested; no other device changed.  A second call returns the
    same device and changes nothing. *)
Theorem vxlan_device_ready attrs hw (k : K) :
  nl_admin k -> ll_admits k (build_vxlan_link attrs hw) -> 0 <= va_port attrs < 65536 ->
  (forall d, ll_table k !! va_name attrs = Some d -> is_Some (ld_kind d)) ->
  exists k' m d,
    ensure_link attrs hw k = (k', Ok m) /\ describes (va_name attrs) d m
    /\ ll_table k' = <[va_name attrs := d]> (ll_table k) /\ dev_agrees attrs d = true
    /\ (match ll_table k !! va_name attrs with
        | Some old => if dev_agrees attrs old then d = old else created (build_vxlan_link attrs hw) d
        | None => created (build_vxlan_link attrs hw) d
        end)
    /\ exists k2 m2, ensure_link attrs hw k' = (k2, Ok m2) /\ ll_table k2 = ll_table k' /\ describes (va_name attrs) d m2.
Proof.
  intros Ha Hr Hp Hkind. set (r := build_vxlan_link attrs hw) in *.
  enough (exists k' m d, ensure_link attrs hw k = (k', Ok m) /\ nl_admin k' /\ describes (va_name attrs) d m
    /\ ll_table k' = <[va_name attrs := d]> (ll_table k) /\ dev_agrees attrs d = true
    /\ match ll_table k !! va_name attrs with
       | Some old => if dev_agrees attrs old then d = old else created r d
       | None => created r d
       end) as (k' & m & d & He & Ha' & Hdesc & Ht & Hag & Hold).
  { exists k', m, d. split_and!; try done.
    destruct (ensure_link_keeps attrs hw k' d Ha') as (k2 & m2 & He2 & _ & Ht2 & Hd2); [by rewrite Ht, lookup_insert_eq|done|].
    by exists k2, m2. }
  destruct (ll_table k !! va_name attrs) as [old|] eqn:Eo.
  - destruct (dev_agrees attrs old) eqn:Hag.
    { destruct (ensure_link_keeps attrs hw k old Ha Eo Hag) as (k1 & m & He & Ha1 & Ht & Hd). exists k1, m, old.
      split_and!; try done. by rewrite insert_id. }
    unfold ensure_link. fold r. destruct (ll_add_taken k r Ha) as (k1 & e & -> & -> & Ha1 & Ht1 & _ & Hr1); [by exists old|]. cbn [negb].
    rewrite <- Ht1 in Eo |- *. destruct (get_link_by_name_found k1 _ old Ha1 Eo) as (m & Hm & Hi & _ & _ & _ & _ & Hvx & _).
    unfold io_bind at 1, io_lift. rewrite Hm. pose proof (incompat_agrees attrs m) as Hinc. rewrite Hvx in Hinc.
    unfold dev_agrees in Hag. rewrite Hag in Hinc. destruct (vxlan_links_incompat attrs m); [done|]. rewrite Hi.
    destruct (recreate_link k1 r old Ha1 (Hr1 _ Hr) Eo (Hkind old eq_refl)) as (k2 & k3 & d & Hdel & Hadd & Ha3 & Hc & Ht3 & _).
    unfold io_bind, io_map_err. rewrite Hdel. cbn [map_err]. rewrite Hadd. cbn [map_err].
    destruct (locate_created_found k3 (va_name attrs) d Ha3) as (m' & Hl & Hd'); [by rewrite Ht3, lookup_insert_eq| |].
    { destruct Hc as (_ & _ & _ & _ & v & Hv & _). by exists v. }
    exists k3, m', d. split_and!; try done. by apply (created_agrees attrs hw).
  - unfold ensure_link. fold r. destruct (ll_add_new k r Ha Hr Eo) as (k1 & d & -> & Ha1 & Hc & Ht1 & _).
    destruct (locate_created_found k1 (va_name attrs) d Ha1) as (m & Hl & Hd); [by rewrite Ht1, lookup_insert_eq| |].
    { destruct Hc as (_ & _ & _ & _ & v & Hv & _). by exists v. }
    exists k1, m, d. split_and!; try done. by apply (created_agrees attrs hw).
Qed.
End Ensure.

(** A port of more than 16 bits is cut when the device is created, and compared
    uncut when it is found again: the device never agrees. *)
Theorem vxlan_wide_port_never_agrees attrs hw d :
  65536 <= va_port attrs -> 0 < wrap 16 (va_port attrs) -> created (build_vxlan_link attrs hw) d -> dev_agrees attrs d = false.
Proof.
  intros Hp Hw (_ & _ & _ & _ & v & Hv & _ & _ & _ & _ & H5 & _). unfold dev_agrees. rewrite Hv. cbn [from_option].
  cbn [vr_port] in H5. unfold positive in H5. rewrite (proj2 (Z.ltb_lt _ _)) in H5 by lia. cbn [from_option] in H5.
  assert ((va_port attrs <=? 0) || (vi_port v <=? 0) || (va_port attrs =? vi_port v) = false) as Hport.
  { assert (vi_port v < 65536) by (rewrite H5; apply (Z.mod_pos_bound _ (2 ^ 16)); done).
    apply orb_false_iff; split; [apply orb_false_iff; split|]; lia. }
  unfold agrees. rewrite Hport. by rewrite andb_false_r.
Qed.

(** ** The run loop without an IPv4 device *)

(** With IPv6 alone there is no device to watch: the watcher ends, its channel
    is closed, and the run loop ends with the first turn that finds no lease
    events waiting; later events are not handled. *)
Theorem vxlan_v6_only_stops v6_dev mtu ins waiting later :
  watch_vxlan_device (mkNetState None v6_dev mtu) ins = None
  /\ vxlan_run_loop (map (fun b => (Holds b, Closed)) waiting ++ (Empty, Closed) :: later) = map HandleBatch waiting.
Proof. split; [done|]. induction waiting as [|b waiting IH]; [done|]. cbn [map app vxlan_run_loop]. by rewrite IH. Qed.

(** While both channels are open, every batch and every notification is
    handled, in the order the turns show them. *)
Theorem vxlan_run_loop_handles turns :
  Forall (fun t => t.1 <> Closed /\ t.2 <> Closed) turns ->
  vxlan_run_loop turns
  = flat_map (fun t => match t with (Holds b, _) => [HandleBatch b] | (_, Holds _) => [SpawnRecreate] | _ => [] end) turns.
Proof.
  induction 1 as [|[ev miss] turns [He Hm] _ IH]; [done|]. cbn [vxlan_run_loop flat_map]. rewrite <- IH.
  by destruct ev, miss.
Qed.

(** A deletion of the device is notified unless a notification still waits. *)
Theorem watch_notifies name queued taken link ins :
  link_name_or_empty link = name ->
  watch_links name queued ((taken, WiDelLink link) :: ins)
  = negb (queued && negb taken) :: watch_links name true ins.
Proof. intros <-. cbn [watch_links]. by rewrite String.eqb_refl. Qed.

(** A device of the name with another VNI *)
Definition vxlan_old : RawDev :=
  mkRawDev 7 (Some KVxlan) (IdVxlan [IvId 2; IvLink 2; IvPort 8472]) [2; 0; 0; 0; 0; 1] 1450 true.

Definition vxlan_node : LinkNode := mkLinkNode (<["flannel.1" := vxlan_old]> ∅) 8 [].

Definition vxlan_sample_attrs : VXLANAttrs :=
  mkVXLANAttrs "flannel.1" 1 1500 2 (Some (V4 (IP4_from_octets 192 168 0 7))) 8472 false false None.

Lemma vxlan_node_devs a x : nd_devs vxlan_node !! a = Some x -> a = "flannel.1" /\ x = vxlan_old.
Proof. cbn [nd_devs vxlan_node]. rewrite lookup_insert. case_decide; [by intros [= <-]|by rewrite lookup_empty]. Qed.

Lemma vxlan_node_sane : node_sane vxlan_node.
Proof.
  split; [split; constructor|split_and!]; [..|constructor].
  - intros a b x y [-> ->]%vxlan_node_devs [-> ->]%vxlan_node_devs; done.
  - intros a x [-> ->]%vxlan_node_devs; done.
Qed.

Lemma vxlan_device_ready_witness :
  exists k' m d,
    ensure_link vxlan_sample_attrs [2; 0; 0; 0; 0; 9] vxlan_node = (k', Ok m) /\ describes "flannel.1" d m
    /\ ll_table k' = <["flannel.1" := d]> (ll_table vxlan_node) /\ dev_agrees vxlan_sample_attrs d = true
    /\ created (build_vxlan_link vxlan_sample_attrs [2; 0; 0; 0; 0; 9]) d.
Proof.
  destruct (vxlan_device_ready vxlan_sample_attrs [2; 0; 0; 0; 0; 9] vxlan_node) as (k' & m & d & He & Hd & Ht & Hag & Hold & _).
  - exact vxlan_node_sane.
  - intros v [= <-]. done.
  - cbn. lia.
  - intros d (x & Hx & ->)%table_some. apply vxlan_node_devs in Hx as [_ ->]. by eexists.
  - exists k', m, d. split_and!; done.
Defined.
