(* ===== verification/WgDevice.v ===== *)
(** * [backend/wireguard/device.rs], [mod.rs]: the WireGuard device

    The key pair of the node and its file, the creation and configuration of
    the devices, and the registration of the network.  Files, the environment
    and the random generator are the interface [WgFiles]; links are [Links],
    addresses [Iface], the device configuration [Genl]. *)

From S2P Require Import Prelude RustStr Utf8 StdNet IpNet Ip6Net Lease Config Anyhow RouteNetwork VxlanConf Genl WgKernel Iface Wireguard Backend Links.
#[local] Open Scope string_scope.
#[local] Open Scope list_scope.
#[local] Open Scope Z_scope.

Class WgFiles (K : Type) := {
  (** [$WIREGUARD_KEY_FILE] *)
  wf_key_file : K -> option string;
  wf_exists : K -> string -> bool;
  wf_read : string -> io K string string;
  (** [create_dir_all] *)
  wf_mkdirs : string -> io K string unit;
  (** a file created or truncated with mode 0400, and its content written *)
  wf_create_0400 : string -> string -> io K string unit;
  (** 32 bytes of [getrandom] *)
  wf_getrandom : io K string bytes;
}.

(** What failed; [WsPanic] is an [expect]. *)
Inductive WgSetupError :=
| WsMessage (e : anyhow)
| WsConfig (e : WgConfigError)
| WsKey (what : string) (e : KeyError)
| WsDevice (e : IoError)
| WsPanic.

Definition WG_KEY_FILE : string := "/run/flannel/wgkey".

(** [Path::parent], as text: what precedes the last slash *)
Definition parent_dir (path : string) : string :=
  match rsplit_once "/" path with
  | Some (dir, _) => if str_is_empty dir then "/" else dir
  | None => ""
  end.

Definition wg_build_link (attrs : WGDeviceAttrs) : LinkRequest :=
  let mtu := da_mtu attrs - OVERHEAD in
  NewWireguard (da_name attrs) (if 0 <? mtu then Some mtu else None).

Section Keys.
Context `{WgFiles K} `{WgCrypto}.

Definition wg_message (prefix : string) (e : string) : WgSetupError := WsMessage [prefix +:+ e].

Definition write_private_key (path content : string) : io K string unit :=
  let dir := parent_dir path in
  let! _ := (if str_is_empty dir then io_ret tt else wf_mkdirs dir) in
  wf_create_0400 path content.

Definition with_keys (attrs : WGDeviceAttrs) (private_key : bytes) : WGDeviceAttrs :=
  mkWGDeviceAttrs (da_listen_port attrs) (Some private_key) (Some (Key_public_key private_key)) (da_psk attrs)
    (da_keepalive attrs) (da_name attrs) (da_mtu attrs).

Definition with_psk (attrs : WGDeviceAttrs) (psk : bytes) : WGDeviceAttrs :=
  mkWGDeviceAttrs (da_listen_port attrs) (da_private_key attrs) (da_public_key attrs) (Some psk)
    (da_keepalive attrs) (da_name attrs) (da_mtu attrs).

Definition setup_psk (psk : string) (attrs : WGDeviceAttrs) : result WGDeviceAttrs WgSetupError :=
  if str_is_empty psk then Ok attrs
  else let? key := map_err (WsKey "could not parse psk: ") (Key_parse psk) in Ok (with_psk attrs key).

Definition setup_keys (attrs : WGDeviceAttrs) (psk : string) : io K WgSetupError WGDeviceAttrs := fun k =>
  let key_file := default WG_KEY_FILE (wf_key_file k) in
  (let! private_key :=
     (if negb (wf_exists k key_file) then
        let! random := io_map_err (wg_message "could not generate private key: ") wf_getrandom in
        let private_key := clamp_key random in
        let! _ := io_map_err (wg_message "could not write key file: ") (write_private_key key_file (Key_fmt private_key)) in
        io_ret private_key
      else
        let! data := io_map_err (wg_message "") (wf_read key_file) in
        io_lift (map_err (WsKey "could not parse private key from file: ") (Key_parse data))) in
   io_lift (setup_psk psk (with_keys attrs private_key))) k.
End Keys.

Section Device.
Context `{NlKernel K} `{LinkKernel K} `{GenlKernel K} `{WgSystem K} `{WgFiles K} `{WgCrypto} (fuel : nat).

Definition wg_nl (prefix : string) (e : NlError) : WgSetupError := WsMessage [prefix +:+ ne_text e].

Definition wg_locate (name : string) : io K WgSetupError Z := fun k =>
  (k, map_err (fun e => WsMessage ["can't locate created wireguard device with index (" +:+ name +:+ "): " +:+ e])
        (let? iface := get_interface_by_name k name in Ok (ni_index iface))).

Definition wg_ensure_link (attrs : WGDeviceAttrs) : io K WgSetupError Z := fun k =>
  let msg := wg_build_link attrs in
  match lk_add msg k with
  | (k, Ok _) => wg_locate (da_name attrs) k
  | (k, Err e) =>
      if is_eexist e then
        (let! existing := io_lift (map_err (wg_message "") (get_interface_by_name k (da_name attrs))) in
         let! _ := io_map_err (wg_nl "") (lk_del (ni_index existing)) in
         let! _ := io_map_err (wg_nl "could not create wireguard interface: ") (lk_add msg) in
         wg_locate (da_name attrs)) k
      else (k, Err (wg_nl "could not create wireguard interface: " e))
  end.

(** The task that removes the device at the end is [wg_removal_task] of [WgRun]. *)
Definition new_wg_device (attrs : WGDeviceAttrs) : io K WgSetupError WGDevice :=
  let! ifindex := wg_ensure_link attrs in
  let cfg := mkWgDeviceConfig (as_bytes (da_name attrs)) (da_private_key attrs) (Some (da_listen_port attrs))
               WGDEVICE_F_REPLACE_PEERS [] in
  let! _ := io_map_err WsDevice (configure_device fuel cfg) in
  io_ret (mkWGDevice attrs ifindex (da_name attrs)).

Definition wg_configure (dev : WGDevice) (dev_ip : IP4) (flannelnet : IP4Net) : io K WgSetupError unit :=
  let! _ := io_map_err (fun e => WsMessage ["failed to ensure address of interface " +:+ gd_ifname dev +:+ ": " +:+ e])
              (ensure_v4_address_on_link (mkIP4Net dev_ip 32) flannelnet (gd_ifindex dev)) in
  io_map_err (wg_message "failed to set up the route: ")
    (up_and_add_route dev (mkRouteMessage Inet (wrap 8 (ip4n_plen flannelnet)) (Some (V4 (ip4n_ip flannelnet))) None
                             (Some (gd_ifindex dev)) false)).

Definition wg_configure_v6 (dev : WGDevice) (dev_ip : IP6) (flannelnet : IP6Net) : io K WgSetupError unit :=
  let! _ := io_map_err (fun e => WsMessage ["failed to ensure address of interface " +:+ gd_ifname dev +:+ ": " +:+ e])
              (ensure_v6_address_on_link (mkIP6Net dev_ip 128) flannelnet (gd_ifindex dev)) in
  io_map_err (wg_message "failed to set up the route: ")
    (up_and_add_route dev (mkRouteMessage Inet6 (wrap 8 (ip6n_plen flannelnet)) (Some (V6 (ip6n_ip flannelnet))) None
                             (Some (gd_ifindex dev)) false)).

(** ** [mod.rs] *)

Definition create_wg_dev (name psk : string) (keepalive listen_port mtu : Z) : io K WgSetupError WGDevice :=
  let! attrs := setup_keys (mkWGDeviceAttrs (wrap 16 listen_port) None None None (Some keepalive) name mtu) psk in
  new_wg_device attrs.

Definition maybe_dev (enabled : bool) (m : io K WgSetupError WGDevice) : io K WgSetupError (option WGDevice) :=
  if enabled then let! d := m in io_ret (Some d) else io_ret None.

(** The [match mode] of [register_network]: the devices and the key *)
Definition create_devices (mode : Mode) (config : Config) (cfg : WgConfig)
  : io K WgSetupError (option WGDevice * option WGDevice * string) :=
  match mode with
  | Separate =>
      let! dev := maybe_dev (cfg_enable_ipv4 config)
                    (create_wg_dev "flannel-wg" (wg_psk cfg) (wg_keepalive_secs cfg) (wg_listen_port cfg) (wg_mtu cfg)) in
      let! v6_dev := maybe_dev (cfg_enable_ipv6 config)
                       (create_wg_dev "flannel-wg-v6" (wg_psk cfg) (wg_keepalive_secs cfg) (wg_listen_port_v6 cfg) (wg_mtu cfg)) in
      io_ret (dev, v6_dev, match v6_dev, dev with
                           | Some d, _ | None, Some d => public_key_of d
                           | None, None => ""
                           end)
  | Auto | Ipv4 | Ipv6 =>
      let! d := create_wg_dev "flannel-wg" (wg_psk cfg) (wg_keepalive_secs cfg) (wg_listen_port cfg) (wg_mtu cfg) in
      io_ret (Some d, None, public_key_of d)
  end.

Definition no_family (family : string) : WgSetupError :=
  WsMessage ["failed to configure wg interface: " +:+ family +:+ " is enabled but the lease has no " +:+ family].

Definition wg_expect (o : option WGDevice) : result WGDevice WgSetupError := ok_or o WsPanic.

Definition configure_devices (mode : Mode) (config : Config) (lease : Lease) (dev v6_dev : option WGDevice)
  : io K WgSetupError unit :=
  let! _ :=
    (if cfg_enable_ipv4 config then
       if IP4Net_empty (l_subnet lease) then io_err (no_family "IPv4")
       else let! d := io_lift (wg_expect dev) in wg_configure d (ip4n_ip (l_subnet lease)) (cfg_network config)
     else io_ret tt) in
  if cfg_enable_ipv6 config then
    if IP6Net_empty (l_ipv6_subnet lease) then io_err (no_family "IPv6")
    else
      let! d := io_lift (wg_expect (if bool_decide (mode = Separate) then v6_dev else dev)) in
      wg_configure_v6 d (ip6n_ip (l_ipv6_subnet lease)) (cfg_ipv6_network config)
  else io_ret tt.

Context `{SubnetManager K} `{SerdeJson} `{WgJson}.

Definition new_wireguard_network (ei : ExternalInterface) (dev v6_dev : option WGDevice) (mode : Mode) (lease : Lease) (mtu : Z)
  : WireguardNetwork := mkWireguardNetwork ei dev v6_dev mode lease mtu.

Definition wg_register_network (ei : ExternalInterface) (config : Config) : io K WgSetupError WireguardNetwork :=
  let! _ := io_map_err WsMessage sm_netlink in
  let! ext_mtu := io_map_err WsMessage (iface_mtu (ei_iface_index ei)) in
  let! cfg := io_lift (map_err WsConfig (parse_wg_config (cfg_backend config) ext_mtu)) in
  let! mode := io_lift (ok_or (wg_mode cfg) (WsMessage ["no valid Mode configured"])) in
  let! (dev, v6_dev, public_key) := create_devices mode config cfg in
  let! attrs := io_lift (map_err (wg_message "")
                           (wg_subnet_attrs (ei_ext_addr ei) (ei_ext_v6_addr ei) (cfg_enable_ipv4 config)
                              (cfg_enable_ipv6 config) public_key (wg_listen_port cfg) (wg_listen_port_v6 cfg))) in
  let! lease := io_map_err WsMessage (acquire_registered attrs) in
  let! _ := configure_devices mode config lease dev v6_dev in
  io_ret (new_wireguard_network ei dev v6_dev mode lease (wg_mtu cfg)).
End Device.

(** * Theorems *)

(** ** The key pair survives a restart *)

Class WgFileLaws (K : Type) `{WgFiles K} := {
  wl_random : forall k k' b, wf_getrandom k = (k', Ok b) ->
    length b = 32%nat /\ Forall is_byte b /\ wf_key_file k' = wf_key_file k;
  wl_mkdirs : forall d k, wf_key_file (wf_mkdirs d k).1 = wf_key_file k;
  wl_create : forall p c k k', wf_create_0400 p c k = (k', Ok tt) ->
    wf_exists k' p = true /\ wf_read p k' = (k', Ok c) /\ wf_key_file k' = wf_key_file k;
  wl_read : forall p k, (wf_read p k).1 = k;
}.

Lemma clamp_bytes x : is_byte x -> is_byte (Z.land x 248) /\ is_byte (Z.lor (Z.land x 127) 64).
Proof.
  intros Hx. assert ((0 <=? Z.land x 248) && (Z.land x 248 <? 256) && (0 <=? Z.lor (Z.land x 127) 64) && (Z.lor (Z.land x 127) 64 <? 256) = true) as Hb.
  { revert x Hx. exact (range_forall (fun x => (0 <=? Z.land x 248) && (Z.land x 248 <? 256) && (0 <=? Z.lor (Z.land x 127) 64)
      && (Z.lor (Z.land x 127) 64 <? 256)) 256 eq_refl). }
  unfold is_byte. rewrite !andb_true_iff in Hb. lia.
Qed.

Lemma clamp_key_typed b : length b = 32%nat -> Forall is_byte b -> length (clamp_key b) = 32%nat /\ Forall is_byte (clamp_key b).
Proof.
  intros Hl Hb. unfold clamp_key. rewrite take_ge by lia. destruct b as [|b0 rest]; [done|]. cbn in Hl. apply Forall_cons_iff in Hb as [Hb0 Hr].
  destruct rest as [|b1 rest]; [done|]. destruct (exists_last (l := b1 :: rest) ltac:(done)) as (pre & b31 & He). rewrite He in *.
  rewrite length_app in Hl. cbn in Hl. apply Forall_app in Hr as [Hpre H31]. apply Forall_cons_iff in H31 as [H31 _].
  rewrite removelast_last, List.last_last. split.
  - cbn. rewrite length_app. cbn. lia.
  - constructor; [|apply Forall_app; split; [done|]; constructor; [|done]].
    + by apply clamp_bytes.
    + by apply clamp_bytes.
Qed.

Section Persist.
Context `{WgFileLaws K} `{WgCryptoLaws}.

Lemma Key_parse_fmt key : length key = 32%nat -> Forall is_byte key -> Key_parse (Key_fmt key) = Ok key.
Proof. intros Hl Hb. unfold Key_parse, Key_fmt. rewrite b64_round_trip by done. cbn [map_err rbind]. by rewrite Hl. Qed.

(** Reading the file back *)
Lemma setup_keys_read attrs psk (k : K) data key :
  wf_exists k (default WG_KEY_FILE (wf_key_file k)) = true -> wf_read (default WG_KEY_FILE (wf_key_file k)) k = (k, Ok data) ->
  Key_parse data = Ok key ->
  setup_keys attrs psk k = (k, setup_psk psk (with_keys attrs key)).
Proof.
  intros He Hr Hp. unfold setup_keys. cbv zeta. rewrite He. cbn [negb]. unfold io_bind, io_map_err. rewrite Hr. cbn [map_err].
  unfold io_lift. rewrite Hp. done.
Qed.

(** C30: [setup_keys] is stable: once it succeeded, whether it generated the
    private key and wrote the file or found the file there, every later call
    finds the same private and public key; the private key has 32 bytes. *)
Theorem wg_keys_persist attrs psk attrs' (k k' : K) :
  setup_keys attrs psk k = (k', Ok attrs') ->
  setup_keys attrs psk k' = (k', Ok attrs')
  /\ exists key, length key = 32%nat /\ da_private_key attrs' = Some key /\ da_public_key attrs' = Some (Key_public_key key).
Proof.
  set (file := default WG_KEY_FILE (wf_key_file k)).
  enough (forall r, setup_keys attrs psk k = (k', r) -> is_ok r = true ->
    exists data key, wf_key_file k' = wf_key_file k /\ wf_exists k' file = true /\ wf_read file k' = (k', Ok data)
      /\ Key_parse data = Ok key /\ r = setup_psk psk (with_keys attrs key)) as Hmain.
  { intros Hs. destruct (Hmain _ Hs eq_refl) as (data & key & Hf & He & Hr & Hp & Hres). split.
    - rewrite (setup_keys_read attrs psk k' data key); rewrite ?Hf; [by rewrite Hres|done..].
    - exists key. unfold Key_parse in Hp. destruct (b64_decode data) as [b|]; [|done]. cbn in Hp.
      destruct (Nat.eqb_spec (length b) 32); [|done]. injection Hp as <-. split; [done|].
      unfold setup_psk in Hres. destruct (str_is_empty psk); [by injection Hres as ->|].
      destruct (Key_parse psk); [by injection Hres as ->|done]. }
  intros r. unfold setup_keys. cbv zeta. fold file. destruct (wf_exists k file) eqn:He; cbn [negb].
  - unfold io_bind, io_map_err, io_lift. pose proof (wl_read file k) as Hrd. destruct (wf_read file k) as [k1 [data|e]] eqn:Hr; cbn [fst map_err] in *.
    + subst k1. destruct (Key_parse data) as [key|] eqn:Hp; cbn [map_err]; intros [= <- <-] Hok; [|done]. by exists data, key.
    + intros [= <- <-]. done.
  - unfold io_bind, io_map_err, io_lift, write_private_key. destruct (wf_getrandom k) as [k1 [b|e]] eqn:Hg; cbn [map_err]; [|by intros [= <- <-]].
    destruct (wl_random k k1 b Hg) as (Hl & Hb & Hf1). destruct (clamp_key_typed b Hl Hb) as [Hcl Hcb].
    set (m := if str_is_empty (parent_dir file) then io_ret tt else wf_mkdirs (parent_dir file)).
    assert (wf_key_file (m k1).1 = wf_key_file k1) as Hf2 by (unfold m; destruct (str_is_empty _); [done|apply wl_mkdirs]).
    unfold io_bind. destruct (m k1) as [k2 [[]|e]]; cbn [fst map_err] in *; [|by intros [= <- <-]].
    destruct (wf_create_0400 file (Key_fmt (clamp_key b)) k2) as [k3 [[]|e]] eqn:Hc; cbn [map_err]; [|by intros [= <- <-]].
    unfold io_ret. intros [= <- <-] _. destruct (wl_create _ _ _ _ Hc) as (He3 & Hr3 & Hf3).
    exists (Key_fmt (clamp_key b)), (clamp_key b). split_and!; [congruence|done|done|by apply Key_parse_fmt|done].
Qed.
End Persist.

(** ** The two [expect]s hold *)

Definition never {K E A} (e : E) (m : io K E A) : Prop := forall k, (m k).2 <> Err e.

Lemma never_bind {K E A B} (e : E) (m : io K E A) (f : A -> io K E B) :
  never e m -> (forall a, never e (f a)) -> never e (io_bind m f).
Proof.
  intros Hm Hf k. unfold io_bind. specialize (Hm k). destruct (m k) as [k1 [a|e']]; [apply Hf|]. cbn in *. congruence.
Qed.

Lemma never_bind_post {K E A B} (e : E) (P : A -> Prop) (m : io K E A) (f : A -> io K E B) :
  never e m -> (forall k k' a, m k = (k', Ok a) -> P a) -> (forall a, P a -> never e (f a)) -> never e (io_bind m f).
Proof.
  intros Hm HP Hf k. unfold io_bind. specialize (Hm k). destruct (m k) as [k1 [a|e']] eqn:Em; [by eapply Hf, HP|]. cbn in *. congruence.
Qed.

Lemma never_ret {K E A} (e : E) (a : A) : never e (io_ret (K := K) a).
Proof. by intros k. Qed.

Lemma never_err {K E A} (e e' : E) : e' <> e -> never e (io_err (K := K) (A := A) e').
Proof. intros Hn k. cbn. congruence. Qed.

Lemma never_lift {K E A} (e : E) (r : result A E) : r <> Err e -> never e (io_lift (K := K) r).
Proof. by intros Hr k. Qed.

Lemma never_map_err {K E F A} (e : F) (f : E -> F) (m : io K E A) : (forall x, f x <> e) -> never e (io_map_err f m).
Proof. intros Hf k. unfold io_map_err. destruct (m k) as [k1 [a|x]]; cbn; [done|]. intros [= Hx]. by eapply Hf. Qed.

Lemma map_err_never {E F A} (e : F) (f : E -> F) (r : result A E) : (forall x, f x <> e) -> map_err f r <> Err e.
Proof. intros Hf. destruct r; cbn; [done|]. intros [= Hx]. by eapply Hf. Qed.

Create HintDb never.
#[global] Hint Resolve never_bind never_ret never_err never_lift never_map_err map_err_never : never.
#[global] Hint Extern 1 (_ <> WsPanic) => discriminate : never.

Section NoPanic.
Context `{NlKernel K} `{LinkKernel K} `{GenlKernel K} `{WgSystem K} `{WgFiles K} `{WgCrypto} (fuel : nat).

Lemma setup_psk_never psk attrs : setup_psk psk attrs <> Err WsPanic.
Proof. unfold setup_psk. destruct (str_is_empty psk); [done|]. by destruct (Key_parse psk). Qed.

Lemma setup_keys_never attrs psk : never (K := K) WsPanic (setup_keys attrs psk).
Proof.
  intros k. revert k. unfold setup_keys. intros k. cbv zeta.
  apply (never_bind WsPanic _ (fun key => io_lift (setup_psk psk (with_keys attrs key)))).
  - destruct (negb _); (apply never_bind; [auto with never|]); intros b; [|auto with never].
    apply never_bind; auto with never.
  - intros key. apply never_lift, setup_psk_never.
Qed.

Lemma wg_ensure_link_never attrs : never (K := K) WsPanic (wg_ensure_link attrs).
Proof.
  assert (never (K := K) WsPanic (wg_locate (da_name attrs))) as Hloc.
  { intros k. unfold wg_locate. cbn. apply map_err_never. discriminate. }
  intros k. unfold wg_ensure_link. destruct (lk_add _ k) as [k1 [[]|e]]; [apply Hloc|].
  destruct (is_eexist e); [|done]. revert k1. fold (never (K := K) (A := Z) WsPanic).
  intros k1. refine (never_bind WsPanic _ _ _ _ k1); [auto with never|]. intros existing.
  apply never_bind; [auto with never|]. intros _. apply never_bind; auto with never.
Qed.

Lemma create_wg_dev_never name psk ka port mtu : never (K := K) WsPanic (create_wg_dev fuel name psk ka port mtu).
Proof.
  apply never_bind; [apply setup_keys_never|]. intros attrs. apply never_bind; [apply wg_ensure_link_never|].
  intros i. apply never_bind; auto with never.
Qed.

Lemma maybe_dev_never enabled (m : io K WgSetupError WGDevice) : never WsPanic m -> never WsPanic (maybe_dev enabled m).
Proof. intros Hm. unfold maybe_dev. destruct enabled; auto with never. Qed.

(** Which devices the registration creates *)
Definition devices_for (mode : Mode) (config : Config) (dev v6_dev : option WGDevice) : Prop :=
  (cfg_enable_ipv4 config = true -> is_Some dev)
  /\ (cfg_enable_ipv6 config = true -> is_Some (if bool_decide (mode = Separate) then v6_dev else dev)).

Lemma maybe_dev_some enabled (m : io K WgSetupError WGDevice) k k' d :
  maybe_dev enabled m k = (k', Ok d) -> enabled = true -> is_Some d.
Proof.
  unfold maybe_dev. intros Hm ->. unfold io_bind, io_ret in Hm. destruct (m k) as [k1 [x|e]]; [|done]. injection Hm as <- <-. by eexists.
Qed.

Lemma create_devices_some mode config cfg (k k' : K) dev v6_dev key :
  create_devices fuel mode config cfg k = (k', Ok (dev, v6_dev, key)) -> devices_for mode config dev v6_dev.
Proof.
  unfold create_devices, devices_for. destruct mode.
  - unfold io_bind, io_ret. destruct (maybe_dev (cfg_enable_ipv4 config) _ k) as [k1 [d|e]] eqn:E1; [|done].
    destruct (maybe_dev (cfg_enable_ipv6 config) _ k1) as [k2 [d6|e]] eqn:E2; [|done]. intros [= <- <- <- _].
    rewrite bool_decide_true by done. split; [by eapply maybe_dev_some|by eapply maybe_dev_some].
  - unfold io_bind, io_ret. destruct (create_wg_dev _ _ _ _ _ _ k) as [k1 [d|e]]; [|done]. intros [= <- <- <- _]. by split; eexists.
  - unfold io_bind, io_ret. destruct (create_wg_dev _ _ _ _ _ _ k) as [k1 [d|e]]; [|done]. intros [= <- <- <- _]. by split; eexists.
  - unfold io_bind, io_ret. destruct (create_wg_dev _ _ _ _ _ _ k) as [k1 [d|e]]; [|done]. intros [= <- <- <- _]. by split; eexists.
Qed.

Lemma create_devices_never mode config cfg : never (K := K) WsPanic (create_devices fuel mode config cfg).
Proof.
  unfold create_devices. destruct mode; (apply never_bind; [first [apply create_wg_dev_never|apply maybe_dev_never, create_wg_dev_never]|]);
    intros d; auto with never.
  apply never_bind; [apply maybe_dev_never, create_wg_dev_never|auto with never].
Qed.

Lemma configure_devices_never mode config lease dev v6_dev :
  devices_for mode config dev v6_dev -> never (K := K) WsPanic (configure_devices mode config lease dev v6_dev).
Proof.
  intros [Hv4 Hv6]. unfold configure_devices, wg_expect. apply never_bind.
  - destruct (cfg_enable_ipv4 config); [|auto with never]. destruct (Hv4 eq_refl) as [d ->]. destruct (IP4Net_empty _); [auto with never|].
    apply never_bind; [auto with never|]. intros d'. apply never_bind; auto with never.
  - intros _. destruct (cfg_enable_ipv6 config); [|auto with never]. destruct (Hv6 eq_refl) as [d ->]. destruct (IP6Net_empty _); [auto with never|].
    apply never_bind; [auto with never|]. intros d'. apply never_bind; auto with never.
Qed.

(** The registration of a WireGuard network never runs into the [expect]s
    on its devices: in every mode, with every combination of families, the
    device that is configured was created. *)
Theorem wg_register_never_panics `{SubnetManager K} `{SerdeJson} `{WgJson} ei config (k : K) :
  (wg_register_network fuel ei config k).2 <> Err WsPanic.
Proof.
  revert k. fold (never (K := K) WsPanic (wg_register_network fuel ei config)). unfold wg_register_network.
  do 2 (apply never_bind; [auto with never|intros ?]). apply never_bind; [auto with never|]. intros cfg.
  apply never_bind; [by apply never_lift; destruct (wg_mode cfg)|]. intros mode.
  apply (never_bind_post WsPanic (fun r => devices_for mode config r.1.1 r.1.2)); [apply create_devices_never| |].
  { intros k0 k' [[dev v6_dev] key] Hc. by eapply create_devices_some. }
  intros [[dev v6_dev] key] Hd. apply never_bind; [auto with never|]. intros attrs.
  apply never_bind; [auto with never|]. intros lease. apply never_bind; [by apply configure_devices_never|auto with never].
Qed.
End NoPanic.

(** ** A file system, for the witness *)

#[local] Instance file_map : WgFiles (gmap string string) := {|
  wf_key_file _ := None;
  wf_exists k p := is_some (k !! p);
  wf_read p k := (k, ok_or (k !! p) "No such file or directory");
  wf_mkdirs _ k := (k, Ok tt);
  wf_create_0400 p c k := (<[p := c]> k, Ok tt);
  wf_getrandom k := (k, Ok (replicate 32 7));
|}.

#[local] Instance file_map_laws : WgFileLaws (gmap string string).
Proof.
  constructor.
  - intros k k' b [= <- <-]. split; [done|]. split; [|done]. by apply (bool_decide_unpack _); vm_compute.
  - done.
  - intros p c k k' [= <-]. cbn. by rewrite lookup_insert_eq.
  - done.
Defined.

Definition wg_fresh_attrs : WGDeviceAttrs := mkWGDeviceAttrs 51820 None None None (Some 25) "flannel-wg" 1500.

Definition wg_fresh_key : bytes := clamp_key (replicate 32 7).

#[local] Existing Instance PlainCrypto.
#[local] Existing Instance PlainCryptoLaws.

(** The first call writes the file, the second finds the key in it. *)
Lemma wg_keys_persist_witness :
  let k := <[WG_KEY_FILE := Key_fmt wg_fresh_key]> ∅ : gmap string string in
  setup_keys wg_fresh_attrs "" (∅ : gmap string string) = (k, Ok (with_keys wg_fresh_attrs wg_fresh_key))
  /\ setup_keys wg_fresh_attrs "" k = (k, Ok (with_keys wg_fresh_attrs wg_fresh_key)).
Proof.
  intros k. assert (setup_keys wg_fresh_attrs "" (∅ : gmap string string) = (k, Ok (with_keys wg_fresh_attrs wg_fresh_key))) as Hs
    by reflexivity.
  split; [exact Hs|]. exact (proj1 (wg_keys_persist wg_fresh_attrs "" _ ∅ k Hs)).
Defined.
