(* ===== verification/RouteRun.v ===== *)
(** * [backend/route_network.rs]: the two tasks of a route network

    [run_route_network] handles the lease events while [route_check] looks for
    missing routes every ten seconds; both share the lists of routes and the
    kernel, and give way to each other wherever they await.  A turn of a task
    is what it does between two awaits: an update of a list under its lock, a
    dump of the table, or one request to the kernel.  The turns may be
    interleaved in any way. *)

From S2P Require Import Prelude RustStr IpNet Ip6Net Lease Config Anyhow RouteNetwork Iface Backend.
#[local] Open Scope string_scope.
#[local] Open Scope list_scope.
#[local] Open Scope Z_scope.

Definition ROUTE_CHECK_RETRIES : Z := 10.

(** Where the check is: asleep, with a copy of a list, or with the routes of
    the copy it has not compared to its dump yet. *)
Inductive CheckPc :=
| CkIdle
| CkCopied (family : AddressFamily) (routes : list RouteSpec)
| CkDumped (family : AddressFamily) (dumped : list RouteMessage) (routes : list RouteSpec).

(** What an event asks of a family: [route_add], or the removal *)
Inductive Job := JobAdd (family : AddressFamily) (route : RouteSpec) | JobRemove (family : AddressFamily) (route : RouteSpec).

(** Where the event task is: between two jobs; in [route_add] before the first
    dump, before the deletion of another route, before that one leaves the
    list, before the second dump, before the addition; or before the deletion
    of a removed route. *)
Inductive EventPc :=
| EpIdle
| EpDump (family : AddressFamily) (route : RouteSpec)
| EpDelete (family : AddressFamily) (route : RouteSpec) (first : RouteMessage)
| EpForget (family : AddressFamily) (route : RouteSpec) (first : RouteMessage)
| EpRedump (family : AddressFamily) (route : RouteSpec)
| EpAdd (route : RouteSpec)
| EpRemove (route : RouteSpec).

(** [rr_jobs]: what is left of the event at hand; [rr_events]: the events after
    it *)
Record RouteRun (K : Type) := mkRouteRun {
  rr_state : RouteState K;
  rr_check : CheckPc;
  rr_event : EventPc;
  rr_jobs : list Job;
  rr_events : list Event;
}.
Arguments mkRouteRun {K} _ _ _ _ _.
Arguments rr_state {K} _.
Arguments rr_check {K} _.
Arguments rr_event {K} _.
Arguments rr_jobs {K} _.
Arguments rr_events {K} _.

Inductive RouteTurn := TkEvent | TkCheck.

Section Run.
Context `{RouteKernel K}.

(** The IPv6 list follows the IPv4 list. *)
Definition check_next (st : RouteState K) (family : AddressFamily) : CheckPc :=
  match family with Inet => CkCopied Inet6 (rt_v6_routes st) | Inet6 => CkIdle end.

Definition on_kernel (st : RouteState K) (k : K) : RouteState K := mkRouteState k (rt_routes st) (rt_v6_routes st).

Definition on_list (family : AddressFamily) (f : list RouteSpec -> list RouteSpec) (st : RouteState K) : RouteState K :=
  match family with
  | Inet => mkRouteState (rt_kernel st) (f (rt_routes st)) (rt_v6_routes st)
  | Inet6 => mkRouteState (rt_kernel st) (rt_routes st) (f (rt_v6_routes st))
  end.

Definition check_step (rr : RouteRun K) : RouteRun K :=
  let st := rr_state rr in
  let go st pc := mkRouteRun st pc (rr_event rr) (rr_jobs rr) (rr_events rr) in
  match rr_check rr with
  | CkIdle => go st (CkCopied Inet (rt_routes st))
  | CkCopied family routes =>
      match dump_routes (rt_kernel st) family with
      | Ok dumped => go st (CkDumped family dumped routes)
      | Err _ => go st (check_next st family)
      end
  | CkDumped family dumped [] => go st (check_next st family)
  | CkDumped family dumped (route :: routes) =>
      go (on_kernel st (check_route dumped (rt_kernel st) route)) (CkDumped family dumped routes)
  end.

Context (backend_type : string) (get_route get_v6_route : option (Lease -> RouteSpec)).

(** An event of [handle_subnet_events] *)
Definition event_jobs (evt : Event) : list Job :=
  let lease := ev_lease evt in
  if negb (String.eqb (la_backend_type (l_attrs lease)) backend_type) then []
  else
    let job family route := match ev_type evt with Added => JobAdd family route | Removed => JobRemove family route end in
    let v6 :=
      if l_enable_ipv6 lease then
        match get_v6_route with None => [] | Some gr6 => [job Inet6 (gr6 lease)] end
      else [] in
    if l_enable_ipv4 lease then
      match get_route with None => [] | Some gr => job Inet (gr lease) :: v6 end
    else v6.

(** The last listing of [route_add], whose result is not used, is left out. *)
Definition event_step (rr : RouteRun K) : RouteRun K :=
  let st := rr_state rr in
  let go st pc := mkRouteRun st (rr_check rr) pc (rr_jobs rr) (rr_events rr) in
  match rr_event rr with
  | EpIdle =>
      match rr_jobs rr with
      | JobAdd family route :: jobs =>
          mkRouteRun (on_list family (fun l => add_to_route_list l route) st) (rr_check rr) (EpDump family route) jobs (rr_events rr)
      | JobRemove family route :: jobs =>
          mkRouteRun (on_list family (fun l => remove_from_route_list l route) st) (rr_check rr) (EpRemove route) jobs (rr_events rr)
      | [] =>
          match rr_events rr with
          | evt :: events => mkRouteRun st (rr_check rr) EpIdle (event_jobs evt) events
          | [] => rr
          end
      end
  | EpDump family route =>
      match routes_by_dst (rt_kernel st) family route with
      | first :: _ => if negb (route_msg_matches first route) then go st (EpDelete family route first) else go st (EpRedump family route)
      | [] => go st (EpRedump family route)
      end
  | EpDelete family route first =>
      let '(k, res) := k_del (rt_kernel st) first in
      match res with
      | Err _ => go (on_kernel st k) EpIdle
      | Ok _ => go (on_kernel st k) (EpForget family route first)
      end
  | EpForget family route first => go (on_list family (fun l => remove_msg_from_route_list l first) st) (EpRedump family route)
  | EpRedump family route =>
      match routes_by_dst (rt_kernel st) family route with
      | first :: _ => if route_msg_matches first route then go st EpIdle else go st (EpAdd route)
      | [] => go st (EpAdd route)
      end
  | EpAdd route => go (on_kernel st (k_add (rt_kernel st) (to_message route)).1) EpIdle
  | EpRemove route => go (on_kernel st (k_del (rt_kernel st) (to_message route)).1) EpIdle
  end.

Definition route_turn (rr : RouteRun K) (t : RouteTurn) : RouteRun K :=
  match t with TkEvent => event_step rr | TkCheck => check_step rr end.

Definition route_run (turns : list RouteTurn) (rr : RouteRun K) : RouteRun K := fold_left route_turn turns rr.

(** [run_route_network] on the events that the watch delivers: both lists are
    empty at first; without a netlink connection there is no network. *)
Definition run_route_network `{SubnetManager K} (events : list Event) (turns : list RouteTurn) (k : K) : RouteRun K :=
  match sm_netlink k with
  | (k, Err _) => mkRouteRun (mkRouteState k [] []) CkIdle EpIdle [] []
  | (k, Ok _) => route_run turns (mkRouteRun (mkRouteState k [] []) CkIdle EpIdle [] events)
  end.
End Run.

(** * Theorems *)

(** ** A task alone *)

Section Alone.
Context `{RouteKernel K}.

Lemma check_routes_alone family dumped routes (st : RouteState K) ep jobs events :
  Nat.iter (S (length routes)) check_step (mkRouteRun st (CkDumped family dumped routes) ep jobs events)
  = let st' := on_kernel st (fold_left (check_route dumped) routes (rt_kernel st)) in
    mkRouteRun st' (check_next st' family) ep jobs events.
Proof.
  revert st. induction routes as [|r routes IH]; intros st; [by destruct st|].
  cbn [length]. rewrite Nat.iter_succ_r. cbn [check_step rr_check rr_state rr_event rr_jobs rr_events]. by rewrite IH.
Qed.

Lemma check_family_alone family routes (st : RouteState K) ep jobs events :
  exists n, Nat.iter n check_step (mkRouteRun st (CkCopied family routes) ep jobs events)
    = let st' := on_kernel st (check_subnet_exist_in_routes (rt_kernel st) routes family) in
      mkRouteRun st' (check_next st' family) ep jobs events.
Proof.
  unfold check_subnet_exist_in_routes. destruct (dump_routes (rt_kernel st) family) as [dumped|e] eqn:Hd.
  - exists (S (S (length routes))). rewrite Nat.iter_succ_r. cbn [check_step rr_check rr_state rr_event rr_jobs rr_events]. rewrite Hd.
    apply check_routes_alone.
  - exists 1%nat. cbn. rewrite Hd. by destruct st.
Qed.

(** Without a turn of the event task in between, the turns of the check make
    the round that [route_check_restores] is about. *)
Theorem check_round_alone (st : RouteState K) ep jobs events :
  exists n, Nat.iter n check_step (mkRouteRun st CkIdle ep jobs events) = mkRouteRun (route_check_round st) CkIdle ep jobs events.
Proof.
  destruct (check_family_alone Inet (rt_routes st) st ep jobs events) as [n1 H1]. cbv zeta in H1. set (st1 := on_kernel _ _) in H1.
  destruct (check_family_alone Inet6 (rt_v6_routes st1) st1 ep jobs events) as [n2 H2]. exists (n2 + (n1 + 1))%nat.
  rewrite !Nat.iter_add.
  change (Nat.iter 1 check_step (mkRouteRun st CkIdle ep jobs events)) with (mkRouteRun st (CkCopied Inet (rt_routes st)) ep jobs events).
  by rewrite H1.
Qed.

Context (bt : string) (gr gr6 : option (Lease -> RouteSpec)).
#[local] Abbreviation step := (event_step bt gr gr6).

Definition job_done (j : Job) (st : RouteState K) : RouteState K :=
  let change family route f :=
    let '(k, routes) := f (rt_kernel st) (match family with Inet => rt_routes st | Inet6 => rt_v6_routes st end) in
    on_list family (fun _ => routes) (on_kernel st k) in
  match j with
  | JobAdd family route => change family route (fun k l => route_add k family route l)
  | JobRemove family route => change family route (fun k l => route_remove k route l)
  end.

Lemma redump_alone (st : RouteState K) family route cp jobs events :
  exists n, Nat.iter n step (mkRouteRun st cp (EpRedump family route) jobs events)
    = mkRouteRun (on_kernel st (route_add_missing (rt_kernel st) family route)) cp EpIdle jobs events.
Proof.
  unfold route_add_missing. destruct (routes_by_dst (rt_kernel st) family route) as [|first l] eqn:Hr.
  - exists 2%nat. cbn. by rewrite Hr.
  - destruct (route_msg_matches first route) eqn:Hm.
    + exists 1%nat. cbn. rewrite Hr, Hm. by destruct st.
    + exists 2%nat. cbn. by rewrite Hr, Hm.
Qed.

(** The turns of a job make what the job of [RouteNetwork] makes at once. *)
Lemma job_alone (st : RouteState K) j cp jobs events :
  exists n, Nat.iter n step (mkRouteRun st cp EpIdle (j :: jobs) events) = mkRouteRun (job_done j st) cp EpIdle jobs events.
Proof.
  destruct j as [family route|family route].
  2: { exists 2%nat. by destruct family. }
  unfold job_done, route_add. set (l := match family with Inet => _ | Inet6 => _ end).
  set (st1 := on_list family (fun l => add_to_route_list l route) st).
  assert (rt_kernel st1 = rt_kernel st) as Hk1 by by destruct family.
  assert (Nat.iter 1 step (mkRouteRun st cp EpIdle (JobAdd family route :: jobs) events) = mkRouteRun st1 cp (EpDump family route) jobs events)
    as H1 by done.
  assert (forall k, on_list family (fun _ => add_to_route_list l route) (on_kernel st k) = on_kernel st1 k) as Hst1
    by (intros k; by destruct family).
  destruct (routes_by_dst (rt_kernel st) family route) as [|first rest] eqn:Hr.
  - destruct (redump_alone st1 family route cp jobs events) as [n Hn]. exists (n + (1 + 1))%nat. rewrite !Nat.iter_add, H1.
    cbn [Nat.iter nat_rect step event_step rr_event rr_state rr_check rr_jobs rr_events]. rewrite Hk1, Hr, Hn, Hst1. by rewrite Hk1.
  - destruct (route_msg_matches first route) eqn:Hm; cbn [negb].
    + destruct (redump_alone st1 family route cp jobs events) as [n Hn]. exists (n + (1 + 1))%nat. rewrite !Nat.iter_add, H1.
      cbn [Nat.iter nat_rect step event_step rr_event rr_state rr_check rr_jobs rr_events]. rewrite Hk1, Hr, Hm. cbn [negb].
      rewrite Hn, Hst1. by rewrite Hk1.
    + assert (step (mkRouteRun st1 cp (EpDump family route) jobs events) = mkRouteRun st1 cp (EpDelete family route first) jobs events) as H2
        by (unfold event_step; cbn [rr_event rr_state rr_check rr_jobs rr_events]; by rewrite Hk1, Hr, Hm).
      destruct (k_del (rt_kernel st) first) as [k [u|e]] eqn:Hd.
      * assert (step (mkRouteRun st1 cp (EpDelete family route first) jobs events)
                = mkRouteRun (on_kernel st1 k) cp (EpForget family route first) jobs events) as H3
          by (unfold event_step; cbn [rr_event rr_state rr_check rr_jobs rr_events]; by rewrite Hk1, Hd).
        destruct (redump_alone (on_list family (fun l => remove_msg_from_route_list l first) (on_kernel st1 k)) family route cp jobs events) as [n Hn].
        exists (n + (1 + (1 + (1 + 1))))%nat. rewrite !Nat.iter_add, H1. cbn [Nat.iter nat_rect]. rewrite H2, H3.
        cbn [event_step rr_event rr_state rr_check rr_jobs rr_events]. rewrite Hn. by destruct family.
      * exists (1 + (1 + 1))%nat. rewrite !Nat.iter_add, H1. cbn [Nat.iter nat_rect]. rewrite H2.
        unfold event_step. cbn [rr_event rr_state rr_check rr_jobs rr_events]. by rewrite Hk1, Hd, Hst1.
Qed.

Lemma jobs_alone (st : RouteState K) js cp events :
  exists n, Nat.iter n step (mkRouteRun st cp EpIdle js events) = mkRouteRun (fold_left (fun st j => job_done j st) js st) cp EpIdle [] events.
Proof.
  revert st. induction js as [|j js IH]; intros st; [by exists 0%nat|].
  destruct (job_alone st j cp js events) as [n1 H1], (IH (job_done j st)) as [n2 H2]. exists (n2 + n1)%nat. by rewrite Nat.iter_add, H1, H2.
Qed.

(** Without a turn of the check in between, the turns of the event task make
    what [handle_subnet_event] makes of its event at once. *)
Theorem event_alone (st : RouteState K) e cp events :
  exists n, Nat.iter n step (mkRouteRun st cp EpIdle [] (e :: events))
    = mkRouteRun (handle_subnet_event bt gr gr6 st e) cp EpIdle [] events.
Proof.
  destruct (jobs_alone st (event_jobs bt gr gr6 e) cp events) as [n Hn]. exists (n + 1)%nat. rewrite Nat.iter_add.
  change (Nat.iter 1 step (mkRouteRun st cp EpIdle [] (e :: events))) with (mkRouteRun st cp EpIdle (event_jobs bt gr gr6 e) events).
  rewrite Hn. f_equal. clear n Hn. unfold event_jobs, handle_subnet_event.
  destruct (negb _); [done|]. destruct (l_enable_ipv4 _), (l_enable_ipv6 _), gr as [g|], gr6 as [g6|]; cbn; try done;
    destruct (ev_type e); cbn; try done; destruct (route_add (rt_kernel st) _ _ _); cbn; try done; by destruct (route_add _ _ _ _).
Qed.
End Alone.

(** ** The tasks together *)

Section Interleaved.
Context `{RouteKernelLaws K} (link : Z) (hop : RouteKey -> RouteSpec).

#[local] Abbreviation gw := (hostgw_get_route link).
#[local] Abbreviation step := (event_step "host-gw" (Some gw) (Some (hostgw_get_v6_route link))).

(** The route to a destination is always the same one. *)
Definition steady (s : RouteSpec) : Prop := plain_v4 s /\ hop (spec_key s) = s.

(** An IPv4 event whose lease keeps the gateway of its subnet *)
Definition keeps_gateway (e : Event) : Prop := ipv4_event e /\ (own_event "host-gw" e = true -> steady (gw (ev_lease e))).

Definition present (k : K) (s : RouteSpec) : Prop :=
  exists m, k_table k !! spec_key s = Some m /\ route_msg_matches m s = true.

(** Nothing is in the way of [s]. *)
Definition unblocked (k : K) (s : RouteSpec) : Prop :=
  forall m, k_table k !! spec_key s = Some m -> route_msg_matches m s = true.

Definition steady_job (j : Job) : Prop :=
  match j with JobAdd family s | JobRemove family s => family = Inet /\ steady s end.

Definition steady_check (pc : CheckPc) : Prop :=
  match pc with
  | CkIdle => True
  | CkCopied Inet routes | CkDumped Inet _ routes => Forall steady routes
  | CkCopied Inet6 routes | CkDumped Inet6 _ routes => routes = []
  end.

(** The recorded route that the event task is adding *)
Definition adding (pc : EventPc) : option RouteSpec :=
  match pc with
  | EpIdle | EpRemove _ => None
  | EpDump _ s | EpDelete _ s _ | EpForget _ s _ | EpRedump _ s | EpAdd s => Some s
  end.

(** What the event task knows where it is *)
Definition event_sound (pc : EventPc) (k : K) (routes : list RouteSpec) : Prop :=
  match pc with
  | EpIdle => True
  | EpDump family s => family = Inet /\ steady s
  | EpDelete family s first =>
      family = Inet /\ steady s /\ k_table k !! spec_key s = Some first /\ route_msg_matches first s = false
  | EpForget family s first =>
      family = Inet /\ steady s /\ msg_key first = spec_key s /\ route_msg_matches first s = false /\ unblocked k s
  | EpRedump family s => family = Inet /\ steady s /\ unblocked k s
  | EpAdd s => steady s /\ unblocked k s
  | EpRemove s => steady s /\ (s ∉ routes)
  end.

Record run_sound (rr : RouteRun K) : Prop := {
  rs_keys : NoDup (map spec_key (rt_routes (rr_state rr)));
  rs_steady : Forall steady (rt_routes (rr_state rr));
  rs_v6 : rt_v6_routes (rr_state rr) = [];
  rs_check : steady_check (rr_check rr);
  rs_event : event_sound (rr_event rr) (rt_kernel (rr_state rr)) (rt_routes (rr_state rr));
  rs_jobs : Forall steady_job (rr_jobs rr);
  rs_events : Forall keeps_gateway (rr_events rr);
  (** every recorded route is in the kernel, but the one being added *)
  rs_present : forall s, s ∈ rt_routes (rr_state rr) -> adding (rr_event rr) <> Some s -> present (rt_kernel (rr_state rr)) s;
}.

Lemma steady_same s s' : steady s -> steady s' -> spec_key s = spec_key s' -> s = s'.
Proof. intros [_ Hs] [_ Hs'] Hk. by rewrite <- Hs, <- Hs', Hk. Qed.

(** A kernel in which routes to free destinations were added *)
Definition extends (k k' : K) : Prop := forall key m, k_table k !! key = Some m -> k_table k' !! key = Some m.

Lemma present_extends k k' s : extends k k' -> present k s -> present k' s.
Proof. intros He (m & Hm & Hs). exists m. split; [by apply He|done]. Qed.

Lemma add_steady k s : steady s -> extends k (k_add k (to_message s)).1
  /\ (forall s', steady s' -> unblocked k s' -> unblocked (k_add k (to_message s)).1 s')
  /\ (unblocked k s -> present (k_add k (to_message s)).1 s).
Proof.
  intros [Hp Hh]. destruct (to_message_plain s Hp) as [Hk Hm]. pose proof (k_add_table k (to_message s)) as Ha. rewrite Hk in Ha.
  destruct (k_add k (to_message s)) as [k' res]. cbn [fst]. destruct (k_table k !! spec_key s) as [m|] eqn:E; cbn [is_some] in Ha;
    destruct Ha as [_ Ht]; unfold extends, unblocked, present; rewrite Ht.
  - split_and!; [done|done|]. intros Hu. exists m. split; [done|by apply Hu].
  - split_and!.
    + intros key x Hx. rewrite lookup_insert_ne; [done|]. intros <-. congruence.
    + intros s' Hs' Hu x. destruct (decide (spec_key s = spec_key s')) as [Heq|Hne].
      * rewrite <- Heq, lookup_insert_eq. intros [= <-]. by rewrite <- (steady_same s s').
      * rewrite lookup_insert_ne by done. apply Hu.
    + intros _. exists (to_message s). by rewrite lookup_insert_eq.
Qed.

(** *** The check *)

Lemma event_sound_extends pc (k k' : K) routes :
  extends k k' -> (forall s, steady s -> unblocked k s -> unblocked k' s) -> event_sound pc k routes -> event_sound pc k' routes.
Proof. intros He Hu. destruct pc; cbn; intuition auto. Qed.

Lemma check_route_sound dumped (k : K) s :
  steady s -> extends k (check_route dumped k s) /\ (forall s', steady s' -> unblocked k s' -> unblocked (check_route dumped k s) s').
Proof.
  intros Hs. unfold check_route. destruct (existsb _ dumped); [split; by intros ?|]. destruct (add_steady k s Hs) as (? & ? & _). done.
Qed.

Lemma check_step_sound rr :
  run_sound rr -> run_sound (check_step rr) /\ rt_routes (rr_state (check_step rr)) = rt_routes (rr_state rr).
Proof.
  intros [Hnd Hst H6 Hck Hep Hj Hev Hpr]. unfold check_step.
  assert (forall family, steady_check (check_next (rr_state rr) family)) as Hn by (by intros []; cbn).
  assert (forall pc, steady_check pc -> run_sound (mkRouteRun (rr_state rr) pc (rr_event rr) (rr_jobs rr) (rr_events rr))) as Hgo by done.
  destruct (rr_check rr) as [|family routes|family dumped [|s routes]].
  - split; [by apply Hgo|done].
  - destruct (dump_routes _ family); (split; [apply Hgo; by destruct family|done]).
  - split; [by apply Hgo|done].
  - destruct family; cbn [steady_check] in Hck; [|done]. apply list.Forall_cons in Hck as [Hs Hck].
    destruct (check_route_sound dumped (rt_kernel (rr_state rr)) s Hs) as [He Hu]. split; [|done]. split; try done; cbn.
    + by eapply event_sound_extends.
    + intros x Hx Ha. eapply present_extends; [exact He|by apply Hpr].
Qed.

(** *** The lists *)

Lemma steady_keys routes s : Forall steady routes -> steady s -> s ∉ routes -> spec_key s ∉ map spec_key routes.
Proof.
  intros Hf Hs Hn (x & Hk & Hx)%list_elem_of_fmap. rewrite list.Forall_forall in Hf. apply Hn.
  by rewrite (steady_same s x Hs (Hf x Hx) Hk).
Qed.

Lemma steady_plain routes : Forall steady routes -> Forall plain_v4 routes.
Proof. intros Hf. eapply list.Forall_impl; [exact Hf|]. by intros x []. Qed.

Lemma add_to_list_sound routes s :
  NoDup (map spec_key routes) -> Forall steady routes -> steady s ->
  let routes' := add_to_route_list routes s in
  NoDup (map spec_key routes') /\ Forall steady routes' /\ (forall x, x ∈ routes' -> x = s \/ x ∈ routes)
  /\ recorded routes' = <[spec_key s := s]> (recorded routes).
Proof.
  intros Hnd Hf Hs. unfold add_to_route_list. rewrite existsb_plain; [|by apply steady_plain|by destruct Hs].
  case_bool_decide as Hin; cbn [negb].
  - split_and!; [done..|by auto|]. rewrite insert_id; [done|]. by apply recorded_lookup.
  - destruct (snoc_route routes s Hnd (steady_keys _ _ Hf Hs Hin)) as [Hnd' Hr]. split_and!; [done| | |done].
    + apply list.Forall_app. split; [done|]. by constructor.
    + intros x [Hx|Hx%list_elem_of_singleton]%elem_of_app; auto.
Qed.

Lemma remove_from_list_sound routes s :
  NoDup (map spec_key routes) -> Forall steady routes -> steady s ->
  let routes' := remove_from_route_list routes s in
  NoDup (map spec_key routes') /\ Forall steady routes' /\ (forall x, x ∈ routes' -> x ∈ routes) /\ (s ∉ routes')
  /\ recorded routes' = if decide (recorded routes !! spec_key s = Some s) then delete (spec_key s) (recorded routes) else recorded routes.
Proof.
  intros Hnd Hf Hs. unfold remove_from_route_list. pose proof (position_plain routes s (steady_plain _ Hf) (proj1 Hs)) as Hp.
  destruct (position _ routes) as [i|].
  - destruct (delete_route routes i s Hnd Hp) as (Hnd' & Hr & Hin). split_and!; [done| |by intros x []%Hin|by intros []%Hin|].
    + rewrite list.Forall_forall in Hf |- *. intros x [Hx _]%Hin. by apply Hf.
    + rewrite decide_True; [done|]. apply recorded_lookup; [done|]. split; [by eapply list_elem_of_lookup_2|done].
  - split_and!; [done..|]. rewrite decide_False; [done|]. rewrite recorded_lookup by done. by intros [].
Qed.

(** The route that was deleted to make room for [s] was not a recorded one. *)
Lemma forget_foreign routes s first :
  Forall steady routes -> steady s -> msg_key first = spec_key s -> route_msg_matches first s = false ->
  remove_msg_from_route_list routes first = routes.
Proof.
  intros Hf Hs Hk Hm. unfold remove_msg_from_route_list. destruct (position _ routes) as [i|] eqn:Hp; [|done]. exfalso.
  apply position_Some in Hp as (y & Hi & Hy). apply list_elem_of_lookup_2 in Hi. rewrite list.Forall_forall in Hf.
  specialize (Hf y Hi). pose proof (matches_key first y Hy) as Hky. pose proof Hk as Hfam. unfold msg_key, spec_key in Hfam.
  destruct Hs as [(Hfs & Hps) Hh] eqn:Es. pose proof Hf as [(Hfy & _) _].
  rewrite (steady_same y s Hf (conj (conj Hfs Hps) Hh)) in Hy; [congruence|]. rewrite <- Hky, Hk; [done|]. congruence.
Qed.

(** *** The event task *)

Definition want_job (w : gmap RouteKey RouteSpec) (j : Job) : gmap RouteKey RouteSpec :=
  match j with
  | JobAdd _ s => <[spec_key s := s]> w
  | JobRemove _ s => if decide (w !! spec_key s = Some s) then delete (spec_key s) w else w
  end.

(** What the routes come to when the event task has done all its work *)
Definition run_target (rr : RouteRun K) : gmap RouteKey RouteSpec :=
  fold_left (want_route "host-gw" gw) (rr_events rr) (fold_left want_job (rr_jobs rr) (recorded (rt_routes (rr_state rr)))).

Lemma event_jobs_steady e :
  keeps_gateway e -> let jobs := event_jobs "host-gw" (Some gw) (Some (hostgw_get_v6_route link)) e in
  Forall steady_job jobs /\ forall w, fold_left want_job jobs w = want_route "host-gw" gw w e.
Proof.
  intros [[H4 H6] Hs]. unfold event_jobs, want_route, own_event in *. rewrite H4, H6.
  destruct (String.eqb _ "host-gw"); cbn [negb]; [|by split]. specialize (Hs eq_refl).
  destruct (ev_type e); (split; [repeat constructor; apply Hs|done]).
Qed.

Ltac run_simpl :=
  cbn [rr_state rr_check rr_event rr_jobs rr_events rt_kernel rt_routes rt_v6_routes event_step on_list on_kernel fold_left want_job
       event_sound adding steady_job] in *.

(** The turns in which the event task takes up its next job or event *)
Lemma next_job_sound rr :
  rr_event rr = EpIdle -> run_sound rr -> run_sound (step rr) /\ run_target (step rr) = run_target rr.
Proof.
  destruct rr as [[k routes v6] ck ep jobs events]. cbn [rr_event]. intros -> [Hnd Hst H6 Hck _ Hj Hev Hpr]. unfold run_target. run_simpl.
  destruct jobs as [|[family s|family s] jobs].
  - destruct events as [|e events]; [done|]. apply list.Forall_cons in Hev as [He Hev].
    destruct (event_jobs_steady e He) as [Hjobs Hw]. split; [by split|]. run_simpl. by rewrite Hw.
  - apply list.Forall_cons in Hj as [[-> Hs] Hj]. destruct (add_to_list_sound routes s Hnd Hst Hs) as (Hnd' & Hst' & Hin & Hr).
    split; [|run_simpl; by rewrite Hr]. split; run_simpl; try done. intros x [->|Hx]%Hin Hne; [by destruct Hne|by apply Hpr].
  - apply list.Forall_cons in Hj as [[-> Hs] Hj]. destruct (remove_from_list_sound routes s Hnd Hst Hs) as (Hnd' & Hst' & Hin & Hni & Hr).
    split; [|run_simpl; by rewrite Hr]. split; run_simpl; try done. intros x Hx _. by apply Hpr; [apply Hin|].
Qed.

(** The listing of the destination of a steady route *)
Lemma list_steady (k : K) s : steady s ->
  match k_table k !! spec_key s with Some m => exists l, routes_by_dst k Inet s = m :: l | None => routes_by_dst k Inet s = [] end.
Proof. intros [(Hf & _) _]. pose proof (routes_by_dst_table k s) as Hr. by rewrite Hf in Hr. Qed.

(** A turn of the event task within a job: the lists stay as they are, and
    the kernel changes at the destination of the job. *)
Lemma within_job_sound rr :
  rr_event rr <> EpIdle -> run_sound rr -> run_sound (step rr) /\ run_target (step rr) = run_target rr.
Proof.
  destruct rr as [[k routes v6] ck ep jobs events]. intros Hep [Hnd Hst H6 Hck Hs Hj Hev Hpr]. unfold run_target. run_simpl.
  assert (forall ep', event_sound ep' k routes -> (adding ep' = adding ep \/ exists s, adding ep = Some s /\ present k s) ->
    run_sound (mkRouteRun (mkRouteState k routes v6) ck ep' jobs events)) as Hgo.
  { intros ep' He [Ha|(s & Ha & Hp)]; (split; run_simpl; try done; intros x Hx Hne); [apply Hpr; congruence|].
    destruct (decide (x = s)) as [->|Hxs]; [done|]. apply Hpr; congruence. }
  destruct ep as [|family s|family s first|family s first|family s|s|s]; [done|..]; run_simpl.
  - destruct Hs as [-> Hs]. pose proof (list_steady k s Hs) as Hl. split; [|by repeat case_match].
    destruct (k_table k !! spec_key s) as [m|] eqn:E.
    + destruct Hl as [l ->]. destruct (route_msg_matches m s) eqn:Hm; cbn [negb]; apply Hgo; run_simpl; auto.
      split_and!; [done..|]. unfold unblocked. rewrite E. by intros ? [= <-].
    + rewrite Hl. apply Hgo; run_simpl; auto. split_and!; [done..|]. unfold unblocked. by rewrite E.
  - destruct Hs as (-> & Hs & E & Hm). pose proof (k_table_key _ _ _ E) as Hkey. pose proof (k_del_table k first) as Hd.
    destruct (k_del k first) as [k' res]. rewrite Hkey, E, decide_True in Hd by done. destruct Hd as [Hok Ht]. destruct res as [u|e]; [|done].
    split; [|done]. split; run_simpl; try done.
    + split_and!; [done..|]. unfold unblocked. rewrite Ht, lookup_delete_eq. done.
    + intros x Hx Hne. destruct (Hpr x Hx Hne) as (m & Hmx & Hmm). exists m. rewrite Ht, lookup_delete_ne; [done|].
      intros Hk. rewrite list.Forall_forall in Hst. apply Hne. f_equal. by apply steady_same; [..|apply Hst|].
  - destruct Hs as (-> & Hs & Hkey & Hm & Hu). run_simpl. rewrite (forget_foreign routes s first) by done. split; [|done]. apply Hgo; run_simpl; auto.
  - destruct Hs as (-> & Hs & Hu). pose proof (list_steady k s Hs) as Hl. split; [|by repeat case_match].
    destruct (k_table k !! spec_key s) as [m|] eqn:E.
    + destruct Hl as [l ->]. rewrite (Hu m E). apply Hgo; [done|]. right. exists s. split; [done|]. exists m. auto.
    + rewrite Hl. apply Hgo; run_simpl; auto.
  - destruct Hs as [Hs Hu]. destruct (add_steady k s Hs) as (He & _ & Hadd). split; [|done]. split; run_simpl; try done.
    intros x Hx _. destruct (decide (x = s)) as [->|Hne]; [by apply Hadd|]. eapply present_extends; [exact He|]. apply Hpr; congruence.
  - destruct Hs as [Hs Hni]. split; [|done]. split; run_simpl; try done. intros x Hx _. destruct (Hpr x Hx) as (m & Hm & Hmm); [done|].
    exists m. split; [|done]. rewrite list.Forall_forall in Hst.
    assert (spec_key s <> spec_key x) as Hk by (intros Hk; apply Hni; by rewrite (steady_same s x Hs (Hst x Hx) Hk)).
    pose proof (route_remove_table k s (proj1 Hs)) as Ht. cbn zeta in Ht. repeat case_match; rewrite Ht; try done. by rewrite lookup_delete_ne.
Qed.

Lemma turn_sound t rr :
  run_sound rr -> let rr' := route_turn "host-gw" (Some gw) (Some (hostgw_get_v6_route link)) rr t in
  run_sound rr' /\ run_target rr' = run_target rr.
Proof.
  intros Hs. destruct t; cbn [route_turn].
  - destruct (rr_event rr) eqn:He; [by apply next_job_sound|..]; apply within_job_sound; congruence.
  - destruct (check_step_sound rr Hs) as [Hs' Hr]. split; [done|]. unfold run_target. rewrite Hr. unfold check_step.
    by repeat case_match.
Qed.

(** *** The event task comes to its end *)

(** The turns that the event task needs at most *)
Definition run_work (rr : RouteRun K) : nat :=
  match rr_event rr with
  | EpIdle => 0 | EpDump _ _ => 5 | EpDelete _ _ _ => 4 | EpForget _ _ _ => 3 | EpRedump _ _ => 2 | EpAdd _ => 1 | EpRemove _ => 1
  end + 6 * length (rr_jobs rr) + 13 * length (rr_events rr).

Lemma event_jobs_length bt gr gr6 e : (length (event_jobs bt gr gr6 e) <= 2)%nat.
Proof. unfold event_jobs. repeat case_match; cbn; lia. Qed.

Lemma event_step_work rr : (run_work (step rr) <= run_work rr - 1)%nat.
Proof.
  unfold run_work, event_step.
  destruct (rr_event rr) as [|family s|family s first|family s first|family s|s|s] eqn:Hep.
  2: { destruct (routes_by_dst _ _ _); [|destruct (negb _)]; cbn; lia. }
  2: { destruct (k_del _ _) as [k []]; cbn; lia. }
  2: { cbn; lia. }
  2: { destruct (routes_by_dst _ _ _); [|destruct (route_msg_matches _ _)]; cbn; lia. }
  2, 3: cbn; lia.
  destruct (rr_jobs rr) as [|[family s|family s] jobs] eqn:Hj; [|cbn; lia..].
  destruct (rr_events rr) as [|e events] eqn:Hev; [rewrite Hep, Hj, Hev; cbn; lia|].
  pose proof (event_jobs_length "host-gw" (Some gw) (Some (hostgw_get_v6_route link)) e) as Hl. cbn [rr_event rr_jobs rr_events length]. lia.
Qed.

Lemma check_step_work rr : run_work (check_step rr) = run_work rr.
Proof. unfold check_step. by repeat case_match. Qed.

Definition event_turns (turns : list RouteTurn) : nat :=
  length (List.filter (fun t => match t with TkEvent => true | TkCheck => false end) turns).

Lemma run_sound_done turns rr :
  run_sound rr -> let rr' := route_run "host-gw" (Some gw) (Some (hostgw_get_v6_route link)) turns rr in
  run_sound rr' /\ run_target rr' = run_target rr /\ (run_work rr' <= run_work rr - event_turns turns)%nat.
Proof.
  unfold route_run. revert rr. induction turns as [|t turns IH]; intros rr Hs; [cbn; split_and!; [done..|lia]|]. cbn [fold_left].
  destruct (turn_sound t rr Hs) as [Hs1 Ht1]. destruct (IH _ Hs1) as (Hs2 & Ht2 & Hw2). split_and!; [done|by rewrite Ht2|].
  destruct t; cbn [route_turn event_turns List.filter length] in *; fold (event_turns turns) in *.
  - pose proof (event_step_work rr). unfold event_turns in *. lia.
  - pose proof (check_step_work rr) as Hw. unfold event_turns in *. lia.
Qed.

Lemma work_done rr : run_work rr = 0%nat -> rr_event rr = EpIdle /\ rr_jobs rr = [] /\ rr_events rr = [].
Proof. unfold run_work. destruct (rr_event rr), (rr_jobs rr), (rr_events rr); cbn; try lia. done. Qed.

(** C31: the event task and the check of a host-gw network, interleaved in any
    way between their awaits, agree as long as every subnet keeps its gateway.
    At any time, every recorded route other than the one that the event task
    is adding is in the kernel; and once the event task has had thirteen turns
    per event, whatever turns of the check came between, it has handled all
    the events, the recorded routes are exactly those that the events ask for,
    and all of them are in the kernel.  Other routes to the same destinations
    that are in the kernel at the start, and not recorded, are replaced.  It is
    for IPv4 events, and a kernel whose table only these two tasks change; for
    a subnet that gets another gateway it fails ([check_race_blocks]). *)
Theorem route_run_refines turns events (st : RouteState K) ck :
  installed (rt_kernel st) (rt_routes st) -> Forall steady (rt_routes st) -> rt_v6_routes st = [] ->
  steady_check ck -> Forall keeps_gateway events ->
  let rr := route_run "host-gw" (Some gw) (Some (hostgw_get_v6_route link)) turns (mkRouteRun st ck EpIdle [] events) in
  (forall s, s ∈ rt_routes (rr_state rr) -> adding (rr_event rr) <> Some s -> present (rt_kernel (rr_state rr)) s)
  /\ ((13 * length events <= event_turns turns)%nat ->
      rr_event rr = EpIdle /\ rr_jobs rr = [] /\ rr_events rr = []
      /\ installed (rt_kernel (rr_state rr)) (rt_routes (rr_state rr))
      /\ recorded (rt_routes (rr_state rr)) = fold_left (want_route "host-gw" gw) events (recorded (rt_routes st))).
Proof.
  intros (Hnd & _ & Hi) Hst H6 Hck Hev rr.
  destruct (run_sound_done turns (mkRouteRun st ck EpIdle [] events)) as (Hs & Ht & Hw).
  { split; try done. intros s Hs _. by apply Hi. }
  fold rr in Hs, Ht, Hw. clearbody rr. split; [apply Hs|]. intros Hn.
  assert (run_work rr = 0%nat) as (He & Hj & Hes)%work_done by (unfold run_work at 2 in Hw; cbn in Hw; lia).
  split_and!; [done..| |].
  - destruct Hs as [Hnd' Hst' _ _ _ _ _ Hpr]. split_and!; [done|by apply steady_plain|]. intros s Hin. apply Hpr; [done|by rewrite He].
  - unfold run_target in Ht. by rewrite Hj, Hes in Ht.
Qed.
End Interleaved.

(** ** Examples *)

Definition race_lease : Lease := gw_lease 10 7.
Definition race_route : RouteSpec := hostgw_get_route 2 race_lease.

Definition race_start (events : list Event) : RouteRun Table :=
  mkRouteRun (mkRouteState (k_add (∅ : Table) (to_message race_route)).1 [race_route] []) CkIdle EpIdle [] events.

#[local] Abbreviation race := (route_run "host-gw" (Some (hostgw_get_route 2)) (Some (hostgw_get_v6_route 2))).

(** The subnet of the lease goes and comes back, and another one comes, with a
    check that is everywhere. *)
Definition race_events : list Event := [mkEvent Removed race_lease; mkEvent Added race_lease; mkEvent Added (gw_lease 11 8)].
Definition race_turns : list RouteTurn := concat (replicate 39 [TkCheck; TkEvent]).

Definition race_hop (key : RouteKey) : RouteSpec :=
  if decide (key = spec_key race_route) then race_route else hostgw_get_route 2 (gw_lease 11 8).

Lemma route_run_refines_witness :
  let rr := race race_turns (race_start race_events) in
  rr_events rr = [] /\ installed (rt_kernel (rr_state rr)) (rt_routes (rr_state rr)).
Proof.
  pose proof (route_run_refines (K := Table) 2 race_hop race_turns race_events (rr_state (race_start [])) CkIdle) as Hrun.
  assert (steady race_hop race_route) as Hr by (split; [apply hostgw_plain|by vm_compute]).
  assert (steady race_hop (hostgw_get_route 2 (gw_lease 11 8))) as Hr' by (split; [apply hostgw_plain|by vm_compute]).
  destruct Hrun as [_ Hdone].
  - split_and!; [apply NoDup_singleton|repeat constructor; cbn; eauto|]. intros s ->%list_elem_of_singleton.
    exists (to_message race_route). by vm_compute.
  - repeat constructor; apply Hr.
  - reflexivity.
  - exact I.
  - repeat constructor; cbn; intros; apply Hr || apply Hr'.
  - destruct Hdone as (_ & _ & He & Hi & _); [by vm_compute; lia|]. exact (conj He Hi).
Defined.

(** A check that has copied its routes puts back one that an event removes
    before the dump: the kernel keeps a route of a lease that is gone, and no
    later check takes it away, since it is recorded nowhere. *)
Theorem check_race_resurrects :
  let rr := race [TkCheck; TkEvent; TkEvent; TkEvent; TkCheck; TkCheck] (race_start [mkEvent Removed race_lease]) in
  rt_routes (rr_state rr) = [] /\ rr_event rr = EpIdle /\ rr_events rr = []
  /\ k_table (rt_kernel (rr_state rr)) !! spec_key race_route = Some (to_message race_route)
  /\ k_table (rt_kernel (route_check_round (rr_state rr))) !! spec_key race_route = Some (to_message race_route).
Proof. split_and!; by vm_compute. Qed.

(** When a subnet gets another gateway, a check that dumps the table between
    the deletion of the old route and the addition of the new one adds the old
    one again; the addition is then refused, and so is every later attempt of
    the check: the new route is recorded and never gets into the kernel, which
    goes on sending to the old gateway. *)
Theorem check_race_blocks :
  let route := hostgw_get_route 2 (gw_lease 10 8) in
  let rr := race ([TkEvent; TkEvent; TkEvent; TkEvent] ++ [TkCheck; TkCheck; TkCheck; TkCheck] ++ [TkEvent; TkEvent; TkEvent])
              (race_start [mkEvent Added (gw_lease 10 8)]) in
  rt_routes (rr_state rr) = [route] /\ rr_event rr = EpIdle /\ rr_events rr = [] /\ spec_key route = spec_key race_route
  /\ k_table (rt_kernel (rr_state rr)) !! spec_key route = Some (to_message race_route)
  /\ k_table (rt_kernel (route_check_round (rr_state rr))) !! spec_key route = Some (to_message race_route)
  /\ route_msg_matches (to_message race_route) route = false.
Proof. split_and!; by vm_compute. Qed.
