(* ===== verification/Cluster.v ===== *)
(** * From the API server to the kernel: the parts of a peer together

    The informer's events go through the lease event queue, the fan-out of
    the hub, the manager's watch, the lease watcher and the route network of
    the host-gw backend.  Each of these parts is modelled in a file of its
    own; [ClusterRun] is an execution of all of them, each fed with what the
    one before it delivers, and the theorem is about the routes that the last
    one leaves in the kernel. *)

From S2P Require Import Prelude RustStr IpNet Ip6Net Lease WatchLoop KubeNode KubeClient EventQueue Informer KubeAcquire EventHub RouteNetwork.
#[local] Open Scope string_scope.
#[local] Open Scope list_scope.
#[local] Open Scope Z_scope.

(** ** The queue without retries keeps the order *)

(** The calls of [enqueue_lease_event] *)
Definition queue_call (i : QueueInput) : list Emission := match i with QEnqueue name e => [(name, e)] | _ => [] end.
Definition queue_calls (ins : list QueueInput) : list Emission := concat (map queue_call ins).

Definition direct_input (i : QueueInput) : bool := match i with QEnqueue _ _ | QRecv => true | _ => false end.

(** No event had to be given to a retry task. *)
Definition never_full (q : EventQueue) : Prop := eq_tasks q = [] /\ eq_waiting q = None.

Lemma queue_calls_offered ins : map snd (queue_calls ins) = offered ins.
Proof.
  unfold queue_calls, offered. induction ins as [|i ins IH]; [done|]. cbn [map concat]. rewrite map_app, IH. by destruct i.
Qed.

Lemma queue_in_order capacity ins q out :
  queue_run (EventQueue_new capacity) ins = Some (q, out) -> forallb direct_input ins = true -> never_full q ->
  out ++ eq_buffer q = offered ins.
Proof.
  intros Hrun. enough (forallb direct_input ins = true -> eq_closed q = false /\ eq_cancelled q = false /\ (never_full q -> out ++ eq_buffer q = offered ins))
    as Hmain by (intros Hd; by apply Hmain).
  revert ins q out Hrun. apply (queue_run_ind (fun q ins out => forallb direct_input ins = true ->
    eq_closed q = false /\ eq_cancelled q = false /\ (never_full q -> out ++ eq_buffer q = offered ins))); [done|]. intros q ins out i q' o IH Hs Hd. rewrite forallb_app in Hd.
  apply andb_true_iff in Hd as [Hd Hi]. cbn in Hi. rewrite andb_true_r in Hi. destruct (IH Hd) as (Hcl & Hca & Hq). rewrite offered_snoc.
  destruct i; try done; cbn in Hs.
  - destruct (eq_waiting q) eqn:Hw; [done|]. injection Hs as <- <-. unfold enqueue_lease_event, try_send. rewrite Hcl, app_nil_r.
    destruct (_ <? _)%nat; cbn.
    + split_and!; [done..|]. intros [Ht _]. cbn in Ht. rewrite app_assoc. f_equal. by apply Hq.
    + unfold acquire_slot. rewrite Hca. destruct (eq_permits q); cbn; split_and!; try done; intros [Ht Hw']; cbn in *; [done|].
      by apply app_eq_nil in Ht as [_ Ht].
  - destruct (eq_buffer q) as [|e b] eqn:Hb; [done|]. injection Hs as <- <-. cbn. split_and!; [done..|]. intros [Ht Hw]. cbn in *.
    rewrite app_nil_r, <- (Hq (conj Ht Hw)), <- app_assoc. done.
Qed.

(** ** The manager's watch forwards every event *)

Definition event_result (e : Event) : LeaseWatchResult := mkLeaseWatchResult [e] [].

Lemma hub_watch_forwards events sent room tx :
  hub_watch_leases (mkReceiver sent room) (map (fun e => WiReceived (Some e)) events) = (WoRunning, tx) ->
  concat (rcv_sent tx) = concat sent ++ map event_result events.
Proof.
  revert sent room. induction events as [|e events IH]; intros sent room; cbn [map hub_watch_leases].
  { intros [= <-]. by rewrite app_nil_r. }
  unfold forward, rcv_send. cbn [rcv_room rcv_sent]. destruct room as [|room]; [done|]. intros ->%IH.
  rewrite concat_app. cbn. rewrite <- app_assoc. done.
Qed.

(** ** The lease watcher on single events *)

Section Watcher.
Context (v4 v6 : bool) (own : Lease).

Lemma reduced_singles events ls :
  Forall (fun e => has_flags v4 v6 (ev_lease e)) events -> leases_inv v4 v6 ls ->
  exists lw bs, reduced (mkLeaseWatcher (Some own) ls) (map event_result events) = Some (lw, bs)
    /\ concat bs = emitted_batch v4 v6 (leases_abs v4 v6 ls) (List.filter (not_own_event own) events)
    /\ (length bs <= length events)%nat.
Proof.
  intros Hf. revert ls. induction Hf as [|e events He Hf IH]; intros ls Hi; [by eexists _, []|].
  cbn [map reduced]. unfold reduce. cbn [event_result wr_events]. unfold LeaseWatcher_update. cbn [lw_own_lease lw_leases].
  destruct (update_fold v4 v6 own [e] ls [] (proj2 (Forall_cons_iff _ e []) (conj He (Forall_nil _))) Hi) as (ls1 & Hu & Hi1 & Ha). rewrite Hu. cbn [app].
  destruct (IH ls1 Hi1) as (lw & bs & Hr & Hc & Hl). rewrite Hr. eexists _, _. split; [done|].
  cbn [List.filter] in *. destruct (not_own_event own e).
  - cbn [emitted_batch concat length]. cbn [emitted_batch]. rewrite Hc, Ha. split; [done|]. cbn. lia.
  - cbn [emitted_batch]. rewrite Hc, Ha. split; [done|cbn; lia].
Qed.
End Watcher.

(** ** Leases by node and leases by subnet *)

Definition em_key (em : Emission) : LeaseKey := lease_key true false (ev_lease em.2).
Definition em_type (em : Emission) : string := la_backend_type (l_attrs (ev_lease em.2)).

(** A subnet is that of one node, for good, and a node keeps its backend. *)
Definition exclusive (out : list Emission) : Prop :=
  forall a b, a ∈ out -> b ∈ out -> (a.1 = b.1 <-> em_key a = em_key b) /\ (a.1 = b.1 -> em_type a = em_type b).

(** [m] has the leases of [v], by their keys. *)
Definition rekeyed (v : gmap string Lease) (m : gmap LeaseKey Lease) : Prop :=
  forall k l, m !! k = Some l <-> exists name, v !! name = Some l /\ lease_key true false l = k.

Section Rekey.
Context (all : list Emission) (Hall : exclusive all).

(** The names and keys of [v] occur together in [all]. *)
Definition occurs (v : gmap string Lease) : Prop :=
  forall name l, v !! name = Some l -> exists em, em ∈ all /\ em.1 = name /\ em_key em = lease_key true false l.

Lemma occurs_name v name l em : occurs v -> v !! name = Some l -> em ∈ all -> (name = em.1 <-> lease_key true false l = em_key em).
Proof.
  intros Hv Hl Hem. destruct (Hv name l Hl) as (em' & Hin & <- & <-). apply Hall; done.
Qed.

Lemma rekey_step v m em :
  em ∈ all -> occurs v -> rekeyed v m -> occurs (apply_emission v em) /\ rekeyed (apply_emission v em) (apply_event true false m em.2).
Proof.
  intros Hem Hv Hr. pose proof (fun name l => occurs_name v name l em Hv) as Hn. destruct em as [name [et l]].
  unfold apply_emission, apply_event, em_key in *. cbn [ev_type ev_lease fst snd] in *. destruct et; split.
  - intros n0 l0. rewrite lookup_insert_Some. intros [[<- <-]|[_ H0]]; [by exists (name, mkEvent Added l)|by apply Hv].
  - intros k0 l0. rewrite lookup_insert_Some. setoid_rewrite lookup_insert_Some. split.
    + intros [[<- <-]|[Hne Hm]]; [by exists name; split; [left|]|]. apply Hr in Hm as (n0 & H0 & <-). exists n0. split; [right|done].
      split; [|done]. intros ->. apply Hne. symmetry. by apply (Hn _ _ H0 Hem).
    + intros (n0 & [[<- <-]|[Hne H0]] & <-); [by left|]. right. split.
      * intros Hk. apply Hne. symmetry. by apply (Hn _ _ H0 Hem).
      * apply Hr. eauto.
  - intros n0 l0. rewrite lookup_delete_Some. intros [_ H0]. by apply Hv.
  - intros k0 l0. rewrite lookup_delete_Some. setoid_rewrite lookup_delete_Some. split.
    + intros [Hne Hm]. apply Hr in Hm as (n0 & H0 & <-). exists n0. split; [split; [|done]|done].
      intros ->. apply Hne. symmetry. by apply (Hn _ _ H0 Hem).
    + intros (n0 & [Hne H0] & <-). split; [|by apply Hr; eauto]. intros Hk. apply Hne. symmetry. by apply (Hn _ _ H0 Hem).
Qed.

Lemma rekey_fold out v m :
  (forall em, em ∈ out -> em ∈ all) -> occurs v -> rekeyed v m ->
  rekeyed (fold_left apply_emission out v) (fold_left (apply_event true false) (map snd out) m).
Proof.
  revert v m. induction out as [|em out IH]; intros v m Hin Hv Hr; [done|]. cbn [fold_left map].
  destruct (rekey_step v m em) as [Hv' Hr']; [apply Hin; by left|done..|]. apply IH; [|done..]. intros em' Hem'. apply Hin. by right.
Qed.
End Rekey.

(** The events about the own subnet leave the others alone. *)
Lemma own_filtered own es m k :
  Forall (fun e => has_flags true false (ev_lease e)) es ->
  fold_left (apply_event true false) (List.filter (not_own_event own) es) m !! k
  = if decide (k = lease_key true false own) then m !! k else fold_left (apply_event true false) es m !! k.
Proof.
  intros Hf. revert m. induction Hf as [|e es He Hf IH]; intros m; [by case_decide|]. cbn [List.filter fold_left].
  assert (not_own_event own e = bool_decide (lease_key true false (ev_lease e) <> lease_key true false own)) as ->.
  { unfold not_own_event, is_own. destruct He as [-> ->]. rewrite same_subnet_key. symmetry. apply eq_true_iff_eq.
    rewrite negb_true_iff, bool_decide_eq_true, bool_decide_eq_false. intuition congruence. }
  case_bool_decide as Hk; cbn [fold_left].
  - rewrite IH. case_decide as Hd; [|done]. unfold apply_event. destruct (ev_type e); [apply lookup_insert_ne|apply lookup_delete_ne]; congruence.
  - rewrite IH. case_decide as Hd; [done|].
    assert (forall m1 m2 : gmap LeaseKey Lease, m1 !! k = m2 !! k ->
      fold_left (apply_event true false) es m1 !! k = fold_left (apply_event true false) es m2 !! k) as Hlocal.
    { clear. induction es as [|e es IH]; intros m1 m2 Hm; [done|]. cbn [fold_left]. apply IH. unfold apply_event.
      destruct (ev_type e), (decide (lease_key true false (ev_lease e) = k)) as [->|];
        rewrite ?lookup_insert_eq, ?lookup_delete_eq, ?lookup_insert_ne, ?lookup_delete_ne by done; done. }
    apply Hlocal. unfold apply_event.
    destruct (ev_type e); [rewrite lookup_insert_ne|rewrite lookup_delete_ne]; congruence.
Qed.

(** ** Routes of the leases *)

Section Routes.
Context (link : Z) (backend : LeaseKey -> string).

(** A lease of the cluster: IPv4 only, a network that exists, and the backend
    that its node has *)
Definition proper_lease (l : Lease) : Prop :=
  has_flags true false l /\ 0 <= ip4n_plen (l_subnet l) <= 32 /\ la_backend_type (l_attrs l) = backend (lease_key true false l).

Definition proper_leases (m : gmap LeaseKey Lease) : Prop :=
  map_Forall (fun k l => lease_key true false l = k /\ proper_lease l) m.

(** [w] has the routes of the leases of [m] that are of the backend. *)
Definition routed (m : gmap LeaseKey Lease) (w : gmap RouteKey RouteSpec) : Prop :=
  forall rk s, w !! rk = Some s <->
    rk = spec_key s /\ exists k l, m !! k = Some l /\ la_backend_type (l_attrs l) = "host-gw" /\ s = hostgw_get_route link l.

Lemma route_key_inj l l' :
  proper_lease l -> proper_lease l' -> spec_key (hostgw_get_route link l) = spec_key (hostgw_get_route link l') ->
  lease_key true false l = lease_key true false l'.
Proof.
  intros (_ & Hp & _) (_ & Hp' & _). unfold spec_key, hostgw_get_route. cbn [rs_family rs_dst rs_prefix_len]. intros [= Hip Hlen].
  unfold wrap in Hlen. rewrite !Z.mod_small in Hlen by lia. unfold lease_key. cbn. by destruct (l_subnet l), (l_subnet l'); cbn in *; subst.
Qed.

(** One event, as the lease watcher passes it on *)
Lemma routed_step m w e :
  proper_leases m -> proper_lease (ev_lease e) -> routed m w ->
  let e' := emitted true false m e in
  ipv4_event e' /\ proper_leases (apply_event true false m e)
  /\ routed (apply_event true false m e) (want_route "host-gw" (hostgw_get_route link) w e').
Proof.
  intros Hm He Hr. destruct e as [et l]. unfold emitted, apply_event, want_route. cbn [ev_type ev_lease] in *. destruct et; cbn [ev_type ev_lease].
  - split; [by destruct He as [[]]|]. split; [by apply map_Forall_insert_2|].
    destruct (String.eqb_spec (la_backend_type (l_attrs l)) "host-gw") as [Hb|Hb]; cbn [negb].
    + intros rk s. rewrite lookup_insert_Some. split.
      * intros [[<- <-]|[Hne Hw]]; [split; [done|]; exists (lease_key true false l), l; by rewrite lookup_insert_eq|].
        apply Hr in Hw as [-> (k & l0 & Hk & Hb0 & ->)]. split; [done|]. exists k, l0. split; [|done]. rewrite lookup_insert_ne; [done|].
        intros <-. apply Hne. destruct (Hm _ _ Hk) as [Hkey _]. injection Hkey as Hsub. unfold spec_key. cbn. by rewrite Hsub.
      * intros [-> (k & l0 & Hk & Hb0 & ->)]. apply lookup_insert_Some in Hk as [[<- <-]|[Hne Hk]]; [by left|]. right. split.
        -- intros Hkey. apply Hne. destruct (Hm _ _ Hk) as [<- Hp0]. by apply route_key_inj.
        -- apply Hr. split; [done|]. eauto.
    + intros rk s. rewrite (Hr rk s). split; (intros [-> (k & l0 & Hk & Hb0 & ->)]; split; [done|]; exists k, l0; split; [|done]).
      * rewrite lookup_insert_ne; [done|]. intros <-. destruct (Hm _ _ Hk) as [Hkey (_ & _ & Hb1)]. destruct He as (_ & _ & Hb2). congruence.
      * apply lookup_insert_Some in Hk as [[<- <-]|[_ Hk]]; done.
  - destruct (m !! lease_key true false l) as [l0|] eqn:Hl; cbn [default from_option id].
    + destruct (Hm _ _ Hl) as [Hk0 Hp0]. split; [by destruct Hp0 as [[]]|]. split; [by apply map_Forall_delete|].
      destruct (String.eqb_spec (la_backend_type (l_attrs l0)) "host-gw") as [Hb|Hb]; cbn [negb].
      * rewrite decide_True by (apply Hr; split; [done|eauto]). intros rk s. rewrite lookup_delete_Some, (Hr rk s). split.
        -- intros [Hne [-> (k & l1 & Hk & Hb1 & ->)]]. split; [done|]. exists k, l1. split; [|done]. rewrite lookup_delete_Some. split; [|done].
           intros <-. apply Hne. rewrite Hl in Hk. by injection Hk as ->.
        -- intros [-> (k & l1 & Hk & Hb1 & ->)]. apply lookup_delete_Some in Hk as [Hne Hk]. split; [|by split; [done|eauto]].
           intros Hkey. apply Hne. rewrite <- Hk0. destruct (Hm _ _ Hk) as [<- Hp1]. by apply route_key_inj.
      * intros rk s. rewrite (Hr rk s). split; (intros [-> (k & l1 & Hk & Hb1 & ->)]; split; [done|]; exists k, l1; split; [|done]).
        -- rewrite lookup_delete_Some. split; [|done]. intros <-. rewrite Hl in Hk. injection Hk as ->. done.
        -- by apply lookup_delete_Some in Hk as [_ Hk].
    + split; [by destruct He as [[]]|]. rewrite delete_id by done. split; [done|]. destruct (String.eqb _ _); cbn [negb]; [|done].
      rewrite decide_False; [done|]. intros Hw. apply Hr in Hw as [_ (k & l1 & Hk & _ & Heq)]. destruct (Hm _ _ Hk) as [Hk1 Hp1].
      assert (lease_key true false l = lease_key true false l1) as Hkk by (apply route_key_inj; [done..|by rewrite Heq]).
      rewrite Hkk, Hk1 in Hl. congruence.
Qed.

Lemma routed_fold es m w :
  proper_leases m -> Forall (fun e => proper_lease (ev_lease e)) es -> routed m w ->
  Forall ipv4_event (emitted_batch true false m es)
  /\ routed (fold_left (apply_event true false) es m) (fold_left (want_route "host-gw" (hostgw_get_route link)) (emitted_batch true false m es) w).
Proof.
  intros Hm Hes. revert m w Hm. induction Hes as [|e es He Hes IH]; intros m w Hm Hr; [done|]. cbn [emitted_batch fold_left].
  destruct (routed_step m w e Hm He Hr) as (H4 & Hm' & Hr'). destruct (IH _ _ Hm' Hr') as [H4' Hr'']. split; [by constructor|done].
Qed.
End Routes.

(** ** The nodes behind the events *)

Definition input_nodes (i : InfInput) : list Node :=
  match i with
  | IiListed (Ok nodes) => nl_items nodes
  | IiItem (Some (Ok event)) => [we_object event]
  | _ => []
  end.

(** Every node that the API server has ever shown *)
Definition shown_nodes (ins : list InfInput) : list Node := concat (map input_nodes ins).

Section Sources.
Context `{RawJson} `{HashOrder} (env : EventEnv) (nodes : list Node).

Definition has_source (em : Emission) : Prop :=
  exists n, n ∈ nodes /\ em.1 = node_name n /\ node_lease env n = Some (ev_lease em.2).

Definition stored_shown (m : NodeMap) : Prop := map_Forall (fun _ n => n ∈ nodes) m.

Lemma add_source et n em : n ∈ nodes -> handle_add_lease_event env et n = Some em -> has_source em.
Proof.
  intros Hn. unfold handle_add_lease_event, lease_event, has_source, node_lease. destruct (node_managed env n) eqn:Hm; [|done]. cbn [negb].
  destruct (env_lease env n) as [l|] eqn:Hl; [|done]. intros [= <-]. exists n. by rewrite Hm, Hl.
Qed.

Lemma update_source old n em : n ∈ nodes -> handle_update_lease_event env old n = Some em -> has_source em.
Proof.
  intros Hn. unfold handle_update_lease_event. destruct (node_managed env n) eqn:Hm; [|done]. cbn [negb].
  destruct (lease_changed env old n); [|done]. cbn [negb]. intros Hl. apply (add_source Added n em Hn).
  unfold handle_add_lease_event. by rewrite Hm.
Qed.

Lemma omap_source {A} (f : A -> option Emission) l :
  (forall x em, x ∈ l -> f x = Some em -> has_source em) -> Forall has_source (omap f l).
Proof.
  intros Hf. apply list.Forall_forall. intros em (x & Hx & Hem)%list_elem_of_omap. by eapply Hf.
Qed.

Lemma emit_source o : (forall em, o = Some em -> has_source em) -> Forall has_source (emit o).
Proof. intros Ho. destruct o as [em|]; [|done]. repeat constructor. by apply Ho. Qed.

Lemma step_sources s i s' out :
  (forall n, n ∈ input_nodes i -> n ∈ nodes) -> stored_shown (sto_nodes (inf_store s)) -> informer_step env s i = Some (s', out) ->
  Forall has_source out /\ stored_shown (sto_nodes (inf_store s')).
Proof.
  intros Hi Hst. unfold informer_step, goto.
  destruct (inf_phase s), i as [[ns|]|[]|item| | |]; try done; try (by intros [= <- <-]).
  - intros [= <- <-]. cbn. split.
    + unfold reconcile_relist. apply Forall_app. split; apply omap_source.
      * intros n em Hn. unfold relist_item. destruct (_ !! _); [apply update_source|apply add_source]; by apply Hi.
      * intros [name n] em Hn. unfold relist_gone. case_bool_decide; [done|]. apply add_source. apply hash_iter_elem in Hn. by eapply Hst.
    + cbn in Hi. clear Hst. revert Hi. generalize (nl_items ns) as items. intros items.
      assert (stored_shown (∅ : NodeMap)) as Hm by apply map_Forall_empty. revert Hm. generalize (∅ : NodeMap) as m.
      induction items as [|n items IH]; intros m Hm Hi; [done|]. cbn [fold_left]. apply IH.
      * apply map_Forall_insert_2; [|done]. apply Hi. by left.
      * intros n' Hn'. apply Hi. by right.
  - unfold watch_item. destruct item as [[event|e]|]; [| |by intros [= <- <-]].
    2: { destruct e; by intros [= <- <-]. }
    destruct event as [et n]. cbn in Hi. specialize (Hi n ltac:(by left)).
    assert (stored_shown (<[node_name n := n]> (sto_nodes (inf_store s)))) as Hput by by apply map_Forall_insert_2.
    unfold dispatch, NodeStore_put, NodeStore_remove. cbn [we_event_type we_object].
    destruct et; intros [= <- <-]; cbn [inf_store sto_nodes]; (split; [|done || by apply map_Forall_delete]); try done; apply emit_source; intros em Hem.
    + destruct (_ !! _); [by eapply update_source|by eapply add_source].
    + by eapply update_source.
    + by eapply add_source.
  - intros [= <- <-]. split; [|done]. apply omap_source. intros n em Hn. apply update_source.
    unfold NodeStore_snapshot in Hn. apply list_elem_of_fmap in Hn as ([k n'] & -> & Hn). apply hash_iter_elem in Hn. by eapply Hst.
Qed.

Lemma run_sources ins s s' out :
  (forall n, n ∈ shown_nodes ins -> n ∈ nodes) -> stored_shown (sto_nodes (inf_store s)) -> run_node_informer env s ins = Some (s', out) ->
  Forall has_source out.
Proof.
  revert s out. induction ins as [|i ins IH]; intros s out Hn Hst; cbn [run_node_informer]; [by intros [= <- <-]|].
  destruct (informer_step env s i) as [[s1 o]|] eqn:Hs; [|done]. unfold shown_nodes in Hn. cbn [map concat] in Hn.
  destruct (step_sources s i s1 o) as [Ho Hst1]; [intros n Hin; apply Hn, elem_of_app; by left|done..|].
  destruct (run_node_informer env s1 ins) as [[s2 o2]|] eqn:Hr; [|done]. intros [= <- <-]. apply Forall_app. split; [done|].
  eapply IH; [|exact Hst1|exact Hr]. intros n Hin. apply Hn, elem_of_app. by right.
Qed.
End Sources.

(** ** An execution of the parts *)

Section ClusterRun.
Context `{RawJson} `{HashOrder} (a : Annotations) (own : Lease) (capacity room : nat).

(** An IPv4 cluster *)
Definition cluster_env : EventEnv := mkEventEnv a true false.

Record ClusterRun := mkClusterRun {
  cr_inputs : list InfInput;
  cr_state : InfState;
  cr_out : list Emission;
  cr_informer : run_node_informer cluster_env informer_init cr_inputs = Some (cr_state, cr_out);
  (** the handlers call [enqueue_lease_event]; [fan_out] receives *)
  cr_queue_inputs : list QueueInput;
  cr_queue : EventQueue;
  cr_received : list Event;
  cr_queue_run : queue_run (EventQueue_new capacity) cr_queue_inputs = Some (cr_queue, cr_received);
  cr_calls : queue_calls cr_queue_inputs = cr_out;
  (** [fan_out] publishes; the watch subscribes at some moment *)
  cr_before : list HubInput;
  cr_hub1 : EventHub;
  cr_hub_before : hub_run (EventHub_new capacity) cr_before = Some cr_hub1;
  cr_after : list HubInput;
  cr_hub : EventHub;
  cr_hub_after : hub_run cr_hub1 (HSubscribe :: cr_after) = Some cr_hub;
  cr_published : published cr_before ++ published cr_after = cr_received;
  (** the watch of the manager reads its channel and forwards *)
  cr_channel : HubChannel;
  cr_subscribed : hub_channels cr_hub !! length (hub_channels cr_hub1) = Some cr_channel;
  cr_read : list Event;
  cr_reads : prefix cr_read (hc_sent cr_channel);
  cr_tx : Receiver (list LeaseWatchResult);
  cr_watch : hub_watch_leases (mkReceiver [] room) (map (fun e => WiReceived (Some e)) cr_read) = (WoRunning, cr_tx);
  (** the loop of [watch_leases] receives the results and sends batches *)
  cr_loop_inputs : list WlInput;
  cr_loop : WlState;
  cr_results : concat (map input_results cr_loop_inputs) = concat (rcv_sent cr_tx);
  cr_loop_run : watch_leases_run (wl_init own (mkReceiver [] room)) cr_loop_inputs = Some cr_loop;
}.

(** The batches that the backend gets *)
Definition cr_batches (r : ClusterRun) : list (list Event) := rcv_sent (wl_rcv (cr_loop r)).

(** Everything has arrived, and nothing on the way was ever full. *)
Record all_arrived (r : ClusterRun) : Prop := {
  se_direct : forallb direct_input (cr_queue_inputs r) = true;
  se_never_full : never_full (cr_queue r);
  se_drained : eq_buffer (cr_queue r) = [];
  se_backlog : (length (published (cr_before r)) <= Nat.max capacity 1)%nat;
  se_open : hc_open (cr_channel r) = true;
  se_sent : in_flight (cr_hub r) (length (hub_channels (cr_hub1 r))) = [];
  se_read : cr_read r = hc_sent (cr_channel r);
  se_room : (length (cr_out r) <= room)%nat;
}.

(** The nodes of the cluster: a pod CIDR is that of one node, for good, and a
    node keeps its backend. *)
Definition exclusive_nodes (nodes : list Node) : Prop :=
  forall n1 n2 l1 l2, n1 ∈ nodes -> n2 ∈ nodes -> node_lease cluster_env n1 = Some l1 -> node_lease cluster_env n2 = Some l2 ->
    (node_name n1 = node_name n2 <-> l_subnet l1 = l_subnet l2)
    /\ (node_name n1 = node_name n2 -> la_backend_type (l_attrs l1) = la_backend_type (l_attrs l2)).

(** The batches are those of the emissions, in order. *)
Lemma arrived_batches (r : ClusterRun) :
  all_arrived r -> Forall (fun em => has_flags true false (ev_lease em.2)) (cr_out r) ->
  concat (cr_batches r) = emitted_batch true false ∅ (List.filter (not_own_event own) (map snd (cr_out r))).
Proof.
  intros [Hdir Hnf Hdr Hbl Hop Hse Hrd Hrm] Hf.
  pose proof (queue_in_order _ _ _ _ (cr_queue_run r) Hdir Hnf) as Hq. rewrite Hdr, app_nil_r, <- queue_calls_offered, cr_calls in Hq.
  destruct (subscriber_due _ _ _ _ _ (cr_hub_before r) (cr_hub_after r)) as (c & Hc & Hs & _). rewrite cr_subscribed in Hc. injection Hc as <-.
  specialize (Hs Hop). rewrite Hse, app_nil_r in Hs. unfold last_events in Hs. replace (length _ - _)%nat with 0%nat in Hs by lia.
  rewrite drop_0, cr_published, Hq in Hs.
  pose proof (hub_watch_forwards _ _ _ _ (cr_watch r)) as Hw. rewrite Hrd, Hs in Hw. cbn [concat app] in Hw.
  destruct (reduced_singles true false own (map snd (cr_out r)) []) as (lw & bs & Hr & Hcc & Hl); [by apply Forall_map|by split; constructor|].
  destruct (watch_leases_run_spec own (cr_loop_inputs r) (wl_init own (mkReceiver [] room)) (cr_loop r) lw bs) as (_ & Hsent & _).
  - by split.
  - apply cr_loop_run.
  - rewrite cr_results, Hw. exact Hr.
  - rewrite length_map in Hl. cbn. lia.
  - unfold cr_batches. rewrite Hsent. exact Hcc.
Qed.

Lemma cluster_lease_proper node l :
  node_lease cluster_env node = Some l -> has_flags true false l /\ 0 <= ip4n_plen (l_subnet l) <= 32.
Proof.
  unfold node_lease, env_lease, cluster_env. destruct (node_managed _ node); [|done]. cbn [ee_annotations ee_enable_ipv4 ee_enable_ipv6].
  destruct (node_to_lease node a true false) as [l'|] eqn:Hl; [|done]. intros [= ->].
  apply node_to_lease_spec in Hl as (H4 & H6 & _ & _ & _ & [(s & _ & Hs) _] & _). split; [done|].
  apply IP4Net_from_str_valid in Hs as [[_ Hv] _]. exact Hv.
Qed.
End ClusterRun.

(** ** The routes of a cluster *)

Section Converge.
Context `{RawJson, !RawJsonLaws} `{HashOrder} (a : Annotations) (own : Lease) (capacity room : nat).
Context `{RouteKernelLaws K} (link : Z).

(** The backend that handles the batches one after the other *)
Definition backend_state (batches : list (list Event)) (st : RouteState K) : RouteState K :=
  fold_left (fun st batch => handle_subnet_events "host-gw" (Some (hostgw_get_route link)) (Some (hostgw_get_v6_route link)) batch st) batches st.

Lemma backend_state_concat batches st :
  backend_state batches st
  = handle_subnet_events "host-gw" (Some (hostgw_get_route link)) (Some (hostgw_get_v6_route link)) (concat batches) st.
Proof.
  revert st. induction batches as [|b batches IH]; intros st; [done|]. cbn [backend_state fold_left concat].
  fold (backend_state batches (handle_subnet_events "host-gw" (Some (hostgw_get_route link)) (Some (hostgw_get_v6_route link)) b st)).
  rewrite IH. unfold handle_subnet_events. by rewrite fold_left_app.
Qed.

(** The lease of a node that is not the own one, with the backend's type *)
Definition peer_lease (m : NodeMap) (l : Lease) : Prop :=
  exists name node, m !! name = Some node /\ node_lease (cluster_env a) node = Some l
    /\ lease_key true false l <> lease_key true false own /\ la_backend_type (l_attrs l) = "host-gw".

Lemma sources_exclusive nodes out :
  exclusive_nodes a nodes -> Forall (has_source (cluster_env a) nodes) out -> exclusive out.
Proof.
  intros Hex Hsrc x y Hx Hy. rewrite list.Forall_forall in Hsrc.
  destruct (Hsrc x Hx) as (n1 & Hn1 & -> & H1'), (Hsrc y Hy) as (n2 & Hn2 & -> & H2').
  destruct (Hex n1 n2 _ _ Hn1 Hn2 H1' H2') as [Hiff Htype]. split; [|done]. rewrite Hiff. unfold em_key, lease_key. cbn.
  split; [by intros ->|by intros [= ->]].
Qed.

(** The backend of each subnet, when there is one *)
Definition backend_of (out : list Emission) (k : LeaseKey) : string :=
  default "" (em_type <$> List.find (fun em => bool_decide (em_key em = k)) out).

Lemma backend_of_spec out em : exclusive out -> em ∈ out -> em_type em = backend_of out (em_key em).
Proof.
  intros Hex Hem. unfold backend_of. destruct (List.find _ out) as [em'|] eqn:Hf.
  - apply find_some in Hf as [Hin Hk%bool_decide_eq_true]. apply list_elem_of_In in Hin. cbn. destruct (Hex em em') as [Hn Ht]; [done..|].
    apply Ht, Hn. done.
  - exfalso. apply list_elem_of_In in Hem. apply (find_none _ _ Hf) in Hem. by rewrite bool_decide_true in Hem.
Qed.

(** The leases that the watcher derives from the emissions are those of the
    nodes in the store, without the own one. *)
Lemma watched_leases out m k l :
  exclusive out -> Forall (fun em => has_flags true false (ev_lease em.2)) out ->
  fold_left apply_emission out ∅ = leases_of (cluster_env a) m ->
  fold_left (apply_event true false) (List.filter (not_own_event own) (map snd out)) ∅ !! k = Some l <->
  k = lease_key true false l /\ k <> lease_key true false own
  /\ exists name node, m !! name = Some node /\ node_lease (cluster_env a) node = Some l.
Proof.
  intros Hex Hf Htr. rewrite own_filtered by by apply Forall_map.
  assert (rekeyed (leases_of (cluster_env a) m) (fold_left (apply_event true false) (map snd out) ∅)) as Hr.
  { rewrite <- Htr. apply (rekey_fold out Hex); [done|intros name l'; by rewrite lookup_empty|].
    intros k' l'. split; [by rewrite lookup_empty|]. intros (name & Hn & _). by rewrite lookup_empty in Hn. }
  case_decide as Hk; [split; [by rewrite lookup_empty|intros (_ & Hne & _); done]|]. rewrite (Hr k l). split.
  - intros (name & Hn & <-). split; [done|]. split; [done|]. rewrite leases_of_lookup in Hn. apply bind_Some in Hn as (node & Hm & Hl). eauto.
  - intros (-> & _ & name & node & Hm & Hl). exists name. split; [|done]. by rewrite leases_of_lookup, Hm.
Qed.

(** C1: in an IPv4 host-gw cluster under the conditions below, once all events
    have arrived the kernel of a peer has the routes of the cluster: the
    recorded routes are those to the pod networks of exactly the managed
    host-gw nodes in the informer's store, other than the own node, each by
    the node's public address; all of them are in the kernel, and a
    destination that was added and is no longer wanted has no route.

    The conditions.  (1) The nodes change steadily ([steady_run]): their pod
    CIDR is fixed, a node that has a lease keeps one, it becomes managed
    together with a change of its lease annotations, a modified node is
    known, a deleted one still shows its lease, a list names a node once.
    (2) [exclusive_nodes]: over all the lists and frames a pod CIDR is that of
    one node for good, and a node keeps its backend; a pod CIDR that passes
    to another node between two lists loses its route, see
    [relist_reuse_loses_route].  (3) [all_arrived]: the event queue was never
    full and no event went through a retry, no more events than the backlog
    holds were published before the watch subscribed, no channel on the way
    was closed or full, and nothing is under way any more.  (4) The kernel
    obeys [RouteKernelLaws], the batches are handled one after the other and
    no periodic check comes between.  Within them the lists, watch frames,
    errors and relists of the informer, the moment of the subscription and
    the interleaving of the parts are arbitrary. *)
Theorem cluster_routes_converge (r : ClusterRun a own capacity room) (k0 : K) :
  all_arrived a own capacity room r -> steady_run (cluster_env a) informer_init (cr_inputs _ _ _ _ r) = true ->
  exclusive_nodes a (shown_nodes (cr_inputs _ _ _ _ r)) ->
  let st := backend_state (cr_batches a own capacity room r) (mkRouteState k0 [] []) in
  installed (rt_kernel st) (rt_routes st)
  /\ (forall s, s ∈ rt_routes st <->
        exists l, peer_lease (sto_nodes (inf_store (cr_state _ _ _ _ r))) l /\ s = hostgw_get_route link l)
  /\ (forall key, key ∈ added_keys link (concat (cr_batches a own capacity room r)) ->
        recorded (rt_routes st) !! key = None -> k_table (rt_kernel st) !! key = None).
Proof.
  intros Hset Hst Hexn st. pose proof (cr_informer _ _ _ _ r) as Hrun. set (out := cr_out _ _ _ _ r) in *.
  set (m := sto_nodes (inf_store (cr_state _ _ _ _ r))) in *.
  pose proof (run_sources (cluster_env a) (shown_nodes (cr_inputs _ _ _ _ r)) _ _ _ _ (fun _ Hn => Hn) (map_Forall_empty _) Hrun) as Hsrc.
  pose proof (sources_exclusive _ _ Hexn Hsrc) as Hex.
  assert (fold_left apply_emission out ∅ = leases_of (cluster_env a) m) as Htr.
  { assert (leases_of (cluster_env a) (sto_nodes (inf_store informer_init)) = ∅) as <- by apply omap_empty.
    eapply informer_run_tracks; [done|apply map_Forall_empty|exact Hst|exact Hrun]. }
  assert (Forall (fun em => proper_lease (backend_of out) (ev_lease em.2)) out) as Hproper.
  { apply list.Forall_forall. intros em Hem. pose proof Hsrc as Hs. rewrite list.Forall_forall in Hs. destruct (Hs em Hem) as (n & _ & _ & Hl).
    destruct (cluster_lease_proper a n _ Hl) as [Hfl Hpl]. split; [done|]. split; [done|]. by apply backend_of_spec. }
  assert (Forall (fun em => has_flags true false (ev_lease em.2)) out) as Hfl by (eapply list.Forall_impl; [exact Hproper|by intros em []]).
  pose proof (arrived_batches a own capacity room r Hset Hfl) as Hb. fold out in Hb.
  set (es := List.filter (not_own_event own) (map snd out)) in *.
  assert (Forall (fun e => proper_lease (backend_of out) (ev_lease e)) es) as Hes.
  { apply Forall_forall. intros e [He _]%filter_In. revert e He. rewrite <- Forall_forall. by apply Forall_map. }
  destruct (routed_fold link (backend_of out) es ∅ ∅) as [H4 Hr]; [apply map_Forall_empty|done| |].
  { intros rk s. split; [by rewrite lookup_empty|]. intros (_ & k & l & Hk & _). by rewrite lookup_empty in Hk. }
  assert (installed k0 []) as Hinst by (split_and!; [constructor|constructor|by intros s Hs%elem_of_nil]).
  unfold st. rewrite backend_state_concat, Hb.
  destruct (hostgw_batch link (Some (hostgw_get_v6_route link)) (emitted_batch true false ∅ es) (mkRouteState k0 [] []) (fun _ => False) Hinst H4)
    as [Hi Hrec Hgone _]; [done|]. set (st' := handle_subnet_events _ _ _ _ _) in *. split; [done|]. split.
  - intros s. cbn [rt_routes] in Hrec. change (recorded []) with (∅ : gmap RouteKey RouteSpec) in Hrec. rewrite <- Hrec in Hr.
    destruct Hi as (Hnd & _ & _).
    assert (s ∈ rt_routes st' <-> recorded (rt_routes st') !! spec_key s = Some s) as -> by (rewrite recorded_lookup by done; tauto).
    rewrite (Hr (spec_key s) s). split.
    + intros (_ & k & l & Hk & Hbt & ->). apply (watched_leases out m) in Hk as (-> & Hne & name & node & Hn & Hl); [|done..].
      exists l. split; [|done]. by exists name, node.
    + intros (l & (name & node & Hn & Hl & Hne & Hbt) & ->). split; [done|]. exists (lease_key true false l), l. split; [|done].
      apply (watched_leases out m); [done..|]. eauto 6.
  - intros key Hkey. apply Hgone. by right.
Qed.
End Converge.

(** ** A cluster of three nodes, for the witness *)

#[local] Existing Instance sample_raw.
#[local] Existing Instance sample_order.

Definition gw_node (name ip cidr : string) : Node :=
  let a := sample_annotations in
  mkNode (mkObjectMeta name name None
            (list_to_map [(an_subnet_kube_managed a, "true"); (an_backend_type a, "host-gw"); (an_backend_public_ip a, ip);
                          (an_backend_data a, "null")]))
    (mkNodeSpec (Some cidr) [cidr]).

(** The node [n1] is the own one; [n2] changes its address; [n3] leaves. *)
Definition gw_session : list InfInput :=
  let n1 := gw_node "n1" "192.168.0.1" "10.244.1.0/24" in
  let n2 := gw_node "n2" "192.168.0.2" "10.244.2.0/24" in
  let n2' := gw_node "n2" "192.168.0.9" "10.244.2.0/24" in
  let n3 := gw_node "n3" "192.168.0.3" "10.244.3.0/24" in
  let n4 := gw_node "n4" "192.168.0.4" "10.244.4.0/24" in
  [IiListed (Ok (mkNodeList (mkListMeta (Some "5")) [n1; n2; n3])); IiConnected (Ok ()); frame WtModified n2';
   frame WtAdded n4; IiItem (Some (Err KeGone)); IiSlept;
   IiListed (Ok (mkNodeList (mkListMeta (Some "9")) [n1; n2'; n4]))].

Definition gw_own : Lease :=
  mkLease true false (mkIP4Net (IP4_from_octets 10 244 1 0) 24) IP6Net_default LeaseAttrs_default 0 0.

Lemma some_default {A} (d : A) (o : option A) : is_some o = true -> o = Some (default d o).
Proof. by destruct o. Qed.

Definition gw_informed : InfState * list Emission :=
  default (informer_init, []) (run_node_informer (cluster_env sample_annotations) informer_init gw_session).
Definition gw_queue_inputs : list QueueInput :=
  map (fun em : Emission => QEnqueue em.1 em.2) gw_informed.2 ++ map (fun _ => QRecv) gw_informed.2.
Definition gw_queued : EventQueue * list Event := default (EventQueue_new 8, []) (queue_run (EventQueue_new 8) gw_queue_inputs).
Definition gw_after : list HubInput := concat (map (fun e => [HPublish e; HSend; HRetire]) gw_queued.2).
Definition gw_hub : EventHub := default (EventHub_new 8) (hub_run (EventHub_new 8) (HSubscribe :: gw_after)).
Definition gw_channel : HubChannel := default (mkHubChannel 0 [] false) (hub_channels gw_hub !! 0%nat).
Definition gw_watched : WatchOutcome * Receiver (list LeaseWatchResult) :=
  hub_watch_leases (mkReceiver [] 8) (map (fun e => WiReceived (Some e)) (hc_sent gw_channel)).
Definition gw_loop_inputs : list WlInput := map (fun wrs => WlRecv (Some wrs)) (rcv_sent gw_watched.2).
Definition gw_loop : WlState := default (wl_init gw_own (mkReceiver [] 0)) (watch_leases_run (wl_init gw_own (mkReceiver [] 8)) gw_loop_inputs).

Definition gw_run : ClusterRun sample_annotations gw_own 8 8.
Proof.
  refine (mkClusterRun sample_annotations gw_own 8 8 gw_session gw_informed.1 gw_informed.2 _ gw_queue_inputs gw_queued.1 gw_queued.2 _ _
    [] (EventHub_new 8) _ gw_after gw_hub _ _ gw_channel _ (hc_sent gw_channel) _ gw_watched.2 _ gw_loop_inputs gw_loop _ _).
  - rewrite <- surjective_pairing. apply some_default. by vm_compute.
  - rewrite <- surjective_pairing. apply some_default. by vm_compute.
  - by vm_compute.
  - reflexivity.
  - apply some_default. by vm_compute.
  - by vm_compute.
  - apply some_default. by vm_compute.
  - reflexivity.
  - assert (gw_watched.1 = WoRunning) as Hw by by vm_compute. rewrite <- Hw. apply surjective_pairing.
  - by vm_compute.
  - apply some_default. by vm_compute.
Defined.

Definition exclusive_pair (n1 n2 : Node) : bool :=
  match node_lease (cluster_env sample_annotations) n1, node_lease (cluster_env sample_annotations) n2 with
  | Some l1, Some l2 =>
      Bool.eqb (bool_decide (node_name n1 = node_name n2)) (bool_decide (l_subnet l1 = l_subnet l2))
      && (negb (bool_decide (node_name n1 = node_name n2)) || bool_decide (la_backend_type (l_attrs l1) = la_backend_type (l_attrs l2)))
  | _, _ => true
  end.

Lemma exclusive_check nodes :
  forallb (fun n1 => forallb (exclusive_pair n1) nodes) nodes = true -> exclusive_nodes sample_annotations nodes.
Proof.
  intros Hc n1 n2 l1 l2 H1%list_elem_of_In H2%list_elem_of_In E1 E2. rewrite forallb_forall in Hc. specialize (Hc n1 H1). rewrite forallb_forall in Hc.
  specialize (Hc n2 H2). unfold exclusive_pair in Hc. rewrite E1, E2 in Hc. apply andb_true_iff in Hc as [Heq%Bool.eqb_prop Ht]. split.
  - split; intros Hx; [rewrite bool_decide_true in Heq by done; symmetry in Heq|rewrite (bool_decide_true (l_subnet l1 = _)) in Heq by done]; by apply bool_decide_eq_true in Heq.
  - intros Hn. rewrite bool_decide_true in Ht by done. by apply bool_decide_eq_true in Ht.
Qed.

Lemma cluster_routes_converge_witness :
  let st := backend_state 2 (cr_batches sample_annotations gw_own 8 8 gw_run) (mkRouteState (∅ : Table) [] []) in
  installed (rt_kernel st) (rt_routes st) /\ length (rt_routes st) = 2%nat.
Proof.
  split; [|by vm_compute]. refine (proj1 (cluster_routes_converge sample_annotations gw_own 8 8 2 gw_run (∅ : Table) _ _ _)).
  - split; [by vm_compute|by vm_compute|by vm_compute|cbn; lia|by vm_compute|by vm_compute|reflexivity|by apply Nat.leb_le; vm_compute].
  - by vm_compute.
  - apply exclusive_check. by vm_compute.
Defined.

(** ** A pod CIDR that changes hands during a gap of the watch *)

(** The node [n2] is deleted and [n5] gets its pod CIDR while the informer is
    not watching. *)
Definition reuse_session : list InfInput :=
  [IiListed (Ok (mkNodeList (mkListMeta (Some "5")) [gw_node "n2" "192.168.0.2" "10.244.2.0/24"])); IiConnected (Ok ());
   IiItem (Some (Err KeGone)); IiSlept;
   IiListed (Ok (mkNodeList (mkListMeta (Some "9")) [gw_node "n5" "192.168.0.5" "10.244.2.0/24"]))].

Definition reuse_informed : InfState * list Emission :=
  default (informer_init, []) (run_node_informer (cluster_env sample_annotations) informer_init reuse_session).
Definition reuse_events : list Event :=
  match LeaseWatcher_update (LeaseWatcher_new gw_own) (map snd reuse_informed.2) with Some (_, batch) => batch | None => [] end.
Definition reuse_state : RouteState Table := backend_state 2 [reuse_events] (mkRouteState ∅ [] []).

(** [reconcile_relist] reports the new nodes before those that are gone, and
    the lease watcher knows a lease by its subnet: the removal of the old node
    takes the lease of the new one, whose route is deleted although the node
    is in the store with a lease. *)
Theorem relist_reuse_loses_route :
  is_some (sto_nodes (inf_store reuse_informed.1) !! "n5" ≫= node_lease (cluster_env sample_annotations)) = true
  /\ map ev_type reuse_events = [Added; Added; Removed] /\ rt_routes reuse_state = []
  /\ filed (rt_kernel reuse_state) = ∅.
Proof. split_and!; [by vm_compute..|]. apply (bool_decide_unpack _). by vm_compute. Qed.
