(* ===== verification/WgRun.v ===== *)
(** * [backend/wireguard]: the run loop and the removal of the devices

    [run] of [network.rs] handles the batches of the lease watch until the
    token is cancelled or the watch ends; the tasks that [new_wg_device]
    starts delete the devices after the cancellation. *)

From S2P Require Import Prelude RustStr IpNet Ip6Net Lease Config Anyhow RouteNetwork Genl WgKernel Iface Wireguard Backend Links VxlanDevice WgDevice.
#[local] Open Scope string_scope.
#[local] Open Scope list_scope.
#[local] Open Scope Z_scope.

Section Run.
Context `{GenlKernel K} `{WgSystem K} `{WgCrypto} `{WgJson} (fuel : nat).

(** A turn sees the token and the channel; the token comes first. *)
Fixpoint wg_run (n : WireguardNetwork) (turns : list (bool * Channel (list Event))) (k : K) : K :=
  match turns with
  | [] => k
  | (true, _) :: _ => k
  | (false, Holds batch) :: turns => wg_run n turns (wg_handle_subnet_events fuel n batch k)
  | (false, Closed) :: _ => k
  | (false, Empty) :: turns => wg_run n turns k
  end.
End Run.

(** The task of [new_wg_device]; an error is only logged. *)
Definition wg_removal_task `{LinkKernel K} (dev : WGDevice) (k : K) : K := (lk_del (gd_ifindex dev) k).1.

(** The tasks of all devices, in some order *)
Definition wg_cleanup `{LinkKernel K} (devs : list WGDevice) (k : K) : K := fold_left (fun k dev => wg_removal_task dev k) devs k.

(** * Theorems *)

(** The batches that the loop takes *)
Fixpoint received (turns : list (bool * Channel (list Event))) : list (list Event) :=
  match turns with
  | [] | (true, _) :: _ | (false, Closed) :: _ => []
  | (false, Holds batch) :: turns => batch :: received turns
  | (false, Empty) :: turns => received turns
  end.

Section RunTheorems.
Context {K : Type} `{!GenlKernel K, !WgKernelLaws K, !WgSystem K, !WgSystemLaws K}.
Context `{WgCrypto} `{WgJson, !WgJsonLaws} (fuel : nat).

(** The run carries out, in their order, the configurations of the events it
    received before the end, and of no other. *)
Theorem wg_run_applies n turns (k : K) :
  wg_reliable K (S fuel) -> network_typed n -> Forall (fun e => lease_typed (ev_lease e)) (concat (received turns)) ->
  wk_state (wg_run (S fuel) n turns k) = fold_left wg_applied (concat (map (event_configs n) (concat (received turns)))) (wk_state k).
Proof.
  intros Hrel Hn. revert k. induction turns as [|[[] [batch| |]] turns IH]; intros k Ht; cbn [wg_run received concat] in *; try done; [|by apply IH].
  apply Forall_app in Ht as [Hb Ht]. rewrite IH by done. rewrite map_app, concat_app, fold_left_app. f_equal. by apply events_applied.
Qed.
End RunTheorems.

Section Cleanup.
Context `{LinkLaws K}.

(** The devices [devs] are in the kernel, under their names and indexes. *)
Definition devices_present (devs : list WGDevice) (k : K) : Prop :=
  Forall (fun dev => exists d, ll_table k !! gd_ifname dev = Some d /\ ld_index d = gd_ifindex dev /\ is_Some (ld_kind d)) devs.

(** After the cancellation nothing is left of the devices, and no other
    device is touched. *)
Theorem wg_cleanup_removes devs (k : K) :
  nl_admin k -> devices_present devs k -> NoDup (map gd_ifname devs) ->
  ll_table (wg_cleanup devs k) = foldr (fun dev t => delete (gd_ifname dev) t) (ll_table k) devs.
Proof.
  revert k. induction devs as [|dev devs IH]; intros k Ha Hp Hnd; [done|]. apply Forall_cons_iff in Hp as [(d & Hd & Hi & Hk) Hp].
  cbn [map] in Hnd. apply list.NoDup_cons in Hnd as [Hnew Hnd].
  unfold wg_cleanup in *. cbn [fold_left foldr]. unfold wg_removal_task at 2. rewrite <- Hi.
  destruct (ll_del k _ d Ha Hd Hk) as (k' & -> & Ha' & Ht & _). cbn [fst]. rewrite IH; [|done| |done].
  - rewrite Ht. clear. induction devs as [|x devs IH]; [done|]. cbn [foldr]. by rewrite IH, delete_delete.
  - apply Forall_forall. intros x Hx. rewrite Forall_forall in Hp. destruct (Hp x Hx) as (dx & Hdx & Hrest). exists dx. rewrite Ht.
    rewrite lookup_delete_ne; [done|]. intros Heq. apply Hnew. rewrite Heq. apply list_elem_of_In, in_map, Hx.
Qed.
End Cleanup.
