(* ===== verification/UdpNetwork.v ===== *)
(** * [backend/udp/mod.rs], [backend/udp/network.rs], [ip/tun.rs]

    The UDP backend around the packet proxy of [UdpProxy]: the registration,
    the tun device, and the commands that the lease events become.  Files and
    sockets are the interface [UdpSystem]; a descriptor that goes out of scope
    ([OwnedFd]) is closed where the code's scopes end.  The control socket is
    a channel of messages, so that the proxy's side of it is related to the
    network's side by what was written. *)

From S2P Require Import Prelude RustStr Utf8 Cidr StdNet IpNet Ip6Net Lease Config Anyhow RouteNetwork UdpProxy Iface Cni Backend Links VxlanDevice.
From Stdlib Require Import Permutation.
#[local] Open Scope string_scope.
#[local] Open Scope list_scope.
#[local] Open Scope Z_scope.

Definition UDP_BACKEND_TYPE : string := "udp".
Definition UDP_DEFAULT_PORT : Z := 8285.
Definition UDP_HEADERS : Z := 28.
Definition TUN_DEVICE_PATTERN : string := "flannel%d".
Definition IFNAME_SIZE : nat := 16.

(** [IFF_TUN | IFF_NO_PI] *)
Definition TUN_FLAGS : Z := Z.lor 1 4096.

(** ** The system *)

(** Errors are the texts of [io::Error]. *)
Class UdpSystem (K : Type) := {
  (** [open("/dev/net/tun", O_RDWR)] *)
  us_open : io K string Z;
  (** the ioctl [TUNSETIFF] with the name and flags of an [ifreq]: the name
      after it *)
  us_tunsetiff : Z -> bytes -> Z -> io K string bytes;
  us_bind : IP4 -> Z -> io K string Z;
  us_socketpair : io K string (Z * Z);
  us_dup : Z -> io K string Z;
  us_close : Z -> K -> K;
  (** [write(2)], with its return value *)
  us_write : Z -> bytes -> K -> K * Z;
  (** a universe-scope route to a network over a link *)
  us_route_add : IP4 -> Z -> Z -> io K NlError unit;
  (** the thread of [run_proxy]: tun, socket, control socket, address, MTU *)
  us_spawn_proxy : Z -> Z -> Z -> Z -> Z -> K -> K;
}.

(** A descriptor that is dropped when the rest of the function fails *)
Definition closing `{UdpSystem K} {E A} (fd : Z) (m : io K E A) : io K E A := fun k =>
  match m k with
  | (k, Err e) => (us_close fd k, Err e)
  | (k, Ok a) => (k, Ok a)
  end.

(** ** [ip/tun.rs] *)

(** [from_zero_term]: up to the first zero *)
Fixpoint until_zero (s : bytes) : bytes :=
  match s with
  | [] => []
  | b :: s => if b =? 0 then [] else b :: until_zero s
  end.

Definition from_zero_term (s : bytes) : string := text_of (from_utf8_lossy (until_zero s)).

(** [ifrn_name]: at most 15 bytes of the name, the rest zero *)
Definition ifreq_name (dev_name : string) : bytes :=
  let name := as_bytes dev_name in
  let n := Nat.min (length name) (IFNAME_SIZE - 1) in
  splice 0 (take n name) (replicate IFNAME_SIZE 0).

Definition open_tun `{UdpSystem K} (dev_name : string) : io K anyhow (Z * string) :=
  let! fd := io_map_err (fun e => ["open /dev/net/tun: " +:+ e]) us_open in
  closing fd
    (let! name := io_map_err (fun e => ["ioctl TUNSETIFF: " +:+ e]) (us_tunsetiff fd (ifreq_name dev_name) TUN_FLAGS) in
     io_ret (fd, from_zero_term name)).

(** ** [udp/mod.rs]: the configuration *)

Definition as_i32 (v : Value) : option Z :=
  match v with VNumber n => result_ok (from_str_radix_i 32 10 n) | _ => None end.

(** The derived [Deserialize] of [UdpBackendConfig] *)
Definition udp_config_of_text (t : JsonText) : option Z :=
  match t with
  | TObject ms => field_of as_i32 UDP_DEFAULT_PORT (members_of "Port" ms)
  | TArray vs => if (length vs <=? 1)%nat then field_of as_i32 UDP_DEFAULT_PORT vs else None
  | TOther => None
  end.

Definition udp_decode_error (e : string) : anyhow := ["error decoding UDP backend config: " +:+ e].

Definition parse_udp_config `{CniJson} (backend : option string) : result Z anyhow :=
  match backend with
  | None => Ok UDP_DEFAULT_PORT
  | Some text =>
      let? t := map_err udp_decode_error (cj_text text) in
      ok_or (udp_config_of_text t) (udp_decode_error (cj_invalid "UdpBackendConfig" text))
  end.

(** ** [udp/network.rs] *)

Record UdpNetwork := mkUdpNetwork {
  un_lease : Lease;
  un_port : Z;
  un_tun_net : IP4Net;
  un_mtu : Z;
  un_tun : Z;
  un_conn : Z;
  un_ctl : Z;
  (** taken by the first [run] *)
  un_ctl2 : option Z;
}.

Section Setup.
Context `{UdpSystem K} `{NlKernel K} `{LinkKernel K}.

Definition configure_iface (ifname : string) (ipn : IP4Net) (mtu : Z) : io K anyhow unit :=
  let! k := io_get in
  let! iface := io_lift (map_err (fun _ => ["failed to lookup interface " +:+ ifname]) (get_interface_by_name k ifname)) in
  let ipn_local := mkIP4Net (ip4n_ip ipn) 32 in
  let! _ := io_map_err (fun e => ["failed to add IP address " +:+ IP4Net_fmt ipn_local +:+ " to " +:+ ifname +:+ ": " +:+ e])
              (nl_addr_add (ni_index iface) (V4 (ip4n_ip ipn_local)) 32) in
  let! _ := io_map_err (fun e => ["failed to set MTU for " +:+ ifname +:+ ": " +:+ ne_text e]) (lk_set_mtu (ni_index iface) mtu) in
  let! _ := io_map_err (fun e => ["failed to set interface " +:+ ifname +:+ " to UP state: " +:+ ne_text e])
              (lk_set_up (ni_index iface)) in
  let net := IP4Net_network ipn in
  let! added := io_try (us_route_add (ip4n_ip net) (wrap 8 (ip4n_plen net)) (ni_index iface)) in
  match added with
  | Err e =>
      if negb (is_eexist e)
      then io_err ["failed to add route (" +:+ IP4Net_fmt net +:+ " -> " +:+ ifname +:+ "): " +:+ ne_text e]
      else io_ret tt
  | Ok _ => io_ret tt
  end.

(** [Netlink::new], then the external MTU less the two headers
    ([saturating_sub]). *)
Definition udp_new_network `{SubnetManager K} (ei : ExternalInterface) (port : Z) (tun_net : IP4Net) (lease : Lease)
  : io K anyhow UdpNetwork :=
  let! _ := sm_netlink in
  let! ext_mtu := iface_mtu (ei_iface_index ei) in
  let mtu := Z.max 0 (ext_mtu - UDP_HEADERS) in
  let! (tun, tun_name) := io_map_err (fun e => ["failed to open TUN device: " +:+ fmt_anyhow e]) (open_tun TUN_DEVICE_PATTERN) in
  closing tun
    (let! _ := configure_iface tun_name tun_net mtu in
     let! bind_ip := io_lift match ei_iface_addr ei with
                             | Some (V4 v4) => Ok v4
                             | _ => Err ["failed to start listening on UDP socket: no IPv4 interface address"]
                             end in
     let! conn := io_map_err (fun e => ["failed to start listening on UDP socket: " +:+ e]) (us_bind bind_ip (wrap 16 port)) in
     closing conn
       (let! (ctl, ctl2) := io_map_err (fun e => ["failed to create control socket: " +:+ e]) us_socketpair in
        io_ret (mkUdpNetwork lease port tun_net mtu tun conn ctl (Some ctl2)))).

Definition udp_register_network `{SubnetManager K} `{CniJson} (ei : ExternalInterface) (config : Config) : io K anyhow UdpNetwork :=
  let! port := io_lift (parse_udp_config (cfg_backend config)) in
  let! public_ip := io_lift (ext_addr_ip4 ei) in
  let! lease := acquire_registered (public_attrs public_ip None "") in
  let tun_net := mkIP4Net (ip4n_ip (l_subnet lease)) (ip4n_plen (cfg_network config)) in
  udp_new_network ei port tun_net lease.
End Setup.

(** ** Commands *)

(** [set_route]; [port as i16] *)
Definition set_route_cmd (net : UdpNetwork) (dst : IP4Net) (next_hop_ip : IP4) : Command :=
  mkCommand CMD_SET_ROUTE (swap32 (ip4n_ip dst)) (ip4n_plen dst) (swap32 next_hop_ip) (signed 16 (wrap 16 (un_port net))).

Definition remove_route_cmd (dst : IP4Net) : Command := mkCommand CMD_DEL_ROUTE (swap32 (ip4n_ip dst)) (ip4n_plen dst) 0 0.

Definition stop_cmd : Command := mkCommand CMD_STOP 0 0 0 0.

Definition event_command (net : UdpNetwork) (evt : Event) : Command :=
  let lease := ev_lease evt in
  match ev_type evt with
  | Added => set_route_cmd net (l_subnet lease) (la_public_ip (l_attrs lease))
  | Removed => remove_route_cmd (l_subnet lease)
  end.

Section Run.
Context `{UdpSystem K}.

(** A command that is not written is only logged. *)
Definition write_command (net : UdpNetwork) (cmd : Command) (k : K) : K :=
  (us_write (un_ctl net) (Command_to_bytes cmd) k).1.

Definition process_subnet_events (net : UdpNetwork) (batch : list Event) (k : K) : K :=
  fold_left (fun k evt => write_command net (event_command net evt) k) batch k.

(** The biased [select!]: what the channel holds and whether the lease watch
    has ended. *)
Fixpoint udp_loop (net : UdpNetwork) (turns : list (Channel (list Event) * bool)) (k : K) : K :=
  match turns with
  | [] => k
  | (Holds batch, _) :: turns => udp_loop net turns (process_subnet_events net batch k)
  | (Closed, _) :: _ => write_command net stop_cmd k
  | (Empty, true) :: _ => write_command net stop_cmd k
  | (Empty, false) :: turns => udp_loop net turns k
  end.

Definition take_ctl2 (net : UdpNetwork) : UdpNetwork :=
  mkUdpNetwork (un_lease net) (un_port net) (un_tun_net net) (un_mtu net) (un_tun net) (un_conn net) (un_ctl net) None.

Definition udp_run (net : UdpNetwork) (turns : list (Channel (list Event) * bool)) (k : K) : UdpNetwork * K :=
  match un_ctl2 net with
  | None => (net, k)
  | Some ctl2 =>
      let net := take_ctl2 net in
      match us_dup (un_tun net) k with
      | (k, Err _) => (net, us_close ctl2 k)
      | (k, Ok tun2) =>
          match us_dup (un_conn net) k with
          | (k, Err _) => (net, us_close ctl2 (us_close tun2 k))
          | (k, Ok sock2) =>
              let k := us_spawn_proxy tun2 sock2 ctl2 (swap32 (ip4n_ip (un_tun_net net))) (un_mtu net) k in
              (net, udp_loop net turns k)
          end
      end
  end.
End Run.

(** * Theorems *)

(** ** The table of the proxy against the leases *)

(** What the events leave leased: the public address of each subnet. *)
Definition udp_lease_step (m : gmap IP4Net IP4) (evt : Event) : gmap IP4Net IP4 :=
  let lease := ev_lease evt in
  match ev_type evt with
  | Added => <[l_subnet lease := la_public_ip (l_attrs lease)]> m
  | Removed => delete (l_subnet lease) m
  end.

Definition udp_leases (evs : list Event) (m : gmap IP4Net IP4) : gmap IP4Net IP4 := fold_left udp_lease_step evs m.

(** A subnet as the parsers produce them *)
Definition net_canonical (n : IP4Net) : Prop := IP4Net_valid n /\ IP4Net_network n = n.

#[global] Instance net_canonical_dec n : Decision (net_canonical n).
Proof. unfold net_canonical. apply _. Defined.

Definition event_ok (evt : Event) : Prop :=
  net_canonical (l_subnet (ev_lease evt)) /\ u32 (la_public_ip (l_attrs (ev_lease evt))).

#[global] Instance event_ok_dec evt : Decision (event_ok evt).
Proof. unfold event_ok. apply _. Defined.

Lemma mask_value_inj p q : 0 <= p <= 32 -> 0 <= q <= 32 -> mask_value p = mask_value q -> p = q.
Proof.
  intros Hp Hq. rewrite !mask_value_of. intros E.
  apply Z.le_antisymm; apply (mask_of_mono 32); try done; rewrite E; reflexivity.
Qed.

Lemma wire_net_canonical n :
  net_canonical n -> wire_net n = mkIpNet (swap32 (ip4n_ip n)) (swap32 (mask_value (ip4n_plen n))).
Proof.
  intros [[Hi Hp] Hc]. unfold wire_net. cbv zeta. rewrite netmask_swap by lia. f_equal.
  assert (Hm : u32 (mask_value (ip4n_plen n))) by (rewrite mask_value_of; apply mask_of_wf; lia).
  rewrite <- swap32_land by done. f_equal. apply (f_equal ip4n_ip) in Hc. exact Hc.
Qed.

Lemma wire_net_inj n n' : net_canonical n -> net_canonical n' -> wire_net n = wire_net n' -> n = n'.
Proof.
  intros Hn Hn'. rewrite !wire_net_canonical by done. intros [= Hi Hm]. destruct Hn as [[Hu Hp] _], Hn' as [[Hu' Hp'] _].
  assert (u32 (mask_value (ip4n_plen n))) by (rewrite mask_value_of; apply mask_of_wf; lia).
  assert (u32 (mask_value (ip4n_plen n'))) by (rewrite mask_value_of; apply mask_of_wf; lia).
  apply swap32_inj in Hi; [|done..]. apply swap32_inj in Hm; [|done..]. apply mask_value_inj in Hm; [|done..].
  destruct n, n'. cbn in *. congruence.
Qed.

(** The routes of a table are the leases, each to its public address and the
    common port. *)
Definition routes_of_leases (port : Z) (m : gmap IP4Net IP4) (es : list RouteEntry) : Prop :=
  routes_inv es
  /\ (forall n ip, m !! n = Some ip -> net_canonical n /\ routes_abs es !! wire_net n = Some (swap32 ip, port))
  /\ (forall d, is_Some (routes_abs es !! d) -> exists n, is_Some (m !! n) /\ d = wire_net n).

Lemma routes_of_leases_insert port m es n ip :
  routes_of_leases port m es -> net_canonical n ->
  routes_of_leases port (<[n := ip]> m) (RouteTable_set_route es (wire_net n) (swap32 ip) port).
Proof.
  intros (Hi & Hm & Hr) Hn. destruct (set_route_spec es (wire_net n) (swap32 ip) port Hi) as (Hi' & Habs & _).
  split; [done|]. rewrite Habs. split.
  - intros n' ip'. rewrite lookup_insert. case_decide as E.
    + intros [= <-]. subst n'. by rewrite lookup_insert_eq.
    + intros Hl. destruct (Hm _ _ Hl) as [Hc Hh]. split; [done|]. rewrite lookup_insert_ne; [done|].
      intros Ew. apply E. by apply wire_net_inj.
  - intros d. rewrite lookup_insert. case_decide as E; intros Hd.
    + exists n. by rewrite lookup_insert_eq.
    + destruct (Hr d Hd) as (n' & Hn' & ->). exists n'. rewrite lookup_insert_ne by congruence. done.
Qed.

Lemma routes_of_leases_delete port m es n :
  routes_of_leases port m es -> net_canonical n ->
  routes_of_leases port (delete n m) (RouteTable_del_route es (wire_net n)).1.
Proof.
  intros (Hi & Hm & Hr) Hn. pose proof (del_route_spec es (wire_net n) Hi) as Hs.
  destruct (RouteTable_del_route es (wire_net n)) as [es' found]. destruct Hs as (Hi' & Habs & _). cbn [fst].
  split; [done|]. rewrite Habs. split.
  - intros n' ip' [Hne Hl]%lookup_delete_Some. destruct (Hm _ _ Hl) as [Hc Hh]. split; [done|].
    rewrite lookup_delete_ne; [done|]. intros Ew. apply Hne. by apply wire_net_inj.
  - intros d [h [Hne Hl]%lookup_delete_Some]. destruct (Hr d) as (n' & Hn' & ->); [by eexists|].
    exists n'. rewrite lookup_delete_ne by congruence. done.
Qed.

(** ** One command *)

Lemma signed16_range v : - 2 ^ 15 <= signed 16 (wrap 16 v) < 2 ^ 15.
Proof.
  pose proof (Z.mod_pos_bound v (2 ^ 16) ltac:(lia)). unfold signed, wrap.
  destruct (Z.ltb_spec (v mod 2 ^ 16) (2 ^ (16 - 1))); lia.
Qed.

Lemma event_command_typed net evt : event_ok evt -> Command_typed (event_command net evt).
Proof.
  intros [[[Hu Hp] _] Hip]. unfold event_command, Command_typed.
  destruct (ev_type evt); cbn [set_route_cmd remove_route_cmd c_cmd c_dest_net c_dest_net_len c_next_hop_ip c_next_hop_port];
    split_and!; try apply swap32_u32; try apply signed16_range; unfold CMD_SET_ROUTE, CMD_DEL_ROUTE; try lia; done.
Qed.

(** The command of an event does to the routes what the event does to the
    leases. *)
Lemma process_event_command net evt m es :
  event_ok evt -> routes_of_leases (wrap 16 (un_port net)) m es ->
  exists es', process_cmd (Some (Command_to_bytes (event_command net evt))) es false = (es', false)
    /\ routes_of_leases (wrap 16 (un_port net)) (udp_lease_step m evt) es'.
Proof.
  intros Hok Hr. pose proof (event_command_typed net evt Hok) as Ht. destruct Hok as [Hc Hip].
  unfold process_cmd. rewrite length_Command_to_bytes, (Command_from_to_bytes _ Ht).
  change ((COMMAND_SIZE =? 0)%nat) with false. change ((COMMAND_SIZE <? COMMAND_SIZE)%nat) with false. cbv iota.
  unfold event_command, udp_lease_step. destruct (ev_type evt).
  - cbn -[netmask Z.land swap32 signed wrap RouteTable_set_route]. eexists. split; [reflexivity|].
    rewrite wrap_signed by (lia || apply wrap_in_width; lia). by apply routes_of_leases_insert.
  - cbn -[netmask Z.land swap32 signed wrap RouteTable_del_route]. eexists. split; [reflexivity|].
    by apply (routes_of_leases_delete _ m es (l_subnet (ev_lease evt))).
Qed.

Lemma process_stop es : process_cmd (Some (Command_to_bytes stop_cmd)) es false = (es, true).
Proof. by vm_compute. Qed.

(** ** The proxy between two commands *)

Lemma decrement_ttl_total pkt : (20 <= length pkt)%nat -> exists r, decrement_ttl pkt = Some r.
Proof.
  intros Hl. unfold decrement_ttl.
  destruct (lookup_lt_is_Some_2 pkt 8) as [? ->]; [lia|]. destruct (lookup_lt_is_Some_2 pkt 10) as [? ->]; [lia|].
  destruct (lookup_lt_is_Some_2 pkt 11) as [? ->]; [lia|]. cbv zeta. case_match; eauto.
Qed.

Lemma recv_packet_length read pkt : recv_packet read = Some pkt -> (20 <= length pkt)%nat.
Proof.
  unfold recv_packet. destruct read as [p|]; [|done]. destruct (Nat.ltb_spec (length p) IPHDR_LEN); [done|].
  intros [= ->]. done.
Qed.

Lemma tun_to_udp_total read tun_ip es :
  routes_inv es -> exists act es' out, tun_to_udp read tun_ip es = Some (act, es', out)
    /\ routes_inv es' /\ routes_abs es' = routes_abs es.
Proof.
  intros Hi. unfold tun_to_udp. destruct (recv_packet read) as [pkt|] eqn:E; [|by eauto 10].
  pose proof (find_route_spec es (from_le (slice 16 20 pkt)) Hi) as Hf.
  destruct (RouteTable_find_route _ _) as [es' [[hip hport]|]]; destruct Hf as (Hi' & Ha & _); [|by eauto 10].
  destruct (decrement_ttl_total pkt) as [[[] pkt'] ->]; [by eapply recv_packet_length| |]; eauto 10.
Qed.

Lemma udp_to_tun_total read : exists act out, udp_to_tun read = Some (act, out).
Proof.
  unfold udp_to_tun. destruct (recv_packet read) as [pkt|] eqn:E; [|by eauto].
  destruct (decrement_ttl_total pkt) as [[[] pkt'] ->]; [by eapply recv_packet_length| |]; eauto.
Qed.

Lemma forward_rounds_total tun_ip es rounds :
  routes_inv es -> exists es' out, forward_rounds tun_ip es rounds = Some (es', out)
    /\ routes_inv es' /\ routes_abs es' = routes_abs es.
Proof.
  revert es. induction rounds as [|[tr sr] rounds IH]; intros es Hi; cbn [forward_rounds]; [by eauto|].
  destruct (tun_to_udp_total tr tun_ip es Hi) as (act1 & es1 & out1 & -> & Hi1 & Ha1).
  destruct (udp_to_tun_total sr) as (act2 & out2 & ->). destruct (act1 || act2); [|by eauto].
  destruct (IH es1 Hi1) as (es2 & out3 & -> & Hi2 & Ha2). eexists _, _. split; [done|]. split; [done|congruence].
Qed.

Lemma routes_of_leases_abs port m es es' :
  routes_inv es' -> routes_abs es' = routes_abs es -> routes_of_leases port m es -> routes_of_leases port m es'.
Proof. intros Hi Ha (_ & Hm & Hr). unfold routes_of_leases. by rewrite Ha. Qed.

(** The messages that the polls of a proxy read from the control socket *)
Definition poll_message (p : PollResult) : option bytes :=
  match p with PollOk (Some (Some b)) _ _ => Some b | _ => None end.

Definition ctl_of (polls : list PollResult) : list bytes := omap poll_message polls.

(** Packets leave the routes as they are. *)
Lemma forward_keeps_routes port m tun_ip (readable : bool) es rounds :
  routes_of_leases port m es ->
  exists es' out, (if readable then forward_rounds tun_ip es rounds else Some (es, [])) = Some (es', out)
    /\ routes_of_leases port m es'.
Proof.
  intros Hr. destruct readable; [|by eauto].
  destruct (forward_rounds_total tun_ip es rounds) as (es1 & out1 & -> & Hi1 & Ha1); [apply Hr|].
  eexists _, _. split; [done|]. by eapply routes_of_leases_abs.
Qed.

(** Whatever packets come between them, the proxy does what the events of the
    commands say, in their order, and ends at the stop command. *)
Lemma proxy_follows_events net tun_ip polls evs stops m es :
  Forall event_ok evs -> PollErr false ∉ polls -> stops = [] \/ stops = [stop_cmd] ->
  ctl_of polls = map Command_to_bytes (map (event_command net) evs ++ stops) ->
  routes_of_leases (wrap 16 (un_port net)) m es ->
  exists es' out, run_proxy_loop tun_ip es polls = Some (es', out)
    /\ routes_of_leases (wrap 16 (un_port net)) (udp_leases evs m) es'.
Proof.
  revert evs m es. induction polls as [|p polls IH]; intros evs m es Hok Herr Hstop Hctl Hr.
  { destruct evs; [|done]. by eauto. }
  apply not_elem_of_cons in Herr as [Hp Herr].
  destruct p as [[]|ctl readable rounds]; cbn [run_proxy_loop]; [by apply (IH evs m)|done|].
  destruct ctl as [[b|]|]; [|cbn [process_cmd]|].
  2, 3: destruct (forward_keeps_routes _ m tun_ip readable es rounds Hr) as (es1 & out1 & -> & Hr1);
    destruct (IH evs m es1 Hok Herr Hstop Hctl Hr1) as (es2 & out2 & -> & Hr2); by eauto.
  change (ctl_of (PollOk (Some (Some b)) readable rounds :: polls)) with (b :: ctl_of polls) in Hctl.
  destruct evs as [|evt evs].
  - destruct Hstop as [->| ->]; [done|]. injection Hctl as -> Hrest. rewrite process_stop.
    destruct (forward_keeps_routes _ m tun_ip readable es rounds Hr) as (es1 & out1 & -> & Hr1). by eauto.
  - cbn [map app] in Hctl. injection Hctl as -> Hrest. apply Forall_cons_iff in Hok as [Hev Hok].
    destruct (process_event_command net evt m es Hev Hr) as (es1 & -> & Hr1).
    destruct (forward_keeps_routes _ _ tun_ip readable es1 rounds Hr1) as (es2 & out2 & -> & Hr2).
    destruct (IH evs _ es2 Hok Herr Hstop Hrest Hr2) as (es3 & out3 & -> & Hr3). by eauto.
Qed.

(** ** The network's side of the control socket *)

(** What the system promises: [us_fds] are the open descriptors, as a
    multiset; a call that fails opens none.  [us_sent] are the messages
    written to a control socket, whose writes succeed whole while its other
    end is open. *)
Class UdpLaws (K : Type) `{UdpSystem K} := {
  us_fds : K -> list Z;
  us_sent : K -> Z -> list bytes;
  us_writable : K -> Z -> Prop;
  ul_open : forall k, match us_open k with (k', Ok fd) => us_fds k' ≡ₚ fd :: us_fds k | (k', Err _) => us_fds k' ≡ₚ us_fds k end;
  ul_bind : forall ip port k,
    match us_bind ip port k with (k', Ok fd) => us_fds k' ≡ₚ fd :: us_fds k | (k', Err _) => us_fds k' ≡ₚ us_fds k end;
  ul_dup : forall fd k,
    match us_dup fd k with (k', Ok fd') => us_fds k' ≡ₚ fd' :: us_fds k | (k', Err _) => us_fds k' ≡ₚ us_fds k end;
  ul_socketpair : forall k,
    match us_socketpair k with
    | (k', Ok (a, b)) => us_fds k' ≡ₚ a :: b :: us_fds k
    | (k', Err _) => us_fds k' ≡ₚ us_fds k
    end;
  ul_close : forall fd k rest, us_fds k ≡ₚ fd :: rest -> us_fds (us_close fd k) ≡ₚ rest;
  ul_tunsetiff : forall fd name flags, keeps us_fds (us_tunsetiff fd name flags);
  ul_write : forall k fd b,
    us_writable k fd -> exists k', us_write fd b k = (k', Z.of_nat (length b)) /\ us_writable k' fd
      /\ us_sent k' fd = us_sent k fd ++ [b];
  ul_dup_keeps : forall k fd k' r ctl,
    us_dup fd k = (k', r) -> us_sent k' ctl = us_sent k ctl /\ (us_writable k ctl -> us_writable k' ctl);
  ul_spawn_keeps : forall tun sock ctl2 ip mtu k ctl,
    us_sent (us_spawn_proxy tun sock ctl2 ip mtu k) ctl = us_sent k ctl
    /\ (us_writable k ctl -> us_writable (us_spawn_proxy tun sock ctl2 ip mtu k) ctl);
}.

(** The events that the turns deliver, and whether they end the loop *)
Fixpoint turn_events (turns : list (Channel (list Event) * bool)) : list Event :=
  match turns with
  | (Holds batch, _) :: turns => batch ++ turn_events turns
  | (Empty, false) :: turns => turn_events turns
  | _ => []
  end.

Fixpoint turns_end (turns : list (Channel (list Event) * bool)) : bool :=
  match turns with
  | [] => false
  | (Holds _, _) :: turns => turns_end turns
  | (Empty, false) :: turns => turns_end turns
  | _ => true
  end.

Section Sending.
Context `{UdpLaws K}.

Lemma write_command_sent net cmd (k : K) :
  us_writable k (un_ctl net) ->
  us_writable (write_command net cmd k) (un_ctl net)
  /\ us_sent (write_command net cmd k) (un_ctl net) = us_sent k (un_ctl net) ++ [Command_to_bytes cmd].
Proof.
  intros Hw. unfold write_command. destruct (ul_write k (un_ctl net) (Command_to_bytes cmd) Hw) as (k' & -> & Hw' & Hs). done.
Qed.

Lemma process_subnet_events_sent net batch (k : K) :
  us_writable k (un_ctl net) ->
  us_writable (process_subnet_events net batch k) (un_ctl net)
  /\ us_sent (process_subnet_events net batch k) (un_ctl net)
     = us_sent k (un_ctl net) ++ map Command_to_bytes (map (event_command net) batch).
Proof.
  unfold process_subnet_events. revert k. induction batch as [|evt batch IH]; intros k Hw; cbn; [by rewrite app_nil_r|].
  destruct (write_command_sent net (event_command net evt) k Hw) as [Hw1 Hs1]. destruct (IH _ Hw1) as [Hw2 Hs2].
  split; [done|]. by rewrite Hs2, Hs1, <- app_assoc.
Qed.

Lemma udp_loop_sent net turns (k : K) :
  us_writable k (un_ctl net) ->
  us_sent (udp_loop net turns k) (un_ctl net)
  = us_sent k (un_ctl net)
    ++ map Command_to_bytes (map (event_command net) (turn_events turns) ++ (if turns_end turns then [stop_cmd] else [])).
Proof.
  revert k. induction turns as [|[[batch| |] done] turns IH]; intros k Hw; cbn [udp_loop turn_events turns_end].
  - by rewrite app_nil_r.
  - destruct (process_subnet_events_sent net batch k Hw) as [Hw1 Hs1]. rewrite (IH _ Hw1), Hs1, <- app_assoc.
    f_equal. by rewrite !map_app, <- app_assoc.
  - destruct done; [|by apply IH]. by apply write_command_sent.
  - by apply write_command_sent.
Qed.

(** From the start of [run] *)
Lemma udp_run_sent net ctl2 turns (k : K) :
  un_ctl2 net = Some ctl2 -> us_writable k (un_ctl net) ->
  (forall k fd, exists k' fd', us_dup fd k = (k', Ok fd')) ->
  us_sent (udp_run net turns k).2 (un_ctl net)
  = us_sent k (un_ctl net)
    ++ map Command_to_bytes (map (event_command net) (turn_events turns) ++ (if turns_end turns then [stop_cmd] else [])).
Proof.
  intros Hc Hw Hd. unfold udp_run. rewrite Hc. cbv zeta.
  destruct (Hd k (un_tun (take_ctl2 net))) as (k1 & tun2 & E1). rewrite E1.
  destruct (Hd k1 (un_conn (take_ctl2 net))) as (k2 & sock2 & E2). rewrite E2. cbn [snd].
  destruct (ul_dup_keeps _ _ _ _ (un_ctl net) E1) as [Hs1 Hw1]. destruct (ul_dup_keeps _ _ _ _ (un_ctl net) E2) as [Hs2 Hw2].
  destruct (ul_spawn_keeps tun2 sock2 ctl2 (swap32 (ip4n_ip (un_tun_net (take_ctl2 net)))) (un_mtu (take_ctl2 net)) k2 (un_ctl net)) as [Hs3 Hw3].
  rewrite (udp_loop_sent (take_ctl2 net)) by (cbn; auto). cbn [take_ctl2 un_ctl]. by rewrite Hs3, Hs2, Hs1.
Qed.

(** C11: from the lease events to the wire.  When the network has run over any
    turns of its loop, and the proxy has polled the messages that were written
    to its control socket, with any packets in between, the proxy has not
    panicked, its routes are exactly the leases that the events leave, each
    to the public address of its node and the configured port (modulo 2^16),
    and a packet for an address of one leased subnet is sent there and nowhere
    else, with its TTL one lower and a header checksum that still verifies. *)
Theorem udp_events_forward net ctl2 turns (k : K) polls tun_ip tun_mtu :
  un_ctl2 net = Some ctl2 -> us_writable k (un_ctl net) ->
  (forall k fd, exists k' fd', us_dup fd k = (k', Ok fd')) ->
  Forall event_ok (turn_events turns) -> tun_mtu <> 0 -> PollErr false ∉ polls ->
  us_sent (udp_run net turns k).2 (un_ctl net) = us_sent k (un_ctl net) ++ ctl_of polls ->
  let leases := udp_leases (turn_events turns) ∅ in
  exists es out, run_proxy tun_ip tun_mtu polls = Some (es, out)
    /\ routes_of_leases (wrap 16 (un_port net)) leases es
    /\ forall n ip a pkt h t,
         leases !! n = Some ip -> u32 a -> IP4Net_contains n a = true ->
         (forall n', is_Some (leases !! n') -> IP4Net_contains n' a = true -> n' = n) ->
         Forall is_byte pkt -> (5 <= h <= 15)%nat -> (4 * h <= length pkt)%nat ->
         slice 16 20 pkt = to_be 4 a -> pkt !! 8%nat = Some t -> 2 <= t -> cksum (take (4 * h) pkt) = 0 ->
         exists es' pkt',
           tun_to_udp (Some pkt) tun_ip es = Some (true, es', [ToUdp pkt' (swap32 ip) (wrap 16 (un_port net))])
           /\ same_but_ttl_check pkt pkt' /\ pkt' !! 8%nat = Some (t - 1) /\ cksum (take (4 * h) pkt') = 0.
Proof.
  intros Hc Hw Hd Hok Hmtu Herr Hsent leases. rewrite (udp_run_sent net ctl2) in Hsent by done. apply app_inv_head in Hsent.
  unfold run_proxy. rewrite (proj2 (Z.eqb_neq _ _) Hmtu).
  destruct (proxy_follows_events net tun_ip polls (turn_events turns) (if turns_end turns then [stop_cmd] else []) ∅ [])
    as (es & out & -> & Hr); [done|done|by destruct (turns_end turns); [right|left]|done| |].
  { split; [apply NoDup_nil_2|]. split; [by intros ? ? ?%lookup_empty_Some|]. intros d [h Hl]. discriminate Hl. }
  exists es, out. split; [done|]. split; [exact Hr|]. intros n ip a pkt h t Hn Ha Hin Huniq Hb Hh Hl Hs Ht Ht2 Hk.
  destruct Hr as (Hi & Hm & Hroutes). destruct (Hm n ip Hn) as [[Hv _] Hhop].
  apply (tun_forward es n _ _ pkt a h t tun_ip); try done.
  intros m Hm' Hmatch. destruct (Hroutes m Hm') as (n' & [ip' Hn'] & ->). destruct (Hm n' ip' Hn') as [[Hv' _] _].
  rewrite net_matches_contains in Hmatch by done. f_equal. apply Huniq; [by eexists|done].
Qed.
End Sending.

(** ** Descriptors are closed *)

(** The requests on links and addresses open none for the backend. *)
Class UdpNetLaws (K : Type) `{UdpLaws K} `{NlKernel K} `{LinkKernel K} `{SubnetManager K} : Prop := {
  un_netlink : keeps us_fds (sm_netlink (K := K));
  un_acquire : forall attrs, keeps us_fds (sm_acquire_lease (K := K) attrs);
  un_addr_add : forall idx ip plen, keeps us_fds (nl_addr_add (K := K) idx ip plen);
  un_set_mtu : forall idx mtu, keeps us_fds (lk_set_mtu (K := K) idx mtu);
  un_set_up : forall idx, keeps us_fds (lk_set_up (K := K) idx);
  un_route_add : forall dst plen idx, keeps us_fds (us_route_add (K := K) dst plen idx);
}.
#[global] Hint Extern 2 (keeps _ _) =>
  first [apply un_netlink | apply un_acquire | apply un_addr_add | apply un_set_mtu | apply un_set_up | apply un_route_add
        | apply ul_tunsetiff] : keeps.

Section Descriptors.
Context `{UdpNetLaws K}.

(** A function that holds the descriptors [held]: when it fails they are
    closed, when it succeeds it holds some that [P] allows. *)
Definition owns_fds {E A} (held : list Z) (m : io K E A) (P : A -> list Z -> Prop) : Prop := forall k rest,
  us_fds k ≡ₚ held ++ rest ->
  match m k with
  | (k', Ok a) => exists l, P a l /\ us_fds k' ≡ₚ l ++ rest
  | (k', Err _) => us_fds k' ≡ₚ rest
  end.

Lemma owns_bind {E A B} held (m : io K E A) (f : A -> io K E B) P Q :
  owns_fds held m Q -> (forall a l, Q a l -> owns_fds l (f a) P) -> owns_fds held (io_bind m f) P.
Proof.
  intros Hm Hf k rest Hk. unfold io_bind. specialize (Hm k rest Hk). destruct (m k) as [k1 [a|e]]; [|done].
  destruct Hm as (l & Hq & Hl). by apply (Hf a l Hq).
Qed.

Lemma owns_ret {E A} held (a : A) (P : A -> list Z -> Prop) : P a held -> owns_fds held (io_ret (E := E) a) P.
Proof. intros Hp k rest Hk. by exists held. Qed.

Lemma owns_map_err {E F A} (g : E -> F) held (m : io K E A) P : owns_fds held m P -> owns_fds held (io_map_err g m) P.
Proof. intros Hm k rest Hk. unfold io_map_err. specialize (Hm k rest Hk). by destruct (m k) as [k1 []]. Qed.

Lemma owns_closing {E A} fd (m : io K E A) P : owns_fds [] m (fun a l => P a (fd :: l)) -> owns_fds [fd] (closing fd m) P.
Proof.
  intros Hm k rest Hk. unfold closing. specialize (Hm k (fd :: rest) Hk). destruct (m k) as [k1 [a|e]].
  - destruct Hm as (l & Hp & Hl). exists (fd :: l). split; [done|]. by rewrite Hl, <- Permutation_middle.
  - by apply ul_close.
Qed.

Lemma owns_keeps {E A} (m : io K E A) : keeps us_fds m -> owns_fds [] m (fun _ l => l = []).
Proof.
  intros Hm k rest Hk. specialize (Hm k). destruct (m k) as [k1 [a|e]]; cbn in *; [exists []; split; [done|]|]; by rewrite Hm.
Qed.

Lemma owns_one {E} (m : io K E Z) :
  (forall k, match m k with (k', Ok fd) => us_fds k' ≡ₚ fd :: us_fds k | (k', Err _) => us_fds k' ≡ₚ us_fds k end) ->
  owns_fds [] m (fun fd l => l = [fd]).
Proof.
  intros Hm k rest Hk. specialize (Hm k). destruct (m k) as [k1 [a|e]]; [exists [a]; split; [done|]|]; by rewrite Hm, Hk.
Qed.

Lemma owns_socketpair : owns_fds [] us_socketpair (fun p l => l = [p.1; p.2]).
Proof.
  intros k rest Hk. pose proof (ul_socketpair k) as Hm. destruct (us_socketpair k) as [k1 [[a b]|e]]; [exists [a; b]; split; [done|]|];
    by rewrite Hm, Hk.
Qed.

Lemma open_tun_owns name : owns_fds [] (open_tun name) (fun p l => l = [p.1]).
Proof.
  unfold open_tun. eapply owns_bind; [apply owns_map_err, owns_one, ul_open|]. intros fd l ->. apply owns_closing.
  eapply owns_bind; [apply owns_keeps; auto with keeps|]. intros b l ->. by apply owns_ret.
Qed.

Lemma configure_iface_keeps ifname ipn mtu : keeps us_fds (configure_iface ifname ipn mtu).
Proof.
  unfold configure_iface. apply keeps_bind; [auto with keeps|]. intros k. apply keeps_bind; [auto with keeps|]. intros iface. cbv zeta.
  do 4 (apply keeps_bind; [auto with keeps|]; intros ?). repeat case_match; auto with keeps.
Qed.

Lemma iface_mtu_keeps idx : keeps us_fds (iface_mtu (K := K) idx).
Proof. unfold iface_mtu. apply keeps_bind; [auto with keeps|]. intros k. auto with keeps. Qed.

Definition network_fds (net : UdpNetwork) : list Z :=
  [un_tun net; un_conn net; un_ctl net] ++ option_list (un_ctl2 net).

Lemma udp_new_network_owns ei port tun_net lease :
  owns_fds [] (udp_new_network ei port tun_net lease) (fun net l => l = network_fds net /\ is_Some (un_ctl2 net)).
Proof.
  unfold udp_new_network. eapply owns_bind; [apply owns_keeps; auto with keeps|]. intros _ l ->.
  eapply owns_bind; [apply owns_keeps, iface_mtu_keeps|]. intros mtu l ->. cbv zeta.
  eapply owns_bind; [apply owns_map_err, open_tun_owns|]. intros [tun name] l ->. apply owns_closing.
  eapply owns_bind; [apply owns_keeps, configure_iface_keeps|]. intros _ l ->.
  eapply owns_bind; [apply owns_keeps; auto with keeps|]. intros ip l ->.
  eapply owns_bind; [apply owns_map_err, owns_one, ul_bind|]. intros conn l ->. apply owns_closing.
  eapply owns_bind; [apply owns_map_err, owns_socketpair|]. intros [a b] l ->. apply owns_ret. split; [done|by eexists].
Qed.

Lemma acquire_registered_keeps attrs : keeps us_fds (acquire_registered (K := K) attrs).
Proof.
  intros k. unfold acquire_registered. pose proof (un_acquire attrs k) as Hk.
  destruct (sm_acquire_lease attrs k) as [k1 [l|e]]; [done|]. by destruct (sm_is_cancelled k1).
Qed.

(** A registration of the UDP backend holds the four descriptors of the
    network when it succeeds and none when it fails, at whatever step: the
    tun device goes with its descriptor. *)
Theorem udp_register_no_leak `{CniJson} ei config (k : K) :
  match udp_register_network ei config k with
  | (k', Ok net) => us_fds k' ≡ₚ network_fds net ++ us_fds k /\ length (network_fds net) = 4%nat
  | (k', Err _) => us_fds k' ≡ₚ us_fds k
  end.
Proof.
  assert (owns_fds [] (udp_register_network ei config) (fun net l => l = network_fds net /\ is_Some (un_ctl2 net))) as Hr.
  { unfold udp_register_network. eapply owns_bind; [apply owns_keeps; auto with keeps|]. intros port l ->.
    eapply owns_bind; [apply owns_keeps; auto with keeps|]. intros ip l ->.
    eapply owns_bind; [apply owns_keeps, acquire_registered_keeps|]. intros lease l ->. apply udp_new_network_owns. }
  specialize (Hr k (us_fds k) ltac:(done)). destruct (udp_register_network ei config k) as [k1 [net|e]]; [|done].
  destruct Hr as (l & [-> [c Hc]] & Hl). split; [done|]. unfold network_fds. by rewrite Hc.
Qed.
End Descriptors.

(** ** The tun device *)

(** The device of the tunnel ends up with the address of the host alone (a
    /32, so that no broadcast route comes with it), the MTU, and up; a route
    that exists is no error. *)
Theorem configure_iface_ready `{LinkLaws K} `{!UdpSystem K} (k : K) name d ipn mtu :
  nl_admin k -> ll_table k !! name = Some d -> nl_addrs k (ld_index d) = ([], None) -> 68 <= mtu <= 65000 ->
  (forall dst plen idx (k : K), exists k' r, us_route_add dst plen idx k = (k', r)
     /\ (is_ok r = true \/ exists e, r = Err e /\ is_eexist e = true)
     /\ ll_table k' = ll_table k /\ forall j, nl_addrs k' j = nl_addrs k j) ->
  exists k' m, configure_iface name ipn mtu k = (k', Ok tt)
    /\ ll_table k' !! name = Some (set_up (set_dev_mtu mtu d))
    /\ nl_addrs k' (ld_index d) = ([m], None) /\ addr_ip m = Some (V4 (ip4n_ip ipn)) /\ am_prefix_len m = 32.
Proof.
  intros Ha Hd Hl Hmtu Hroute. unfold configure_iface, get_interface_by_name, io_bind, io_get, io_lift, io_map_err, io_try.
  destruct (ll_by_name k name d Ha Hd) as (m & rest & e & -> & Hdesc). cbn [try_next fst rbind map_err net_iface_of ni_index].
  assert (lm_index m = ld_index d) as -> by apply Hdesc.
  destruct (nl_add_effect k (ld_index d) [] (V4 (ip4n_ip ipn)) 32 Ha Hl) as (k1 & am & l1 & E1 & Ha1 & Hl1 & Hp1 & Hip & Hplen & _);
    [by rewrite (name_of_found k name d)|done|cbn; lia|].
  cbn [ip4n_ip]. pose proof (ll_addr_add (ld_index d) (V4 (ip4n_ip ipn)) 32 k) as Ht1. rewrite E1 in *. cbn in Ht1.
  cbn [map_err]. apply Permutation_sym, Permutation_length_1_inv in Hp1 as ->.
  destruct (ll_set_mtu k1 name d mtu Ha1) as (k2 & -> & Ha2 & Ht2 & Hl2); [by rewrite Ht1|done|]. cbn [map_err].
  destruct (ll_set_up k2 name (set_dev_mtu mtu d) Ha2) as (k3 & E3 & Ha3 & Ht3 & Hl3); [by rewrite Ht2, lookup_insert_eq|].
  assert (ld_index (set_dev_mtu mtu d) = ld_index d) as Hidx by (by destruct d). rewrite Hidx in E3. rewrite E3. cbn [map_err].
  destruct (Hroute (ip4n_ip (IP4Net_network ipn)) (wrap 8 (ip4n_plen (IP4Net_network ipn))) (ld_index d) k3)
    as (k4 & r & -> & Hr & Ht4 & Hl4).
  exists k4, am. split.
  - destruct Hr as [Hr|(er & -> & ->)]; [by destruct r|done].
  - rewrite Ht4, Ht3, lookup_insert_eq, Hl4, Hl3, Hl2. done.
Qed.

(** ** A system for the witnesses *)

Record UdpWorld := mkUdpWorld {
  uw_node : LinkNode;
  uw_fds : list Z;
  uw_next : Z;
  uw_sent : list (Z * bytes);
}.

Definition uw_alloc (w : UdpWorld) : UdpWorld * result Z string :=
  (mkUdpWorld (uw_node w) (uw_next w :: uw_fds w) (uw_next w + 1) (uw_sent w), Ok (uw_next w)).

Fixpoint remove_fd (fd : Z) (l : list Z) : list Z :=
  match l with [] => [] | x :: l => if x =? fd then l else x :: remove_fd fd l end.

Definition uw_lift {E A} (m : io LinkNode E A) : io UdpWorld E A := fun w =>
  let '(n, r) := m (uw_node w) in (mkUdpWorld n (uw_fds w) (uw_next w) (uw_sent w), r).

(** The ioctl creates a device for the pattern. *)
Definition uw_new_tun (n : LinkNode) : LinkNode * result bytes string :=
  (mkLinkNode (<["flannel0" := mkRawDev (nd_next n) (Some (KOther "tun")) IdOther [] 1500 false]> (nd_devs n)) (nd_next n + 1) (nd_addrs n),
   Ok (splice 0 (as_bytes "flannel0") (replicate IFNAME_SIZE 0))).

#[local] Instance UdpWorld_system : UdpSystem UdpWorld := {
  us_open := uw_alloc;
  us_tunsetiff _ _ _ := uw_lift uw_new_tun;
  us_bind _ _ := uw_alloc;
  us_socketpair w := let '(w, _) := uw_alloc w in let '(w, _) := uw_alloc w in (w, Ok (uw_next w - 1, uw_next w - 2));
  us_dup _ := uw_alloc;
  us_close fd w := mkUdpWorld (uw_node w) (remove_fd fd (uw_fds w)) (uw_next w) (uw_sent w);
  us_write fd b w := (mkUdpWorld (uw_node w) (uw_fds w) (uw_next w) (uw_sent w ++ [(fd, b)]), Z.of_nat (length b));
  us_route_add _ _ _ w := (w, Err (mkNlError (Some EEXIST_CODE) "File exists"));
  us_spawn_proxy _ _ _ _ _ w := w;
}.

#[local] Instance UdpWorld_nl : NlKernel UdpWorld := {
  nl_links w := nl_links (uw_node w);
  nl_link_by_index w := nl_link_by_index (uw_node w);
  nl_link_by_name w := nl_link_by_name (uw_node w);
  nl_addrs w := nl_addrs (uw_node w);
  nl_routes w := nl_routes (uw_node w);
  nl_route_get w := nl_route_get (uw_node w);
  nl_addr_add i ip plen := uw_lift (nl_addr_add i ip plen);
  nl_addr_del a := uw_lift (nl_addr_del a);
  nl_route_add r := uw_lift (nl_route_add r);
}.

#[local] Instance UdpWorld_links : LinkKernel UdpWorld := {
  lk_add r := uw_lift (lk_add r);
  lk_del i := uw_lift (lk_del i);
  lk_set_mtu i mtu := uw_lift (lk_set_mtu i mtu);
  lk_set_up i := uw_lift (lk_set_up i);
}.

Lemma remove_fd_perm fd l rest : l ≡ₚ fd :: rest -> remove_fd fd l ≡ₚ rest.
Proof.
  revert rest. induction l as [|x l IH]; intros rest Hl; [by apply Permutation_nil_cons in Hl|]. cbn.
  destruct (Z.eqb_spec x fd) as [->|Hne]; [by apply Permutation_cons_inv in Hl|].
  assert (x ∈ fd :: rest) as Hx by (rewrite <- Hl; left). apply elem_of_cons in Hx as [->|Hx]; [done|].
  apply list_elem_of_In, in_split in Hx as (a & b & ->).
  rewrite <- Permutation_middle in Hl |- *. constructor. apply IH.
  apply (Permutation_cons_inv (a := x)). rewrite Hl. constructor.
Qed.

Definition sent_to (fd : Z) (l : list (Z * bytes)) : list bytes := map snd (List.filter (fun p => p.1 =? fd) l).

#[local] Program Instance UdpWorld_laws : UdpLaws UdpWorld := {
  us_fds := uw_fds;
  us_sent w fd := sent_to fd (uw_sent w);
  us_writable _ _ := True;
}.
Next Obligation. intros w. cbn. reflexivity. Qed.
Next Obligation. intros ip port w. cbn. reflexivity. Qed.
Next Obligation. intros fd w. cbn. reflexivity. Qed.
Next Obligation. intros w. cbn. replace (uw_next w + 1 + 1 - 1) with (uw_next w + 1) by lia. by replace (uw_next w + 1 + 1 - 2) with (uw_next w) by lia. Qed.
Next Obligation. intros fd w rest. apply remove_fd_perm. Qed.
Next Obligation. intros fd name flags w. reflexivity. Qed.
Next Obligation.
  intros w fd b _. eexists. split; [done|]. split; [done|]. unfold sent_to. cbn [uw_sent]. rewrite List.filter_app, map_app. cbn. by rewrite Z.eqb_refl.
Qed.
Next Obligation. intros w fd w' r ctl [= <- <-]. done. Qed.
Next Obligation. done. Qed.

Definition udp_demo_event (t : EventType) (third a b c d : Z) : Event :=
  mkEvent t (mkLease true false (mkIP4Net (IP4_from_octets 10 244 third 0) 24) IP6Net_default
               (mkLeaseAttrs (IP4_from_octets a b c d) None "" None None) 0 0).

(** Two nodes join, one of them moves, the other leaves; then the watch
    ends. *)
Definition udp_demo_turns : list (Channel (list Event) * bool) :=
  [(Holds [udp_demo_event Added 1 192 168 0 1; udp_demo_event Added 2 192 168 0 2], false);
   (Empty, false);
   (Holds [udp_demo_event Added 1 192 168 0 9; udp_demo_event Removed 2 192 168 0 2], false);
   (Empty, true)].

Definition udp_demo_network : UdpNetwork :=
  mkUdpNetwork (ev_lease (udp_demo_event Added 7 192 168 0 7)) 73821 (mkIP4Net (IP4_from_octets 10 244 7 0) 16) 1472 3 4 5 (Some 6).

Definition udp_demo_world : UdpWorld := mkUdpWorld (mkLinkNode ∅ 1 []) [3; 4; 5; 6] 7 [].

(** The proxy polls the commands with packets in between. *)
Definition udp_demo_polls : list PollResult :=
  PollErr true ::
  flat_map (fun b => [PollOk None true [(Some sample_header, None)]; PollOk (Some (Some b)) false []])
    (sent_to 5 (uw_sent (udp_run udp_demo_network udp_demo_turns udp_demo_world).2)).

(** A header for 10.244.1.5, TTL 64 *)
Definition udp_demo_packet : bytes :=
  [69; 0; 0; 20; 0; 0; 0; 0; 64; 17; 92; 235; 10; 244; 7; 2; 10; 244; 1; 5].

Lemma udp_events_forward_witness :
  exists es out es' pkt',
    run_proxy 0 1472 udp_demo_polls = Some (es, out)
    /\ tun_to_udp (Some udp_demo_packet) 0 es = Some (true, es', [ToUdp pkt' (swap32 (IP4_from_octets 192 168 0 9)) 8285])
    /\ cksum (take 20 pkt') = 0.
Proof.
  assert (cksum (take (4 * 5) udp_demo_packet) = 0) as Hck by (vm_compute; reflexivity).
  assert (udp_leases (turn_events udp_demo_turns) ∅
          = {[mkIP4Net (IP4_from_octets 10 244 1 0) 24 := IP4_from_octets 192 168 0 9]}) as Hleases.
  { apply (bool_decide_unpack (udp_leases _ _ = _)). vm_compute. exact I. }
  destruct (udp_events_forward udp_demo_network 6 udp_demo_turns udp_demo_world udp_demo_polls 0 1472)
    as (es & out & Hrun & _ & Hpkt).
  - reflexivity.
  - exact I.
  - intros w fd. eexists _, _. reflexivity.
  - apply (bool_decide_unpack (Forall event_ok (turn_events udp_demo_turns))). vm_compute. exact I.
  - lia.
  - intros Hin%list_elem_of_In. vm_compute in Hin. repeat destruct Hin as [Hin|Hin]; done.
  - vm_compute. reflexivity.
  - destruct (Hpkt (mkIP4Net (IP4_from_octets 10 244 1 0) 24) (IP4_from_octets 192 168 0 9) (IP4_from_octets 10 244 1 5)
                udp_demo_packet 5%nat 64) as (es' & pkt' & Hf & _ & _ & Hk).
    + rewrite Hleases. apply lookup_singleton_eq.
    + apply (bool_decide_unpack (in_width _ _)). vm_compute. exact I.
    + vm_compute. reflexivity.
    + rewrite Hleases. by intros n' [ip' [<- _]%lookup_singleton_Some] _.
    + apply (bool_decide_unpack (Forall is_byte udp_demo_packet)). vm_compute. exact I.
    + lia.
    + cbn. lia.
    + vm_compute. reflexivity.
    + reflexivity.
    + lia.
    + exact Hck.
    + exists es, out, es', pkt'. split; [exact Hrun|]. split; [exact Hf|exact Hk].
Defined.

#[local] Instance UdpWorld_manager : SubnetManager UdpWorld := {
  sm_network_config := io_ret Config_default;
  sm_acquire_lease _ := io_ret (ev_lease (udp_demo_event Added 7 192 168 0 7));
  sm_stored_macs w := (w, ("", ""));
  sm_stored_public_ip w := (w, ("", ""));
  sm_handle_subnet_file _ _ _ _ _ _ := io_ret tt;
  sm_complete_lease _ := io_ret tt;
  sm_is_cancelled _ := false;
  sm_netlink := io_ret tt;
}.

Lemma uw_lift_fds {E A} (m : io LinkNode E A) : keeps uw_fds (uw_lift m).
Proof. intros w. unfold uw_lift. by destruct (m (uw_node w)). Qed.

#[local] Instance UdpWorld_net_laws : UdpNetLaws UdpWorld.
Proof. constructor; intros; try apply uw_lift_fds; intros w; reflexivity. Qed.

#[local] Instance udp_demo_json : CniJson :=
  { cj_text _ := Ok (TObject [("Port", VNumber "9999")]); cj_value _ := Ok VNull; cj_print _ := ""; cj_invalid _ _ := "" }.

Definition udp_demo_iface (addr : option IpAddr) : ExternalInterface :=
  mkExternalInterface 1 "eth0" addr None (Some (V4 (IP4_from_octets 192 168 0 7))) None.

Definition udp_demo_config : Config :=
  mkConfig true false false (mkIP4Net (IP4_from_octets 10 244 0 0) 16) IP6Net_default 0 0 None None 24 0 "udp" (Some "{}").

Definition udp_demo_host : UdpWorld :=
  mkUdpWorld (mkLinkNode {["eth0" := mkRawDev 1 None IdOther [] 1500 true]} 2 []) [] 3 [].

(** A registration that succeeds, and one that fails after the tun device was
    opened and configured *)
Lemma udp_register_no_leak_witness :
  (exists w net, udp_register_network (udp_demo_iface (Some (V4 (IP4_from_octets 192 168 0 7)))) udp_demo_config udp_demo_host = (w, Ok net)
    /\ us_fds w ≡ₚ network_fds net ++ [])
  /\ (exists w e, udp_register_network (udp_demo_iface None) udp_demo_config udp_demo_host = (w, Err e) /\ us_fds w ≡ₚ []
    /\ 3 < uw_next w).
Proof.
  split.
  - pose proof (udp_register_no_leak (udp_demo_iface (Some (V4 (IP4_from_octets 192 168 0 7)))) udp_demo_config udp_demo_host) as Hr.
    assert (is_ok (udp_register_network (udp_demo_iface (Some (V4 (IP4_from_octets 192 168 0 7)))) udp_demo_config udp_demo_host).2 = true)
      as Hok by (vm_compute; reflexivity).
    destruct (udp_register_network _ _ _) as [w [net|e]]; [|discriminate Hok].
    exists w, net. split; [reflexivity|exact (proj1 Hr)].
  - pose proof (udp_register_no_leak (udp_demo_iface None) udp_demo_config udp_demo_host) as Hr.
    assert (is_ok (udp_register_network (udp_demo_iface None) udp_demo_config udp_demo_host).2 = false) as Hok by (vm_compute; reflexivity).
    assert ((3 <? uw_next (udp_register_network (udp_demo_iface None) udp_demo_config udp_demo_host).1) = true) as Hn by (vm_compute; reflexivity).
    destruct (udp_register_network _ _ _) as [w [net|e]]; [discriminate Hok|].
    exists w, e. split; [reflexivity|]. split; [exact Hr|]. apply Z.ltb_lt. exact Hn.
Defined.
