(* ===== verification/ShellExpand.v ===== *)
(** * [backend/extension/mod.rs]: command lines

    The words of a command, and the expansion of [$VAR] and [${VAR}] in them.
    The expansion loop works on the bytes of a string with two indices; a
    slice that is out of range would be a panic, [None] here.  It is proved
    equal to a definition by recursion on the text. *)

From S2P Require Import Prelude RustStr Utf8.
#[local] Open Scope string_scope.
#[local] Open Scope list_scope.
#[local] Open Scope Z_scope.

(** ** Words *)

(** The characters with the property White_Space, as UTF-8: the length of one
    at the start of a text, or 0. *)
Definition ws_width (s : bytes) : nat :=
  match s with
  | a :: rest =>
      if (9 <=? a) && (a <=? 13) || (a =? 32) then 1%nat
      else match rest with
           | b :: rest =>
               if (a =? 194) && ((b =? 133) || (b =? 160)) then 2%nat
               else match rest with
                    | c :: _ =>
                        if (a =? 225) && (b =? 154) && (c =? 128)
                           || (a =? 226) && (b =? 128) && ((128 <=? c) && (c <=? 138) || (c =? 168) || (c =? 169) || (c =? 175))
                           || (a =? 226) && (b =? 129) && (c =? 159)
                           || (a =? 227) && (b =? 128) && (c =? 128)
                        then 3%nat else O
                    | [] => O
                    end
           | [] => O
           end
  | [] => O
  end.

(** [str::split_whitespace]: [word] is the word being read, [skip] what is left
    of a whitespace character. *)
Fixpoint split_ws (skip : nat) (word : bytes) (s : bytes) : list bytes :=
  let flush := match word with [] => [] | _ => [word] end in
  match s with
  | [] => flush
  | b :: rest =>
      match skip with
      | S skip => split_ws skip word rest
      | O => match ws_width s with
             | O => split_ws O (word ++ [b]) rest
             | S w => flush ++ split_ws w [] rest
             end
      end
  end.

Definition split_whitespace (s : string) : list string := map text_of (split_ws 0 [] (as_bytes s)).

Definition split_command (cmd : string) : option (list string) :=
  match split_whitespace cmd with [] => None | fields => Some fields end.

(** [str::trim] with the same characters *)
Fixpoint trim_ws_start (skip : nat) (s : bytes) : bytes :=
  match s with
  | [] => []
  | _ :: rest =>
      match skip with
      | S skip => trim_ws_start skip rest
      | O => match ws_width s with O => s | S w => trim_ws_start w rest end
      end
  end.

Fixpoint trim_ws_end (s : bytes) : bytes :=
  match s with
  | [] => []
  | b :: rest => match trim_ws_start 0 s with [] => [] | _ => b :: trim_ws_end rest end
  end.

Definition trim_ws (s : bytes) : bytes := trim_ws_end (trim_ws_start 0 s).

(** ** Names *)

Definition DOLLAR : Z := 36.
Definition LBRACE : Z := 123.
Definition RBRACE : Z := 125.

Definition is_shell_special_var (c : Z) : bool :=
  existsb (Z.eqb c) [42; 35; 36; 64; 33; 63; 45] || (48 <=? c) && (c <=? 57).

Definition is_alpha_num (c : Z) : bool :=
  (c =? 95) || (48 <=? c) && (c <=? 57) || (65 <=? c) && (c <=? 90) || (97 <=? c) && (c <=? 122).

Fixpoint alnum_run (s : bytes) : nat :=
  match s with
  | c :: s => if is_alpha_num c then S (alnum_run s) else O
  | [] => O
  end.

(** The name and the number of bytes it takes; the argument is not empty. *)
Definition get_shell_name (s : bytes) : bytes * nat :=
  match s with
  | [] => ([], O)
  | c :: _ =>
      if c =? LBRACE then
        if (2 <? length s)%nat && is_shell_special_var (nth 1 s 0) && (nth 2 s 0 =? RBRACE) then (slice 1 2 s, 3%nat)
        else match position (Z.eqb RBRACE) (drop 1 s) with
             | Some O => ([], 2%nat)
             | Some (S i) => (slice 1 (2 + i) s, (3 + i)%nat)
             | None => ([], 1%nat)
             end
      else if is_shell_special_var c then (take 1 s, 1%nat)
      else if is_alpha_num c then (take (alnum_run s) s, alnum_run s)
      else ([], O)
  end.

(** ** Expansion *)

Definition shell_value (m : gmap string string) (name : bytes) : bytes :=
  as_bytes (default "" (m !! text_of (from_utf8_lossy name))).

(** [&b[i..j]] *)
Definition checked_slice (i j : nat) (b : bytes) : option bytes :=
  if (i <=? j)%nat && (j <=? length b)%nat then Some (slice i j b) else None.

Fixpoint expand_loop (fuel : nat) (m : gmap string string) (b : bytes) (i j : nat) (out : bytes) : option bytes :=
  match fuel with
  | O => None
  | S fuel =>
      if (j <? length b)%nat then
        if (nth j b 0 =? DOLLAR) && (j + 1 <? length b)%nat then
          match checked_slice i j b with
          | None => None
          | Some lit =>
              let '(name, w) := get_shell_name (drop (j + 1) b) in
              let subst := match name with
                           | [] => if (w =? 0)%nat then [nth j b 0] else []
                           | _ => shell_value m name
                           end in
              let j := (j + w)%nat in
              expand_loop fuel m b (j + 1) (j + 1) (out ++ lit ++ subst)
          end
        else expand_loop fuel m b i (j + 1) out
      else option_map (app out) (checked_slice i (length b) b)
  end.

Definition expand (s : string) (m : gmap string string) : option string :=
  let b := as_bytes s in
  option_map (fun out => text_of (from_utf8_lossy out)) (expand_loop (S (length b)) m b 0 0 []).

Fixpoint expand_vars (m : gmap string string) (args : list string) : option (list string) :=
  match args with
  | [] => Some []
  | a :: args =>
      match expand a m, expand_vars m args with
      | Some a, Some args => Some (a :: args)
      | _, _ => None
      end
  end.

(** * Theorems *)

(** ** The expansion by recursion on the text *)

(** [skip] bytes belong to the reference that was just replaced. *)
Fixpoint os_expand (m : gmap string string) (skip : nat) (s : bytes) : bytes :=
  match s with
  | [] => []
  | c :: rest =>
      match skip with
      | S skip => os_expand m skip rest
      | O =>
          if c =? DOLLAR then
            match rest with
            | [] => [c]
            | _ =>
                let '(name, w) := get_shell_name rest in
                match name with [] => if (w =? 0)%nat then [c] else [] | _ => shell_value m name end ++ os_expand m w rest
            end
          else c :: os_expand m O rest
      end
  end.

Lemma os_expand_skip m w s : (w <= length s)%nat -> os_expand m w s = os_expand m 0 (drop w s).
Proof.
  revert s. induction w as [|w IH]; intros s Hw; [by rewrite drop_0|]. destruct s as [|c s]; cbn in Hw; [lia|].
  cbn [os_expand drop]. apply IH. lia.
Qed.

Lemma alnum_run_length s : (alnum_run s <= length s)%nat.
Proof. induction s as [|c s IH]; [done|]. cbn. case_match; lia. Qed.

(** A reference lies in the text. *)
Lemma get_shell_name_width s : ((get_shell_name s).2 <= length s)%nat.
Proof.
  unfold get_shell_name. destruct s as [|c s]; [done|]. destruct (c =? LBRACE).
  - destruct (_ && _ && _) eqn:E.
    + apply andb_true_iff in E as [[?%Nat.ltb_lt _]%andb_true_iff _]. cbn in *. lia.
    + change (drop 1 (c :: s)) with (drop 0 s). rewrite drop_0.
      destruct (position _ s) as [[|i]|] eqn:Hp; [| |cbn; lia];
        apply position_Some in Hp as (x & Hl%lookup_lt_Some & _); cbn; lia.
  - destruct (is_shell_special_var c); [cbn; lia|]. destruct (is_alpha_num c); [apply alnum_run_length|cbn; lia].
Qed.

Lemma slice_snoc {A} (i j : nat) (l : list A) x :
  (i <= j)%nat -> l !! j = Some x -> slice i (j + 1) l = slice i j l ++ [x].
Proof.
  intros Hij Hx. unfold slice. replace (j + 1 - i)%nat with (S (j - i)) by lia. apply take_S_r.
  rewrite lookup_drop. by replace (i + (j - i))%nat with j by lia.
Qed.

(** The loop with the literal bytes from [i] still to be copied *)
Lemma expand_loop_spec fuel m b i j out :
  (i <= j)%nat -> (j <= length b)%nat -> (length b - j < fuel)%nat ->
  expand_loop fuel m b i j out = Some (out ++ slice i j b ++ os_expand m 0 (drop j b)).
Proof.
  revert i j out. induction fuel as [|fuel IH]; intros i j out Hij Hj Hf; [lia|]. cbn [expand_loop].
  destruct (Nat.ltb_spec j (length b)) as [Hlt|Hge].
  - destruct (lookup_lt_is_Some_2 b j Hlt) as [c Hc]. rewrite (nth_lookup_Some b j 0 c Hc).
    rewrite (drop_S b c j Hc). cbn [os_expand].
    assert (drop (j + 1) b = drop (S j) b) as -> by (f_equal; lia).
    destruct (c =? DOLLAR) eqn:Ed; cbn [andb].
    + destruct (Nat.ltb_spec (j + 1) (length b)) as [Hlt1|Hge1].
      * unfold checked_slice. rewrite (proj2 (Nat.leb_le i j) Hij), (proj2 (Nat.leb_le j (length b)) Hj). cbn [andb].
        pose proof (get_shell_name_width (drop (S j) b)) as Hw. rewrite length_drop in Hw.
        destruct (drop (S j) b) as [|c1 rest] eqn:Er; [apply (f_equal length) in Er; rewrite length_drop in Er; cbn in Er; lia|].
        rewrite <- Er in *. destruct (get_shell_name (drop (S j) b)) as [name w]. cbn [snd] in Hw.
        rewrite IH by lia. f_equal. rewrite <- !app_assoc. do 3 f_equal.
        unfold slice at 1. rewrite Nat.sub_diag, take_0, (os_expand_skip m w) by (rewrite length_drop; lia).
        rewrite drop_drop. cbn [app]. f_equal. f_equal. lia.
      * rewrite (drop_ge b (S j)) by lia. rewrite IH by lia. f_equal. rewrite (slice_snoc i j b c Hij Hc).
        rewrite drop_ge by lia. by rewrite <- app_assoc.
    + rewrite IH by lia. f_equal. rewrite (slice_snoc i j b c Hij Hc), <- !app_assoc. do 2 f_equal. by replace (j + 1)%nat with (S j) by lia.
  - assert (j = length b) as -> by lia. unfold checked_slice. rewrite (proj2 (Nat.leb_le i _) Hij), Nat.leb_refl.
    rewrite drop_all. cbn. by rewrite app_nil_r.
Qed.

(** ** Text stays text *)

(** The validity automaton of [core::str::from_utf8]: the number of
    continuation bytes still missing and the range of the next. *)
Fixpoint utf8_run (st : option (nat * Z * Z)) (bs : bytes) : option (option (nat * Z * Z)) :=
  match bs with
  | [] => Some st
  | b :: bs =>
      match st with
      | None => if b <? 128 then utf8_run None bs
                else match utf8_lead b with Some st => utf8_run (Some st) bs | None => None end
      | Some (n, lo, hi) =>
          if (lo <=? b) && (b <=? hi)
          then utf8_run (match n with S (S n) => Some (S n, 128, 191) | _ => None end) bs
          else None
      end
  end.

Definition is_text (bs : bytes) : Prop := utf8_run None bs = Some None.

#[global] Instance is_text_dec bs : Decision (is_text bs).
Proof. unfold is_text. apply _. Defined.

Lemma utf8_run_app st a b : utf8_run st (a ++ b) = match utf8_run st a with Some st => utf8_run st b | None => None end.
Proof.
  revert st. induction a as [|x a IH]; intros st; [done|]. cbn [app utf8_run].
  destruct st as [[[n lo] hi]|].
  - destruct (_ && _); [apply IH|done].
  - destruct (x <? 128); [apply IH|]. destruct (utf8_lead x); [apply IH|done].
Qed.

(** The lossy conversion of a text changes nothing. *)
Lemma is_text_utf8 bs : is_text bs -> is_utf8 bs.
Proof.
  unfold is_text, is_utf8, from_utf8_lossy. intros Hr.
  enough ((utf8_run None bs = Some None -> utf8_lossy None bs = bs)
          /\ (forall seq n lo hi, utf8_run (Some (n, lo, hi)) bs = Some None -> utf8_lossy (Some (seq, n, lo, hi)) bs = seq ++ bs))
    as [H _] by exact (H Hr).
  clear Hr. induction bs as [|b bs [IH IHs]]; [done|]. split; cbn [utf8_run utf8_lossy].
  - destruct (b <? 128); [intros Hr; by rewrite IH|]. destruct (utf8_lead b) as [[[n lo] hi]|]; [|done]. apply (IHs [b]).
  - intros seq n lo hi. destruct (_ && _); [|done]. intros Hr. destruct n as [|[|n]]; [by rewrite IH..|].
    by rewrite IHs, <- app_assoc.
Qed.

(** An ASCII character stands between characters. *)
Definition lead_range (st : option (nat * Z * Z)) : Prop := match st with Some (_, lo, _) => 128 <= lo | None => True end.

Lemma utf8_lead_range b st : utf8_lead b = Some st -> lead_range (Some st).
Proof. unfold utf8_lead. intros H. repeat case_match; simplify_eq; cbn; lia. Qed.

Lemma utf8_run_range st bs st' : lead_range st -> utf8_run st bs = Some st' -> lead_range st'.
Proof.
  revert st. induction bs as [|b bs IH]; intros st Hst Hr; cbn in Hr; [by simplify_eq|].
  destruct st as [[[n lo] hi]|].
  - destruct (_ && _); [|done]. eapply IH; [|exact Hr]. destruct n as [|[|n]]; cbn; lia || done.
  - destruct (b <? 128); [by eapply IH|]. destruct (utf8_lead b) eqn:E; [|done]. eapply IH; [|exact Hr]. by eapply utf8_lead_range.
Qed.

Lemma is_text_app a b : is_text a -> is_text b -> is_text (a ++ b).
Proof. unfold is_text. intros Ha Hb. by rewrite utf8_run_app, Ha. Qed.

(** What follows an ASCII character of a text is text. *)
Lemma utf8_run_ascii st a c b :
  lead_range st -> c < 128 -> utf8_run st (a ++ c :: b) = Some None -> is_text b.
Proof.
  intros Hst Hc. rewrite utf8_run_app. destruct (utf8_run st a) as [st'|] eqn:E; [|done].
  apply utf8_run_range in E; [|done]. cbn. destruct st' as [[[n lo] hi]|].
  - cbn in E. rewrite (proj2 (Z.leb_gt lo c)) by lia. done.
  - by rewrite (proj2 (Z.ltb_lt c 128)) by lia.
Qed.

(** A reference ends with an ASCII character. *)
Lemma alnum_run_all s i c : (i < alnum_run s)%nat -> s !! i = Some c -> is_alpha_num c = true.
Proof.
  revert i. induction s as [|x s IH]; intros i Hi Hc; cbn in Hi; [lia|]. destruct (is_alpha_num x) eqn:E; [|lia].
  destruct i as [|i]; cbn in Hc; [by simplify_eq|]. eapply IH; [|exact Hc]. lia.
Qed.

Lemma shell_special_ascii c : is_shell_special_var c = true -> c < 128.
Proof.
  unfold is_shell_special_var. rewrite orb_true_iff, existsb_exists.
  intros [(x & Hx & ->%Z.eqb_eq)|[_ H%Z.leb_le]%andb_true_iff]; [|lia]. cbn in Hx. lia.
Qed.

Lemma alpha_num_ascii c : is_alpha_num c = true -> c < 128.
Proof. unfold is_alpha_num. lia. Qed.

Lemma get_shell_name_last s w :
  (get_shell_name s).2 = S w -> exists c, s !! w = Some c /\ c < 128.
Proof.
  unfold get_shell_name. destruct s as [|c s]; [done|]. destruct (c =? LBRACE) eqn:El.
  - destruct (_ && _ && _) eqn:E.
    + apply andb_true_iff in E as [[Hl%Nat.ltb_lt _]%andb_true_iff H2%Z.eqb_eq]. intros [= <-].
      destruct (lookup_lt_is_Some_2 (c :: s) 2 Hl) as [x Hx]. exists x. split; [done|].
      rewrite (nth_lookup_Some _ _ 0 _ Hx) in H2. rewrite H2. done.
    + change (drop 1 (c :: s)) with (drop 0 s). rewrite drop_0.
      destruct (position _ s) as [[|i]|] eqn:Hp; cbn [snd].
      * apply position_Some in Hp as (x & Hx & Hr%Z.eqb_eq). intros [= <-]. exists x. split; [exact Hx|]. by rewrite <- Hr.
      * apply position_Some in Hp as (x & Hx & Hr%Z.eqb_eq). intros [= <-]. exists x. split; [exact Hx|]. by rewrite <- Hr.
      * intros [= <-]. exists c. split; [done|]. apply Z.eqb_eq in El. by rewrite El.
  - destruct (is_shell_special_var c) eqn:Es; cbn [snd].
    + intros [= <-]. exists c. split; [done|]. by apply shell_special_ascii.
    + destruct (is_alpha_num c) eqn:Ea; cbn [snd]; [|done]. intros Hr.
      pose proof (alnum_run_length (c :: s)) as Hl. rewrite Hr in Hl.
      destruct (lookup_lt_is_Some_2 (c :: s) w) as [x Hx]; [lia|]. exists x. split; [done|].
      apply alpha_num_ascii. eapply alnum_run_all; [|exact Hx]. lia.
Qed.

Definition env_text (m : gmap string string) : Prop := forall k v, m !! k = Some v -> is_text (as_bytes v).

Lemma shell_value_text m name : env_text m -> is_text (shell_value m name).
Proof.
  intros Hm. unfold shell_value. destruct (m !! _) eqn:E; [by eapply Hm|done].
Qed.

Lemma os_expand_text m st s :
  env_text m -> lead_range st -> utf8_run st s = Some None -> utf8_run st (os_expand m 0 s) = Some None.
Proof.
  intros Hm. remember (length s) as len eqn:Hlen. revert st s Hlen.
  induction len as [len IH] using lt_wf_ind. intros st s -> Hst Hs. destruct s as [|c rest]; [done|].
  cbn [os_expand]. destruct (c =? DOLLAR) eqn:Ed.
  - apply Z.eqb_eq in Ed as ->. assert (st = None) as ->.
    { destruct st as [[[n lo] hi]|]; [|done]. cbn in Hs, Hst. rewrite (proj2 (Z.leb_gt lo DOLLAR)) in Hs by (unfold DOLLAR; lia). done. }
    destruct rest as [|c1 rest]; [done|]. pose proof (get_shell_name_width (c1 :: rest)) as Hw.
    pose proof (get_shell_name_last (c1 :: rest)) as Hlast.
    destruct (get_shell_name (c1 :: rest)) as [name w]. cbn [snd] in Hw, Hlast.
    assert (is_text (c1 :: rest)) as Hr by exact Hs.
    apply is_text_app; [destruct name; [by destruct (w =? 0)%nat|by apply shell_value_text]|].
    rewrite os_expand_skip by done. apply (IH (length (drop w (c1 :: rest)))); [rewrite length_drop; cbn; lia|done|done|].
    destruct w as [|w]; [done|]. destruct (Hlast w eq_refl) as (x & Hx & Hx').
    rewrite <- (take_drop_middle _ _ _ Hx) in Hr. by eapply (utf8_run_ascii None).
  - change (c :: os_expand m 0 rest) with ([c] ++ os_expand m 0 rest). rewrite utf8_run_app.
    change (c :: rest) with ([c] ++ rest) in Hs. rewrite utf8_run_app in Hs.
    destruct (utf8_run st [c]) as [st'|] eqn:E; [|done]. apply (IH (length rest)); [cbn; lia|done| |done].
    by eapply utf8_run_range.
Qed.

(** A word with its references replaced *)
Definition expand_text (m : gmap string string) (w : string) : string := text_of (os_expand m 0 (as_bytes w)).

Lemma expand_on_text s m : is_text (as_bytes s) -> env_text m -> expand s m = Some (expand_text m s).
Proof.
  intros Hs Hm. unfold expand. rewrite expand_loop_spec by lia. cbn [option_map app]. rewrite drop_0.
  change (slice 0 0 (as_bytes s)) with (@nil Z). cbn [app]. by rewrite is_text_utf8 by (by apply os_expand_text).
Qed.

Lemma expand_vars_on_text m args :
  Forall (fun a => is_text (as_bytes a)) args -> env_text m -> expand_vars m args = Some (map (expand_text m) args).
Proof. intros Ha Hm. induction Ha as [|a args Ha _ IH]; [done|]. cbn [expand_vars map]. by rewrite expand_on_text, IH. Qed.

(** C24: the index loop of [expand] never slices out of range; on text it is
    the replacement of the references from left to right, in one pass (what a
    variable holds is not expanded again), and its result is text, so that the
    lossy conversion at its end changes nothing. *)
Theorem expand_equiv s m :
  is_text (as_bytes s) -> env_text m ->
  expand s m = Some (text_of (os_expand m 0 (as_bytes s))) /\ is_text (os_expand m 0 (as_bytes s)).
Proof. intros Hs Hm. split; [by apply expand_on_text|by apply os_expand_text]. Qed.

Lemma expand_equiv_witness :
  expand "ip route add $SUBNET via ${PUBLIC_IP}$." {["SUBNET" := "10.244.1.0/24"; "PUBLIC_IP" := "$HOME"]}
  = Some "ip route add 10.244.1.0/24 via $HOME$.".
Proof.
  destruct (expand_equiv "ip route add $SUBNET via ${PUBLIC_IP}$." {["SUBNET" := "10.244.1.0/24"; "PUBLIC_IP" := "$HOME"]}) as [H _].
  - apply (bool_decide_unpack (is_text _)). vm_compute. exact I.
  - intros k v Hv. apply lookup_insert_Some in Hv as [[_ <-]|[_ Hv]]; [|apply lookup_singleton_Some in Hv as [_ <-]];
      apply (bool_decide_unpack (is_text _)); vm_compute; exact I.
  - rewrite H. vm_compute. reflexivity.
Defined.

(** What a reference is: [$name] up to the first character that is no letter,
    digit or underscore, and [${name}] up to the brace. *)

Lemma os_expand_literal m pre s : DOLLAR ∉ pre -> os_expand m 0 (pre ++ s) = pre ++ os_expand m 0 s.
Proof.
  induction pre as [|c pre IH]; intros Hn; [done|]. apply not_elem_of_cons in Hn as [Hc Hn]. cbn [app os_expand].
  rewrite (proj2 (Z.eqb_neq c DOLLAR)) by congruence. by rewrite IH.
Qed.

Lemma alnum_run_app name post :
  Forall (fun c => is_alpha_num c = true) name -> from_option is_alpha_num false (list.head post) = false ->
  alnum_run (name ++ post) = length name.
Proof.
  intros Hn Hp. induction Hn as [|c name Hc _ IH]; cbn; [|by rewrite Hc, IH]. destruct post as [|p post]; [done|]. cbn in *. by rewrite Hp.
Qed.

Lemma os_expand_ref m s name w :
  get_shell_name s = (name, w) -> name <> [] -> os_expand m 0 (DOLLAR :: s) = shell_value m name ++ os_expand m 0 (drop w s).
Proof.
  intros Hg Hne. pose proof (get_shell_name_width s) as Hw. rewrite Hg in Hw. rewrite <- os_expand_skip by exact Hw.
  cbn [os_expand]. rewrite Z.eqb_refl. destruct s as [|c s]; [by injection Hg as <- _|]. rewrite Hg. by destruct name.
Qed.

Theorem os_expand_name m c name post :
  is_shell_special_var c = false -> Forall (fun c => is_alpha_num c = true) (c :: name) ->
  from_option is_alpha_num false (list.head post) = false ->
  os_expand m 0 (DOLLAR :: (c :: name) ++ post) = shell_value m (c :: name) ++ os_expand m 0 post.
Proof.
  intros Hs Hn Hp. rewrite (os_expand_ref m _ (c :: name) (length (c :: name))); [by rewrite drop_app_length| |done].
  unfold get_shell_name. cbn [app]. change (c :: name ++ post) with ((c :: name) ++ post). rewrite Hs.
  assert (is_alpha_num c = true) as Hc by (by apply Forall_cons_iff in Hn as [Hc _]).
  rewrite Hc, (alnum_run_app _ _ Hn Hp), take_app_length.
  destruct (Z.eqb_spec c LBRACE) as [->|]; [discriminate Hc|done].
Qed.

Lemma position_app_here {A} (p : A -> bool) pre x post :
  (forall y, y ∈ pre -> p y = false) -> p x = true -> position p (pre ++ x :: post) = Some (length pre).
Proof.
  intros Hpre Hx. induction pre as [|y pre IH]; cbn; [by rewrite Hx|]. rewrite (Hpre y) by (by left).
  rewrite IH; [done|]. intros z Hz. apply Hpre. by right.
Qed.

Theorem os_expand_braced m name post :
  name <> [] -> RBRACE ∉ name ->
  os_expand m 0 (DOLLAR :: LBRACE :: name ++ RBRACE :: post) = shell_value m name ++ os_expand m 0 post.
Proof.
  intros Hne Hn. rewrite (os_expand_ref m _ name (2 + length name)); [| |done].
  { f_equal. f_equal. change (LBRACE :: name ++ RBRACE :: post) with ([LBRACE] ++ name ++ [RBRACE] ++ post).
    rewrite !app_assoc. apply drop_app_length'. rewrite !length_app. cbn. lia. }
  unfold get_shell_name. rewrite Z.eqb_refl. change (drop 1 (LBRACE :: name ++ RBRACE :: post)) with (drop 0 (name ++ RBRACE :: post)).
  rewrite drop_0, position_app_here; [| |apply Z.eqb_refl].
  2: { intros y Hy. apply Z.eqb_neq. by intros <-. }
  destruct name as [|c [|c1 name]]; [done|by destruct (_ && _ && _)|].
  cbn [nth app]. rewrite (proj2 (Z.eqb_neq c1 RBRACE)) by (intros ->; apply Hn; by repeat constructor). rewrite andb_false_r.
  cbn [length]. f_equal. apply (take_app_length' (c :: c1 :: name)). done.
Qed.
