(* ===== verification/Extension.v ===== *)
(** * [backend/extension/mod.rs], [backend/extension/network.rs]

    The backend that runs user commands: around the lease at the start, and
    for every subnet that comes or goes.  Processes are the interface
    [ProcSystem]; logging is left out. *)

From S2P Require Import Prelude RustStr Utf8 StdNet IpNet Ip6Net Lease Config Anyhow KubeNode RouteNetwork Iface Cni Backend Ipsec ShellExpand.
#[local] Open Scope string_scope.
#[local] Open Scope list_scope.
#[local] Open Scope Z_scope.

Definition EXTENSION_BACKEND_TYPE : string := "extension".

Record ExtensionConfig := mkExtensionConfig {
  xc_pre_startup_command : option string;
  xc_post_startup_command : option string;
  xc_subnet_add_command : option string;
  xc_subnet_remove_command : option string;
}.

Definition ExtensionConfig_default : ExtensionConfig := mkExtensionConfig None None None None.

Record ExtensionNetwork := mkExtensionNetwork {
  xn_lease : Lease;
  xn_mtu : Z;
  xn_cfg : ExtensionConfig;
}.

(** ** Processes *)

Inductive ProcErrorKind := PeNotFound | PeBrokenPipe | PeOther.
Record ProcError := mkProcError { pe_kind : ProcErrorKind; pe_text : string }.

(** [None]: ended by a signal *)
Record ProcOutput := mkProcOutput { po_code : option Z; po_stdout : bytes; po_stderr : bytes }.

(** [ps_environ] is [None] when a variable is not Unicode: [std::env::vars]
    panics. *)
Class ProcSystem (K : Type) := {
  ps_environ : K -> option (gmap string string);
  ps_spawn : string -> list string -> gmap string string -> io K ProcError Z;
  ps_write : Z -> bytes -> io K ProcError unit;
  ps_wait : Z -> io K ProcError ProcOutput;
}.

Inductive RunError := RunPanic | RunErr (e : anyhow).

(** [{e}] *)
Definition RunError_anyhow (f : anyhow -> anyhow) (e : RunError) : RunError :=
  match e with RunPanic => RunPanic | RunErr e => RunErr (f e) end.

(** A pair without an equals sign maps to the empty string. *)
Definition env_pair (e : string) : string * string := default (e, "") (split_once "=" e).

Definition build_env_map (environ : gmap string string) (env : list string) : gmap string string :=
  fold_left (fun m e => let '(k, v) := env_pair e in <[k := v]> m) env environ.

Definition spawn_err (name : string) (e : ProcError) : anyhow :=
  match pe_kind e with
  | PeNotFound => ["exec: " +:+ String (chr 34) "" +:+ name +:+ String (chr 34) "" +:+ ": executable file not found in $PATH"]
  | _ => [pe_text e]
  end.

Section Commands.
Context `{ProcSystem K}.

(** Standard output, then standard error *)
Definition command_output (out : ProcOutput) : result string anyhow :=
  let combined := text_of (trim_ws (from_utf8_lossy (po_stdout out ++ po_stderr out))) in
  match po_code out with
  | Some 0 => Ok combined
  | Some code => Err ["exit status " +:+ fmt_dec code +:+ " Output: " +:+ combined]
  | None => Err ["process terminated by signal Output: " +:+ combined]
  end.

(** The two writes of [stdin] and the newline: a broken pipe is tolerated. *)
Definition feed_stdin (child : Z) (stdin : string) : io K anyhow unit :=
  let! res := io_try (let! _ := ps_write child (as_bytes stdin) in ps_write child [10]) in
  match res with
  | Err e => match pe_kind e with PeBrokenPipe => io_ret tt | _ => io_err [pe_text e] end
  | Ok _ => io_ret tt
  end.

Definition run_cmd (env : list string) (stdin : string) (program : string) (args : list string) : io K RunError string :=
  let! k := io_get in
  let! environ := io_lift (ok_or (ps_environ k) RunPanic) in
  let env_map := build_env_map environ env in
  let! expanded := io_lift (ok_or (expand_vars env_map (program :: args)) RunPanic) in
  let! name := io_lift (ok_or (list.head expanded) RunPanic) in
  if str_is_empty name then io_ret ""
  else
    let! child := io_map_err (fun e => RunErr (spawn_err name e)) (ps_spawn name (drop 1 expanded) env_map) in
    let! _ := io_map_err RunErr (feed_stdin child stdin) in
    let! out := io_map_err (fun e => RunErr [pe_text e]) (ps_wait child) in
    io_lift (map_err RunErr (command_output out)).

(** ** Events *)

Definition event_env (lease : Lease) : list string :=
  ["SUBNET=" +:+ IP4Net_fmt (l_subnet lease); "PUBLIC_IP=" +:+ IP4_fmt (la_public_ip (l_attrs lease))].

(** The backend data is a JSON string; the outcome of the command is logged.
    [None] is a panic. *)
Definition run_event_command `{SerdeJson} (cmd : string) (lease : Lease) (k : K) : option K :=
  match (match la_backend_data (l_attrs lease) with
         | Some raw => result_ok (sj_string raw)
         | None => Some ""
         end) with
  | None => Some k
  | Some backend_data =>
      match split_command cmd with
      | None | Some [] => Some k
      | Some (program :: args) =>
          match run_cmd (event_env lease) backend_data program args k with
          | (_, Err RunPanic) => None
          | (k, _) => Some k
          end
      end
  end.

Definition event_cmd (cfg : ExtensionConfig) (t : EventType) : string :=
  default "" (match t with Added => xc_subnet_add_command cfg | Removed => xc_subnet_remove_command cfg end).

Definition extension_handle_event `{SerdeJson} (cfg : ExtensionConfig) (k : K) (evt : Event) : option K :=
  let lease := ev_lease evt in
  if negb (String.eqb (la_backend_type (l_attrs lease)) EXTENSION_BACKEND_TYPE) then Some k
  else
    let cmd := event_cmd cfg (ev_type evt) in
    if negb (str_is_empty cmd) then run_event_command cmd lease k else Some k.

Definition extension_handle_subnet_events `{SerdeJson} (cfg : ExtensionConfig) (batch : list Event) (k : K) : option K :=
  fold_left (fun ok evt => match ok with Some k => extension_handle_event cfg k evt | None => None end) batch (Some k).

(** [run]: the batches until the channel is closed *)
Definition extension_run `{SerdeJson} (net : ExtensionNetwork) (batches : list (list Event)) (k : K) : option K :=
  fold_left (fun ok batch => match ok with Some k => extension_handle_subnet_events (xn_cfg net) batch k | None => None end)
    batches (Some k).
End Commands.

(** ** Registration *)

(** A field of type [Option<String>] *)
Definition as_opt_str (v : Value) : option (option string) :=
  match v with VNull => Some None | VString s => Some (Some s) | _ => None end.

Definition extension_cfg_of (pre post add remove : list Value) : option ExtensionConfig :=
  match field_of as_opt_str None pre, field_of as_opt_str None post,
        field_of as_opt_str None add, field_of as_opt_str None remove with
  | Some a, Some b, Some c, Some d => Some (mkExtensionConfig a b c d)
  | _, _, _, _ => None
  end.

Definition extension_cfg_of_text (t : JsonText) : option ExtensionConfig :=
  match t with
  | TObject ms =>
      extension_cfg_of (members_of "PreStartupCommand" ms) (members_of "PostStartupCommand" ms)
        (members_of "SubnetAddCommand" ms) (members_of "SubnetRemoveCommand" ms)
  | TArray vs =>
      if (length vs <=? 4)%nat
      then extension_cfg_of (take 1 vs) (take 1 (drop 1 vs)) (take 1 (drop 2 vs)) (take 1 (drop 3 vs))
      else None
  | TOther => None
  end.

Definition extension_decode_error (e : string) : anyhow := ["error decoding backend config: " +:+ e].

Definition parse_extension_config `{CniJson} (backend : option string) : result ExtensionConfig anyhow :=
  match backend with
  | None => Ok ExtensionConfig_default
  | Some raw =>
      if bool_decide (trim_ws (as_bytes raw) = as_bytes "null") then Ok ExtensionConfig_default
      else
        let? t := map_err extension_decode_error (cj_text raw) in
        ok_or (extension_cfg_of_text t) (extension_decode_error (cj_invalid "ExtensionConfig" raw))
  end.

Section Register.
Context `{ProcSystem K} `{SubnetManager K} `{NlKernel K} `{CniJson} `{RawJson}.

Definition command_failed (cmd : string) (e : anyhow) : anyhow :=
  ["failed to run command: " +:+ cmd +:+ " Err: " +:+ fmt_anyhow e].

Definition ext_lift {A} (m : io K anyhow A) : io K RunError A := io_map_err RunErr m.

(** The output of the command, as a JSON string *)
Definition run_pre_startup (pre_cmd : string) : io K RunError (option RawValue) :=
  match split_command pre_cmd with
  | None | Some [] => io_ret None
  | Some (program :: args) =>
      let! out := io_map_err (RunError_anyhow (command_failed pre_cmd)) (run_cmd [] "" program args) in
      let! raw := io_lift (ok_or (raw_from_string (cj_print (VString out))) (RunErr ["invalid JSON"])) in
      io_ret (Some raw)
  end.

Definition post_env (config : Config) (lease : Lease) (attrs : LeaseAttrs) : list string :=
  ["NETWORK=" +:+ IP4Net_fmt (cfg_network config);
   "SUBNET=" +:+ IP4Net_fmt (l_subnet lease);
   "IPV6SUBNET=" +:+ IP6Net_fmt (l_ipv6_subnet lease);
   "PUBLIC_IP=" +:+ IP4_fmt (la_public_ip attrs);
   "PUBLIC_IPV6=" +:+ from_option IP6_fmt "<nil>" (la_public_ipv6 attrs)].

Definition run_post_startup (post_cmd : option string) (config : Config) (lease : Lease) (attrs : LeaseAttrs) : io K RunError unit :=
  match post_cmd ≫= split_command with
  | None | Some [] => io_ret tt
  | Some (program :: args) =>
      let! _ := io_map_err (RunError_anyhow (command_failed (str_join " " (program :: args))))
                  (run_cmd (post_env config lease attrs) "" program args) in
      io_ret tt
  end.

Definition extension_attrs (ei : ExternalInterface) (backend_data : option RawValue) : LeaseAttrs :=
  mkLeaseAttrs (match ei_iface_addr ei with Some (V4 ip) => ip | _ => 0 end)
    (match ei_iface_v6_addr ei with Some (V6 ip) => Some ip | _ => None end)
    EXTENSION_BACKEND_TYPE backend_data None.

Definition extension_register_network (ei : ExternalInterface) (config : Config) : io K RunError ExtensionNetwork :=
  let! cfg := ext_lift (io_lift (parse_extension_config (cfg_backend config))) in
  let! _ := ext_lift sm_netlink in
  let! ext_mtu := ext_lift (iface_mtu (ei_iface_index ei)) in
  let! backend_data := run_pre_startup (default "" (xc_pre_startup_command cfg)) in
  let attrs := extension_attrs ei backend_data in
  let! lease := ext_lift (acquire_registered attrs) in
  let! _ := run_post_startup (xc_post_startup_command cfg) config lease attrs in
  io_ret (mkExtensionNetwork lease ext_mtu cfg).
End Register.

(** * Theorems *)

(** ** Words of a text are text *)

Lemma is_text_ascii s : str_all is_ascii s = true -> is_text (as_bytes s).
Proof.
  intros H%as_bytes_ascii. unfold is_text. induction H as [|b bs Hb _ IH]; [done|]. cbn. by rewrite (proj2 (Z.ltb_lt b 128) Hb).
Qed.

(** A byte within a character starts no whitespace. *)
Lemma ws_width_inside n lo hi b rest :
  128 <= lo -> hi <= 191 -> utf8_run (Some (n, lo, hi)) (b :: rest) <> None -> ws_width (b :: rest) = O.
Proof.
  intros Hlo Hhi. cbn [utf8_run]. destruct (_ && _) eqn:E; [|done]. apply andb_true_iff in E as [H1%Z.leb_le H2%Z.leb_le]. intros _.
  unfold ws_width.
  repeat match goal with |- context [b =? ?c] => rewrite (proj2 (Z.eqb_neq b c)) by lia end.
  rewrite (proj2 (Z.leb_gt b 13)) by lia. rewrite andb_false_r. cbn [orb andb]. by destruct rest as [|? []].
Qed.

(** A whitespace character is a whole character. *)
Lemma ws_width_char b rest w : ws_width (b :: rest) = S w -> is_text (b :: rest) -> is_text (drop w rest).
Proof.
  unfold ws_width. destruct ((9 <=? b) && (b <=? 13) || (b =? 32)) eqn:E1.
  { intros Hw. assert (w = 0%nat) as -> by lia. rewrite drop_0. unfold is_text. cbn. by rewrite (proj2 (Z.ltb_lt b 128)) by lia. }
  destruct rest as [|c rest]; [done|]. destruct ((b =? 194) && ((c =? 133) || (c =? 160))) eqn:E2.
  { intros Hw. assert (w = 1%nat) as -> by lia. apply andb_true_iff in E2 as [->%Z.eqb_eq _]. unfold is_text. clear E1. cbn [utf8_run drop].
    change (194 <? 128) with false. change (utf8_lead 194) with (Some (1%nat, 128, 191)). cbv iota. by destruct (_ && _). }
  destruct rest as [|d rest]; [done|]. match goal with |- (if ?c then _ else _) = _ -> _ => destruct c eqn:E3 end; [|done]. intros Hw. assert (w = 2%nat) as -> by lia.
  assert (b = 225 \/ b = 226 \/ b = 227) as Hb by lia. clear E1 E2 E3. unfold is_text.
  assert (utf8_lead b = Some (2%nat, 128, 191)) as Hlead by (by destruct Hb as [->|[->| ->]]).
  cbn [utf8_run drop]. rewrite (proj2 (Z.ltb_ge b 128)), Hlead by lia. cbv iota beta.
  destruct (_ && _); [|done]. by destruct (_ && _).
Qed.

Definition cont_range (st : option (nat * Z * Z)) : Prop :=
  match st with Some (_, lo, hi) => 128 <= lo /\ hi <= 191 | None => True end.

Lemma utf8_run_cont st bs st' : cont_range st -> utf8_run st bs = Some st' -> cont_range st'.
Proof.
  revert st. induction bs as [|b bs IH]; intros st Hst Hr; cbn in Hr; [by simplify_eq|].
  destruct st as [[[n lo] hi]|].
  - destruct (_ && _); [|done]. eapply IH; [|exact Hr]. destruct n as [|[|n]]; cbn; lia || done.
  - destruct (b <? 128); [by eapply IH|]. destruct (utf8_lead b) as [[[n lo] hi]|] eqn:E; [|done]. eapply IH; [|exact Hr].
    unfold utf8_lead in E. cbn. repeat case_match; simplify_eq; lia.
Qed.

Lemma split_ws_text s skip word st :
  utf8_run None word = Some st ->
  (if (skip =? 0)%nat then utf8_run st s = Some None else word = [] /\ is_text (drop skip s)) ->
  Forall is_text (split_ws skip word s).
Proof.
  assert (forall word, utf8_run None word = Some None -> Forall is_text (match word with [] => [] | _ => [word] end)) as Hflush.
  { intros [|c w] Hw; [constructor|]. by repeat constructor. }
  revert skip word st. induction s as [|b rest IH]; intros skip word st Hw Hs; cbn [split_ws].
  - destruct skip as [|skip]; cbn in Hs; [apply Hflush; congruence|]. destruct Hs as [-> _]. constructor.
  - destruct skip as [|skip]; cbn [Nat.eqb] in Hs.
    + destruct (ws_width (b :: rest)) as [|w] eqn:Ew.
      * destruct (utf8_run st [b]) as [st'|] eqn:Eb.
        -- apply (IH O (word ++ [b]) st'); [by rewrite utf8_run_app, Hw|]. cbn [Nat.eqb].
           change (b :: rest) with ([b] ++ rest) in Hs. by rewrite utf8_run_app, Eb in Hs.
        -- change (b :: rest) with ([b] ++ rest) in Hs. rewrite utf8_run_app, Eb in Hs. done.
      * assert (st = None) as ->.
        { destruct st as [[[n lo] hi]|]; [|done]. pose proof (utf8_run_cont None word _ I Hw) as [Hlo Hhi].
          rewrite (ws_width_inside n lo hi b rest Hlo Hhi) in Ew; [done|]. by rewrite Hs. }
        apply Forall_app. split; [by apply Hflush|]. pose proof (ws_width_char b rest w Ew Hs) as Hrest.
        apply (IH w [] None); [done|]. destruct w as [|w]; [by rewrite drop_0 in Hrest|]. done.
    + destruct Hs as [-> Hs]. cbn [drop] in Hs. apply (IH skip [] None); [done|].
      destruct skip as [|skip]; [by rewrite drop_0 in Hs|]. done.
Qed.

Lemma split_ws_forall (P : Z -> Prop) s skip word : Forall P word -> Forall P s -> Forall (Forall P) (split_ws skip word s).
Proof.
  assert (forall word, Forall P word -> Forall (Forall P) (match word with [] => [] | _ => [word] end)) as Hflush.
  { intros [|c w] Hc; constructor; [done|constructor]. }
  intros Hw Hs. revert skip word Hw. induction Hs as [|b rest Hb _ IH]; intros skip word Hw; cbn [split_ws].
  - by apply Hflush.
  - destruct skip as [|skip]; [|by apply IH]. destruct (ws_width (b :: rest)) as [|w].
    + apply IH. apply Forall_app. by repeat constructor.
    + apply Forall_app. split; [by apply Hflush|apply IH; constructor].
Qed.

Lemma as_bytes_range s : Forall is_byte (as_bytes s).
Proof.
  induction s as [|c s IH]; constructor; [|done]. unfold ord. pose proof (nat_ascii_bounded c). unfold is_byte, in_width. lia.
Qed.

Lemma as_bytes_text_of bs : Forall is_byte bs -> as_bytes (text_of bs) = bs.
Proof.
  unfold text_of. induction 1 as [|b bs Hb _ IH]; [done|]. cbn. rewrite IH. f_equal. unfold ord, chr.
  unfold is_byte, in_width in Hb. rewrite nat_ascii_embedding by lia. lia.
Qed.

Lemma split_command_text cmd fields :
  is_text (as_bytes cmd) -> split_command cmd = Some fields -> fields <> [] /\ Forall (fun w => is_text (as_bytes w)) fields.
Proof.
  intros Ht Hs. unfold split_command in Hs.
  assert (fields = split_whitespace cmd /\ fields <> []) as [-> Hne] by (by destruct (split_whitespace cmd); simplify_eq).
  split; [done|]. unfold split_whitespace.
  pose proof (split_ws_text (as_bytes cmd) 0 [] None eq_refl Ht) as H1.
  pose proof (split_ws_forall is_byte (as_bytes cmd) 0 [] ltac:(constructor) (as_bytes_range cmd)) as H2.
  induction H1 as [|w ws Hw _ IH]; [constructor|]. apply Forall_cons_iff in H2 as [Hb H2]. cbn [map]. constructor; [|by apply IH].
  by rewrite as_bytes_text_of.
Qed.

(** ** What the commands of the events are given *)

Lemma event_env_map environ lease :
  build_env_map environ (event_env lease)
  = <["PUBLIC_IP" := IP4_fmt (la_public_ip (l_attrs lease))]> (<["SUBNET" := IP4Net_fmt (l_subnet lease)]> environ).
Proof. reflexivity. Qed.

Lemma event_env_text environ lease :
  env_text environ -> IP4Net_valid (l_subnet lease) -> env_text (build_env_map environ (event_env lease)).
Proof.
  intros He Hv k v. rewrite event_env_map, !lookup_insert_Some.
  intros [[_ <-]|[_ [[_ <-]|[_ Hk]]]]; [apply is_text_ascii, IP4_fmt_ascii|by apply is_text_ascii, IP4Net_fmt_ascii|by eapply He].
Qed.

(** A started process: its program, arguments and environment *)
Record Launch := mkLaunch { lc_program : string; lc_args : list string; lc_env : gmap string string }.

(** What the system promises: it starts what it is asked to start, in that
    order, and the environment of the process stays. *)
Class ProcLaws (K : Type) `{ProcSystem K} := {
  ps_launched : K -> list Launch;
  pl_spawn : forall name args env k,
    ps_launched (ps_spawn name args env k).1 = ps_launched k ++ [mkLaunch name args env];
  pl_spawn_env : forall name args env, keeps ps_environ (ps_spawn name args env);
  pl_write : forall child b, keeps ps_launched (ps_write child b);
  pl_write_env : forall child b, keeps ps_environ (ps_write child b);
  pl_wait : forall child, keeps ps_launched (ps_wait child);
  pl_wait_env : forall child, keeps ps_environ (ps_wait child);
}.
#[global] Hint Extern 2 (keeps _ _) =>
  first [apply pl_spawn_env | apply pl_write | apply pl_write_env | apply pl_wait | apply pl_wait_env] : keeps.

(** The processes that the words of a command stand for *)
Definition launches_of (m : gmap string string) (words : list string) : list Launch :=
  match map (expand_text m) words with
  | name :: args => if str_is_empty name then [] else [mkLaunch name args m]
  | [] => []
  end.

(** The processes that an event stands for: none for another backend, a
    command that is not configured or blank, or backend data that is no
    string. *)
Definition event_launches `{SerdeJson} (cfg : ExtensionConfig) (environ : gmap string string) (evt : Event) : list Launch :=
  let lease := ev_lease evt in
  if negb (String.eqb (la_backend_type (l_attrs lease)) EXTENSION_BACKEND_TYPE)
     || negb (from_option (fun raw => is_ok (sj_string raw)) true (la_backend_data (l_attrs lease)))
  then []
  else launches_of (build_env_map environ (event_env lease)) (split_whitespace (event_cmd cfg (ev_type evt))).

Section Launches.
Context `{ProcLaws K}.

Lemma feed_stdin_keeps child stdin :
  keeps ps_launched (feed_stdin child stdin) /\ keeps (@ps_environ K _) (feed_stdin child stdin).
Proof.
  unfold feed_stdin. split; (apply keeps_bind; [apply keeps_try, keeps_bind; auto with keeps|]);
    intros [u|e]; [apply keeps_ret| |apply keeps_ret|]; destruct (pe_kind e); auto with keeps.
Qed.

(** A command whose words are text starts one process, unless its program
    expands to nothing, and does not panic. *)
Lemma run_cmd_launches env stdin program args environ (k : K) :
  let m := build_env_map environ env in
  ps_environ k = Some environ -> env_text m -> Forall (fun w => is_text (as_bytes w)) (program :: args) ->
  let '(k', r) := run_cmd env stdin program args k in
  ps_launched k' = ps_launched k ++ launches_of m (program :: args) /\ ps_environ k' = Some environ /\ r <> Err RunPanic.
Proof.
  intros m He Hm Hw. unfold run_cmd, io_bind at 1, io_get. unfold io_bind at 1, io_lift at 1. rewrite He. cbn [ok_or].
  fold m. unfold io_bind at 1, io_lift at 1. rewrite (expand_vars_on_text m _ Hw Hm). cbn [ok_or map].
  unfold io_bind at 1, io_lift at 1. cbn [list.head ok_or]. unfold launches_of. cbn [map].
  destruct (str_is_empty (expand_text m program)); [by cbn; rewrite app_nil_r|]. cbn [drop].
  unfold io_bind at 1, io_map_err at 1.
  pose proof (pl_spawn (expand_text m program) (map (expand_text m) args) m k) as Hl.
  pose proof (pl_spawn_env (expand_text m program) (map (expand_text m) args) m k) as Henv. rewrite drop_0.
  destruct (ps_spawn _ _ _ k) as [k1 [child|e]]; cbn [fst map_err] in *; [|by rewrite Hl, Henv].
  match goal with |- let '(_, _) := ?m k1 in _ =>
    assert (keeps ps_launched m /\ keeps ps_environ m) as [Hk1 Hk2]; [|specialize (Hk1 k1); specialize (Hk2 k1);
    assert ((m k1).2 <> Err RunPanic) as Hp; [|destruct (m k1) as [k2 r]; cbn [fst snd] in *; by rewrite Hk1, Hk2, Hl, Henv]]
  end.
  - destruct (feed_stdin_keeps child stdin) as [H1 H2].
    split; (apply keeps_bind; [by apply keeps_map_err|intros _]; apply keeps_bind; [auto with keeps|intros out; auto with keeps]).
  - unfold io_bind at 1, io_map_err at 1. destruct (feed_stdin child stdin k1) as [k2 [[]|e]]; [|done]. cbn [map_err].
    unfold io_bind, io_map_err. destruct (ps_wait child k2) as [k3 [out|e]]; [|done]. cbn [map_err io_lift snd].
    by destruct (command_output out).
Qed.

Definition cfg_text (cfg : ExtensionConfig) : Prop :=
  is_text (as_bytes (event_cmd cfg Added)) /\ is_text (as_bytes (event_cmd cfg Removed)).

Lemma handle_event_launches `{SerdeJson} cfg environ evt (k : K) :
  ps_environ k = Some environ -> env_text environ -> cfg_text cfg -> IP4Net_valid (l_subnet (ev_lease evt)) ->
  exists k', extension_handle_event cfg k evt = Some k' /\ ps_environ k' = Some environ
    /\ ps_launched k' = ps_launched k ++ event_launches cfg environ evt.
Proof.
  intros He Ht Hc Hv. unfold extension_handle_event, event_launches.
  destruct (negb (String.eqb _ _)); cbn [orb]; [exists k; by rewrite app_nil_r|].
  assert (is_text (as_bytes (event_cmd cfg (ev_type evt)))) as Htc by (destruct Hc; by destruct (ev_type evt)).
  destruct (str_is_empty (event_cmd cfg (ev_type evt))) eqn:Es; cbn [negb].
  { unfold str_is_empty in Es. apply String.eqb_eq in Es as ->. exists k. repeat split; [done|].
    case_match; by rewrite app_nil_r. }
  unfold run_event_command.
  assert (forall data : option string, data = (match la_backend_data (l_attrs (ev_lease evt)) with Some raw => result_ok (sj_string raw) | None => Some "" end) ->
    from_option (fun raw => is_ok (sj_string raw)) true (la_backend_data (l_attrs (ev_lease evt))) = is_some data) as Hd.
  { intros data ->. destruct (la_backend_data _) as [raw|]; [|done]. cbn. by destruct (sj_string raw). }
  rewrite (Hd _ eq_refl). destruct (match la_backend_data _ with Some _ => _ | None => _ end) as [data|]; cbn [is_some negb];
    [|exists k; by rewrite app_nil_r].
  destruct (split_command (event_cmd cfg (ev_type evt))) as [fields|] eqn:Ef.
  - destruct (split_command_text _ _ Htc Ef) as [Hne Hf].
    assert (split_whitespace (event_cmd cfg (ev_type evt)) = fields) as ->.
    { unfold split_command in Ef. by destruct (split_whitespace _); simplify_eq. }
    destruct fields as [|program args]; [done|].
    pose proof (run_cmd_launches (event_env (ev_lease evt)) data program args environ k He (event_env_text _ _ Ht Hv) Hf) as Hr.
    destruct (run_cmd _ data program args k) as [k' r]. destruct Hr as (Hl & He' & Hp).
    exists k'. destruct r as [out|[|e]]; done.
  - unfold split_command in Ef. destruct (split_whitespace _); [|done]. exists k. by rewrite app_nil_r.
Qed.

(** C23: for the lease events of the other nodes, batch after batch, the
    extension backend starts exactly the configured commands, in the order of
    the events and only for leases of its own type: the words of the command
    with their references replaced (an expanded word stays one argument),
    where [$SUBNET] and [$PUBLIC_IP] are those of the lease and every other
    variable is that of flanneld; and it never panics. *)
Theorem extension_run_launches `{SerdeJson} net batches environ (k : K) :
  ps_environ k = Some environ -> env_text environ -> cfg_text (xn_cfg net) ->
  Forall (fun evt => IP4Net_valid (l_subnet (ev_lease evt))) (concat batches) ->
  exists k', extension_run net batches k = Some k'
    /\ ps_launched k' = ps_launched k ++ flat_map (event_launches (xn_cfg net) environ) (concat batches).
Proof.
  intros He Ht Hc Hv. unfold extension_run.
  assert (forall batch (k : K), ps_environ k = Some environ -> Forall (fun evt => IP4Net_valid (l_subnet (ev_lease evt))) batch ->
    exists k', extension_handle_subnet_events (xn_cfg net) batch k = Some k' /\ ps_environ k' = Some environ
      /\ ps_launched k' = ps_launched k ++ flat_map (event_launches (xn_cfg net) environ) batch) as Hbatch.
  { unfold extension_handle_subnet_events. induction batch as [|evt batch IH]; intros k0 He0 Hvb; [exists k0; by rewrite app_nil_r|].
    apply Forall_cons_iff in Hvb as [Hevt Hvb]. cbn [fold_left flat_map].
    destruct (handle_event_launches (xn_cfg net) environ evt k0 He0 Ht Hc Hevt) as (k1 & -> & He1 & Hl1).
    destruct (IH k1 He1 Hvb) as (k2 & -> & He2 & Hl2). exists k2. by rewrite Hl2, Hl1, <- app_assoc. }
  revert k He Hv. induction batches as [|batch batches IH]; intros k He Hv; [exists k; by rewrite app_nil_r|].
  cbn [concat] in Hv. apply Forall_app in Hv as [Hv1 Hv2]. cbn [fold_left concat].
  destruct (Hbatch batch k He Hv1) as (k1 & -> & He1 & Hl1). destruct (IH k1 He1 Hv2) as (k2 & -> & Hl2).
  exists k2. by rewrite Hl2, Hl1, flat_map_app, <- app_assoc.
Qed.
End Launches.

(** [$SUBNET] and [$PUBLIC_IP] of an event's command, and the variables of
    flanneld that they do not hide *)
Theorem event_env_lookup environ lease name :
  build_env_map environ (event_env lease) !! name
  = if String.eqb name "PUBLIC_IP" then Some (IP4_fmt (la_public_ip (l_attrs lease)))
    else if String.eqb name "SUBNET" then Some (IP4Net_fmt (l_subnet lease)) else environ !! name.
Proof.
  rewrite event_env_map, !lookup_insert. destruct (String.eqb_spec name "PUBLIC_IP") as [->|]; [done|].
  rewrite decide_False by congruence. destruct (String.eqb_spec name "SUBNET") as [->|]; [done|]. by rewrite decide_False by congruence.
Qed.

(** ** From the output of one node to the input of the others *)

(** The JSON text of a string is a raw value that decodes to it. *)
Class ExtJsonLaws `{CniJson} `{RawJson} `{SerdeJson} : Prop :=
  xj_round_trip : forall s, exists raw, raw_from_string (cj_print (VString s)) = Some raw /\ sj_string raw = Ok s.

(** What the pre-startup command of a node prints is what the commands of the
    other nodes read for its lease. *)
Theorem extension_data_round_trip `{ProcSystem K} `{ExtJsonLaws} pre_cmd program args (k k' : K) out cmd lease k2 :
  split_command pre_cmd = Some (program :: args) -> run_cmd [] "" program args k = (k', Ok out) ->
  exists raw, run_pre_startup pre_cmd k = (k', Ok (Some raw))
    /\ (la_backend_data (l_attrs lease) = Some raw ->
        run_event_command cmd lease k2
        = match split_command cmd with
          | Some (program :: args) =>
              match run_cmd (event_env lease) out program args k2 with (_, Err RunPanic) => None | (k3, _) => Some k3 end
          | _ => Some k2
          end).
Proof.
  intros Hs Hr. destruct (xj_round_trip out) as (raw & Hraw & Hd). exists raw. split.
  - unfold run_pre_startup. rewrite Hs. unfold io_bind, io_map_err. rewrite Hr. cbn [map_err]. unfold io_lift. by rewrite Hraw.
  - intros Hl. unfold run_event_command. rewrite Hl, Hd. cbn [result_ok]. by destruct (split_command cmd) as [[|]|].
Qed.

(** A variable of the environment that is not Unicode makes every command
    panic, whatever it is. *)
Theorem run_cmd_panics `{ProcSystem K} env stdin program args (k : K) :
  ps_environ k = None -> run_cmd env stdin program args k = (k, Err RunPanic).
Proof. intros Hn. unfold run_cmd, io_bind, io_get, io_lift. by rewrite Hn. Qed.

(** ** A system for the witness *)

Record ProcWorld := mkProcWorld { pw_environ : gmap string string; pw_launched : list Launch }.

#[local] Instance ProcWorld_system : ProcSystem ProcWorld := {
  ps_environ w := Some (pw_environ w);
  ps_spawn name args env w := (mkProcWorld (pw_environ w) (pw_launched w ++ [mkLaunch name args env]), Ok 1);
  ps_write _ _ w := (w, Err (mkProcError PeBrokenPipe "Broken pipe (os error 32)"));
  ps_wait _ w := (w, Ok (mkProcOutput (Some 1) (as_bytes "no route") []));
}.

#[local] Instance ProcWorld_laws : ProcLaws ProcWorld.
Proof. by refine {| ps_launched := pw_launched |}. Defined.

#[local] Program Instance ext_demo_json : SerdeJson := {
  sj_entries _ := ([], None);
  sj_bool _ := Ok false;
  sj_u32 _ := Ok 0;
  sj_string s := if String.eqb s "1" then Err "invalid type: integer `1`, expected a string" else Ok s;
  sj_is_null _ := false;
  sj_value _ := Ok VNull;
  sj_custom s := s;
}.
Next Obligation. intros s n [= <-]. unfold in_width. lia. Qed.

Definition ext_demo_event (t : EventType) (backend : string) (data : string) : Event :=
  mkEvent t (mkLease true false (mkIP4Net (IP4_from_octets 10 244 1 0) 24) IP6Net_default
               (mkLeaseAttrs (IP4_from_octets 192 168 0 1) None backend (Some data) None) 0 0).

Definition ext_demo_network : ExtensionNetwork :=
  mkExtensionNetwork (ev_lease (ext_demo_event Added "extension" "x")) 1500
    (mkExtensionConfig None None (Some "ip route  add ${SUBNET} via $PUBLIC_IP dev $DEV") (Some " ")).

Definition ext_demo_world : ProcWorld := mkProcWorld {["DEV" := "my nic"]} [].

(** Of four events (one of another backend, one with data that is no string,
    one with a blank command) one starts a process. *)
Lemma extension_run_launches_witness :
  exists w, extension_run ext_demo_network
              [[ext_demo_event Added "vxlan" "x"; ext_demo_event Added "extension" "1"];
               [ext_demo_event Added "extension" "x"; ext_demo_event Removed "extension" "x"]] ext_demo_world = Some w
    /\ map (fun l => (lc_program l, lc_args l)) (ps_launched w)
       = [("ip", ["route"; "add"; "10.244.1.0/24"; "via"; "192.168.0.1"; "dev"; "my nic"])].
Proof.
  destruct (extension_run_launches ext_demo_network
              [[ext_demo_event Added "vxlan" "x"; ext_demo_event Added "extension" "1"];
               [ext_demo_event Added "extension" "x"; ext_demo_event Removed "extension" "x"]]
              {["DEV" := "my nic"]} ext_demo_world) as (w & Hw & Hl).
  - reflexivity.
  - intros k v [_ <-]%lookup_singleton_Some. apply (bool_decide_unpack (is_text _)). vm_compute. exact I.
  - split; apply (bool_decide_unpack (is_text _)); vm_compute; exact I.
  - apply (bool_decide_unpack (Forall _ _)). vm_compute. exact I.
  - exists w. split; [exact Hw|]. rewrite Hl. vm_compute. reflexivity.
Defined.
