(* ===== verification/KubeConf.v ===== *)
(** * [kube/config.rs], [kube/client.rs]: reaching the API server

    Where the client finds the API server and its credentials, and the
    requests it makes.  Environment variables and files are the interface
    [Host]; [serde_yaml] and [Url::parse] are [KubeYaml] and [UrlParser]. *)

From S2P Require Import Prelude RustStr Utf8 IpNet Ip6Net Lease Config KubeNode KubeClient.
#[local] Open Scope string_scope.
#[local] Open Scope list_scope.
#[local] Open Scope Z_scope.

Definition SERVICE_ACCOUNT_TOKEN : string := "/var/run/secrets/kubernetes.io/serviceaccount/token".
Definition SERVICE_ACCOUNT_CA : string := "/var/run/secrets/kubernetes.io/serviceaccount/ca.crt".

Record KubeConfig := mkKubeConfig {
  kc_server : string;
  kc_bearer_token : option string;
  kc_ca_path : option string;
  kc_insecure_skip_tls_verify : bool;
}.

(** The messages of [KubeError::Config], by what they report *)
Inductive ConfError :=
| CeApiUrl (url e : string)
| CeScheme (url : string)
| CeNoVar (var : string)
| CeToken (path e : string)
| CeKubeconfig (path e : string)
| CeYaml (path e : string)
| CeNoContext (path : string)
| CeMissing (what name : string)
| CeAuth (user : string) (key : option string)
| CeTokenFile (path user e : string)
| CeUnresolved.

(** ** The kubeconfig file *)

Record ContextBody := mkContextBody { cb_cluster : string; cb_user : string }.
Record NamedContext := mkNamedContext { nc_name : string; nc_context : ContextBody }.
Record ClusterBody := mkClusterBody {
  cl_server : string;
  cl_certificate_authority : option string;
  cl_insecure_skip_tls_verify : bool;
}.
Record NamedCluster := mkNamedCluster { ncl_name : string; ncl_cluster : ClusterBody }.

(** [NamedUser]: of the value [user], the keys and values of a mapping, those
    that are text ([as_str]); [None] when it is no mapping *)
Record NamedUser := mkNamedUser { nu_name : string; nu_user : option (list (option string * option string)) }.

Record RawKubeconfig := mkRawKubeconfig {
  rk_current_context : string;
  rk_contexts : list NamedContext;
  rk_clusters : list NamedCluster;
  rk_users : list NamedUser;
}.

Class KubeYaml := ky_kubeconfig : string -> result RawKubeconfig string.

(** [Url::parse]: the scheme *)
Class UrlParser := url_scheme : string -> result string string.

(** [env::var(..).ok()], [read_to_string], [Path::exists] *)
Record Host := mkHost {
  ho_env : string -> option string;
  ho_read : string -> result string string;
  ho_exists : string -> bool;
}.

Definition find_named {A} (name : A -> string) (what wanted : string) (l : list A) : result A ConfError :=
  ok_or (List.find (fun a => String.eqb (name a) wanted) l) (CeMissing what wanted).

(** The [for] of [user_token] *)
Fixpoint scan_user (user_name : string) (entries : list (option string * option string)) (token token_file : option string)
  : result (option string * option string) ConfError :=
  match entries with
  | [] => Ok (token, token_file)
  | (Some key, value) :: entries =>
      if String.eqb key "token" then scan_user user_name entries value token_file
      else if String.eqb key "tokenFile" then scan_user user_name entries token value
      else Err (CeAuth user_name (Some key))
  | (None, _) :: _ => Err (CeAuth user_name None)
  end.

Definition join_host_port (host port : string) : string :=
  if str_contains ":" host && negb (str_starts_with "[" host) then "[" +:+ host +:+ "]:" +:+ port
  else host +:+ ":" +:+ port.

(** [PathBuf::join] of a relative path *)
Definition dir_join (base rel : string) : string :=
  if str_is_empty base || str_ends_with "/" base then base +:+ rel else base +:+ "/" +:+ rel.

Section Resolve.
Context `{KubeYaml} `{UrlParser} (h : Host).

Definition from_api_url (url : string) : result KubeConfig ConfError :=
  let? scheme := map_err (CeApiUrl url) (url_scheme url) in
  if negb (String.eqb scheme "http") && negb (String.eqb scheme "https") then Err (CeScheme url)
  else Ok (mkKubeConfig (trim_end_slashes url) None None false).

Definition in_cluster_with (env : string -> option string) (token_path ca_path : string) : result KubeConfig ConfError :=
  let? host := ok_or (env "KUBERNETES_SERVICE_HOST") (CeNoVar "KUBERNETES_SERVICE_HOST") in
  let? port := ok_or (env "KUBERNETES_SERVICE_PORT") (CeNoVar "KUBERNETES_SERVICE_PORT") in
  let? token := map_err (CeToken token_path) (ho_read h token_path) in
  Ok (mkKubeConfig ("https://" +:+ join_host_port host port) (Some (str_trim token))
        (if ho_exists h ca_path then Some ca_path else None) false).

Definition in_cluster : result KubeConfig ConfError :=
  in_cluster_with (ho_env h) SERVICE_ACCOUNT_TOKEN SERVICE_ACCOUNT_CA.

Definition user_token (user : NamedUser) : result string ConfError :=
  let? (token, token_file) := scan_user (nu_name user) (default [] (nu_user user)) None None in
  match token, token_file with
  | Some t, _ => Ok t
  | None, Some p => let? t := map_err (CeTokenFile p (nu_name user)) (ho_read h p) in Ok (str_trim t)
  | None, None => Err (CeAuth (nu_name user) None)
  end.

Definition from_kubeconfig (path : string) : result KubeConfig ConfError :=
  let? raw := map_err (CeKubeconfig path) (ho_read h path) in
  let? kc := map_err (CeYaml path) (ky_kubeconfig raw) in
  if str_is_empty (rk_current_context kc) then Err (CeNoContext path)
  else
    let? ctx := find_named nc_name "context" (rk_current_context kc) (rk_contexts kc) in
    let? cluster := find_named ncl_name "cluster" (cb_cluster (nc_context ctx)) (rk_clusters kc) in
    let? user := find_named nu_name "user" (cb_user (nc_context ctx)) (rk_users kc) in
    let? token := user_token user in
    Ok (mkKubeConfig (trim_end_slashes (cl_server (ncl_cluster cluster))) (Some token)
          (cl_certificate_authority (ncl_cluster cluster)) (cl_insecure_skip_tls_verify (ncl_cluster cluster))).

Definition env_kubeconfig : option string :=
  match ho_env h "KUBECONFIG" with
  | Some value =>
      List.find (fun p => negb (str_is_empty p) && ho_exists h p) (map str_trim (str_split ":" value))
  | None => None
  end.

Definition default_kubeconfig_path : option string :=
  option_map (fun home => dir_join (dir_join home ".kube") "config") (ho_env h "HOME").

Definition resolve (api_url kubeconfig_path : string) : result KubeConfig ConfError :=
  if negb (str_is_empty kubeconfig_path) then
    let? cfg := from_kubeconfig kubeconfig_path in
    if negb (str_is_empty api_url) then
      let? url := from_api_url api_url in
      Ok (mkKubeConfig (kc_server url) (kc_bearer_token cfg) (kc_ca_path cfg) (kc_insecure_skip_tls_verify cfg))
    else Ok cfg
  else if negb (str_is_empty api_url) then from_api_url api_url
  else
    match in_cluster with
    | Ok cfg => Ok cfg
    | Err _ =>
        match env_kubeconfig with
        | Some path => from_kubeconfig path
        | None =>
            match default_kubeconfig_path with
            | Some path => if ho_exists h path then from_kubeconfig path else Err CeUnresolved
            | None => Err CeUnresolved
            end
        end
    end.
End Resolve.

(** ** The client *)

Inductive Method := GET | PATCH.

(** A request as it is handed to [reqwest]; the query pairs are encoded there. *)
Record KubeRequest := mkKubeRequest {
  kr_method : Method;
  kr_url : string;
  kr_query : list (string * string);
  kr_content_type : option string;
  kr_body : option Value;
}.

Record KubeClient := mkKubeClient {
  cli_base_url : string;
  cli_authorization : option string;
  cli_insecure : bool;
  cli_root : option string;
}.

(** [HeaderValue::from_str], [Certificate::from_pem] and [ClientBuilder::build],
    each with the text of its error *)
Class HttpLib := {
  hl_header : string -> option string;
  hl_cert : string -> option string;
  hl_build : option string;
}.

(** The API server: the outcome of a one-shot request, and of the request for
    a watch with the chunks of its answer *)
Class ApiServer (K : Type) := {
  api_send : KubeRequest -> K -> K * Exchange;
  api_watch : KubeRequest -> K -> K * result (Z * string * list (result string string)) string;
}.

Inductive ClientError :=
| ClHeader (e : string)
| ClReadCa (path e : string)
| ClCert (path e : string)
| ClBuild (e : string).

Definition refused {E} (r : option string) (f : string -> E) : result unit E :=
  match r with Some e => Err (f e) | None => Ok tt end.

Definition bearer (token : string) : string := "Bearer " +:+ token.

Definition KubeClient_new `{HttpLib} (h : Host) (config : KubeConfig) : result KubeClient ClientError :=
  let? _ := match kc_bearer_token config with
            | Some token => refused (hl_header (bearer token)) ClHeader
            | None => Ok tt
            end in
  let? root := match kc_ca_path config with
               | Some ca =>
                   let? pem := map_err (ClReadCa ca) (ho_read h ca) in
                   let? _ := refused (hl_cert pem) (ClCert ca) in
                   Ok (Some ca)
               | None => Ok None
               end in
  let? _ := refused hl_build ClBuild in
  Ok (mkKubeClient (trim_end_slashes (kc_server config)) (option_map bearer (kc_bearer_token config))
        (kc_insecure_skip_tls_verify config) root).

Section Requests.
Context `{KubeJson} `{UrlParser} `{ApiServer K} (c : KubeClient).

Definition endpoint (path : string) : result string KubeError :=
  let url := cli_base_url c +:+ path in
  let? _ := map_err (fun e => KeConfig ("invalid server url " +:+ debug_str (cli_base_url c) +:+ ": " +:+ e)) (url_scheme url) in
  Ok url.

(** One request and the treatment of its answer *)
Definition send_json {T} (decode : string -> result T string) (resource : string) (r : KubeRequest) : io K KubeError T :=
  fun k => let '(k, x) := api_send r k in (k, request_json decode resource x).

Definition get_request (url : string) (query : list (string * string)) : KubeRequest :=
  mkKubeRequest GET url query None None.

Definition get_pod (pod_of : string -> result Pod string) (namespace name : string) : io K KubeError Pod :=
  let! url := io_lift (endpoint ("/api/v1/namespaces/" +:+ namespace +:+ "/pods/" +:+ name)) in
  send_json pod_of ("pod " +:+ namespace +:+ "/" +:+ name) (get_request url []).

Definition get_node (node_of : string -> result Node string) (name : string) : io K KubeError Node :=
  let! url := io_lift (endpoint ("/api/v1/nodes/" +:+ name)) in
  send_json node_of ("node " +:+ name) (get_request url []).

Definition opt_pair (key : string) (value : option string) : list (string * string) :=
  match value with Some v => [(key, v)] | None => [] end.

Definition list_nodes (list_of : string -> result NodeList string) (field_selector : option string) : io K KubeError NodeList :=
  let! url := io_lift (endpoint "/api/v1/nodes") in
  send_json list_of "node list" (get_request url (opt_pair "fieldSelector" field_selector)).

(** The serialization of a [Value] cannot fail. *)
Definition patch_node_at (node_of : string -> result Node string) (name subresource : string) (patch : Value)
    (patch_type : PatchType) : io K KubeError Node :=
  let! url := io_lift (endpoint ("/api/v1/nodes/" +:+ name +:+ subresource)) in
  send_json node_of ("node " +:+ name) (mkKubeRequest PATCH url [] (Some (content_type patch_type)) (Some patch)).

Definition patch_node (node_of : string -> result Node string) (name : string) (patch : Value) (patch_type : PatchType)
  : io K KubeError Node := patch_node_at node_of name "" patch patch_type.

Definition patch_node_status (node_of : string -> result Node string) (name : string) (patch : Value)
    (patch_type : PatchType) : io K KubeError Node := patch_node_at node_of name "/status" patch patch_type.

(** The decoded stream, up to the cancellation ([take_until]) *)
Definition watch_nodes (field_selector resource_version : option string) (allow_bookmarks : bool)
  : io K KubeError (list (result (WatchEvent Node) KubeError)) :=
  let! url := io_lift (endpoint "/api/v1/nodes") in
  let query := [("watch", "true")] ++ opt_pair "fieldSelector" field_selector
                 ++ opt_pair "resourceVersion" resource_version
                 ++ (if allow_bookmarks then [("allowWatchBookmarks", "true")] else []) in
  fun k =>
    match api_watch (get_request url query) k with
    | (k, Err e) => (k, Err (KeHttp e))
    | (k, Ok (code, body, chunks)) =>
        if negb (is_success code) then (k, Err (status_error code body))
        else (k, Ok (decode_watch_stream chunks))
    end.
End Requests.

(** * Theorems *)

Section Credentials.
Context `{KubeYaml} `{UrlParser} (h : Host).

Lemma find_named_ok {A} (name : A -> string) what wanted l a :
  find_named name what wanted l = Ok a -> In a l /\ name a = wanted.
Proof.
  unfold find_named. destruct (List.find _ l) as [b|] eqn:Hf; [|done]. intros [= ->].
  apply List.find_some in Hf as [Hin Hn]. split; [done|]. by apply String.eqb_eq.
Qed.

(** A kubeconfig gives the server and the TLS settings of a cluster of the
    file, and a token. *)
Lemma from_kubeconfig_ok path cfg :
  from_kubeconfig h path = Ok cfg ->
  exists raw kc cluster token,
    ho_read h path = Ok raw /\ ky_kubeconfig raw = Ok kc /\ In cluster (rk_clusters kc)
    /\ cfg = mkKubeConfig (trim_end_slashes (cl_server (ncl_cluster cluster))) (Some token)
               (cl_certificate_authority (ncl_cluster cluster)) (cl_insecure_skip_tls_verify (ncl_cluster cluster)).
Proof.
  unfold from_kubeconfig. destruct (ho_read h path) as [raw|] eqn:Hr; [|done]. cbn [map_err rbind].
  destruct (ky_kubeconfig raw) as [kc|] eqn:Hy; [|done]. cbn [map_err rbind].
  destruct (str_is_empty (rk_current_context kc)); [done|].
  destruct (find_named nc_name _ _ _) as [ctx|] eqn:Hc; [|done]. cbn [rbind].
  destruct (find_named ncl_name _ _ _) as [cl|] eqn:Hl; [|done]. cbn [rbind].
  destruct (find_named nu_name _ _ _) as [u|] eqn:Hu; [|done]. cbn [rbind].
  destruct (user_token h u) as [t|] eqn:Ht; [|done]. cbn [rbind]. intros [= <-].
  apply find_named_ok in Hl as [Hl _]. by exists raw, kc, cl, t.
Qed.

Lemma from_api_url_ok url cfg :
  from_api_url url = Ok cfg ->
  cfg = mkKubeConfig (trim_end_slashes url) None None false /\ (url_scheme url = Ok "http" \/ url_scheme url = Ok "https").
Proof.
  unfold from_api_url. destruct (url_scheme url) as [s|] eqn:Hs; [|done]. cbn [map_err rbind].
  destruct (String.eqb_spec s "http") as [->|]; [intros [= <-]; by auto|].
  destruct (String.eqb_spec s "https") as [->|]; [intros [= <-]; by auto|done].
Qed.

Lemma in_cluster_ok cfg : in_cluster h = Ok cfg -> is_some (kc_bearer_token cfg) = true /\ kc_insecure_skip_tls_verify cfg = false.
Proof.
  unfold in_cluster, in_cluster_with. destruct (ho_env h "KUBERNETES_SERVICE_HOST"); [|done]. cbn [ok_or rbind].
  destruct (ho_env h "KUBERNETES_SERVICE_PORT"); [|done]. cbn [ok_or rbind].
  destruct (ho_read h SERVICE_ACCOUNT_TOKEN); [|done]. by intros [= <-].
Qed.

(** Whatever the configuration was resolved from: it has a token unless a
    bare API URL was given, and a bare URL has no other credentials either;
    certificates are left unchecked only when a cluster of a kubeconfig file
    says so. *)
Theorem resolve_credentials api_url path cfg :
  resolve h api_url path = Ok cfg ->
  is_some (kc_bearer_token cfg) = negb (str_is_empty path) || str_is_empty api_url
  /\ (kc_bearer_token cfg = None -> kc_ca_path cfg = None /\ kc_insecure_skip_tls_verify cfg = false)
  /\ (kc_insecure_skip_tls_verify cfg = true ->
      exists p raw kc cluster, ho_read h p = Ok raw /\ ky_kubeconfig raw = Ok kc /\ In cluster (rk_clusters kc)
        /\ cl_insecure_skip_tls_verify (ncl_cluster cluster) = true).
Proof.
  assert (forall p c, from_kubeconfig h p = Ok c ->
    is_some (kc_bearer_token c) = true
    /\ (kc_insecure_skip_tls_verify c = true ->
        exists p raw kc cluster, ho_read h p = Ok raw /\ ky_kubeconfig raw = Ok kc /\ In cluster (rk_clusters kc)
          /\ cl_insecure_skip_tls_verify (ncl_cluster cluster) = true)) as Hk.
  { intros p c Hf. apply from_kubeconfig_ok in Hf as (raw & kc & cl & t & Hr & Hy & Hin & ->). split; [done|].
    intros Hi. by exists p, raw, kc, cl. }
  assert (forall p c, from_kubeconfig h p = Ok c -> kc_bearer_token c <> None) as Hn.
  { intros p c Hf. destruct (Hk p c Hf) as [Hs _]. by destruct (kc_bearer_token c). }
  unfold resolve. destruct (str_is_empty path) eqn:Hp; cbn [negb orb].
  - destruct (str_is_empty api_url) eqn:Ha; cbn [negb].
    + destruct (in_cluster h) as [c|] eqn:Hc.
      { intros [= <-]. apply in_cluster_ok in Hc as [Ht Hi]. split_and!; [done| |congruence].
        by destruct (kc_bearer_token c). }
      destruct (env_kubeconfig h) as [p|].
      { intros Hf. destruct (Hk _ _ Hf). split_and!; [done|by intros ?%(Hn p cfg Hf)|done]. }
      destruct (default_kubeconfig_path h) as [p|]; [|done]. destruct (ho_exists h p); [|done].
      intros Hf. destruct (Hk _ _ Hf). split_and!; [done|by intros ?%(Hn p cfg Hf)|done].
    + intros Hf. by apply from_api_url_ok in Hf as [-> _].
  - destruct (from_kubeconfig h path) as [c|] eqn:Hf; [|done]. cbn [rbind]. destruct (Hk _ _ Hf) as [Ht Hi].
    pose proof (Hn _ _ Hf) as Hc. destruct (str_is_empty api_url); cbn [negb].
    + intros [= <-]. done.
    + destruct (from_api_url api_url) as [u|]; [|done]. cbn [rbind]. intros [= <-]. done.
Qed.
End Credentials.

(** The URLs of the requests have exactly one slash between server and path. *)
Theorem client_base_url `{HttpLib} h config c :
  KubeClient_new h config = Ok c ->
  str_ends_with "/" (cli_base_url c) = false
  /\ cli_authorization c = option_map bearer (kc_bearer_token config)
  /\ cli_insecure c = kc_insecure_skip_tls_verify config.
Proof.
  unfold KubeClient_new. destruct (match kc_bearer_token config with Some _ => _ | None => _ end); [|done]. cbn [rbind].
  destruct (match kc_ca_path config with Some _ => _ | None => _ end); [|done]. cbn [rbind].
  destruct (refused hl_build ClBuild); [|done]. intros [= <-]. split; [apply trim_end_slashes_end|done].
Qed.
