(* ===== verification/KubeStatus.v ===== *)
(** * [subnet/kube/status.rs], [subnet/kube/mod.rs]: start and completion

    The construction of the Kubernetes subnet manager: the node name, the
    depth of the event queue, the wait for the first sync; and the node
    condition that [complete_lease] patches, with its time stamp. *)

From S2P Require Import Prelude RustStr Utf8 IpNet Ip6Net Lease Config KubeNode KubeClient EventQueue Informer KubeAcquire EventHub KubeConf.
#[local] Open Scope string_scope.
#[local] Open Scope list_scope.
#[local] Open Scope Z_scope.

(** ** [status.rs] *)

(** Days since 1970-01-01 to year, month and day; [/] truncates. *)
Definition civil_from_days (days : Z) : Z * Z * Z :=
  let z := days + 719468 in
  let era := Z.quot (if 0 <=? z then z else z - 146096) 146097 in
  let doe := z - era * 146097 in
  let yoe := Z.quot (doe - Z.quot doe 1460 + Z.quot doe 36524 - Z.quot doe 146096) 365 in
  let y := yoe + era * 400 in
  let doy := doe - (365 * yoe + Z.quot yoe 4 - Z.quot yoe 100) in
  let mp := Z.quot (5 * doy + 2) 153 in
  let d := doy - Z.quot (153 * mp + 2) 5 + 1 in
  let m := if mp <? 10 then mp + 3 else mp - 9 in
  (if m <=? 2 then y + 1 else y, m, d).

Definition fmt_timestamp (year m d hour min sec : Z) : string :=
  fmt_pad 4 year +:+ "-" +:+ fmt_pad 2 m +:+ "-" +:+ fmt_pad 2 d +:+ "T"
  +:+ fmt_pad 2 hour +:+ ":" +:+ fmt_pad 2 min +:+ ":" +:+ fmt_pad 2 sec +:+ "Z".

(** [t]: nanoseconds from the epoch; a time before it counts as the epoch. *)
Definition rfc3339_utc (t : Z) : string :=
  let secs := Z.max 0 t / 10 ^ 9 in
  let days := secs / 86400 in
  let rem := secs mod 86400 in
  let '(year, m, d) := civil_from_days days in
  fmt_timestamp year m d (rem / 3600) ((rem / 60) mod 60) (rem mod 60).

Definition status_patch (now : string) : Value :=
  VObject [("status", VObject [("conditions", VArray [VObject [
    ("type", VString "NetworkUnavailable");
    ("status", VString "False");
    ("reason", VString "FlannelIsUp");
    ("message", VString "Flannel is running on this node");
    ("lastTransitionTime", VString now);
    ("lastHeartbeatTime", VString now)]])])].

Section Complete.
Context `{KubeJson} `{UrlParser} `{ApiServer K}.

Definition kube_complete_lease (client : KubeClient) (node_of : string -> result Node string) (mgr : KubeSubnetManager)
    (now : Z) : io K KubeError unit :=
  if negb (km_set_node_network_unavailable mgr) then io_ret tt
  else
    let! _ := patch_node_status client node_of (km_node_name mgr) (status_patch (rfc3339_utc now)) StrategicMerge in
    io_ret tt.
End Complete.

(** ** [mod.rs] *)

Definition NODE_CONTROLLER_SYNC_TIMEOUT : Z := 10 * 60 * 1000.
Definition DEFAULT_EVENT_QUEUE_DEPTH : Z := 5000.

(** The most permits of a semaphore, and so the largest capacity that
    [mpsc::channel] takes without a panic: [usize::MAX >> 3] *)
Definition CHANNEL_MAX : Z := 2 ^ 61 - 1.

Inductive StartError :=
| SePodEnv
| SePod (namespace name : string) (e : KubeError)
| SeNoNodeName (namespace name : string)
| SeNetConf (e : string)
| SeConfig (e : ConfigError)
| SeAnnotations (e : AnnotationsError)
| SeQueueDepth (text : string) (e : IntErrorKind)
| SeChannelPanic
| SeSync (cancelled : bool).

(** [env::var(..).unwrap_or_default()] *)
Definition env_or_empty (h : Host) (var : string) : string := default "" (ho_env h var).

Section NodeName.
Context `{KubeJson} `{UrlParser} `{ApiServer K}.

Definition resolve_node_name (h : Host) (client : KubeClient) (pod_of : string -> result Pod string) : io K StartError string :=
  let node_name := env_or_empty h "NODE_NAME" in
  if negb (str_is_empty node_name) then io_ret node_name
  else
    let pod_name := env_or_empty h "POD_NAME" in
    let pod_namespace := env_or_empty h "POD_NAMESPACE" in
    if str_is_empty pod_name || str_is_empty pod_namespace then io_err SePodEnv
    else
      let! pod := io_map_err (SePod pod_namespace pod_name) (get_pod client pod_of pod_namespace pod_name) in
      match ps_node_name (pd_spec pod) with
      | Some name => if str_is_empty name then io_err (SeNoNodeName pod_namespace pod_name) else io_ret name
      | None => io_err (SeNoNodeName pod_namespace pod_name)
      end.
End NodeName.

Definition event_queue_depth (h : Host) : result Z StartError :=
  let scale_str := env_or_empty h "EVENT_QUEUE_DEPTH" in
  if str_is_empty scale_str then Ok DEFAULT_EVENT_QUEUE_DEPTH
  else
    let? n := map_err (SeQueueDepth scale_str) (from_str_radix_i 64 10 scale_str) in
    Ok (if 0 <? n then n else DEFAULT_EVENT_QUEUE_DEPTH).

(** The manager with what its tasks share *)
Record KubeState := mkKubeState {
  kst_mgr : KubeSubnetManager;
  kst_queue : EventQueue;
  kst_hub : EventHub;
  kst_store : NodeStore;
}.

Definition new_kube_subnet_manager (is_match : string -> bool) (h : Host) (config : Config) (node_name prefix : string)
  : result KubeState StartError :=
  let? annotations := map_err SeAnnotations (new_annotations is_match prefix) in
  let? scale := event_queue_depth h in
  if CHANNEL_MAX <? scale then Err SeChannelPanic
  else
    Ok (mkKubeState
          (mkManager config node_name annotations (String.eqb (cfg_backend_type config) "alloc") false)
          (EventQueue_new (Z.to_nat scale)) (EventHub_new (Z.to_nat scale)) NodeStore_new).

(** A turn of [wait_synced]: what it sees of the store, the token and the
    clock (milliseconds from its start), and whether its sleep ended *)
Record SyncRound := mkSyncRound { sy_synced : bool; sy_cancelled : bool; sy_now : Z; sy_slept : bool }.

(** [None]: it still waits. *)
Fixpoint wait_synced (rounds : list SyncRound) : option (result unit StartError) :=
  match rounds with
  | [] => None
  | r :: rest =>
      if sy_synced r then Some (Ok tt)
      else if sy_cancelled r then Some (Err (SeSync true))
      else if NODE_CONTROLLER_SYNC_TIMEOUT <=? sy_now r then Some (Err (SeSync false))
      else if negb (sy_slept r) then Some (Err (SeSync true))
      else wait_synced rest
  end.

Section Start.
Context `{KubeJson} `{UrlParser} `{ApiServer K} `{SerdeJson}.

(** Up to the informer: the manager, and whether the informer and the fan-out
    are started *)
Definition start_subnet_manager (is_match : string -> bool) (h : Host) (client : KubeClient)
    (pod_of : string -> result Pod string) (prefix net_conf_path : string) (set_node_network_unavailable : bool)
  : io K StartError (KubeState * bool) :=
  let! node_name := resolve_node_name h client pod_of in
  let! net_conf := io_lift (map_err SeNetConf (ho_read h net_conf_path)) in
  let! config := io_lift (map_err SeConfig (parse_config net_conf)) in
  let! sm := io_lift (new_kube_subnet_manager is_match h config node_name prefix) in
  let m := kst_mgr sm in
  let m := mkManager (km_config m) (km_node_name m) (km_annotations m) (km_disable_node_informer m)
             set_node_network_unavailable in
  io_ret (mkKubeState m (kst_queue sm) (kst_hub sm) (kst_store sm), negb (km_disable_node_informer m)).

(** [None]: it still waits for the first sync. *)
Definition new_subnet_manager (is_match : string -> bool) (h : Host) (client : KubeClient)
    (pod_of : string -> result Pod string) (prefix net_conf_path : string) (set_node_network_unavailable : bool)
    (rounds : list SyncRound) (k : K) : K * option (result KubeState StartError) :=
  match start_subnet_manager is_match h client pod_of prefix net_conf_path set_node_network_unavailable k with
  | (k, Err e) => (k, Some (Err e))
  | (k, Ok (sm, false)) => (k, Some (Ok sm))
  | (k, Ok (sm, true)) => (k, option_map (fun r => let? _ := r in Ok sm) (wait_synced rounds))
  end.
End Start.

Definition manager_name (mgr : KubeSubnetManager) : string := "Kubernetes Subnet Manager - " +:+ km_node_name mgr.

(** * Theorems *)

(** ** The calendar *)

Definition is_leap (y : Z) : bool := (y mod 4 =? 0) && (negb (y mod 100 =? 0) || (y mod 400 =? 0)).

Definition month_len (leap : bool) (m : Z) : Z :=
  if m =? 2 then if leap then 29 else 28
  else if (m =? 4) || (m =? 6) || (m =? 9) || (m =? 11) then 30 else 31.

(** The day after, in the Gregorian calendar *)
Definition next_day (date : Z * Z * Z) : Z * Z * Z :=
  let '(y, m, d) := date in
  if d <? month_len (is_leap y) m then (y, m, d + 1)
  else if m <? 12 then (y, m + 1, 1) else (y + 1, 1, 1).

(** A year that starts in March: its first day in the era, and its end *)
Definition year_start (y : Z) : Z := 365 * y + y / 4 - y / 100.
Definition year_end (y : Z) : Z := if y =? 399 then 146097 else year_start (y + 1).

Definition leapless (doe : Z) : Z := doe - doe / 1460 + doe / 36524 - doe / 146096.

(** Month and day of a day of such a year *)
Definition month_day (doy : Z) : Z * Z :=
  let mp := (5 * doy + 2) / 153 in
  (if mp <? 10 then mp + 3 else mp - 9, doy - (153 * mp + 2) / 5 + 1).

Definition civil (y doy : Z) : Z * Z * Z :=
  let '(m, d) := month_day doy in (if m <=? 2 then y + 1 else y, m, d).

Lemma leapless_mono a b : 0 <= a -> a <= b -> b < 146097 -> leapless a <= leapless b.
Proof.
  intros Ha Hab. pattern b. apply Zlt_lower_bound_ind with (z := a); [|done]. clear b Hab.
  intros b IH Hab Hb. destruct (Z.eq_dec a b) as [->|Hne]; [lia|].
  transitivity (leapless (b - 1)); [apply IH; lia|]. unfold leapless.
  Z.to_euclidean_division_equations. lia.
Qed.

Lemma year_bounds y : 0 <= y < 400 ->
  365 * y <= leapless (year_start y) /\ leapless (year_end y - 1) < 365 * (y + 1) /\ 0 <= year_start y /\ year_end y <= 146097.
Proof.
  intros Hy.
  assert ((365 * y <=? leapless (year_start y)) && (leapless (year_end y - 1) <? 365 * (y + 1))
          && (0 <=? year_start y) && (year_end y <=? 146097) = true) as Hc.
  { apply (range_forall (fun y => (365 * y <=? leapless (year_start y)) && (leapless (year_end y - 1) <? 365 * (y + 1))
          && (0 <=? year_start y) && (year_end y <=? 146097)) 400); [by vm_compute|lia]. }
  rewrite !andb_true_iff in Hc. lia.
Qed.

(** The year that the formula finds *)
Lemma leapless_year y doe : 0 <= y < 400 -> year_start y <= doe < year_end y -> leapless doe / 365 = y.
Proof.
  intros Hy Hd. destruct (year_bounds y Hy) as (Hs & He & Hp & Hm).
  pose proof (leapless_mono (year_start y) doe Hp ltac:(lia) ltac:(lia)).
  pose proof (leapless_mono doe (year_end y - 1) ltac:(lia) ltac:(lia) ltac:(lia)).
  symmetry. apply (Z.div_unique _ _ _ (leapless doe - 365 * y)); lia.
Qed.

Lemma year_exists doe : 0 <= doe < 146097 -> exists y, 0 <= y < 400 /\ year_start y <= doe < year_end y.
Proof.
  intros Hd.
  assert (forall n, 0 <= n -> n <= 399 -> year_start n <= doe \/ exists y, 0 <= y < n /\ year_start y <= doe < year_start (y + 1)) as Hn.
  { intros n Hn. pattern n. apply natlike_ind; [|clear n Hn; intros n Hn IH Hb|done].
    - intros _. left. change (year_start 0) with 0. lia.
    - destruct (IH ltac:(lia)) as [Hs|(y & Hy & Hs)]; [|right; exists y; split; [lia|done]].
      destruct (Z_le_gt_dec (year_start (Z.succ n)) doe); [by left|]. right. exists n. unfold Z.succ in *. lia. }
  unfold year_end. destruct (Hn 399 ltac:(lia) ltac:(lia)) as [Hs|(y & Hy & Hs)].
  - exists 399. rewrite Z.eqb_refl. lia.
  - exists y. destruct (Z.eqb_spec y 399); lia.
Qed.

(** [civil_from_days], by era, year and day of the year *)
Lemma civil_from_days_at n era y doe :
  n + 719468 = era * 146097 + doe -> 0 <= era -> 0 <= y < 400 -> year_start y <= doe < year_end y ->
  civil_from_days n = civil (era * 400 + y) (doe - year_start y).
Proof.
  intros Hz He Hy Hd. destruct (year_bounds y Hy) as (_ & _ & Hp & Hm). unfold civil_from_days. cbv zeta.
  rewrite (proj2 (Z.leb_le 0 (n + 719468))) by lia. rewrite !Z.quot_div_nonneg with (a := n + 719468) by lia.
  assert ((n + 719468) / 146097 = era) as -> by (symmetry; apply (Z.div_unique _ _ _ doe); lia).
  replace (n + 719468 - era * 146097) with doe by lia.
  rewrite !Z.quot_div_nonneg with (a := doe) by lia.
  fold (leapless doe). assert (0 <= leapless doe) as Hl.
  { rewrite <- (leapless_mono 0 doe); [done|lia..]. }
  rewrite (Z.quot_div_nonneg (leapless doe)), (leapless_year y) by (done || lia).
  rewrite (Z.quot_div_nonneg y 4), (Z.quot_div_nonneg y 100) by lia. fold (year_start y).
  unfold civil, month_day. set (doy := doe - year_start y). assert (0 <= doy) as Hdoy by lia. clearbody doy.
  rewrite (Z.quot_div_nonneg (5 * doy + 2)) by lia. rewrite Z.quot_div_nonneg; [|apply Z.add_nonneg_nonneg; [|lia]|lia].
  - by rewrite (Z.add_comm y).
  - apply Z.mul_nonneg_nonneg; [lia|]. apply Z.div_pos; lia.
Qed.

(** The successor of month and day, for the leap flag of the year of the day *)
Definition month_day_next (leap : bool) (doy : Z) : bool :=
  let '(m, d) := month_day doy in
  let '(m', d') := month_day (doy + 1) in
  if d <? month_len leap m then (m' =? m) && (d' =? d + 1)
  else (d' =? 1) && (if m <? 12 then (m' =? m + 1) && Bool.eqb (m' <=? 2) (m <=? 2) else m' =? 1).

Lemma month_day_next_ok (leap : bool) doy : 0 <= doy -> doy < (if leap then 365 else 364) -> month_day_next leap doy = true.
Proof.
  intros H0 Hb. destruct leap.
  - apply (range_forall (month_day_next true) 365); [by vm_compute|lia].
  - apply (range_forall (month_day_next false) 364); [by vm_compute|lia].
Qed.

(** The day after a day that is not the last of its year *)
Lemma civil_next y doy : 0 <= doy -> doy < (if is_leap (y + 1) then 365 else 364) -> civil y (doy + 1) = next_day (civil y doy).
Proof.
  intros H0 Hlt. pose proof (month_day_next_ok _ _ H0 Hlt) as Hc. unfold month_day_next in Hc. unfold civil, next_day.
  destruct (month_day doy) as [m d]. destruct (month_day (doy + 1)) as [m' d'].
  assert (month_len (is_leap (if m <=? 2 then y + 1 else y)) m = month_len (is_leap (y + 1)) m) as ->.
  { destruct (Z.leb_spec m 2); [done|]. unfold month_len. destruct (Z.eqb_spec m 2); [lia|done]. }
  destruct (d <? month_len (is_leap (y + 1)) m); rewrite andb_true_iff, Z.eqb_eq in Hc; destruct Hc as [-> Hc].
  - by apply Z.eqb_eq in Hc as ->.
  - destruct (Z.ltb_spec m 12).
    + apply andb_true_iff in Hc as [->%Z.eqb_eq ->%Bool.eqb_prop]. done.
    + apply Z.eqb_eq in Hc as ->. cbn. destruct (Z.leb_spec m 2); [lia|done].
Qed.

(** The last day of a year is followed by the first of March. *)
Lemma civil_wrap y : next_day (civil y (if is_leap (y + 1) then 365 else 364)) = civil (y + 1) 0.
Proof.
  destruct (is_leap (y + 1)) eqn:Hl; [change (civil y 365) with (y + 1, 2, 29)|change (civil y 364) with (y + 1, 2, 28)];
    unfold next_day; by rewrite Hl.
Qed.

Lemma year_length era y : 0 <= y < 400 ->
  year_end y - year_start y = if is_leap (era * 400 + y + 1) then 366 else 365.
Proof.
  intros Hy. assert (is_leap (era * 400 + y + 1) = is_leap (y + 1)) as ->.
  { unfold is_leap. replace (era * 400 + y + 1) with (y + 1 + era * 400) by lia.
    rewrite (Z_mod_plus_full (y + 1) era 400). replace (y + 1 + era * 400) with (y + 1 + (era * 4) * 100) at 2 by lia.
    rewrite Z_mod_plus_full. replace (y + 1 + era * 400) with (y + 1 + (era * 100) * 4) by lia. by rewrite Z_mod_plus_full. }
  apply Z.eqb_eq. revert y Hy.
  apply (range_forall (fun y => year_end y - year_start y =? (if is_leap (y + 1) then 366 else 365)) 400). by vm_compute.
Qed.

(** The formula follows the calendar. *)
Lemma civil_from_days_next n : 0 <= n -> civil_from_days (n + 1) = next_day (civil_from_days n).
Proof.
  intros Hn. pose proof (Z.div_mod (n + 719468) 146097 ltac:(lia)) as Hz.
  pose proof (Z.mod_pos_bound (n + 719468) 146097 ltac:(lia)) as Hb.
  set (era := (n + 719468) / 146097) in *. set (doe := (n + 719468) mod 146097) in *.
  assert (0 <= era) as He by (apply Z.div_pos; lia). clearbody era doe.
  destruct (year_exists doe Hb) as (y & Hy & Hd). pose proof (year_length era y Hy) as Hlen.
  rewrite (civil_from_days_at n era y doe) by lia.
  destruct (Z_lt_le_dec (doe + 1) (year_end y)) as [Hin|Hout].
  - rewrite (civil_from_days_at (n + 1) era y (doe + 1)) by lia.
    replace (doe + 1 - year_start y) with (doe - year_start y + 1) by lia. apply civil_next; [lia|].
    destruct (is_leap _); lia.
  - replace (doe - year_start y) with (if is_leap (era * 400 + y + 1) then 365 else 364) by (destruct (is_leap _); lia).
    rewrite civil_wrap. unfold year_end in *. destruct (Z.eqb_spec y 399) as [->|].
    + rewrite (civil_from_days_at (n + 1) (era + 1) 0 0); [|lia|lia|lia|by vm_compute].
      change (year_start 0) with 0. f_equal. lia.
    + rewrite (civil_from_days_at (n + 1) era (y + 1) (doe + 1)); [|lia|lia|lia|].
      * f_equal; lia.
      * destruct (year_bounds (y + 1) ltac:(lia)) as (_ & _ & _ & _). pose proof (year_length era (y + 1) ltac:(lia)).
        destruct (is_leap (era * 400 + (y + 1) + 1)); lia.
Qed.

Lemma civil_from_days_iter n : 0 <= n -> Nat.iter (Z.to_nat n) next_day (1970, 1, 1) = civil_from_days n.
Proof.
  intros Hn. rewrite <- (Z2Nat.id n Hn) at 2. generalize (Z.to_nat n). clear n Hn. induction n as [|n IH]; [by vm_compute|].
  rewrite Nat.iter_succ, IH, Nat2Z.inj_succ. unfold Z.succ. symmetry. apply civil_from_days_next. lia.
Qed.

(** The time stamp of the node condition is that of the calendar: the date
    is the first of January 1970 moved on by the whole days since then, one
    day of the Gregorian calendar at a time, and the time of the day is the
    rest in hours, minutes and seconds. *)
Theorem rfc3339_utc_calendar t :
  0 <= t ->
  let secs := t / 10 ^ 9 in
  exists hour min sec,
    0 <= hour < 24 /\ 0 <= min < 60 /\ 0 <= sec < 60 /\ secs mod 86400 = 3600 * hour + 60 * min + sec
    /\ let '(year, m, d) := Nat.iter (Z.to_nat (secs / 86400)) next_day (1970, 1, 1) in
       rfc3339_utc t = fmt_timestamp year m d hour min sec.
Proof.
  intros Ht secs. assert (0 <= secs) as Hs by (apply Z.div_pos; lia).
  pose proof (Z.mod_pos_bound secs 86400 ltac:(lia)) as Hr.
  exists (secs mod 86400 / 3600), ((secs mod 86400 / 60) mod 60), ((secs mod 86400) mod 60).
  rewrite civil_from_days_iter by (apply Z.div_pos; lia). unfold rfc3339_utc. rewrite Z.max_r by done. fold secs.
  split_and!; try (Z.to_euclidean_division_equations; lia). cbv zeta. by destruct (civil_from_days (secs / 86400)) as [[y m] d].
Qed.

Lemma rfc3339_utc_calendar_witness :
  rfc3339_utc (951782400 * 10 ^ 9) = "2000-02-29T00:00:00Z" /\ rfc3339_utc (1709164799 * 10 ^ 9) = "2024-02-28T23:59:59Z"
  /\ exists hour min sec, 0 <= hour < 24 /\ 86399 = 3600 * hour + 60 * min + sec
      /\ rfc3339_utc (86399 * 10 ^ 9) = fmt_timestamp 1970 1 1 hour min sec.
Proof.
  split; [by vm_compute|]. split; [by vm_compute|].
  destruct (rfc3339_utc_calendar (86399 * 10 ^ 9) ltac:(lia)) as (h & m & s & Hh & Hm & Hs & He & Hf).
  exists h, m, s. split; [done|]. split; [exact He|exact Hf].
Defined.

(** ** Start-up *)

(** A depth that is accepted is at least one; the channels are made with it,
    unless it is too large for them. *)
Theorem event_queue_depth_pos h n : event_queue_depth h = Ok n -> 0 < n < 2 ^ 63.
Proof.
  unfold event_queue_depth. destruct (str_is_empty _); [intros [= <-]; by vm_compute|].
  destruct (from_str_radix_i 64 10 _) as [v|] eqn:Hv; [|done]. cbn [map_err rbind]. intros [= <-].
  apply (from_str_radix_i_range 64) in Hv; [|lia]. destruct (Z.ltb_spec 0 v); [|by vm_compute].
  change (2 ^ (64 - 1)) with (2 ^ 63) in Hv. lia.
Qed.

Definition host_with (var value : string) : Host :=
  mkHost (fun v => if String.eqb v var then Some value else None) (fun _ => Err "no such file") (fun _ => false).

(** The largest 64-bit depth passes the check of [event_queue_depth], and the
    channel panics. *)
Theorem queue_depth_panics config node :
  let h := host_with "EVENT_QUEUE_DEPTH" "9223372036854775807" in
  event_queue_depth h = Ok (2 ^ 63 - 1)
  /\ new_kube_subnet_manager (fun _ => true) h config node "flannel.alpha.coreos.com" = Err SeChannelPanic.
Proof. by vm_compute. Qed.

(** The wait for the first sync ends: the rounds are a second apart, and ten
    minutes are 600 of them. *)
Theorem wait_synced_ends rounds :
  (600 < length rounds)%nat -> (forall i r, rounds !! i = Some r -> 1000 * Z.of_nat i <= sy_now r) -> is_Some (wait_synced rounds).
Proof.
  intros Hlen Hclock.
  assert (forall pre rest, rounds = pre ++ rest -> (length pre <= 600)%nat -> is_Some (wait_synced rest)) as Hw.
  { intros pre rest. remember (600 - length pre)%nat as n eqn:Hn. revert pre rest Hn.
    induction n as [|n IH]; intros pre [|r rest] Hn -> Hp; rewrite ?length_app in Hlen; cbn in Hlen; try lia.
    - assert (1000 * Z.of_nat (length pre) <= sy_now r) as Hr.
      { apply Hclock. by rewrite lookup_app_r, Nat.sub_diag by lia. }
      cbn [wait_synced]. destruct (sy_synced r), (sy_cancelled r); try by eexists.
      unfold NODE_CONTROLLER_SYNC_TIMEOUT. destruct (Z.leb_spec (10 * 60 * 1000) (sy_now r)); [by eexists|lia].
    - cbn [wait_synced]. destruct (sy_synced r), (sy_cancelled r), (NODE_CONTROLLER_SYNC_TIMEOUT <=? sy_now r), (sy_slept r); try by eexists.
      apply (IH (pre ++ [r])); rewrite ?length_app; cbn; [lia| |lia]. by rewrite <- app_assoc. }
  apply (Hw []); [done|cbn; lia].
Qed.

(** It succeeds with the first sight of a synced store, provided that nothing
    ended it before. *)
Theorem wait_synced_ok rounds r rest :
  Forall (fun r => sy_cancelled r = false /\ sy_now r < NODE_CONTROLLER_SYNC_TIMEOUT /\ sy_slept r = true) rounds ->
  sy_synced r = true -> wait_synced (rounds ++ r :: rest) = Some (Ok tt).
Proof.
  intros Hr Hs. induction Hr as [|x l (Hc & Hn & Hl) _ IH]; cbn [wait_synced app].
  - by rewrite Hs.
  - rewrite Hc, Hl, IH, (proj2 (Z.leb_gt _ _) Hn). by destruct (sy_synced x).
Qed.
