(* ===== verification/KubeManager.v ===== *)
(** * [impl Manager for KubeSubnetManager] ([subnet/kube/mod.rs])

    The Kubernetes manager as an instance of the interface that the backends
    and the daemon use.  The polling loops of [acquire_lease], modelled in
    [KubeAcquire] over the rounds they see, run here against the world: the
    API server, the node store of the informer, the clocks and the token.
    [LeaseAnnouncer] is what a backend relies on when it registers: the other
    nodes read the lease that it acquired. *)

From S2P Require Import Prelude RustStr Utf8 StdNet IpNet Ip6Net Lease Config Anyhow SubnetEnv AtomicFile KubeNode KubeClient KubeAcquire EventHub RouteNetwork Iface Backend KubeConf KubeStatus.
#[local] Open Scope string_scope.
#[local] Open Scope list_scope.
#[local] Open Scope Z_scope.

(** What the manager uses besides the API server and the files: the store of
    the informer, [Instant::now] (in milliseconds), [SystemTime::now] (in
    nanoseconds), [sleep_cancellable] ([false]: cancelled) and the token. *)
Class ManagerHost (K : Type) := {
  mh_store : K -> string -> option Node;
  mh_instant : K -> Z;
  mh_system_time : K -> Z;
  mh_sleep : Z -> K -> K * bool;
  mh_cancelled : K -> bool;
  mh_netlink : io K anyhow unit;
  (** [mkdir_all_0755] *)
  mh_mkdir_all : string -> io K FsError unit;
}.

(** ** Errors as the callers see them *)

Definition LeaseError_fmt (e : LeaseError) : string :=
  match e with
  | LeIp4 e => IP4ParseError_fmt e
  | LeIp6 e => IP6ParseError_fmt e
  | LeTooManyCidrs node => "node " +:+ quoted_str node +:+ " pod cidrs should be IPv4/IPv6 only or dualstack"
  | LeMissingIp4 => "missing IPv4 address on n.Spec.PodCIDRs"
  | LeMissingIp6 => "missing IPv6 address on n.Spec.PodCIDRs"
  end.

Definition timeout_reason (canceled : bool) : string :=
  if canceled then "context canceled" else "context deadline exceeded".

Definition outside_network (network cidr family node : string) : string :=
  "subnet " +:+ quoted_str network +:+ " specified in the flannel net config doesn't contain "
  +:+ quoted_str cidr +:+ " " +:+ family +:+ "PodCIDR of the " +:+ quoted_str node +:+ " node".

Definition AcquireError_fmt (node : string) (e : AcquireError) : string :=
  match e with
  | AeLease e => LeaseError_fmt e
  | AeNodeTimeout c => "timeout contacting kube-api, failed to get node " +:+ quoted_str node +:+ ". Error: " +:+ timeout_reason c
  | AePatchTimeout c => "timeout contacting kube-api, failed to patch node " +:+ quoted_str node +:+ ". Error: " +:+ timeout_reason c
  | AeOutsideNetwork network cidr => outside_network (IP4Net_fmt network) (IP4Net_fmt cidr) "" node
  | AeOutsideIpv6Network network cidr => outside_network (IP6Net_fmt network) (IP6Net_fmt cidr) "IPv6 " node
  end.

(** ** The polling loops in the world *)

Section Polling.
Context `{ManagerHost K}.

(** [see] makes the observation of a round, [attempt] decides on it; the
    result is [None] while it still polls after [fuel] rounds. *)
Fixpoint poll_io {O A} (see : K -> K * O) (attempt : O -> option (result A AcquireError))
    (timeout : bool -> AcquireError) (deadline : Z) (fuel : nat) (k : K) : K * option (result A AcquireError) :=
  match fuel with
  | O => (k, None)
  | S fuel =>
      let '(k, seen) := see k in
      match attempt seen with
      | Some res => (k, Some res)
      | None =>
          if mh_cancelled k then (k, Some (Err (timeout true)))
          else
            let now := mh_instant k in
            if deadline <=? now then (k, Some (Err (timeout false)))
            else
              let '(k, slept) := mh_sleep (Z.min POLL_INTERVAL (deadline - now)) k in
              if negb slept then (k, Some (Err (timeout true)))
              else poll_io see attempt timeout deadline fuel k
      end
  end.

Definition poll_from_now {O A} (see : K -> K * O) (attempt : O -> option (result A AcquireError))
    (timeout : bool -> AcquireError) (fuel : nat) (k : K) : K * option (result A AcquireError) :=
  poll_io see attempt timeout (mh_instant k + POLL_TIMEOUT) fuel k.
End Polling.

(** The body of the PATCH: the changed annotations *)
Definition annotations_value (changed : gmap string string) : Value :=
  VObject [("metadata", VObject [("annotations", VObject (map (fun kv => (kv.1, VString kv.2)) (map_to_list changed)))])].

(** [Path::parent] *)
Definition path_parent (path : string) : option string :=
  if str_is_empty (trim_end_slashes path) then None else Some (parent_and_name path).1.

(** Eleven rounds are enough for thirty seconds. *)
Definition POLL_ROUNDS : nat := 11.

Section Manager.
Context `{KubeJson} `{UrlParser} `{ApiServer K} `{ManagerHost K} `{FsOps K}.
Context (client : KubeClient) (node_of : string -> result Node string) (mgr : KubeSubnetManager).

(** The own node: a GET without the informer, the store with it *)
Definition see_node (k : K) : K * NodeSight :=
  if km_disable_node_informer mgr
  then let '(k, r) := get_node client node_of (km_node_name mgr) k in (k, (r, None))
  else (k, (Err KeCanceled, mh_store k (km_node_name mgr))).

Definition see_patch (changed : gmap string string) (k : K) : K * result Node KubeError :=
  patch_node client node_of (km_node_name mgr) (annotations_value changed) StrategicMerge k.

Definition kube_wait_for_node (fuel : nat) (k : K) : K * option (result Node AcquireError) :=
  poll_from_now see_node (node_attempt mgr) AeNodeTimeout fuel k.

Definition kube_patch_annotations (attrs : LeaseAttrs) (node : Node) (bd v6_bd : string) (fuel : nat) (k : K)
  : K * option (result unit AcquireError) :=
  match annotation_patch (km_annotations mgr) attrs (om_annotations (nd_metadata node)) bd v6_bd with
  | Some changed => poll_from_now (see_patch changed) patch_attempt AePatchTimeout fuel k
  | None => (k, Some (Ok tt))
  end.

Definition kube_acquire_lease (fuel : nat) (attrs : LeaseAttrs) (k : K) : K * option (result Lease AcquireError) :=
  let bd := raw_to_string (la_backend_data attrs) in
  let v6_bd := raw_to_string (la_backend_v6_data attrs) in
  match kube_wait_for_node fuel k with
  | (k, None) => (k, None)
  | (k, Some (Err e)) => (k, Some (Err e))
  | (k, Some (Ok node)) =>
      match acquire_pod_cidrs mgr node with
      | Err e => (k, Some (Err (AeLease e)))
      | Ok (cidr, ipv6_cidr) =>
          match kube_patch_annotations attrs node bd v6_bd fuel k with
          | (k, None) => (k, None)
          | (k, Some (Err e)) => (k, Some (Err e))
          | (k, Some (Ok _)) => (k, Some (acquired_lease mgr attrs (mh_system_time k) cidr ipv6_cidr))
          end
      end
  end.

Definition kube_stored_macs (k : K) : K * (string * string) :=
  let '(k, r) := get_node client node_of (km_node_name mgr) k in (k, get_stored_mac_addresses mgr r).

Definition kube_stored_public_ip (k : K) : K * (string * string) :=
  let '(k, r) := get_node client node_of (km_node_name mgr) k in (k, get_stored_public_ip mgr r).

(** [write_subnet_file] with its steps: the directory, the text, the atomic
    write.  With overflow checks the text can panic, which ends the task; it
    stands as an error here.  The mode is 0644. *)
Definition kube_handle_subnet_file (overflow_checks : bool) (path : string) (config : Config) (ip_masq : bool)
    (sn : IP4Net) (ipv6sn : IP6Net) (mtu : Z) : io K string unit :=
  let! _ := match path_parent path with
            | Some dir => io_map_err fe_text (mh_mkdir_all dir)
            | None => io_ret tt
            end in
  let! b := io_lift (ok_or (subnet_file_content overflow_checks config ip_masq sn ipv6sn mtu) "attempt to add with overflow") in
  io_map_err fe_text (write_file_atomic path (as_bytes b) 420).

(** [get_network_config], [handle_subnet_file], [acquire_lease] ... of the
    trait; the watches deliver through channels and are in [EventHub]. *)
Definition kube_manager (overflow_checks : bool) : SubnetManager K := {|
  sm_network_config k := (k, Ok (km_config mgr));
  sm_acquire_lease attrs k :=
    let '(k, r) := kube_acquire_lease POLL_ROUNDS attrs k in
    (k, match r with
        | Some r => map_err (fun e => [AcquireError_fmt (km_node_name mgr) e]) r
        | None => Err ["still polling"]
        end);
  sm_stored_macs := kube_stored_macs;
  sm_stored_public_ip := kube_stored_public_ip;
  sm_handle_subnet_file := kube_handle_subnet_file overflow_checks;
  sm_complete_lease _ k :=
    let '(k, r) := kube_complete_lease client node_of mgr (mh_system_time k) k in (k, map_err (fun _ => false) r);
  sm_is_cancelled := mh_cancelled;
  sm_netlink := mh_netlink;
|}.
End Manager.

(** ** What a backend relies on *)

(** [la_seen]: the lease that the other nodes make of the own node;
    [la_plain]: the node lists one pod CIDR of the family and nobody has
    overwritten its address; [la_owned]: nobody else has written what the
    manager writes. *)
Class LeaseAnnouncer (K : Type) (sm : SubnetManager K) := {
  la_seen : K -> option Lease;
  la_plain : K -> Prop;
  la_owned : K -> Prop;
  la_netlink : forall (k k' : K) r, sm_netlink k = (k', r) -> la_owned k -> la_owned k';
  la_acquire : forall attrs (k k' : K) l,
    la_owned k -> u32 (la_public_ip attrs) -> la_backend_data attrs = None -> la_backend_type attrs <> "vxlan" ->
    sm_acquire_lease attrs k = (k', Ok l) -> la_plain k' ->
    exists l', la_seen k' = Some l' /\ l_enable_ipv4 l' = true /\ l_enable_ipv6 l' = false
      /\ l_subnet l' = l_subnet l /\ la_public_ip (l_attrs l') = la_public_ip attrs
      /\ la_backend_type (l_attrs l') = la_backend_type attrs;
}.

(** ** What the manager relies on *)

(** Time passes: a sleep that ends lasts its duration, and a request does not
    turn the clock back. *)
Class ManagerClock (K : Type) `{ApiServer K} `{ManagerHost K} := {
  mc_sleep : forall d k k', mh_sleep d k = (k', true) -> mh_instant k + d <= mh_instant k';
  mc_send : forall r k, mh_instant k <= mh_instant (api_send r k).1;
}.

Definition assigned (node : Node) : Prop := ns_pod_cidrs (nd_spec node) <> [] \/ ns_pod_cidr (nd_spec node) <> None.

Definition own_keys (a : Annotations) : list string :=
  [an_subnet_kube_managed a; an_backend_data a; an_backend_v6_data a; an_backend_type a; an_backend_public_ip a;
   an_backend_public_ipv6 a; an_backend_node_public_ip a; an_backend_node_public_ipv6 a;
   an_backend_public_ip_overwrite a; an_backend_public_ipv6_overwrite a].

(** From one version of the own node to a later one that flannel did not
    write: its annotations are as they were, and so is the specification once
    the pod CIDRs are assigned, which the API server does not let change.  The
    other annotations and the resource version are arbitrary. *)
Definition evolves (a : Annotations) (n n' : Node) : Prop :=
  (forall key, key ∈ own_keys a -> om_annotations (nd_metadata n') !! key = om_annotations (nd_metadata n) !! key)
  /\ (assigned n -> nd_spec n' = nd_spec n).

(** From one version to the next by a PATCH of the annotations: they are
    merged, and the version gets another resource version. *)
Definition patched_by (changed : gmap string string) (n n' : Node) : Prop :=
  om_annotations (nd_metadata n') = merge_annotations changed (om_annotations (nd_metadata n)) /\ nd_spec n' = nd_spec n.

(** The versions of the node, the latest first, and what others add to them:
    the kubelet creates it, controllers and the kubelet write to it *)
Inductive foreign_writes (a : Annotations) (h : list Node) : list Node -> Prop :=
| foreign_none : foreign_writes a h h
| foreign_create n : foreign_writes a h [] -> foreign_writes a h [n]
| foreign_write n n' h' : foreign_writes a h (n :: h') -> evolves a n n' -> foreign_writes a h (n' :: n :: h').

(** The versions after a PATCH that was applied, with what others wrote
    before it and after it *)
Definition applied (a : Annotations) (changed : gmap string string) (h h' : list Node) : Prop :=
  exists n n' h1, foreign_writes a h (n :: h1) /\ patched_by changed n n' /\ foreign_writes a (n' :: n :: h1) h'.

(** The own node on the API server while the manager registers it.  The store
    of the informer has some version of it, perhaps an old one, and so has the
    answer to a GET; a PATCH that succeeds has been applied, to the version
    that was then the latest, and one that fails may have been (its answer was
    lost); others write to the node at any time, but not flannel's annotations,
    and do not delete it. *)
Class OwnNode (K : Type) `{KubeJson} `{UrlParser} `{ApiServer K} `{ManagerHost K} (client : KubeClient)
    (node_of : string -> result Node string) (name : string) (a : Annotations) := {
  on_versions : K -> list Node;
  on_store : forall k n, mh_store k name = Some n -> n ∈ on_versions k;
  on_get : forall k k' r, get_node client node_of name k = (k', r) ->
    foreign_writes a (on_versions k) (on_versions k') /\ (forall n, r = Ok n -> n ∈ on_versions k');
  on_patch : forall changed k k' r,
    patch_node client node_of name (annotations_value changed) StrategicMerge k = (k', r) ->
    match r with
    | Ok _ => applied a changed (on_versions k) (on_versions k')
    | Err _ => foreign_writes a (on_versions k) (on_versions k') \/ applied a changed (on_versions k) (on_versions k')
    end;
  on_sleep : forall d k k' b, mh_sleep d k = (k', b) -> foreign_writes a (on_versions k) (on_versions k');
  on_netlink : forall k k' r, mh_netlink k = (k', r) -> foreign_writes a (on_versions k) (on_versions k');
}.

(** * Theorems *)

(** ** The loops in the world are the loops over rounds *)

Section Refinement.
Context `{KubeJson} `{UrlParser} `{ManagerClock K}.

Lemma poll_io_rounds {O A} (see : K -> K * O) (attempt : O -> option (result A AcquireError)) timeout start fuel (k : K) :
  (forall k, mh_instant k <= mh_instant (see k).1) ->
  exists rounds, rounds_timed (mh_instant k - start) rounds
    /\ poll attempt timeout rounds = (poll_io see attempt timeout (start + POLL_TIMEOUT) fuel k).2
    /\ ((poll_io see attempt timeout (start + POLL_TIMEOUT) fuel k).2 = None -> length rounds = fuel).
Proof.
  intros Hsee. revert k. induction fuel as [|fuel IH]; intros k; [by exists []|]. cbn [poll_io].
  specialize (Hsee k). destruct (see k) as [k1 seen]. cbn [fst] in Hsee.
  assert (forall rest slept,
    rounds_timed (mh_instant k1 - start + poll_sleep (mh_instant k1 - start)) rest ->
    rounds_timed (mh_instant k - start) (mkRound seen (mh_cancelled k1) (mh_instant k1 - start) slept :: rest)) as Ht
    by (intros; cbn; split; [lia|done]).
  destruct (attempt seen) as [res|] eqn:Ha.
  { exists [mkRound seen (mh_cancelled k1) (mh_instant k1 - start) true]. split; [by apply Ht|]. cbn. by rewrite Ha. }
  destruct (mh_cancelled k1) eqn:Hc.
  { exists [mkRound seen true (mh_instant k1 - start) true]. split; [by apply Ht|]. cbn. by rewrite Ha. }
  destruct (Z.leb_spec (start + POLL_TIMEOUT) (mh_instant k1)) as [Hd|Hd].
  { exists [mkRound seen false (mh_instant k1 - start) true]. split; [by apply Ht|]. cbn.
    rewrite Ha. by rewrite (proj2 (Z.leb_le POLL_TIMEOUT (mh_instant k1 - start))) by lia. }
  assert ((POLL_TIMEOUT <=? mh_instant k1 - start) = false) as Hd' by (apply Z.leb_gt; lia).
  destruct (mh_sleep _ k1) as [k2 slept] eqn:Hs. destruct slept; cbn [negb].
  - destruct (IH k2) as (rest & Hr & Hp & Hn). exists (mkRound seen false (mh_instant k1 - start) true :: rest).
    split_and!.
    + apply Ht. apply mc_sleep in Hs. unfold poll_sleep.
      destruct rest as [|r rest]; [done|]. cbn in *. split; [|by apply Hr]. destruct Hr as [Hr _]. lia.
    + cbn. by rewrite Ha, Hd'.
    + intros Hnone. cbn. by rewrite Hn.
  - exists [mkRound seen false (mh_instant k1 - start) false]. split; [by apply Ht|]. cbn. by rewrite Ha, Hd'.
Qed.

Lemma poll_from_now_rounds {O A} (see : K -> K * O) (attempt : O -> option (result A AcquireError)) timeout fuel (k : K) :
  (forall k, mh_instant k <= mh_instant (see k).1) ->
  exists rounds, rounds_timed 0 rounds /\ poll attempt timeout rounds = (poll_from_now see attempt timeout fuel k).2
    /\ ((poll_from_now see attempt timeout fuel k).2 = None -> length rounds = fuel).
Proof.
  intros Hsee. destruct (poll_io_rounds see attempt timeout (mh_instant k) fuel k Hsee) as (rounds & Ht & Hp).
  rewrite Z.sub_diag in Ht. by exists rounds.
Qed.

(** Eleven rounds always end the loop. *)
Lemma poll_from_now_ends {O A} (see : K -> K * O) (attempt : O -> option (result A AcquireError)) timeout (k : K) :
  (forall k, mh_instant k <= mh_instant (see k).1) -> is_Some (poll_from_now see attempt timeout POLL_ROUNDS k).2.
Proof.
  intros Hsee. destruct (poll_from_now_rounds see attempt timeout POLL_ROUNDS k Hsee) as (rounds & Ht & Hp & Hn).
  destruct (snd (poll_from_now see attempt timeout POLL_ROUNDS k)) eqn:E; [done|]. rewrite <- Hp.
  apply (poll_ends attempt timeout rounds 0 10 Ht); [unfold POLL_TIMEOUT, POLL_INTERVAL; lia|]. rewrite Hn by done.
  unfold POLL_ROUNDS. lia.
Qed.

Context (client : KubeClient) (node_of : string -> result Node string) (mgr : KubeSubnetManager).

Lemma send_json_clock {T} (decode : string -> result T string) resource r (k : K) :
  mh_instant k <= mh_instant (send_json decode resource r k).1.
Proof. unfold send_json. pose proof (mc_send r k). by destruct (api_send r k). Qed.

Lemma see_node_clock (k : K) : mh_instant k <= mh_instant (see_node client node_of mgr k).1.
Proof.
  unfold see_node, get_node, io_bind, io_lift. destruct (km_disable_node_informer mgr); [|cbn; lia].
  destruct (endpoint _ _) as [url|]; [|cbn; lia]. pose proof (send_json_clock node_of ("node " +:+ km_node_name mgr) (get_request url []) k).
  by destruct (send_json _ _ _ k).
Qed.

Lemma see_patch_clock changed (k : K) : mh_instant k <= mh_instant (see_patch client node_of mgr changed k).1.
Proof.
  unfold see_patch, patch_node, patch_node_at, io_bind, io_lift. destruct (endpoint _ _) as [url|]; [|cbn; lia]. apply send_json_clock.
Qed.

(** Acquiring a lease in the world is [acquire_lease] on the rounds that the
    world offers it, and it always comes to an end. *)
Theorem kube_acquire_refines fuel attrs (k : K) :
  exists fetches answers now,
    rounds_timed 0 fetches /\ rounds_timed 0 answers
    /\ (kube_acquire_lease client node_of mgr fuel attrs k).2 = acquire_lease mgr attrs fetches answers now
    /\ (fuel = POLL_ROUNDS -> is_Some (kube_acquire_lease client node_of mgr fuel attrs k).2).
Proof.
  unfold kube_acquire_lease, acquire_lease, kube_wait_for_node, wait_for_node_with_cidrs.
  destruct (poll_from_now_rounds (see_node client node_of mgr) (node_attempt mgr) AeNodeTimeout fuel k see_node_clock)
    as (fetches & Hf & Hp1 & _).
  assert (fuel = POLL_ROUNDS -> is_Some (poll_from_now (see_node client node_of mgr) (node_attempt mgr) AeNodeTimeout fuel k).2) as Hend
    by (intros ->; apply poll_from_now_ends, see_node_clock).
  destruct (poll_from_now _ _ _ _ k) as [k1 r]. cbn [snd] in *.
  exists fetches. rewrite Hp1. destruct r as [[node|e]|]; [|by exists [], 0|exists [], 0; split_and!; [done..|intros Hfuel; by destruct (Hend Hfuel)]].
  destruct (acquire_pod_cidrs mgr node) as [[cidr c6]|e]; [|by exists [], 0].
  unfold kube_patch_annotations, maybe_patch_annotations, patch_with_retry. destruct (annotation_patch _ _ _ _ _) as [changed|].
  2: { exists [], (mh_system_time k1). done. }
  destruct (poll_from_now_rounds (see_patch client node_of mgr changed) patch_attempt AePatchTimeout fuel k1 (see_patch_clock changed))
    as (answers & Ha & Hp & _).
  assert (fuel = POLL_ROUNDS -> is_Some (poll_from_now (see_patch client node_of mgr changed) patch_attempt AePatchTimeout fuel k1).2) as Hend'
    by (intros ->; apply poll_from_now_ends, see_patch_clock).
  destruct (poll_from_now _ patch_attempt _ _ k1) as [k2 r]. cbn [snd] in *. exists answers, (mh_system_time k2). rewrite Hp.
  split_and!; [done..| |intros Hfuel; specialize (Hend' Hfuel)]; by destruct r as [[[]|e]|].
Qed.
End Refinement.

(** ** The lease is announced *)

Section Announced.
Context `{KubeJson} `{UrlParser} `{ApiServer K} `{ManagerHost K} `{FsOps K}.
Context (client : KubeClient) (node_of : string -> result Node string) (mgr : KubeSubnetManager) (prefix : string).
Context `{!OwnNode K client node_of (km_node_name mgr) (km_annotations mgr)}.

#[local] Abbreviation ann n := (om_annotations (nd_metadata n)).
#[local] Abbreviation own := (km_annotations mgr).

Definition annotate (changed : gmap string string) (node : Node) : Node :=
  with_annotations node (merge_annotations changed (ann node)).

Lemma with_annotations_self node : with_annotations node (ann node) = node.
Proof. by destruct node as [[] ?]. Qed.

#[local] Instance evolves_refl a : Reflexive (evolves a).
Proof. by intros n. Qed.

#[local] Instance evolves_trans a : Transitive (evolves a).
Proof.
  intros n1 n2 n3 [Ha Hs] [Ha' Hs']. split.
  - intros key Hk. by rewrite Ha', Ha.
  - intros Has. specialize (Hs Has). rewrite <- Hs. apply Hs'. unfold assigned. by rewrite Hs.
Qed.

Lemma foreign_trans a h1 h2 h3 : foreign_writes a h1 h2 -> foreign_writes a h2 h3 -> foreign_writes a h1 h3.
Proof. intros H12. induction 1 as [|n H23 IH|n n' h H23 IH He]; [done|by constructor|by constructor]. Qed.

(** The versions have evolved from [n] without flannel: the latest one has. *)
Definition current_from (a : Annotations) (n : Node) (h : list Node) : Prop := exists c, head h = Some c /\ evolves a n c.

Lemma foreign_current a n h h' : foreign_writes a h h' -> current_from a n h -> current_from a n h'.
Proof.
  intros Ho Hc. induction Ho as [|m Ho IH|m m' h' Ho IH He]; [done| |].
  - by destruct IH as (c & [=] & _).
  - destruct IH as (c & [= <-] & Hm). exists m'. split; [done|]. by transitivity m.
Qed.

(** Whatever version is seen, the latest one has evolved from it. *)
Lemma owned_current a n h : foreign_writes a [] h -> n ∈ h -> current_from a n h.
Proof.
  intros Ho. induction Ho as [|m Ho IH|m m' h Ho IH He]; [by intros []%elem_of_nil| |].
  - intros ->%list_elem_of_singleton. by exists m.
  - intros [->|Hin]%elem_of_cons; [by exists m'|]. destruct (IH Hin) as (c & [= <-] & Hm). exists m'. split; [done|]. by transitivity m.
Qed.

(** A PATCH of a version that evolved from [n], or from [n] with the PATCH *)
Lemma patched_evolves a changed n m m' :
  evolves a n m \/ evolves a (annotate changed n) m -> patched_by changed m m' -> evolves a (annotate changed n) m'.
Proof.
  intros Hm [Ha Hs]. split.
  - intros key Hk. rewrite Ha. unfold annotate. cbn. unfold merge_annotations. destruct (changed !! key) as [v|] eqn:Hv.
    + by rewrite !(lookup_union_Some_l _ _ _ _ Hv).
    + rewrite !lookup_union_r by done. destruct Hm as [[Hm _]|[Hm _]]; rewrite (Hm key Hk); [done|].
      unfold annotate, merge_annotations. cbn. by rewrite lookup_union_r.
  - intros Has. rewrite Hs. destruct Hm as [[_ Hm]|[_ Hm]]; by apply Hm.
Qed.

Lemma applied_current a changed n h h' :
  current_from a n h \/ current_from a (annotate changed n) h -> applied a changed h h' -> current_from a (annotate changed n) h'.
Proof.
  intros Hc (m & m' & h1 & Ho & Hp & Ho'). apply (foreign_current _ _ _ _ Ho'). exists m'. split; [done|].
  apply (patched_evolves a changed n m); [|done].
  destruct Hc as [Hc|Hc]; [left|right]; destruct (foreign_current _ _ _ _ Ho Hc) as (c & Hh & He); by injection Hh as ->.
Qed.

Lemma see_node_sound k k1 seen :
  see_node client node_of mgr k = (k1, seen) ->
  foreign_writes own (on_versions k) (on_versions k1) /\ (forall node, fetch_node mgr seen.1 seen.2 = Some node -> node ∈ on_versions k1).
Proof.
  unfold see_node, fetch_node. destruct (km_disable_node_informer mgr).
  - destruct (get_node _ _ _ k) as [k2 r] eqn:Hg. intros [= <- <-]. cbn. apply on_get in Hg as [Ho Hn]. split; [done|].
    intros node. destruct r; [|done]. cbn. intros [= ->]. by apply Hn.
  - intros [= <- <-]. split; [constructor|]. cbn. apply on_store.
Qed.

(** The node that ends the waiting: a version, perhaps not the latest *)
Lemma wait_node deadline fuel (k k' : K) node :
  foreign_writes own [] (on_versions k) ->
  poll_io (see_node client node_of mgr) (node_attempt mgr) AeNodeTimeout deadline fuel k = (k', Some (Ok node)) ->
  current_from own node (on_versions k')
  /\ exists c4 c6, acquire_pod_cidrs mgr node = Ok (c4, c6) /\ cidrs_ready mgr c4 c6 = true.
Proof.
  revert k. induction fuel as [|fuel IH]; intros k Hown; cbn [poll_io]; [done|].
  destruct (see_node _ _ _ k) as [k1 seen] eqn:Hs. apply see_node_sound in Hs as [Ho Hsee].
  assert (foreign_writes own [] (on_versions k1)) as Hown1 by (by eapply foreign_trans).
  destruct (node_attempt mgr seen) as [res|] eqn:Ha.
  - intros [= <- ->]. unfold node_attempt in Ha. destruct (fetch_node mgr seen.1 seen.2) as [n|] eqn:Hf; [|done].
    destruct (acquire_pod_cidrs mgr n) as [[c4 c6]|] eqn:Hc; [|done]. destruct (cidrs_ready mgr c4 c6) eqn:Hr; [|done].
    injection Ha as ->. split; [apply owned_current; [done|by apply Hsee]|eauto].
  - destruct (mh_cancelled k1); [done|]. destruct (deadline <=? _); [done|]. destruct (mh_sleep _ k1) as [k2 slept] eqn:Hsl.
    destruct slept; [|done]. apply IH. eapply foreign_trans; [exact Hown1|by eapply on_sleep].
Qed.

(** A PATCH that is repeated, applied or not, ends with the changes applied. *)
Lemma patch_node_loop changed deadline fuel (k k' : K) n :
  current_from own n (on_versions k) \/ current_from own (annotate changed n) (on_versions k) ->
  poll_io (see_patch client node_of mgr changed) patch_attempt AePatchTimeout deadline fuel k = (k', Some (Ok tt)) ->
  current_from own (annotate changed n) (on_versions k').
Proof.
  revert k. induction fuel as [|fuel IH]; intros k Hk; cbn [poll_io]; [done|].
  destruct (see_patch _ _ _ changed k) as [k1 r] eqn:Hs. unfold see_patch in Hs. apply on_patch in Hs.
  destruct r as [x|e]; cbn [patch_attempt]; [intros [= <-]; by eapply applied_current|].
  destruct (mh_cancelled k1); [done|]. destruct (deadline <=? _); [done|]. destruct (mh_sleep _ k1) as [k2 slept] eqn:Hsl.
  destruct slept; [|done]. apply IH. apply on_sleep in Hsl.
  destruct Hs as [Hs|Hs]; [|right; eapply foreign_current; [exact Hsl|by eapply applied_current]].
  destruct Hk as [Hk|Hk]; [left|right]; (eapply foreign_current; [exact Hsl|by eapply foreign_current]).
Qed.

Lemma ready_assigned node c4 c6 : acquire_pod_cidrs mgr node = Ok (Some c4, c6) -> assigned node.
Proof.
  unfold acquire_pod_cidrs, assigned. destruct (ns_pod_cidrs (nd_spec node)) as [|c cs]; [|by left]. cbn [length].
  destruct (ns_pod_cidr (nd_spec node)) as [s|]; [by right|done].
Qed.

(** What is on the server once a lease is acquired in an IPv4 cluster *)
Lemma acquired_node fuel attrs (k k' : K) l :
  foreign_writes own [] (on_versions k) -> cfg_enable_ipv4 (km_config mgr) = true ->
  kube_acquire_lease client node_of mgr fuel attrs k = (k', Some (Ok l)) ->
  exists node cidr c6, acquire_pod_cidrs mgr node = Ok (Some cidr, c6) /\ l_subnet l = cidr
    /\ current_from own (with_annotations node (announced_annotations own attrs (ann node)
         (raw_to_string (la_backend_data attrs)) (raw_to_string (la_backend_v6_data attrs)))) (on_versions k').
Proof.
  intros Hown H4. unfold kube_acquire_lease, kube_wait_for_node, poll_from_now.
  destruct (poll_io _ _ _ _ fuel k) as [k1 [[node|e]|]] eqn:Hw; [|done..].
  apply wait_node in Hw as (Hn & c4 & c6 & Hc & Hr); [|done]. rewrite Hc. unfold cidrs_ready in Hr. rewrite H4 in Hr.
  destruct c4 as [cidr|]; [|done].
  destruct (kube_patch_annotations _ _ _ attrs node _ _ fuel k1) as [k2 [[[]|e]|]] eqn:Hp; [|done..].
  intros [= <- Hl]. exists node, cidr, c6. split; [done|]. split.
  - unfold acquired_lease in Hl. rewrite H4 in Hl. destruct (IP4Net_empty (cfg_network (km_config mgr)) || _); [done|]. cbn [rbind] in Hl.
    destruct (match c6 with Some _ => _ | None => _ end); [|done]. by injection Hl as <-.
  - unfold kube_patch_annotations, poll_from_now in Hp. unfold announced_annotations.
    destruct (annotation_patch _ _ _ _ _) as [changed|].
    + eapply patch_node_loop in Hp; [exact Hp|by left].
    + injection Hp as <-. by rewrite with_annotations_self.
Qed.

Context `{RawJson, !RawJsonLaws} (overflow_checks : bool).
Hypothesis own_prefix : km_annotations mgr = annotations_of prefix.
Hypothesis own_ipv4 : cfg_enable_ipv4 (km_config mgr) = true.

(** What others write changes neither that the node is managed nor its lease. *)
Lemma evolves_lease a n c :
  assigned n -> evolves a n c ->
  node_managed (mkEventEnv a true false) c = node_managed (mkEventEnv a true false) n
  /\ forall l, node_to_lease n a true false = Ok l -> node_to_lease c a true false = Ok l.
Proof.
  intros Has [Ha Hs]. specialize (Hs Has).
  assert (forall key, key ∈ own_keys a -> annotation (ann c) key = annotation (ann n) key) as Hann
    by (intros key Hk; unfold annotation; by rewrite Ha).
  assert (forall key, key ∈ own_keys a -> same_annotation n c key = true) as Hsame
    by (intros key Hk; unfold same_annotation; rewrite (Hann key Hk); apply String.eqb_refl).
  split; [unfold node_managed; cbn [ee_annotations]; by rewrite Hann by (repeat constructor)|].
  intros l. rewrite !node_to_lease_spec. apply lease_of_node_same_ip4; [done|..]; apply Hsame; repeat constructor.
Qed.

Definition own_node (k : K) : option Node := head (on_versions k).

(** The lease that the informer of another node makes of the own node *)
Definition own_lease_seen (k : K) : option Lease :=
  match own_node k with
  | Some node => if node_managed (mkEventEnv (km_annotations mgr) true false) node
                 then result_ok (node_to_lease node (km_annotations mgr) true false) else None
  | None => None
  end.

Definition own_node_plain (k : K) : Prop :=
  forall node, own_node k = Some node ->
    one_cidr false (nd_spec node)
    /\ annotation (om_annotations (nd_metadata node)) (an_backend_public_ip_overwrite (km_annotations mgr)) = "".

(** Among the versions that the store can still have, none is one that
    somebody wrote flannel's annotations to. *)
Definition own_node_owned (k : K) : Prop := foreign_writes own [] (on_versions k).

Lemma kube_acquire_seen attrs (k k' : K) l :
  own_node_owned k ->
  u32 (la_public_ip attrs) -> la_backend_data attrs = None -> la_backend_type attrs <> "vxlan" ->
  @sm_acquire_lease K (kube_manager client node_of mgr overflow_checks) attrs k = (k', Ok l) -> own_node_plain k' ->
  exists l', own_lease_seen k' = Some l' /\ l_enable_ipv4 l' = true /\ l_enable_ipv6 l' = false
    /\ l_subnet l' = l_subnet l /\ la_public_ip (l_attrs l') = la_public_ip attrs
    /\ la_backend_type (l_attrs l') = la_backend_type attrs.
Proof.
  intros Hown Hip Hd Hbt. cbn [sm_acquire_lease kube_manager].
  destruct (kube_acquire_lease _ _ _ POLL_ROUNDS attrs k) as [k1 [[l1|e]|]] eqn:Ha; cbn [map_err]; [|done..]. intros [= <- ->] Hplain.
  apply acquired_node in Ha as (node & cidr & c6 & Hc & Hs & n & Hn & He); [|done..]. destruct (Hplain _ Hn) as [Hone Hov].
  set (node' := with_annotations node _) in He. assert (assigned node') as Has by (by eapply ready_assigned).
  assert (writes_v4 attrs (raw_to_string (la_backend_data attrs)) = true) as Hw.
  { unfold writes_v4. by rewrite (proj2 (String.eqb_neq _ _) Hbt). }
  pose proof He as [Hkeys Hspec]. rewrite (Hspec Has) in Hone. unfold annotation in Hov. rewrite Hkeys in Hov by (repeat constructor).
  change (annotation (ann node') (an_backend_public_ip_overwrite own) = "") in Hov.
  unfold own_lease_seen, own_node. rewrite Hn. unfold node' in *. cbn [with_annotations nd_metadata om_annotations nd_spec] in Hov, Hone.
  rewrite own_prefix in *. rewrite announced_overwrite in Hov by done.
  destruct (announced_node_lease mgr prefix attrs node cidr c6 Hip) as [Hm Hl']; [by rewrite Hd|done..|].
  destruct (evolves_lease _ _ _ Has He) as [-> Hl]. rewrite Hm, (Hl _ Hl'). cbn. eexists. split; [done|]. cbn. by rewrite Hs.
Qed.

Lemma kube_netlink_owned (k k' : K) r :
  @sm_netlink K (kube_manager client node_of mgr overflow_checks) k = (k', r) -> own_node_owned k -> own_node_owned k'.
Proof. intros Hn Ho. eapply foreign_trans; [exact Ho|by eapply on_netlink]. Qed.

(** The Kubernetes manager keeps the promise. *)
Definition kube_announcer : LeaseAnnouncer K (kube_manager client node_of mgr overflow_checks) := {|
  la_seen := own_lease_seen;
  la_plain := own_node_plain;
  la_owned := own_node_owned;
  la_netlink := kube_netlink_owned;
  la_acquire := kube_acquire_seen;
|}.
End Announced.

(** ** A node that registers is reached by its peers *)

Section Join.
Context `{NlKernel K} (sm : SubnetManager K) (announcer : LeaseAnnouncer K sm).
Context `{RouteKernelLaws P}.

(** The peer learns the lease that it makes of the node and handles its
    event. *)
Lemma hostgw_join ei config (k k' : K) net link (peer : RouteState P) :
  cfg_enable_ipv4 config = true -> cfg_enable_ipv6 config = false -> (forall ip, ei_ext_addr ei = Some (V4 ip) -> u32 ip) ->
  la_owned k -> hostgw_register_network ei config k = (k', Ok net) -> la_plain k' ->
  installed (rt_kernel peer) (rt_routes peer) ->
  exists ip seen, ei_ext_addr ei = Some (V4 ip) /\ la_seen k' = Some seen /\
    let peer' := handle_subnet_event "host-gw" (Some (hostgw_get_route link)) (Some (hostgw_get_v6_route link)) peer (mkEvent Added seen) in
    let route := mkRouteSpec (V4 (ip4n_ip (l_subnet (rn_lease net)))) (wrap 8 (ip4n_plen (l_subnet (rn_lease net)))) (V4 ip) link Inet false in
    recorded (rt_routes peer') !! spec_key route = Some route
    /\ exists m, k_table (rt_kernel peer') !! spec_key route = Some m /\ route_msg_matches m route = true.
Proof.
  intros H4 H6 Hext Hown Hreg Hplain Hinst. unfold hostgw_register_network, iface_mtu, io_bind, io_ret, io_lift, io_get, when_enabled in Hreg.
  rewrite H4, H6 in Hreg. destruct (sm_netlink k) as [k1 [[]|e]] eqn:Hnl; [|done]. apply (la_netlink _ _ _ Hnl) in Hown. unfold io_bind, io_lift in Hreg.
  destruct (map_err _ (get_link_mtu k1 _)) as [mtu|]; [|done].
  unfold ext_addr_ip4 in Hreg. destruct (ei_ext_addr ei) as [[ip|ip6]|]; cbn [rbind] in Hreg; [|done..]. specialize (Hext ip eq_refl).
  unfold acquire_registered in Hreg. destruct (sm_acquire_lease _ k1) as [k2 [l|e]] eqn:Ha; [|by destruct (sm_is_cancelled k2)].
  injection Hreg as <- <-. destruct (la_acquire (public_attrs ip None "host-gw") k1 k2 l Hown Hext eq_refl ltac:(done) Ha Hplain) as (seen & Hseen & Hs4 & Hs6 & Hsub & Hip & Hbt).
  exists ip, seen. split; [done|]. split; [done|]. cbn [rn_lease].
  destruct (hostgw_event link (Some (hostgw_get_v6_route link)) peer (mkEvent Added seen) (fun _ => False) Hinst) as [Hi Hr _ _]; [done..|].
  set (peer' := handle_subnet_event _ _ _ _ _) in *. cbv zeta.
  assert (hostgw_get_route link seen = mkRouteSpec (V4 (ip4n_ip (l_subnet l))) (wrap 8 (ip4n_plen (l_subnet l))) (V4 ip) link Inet false) as <-.
  { unfold hostgw_get_route. by rewrite Hsub, Hip. }
  assert (recorded (rt_routes peer') !! spec_key (hostgw_get_route link seen) = Some (hostgw_get_route link seen)) as Hrec.
  { rewrite Hr. cbn [fold_left]. unfold want_route. cbn [ev_lease ev_type]. rewrite Hbt. cbn. apply lookup_insert_eq. }
  split; [done|]. destruct Hi as (_ & _ & Hi). apply Hi. unfold recorded in Hrec.
  apply elem_of_list_to_map_2, list_elem_of_In, in_map_iff in Hrec as (s & Heq & Hin).
  apply (f_equal snd) in Heq. cbn [snd] in Heq. rewrite <- Heq. by apply list_elem_of_In.
Qed.
End Join.

Section KubeJoin.
Context `{KubeJson} `{UrlParser} `{ApiServer K} `{ManagerHost K} `{FsOps K} `{NlKernel K} `{RawJson, !RawJsonLaws}.
Context (client : KubeClient) (node_of : string -> result Node string) (mgr : KubeSubnetManager) (prefix : string).
Context `{!OwnNode K client node_of (km_node_name mgr) (km_annotations mgr)}.
Context `{RouteKernelLaws P}.

End KubeJoin.

(** ** A cluster, for the witnesses

    The node has no pod CIDR until the manager sleeps for the first time, the
    store is one version behind, every sleep sees a write of the kubelet, and
    the answer to the first PATCH is lost after it was applied. *)

Record JoinWorld := mkJoinWorld { jw_nodes : list Node; jw_clock : Z; jw_lossy : bool }.

Definition value_annotations (v : Value) : gmap string string :=
  match v with
  | VObject [(_, VObject [(_, VObject fields)])] =>
      list_to_map (omap (fun kv => match kv.2 with VString s => Some (kv.1, s) | _ => None end) fields)
  | _ => ∅
  end.

Lemma value_annotations_round_trip m : value_annotations (annotations_value m) = m.
Proof.
  unfold annotations_value. cbn [value_annotations]. rewrite <- (list_to_map_to_list m) at 2. f_equal.
  induction (map_to_list m) as [|[x y] l IH]; [done|]. cbn. by f_equal.
Qed.

Definition assign_cidr (cidr : string) (node : Node) : Node :=
  if bool_decide (assigned node) then node else mkNode (nd_metadata node) (mkNodeSpec (Some cidr) [cidr]).

(** The next version: another resource version, and an annotation of the kubelet *)
Definition next_version (h : list Node) (extra : gmap string string) (node : Node) : Node :=
  mkNode (mkObjectMeta (om_name (nd_metadata node)) (om_uid (nd_metadata node)) (Some (fmt_dec (Z.of_nat (length h))))
            (extra ∪ om_annotations (nd_metadata node))) (nd_spec node).

Definition add_version (extra : gmap string string) (f : Node -> Node) (h : list Node) : list Node :=
  match h with [] => [] | n :: _ => next_version h extra (f n) :: h end.

Definition kubelet_key : string := "volumes.kubernetes.io/controller-managed-attach-detach".

#[local] Instance join_json : KubeJson := {
  kj_frame _ := Err "";
  kj_node _ := Err "";
  kj_status _ := Err "";
  kj_status_body _ := Err "";
}.
#[local] Instance join_urls : UrlParser := fun _ => Ok "http".

#[local] Instance join_server : ApiServer JoinWorld := {
  api_send r k :=
    match kr_method r, kr_body r, jw_nodes k with
    | PATCH, Some body, _ :: _ =>
        (mkJoinWorld (add_version (value_annotations body) id (jw_nodes k)) (jw_clock k) false,
         if jw_lossy k then ExFailed "connection reset" else ExAnswer 200 "{}")
    | _, _, _ => (k, ExFailed "unreachable")
    end;
  api_watch _ k := (k, Err "");
}.

#[local] Instance join_host : ManagerHost JoinWorld := {
  mh_store k name := if String.eqb name "n1" then head (drop 1 (jw_nodes k)) else None;
  mh_instant := jw_clock;
  mh_system_time := jw_clock;
  mh_sleep d k := (mkJoinWorld (add_version {[kubelet_key := "true"]} (assign_cidr "10.5.7.0/24") (jw_nodes k)) (jw_clock k + d) (jw_lossy k), true);
  mh_cancelled _ := false;
  mh_netlink := io_ret tt;
  mh_mkdir_all _ := io_ret tt;
}.

#[local] Instance join_files : FsOps JoinWorld := {
  fo_create _ := io_ret tt;
  fo_create_new _ := io_ret tt;
  fo_open _ := io_ret tt;
  fo_write _ _ := io_ret tt;
  fo_copy _ _ := io_ret tt;
  fo_sync _ := io_ret tt;
  fo_set_mode _ _ := io_ret tt;
  fo_rename _ _ := io_ret tt;
  fo_remove _ := io_ret tt;
  fo_exists _ _ := false;
  fo_stat _ _ := Ok 420;
  fo_pid := 1;
  fo_random k := (k, 4);
}.

#[local] Instance join_netlink : NlKernel JoinWorld := {
  nl_links _ := nl_links nl_host;
  nl_link_by_index _ := nl_link_by_index nl_host;
  nl_link_by_name _ := nl_link_by_name nl_host;
  nl_addrs _ := nl_addrs nl_host;
  nl_routes _ := nl_routes nl_host;
  nl_route_get _ := nl_route_get nl_host;
  nl_addr_add _ _ _ := io_ret tt;
  nl_addr_del _ := io_ret tt;
  nl_route_add _ := io_ret tt;
}.

#[local] Instance join_clock : ManagerClock JoinWorld.
Proof.
  split.
  - intros d k k' [= <-]. cbn. lia.
  - intros r k. cbn. destruct (kr_method r), (kr_body r), (jw_nodes k); cbn; lia.
Defined.

Definition join_client : KubeClient := mkKubeClient "http://10.0.0.1" None false None.
Definition join_node_of (_ : string) : result Node string := Ok (bare_node "").

(** A write of the kubelet, with the pod CIDR if the node has none *)
Lemma kubelet_evolves h n :
  evolves sample_annotations n (next_version h {[kubelet_key := "true"]} (assign_cidr "10.5.7.0/24" n)).
Proof.
  split.
  - intros key Hk. replace (om_annotations (nd_metadata n)) with (om_annotations (nd_metadata (assign_cidr "10.5.7.0/24" n)))
      by (unfold assign_cidr; by destruct (bool_decide _)).
    apply lookup_union_r, lookup_singleton_ne. intros <-. revert Hk. by apply (bool_decide_unpack (~ _)).
  - intros Ha. cbn. unfold assign_cidr. by rewrite bool_decide_true.
Qed.

#[local] Instance join_own : OwnNode JoinWorld join_client join_node_of "n1" sample_annotations.
Proof.
  apply (Build_OwnNode _ _ _ _ _ _ _ _ _ jw_nodes).
  - intros k n. cbn. destruct (jw_nodes k) as [|c h]; [done|]. cbn. destruct h as [|d h]; [done|]. cbn. intros [= <-]. by right; left.
  - intros k k' r [= <- <-]. split; [constructor|done].
  - intros changed k k' r. cbn -[value_annotations annotations_value add_version].
    unfold send_json. cbn -[value_annotations annotations_value add_version]. rewrite value_annotations_round_trip.
    destruct (jw_nodes k) as [|n h] eqn:Hh; [intros [= <- <-]; left; rewrite Hh; constructor|].
    assert (applied sample_annotations changed (n :: h) (add_version changed id (n :: h))) as Ha.
    { exists n, (next_version (n :: h) changed n), h. split; [constructor|]. split; [by split|]. constructor. }
    destruct (jw_lossy k); intros [= <- <-]; [by right|exact Ha].
  - intros d k k' b [= <- _]. cbn [jw_nodes]. destruct (jw_nodes k) as [|n h]; [constructor|]. cbn [add_version].
    apply foreign_write; [constructor|apply kubelet_evolves].
  - intros k k' r [= <- <-]. constructor.
Defined.

Definition join_start : JoinWorld := mkJoinWorld [mkNode (mkObjectMeta "n1" "uid" (Some "0") ∅) (mkNodeSpec None [])] 0 true.
Definition join_ip : IP4 := IP4_from_octets 192 168 0 7.
Definition join_iface : ExternalInterface := mkExternalInterface 2 "eth0" (Some (V4 join_ip)) None (Some (V4 join_ip)) None.

(** The registration, with its two waits and its repeated PATCH *)
Definition join_result : JoinWorld * result (RouteNetwork JoinWorld) anyhow :=
  @hostgw_register_network JoinWorld (kube_manager join_client join_node_of sample_manager false) _ join_iface
    (km_config sample_manager) join_start.

#[local] Existing Instance sample_raw.

