(* ===== verification/Tencent.v ===== *)
(** * [backend/tencentvpc]: [api.rs], [metadata.rs], [mod.rs]

    The backend that keeps one route of a Tencent Cloud VPC: the metadata
    service, the signed API client and the reconciliation of the routes.  The
    HTTP exchanges are the interface [VpcNet]; SHA-256 and HMAC are [Digests];
    URLs are [UrlHost]. *)

From S2P Require Import Prelude RustStr Utf8 StdNet IpNet Ip6Net Lease Config Anyhow RouteNetwork Iface Cni Backend KubeStatus.
From Stdlib Require Import Permutation.
#[local] Open Scope string_scope.
#[local] Open Scope list_scope.
#[local] Open Scope Z_scope.

Definition TENCENT_BACKEND_TYPE : string := "tencent-vpc".
Definition DEFAULT_METADATA_BASE : string := "http://metadata.tencentyun.com".
Definition DEFAULT_VPC_ENDPOINT : string := "https://vpc.tencentcloudapi.com".
Definition VPC_API_VERSION : string := "2017-03-12".
Definition VPC_SERVICE : string := "vpc".
Definition GATEWAY_TYPE : string := "NORMAL_CVM".
Definition ROUTE_TYPE : string := "USER".

(** ** Interfaces *)

Record VpcRequest := mkVpcRequest {
  vq_url : string;
  vq_headers : list (string * string);
  vq_body : string;
}.

(** [vn_get]: the status, and the text of the body or why it could not be
    read; [vn_post]: the JSON value of an answer; [vn_now]: the seconds since
    the epoch; errors are texts. *)
Class VpcNet (K : Type) := {
  vn_get : string -> io K string (Z * result string string);
  vn_post : VpcRequest -> io K string Value;
  vn_now : K -> result Z string;
  vn_env : K -> string -> option string;
}.

Class Digests := {
  dg_sha256 : bytes -> bytes;
  dg_hmac_sha256 : bytes -> bytes -> bytes;
}.

(** [Url::parse], [host_str], [port] *)
Class UrlHost := url_host_port : string -> result (option string * option Z) string.

(** ** [metadata.rs] *)

Section Metadata.
Context `{VpcNet K}.

Definition get_vm_metadata (url : string) : io K anyhow string :=
  let! (status, body) := io_map_err (fun e => ["get vm region error: " +:+ e]) (vn_get url) in
  if negb (status =? 200) then io_err ["get vm region error: <nil>"]
  else io_lift (map_err (fun e => [e]) body).

Definition get_vm_region (base : string) : io K anyhow string :=
  get_vm_metadata (base +:+ "/latest/meta-data/placement/region").

Definition get_vm_vpcid (base : string) : io K anyhow string :=
  let! mac := io_map_err (fun e => ["get vm mac error: " +:+ fmt_anyhow e]) (get_vm_metadata (base +:+ "/latest/meta-data/mac")) in
  let url := base +:+ "/latest/meta-data/network/interfaces/macs/" +:+ mac +:+ "/vpc-id" in
  io_map_err (fun e => ["get vm vpcid error: " +:+ fmt_anyhow e]) (get_vm_metadata url).
End Metadata.

(** ** [api.rs]: signatures *)

(** [{b:02x}] *)
Definition hex_byte (b : Z) : string :=
  let s := fmt_hex b in string_of (repeat "0"%char (2 - String.length s)) +:+ s.

Definition hex (bs : bytes) : string := foldr (fun b s => hex_byte b +:+ s) "" bs.

(** [div_euclid] and [rem_euclid] by a positive number; [/] truncates. *)
Definition utc_date (timestamp : Z) : string :=
  let z := timestamp / 86400 + 719468 in
  let era := z / 146097 in
  let doe := z mod 146097 in
  let yoe := Z.quot (doe - Z.quot doe 1460 + Z.quot doe 36524 - Z.quot doe 146096) 365 in
  let doy := doe - (365 * yoe + Z.quot yoe 4 - Z.quot yoe 100) in
  let mp := Z.quot (5 * doy + 2) 153 in
  let day := doy - Z.quot (153 * mp + 2) 5 + 1 in
  let month := if mp <? 10 then mp + 3 else mp - 9 in
  let year := era * 400 + yoe + (if month <=? 2 then 1 else 0) in
  fmt_pad 4 year +:+ "-" +:+ fmt_pad 2 month +:+ "-" +:+ fmt_pad 2 day.

Definition nl : string := String NL "".

Section Signing.
Context `{Digests}.

Definition sha256_hex (data : bytes) : string := hex (dg_sha256 data).

Definition tc3_signature (secret_key service host : string) (timestamp : Z) (payload : string) : string * string :=
  let date := utc_date timestamp in
  let canonical_request :=
    "POST" +:+ nl +:+ "/" +:+ nl +:+ nl +:+ "content-type:application/json" +:+ nl +:+ "host:" +:+ host +:+ nl +:+ nl
    +:+ "content-type;host" +:+ nl +:+ sha256_hex (as_bytes payload) in
  let string_to_sign :=
    "TC3-HMAC-SHA256" +:+ nl +:+ fmt_dec timestamp +:+ nl +:+ date +:+ "/" +:+ service +:+ "/tc3_request" +:+ nl
    +:+ sha256_hex (as_bytes canonical_request) in
  let k_date := dg_hmac_sha256 (as_bytes ("TC3" +:+ secret_key)) (as_bytes date) in
  let k_service := dg_hmac_sha256 k_date (as_bytes service) in
  let k_signing := dg_hmac_sha256 k_service (as_bytes "tc3_request") in
  (date, hex (dg_hmac_sha256 k_signing (as_bytes string_to_sign))).
End Signing.

(** ** [api.rs]: the client *)

Record VpcRoute := mkVpcRoute {
  vr_route_id : string;
  vr_destination_cidr_block : string;
  vr_gateway_id : string;
  vr_gateway_type : string;
  vr_route_type : string;
  vr_enabled : bool;
}.

Record VpcRouteTable := mkVpcRouteTable { vt_route_table_id : string; vt_route_set : list VpcRoute }.

Record VpcClient := mkVpcClient {
  vc_secret_id : string;
  vc_secret_key : string;
  vc_region : string;
  vc_endpoint : string;
  vc_host : string;
}.

Definition VpcClient_new `{UrlHost} (secret_id secret_key region endpoint : string) : result VpcClient anyhow :=
  let? (host, port) := map_err (fun e => [e]) (url_host_port endpoint) in
  let? host := ok_or host ["endpoint has no host: " +:+ endpoint] in
  let host := match port with Some port => host +:+ ":" +:+ fmt_dec port | None => host end in
  Ok (mkVpcClient secret_id secret_key region endpoint host).

(** The derived [Deserialize] on a [Value]: the fields of a struct by name, or
    by position in an array that is not too long. *)
Definition struct_fields (names : list string) (v : Value) : option (list (option Value)) :=
  match v with
  | VObject m => Some (map (Map_get m) names)
  | VArray vs => if (length vs <=? length names)%nat then Some (map (fun i => vs !! i) (seq 0 (length names))) else None
  | _ => None
  end.

Fixpoint decode_all {T} (decode : Value -> option T) (vs : list Value) : option (list T) :=
  match vs with
  | [] => Some []
  | v :: vs => match decode v, decode_all decode vs with Some t, Some ts => Some (t :: ts) | _, _ => None end
  end.

Definition as_vec {T} (decode : Value -> option T) (v : Value) : option (list T) :=
  match v with VArray vs => decode_all decode vs | _ => None end.

(** A field with [default], and one without *)
Definition or_default {T} (decode : Value -> option (list T)) (v : option Value) : option (list T) := from_option decode (Some []) v.

Definition value_bool (v : Value) : option bool := match v with VBool b => Some b | _ => None end.

Definition route_of (v : Value) : option VpcRoute :=
  match struct_fields ["RouteId"; "DestinationCidrBlock"; "GatewayId"; "GatewayType"; "RouteType"; "Enabled"] v with
  | Some [Some a; Some b; Some c; Some d; Some e; Some f] =>
      match as_str a, as_str b, as_str c, as_str d, as_str e, value_bool f with
      | Some a, Some b, Some c, Some d, Some e, Some f => Some (mkVpcRoute a b c d e f)
      | _, _, _, _, _, _ => None
      end
  | _ => None
  end.

Definition route_table_of (v : Value) : option VpcRouteTable :=
  match struct_fields ["RouteTableId"; "RouteSet"] v with
  | Some [Some id; routes] =>
      match as_str id, or_default (as_vec route_of) routes with
      | Some id, Some routes => Some (mkVpcRouteTable id routes)
      | _, _ => None
      end
  | _ => None
  end.

Definition describe_payload_of (v : Value) : option (list VpcRouteTable) :=
  match struct_fields ["RouteTableSet"] v with
  | Some [tables] => or_default (as_vec route_table_of) tables
  | _ => None
  end.

Definition api_error_of (v : Value) : option (string * string) :=
  match struct_fields ["Code"; "Message"] v with
  | Some [Some code; Some message] =>
      match as_str code, as_str message with Some c, Some m => Some (c, m) | _, _ => None end
  | _ => None
  end.

Section Client.
Context `{VpcNet K} `{Digests} `{CniJson} (client : VpcClient).

Definition vpc_headers (action : string) (timestamp : Z) (date signature : string) : list (string * string) :=
  [("content-type", "application/json"); ("host", vc_host client); ("X-TC-Action", action); ("X-TC-Version", VPC_API_VERSION);
   ("X-TC-Timestamp", fmt_dec timestamp); ("X-TC-Region", vc_region client);
   ("authorization", "TC3-HMAC-SHA256 Credential=" +:+ vc_secret_id client +:+ "/" +:+ date +:+ "/" +:+ VPC_SERVICE
                     +:+ "/tc3_request, SignedHeaders=content-type;host, Signature=" +:+ signature)].

Definition vpc_send (action : string) (payload : Value) : io K anyhow Value :=
  let body := cj_print payload in
  let! k := io_get in
  let! timestamp := io_lift (map_err (fun e => ["system clock before unix epoch: " +:+ e]) (vn_now k)) in
  let '(date, signature) := tc3_signature (vc_secret_key client) VPC_SERVICE (vc_host client) timestamp body in
  let! envelope := io_map_err (fun e => [e])
                     (vn_post (mkVpcRequest (vc_endpoint client) (vpc_headers action timestamp date signature) body)) in
  let! response := io_lift (ok_or (Value_get envelope "Response")
                     ["API response missing " +:+ String (chr 34) "" +:+ "Response" +:+ String (chr 34) "" +:+ " field: " +:+ cj_print envelope]) in
  match Value_get response "Error" with
  | Some error =>
      let! (code, message) := io_lift (ok_or (api_error_of error) [cj_invalid "ApiError" (cj_print error)]) in
      io_err ["Tencent Cloud API error. Code: " +:+ code +:+ ", Message: " +:+ message]
  | None => io_ret response
  end.

(** The members of an object are sorted by key. *)
Definition describe_route_tables (vpc_id : string) : io K anyhow (list VpcRouteTable) :=
  let payload := VObject [("Filters", VArray [VObject [("Name", VString "vpc-id"); ("Values", VArray [VString vpc_id])]])] in
  let! response := vpc_send "DescribeRouteTables" payload in
  io_lift (ok_or (describe_payload_of response) [cj_invalid "DescribeRouteTablesPayload" (cj_print response)]).

Definition create_routes (route_table_id dst_cidr gateway_id : string) : io K anyhow unit :=
  let payload := VObject [("RouteTableId", VString route_table_id);
                          ("Routes", VArray [VObject [("DestinationCidrBlock", VString dst_cidr); ("Enabled", VBool true);
                                                      ("GatewayId", VString gateway_id); ("GatewayType", VString GATEWAY_TYPE)]])] in
  let! _ := vpc_send "CreateRoutes" payload in io_ret tt.

Definition delete_routes (route_table_id route_id : string) : io K anyhow unit :=
  let payload := VObject [("RouteTableId", VString route_table_id); ("Routes", VArray [VObject [("RouteId", VString route_id)]])] in
  let! _ := vpc_send "DeleteRoutes" payload in io_ret tt.

(** ** [mod.rs] *)

Definition managed_route (subnet gateway : string) (route : VpcRoute) : bool :=
  String.eqb (vr_destination_cidr_block route) subnet && String.eqb (vr_gateway_id route) gateway
  && String.eqb (vr_gateway_type route) GATEWAY_TYPE && String.eqb (vr_route_type route) ROUTE_TYPE.

Fixpoint scan_routes (table_id subnet gateway : string) (exists_ : bool) (routes : list VpcRoute) : io K anyhow bool :=
  match routes with
  | [] => io_ret exists_
  | route :: routes =>
      if managed_route subnet gateway route then
        if vr_enabled route then scan_routes table_id subnet gateway true routes
        else let! _ := delete_routes table_id (vr_route_id route) in scan_routes table_id subnet gateway exists_ routes
      else scan_routes table_id subnet gateway exists_ routes
  end.

Definition reconcile_routes (route_table : VpcRouteTable) (subnet gateway : string) : io K anyhow unit :=
  let! exists_ := scan_routes (vt_route_table_id route_table) subnet gateway false (vt_route_set route_table) in
  if negb exists_ then create_routes (vt_route_table_id route_table) subnet gateway else io_ret tt.
End Client.

Record TencentConfig := mkTencentConfig { tc_access_key_id : string; tc_access_key_secret : string }.

Definition tencent_cfg_of (id secret : list Value) : option TencentConfig :=
  match field_of as_str "" id, field_of as_str "" secret with
  | Some a, Some b => Some (mkTencentConfig a b)
  | _, _ => None
  end.

Definition tencent_cfg_of_text (t : JsonText) : option TencentConfig :=
  match t with
  | TObject ms => tencent_cfg_of (members_of "AccessKeyID" ms) (members_of "AccessKeySecret" ms)
  | TArray vs => if (length vs <=? 2)%nat then tencent_cfg_of (take 1 vs) (drop 1 vs) else None
  | TOther => None
  end.

Definition tencent_decode_error (e : string) : anyhow := ["error decoding VPC backend config: " +:+ e].

Definition parse_backend_config `{CniJson} (config : Config) : result TencentConfig anyhow :=
  match cfg_backend config with
  | Some raw =>
      if str_is_empty raw then Ok (mkTencentConfig "" "")
      else
        let? t := map_err tencent_decode_error (cj_text raw) in
        ok_or (tencent_cfg_of_text t) (tencent_decode_error (cj_invalid "BackendConfig" raw))
  | None => Ok (mkTencentConfig "" "")
  end.

(** Both keys come from one place: the configuration, or else the
    environment. *)
Definition access_keys (env : string -> option string) (cfg : TencentConfig) : result TencentConfig anyhow :=
  if str_is_empty (tc_access_key_id cfg) || str_is_empty (tc_access_key_secret cfg) then
    let id := default "" (env "ACCESS_KEY_ID") in
    let secret := default "" (env "ACCESS_KEY_SECRET") in
    if str_is_empty id || str_is_empty secret then Err ["ACCESS_KEY_ID and ACCESS_KEY_SECRET must be provided! "]
    else Ok (mkTencentConfig id secret)
  else Ok cfg.

Definition register_network_with `{VpcNet K} `{Digests} `{CniJson} `{UrlHost} `{SubnetManager K} `{NlKernel K}
    (config : Config) (ei : ExternalInterface) (metadata_base vpc_endpoint : string) : io K anyhow SimpleNetwork :=
  let! cfg := io_lift (parse_backend_config config) in
  let! ext_ip := io_lift (ext_addr_ip4 ei) in
  let! lease := acquire_registered (public_attrs ext_ip None "") in
  let! k := io_get in
  let! cfg := io_lift (access_keys (vn_env k) cfg) in
  let! region := get_vm_region metadata_base in
  let! vpc_id := get_vm_vpcid metadata_base in
  let! client := io_lift (VpcClient_new (tc_access_key_id cfg) (tc_access_key_secret cfg) region vpc_endpoint) in
  let! tables := describe_route_tables client vpc_id in
  match tables with
  | [] => io_err ["no suitable routing table found"]
  | table :: _ =>
      let! _ := reconcile_routes client table (IP4Net_fmt (l_subnet lease)) (IP4_fmt ext_ip) in
      let! _ := sm_netlink in
      let! mtu := iface_mtu (ei_iface_index ei) in
      io_ret (mkSimpleNetwork lease mtu)
  end.

Definition tencent_register_network `{VpcNet K} `{Digests} `{CniJson} `{UrlHost} `{SubnetManager K} `{NlKernel K}
    (ei : ExternalInterface) (config : Config) : io K anyhow SimpleNetwork :=
  register_network_with config ei DEFAULT_METADATA_BASE DEFAULT_VPC_ENDPOINT.

(** * Theorems *)

(** The date of a signature is that of the calendar: the first of January 1970
    moved on by the whole days since then. *)
Theorem utc_date_calendar timestamp :
  0 <= timestamp ->
  let '(year, month, day) := Nat.iter (Z.to_nat (timestamp / 86400)) next_day (1970, 1, 1) in
  utc_date timestamp = fmt_pad 4 year +:+ "-" +:+ fmt_pad 2 month +:+ "-" +:+ fmt_pad 2 day.
Proof.
  intros Ht. assert (0 <= timestamp / 86400) as Hd by (apply Z.div_pos; lia). rewrite civil_from_days_iter by done.
  unfold utc_date, civil_from_days. cbv zeta. generalize dependent (timestamp / 86400). intros n Hn.
  rewrite (proj2 (Z.leb_le 0 (n + 719468))) by lia. rewrite (Z.quot_div_nonneg (n + 719468)) by lia.
  replace (n + 719468 - (n + 719468) / 146097 * 146097) with ((n + 719468) mod 146097) by (rewrite Z.mod_eq by lia; lia).
  set (mp := Z.quot (5 * _ + 2) 153). destruct ((if mp <? 10 then mp + 3 else mp - 9) <=? 2);
    match goal with |- fmt_pad 4 ?x +:+ _ = fmt_pad 4 ?y +:+ _ => replace x with y by lia; reflexivity end.
Qed.

(** Two lists of bytes have the same hexadecimal digits only when they are
    equal: a signature says which. *)
Lemma hex_byte_inj a b s t : is_byte a -> is_byte b -> hex_byte a +:+ s = hex_byte b +:+ t -> a = b /\ s = t.
Proof.
  intros Ha Hb. assert (forall x, is_byte x -> hex_byte x = String (from_digit (x / 16)) (String (from_digit (x mod 16)) "")) as Hx.
  { intros x Hx. apply String.eqb_eq. revert x Hx.
    assert (forallb (fun n => String.eqb (hex_byte (Z.of_nat n)) (String (from_digit (Z.of_nat n / 16)) (String (from_digit (Z.of_nat n mod 16)) "")))
              (seq 0 256) = true) as Hall by (by vm_compute).
    intros x [H0 H1]. rewrite forallb_forall in Hall. specialize (Hall (Z.to_nat x)). rewrite Z2Nat.id in Hall by lia.
    apply Hall, in_seq. lia. }
  rewrite !Hx by done. intros [= E1 E2 ->]. split; [|done]. unfold is_byte in *.
  assert (forall x, 0 <= x < 16 -> to_digit 16 (from_digit x) = Some x) as Hd by (intros x Hx'; apply to_digit_from_digit; lia).
  apply (f_equal (to_digit 16)) in E1, E2. rewrite !Hd in E1, E2 by (Z.to_euclidean_division_equations; lia).
  injection E1 as E1. injection E2 as E2. Z.to_euclidean_division_equations; lia.
Qed.

Theorem hex_inj a b : Forall is_byte a -> Forall is_byte b -> hex a = hex b -> a = b.
Proof.
  intros Ha. revert b. induction Ha as [|x a Hx _ IH]; intros [|y b] Hb; cbn.
  - done.
  - apply Forall_cons_iff in Hb as [Hy _]. intros E. apply (f_equal String.length) in E. rewrite length_string_app in E. cbn in E.
    unfold hex_byte in E. rewrite length_string_app in E. pose proof (fmt_radix_nonempty 16 y ltac:(lia) ltac:(unfold is_byte in Hy; lia)) as Hne.
    unfold fmt_hex in E. destruct (fmt_radix 16 y); [done|]. cbn in E. lia.
  - intros E. apply (f_equal String.length) in E. rewrite length_string_app in E. cbn in E.
    unfold hex_byte in E. rewrite length_string_app in E. pose proof (fmt_radix_nonempty 16 x ltac:(lia) ltac:(unfold is_byte in Hx; lia)) as Hne.
    unfold fmt_hex in E. destruct (fmt_radix 16 x); [done|]. cbn in E. lia.
  - apply Forall_cons_iff in Hb as [Hy Hb]. intros [-> E]%hex_byte_inj; [|done..]. f_equal. by apply IH.
Qed.

(** ** Reconciliation *)

(** The other side of the API, by its documentation: the members of a request
    and what an accepted request does to the route tables.  A route to create
    names a destination, a gateway and its type, is enabled unless it says
    otherwise, and becomes a user route with an id of its own; a route to
    delete is named by its id. *)
Definition header_of (name : string) (req : VpcRequest) : option string :=
  option_map snd (List.find (fun h => String.eqb h.1 name) (vq_headers req)).

Definition api_str (key : string) (v : Value) : option string :=
  match Value_get v key with Some x => as_str x | None => None end.

Definition api_new_route (v : Value) : option (string -> VpcRoute) :=
  let enabled := match Value_get v "Enabled" with Some b => value_bool b | None => Some true end in
  match api_str "DestinationCidrBlock" v, api_str "GatewayId" v, api_str "GatewayType" v, enabled with
  | Some dst, Some gw, Some ty, Some on => Some (fun id => mkVpcRoute id dst gw ty "USER" on)
  | _, _, _, _ => None
  end.

Definition api_items {T} (decode : Value -> option T) (payload : Value) : option (list T) :=
  match Value_get payload "Routes" with Some (VArray vs) => decode_all decode vs | _ => None end.

Abbreviation VpcTables := (string -> list VpcRoute).

Definition only_table (tid : string) (t t' : VpcTables) : Prop := forall other, other <> tid -> t' other = t other.

Inductive api_effect : string -> Value -> VpcTables -> VpcTables -> Prop :=
| AeCreate payload tid makes ids (t t' : VpcTables) :
    api_str "RouteTableId" payload = Some tid -> api_items api_new_route payload = Some makes ->
    length ids = length makes -> NoDup ids -> Forall (fun id => id ∉ map vr_route_id (t tid)) ids ->
    t' tid ≡ₚ zip_with (fun make id => make id) makes ids ++ t tid -> only_table tid t t' ->
    api_effect "CreateRoutes" payload t t'
| AeDelete payload tid ids (t t' : VpcTables) :
    api_str "RouteTableId" payload = Some tid -> api_items (api_str "RouteId") payload = Some ids ->
    t' tid ≡ₚ List.filter (fun r => negb (bool_decide (vr_route_id r ∈ ids))) (t tid) -> only_table tid t t' ->
    api_effect "DeleteRoutes" payload t t'
| AeDescribe payload (t : VpcTables) : api_effect "DescribeRouteTables" payload t t.

(** A service whose route tables change by accepted requests only: those that
    carry an action and the version of the API, the text of a value as
    [serde_json] prints it, and that are answered with a response without an
    error. *)
Class VpcLaws (K : Type) `{VpcNet K} `{CniJson} := {
  vl_routes : K -> VpcTables;
  vl_post req action payload (k k' : K) envelope response :
    header_of "X-TC-Action" req = Some action -> header_of "X-TC-Version" req = Some "2017-03-12" ->
    vq_body req = cj_print payload -> vn_post req k = (k', Ok envelope) ->
    Value_get envelope "Response" = Some response -> Value_get response "Error" = None ->
    api_effect action payload (vl_routes k) (vl_routes k');
}.

Section Reconcile.
Context `{VpcLaws K} `{Digests} (client : VpcClient) (subnet gateway : string).

#[local] Abbreviation managed := (managed_route subnet gateway).

(** The routes that a scan deletes *)
Definition stale (r : VpcRoute) : bool := managed r && negb (vr_enabled r).

Definition not_deleted (routes : list VpcRoute) (r : VpcRoute) : bool :=
  negb (existsb (fun s => stale s && String.eqb (vr_route_id r) (vr_route_id s)) routes).

Lemma filter_filter {A} (p q : A -> bool) l : List.filter p (List.filter q l) = List.filter (fun x => q x && p x) l.
Proof. induction l as [|x l IH]; [done|]. cbn. destruct (q x); cbn; [|done]. destruct (p x); by rewrite IH. Qed.

Lemma perm_eq {A} (l l' : list A) : l = l' -> l ≡ₚ l'.
Proof. by intros ->. Qed.

Lemma filter_perm {A} (p : A -> bool) l l' : l ≡ₚ l' -> List.filter p l ≡ₚ List.filter p l'.
Proof.
  induction 1 as [|x l l' _ IH|x y l|l1 l2 l3 _ IH1 _ IH2]; [done| | |by etrans]; cbn.
  - destruct (p x); [by constructor|done].
  - destruct (p x), (p y); try done. apply perm_swap.
Qed.

(** An answer without an error means that the service has carried out the
    action. *)
Lemma vpc_send_effect action payload response (k k' : K) :
  vpc_send client action payload k = (k', Ok response) -> api_effect action payload (vl_routes k) (vl_routes k').
Proof.
  unfold vpc_send, io_bind, io_get, io_lift, io_map_err, io_ret, io_err. destruct (vn_now k) as [now|e]; [|done]. cbn [map_err].
  destruct (tc3_signature _ _ _ _ _) as [date sig].
  destruct (vn_post _ k) as [k1 [envelope|e]] eqn:Ep; [|done]. cbn [map_err].
  destruct (Value_get envelope "Response") as [resp|] eqn:Er; cbn [ok_or]; [|done].
  destruct (Value_get resp "Error") as [err|] eqn:Ee.
  - destruct (api_error_of err) as [[code msg]|]; cbn [ok_or]; by intros [=].
  - intros [= <- <-]. eapply vl_post; [| | |exact Ep|exact Er|exact Ee]; reflexivity.
Qed.

Lemma delete_routes_effect tid id (k k' : K) :
  delete_routes client tid id k = (k', Ok tt) ->
  vl_routes k' tid ≡ₚ List.filter (fun r => negb (String.eqb (vr_route_id r) id)) (vl_routes k tid)
  /\ only_table tid (vl_routes k) (vl_routes k').
Proof.
  unfold delete_routes, io_bind, io_ret. destruct (vpc_send _ _ _ k) as [k1 [v|e]] eqn:Es; [|done]. intros [= <-].
  apply vpc_send_effect in Es. inversion Es as [|payload tid' ids t t' Ht Hi Hp Ho|]; subst.
  injection Ht as <-. injection Hi as <-. split; [|done]. rewrite Hp. apply perm_eq, filter_ext. intros r. f_equal.
  apply eq_bool_prop_intro. rewrite Is_true_true, Is_true_true, bool_decide_eq_true, String.eqb_eq. apply list_elem_of_singleton.
Qed.

Lemma create_routes_effect tid dst gw (k k' : K) :
  create_routes client tid dst gw k = (k', Ok tt) ->
  exists id, (id ∉ map vr_route_id (vl_routes k tid))
    /\ vl_routes k' tid ≡ₚ mkVpcRoute id dst gw GATEWAY_TYPE ROUTE_TYPE true :: vl_routes k tid
    /\ only_table tid (vl_routes k) (vl_routes k').
Proof.
  unfold create_routes, io_bind, io_ret. destruct (vpc_send _ _ _ k) as [k1 [v|e]] eqn:Es; [|done]. intros [= <-].
  apply vpc_send_effect in Es. inversion Es as [payload tid' makes ids t t' Ht Hi Hl _ Hn Hp Ho| |]; subst.
  injection Ht as <-. injection Hi as <-. destruct ids as [|id [|]]; try done. apply Forall_cons_iff in Hn as [Hn _]. by exists id.
Qed.

Lemma scan_routes_spec tid exists_ routes (k k' : K) b :
  scan_routes client tid subnet gateway exists_ routes k = (k', Ok b) ->
  vl_routes k' tid ≡ₚ List.filter (not_deleted routes) (vl_routes k tid)
  /\ only_table tid (vl_routes k) (vl_routes k')
  /\ b = exists_ || existsb (fun r => managed r && vr_enabled r) routes.
Proof.
  revert exists_ k. induction routes as [|r routes IH]; intros exists_ k; cbn [scan_routes existsb].
  - intros [= <- <-]. unfold not_deleted. cbn. rewrite orb_false_r. split; [|done]. apply perm_eq. symmetry.
    induction (vl_routes k tid) as [|x l IHl]; [done|]. cbn. by rewrite IHl.
  - unfold not_deleted. cbn [existsb]. unfold stale at 1. fold (not_deleted routes). destruct (managed r) eqn:Hm; cbn [andb orb].
    + destruct (vr_enabled r) eqn:He; cbn [negb andb orb].
      * intros (Hr & Ho & Hb)%IH. split; [exact Hr|]. split; [done|]. by rewrite Hb, orb_true_r.
      * unfold io_bind. destruct (delete_routes client tid (vr_route_id r) k) as [k1 [[]|e]] eqn:Ed; [|done].
        apply delete_routes_effect in Ed as [Hd Ho1].
        intros (Hr & Ho & Hb)%IH. split; [|split; [|done]].
        -- rewrite Hr, (filter_perm _ _ _ Hd), filter_filter. apply perm_eq, filter_ext.
           intros x. unfold not_deleted. by rewrite negb_orb.
        -- intros other Hne. by rewrite Ho, Ho1.
    + intros (Hr & Ho & Hb)%IH. by split.
Qed.

(** A scan that finds nothing stale asks for nothing. *)
Lemma scan_routes_quiet tid exists_ routes (k : K) :
  (forall r, r ∈ routes -> managed r = true -> vr_enabled r = true) ->
  scan_routes client tid subnet gateway exists_ routes k = (k, Ok (exists_ || existsb managed routes)).
Proof.
  revert exists_. induction routes as [|r routes IH]; intros exists_ Hs; cbn [scan_routes existsb].
  - by rewrite orb_false_r.
  - assert (forall r, r ∈ routes -> managed r = true -> vr_enabled r = true) as Hs' by (intros x Hx; apply Hs; by right).
    destruct (managed r) eqn:Hm; [|by apply IH]. rewrite (Hs r ltac:(left) Hm), (IH true Hs'). cbn. by rewrite orb_true_r.
Qed.

(** With distinct ids exactly the stale routes of the table are deleted. *)
Lemma not_deleted_stale (l : list VpcRoute) :
  NoDup (map vr_route_id l) -> List.filter (not_deleted l) l = List.filter (fun r => negb (stale r)) l.
Proof.
  intros Hnd. apply filter_ext_in. intros r Hin. unfold not_deleted. f_equal. apply eq_true_iff_eq. rewrite existsb_exists. split.
  - intros (x & Hx & [Hst Hid%String.eqb_eq]%andb_true_iff). enough (r = x) as -> by done.
    clear -Hnd Hin Hx Hid. induction l as [|y l IH]; [done|]. cbn in Hnd. apply list.NoDup_cons in Hnd as [Hy Hnd].
    assert (forall z, In z l -> vr_route_id z ∈ map vr_route_id l) as Hm by (intros z Hz; by apply list_elem_of_In, in_map).
    destruct Hin as [<-|Hin], Hx as [<-|Hx]; [done| | |by apply IH].
    + exfalso. apply Hy. rewrite Hid. by apply Hm.
    + exfalso. apply Hy. rewrite <- Hid. by apply Hm.
  - intros Hst. exists r. by rewrite Hst, String.eqb_refl.
Qed.

(** This node's routes that are in use *)
Definition in_use (r : VpcRoute) : bool := managed r && vr_enabled r.

Lemma managed_not_stale l : List.filter managed (List.filter (fun r => negb (stale r)) l) = List.filter in_use l.
Proof.
  rewrite filter_filter. apply filter_ext. intros r. unfold stale, in_use. destruct (managed r), (vr_enabled r); done.
Qed.

Lemma others_not_stale l :
  List.filter (fun r => negb (managed r)) (List.filter (fun r => negb (stale r)) l) = List.filter (fun r => negb (managed r)) l.
Proof. rewrite filter_filter. apply filter_ext. intros r. unfold stale. destruct (managed r), (vr_enabled r); done. Qed.

Lemma filter_none {A} (p : A -> bool) l : existsb p l = false -> List.filter p l = [].
Proof. induction l as [|x l IH]; [done|]. cbn. destruct (p x); [done|]. apply IH. Qed.

(** What is left of this node's routes: those that were in use, or a new one *)
Definition own_routes_after (before after : list VpcRoute) : Prop :=
  if existsb in_use before then List.filter managed after ≡ₚ List.filter in_use before
  else exists id, (id ∉ map vr_route_id (List.filter (fun r => negb (stale r)) before))
         /\ List.filter managed after ≡ₚ [mkVpcRoute id subnet gateway "NORMAL_CVM" "USER" true].

Lemma own_routes_enabled before after :
  own_routes_after before after -> (forall r, r ∈ after -> managed r = true -> vr_enabled r = true) /\ existsb managed after = true.
Proof.
  assert (forall l, List.filter managed after ≡ₚ l -> (forall r, In r l -> vr_enabled r = true) -> l <> [] ->
    (forall r, r ∈ after -> managed r = true -> vr_enabled r = true) /\ existsb managed after = true) as Hl.
  { intros l Hp Hen Hne. split.
    - intros r Hr Hm. apply Hen. eapply Permutation_in; [exact Hp|]. apply filter_In. split; [by apply list_elem_of_In|done].
    - destruct l as [|r l]; [done|]. assert (In r (List.filter managed after)) as [? ?]%filter_In
        by (eapply Permutation_in; [symmetry; exact Hp|by left]). apply existsb_exists. by exists r. }
  unfold own_routes_after. destruct (existsb in_use before) eqn:Eb.
  - intros Hp. eapply Hl; [exact Hp| |].
    + intros r [_ [_ Hr]%andb_true_iff]%filter_In. done.
    + apply existsb_exists in Eb as (r & Hr & Hu). intros Hnil. assert (In r (List.filter in_use before)) as Hx by (by apply filter_In).
      by rewrite Hnil in Hx.
  - intros (id & _ & Hp). eapply Hl; [exact Hp| |done]. by intros r [<-|[]].
Qed.

(** C36: a reconciliation.  With distinct route ids in the table, on a service
    that does what its documentation says of the requests it accepts: when
    [reconcile_routes] succeeds for the routes listed, the routes of this node
    (from its subnet to its address, of the managed kind) are exactly those
    that were there and enabled, or, if there was none, one new enabled route,
    so that there is at least one and exactly one unless there were several;
    every route that is not this node's and every other table is as it was;
    and the next reconciliation changes nothing, with no request at all. *)
Theorem reconcile_settles tid (k k' : K) :
  NoDup (map vr_route_id (vl_routes k tid)) ->
  reconcile_routes client (mkVpcRouteTable tid (vl_routes k tid)) subnet gateway k = (k', Ok tt) ->
  own_routes_after (vl_routes k tid) (vl_routes k' tid)
  /\ List.filter (fun r => negb (managed r)) (vl_routes k' tid) ≡ₚ List.filter (fun r => negb (managed r)) (vl_routes k tid)
  /\ (forall other, other <> tid -> vl_routes k' other = vl_routes k other)
  /\ reconcile_routes client (mkVpcRouteTable tid (vl_routes k' tid)) subnet gateway k' = (k', Ok tt).
Proof.
  intros Hnd Hr. unfold reconcile_routes, io_bind in Hr. cbn [vt_route_table_id vt_route_set] in Hr.
  destruct (scan_routes _ _ _ _ _ _ k) as [k1 [b|e]] eqn:Es; [|done].
  apply scan_routes_spec in Es as (Hk1 & Ho1 & Hb). cbn [orb] in Hb. rewrite not_deleted_stale in Hk1 by done.
  fold in_use in Hb.
  assert (own_routes_after (vl_routes k tid) (vl_routes k' tid)
    /\ List.filter (fun r => negb (managed r)) (vl_routes k' tid) ≡ₚ List.filter (fun r => negb (managed r)) (vl_routes k tid)
    /\ only_table tid (vl_routes k) (vl_routes k')) as (Hown & Hrest & Ho).
  { unfold own_routes_after. destruct b; cbn [negb] in Hr; rewrite <- Hb.
    - injection Hr as <-. split_and!; [| |done].
      + by rewrite (filter_perm _ _ _ Hk1), managed_not_stale.
      + by rewrite (filter_perm _ _ _ Hk1), others_not_stale.
    - apply create_routes_effect in Hr as (id & Hid & Hp & Ho2).
      assert (managed (mkVpcRoute id subnet gateway GATEWAY_TYPE ROUTE_TYPE true) = true) as Hnew
        by (unfold managed_route; cbn; by rewrite !String.eqb_refl).
      split_and!.
      + exists id. split.
        * intros Hin. apply Hid. by rewrite Hk1.
        * rewrite (filter_perm _ _ _ Hp). cbn [List.filter]. rewrite Hnew, (filter_perm _ _ _ Hk1), managed_not_stale.
          by rewrite filter_none.
      + rewrite (filter_perm _ _ _ Hp). cbn [List.filter]. rewrite Hnew. cbn [negb].
        by rewrite (filter_perm _ _ _ Hk1), others_not_stale.
      + intros other Hne. by rewrite Ho2, Ho1. }
  split_and!; [done..|]. destruct (own_routes_enabled _ _ Hown) as [Hall Hex].
  unfold reconcile_routes, io_bind. cbn [vt_route_table_id vt_route_set].
  rewrite scan_routes_quiet by done. cbn [orb]. by rewrite Hex.
Qed.
End Reconcile.

(** ** An API for the witness *)

(** Texts are framed, so that a request can be read back. *)
Fixpoint vpc_frame (s : string) : string :=
  match s with "" => "." | String c s => String "x" (String c (vpc_frame s)) end.

Fixpoint vpc_unframe (s : string) : string * string :=
  match s with
  | String "x" (String c s) => let '(a, rest) := vpc_unframe s in (String c a, rest)
  | String _ s => ("", s)
  | "" => ("", "")
  end.

Lemma vpc_unframe_frame a s : vpc_unframe (vpc_frame a +:+ s) = (a, s).
Proof. induction a as [|c a IH]; [done|]. cbn. by rewrite IH. Qed.

#[local] Instance vpc_demo_json : CniJson := {
  cj_text _ := Err "EOF while parsing a value";
  cj_value _ := Ok VNull;
  cj_print v :=
    match v with
    | VObject [("RouteTableId", VString t); ("Routes", VArray [VObject [("RouteId", VString id)]])] =>
        String "D" (vpc_frame t +:+ vpc_frame id +:+ "")
    | VObject [("RouteTableId", VString t);
               ("Routes", VArray [VObject [("DestinationCidrBlock", VString dst); ("Enabled", VBool true);
                                           ("GatewayId", VString gw); ("GatewayType", VString "NORMAL_CVM")]])] =>
        String "C" (vpc_frame t +:+ vpc_frame dst +:+ vpc_frame gw +:+ "")
    | _ => ""
    end;
  cj_invalid _ _ := "";
}.

#[local] Instance vpc_demo_digests : Digests := { dg_sha256 b := take 32 b; dg_hmac_sha256 k b := take 32 (k ++ b) }.

Record VpcWorld := mkVpcWorld { vw_routes : string -> list VpcRoute }.

Definition vw_update (w : VpcWorld) (tid : string) (f : list VpcRoute -> list VpcRoute) : VpcWorld :=
  mkVpcWorld (fun t => if String.eqb t tid then f (vw_routes w t) else vw_routes w t).

(** An id that is longer than all others *)
Definition vw_fresh (l : list VpcRoute) : string := foldr (fun r s => vr_route_id r +:+ s) "n" l.

Lemma vw_fresh_new l : vw_fresh l ∉ map vr_route_id l.
Proof.
  assert (forall id, id ∈ map vr_route_id l -> (String.length id < String.length (vw_fresh l))%nat) as Hl.
  { induction l as [|r l IH]; intros id Hid; [by apply elem_of_nil in Hid|]. cbn [map vw_fresh foldr] in *. rewrite length_string_app.
    apply elem_of_cons in Hid as [->|Hid%IH]; [|unfold vw_fresh in *; lia].
    assert (0 < String.length (vw_fresh l))%nat; [|unfold vw_fresh in *; lia].
    clear. induction l as [|x l IH]; cbn; [lia|]. rewrite length_string_app. unfold vw_fresh in *. lia. }
  intros Hin. specialize (Hl _ Hin). lia.
Qed.

Definition vw_answer : Value := VObject [("Response", VObject [])].

#[local] Instance VpcWorld_net : VpcNet VpcWorld := {
  vn_get _ w := (w, Ok (200, Ok "vpc-1"));
  vn_post req w :=
    match header_of "X-TC-Action" req, vq_body req with
    | Some action, String c body =>
        let '(tid, rest) := vpc_unframe body in
        let '(a, rest) := vpc_unframe rest in
        let '(gw, _) := vpc_unframe rest in
        if String.eqb action "DeleteRoutes" && Ascii.eqb c "D"
        then (vw_update w tid (List.filter (fun r => negb (bool_decide (vr_route_id r ∈ [a])))), Ok vw_answer)
        else if String.eqb action "CreateRoutes" && Ascii.eqb c "C"
        then (vw_update w tid (fun l => mkVpcRoute (vw_fresh l) a gw GATEWAY_TYPE ROUTE_TYPE true :: l), Ok vw_answer)
        else (w, Err "unknown action")
    | _, _ => (w, Err "bad request")
    end;
  vn_now _ := Ok 1700000000;
  vn_env _ _ := None;
}.

(** What the texts of the demonstration come from *)
Lemma vpc_demo_delete payload body :
  cj_print payload = String "D" body ->
  exists t id, payload = VObject [("RouteTableId", VString t); ("Routes", VArray [VObject [("RouteId", VString id)]])]
    /\ body = vpc_frame t +:+ vpc_frame id +:+ "".
Proof. cbn. repeat case_match; try done. intros [= <-]. subst. eauto. Qed.

Lemma vpc_demo_create payload body :
  cj_print payload = String "C" body ->
  exists t dst gw, payload = VObject [("RouteTableId", VString t);
               ("Routes", VArray [VObject [("DestinationCidrBlock", VString dst); ("Enabled", VBool true);
                                           ("GatewayId", VString gw); ("GatewayType", VString "NORMAL_CVM")]])]
    /\ body = vpc_frame t +:+ vpc_frame dst +:+ vpc_frame gw +:+ "".
Proof. cbn. repeat case_match; try done. intros [= <-]. subst. eauto. Qed.

#[local] Program Instance VpcWorld_laws : VpcLaws VpcWorld := { vl_routes := vw_routes }.
Next Obligation.
  intros req action payload w w' envelope response Ha _ Hb Hp Hr _. cbn [vn_post VpcWorld_net] in Hp. rewrite Ha, Hb in Hp.
  destruct (cj_print payload) as [|c body] eqn:Hpr; [done|].
  destruct (vpc_unframe body) as [tid rest] eqn:H1, (vpc_unframe rest) as [a rest2] eqn:H2, (vpc_unframe rest2) as [gw rest3] eqn:H3.
  assert (forall f : list VpcRoute -> list VpcRoute, only_table tid (vw_routes w) (vw_routes (vw_update w tid f))
            /\ vw_routes (vw_update w tid f) tid = f (vw_routes w tid)) as Hup.
  { intros f. cbn. rewrite String.eqb_refl. split; [|done]. intros other Hne%String.eqb_neq. cbn. by rewrite Hne. }
  destruct (_ && _) eqn:Hd; [|clear Hd; destruct (_ && _) eqn:Hc; [|done]].
  - apply andb_true_iff in Hd as [->%String.eqb_eq ->%Ascii.eqb_eq]. apply vpc_demo_delete in Hpr as (t & id & -> & ->).
    rewrite vpc_unframe_frame in H1. injection H1 as <- <-. rewrite vpc_unframe_frame in H2. injection H2 as <- <-. injection Hp as <- _.
    destruct (Hup (List.filter (fun r => negb (bool_decide (vr_route_id r ∈ [id]))))) as [Ho He].
    eapply AeDelete; [reflexivity|reflexivity|by rewrite He|exact Ho].
  - apply andb_true_iff in Hc as [->%String.eqb_eq ->%Ascii.eqb_eq]. apply vpc_demo_create in Hpr as (t & dst & gw' & -> & ->).
    rewrite vpc_unframe_frame in H1. injection H1 as <- <-. rewrite vpc_unframe_frame in H2. injection H2 as <- <-.
    rewrite vpc_unframe_frame in H3. injection H3 as <- <-. injection Hp as <- _.
    destruct (Hup (fun l => mkVpcRoute (vw_fresh l) dst gw' GATEWAY_TYPE ROUTE_TYPE true :: l)) as [Ho He].
    eapply (AeCreate _ t _ [vw_fresh (vw_routes w t)]); [reflexivity|reflexivity|reflexivity|apply NoDup_singleton| |by rewrite He|exact Ho].
    constructor; [apply vw_fresh_new|done].
Qed.

(** A disabled route of the node and one of another node *)
Definition vpc_demo_world : VpcWorld :=
  mkVpcWorld (fun _ => [mkVpcRoute "1" "10.244.1.0/24" "192.168.0.1" GATEWAY_TYPE ROUTE_TYPE false;
                        mkVpcRoute "2" "10.244.2.0/24" "192.168.0.2" GATEWAY_TYPE ROUTE_TYPE true]).

Definition vpc_demo_client : VpcClient := mkVpcClient "id" "secret" "ap-guangzhou" DEFAULT_VPC_ENDPOINT "vpc.tencentcloudapi.com".

Lemma reconcile_settles_witness :
  exists w, reconcile_routes vpc_demo_client (mkVpcRouteTable "rtb" (vl_routes vpc_demo_world "rtb")) "10.244.1.0/24" "192.168.0.1" vpc_demo_world = (w, Ok tt)
    /\ reconcile_routes vpc_demo_client (mkVpcRouteTable "rtb" (vl_routes w "rtb")) "10.244.1.0/24" "192.168.0.1" w = (w, Ok tt)
    /\ map vr_route_id (vl_routes w "rtb") = ["2n"; "2"].
Proof.
  destruct (reconcile_routes vpc_demo_client (mkVpcRouteTable "rtb" (vl_routes vpc_demo_world "rtb")) "10.244.1.0/24" "192.168.0.1" vpc_demo_world)
    as [w r] eqn:E.
  assert (r = Ok tt /\ map vr_route_id (vw_routes w "rtb") = ["2n"; "2"]) as [-> Hids]
    by (vm_compute in E; injection E as <- <-; split; vm_compute; reflexivity).
  exists w. split; [reflexivity|]. split; [|exact Hids].
  apply (reconcile_settles vpc_demo_client "10.244.1.0/24" "192.168.0.1" "rtb" vpc_demo_world w); [|exact E].
  apply (bool_decide_unpack (NoDup _)). vm_compute. exact I.
Defined.
