(* ===== verification/Options.v ===== *)
(** * [flanneld/src/flags_defs.rs], [main.rs]: the options of the daemon

    The flags that flanneld registers, the options read back from them, and
    the front of [main]: command line, environment, exit codes. *)

From S2P Require Import Prelude RustStr Flags.
#[local] Open Scope string_scope.
#[local] Open Scope list_scope.
#[local] Open Scope Z_scope.

Definition KLOG_TOLERATED_FLAGS : list string :=
  ["v"; "vmodule"; "logtostderr"; "alsologtostderr"; "stderrthreshold"; "log_dir"; "log_file";
   "log_file_max_size"; "add_dir_header"; "skip_headers"; "skip_log_headers"; "one_output"].

(** The registrations, in order: name, kind, default and help *)
Definition FLANNEL_FLAGS : list (string * Kind * FlagValue * string) := [
  ("etcd-endpoints", KStr, FvStr "http://127.0.0.1:4001,http://127.0.0.1:2379",
   "a comma-delimited list of etcd endpoints");
  ("etcd-prefix", KStr, FvStr "/coreos.com/network",
   "etcd prefix");
  ("etcd-keyfile", KStr, FvStr "",
   "SSL key file used to secure etcd communication");
  ("etcd-certfile", KStr, FvStr "",
   "SSL certification file used to secure etcd communication");
  ("etcd-cafile", KStr, FvStr "",
   "SSL Certificate Authority file used to secure etcd communication");
  ("etcd-username", KStr, FvStr "",
   "username for BasicAuth to etcd");
  ("etcd-password", KStr, FvStr "",
   "password for BasicAuth to etcd");
  ("iface", KSlice, FvSlice [],
   "interface to use (IP or name) for inter-host communication. Can be specified multiple times to check each option in order. Returns the first match found.");
  ("iface-regex", KSlice, FvSlice [],
   "regex expression to match the first interface to use (IP or name) for inter-host communication. Can be specified multiple times to check each regex in order. Returns the first match found. Regexes are checked after specific interfaces specified by the iface option have already been checked.");
  ("iface-can-reach", KStr, FvStr "",
   "detect interface to use (IP or name) for inter-host communication based on which will be used for provided IP. This is exactly the interface to use of command 'ip route get <ip-address>'");
  ("subnet-file", KStr, FvStr "/run/flannel/subnet.env",
   "filename where env variables (subnet, MTU, ... ) will be written to");
  ("public-ip", KStr, FvStr "",
   "IP accessible by other nodes for inter-host communication");
  ("public-ipv6", KStr, FvStr "",
   "IPv6 accessible by other nodes for inter-host communication");
  ("subnet-lease-renew-margin", KInt, FvInt 60,
   "subnet lease renewal margin, in minutes, ranging from 1 to 1439");
  ("ip-masq", KBool, FvBool false,
   "setup IP masquerade rule for traffic destined outside of overlay network");
  ("ip-masq-fully-random-disable", KBool, FvBool false,
   "disable fully-random mode for MASQUERADE");
  ("kube-subnet-mgr", KBool, FvBool false,
   "contact the Kubernetes API for subnet assignment instead of etcd.");
  ("kube-api-url", KStr, FvStr "",
   "Kubernetes API server URL. Does not need to be specified if flannel is running in a pod.");
  ("kube-annotation-prefix", KStr, FvStr "flannel.alpha.coreos.com",
   "Kubernetes annotation prefix. Can contain single slash " +:+ QUOTE +:+ "/" +:+ QUOTE +:+ ", otherwise it will be appended at the end.");
  ("kubeconfig-file", KStr, FvStr "",
   "kubeconfig file location. Does not need to be specified if flannel is running in a pod.");
  ("version", KBool, FvBool false,
   "print version and exit");
  ("healthz-ip", KStr, FvStr "0.0.0.0",
   "the IP address for healthz server to listen");
  ("healthz-port", KInt, FvInt 0,
   "the port for healthz server to listen(0 to disable)");
  ("iptables-resync", KInt, FvInt 5,
   "resync period for iptables rules, in seconds");
  ("iptables-forward-rules", KBool, FvBool true,
   "add default accept rules to FORWARD chain in iptables");
  ("ip-blackhole-route", KBool, FvBool false,
   "add blackroute route ont the node for the local podCIDR");
  ("net-config-path", KStr, FvStr "/etc/kube-flannel/net-conf.json",
   "path to the network configuration file");
  ("set-node-network-unavailable", KBool, FvBool true,
   "set NodeNetworkUnavailable after ready")].

(** [None] is the assertion of [register]. *)
Fixpoint register_all (fs : FlagSet) (l : list (string * Kind * FlagValue * string)) : option FlagSet :=
  match l with
  | [] => Some fs
  | (name, kind, default, help) :: l =>
      match FlagSet_register fs name kind default help with
      | Some fs => register_all fs l
      | None => None
      end
  end.

Definition build_flag_set : option FlagSet :=
  option_map (fun fs => with_tolerated_unknown fs KLOG_TOLERATED_FLAGS) (register_all (FlagSet_new "flannel") FLANNEL_FLAGS).

Record Options := mkOptions {
  o_etcd_endpoints : string;
  o_etcd_prefix : string;
  o_etcd_keyfile : string;
  o_etcd_certfile : string;
  o_etcd_cafile : string;
  o_etcd_username : string;
  o_etcd_password : string;
  o_version : bool;
  o_kube_subnet_mgr : bool;
  o_kube_api_url : string;
  o_kube_annotation_prefix : string;
  o_kubeconfig_file : string;
  o_iface : list string;
  o_iface_regex : list string;
  o_iface_can_reach : string;
  o_ip_masq : bool;
  o_ip_masq_random_fully_disable : bool;
  o_subnet_file : string;
  o_public_ip : string;
  o_public_ipv6 : string;
  o_subnet_lease_renew_margin : Z;
  o_healthz_ip : string;
  o_healthz_port : Z;
  o_iptables_resync_seconds : Z;
  o_iptables_forward_rules : bool;
  o_blackhole_route : bool;
  o_net_config_path : string;
  o_set_node_network_unavailable : bool;
  o_install_signal_handlers : bool;
}.

Notation "'let&' x ':=' o 'in' k" := (match o with Some x => k | None => None end)
  (at level 10, x name, o at level 100, k at level 200, only parsing).

(** [None]: a getter panics. *)
Definition options_from_flag_set (fs : FlagSet) : option Options :=
  let& etcd_endpoints := get_string fs "etcd-endpoints" in
  let& etcd_prefix := get_string fs "etcd-prefix" in
  let& etcd_keyfile := get_string fs "etcd-keyfile" in
  let& etcd_certfile := get_string fs "etcd-certfile" in
  let& etcd_cafile := get_string fs "etcd-cafile" in
  let& etcd_username := get_string fs "etcd-username" in
  let& etcd_password := get_string fs "etcd-password" in
  let& version := get_bool fs "version" in
  let& kube_subnet_mgr := get_bool fs "kube-subnet-mgr" in
  let& kube_api_url := get_string fs "kube-api-url" in
  let& kube_annotation_prefix := get_string fs "kube-annotation-prefix" in
  let& kubeconfig_file := get_string fs "kubeconfig-file" in
  let& iface := get_slice fs "iface" in
  let& iface_regex := get_slice fs "iface-regex" in
  let& iface_can_reach := get_string fs "iface-can-reach" in
  let& ip_masq := get_bool fs "ip-masq" in
  let& ip_masq_random_fully_disable := get_bool fs "ip-masq-fully-random-disable" in
  let& subnet_file := get_string fs "subnet-file" in
  let& public_ip := get_string fs "public-ip" in
  let& public_ipv6 := get_string fs "public-ipv6" in
  let& subnet_lease_renew_margin := get_int fs "subnet-lease-renew-margin" in
  let& healthz_ip := get_string fs "healthz-ip" in
  let& healthz_port := get_int fs "healthz-port" in
  let& iptables_resync_seconds := get_int fs "iptables-resync" in
  let& iptables_forward_rules := get_bool fs "iptables-forward-rules" in
  let& blackhole_route := get_bool fs "ip-blackhole-route" in
  let& net_config_path := get_string fs "net-config-path" in
  let& set_node_network_unavailable := get_bool fs "set-node-network-unavailable" in
  Some (mkOptions etcd_endpoints etcd_prefix etcd_keyfile etcd_certfile etcd_cafile etcd_username etcd_password
          version kube_subnet_mgr kube_api_url kube_annotation_prefix kubeconfig_file iface iface_regex
          iface_can_reach ip_masq ip_masq_random_fully_disable subnet_file public_ip public_ipv6
          subnet_lease_renew_margin healthz_ip healthz_port iptables_resync_seconds iptables_forward_rules
          blackhole_route net_config_path set_node_network_unavailable true).

Definition Options_default : option Options :=
  match build_flag_set with Some fs => options_from_flag_set fs | None => None end.

(** ** The usage text *)

Definition type_name (kind : Kind) : string :=
  match kind with KBool => "" | KInt => "int" | KStr => "string" | KSlice => "value" end.

Fixpoint insert_flag (f : Flag) (l : list Flag) : list Flag :=
  match l with
  | [] => [f]
  | g :: l => if String.leb (fl_name f) (fl_name g) then f :: g :: l else g :: insert_flag f l
  end.

Definition sort_flags (l : list Flag) : list Flag := fold_right insert_flag [] l.

Definition TAB : string := String (ascii_of_nat 9) "".
Definition NEWLINE : string := String NL "".

Definition usage_flag (flag : Flag) : string :=
  let head := "  -" +:+ fl_name flag in
  let head := if str_is_empty (type_name (fl_kind flag)) then head else head +:+ " " +:+ type_name (fl_kind flag) in
  head +:+ (if (String.length head <=? 4)%nat then TAB else NEWLINE +:+ "    " +:+ TAB)
  +:+ fl_help flag
  +:+ (if shows_default flag then
         let def := def_value_string flag in
         " (default " +:+ (if bool_decide (fl_kind flag = KStr) then debug_str def else def) +:+ ")"
       else "")
  +:+ NEWLINE.

Definition usage (fs : FlagSet) : string :=
  "Usage of " +:+ fs_name fs +:+ ":" +:+ NEWLINE +:+ str_join "" (map usage_flag (sort_flags (fs_flags fs))).

(** ** [main.rs] *)

(** What the front of [main] comes to: an exit, with the usage on stderr, or
    the options and the errors of the environment, which are only logged *)
Inductive MainFront :=
| FrontExit (code : Z) (error : option FlagError)
| FrontRun (opts : Options) (env_errors : list EnvError)
| FrontPanic.

(** [None]: parsing succeeded. *)
Definition parse_flags (r : result unit FlagError) : option (Z * option FlagError) :=
  match r with
  | Ok _ => None
  | Err Help => Some (0, None)
  | Err e => Some (2, Some e)
  end.

Definition main_front (args : list string) (env : string -> option string) : MainFront :=
  match build_flag_set with
  | None => FrontPanic
  | Some fs =>
      let '(fs, r) := FlagSet_parse fs args in
      match parse_flags r with
      | Some (code, e) => FrontExit code e
      | None =>
          let '(fs, errors) := set_flags_from_env fs "FLANNELD" env in
          match options_from_flag_set fs with
          | Some opts => FrontRun opts errors
          | None => FrontPanic
          end
      end
  end.

(** * Theorems *)

(** Each name with its kind and default, as it was registered *)
Definition flag_key (f : Flag) : string * Kind * FlagValue := (fl_name f, fl_kind f, fl_default f).
Definition FLAG_KEYS : list (string * Kind * FlagValue) := map fst FLANNEL_FLAGS.

Definition flag_okb (f : Flag) : bool :=
  bool_decide (kind_of (fl_value f) = fl_kind f) && bool_decide (kind_of (fl_default f) = fl_kind f)
  && match fl_value f with FvInt i => (- 2 ^ 63 <=? i) && (i <? 2 ^ 63) | _ => true end.

Lemma flag_okb_all l : forallb flag_okb l = true -> Forall flag_ok l.
Proof.
  intros Hl. apply List.Forall_forall. intros f Hf. rewrite forallb_forall in Hl. specialize (Hl f Hf). unfold flag_okb in Hl.
  rewrite !andb_true_iff, !bool_decide_eq_true in Hl. destruct Hl as [[Hv Hd] Hr]. split_and!; [done..|].
  intros i Hi. rewrite Hi, andb_true_iff in Hr. lia.
Qed.

Lemma build_flag_set_spec : exists fs, build_flag_set = Some fs /\ flags_inv (fs_flags fs) /\ map flag_key (fs_flags fs) = FLAG_KEYS.
Proof.
  eexists. split; [vm_compute; reflexivity|]. split; [|by vm_compute]. cbn [fs_flags]. split.
  - apply (bool_decide_unpack _). by vm_compute.
  - apply flag_okb_all. by vm_compute.
Qed.

(** A flag that was registered has a value of its kind. *)
Lemma flag_lookup flags name kind d :
  flags_inv flags -> map flag_key flags = FLAG_KEYS -> In (name, kind, d) FLAG_KEYS ->
  exists i f, FlagSet_flag flags name = Some (i, f) /\ flag_ok f /\ fl_kind f = kind.
Proof.
  intros [Hn Hok] Hk Hin. rewrite <- Hk in Hin. apply in_map_iff in Hin as (f & Hf & Hin). injection Hf as <- <- _.
  apply list_elem_of_In, list_elem_of_split in Hin as (pre & post & ->).
  rewrite map_app in Hn. cbn in Hn. apply list.NoDup_app in Hn as (_ & Hd & _).
  exists (length pre), f. split; [|split; [|done]].
  - apply FlagSet_flag_middle. intros Hin. apply (Hd _ Hin). by left.
  - apply Forall_app in Hok as [_ Hok]. by apply Forall_cons_iff in Hok as [? _].
Qed.

Section Getters.
Context (fs : FlagSet) (Hi : flags_inv (fs_flags fs)) (Hk : map flag_key (fs_flags fs) = FLAG_KEYS).

Lemma get_bool_some name d : In (name, KBool, d) FLAG_KEYS -> exists v, get_bool fs name = Some v.
Proof.
  intros (i & f & Hf & (Hv & _) & Hkd)%(flag_lookup _ _ _ _ Hi Hk). unfold get_bool. rewrite Hf.
  destruct (fl_value f); cbn in Hv; try congruence. by eexists.
Qed.

Lemma get_int_some name d : In (name, KInt, d) FLAG_KEYS -> exists v, get_int fs name = Some v /\ - 2 ^ 63 <= v < 2 ^ 63.
Proof.
  intros (i & f & Hf & (Hv & _ & Hr) & Hkd)%(flag_lookup _ _ _ _ Hi Hk). unfold get_int. rewrite Hf.
  destruct (fl_value f); cbn in Hv; try congruence. eexists. split; [done|by apply Hr].
Qed.

Lemma get_string_some name d : In (name, KStr, d) FLAG_KEYS -> exists v, get_string fs name = Some v.
Proof.
  intros (i & f & Hf & (Hv & _) & Hkd)%(flag_lookup _ _ _ _ Hi Hk). unfold get_string. rewrite Hf.
  destruct (fl_value f); cbn in Hv; try congruence. by eexists.
Qed.

Lemma get_slice_some name d : In (name, KSlice, d) FLAG_KEYS -> exists v, get_slice fs name = Some v.
Proof.
  intros (i & f & Hf & (Hv & _) & Hkd)%(flag_lookup _ _ _ _ Hi Hk). unfold get_slice. rewrite Hf.
  destruct (fl_value f); cbn in Hv; try congruence. by eexists.
Qed.

Definition options_typed (o : Options) : Prop :=
  Forall (fun v => - 2 ^ 63 <= v < 2 ^ 63) [o_subnet_lease_renew_margin o; o_healthz_port o; o_iptables_resync_seconds o].

Lemma options_some : exists o, options_from_flag_set fs = Some o /\ options_typed o.
Proof.
  unfold options_from_flag_set.
  repeat match goal with
         | |- context [get_string fs ?n] => edestruct (get_string_some n) as [? ->]; [by repeat (left; reflexivity) || right|]
         | |- context [get_bool fs ?n] => edestruct (get_bool_some n) as [? ->]; [by repeat (left; reflexivity) || right|]
         | |- context [get_slice fs ?n] => edestruct (get_slice_some n) as [? ->]; [by repeat (left; reflexivity) || right|]
         | |- context [get_int fs ?n] => edestruct (get_int_some n) as (? & -> & ?); [by repeat (left; reflexivity) || right|]
         end.
  eexists. split; [reflexivity|]. repeat (apply Forall_cons_iff; split; [done|]). apply Forall_nil_2.
Qed.
End Getters.

(** The environment keeps names, kinds and the invariant. *)
Lemma env_apply_ok prefix env f : flag_ok f -> flag_ok (env_apply prefix env f).1 /\ flag_key (env_apply prefix env f).1 = flag_key f.
Proof.
  intros Hf. unfold env_apply. destruct (str_is_empty _); [done|].
  destruct (set_flag_value f _) as [g|] eqn:Hs; [|done].
  destruct (set_flag_value_ok _ _ _ Hf Hs) as (Hok & Hn & Hk & Hd). split; [done|]. unfold flag_key. cbn. congruence.
Qed.

Lemma set_flags_from_env_inv fs prefix env :
  flags_inv (fs_flags fs) ->
  flags_inv (fs_flags (set_flags_from_env fs prefix env).1)
  /\ map flag_key (fs_flags (set_flags_from_env fs prefix env).1) = map flag_key (fs_flags fs).
Proof.
  intros [Hn Hok]. unfold set_flags_from_env. pose proof (env_fold prefix env (fs_flags fs) [] [] Hn) as Hf.
  cbn [app] in Hf. rewrite Hf. cbn [fst fs_flags]. clear Hf. split; [split|].
  - rewrite map_map. erewrite map_ext; [exact Hn|]. intros f. apply env_apply_name.
  - apply Forall_map. eapply Forall_impl; [|exact Hok]. intros f Hf. by apply env_apply_ok.
  - rewrite map_map. apply map_ext_in. intros f Hin. rewrite List.Forall_forall in Hok. by apply env_apply_ok, Hok.
Qed.

(** Whatever the command line and the environment hold, the front of
    [main] does not panic: no flag is registered twice and every option that
    is read back has a value of the kind it is read as.  It exits with 0 for a
    request for help, with 2 for a command line that does not parse, and else
    runs with options whose integers are 64-bit. *)
Theorem main_front_total args env :
  match main_front args env with
  | FrontExit code e => (code = 0 /\ e = None) \/ (code = 2 /\ e <> None)
  | FrontRun opts _ => options_typed opts
  | FrontPanic => False
  end.
Proof.
  unfold main_front. destruct build_flag_set_spec as (fs & -> & Hi & Hk). unfold FlagSet_parse.
  pose proof (parse_loop_post (fs_tolerated_unknown fs) args (fs_flags fs) Hi) as Hp.
  destruct (parse_loop _ _ args) as [[flags rem] r]. destruct Hp as (Hi1 & Hs & _).
  destruct r as [[]|e]; [|destruct e; cbn; auto; by right]. cbn [parse_flags].
  match goal with |- context [set_flags_from_env ?g _ _] => set (fs1 := g) in * end.
  destruct (set_flags_from_env_inv fs1 "FLANNELD" env Hi1) as [Hi2 Hk2].
  destruct (set_flags_from_env fs1 "FLANNELD" env) as [fs2 errors]. cbn [fst] in Hi2, Hk2.
  assert (map flag_key (fs_flags fs2) = FLAG_KEYS) as Hk3 by (rewrite Hk2, <- Hk; exact Hs).
  destruct (options_some fs2 Hi2 Hk3) as (o & -> & Ho). exact Ho.
Qed.

(** The defaults pass the check on the renewal margin. *)
Theorem options_default_valid :
  exists o, Options_default = Some o /\ 0 < o_subnet_lease_renew_margin o < 24 * 60 /\ 0 < o_iptables_resync_seconds o
    /\ o_install_signal_handlers o = true /\ o_healthz_port o = 0 /\ o_kube_subnet_mgr o = false.
Proof. eexists. split; [vm_compute; reflexivity|]. by vm_compute. Qed.
