(* ===== verification/Registry.v ===== *)
(** * [backend/manager.rs], [backend/mod.rs], [trafficmngr/mod.rs]: the choices

    The registry of backends by name and the networks they register, and the
    two traffic managers behind one interface.  The backends of the other files
    are put together here. *)

From S2P Require Import Prelude RustStr StdNet IpNet Ip6Net Lease Config Anyhow RouteNetwork VxlanConf Vxlan IptRules Iptables Nftables Genl WgKernel Iface Wireguard Cni Xfrm Backend Ipsec Links Ipip VxlanDevice WgDevice KubeNode UdpNetwork Extension Tencent.
#[local] Open Scope string_scope.
#[local] Open Scope list_scope.
#[local] Open Scope Z_scope.

(** ** Networks and backends *)

(** The implementations of the trait [Network] *)
Inductive Network (K : Type) :=
| NetSimple (n : SimpleNetwork)
| NetRoute (n : RouteNetwork K)
| NetVxlan (n : VXLANNetwork)
| NetWireguard (n : WireguardNetwork)
| NetIpsec (n : IPsecNetwork)
| NetUdp (n : UdpNetwork)
| NetExtension (n : ExtensionNetwork).
Arguments NetSimple {K} _.
Arguments NetRoute {K} _.
Arguments NetVxlan {K} _.
Arguments NetWireguard {K} _.
Arguments NetIpsec {K} _.
Arguments NetUdp {K} _.
Arguments NetExtension {K} _.

Definition net_lease {K} (n : Network K) : Lease :=
  match n with
  | NetSimple n => sn_lease n
  | NetRoute n => rn_lease n
  | NetVxlan n => vn_lease n
  | NetWireguard n => gn_lease n
  | NetIpsec n => pn_lease n
  | NetUdp n => un_lease n
  | NetExtension n => xn_lease n
  end.

Definition net_mtu {K} (n : Network K) : Z :=
  match n with
  | NetSimple n => sn_mtu n
  | NetRoute n => rn_mtu n
  | NetVxlan n => vxlan_mtu (vn_state n)
  | NetWireguard n => wg_network_mtu n
  | NetIpsec n => pn_mtu n
  | NetUdp n => un_mtu n
  | NetExtension n => xn_mtu n
  end.

Inductive BackendError :=
| BeMessage (e : anyhow)
| BeVxlan (e : VxlanSetupError)
| BeWireguard (e : WgSetupError)
| BeExtension (e : RunError).

(** [Backend]: its [register_network]; [BackendCtor], the subnet manager being
    part of the state *)
Definition Backend (K : Type) : Type := Config -> io K BackendError (Network K).
Definition BackendCtor (K : Type) : Type := ExternalInterface -> result (Backend K) anyhow.

Definition io_map {K E A B} (f : A -> B) (m : io K E A) : io K E B := let! a := m in io_ret (f a).

Record BackendManager (K : Type) := mkBackendManager { bm_backends : gmap string (BackendCtor K) }.
Arguments mkBackendManager {K} _.
Arguments bm_backends {K} _.

Definition BackendManager_new {K} : BackendManager K := mkBackendManager ∅.

Definition bm_register {K} (name : string) (ctor : BackendCtor K) (bm : BackendManager K) : BackendManager K :=
  mkBackendManager (<[name := ctor]> (bm_backends bm)).

(** [to_lowercase], of ASCII text *)
Definition bm_create {K} (bm : BackendManager K) (name : string) (ei : ExternalInterface) : result (Backend K) anyhow :=
  let betype := to_ascii_lowercase name in
  match bm_backends bm !! betype with
  | Some ctor => ctor ei
  | None => Err ["unknown backend type: " +:+ betype]
  end.

Section Registry.
Context `{SubnetManager K} `{NlKernel K} `{LinkKernel K} `{GenlKernel K} `{WgSystem K} `{WgFiles K} `{CharonSystem K}
  `{VxlanSystem K} `{UdpSystem K} `{ProcSystem K} `{VpcNet K} `{SerdeJson} `{VxlanJson} `{WgJson} `{WgCrypto} `{CniJson} `{RawJson}
  `{Digests} `{UrlHost}.
Context (fuel : nat).

Definition message {A} (m : io K anyhow A) : io K BackendError A := io_map_err BeMessage m.

Definition alloc_backend : BackendCtor K := fun ei => Ok (fun _ => io_map NetSimple (message (alloc_register_network ei))).
Definition hostgw_backend : BackendCtor K := fun ei =>
  let? ei := hostgw_new_backend ei in Ok (fun config => io_map NetRoute (message (hostgw_register_network ei config))).
Definition ipip_backend : BackendCtor K := fun ei =>
  Ok (fun config => io_map NetRoute (message (ipip_register_network ei config))).
Definition vxlan_backend : BackendCtor K := fun ei =>
  Ok (fun config => io_map NetVxlan (io_map_err BeVxlan (vxlan_register_network ei config))).
Definition wireguard_backend : BackendCtor K := fun ei =>
  Ok (fun config => io_map NetWireguard (io_map_err BeWireguard (wg_register_network fuel ei config))).
Definition ipsec_backend : BackendCtor K := fun ei =>
  Ok (fun config => io_map NetIpsec (message (ipsec_register_network ei config))).
Definition udp_backend : BackendCtor K := fun ei =>
  Ok (fun config => io_map NetUdp (message (udp_register_network ei config))).
Definition extension_backend : BackendCtor K := fun ei =>
  Ok (fun config => io_map NetExtension (io_map_err BeExtension (extension_register_network ei config))).
Definition tencent_backend : BackendCtor K := fun ei =>
  Ok (fun config => io_map NetSimple (message (tencent_register_network ei config))).

Definition default_registry (bm : BackendManager K) : BackendManager K :=
  let bm := bm_register "alloc" alloc_backend bm in
  let bm := bm_register "host-gw" hostgw_backend bm in
  let bm := bm_register "ipip" ipip_backend bm in
  let bm := bm_register "vxlan" vxlan_backend bm in
  let bm := bm_register "wireguard" wireguard_backend bm in
  let bm := bm_register "udp" udp_backend bm in
  let bm := bm_register "extension" extension_backend bm in
  let bm := bm_register "ipsec" ipsec_backend bm in
  bm_register "tencent-vpc" tencent_backend bm.
End Registry.

(** ** Traffic managers *)

Inductive TrafficManager := TmIptables (m : IPTablesManager) | TmNftables (m : NFTablesManager).

Definition new_traffic_manager (use_nftables : bool) : TrafficManager :=
  if use_nftables then TmNftables (mkNFTablesManager None None) else TmIptables (mkIPTablesManager [] [] []).

Section Traffic.
Context `{IptSystem K} (cancelled : K -> bool).

Definition tm_clean_up (tm : TrafficManager) (k : K) : K * result unit string :=
  match tm with
  | TmIptables _ => io_map_err IptError_fmt iptables_clean_up k
  | TmNftables _ => (nft_clean_up cancelled k, Ok tt)
  end.

Definition tm_init (tm : TrafficManager) (k : K) : K * TrafficManager * result unit string :=
  match tm with
  | TmIptables m => (k, TmIptables (iptables_init m), Ok tt)
  | TmNftables m => let '(k, m, r) := nft_init cancelled m k in (k, TmNftables m, r)
  end.

Definition tm_setup_masq (tm : TrafficManager) (network prev_subnet prev_network : IP4Net)
    (v6_network prev_v6_subnet prev_v6_network : IP6Net) (lease : Lease) (resync_seconds : Z)
    (random_fully_disabled : bool) (k : K) : K * TrafficManager * result unit string :=
  match tm with
  | TmIptables m =>
      let '(k, m, r) := setup_and_ensure_masq_rules network prev_subnet prev_network v6_network prev_v6_subnet
                          prev_v6_network lease resync_seconds random_fully_disabled m k in
      (k, TmIptables m, map_err IptError_fmt r)
  | TmNftables m =>
      let '(k, r) := nft_setup_masq_rules cancelled m network v6_network lease random_fully_disabled k in (k, tm, r)
  end.

Definition tm_setup_forward (tm : TrafficManager) (network : IP4Net) (v6_network : IP6Net) (resync_seconds : Z) (k : K)
  : K * TrafficManager :=
  match tm with
  | TmIptables m =>
      let '(k, m) := setup_and_ensure_forward_rules network v6_network resync_seconds m k in (k, TmIptables m)
  | TmNftables m => (nft_setup_forward_rules cancelled m network v6_network k, tm)
  end.
End Traffic.

(** * Theorems *)

Lemma ascii_lower_idem c : ascii_lower (ascii_lower c) = ascii_lower c.
Proof. destruct c as [[] [] [] [] [] [] [] []]; reflexivity. Qed.

Lemma to_ascii_lowercase_idem s : to_ascii_lowercase (to_ascii_lowercase s) = to_ascii_lowercase s.
Proof.
  unfold to_ascii_lowercase. induction s as [|c s IH]; [done|]. cbn [str_map]. by rewrite ascii_lower_idem, IH.
Qed.

(** The case of a backend type does not matter. *)
Theorem bm_create_case {K} (bm : BackendManager K) name ei : bm_create bm (to_ascii_lowercase name) ei = bm_create bm name ei.
Proof. unfold bm_create. by rewrite to_ascii_lowercase_idem. Qed.

Lemma bm_register_some {K} n (c : BackendCtor K) bm name :
  is_Some (bm_backends (bm_register n c bm) !! name) <-> n = name \/ is_Some (bm_backends bm !! name).
Proof. cbn. rewrite lookup_insert_is_Some'. tauto. Qed.

Definition BACKEND_NAMES : list string :=
  ["alloc"; "host-gw"; "ipip"; "vxlan"; "wireguard"; "udp"; "extension"; "ipsec"; "tencent-vpc"].

Section RegistryTheorems.
Context `{SubnetManager K} `{NlKernel K} `{LinkKernel K} `{GenlKernel K} `{WgSystem K} `{WgFiles K} `{CharonSystem K}
  `{VxlanSystem K} `{UdpSystem K} `{ProcSystem K} `{VpcNet K} `{SerdeJson} `{VxlanJson} `{WgJson} `{WgCrypto} `{CniJson} `{RawJson}
  `{Digests} `{UrlHost}.
Context (fuel : nat).

#[local] Abbreviation registry := (default_registry fuel BackendManager_new).

(** The registry knows the nine names and no other: a configuration with
    another type fails with the type in lower case. *)
Theorem default_registry_names name :
  is_Some (bm_backends registry !! name) <-> In name BACKEND_NAMES.
Proof.
  unfold default_registry. cbv zeta. rewrite !bm_register_some.
  assert (~ is_Some (bm_backends (@BackendManager_new K) !! name)) as Hn by (cbn; rewrite lookup_empty; by intros []).
  cbn [In BACKEND_NAMES]. tauto.
Qed.
End RegistryTheorems.
