(* ===== verification/Daemon.v ===== *)
(** * [flanneld/src/daemon.rs], [subnet_mgr.rs], [healthz.rs], [systemd.rs]: the daemon

    The start of flanneld step by step, with every early return, the tasks it
    spawns, and its shutdown.  The state of a run is the world, the tasks whose
    handles are kept, and the trace of what was done; [None] is a run that does
    not return: a task that is awaited and does not end.  The components are
    those of the other files; signals, sockets and tasks are [DaemonSystem].

    The trace has the tasks of [daemon.rs] and the ones that its calls spawn
    without keeping a handle: the fan-out and the informer of the subnet
    manager, the resync tasks of the iptables manager and the retries of the
    event queue.  The tasks that the backend's task spawns in its turn, and the
    connection tasks of rtnetlink, are not in it. *)

From S2P Require Import Prelude RustStr Utf8 StdNet IpNet Ip6Net Lease Config Anyhow SubnetEnv RouteNetwork KubeNode KubeClient Iptables Iface IpMatch Backend UdpNetwork KubeAcquire Registry KubeConf KubeStatus Options.
#[local] Open Scope string_scope.
#[local] Open Scope list_scope.
#[local] Open Scope Z_scope.

(** ** Tasks and the trace *)

Inductive Task :=
| THealthz
| TBlackholeV4
| TBlackholeV6
| TSignal
| TBackend
| TFanOut
| TInformer
| TResync
| TRetry.

#[global] Instance Task_eq_dec : EqDecision Task.
Proof. solve_decision. Defined.

(** The tasks whose handle is dropped where they are spawned *)
Definition detached (t : Task) : bool :=
  match t with TFanOut | TInformer | TResync | TRetry => true | _ => false end.

Inductive Action :=
| ASpawn (t : Task)
| AAwait (t : Task)
| ACancel
| ARegister
| AMasq
| AForward
| AWrite (path : string)
| AReady
| ANotify
| AComplete.

#[global] Instance Action_eq_dec : EqDecision Action.
Proof. solve_decision. Defined.

(** [ds_trace]: the latest action first *)
Record DaemonState (K : Type) := mkDaemonState {
  ds_world : K;
  ds_trace : list Action;
  ds_tasks : list Task;
  ds_signal : option Task;
}.
Arguments mkDaemonState {K} _ _ _ _.
Arguments ds_world {K} _.
Arguments ds_trace {K} _.
Arguments ds_tasks {K} _.
Arguments ds_signal {K} _.

Inductive UnixAddr := UnixAbstract (name : string) | UnixPath (path : string).

Class DaemonSystem (K : Type) := {
  (** [CancellationToken::cancel] *)
  dk_cancel : K -> K;
  dk_host : K -> Host;
  (** what the wait for the first sync sees *)
  dk_sync : K -> list SyncRound;
  (** [signal(..)]; binding a listener and asking for its address *)
  dk_signal : string -> io K string unit;
  dk_bind : string -> io K string unit;
  (** [metadata]: the error, when it is [NotFound] *)
  dk_missing : K -> string -> option string;
  dk_files : K -> FileSystem;
  (** the datagram to the socket of systemd *)
  dk_notify : UnixAddr -> string -> io K string unit;
  (** the pause of [get_config]: [false] when the token fires first *)
  dk_pause : K -> K * bool;
  dk_spawn : Task -> K -> K;
  (** the retries that [send_event_with_backoff] has spawned for the informer *)
  dk_retries : K -> nat;
  (** [None]: the task does not end. *)
  dk_await : Task -> K -> option K;
}.

(** Errors of [run] *)
Inductive DaemonError := DeHandler (signal e : string).

(** Steps of the daemon: the state after them with a value, or with the result
    that [run_inner] returns early *)
Definition dm (K A : Type) : Type := DaemonState K -> option (DaemonState K * result A (result Z DaemonError)).

Definition dm_ret {K A} (a : A) : dm K A := fun st => Some (st, Ok a).
Definition dm_bind {K A B} (m : dm K A) (f : A -> dm K B) : dm K B := fun st =>
  match m st with
  | None => None
  | Some (st, Ok a) => f a st
  | Some (st, Err r) => Some (st, Err r)
  end.

Notation "'let+' x ':=' m 'in' k" := (dm_bind m (fun x => k))
  (at level 10, x pattern, m at level 100, k at level 200).

(** [return Ok(code)] *)
Definition exit {K A} (code : Z) : dm K A := fun st => Some (st, Err (Ok code)).

Definition with_world {K} (st : DaemonState K) (k : K) : DaemonState K :=
  mkDaemonState k (ds_trace st) (ds_tasks st) (ds_signal st).

(** A step of the world *)
Definition in_world {K A} (f : K -> K * A) : dm K A := fun st =>
  let '(k, a) := f (ds_world st) in Some (with_world st k, Ok a).

Definition act {K} (a : Action) : dm K unit := fun st =>
  Some (mkDaemonState (ds_world st) (a :: ds_trace st) (ds_tasks st) (ds_signal st), Ok tt).

(** An error is logged and the daemon returns 1. *)
Definition or_exit {K E A} (m : io K E A) : dm K A :=
  let+ r := in_world m in
  match r with Ok a => dm_ret a | Err _ => exit 1 end.

(** ** [healthz.rs], [systemd.rs] *)

Definition readyz_handler (ready : bool) : Z * string :=
  if ready then (200, "flanneld is ready") else (503, "flanneld is not ready yet").

Definition healthz_handler : string := "flanneld is running".

Definition healthz_listen_port (port : Z) : result (option Z) string :=
  if port <=? 0 then Ok None
  else if port <? 2 ^ 16 then Ok (Some port) else Err ("listen: invalid port " +:+ fmt_dec port).

Definition strip_prefix_char (c : ascii) (s : string) : option string :=
  match s with String d s => if Ascii.eqb c d then Some s else None | "" => None end.

Definition notify_addr (socket_name : string) : UnixAddr :=
  match strip_prefix_char "@" socket_name with Some name => UnixAbstract name | None => UnixPath socket_name end.

Section Notify.
Context `{DaemonSystem K}.

Definition sd_notify_ready : io K string unit := fun k =>
  match ho_env (dk_host k) "NOTIFY_SOCKET" with
  | Some s => if str_is_empty s then (k, Ok tt) else dk_notify (notify_addr s) "READY=1" k
  | None => (k, Ok tt)
  end.
End Notify.

(** ** [subnet_mgr.rs] *)

Definition BR_NETFILTER_V4_PATH : string := "/proc/sys/net/bridge/bridge-nf-call-iptables".
Definition BR_NETFILTER_V6_PATH : string := "/proc/sys/net/bridge/bridge-nf-call-ip6tables".

(** On the text of the error with its causes *)
Definition is_timeout_like (err : string) : bool :=
  let text := to_ascii_lowercase err in
  str_has "deadline exceeded" text || str_has "timed out" text || str_has "timeout" text.

Inductive CreateError :=
| CrUnsupported
| CrConfig (e : ConfError)
| CrClient (e : ClientError)
| CrStart (e : StartError).

Section Manager.
Context `{KubeJson} `{KubeYaml} `{UrlParser} `{HttpLib} `{SerdeJson} `{ApiServer K} `{DaemonSystem K} `{SubnetManager K}.
Context (is_match : string -> bool) (pod_of : string -> result Pod string).

(** [None]: the wait for the first sync goes on. *)
Definition create_subnet_manager (opts : Options) (k : K) : option (K * result KubeState CreateError) :=
  if negb (o_kube_subnet_mgr opts) then Some (k, Err CrUnsupported)
  else
    match resolve (dk_host k) (o_kube_api_url opts) (o_kubeconfig_file opts) with
    | Err e => Some (k, Err (CrConfig e))
    | Ok config =>
        match KubeClient_new (dk_host k) config with
        | Err e => Some (k, Err (CrClient e))
        | Ok client =>
            match new_subnet_manager is_match (dk_host k) client pod_of (o_kube_annotation_prefix opts)
                    (o_net_config_path opts) (o_set_node_network_unavailable opts) (dk_sync k) k with
            | (k, Some r) => Some (k, map_err CrStart r)
            | (k, None) => None
            end
        end
    end.

(** [Err]: [Canceled]; [None]: it still tries after [fuel] rounds. *)
Fixpoint get_config (fuel : nat) (k : K) : option (K * result Config unit) :=
  match fuel with
  | O => None
  | S fuel =>
      match sm_network_config k with
      | (k, Ok config) => Some (k, Ok config)
      | (k, Err _) => let '(k, slept) := dk_pause k in if slept then get_config fuel k else Some (k, Err tt)
      end
  end.

Definition check_exists (k : K) (path : string) : result unit string :=
  match dk_missing k path with Some e => Err ("Failed to check br_netfilter: " +:+ e) | None => Ok tt end.

Definition check_br_netfilter_paths (k : K) (enable_ipv4 enable_ipv6 : bool) (v4_path v6_path : string) : result unit string :=
  let? _ := if enable_ipv4 then check_exists k v4_path else Ok tt in
  if enable_ipv6 then check_exists k v6_path else Ok tt.
End Manager.

(** ** [daemon.rs] *)

Definition with_public_ips (opts : Options) (ip ip6 : string) : Options :=
  mkOptions (o_etcd_endpoints opts) (o_etcd_prefix opts) (o_etcd_keyfile opts) (o_etcd_certfile opts) (o_etcd_cafile opts)
    (o_etcd_username opts) (o_etcd_password opts) (o_version opts) (o_kube_subnet_mgr opts) (o_kube_api_url opts)
    (o_kube_annotation_prefix opts) (o_kubeconfig_file opts) (o_iface opts) (o_iface_regex opts) (o_iface_can_reach opts)
    (o_ip_masq opts) (o_ip_masq_random_fully_disable opts) (o_subnet_file opts) ip ip6 (o_subnet_lease_renew_margin opts)
    (o_healthz_ip opts) (o_healthz_port opts) (o_iptables_resync_seconds opts) (o_iptables_forward_rules opts)
    (o_blackhole_route opts) (o_net_config_path opts) (o_set_node_network_unavailable opts) (o_install_signal_handlers opts).

Definition iface_options (opts : Options) : IfaceOptions :=
  mkIfaceOptions (o_iface opts) (o_iface_regex opts) (o_iface_can_reach opts) (o_public_ip opts) (o_public_ipv6 opts).

Section Tasks.
Context `{DaemonSystem K}.

Definition spawned (t : Task) (st : DaemonState K) : DaemonState K :=
  mkDaemonState (dk_spawn t (ds_world st)) (ASpawn t :: ds_trace st) (ds_tasks st) (ds_signal st).

(** [tasks.push(tokio::spawn(..))] *)
Definition push_task (t : Task) : dm K unit := fun st =>
  let st := spawned t st in
  Some (mkDaemonState (ds_world st) (ds_trace st) (ds_tasks st ++ [t]) (ds_signal st), Ok tt).

(** [tokio::spawn(..);] *)
Definition detach (ts : list Task) : dm K unit := fun st => Some (fold_left (fun st t => spawned t st) ts st, Ok tt).

Definition await_task (t : Task) (st : DaemonState K) : option (DaemonState K) :=
  option_map (fun k => mkDaemonState k (AAwait t :: ds_trace st) (ds_tasks st) (ds_signal st)) (dk_await t (ds_world st)).

Fixpoint await_all (ts : list Task) (st : DaemonState K) : option (DaemonState K) :=
  match ts with
  | [] => Some st
  | t :: ts => match await_task t st with Some st => await_all ts st | None => None end
  end.

(** [drain(std::mem::take(tasks)).await; drain_signal_task(signal_task.take()).await] *)
Definition drain_tasks (st : DaemonState K) : option (DaemonState K) :=
  await_all (ds_tasks st ++ option_list (ds_signal st)) (mkDaemonState (ds_world st) (ds_trace st) [] None).

Definition cancelled (st : DaemonState K) : DaemonState K :=
  mkDaemonState (dk_cancel (ds_world st)) (ACancel :: ds_trace st) (ds_tasks st) (ds_signal st).

Definition install_shutdown_handler (opts : Options) : dm K unit :=
  if negb (o_install_signal_handlers opts) then dm_ret tt
  else
    let register name :=
      let+ r := in_world (dk_signal name) in
      match r with Ok _ => dm_ret tt | Err e => fun st => Some (st, Err (Err (DeHandler name e))) end in
    let+ _ := register "SIGINT" in
    let+ _ := register "SIGTERM" in
    fun st =>
      let st := spawned TSignal st in
      Some (mkDaemonState (ds_world st) (ds_trace st) (ds_tasks st) (Some TSignal), Ok tt).

Definition start_healthz (opts : Options) : dm K unit :=
  if o_healthz_port opts <=? 0 then dm_ret tt
  else
    match healthz_listen_port (o_healthz_port opts) with
    | Err _ => exit 1
    | Ok None => dm_ret tt
    | Ok (Some port) =>
        let+ _ := or_exit (dk_bind (o_healthz_ip opts +:+ ":" +:+ fmt_dec port)) in
        push_task THealthz
    end.

(** The shutdown handler: what its select sees first *)
Definition shutdown_handler (is_cancelled signalled : bool) (k : K) : K :=
  if is_cancelled then k else if signalled then dk_cancel k else k.

Definition spawn_blackholes (opts : Options) (config : Config) : dm K unit :=
  if o_blackhole_route opts then
    let+ _ := if cfg_enable_ipv4 config then push_task TBlackholeV4 else dm_ret tt in
    if cfg_enable_ipv6 config then push_task TBlackholeV6 else dm_ret tt
  else dm_ret tt.
End Tasks.

Section Blackhole.
Context `{NlKernel K} `{SubnetManager K}.

(** The turns of the loops: [true] when the token fires during the sleep *)
Fixpoint blackhole_loop (add : io K string unit) (turns : list bool) (k : K) : K :=
  match turns with
  | [] => k
  | true :: _ => k
  | false :: turns =>
      let k := match sm_netlink k with
               | (k, Ok _) => (add k).1
               | (k, Err _) => k
               end in
      blackhole_loop add turns k
  end.

Definition blackhole_v4_loop (lease : Lease) : list bool -> K -> K := blackhole_loop (add_blackhole_v4_route (l_subnet lease)).
Definition blackhole_v6_loop (lease : Lease) : list bool -> K -> K := blackhole_loop (add_blackhole_v6_route (l_ipv6_subnet lease)).
End Blackhole.

Section Run.
Context `{KubeJson} `{KubeYaml} `{UrlParser} `{HttpLib} `{SerdeJson} `{ApiServer K} `{DaemonSystem K} `{SubnetManager K}
  `{NlKernel K} `{RegexEngine} `{IptSystem K}.
Context (is_match : string -> bool) (pod_of : string -> result Pod string) (bm : BackendManager K) (fuel : nat).

(** What the subnet manager spawned: the fan-out and the informer, unless it
    goes without an informer or failed before it, that is, otherwise than in
    the wait for the first sync *)
Definition manager_tasks (r : result KubeState CreateError) : list Task :=
  match r with
  | Ok sm => if km_disable_node_informer (kst_mgr sm) then [] else [TFanOut; TInformer]
  | Err (CrStart (SeSync _)) => [TFanOut; TInformer]
  | Err _ => []
  end.

(** Whatever the error, the daemon returns 1; only the log differs. *)
Definition start_manager (opts : Options) : dm K unit := fun st =>
  match create_subnet_manager is_match pod_of opts (ds_world st) with
  | None => None
  | Some (k, r) =>
      (let+ _ := detach (manager_tasks r) in
       match r with Ok _ => dm_ret tt | Err _ => exit 1 end) (with_world st k)
  end.

Definition fetch_config : dm K Config := fun st =>
  match get_config fuel (ds_world st) with
  | None => None
  | Some (k, Ok config) => Some (with_world st k, Ok config)
  | Some (k, Err _) => Some (with_world st k, Err (Ok 0))
  end.

Definition stored_or (stored given : string) : string := if str_is_empty stored then given else stored.

(** From the configuration to the registered network: stack, br_netfilter,
    stored addresses, external interface, backend *)
Definition register_network (opts : Options) (config : Config) : dm K (Network K) :=
  let+ ip_stack := or_exit (io_lift (get_ip_family (cfg_enable_ipv4 config) (cfg_enable_ipv6 config))) in
  let+ _ := if negb (cfg_enable_nftables config) then
              or_exit (fun k => (k, check_br_netfilter_paths k (cfg_enable_ipv4 config) (cfg_enable_ipv6 config)
                                      BR_NETFILTER_V4_PATH BR_NETFILTER_V6_PATH))
            else dm_ret tt in
  let+ (ip, ip6) := in_world sm_stored_public_ip in
  let opts := with_public_ips opts (stored_or ip (o_public_ip opts)) (stored_or ip6 (o_public_ipv6 opts)) in
  let+ ext_iface := or_exit (fun k =>
    let '(k, connection) := sm_netlink k in
    (k, select_external_iface (let? _ := map_err fmt_anyhow connection in Ok k) (iface_options opts) ip_stack)) in
  let+ be := or_exit (io_lift (bm_create bm (cfg_backend_type config) ext_iface)) in
  let+ bn := or_exit (be config) in
  let+ _ := act ARegister in
  dm_ret bn.

(** Removing the rules of the other manager, then [init] *)
Definition init_traffic (config : Config) : dm K TrafficManager :=
  let+ _ := or_exit (tm_clean_up sm_is_cancelled (new_traffic_manager (negb (cfg_enable_nftables config)))) in
  let+ (tm, r) := in_world (fun k =>
    let '(k, tm, r) := tm_init sm_is_cancelled (new_traffic_manager (cfg_enable_nftables config)) k in (k, (tm, r))) in
  match r with Ok _ => dm_ret tm | Err _ => exit 1 end.

(** The resync tasks of the iptables manager *)
Definition resync_tasks (tm : TrafficManager) : list Task :=
  match tm with TmIptables m => repeat TResync (length (im_tasks m)) | TmNftables _ => [] end.

(** The ones that a call spawned *)
Definition new_resyncs (before after : TrafficManager) : list Task :=
  drop (length (resync_tasks before)) (resync_tasks after).

Definition setup_masquerade (opts : Options) (config : Config) (lease : Lease) (tm : TrafficManager) : dm K TrafficManager :=
  if o_ip_masq opts then
    let+ (tm', r) := in_world (fun k =>
      let file := o_subnet_file opts in
      let '(k, tm, r) :=
        tm_setup_masq sm_is_cancelled tm (cfg_network config)
          (read_cidr_from_subnet_file (dk_files k) file "FLANNEL_SUBNET")
          (read_cidr_from_subnet_file (dk_files k) file "FLANNEL_NETWORK")
          (cfg_ipv6_network config)
          (read_ip6_cidr_from_subnet_file (dk_files k) file "FLANNEL_IPV6_SUBNET")
          (read_ip6_cidr_from_subnet_file (dk_files k) file "FLANNEL_IPV6_NETWORK")
          lease (o_iptables_resync_seconds opts) (o_ip_masq_random_fully_disable opts) k in
      (k, (tm, r))) in
    let+ _ := detach (new_resyncs tm tm') in
    match r with
    | Ok _ => let+ _ := act AMasq in dm_ret tm'
    | Err _ => exit 1
    end
  else dm_ret tm.

Definition setup_forward (opts : Options) (config : Config) (tm : TrafficManager) : dm K TrafficManager :=
  if o_iptables_forward_rules opts then
    let+ tm' := in_world (tm_setup_forward sm_is_cancelled tm (cfg_network config) (cfg_ipv6_network config)
                            (o_iptables_resync_seconds opts)) in
    let+ _ := detach (new_resyncs tm tm') in
    let+ _ := act AForward in
    dm_ret tm'
  else dm_ret tm.

(** The subnet file; a failure is only logged, and the daemon not ready. *)
Definition publish_subnet (opts : Options) (config : Config) (bn : Network K) : dm K unit :=
  let lease := net_lease bn in
  let+ r := in_world (sm_handle_subnet_file (o_subnet_file opts) config (o_ip_masq opts) (l_subnet lease)
                        (l_ipv6_subnet lease) (net_mtu bn)) in
  match r with
  | Ok _ => let+ _ := act (AWrite (o_subnet_file opts)) in act AReady
  | Err _ => dm_ret tt
  end.

(** An error is logged; a revoked lease also cancels the token. *)
Definition complete_lease_exit_code (r : result unit bool) : dm K Z := fun st =>
  match r with
  | Err true => Some (cancelled st, Ok 0)
  | _ => Some (st, Ok 0)
  end.

(** From running the backend to the clean exit *)
Definition serve (bn : Network K) : dm K Z :=
  let+ _ := fun st => Some (spawned TBackend st, Ok tt) in
  let+ _ := in_world sd_notify_ready in
  let+ _ := act ANotify in
  let+ r := in_world (sm_complete_lease (net_lease bn)) in
  let+ _ := act AComplete in
  let+ code := complete_lease_exit_code r in
  fun st =>
    match await_task TBackend st with
    | None => None
    | Some st => match drain_tasks st with None => None | Some st => Some (st, Ok code) end
    end.

Definition run_inner (opts : Options) : dm K Z :=
  let+ _ := start_manager opts in
  let+ _ := install_shutdown_handler opts in
  let+ _ := start_healthz opts in
  let+ config := fetch_config in
  let+ bn := register_network opts config in
  let+ tm := init_traffic config in
  let+ tm := setup_masquerade opts config (net_lease bn) tm in
  let+ _ := setup_forward opts config tm in
  let+ _ := spawn_blackholes opts config in
  let+ _ := publish_subnet opts config bn in
  serve bn.

Definition inner_result (r : result Z (result Z DaemonError)) : result Z DaemonError :=
  match r with Ok code => Ok code | Err r => r end.

Definition initial (k : K) : DaemonState K := mkDaemonState k [] [] None.

Definition margin_valid (margin : Z) : bool := negb ((24 * 60 <=? margin) || (margin <=? 0)).

(** The retries that a running informer spawned on the way, up to the
    cancellation: after it, [send_event_with_backoff] spawns none. *)
Definition retried (st : DaemonState K) : DaemonState K :=
  fold_left (fun st t => spawned t st)
    (if bool_decide (ASpawn TInformer ∈ ds_trace st) then repeat TRetry (dk_retries (ds_world st)) else []) st.

Definition run_daemon (opts : Options) (k : K) : option (DaemonState K * result Z DaemonError) :=
  if o_version opts then Some (initial k, Ok 0)
  else if negb (margin_valid (o_subnet_lease_renew_margin opts)) then Some (initial k, Ok 1)
  else
    match run_inner opts (initial k) with
    | None => None
    | Some (st, r) =>
        match drain_tasks (cancelled (retried st)) with
        | None => None
        | Some st => Some (st, inner_result r)
        end
    end.

(** The end of [main] *)
Definition exit_code (r : result Z DaemonError) : Z := match r with Ok code => code | Err _ => 1 end.
End Run.

(** * Theorems *)

(** ** What the trace says *)

Fixpoint remove_task (t : Task) (l : list Task) : list Task :=
  match l with
  | [] => []
  | u :: l => if decide (t = u) then l else u :: remove_task t l
  end.

(** The tasks that were spawned and not awaited *)
Fixpoint running_tasks (tr : list Action) : list Task :=
  match tr with
  | [] => []
  | ASpawn t :: tr => t :: running_tasks tr
  | AAwait t :: tr => remove_task t (running_tasks tr)
  | _ :: tr => running_tasks tr
  end.

Fixpoint spawned_tasks (tr : list Action) : list Task :=
  match tr with
  | [] => []
  | ASpawn t :: tr => t :: spawned_tasks tr
  | _ :: tr => spawned_tasks tr
  end.

(** The tasks without a handle that were spawned *)
Definition detached_tasks (tr : list Action) : list Task := List.filter detached (spawned_tasks tr).

(** The tasks whose handles [run] drains *)
Definition kept (t : Task) : bool :=
  match t with THealthz | TBlackholeV4 | TBlackholeV6 | TSignal => true | _ => false end.

(** What precedes the announcement of readiness *)
Definition ready_needs (opts : Options) : list Action :=
  [AWrite (o_subnet_file opts); ARegister] ++ (if o_ip_masq opts then [AMasq] else [])
  ++ (if o_iptables_forward_rules opts then [AForward] else []).

Fixpoint ready_ordered (opts : Options) (tr : list Action) : Prop :=
  match tr with
  | [] => True
  | AReady :: tr => incl (ready_needs opts) tr /\ ready_ordered opts tr
  | _ :: tr => ready_ordered opts tr
  end.

Lemma remove_task_perm t l l' : l ≡ₚ t :: l' -> remove_task t l ≡ₚ l'.
Proof.
  revert l'. induction l as [|u l IH]; intros l' Hp; [by apply Permutation_nil_l in Hp|]. cbn [remove_task].
  destruct (decide (t = u)) as [->|Hne]; [by apply Permutation_cons_inv in Hp|].
  assert (u ∈ l') as Hu.
  { assert (u ∈ t :: l') as Hin by (rewrite <- Hp; by left). apply elem_of_cons in Hin as [->|]; done. }
  apply list_elem_of_split in Hu as (a & b & ->). rewrite <- Permutation_middle in Hp |- *.
  f_equiv. apply IH. rewrite perm_swap in Hp. by apply Permutation_cons_inv in Hp.
Qed.

(** A quiet action neither spawns nor awaits, and is no announcement. *)
Definition quiet (a : Action) : bool :=
  match a with ASpawn _ | AAwait _ | AReady => false | _ => true end.

Section Triples.
Context {K : Type} (opts : Options).

(** [extra] and the detached tasks run without being recorded; the recorded
    ones are those that are drained. *)
Definition tasks_recorded (extra : list Task) (st : DaemonState K) : Prop :=
  running_tasks (ds_trace st) ≡ₚ extra ++ ds_tasks st ++ option_list (ds_signal st) ++ detached_tasks (ds_trace st)
  /\ forallb kept (ds_tasks st ++ option_list (ds_signal st)) = true.

(** Before the backend runs: what is certain of the trace, [facts] included *)
Definition starting (facts : list Action) (st : DaemonState K) : Prop :=
  tasks_recorded [] st /\ ready_ordered opts (ds_trace st) /\ incl facts (ds_trace st) /\ ~ In (ASpawn TBackend) (ds_trace st).

(** A step from [P]: its value in [Q], an early return in [starting []] *)
Definition triple {A} (P : DaemonState K -> Prop) (m : dm K A) (Q : A -> DaemonState K -> Prop) : Prop :=
  forall st st' r, P st -> m st = Some (st', r) ->
    match r with
    | Ok a => Q a st'
    | Err r => starting [] st' /\ (r = Ok 0 \/ r = Ok 1 \/ exists s e, r = Err (DeHandler s e))
    end.

Lemma triple_ret {A} P (a : A) : triple P (dm_ret a) (fun _ => P).
Proof. by intros st st' r Hp [= <- <-]. Qed.

Lemma triple_bind {A B} P (m : dm K A) (f : A -> dm K B) Q R :
  triple P m Q -> (forall a, triple (Q a) (f a) R) -> triple P (dm_bind m f) R.
Proof.
  intros Hm Hf st st' r Hp. unfold dm_bind. destruct (m st) as [[s1 [a|e]]|] eqn:He; [| |done].
  - intros Hr. exact (Hf a s1 st' r (Hm _ _ _ Hp He) Hr).
  - intros [= <- <-]. exact (Hm _ _ _ Hp He).
Qed.

Lemma triple_weaken {A} P P' (m : dm K A) Q : (forall st, P st -> P' st) -> triple P' m Q -> triple P m Q.
Proof. intros Hw Hm st st' r Hp. apply Hm. by apply Hw. Qed.

Lemma starting_incl facts facts' st : incl facts' facts -> starting facts st -> starting facts' st.
Proof. intros Hi (Hr & Ho & Hf & Hb). split_and!; [done..| |done]. exact (incl_tran Hi Hf). Qed.

Lemma starting_none facts st : starting facts st -> starting [] st.
Proof. apply starting_incl. by intros a []. Qed.

Lemma triple_exit {A} facts code Q : code = 0 \/ code = 1 -> triple (starting facts) (@exit K A code) Q.
Proof. intros Hc st st' r Hs [= <- <-]. split; [by apply (starting_none facts)|]. destruct Hc as [->| ->]; auto. Qed.

Lemma triple_world {A} facts (f : K -> K * A) : triple (starting facts) (in_world f) (fun _ => starting facts).
Proof. intros st st' r Hs. unfold in_world. destruct (f (ds_world st)) as [k a]. by intros [= <- <-]. Qed.

Lemma triple_or_exit {E A} facts (m : io K E A) : triple (starting facts) (or_exit m) (fun _ => starting facts).
Proof.
  unfold or_exit. eapply triple_bind; [apply triple_world|]. intros [a|e]; [apply triple_ret|]. apply triple_exit. by right.
Qed.

Lemma triple_act facts a : quiet a = true -> triple (starting facts) (act a) (fun _ => starting (a :: facts)).
Proof.
  intros Hq st st' r (Hr & Ho & Hf & Hb) [= <- <-]. split_and!; cbn [ds_trace].
  - unfold tasks_recorded, detached_tasks in *. cbn. destruct a; done.
  - destruct a; done.
  - intros b [<-|Hin]; [by left|]. right. by apply Hf.
  - intros [->|Hin]; done.
Qed.

Lemma triple_ready facts : incl (ready_needs opts) facts -> triple (starting facts) (act AReady) (fun _ => starting facts).
Proof.
  intros Hi st st' r (Hr & Ho & Hf & Hb) [= <- <-]. split_and!; cbn [ds_trace].
  - exact Hr.
  - split; [exact (incl_tran Hi Hf)|done].
  - by apply incl_tl.
  - by intros [?|?].
Qed.
End Triples.

Section Steps.
Context `{DaemonSystem K} (opts : Options).

Lemma triple_push facts t :
  kept t = true -> triple (K := K) opts (starting opts facts) (push_task t) (fun _ => starting opts facts).
Proof.
  intros Ht st st' r ((Hr & Hk) & Ho & Hf & Hb) Hp. unfold push_task in Hp. injection Hp as <- <-. split_and!; cbn.
  - split; cbn.
    + unfold detached_tasks in *. cbn. replace (detached t) with false by (by destruct t). rewrite Hr. cbn.
      by rewrite <- app_assoc, Permutation_middle.
    + rewrite !forallb_app in *. cbn [forallb]. rewrite Ht. destruct (forallb kept (ds_tasks st)); [exact Hk|done].
  - exact Ho.
  - by apply incl_tl.
  - intros [[= ->]|?]; done.
Qed.

(** Spawning without a handle keeps what is recorded and adds no backend. *)
Lemma recorded_detached extra t (st : DaemonState K) :
  detached t = true -> tasks_recorded extra st -> tasks_recorded extra (spawned t st).
Proof.
  intros Ht [Hr Hk]. split; [|exact Hk]. cbn. unfold detached_tasks in *. cbn. rewrite Ht, Hr.
  by rewrite !app_assoc, <- Permutation_middle.
Qed.

Lemma starting_detached facts ts (st : DaemonState K) :
  forallb detached ts = true -> starting opts facts st -> starting opts facts (fold_left (fun st t => spawned t st) ts st).
Proof.
  revert st. induction ts as [|t ts IH]; intros st Ht Hs; [exact Hs|]. cbn [forallb] in Ht. apply andb_true_iff in Ht as [Ht Hts].
  cbn [fold_left]. apply (IH _ Hts). destruct Hs as (Hr & Ho & Hf & Hb). split_and!; cbn.
  - by apply recorded_detached.
  - exact Ho.
  - by apply incl_tl.
  - intros [[= ->]|?]; done.
Qed.

Lemma triple_detach facts ts :
  forallb detached ts = true -> triple (K := K) opts (starting opts facts) (detach ts) (fun _ => starting opts facts).
Proof. intros Ht st st' r Hs [= <- <-]. by apply starting_detached. Qed.

Lemma triple_signals facts : triple (K := K) opts (fun st => starting opts facts st /\ ds_signal st = None)
  (install_shutdown_handler opts) (fun _ => starting opts facts).
Proof.
  unfold install_shutdown_handler. destruct (o_install_signal_handlers opts); cbn [negb];
    [|eapply triple_weaken; [|apply triple_ret]; by intros st []].
  assert (forall name, triple (K := K) opts (fun st => starting opts facts st /\ ds_signal st = None)
    (let+ r := in_world (dk_signal name) in
     match r with Ok _ => dm_ret tt | Err e => fun st => Some (st, Err (Err (DeHandler name e))) end)
    (fun _ st => starting opts facts st /\ ds_signal st = None)) as Hreg.
  { intros name st st' r [Hs Hn]. unfold dm_bind, in_world. destruct (dk_signal name (ds_world st)) as [k [[]|e]].
    - by intros [= <- <-].
    - intros [= <- <-]. split; [by apply (starting_none _ facts) in Hs|]. right. right. by eexists _, _. }
  eapply triple_bind; [apply Hreg|]. intros []. eapply triple_bind; [apply Hreg|]. intros [].
  intros st st' r [((Hr & Hk) & Ho & Hf & Hb) Hn] [= <- <-]. rewrite Hn in Hr, Hk. split_and!; cbn.
  - unfold tasks_recorded, detached_tasks in *. cbn in *. split.
    + rewrite Hr. by rewrite <- Permutation_middle.
    + rewrite forallb_app in *. cbn [forallb] in *. by rewrite andb_true_r in Hk |- *.
  - exact Ho.
  - by apply incl_tl.
  - by intros [?|?].
Qed.

Lemma triple_healthz facts : triple (K := K) opts (starting opts facts) (start_healthz opts) (fun _ => starting opts facts).
Proof.
  unfold start_healthz. destruct (o_healthz_port opts <=? 0); [apply triple_ret|].
  destruct (healthz_listen_port _) as [[port|]|]; [|apply triple_ret|apply triple_exit; by right].
  eapply triple_bind; [apply triple_or_exit|]. intros []. by apply triple_push.
Qed.

Lemma triple_blackholes facts config :
  triple (K := K) opts (starting opts facts) (spawn_blackholes opts config) (fun _ => starting opts facts).
Proof.
  unfold spawn_blackholes. destruct (o_blackhole_route opts); [|apply triple_ret].
  eapply triple_bind with (Q := fun _ => starting opts facts).
  - destruct (cfg_enable_ipv4 config); [by apply triple_push|apply triple_ret].
  - intros []. destruct (cfg_enable_ipv6 config); [by apply triple_push|apply triple_ret].
Qed.

(** Awaiting recorded tasks takes them off the running ones. *)
Lemma await_all_running ts rest (st st' : DaemonState K) :
  running_tasks (ds_trace st) ≡ₚ ts ++ rest -> await_all ts st = Some st' ->
  running_tasks (ds_trace st') ≡ₚ rest /\ spawned_tasks (ds_trace st') = spawned_tasks (ds_trace st)
  /\ ds_tasks st' = ds_tasks st /\ ds_signal st' = ds_signal st
  /\ (ready_ordered opts (ds_trace st) -> ready_ordered opts (ds_trace st'))
  /\ incl (ds_trace st) (ds_trace st').
Proof.
  revert st. induction ts as [|t ts IH]; intros st Hr; cbn [await_all].
  - intros [= <-]. split_and!; try done. apply incl_refl.
  - unfold await_task. destruct (dk_await t (ds_world st)) as [k|]; [|done]. cbn [option_map]. intros Ha.
    apply IH in Ha as (Hr' & Hsp & Ht & Hs & Ho & Hi); [|cbn; by apply remove_task_perm].
    split_and!; [done..| |].
    + intros Hd. by apply Ho.
    + intros a Hin. apply Hi. by right.
Qed.

Lemma await_all_no_spawn t ts (st st' : DaemonState K) :
  await_all ts st = Some st' -> In (ASpawn t) (ds_trace st') -> In (ASpawn t) (ds_trace st).
Proof.
  revert st. induction ts as [|u ts IH]; intros st; cbn [await_all]; [by intros [= <-]|].
  unfold await_task. destruct (dk_await u (ds_world st)) as [k|]; [|done]. cbn [option_map]. intros Ha Hin.
  by apply (IH _ Ha) in Hin as [?|?].
Qed.

Lemma drain_no_spawn t (st st' : DaemonState K) :
  drain_tasks st = Some st' -> In (ASpawn t) (ds_trace st') -> In (ASpawn t) (ds_trace st).
Proof. apply (await_all_no_spawn t). Qed.

Lemma drain_running extra (st st' : DaemonState K) :
  tasks_recorded extra st -> drain_tasks st = Some st' ->
  running_tasks (ds_trace st') ≡ₚ extra ++ detached_tasks (ds_trace st')
  /\ ds_tasks st' = [] /\ ds_signal st' = None
  /\ (ready_ordered opts (ds_trace st) -> ready_ordered opts (ds_trace st'))
  /\ incl (ds_trace st) (ds_trace st').
Proof.
  intros [Hr _] Hd. unfold drain_tasks in Hd. apply (await_all_running _ (extra ++ detached_tasks (ds_trace st))) in Hd.
  - destruct Hd as (Hrun & Hsp & Hrest). split; [|exact Hrest]. unfold detached_tasks in *. by rewrite Hrun, Hsp.
  - cbn. rewrite Hr, !app_assoc. f_equiv. by rewrite <- app_assoc, Permutation_app_comm.
Qed.
End Steps.

(** ** The whole run *)

Section RunTheorems.
Context `{KubeJson} `{KubeYaml} `{UrlParser} `{HttpLib} `{SerdeJson} `{ApiServer K} `{DaemonSystem K} `{SubnetManager K}
  `{NlKernel K} `{RegexEngine} `{IptSystem K}.
Context (is_match : string -> bool) (pod_of : string -> result Pod string) (bm : BackendManager K) (fuel : nat) (opts : Options).

#[local] Abbreviation Tr P m Q := (triple (K := K) opts P m Q).

Lemma triple_register config :
  Tr (starting opts []) (register_network bm opts config) (fun _ => starting opts [ARegister]).
Proof.
  unfold register_network. eapply triple_bind; [apply triple_or_exit|]. intros ip_stack.
  eapply triple_bind with (Q := fun _ => starting opts []).
  { destruct (negb _); [apply triple_or_exit|apply triple_ret]. }
  intros []. eapply triple_bind; [apply triple_world|]. intros [ip ip6]. cbv zeta.
  do 3 (eapply triple_bind; [apply triple_or_exit|intros ?]).
  eapply triple_bind; [by apply triple_act|]. intros []. apply triple_ret.
Qed.

Lemma triple_traffic facts config : Tr (starting opts facts) (init_traffic config) (fun _ => starting opts facts).
Proof.
  unfold init_traffic. eapply triple_bind; [apply triple_or_exit|]. intros [].
  eapply triple_bind; [apply triple_world|]. intros [tm [[]|]]; [apply triple_ret|apply triple_exit; by right].
Qed.

Lemma detached_repeat t n : detached t = true -> forallb detached (repeat t n) = true.
Proof. intros Ht. induction n as [|n IH]; cbn; [done|]. by rewrite Ht. Qed.

Lemma resyncs_detached before after : forallb detached (new_resyncs before after) = true.
Proof.
  unfold new_resyncs. destruct after as [m|m]; cbn [resync_tasks]; [|by rewrite drop_nil].
  set (n := length (resync_tasks before)). clearbody n. generalize (length (im_tasks m)) as i.
  induction n as [|n IH]; intros [|i]; cbn [repeat drop]; [done|by apply (detached_repeat TResync (S i))|done|apply IH].
Qed.

Lemma triple_masq facts config lease tm :
  Tr (starting opts facts) (setup_masquerade opts config lease tm)
    (fun _ => starting opts ((if o_ip_masq opts then [AMasq] else []) ++ facts)).
Proof.
  unfold setup_masquerade. destruct (o_ip_masq opts); [|apply triple_ret].
  eapply triple_bind; [apply triple_world|]. intros [tm' r]. eapply triple_bind; [apply triple_detach, resyncs_detached|]. intros [].
  destruct r as [[]|]; [|apply triple_exit; by right]. eapply triple_bind; [by apply triple_act|]. intros []. apply triple_ret.
Qed.

Lemma triple_forward facts config tm :
  Tr (starting opts facts) (setup_forward opts config tm)
    (fun _ => starting opts ((if o_iptables_forward_rules opts then [AForward] else []) ++ facts)).
Proof.
  unfold setup_forward. destruct (o_iptables_forward_rules opts); [|apply triple_ret].
  eapply triple_bind; [apply triple_world|]. intros tm'. eapply triple_bind; [apply triple_detach, resyncs_detached|]. intros [].
  eapply triple_bind; [by apply triple_act|]. intros []. apply triple_ret.
Qed.

Lemma triple_publish facts config bn :
  incl (ready_needs opts) (AWrite (o_subnet_file opts) :: facts) ->
  Tr (starting opts facts) (publish_subnet opts config bn) (fun _ => starting opts facts).
Proof.
  intros Hi. unfold publish_subnet. cbv zeta. eapply triple_bind; [apply triple_world|]. intros [[]|]; [|apply triple_ret].
  eapply triple_bind; [by apply triple_act|]. intros [] st st' r Hs Hr.
  pose proof (triple_ready opts _ Hi st st' r Hs Hr) as Hq. destruct r; [|done]. eapply starting_incl; [|exact Hq].
  by apply incl_tl, incl_refl.
Qed.

(** While the backend runs, it is the only awaited task that is not recorded. *)
Definition serving (st : DaemonState K) : Prop :=
  tasks_recorded [TBackend] st /\ ready_ordered opts (ds_trace st) /\ In (ASpawn TBackend) (ds_trace st).

Lemma serving_world {A B} (f : K -> K * A) (g : A -> dm K B) st out :
  serving st -> dm_bind (in_world f) g st = Some out -> exists s a, serving s /\ g a s = Some out.
Proof.
  intros Hs. unfold dm_bind, in_world. destruct (f (ds_world st)) as [k a]. intros Hg. exists (with_world st k), a.
  split; [exact Hs|exact Hg].
Qed.

Lemma serving_note a st : quiet a = true -> serving st ->
  serving (mkDaemonState (ds_world st) (a :: ds_trace st) (ds_tasks st) (ds_signal st)).
Proof.
  intros Hq (Hr & Ho & Hb). split_and!; cbn [ds_trace].
  - unfold tasks_recorded, detached_tasks in *. cbn. by destruct a.
  - by destruct a.
  - by right.
Qed.

(** After [serve], only detached tasks run; the code is 0. *)
Lemma serve_drains facts bn st st' r :
  starting opts facts st -> serve bn st = Some (st', r) ->
  r = Ok 0 /\ tasks_recorded [] st' /\ ready_ordered opts (ds_trace st') /\ In (ASpawn TBackend) (ds_trace st').
Proof.
  intros (Hr & Ho & _ & _). unfold serve. unfold dm_bind at 1.
  assert (serving (spawned TBackend st)) as Hs.
  { split_and!; cbn; [|done|by left]. destruct Hr as [Hr Hk]. split; [|exact Hk]. unfold detached_tasks in *. cbn. by rewrite Hr. }
  intros (s1 & r1 & Hs1 & Hg)%(serving_world _ _ _ _ Hs). unfold dm_bind at 1, act at 1 in Hg.
  apply (serving_world _ _ _ _ (serving_note ANotify _ eq_refl Hs1)) in Hg as (s2 & r2 & Hs2 & Hg).
  unfold dm_bind at 1, act at 1 in Hg. set (s3 := mkDaemonState _ _ _ _) in Hg.
  assert (serving s3) as Hs3 by exact (serving_note AComplete _ eq_refl Hs2). clearbody s3.
  unfold dm_bind, complete_lease_exit_code in Hg.
  assert (exists s4, serving s4 /\ match await_task TBackend s4 with
                                  | None => None
                                  | Some st => match drain_tasks st with None => None | Some st => Some (st, Ok 0) end
                                  end = Some (st', r)) as (s4 & (Hr4 & Ho4 & Hb4) & Hg4).
  { destruct r2 as [u|[]]; [by exists s3|exists (cancelled s3)|by exists s3]. split; [exact (serving_note ACancel _ eq_refl Hs3)|exact Hg]. }
  unfold await_task in Hg4. destruct (dk_await TBackend (ds_world s4)) as [k|]; [|done]. cbn [option_map] in Hg4.
  set (s5 := mkDaemonState k _ _ _) in Hg4.
  assert (tasks_recorded [] s5) as Hr5
    by (destruct Hr4 as [Hr4 Hk4]; split; [cbn; by apply remove_task_perm|exact Hk4]).
  destruct (drain_tasks s5) as [s6|] eqn:Hd; [|done]. injection Hg4 as <- <-.
  destruct (drain_running opts [] _ _ Hr5 Hd) as (Hrun & Ht & Hsig & Hord & Hi). split_and!; [done| |by apply Hord|apply Hi; by right].
  unfold tasks_recorded. by rewrite Ht, Hsig.
Qed.

(** What [run_inner] comes to when it does not return early *)
Definition served (code : Z) (st : DaemonState K) : Prop :=
  code = 0 /\ tasks_recorded [] st /\ ready_ordered opts (ds_trace st) /\ In (ASpawn TBackend) (ds_trace st).

Lemma triple_serve facts bn : Tr (starting opts facts) (serve bn) served.
Proof. intros st st' r Hs Hr. destruct (serve_drains facts bn st st' r Hs Hr) as (-> & Hq). by split. Qed.

Lemma manager_detached o : forallb detached (manager_tasks o) = true.
Proof. by destruct o as [sm|[| | |[]]]; cbn; try destruct (km_disable_node_informer _). Qed.

Lemma detach_signal ts (st : DaemonState K) : ds_signal (fold_left (fun st t => spawned t st) ts st) = ds_signal st.
Proof. revert st. induction ts as [|t ts IH]; intros st; [done|]. cbn. by rewrite IH. Qed.

Lemma triple_manager facts :
  Tr (fun st => starting opts facts st /\ ds_signal st = None) (start_manager is_match pod_of opts)
    (fun _ st => starting opts facts st /\ ds_signal st = None).
Proof.
  intros st st' r [Hs Hn]. unfold start_manager. destruct (create_subnet_manager _ _ _ _) as [[k o]|]; [|done].
  assert (starting opts facts (fold_left (fun st t => spawned t st) (manager_tasks o) (with_world st k))) as Hd
    by (apply starting_detached; [apply manager_detached|exact Hs]).
  pose proof (detach_signal (manager_tasks o) (with_world st k)) as Hn'. unfold dm_bind, detach.
  destruct o as [sm|e]; intros [= <- <-]; [split; [exact Hd|by etransitivity]|]. split; [by apply (starting_none _ facts) in Hd|]. auto.
Qed.

Lemma triple_config facts : Tr (starting opts facts) (fetch_config fuel) (fun _ => starting opts facts).
Proof.
  intros st st' r Hs. unfold fetch_config. destruct (get_config fuel _) as [[k [c|e]]|]; [| |done].
  - by intros [= <- <-].
  - intros [= <- <-]. split; [by apply (starting_none _ facts) in Hs|]. auto.
Qed.

Lemma run_inner_outcome :
  Tr (fun st => starting opts [] st /\ ds_signal st = None) (run_inner is_match pod_of bm fuel opts) served.
Proof.
  unfold run_inner. eapply triple_bind; [apply triple_manager|]. intros [].
  eapply triple_bind; [apply triple_signals|]. intros [].
  eapply triple_bind; [apply triple_healthz|]. intros [].
  eapply triple_bind; [apply triple_config|]. intros config.
  eapply triple_bind; [apply triple_register|]. intros bn.
  eapply triple_bind; [apply triple_traffic|]. intros tm.
  eapply triple_bind; [apply triple_masq|]. intros tm'.
  eapply triple_bind; [apply triple_forward|]. intros tm''.
  eapply triple_bind; [apply triple_blackholes|]. intros [].
  eapply triple_bind; [apply triple_publish|]; [|intros []; apply triple_serve].
  unfold ready_needs. intros a Ha. rewrite !in_app_iff in Ha. cbn [In] in Ha |- *. rewrite !in_app_iff. cbn [In]. tauto.
Qed.

Lemma initial_starting (k : K) : starting opts [] (initial k) /\ ds_signal (initial k) = None.
Proof. split; [|done]. split_and!; [by split|done|apply incl_nil_l|by intros ?]. Qed.

(** ** Shutdown *)

(** Cancelling cancels, and lasts.  A task whose handle [run] keeps ends after
    the cancellation: the signal handler and the blackhole loops wait in a
    [select!] on the token, and axum ends its server when the future of
    [with_graceful_shutdown] does, once no client holds a connection open. *)
Class DaemonLaws : Prop := {
  dl_cancel : forall k : K, sm_is_cancelled (dk_cancel k) = true;
  dl_await : forall t (k : K), kept t = true -> sm_is_cancelled k = true ->
    exists k', dk_await t k = Some k' /\ sm_is_cancelled k' = true;
}.

Lemma await_all_cancelled `{DaemonLaws} ts (st : DaemonState K) :
  forallb kept ts = true -> sm_is_cancelled (ds_world st) = true ->
  exists st', await_all ts st = Some st' /\ sm_is_cancelled (ds_world st') = true.
Proof.
  revert st. induction ts as [|t ts IH]; intros st Ht Hc; cbn [await_all]; [by eexists|].
  cbn [forallb] in Ht. apply andb_true_iff in Ht as [Ht Hts].
  unfold await_task. destruct (dl_await t _ Ht Hc) as (k & -> & Hk). cbn [option_map]. by apply IH.
Qed.

(** Whatever [run_inner] comes to, the tasks are recorded and the trace is
    ordered, also with the retries and the cancellation. *)
Lemma run_inner_recorded k st r :
  run_inner is_match pod_of bm fuel opts (initial k) = Some (st, r) ->
  tasks_recorded [] (cancelled (retried st)) /\ ready_ordered opts (ds_trace (cancelled (retried st))).
Proof.
  intros Hr. pose proof (run_inner_outcome _ _ _ (initial_starting k) Hr) as Ho.
  assert (tasks_recorded [] st /\ ready_ordered opts (ds_trace st)) as [Hrec Hord].
  { destruct r as [code|e]; [destruct Ho as (_ & ? & ? & _)|destruct Ho as ((? & ? & _) & _)]; done. }
  unfold retried. set (ts := if bool_decide _ then _ else _).
  assert (forallb detached ts = true) as Hts by (unfold ts; case_bool_decide; [by apply detached_repeat|done]).
  clearbody ts. clear Ho Hr. revert st Hrec Hord. induction ts as [|t ts IH]; intros st Hrec Hord.
  - split; [|exact Hord]. exact Hrec.
  - cbn [forallb] in Hts. apply andb_true_iff in Hts as [Ht Hts]. cbn [fold_left]. apply (IH Hts); [|exact Hord].
    by apply recorded_detached.
Qed.

Lemma retried_spawns t st : t <> TRetry -> In (ASpawn t) (ds_trace (retried st)) -> In (ASpawn t) (ds_trace st).
Proof.
  intros Ht. unfold retried. case_bool_decide; [|done]. generalize (dk_retries (ds_world st)) as n. clear H10. intros n. revert st.
  induction n as [|n IH]; intros st; [done|]. cbn [repeat fold_left]. intros Hin. apply IH in Hin. cbn in Hin. destruct Hin as [[= <-]|?]; done.
Qed.

(** Whatever [run_inner] returns, [run] returns too. *)
Lemma run_after_inner `{DaemonLaws} k st r :
  o_version opts = false -> margin_valid (o_subnet_lease_renew_margin opts) = true ->
  run_inner is_match pod_of bm fuel opts (initial k) = Some (st, r) ->
  exists st', drain_tasks (cancelled (retried st)) = Some st' /\ sm_is_cancelled (ds_world st') = true
    /\ run_daemon is_match pod_of bm fuel opts k = Some (st', inner_result r).
Proof.
  intros Hv Hm Hr. destruct (run_inner_recorded k st r Hr) as [[_ Hk] _]. set (s := cancelled (retried st)) in *.
  destruct (await_all_cancelled (ds_tasks s ++ option_list (ds_signal s)) (mkDaemonState (ds_world s) (ds_trace s) [] None) Hk (dl_cancel _))
    as (st' & Ha & Hc).
  exists st'. unfold run_daemon. rewrite Hv, Hm, Hr. cbn [negb]. fold s. assert (drain_tasks s = Some st') as -> by exact Ha. done.
Qed.

(** C18: however the body of the daemon ends, with success, with any of its
    early returns or with a failure to install the handlers, [run] returns
    with its result, the token cancelled; each of the tasks whose handle it has
    (the health server, the signal handler, the blackhole loops and the
    backend) has been awaited, as often as it was spawned; and the tasks that
    were spawned and never awaited are exactly those without a handle: the
    fan-out and the informer, the iptables resyncs and the retries of the event
    queue.  So the promise of the module, that [run] drains every spawned task,
    is kept for the former and broken for the latter.  It is assumed
    ([DaemonLaws]) that the health server, the signal handler and the blackhole
    loops end once the token is cancelled; that the body ends, and so that the
    backend does, is a hypothesis. *)
Theorem daemon_always_drains `{DaemonLaws} k st r :
  o_version opts = false -> margin_valid (o_subnet_lease_renew_margin opts) = true ->
  run_inner is_match pod_of bm fuel opts (initial k) = Some (st, r) ->
  exists st', run_daemon is_match pod_of bm fuel opts k = Some (st', inner_result r)
    /\ running_tasks (ds_trace st') ≡ₚ detached_tasks (ds_trace st')
    /\ (forall t, detached t = false -> ~ In t (running_tasks (ds_trace st')))
    /\ sm_is_cancelled (ds_world st') = true /\ In ACancel (ds_trace st').
Proof.
  intros Hv Hm Hr. destruct (run_after_inner k st r Hv Hm Hr) as (st' & Hd & Hc & He). exists st'. split; [done|].
  destruct (run_inner_recorded k st r Hr) as [Hrec _].
  destruct (drain_running opts [] _ _ Hrec Hd) as (Hrun & _ & _ & _ & Hi). cbn [app] in Hrun.
  split_and!; [exact Hrun| |exact Hc|apply Hi; by left].
  intros t Ht Hin. apply (Permutation_in _ Hrun), filter_In in Hin as [_ Hin]. congruence.
Qed.

(** C19: the daemon announces that it is ready only after it registered the
    network, set up the masquerade and forward rules that were asked for and
    wrote the subnet file; it returns 1 or an error only when the backend was
    never run, and 0 when it was.  The code tells this in one direction only:
    0 also occurs when the backend never ran, as with [--version] or when the
    token is cancelled before there is a configuration. *)
Theorem daemon_ready_ordered k st r :
  run_daemon is_match pod_of bm fuel opts k = Some (st, r) ->
  ready_ordered opts (ds_trace st)
  /\ (In (ASpawn TBackend) (ds_trace st) -> r = Ok 0)
  /\ (exit_code r = 0 \/ exit_code r = 1).
Proof.
  unfold run_daemon. destruct (o_version opts); [intros [= <- <-]; split_and!; [done|by intros []|by left]|].
  destruct (margin_valid _); cbn [negb]; [|intros [= <- <-]; split_and!; [done|by intros []|by right]].
  destruct (run_inner _ _ _ _ _ _) as [[s1 r1]|] eqn:Hr; [|done].
  destruct (drain_tasks (cancelled (retried s1))) as [s2|] eqn:Hd; [|done]. intros [= <- <-].
  pose proof (run_inner_outcome _ _ _ (initial_starting k) Hr) as Ho.
  destruct (run_inner_recorded k s1 r1 Hr) as [Hrec Hord].
  destruct (drain_running opts [] _ _ Hrec Hd) as (_ & _ & _ & Ho2 & _). split; [by apply Ho2|].
  destruct r1 as [code|e].
  - destruct Ho as (-> & _). split; [done|by left].
  - destruct Ho as ((_ & _ & _ & Hb) & He). split.
    + intros Hin. exfalso. apply Hb. apply (drain_no_spawn _ _ _ Hd) in Hin. cbn in Hin.
      destruct Hin as [?|Hin]; [done|]. by apply (retried_spawns TBackend) in Hin.
    + destruct He as [->|[->|(s & e' & ->)]]; auto.
Qed.
End RunTheorems.

(** ** An example

    A host with one interface and an API server that is not asked; a task
    other than the backend ends only with the cancellation, and the backend
    ends when the daemon is told to stop or, if [dw_breaks], by itself. *)

Record DemoWorld := mkDemoWorld { dw_cancelled : bool; dw_breaks : bool; dw_files : FileSystem }.

Definition demo_host : Host :=
  mkHost (fun v => if String.eqb v "NODE_NAME" then Some "node1" else None)
    (fun p => if String.eqb p "/etc/kube-flannel/net-conf.json" then Ok "Network=10.244.0.0/16" else Err "no such file")
    (fun _ => false).

#[local] Instance demo_system : DaemonSystem DemoWorld := {
  dk_cancel k := mkDemoWorld true (dw_breaks k) (dw_files k);
  dk_host _ := demo_host;
  dk_sync _ := [mkSyncRound true false 0 true];
  dk_signal _ := io_ret tt;
  dk_bind _ := io_ret tt;
  dk_missing _ _ := None;
  dk_files := dw_files;
  dk_notify _ _ := io_ret tt;
  dk_pause k := (k, true);
  dk_spawn _ k := k;
  dk_retries _ := 1%nat;
  dk_await t k :=
    if dw_cancelled k then Some k
    else match t with
         | TBackend => Some (mkDemoWorld (negb (dw_breaks k)) (dw_breaks k) (dw_files k))
         | _ => None
         end;
}.

Definition demo_lease : Lease := mkLease true false (mkIP4Net (IP4_from_octets 10 244 7 0) 24) IP6Net_default LeaseAttrs_default 0 0.

#[local] Instance demo_manager : SubnetManager DemoWorld := {
  sm_network_config k :=
    (k, Ok (set_backend_type "udp" (set_network (mkIP4Net (IP4_from_octets 10 244 0 0) 16) (set_enable_ipv4 true Config_default))));
  sm_acquire_lease _ := io_ret demo_lease;
  sm_stored_macs k := (k, ("", ""));
  sm_stored_public_ip k := (k, ("", ""));
  sm_handle_subnet_file path config masq sn sn6 mtu k :=
    (mkDemoWorld (dw_cancelled k) (dw_breaks k)
       (<[path := default "" (subnet_file_content true config masq sn sn6 mtu)]> (dw_files k)), Ok tt);
  sm_complete_lease _ := io_ret tt;
  sm_is_cancelled := dw_cancelled;
  sm_netlink := io_ret tt;
}.

#[local] Instance demo_netlink : NlKernel DemoWorld := {
  nl_links _ := nl_links nl_host;
  nl_link_by_index _ := nl_link_by_index nl_host;
  nl_link_by_name _ := nl_link_by_name nl_host;
  nl_addrs _ := nl_addrs nl_host;
  nl_routes _ := nl_routes nl_host;
  nl_route_get _ := nl_route_get nl_host;
  nl_addr_add _ _ _ := io_ret tt;
  nl_addr_del _ := io_ret tt;
  nl_route_add _ := io_ret tt;
}.

#[local] Instance demo_processes : IptSystem DemoWorld := {
  sys_path _ := None;
  sys_executable _ _ := false;
  sys_run _ _ _ k := (k, NotRun "no such file");
}.

#[local] Instance demo_json : KubeJson := {
  kj_frame _ := Err "";
  kj_node _ := Err "";
  kj_status _ := Err "";
  kj_status_body _ := Err "";
}.
#[local] Instance demo_yaml : KubeYaml := fun _ => Err "".
#[local] Instance demo_urls : UrlParser := fun _ => Ok "http".
#[local] Instance demo_http : HttpLib := {| hl_header _ := None; hl_cert _ := None; hl_build := None |}.
#[local] Instance demo_server : ApiServer DemoWorld := {
  api_send _ k := (k, ExFailed "");
  api_watch _ k := (k, Err "");
}.
#[local] Existing Instance line_serde.
#[local] Existing Instance PrefixRegex.

#[local] Instance demo_laws : DaemonLaws (K := DemoWorld).
Proof. split; [done|]. intros t k _ Hk. exists k. cbn in *. by rewrite Hk. Qed.

Definition demo_backends : BackendManager DemoWorld :=
  bm_register "udp" (fun _ => Ok (fun _ => io_ret (NetUdp (mkUdpNetwork demo_lease 8285 (mkIP4Net (IP4_from_octets 10 244 7 0) 16) 1472 3 4 5 (Some 6))))) BackendManager_new.

(** [--kube-subnet-mgr --kube-api-url=http://10.0.0.1 --iface=eth0 --healthz-port=8080] *)
Definition demo_args : list string :=
  ["--kube-subnet-mgr"; "--kube-api-url=http://10.0.0.1"; "--iface=eth0"; "--healthz-port=8080"].

Definition demo_opts : option Options :=
  match main_front demo_args (fun _ => None) with FrontRun opts _ => Some opts | _ => None end.

Definition demo_run (breaks : bool) : option (option (DaemonState DemoWorld * result Z DaemonError)) :=
  option_map (fun opts => run_daemon (fun _ => true) (fun _ => Err "") demo_backends 1 opts (mkDemoWorld false breaks ∅)) demo_opts.

#[local] Abbreviation demo := (run_daemon (fun _ => true) (fun _ => Err "") demo_backends 1).
#[local] Abbreviation demo_world := (mkDemoWorld false false ∅).

Lemma daemon_always_drains_witness :
  exists opts st', demo_opts = Some opts /\ demo opts demo_world = Some (st', Ok 0)
    /\ running_tasks (ds_trace st') ≡ₚ detached_tasks (ds_trace st') /\ dw_cancelled (ds_world st') = true.
Proof.
  destruct demo_opts as [opts|] eqn:Ho; [|by vm_compute in Ho]. exists opts.
  assert (option_map (fun o => (o_version o, margin_valid (o_subnet_lease_renew_margin o),
            option_map snd (run_inner (fun _ => true) (fun _ => Err "") demo_backends 1 o (initial demo_world)))) demo_opts
          = Some (false, true, Some (Ok 0))) as Hr by (vm_compute; reflexivity).
  rewrite Ho in Hr. cbn [option_map] in Hr. injection Hr as Hv Hm Hr.
  destruct (run_inner _ _ _ _ opts _) as [[st r]|] eqn:Hi; [|done]. cbn in Hr. injection Hr as ->.
  destruct (daemon_always_drains (fun _ => true) (fun _ => Err "") demo_backends 1 opts demo_world st (Ok 0) Hv Hm Hi)
    as (st' & Hd & Hrun & _ & Hc & _).
  exact (ex_intro _ st' (conj eq_refl (conj Hd (conj Hrun Hc)))).
Defined.

Lemma daemon_ready_ordered_witness :
  exists opts st r, demo_opts = Some opts /\ demo opts demo_world = Some (st, r)
    /\ In AReady (ds_trace st) /\ ready_ordered opts (ds_trace st) /\ r = Ok 0.
Proof.
  destruct demo_opts as [opts|] eqn:Ho; [|by vm_compute in Ho].
  assert (option_map (fun o => option_map (fun out => (bool_decide (AReady ∈ ds_trace out.1), bool_decide (ASpawn TBackend ∈ ds_trace out.1)))
            (demo o demo_world)) demo_opts = Some (Some (true, true))) as Hr by (vm_compute; reflexivity).
  rewrite Ho in Hr. cbn [option_map] in Hr. destruct (demo opts demo_world) as [[st r]|] eqn:Hd; [|done].
  cbn [option_map fst] in Hr. injection Hr as Hready Hspawn. apply bool_decide_eq_true, list_elem_of_In in Hready, Hspawn.
  destruct (daemon_ready_ordered (fun _ => true) (fun _ => Err "") demo_backends 1 opts demo_world st r Hd) as (Hord & Hz & _).
  exact (ex_intro _ opts (ex_intro _ st (ex_intro _ r (conj eq_refl (conj Hd (conj Hready (conj Hord (Hz Hspawn)))))))).
Defined.

(** When the backend ends without a cancellation, the daemon does not end: it
    goes on to wait for the health server and the signal handler, which only
    end with the cancellation, and keeps answering that it is ready. *)
Theorem backend_end_hangs : demo_run true = Some None.
Proof. by vm_compute. Qed.

(** When [run] has returned, after a run without a fault, the informer, the
    fan-out and a retry of the event queue were never awaited. *)
Theorem daemon_leaves_tasks :
  option_map (option_map (fun out => (running_tasks (ds_trace out.1), out.2))) (demo_run false)
  = Some (Some ([TRetry; TInformer; TFanOut], Ok 0)).
Proof. by vm_compute. Qed.
